(* ===== verification/_CoqProject ===== *)
-Q . S2P
Prelude.v
Wire.v
Checksum.v
Mempool.v
Ringbuffer.v
Packet.v
TcpSegment.v
LinkedList.v
TcpHistory.v
SendBuffer.v
TcpReceiveBuffer.v
TcpSocket.v
TcpConnection.v
TcpGuarantees.v
TcpCongestion.v
Addresses.v
Ipv4.v
Iphc.v
Headers.v
Ipv6.v
HeaderBits.v
NdpCache.v
MulticastGroups.v
Text.v
Decimal.v
Json.v
FeatureFiles.v
Demux.v
Udp.v
Management.v
Arp.v
Send4.v
Icmp.v
Transport4.v
TcpDemux.v
Send6.v
DestCache.v
Icmp6.v
DelaySend.v
Transport6.v
