(* ===== verification/Prelude.v ===== *)
(** * A verified model of the aspect-oriented IP stack

    The repository is an IP stack for small systems, written in AspectC++:
    classes hold the core of each protocol ([src/libipstack/src], .h and .cpp) and
    aspects (.ah) weave in everything optional: slices add members and member
    functions to a class, advice runs before, after or around a function.  A
    build program selects the aspects a configuration asks for
    ([src/libipstack/buildsystem]).  This library models the classes together with
    the advice that is woven into them, function by function, and proves what
    they guarantee and, where the code does not do what it means to, what it
    does instead.  File names below are relative to [src/libipstack/src].

    ** How the parts work together

    A device driver hands a received frame to [Demux::demux].  The link layer
    looks at the type of the frame and calls the ARP cache or the IP layer; the IP
    layer checks the header, puts fragments together, and calls the protocol; the
    protocol checks its sums and finds the socket in the demultiplexer's lists,
    whose receive queue is a ring buffer between the interrupt and the
    application.  ICMP, TCP resets and neighbor discovery answer at once, from
    memory they share.  Sending goes the other way: a socket requests a buffer
    from its pool, the advice of every layer writes its header into it (the link
    layer address comes from the ARP or neighbor cache), the application fills it,
    and sending computes the checksums.  A TCP socket keeps what it sent in a
    history until it is acknowledged, and what it received in a receive buffer
    until the application takes it; a state machine of eleven states decides what
    a segment does.

    ** Conventions

    Integers are [Z] with their wrap-around written out ([u8], [u16], [u32], [u64],
    [wrap]); memory is a list of byte values; a packet is the memory it
    occupies, and a header class is a layout of fields over it ([Packet]).  A pointer
    is an offset, an index or an address, as the comment of the type says.  [None]
    is what the code must not do: use the null pointer, read or write outside of
    an array, or fail an assertion.  Where a loop is not structural a further
    [option] (or [loop], below) tells that the fuel was used up, and a theorem says
    which fuel is enough.  Both byte orders are modelled ([Wire.endian]); a theorem
    that holds on one kind of host only says so.  What lies outside of the
    repository (the clock, the driver, the operating system, the file system) is
    a class or a parameter: [TcpHistory.Clock], [Arp.System], [Send4.Device],
    [Send6.System6], [TcpSocket.Lower], [FeatureFiles]' files.  Interfaces inside of the stack are
    classes too, with their laws: [Mempool.Allocator] (the pools, for the management
    memory), [TcpHistory.History] and [TcpReceiveBuffer.ReceiveBuffer] (the plain and the
    sliding-window variant of each, for the socket), [TcpDemux.Peer] (the side of a TCP
    socket that IPv4 or IPv6 keeps).

    ** The files

    - [Prelude] (this file): widths, record update, bounded loops, list lemmas.
    - [Wire]: [Little_Endian.ah]; woven accessors agree on both kinds of host.
    - [Packet]: header fields in memory; a setter changes its field only.
    - [Checksum]: [ip/InternetChecksum.h], the pseudo headers, [IPv4_Packet::cksum]:
      equal to the one's complement sum; what is sent is accepted; a changed byte
      is not.
    - [Mempool]: [util/Mempool.h]; chunks are disjoint, none is lost.
    - [Ringbuffer]: [util/Ringbuffer.h]; refines a bounded queue, also with
      producer and consumer interleaved at every memory access.
    - [LinkedList]: lists threaded through arrays, shared by three components.
    - [TcpSegment]: [tcp/TCP.h], the MSS option, [tcp/Management_TCP_Socket.cpp].
    - [TcpHistory]: [tcp/tcp_history]; refines a list of packets.
    - [SendBuffer]: [SendBuffer.h], the layout of [ReceiveBuffer.h].
    - [TcpReceiveBuffer]: [tcp/tcp_receivebuffer]; refines the received prefix of
      the peer's stream whatever the order of arrival.
    - [TcpSocket]: [tcp/TCP_Socket.h/.cpp] and [tcp/statemachine/*.ah] as programs of
      a state monad; [TcpConnection]: a logic for them and the invariant of a
      connection; [TcpGuarantees]: the theorems (transitions of RFC 793, delivery
      of the stream, windows, acknowledgements, retransmission).
    - [TcpCongestion]: [tcp/congestion_avoidance], [rtt_estimation], [sws] and
      [retransmissionTracker]: the socket again with these aspects woven; what is in
      flight stays within the congestion window.
    - [Addresses]: [ipv6/IPv6AddressUtilities.cpp], [ethernet/EthernetAddressUtilities.cpp].
    - [Ipv4]: [ipv4/IPv4.h], [ipv4/IPv4_Receive.ah], fragment reassembly (whose packet
      the protocols never see), routes and [ipv4/IPv4onSockets.cpp]; a sent packet is
      accepted where it is addressed to.
    - [Iphc]: [6lowpan/IPv6iphc.cpp], the compressed header.
    - [Headers]: the classes of UDP, ICMP, ICMPv6, Ethernet, ARP, neighbor discovery
      and multicast listener discovery; [HeaderBits]: the accessors of the headers read
      and write the bits the diagrams of the RFCs give their members, and no others.
    - [Ipv6]: [ipv6/IPv6.h], address memory, interfaces, routes, reception and
      extension headers.
    - [NdpCache]: [ipv6/ndpcache], [ndpcache_expire], [address_prefix_expire]: the
      neighbor cache refines a finite map; entries and addresses last as long as
      their age and lifetime say.
    - [MulticastGroups]: [ipv6/ipv6_multicast_receive], [icmpv6/mld]: the groups an interface
      accepts, what it does when it goes up or down.
    - [Text], [Decimal], [Json]: strings and maps, doubles as text, and [picojson.h], the
      JSON library of the build program: its parser ends on every text and reads
      back what the serializer writes.
    - [FeatureFiles]: the build program: [parsekconfig.h], [determine_files.cpp], [main.cpp].
    - [Demux]: [demux/DemuxLinkedListContainer.h], [udp/Demux_UDP_Slice.ah],
      [tcp/Demux_TCP_Slice.ah]: binding, unbinding, free ports.
    - [Udp]: [udp/UDP_Socket.cpp], receive buffers, the way of a datagram to its socket.
    - [Management]: [ip_management_memory]: blocks are tracked and freed once sent.
    - [Arp]: [arp]: the cache refines a finite map, two hosts resolve each other's
      address, a lookup ends.
    - [Send4]: [Socket_Send_Slice.ah] with the advice of Ethernet, IPv4 and ARP;
      [Icmp]: [icmpv4]: an echo request is answered with a packet its sender accepts.
    - [Transport4]: [ipv4/udp], [udp/SendBuffer_UDP.ah]: a datagram sent over IPv4 reaches
      the socket bound to its port.
    - [TcpDemux]: [ipv4/tcp]: the way of a segment to its connection, to a listening
      socket or to the reset, which its sender accepts; queues and lists are stated
      for any layer below ([Peer]).
    - [Send6]: the same sending path with the advice of IPv6 and the neighbor cache,
      which may have to ask for the neighbor first; [DestCache]: [ipv6/destcache] and
      [icmpv6/ndp_redirect]: next hops kept for sockets refine a finite map.
    - [Icmp6]: [icmpv6] with the handlers of neighbor and router discovery: two hosts find
      each other's address, an echo request is answered.
    - [DelaySend]: [icmpv6/delay_send]: over [Management] and [Send6], what is sent while a
      message is processed leaves when it is done, each message once.
    - [Transport6]: [ipv6/udp], [ipv6/tcp]: datagrams and segments within the walk over the
      headers of a packet, from socket to socket, and the reset of a segment.

    State corresponds to the code member by member: a class is a record with the
    same field names, a slice adds fields, a global object is part of the state
    passed along; a member function is the definition of the same name, with its
    early returns in the order of the code.  Advice is applied where the aspects'
    order declarations put it; where they leave the order open it is a parameter (of
    [Transport6]) or the comment says which was chosen and what depends on it.

    ** Bounds and fuel

    [accumulateCarryBits] needs at most four rounds for 32 bits ([accumulate_terminates]).
    The loops over lists of sockets, records or segments need one round more than
    the list has nodes; the free port search one per node and port tried.  The
    options of a TCP header need one round per option and one more, those of
    neighbor discovery one per eight bytes ([option_fuel]).  The parser of JSON needs one level
    of recursion and one round of a loop more than characters ([parse_ends]).  The walk over IPv6 headers needs one round
    more than bytes left ([ipv6_walk_ends]).  Waiting for an ARP reply needs
    [wait_fuel] readings of a clock that ticks at least every [readings] readings.
    A lookup in the neighbor cache may send a solicitation whose sending looks up
    a neighbor again: it never nests more than once ([lookup_nests_once]).
    Sending needs a round per byte and one for the probe.  The family model needs
    as much fuel as it is deep.  Loops of the code that do not end have theorems
    that no fuel is enough ([get_option_mss_zero_length_hangs],
    [hop_by_hop_own_header_hangs], [prefix_option_hangs], [tcp_bind_never_binds]).

    ** Not modelled

    - The UDP echo service: it writes through a pointer nobody has set, so that
      what it does is not defined.
    - The packets that are sent when an entry of the neighbor cache is about to expire
      are a parameter of its aging.
    - The report of packets that are too big: its advice matches no function.  Nor does
      the advice for the extension headers of IPv6; that of the hop-by-hop header is
      modelled as the others are written after it.  Nor does the advice that is to keep
      addresses with no preferred lifetime left from being routes.
    - The loop of [listen] around the state machine of a TCP socket; what it does with
      the segment it waits for is modelled ([TcpDemux.bind_connection]).
    - The hooks that call the compressed header of [Iphc].
    - Checksum offloading, debugging aspects, the interface for programs without
      aspects, the operating systems' glue and the example programs: they print, or
      only delegate to code outside of the repository, or use the stack.
    - Direct responses ([demux/DirectResponse*.ah]): the advice that would use them
      matches no function any more.
    - Interrupts: producer and consumer of the ring buffer interleave freely; the
      lookups of ARP and of the neighbor cache are interrupted while they read the
      clock; elsewhere a handler runs to its end.
    - The object layout the C++ compiler chooses is a parameter, time is what the
      clock answers.

    ** This file

    Fixed-width unsigned and signed integers as [Z] with explicit
    wrap-around, memory as lists of byte values, record update, the
    development's tactics and hint databases, and the list lemmas that
    several components use. *)

From Stdlib Require Export ZArith Lia.
From stdpp Require Export base numbers option list relations.

Open Scope Z_scope.

(** ** Fixed-width integers *)

(** [wrap w z] is the value of [z] converted to a [w]-bit unsigned type. *)
Definition wrap (w z : Z) : Z := z mod 2 ^ w.

Definition u8 (z : Z) : Z := z mod 256.
Definition u16 (z : Z) : Z := z mod 65536.
Definition u32 (z : Z) : Z := z mod 4294967296.
Definition u64 (z : Z) : Z := z mod 18446744073709551616.

(** Conversion of a 32-bit pattern to [int32_t] (two's complement). *)
Definition s32 (z : Z) : Z :=
  let r := u32 z in if r <? 2147483648 then r else r - 4294967296.

(** One's complement [~x] of a [uint16_t] converted back to [uint16_t]. *)
Definition not16 (x : Z) : Z := u16 (Z.lnot x).

Definition is_u8 (z : Z) : Prop := 0 <= z < 256.
Definition is_u16 (z : Z) : Prop := 0 <= z < 65536.
Definition is_u32 (z : Z) : Prop := 0 <= z < 4294967296.

(** Memory: a list of byte values. *)
Abbreviation bytes := (list Z).
Definition is_bytes (l : bytes) : Prop := Forall is_u8 l.

(** ** Tactics *)

(** Linear arithmetic with quotients and remainders by constants. *)
Ltac zlia := unfold is_u8, is_u16, is_u32, u8, u16, u32, u64 in *;
  Z.div_mod_to_equations; lia.

(** Split the conjunctions of the context and the goal. *)
Ltac split_ands :=
  repeat match goal with
         | H : _ ∧ _ |- _ => destruct H
         | |- _ ∧ _ => split
         end.

(** Equality of explicit lists, element by element. *)
Ltac cons_eq := repeat (apply (f_equal2 (@cons _))); try reflexivity.

(** Case analysis on every boolean comparison in sight, with its meaning. *)
Ltac zcases :=
  repeat match goal with
         | |- context [Z.ltb ?a ?b] => destruct (Z.ltb_spec a b)
         | |- context [Z.leb ?a ?b] => destruct (Z.leb_spec a b)
         | |- context [Z.eqb ?a ?b] => destruct (Z.eqb_spec a b)
         | H : context [Z.ltb ?a ?b] |- _ => destruct (Z.ltb_spec a b)
         | H : context [Z.leb ?a ?b] |- _ => destruct (Z.leb_spec a b)
         | H : context [Z.eqb ?a ?b] |- _ => destruct (Z.eqb_spec a b)
         end.

(** A list of known length is the list of its elements. *)
Ltac unfold_list H :=
  match type of H with
  | length ?p = S _ => let x := fresh "x" in destruct p as [|x p]; [done|injection H as H]; unfold_list H
  | length ?p = O => destruct p; [clear H|done]
  end.

(** ** Record update

    [r <| f := v |>] replaces the field [f] of [r].  A record type opts in
    with an instance of [Settable] giving its eta expansion. *)

Class Settable (R : Type) := eta_record : R -> R.

Class Setter {R T : Type} (proj : R -> T) := set_field : (T -> T) -> R -> R.
Arguments set_field {R T} proj {_} f r.

Ltac solve_setter :=
  lazymatch goal with
  | |- @Setter ?R ?T ?proj =>
      let f := fresh "f" in
      let r := fresh "r" in
      intros f r;
      let e := constr:(eta_record (R:=R) r) in
      let e := eval hnf in e in
      let g := eval pattern (proj r) in e in
      lazymatch g with
      | ?h (proj r) => let res := eval cbv beta in (h (f (proj r))) in exact res
      end
  end.

#[export] Hint Extern 1 (Setter _) => solve_setter : typeclass_instances.

Notation "r <| f := v |>" := (set_field f (λ _, v) r)
  (at level 1, left associativity, f constr at level 0, format "r  <| f  :=  v |>").

(** Unfold record updates down to the fields they touch. *)
Ltac simpl_set := cbv [set_field]; simpl.

(** ** Bounded loops

    [loop fuel step s] runs [step] until it answers [inr]; [None] says that
    the fuel ran out first. *)

Section Loop.
Context {S R : Type}.
Fixpoint loop (fuel : nat) (step : S -> S + R) (s : S) : option R :=
  match fuel with
  | O => None
  | Datatypes.S n => match step s with inl s' => loop n step s' | inr r => Some r end
  end.

(** More fuel never changes an answer. *)
Lemma loop_mono step n m s r :
  loop n step s = Some r -> (n <= m)%nat -> loop m step s = Some r.
Proof.
  revert m s. induction n as [|n IH]; intros m s H Hle; [done|].
  destruct m as [|m]; [lia|]. simpl in *.
  destruct (step s); [apply IH; [done|lia]|done].
Qed.

(** A natural measure that every continuing step lowers bounds the number
    of rounds, and [I] is kept until the loop answers. *)
Lemma loop_measure (I : S -> Prop) (P : R -> Prop) (mu : S -> nat) step :
  (forall s s', I s -> step s = inl s' -> I s' ∧ (mu s' < mu s)%nat) ->
  (forall s r, I s -> step s = inr r -> P r) ->
  forall fuel s, I s -> (mu s < fuel)%nat -> exists r, loop fuel step s = Some r ∧ P r.
Proof.
  intros Hs Hr. induction fuel as [|n IH]; intros s HI Hf; [lia|]. simpl.
  destruct (step s) as [s'|r] eqn:E.
  - destruct (Hs s s' HI E) as [HI' Hlt]. apply IH; [done|lia].
  - exists r. split; [done|]. eapply Hr; eauto.
Qed.
End Loop.

(** ** Hint databases *)

Create HintDb width discriminated.
Create Rewrite HintDb width_rw.

(** ** Bit operations *)

Lemma mask_mod (a k : Z) : 0 <= k -> Z.land a (Z.ones k) = a mod 2 ^ k.
Proof. apply Z.land_ones. Qed.

Lemma land_ff (a : Z) : Z.land a 0xFF = a mod 256.
Proof. exact (Z.land_ones a 8 ltac:(lia)). Qed.

Lemma land_ffff (a : Z) : Z.land a 0xFFFF = a mod 65536.
Proof. exact (Z.land_ones a 16 ltac:(lia)). Qed.

Lemma shiftr_div (a k : Z) : 0 <= k -> Z.shiftr a k = a / 2 ^ k.
Proof. apply Z.shiftr_div_pow2. Qed.

Lemma shiftl_mul (a k : Z) : 0 <= k -> Z.shiftl a k = a * 2 ^ k.
Proof. apply Z.shiftl_mul_pow2. Qed.

(** A mask shifted to bit [k] selects the field that starts at bit [k]. *)
Lemma land_shiftl_mask (a m k : Z) :
  0 <= k -> Z.land a (Z.shiftl m k) = Z.shiftl (Z.land (Z.shiftr a k) m) k.
Proof.
  intros Hk. apply Z.bits_inj'. intros n Hn. rewrite Z.land_spec.
  destruct (Z.lt_ge_cases n k).
  - by rewrite !Z.shiftl_spec_low, andb_false_r by lia.
  - rewrite !Z.shiftl_spec, Z.land_spec, Z.shiftr_spec by lia. do 2 f_equal. lia.
Qed.

(** The byte of [a] that starts at bit [k], in place. *)
Lemma land_byte (a k : Z) :
  0 <= k -> Z.land a (Z.shiftl 0xff k) = Z.shiftl ((a / 2 ^ k) mod 256) k.
Proof. intros. by rewrite land_shiftl_mask, land_ff, shiftr_div. Qed.

(** Disjoint bit fields: or is addition. *)
Lemma lor_shiftl_add (a b k : Z) :
  0 <= k -> 0 <= b < 2 ^ k -> Z.lor (Z.shiftl a k) b = a * 2 ^ k + b.
Proof.
  intros Hk Hb. rewrite <- shiftl_mul by done. symmetry.
  assert (Hd : Z.land (Z.shiftl a k) b = 0).
  { apply Z.bits_inj'. intros n Hn. rewrite Z.land_spec, Z.bits_0.
    destruct (Z.lt_ge_cases n k).
    - by rewrite Z.shiftl_spec_low.
    - rewrite <- (Z.mod_small b (2 ^ k)), Z.mod_pow2_bits_high by lia.
      apply andb_false_r. }
  by rewrite Z.add_nocarry_lxor, Z.lxor_lor.
Qed.

Lemma lnot_sub (x : Z) : Z.lnot x = - x - 1.
Proof. unfold Z.lnot. lia. Qed.

Lemma not16_sub (x : Z) : is_u16 x -> not16 x = 65535 - x.
Proof. intros H. unfold not16. rewrite lnot_sub. zlia. Qed.

Lemma u8_range z : is_u8 (u8 z). Proof. zlia. Qed.
Lemma u16_range z : is_u16 (u16 z). Proof. zlia. Qed.
Lemma u32_range z : is_u32 (u32 z). Proof. zlia. Qed.
Lemma u8_id z : is_u8 z -> u8 z = z. Proof. zlia. Qed.
Lemma u16_id z : is_u16 z -> u16 z = z. Proof. zlia. Qed.
Lemma u32_id z : is_u32 z -> u32 z = z. Proof. zlia. Qed.
Lemma u32_add_l a b : u32 (u32 a + b) = u32 (a + b).
Proof. unfold u32. apply Zplus_mod_idemp_l. Qed.
#[export] Hint Resolve u8_range u16_range u32_range : width.
#[export] Hint Rewrite land_ff land_ffff : width_rw.
#[export] Hint Rewrite shiftr_div shiftl_mul using lia : width_rw.
#[export] Hint Rewrite u8_id u16_id u32_id using assumption : width_rw.

(** Side conditions on widths and lengths. *)
Ltac side := first [assumption | solve [auto with width] | lia | solve [zlia] | done].

(** ** Lists *)

(** [is_bytes] of an explicit list. *)
Ltac solve_bytes :=
  unfold is_bytes;
  repeat first [apply Forall_nil_2 | apply Forall_cons_2 | apply Forall_app_2];
  auto with width.

Lemma is_bytes_app l k : is_bytes (l ++ k) <-> is_bytes l ∧ is_bytes k.
Proof. apply Forall_app. Qed.

Lemma is_bytes_cons b l : is_bytes (b :: l) <-> is_u8 b ∧ is_bytes l.
Proof. unfold is_bytes. apply Forall_cons_iff. Qed.

Lemma is_bytes_nil : is_bytes [].
Proof. apply Forall_nil_2. Qed.

(** Take [is_bytes] of explicit lists in the context apart. *)
Ltac inv_bytes :=
  repeat match goal with
         | H : is_bytes (_ :: _) |- _ =>
             let Hb := fresh "Hb" in apply is_bytes_cons in H; destruct H as [Hb H]
         | H : is_bytes (_ ++ _) |- _ => apply is_bytes_app in H; destruct H as [? H]
         end.

Lemma is_bytes_lookup l i x : is_bytes l -> l !! i = Some x -> is_u8 x.
Proof. apply Forall_lookup_1. Qed.

Lemma is_bytes_take n l : is_bytes l -> is_bytes (take n l).
Proof. apply Forall_take. Qed.

Lemma is_bytes_drop n l : is_bytes l -> is_bytes (drop n l).
Proof. apply Forall_drop. Qed.

(** An element is changed in its place. *)
Lemma alter_insert {A} (f : A -> A) k x (l : list A) : l !! k = Some x -> alter f k l = <[k := f x]> l.
Proof.
  intros H. apply list_eq. intros j. destruct (decide (j = k)) as [->|Hne].
  - rewrite list_lookup_alter_eq, list_lookup_insert_eq by (by eapply lookup_lt_Some). by rewrite H.
  - by rewrite list_lookup_alter_ne, list_lookup_insert_ne.
Qed.

Lemma is_bytes_insert i x l : is_bytes l -> is_u8 x -> is_bytes (<[i:=x]> l).
Proof. intros. by apply Forall_insert. Qed.
#[export] Hint Resolve is_bytes_take is_bytes_drop is_bytes_insert : width.

(** A list one longer than [n] is its first [n] elements and its last. *)
Lemma take_lookup_last {A} n (l : list A) x :
  length l = S n -> l !! n = Some x -> l = take n l ++ [x].
Proof.
  intros Hl Hx. rewrite <- (take_drop n l) at 1. f_equal.
  rewrite (drop_S l x n) by done. by rewrite drop_ge by lia.
Qed.
