(* ===== verification/Wire.v ===== *)
(** * Wire: byte order and memory access

    Models the byte order of the host and the accessors every packet header
    uses: multi-byte loads and stores of the host ([load16], [load32],
    [store16], [store32]) and the [Little_Endian] aspect of
    [libipstack/src/Little_Endian.ah], which is woven around the header
    getters and setters on little-endian hosts and converts between host and
    network order.  The main result is that a woven getter reads, on either
    kind of host, the network-order value of the bytes in memory, and that a
    woven setter writes it: this is what lets the packet components represent
    a header field by its value and lay it out most significant byte first. *)

From S2P Require Import Prelude.

(** Byte order of the host. *)
Inductive endian := LE | BE.
#[export] Instance endian_eq_dec : EqDecision endian.
Proof. solve_decision. Defined.

(** ** Host loads and stores *)

Definition load16 (e : endian) (b0 b1 : Z) : Z :=
  match e with LE => b0 + b1 * 256 | BE => b0 * 256 + b1 end.

Definition load32 (e : endian) (b0 b1 b2 b3 : Z) : Z :=
  match e with
  | LE => b0 + b1 * 256 + b2 * 65536 + b3 * 16777216
  | BE => b0 * 16777216 + b1 * 65536 + b2 * 256 + b3
  end.

(** Network order (most significant byte first) of a value. *)
Definition be16 (v : Z) : bytes := [u8 (v / 256); u8 v].
Definition be32 (v : Z) : bytes :=
  [u8 (v / 16777216); u8 (v / 65536); u8 (v / 256); u8 v].

Definition store16 (e : endian) (v : Z) : bytes :=
  match e with LE => rev (be16 v) | BE => be16 v end.
Definition store32 (e : endian) (v : Z) : bytes :=
  match e with LE => rev (be32 v) | BE => be32 v end.

(** The value of two or four bytes in network order. *)
Definition of_be16 (b0 b1 : Z) : Z := b0 * 256 + b1.
Definition of_be32 (b0 b1 b2 b3 : Z) : Z :=
  b0 * 16777216 + b1 * 65536 + b2 * 256 + b3.

(** ** The [Little_Endian] aspect *)

Module LittleEndian.

Definition htons_ (n : Z) : Z :=
  u16 (Z.lor (Z.shiftl (Z.land n 0xff) 8) (Z.shiftr (Z.land n 0xff00) 8)).

Definition ntohs_ (n : Z) : Z := htons_ n.

Definition htonl_ (n : Z) : Z :=
  u32 (Z.lor (Z.shiftl (Z.land n 0xff) 24)
      (Z.lor (Z.shiftl (Z.land n 0xff00) 8)
      (Z.lor (Z.shiftr (Z.land n 0xff0000) 8)
             (Z.shiftr (Z.land n 0xff000000) 24)))).

Definition ntohl_ (n : Z) : Z := htonl_ n.

(** The advice is part of the build exactly on little-endian hosts. *)
Definition Network_to_Host_Short (e : endian) (res : Z) : Z :=
  match e with LE => ntohs_ res | BE => res end.
Definition Host_to_Network_Short (e : endian) (val : Z) : Z :=
  match e with LE => htons_ val | BE => val end.
Definition Network_to_Host_Long (e : endian) (res : Z) : Z :=
  match e with LE => ntohl_ res | BE => res end.
Definition Host_to_Network_Long (e : endian) (val : Z) : Z :=
  match e with LE => htonl_ val | BE => val end.

Lemma htons_value n : htons_ n = (n mod 256) * 256 + (n / 256) mod 256.
Proof.
  unfold htons_. change 0xff00 with (Z.shiftl 0xff 8).
  rewrite land_byte, land_ff, Z.shiftr_shiftl_l, Z.sub_diag, Z.shiftl_0_r by lia.
  rewrite lor_shiftl_add by zlia. apply u16_id. zlia.
Qed.

Lemma htonl_value n :
  htonl_ n = (n mod 256) * 16777216 + ((n / 256) mod 256) * 65536
             + ((n / 65536) mod 256) * 256 + (n / 16777216) mod 256.
Proof.
  unfold htonl_. change 0xff00 with (Z.shiftl 0xff 8).
  change 0xff0000 with (Z.shiftl 0xff 16). change 0xff000000 with (Z.shiftl 0xff 24).
  rewrite !land_byte, land_ff, !Z.shiftr_shiftl_l, Z.shiftl_shiftl by lia.
  change (2 ^ 8) with 256. change (2 ^ 16) with 65536. change (2 ^ 24) with 16777216.
  rewrite Z.sub_diag, Z.shiftl_0_r. change (16 - 8) with 8. change (8 + 8) with 16.
  rewrite (lor_shiftl_add _ _ 8), (lor_shiftl_add _ _ 16), (lor_shiftl_add _ _ 24) by zlia.
  rewrite u32_id by zlia. zlia.
Qed.

(** A woven getter of a 16-bit field reads network order on every host. *)
Lemma get16_network e b0 b1 :
  is_u8 b0 -> is_u8 b1 -> Network_to_Host_Short e (load16 e b0 b1) = of_be16 b0 b1.
Proof.
  intros H0 H1. destruct e; [|done]. cbn. unfold ntohs_, of_be16.
  rewrite htons_value. zlia.
Qed.

Lemma get32_network e b0 b1 b2 b3 :
  is_u8 b0 -> is_u8 b1 -> is_u8 b2 -> is_u8 b3 ->
  Network_to_Host_Long e (load32 e b0 b1 b2 b3) = of_be32 b0 b1 b2 b3.
Proof.
  intros H0 H1 H2 H3. destruct e; [|done]. cbn. unfold ntohl_, of_be32.
  rewrite htonl_value. zlia.
Qed.

(** A woven setter writes network order on every host. *)
Lemma set16_network e v :
  is_u16 v -> store16 e (Host_to_Network_Short e v) = be16 v.
Proof.
  intros H. destruct e; [|done]. cbn. rewrite htons_value. unfold be16.
  cons_eq; zlia.
Qed.

Lemma set32_network e v :
  is_u32 v -> store32 e (Host_to_Network_Long e v) = be32 v.
Proof.
  intros H. destruct e; [|done]. cbn. rewrite htonl_value. unfold be32.
  cons_eq; zlia.
Qed.

End LittleEndian.

(** ** Network-order round trips *)

Lemma of_be16_be16 v : is_u16 v -> of_be16 (u8 (v / 256)) (u8 v) = v.
Proof. unfold of_be16. zlia. Qed.

Lemma of_be32_be32 v :
  is_u32 v ->
  of_be32 (u8 (v / 16777216)) (u8 (v / 65536)) (u8 (v / 256)) (u8 v) = v.
Proof. unfold of_be32. zlia. Qed.

Lemma be16_of_be16 b0 b1 : is_u8 b0 -> is_u8 b1 -> be16 (of_be16 b0 b1) = [b0; b1].
Proof. intros. unfold be16, of_be16. cons_eq; zlia. Qed.

Lemma be32_of_be32 b0 b1 b2 b3 :
  is_u8 b0 -> is_u8 b1 -> is_u8 b2 -> is_u8 b3 ->
  be32 (of_be32 b0 b1 b2 b3) = [b0; b1; b2; b3].
Proof. intros. unfold be32, of_be32. cons_eq; zlia. Qed.

Lemma of_be16_range b0 b1 : is_u8 b0 -> is_u8 b1 -> is_u16 (of_be16 b0 b1).
Proof. unfold of_be16. zlia. Qed.

Lemma of_be32_range b0 b1 b2 b3 :
  is_u8 b0 -> is_u8 b1 -> is_u8 b2 -> is_u8 b3 -> is_u32 (of_be32 b0 b1 b2 b3).
Proof. unfold of_be32. zlia. Qed.

Lemma be16_bytes v : is_bytes (be16 v).
Proof. solve_bytes. Qed.

Lemma be32_bytes v : is_bytes (be32 v).
Proof. solve_bytes. Qed.

#[export] Hint Resolve of_be16_range of_be32_range be16_bytes be32_bytes : width.
#[export] Hint Rewrite of_be16_be16 of_be32_be32 using assumption : width_rw.
