(* ===== verification/Checksum.v ===== *)
(** * Checksum: the Internet checksum

    Models [ip/InternetChecksum.h] (payload sums, carry folding), the
    [calc_checksum]/[checksum_valid] pair shared by the TCP, UDP, ICMP and
    ICMPv6 headers, the pseudo headers of [ipv4/InternetChecksum.h] and
    [ipv6/InternetChecksum.h] and the header checksum [cksum] of
    [ipv4/IPv4.h].  The memory a sum runs over is a list of bytes; a read
    past its end answers [None]. *)

From S2P Require Import Prelude Wire.

(** ** Reference: the one's complement sum of RFC 1071 *)

(** Sum of the network-order 16-bit words, an odd last byte padded with 0. *)
Fixpoint words_sum (l : bytes) : Z :=
  match l with
  | b0 :: b1 :: r => of_be16 b0 b1 + words_sum r
  | [b] => b * 256
  | [] => 0
  end.

(** The 16-bit one's complement residue of a sum: 0 only for 0. *)
Definition fold16 (s : Z) : Z := if s =? 0 then 0 else 1 + (s - 1) mod 65535.

Module InternetChecksum.

Definition byteswap16 (val : Z) : Z :=
  u16 (Z.lor (Z.shiftl (Z.land val 0xFF) 8) (Z.shiftr (Z.land val 0xFF00) 8)).

Definition invert (csum : Z) : Z := not16 csum.

(** One test and body of [while (csum >> 16)]. *)
Definition accumulate_step (csum : Z) : Z + Z :=
  if Z.shiftr csum 16 =? 0 then inr (u16 csum)
  else inl (u32 (Z.land csum 0xFFFF + Z.shiftr csum 16)).

(** Four rounds are enough for every 32-bit sum ([accumulate_terminates]). *)
Definition accumulate_loop (csum : Z) : option Z := loop 4 accumulate_step csum.
Definition accumulateCarryBits (csum : Z) : Z := default 0 (accumulate_loop csum).

(** The loop over [uint16_t* payload], [n] words from the pointer on. *)
Fixpoint sum_words (e : endian) (payload : bytes) (n : nat) (csum : Z) {struct n} : option Z :=
  match n with
  | O => Some csum
  | S n' =>
      match payload with
      | b0 :: b1 :: rest => sum_words e rest n' (u32 (csum + byteswap16 (load16 e b0 b1)))
      | _ => None
      end
  end.

Definition computePayload (e : endian) (payloaddata : bytes) (payloadlen : Z) : option Z :=
  csum ← (if Z.land payloadlen 0x1 =? 0 then Some 0
          else odd ← payloaddata !! Z.to_nat (payloadlen - 1);
               Some (u32 (Z.shiftl (Z.land odd 0xFF) 8)));
  sum_words e payloaddata (Z.to_nat (payloadlen / 2)) csum.

Definition computePayloadChecksum (e : endian) (payloaddata : bytes) (payloadlen : Z) : option Z :=
  csum ← computePayload e payloaddata payloadlen;
  Some (not16 (accumulateCarryBits csum)).

(** [calc_checksum] of [TCP_Segment], [UDP_Packet], [ICMP_Packet] and
    [ICMPv6_Packet]: [this] is the memory the header starts. *)
Definition calc_checksum (e : endian) (csum : Z) (this : bytes) (payloadlen : Z) : option Z :=
  p ← computePayload e this payloadlen;
  Some (not16 (accumulateCarryBits (u32 (csum + p)))).

Definition checksum_valid (e : endian) (csum : Z) (this : bytes) (payloadlen : Z) : option bool :=
  c ← calc_checksum e csum this payloadlen; Some (c =? 0).

(** *** Carry folding *)

Lemma accumulate_step_spec csum :
  is_u32 csum ->
  accumulate_step csum = if csum <? 65536 then inr csum
                         else inl (csum mod 65536 + csum / 65536).
Proof.
  intros H. unfold accumulate_step. autorewrite with width_rw.
  change (2 ^ 16) with 65536. zcases; try zlia.
  - f_equal. zlia.
  - f_equal. zlia.
Qed.

Lemma fold16_step s : 65536 <= s -> fold16 (s mod 65536 + s / 65536) = fold16 s.
Proof. intros. unfold fold16. zcases; zlia. Qed.

Lemma fold16_small s : is_u16 s -> fold16 s = s.
Proof. intros. unfold fold16. zcases; zlia. Qed.

Lemma fold16_range s : 0 <= s -> is_u16 (fold16 s).
Proof. intros. unfold fold16. zcases; zlia. Qed.

(** The carry loop ends within four rounds and answers the residue. *)
Lemma accumulate_terminates csum : is_u32 csum -> accumulate_loop csum = Some (fold16 csum).
Proof.
  intros H. unfold accumulate_loop. cbn [loop].
  rewrite accumulate_step_spec by done. destruct (Z.ltb_spec csum 65536).
  { by rewrite fold16_small by zlia. }
  rewrite <- fold16_step by done. set (s1 := csum mod 65536 + csum / 65536).
  assert (Hs1 : 0 <= s1 < 131071) by (subst s1; zlia). clearbody s1.
  rewrite accumulate_step_spec by zlia. destruct (Z.ltb_spec s1 65536).
  { by rewrite fold16_small by zlia. }
  rewrite <- fold16_step by done. set (s2 := s1 mod 65536 + s1 / 65536).
  assert (Hs2 : 0 <= s2 < 65536) by (subst s2; zlia). clearbody s2.
  rewrite accumulate_step_spec by zlia. destruct (Z.ltb_spec s2 65536); [|lia].
  by rewrite fold16_small by zlia.
Qed.

Lemma accumulateCarryBits_spec csum : is_u32 csum -> accumulateCarryBits csum = fold16 csum.
Proof. intros. unfold accumulateCarryBits. by rewrite accumulate_terminates. Qed.

(** *** Payload sums *)

Lemma byteswap16_load b0 b1 :
  is_u8 b0 -> is_u8 b1 -> byteswap16 (load16 LE b0 b1) = of_be16 b0 b1.
Proof.
  intros. exact (LittleEndian.get16_network LE b0 b1 H H0).
Qed.

Lemma words_sum_bound l :
  is_bytes l -> 0 <= words_sum l <= 65535 * ((Z.of_nat (length l) + 1) / 2).
Proof.
  remember (length l) as n eqn:Hn. revert l Hn.
  induction n as [n IH] using lt_wf_ind. intros [|b0 [|b1 r]] -> Hb; simpl length in *.
  - done.
  - inversion Hb; subst. simpl words_sum. zlia.
  - inversion Hb as [|? ? H0 Hb']; subst. inversion Hb' as [|? ? H1 Hb'']; subst.
    specialize (IH (length r) ltac:(lia) r eq_refl Hb''). simpl words_sum. unfold of_be16. zlia.
Qed.

Lemma words_sum_app_even l k :
  Nat.Even (length l) -> words_sum (l ++ k) = words_sum l + words_sum k.
Proof.
  intros [n Hn]. revert l Hn. induction n as [|n IH]; intros [|b0 [|b1 r]] Hn; simpl in *; try lia.
  rewrite IH by lia. lia.
Qed.

Lemma sum_words_spec l n k csum :
  is_bytes l -> length l = (2 * n)%nat -> is_u32 csum ->
  sum_words LE (l ++ k) n csum = Some (u32 (csum + words_sum l)).
Proof.
  revert l csum. induction n as [|n IH]; intros [|b0 [|b1 r]] csum Hb Hl Hc; simpl in Hl; try lia.
  - cbn [sum_words words_sum]. f_equal. zlia.
  - inversion Hb as [|? ? H0 Hb']; subst. inversion Hb' as [|? ? H1 Hb'']; subst.
    cbn [sum_words words_sum app]. rewrite byteswap16_load, IH by side.
    f_equal. zlia.
Qed.

(** On a little-endian host the payload sum is the RFC 1071 word sum of the
    first [payloadlen] bytes: nothing is skipped, nothing overflows. *)
Lemma computePayload_spec mem len :
  is_bytes mem -> is_u16 len -> len <= Z.of_nat (length mem) ->
  computePayload LE mem len = Some (words_sum (take (Z.to_nat len) mem)).
Proof.
  intros Hb Hl Hm. unfold computePayload.
  remember (take (Z.to_nat len) mem) as p eqn:Ep.
  remember (Z.to_nat (len / 2)) as n eqn:En.
  assert (Hn : Z.of_nat n = len / 2) by zlia. clear En.
  assert (Hp : Z.of_nat (length p) = len) by (subst p; rewrite length_take; zlia).
  assert (Hpb : is_bytes p) by (subst p; auto with width).
  pose proof (words_sum_bound p Hpb) as Hbd. rewrite Hp in Hbd.
  assert (Hspec : forall csum, is_u32 csum ->
            sum_words LE mem n csum = Some (u32 (csum + words_sum (take (2 * n) p)))).
  { intros csum Hc. rewrite <- (take_drop (2 * n) mem) at 1.
    replace (take (2 * n) p) with (take (2 * n) mem)
      by (subst p; rewrite take_take; f_equal; zlia).
    apply sum_words_spec; [auto with width| |done].
    rewrite length_take. zlia. }
  change (Z.land len 0x1) with (Z.land len (Z.ones 1)). rewrite mask_mod by lia.
  change (2 ^ 1) with 2. destruct (Z.eqb_spec (len mod 2) 0) as [He|Ho].
  - cbn [mbind option_bind]. rewrite Hspec by zlia.
    rewrite take_ge by zlia. rewrite Z.add_0_l, u32_id; [done|zlia].
  - destruct (lookup_lt_is_Some_2 mem (Z.to_nat (len - 1))) as [odd Hodd]; [zlia|].
    rewrite Hodd. cbn [mbind option_bind].
    assert (Hu : is_u8 odd) by exact (is_bytes_lookup _ _ _ Hb Hodd).
    autorewrite with width_rw. change (2 ^ 8) with 256. rewrite Hspec by side.
    assert (Hsplit : p = take (2 * n) p ++ [odd]).
    { apply take_lookup_last; [zlia|]. subst p. rewrite lookup_take_lt by zlia.
      rewrite <- Hodd. f_equal. zlia. }
    assert (Hw : words_sum p = words_sum (take (2 * n) p) + odd * 256).
    { rewrite Hsplit at 1. rewrite words_sum_app_even; [done|].
      exists n. rewrite length_take. zlia. }
    f_equal. rewrite Hw in *. zlia.
Qed.

(** It is defined whenever the memory is long enough. *)
Lemma calc_checksum_defined e csum mem len : 0 <= len <= Z.of_nat (length mem) -> is_Some (calc_checksum e csum mem len).
Proof.
  intros Hl. assert (Hw : forall n p c, (2 * n <= length p)%nat -> is_Some (sum_words e p n c)).
  { induction n as [|n IH]; intros p c Hn; cbn [sum_words]; [done|]. destruct p as [|b0 [|b1 p]]; cbn [length] in Hn; [lia|lia|].
    apply IH. lia. }
  assert (H2 : (2 * Z.to_nat (len / 2) <= length mem)%nat) by zlia.
  unfold calc_checksum, computePayload. destruct (Z.eqb_spec (Z.land len 1) 0); cbn [mbind option_bind].
  - destruct (Hw _ mem 0 H2) as [c ->]. by eexists.
  - assert (Hpos : 0 < len) by (destruct (decide (len = 0)) as [->|]; [done|lia]).
    destruct (lookup_lt_is_Some_2 mem (Z.to_nat (len - 1)) ltac:(lia)) as [o ->]. cbn [mbind option_bind].
    destruct (Hw _ mem (u32 (Z.shiftl (Z.land o 255) 8)) H2) as [c ->]. by eexists.
Qed.

(** [calc_checksum] is the complement of the residue of pseudo header plus
    payload. *)
Lemma calc_checksum_spec csum mem len :
  is_bytes mem -> is_u16 len -> len <= Z.of_nat (length mem) -> 0 <= csum < 2147483648 ->
  calc_checksum LE csum mem len =
    Some (65535 - fold16 (csum + words_sum (take (Z.to_nat len) mem))).
Proof.
  intros Hb Hl Hm Hc. unfold calc_checksum. rewrite computePayload_spec by done.
  cbn [mbind option_bind].
  pose proof (words_sum_bound (take (Z.to_nat len) mem) ltac:(side)) as Hbd.
  rewrite length_take in Hbd.
  assert (Hs : is_u32 (csum + words_sum (take (Z.to_nat len) mem))) by zlia.
  rewrite u32_id, accumulateCarryBits_spec, not16_sub by (try apply fold16_range; zlia).
  done.
Qed.

(** A checksum is accepted exactly when the total is a positive multiple of
    65535. *)
Lemma checksum_valid_iff csum mem len :
  is_bytes mem -> is_u16 len -> len <= Z.of_nat (length mem) -> 0 <= csum < 2147483648 ->
  exists b, checksum_valid LE csum mem len = Some b
    ∧ (b = true <-> 0 < csum + words_sum (take (Z.to_nat len) mem)
                    ∧ (csum + words_sum (take (Z.to_nat len) mem)) mod 65535 = 0).
Proof.
  intros Hb Hl Hm Hc. unfold checksum_valid. rewrite calc_checksum_spec by done.
  pose proof (words_sum_bound (take (Z.to_nat len) mem) ltac:(side)) as Hbd.
  eexists. split; [reflexivity|]. unfold fold16. zcases; zlia.
Qed.

End InternetChecksum.

(** ** Replacing bytes and words of a summed region *)

Lemma words_sum_insert l i b b' :
  l !! i = Some b ->
  words_sum (<[i:=b']> l) = words_sum l + (b' - b) * (if Nat.even i then 256 else 1).
Proof.
  revert l. induction i as [i IH] using lt_wf_ind. intros l Hi.
  destruct i as [|[|i]]; destruct l as [|b0 [|b1 r]]; simpl in Hi; simplify_eq.
  - cbn. lia.
  - cbn. unfold of_be16. lia.
  - cbn. unfold of_be16. lia.
  - change (<[S (S i):=b']> (b0 :: b1 :: r)) with (b0 :: b1 :: <[i:=b']> r).
    cbn [words_sum Nat.even]. rewrite (IH i) by (done || lia). lia.
Qed.

Lemma words_sum_field l c r :
  is_u16 c -> Nat.Even (length l) ->
  words_sum (l ++ be16 c ++ r) = words_sum (l ++ [0; 0] ++ r) + c.
Proof.
  intros Hc He. rewrite (InternetChecksum.words_sum_app_even l (be16 c ++ r)) by done.
  rewrite (InternetChecksum.words_sum_app_even l ([0; 0] ++ r)) by done.
  cbn [be16 app words_sum]. rewrite of_be16_be16 by done. unfold of_be16. lia.
Qed.

(** ** The header checksum of [IPv4_Packet] *)

Module IPv4Checksum.

(** Sum of host-order words: [*buf++], [nwords] times. *)
Fixpoint sum_host (e : endian) (buf : bytes) (nwords : nat) (sum : Z) {struct nwords} : option Z :=
  match nwords with
  | O => Some sum
  | S n =>
      match buf with
      | b0 :: b1 :: rest => sum_host e rest n (u32 (sum + load16 e b0 b1))
      | _ => None
      end
  end.

Definition cksum (e : endian) (buf : bytes) (nwords : nat) : option Z :=
  sum ← sum_host e buf nwords 0;
  let sum := u32 (Z.shiftr sum 16 + Z.land sum 0xffff) in
  let sum := u32 (sum + Z.shiftr sum 16) in
  Some (not16 (u16 sum)).

(** Sum of the host-order words of a list of even length. *)
Fixpoint host_sum (e : endian) (l : bytes) : Z :=
  match l with b0 :: b1 :: r => load16 e b0 b1 + host_sum e r | _ => 0 end.

Lemma load16_range e b0 b1 : is_u8 b0 -> is_u8 b1 -> is_u16 (load16 e b0 b1).
Proof. destruct e; unfold load16; zlia. Qed.

Lemma host_sum_bound e l : is_bytes l -> 0 <= host_sum e l <= 65535 * (Z.of_nat (length l) / 2).
Proof.
  remember (length l) as n eqn:Hn. revert l Hn.
  induction n as [n IH] using lt_wf_ind. intros [|b0 [|b1 r]] -> Hb; simpl length in *.
  - done.
  - simpl. zlia.
  - inversion Hb as [|? ? H0 Hb']; subst. inversion Hb' as [|? ? H1 Hb'']; subst.
    specialize (IH (length r) ltac:(lia) r eq_refl Hb''). cbn [host_sum].
    pose proof (load16_range e b0 b1 H0 H1). zlia.
Qed.

Lemma sum_host_spec e l n k sum :
  is_bytes l -> length l = (2 * n)%nat -> 0 <= sum -> sum + host_sum e l < 4294967296 ->
  sum_host e (l ++ k) n sum = Some (sum + host_sum e l).
Proof.
  revert l sum. induction n as [|n IH]; intros [|b0 [|b1 r]] sum Hb Hl H0 Hs; simpl in Hl; try lia.
  - cbn. f_equal. lia.
  - inversion Hb as [|? ? Hb0 Hb']; subst. inversion Hb' as [|? ? Hb1 Hb'']; subst.
    cbn [sum_host host_sum app] in *.
    pose proof (load16_range e b0 b1 Hb0 Hb1) as Hr. pose proof (host_sum_bound e r Hb'').
    rewrite u32_id by zlia. rewrite IH by (done || zlia). f_equal. lia.
Qed.

Lemma cksum_spec e l n k :
  is_bytes l -> length l = (2 * n)%nat -> Z.of_nat n <= 65536 ->
  cksum e (l ++ k) n = Some (65535 - fold16 (host_sum e l)).
Proof.
  intros Hb Hl Hn. unfold cksum. pose proof (host_sum_bound e l Hb) as Hbd.
  rewrite Hl in Hbd. rewrite sum_host_spec by (done || zlia).
  cbn [mbind option_bind]. rewrite Z.add_0_l. set (s := host_sum e l) in *. clearbody s.
  autorewrite with width_rw. change (2 ^ 16) with 65536. f_equal.
  assert (E : u16 (u32 (u32 (s / 65536 + s mod 65536) + u32 (s / 65536 + s mod 65536) / 65536))
              = fold16 s) by (unfold fold16; zcases; zlia).
  rewrite E. apply not16_sub, InternetChecksum.fold16_range. zlia.
Qed.

Lemma host_sum_app e l k :
  Nat.Even (length l) -> host_sum e (l ++ k) = host_sum e l + host_sum e k.
Proof.
  intros [n Hn]. revert l Hn. induction n as [|n IH]; intros [|b0 [|b1 r]] Hn; simpl in *; try lia.
  rewrite IH by lia. lia.
Qed.

Lemma host_sum_store e c r : is_u16 c -> host_sum e (store16 e c ++ r) = c + host_sum e r.
Proof. intros. destruct e; cbn [store16 be16 rev app host_sum load16]; zlia. Qed.

End IPv4Checksum.

(** ** Pseudo headers *)

(** [InternetChecksumV4::computePseudoHeader]: [src] and [dst] are the address
    fields as loaded, first octet lowest. *)
Definition computePseudoHeaderV4 (src dst payloadlen upper_layer_nextheader : Z) : Z :=
  let csum := u32 payloadlen in
  let csum := u32 (csum + upper_layer_nextheader) in
  let csum := u32 (csum + InternetChecksum.byteswap16 (u16 src)) in
  let csum := u32 (csum + InternetChecksum.byteswap16 (u16 (Z.shiftr src 16))) in
  let csum := u32 (csum + InternetChecksum.byteswap16 (u16 dst)) in
  u32 (csum + InternetChecksum.byteswap16 (u16 (Z.shiftr dst 16))).

(** [InternetChecksumV6]: [byteswap16] is the identity there. *)
Definition byteswap16V6 (val : Z) : Z := val.

Fixpoint addPairsV6 (ipaddr : bytes) (csum : Z) : Z :=
  match ipaddr with
  | hi :: lo :: r => addPairsV6 r (u32 (csum + byteswap16V6 (u16 (lo + u16 (Z.shiftl hi 8)))))
  | _ => csum
  end.

Definition computePseudoHeaderV6 (src dst : bytes) (payloadlen upper_layer_nextheader : Z) : Z :=
  let csum := u32 payloadlen in
  let csum := addPairsV6 src csum in
  let csum := addPairsV6 dst csum in
  u32 (csum + upper_layer_nextheader).

Lemma addPairsV6_spec l csum :
  is_bytes l -> Nat.Even (length l) -> is_u32 csum ->
  addPairsV6 l csum = u32 (csum + words_sum l).
Proof.
  intros Hb [n Hn]. revert l csum Hb Hn.
  induction n as [|n IH]; intros [|hi [|lo r]] csum Hb Hn Hc; simpl in Hn; try lia.
  - cbn. zlia.
  - inversion Hb as [|? ? H0 Hb']; subst. inversion Hb' as [|? ? H1 Hb'']; subst.
    cbn [addPairsV6 words_sum]. rewrite IH by side. unfold byteswap16V6, of_be16.
    rewrite shiftl_mul by lia. zlia.
Qed.

(** The pseudo header of an IPv4 packet counts the network-order words of the
    two addresses, the length and the protocol, without overflow. *)
Lemma computePseudoHeaderV4_spec s0 s1 s2 s3 d0 d1 d2 d3 len nh :
  is_bytes [s0; s1; s2; s3; d0; d1; d2; d3] -> is_u16 len -> is_u8 nh ->
  computePseudoHeaderV4 (load32 LE s0 s1 s2 s3) (load32 LE d0 d1 d2 d3) len nh
  = len + nh + words_sum [s0; s1; s2; s3; d0; d1; d2; d3].
Proof.
  intros Hb Hl Hn. inv_bytes.
  assert (E : forall b0 b1 b2 b3, is_u8 b0 -> is_u8 b1 -> is_u8 b2 -> is_u8 b3 ->
    InternetChecksum.byteswap16 (u16 (load32 LE b0 b1 b2 b3)) = of_be16 b0 b1
    ∧ InternetChecksum.byteswap16 (u16 (Z.shiftr (load32 LE b0 b1 b2 b3) 16)) = of_be16 b2 b3).
  { intros. rewrite <- (InternetChecksum.byteswap16_load b0 b1) by done.
    rewrite <- (InternetChecksum.byteswap16_load b2 b3) by done.
    rewrite shiftr_div by lia. change (2 ^ 16) with 65536. cbn [load16 load32].
    split; f_equal; zlia. }
  unfold computePseudoHeaderV4. cbv zeta.
  destruct (E s0 s1 s2 s3 ltac:(done) ltac:(done) ltac:(done) ltac:(done)) as [-> ->].
  destruct (E d0 d1 d2 d3 ltac:(done) ltac:(done) ltac:(done) ltac:(done)) as [-> ->].
  unfold of_be16, words_sum. unfold of_be16. zlia.
Qed.

(** ** Properties *)

Section Properties.
Import InternetChecksum.

(** Filling in the field makes the sum right. *)
Lemma checksum_filled_in csum l r k len :
  is_bytes (l ++ r ++ k) -> Nat.Even (length l) ->
  len = Z.of_nat (length l + 2 + length r) -> is_u16 len -> 0 <= csum < 2147483648 ->
  exists c, calc_checksum LE csum (l ++ [0; 0] ++ r ++ k) len = Some c
    ∧ is_u16 c
    ∧ checksum_valid LE csum (l ++ be16 c ++ r ++ k) len = Some true.
Proof.
  intros Hb He Hlen Hl Hc. rewrite !is_bytes_app in Hb. destruct Hb as (Hbl & Hbr & Hbk).
  assert (Htake : forall a b, take (Z.to_nat len) (l ++ [a; b] ++ r ++ k) = l ++ [a; b] ++ r).
  { intros a b. rewrite !app_assoc. rewrite take_app_length'; [done|].
    rewrite !length_app. simpl. lia. }
  assert (Hbm : forall a b, is_u8 a -> is_u8 b -> is_bytes (l ++ [a; b] ++ r ++ k)).
  { intros. rewrite !is_bytes_app. repeat split; try done. by repeat apply Forall_cons_2. }
  assert (Hlm : forall a b, len <= Z.of_nat (length (l ++ [a; b] ++ r ++ k))).
  { intros. rewrite !length_app. simpl. lia. }
  rewrite calc_checksum_spec, Htake by (try apply Hbm; side).
  set (s := csum + words_sum (l ++ [0; 0] ++ r)).
  assert (Hs : 0 <= s).
  { pose proof (words_sum_bound (l ++ [0; 0] ++ r)) as Hw.
    specialize (Hw ltac:(rewrite !is_bytes_app; repeat split; try done; solve_bytes; done)). lia. }
  pose proof (fold16_range s Hs) as Hf. exists (65535 - fold16 s).
  split; [done|]. assert (Hcu : is_u16 (65535 - fold16 s)) by zlia. split; [done|].
  destruct (checksum_valid_iff csum (l ++ be16 (65535 - fold16 s) ++ r ++ k) len)
    as (b & -> & Hb'); [apply Hbm; side|done|apply Hlm|done|].
  f_equal. apply Hb'. unfold be16 at 1 2. rewrite Htake.
  change [u8 ((65535 - fold16 s) / 256); u8 (65535 - fold16 s)] with (be16 (65535 - fold16 s)).
  rewrite words_sum_field by done.
  replace (csum + (words_sum (l ++ [0; 0] ++ r) + (65535 - fold16 s)))
    with (s + (65535 - fold16 s)) by (subst s; lia).
  clearbody s. unfold fold16 in *. zcases; zlia.
Qed.

(** A header whose checksum field was zeroed and then set to
    [calc_checksum] is accepted by [checksum_valid], whatever the pseudo
    header, the content, the (even) position of the field and the memory that
    follows the packet: what the stack sends, the stack accepts. *)
Theorem checksum_roundtrip csum l r k len :
  is_bytes (l ++ r ++ k) -> Nat.Even (length l) ->
  len = Z.of_nat (length l + 2 + length r) -> is_u16 len -> 0 <= csum < 2147483648 ->
  exists c, calc_checksum LE csum (l ++ [0; 0] ++ r ++ k) len = Some c
    ∧ is_u16 c
    ∧ checksum_valid LE csum (l ++ be16 c ++ r ++ k) len = Some true.
Proof. apply checksum_filled_in. Qed.

Lemma checksum_roundtrip_witness :
  exists c, calc_checksum LE 17 ([1; 2] ++ [0; 0] ++ [7; 255; 3] ++ [9]) 7 = Some c
    ∧ is_u16 c
    ∧ checksum_valid LE 17 ([1; 2] ++ be16 c ++ [7; 255; 3] ++ [9]) 7 = Some true.
Proof.
  apply (checksum_roundtrip 17 [1; 2] [7; 255; 3] [9] 7).
  - repeat (apply Forall_cons_2; [split; lia|]). apply Forall_nil_2.
  - by exists 1%nat.
  - reflexivity.
  - split; lia.
  - split; lia.
Defined.

(** A packet whose checksum is accepted is no longer accepted after any
    single byte of it has changed: the checksum detects every one-byte
    corruption, the odd last byte included. *)
Theorem checksum_detects_byte csum mem len i b b' :
  is_bytes mem -> is_u16 len -> len <= Z.of_nat (length mem) -> 0 <= csum < 2147483648 ->
  checksum_valid LE csum mem len = Some true ->
  mem !! i = Some b -> is_u8 b' -> b' ≠ b -> Z.of_nat i < len ->
  checksum_valid LE csum (<[i:=b']> mem) len = Some false.
Proof.
  intros Hb Hl Hm Hc Hv Hi Hb' Hne Hil.
  assert (Hbu : is_u8 b) by exact (is_bytes_lookup _ _ _ Hb Hi).
  destruct (checksum_valid_iff csum mem len) as (v & Hv1 & Hv2); try done.
  destruct (checksum_valid_iff csum (<[i:=b']> mem) len) as (v' & Hv1' & Hv2');
    [auto with width|done|by rewrite length_insert|done|].
  rewrite Hv in Hv1. injection Hv1 as <-. destruct (proj1 Hv2 eq_refl) as [Hpos Hmod].
  rewrite Hv1'. f_equal. destruct v'; [|done]. exfalso.
  destruct (proj1 Hv2' eq_refl) as [Hpos' Hmod'].
  rewrite take_insert_lt in Hpos', Hmod' by lia.
  rewrite (words_sum_insert _ i b b') in Hpos', Hmod' by (rewrite lookup_take_lt; [done|lia]).
  rewrite Z.add_assoc in Hmod'.
  set (s := csum + words_sum (take (Z.to_nat len) mem)) in *. clearbody s.
  destruct (Nat.even i); zlia.
Qed.

Lemma checksum_detects_byte_witness :
  checksum_valid LE 0 (<[1%nat:=5]> [1; 2; 254; 253]) 4 = Some false.
Proof.
  apply (checksum_detects_byte 0 [1; 2; 254; 253] 4 1 2 5);
    try reflexivity; try (split; lia); try lia.
  repeat (apply Forall_cons_2; [split; lia|]). apply Forall_nil_2.
Defined.

(** On hosts of either byte order, a header of [2*n] bytes with the checksum
    over it stored sums to 0: the sum does not depend on the byte order. *)
Lemma cksum_roundtrip e l r k n :
  is_bytes (l ++ r) -> Nat.Even (length l) ->
  (length l + 2 + length r = 2 * n)%nat -> Z.of_nat n <= 30 ->
  exists c, IPv4Checksum.cksum e (l ++ [0; 0] ++ r ++ k) n = Some c
    ∧ is_u16 c ∧ IPv4Checksum.cksum e (l ++ store16 e c ++ r ++ k) n = Some 0.
Proof.
  intros Hb He Hlen Hn. rewrite is_bytes_app in Hb. destruct Hb as (Hbl & Hbr).
  assert (Hcut : forall w, is_bytes w -> length w = 2%nat ->
    IPv4Checksum.cksum e (l ++ w ++ r ++ k) n
    = Some (65535 - fold16 (IPv4Checksum.host_sum e l
                            + IPv4Checksum.host_sum e (w ++ r)))).
  { intros w Hw Hwl. rewrite !app_assoc. rewrite IPv4Checksum.cksum_spec.
    - by rewrite <- app_assoc, IPv4Checksum.host_sum_app.
    - rewrite !is_bytes_app. done.
    - rewrite !length_app. lia.
    - lia. }
  rewrite Hcut by (try done; solve_bytes; split; lia).
  set (s := IPv4Checksum.host_sum e l + IPv4Checksum.host_sum e ([0; 0] ++ r)).
  assert (Hs : 0 <= s).
  { pose proof (IPv4Checksum.host_sum_bound e l Hbl).
    pose proof (IPv4Checksum.host_sum_bound e ([0; 0] ++ r)
                  ltac:(rewrite is_bytes_app; split; [solve_bytes; split; lia|done])). lia. }
  pose proof (InternetChecksum.fold16_range s Hs) as Hf.
  exists (65535 - fold16 s). split; [done|]. split; [zlia|].
  rewrite Hcut by (destruct e; try done; cbn; solve_bytes).
  rewrite IPv4Checksum.host_sum_store by zlia. f_equal.
  replace (IPv4Checksum.host_sum e l + (65535 - fold16 s + IPv4Checksum.host_sum e r))
    with (s + (65535 - fold16 s)).
  { clearbody s. unfold fold16 in *. zcases; zlia. }
  subst s. destruct e; cbn; lia.
Qed.

(** A segment checksummed on a big-endian host is rejected by every receiver:
    [computePayload] swaps bytes there although loads are in network order
    already. *)
Lemma checksum_big_endian_rejected :
  exists c, calc_checksum BE 0 [1; 2; 0; 0] 4 = Some c
    ∧ checksum_valid LE 0 ([1; 2] ++ be16 c) 4 = Some false
    ∧ checksum_valid BE 0 ([1; 2] ++ be16 c) 4 = Some false.
Proof. eexists. split; [reflexivity|]. split; reflexivity. Qed.

End Properties.
