(* ===== verification/Mempool.v ===== *)
(** * Mempool: the fixed-block memory pools

    Models [util/Mempool.h]: [SingleMempool] (an array of blocks and a stack of
    pointers to the free ones) as Module [SingleMempool], and [BasicMempool]
    (a pool of big and a pool of small blocks) as Module [BasicMempool].
    Pointers are addresses in [Z], the null pointer is 0.  A [free] that would
    write past the end of the free list answers [None].  The typeclass
    [Allocator] is the contract the pools promise to their clients
    (management memory and sockets): chunks held at the same time are
    distinct, a held chunk can be given back, and at most [capacity] chunks
    are held. *)

From S2P Require Import Prelude.

Open Scope Z_scope.

(** ** The contract of a memory pool *)

(** [al_inv m held]: the chunks a client holds of pool [m], as a multiset. *)
Class Allocator (M : Type) := {
  al_alloc : M -> Z -> Z * M;
  al_free : M -> Z -> option M;
  al_capacity : nat;
  al_inv : M -> list Z -> Prop;
  al_perm : forall m held held', (held ≡ₚ held') -> al_inv m held -> al_inv m held';
  al_alloc_ok : forall m held size p m', al_inv m held -> 0 <= size ->
    al_alloc m size = (p, m') ->
    (p = 0 ∧ m' = m) ∨ (p ≠ 0 ∧ (p ∉ held) ∧ al_inv m' (p :: held));
  al_free_ok : forall m held p, al_inv m (p :: held) ->
    exists m', al_free m p = Some m' ∧ al_inv m' held;
  al_bounded : forall m held, al_inv m held -> (length held <= al_capacity)%nat ∧ NoDup held;
}.

(** ** [SingleMempool] *)

Module SingleMempool.

(** [pool] is the address of the array, [head] the index in [freelist] of the
    pointer [head] points to; -1 is [freelist - 1], the empty pool. *)
Record t := mk { pool : Z; freelist : list Z; head : Z }.
#[export] Instance eta_t : Settable t := λ p, mk (pool p) (freelist p) (head p).

Section Pool.
Context (BLOCKSIZE COUNT : Z).

Definition init (addr : Z) : t :=
  mk addr (map (λ i, addr + i * BLOCKSIZE) (seqZ 0 COUNT)) (COUNT - 1).

Definition alloc (p : t) : Z * t :=
  if head p <? 0 then (0, p)
  else (freelist p !!! Z.to_nat (head p), p <| head := head p - 1 |>).

Definition free (p : t) (mem : Z) : option (bool * t) :=
  if (mem <? pool p) || (pool p + COUNT * BLOCKSIZE <? mem) then Some (false, p)
  else
    let rest := u32 (mem - pool p) mod BLOCKSIZE in
    let head' := head p + 1 in
    if head' <? COUNT
    then Some (true, mk (pool p) (<[Z.to_nat head' := mem - rest]> (freelist p)) head')
    else None.

Definition hasSpace (p : t) : bool := 0 <=? head p.

(** The free blocks, the next one to be handed out last. *)
Definition free_blocks (p : t) : list Z := take (Z.to_nat (head p + 1)) (freelist p).

(** The blocks of the pool. *)
Definition is_block (p : t) (b : Z) : Prop :=
  exists i, 0 <= i < COUNT ∧ b = pool p + i * BLOCKSIZE.
Definition blocks (p : t) : list Z := map (λ i, pool p + i * BLOCKSIZE) (seqZ 0 COUNT).

(** Well-formed pool and the chunks that are out: together with the free list
    they are the blocks of the pool, each exactly once. *)
Record inv (p : t) (held : list Z) : Prop := {
  inv_len : Z.of_nat (length (freelist p)) = COUNT;
  inv_head : -1 <= head p < COUNT;
  inv_addr : 0 < pool p ∧ pool p + COUNT * BLOCKSIZE < 4294967296;
  inv_all : free_blocks p ++ held ≡ₚ blocks p;
}.

Context (HB : 0 < BLOCKSIZE) (HC : 0 <= COUNT).

Lemma blocks_NoDup p : NoDup (blocks p).
Proof.
  apply NoDup_fmap_2_strong; [|apply NoDup_seqZ]. intros x y _ _ E. nia.
Qed.

Lemma elem_of_blocks p b : b ∈ blocks p <-> is_block p b.
Proof.
  unfold blocks, is_block. rewrite list_elem_of_fmap. split.
  - intros (i & -> & Hi%elem_of_seqZ). exists i. lia.
  - intros (i & Hi & ->). exists i. rewrite elem_of_seqZ. lia.
Qed.

Lemma length_blocks p : Z.of_nat (length (blocks p)) = COUNT.
Proof. unfold blocks. rewrite length_map, length_seqZ. lia. Qed.

Lemma pool_held_block p held b : inv p held -> b ∈ held -> is_block p b.
Proof.
  intros Hi Hb. apply elem_of_blocks. rewrite <- (inv_all _ _ Hi).
  apply elem_of_app. by right.
Qed.

Lemma pool_init_inv addr :
  0 < addr -> addr + COUNT * BLOCKSIZE < 4294967296 -> inv (init addr) [].
Proof.
  intros Ha Hl. split; cbn.
  - exact (length_blocks (init addr)).
  - lia.
  - lia.
  - rewrite app_nil_r. unfold free_blocks, blocks. cbn.
    rewrite take_ge; [done|]. rewrite length_map, length_seqZ. lia.
Qed.

(** [alloc] pops the free list. *)
Lemma pool_alloc_some p held :
  inv p held -> hasSpace p = true ->
  exists b p', alloc p = (b, p') ∧ free_blocks p = free_blocks p' ++ [b]
    ∧ inv p' (b :: held) ∧ pool p' = pool p.
Proof.
  intros Hi Hs. unfold hasSpace in Hs. apply Z.leb_le in Hs.
  destruct (lookup_lt_is_Some_2 (freelist p) (Z.to_nat (head p))) as [b Hb].
  { pose proof (inv_len _ _ Hi). pose proof (inv_head _ _ Hi). lia. }
  unfold alloc. destruct (Z.ltb_spec (head p) 0); [lia|].
  rewrite (list_lookup_total_correct _ _ _ Hb).
  exists b, (p <| head := head p - 1 |>). split; [done|].
  assert (E : free_blocks p = free_blocks (p <| head := head p - 1 |>) ++ [b]).
  { unfold free_blocks. simpl_set.
    replace (Z.to_nat (head p + 1)) with (S (Z.to_nat (head p))) by lia.
    replace (Z.to_nat (head p - 1 + 1)) with (Z.to_nat (head p)) by lia.
    by rewrite (take_S_r _ _ b). }
  split; [done|]. split; [|done].
  destruct Hi as [H1 H2 H3 H4]. split; simpl_set; try done; [lia|].
  rewrite E, <- app_assoc in H4. exact H4.
Qed.

Lemma pool_alloc_none p : hasSpace p = false -> alloc p = (0, p).
Proof. unfold hasSpace, alloc. intros H%Z.leb_gt. by destruct (Z.ltb_spec (head p) 0); [|lia]. Qed.

Lemma alloc_nonzero p held : inv p held -> hasSpace p = true -> (alloc p).1 ≠ 0.
Proof.
  intros Hi Hs. destruct (pool_alloc_some p held Hi Hs) as (b & p' & -> & _ & Hi' & Hp).
  destruct (pool_held_block _ _ b Hi') as (i & Hr & ->); [left|].
  pose proof (inv_addr _ _ Hi'). cbn. nia.
Qed.

Lemma free_blocks_length p held :
  inv p held -> Z.of_nat (length (free_blocks p)) = head p + 1.
Proof.
  intros Hi. unfold free_blocks. rewrite length_take.
  pose proof (inv_len _ _ Hi). pose proof (inv_head _ _ Hi). lia.
Qed.

(** Any pointer into a held block gives that block back. *)
Lemma pool_free_held p held b off :
  inv p (b :: held) -> 0 <= off < BLOCKSIZE ->
  exists p', free p (b + off) = Some (true, p') ∧ free_blocks p' = free_blocks p ++ [b]
    ∧ inv p' held ∧ pool p' = pool p.
Proof.
  intros Hi Ho.
  destruct (pool_held_block _ _ b Hi) as (i & Hir & ->); [left|].
  pose proof (free_blocks_length _ _ Hi) as Hfl.
  pose proof (Permutation_length (inv_all _ _ Hi)) as Hpl.
  rewrite length_app in Hpl. simpl in Hpl. pose proof (length_blocks p) as Hbl.
  destruct Hi as [H1 H2 H3 H4]. unfold free.
  assert (0 <= i * BLOCKSIZE /\ (i + 1) * BLOCKSIZE <= COUNT * BLOCKSIZE) by nia.
  destruct (Z.ltb_spec (pool p + i * BLOCKSIZE + off) (pool p)); [lia|].
  destruct (Z.ltb_spec (pool p + COUNT * BLOCKSIZE) (pool p + i * BLOCKSIZE + off)); [lia|].
  cbn [orb]. rewrite u32_id by (split; lia).
  replace ((pool p + i * BLOCKSIZE + off - pool p) mod BLOCKSIZE) with off
    by (rewrite <- (Z.mod_small off BLOCKSIZE) at 1 by lia;
        replace (pool p + i * BLOCKSIZE + off - pool p) with (off + i * BLOCKSIZE) by lia;
        by rewrite Z.mod_add by lia).
  replace (pool p + i * BLOCKSIZE + off - off) with (pool p + i * BLOCKSIZE) by lia.
  destruct (Z.ltb_spec (head p + 1) COUNT); [|lia].
  set (b := pool p + i * BLOCKSIZE) in *.
  set (p' := mk (pool p) (<[Z.to_nat (head p + 1):=b]> (freelist p)) (head p + 1)).
  exists p'. split; [done|].
  assert (E : free_blocks p' = free_blocks p ++ [b]).
  { unfold free_blocks, p'. cbn.
    replace (Z.to_nat (head p + 1 + 1)) with (S (Z.to_nat (head p + 1))) by lia.
    rewrite (take_S_r _ _ b) by (rewrite list_lookup_insert_eq; [done|lia]).
    by rewrite take_insert_ge by lia. }
  split; [done|]. split; [|done]. split.
  - cbn. by rewrite length_insert.
  - cbn. lia.
  - done.
  - rewrite E, <- app_assoc. exact H4.
Qed.

(** A pointer outside the array is refused and nothing changes. *)
Lemma pool_free_outside p mem :
  mem < pool p ∨ pool p + COUNT * BLOCKSIZE < mem -> free p mem = Some (false, p).
Proof.
  intros H. unfold free.
  destruct (Z.ltb_spec mem (pool p)), (Z.ltb_spec (pool p + COUNT * BLOCKSIZE) mem);
    cbn; try done; lia.
Qed.

Lemma pool_inv_perm p held held' : (held ≡ₚ held') -> inv p held -> inv p held'.
Proof. intros E [H1 H2 H3 H4]. split; try done. by rewrite <- E. Qed.

Lemma pool_inv_NoDup p held : inv p held -> NoDup held.
Proof.
  intros Hi. pose proof (blocks_NoDup p) as Hn. rewrite <- (inv_all _ _ Hi) in Hn.
  by apply NoDup_app in Hn as (_ & _ & ?).
Qed.

Lemma pool_inv_fresh p b held : inv p (b :: held) -> b ∉ held.
Proof. intros Hi%pool_inv_NoDup. by apply NoDup_cons in Hi as [? _]. Qed.

Lemma pool_inv_length p held : inv p held -> Z.of_nat (length held) <= COUNT.
Proof.
  intros Hi. pose proof (Permutation_length (inv_all _ _ Hi)) as E.
  rewrite length_app in E. pose proof (length_blocks p). lia.
Qed.

End Pool.
End SingleMempool.

(** ** [BasicMempool] *)

Module BasicMempool.

(** The template arguments. *)
Class Config := { tBLOCKSIZE_1 : Z; tCOUNT_1 : Z; tBLOCKSIZE_2 : Z; tCOUNT_2 : Z }.

Section Basic.
Context `{Config}.

Definition SIZE_BIG : Z := if tBLOCKSIZE_2 <=? tBLOCKSIZE_1 then tBLOCKSIZE_1 else tBLOCKSIZE_2.
Definition SIZE_SMALL : Z := if tBLOCKSIZE_1 <? tBLOCKSIZE_2 then tBLOCKSIZE_1 else tBLOCKSIZE_2.
Definition COUNT_BIG : Z := if tBLOCKSIZE_2 <=? tBLOCKSIZE_1 then tCOUNT_1 else tCOUNT_2.
Definition COUNT_SMALL : Z := if tBLOCKSIZE_1 <? tBLOCKSIZE_2 then tCOUNT_1 else tCOUNT_2.

Record t := mk { mempool_big : SingleMempool.t; mempool_small : SingleMempool.t }.
#[export] Instance eta_t : Settable t := λ m, mk (mempool_big m) (mempool_small m).

Definition getMaxFreeBlockSize (m : t) : Z :=
  if SingleMempool.hasSpace (mempool_big m) then SIZE_BIG
  else if SingleMempool.hasSpace (mempool_small m) then SIZE_SMALL
  else 0.

(** The second attempt of [alloc]: the big blocks. *)
Definition alloc_big (m : t) (size : Z) : Z * t :=
  if size <=? SIZE_BIG then
    let (ptr, big) := SingleMempool.alloc (mempool_big m) in (ptr, m <| mempool_big := big |>)
  else (0, m).

Definition alloc (m : t) (size : Z) : Z * t :=
  if size <=? SIZE_SMALL then
    let (ptr, small) := SingleMempool.alloc (mempool_small m) in
    let m := m <| mempool_small := small |> in
    if negb (ptr =? 0) then (ptr, m) else alloc_big m size
  else alloc_big m size.

Definition free (m : t) (chunk : Z) : option t :=
  r ← SingleMempool.free SIZE_SMALL COUNT_SMALL (mempool_small m) chunk;
  let m := m <| mempool_small := r.2 |> in
  if Bool.eqb r.1 false then
    rb ← SingleMempool.free SIZE_BIG COUNT_BIG (mempool_big m) chunk;
    Some (m <| mempool_big := rb.2 |>)
  else Some m.

(** The object in memory: the big array lies before the small one (the free
    list and the head of the big pool are between them). *)
Definition init (addr_big addr_small : Z) : t :=
  mk (SingleMempool.init SIZE_BIG COUNT_BIG addr_big)
     (SingleMempool.init SIZE_SMALL COUNT_SMALL addr_small).

(** The chunks held are split between the two pools. *)
Definition inv (m : t) (held : list Z) : Prop :=
  SingleMempool.pool (mempool_big m) + COUNT_BIG * SIZE_BIG < SingleMempool.pool (mempool_small m)
  ∧ exists hb hs, (held ≡ₚ hb ++ hs)
    ∧ SingleMempool.inv SIZE_BIG COUNT_BIG (mempool_big m) hb
    ∧ SingleMempool.inv SIZE_SMALL COUNT_SMALL (mempool_small m) hs.

Class ConfigOk : Prop := {
  size1_pos : 0 < tBLOCKSIZE_1; size2_pos : 0 < tBLOCKSIZE_2;
  count1_nonneg : 0 <= tCOUNT_1; count2_nonneg : 0 <= tCOUNT_2 }.

Context {HOk : ConfigOk}.

Lemma sizes_ok : 0 < SIZE_SMALL ∧ SIZE_SMALL <= SIZE_BIG ∧ 0 <= COUNT_BIG ∧ 0 <= COUNT_SMALL.
Proof.
  destruct HOk. unfold SIZE_SMALL, SIZE_BIG, COUNT_BIG, COUNT_SMALL. zcases; lia.
Qed.

(** A held chunk lies in the array of its pool. *)
Lemma held_bounds bs cnt p held b :
  0 < bs -> SingleMempool.inv bs cnt p held -> b ∈ held ->
  SingleMempool.pool p <= b ∧ b + bs <= SingleMempool.pool p + cnt * bs.
Proof.
  intros Hb Hi Hin. destruct (SingleMempool.pool_held_block bs cnt p held b Hi Hin)
    as (i & Hr & ->). nia.
Qed.

Lemma basic_alloc_big_ok m held size p m' :
  inv m held -> alloc_big m size = (p, m') ->
  (p = 0 ∧ m' = m) ∨ (p ≠ 0 ∧ size <= SIZE_BIG ∧ (p ∉ held) ∧ inv m' (p :: held)).
Proof.
  intros (Hl & hb & hs & Ep & Hb & Hs) E. destruct sizes_ok as (? & ? & ? & ?).
  unfold alloc_big in E. destruct (Z.leb_spec size SIZE_BIG) as [Hsz|]; [|left; by simplify_eq].
  destruct (SingleMempool.hasSpace (mempool_big m)) eqn:Esp.
  - destruct (SingleMempool.pool_alloc_some SIZE_BIG COUNT_BIG _ _ Hb Esp)
      as (b & p' & Ea & Ef & Hi & Hp). rewrite Ea in E. injection E as <- <-. right.
    pose proof (held_bounds SIZE_BIG COUNT_BIG p' (b :: hb) b ltac:(lia) Hi ltac:(left)) as Hbd.
    pose proof (SingleMempool.pool_inv_fresh SIZE_BIG COUNT_BIG ltac:(lia) _ _ _ Hi) as Hnb.
    assert (Hns : b ∉ hs).
    { intros Hin. pose proof (held_bounds SIZE_SMALL COUNT_SMALL _ _ _ ltac:(lia) Hs Hin). lia. }
    pose proof (SingleMempool.inv_addr _ _ _ _ Hb).
    split; [lia|]. split; [done|]. split; [rewrite Ep, elem_of_app; tauto|].
    split; [cbn; lia|]. exists (b :: hb), hs. split; [by rewrite Ep|done].
  - rewrite SingleMempool.pool_alloc_none in E by done. left. destruct m; by simplify_eq.
Qed.

(** [alloc] answers 0 and changes nothing, or a chunk that is large enough and
    that nobody holds. *)
Lemma basic_alloc_ok m held size p m' :
  inv m held -> alloc m size = (p, m') ->
  (p = 0 ∧ m' = m) ∨ (p ≠ 0 ∧ size <= SIZE_BIG ∧ (p ∉ held) ∧ inv m' (p :: held)).
Proof.
  intros Hm E. unfold alloc in E. destruct (Z.leb_spec size SIZE_SMALL) as [Hsz|];
    [|by apply basic_alloc_big_ok].
  destruct Hm as (Hl & hb & hs & Ep & Hb & Hs). destruct sizes_ok as (? & ? & ? & ?).
  destruct (SingleMempool.hasSpace (mempool_small m)) eqn:Esp.
  - destruct (SingleMempool.pool_alloc_some SIZE_SMALL COUNT_SMALL _ _ Hs Esp)
      as (b & p' & Ea & Ef & Hi & Hp). rewrite Ea in E.
    pose proof (held_bounds SIZE_SMALL COUNT_SMALL p' (b :: hs) b ltac:(lia) Hi ltac:(left)) as Hbd.
    pose proof (SingleMempool.inv_addr _ _ _ _ Hb). pose proof (SingleMempool.inv_addr _ _ _ _ Hs).
    destruct (Z.eqb_spec b 0); [lia|]. cbn [negb] in E. injection E as <- <-. right.
    pose proof (SingleMempool.pool_inv_fresh SIZE_SMALL COUNT_SMALL ltac:(lia) _ _ _ Hi) as Hns.
    assert (Hnb : b ∉ hb).
    { intros Hin. pose proof (held_bounds SIZE_BIG COUNT_BIG _ _ _ ltac:(lia) Hb Hin). lia. }
    split; [done|]. split; [lia|]. split; [rewrite Ep, elem_of_app; tauto|].
    split; [cbn; lia|]. exists hb, (b :: hs). split; [|done].
    rewrite Ep. by rewrite Permutation_middle.
  - rewrite SingleMempool.pool_alloc_none in E by done. cbn in E.
    eapply basic_alloc_big_ok; [|destruct m; exact E]. split; [done|]. by exists hb, hs.
Qed.

(** A held chunk goes back to the pool it came from. *)
Lemma basic_free_ok m held p :
  inv m (p :: held) -> exists m', free m p = Some m' ∧ inv m' held.
Proof.
  intros (Hl & hb & hs & Ep & Hb & Hs). destruct sizes_ok as (? & ? & ? & ?).
  assert (Hin : p ∈ hb ++ hs) by (rewrite <- Ep; left). apply elem_of_app in Hin as [Hin|Hin].
  - apply elem_of_Permutation in Hin as [hb' Ehb].
    apply (SingleMempool.pool_inv_perm _ _ _ _ _ Ehb) in Hb.
    pose proof (held_bounds SIZE_BIG COUNT_BIG _ _ p ltac:(lia) Hb ltac:(left)) as Hbd.
    destruct (SingleMempool.pool_free_held SIZE_BIG COUNT_BIG ltac:(lia) ltac:(lia) _ _ _ 0 Hb)
      as (p' & Ef & _ & Hi & Hp); [lia|]. rewrite Z.add_0_r in Ef.
    unfold free. rewrite SingleMempool.pool_free_outside by (left; lia).
    cbn. rewrite Ef. cbn. eexists. split; [done|]. split; [cbn; lia|].
    exists hb', hs. split; [|done]. apply (Permutation_cons_inv (a := p)). by rewrite Ep, Ehb.
  - apply elem_of_Permutation in Hin as [hs' Ehs].
    apply (SingleMempool.pool_inv_perm _ _ _ _ _ Ehs) in Hs.
    destruct (SingleMempool.pool_free_held SIZE_SMALL COUNT_SMALL ltac:(lia) ltac:(lia) _ _ _ 0 Hs)
      as (p' & Ef & _ & Hi & Hp); [lia|]. rewrite Z.add_0_r in Ef.
    unfold free. rewrite Ef. cbn. eexists. split; [done|]. split; [cbn; lia|].
    exists hb, hs'. split; [|done]. apply (Permutation_cons_inv (a := p)).
    rewrite Ep, Ehs. by rewrite Permutation_middle.
Qed.

Lemma basic_bounded m held :
  inv m held -> (length held <= Z.to_nat (COUNT_BIG + COUNT_SMALL))%nat ∧ NoDup held.
Proof.
  intros (Hl & hb & hs & Ep & Hb & Hs). destruct sizes_ok as (? & ? & ? & ?).
  pose proof (SingleMempool.pool_inv_length SIZE_BIG COUNT_BIG ltac:(lia) _ _ Hb).
  pose proof (SingleMempool.pool_inv_length SIZE_SMALL COUNT_SMALL ltac:(lia) _ _ Hs).
  split; [rewrite Ep, length_app; lia|]. rewrite Ep. apply NoDup_app. repeat split.
  - exact (SingleMempool.pool_inv_NoDup SIZE_BIG COUNT_BIG ltac:(lia) _ _ Hb).
  - intros x Hx Hx'.
    pose proof (held_bounds SIZE_BIG COUNT_BIG _ _ _ ltac:(lia) Hb Hx).
    pose proof (held_bounds SIZE_SMALL COUNT_SMALL _ _ _ ltac:(lia) Hs Hx'). lia.
  - exact (SingleMempool.pool_inv_NoDup SIZE_SMALL COUNT_SMALL ltac:(lia) _ _ Hs).
Qed.

Lemma basic_init_inv addr_big addr_small :
  0 < addr_big -> addr_big + COUNT_BIG * SIZE_BIG < addr_small ->
  addr_small + COUNT_SMALL * SIZE_SMALL < 4294967296 -> inv (init addr_big addr_small) [].
Proof.
  intros Ha Hb Hc. destruct sizes_ok as (? & ? & ? & ?). assert (0 <= COUNT_BIG * SIZE_BIG) by nia.
  assert (0 <= COUNT_SMALL * SIZE_SMALL) by nia. split; [cbn; lia|]. exists [], []. split; [done|].
  split; apply SingleMempool.pool_init_inv; lia.
Qed.

(** The pool discharges the contract. *)
#[export] Program Instance basic_allocator : Allocator t := {|
  al_alloc := alloc;
  al_free := free;
  al_capacity := Z.to_nat (COUNT_BIG + COUNT_SMALL);
  al_inv := inv;
|}.
Next Obligation.
  intros m held held' E (Hl & hb & hs & Ep & Hi). split; [done|].
  exists hb, hs. by rewrite <- E.
Qed.
Next Obligation.
  intros m held size p m' Hi _ E. destruct (basic_alloc_ok _ _ _ _ _ Hi E) as [?|?]; tauto.
Qed.
Next Obligation. exact basic_free_ok. Qed.
Next Obligation. exact basic_bounded. Qed.

End Basic.
End BasicMempool.

(** ** Clients of a pool *)

Section Client.
Context {M : Type} `{Allocator M}.

(** A client allocates and gives back, in any order, chunks it holds. *)
Inductive client_reach (m0 : M) : M -> list Z -> Prop :=
| reach_start : client_reach m0 m0 []
| reach_alloc m held size p m' : client_reach m0 m held -> 0 <= size ->
    al_alloc m size = (p, m') -> p ≠ 0 -> client_reach m0 m' (p :: held)
| reach_refused m held size m' : client_reach m0 m held -> 0 <= size ->
    al_alloc m size = (0, m') -> client_reach m0 m' held
| reach_free m held held' p m' : client_reach m0 m held -> (held ≡ₚ p :: held') ->
    al_free m p = Some m' -> client_reach m0 m' held'.

Lemma client_reach_inv m0 m held : al_inv m0 [] -> client_reach m0 m held -> al_inv m held.
Proof.
  intros H0. induction 1 as [|m held size p m' _ IH Hs E Hp|m held size m' _ IH Hs E
                            |m held held' p m' _ IH E Ef]; [done|..].
  - destruct (al_alloc_ok _ _ _ _ _ IH Hs E) as [[? _]|(_ & _ & ?)]; [congruence|done].
  - destruct (al_alloc_ok _ _ _ _ _ IH Hs E) as [[_ ->]|(? & _)]; [done|congruence].
  - apply (al_perm _ _ _ E) in IH. destruct (al_free_ok _ _ _ IH) as (m'' & E' & Hi).
    congruence.
Qed.
End Client.

(** ** Properties *)

Section Properties.
Context `{BasicMempool.Config} {HOk : BasicMempool.ConfigOk}.
Import BasicMempool.

(** The size of the block that chunk [b] starts. *)
Definition chunk_size (m : BasicMempool.t) (b : Z) : Z :=
  if SingleMempool.pool (mempool_small m) <=? b then SIZE_SMALL else SIZE_BIG.

Lemma blocks_apart bs cnt p held b1 b2 :
  0 < bs -> SingleMempool.inv bs cnt p held -> b1 ∈ held -> b2 ∈ held -> b1 ≠ b2 ->
  b1 + bs <= b2 ∨ b2 + bs <= b1.
Proof.
  intros Hb Hi H1 H2 Hne.
  destruct (SingleMempool.pool_held_block bs cnt p held b1 Hi H1) as (i & Hr & ->).
  destruct (SingleMempool.pool_held_block bs cnt p held b2 Hi H2) as (j & Hr' & ->).
  assert (i < j ∨ j < i) as [|] by (destruct (Z.lt_total i j) as [|[->|]]; [tauto|done|tauto]); nia.
Qed.

(** Whatever sequence of allocations and frees a client performs on a
    freshly constructed pool, two chunks it holds at the same time never
    overlap in memory, and it never holds more chunks than there are blocks. *)
Theorem mempool_held_disjoint addr_big addr_small m held b1 b2 :
  0 < addr_big -> addr_big + COUNT_BIG * SIZE_BIG < addr_small ->
  addr_small + COUNT_SMALL * SIZE_SMALL < 4294967296 ->
  client_reach (BasicMempool.init addr_big addr_small) m held ->
  b1 ∈ held -> b2 ∈ held -> b1 ≠ b2 ->
  (b1 + chunk_size m b1 <= b2 ∨ b2 + chunk_size m b2 <= b1)
  ∧ Z.of_nat (length held) <= COUNT_BIG + COUNT_SMALL.
Proof.
  intros Ha Hb Hc Hr H1 H2 Hne. destruct sizes_ok as (HSS & Hle & HCB & HCS).
  assert (HSB : 0 < SIZE_BIG) by lia.
  pose proof (client_reach_inv _ _ _ (basic_init_inv _ _ Ha Hb Hc) Hr) as Hi.
  split; [|pose proof (proj1 (basic_bounded _ _ Hi)); lia].
  destruct Hi as (Hl & hb & hs & Ep & Hib & His). rewrite Ep in H1, H2.
  assert (Hbig : forall b, b ∈ hb -> chunk_size m b = SIZE_BIG
            ∧ b + SIZE_BIG < SingleMempool.pool (mempool_small m)).
  { intros b Hin. pose proof (held_bounds SIZE_BIG COUNT_BIG _ _ _ HSB Hib Hin).
    unfold chunk_size. destruct (Z.leb_spec (SingleMempool.pool (mempool_small m)) b); [lia|].
    split; [done|lia]. }
  assert (Hsmall : forall b, b ∈ hs -> chunk_size m b = SIZE_SMALL
            ∧ SingleMempool.pool (mempool_small m) <= b).
  { intros b Hin. pose proof (held_bounds SIZE_SMALL COUNT_SMALL _ _ _ HSS His Hin).
    unfold chunk_size. destruct (Z.leb_spec (SingleMempool.pool (mempool_small m)) b); [|lia].
    split; [done|lia]. }
  apply elem_of_app in H1 as [H1|H1], H2 as [H2|H2].
  - destruct (Hbig _ H1) as [-> _], (Hbig _ H2) as [-> _].
    by apply (blocks_apart SIZE_BIG COUNT_BIG (mempool_big m) hb); try lia.
  - destruct (Hbig _ H1) as [-> ?], (Hsmall _ H2) as [-> ?]. lia.
  - destruct (Hsmall _ H1) as [-> ?], (Hbig _ H2) as [-> ?]. lia.
  - destruct (Hsmall _ H1) as [-> _], (Hsmall _ H2) as [-> _].
    by apply (blocks_apart SIZE_SMALL COUNT_SMALL (mempool_small m) hs); try lia.
Qed.

Lemma alloc_big_zero m held size :
  inv m held ->
  (alloc_big m size).1 = 0 <-> ¬ (size <= SIZE_BIG ∧ SingleMempool.hasSpace (mempool_big m) = true).
Proof.
  intros (Hl & hb & hs & Ep & Hb & Hs). destruct sizes_ok as (HSS & Hle & HCB & HCS).
  assert (HSB : 0 < SIZE_BIG) by lia. unfold alloc_big.
  destruct (Z.leb_spec size SIZE_BIG); [|cbn; split; [lia|done]].
  destruct (SingleMempool.hasSpace (mempool_big m)) eqn:Esp.
  - pose proof (SingleMempool.alloc_nonzero _ _ HSB HCB _ _ Hb Esp).
    destruct (SingleMempool.alloc (mempool_big m)). cbn in *. tauto.
  - rewrite SingleMempool.pool_alloc_none by done. cbn. split; [by intros _ [_ ?]|done].
Qed.

Lemma alloc_small_zero m held size :
  inv m held ->
  (size > SIZE_SMALL ∨ (SingleMempool.alloc (mempool_small m)).1 = 0)
  <-> ¬ (size <= SIZE_SMALL ∧ SingleMempool.hasSpace (mempool_small m) = true).
Proof.
  intros (Hl & hb & hs & Ep & Hb & Hs). destruct sizes_ok as (HSS & Hle & HCB & HCS).
  assert (HSB : 0 < SIZE_BIG) by lia.
  destruct (SingleMempool.hasSpace (mempool_small m)) eqn:Esp.
  - pose proof (SingleMempool.alloc_nonzero _ _ HSS HCS _ _ Hs Esp).
    split; [intros [?|?] [? _]; [lia|done]|]. intros Hn. left.
    destruct (Z.le_gt_cases size SIZE_SMALL); [exfalso; auto|lia].
  - rewrite SingleMempool.pool_alloc_none by done. cbn. split; [by intros _ [_ ?]|by right].
Qed.

(** [alloc] refuses a request exactly when no pool whose blocks are large
    enough has a free block; otherwise the chunk is fresh, starts a block of
    at least the requested size, and the pool stays consistent. *)
Theorem mempool_alloc_complete m held size p m' :
  inv m held -> alloc m size = (p, m') ->
  (p = 0 <-> ¬ (size <= SIZE_SMALL ∧ SingleMempool.hasSpace (mempool_small m) = true)
           ∧ ¬ (size <= SIZE_BIG ∧ SingleMempool.hasSpace (mempool_big m) = true))
  ∧ (p ≠ 0 -> size <= chunk_size m' p ∧ (p ∉ held) ∧ inv m' (p :: held)).
Proof.
  intros Hi E. destruct sizes_ok as (HSS & Hle & HCB & HCS).
  assert (HSB : 0 < SIZE_BIG) by lia. split.
  - rewrite <- (alloc_big_zero m held size Hi), <- (alloc_small_zero m held size Hi).
    unfold alloc in E. destruct (Z.leb_spec size SIZE_SMALL) as [Hsz|Hsz].
    + destruct (SingleMempool.alloc (mempool_small m)) as [q s] eqn:Eq. cbn [fst].
      destruct (Z.eqb_spec q 0) as [->|Hq]; cbn [negb] in E.
      * replace (m <| mempool_small := s |>) with m in E
          by (destruct (SingleMempool.hasSpace (mempool_small m)) eqn:Esp;
              [destruct Hi as (_ & hb & hs & _ & _ & Hs);
               pose proof (SingleMempool.alloc_nonzero _ _ HSS HCS
                 _ _ Hs Esp) as Hnz; rewrite Eq in Hnz; done
              |rewrite SingleMempool.pool_alloc_none in Eq by done; destruct m; by simplify_eq]).
        rewrite E. tauto.
      * injection E as -> _. split; [done|]. intros [[?|?] _]; [lia|congruence].
    + rewrite E. cbn. split; [intros ->; split; [by left; lia|done]|tauto].
  - intros Hp. unfold alloc in E.
    destruct (basic_alloc_ok _ _ _ _ _ Hi E) as [[? _]|(_ & Hsz & Hf & Hi')]; [done|].
    split; [|done]. unfold chunk_size.
    destruct (Z.leb_spec (SingleMempool.pool (mempool_small m')) p) as [Hge|]; [|done].
    destruct (Z.leb_spec size SIZE_SMALL) as [|Hbig]; [done|exfalso].
    unfold alloc_big in E. destruct Hi as (Hl & hb & hs & Ep & Hb & Hs).
    destruct (Z.leb_spec size SIZE_BIG); [|lia].
    destruct (SingleMempool.hasSpace (mempool_big m)) eqn:Esp.
    + destruct (SingleMempool.pool_alloc_some SIZE_BIG COUNT_BIG _ _ Hb Esp)
        as (b & q & Ea & _ & Hq & Hpq). rewrite Ea in E. injection E as <- <-. cbn in Hge.
      pose proof (held_bounds SIZE_BIG COUNT_BIG q _ b HSB Hq ltac:(left)). lia.
    + rewrite SingleMempool.pool_alloc_none in E by done. congruence.
Qed.

End Properties.

(** The default configuration of [IPStack_Config.h]. *)
Definition default_config : BasicMempool.Config :=
  {| BasicMempool.tBLOCKSIZE_1 := 1514; BasicMempool.tCOUNT_1 := 4;
     BasicMempool.tBLOCKSIZE_2 := 64; BasicMempool.tCOUNT_2 := 4 |}.

Lemma default_config_ok : @BasicMempool.ConfigOk default_config.
Proof. by split. Defined.

Definition default_pool : BasicMempool.t :=
  @BasicMempool.init default_config 4096 16384.

(** The default pool after the requests for 40 and 60 bytes. *)
Definition default_pool2 : BasicMempool.t :=
  (@BasicMempool.alloc default_config (@BasicMempool.alloc default_config default_pool 40).2 60).2.

Lemma default_pool2_reach :
  @client_reach _ (@BasicMempool.basic_allocator default_config default_config_ok)
    default_pool default_pool2 [16512; 16576].
Proof.
  apply (reach_alloc _ (@BasicMempool.alloc default_config default_pool 40).2 [16576] 60);
    [|lia|vm_compute; reflexivity|done].
  apply (reach_alloc _ default_pool [] 40); [constructor|lia|vm_compute; reflexivity|done].
Qed.

Lemma mempool_held_disjoint_witness :
  (16576 + @chunk_size default_config default_pool2 16576 <= 16512
   ∨ 16512 + @chunk_size default_config default_pool2 16512 <= 16576)
  ∧ Z.of_nat (length [16512; 16576])
    <= @BasicMempool.COUNT_BIG default_config + @BasicMempool.COUNT_SMALL default_config.
Proof.
  refine (@mempool_held_disjoint default_config default_config_ok 4096 16384 default_pool2
    [16512; 16576] 16576 16512 _ _ _ default_pool2_reach _ _ _).
  - vm_compute; reflexivity.
  - vm_compute; reflexivity.
  - vm_compute; reflexivity.
  - right. left.
  - left.
  - vm_compute; congruence.
Defined.

Lemma mempool_alloc_complete_witness :
  (0 = 0 <-> ¬ (1600 <= @BasicMempool.SIZE_SMALL default_config
                ∧ SingleMempool.hasSpace (BasicMempool.mempool_small default_pool) = true)
           ∧ ¬ (1600 <= @BasicMempool.SIZE_BIG default_config
                ∧ SingleMempool.hasSpace (BasicMempool.mempool_big default_pool) = true)).
Proof.
  refine (proj1 (@mempool_alloc_complete default_config default_config_ok default_pool [] 1600 0
    default_pool _ _)).
  - apply (@BasicMempool.basic_init_inv default_config default_config_ok 4096 16384);
      vm_compute; reflexivity.
  - vm_compute; reflexivity.
Defined.

(** Double frees are not detected, as the source warns: the block is handed
    out twice. *)
Example single_double_free :
  let (b, p1) := SingleMempool.alloc (SingleMempool.init 64 2 4096) in
  let (_, p2) := SingleMempool.alloc p1 in
  (r3 ← SingleMempool.free 64 2 p2 b;
   r4 ← SingleMempool.free 64 2 r3.2 b;
   let (c, p5) := SingleMempool.alloc r4.2 in
   Some (c, (SingleMempool.alloc p5).1)) = Some (4160, 4160).
Proof. vm_compute. reflexivity. Qed.
