(* ===== verification/Ringbuffer.v ===== *)
(** * Ringbuffer: the packet queue between interrupt and application

    Models [util/Ringbuffer.h].  Module [BasicRingbuffer] holds the state and
    the three operations on it, in Z with the 8-bit positions of the source;
    the abstraction [contents] relates it to a bounded FIFO queue.  Section
    [Interleaving] splits [put] (run by the interrupt that received a packet)
    and [get] (run by the application) into their single volatile memory
    accesses and lets them interleave freely. *)

From S2P Require Import Prelude.

Open Scope Z_scope.

Module BasicRingbuffer.

(** [(tBUFFERSIZE < 2) ? 2 : ((tBUFFERSIZE > 255) ? 255 : tBUFFERSIZE)]. *)
Definition BUFFERSIZE (tBUFFERSIZE : Z) : Z :=
  if tBUFFERSIZE <? 2 then 2 else if 255 <? tBUFFERSIZE then 255 else tBUFFERSIZE.

Record t := mk { buffer : list Z; inpos_ : Z; outpos_ : Z }.
#[export] Instance eta_t : Settable t := λ r, mk (buffer r) (inpos_ r) (outpos_ r).

Section Ring.
Context (tBUFFERSIZE : Z).
Abbreviation B := (BUFFERSIZE tBUFFERSIZE).

(** The array is uninitialised: any content of the right length. *)
Definition init (garbage : list Z) : t := mk garbage 0 0.

Definition next (pos : Z) : Z := u8 ((pos + 1) mod B).

Definition isFull (r : t) : bool :=
  if negb ((inpos_ r + 1) mod B =? outpos_ r) then false else true.

Definition put (r : t) (val : Z) : t :=
  if negb ((inpos_ r + 1) mod B =? outpos_ r) then
    let r := r <| buffer := <[Z.to_nat (inpos_ r) := val]> (buffer r) |> in
    r <| inpos_ := next (inpos_ r) |>
  else r.

Definition get (r : t) : Z * t :=
  if negb (outpos_ r =? inpos_ r) then
    let val := nth (Z.to_nat (outpos_ r)) (buffer r) 0 in
    (val, r <| outpos_ := next (outpos_ r) |>)
  else (0, r).

(** ** The queue a buffer stands for *)

Definition count (r : t) : Z := (inpos_ r - outpos_ r) mod B.
Definition slot (r : t) (k : nat) : nat := Z.to_nat ((outpos_ r + Z.of_nat k) mod B).
Definition contents (r : t) : list Z :=
  map (λ k, nth (slot r k) (buffer r) 0) (seq 0 (Z.to_nat (count r))).

Record wf (r : t) : Prop := {
  wf_len : Z.of_nat (length (buffer r)) = B;
  wf_in : 0 <= inpos_ r < B;
  wf_out : 0 <= outpos_ r < B }.

Lemma size_range : 2 <= B <= 255.
Proof. unfold BUFFERSIZE. zcases; lia. Qed.

Lemma next_range pos : 0 <= next pos < B.
Proof. pose proof size_range. unfold next, u8. rewrite Z.mod_small; Z.div_mod_to_equations; lia. Qed.

Lemma next_eq pos : 0 <= pos < B -> next pos = if pos =? B - 1 then 0 else pos + 1.
Proof.
  pose proof size_range. intros Hp. unfold next, u8. destruct (Z.eqb_spec pos (B - 1)) as [->|].
  - replace (B - 1 + 1) with B by lia. by rewrite Z.mod_same by lia.
  - rewrite (Z.mod_small (pos + 1)) by lia. rewrite Z.mod_small; lia.
Qed.

Lemma count_range r : wf r -> 0 <= count r < B.
Proof. intros _. pose proof size_range. unfold count. apply Z.mod_pos_bound. lia. Qed.

(** A position before or after the wrap. *)
Lemma count_eq r : wf r ->
  count r = if outpos_ r <=? inpos_ r then inpos_ r - outpos_ r else inpos_ r - outpos_ r + B.
Proof.
  intros [_ H1 H2]. unfold count. destruct (Z.leb_spec (outpos_ r) (inpos_ r)).
  - apply Z.mod_small. lia.
  - rewrite <- (Z.mod_add _ 1) by lia. rewrite Z.mod_small; lia.
Qed.

Lemma length_contents r : wf r -> Z.of_nat (length (contents r)) = count r.
Proof. intros H. pose proof (count_range r H). unfold contents. rewrite length_map, length_seq. lia. Qed.

Lemma not_full_count r : wf r -> ((inpos_ r + 1) mod B ≠ outpos_ r) <-> count r < B - 1.
Proof.
  intros H. rewrite (count_eq r H). destruct H as [_ H1 H2].
  assert (E : (inpos_ r + 1) mod B = if inpos_ r =? B - 1 then 0 else inpos_ r + 1).
  { destruct (Z.eqb_spec (inpos_ r) (B - 1)) as [->|].
    - replace (B - 1 + 1) with B by lia. apply Z.mod_same. lia.
    - apply Z.mod_small. lia. }
  rewrite E. zcases; lia.
Qed.

Lemma empty_count r : wf r -> outpos_ r = inpos_ r <-> count r = 0.
Proof. intros H. rewrite (count_eq r H). destruct H as [_ H1 H2]. zcases; lia. Qed.

Lemma nth_insert_eq (l : list Z) i x : (i < length l)%nat -> nth i (<[i:=x]> l) 0 = x.
Proof.
  intros Hi. apply nth_lookup_Some. by apply list_lookup_insert_eq.
Qed.

Lemma nth_insert_ne (l : list Z) i j x : i ≠ j -> nth j (<[i:=x]> l) 0 = nth j l 0.
Proof. intros Hij. rewrite !nth_lookup. by rewrite list_lookup_insert_ne. Qed.

Lemma slot_eq r k : wf r -> Z.of_nat k < B ->
  Z.of_nat (slot r k) = if outpos_ r + Z.of_nat k <? B then outpos_ r + Z.of_nat k
                        else outpos_ r + Z.of_nat k - B.
Proof.
  intros [_ _ Ho] Hk. unfold slot. rewrite Z2Nat.id by (apply Z.mod_pos_bound; lia).
  destruct (Z.ltb_spec (outpos_ r + Z.of_nat k) B).
  - apply Z.mod_small. lia.
  - rewrite <- (Z.mod_add _ (-1)) by lia. rewrite Z.mod_small; lia.
Qed.

(** Writing the free slot does not touch the queued ones. *)
Lemma write_contents r v : wf r -> (inpos_ r + 1) mod B ≠ outpos_ r ->
  contents (r <| buffer := <[Z.to_nat (inpos_ r) := v]> (buffer r) |>) = contents r.
Proof.
  intros H Hn. unfold contents, count, slot. simpl_set. apply map_ext_in.
  intros k Hk%in_seq. apply nth_insert_ne. intros E. change ((inpos_ r - outpos_ r) mod B) with (count r) in Hk.
  pose proof (count_eq r H) as Ec. pose proof (count_range r H).
  pose proof (slot_eq r k H ltac:(lia)) as Es. unfold slot in Es.
  rewrite <- E in Es. destruct H as [_ H1 H2]. rewrite Z2Nat.id in Es by lia.
  revert Ec Es. zcases; lia.
Qed.

(** Advancing [inpos_] appends the slot's content. *)
Lemma advance_in_contents r : wf r -> (inpos_ r + 1) mod B ≠ outpos_ r ->
  contents (r <| inpos_ := next (inpos_ r) |>)
  = contents r ++ [nth (Z.to_nat (inpos_ r)) (buffer r) 0].
Proof.
  intros H Hn. pose proof (proj1 (not_full_count r H) Hn) as Hc.
  assert (H' : wf (r <| inpos_ := next (inpos_ r) |>)).
  { destruct H. split; simpl_set; [done|apply next_range|done]. }
  assert (Ec : count (r <| inpos_ := next (inpos_ r) |>) = count r + 1).
  { rewrite (count_eq _ H), (count_eq _ H') in *. simpl_set. destruct H as [_ H1 H2].
    rewrite next_eq in * by lia. revert Hc. zcases; lia. }
  unfold contents. rewrite Ec. pose proof (count_range r H).
  replace (Z.to_nat (count r + 1)) with (S (Z.to_nat (count r))) by lia.
  rewrite seq_S, map_app. simpl_set. f_equal. apply (f_equal (λ i, [nth i (buffer r) 0])).
  apply Nat2Z.inj. change (slot _ (Z.to_nat (count r))) with (slot r (Z.to_nat (count r))).
  rewrite slot_eq by (done || lia). rewrite Z2Nat.id by lia.
  pose proof (count_eq r H) as Eq. destruct H as [_ H1 H2]. rewrite Z2Nat.id by lia.
  revert Eq. zcases; lia.
Qed.

(** Advancing [outpos_] drops the first element. *)
Lemma advance_out_contents r : wf r -> outpos_ r ≠ inpos_ r ->
  contents r = nth (Z.to_nat (outpos_ r)) (buffer r) 0
               :: contents (r <| outpos_ := next (outpos_ r) |>).
Proof.
  intros H Hn.
  assert (H' : wf (r <| outpos_ := next (outpos_ r) |>)).
  { destruct H. split; simpl_set; [done|done|apply next_range]. }
  assert (Ec : count r = count (r <| outpos_ := next (outpos_ r) |>) + 1).
  { rewrite (count_eq _ H), (count_eq _ H'). simpl_set. destruct H as [_ Hi Ho].
    rewrite next_eq by lia. zcases; lia. }
  pose proof (count_range _ H'). pose proof (count_range _ H).
  unfold contents. rewrite Ec.
  replace (Z.to_nat (_ + 1)) with (S (Z.to_nat (count (r <| outpos_ := next (outpos_ r) |>)))) by lia.
  simpl seq. simpl map. f_equal.
  - f_equal. apply Nat2Z.inj. rewrite slot_eq by (done || lia). destruct H as [_ Hi Ho].
    rewrite Z2Nat.id by lia. zcases; lia.
  - rewrite <- seq_shift, map_map. apply map_ext_in. intros k Hk%in_seq. simpl_set. f_equal.
    apply Nat2Z.inj. rewrite !slot_eq by (done || lia). simpl_set. destruct H as [_ Hi Ho].
    rewrite next_eq by lia. zcases; lia.
Qed.

Lemma init_wf garbage : Z.of_nat (length garbage) = B -> wf (init garbage).
Proof. pose proof size_range. split; cbn; lia. Qed.

Lemma put_wf r v : wf r -> wf (put r v).
Proof.
  intros [H1 H2 H3]. unfold put. destruct (negb _); split; simpl_set;
    rewrite ?length_insert; auto using next_range.
Qed.

Lemma get_wf r : wf r -> wf (get r).2.
Proof.
  intros [H1 H2 H3]. unfold get. destruct (negb _); split; simpl_set; auto using next_range.
Qed.

End Ring.
End BasicRingbuffer.

(** ** Specification: a bounded FIFO queue *)

Inductive op := Put (val : Z) | Get | IsFull.
Inductive answer := APut | AGet (val : Z) | AFull (b : bool).

(** A queue of at most [cap] elements; a full queue drops what is put. *)
Definition queue_op (cap : Z) (q : list Z) (o : op) : answer * list Z :=
  match o with
  | Put v => (APut, if Z.of_nat (length q) <? cap then q ++ [v] else q)
  | Get => match q with [] => (AGet 0, []) | v :: q' => (AGet v, q') end
  | IsFull => (AFull (cap <=? Z.of_nat (length q)), q)
  end.

Definition ring_op (tBUFFERSIZE : Z) (r : BasicRingbuffer.t) (o : op) : answer * BasicRingbuffer.t :=
  match o with
  | Put v => (APut, BasicRingbuffer.put tBUFFERSIZE r v)
  | Get => let (v, r) := BasicRingbuffer.get tBUFFERSIZE r in (AGet v, r)
  | IsFull => (AFull (BasicRingbuffer.isFull tBUFFERSIZE r), r)
  end.

Fixpoint run {S} (f : S -> op -> answer * S) (s : S) (os : list op) : list answer :=
  match os with
  | [] => []
  | o :: os => let (a, s') := f s o in a :: run f s' os
  end.

Section Refinement.
Import BasicRingbuffer.
Context (tBUFFERSIZE : Z).
Abbreviation B := (BUFFERSIZE tBUFFERSIZE).
Abbreviation wf := (wf tBUFFERSIZE).
Abbreviation contents := (contents tBUFFERSIZE).

Lemma put_contents r v : wf r ->
  contents (put tBUFFERSIZE r v)
  = if Z.of_nat (length (contents r)) <? B - 1 then contents r ++ [v] else contents r.
Proof.
  intros H. rewrite length_contents by done. pose proof (not_full_count tBUFFERSIZE r H) as Hf.
  unfold put. destruct (Z.eqb_spec ((inpos_ r + 1) mod B) (outpos_ r)) as [E|E]; cbn [negb].
  - destruct (Z.ltb_spec (count tBUFFERSIZE r) (B - 1)) as [Hlt|]; [|done]. by apply Hf in Hlt.
  - destruct (Z.ltb_spec (count tBUFFERSIZE r) (B - 1)) as [_|]; [|apply Hf in E; lia].
    rewrite <- (write_contents tBUFFERSIZE r v H E).
    set (r' := r <| buffer := _ |>).
    assert (H' : wf r') by (destruct H; split; subst r'; simpl_set; rewrite ?length_insert; done).
    change (inpos_ r) with (inpos_ r'). rewrite (advance_in_contents tBUFFERSIZE r' H' E).
    do 2 f_equal. subst r'. simpl_set. rewrite nth_insert_eq; [done|].
    destruct H. lia.
Qed.

Lemma get_contents r : wf r ->
  queue_op (B - 1) (contents r) Get
  = (AGet (get tBUFFERSIZE r).1, contents (get tBUFFERSIZE r).2).
Proof.
  intros H. pose proof (length_contents _ r H) as Hl. pose proof (empty_count _ r H) as He.
  unfold get. destruct (Z.eqb_spec (outpos_ r) (inpos_ r)) as [E|E]; cbn [negb].
  - apply He in E. destruct (contents r) eqn:Ec; [|simpl in Hl; lia]. cbn. by rewrite Ec.
  - rewrite (advance_out_contents _ r H E). done.
Qed.

Lemma isFull_contents r : wf r ->
  isFull tBUFFERSIZE r = (B - 1 <=? Z.of_nat (length (contents r))).
Proof.
  intros H. rewrite length_contents by done. pose proof (not_full_count _ r H) as Hf.
  unfold isFull. destruct (Z.eqb_spec ((inpos_ r + 1) mod B) (outpos_ r)) as [E|E]; cbn [negb].
  - destruct (Z.leb_spec (B - 1) (count tBUFFERSIZE r)); [done|].
    exfalso. by apply Hf in E.
  - apply Hf in E. destruct (Z.leb_spec (B - 1) (count tBUFFERSIZE r)); [lia|done].
Qed.

Lemma ring_op_refines r o : wf r ->
  wf (ring_op tBUFFERSIZE r o).2
  ∧ queue_op (B - 1) (contents r) o
    = ((ring_op tBUFFERSIZE r o).1, contents (ring_op tBUFFERSIZE r o).2).
Proof.
  intros H. destruct o as [v| |]; cbn.
  - split; [by apply put_wf|]. by rewrite put_contents.
  - rewrite (surjective_pairing (get tBUFFERSIZE r)). cbn [fst snd].
    split; [by apply get_wf|]. exact (get_contents r H).
  - split; [done|]. by rewrite isFull_contents.
Qed.

(** C11: whatever the sequence of calls, a freshly constructed ring buffer
    answers exactly like a first-in-first-out queue of [BUFFERSIZE - 1]
    elements, through any number of wrap-arounds of its positions. *)
Theorem ring_refines_queue garbage os :
  Z.of_nat (length garbage) = B ->
  run (ring_op tBUFFERSIZE) (init garbage) os = run (queue_op (B - 1)) [] os.
Proof.
  intros Hg. assert (Hi : contents (init garbage) = []) by done. rewrite <- Hi.
  pose proof (init_wf tBUFFERSIZE garbage Hg) as Hw. clear Hi. revert Hw.
  generalize (init garbage) as r. induction os as [|o os IH]; intros r Hw; [done|].
  destruct (ring_op_refines r o Hw) as [Hw' Eq]. cbn [run]. rewrite Eq.
  rewrite (surjective_pairing (ring_op tBUFFERSIZE r o)). f_equal. by apply IH.
Qed.
End Refinement.

Lemma ring_refines_queue_witness :
  run (ring_op 3) (BasicRingbuffer.init [7; 7; 7]) [Put 1; Put 2; IsFull; Put 3; Get; Put 4; Get; Get; Get]
  = [APut; APut; AFull true; APut; AGet 1; APut; AGet 2; AGet 4; AGet 0].
Proof. exact (ring_refines_queue 3 [7; 7; 7] _ eq_refl). Defined.

(** ** Interleaving with the interrupt *)

Section Interleaving.
Import BasicRingbuffer.
Context (tBUFFERSIZE : Z).
Abbreviation B := (BUFFERSIZE tBUFFERSIZE).

(** Where the producer stands in [put] and the consumer in [get]. *)
Inductive ppc := PIdle | PCheck (val : Z) | PWrite (val : Z) | PAdvance (val : Z).
Inductive cpc := CIdle | CCheck | CRead | CAdvance (val : Z).

(** [accepted] and [consumed] record the completed calls. *)
Record sys := mkSys { ring : t; prod : ppc; cons : cpc; accepted : list Z; consumed : list Z }.

(** One memory access of either side. *)
Inductive step : sys -> sys -> Prop :=
| put_call r c a g v : step (mkSys r PIdle c a g) (mkSys r (PCheck v) c a g)
| put_check r c a g v :
    step (mkSys r (PCheck v) c a g)
         (mkSys r (if negb ((inpos_ r + 1) mod B =? outpos_ r) then PWrite v else PIdle) c a g)
| put_write r c a g v :
    step (mkSys r (PWrite v) c a g)
         (mkSys (r <| buffer := <[Z.to_nat (inpos_ r) := v]> (buffer r) |>) (PAdvance v) c a g)
| put_advance r c a g v :
    step (mkSys r (PAdvance v) c a g)
         (mkSys (r <| inpos_ := next tBUFFERSIZE (inpos_ r) |>) PIdle c (a ++ [v]) g)
| get_call r p a g : step (mkSys r p CIdle a g) (mkSys r p CCheck a g)
| get_check r p a g :
    step (mkSys r p CCheck a g)
         (mkSys r p (if negb (outpos_ r =? inpos_ r) then CRead else CIdle) a g)
| get_read r p a g :
    step (mkSys r p CRead a g)
         (mkSys r p (CAdvance (nth (Z.to_nat (outpos_ r)) (buffer r) 0)) a g)
| get_advance r p a g v :
    step (mkSys r p (CAdvance v) a g)
         (mkSys (r <| outpos_ := next tBUFFERSIZE (outpos_ r) |>) p CIdle a (g ++ [v])).

Definition start (garbage : list Z) : sys := mkSys (init garbage) PIdle CIdle [] [].

(** What holds between any two accesses: the positions the producer and the
    consumer have checked stay valid, and the buffer holds exactly what was
    accepted and not yet consumed. *)
Record sys_inv (s : sys) : Prop := {
  si_wf : wf tBUFFERSIZE (ring s);
  si_fifo : accepted s = consumed s ++ contents tBUFFERSIZE (ring s);
  si_prod : match prod s with
            | PWrite _ => (inpos_ (ring s) + 1) mod B ≠ outpos_ (ring s)
            | PAdvance v => (inpos_ (ring s) + 1) mod B ≠ outpos_ (ring s)
                            ∧ nth (Z.to_nat (inpos_ (ring s))) (buffer (ring s)) 0 = v
            | _ => True end;
  si_cons : match cons s with
            | CRead => outpos_ (ring s) ≠ inpos_ (ring s)
            | CAdvance v => outpos_ (ring s) ≠ inpos_ (ring s)
                            ∧ nth (Z.to_nat (outpos_ (ring s))) (buffer (ring s)) 0 = v
            | _ => True end }.

Lemma advance_in_nonempty r : wf tBUFFERSIZE r -> (inpos_ r + 1) mod B ≠ outpos_ r ->
  outpos_ r ≠ next tBUFFERSIZE (inpos_ r).
Proof.
  intros [_ H1 _] Hn E. apply Hn. rewrite E. unfold next, u8. clear E Hn.
  pose proof (size_range tBUFFERSIZE). symmetry. apply Z.mod_small.
  pose proof (Z.mod_pos_bound (inpos_ r + 1) B ltac:(lia)). lia.
Qed.

Lemma advance_out_not_full r : wf tBUFFERSIZE r -> outpos_ r ≠ inpos_ r ->
  (inpos_ r + 1) mod B ≠ next tBUFFERSIZE (outpos_ r).
Proof.
  intros [_ H1 H2] Hn E. pose proof (next_eq tBUFFERSIZE (outpos_ r) H2).
  pose proof (next_eq tBUFFERSIZE (inpos_ r) H1). pose proof (size_range tBUFFERSIZE).
  assert (E2 : next tBUFFERSIZE (inpos_ r) = (inpos_ r + 1) mod B)
    by (unfold next, u8; apply Z.mod_small;
        pose proof (Z.mod_pos_bound (inpos_ r + 1) B ltac:(lia)); lia).
  rewrite <- E2 in E. revert H H0. zcases; lia.
Qed.

Lemma step_inv s s' : sys_inv s -> step s s' -> sys_inv s'.
Proof.
  intros [Hw Hf Hp Hc] Hs. pose proof (size_range tBUFFERSIZE).
  destruct Hs as [r c a g v|r c a g v|r c a g v|r c a g v|r p a g|r p a g|r p a g|r p a g v];
    cbn in *; split; cbn; try done.
  - by destruct (Z.eqb_spec ((inpos_ r + 1) mod B) (outpos_ r)).
  - destruct Hw; split; simpl_set; rewrite ?length_insert; done.
  - by rewrite write_contents.
  - split; [done|]. apply nth_insert_eq. destruct Hw. lia.
  - destruct c as [| | |w]; try done. destruct Hc as [Hc Hv]. split; [done|].
    rewrite nth_insert_ne; [done|]. destruct Hw. lia.
  - destruct Hw; split; simpl_set; auto using next_range.
  - destruct Hp as [Hp Hv]. rewrite advance_in_contents, Hv, Hf by done. by rewrite app_assoc.
  - destruct Hp as [Hp Hv]. pose proof (advance_in_nonempty r Hw Hp).
    destruct c; simpl_set; tauto.
  - by destruct (Z.eqb_spec (outpos_ r) (inpos_ r)).
  - destruct Hw; split; simpl_set; auto using next_range.
  - destruct Hc as [Hc Hv]. rewrite Hf, (advance_out_contents tBUFFERSIZE r Hw Hc), Hv.
    by rewrite <- app_assoc.
  - destruct Hc as [Hc Hv]. pose proof (advance_out_not_full r Hw Hc).
    destruct p; simpl_set; tauto.
Qed.

(** C12: under every interleaving of the single memory accesses of one
    producer and one consumer, the consumer receives the accepted values, each
    once, unchanged and in order: what was accepted is what was consumed
    followed by what the buffer holds, and that is less than [BUFFERSIZE]. *)
Theorem ring_interrupt_safe garbage s :
  Z.of_nat (length garbage) = B -> rtc step (start garbage) s ->
  accepted s = consumed s ++ contents tBUFFERSIZE (ring s)
  ∧ Z.of_nat (length (accepted s)) < Z.of_nat (length (consumed s)) + B.
Proof.
  intros Hg Hr. assert (Hi : sys_inv s).
  { assert (H0 : sys_inv (start garbage)) by (split; try done; by apply init_wf).
    revert H0. induction Hr as [|s1 s2 s3 Hs _ IH]; [done|]. intros H0. apply IH.
    by eapply step_inv. }
  destruct Hi as [Hw Hf _ _]. split; [done|]. rewrite Hf, length_app.
  pose proof (length_contents _ _ Hw). pose proof (count_range _ _ Hw). lia.
Qed.
End Interleaving.

(** A [get] that overlaps a [put]. *)
Definition overlapped : sys :=
  mkSys (BasicRingbuffer.mk [5; 6] 1 1) (PWrite 6) CIdle [5] [5].

Lemma ring_interrupt_safe_witness :
  [5] = [5] ++ BasicRingbuffer.contents 2 (ring overlapped) ∧ 1 < 1 + BasicRingbuffer.BUFFERSIZE 2.
Proof.
  refine (ring_interrupt_safe 2 [0; 6] overlapped eq_refl _).
  apply rtc_l with (y := mkSys (BasicRingbuffer.mk [0; 6] 0 0) (PCheck 5) CIdle [] []);
    [constructor|].
  eapply rtc_l; [apply put_check|cbn]. eapply rtc_l; [apply put_write|cbn].
  eapply rtc_l; [apply get_call|cbn]. eapply rtc_l; [apply put_advance|cbn].
  eapply rtc_l; [apply get_check|cbn]. eapply rtc_l; [apply get_read|cbn].
  eapply rtc_l; [exact (put_call _ _ _ _ _ 6)|cbn]. eapply rtc_l; [apply get_advance|cbn].
  eapply rtc_l; [apply put_check|cbn]. apply rtc_refl.
Defined.
