(* ===== verification/Packet.v ===== *)
(** * Packet: header fields in memory

    A packet is the list of bytes it occupies; a header class of the source is
    a layout of fields over it.  [getf] and [setf] are a getter and a setter
    of such a class after weaving: fields of one byte, fields of 16 and 32
    bits whose accessors the [Little_Endian] aspect matches ([K16], [K32]) and
    fields whose accessors it does not match, which keep the host's byte order
    ([H16], [H32]).  A read past the end of the list gives 0 and a write there
    is dropped; the receive paths check lengths first, and the theorems about
    fields ask for the field to lie inside the packet. *)

From S2P Require Import Prelude Wire.

Open Scope Z_scope.

Inductive kind := K8 | K16 | K32 | H16 | H32.
Record field := Field { f_off : nat; f_kind : kind }.
#[export] Instance kind_eq_dec : EqDecision kind.
Proof. solve_decision. Defined.
#[export] Instance field_eq_dec : EqDecision field.
Proof. solve_decision. Defined.

Definition ksize (k : kind) : nat := match k with K8 => 1 | K16 | H16 => 2 | K32 | H32 => 4 end.
Definition fend (f : field) : nat := f_off f + ksize (f_kind f).
Definition in_range (k : kind) (v : Z) : Prop :=
  match k with K8 => is_u8 v | K16 | H16 => is_u16 v | K32 | H32 => is_u32 v end.

Definition get8 (o : nat) (p : bytes) : Z := nth o p 0.
Definition mem16 (e : endian) (o : nat) (p : bytes) : Z :=
  load16 e (get8 o p) (get8 (o + 1) p).
Definition mem32 (e : endian) (o : nat) (p : bytes) : Z :=
  load32 e (get8 o p) (get8 (o + 1) p) (get8 (o + 2) p) (get8 (o + 3) p).

Definition getf (e : endian) (f : field) (p : bytes) : Z :=
  match f_kind f with
  | K8 => get8 (f_off f) p
  | K16 => LittleEndian.Network_to_Host_Short e (mem16 e (f_off f) p)
  | K32 => LittleEndian.Network_to_Host_Long e (mem32 e (f_off f) p)
  | H16 => mem16 e (f_off f) p
  | H32 => mem32 e (f_off f) p
  end.

(** Store [l] from offset [o] on. *)
Fixpoint write (o : nat) (l : bytes) (p : bytes) : bytes :=
  match l with [] => p | b :: l => write (S o) l (<[o := b]> p) end.

(** The argument has been converted to the type of the field. *)
Definition fbytes (e : endian) (k : kind) (v : Z) : bytes :=
  match k with
  | K8 => [u8 v]
  | K16 => store16 e (LittleEndian.Host_to_Network_Short e (u16 v))
  | K32 => store32 e (LittleEndian.Host_to_Network_Long e (u32 v))
  | H16 => store16 e (u16 v)
  | H32 => store32 e (u32 v)
  end.
Definition setf (e : endian) (f : field) (v : Z) (p : bytes) : bytes :=
  write (f_off f) (fbytes e (f_kind f) v) p.

(** ** Laws of memory *)

Lemma length_write o l p : length (write o l p) = length p.
Proof. revert o p. induction l as [|b l IH]; intros o p; [done|]. cbn. by rewrite IH, length_insert. Qed.

Lemma is_bytes_write o l p : is_bytes p -> is_bytes l -> is_bytes (write o l p).
Proof.
  revert o p. induction l as [|b l IH]; intros o p Hp Hl; [done|].
  apply is_bytes_cons in Hl as [? ?]. cbn. apply IH; auto with width.
Qed.

Lemma get8_insert_ne o i x p : o ≠ i -> get8 o (<[i:=x]> p) = get8 o p.
Proof. intros. unfold get8. rewrite !nth_lookup. by rewrite list_lookup_insert_ne. Qed.

Lemma get8_insert_eq o x p : (o < length p)%nat -> get8 o (<[o:=x]> p) = x.
Proof. intros. unfold get8. apply nth_lookup_Some. by apply list_lookup_insert_eq. Qed.

Lemma get8_write_out i o l p :
  (i < o)%nat ∨ (o + length l <= i)%nat -> get8 i (write o l p) = get8 i p.
Proof.
  revert o p. induction l as [|b l IH]; intros o p Hi; [done|]. cbn [write length] in *.
  rewrite IH by lia. apply get8_insert_ne. lia.
Qed.

Lemma get8_write_in i o l p :
  (o + length l <= length p)%nat -> (o <= i < o + length l)%nat ->
  get8 i (write o l p) = nth (i - o) l 0.
Proof.
  revert o p. induction l as [|b l IH]; intros o p Hl Hi; [cbn in Hi; lia|]. cbn [write length] in *.
  destruct (Nat.eq_dec i o) as [->|].
  - rewrite get8_write_out by lia. rewrite get8_insert_eq by lia. by rewrite Nat.sub_diag.
  - rewrite IH by (rewrite ?length_insert; lia). by replace (i - o)%nat with (S (i - S o)) by lia.
Qed.

Lemma get8_range o p : is_bytes p -> is_u8 (get8 o p).
Proof.
  intros Hp. unfold get8. rewrite nth_lookup. destruct (p !! o) eqn:E; cbn; [|split; lia].
  by eapply is_bytes_lookup.
Qed.
#[export] Hint Resolve get8_range is_bytes_write : width.

Lemma length_fbytes e k v : length (fbytes e k v) = ksize k.
Proof. by destruct k, e. Qed.

Lemma fbytes_bytes e k v : is_bytes (fbytes e k v).
Proof. destruct k, e; cbn; solve_bytes. Qed.
#[export] Hint Resolve fbytes_bytes : width.

Lemma length_setf e f v p : length (setf e f v p) = length p.
Proof. apply length_write. Qed.

Lemma setf_bytes e f v p : is_bytes p -> is_bytes (setf e f v p).
Proof. intros. unfold setf. auto with width. Qed.
#[export] Hint Resolve setf_bytes : width.

Lemma write_app l m k r :
  length k = length m -> write (length l) k (l ++ m ++ r) = l ++ k ++ r.
Proof.
  revert l m. induction k as [|b k IH]; intros l [|x m] Hl; try done.
  injection Hl as Hl. cbn [write].
  rewrite insert_app_r_alt by lia. rewrite Nat.sub_diag. cbn [app insert list_insert].
  pose proof (IH (l ++ [b]) m Hl) as E. rewrite length_app, Nat.add_1_r in E.
  rewrite <- !app_assoc in E. exact E.
Qed.

Lemma drop_write n o l p : (o + length l <= n)%nat -> drop n (write o l p) = drop n p.
Proof.
  revert o p. induction l as [|b l IH]; intros o p Hl; [done|]. cbn [write length] in *.
  rewrite IH by lia. apply drop_insert_lt. lia.
Qed.

Lemma write_write o l k p : write (o + length l) k (write o l p) = write o (l ++ k) p.
Proof.
  revert o p. induction l as [|b l IH]; intros o p; cbn [write app length].
  - by rewrite Nat.add_0_r.
  - rewrite <- IH. f_equal. lia.
Qed.

(** A setter changes only its own field. *)
Lemma getf_setf_ne e f g v p :
  (fend g <= f_off f)%nat ∨ (fend f <= f_off g)%nat -> getf e g (setf e f v p) = getf e g p.
Proof.
  intros Hd. unfold setf. unfold fend in Hd.
  assert (H : forall i, (f_off g <= i < f_off g + ksize (f_kind g))%nat ->
    get8 i (write (f_off f) (fbytes e (f_kind f) v) p) = get8 i p)
    by (intros i Hi; apply get8_write_out; rewrite length_fbytes; lia).
  unfold getf, mem16, mem32. destruct (f_kind g); cbn in H |- *; rewrite ?H by lia; done.
Qed.

(** A getter returns what its setter stored. *)
Lemma getf_setf_eq e f v p :
  (fend f <= length p)%nat -> in_range (f_kind f) v -> getf e f (setf e f v p) = v.
Proof.
  destruct f as [o k]. unfold setf, getf, mem16, mem32, fend. cbn [f_off f_kind]. intros Hl Hv.
  assert (H : forall i, (i < ksize k)%nat ->
    get8 (o + i) (write o (fbytes e k v) p) = nth i (fbytes e k v) 0).
  { intros i Hi. rewrite get8_write_in by (rewrite length_fbytes; lia). f_equal. lia. }
  pose proof (H 0%nat) as H0. rewrite Nat.add_0_r in H0.
  destruct k; cbn [ksize in_range] in *; rewrite ?H0, ?H by lia; cbn [fbytes nth].
  - by apply u8_id.
  - rewrite LittleEndian.set16_network by side. cbn [be16 nth].
    rewrite LittleEndian.get16_network by side. rewrite of_be16_be16 by side. by apply u16_id.
  - rewrite LittleEndian.set32_network by side. cbn [be32 nth].
    rewrite LittleEndian.get32_network by side. rewrite of_be32_be32 by side. by apply u32_id.
  - destruct e; cbn; zlia.
  - destruct e; cbn; zlia.
Qed.

(** Writing inside of the first part of a packet, and behind it. *)
Lemma write_app_in o l p r : (o + length l <= length p)%nat -> write o l (p ++ r) = write o l p ++ r.
Proof.
  revert o p. induction l as [|b l IH]; intros o p Hl; [done|]. cbn [write length] in *.
  rewrite insert_app_l by lia. apply IH. rewrite length_insert. lia.
Qed.
Lemma write_app_behind a k l r : write (length a + k) l (a ++ r) = a ++ write k l r.
Proof.
  revert k r. induction l as [|b l IH]; intros k r; [done|]. cbn [write].
  rewrite insert_app_r. replace (S (length a + k)) with (length a + S k)%nat by lia. apply IH.
Qed.
Lemma setf_app e f v p r : (fend f <= length p)%nat -> setf e f v (p ++ r) = setf e f v p ++ r.
Proof. intros Hf. unfold setf. apply write_app_in. by rewrite length_fbytes. Qed.

(** A field laid out between other bytes is read back. *)
Lemma getf_at e k v l r : in_range k v -> getf e (Field (length l) k) (l ++ fbytes e k v ++ r) = v.
Proof.
  intros Hv. rewrite <- (write_app l (repeat 0 (ksize k)) (fbytes e k v) r)
    by (rewrite length_fbytes, repeat_length; done).
  apply (getf_setf_eq e (Field (length l) k)); [|done].
  unfold fend. cbn [f_off f_kind]. rewrite !length_app, repeat_length. lia.
Qed.

(** The value of a woven field is its bytes in network order. *)
Lemma getf_K16 e o p : is_bytes p -> getf e (Field o K16) p = of_be16 (get8 o p) (get8 (o + 1) p).
Proof. intros. apply LittleEndian.get16_network; side. Qed.

Lemma getf_K32 e o p : is_bytes p ->
  getf e (Field o K32) p
  = of_be32 (get8 o p) (get8 (o + 1) p) (get8 (o + 2) p) (get8 (o + 3) p).
Proof. intros. apply LittleEndian.get32_network; side. Qed.

(** A field inside the first part of a packet is there. *)
Lemma getf_app e f l r : (fend f <= length l)%nat -> getf e f (l ++ r) = getf e f l.
Proof.
  intros Hf. destruct f as [o k]. unfold fend in Hf. cbn [f_off f_kind] in Hf.
  assert (H : forall i, (i < ksize k)%nat -> get8 (o + i) (l ++ r) = get8 (o + i) l)
    by (intros i Hi; unfold get8; apply app_nth1; lia).
  pose proof (H 0%nat) as H0. rewrite Nat.add_0_r in H0.
  unfold getf, mem16, mem32. destruct k; cbn [f_off f_kind ksize] in *; rewrite ?H0, ?H by lia; done.
Qed.

Lemma getf_range e f p : is_bytes p -> in_range (f_kind f) (getf e f p).
Proof.
  intros Hp. destruct f as [o k]. destruct k; cbn [f_kind in_range].
  - apply get8_range, Hp.
  - rewrite getf_K16 by done. side.
  - rewrite getf_K32 by done. side.
  - unfold getf, mem16. cbn. pose proof (get8_range o p Hp). pose proof (get8_range (o + 1) p Hp).
    destruct e; cbn; zlia.
  - unfold getf, mem32. cbn. pose proof (get8_range o p Hp). pose proof (get8_range (o + 1) p Hp).
    pose proof (get8_range (o + 2) p Hp). pose proof (get8_range (o + 3) p Hp).
    destruct e; cbn; zlia.
Qed.

(** Bytes written are read back, bytes beside them are as before. *)
Lemma read_write o l p : (o + length l <= length p)%nat -> take (length l) (drop o (write o l p)) = l.
Proof.
  intros Hl. rewrite <- (take_drop o p) at 1. rewrite <- (take_drop (length l) (drop o p)).
  assert (Ho : length (take o p) = o) by (rewrite length_take; lia).
  rewrite <- Ho at 2. rewrite write_app by (rewrite length_take, length_drop; lia).
  rewrite <- Ho at 1. by rewrite drop_app_length, take_app_length.
Qed.

Lemma read_insert o n i x (p : bytes) : (i < o)%nat ∨ (o + n <= i)%nat -> take n (drop o (<[i:=x]> p)) = take n (drop o p).
Proof.
  intros [H|H]; [by rewrite drop_insert_lt|]. destruct (decide (o <= i)%nat).
  - rewrite drop_insert_ge by lia. by rewrite take_insert_ge by lia.
  - lia.
Qed.

Lemma read_write_out o n o' l (p : bytes) : (o' + length l <= o)%nat ∨ (o + n <= o')%nat ->
  take n (drop o (write o' l p)) = take n (drop o p).
Proof.
  revert o' p. induction l as [|b l IH]; intros o' p Ho; [done|]. cbn [write length] in *.
  rewrite IH by lia. apply read_insert. lia.
Qed.

Lemma getf_write_out e f o l p : (o + length l <= f_off f)%nat ∨ (fend f <= o)%nat ->
  getf e f (write o l p) = getf e f p.
Proof.
  intros Hf. destruct f as [g k]. unfold fend in Hf. unfold getf, mem16, mem32.
  destruct k; cbn in Hf |- *; rewrite ?get8_write_out by lia; done.
Qed.

(** ** Layouts *)

(** Fields of a header that do not overlap and fit in [size] bytes. *)
Definition before (f g : field) : bool := Nat.leb (fend f) (f_off g).
Fixpoint layout_ok (size : nat) (fs : list field) : bool :=
  match fs with
  | [] => true
  | f :: fs => Nat.leb (fend f) size && forallb (before f) fs && layout_ok size fs
  end.

Lemma layout_in size fs f : layout_ok size fs = true -> f ∈ fs -> (fend f <= size)%nat.
Proof.
  induction fs as [|g fs IH]; [by intros ? ?%elem_of_nil|]. cbn.
  rewrite !andb_true_iff. intros [[H1%Nat.leb_le _] H2] Hf.
  apply elem_of_cons in Hf as [->|Hf]; auto.
Qed.

Lemma layout_disjoint size fs f g :
  layout_ok size fs = true -> f ∈ fs -> g ∈ fs -> f ≠ g ->
  (fend f <= f_off g)%nat ∨ (fend g <= f_off f)%nat.
Proof.
  induction fs as [|h fs IH]; [by intros ? ?%elem_of_nil|]. cbn.
  rewrite !andb_true_iff. intros [[_ Hb] Hl] Hf Hg Hne. rewrite forallb_forall in Hb.
  assert (Hb' : forall x, x ∈ fs -> (fend h <= f_off x)%nat).
  { intros x Hx. apply Nat.leb_le. apply Hb. by apply list_elem_of_In. }
  apply elem_of_cons in Hf as [->|Hf]; apply elem_of_cons in Hg as [->|Hg]; auto; done.
Qed.

(** In a layout, setting a field and reading any field gives the new value of
    that field and the old values of all others. *)
Lemma layout_law size fs e f g v p :
  layout_ok size fs = true -> (size <= length p)%nat -> f ∈ fs -> g ∈ fs ->
  in_range (f_kind f) v ->
  getf e g (setf e f v p) = if decide (f = g) then v else getf e g p.
Proof.
  intros Hl Hp Hf Hg Hv. destruct (decide (f = g)) as [<-|Hne].
  - apply getf_setf_eq; [|done]. pose proof (layout_in _ _ _ Hl Hf). lia.
  - apply getf_setf_ne. destruct (layout_disjoint _ _ _ _ Hl Hf Hg Hne); [by right|by left].
Qed.
