(* ===== verification/TcpSegment.v ===== *)
(** * TcpSegment: the TCP header

    Models [tcp/TCP.h] (class [TCP_Segment]), the maximum segment size option
    of [tcp/tcp_options/MSS_TCP_Segment_Slice.ah] and the reset segments of
    [tcp/Management_TCP_Socket.cpp].  A segment is the bytes it occupies; the
    accessors are woven with the [Little_Endian] aspect.  Sequence numbers are
    32-bit values compared by the sign of their difference. *)

From S2P Require Import Prelude Wire Packet.

Open Scope Z_scope.

Module TCP_Segment.

Definition TCP_MIN_HEADER_SIZE : Z := 20.
Definition IP_TYPE_TCP : Z := 6.
Definition UNUSED_PORT : Z := 0.
Definition DEFAULT_MSS : Z := 536.

Definition FIN_FLAG : Z := 1.
Definition SYN_FLAG : Z := 2.
Definition RST_FLAG : Z := 4.
Definition PSH_FLAG : Z := 8.
Definition ACK_FLAG : Z := 16.
Definition URG_FLAG : Z := 32.

(** The private members. *)
Definition f_sport := Field 0 K16.
Definition f_dport := Field 2 K16.
Definition f_seqnum := Field 4 K32.
Definition f_acknum := Field 8 K32.
Definition f_header_len := Field 12 K8.
Definition f_flags := Field 13 K8.
Definition f_window := Field 14 K16.
Definition f_checksum := Field 16 K16.
Definition f_urgend_ptr := Field 18 K16.
Definition members : list field :=
  [f_sport; f_dport; f_seqnum; f_acknum; f_header_len; f_flags; f_window; f_checksum; f_urgend_ptr].
(** Offset of [data]. *)
Definition o_data : nat := 20.

Section Accessors.
Context (e : endian).

Definition get_sport := getf e f_sport.
Definition set_sport := setf e f_sport.
Definition get_dport := getf e f_dport.
Definition set_dport := setf e f_dport.
Definition get_seqnum := getf e f_seqnum.
Definition set_seqnum := setf e f_seqnum.
Definition get_acknum := getf e f_acknum.
Definition set_acknum := setf e f_acknum.

Definition get_header_len (p : bytes) : Z := Z.land (Z.shiftr (getf e f_header_len p) 4) 0xF.
Definition set_header_len (len : Z) : bytes -> bytes :=
  setf e f_header_len (Z.land (Z.shiftl len 4) 0xF0).

Definition has_flag (flag : Z) (p : bytes) : bool := negb (Z.land (getf e f_flags p) flag =? 0).
Definition has_FIN := has_flag FIN_FLAG.
Definition has_SYN := has_flag SYN_FLAG.
Definition has_RST := has_flag RST_FLAG.
Definition has_PSH := has_flag PSH_FLAG.
Definition has_ACK := has_flag ACK_FLAG.
Definition has_URG := has_flag URG_FLAG.

Definition set_flag (flag : Z) (p : bytes) : bytes :=
  setf e f_flags (Z.lor (getf e f_flags p) flag) p.
Definition set_FIN := set_flag FIN_FLAG.
Definition set_SYN := set_flag SYN_FLAG.
Definition set_RST := set_flag RST_FLAG.
Definition set_PSH := set_flag PSH_FLAG.
Definition set_ACK := set_flag ACK_FLAG.
Definition set_URG := set_flag URG_FLAG.

Definition set_flags := setf e f_flags.
Definition get_window := getf e f_window.
Definition set_window := setf e f_window.
Definition get_checksum := getf e f_checksum.
Definition set_checksum := setf e f_checksum.
Definition get_urgend_ptr := getf e f_urgend_ptr.
Definition set_urgend_ptr := setf e f_urgend_ptr.

(** The memory from the payload on. *)
Definition get_data (p : bytes) : bytes := drop (Z.to_nat (get_header_len p * 4)) p.
Definition get_options_len (p : bytes) : Z := u8 ((get_header_len p - TCP_MIN_HEADER_SIZE / 4) * 4).

(** ** The maximum segment size option *)

(** [set_option_mss]: the setter advice has swapped the argument, the option
    is stored as it stands in host order. *)
Definition set_option_mss (mss : Z) (p : bytes) : bytes :=
  let mss := LittleEndian.Host_to_Network_Short e (u16 mss) in
  let i := Z.to_nat (get_options_len p) in
  let p := setf e (Field (o_data + i) K8) 2 p in
  let p := setf e (Field (o_data + i + 1) K8) 4 p in
  let p := setf e (Field (o_data + i + 2) H16) mss p in
  set_header_len (u8 (get_header_len p + 1)) p.

(** One round of the [while] of [get_option_mss] at option offset [i]. *)
Definition option_step (p : bytes) (opt_len i : Z) : Z + Z :=
  if i <? opt_len then
    let kind := get8 (o_data + Z.to_nat i) p in
    let len := get8 (o_data + Z.to_nat (i + 1)) p in
    if kind =? 0 then inr 0
    else if kind =? 1 then inl (i + 1)
    else if kind =? 2 then
      if 4 <=? len then inr (mem16 e (o_data + Z.to_nat (i + 2)) p)
      else inr (get8 (o_data + Z.to_nat (i + 2)) p)
    else inl (i + len)
  else inr 0.

(** [None]: still searching after [fuel] options.  The getter advice swaps the
    result. *)
Definition get_option_mss (fuel : nat) (p : bytes) : option Z :=
  res ← loop fuel (option_step p (get_options_len p)) 0;
  Some (LittleEndian.Network_to_Host_Short e res).

End Accessors.

(** ** Sequence numbers *)

Definition SEQ_LT (a b : Z) : bool := s32 (a - b) <? 0.
Definition SEQ_LEQ (a b : Z) : bool := s32 (a - b) <=? 0.
Definition SEQ_GT (a b : Z) : bool := 0 <? s32 (a - b).
Definition SEQ_GEQ (a b : Z) : bool := 0 <=? s32 (a - b).

(** The sequence numbers of two stream positions less than [2^31] apart. *)
Lemma s32_sub x y : -2147483648 <= x - y < 2147483648 -> s32 (u32 x - u32 y) = x - y.
Proof.
  intros H. unfold s32, u32. rewrite <- Zminus_mod.
  destruct (Z.ltb_spec ((x - y) mod 4294967296) 2147483648); Z.div_mod_to_equations; lia.
Qed.

Lemma SEQ_LT_spec x y : -2147483648 <= x - y < 2147483648 -> SEQ_LT (u32 x) (u32 y) = (x <? y).
Proof. intros H. unfold SEQ_LT. rewrite s32_sub by done. zcases; lia. Qed.

Lemma SEQ_LEQ_spec x y : -2147483648 <= x - y < 2147483648 -> SEQ_LEQ (u32 x) (u32 y) = (x <=? y).
Proof. intros H. unfold SEQ_LEQ. rewrite s32_sub by done. zcases; lia. Qed.

Lemma SEQ_GT_spec x y : -2147483648 <= x - y < 2147483648 -> SEQ_GT (u32 x) (u32 y) = (y <? x).
Proof. intros H. unfold SEQ_GT. rewrite s32_sub by done. zcases; lia. Qed.

Lemma SEQ_GEQ_spec x y : -2147483648 <= x - y < 2147483648 -> SEQ_GEQ (u32 x) (u32 y) = (y <=? x).
Proof. intros H. unfold SEQ_GEQ. rewrite s32_sub by done. zcases; lia. Qed.

(** ** Flags and header length *)

Lemma members_layout : layout_ok 20 members = true.
Proof. reflexivity. Qed.

Lemma header_len_roundtrip e len p :
  (20 <= length p)%nat -> 0 <= len < 16 -> get_header_len e (set_header_len e len p) = len.
Proof.
  intros Hp Hl. unfold get_header_len, set_header_len.
  rewrite getf_setf_eq; [|cbn; lia|].
  - assert (H : forallb (λ n, Z.land (Z.shiftr (Z.land (Z.shiftl (Z.of_nat n) 4) 0xF0) 4) 0xF
                            =? Z.of_nat n) (seq 0 16) = true) by reflexivity.
    rewrite forallb_forall in H. specialize (H (Z.to_nat len) ltac:(apply in_seq; lia)).
    apply Z.eqb_eq in H. by rewrite Z2Nat.id in H by lia.
  - cbn. rewrite shiftl_mul by lia. change 0xF0 with (Z.shiftl 15 4).
    rewrite land_shiftl_mask, shiftr_div, shiftl_mul by lia.
    change 15 with (Z.ones 4). rewrite mask_mod by lia. split; [|]; Z.div_mod_to_equations; lia.
Qed.

Lemma header_len_range e p : is_bytes p -> 0 <= get_header_len e p < 16.
Proof.
  intros Hp. unfold get_header_len. change 0xF with (Z.ones 4). rewrite mask_mod by lia.
  apply Z.mod_pos_bound. lia.
Qed.

End TCP_Segment.

(** ** TCP options *)

Module TcpOptions.
Import TCP_Segment.

(** The options RFC 793 allows before the end of the header. *)
Inductive option_t := Nop | Other (kind : Z) (data : bytes) | Mss (v : Z).

Definition encode1 (o : option_t) : bytes :=
  match o with
  | Nop => [1]
  | Other kind data => [kind; 2 + Z.of_nat (length data)] ++ data
  | Mss v => [2; 4] ++ be16 v
  end.
Definition encode (os : list option_t) : bytes := concat (map encode1 os).

Definition option_wf (o : option_t) : Prop :=
  match o with
  | Nop => True
  | Other kind data => 3 <= kind < 256 ∧ is_bytes data ∧ Z.of_nat (length data) < 254
  | Mss v => is_u16 v
  end.

(** The value of the first MSS option, 0 if there is none. *)
Fixpoint first_mss (os : list option_t) : Z :=
  match os with [] => 0 | Mss v :: _ => v | _ :: os => first_mss os end.

(** [p] is a segment with the options [os]. *)
Definition has_options (e : endian) (p : bytes) (os : list option_t) : Prop :=
  is_bytes p ∧ Forall option_wf os ∧ 5 <= get_header_len e p
  ∧ Z.of_nat (length (encode os)) = 4 * (get_header_len e p - 5)
  ∧ exists rest, drop 20 p = encode os ++ rest.

Lemma get8_drop n k p : get8 (n + k) p = get8 k (drop n p).
Proof. unfold get8. by rewrite !nth_lookup, lookup_drop. Qed.

Lemma get8_app k l r : get8 (length l + k) (l ++ r) = get8 k r.
Proof. unfold get8. rewrite app_nth2 by lia. f_equal. lia. Qed.

Lemma get8_at k p pre r i :
  drop 20 p = pre ++ r -> i = Z.of_nat (length pre + k) -> get8 (o_data + Z.to_nat i) p = get8 k r.
Proof. intros Hd ->. rewrite get8_drop. unfold o_data. rewrite Hd, Nat2Z.id. apply get8_app. Qed.

Lemma options_len_value e p os : has_options e p os ->
  get_options_len e p = Z.of_nat (length (encode os)).
Proof.
  intros (Hb & _ & H5 & Hl & _). pose proof (header_len_range e p Hb).
  unfold get_options_len, TCP_MIN_HEADER_SIZE. rewrite Hl. change (20 / 4) with 5. zlia.
Qed.

(** The search from any option boundary finds the first MSS option. *)
Lemma option_loop_spec e p pre os rest :
  is_bytes p -> Forall option_wf os -> drop 20 p = pre ++ encode os ++ rest ->
  exists res,
    loop (S (length os)) (option_step e p (Z.of_nat (length (pre ++ encode os))))
         (Z.of_nat (length pre)) = Some res
    ∧ LittleEndian.Network_to_Host_Short e res = first_mss os.
Proof.
  intros Hb. revert pre. induction os as [|o os IH]; intros pre Hwf Hd.
  - cbn [encode map concat]. exists 0. rewrite app_nil_r. cbn. unfold option_step.
    rewrite Z.ltb_irrefl. split; [done|]. by destruct e.
  - apply Forall_cons in Hwf as [Ho Hwf]. specialize (IH (pre ++ encode1 o) Hwf).
    change (encode (o :: os)) with (encode1 o ++ encode os) in *.
    rewrite <- !app_assoc in IH. rewrite <- !app_assoc in Hd. specialize (IH Hd).
    assert (Hlt : Z.of_nat (length pre) < Z.of_nat (length (pre ++ encode1 o ++ encode os))).
    { rewrite !length_app. destruct o; cbn; lia. }
    cbn [length loop]. unfold option_step at 1. destruct (Z.ltb_spec (Z.of_nat (length pre))
      (Z.of_nat (length (pre ++ encode1 o ++ encode os)))); [|lia].
    rewrite (get8_at 0 p pre _ _ Hd) by lia. rewrite (get8_at 1 p pre _ _ Hd) by lia.
    destruct o as [|k d|v]; cbn [first_mss].
    + replace (Z.of_nat (length pre) + 1) with (Z.of_nat (length (pre ++ encode1 Nop)))
        by (rewrite length_app; cbn; lia).
      exact IH.
    + destruct Ho as (Hk & _ & _). unfold get8. cbn [encode1 app nth].
      destruct (Z.eqb_spec k 0), (Z.eqb_spec k 1), (Z.eqb_spec k 2); try lia.
      replace (Z.of_nat (length pre) + (2 + Z.of_nat (length d)))
        with (Z.of_nat (length (pre ++ encode1 (Other k d)))) by (rewrite length_app; cbn; lia).
      exact IH.
    + unfold get8 at 1 2 3 4. cbn [encode1 app nth]. cbn [Z.eqb Z.leb Z.compare Pos.compare Pos.compare_cont Pos.eqb].
      eexists. split; [reflexivity|].
      unfold mem16. rewrite <- !Nat.add_assoc.
      replace (Z.to_nat (Z.of_nat (length pre) + 2) + 1)%nat
        with (Z.to_nat (Z.of_nat (length pre) + 3)) by lia.
      rewrite (get8_at 2 p pre _ _ Hd), (get8_at 3 p pre _ _ Hd) by lia.
      cbn. rewrite LittleEndian.get16_network by side. by rewrite of_be16_be16.
Qed.

(** On a segment whose options are any sequence RFC 793 allows,
    [get_option_mss] returns after at most one round per option, and with the
    value of the first MSS option (0 without one), on hosts of either byte
    order. *)
Theorem get_option_mss_correct e p os :
  has_options e p os -> get_option_mss e (S (length os)) p = Some (first_mss os).
Proof.
  intros H. unfold get_option_mss. rewrite (options_len_value e p os H).
  destruct H as (Hb & Hwf & _ & _ & rest & Hd).
  destruct (option_loop_spec e p [] os rest Hb Hwf Hd) as (res & Hl & Hr).
  cbn [app] in Hl. change (Z.of_nat (length [])) with 0 in Hl. rewrite Hl. cbn. by rewrite Hr.
Qed.

Definition syn_with_options : bytes :=
  [0;80; 31;144; 0;0;0;1; 0;0;0;0; 128;2; 16;0; 0;0; 0;0] ++ [1; 1; 4; 2; 2; 4; 5; 180; 1; 3; 3; 7] ++ [9].

Lemma get_option_mss_correct_witness : get_option_mss LE 7 syn_with_options = Some 1460.
Proof.
  refine (get_option_mss_correct LE syn_with_options
    [Nop; Nop; Other 4 []; Mss 1460; Nop; Other 3 [7]] _).
  split; [repeat (apply Forall_cons_2; [split; lia|]); apply Forall_nil_2|].
  split; [|split; [vm_compute; congruence|split; [reflexivity|by exists [9]]]].
  repeat apply Forall_cons_2; cbn; try done; try (split; lia).
  - repeat split; try lia. apply Forall_nil_2.
  - repeat split; try lia. apply Forall_cons_2; [split; lia|apply Forall_nil_2].
Defined.

Lemma encode_app os os' : encode (os ++ os') = encode os ++ encode os'.
Proof. unfold encode. by rewrite map_app, concat_app. Qed.

Lemma get_header_len_write e o l p :
  (20 <= o)%nat -> get_header_len e (write o l p) = get_header_len e p.
Proof. intros Ho. unfold get_header_len, getf, f_header_len. cbn. rewrite get8_write_out; [done|lia]. Qed.

(** The four bytes [set_option_mss] stores. *)
Lemma set_option_mss_write e mss p : is_u16 mss ->
  set_option_mss e mss p
  = set_header_len e (u8 (get_header_len e p + 1))
      (write (o_data + Z.to_nat (get_options_len e p)) ([2; 4] ++ be16 mss) p).
Proof.
  intros Hm. unfold set_option_mss. set (o := (o_data + _)%nat).
  assert (E : setf e (Field (o + 2) H16) (LittleEndian.Host_to_Network_Short e (u16 mss))
                (setf e (Field (o + 1) K8) 4 (setf e (Field o K8) 2 p))
              = write o ([2; 4] ++ be16 mss) p).
  { unfold setf. cbn [f_off f_kind fbytes]. rewrite (u16_id mss Hm).
    rewrite (u16_id (LittleEndian.Host_to_Network_Short e mss))
      by (destruct e; [apply u16_range|done]).
    rewrite LittleEndian.set16_network by done.
    change ([2; 4] ++ be16 mss) with (([2] ++ [4]) ++ be16 mss). by rewrite <- !write_write. }
  rewrite E. f_equal. f_equal. rewrite get_header_len_write; [done|unfold o, o_data; lia].
Qed.

Lemma set_option_mss_options e mss p os :
  has_options e p os -> is_u16 mss -> get_header_len e p <= 14 ->
  (24 + length (encode os) <= length p)%nat ->
  has_options e (set_option_mss e mss p) (os ++ [Mss mss]).
Proof.
  intros H Hm H14 Hlen. rewrite set_option_mss_write by done.
  rewrite (options_len_value e p os H), Nat2Z.id.
  destruct H as (Hb & Hwf & H5 & Hl & rest & Hd).
  set (q := write _ _ p).
  assert (Hq : is_bytes q) by (apply is_bytes_write; [done|cbn; solve_bytes; split; lia]).
  assert (Hql : length q = length p) by apply length_write.
  assert (Hdq : exists rest', drop 20 q = encode os ++ encode1 (Mss mss) ++ rest').
  { pose proof (take_drop 20 p) as E. rewrite Hd in E.
    assert (Hr : length rest = (length p - 20 - length (encode os))%nat)
      by (apply (f_equal length) in Hd; rewrite length_drop, length_app in Hd; lia).
    exists (drop 4 rest). unfold q. rewrite <- E. rewrite <- (take_drop 4 rest) at 1.
    rewrite (app_assoc (take 20 p)).
    replace (o_data + length (encode os))%nat with (length (take 20 p ++ encode os))
      by (rewrite length_app, length_take; unfold o_data; lia).
    rewrite write_app by (rewrite length_take; cbn [length app be16]; lia).
    rewrite <- app_assoc, drop_app_length' by (rewrite length_take; lia). done. }
  destruct Hdq as [rest' Hdq].
  assert (Hh : get_header_len e (set_header_len e (u8 (get_header_len e p + 1)) q)
               = get_header_len e p + 1)
    by (rewrite header_len_roundtrip; [zlia|lia|zlia]).
  split; [unfold set_header_len; auto with width|].
  split; [apply Forall_app; split; [done|apply Forall_cons_2; [done|apply Forall_nil_2]]|].
  rewrite Hh, encode_app, length_app. cbn [encode map concat encode1 app length be16].
  split; [lia|]. split; [lia|]. exists rest'.
  unfold set_header_len, setf. rewrite drop_write by (cbn; lia).
  rewrite Hdq. by rewrite <- app_assoc.
Qed.

Lemma first_mss_app os o : first_mss os = 0 -> Forall (λ o, forall v, o = Mss v -> v ≠ 0) os ->
  first_mss (os ++ [o]) = first_mss [o].
Proof.
  induction os as [|[|k d|v] os IH]; cbn; intros H Hf; apply Forall_cons in Hf || done;
    try (apply IH; tauto).
  destruct Hf as [Hf _]. by destruct (Hf v).
Qed.

(** The MSS that [set_option_mss] appends to a header with any other
    options (and room for it) is what [get_option_mss] of the receiver, whose
    byte order may differ, reads. *)
Theorem mss_option_roundtrip e e' mss p os :
  has_options e p os -> first_mss os = 0 -> Forall (λ o, forall v, o = Mss v -> v ≠ 0) os ->
  is_u16 mss -> get_header_len e p <= 14 -> (24 + length (encode os) <= length p)%nat ->
  get_option_mss e' (S (S (length os))) (set_option_mss e mss p) = Some mss.
Proof.
  intros H H0 Hf Hm H14 Hlen.
  pose proof (set_option_mss_options e mss p os H Hm H14 Hlen) as (Hb & Hwf & H5 & Hl & rest & Hd).
  unfold get_option_mss.
  rewrite (options_len_value e' _ (os ++ [Mss mss])) by (repeat split; eauto).
  destruct (option_loop_spec e' _ [] _ rest Hb Hwf Hd) as (res & Hlp & Hr).
  cbn [app] in Hlp. change (Z.of_nat (length [])) with 0 in Hlp.
  rewrite length_app, Nat.add_1_r in Hlp. rewrite Hlp. cbn. rewrite Hr.
  by rewrite first_mss_app.
Qed.

Definition fresh_syn : bytes := [0;80; 31;144; 0;0;0;1; 0;0;0;0; 80;2; 16;0; 0;0; 0;0] ++ [7;7;7;7].

Lemma mss_option_roundtrip_witness :
  get_option_mss BE 2 (set_option_mss LE 1460 fresh_syn) = Some 1460.
Proof.
  refine (mss_option_roundtrip LE BE 1460 fresh_syn [] _ eq_refl _ _ _ _).
  - split; [repeat (apply Forall_cons_2; [split; lia|]); apply Forall_nil_2|].
    split; [apply Forall_nil_2|]. split; [vm_compute; congruence|]. split; [reflexivity|].
    by exists [7;7;7;7].
  - apply Forall_nil_2.
  - split; lia.
  - vm_compute; congruence.
  - cbn. lia.
Defined.

(** A SYN whose option has length 0 makes the search loop forever: no
    amount of fuel ends it. *)
Theorem get_option_mss_zero_length_hangs e fuel :
  get_option_mss e fuel
    ([0;80; 31;144; 0;0;0;1; 0;0;0;0; 96;2; 16;0; 0;0; 0;0] ++ [3; 0; 0; 0]) = None.
Proof.
  unfold get_option_mss. set (p := _ ++ _).
  assert (Hs : option_step e p (get_options_len e p) 0 = inl 0) by (destruct e; reflexivity).
  assert (H : loop fuel (option_step e p (get_options_len e p)) 0 = None).
  { induction fuel as [|n IH]; [done|]. cbn [loop]. by rewrite Hs. }
  by rewrite H.
Qed.

End TcpOptions.

(** ** Reset segments *)

Module Management_TCP_Socket.
Import TCP_Segment.

Section Reset.
Context (e : endian).

(** [prepareResponse]: [b] is the memory at the data pointer of the send
    buffer, [incoming] the segment answered. *)
Definition prepareResponse (b incoming : bytes) (payload_len : Z) : bytes :=
  let b := set_dport e (get_sport e incoming) b in
  let b := set_sport e (get_dport e incoming) b in
  let b := set_header_len e (TCP_MIN_HEADER_SIZE / 4) b in
  let b := set_window e 0 b in
  let b := set_urgend_ptr e 0 b in
  let b := set_checksum e 0 b in
  if has_ACK e incoming then
    let b := set_seqnum e (get_acknum e incoming) b in
    let b := set_flags e RST_FLAG b in
    set_acknum e 0 b
  else
    let payload_len :=
      if has_SYN e incoming || has_FIN e incoming then payload_len + 1 else payload_len in
    let b := set_seqnum e 0 b in
    let b := set_flags e (Z.lor RST_FLAG ACK_FLAG) b in
    set_acknum e (u32 (get_seqnum e incoming + payload_len)) b.

(** The payload length the IPv4 and the IPv6 reset advice pass on. *)
Definition reset_payload_v4 (total_len ihl : Z) (incoming : bytes) : Z :=
  total_len - (ihl + get_header_len e incoming) * 4.
Definition reset_payload_v6 (payload_length : Z) (incoming : bytes) : Z := payload_length.

(** Whether a segment nobody listens for is answered with a reset. *)
Definition answers_reset (incoming : bytes) : bool := Bool.eqb (has_RST e incoming) false.

End Reset.
End Management_TCP_Socket.

(** Read a member of the header through the setters of other members. *)
Ltac through :=
  repeat (unfold TCP_Segment.set_acknum, TCP_Segment.set_flags, TCP_Segment.set_seqnum,
            TCP_Segment.set_checksum, TCP_Segment.set_urgend_ptr, TCP_Segment.set_window,
            TCP_Segment.set_header_len, TCP_Segment.set_sport, TCP_Segment.set_dport,
            TCP_Segment.get_sport, TCP_Segment.get_dport, TCP_Segment.get_seqnum,
            TCP_Segment.get_acknum, TCP_Segment.get_window in *);
  repeat first
    [ rewrite getf_setf_eq by (rewrite ?length_setf; cbn; first [lia|side])
    | rewrite getf_setf_ne by (cbn; lia) ].

(** ** Properties *)

Section Properties.
Import TCP_Segment Management_TCP_Socket.

(** Reading a member of a 20-byte header after another one was set. *)
Lemma member_ne e f g v p :
  f ∈ members -> g ∈ members -> f ≠ g -> getf e g (setf e f v p) = getf e g p.
Proof.
  intros Hf Hg Hne. apply getf_setf_ne.
  destruct (layout_disjoint 20 members f g members_layout Hf Hg Hne); [by right|by left].
Qed.

Lemma member_eq e f v p :
  f ∈ members -> (20 <= length p)%nat -> in_range (f_kind f) v -> getf e f (setf e f v p) = v.
Proof.
  intros Hf Hp. apply getf_setf_eq. pose proof (layout_in 20 members f members_layout Hf). lia.
Qed.

(** The nine members of the header are independent: after any setter,
    its getter returns the stored value and every other getter what it
    returned before, on hosts of either byte order. *)
Theorem tcp_header_accessors e f g v p :
  f ∈ members -> g ∈ members -> (20 <= length p)%nat -> in_range (f_kind f) v ->
  getf e g (setf e f v p) = if decide (f = g) then v else getf e g p.
Proof. intros Hf Hg Hp Hv. by apply (layout_law 20 members). Qed.

Lemma tcp_header_accessors_witness :
  getf LE f_acknum (setf LE f_acknum 305419896 (repeat 0 20)) = 305419896.
Proof.
  refine (tcp_header_accessors LE f_acknum f_acknum 305419896 (repeat 0 20) _ _ _ _).
  - do 3 right. left.
  - do 3 right. left.
  - cbn. lia.
  - split; lia.
Defined.

(** For two stream positions less than [2^31] apart the four comparisons
    of their 32-bit sequence numbers agree with the comparison of the
    positions, wrap-around included. *)
Theorem seq_compare_correct x y :
  -2147483648 <= x - y < 2147483648 ->
  SEQ_LT (u32 x) (u32 y) = (x <? y) ∧ SEQ_LEQ (u32 x) (u32 y) = (x <=? y)
  ∧ SEQ_GT (u32 x) (u32 y) = (y <? x) ∧ SEQ_GEQ (u32 x) (u32 y) = (y <=? x).
Proof.
  intros H. repeat split; [apply SEQ_LT_spec|apply SEQ_LEQ_spec|apply SEQ_GT_spec|apply SEQ_GEQ_spec];
    done.
Qed.

Lemma seq_compare_correct_witness :
  SEQ_LT (u32 4294967290) (u32 4294967300) = (4294967290 <? 4294967300)
  ∧ SEQ_LEQ (u32 4294967290) (u32 4294967300) = (4294967290 <=? 4294967300)
  ∧ SEQ_GT (u32 4294967290) (u32 4294967300) = (4294967300 <? 4294967290)
  ∧ SEQ_GEQ (u32 4294967290) (u32 4294967300) = (4294967300 <=? 4294967290).
Proof. exact (seq_compare_correct 4294967290 4294967300 ltac:(lia)). Defined.

Lemma flags_after e v p : (20 <= length p)%nat -> is_u8 v -> getf e f_flags (set_flags e v p) = v.
Proof. intros. apply getf_setf_eq; [cbn; lia|done]. Qed.

(** The reset that answers a segment for no connection follows RFC 793
    page 36: to the sender's port; if the segment acknowledges something the
    reset takes its sequence number from the acknowledgement and carries no
    ACK, otherwise it has sequence number 0 and acknowledges the segment, a
    SYN or FIN counting as one. *)
Theorem reset_follows_rfc793 e b incoming len :
  is_bytes b -> is_bytes incoming -> (20 <= length b)%nat ->
  let r := prepareResponse e b incoming len in
  get_dport e r = get_sport e incoming ∧ get_sport e r = get_dport e incoming
  ∧ get_window e r = 0 ∧ has_RST e r = true
  ∧ (has_ACK e incoming = true ->
     get_seqnum e r = get_acknum e incoming ∧ has_ACK e r = false)
  ∧ (has_ACK e incoming = false ->
     get_seqnum e r = 0 ∧ has_ACK e r = true
     ∧ get_acknum e r = u32 (get_seqnum e incoming + len
                             + (if has_SYN e incoming || has_FIN e incoming then 1 else 0))).
Proof.
  intros Hb Hi Hl r. subst r. unfold prepareResponse.
  pose proof (getf_range e f_sport incoming Hi) as Hsp. pose proof (getf_range e f_dport incoming Hi) as Hdp.
  pose proof (getf_range e f_acknum incoming Hi) as Han. cbn [f_kind f_sport f_dport f_acknum in_range] in *.
  destruct (has_ACK e incoming) eqn:Ha.
  - unfold has_RST, has_ACK, has_flag. through. split_ands; done.
  - set (n := u32 _). assert (Hn : is_u32 n) by apply u32_range.
    unfold has_RST, has_ACK, has_flag. through.
    split_ands; try done. intros _. split_ands; try done.
    subst n. destruct (has_SYN e incoming || has_FIN e incoming); unfold u32; f_equal; lia.
Qed.

Definition plain_syn : bytes := [0;80; 31;144; 0;0;0;9; 0;0;0;0; 80;2; 16;0; 0;0; 0;0].

Lemma plain_syn_bytes : is_bytes plain_syn.
Proof. repeat (apply Forall_cons_2; [split; lia|]). apply Forall_nil_2. Qed.

Lemma reset_follows_rfc793_witness :
  get_acknum LE (prepareResponse LE (repeat 0 20) plain_syn 0) = 10
  ∧ has_ACK LE (prepareResponse LE (repeat 0 20) plain_syn 0) = true.
Proof.
  assert (Hz : is_bytes (repeat 0 20))
    by (repeat (apply Forall_cons_2; [split; lia|]); apply Forall_nil_2).
  destruct (reset_follows_rfc793 LE (repeat 0 20) plain_syn 0 Hz plain_syn_bytes ltac:(cbn; lia))
    as (_ & _ & _ & _ & _ & H).
  destruct (H eq_refl) as (_ & Ha & Hn). split; [exact Hn|exact Ha].
Defined.

(** The reset advice for IPv6 passes the length of the whole segment
    where the one for IPv4 passes the length of its payload, so the reset that
    refuses an IPv6 SYN acknowledges the header bytes as well: not the
    [SEG.SEQ + SEG.LEN] the peer accepts. *)
Theorem reset_v6_counts_header e b incoming ihl h :
  is_bytes b -> is_bytes incoming -> (20 <= length b)%nat ->
  get_header_len e incoming = h -> has_ACK e incoming = false ->
  has_SYN e incoming || has_FIN e incoming = true ->
  get_acknum e (prepareResponse e b incoming (reset_payload_v4 e (ihl * 4 + h * 4) ihl incoming))
    = u32 (get_seqnum e incoming + 1)
  ∧ get_acknum e (prepareResponse e b incoming (reset_payload_v6 (h * 4) incoming))
    = u32 (get_seqnum e incoming + 1 + h * 4).
Proof.
  intros Hb Hi Hl Hh Ha Hs. unfold prepareResponse, reset_payload_v4, reset_payload_v6.
  rewrite Ha, Hs, Hh. set (n := u32 (_ + (_ - _ + 1))). set (n' := u32 (_ + (_ + 1))).
  assert (is_u32 n) by apply u32_range. assert (is_u32 n') by apply u32_range.
  through. subst n n'. unfold u32. split; f_equal; lia.
Qed.

Lemma reset_v6_counts_header_witness :
  get_acknum LE (prepareResponse LE (repeat 0 20) plain_syn (reset_payload_v4 LE 40 5 plain_syn)) = 10
  ∧ get_acknum LE (prepareResponse LE (repeat 0 20) plain_syn (reset_payload_v6 20 plain_syn)) = 30.
Proof.
  refine (reset_v6_counts_header LE (repeat 0 20) plain_syn 5 5 _ plain_syn_bytes _ _ _ _);
    try reflexivity.
  repeat (apply Forall_cons_2; [split; lia|]); apply Forall_nil_2.
Defined.

End Properties.
