(* ===== verification/LinkedList.v ===== *)
(** * LinkedList: lists threaded through arrays and objects

    The stack keeps its queues as objects with [next] (and [prev]) pointers:
    the records of the TCP history, the elements of the TCP receive buffer,
    the sockets of the demultiplexer.  A pointer is an index, the null pointer
    is [None]; [nxt] reads the [next] field in the current state.  [chain]
    relates a first pointer to the list of nodes reached from it, [backlinks]
    does so for [prev], and [walk] follows the pointers. *)

From S2P Require Import Prelude.

(** The nodes reached from pointer [h]. *)
Fixpoint chain (nxt : nat -> option nat) (h : option nat) (l : list nat) : Prop :=
  match l with
  | [] => h = None
  | i :: l => h = Some i ∧ chain nxt (nxt i) l
  end.

(** The [prev] fields along a list whose first node is preceded by [from]. *)
Fixpoint backlinks (prv : nat -> option nat) (from : option nat) (l : list nat) : Prop :=
  match l with
  | [] => True
  | i :: l => prv i = from ∧ backlinks prv (Some i) l
  end.

Fixpoint walk (nxt : nat -> option nat) (fuel : nat) (h : option nat) : list nat :=
  match fuel, h with
  | S n, Some i => i :: walk nxt n (nxt i)
  | _, _ => []
  end.

(** Last node of a list, [d] if it is empty. *)
Definition last_or (d : option nat) (l : list nat) : option nat :=
  match last l with Some i => Some i | None => d end.

Lemma chain_walk nxt h l fuel : chain nxt h l -> (length l <= fuel)%nat -> walk nxt fuel h = l.
Proof.
  revert h fuel. induction l as [|i l IH]; intros h fuel H Hf.
  - cbn in H. subst. by destruct fuel.
  - destruct H as [-> H]. destruct fuel as [|n]; cbn in *; [lia|]. f_equal. apply IH; [done|lia].
Qed.

Lemma chain_fun nxt h l l' : chain nxt h l -> chain nxt h l' -> l = l'.
Proof.
  revert h l'. induction l as [|i l IH]; intros h [|j l'] H H'; cbn in *; try done.
  - destruct H' as [? _]. congruence.
  - destruct H as [? _]. congruence.
  - destruct H as [-> H], H' as [[= ->] H']. f_equal. by eapply IH.
Qed.

(** Only the [next] fields of the nodes of the list matter. *)
Lemma chain_ext nxt nxt' h l :
  (forall i, i ∈ l -> nxt' i = nxt i) -> chain nxt h l -> chain nxt' h l.
Proof.
  revert h. induction l as [|i l IH]; intros h Hx H; [done|]. destruct H as [-> H].
  split; [done|]. rewrite Hx by left. apply IH; [|done]. intros j Hj. apply Hx. by right.
Qed.

Lemma backlinks_ext prv prv' from l :
  (forall i, i ∈ l -> prv' i = prv i) -> backlinks prv from l -> backlinks prv' from l.
Proof.
  revert from. induction l as [|i l IH]; intros from Hx H; [done|]. destruct H as [H1 H].
  split; [rewrite Hx by left; done|]. apply IH; [|done]. intros j Hj. apply Hx. by right.
Qed.

Lemma chain_head nxt h l : chain nxt h l -> h = head l.
Proof. destruct l; cbn; intros H; [done|by destruct H]. Qed.

Lemma chain_tail nxt h l1 i l2 : chain nxt h (l1 ++ i :: l2) -> chain nxt (nxt i) l2.
Proof.
  revert h. induction l1 as [|j l1 IH]; intros h H.
  - by destruct H.
  - destruct H as [_ H]. by eapply IH.
Qed.

Lemma chain_at nxt h l1 i l2 : chain nxt h (l1 ++ i :: l2) -> chain nxt (Some i) (i :: l2).
Proof. intros H. split; [done|]. by eapply chain_tail. Qed.

Lemma chain_next nxt h l1 i l2 : chain nxt h (l1 ++ i :: l2) -> nxt i = head l2.
Proof. intros H. eapply chain_head, chain_tail, H. Qed.

Lemma backlinks_at prv from l1 i l2 :
  backlinks prv from (l1 ++ i :: l2) -> prv i = last_or from l1.
Proof.
  revert from. induction l1 as [|j l1 IH]; intros from H.
  - by destruct H.
  - destruct H as [_ H]. rewrite (IH _ H). unfold last_or.
    destruct l1 as [|k l1]; [done|]. change (last (j :: k :: l1)) with (last (k :: l1)).
    by destruct (last (k :: l1)) eqn:E; [|apply last_None in E].
Qed.

(** Redirecting the pointer into the node after [l1]: to [l2'], from the last
    node of [l1] (or from the head if [l1] is empty). *)
Lemma chain_relink nxt nxt' h l1 l2 l2' :
  chain nxt h (l1 ++ l2) -> NoDup l1 ->
  (forall i, i ∈ l1 -> last l1 ≠ Some i -> nxt' i = nxt i) ->
  (forall i, last l1 = Some i -> nxt' i = head l2') ->
  chain nxt' (head l2') l2' ->
  chain nxt' (if decide (l1 = []) then head l2' else h) (l1 ++ l2').
Proof.
  revert h. induction l1 as [|i l1 IH]; intros h H Hnd Hsame Hlast Hnew; [done|].
  rewrite decide_False by done. destruct H as [-> H]. cbn [app]. split; [done|].
  apply NoDup_cons in Hnd as [Hi Hnd]. destruct l1 as [|j l1].
  - cbn [app]. by rewrite (Hlast i).
  - rewrite (Hsame i) by (left || (intros [= E]; apply Hi; rewrite list_elem_of_lookup;
      exists (length l1); rewrite last_lookup in E; exact E)).
    specialize (IH (nxt i) H Hnd). rewrite decide_False in IH by done. apply IH.
    + intros k Hk Hl. apply Hsame; [by right|done].
    + intros k Hk. apply Hlast. done.
    + done.
Qed.

Lemma backlinks_app prv from l1 l2 :
  backlinks prv from (l1 ++ l2) <-> backlinks prv from l1 ∧ backlinks prv (last_or from l1) l2.
Proof.
  revert from. induction l1 as [|i l1 IH]; intros from; cbn [app backlinks].
  - by split; [intros H; split|intros [_ ?]].
  - rewrite IH. replace (last_or (Some i) l1) with (last_or from (i :: l1)); [tauto|].
    unfold last_or. destruct l1 as [|j l1]; [done|]. change (last (i :: j :: l1)) with (last (j :: l1)).
    by destruct (last (j :: l1)) eqn:E; [|apply last_None in E].
Qed.

Lemma chain_app nxt h l1 l2 :
  chain nxt h (l1 ++ l2) ->
  chain nxt (if decide (l1 = []) then h else last l1 ≫= nxt) l2.
Proof.
  revert h. induction l1 as [|i l1 IH]; intros h H; [done|]. destruct H as [-> H].
  specialize (IH _ H). rewrite decide_False by done. destruct l1 as [|j l1]; [exact IH|].
  rewrite decide_False in IH by done. exact IH.
Qed.
