(* ===== verification/TcpHistory.v ===== *)
(** * TcpHistory: the packets a connection may have to send again

    Models [tcp/tcp_history]: [TCP_Record] with the retransmission counter of
    [TCP_Record_RetransmissionCounter.ah], the one-slot [TCP_History] (Module
    [OneSlot]) and the doubly linked list with a free list that
    [TCP_History_SlidingWindow.ah] replaces it with (Module [SlidingWindow]).
    The typeclass [History] is what either promises to the TCP socket; the
    function [records_of] is the list of stored packets, newest first.  A
    dereference of the null pointer answers [None]. *)

From stdpp Require Import sets.
From S2P Require Import Prelude LinkedList.

Open Scope Z_scope.

(** The platform's clock, in ticks ([operating_system_integration/Clock.h]). *)
Class Clock := { ms_to_ticks : Z -> Z; ticks_to_ms : Z -> Z }.

Module TCP_Record.
Section Rec.
Context {B : Type} `{Clock}.

(** [sendbuffer] is [None] until it is first set. *)
Record t := mk { timeout : Z; sendbuffer : option B; retransmission_counter : Z }.
#[global] Instance eta_t : Settable t :=
  λ r, mk (timeout r) (sendbuffer r) (retransmission_counter r).

(** With the advice that resets the counter. *)
Definition setSendBuffer (s : B) (r : t) : t :=
  r <| sendbuffer := Some s |> <| retransmission_counter := 0 |>.
Definition getSendBuffer (r : t) : option B := sendbuffer r.

Definition setTimeout (now msec : Z) (r : t) : t :=
  if negb (msec =? 0) then r <| timeout := u64 (now + ms_to_ticks msec) |>
  else r <| timeout := 0 |>.
Definition getTimeout (r : t) : Z := timeout r.

Definition isTimedOut (now : Z) (r : t) : bool :=
  if negb (timeout r =? 0) then timeout r <? now else false.

Definition getRemainingTime (now : Z) (r : t) : Z :=
  if timeout r <? now then 0 else u32 (ticks_to_ms (timeout r - now)).

Definition init : t := mk 0 None 0.
End Rec.
Arguments t B : clear implicits.
End TCP_Record.

(** ** What a history promises to the socket *)

Class History (B : Type) `{Clock} (H : Type) := {
  h_capacity : nat;
  h_init : H;
  h_add : B -> Z -> Z -> H -> option H;
  h_get : H -> option nat;
  h_getNext : H -> nat -> option nat;
  h_record : H -> nat -> TCP_Record.t B;
  h_update : nat -> (TCP_Record.t B -> TCP_Record.t B) -> H -> H;
  h_remove : nat -> H -> option H;
  h_isFull : H -> bool;
  h_getNextTimeout : Z -> H -> Z;
  (** The stored packets, newest first, with the addresses of their records. *)
  h_abs : H -> list (nat * TCP_Record.t B);
  h_inv : H -> Prop;
  h_init_ok : h_inv h_init ∧ h_abs h_init = [];
  h_get_ok : forall h, h_inv h -> h_get h = head (h_abs h).*1;
  h_next_ok : forall h l1 p r l2, h_inv h -> h_abs h = l1 ++ (p, r) :: l2 ->
    h_getNext h p = head l2.*1 ∧ h_record h p = r;
  h_update_ok : forall h f l1 p r l2, h_inv h -> h_abs h = l1 ++ (p, r) :: l2 ->
    h_inv (h_update p f h) ∧ h_abs (h_update p f h) = l1 ++ (p, f r) :: l2;
  h_remove_ok : forall h l1 p r l2, h_inv h -> h_abs h = l1 ++ (p, r) :: l2 ->
    exists h', h_remove p h = Some h' ∧ h_inv h' ∧ h_abs h' = l1 ++ l2;
  h_add_ok : forall h b msec now, h_inv h -> h_isFull h = false ->
    exists h' p r, h_add b msec now h = Some h' ∧ h_inv h' ∧ h_abs h' = (p, r) :: h_abs h
      ∧ TCP_Record.sendbuffer r = Some b ∧ TCP_Record.retransmission_counter r = 0
      ∧ TCP_Record.timeout r = if msec =? 0 then 0 else u64 (now + ms_to_ticks msec);
  h_full_ok : forall h, h_inv h ->
    (length (h_abs h) <= h_capacity)%nat ∧ (h_isFull h = true <-> length (h_abs h) = h_capacity);
}.

(** ** The one-slot history *)

Module OneSlot.
Section One.
Context {B : Type} `{Clock}.

(** [records] has one element, which [head] points to or not. *)
Record t := mk { record0 : TCP_Record.t B; head : bool }.
#[global] Instance eta_t : Settable t := λ h, mk (record0 h) (head h).

Definition init : t := mk TCP_Record.init false.
Definition add (b : B) (msec now : Z) (h : t) : t :=
  let h := h <| head := true |> in
  let h := h <| record0 := TCP_Record.setSendBuffer b (record0 h) |> in
  h <| record0 := TCP_Record.setTimeout now msec (record0 h) |>.
Definition get (h : t) : option nat := if head h then Some 0%nat else None.
Definition isEmpty (h : t) : bool := negb (head h).
Definition isFull (h : t) : bool := negb (isEmpty h).
Definition remove (record : nat) (h : t) : t := h <| head := false |>.
Definition getNextTimeout (now : Z) (h : t) : Z :=
  if negb (head h) then 0 else TCP_Record.getRemainingTime now (record0 h).

Lemma single_split {A} (x : A) l1 y l2 : [x] = l1 ++ y :: l2 -> l1 = [] ∧ x = y ∧ l2 = [].
Proof. destruct l1 as [|? [|]]; intros; by simplify_eq/=. Qed.

#[export] Program Instance one_history : History B t := {|
  h_capacity := 1;
  h_init := init;
  h_add := λ b msec now h, Some (add b msec now h);
  h_get := get;
  h_getNext := λ h p, None;
  h_record := λ h p, record0 h;
  h_update := λ p f h, h <| record0 := f (record0 h) |>;
  h_remove := λ p h, Some (remove p h);
  h_isFull := isFull;
  h_getNextTimeout := getNextTimeout;
  h_abs := λ h, if head h then [(0%nat, record0 h)] else [];
  h_inv := λ h, True;
|}.
Next Obligation. done. Qed.
Next Obligation. intros [r []] _; done. Qed.
Next Obligation.
  intros [r []] l1 p r' l2 _; cbn; intros E; [|by destruct l1].
  by apply single_split in E as (-> & [= <- <-] & ->).
Qed.
Next Obligation.
  intros [r []] f l1 p r' l2 _; cbn; intros E; [|by destruct l1].
  by apply single_split in E as (-> & [= <- <-] & ->).
Qed.
Next Obligation.
  intros [r []] l1 p r' l2 _; cbn; intros E; [|by destruct l1].
  apply single_split in E as (-> & [= <- <-] & ->). by eexists.
Qed.
Next Obligation.
  intros [r []] b msec now _; cbn; intros E; [done|]. unfold add.
  eexists _, 0%nat, _. split; [reflexivity|]. split; [done|]. split; [reflexivity|].
  unfold TCP_Record.setTimeout. by destruct (msec =? 0).
Qed.
Next Obligation. intros [r []] _; cbn; split; try lia; split; done. Qed.

End One.
Arguments t B : clear implicits.
End OneSlot.

(** ** The sliding-window history *)

Module SlidingWindow.
Section Sliding.
Context {B : Type} `{Clock}.

(** A record with the links of [TCP_Record_SlidingWindow_Slice]. *)
Record node := mkNode { payload : TCP_Record.t B; next : option nat; prev : option nat }.
#[global] Instance eta_node : Settable node := λ n, mkNode (payload n) (next n) (prev n).

Record t := mk { records : list node; head : option nat; freelist : option nat }.
#[global] Instance eta_t : Settable t := λ h, mk (records h) (head h) (freelist h).

(** [count] is TCP_HISTORY_MAX_PACKETS. *)
Definition init (count : nat) : t :=
  mk (map (λ i, mkNode TCP_Record.init (if decide (S i = count) then None else Some (S i)) None)
          (seq 0 count))
     None (Some 0%nat).

Definition getNext (h : t) (p : nat) : option nat := records h !! p ≫= next.
Definition getPrev (h : t) (p : nat) : option nat := records h !! p ≫= prev.
Definition setNext (p : nat) (n : option nat) (h : t) : t :=
  h <| records := alter (λ r, r <| next := n |>) p (records h) |>.
Definition setPrev (p : nat) (n : option nat) (h : t) : t :=
  h <| records := alter (λ r, r <| prev := n |>) p (records h) |>.
Definition update (p : nat) (f : TCP_Record.t B -> TCP_Record.t B) (h : t) : t :=
  h <| records := alter (λ r, r <| payload := f (payload r) |>) p (records h) |>.
Definition record (h : t) (p : nat) : TCP_Record.t B :=
  default TCP_Record.init (payload <$> records h !! p).

Definition add (b : B) (msec now : Z) (h : t) : option t :=
  record ← freelist h;
  let h := h <| freelist := getNext h record |> in
  let h := match head h with Some x => setPrev x (Some record) h | None => h end in
  let h := setPrev record None h in
  let h := setNext record (head h) h in
  let h := h <| head := Some record |> in
  let h := update record (TCP_Record.setSendBuffer b) h in
  Some (update record (TCP_Record.setTimeout now msec) h).

Definition remove (record : nat) (h : t) : option t :=
  h ← (if decide (head h = Some record) then
         let h := h <| head := getNext h record |> in
         Some (match head h with Some x => setPrev x None h | None => h end)
       else
         let next := getNext h record in
         prev ← getPrev h record;
         let h := setNext prev next h in
         Some (match next with Some x => setPrev x (Some prev) h | None => h end));
  let h := setNext record (freelist h) h in
  Some (h <| freelist := Some record |>).

(** The loop of [getNextTimeout], over at most [fuel] records. *)
Fixpoint min_timeout (h : t) (fuel : nat) (min : nat) (current : option nat) : nat :=
  match fuel, current with
  | S n, Some c =>
      let timeout := TCP_Record.getTimeout (record h c) in
      let min := if negb (timeout =? 0) && (timeout <? TCP_Record.getTimeout (record h min))
                 then c else min in
      min_timeout h n min (getNext h c)
  | _, _ => min
  end.

Definition getNextTimeout (now : Z) (h : t) : Z :=
  match head h with
  | None => 0
  | Some min =>
      let min := min_timeout h (length (records h)) min (getNext h min) in
      TCP_Record.getRemainingTime now (record h min)
  end.

Definition isFull (h : t) : bool := bool_decide (freelist h = None).

Definition abs (h : t) : list (nat * TCP_Record.t B) :=
  map (λ p, (p, record h p)) (walk (getNext h) (length (records h)) (head h)).

(** [l] is the list of used records, [lf] the list of free ones. *)
Record good (count : nat) (h : t) (l lf : list nat) : Prop := {
  g_len : length (records h) = count;
  g_head : chain (getNext h) (head h) l;
  g_prev : backlinks (getPrev h) None l;
  g_free : chain (getNext h) (freelist h) lf;
  g_all : l ++ lf ≡ₚ seq 0 count }.
Definition inv (count : nat) (h : t) : Prop := exists l lf, good count h l lf.

(** *** Field writes *)

Lemma getNext_setNext h p n q : (p < length (records h))%nat ->
  getNext (setNext p n h) q = if decide (p = q) then n else getNext h q.
Proof.
  intros Hp. unfold getNext, setNext. simpl_set. destruct (decide (p = q)) as [<-|].
  - rewrite list_lookup_alter_eq. destruct (lookup_lt_is_Some_2 _ _ Hp) as [r ->]. done.
  - by rewrite list_lookup_alter_ne.
Qed.

Lemma getPrev_setPrev h p n q : (p < length (records h))%nat ->
  getPrev (setPrev p n h) q = if decide (p = q) then n else getPrev h q.
Proof.
  intros Hp. unfold getPrev, setPrev. simpl_set. destruct (decide (p = q)) as [<-|].
  - rewrite list_lookup_alter_eq. destruct (lookup_lt_is_Some_2 _ _ Hp) as [r ->]. done.
  - by rewrite list_lookup_alter_ne.
Qed.

Lemma lookup_alter_proj {A} (g : node -> A) (f : node -> node) (p q : nat) (rs : list node) :
  (forall r, g (f r) = g r) -> g <$> alter f p rs !! q = g <$> rs !! q.
Proof.
  intros Hg. destruct (decide (p = q)) as [<-|].
  - rewrite list_lookup_alter_eq. destruct (rs !! p); cbn; [by rewrite Hg|done].
  - by rewrite list_lookup_alter_ne.
Qed.

Lemma bind_fmap {A C} (g : A -> option C) (o : option A) : o ≫= g = (g <$> o) ≫= id.
Proof. by destruct o. Qed.

Lemma getPrev_setNext h p n q : getPrev (setNext p n h) q = getPrev h q.
Proof.
  unfold getPrev, setNext. simpl_set. rewrite !(bind_fmap prev). f_equal.
  by apply lookup_alter_proj.
Qed.

Lemma getNext_setPrev h p n q : getNext (setPrev p n h) q = getNext h q.
Proof.
  unfold getNext, setPrev. simpl_set. rewrite !(bind_fmap next). f_equal.
  by apply lookup_alter_proj.
Qed.

Lemma getNext_update h p f q : getNext (update p f h) q = getNext h q.
Proof.
  unfold getNext, update. simpl_set. rewrite !(bind_fmap next). f_equal.
  by apply lookup_alter_proj.
Qed.

Lemma getPrev_update h p f q : getPrev (update p f h) q = getPrev h q.
Proof.
  unfold getPrev, update. simpl_set. rewrite !(bind_fmap prev). f_equal.
  by apply lookup_alter_proj.
Qed.

Lemma record_setNext h p n q : record (setNext p n h) q = record h q.
Proof. unfold record, setNext. simpl_set. f_equal. by apply lookup_alter_proj. Qed.

Lemma record_setPrev h p n q : record (setPrev p n h) q = record h q.
Proof. unfold record, setPrev. simpl_set. f_equal. by apply lookup_alter_proj. Qed.

Lemma record_update h p f q : (p < length (records h))%nat ->
  record (update p f h) q = if decide (p = q) then f (record h p) else record h q.
Proof.
  intros Hp. unfold record, update. simpl_set. destruct (decide (p = q)) as [<-|].
  - rewrite list_lookup_alter_eq. by destruct (lookup_lt_is_Some_2 _ _ Hp) as [r ->].
  - by rewrite list_lookup_alter_ne.
Qed.

Lemma length_setNext h p n : length (records (setNext p n h)) = length (records h).
Proof. apply length_alter. Qed.
Lemma length_setPrev h p n : length (records (setPrev p n h)) = length (records h).
Proof. apply length_alter. Qed.
Lemma length_update h p f : length (records (update p f h)) = length (records h).
Proof. apply length_alter. Qed.

Create Rewrite HintDb hist.
#[local] Hint Rewrite @length_setNext @length_setPrev @length_update : hist.
#[local] Hint Rewrite @getPrev_setNext @getNext_setPrev @getNext_update @getPrev_update
  @record_setNext @record_setPrev : hist.

(** Read fields through writes. *)
Ltac fields :=
  repeat first
    [ progress autorewrite with hist
    | rewrite getNext_setNext by (autorewrite with hist; assumption)
    | rewrite getPrev_setPrev by (autorewrite with hist; assumption)
    | rewrite record_update by (autorewrite with hist; assumption) ].

Lemma add_fields h b msec now p :
  freelist h = Some p -> (p < length (records h))%nat ->
  (forall x, head h = Some x -> (x < length (records h))%nat ∧ x ≠ p) ->
  exists h', add b msec now h = Some h'
    ∧ length (records h') = length (records h)
    ∧ head h' = Some p ∧ freelist h' = getNext h p
    ∧ (forall q, getNext h' q = if decide (p = q) then head h else getNext h q)
    ∧ (forall q, getPrev h' q = if decide (p = q) then None
                   else if decide (head h = Some q) then Some p else getPrev h q)
    ∧ (forall q, record h' q = if decide (p = q)
                   then TCP_Record.setTimeout now msec (TCP_Record.setSendBuffer b (record h p))
                   else record h q).
Proof.
  intros Hf Hp Hh. unfold add. rewrite Hf. cbn [mbind option_bind].
  set (h1 := h <| freelist := getNext h p |>).
  assert (Hp1 : (p < length (records h1))%nat) by done.
  change (head h1) with (head h). eexists. split; [reflexivity|].
  destruct (head h) as [x|] eqn:Ex.
  - destruct (Hh x eq_refl) as [Hx Hne]. assert (Hx1 : (x < length (records h1))%nat) by done.
    change (head (setPrev p None (setPrev x (Some p) h1))) with (head h). rewrite Ex.
    set (h4 := setNext p (Some x) (setPrev p None (setPrev x (Some p) h1))).
    assert (Hp4 : (p < length (records (h4 <| head := Some p |>)))%nat)
      by (subst h4; cbn [records head set_field]; simpl_set; rewrite !length_alter; done).
    split; [subst h4; simpl_set; by rewrite !length_alter|]. split; [done|]. split; [done|].
    split; [|split]; intros q.
    + fields. change (getNext (h4 <| head := Some p |>) q) with (getNext h4 q). subst h4. by fields.
    + fields. change (getPrev (h4 <| head := Some p |>) q) with (getPrev h4 q). subst h4. fields. 
      destruct (decide (p = q)); [done|].
      destruct (decide (x = q)), (decide (Some x = Some q)); done || congruence.
    + fields. change (record (h4 <| head := Some p |>) q) with (record h4 q).
      change (record (h4 <| head := Some p |>) p) with (record h4 p). subst h4. fields.
      by destruct (decide (p = p)), (decide (p = q)).
  - change (head (setPrev p None h1)) with (head h). rewrite Ex.
    set (h4 := setNext p None (setPrev p None h1)).
    assert (Hp4 : (p < length (records (h4 <| head := Some p |>)))%nat)
      by (subst h4; cbn [records head set_field]; simpl_set; rewrite !length_alter; done).
    split; [subst h4; simpl_set; by rewrite !length_alter|]. split; [done|]. split; [done|].
    split; [|split]; intros q.
    + fields. change (getNext (h4 <| head := Some p |>) q) with (getNext h4 q). subst h4. by fields.
    + fields. change (getPrev (h4 <| head := Some p |>) q) with (getPrev h4 q). subst h4. fields.
      by destruct (decide (p = q)).
    + fields. change (record (h4 <| head := Some p |>) q) with (record h4 q).
      change (record (h4 <| head := Some p |>) p) with (record h4 p). subst h4. fields.
      by destruct (decide (p = p)), (decide (p = q)).
Qed.

Lemma remove_fields h p prv :
  (p < length (records h))%nat ->
  (if decide (head h = Some p) then prv = None
   else exists y, prv = Some y ∧ getPrev h p = Some y ∧ (y < length (records h))%nat ∧ y ≠ p) ->
  (forall x, getNext h p = Some x -> (x < length (records h))%nat ∧ x ≠ p) ->
  exists h', remove p h = Some h'
    ∧ length (records h') = length (records h)
    ∧ head h' = (if decide (head h = Some p) then getNext h p else head h)
    ∧ freelist h' = Some p
    ∧ (forall q, getNext h' q = if decide (p = q) then freelist h
                   else if decide (prv = Some q) then getNext h p else getNext h q)
    ∧ (forall q, getPrev h' q = if decide (getNext h p = Some q) then prv else getPrev h q)
    ∧ (forall q, record h' q = record h q).
Proof.
  intros Hp Hprv Hn. unfold remove. destruct (decide (head h = Some p)) as [Eh|Eh].
  - subst prv. cbn [mbind option_bind].
    set (h1 := h <| head := getNext h p |>). change (head h1) with (getNext h p).
    assert (Hp1 : (p < length (records h1))%nat) by done. eexists. split; [reflexivity|].
    destruct (getNext h p) as [x|] eqn:Ex.
    + destruct (Hn x eq_refl) as [Hx Hne]. assert (Hx1 : (x < length (records h1))%nat) by done.
      change (freelist (setPrev x None h1)) with (freelist h).
      set (h3 := setNext p (freelist h) (setPrev x None h1)).
      split; [subst h3; simpl_set; by rewrite !length_alter|]. split; [done|]. split; [done|].
      change (records (h3 <| freelist := Some p |>)) with (records h3).
      split; [|split]; intros q.
      * change (getNext (h3 <| freelist := Some p |>) q) with (getNext h3 q). subst h3. by fields.
      * change (getPrev (h3 <| freelist := Some p |>) q) with (getPrev h3 q). subst h3. fields.
        destruct (decide (x = q)), (decide (Some x = Some q)); done || congruence.
      * change (record (h3 <| freelist := Some p |>) q) with (record h3 q). subst h3. by fields.
    + change (freelist h1) with (freelist h). set (h3 := setNext p (freelist h) h1).
      split; [subst h3; simpl_set; by rewrite !length_alter|]. split; [done|]. split; [done|].
      split; [|split]; intros q.
      * change (getNext (h3 <| freelist := Some p |>) q) with (getNext h3 q). subst h3. by fields.
      * change (getPrev (h3 <| freelist := Some p |>) q) with (getPrev h3 q). subst h3. by fields.
      * change (record (h3 <| freelist := Some p |>) q) with (record h3 q). subst h3. by fields.
  - destruct Hprv as (y & -> & Ey & Hy & Hyp). rewrite Ey. cbn [mbind option_bind].
    set (h1 := setNext y (getNext h p) h).
    assert (Hp1 : (p < length (records h1))%nat) by (subst h1; by autorewrite with hist).
    eexists. split; [reflexivity|]. destruct (getNext h p) as [x|] eqn:Ex.
    + destruct (Hn x eq_refl) as [Hx Hne].
      assert (Hx1 : (x < length (records h1))%nat) by (subst h1; by autorewrite with hist).
      change (freelist (setPrev x (Some y) h1)) with (freelist h).
      set (h3 := setNext p (freelist h) (setPrev x (Some y) h1)).
      split; [subst h3 h1; simpl_set; by rewrite !length_alter|]. split; [done|]. split; [done|].
      split; [|split]; intros q.
      * change (getNext (h3 <| freelist := Some p |>) q) with (getNext h3 q). subst h3. fields.
        subst h1. fields. destruct (decide (p = q)); [done|].
        destruct (decide (y = q)), (decide (Some y = Some q)); done || congruence.
      * change (getPrev (h3 <| freelist := Some p |>) q) with (getPrev h3 q). subst h3. fields.
        subst h1. fields. destruct (decide (x = q)), (decide (Some x = Some q)); done || congruence.
      * change (record (h3 <| freelist := Some p |>) q) with (record h3 q). subst h3. fields.
        subst h1. by fields.
    + change (freelist h1) with (freelist h). set (h3 := setNext p (freelist h) h1).
      split; [subst h3 h1; simpl_set; by rewrite !length_alter|]. split; [done|]. split; [done|].
      split; [|split]; intros q.
      * change (getNext (h3 <| freelist := Some p |>) q) with (getNext h3 q). subst h3. fields.
        subst h1. fields. destruct (decide (p = q)); [done|].
        destruct (decide (y = q)), (decide (Some y = Some q)); done || congruence.
      * change (getPrev (h3 <| freelist := Some p |>) q) with (getPrev h3 q). subst h3. fields.
        subst h1. by fields.
      * change (record (h3 <| freelist := Some p |>) q) with (record h3 q). subst h3. fields.
        subst h1. by fields.
Qed.

(** *** The list of used records *)

Lemma good_NoDup count h l lf : good count h l lf -> NoDup (l ++ lf).
Proof. intros G. rewrite (g_all _ _ _ _ G). apply NoDup_seq. Qed.

Lemma good_bound count h l lf p : good count h l lf -> p ∈ l ++ lf -> (p < length (records h))%nat.
Proof.
  intros G Hp. rewrite (g_all _ _ _ _ G) in Hp. apply elem_of_seq in Hp.
  rewrite (g_len _ _ _ _ G). lia.
Qed.

Lemma abs_good count h l lf : good count h l lf -> abs h = map (λ p, (p, record h p)) l.
Proof.
  intros G. unfold abs. rewrite (chain_walk (getNext h) (head h) l); [done|apply G|].
  rewrite (g_len _ _ _ _ G). pose proof (Permutation_length (g_all _ _ _ _ G)) as E.
  rewrite length_app, length_seq in E. lia.
Qed.

Lemma map_pair_split {R} (g : nat -> R) l l1 p r l2 :
  map (λ p, (p, g p)) l = l1 ++ (p, r) :: l2 ->
  exists k1 k2, l = k1 ++ p :: k2 ∧ r = g p ∧ l1 = map (λ p, (p, g p)) k1
    ∧ l2 = map (λ p, (p, g p)) k2.
Proof.
  revert l1. induction l as [|i l IH]; intros [|[j s] l1] E; cbn in E; try done.
  - injection E as -> <- <-. by exists [], l.
  - injection E as -> <- E. destruct (IH l1 E) as (k1 & k2 & -> & -> & -> & ->). by exists (j :: k1), k2.
Qed.

Lemma map_pair_fst {R} (g : nat -> R) l : (map (λ p, (p, g p)) l).*1 = l.
Proof. induction l as [|i l IH]; [done|]. cbn. by f_equal. Qed.

Lemma init_good count : (0 < count)%nat -> good count (init count) [] (seq 0 count).
Proof.
  intros Hc. assert (Hn : forall i, (i < count)%nat -> getNext (init count) i
    = if decide (S i = count) then None else Some (S i)).
  { intros i Hi. unfold getNext, init. cbn.
    rewrite list_lookup_fmap, lookup_seq_lt by done. done. }
  split; [cbn; by rewrite length_map, length_seq|done|done| |done].
  cbn [freelist init]. change (chain (getNext (init count)) (Some 0%nat) (seq 0 count)).
  assert (Hs : forall n i, (i + n = count)%nat -> (0 < n)%nat ->
    chain (getNext (init count)) (Some i) (seq i n)).
  { induction n as [|n IH]; intros i Hi Hn0; [lia|]. cbn [seq]. split; [done|].
    rewrite Hn by lia. destruct (decide (S i = count)).
    - by replace n with 0%nat by lia.
    - apply IH; lia. }
  by apply Hs.
Qed.

Lemma update_good count h l lf p f : good count h l lf -> good count (update p f h) l lf.
Proof.
  intros [H1 H2 H3 H4 H5]. split; [by rewrite length_update| | | |done].
  - apply (chain_ext (getNext h)); [|done]. intros. apply getNext_update.
  - apply (backlinks_ext (getPrev h)); [|done]. intros. apply getPrev_update.
  - apply (chain_ext (getNext h)); [|done]. intros. apply getNext_update.
Qed.

Lemma add_good count h l p lf b msec now : good count h l (p :: lf) ->
  exists h', add b msec now h = Some h' ∧ good count h' (p :: l) lf
    ∧ record h' p = TCP_Record.setTimeout now msec (TCP_Record.setSendBuffer b (record h p))
    ∧ (forall q, q ∈ l -> record h' q = record h q).
Proof.
  intros G. pose proof (good_NoDup _ _ _ _ G) as Hnd.
  pose proof (λ q, good_bound _ _ _ _ q G) as Hbd.
  apply NoDup_app in Hnd as (Hl & Hd & Hnd). apply NoDup_cons in Hnd as [Hpf Hlf].
  assert (Hpl : forall q, q ∈ l -> p ≠ q) by (intros q Hq ->; apply (Hd q Hq); left).
  destruct G as [H1 H2 H3 [Hfp H4] H5].
  destruct (add_fields h b msec now p) as (h' & E & F1 & F2 & F3 & F4 & F5 & F6);
    [done|apply Hbd, elem_of_app; right; left|..].
  { intros x Hx. rewrite (chain_head _ _ _ H2) in Hx. destruct l as [|y l]; [done|].
    injection Hx as ->. split; [apply Hbd; left|]. apply not_eq_sym, Hpl. left. }
  exists h'. split; [done|]. split; [|split].
  - split; [by rewrite F1| | | |].
    + rewrite F2. split; [done|]. rewrite F4, decide_True by done.
      apply (chain_ext (getNext h)); [|done]. intros i Hi. rewrite F4, decide_False; [done|].
      by apply Hpl.
    + split; [rewrite F5, decide_True; done|]. destruct l as [|x l]; [done|].
      destruct H3 as [_ H3]. destruct H2 as [Hx _]. split.
      * rewrite F5, decide_False, decide_True; [done|done|]. apply Hpl. left.
      * apply (backlinks_ext (getPrev h)); [|done]. intros i Hi.
        rewrite F5, decide_False by (apply Hpl; by right). rewrite decide_False; [done|].
        rewrite Hx. intros [= ->]. apply NoDup_cons in Hl as [Hl _]. done.
    + rewrite F3. apply (chain_ext (getNext h)); [|done]. intros i Hi.
      rewrite F4, decide_False; [done|]. by intros ->.
    + rewrite <- H5. cbn [app]. by rewrite Permutation_middle.
  - rewrite F6. by rewrite decide_True.
  - intros q Hq. rewrite F6, decide_False; [done|]. by apply Hpl.
Qed.

Lemma head_first count h l1 p l2 lf : good count h (l1 ++ p :: l2) lf ->
  head h = Some p <-> l1 = [].
Proof.
  intros G. pose proof (good_NoDup _ _ _ _ G) as Hnd. rewrite <- app_assoc in Hnd.
  destruct G as [_ H2 _ _ _]. rewrite (chain_head _ _ _ H2). destruct l1 as [|i l1]; [done|].
  split; [|done]. intros [= ->]. apply NoDup_app in Hnd as (_ & Hnd & _).
  exfalso. apply (Hnd p); [left|left].
Qed.

Lemma remove_good count h l1 p l2 lf : good count h (l1 ++ p :: l2) lf ->
  exists h', remove p h = Some h' ∧ good count h' (l1 ++ l2) (p :: lf)
    ∧ forall q, record h' q = record h q.
Proof.
  intros G. pose proof (good_NoDup _ _ _ _ G) as Hnd. pose proof (head_first _ _ _ _ _ _ G) as Hhf.
  pose proof (λ q, good_bound _ _ _ _ q G) as Hbd. destruct G as [H1 H2 H3 H4 H5].
  pose proof (chain_next _ _ _ _ _ H2) as En. pose proof (backlinks_at _ _ _ _ _ H3) as Ep.
  rewrite <- app_assoc in Hnd. apply NoDup_app in Hnd as (Hl1 & Hd1 & Hnd).
  cbn [app] in Hnd. apply NoDup_cons in Hnd as [Hp Hnd]. apply NoDup_app in Hnd as (Hl2 & Hd2 & Hlf).
  assert (Hpl1 : p ∉ l1) by (intros Hin; apply (Hd1 p Hin); left).
  set (prv := last l1).
  assert (Hprv : forall y, prv = Some y -> y ∈ l1) by (intros y Hy; by apply last_Some_elem_of).
  destruct (remove_fields h p prv) as (h' & E & F1 & F2 & F3 & F4 & F5 & F6).
  - apply Hbd, elem_of_app. left. apply elem_of_app. right. left.
  - subst prv. destruct (decide (head h = Some p)) as [Eh|Eh].
    + apply Hhf in Eh. by subst l1.
    + destruct (last l1) as [y|] eqn:El; [|apply last_None in El; by apply Hhf in El].
      exists y. split; [done|]. split; [rewrite Ep; unfold last_or; by rewrite El|].
      specialize (Hprv y eq_refl). split; [apply Hbd; set_solver|]. by intros ->.
  - intros x Hx. rewrite En in Hx. destruct l2 as [|z l2]; [done|]. injection Hx as ->.
    split; [apply Hbd; set_solver|]. intros ->. apply Hp. left.
  - exists h'. split; [done|]. split; [|done].
    assert (Hnext : forall i, i ∈ l1 ++ l2 ++ lf -> last l1 ≠ Some i -> getNext h' i = getNext h i).
    { intros i Hi Hne. rewrite F4, decide_False by (intros ->; set_solver).
      by rewrite decide_False. }
    assert (Hlast : forall i, last l1 = Some i -> getNext h' i = list.head l2).
    { intros i Hi. rewrite F4, decide_False by (intros ->; apply Hpl1; by apply Hprv).
      by rewrite decide_True. }
    assert (Hc2 : chain (getNext h') (list.head l2) l2).
    { apply (chain_ext (getNext h)); [|rewrite <- En; by eapply chain_tail].
      intros i Hi. apply Hnext; [set_solver|]. intros El. apply Hprv in El.
      apply (Hd1 i El). set_solver. }
    split; [by rewrite F1| | | |].
    + rewrite F2, En. pose proof (chain_relink (getNext h) (getNext h') (head h) l1 (p :: l2) l2 H2 Hl1)
        as Hr. destruct (decide (head h = Some p)) as [Eh|Eh], (decide (l1 = [])) as [El|El];
        try (exfalso; tauto); apply Hr; try done; intros; apply Hnext; set_solver.
    + rewrite backlinks_app in H3 |- *. destruct H3 as [H3 H3']. cbn [backlinks] in H3'.
      destruct H3' as [Hpp H3']. assert (Hpv : forall i, i ∈ l1 ++ l2 -> list.head l2 ≠ Some i ->
        getPrev h' i = getPrev h i) by (intros i _ Hne; rewrite F5, En, decide_False; done).
      split; [apply (backlinks_ext (getPrev h)); [|done]; intros i Hi; apply Hpv; [set_solver|] |].
      * intros Eh. apply (Hd1 i Hi). right. apply elem_of_app. left. by apply head_Some_elem_of.
      * destruct l2 as [|z l2]; [done|]. destruct H3' as [_ H3']. split.
        -- rewrite F5, En, decide_True by done. subst prv. unfold last_or.
           by destruct (last l1) eqn:El.
        -- apply (backlinks_ext (getPrev h)); [|done]. intros i Hi. apply Hpv; [set_solver|].
           intros [= ->]. by apply NoDup_cons in Hl2 as [? _].
    + rewrite F3. split; [done|]. rewrite F4, decide_True by done.
      apply (chain_ext (getNext h)); [|done]. intros i Hi. apply Hnext; [set_solver|].
      intros El. apply Hprv in El. apply (Hd1 i El). set_solver.
    + rewrite <- H5, <- !app_assoc. cbn [app]. by rewrite (Permutation_middle l2).
Qed.

Lemma abs_update count h p f l1 r l2 : inv count h -> abs h = l1 ++ (p, r) :: l2 ->
  inv count (update p f h) ∧ abs (update p f h) = l1 ++ (p, f r) :: l2.
Proof.
  intros (l & lf & G) E. pose proof (update_good count h l lf p f G) as G'.
  rewrite (abs_good _ _ _ _ G) in E. destruct (map_pair_split _ _ _ _ _ _ E)
    as (k1 & k2 & -> & -> & -> & ->). split; [by exists (k1 ++ p :: k2), lf|].
  pose proof (good_NoDup _ _ _ _ G) as Hnd. rewrite <- app_assoc in Hnd.
  apply NoDup_app in Hnd as (_ & Hd & Hnd). cbn [app] in Hnd. apply NoDup_cons in Hnd as [Hp _].
  assert (Hb : (p < length (records h))%nat) by (apply (good_bound _ _ _ _ p G); set_solver).
  rewrite (abs_good _ _ _ _ G'), map_app. cbn [map]. f_equal; [|f_equal].
  - apply map_ext_in. intros q Hq%list_elem_of_In. rewrite record_update, decide_False; [done| |done].
    intros ->. apply (Hd q Hq). left.
  - by rewrite record_update, decide_True by done.
  - apply map_ext_in. intros q Hq%list_elem_of_In. rewrite record_update, decide_False; [done| |done].
    intros ->. apply Hp. apply elem_of_app. by left.
Qed.

Lemma abs_add count h b msec now : inv count h -> isFull h = false ->
  exists h' p, add b msec now h = Some h' ∧ inv count h'
    ∧ abs h' = (p, TCP_Record.setTimeout now msec (TCP_Record.setSendBuffer b (record h p))) :: abs h.
Proof.
  intros (l & [|p lf] & G) Hf.
  - pose proof (g_free _ _ _ _ G) as E. cbn in E. unfold isFull in Hf. by rewrite E in Hf.
  - destruct (add_good count h l p lf b msec now G) as (h' & E & G' & Hr & Hs).
    exists h', p. split; [done|]. split; [by exists (p :: l), lf|].
    rewrite (abs_good _ _ _ _ G'), (abs_good _ _ _ _ G). cbn [map]. rewrite Hr. f_equal.
    apply map_ext_in. intros q Hq%list_elem_of_In. by rewrite Hs.
Qed.

Lemma abs_full count h : inv count h ->
  (length (abs h) <= count)%nat ∧ (isFull h = true <-> length (abs h) = count).
Proof.
  intros (l & lf & G). rewrite (abs_good _ _ _ _ G), length_map.
  pose proof (Permutation_length (g_all _ _ _ _ G)) as E. rewrite length_app, length_seq in E.
  split; [lia|]. unfold isFull. rewrite (chain_head _ _ _ (g_free _ _ _ _ G)).
  rewrite bool_decide_eq_true. destruct lf; cbn in *; split; intros; try done; lia.
Qed.

(** The sliding-window history discharges the contract. *)
#[export] Program Instance sliding_history (count : nat) (Hc : (0 < count)%nat) : History B t := {|
  h_capacity := count;
  h_init := init count;
  h_add := add;
  h_get := head;
  h_getNext := getNext;
  h_record := record;
  h_update := update;
  h_remove := remove;
  h_isFull := isFull;
  h_getNextTimeout := getNextTimeout;
  h_abs := abs;
  h_inv := inv count;
|}.
Next Obligation.
  intros count Hc. pose proof (init_good count Hc) as G. split; [by exists [], (seq 0 count)|].
  by rewrite (abs_good _ _ _ _ G).
Qed.
Next Obligation.
  intros count Hc h (l & lf & G). rewrite (abs_good _ _ _ _ G), map_pair_fst.
  apply (chain_head _ _ _ (g_head _ _ _ _ G)).
Qed.
Next Obligation.
  intros count Hc h l1 p r l2 (l & lf & G) E. rewrite (abs_good _ _ _ _ G) in E.
  destruct (map_pair_split _ _ _ _ _ _ E) as (k1 & k2 & -> & -> & -> & ->).
  rewrite map_pair_fst. split; [|done]. apply (chain_next _ _ _ _ _ (g_head _ _ _ _ G)).
Qed.
Next Obligation. intros count Hc h f l1 p r l2. apply abs_update. Qed.
Next Obligation.
  intros count Hc h l1 p r l2 (l & lf & G) E. rewrite (abs_good _ _ _ _ G) in E.
  destruct (map_pair_split _ _ _ _ _ _ E) as (k1 & k2 & -> & -> & -> & ->).
  destruct (remove_good _ _ _ _ _ _ G) as (h' & Er & G' & Hr).
  exists h'. split; [done|]. split; [by exists (k1 ++ k2), (p :: lf)|].
  rewrite (abs_good _ _ _ _ G'), map_app. f_equal; apply map_ext; intros q; by rewrite Hr.
Qed.
Next Obligation.
  intros count Hc h b msec now Hi Hf. destruct (abs_add count h b msec now Hi Hf)
    as (h' & p & E & Hi' & Ha).
  exists h', p, (TCP_Record.setTimeout now msec (TCP_Record.setSendBuffer b (record h p))).
  split; [done|]. split; [done|]. split; [done|].
  unfold TCP_Record.setTimeout. by destruct (msec =? 0).
Qed.
Next Obligation. intros count Hc h. apply abs_full. Qed.

End Sliding.
Arguments t B : clear implicits.
End SlidingWindow.

(** ** Properties *)

Section Properties.
Context {B : Type} `{Clock}.

(** The uses the socket makes of a history: [isFull] is checked before
    [add]; a record to remove is found by following [getNext] from [get]. *)
Inductive use := Add (b : B) (msec now : Z) | Remove (k : nat).

Fixpoint advance {T} `{!History B T} (h : T) (k : nat) (p : option nat) : option nat :=
  match k with O => p | S k => advance h k (p ≫= h_getNext h) end.

Definition use_history {T} `{!History B T} (h : T) (u : use) : option T :=
  match u with
  | Add b msec now => if h_isFull h then Some h else h_add b msec now h
  | Remove k => match advance h k (h_get h) with Some p => h_remove p h | None => Some h end
  end.

(** The same on a list of packets with their deadlines (0: none). *)
Definition use_list (cap : nat) (l : list (B * Z)) (u : use) : list (B * Z) :=
  match u with
  | Add b msec now =>
      if decide (length l = cap) then l
      else (b, if msec =? 0 then 0 else u64 (now + ms_to_ticks msec)) :: l
  | Remove k => delete k l
  end.

Fixpoint use_all {S} (f : S -> use -> option S) (s : S) (us : list use) : option S :=
  match us with [] => Some s | u :: us => s ← f s u; use_all f s us end.

(** The packets of a history. *)
Definition packets {T} `{!History B T} (h : T) : list (option B * Z) :=
  map (λ '(_, r), (TCP_Record.getSendBuffer r, TCP_Record.getTimeout r)) (h_abs h).

Lemma advance_nth {T} `{!History B T} (h : T) k l p :
  h_inv h -> p = head l.*1 -> (exists l0, h_abs h = l0 ++ l) ->
  advance h k p = l.*1 !! k.
Proof.
  intros Hi. revert l p. induction k as [|k IH]; intros l p -> [l0 El]; cbn [advance].
  - by destruct l.
  - destruct l as [|[q r] l]; cbn [fmap list_fmap head mbind option_bind].
    + rewrite (IH [] None); [done|done|by exists (h_abs h); rewrite app_nil_r].
    + destruct (h_next_ok h l0 q r l Hi El) as [En _]. cbn [fst]. rewrite En.
      apply (IH l); [done|]. exists (l0 ++ [(q, r)]). by rewrite <- app_assoc.
Qed.

Lemma use_history_ok {T} `{!History B T} (h : T) l u :
  h_inv h -> packets h = map (λ '(b, d), (Some b, d)) l ->
  exists h', use_history h u = Some h' ∧ h_inv h'
    ∧ packets h' = map (λ '(b, d), (Some b, d)) (use_list h_capacity l u).
Proof.
  intros Hi Hp. pose proof (f_equal length Hp) as Hlen. unfold packets in Hlen.
  rewrite !length_map in Hlen. destruct u as [b msec now|k]; cbn [use_history use_list].
  - destruct (h_full_ok h Hi) as [_ Hf]. rewrite Hlen in Hf. destruct (h_isFull h) eqn:Ef.
    + rewrite decide_True by (by apply Hf). eauto.
    + rewrite decide_False by (intros E; apply Hf in E; done).
      destruct (h_add_ok h b msec now Hi Ef) as (h' & p & r & Ea & Hi' & Hab & Hb & _ & Ht).
      exists h'. split; [done|]. split; [done|]. unfold packets. rewrite Hab. cbn [map].
      f_equal; [|exact Hp]. unfold TCP_Record.getSendBuffer, TCP_Record.getTimeout.
      by rewrite Hb, Ht.
  - rewrite (advance_nth h k (h_abs h)); [|done|by apply h_get_ok|by exists []].
    destruct ((h_abs h).*1 !! k) as [p|] eqn:Ek.
    + apply list_lookup_fmap_Some in Ek as ([q r] & -> & Ek). cbn [fst].
      destruct (h_remove_ok h (take k (h_abs h)) q r (drop (S k) (h_abs h)) Hi)
        as (h' & Er & Hi' & Hab); [by rewrite take_drop_middle|].
      exists h'. split; [done|]. split; [done|]. unfold packets in *. rewrite Hab.
      rewrite <- delete_take_drop. etransitivity; [apply list_fmap_delete|].
      etransitivity; [|symmetry; apply list_fmap_delete]. f_equal. exact Hp.
    + exists h. split; [done|]. split; [done|]. rewrite Hp. do 2 f_equal.
      rewrite list_lookup_fmap in Ek. apply fmap_None in Ek.
      apply lookup_ge_None in Ek. unfold packets in Hp. symmetry. rewrite delete_take_drop, take_ge, drop_ge by lia. apply app_nil_r.
Qed.

Lemma use_all_ok {T} `{!History B T} us (h : T) l :
  h_inv h -> packets h = map (λ '(b, d), (Some b, d)) l ->
  exists h', use_all use_history h us = Some h'
    ∧ packets h' = map (λ '(b, d), (Some b, d)) (foldl (use_list h_capacity) l us).
Proof.
  revert h l. induction us as [|u us IH]; intros h l Hi Hp; cbn [use_all foldl].
  - eauto.
  - destruct (use_history_ok h l u Hi Hp) as (h1 & -> & Hi1 & Hp1). cbn [mbind option_bind].
    by apply IH.
Qed.

(** C10: however the socket adds packets and removes them in any order, the
    sliding-window history never follows a null pointer and holds exactly the
    packets, deadlines and order of a plain list of at most [count] elements:
    no packet is lost, duplicated or resurrected by the pointer surgery on the
    used list and the free list. *)
Theorem sliding_window_is_list count (Hc : (0 < count)%nat) us :
  let _ := SlidingWindow.sliding_history (B := B) count Hc in
  exists h', use_all use_history (SlidingWindow.init count) us = Some h'
    ∧ packets h' = map (λ '(b, d), (Some b, d)) (foldl (use_list count) [] us).
Proof.
  intros I. destruct (@h_init_ok _ _ _ I) as [Hi E].
  destruct (use_all_ok us (@h_init _ _ _ I) [] Hi) as (h' & Eu & Hp).
  - unfold packets. by rewrite E.
  - by exists h'.
Qed.

(** *** The earliest deadline *)

Lemma min_timeout_spec (h : SlidingWindow.t B) fuel l min c :
  chain (SlidingWindow.getNext h) c l -> (length l <= fuel)%nat ->
  let deadline := λ p, TCP_Record.timeout (SlidingWindow.record h p) in
  let m := SlidingWindow.min_timeout h fuel min c in
  m ∈ min :: l ∧ (m = min ∨ deadline m ≠ 0) ∧ deadline m <= deadline min
  ∧ (forall p, p ∈ l -> deadline p ≠ 0 -> deadline m <= deadline p).
Proof.
  revert fuel min c. induction l as [|i l IH]; intros fuel min c Hc Hl deadline; cbn zeta.
  - cbn in Hc. subst c. replace (SlidingWindow.min_timeout h fuel min None) with min by (by destruct fuel).
    split; [left|]. split; [by left|]. split; [lia|]. intros p Hp. by apply elem_of_nil in Hp.
  - destruct Hc as [-> Hc]. destruct fuel as [|n]; [cbn in Hl; lia|]. cbn [SlidingWindow.min_timeout].
    match goal with |- context [SlidingWindow.min_timeout h n ?x _] => set (min' := x) end.
    destruct (IH n min' _ Hc ltac:(cbn in Hl; lia)) as (H1 & H2 & H3 & H4).
    set (m := SlidingWindow.min_timeout h n min' (SlidingWindow.getNext h i)) in *.
    fold (deadline m) in H2, H3, H4. fold (deadline min') in H3.
    unfold TCP_Record.getTimeout in min'. fold (deadline i) in min'. fold (deadline min) in min'.
    destruct (Z.eqb_spec (deadline i) 0) as [E0|E0], (Z.ltb_spec (deadline i) (deadline min)) as [Elt|Elt];
      cbn [negb andb] in min'; subst min'.
    1, 2, 4: split; [apply elem_of_cons in H1 as [->|H1]; [left|right; by right]|];
      split; [done|]; split; [done|]; intros p [->|Hp]%elem_of_cons Hne; [lia|by apply H4].
    split; [right; exact H1|]. split; [right; destruct H2 as [->|H2]; done|]. split; [lia|].
    intros p [->|Hp]%elem_of_cons Hne; [lia|by apply H4].
Qed.

(** While the newest packet has a deadline, [getNextTimeout] is the time
    left to the earliest deadline of all packets that have one.  When the
    newest packet is an acknowledgement without deadline, the answer is 0
    whatever the deadlines of the others. *)
Theorem next_timeout_earliest count (h : SlidingWindow.t B) p0 r0 rest now :
  SlidingWindow.inv count h -> SlidingWindow.abs h = (p0, r0) :: rest ->
  (forall p r, (p, r) ∈ SlidingWindow.abs h -> 0 <= TCP_Record.timeout r) ->
  (TCP_Record.timeout r0 ≠ 0 -> exists p r, (p, r) ∈ SlidingWindow.abs h
     ∧ TCP_Record.timeout r ≠ 0
     ∧ SlidingWindow.getNextTimeout now h = TCP_Record.getRemainingTime now r
     ∧ forall p' r', (p', r') ∈ SlidingWindow.abs h -> TCP_Record.timeout r' ≠ 0 ->
         TCP_Record.timeout r <= TCP_Record.timeout r')
  ∧ (TCP_Record.timeout r0 = 0 -> 0 < now -> SlidingWindow.getNextTimeout now h = 0).
Proof.
  intros (l & lf & G) E Hpos. pose proof (SlidingWindow.abs_good _ _ _ _ G) as Ea.
  rewrite Ea in E. destruct l as [|i l]; [done|]. injection E as <- <- <-.
  pose proof (Permutation_length (SlidingWindow.g_all _ _ _ _ G)) as Hlen.
  rewrite length_app, length_seq in Hlen. cbn [length] in Hlen.
  pose proof (SlidingWindow.g_len _ _ _ _ G) as Hrl.
  destruct (SlidingWindow.g_head _ _ _ _ G) as [Eh Hc].
  unfold SlidingWindow.getNextTimeout. rewrite Eh.
  destruct (min_timeout_spec h (length (SlidingWindow.records h)) l i _ Hc ltac:(lia))
    as (H1 & H2 & H3 & H4).
  set (m := SlidingWindow.min_timeout _ _ _ _) in *.
  assert (Hin : forall p, p ∈ i :: l -> (p, SlidingWindow.record h p) ∈ SlidingWindow.abs h).
  { intros p Hp. rewrite Ea. apply (list_elem_of_fmap_2 (λ p, (p, SlidingWindow.record h p)) (i :: l) p Hp). }
  split.
  - intros Hne. exists m, (SlidingWindow.record h m). split; [by apply Hin|].
    split; [destruct H2 as [->|H2]; done|]. split; [done|]. intros p' r' Hp' Hne'.
    rewrite Ea in Hp'. apply list_elem_of_fmap in Hp' as (p & [= -> ->] & Hp).
    apply elem_of_cons in Hp as [->|Hp]; [done|]. by apply H4.
  - intros E0 Hnow. assert (Em : TCP_Record.timeout (SlidingWindow.record h m) = 0).
    { pose proof (Hpos _ _ (Hin m H1)). lia. }
    unfold TCP_Record.getRemainingTime. rewrite Em. by destruct (Z.ltb_spec 0 now); [|lia].
Qed.

End Properties.

(** *** Witnesses *)

(** A clock whose tick is a millisecond. *)
Definition msec_clock : Clock := {| ms_to_ticks := λ ms, ms; ticks_to_ms := λ t, t |}.

Lemma sliding_window_is_list_witness :
  let _ := msec_clock in let _ := SlidingWindow.sliding_history (B := Z) 2 ltac:(lia) in
  exists h', use_all use_history (SlidingWindow.init 2)
               [Add 7 100 5; Add 8 0 5; Add 9 0 5; Remove 1; Add 10 20 6] = Some h'
    ∧ packets h' = [(Some 10, 26); (Some 8, 0)].
Proof.
  exact (@sliding_window_is_list Z msec_clock 2 ltac:(lia)
           [Add 7 100 5; Add 8 0 5; Add 9 0 5; Remove 1; Add 10 20 6]).
Defined.

(** Two packets, the newer one with a deadline. *)
Definition two_packets : SlidingWindow.t Z :=
  SlidingWindow.mk
    [SlidingWindow.mkNode (TCP_Record.mk 90 (Some 7) 0) None (Some 1%nat);
     SlidingWindow.mkNode (TCP_Record.mk 120 (Some 8) 0) (Some 0%nat) None]
    (Some 1%nat) None.

Lemma two_packets_inv : SlidingWindow.inv 2 two_packets.
Proof.
  exists [1%nat; 0%nat], []. split; cbn; try done. apply (Permutation_swap 0%nat 1%nat []).
Qed.

Lemma next_timeout_earliest_witness :
  let _ := msec_clock in
  exists p r, (p, r) ∈ SlidingWindow.abs two_packets ∧ TCP_Record.timeout r ≠ 0
    ∧ SlidingWindow.getNextTimeout 80 two_packets = TCP_Record.getRemainingTime 80 r
    ∧ forall p' r', (p', r') ∈ SlidingWindow.abs two_packets -> TCP_Record.timeout r' ≠ 0 ->
        TCP_Record.timeout r <= TCP_Record.timeout r'.
Proof.
  apply (@next_timeout_earliest Z msec_clock 2 two_packets 1 (TCP_Record.mk 120 (Some 8) 0)
           [(0%nat, TCP_Record.mk 90 (Some 7) 0)] 80 two_packets_inv eq_refl); [|done].
  intros p r [[= -> ->]|[[= -> ->]|Hp]%elem_of_cons]%elem_of_cons; try (cbn; lia).
  by apply elem_of_nil in Hp.
Defined.
