(* ===== verification/SendBuffer.v ===== *)
(** * SendBuffer: packets on their way out, packets received

    Models [SendBuffer.h] (the buffer a packet is built in, with its state and
    its data pointer), [ReceiveBuffer.h] (the copy of a received packet) and
    [Socket_Send_Slice.ah] ([send]).  Pointers into a buffer are offsets from
    the start of its data; the object header in front of the data is only its
    size, which the C++ ABI determines. *)

From S2P Require Import Prelude Wire Packet.

Open Scope Z_scope.

Module SendBuffer.

(** The states of a buffer; [ResolveLinkLayerStateOption] is or'ed to one. *)
Definition InvalidState : Z := 0x00.
Definition WritingState : Z := 0x01.
Definition AboutToBeTransmittedState : Z := 0x02.
Definition TransmittedState : Z := 0x04.
Definition ResolveLinkLayerStateOption : Z := 0x10.

(** [addr] is the address of the object, [mem] its data area, [data] the data
    pointer, [memstart_transport] where the transport header begins. *)
Record t := mk {
  addr : Z; m_memsize : Z; m_state : Z; mem : bytes; data : Z; memstart_transport : Z }.
#[global] Instance eta_t : Settable t := λ b,
  mk (addr b) (m_memsize b) (m_state b) (mem b) (data b) (memstart_transport b).

(** [createInstance] once the pool has answered with address [a]; the memory
    handed out is [junk]. *)
Definition createInstance (a requestedSize : Z) (junk : bytes) : option t :=
  if a =? 0 then None else Some (mk a requestedSize WritingState junk 0 0).

Definition getDataPointer (b : t) : Z := data b.
Definition writtenToDataPointer (length : Z) (b : t) : t := b <| data := data b + length |>.
Definition getRemainingSize (b : t) : Z := m_memsize b - data b.
Definition getSize (b : t) : Z := m_memsize b.
Definition setState (s : Z) (b : t) : t := b <| m_state := u8 s |>.
Definition getState (b : t) : Z := m_state b.
Definition getStateWithoutOptions (b : t) : Z := Z.land (m_state b) 0x0f.
Definition recycle (b : t) : t := b <| m_state := WritingState |>.

(** [write]: at most what fits. *)
Definition write (newdata : bytes) (length : Z) (b : t) : t :=
  let availableLength := getRemainingSize b in
  let length := if availableLength <? length then availableLength else length in
  let b := b <| mem := Packet.write (Z.to_nat (data b)) (take (Z.to_nat length) newdata) (mem b) |> in
  b <| data := data b + length |>.

(** The segment or datagram at the transport header. *)
Definition transport (b : t) : bytes := drop (Z.to_nat (memstart_transport b)) (mem b).

(** A write through a [TCP_Segment*] (or other header pointer) at offset [o]. *)
Definition at_pointer (o : Z) (f : bytes -> bytes) (b : t) : t :=
  b <| mem := take (Z.to_nat o) (mem b) ++ f (drop (Z.to_nat o) (mem b)) |>.

Lemma at_pointer_app o f b a r : mem b = a ++ r -> o = Z.of_nat (length a) -> mem (at_pointer o f b) = a ++ f r.
Proof. intros E ->. unfold at_pointer. simpl_set. by rewrite Nat2Z.id, E, take_app_length, drop_app_length. Qed.

(** A buffer is well formed: the pointers lie inside the memory. *)
Record wf (b : t) : Prop := {
  wf_mem : is_bytes (mem b);
  wf_size : Z.of_nat (length (mem b)) = m_memsize b;
  wf_data : 0 <= memstart_transport b <= data b ∧ data b <= m_memsize b }.

(** [write] never leaves the buffer, whatever the length asked for. *)
Lemma write_wf newdata l b : wf b -> is_bytes newdata -> 0 <= l -> l <= Z.of_nat (length newdata) ->
  wf (write newdata l b).
Proof.
  intros [H1 H2 H3] Hn Hl Hln. unfold write, getRemainingSize.
  destruct (Z.ltb_spec (m_memsize b - data b) l); split; simpl_set;
    rewrite ?length_write; auto with width; lia.
Qed.

Lemma write_remaining newdata l b : wf b -> 0 <= l ->
  getRemainingSize (write newdata l b) = Z.max 0 (getRemainingSize b - l).
Proof.
  intros [_ _ H3] Hl. unfold write, getRemainingSize.
  destruct (Z.ltb_spec (m_memsize b - data b) l); simpl_set; lia.
Qed.

End SendBuffer.

(** ** [ReceiveBuffer] *)

Module ReceiveBuffer.

(** Layout of the class on a platform with [ptr]-byte pointers aligned to
    [align] bytes: the pool pointer, a 16-bit size, then the data. *)
Definition offsetof_m_dataStart (ptr : Z) : Z := ptr + 2.
Definition sizeof_ReceiveBuffer (ptr align : Z) : Z := (ptr + 2 + align - 1) / align * align.

(** [createReceiveBuffer] at address [a]: where the copy of the payload starts. *)
Definition getData (ptr a : Z) : Z := a + offsetof_m_dataStart ptr.

(** [TCP_Socket::freeReceivedSegment]: the buffer it frees for a segment. *)
Definition freeReceivedSegment (ptr align segment : Z) : Z := segment - sizeof_ReceiveBuffer ptr align.

End ReceiveBuffer.

(** [TCP_Socket::freeReceivedSegment] finds the buffer of a segment
    exactly when the class has no padding at its end; with 4-byte or 8-byte
    pointers, naturally aligned, it frees an address two or six bytes below. *)
Theorem free_received_segment_padding ptr align a :
  0 < align ->
  (ReceiveBuffer.freeReceivedSegment ptr align (ReceiveBuffer.getData ptr a) = a
   <-> (ptr + 2) mod align = 0)
  ∧ ReceiveBuffer.freeReceivedSegment 4 4 (ReceiveBuffer.getData 4 a) = a - 2
  ∧ ReceiveBuffer.freeReceivedSegment 8 8 (ReceiveBuffer.getData 8 a) = a - 6.
Proof.
  intros Ha. unfold ReceiveBuffer.freeReceivedSegment, ReceiveBuffer.getData,
    ReceiveBuffer.sizeof_ReceiveBuffer, ReceiveBuffer.offsetof_m_dataStart.
  split; [|split].
  - pose proof (Z.div_mod (ptr + 2 + align - 1) align ltac:(lia)) as E1.
    pose proof (Z.mod_pos_bound (ptr + 2 + align - 1) align Ha) as B1.
    pose proof (Z.div_mod (ptr + 2) align ltac:(lia)) as E2.
    pose proof (Z.mod_pos_bound (ptr + 2) align Ha) as B2.
    set (x := (ptr + 2 + align - 1) / align) in *. set (y := (ptr + 2) / align) in *.
    set (r := (ptr + 2 + align - 1) mod align) in *. set (s := (ptr + 2) mod align) in *.
    clearbody x y r s. split; intros H; [|assert (x = y) by nia; nia].
    assert (r = align - 1) by nia. assert (x = y ∨ x = y + 1) as [->| ->] by nia; nia.
  - change (4 + 2 + 4 - 1) with 9. change (9 / 4) with 2. lia.
  - change (8 + 2 + 8 - 1) with 17. change (17 / 8) with 2. lia.
Qed.

Lemma free_received_segment_padding_witness :
  ReceiveBuffer.freeReceivedSegment 2 2 (ReceiveBuffer.getData 2 4096) = 4096.
Proof. apply (free_received_segment_padding 2 2 4096); [lia|reflexivity]. Defined.
