(* ===== verification/TcpReceiveBuffer.v ===== *)
(** * TcpReceiveBuffer: reassembly of the received stream

    Models [tcp/tcp_receivebuffer]: [TCP_RecvElement], the one-segment
    [TCP_ReceiveBuffer] (Module [OneSegment]) and the list of segments of
    [TCP_ReceiveBuffer_SlidingWindow_Slice.ah] that the sliding-window aspect
    replaces it with (Module [SegmentList]).  A segment is given by its
    address and its bytes; [copyData] answers the bytes copied to the
    application and the addresses of the segments it gave back.  A
    dereference of the null pointer answers [None].  The typeclass
    [ReceiveBuffer] is what either promises to the socket: with segments that
    carry pieces of the peer's stream, in any order and any number of times,
    what is delivered and what is acknowledged is that stream, byte by byte. *)

From Stdlib Require Import Sorting.Sorted.
From stdpp Require Import sets.
From S2P Require Import Prelude Wire Packet TcpSegment LinkedList.

Open Scope Z_scope.

(** [memcpy(dst, src, len)]: the bytes read. *)
Definition memcpy (src : bytes) (len : Z) : bytes := take (Z.to_nat len) src.

Module TCP_RecvElement.
Record t := mk { len : Z; seqNum : Z; data : bytes; segmentPtr : Z }.
#[global] Instance eta_t : Settable t := λ r, mk (len r) (seqNum r) (data r) (segmentPtr r).

Definition setSegment (e : endian) (ptr : Z) (segment : bytes) (length sequenceNumber : Z) : t :=
  mk length sequenceNumber (TCP_Segment.get_data e segment) ptr.
Definition getNextSeqNum (r : t) : Z := u32 (seqNum r + len r).
Definition increment (inc : Z) (r : t) : t :=
  mk (u32 (len r - inc)) (u32 (seqNum r + inc)) (drop (Z.to_nat inc) (data r)) (segmentPtr r).
(** Uninitialised memory. *)
Definition garbage : t := mk 0 0 [] 0.
End TCP_RecvElement.

(** The bytes of stream [S] from position [q] on. *)
Definition slice (S : Z -> Z) (q len : Z) : bytes := map S (seqZ q len).

(** A segment that carries [len] bytes of the stream from position [q] on. *)
Definition carries (e : endian) (S : Z -> Z) (segment : bytes) (q len : Z) : Prop :=
  memcpy (TCP_Segment.get_data e segment) len = slice S q len.

(** How far from the read position segments may lie. *)
Definition window : Z := 1073741824.

Class ReceiveBuffer (e : endian) (R : Type) := {
  rb_init : R;
  rb_setFirstSeqNum : Z -> R -> R;
  rb_isPushed : R -> bool;
  rb_getRecvBytes : R -> Z;
  rb_getAckNum : R -> Z;
  rb_copyData : Z -> R -> option (bytes * list Z * R);
  rb_insert : Z -> bytes -> Z -> Z -> R -> option (bool * R);
  (** [b] has stream [S] up to position [pos] behind it and holds the next [n]
      bytes of it. *)
  rb_holds : R -> (Z -> Z) -> Z -> Z -> Prop;
  rb_set_set : forall x y b, rb_setFirstSeqNum x (rb_setFirstSeqNum y b) = rb_setFirstSeqNum x b;
  rb_init_ok : forall S pos, rb_holds (rb_setFirstSeqNum (u32 pos) rb_init) S pos 0;
  rb_ack_ok : forall b S pos n, rb_holds b S pos n ->
    rb_getRecvBytes b = n ∧ rb_getAckNum b = u32 (pos + n) ∧ 0 <= n;
  rb_insert_ok : forall b S pos n ptr segment q len, rb_holds b S pos n ->
    0 < len -> pos - window <= q -> q + len <= pos + window -> carries e S segment q len ->
    exists r b' n', rb_insert ptr segment (u32 q) len b = Some (r, b') ∧ rb_holds b' S pos n'
      ∧ n <= n';
  rb_copy_ok : forall b S pos n len, rb_holds b S pos n -> 0 < len <= n ->
    exists freed b', rb_copyData len b = Some (slice S pos len, freed, b')
      ∧ rb_holds b' S (pos + len) (n - len);
}.

(** Reading nothing does nothing, even when nothing is there; the one-segment
    buffer does not promise this. *)
Class ReadsNothing (e : endian) (R : Type) {RI : ReceiveBuffer e R} :=
  rb_copy_nothing : forall b S pos n, rb_holds b S pos n ->
    exists b', rb_copyData 0 b = Some ([], [], b') ∧ rb_holds b' S pos n.

Lemma length_slice S q len : length (slice S q len) = Z.to_nat len.
Proof. unfold slice. by rewrite length_map, length_seqZ. Qed.

Lemma slice_app S q a b : 0 <= a -> 0 <= b -> slice S q (a + b) = slice S q a ++ slice S (q + a) b.
Proof. intros. unfold slice. rewrite <- map_app. f_equal. by rewrite seqZ_app. Qed.

(** Copying less. *)
Lemma memcpy_slice S src q len k :
  memcpy src len = slice S q len -> 0 <= k <= len -> memcpy src k = slice S q k.
Proof.
  unfold memcpy. intros H Hk. replace len with (k + (len - k)) in H by lia.
  rewrite slice_app in H by lia. apply (f_equal (take (Z.to_nat k))) in H.
  rewrite take_take, take_app_length' in H by (rewrite length_slice; lia).
  by rewrite Nat.min_l in H by lia.
Qed.

(** Copying the rest. *)
Lemma drop_slice S src q len k :
  memcpy src len = slice S q len -> 0 <= k <= len ->
  memcpy (drop (Z.to_nat k) src) (len - k) = slice S (q + k) (len - k).
Proof.
  unfold memcpy. intros H Hk. replace len with (k + (len - k)) in H at 2 by lia.
  rewrite slice_app in H by lia. apply (f_equal (drop (Z.to_nat k))) in H.
  rewrite drop_app_length' in H by (rewrite length_slice; lia). rewrite <- H.
  rewrite take_drop_commute. f_equal. f_equal. lia.
Qed.

(** ** One segment *)

Module OneSegment.
Section One.
Context (e : endian).
Import TCP_RecvElement.

(** [element] is the only element of the array; [head] points to it or not. *)
Record t := mk { element : TCP_RecvElement.t; head : bool; read_firstSeqNum : Z; pushFlag : bool }.
#[global] Instance eta_t : Settable t :=
  λ b, mk (element b) (head b) (read_firstSeqNum b) (pushFlag b).

Definition init : t := mk garbage false 0 false.
Definition setFirstSeqNum (seqNum : Z) (b : t) : t := b <| read_firstSeqNum := seqNum |>.
Definition isPushed (b : t) : bool := pushFlag b.
Definition getRecvBytes (b : t) : Z := if negb (head b) then 0 else len (element b).
Definition getAckNum (b : t) : Z :=
  if negb (head b) then read_firstSeqNum b else getNextSeqNum (element b).

Definition copyData (len : Z) (b : t) : option (bytes * list Z * t) :=
  let b := b <| read_firstSeqNum := u32 (read_firstSeqNum b + len) |> in
  if negb (head b) then None
  else
    let current_len := TCP_RecvElement.len (element b) in
    if current_len =? len then
      Some (memcpy (data (element b)) current_len, [segmentPtr (element b)],
            b <| head := false |> <| pushFlag := false |>)
    else Some (memcpy (data (element b)) len, [], b <| element := increment len (element b) |>).

Definition insert (ptr : Z) (segment : bytes) (seqnum len : Z) (b : t) : bool * t :=
  if seqnum =? read_firstSeqNum b then
    if negb (head b) then
      let b := b <| head := true |> in
      let b := b <| element := setSegment e ptr segment len seqnum |> in
      let b := if TCP_Segment.has_PSH e segment then b <| pushFlag := true |> else b in
      (true, b)
    else (false, b)
  else (false, b).

Definition holds (b : t) (S : Z -> Z) (pos n : Z) : Prop :=
  read_firstSeqNum b = u32 pos
  ∧ if head b then
      0 < n <= window ∧ len (element b) = n ∧ seqNum (element b) = u32 pos
      ∧ memcpy (data (element b)) n = slice S pos n
    else n = 0.

#[export] Program Instance one_buffer : ReceiveBuffer e t := {|
  rb_init := init;
  rb_setFirstSeqNum := setFirstSeqNum;
  rb_isPushed := isPushed;
  rb_getRecvBytes := getRecvBytes;
  rb_getAckNum := getAckNum;
  rb_copyData := copyData;
  rb_insert := λ ptr segment seqnum len b, Some (insert ptr segment seqnum len b);
  rb_holds := holds;
|}.
Next Obligation. done. Qed.
Next Obligation. done. Qed.
Next Obligation.
  intros b S pos n [Hf Hh]. unfold getRecvBytes, getAckNum, getNextSeqNum. rewrite Hf.
  destruct (head b); cbn [negb].
  - destruct Hh as (Hn & -> & -> & _). split; [done|]. split; [|lia]. unfold u32.
    by rewrite Zplus_mod_idemp_l.
  - subst n. by rewrite Z.add_0_r.
Qed.
Next Obligation.
  intros b S pos n ptr segment q l [Hf Hh] Hl Hq1 Hq2 Hc. unfold insert. rewrite Hf.
  destruct (Z.eqb_spec (u32 q) (u32 pos)) as [E|E].
  - assert (q = pos) as -> by (unfold window in *; zlia).
    destruct (head b) eqn:Eh; cbn [negb].
    + eexists _, b, n. split; [done|]. split; [split; [done|by rewrite Eh]|lia].
    + subst n. eexists _, _, l. split; [done|]. split; [|lia].
      unfold holds. destruct (TCP_Segment.has_PSH e segment); simpl_set; (split; [done|]);
        (split; [lia|]); done.
  - eexists _, b, n. done.
Qed.
Next Obligation.
  intros b S pos n l [Hf Hh] Hl. unfold copyData. simpl_set. destruct (head b) eqn:Eh; cbn [negb].
  - destruct Hh as (Hn & En & Es & Hc). rewrite En.
    assert (Ef : u32 (read_firstSeqNum b + l) = u32 (pos + l))
      by (rewrite Hf; unfold u32; by rewrite Zplus_mod_idemp_l).
    destruct (Z.eqb_spec n l) as [->|Hne].
    + eexists _, _. split; [by rewrite Hc|]. split; simpl_set; [done|lia].
    + eexists _, _. split; [rewrite (memcpy_slice S _ pos n l) by (done || lia); reflexivity|].
      split; simpl_set; [done|]. rewrite En, Es. unfold window in *.
      split; [lia|]. split; [apply u32_id; zlia|].
      split; [unfold u32; by rewrite Zplus_mod_idemp_l|]. apply drop_slice; [done|lia].
  - lia.
Qed.

End One.
End OneSegment.

(** ** The list of segments *)

Module SegmentList.
Section Buffer.
Context (e : endian).
Import TCP_RecvElement.

(** An element with the link of [TCP_RecvElement_SlidingWindow_Slice]. *)
Record node := mkNode { element : TCP_RecvElement.t; next : option nat }.
#[global] Instance eta_node : Settable node := λ n, mkNode (element n) (next n).

Record t := mk {
  elements : list node; head : option nat; freelist : option nat;
  recv_continuous : option nat; recv_bytes : Z;
  read_firstSeqNum : Z; pushFlag : bool }.
#[global] Instance eta_t : Settable t := λ b,
  mk (elements b) (head b) (freelist b) (recv_continuous b) (recv_bytes b)
     (read_firstSeqNum b) (pushFlag b).

(** [count] is TCP_RECEIVEBUFFER_MAX_PACKETS. *)
Definition init (count : nat) : t :=
  mk (map (λ i, mkNode garbage (if decide (S i = count) then None else Some (S i))) (seq 0 count))
     None (Some 0%nat) None 0 0 false.

Definition elem (b : t) (i : nat) : TCP_RecvElement.t := default garbage (element <$> elements b !! i).
Definition getNext (b : t) (i : nat) : option nat := elements b !! i ≫= next.
Definition setNext (i : nat) (n : option nat) (b : t) : t :=
  b <| elements := alter (λ x, x <| next := n |>) i (elements b) |>.
Definition setElem (i : nat) (r : TCP_RecvElement.t) (b : t) : t :=
  b <| elements := alter (λ x, x <| element := r |>) i (elements b) |>.

Definition alloc (b : t) : option (nat * t) :=
  element ← freelist b;
  Some (element, b <| freelist := getNext b element |>).

Definition free (element : nat) (b : t) : t :=
  let b := setNext element (freelist b) b in
  b <| freelist := Some element |>.

(** The [while] of [updateContinuous]: [recv_continuous] is [c]. *)
Fixpoint extend (fuel : nat) (c : nat) (b : t) : t :=
  match fuel, getNext b c with
  | S n, Some next =>
      if getNextSeqNum (elem b c) =? seqNum (elem b next) then
        let b := b <| recv_continuous := Some next |> in
        extend n next (b <| recv_bytes := u32 (recv_bytes b + len (elem b next)) |>)
      else b
  | _, _ => b
  end.

Definition updateContinuous (b : t) : t :=
  match recv_continuous b with
  | Some c => extend (length (elements b)) c b
  | None =>
      match head b with
      | Some h =>
          if read_firstSeqNum b =? seqNum (elem b h) then
            let b := b <| recv_continuous := Some h |> in
            let b := b <| recv_bytes := len (elem b h) |> in
            extend (length (elements b)) h b
          else b
      | None => b
      end
  end.

(** The [while] of [copyData_SlindingWindow]; [dst] and [freed] are what was
    copied and given back so far. *)
Fixpoint copy_loop (fuel : nat) (l : Z) (dst : bytes) (freed : list Z) (b : t)
    : option (bytes * list Z * t) :=
  match fuel with
  | O => None
  | S n =>
      if 0 <? l then
        h ← head b;
        let current_len := len (elem b h) in
        if current_len <=? l then
          let dst := dst ++ memcpy (data (elem b h)) current_len in
          let b := if decide (head b = recv_continuous b) then b <| recv_continuous := None |> else b in
          let next := getNext b h in
          let freed := freed ++ [segmentPtr (elem b h)] in
          let b := free h b in
          let b := b <| head := next |> in
          match next with
          | None => Some (dst, freed, b <| pushFlag := false |>)
          | Some _ => copy_loop n (l - current_len) dst freed b
          end
        else
          Some (dst ++ memcpy (data (elem b h)) l, freed, setElem h (increment l (elem b h)) b)
      else Some (dst, freed, b)
  end.

Definition copyData (l : Z) (b : t) : option (bytes * list Z * t) :=
  let b := b <| read_firstSeqNum := u32 (read_firstSeqNum b + l) |> in
  let b := b <| recv_bytes := u32 (recv_bytes b - l) |> in
  copy_loop (S (length (elements b))) l [] [] b.

(** Where [insert] puts a segment: after an element (at the front for
    [After None]), or nowhere because it is a duplicate. *)
Inductive place := After (prev : option nat) | Duplicate.

(** The [while] of [insert_SlidingWindow]; [None] if it does not end. *)
Fixpoint search (fuel : nat) (seqnum : Z) (prev current : option nat) (b : t) : option place :=
  match current with
  | None => Some (After prev)
  | Some c =>
      match fuel with
      | O => None
      | S n =>
          if TCP_Segment.SEQ_GEQ seqnum (getNextSeqNum (elem b c)) then
            search n seqnum (Some c) (getNext b c) b
          else if TCP_Segment.SEQ_GEQ seqnum (seqNum (elem b c)) then Some Duplicate
          else if decide (current = recv_continuous b) then Some Duplicate
          else Some (After prev)
      end
  end.

(** Link [element] at the front, or after [prev]. *)
Definition link (element : nat) (prev : option nat) (b : t) : t :=
  match prev with
  | None => (setNext element (head b) b) <| head := Some element |>
  | Some p => setNext p (Some element) (setNext element (getNext b p) b)
  end.

Definition insert (ptr : Z) (segment : bytes) (seqnum l : Z) (b : t) : option (bool * t) :=
  match freelist b with
  | None => Some (false, b)
  | Some _ =>
      if TCP_Segment.SEQ_LT seqnum (read_firstSeqNum b) then Some (false, b)
      else
        let current := match recv_continuous b with None => head b | Some c => Some c end in
        place ← search (length (elements b)) seqnum None current b;
        match place with
        | Duplicate => Some (false, b)
        | After prev =>
            '(element, b) ← alloc b;
            let b := setElem element (setSegment e ptr segment l seqnum) b in
            let b := updateContinuous (link element prev b) in
            let b := if TCP_Segment.has_PSH e segment then b <| pushFlag := true |> else b in
            Some (true, b)
        end
  end.

Definition setFirstSeqNum (seqNum : Z) (b : t) : t := b <| read_firstSeqNum := seqNum |>.
Definition isPushed (b : t) : bool := pushFlag b.
Definition getRecvBytes (b : t) : Z := recv_bytes b.
Definition getAckNum (b : t) : Z :=
  match recv_continuous b with
  | None => read_firstSeqNum b
  | Some c => getNextSeqNum (elem b c)
  end.

(** *** Field writes *)

Lemma next_setNext i n b j : (i < length (elements b))%nat ->
  getNext (setNext i n b) j = if decide (i = j) then n else getNext b j.
Proof.
  intros Hi. unfold getNext, setNext. simpl_set. destruct (decide (i = j)) as [<-|].
  - rewrite list_lookup_alter_eq. by destruct (lookup_lt_is_Some_2 _ _ Hi) as [r ->].
  - by rewrite list_lookup_alter_ne.
Qed.

Lemma elem_setNext i n b j : elem (setNext i n b) j = elem b j.
Proof.
  unfold elem, setNext. simpl_set. destruct (decide (i = j)) as [<-|].
  - rewrite list_lookup_alter_eq. by destruct (elements b !! i).
  - by rewrite list_lookup_alter_ne.
Qed.

Lemma getNext_setElem i r b j : getNext (setElem i r b) j = getNext b j.
Proof.
  unfold getNext, setElem. simpl_set. destruct (decide (i = j)) as [<-|].
  - rewrite list_lookup_alter_eq. by destruct (elements b !! i).
  - by rewrite list_lookup_alter_ne.
Qed.

Lemma elem_setElem i r b j : (i < length (elements b))%nat ->
  elem (setElem i r b) j = if decide (i = j) then r else elem b j.
Proof.
  intros Hi. unfold elem, setElem. simpl_set. destruct (decide (i = j)) as [<-|].
  - rewrite list_lookup_alter_eq. by destruct (lookup_lt_is_Some_2 _ _ Hi) as [x ->].
  - by rewrite list_lookup_alter_ne.
Qed.

Lemma elements_setNext i n b : length (elements (setNext i n b)) = length (elements b).
Proof. apply length_alter. Qed.
Lemma length_setElem i r b : length (elements (setElem i r b)) = length (elements b).
Proof. apply length_alter. Qed.

Definition lenOf (b : t) (i : nat) : Z := len (elem b i).

(** *** The invariant *)

(** A list of elements, with the stream positions of their first bytes, that
    covers the stream from [p] to [r] without a gap. *)
Fixpoint contig (L : nat -> Z) (p : Z) (ps : list (nat * Z)) (r : Z) : Prop :=
  match ps with [] => p = r | (i, q) :: ps => q = p ∧ contig L (p + L i) ps r end.

Definition elem_ok (S : Z -> Z) (r : TCP_RecvElement.t) (q : Z) : Prop :=
  seqNum r = u32 q ∧ 0 < len r <= window ∧ memcpy (data r) (len r) = slice S q (len r).

Definition later (x y : nat * Z) : Prop := x.2 < y.2.

(** [p1] are the elements of the continuous part, [p2] the others; [lf] are
    the free ones. *)
Record core (count : nat) (b : t) (S : Z -> Z) (pos n : Z) (p1 p2 : list (nat * Z)) (lf : list nat)
    : Prop := {
  c_len : length (elements b) = count;
  c_head : chain (getNext b) (head b) (p1.*1 ++ p2.*1);
  c_free : chain (getNext b) (freelist b) lf;
  c_all : (p1.*1 ++ p2.*1) ++ lf ≡ₚ seq 0 count;
  c_ok : forall i q, (i, q) ∈ p1 ++ p2 -> elem_ok S (elem b i) q;
  c_contig : contig (lenOf b) pos p1 (pos + n);
  c_rc : recv_continuous b = last p1.*1;
  c_sorted : StronglySorted later p2;
  c_low : forall i q, (i, q) ∈ p2 -> pos + n - window <= q ∧ q + lenOf b i <= pos + window;
  c_n : 0 <= n <= window }.

Definition holds (count : nat) (b : t) (S : Z -> Z) (pos n : Z) : Prop :=
  exists p1 p2 lf, core count b S pos n p1 p2 lf
    ∧ read_firstSeqNum b = u32 pos ∧ recv_bytes b = n.

Lemma contig_app L p a c r :
  contig L p (a ++ c) r <-> exists m, contig L p a m ∧ contig L m c r.
Proof.
  revert p. induction a as [|[i q] a IH]; intros p; cbn [contig app].
  - split; [by eauto|]. by intros (m & -> & ?).
  - rewrite IH. split; [intros (-> & m & ? & ?); eauto|intros (m & (-> & ?) & ?); eauto].
Qed.

Lemma contig_ext L L' p ps r :
  (forall i, i ∈ ps.*1 -> L' i = L i) -> contig L p ps r -> contig L' p ps r.
Proof.
  revert p. induction ps as [|[i q] ps IH]; intros p Hx H; [done|]. destruct H as [-> H].
  split; [done|]. rewrite Hx by left. apply IH; [|done]. intros j Hj. apply Hx. by right.
Qed.

(** Positions inside the continuous part. *)
Lemma contig_in L p ps r i q : contig L p ps r -> (forall j x, (j, x) ∈ ps -> 0 < L j) ->
  (i, q) ∈ ps -> p <= q ∧ q + L i <= r.
Proof.
  revert p. induction ps as [|[j x] ps IH]; intros p H Hp Hi; [by apply elem_of_nil in Hi|].
  destruct H as [-> H].
  assert (Hpr : p + L j <= r).
  { clear IH Hi. assert (Hp' : forall k y, (k, y) ∈ ps -> 0 < L k)
      by (intros k y Hk; apply (Hp k y); by right).
    revert H Hp'. generalize (p + L j). clear Hp. induction ps as [|[k y] ps IH]; intros m H Hp.
    - cbn in H. lia.
    - destruct H as [-> H]. specialize (IH _ H). pose proof (Hp k m ltac:(left)).
      assert (m + L k <= r) by (apply IH; intros k' y' Hk; apply (Hp k' y'); by right). lia. }
  pose proof (Hp j p ltac:(left)). apply elem_of_cons in Hi as [[= -> ->]|Hi]; [lia|].
  destruct (IH _ H) as [? ?]; [|done|lia]. intros k y Hk. apply (Hp k y). by right.
Qed.

Lemma core_pos_len count b S pos n p1 p2 lf i q : core count b S pos n p1 p2 lf ->
  (i, q) ∈ p1 ++ p2 -> 0 < lenOf b i <= window ∧ seqNum (elem b i) = u32 q.
Proof. intros C Hi. by destruct (c_ok _ _ _ _ _ _ _ _ C i q Hi) as (? & ? & _). Qed.

(** Every stored position is within the window. *)
Lemma core_range count b S pos n p1 p2 lf i q : core count b S pos n p1 p2 lf ->
  (i, q) ∈ p1 ++ p2 -> pos - window <= q ∧ q + lenOf b i <= pos + window.
Proof.
  intros C Hi. pose proof (c_n _ _ _ _ _ _ _ _ C) as Hn. apply elem_of_app in Hi as [Hi|Hi].
  - destruct (contig_in _ _ _ _ i q (c_contig _ _ _ _ _ _ _ _ C)) as [? ?]; [|done|unfold window in *; lia].
    intros j x Hj. eapply core_pos_len; [done|]. apply elem_of_app. by left.
  - pose proof (c_low _ _ _ _ _ _ _ _ C i q Hi). lia.
Qed.

Lemma core_NoDup count b S pos n p1 p2 lf : core count b S pos n p1 p2 lf ->
  NoDup ((p1.*1 ++ p2.*1) ++ lf).
Proof. intros C. rewrite (c_all _ _ _ _ _ _ _ _ C). apply NoDup_seq. Qed.

Lemma core_bound count b S pos n p1 p2 lf i : core count b S pos n p1 p2 lf ->
  i ∈ (p1.*1 ++ p2.*1) ++ lf -> (i < length (elements b))%nat.
Proof.
  intros C Hi. rewrite (c_all _ _ _ _ _ _ _ _ C) in Hi. apply elem_of_seq in Hi.
  rewrite (c_len _ _ _ _ _ _ _ _ C). lia.
Qed.

(** *** Extending the continuous part *)

(** The first of the other elements follows directly. *)
Lemma core_extend count b S pos n p1 d p2 lf :
  core count b S pos n p1 ((d, pos + n) :: p2) lf ->
  core count (b <| recv_continuous := Some d |> <| recv_bytes := u32 (n + lenOf b d) |>)
       S pos (n + lenOf b d) (p1 ++ [(d, pos + n)]) p2 lf
  ∧ u32 (n + lenOf b d) = n + lenOf b d.
Proof.
  intros C. pose proof (core_pos_len _ _ _ _ _ _ _ _ d (pos + n) C) as Hd.
  destruct Hd as [Hd _]; [apply elem_of_app; right; left|].
  pose proof (c_low _ _ _ _ _ _ _ _ C d (pos + n) ltac:(left)) as Hlow.
  destruct C as [H1 H2 H3 H4 H5 H6 H7 H8 H9 H10]. unfold window in *.
  split; [|apply u32_id; zlia]. set (b' := b <| recv_continuous := Some d |> <| recv_bytes := _ |>).
  assert (HL : forall i, lenOf b' i = lenOf b i) by done.
  split; try done.
  - rewrite fmap_app, <- app_assoc. exact H2.
  - rewrite fmap_app, <- !app_assoc. rewrite <- app_assoc in H4. exact H4.
  - intros i q Hi. apply H5. by rewrite <- app_assoc in Hi.
  - apply contig_app. exists (pos + n). split; [exact H6|]. cbn [contig]. rewrite HL. split; [done|lia].
  - rewrite fmap_app. cbn [fmap list_fmap fst]. by rewrite last_snoc.
  - by apply StronglySorted_inv in H8 as [? _].
  - intros i q Hi. destruct (H9 i q) as [? Hu]; [by right|].
    apply StronglySorted_inv in H8 as [_ Hs]. rewrite Forall_forall in Hs.
    specialize (Hs (i, q) Hi). unfold later in Hs. cbn in Hs. rewrite HL. unfold window. lia.
  - unfold window. lia.
Qed.

(** The node after the continuous part. *)
Lemma next_of_last count b S pos n p1 p2 lf c :
  core count b S pos n p1 p2 lf -> last p1.*1 = Some c -> getNext b c = list.head p2.*1.
Proof.
  intros C Hc. pose proof (c_head _ _ _ _ _ _ _ _ C) as H.
  apply last_Some in Hc as [l E]. rewrite E, <- app_assoc in H. by eapply chain_next.
Qed.

Lemma end_of_last count b S pos n p1 p2 lf c :
  core count b S pos n p1 p2 lf -> last p1.*1 = Some c -> getNextSeqNum (elem b c) = u32 (pos + n).
Proof.
  intros C Hc. destruct p1 as [|x p1] using rev_ind; [done|]. clear IHp1. destruct x as [i q].
  rewrite fmap_app in Hc. cbn [fmap list_fmap fst] in Hc. rewrite last_snoc in Hc. injection Hc as ->.
  destruct (core_pos_len _ _ _ _ _ _ _ _ c q C) as [_ Hs]; [set_solver|].
  pose proof (c_contig _ _ _ _ _ _ _ _ C) as Hg. apply contig_app in Hg as (m & _ & Hg).
  cbn in Hg. destruct Hg as [-> Hg]. unfold getNextSeqNum, lenOf in *. rewrite Hs.
  unfold u32. rewrite Zplus_mod_idemp_l. f_equal. lia.
Qed.

Lemma extend_spec count fuel b S pos n p1 p2 lf c :
  core count b S pos n p1 p2 lf -> recv_bytes b = n -> last p1.*1 = Some c ->
  (length p2 <= fuel)%nat ->
  exists n' p1' p2', core count (extend fuel c b) S pos n' p1' p2' lf
    ∧ recv_bytes (extend fuel c b) = n' ∧ n <= n'
    ∧ read_firstSeqNum (extend fuel c b) = read_firstSeqNum b
    ∧ (forall d c, p2 = (d, pos + n) :: c -> n + lenOf b d <= n').
Proof.
  revert b n p1 p2 c. induction fuel as [|fuel IH]; intros b n p1 p2 c C Hr Hc Hf; cbn [extend].
  - exists n, p1, p2. do 4 (split; [done|]). intros d c' ->. cbn in Hf. lia.
  - rewrite (next_of_last _ _ _ _ _ _ _ _ _ C Hc), (end_of_last _ _ _ _ _ _ _ _ _ C Hc).
    destruct p2 as [|[d q] p2]; cbn [fmap list_fmap list.head fst].
    { exists n, p1, []. do 4 (split; [done|]). by intros ? ? ?. }
    destruct (core_pos_len _ _ _ _ _ _ _ _ d q C) as [Hd ->]; [set_solver|].
    pose proof (c_low _ _ _ _ _ _ _ _ C d q ltac:(left)) as Hlow.
    pose proof (c_n _ _ _ _ _ _ _ _ C) as Hn.
    destruct (Z.eqb_spec (u32 (pos + n)) (u32 q)) as [E|E];
      [|exists n, p1, ((d, q) :: p2); do 4 (split; [done|]); intros d' c' [= <- -> _]; done].
    assert (q = pos + n) as -> by (unfold window in *; clear - E Hlow Hn Hd; zlia).
    destruct (core_extend _ _ _ _ _ _ _ _ _ C) as [C' Eu]. simpl_set. rewrite Hr.
    destruct (IH _ _ _ _ d C') as (n' & p1' & p2' & C2 & Hr2 & Hn2 & Hf2 & _);
      [done|rewrite fmap_app; cbn [fmap list_fmap fst]; by rewrite last_snoc|cbn in Hf; lia|].
    exists n', p1', p2'. split; [exact C2|]. split; [exact Hr2|]. split; [lia|]. split; [exact Hf2|].
    intros d' c' [= -> ->]. lia.
Qed.

Lemma p2_length count b S pos n p1 p2 lf :
  core count b S pos n p1 p2 lf -> (length (p1 ++ p2) <= length (elements b))%nat.
Proof.
  intros C. pose proof (Permutation_length (c_all _ _ _ _ _ _ _ _ C)) as E.
  rewrite !length_app, !length_fmap, length_seq in E. rewrite (c_len _ _ _ _ _ _ _ _ C), length_app. lia.
Qed.

Lemma updateContinuous_spec count b S pos n p1 p2 lf :
  core count b S pos n p1 p2 lf -> read_firstSeqNum b = u32 pos -> recv_bytes b = n ->
  exists n', holds count (updateContinuous b) S pos n' ∧ n <= n'
    ∧ (forall d c, p2 = (d, pos + n) :: c -> n + lenOf b d <= n').
Proof.
  intros C Hf Hr. pose proof (p2_length _ _ _ _ _ _ _ _ C) as Hlen. rewrite length_app in Hlen.
  unfold updateContinuous. pose proof (c_rc _ _ _ _ _ _ _ _ C) as Erc. rewrite Erc.
  destruct (last p1.*1) as [c|] eqn:El.
  - destruct (extend_spec count (length (elements b)) b S pos n p1 p2 lf c C Hr El)
      as (n' & p1' & p2' & C' & Hr' & Hn' & Hf' & Hd'); [lia|].
    exists n'. split; [|done]. exists p1', p2', lf. by rewrite Hf', Hf.
  - apply last_None, fmap_nil_inv in El. subst p1. cbn [app] in *.
    pose proof (c_contig _ _ _ _ _ _ _ _ C) as En. cbn in En. assert (n = 0) as -> by lia.
    rewrite (chain_head _ _ _ (c_head _ _ _ _ _ _ _ _ C)).
    destruct p2 as [|[h q] p2]; cbn [fmap list_fmap list.head fst app].
    { exists 0. split; [exists [], [], lf; done|]. split; [done|]. by intros ? ? ?. }
    destruct (core_pos_len _ _ _ _ _ _ _ _ h q C) as [Hh ->]; [left|]. rewrite Hf.
    pose proof (c_low _ _ _ _ _ _ _ _ C h q ltac:(left)) as Hlow.
    destruct (Z.eqb_spec (u32 pos) (u32 q)) as [E|E].
    + assert (q = pos) as -> by (unfold window in *; clear - E Hlow Hh; zlia).
      pose proof C as C0. rewrite <- (Z.add_0_r pos) in C0 at 2.
      destruct (core_extend _ _ _ _ _ _ _ _ _ C0) as [C' Eu]. cbn [app] in C'. rewrite Z.add_0_l in *.
      rewrite Eu in C'. rewrite Z.add_0_r in C'.
      destruct (extend_spec count (length (elements b)) _ S pos _ _ _ _ h C')
        as (n' & p1' & p2' & C2 & Hr2 & Hn2 & Hf2 & _); [done|done|cbn in Hlen; lia|].
      exists n'. split; [exists p1', p2', lf; split; [exact C2|]; split; [rewrite <- Hf; exact Hf2|exact Hr2]|].
      split; [lia|]. intros d' c' [= <- _ _]. lia.
    + exists 0. split; [exists [], ((h, q) :: p2), lf; done|]. split; [done|].
      intros d' c' [= _ E2 _]. exfalso. apply E. f_equal. lia.
Qed.

(** *** Inserting *)

(** Where the search stops. *)
Definition stops (b : t) (q : Z) (prev : option nat) (ps : list (nat * Z)) (r : place) : Prop :=
  match r with
  | Duplicate => True
  | After p => exists a c, ps = a ++ c ∧ p = last_or prev a.*1
      ∧ (forall i x, (i, x) ∈ a -> x + lenOf b i <= q)
      ∧ match c with (i, x) :: _ => q < x ∧ recv_continuous b ≠ Some i | [] => True end
  end.

Lemma last_or_cons prev i l : last_or (Some i) l = last_or prev (i :: l).
Proof.
  unfold last_or. destruct l as [|j l]; [done|]. change (last (i :: j :: l)) with (last (j :: l)).
  by destruct (last (j :: l)) eqn:E; [|apply last_None in E].
Qed.

Lemma search_spec b q pos fuel prev cur ps :
  chain (getNext b) cur ps.*1 -> (length ps <= fuel)%nat ->
  (forall i x, (i, x) ∈ ps -> seqNum (elem b i) = u32 x ∧ 0 < lenOf b i <= window
     ∧ pos - window <= x ∧ x + lenOf b i <= pos + window) ->
  pos <= q < pos + window ->
  exists r, search fuel (u32 q) prev cur b = Some r ∧ stops b q prev ps r.
Proof.
  revert prev cur ps. induction fuel as [|fuel IH]; intros prev cur [|[i x] ps] Hc Hl Hok Hq.
  1, 3: cbn in Hc; subst cur; eexists; split; [reflexivity|];
    exists [], []; split_ands; try done; intros ? ? Hj; by apply elem_of_nil in Hj.
  - cbn in Hl. lia.
  - destruct Hc as [-> Hc]. cbn [search fst].
    destruct (Hok i x ltac:(left)) as (Es & Hlen & Hx1 & Hx2). unfold window in *.
    assert (Hnext : getNextSeqNum (elem b i) = u32 (x + lenOf b i)).
    { unfold getNextSeqNum, lenOf. rewrite Es. unfold u32. by rewrite Zplus_mod_idemp_l. }
    rewrite Hnext, Es, !TCP_Segment.SEQ_GEQ_spec by lia.
    destruct (Z.leb_spec (x + lenOf b i) q) as [Hge|Hlt].
    + destruct (IH (Some i) _ ps Hc ltac:(cbn in Hl; lia)) as (r & Es' & Hr); [|done|].
      { intros j y Hj. apply Hok. by right. }
      exists r. split; [done|]. destruct r as [p|]; [|done].
      destruct Hr as (a & c & -> & -> & Ha & Hc'). exists ((i, x) :: a), c.
      split; [done|]. split; [apply last_or_cons|]. split; [|done].
      intros j y [[= -> ->]|Hj]%elem_of_cons; [lia|by apply Ha].
    + destruct (Z.leb_spec x q); [by eexists|].
      destruct (decide (Some i = recv_continuous b)) as [E|E]; [by eexists|].
      eexists. split; [reflexivity|]. exists [], ((i, x) :: ps). split; [done|]. split; [done|].
      split; [intros j y Hj; by apply elem_of_nil in Hj|]. split; [lia|congruence].
Qed.

Lemma link_fields el prev b rest :
  (el < length (elements b))%nat ->
  (forall p, prev = Some p -> (p < length (elements b))%nat ∧ p ≠ el ∧ getNext b p = rest) ->
  (prev = None -> head b = rest) ->
  length (elements (link el prev b)) = length (elements b)
  ∧ head (link el prev b) = match prev with None => Some el | Some _ => head b end
  ∧ freelist (link el prev b) = freelist b
  ∧ recv_continuous (link el prev b) = recv_continuous b
  ∧ recv_bytes (link el prev b) = recv_bytes b
  ∧ read_firstSeqNum (link el prev b) = read_firstSeqNum b
  ∧ (forall i, elem (link el prev b) i = elem b i)
  ∧ (forall i, getNext (link el prev b) i
       = if decide (el = i) then rest else if decide (prev = Some i) then Some el else getNext b i).
Proof.
  intros Hel Hp Hn. unfold link. destruct prev as [p|].
  - destruct (Hp p eq_refl) as (Hpl & Hne & <-).
    assert (Hpl' : (p < length (elements (setNext el (getNext b p) b)))%nat)
      by (by rewrite elements_setNext).
    split; [by rewrite !elements_setNext|]. do 5 (split; [done|]). split; intros i.
    + by rewrite !elem_setNext.
    + rewrite next_setNext, next_setNext by done.
      destruct (decide (p = i)), (decide (el = i)), (decide (Some p = Some i)); try done; congruence.
  - rewrite <- (Hn eq_refl). split; [by simpl_set; rewrite length_alter|]. do 5 (split; [done|]).
    split; intros i.
    + change (elem (setNext el (head b) b) i = elem b i). by rewrite elem_setNext.
    + change (getNext ((setNext el (head b) b) <| head := Some el |>) i)
        with (getNext (setNext el (head b) b) i). rewrite next_setNext by done.
      by destruct (decide (el = i)).
Qed.

Lemma sorted_insert a c el q : StronglySorted later (a ++ c) ->
  (forall i x, (i, x) ∈ a -> x < q) -> (forall i x, (i, x) ∈ c -> q < x) ->
  StronglySorted later (a ++ (el, q) :: c).
Proof.
  induction a as [|[i x] a IH]; cbn [app]; intros Hs Ha Hc.
  - constructor; [done|]. apply Forall_forall. intros [j y] Hj. unfold later. cbn. by eapply Hc.
  - apply StronglySorted_inv in Hs as [Hs Hf]. constructor.
    + apply IH; [done| |done]. intros j y Hj. apply (Ha j y). by right.
    + rewrite Forall_app in Hf |- *. destruct Hf as [Hf1 Hf2]. split; [done|].
      constructor; [|done]. unfold later. cbn. apply (Ha i x). left.
Qed.

(** Linking a free element keeps the invariant. *)
Lemma link_core count b S pos n p1 a c lf el r q :
  core count b S pos n p1 (a ++ c) (el :: lf) ->
  elem_ok S r q -> pos + n <= q -> q + len r <= pos + window ->
  (forall i x, (i, x) ∈ a -> x < q) -> (forall i x, (i, x) ∈ c -> q < x) ->
  let b1 := setElem el r (b <| freelist := getNext b el |>) in
  core count (link el (last (p1.*1 ++ a.*1)) b1) S pos n p1 (a ++ (el, q) :: c) lf
  ∧ read_firstSeqNum (link el (last (p1.*1 ++ a.*1)) b1) = read_firstSeqNum b
  ∧ recv_bytes (link el (last (p1.*1 ++ a.*1)) b1) = recv_bytes b.
Proof.
  intros C Hr Hq Hqw Ha Hc b1. pose proof (core_NoDup _ _ _ _ _ _ _ _ C) as Hnd.
  pose proof (λ i, core_bound _ _ _ _ _ _ _ _ i C) as Hbd.
  destruct C as [H1 H2 H3 H4 H5 H6 H7 H8 H9 H10].
  rewrite fmap_app in *. rewrite app_assoc in H2, H4, Hnd, Hbd.
  set (l1 := p1.*1 ++ a.*1) in *. destruct H3 as [H3e H3].
  apply NoDup_app in Hnd as (Hnd1 & Hd & Hnd2). apply NoDup_cons in Hnd2 as [Helf _].
  apply NoDup_app in Hnd1 as (Hl1 & Hd1 & _).
  assert (Helb : (el < length (elements b))%nat) by (apply Hbd; set_solver).
  assert (Hel1 : el ∉ l1 ++ c.*1) by (intros Hi; apply (Hd el Hi); left).
  assert (Hb1n : forall i, getNext b1 i = getNext b i) by (intros i; unfold b1; by rewrite getNext_setElem).
  assert (Hb1e : forall i, elem b1 i = if decide (el = i) then r else elem b i)
    by (intros i; unfold b1; by rewrite elem_setElem).
  assert (Hb1l : length (elements b1) = length (elements b)) by (unfold b1; by rewrite length_setElem).
  destruct (link_fields el (last l1) b1 (list.head c.*1)) as (F1 & F2 & F3 & F4 & F5 & F6 & F7 & F8).
  { by rewrite Hb1l. }
  { intros p Hp. assert (Hin : p ∈ l1) by by apply last_Some_elem_of. rewrite Hb1l, Hb1n.
    split; [apply Hbd; set_solver|]. split; [intros ->; set_solver|].
    apply last_Some in Hp as [l0 E]. rewrite E, <- app_assoc in H2. by eapply chain_next. }
  { intros E. apply last_None in E. rewrite E in H2. exact (chain_head _ _ _ H2). }
  set (b2 := link el (last l1) b1) in *. split; [|by rewrite F5, F6].
  assert (Hold : forall i, i ∈ l1 ++ c.*1 -> lenOf b2 i = lenOf b i ∧ elem b2 i = elem b i).
  { intros i Hi. unfold lenOf. rewrite F7, Hb1e, decide_False; [done|]. by intros ->. }
  assert (Helem : forall i x, (i, x) ∈ p1 ++ a ++ c -> i ∈ l1 ++ c.*1).
  { intros i x Hi. subst l1. rewrite <- app_assoc, <- !fmap_app.
    by apply (list_elem_of_fmap_2 fst _ (i, x)). }
  split; try done.
  - by rewrite F1, Hb1l.
  - rewrite fmap_app. cbn [fmap list_fmap fst]. fold (fmap fst c). rewrite app_assoc. fold l1.
    pose proof (chain_relink (getNext b) (getNext b2) (head b) l1 c.*1 (el :: c.*1) H2 Hl1) as Hrl.
    rewrite F2. change (head b1) with (head b).
    assert (Hg : chain (getNext b2) (if decide (l1 = []) then Some el else head b) (l1 ++ el :: c.*1)).
    { apply Hrl.
      - intros i Hi Hne. rewrite F8, decide_False by (intros ->; set_solver). by rewrite decide_False.
      - intros i Hi. rewrite F8, decide_False; [by rewrite decide_True|]. intros ->.
        apply Hel1, elem_of_app. left. by apply last_Some_elem_of.
      - split; [done|]. rewrite F8, decide_True by done.
        apply (chain_ext (getNext b)).
        + intros i Hi. rewrite F8, decide_False by (intros ->; set_solver).
          rewrite decide_False; [done|]. intros E. apply last_Some_elem_of in E. by apply (Hd1 i E).
        + pose proof (chain_app _ _ _ _ H2) as Hca. pose proof (chain_head _ _ _ Hca) as Eh. by rewrite Eh in Hca. }
    destruct (decide (l1 = [])) as [E|E]; [by rewrite E in *|].
    destruct (last l1) eqn:El; [done|]. apply last_None in El. done.
  - rewrite F3. change (freelist b1) with (getNext b el). apply (chain_ext (getNext b)); [|done].
    intros i Hi. rewrite F8, decide_False by (intros ->; done). rewrite decide_False; [done|].
    intros E. apply last_Some_elem_of in E. apply (Hd i); set_solver.
  - rewrite <- H4. rewrite fmap_app. cbn [fmap list_fmap fst]. fold (fmap fst c).
    subst l1. rewrite <- !app_assoc. cbn [app]. do 2 apply Permutation_app_head.
    apply Permutation_middle.
  - intros i x Hi. assert (Hi' : (i, x) = (el, q) ∨ (i, x) ∈ p1 ++ a ++ c) by set_solver.
    destruct Hi' as [[= -> ->]|Hi'].
    + rewrite F7, Hb1e, decide_True by done. done.
    + destruct (Hold i) as [_ ->]; [by eapply Helem|]. by apply H5.
  - apply (contig_ext (lenOf b)); [|done]. intros i Hi. apply Hold. set_solver.
  - by rewrite F4.
  - by apply sorted_insert.
  - intros i x Hi. assert (Hi' : (i, x) = (el, q) ∨ (i, x) ∈ a ++ c) by set_solver.
    destruct Hi' as [[= -> ->]|Hi'].
    + unfold lenOf. rewrite F7, Hb1e, decide_True by done. lia.
    + destruct (Hold i) as [-> _]; [apply (Helem i x); set_solver|]. by apply H9.
Qed.

Lemma holds_ext count b b' S pos n : holds count b S pos n ->
  elements b' = elements b -> head b' = head b -> freelist b' = freelist b ->
  recv_continuous b' = recv_continuous b -> recv_bytes b' = recv_bytes b ->
  read_firstSeqNum b' = read_firstSeqNum b -> holds count b' S pos n.
Proof.
  destruct b, b'. cbn. intros (p1 & p2 & lf & C & Hf & Hr) -> -> -> -> -> ->.
  exists p1, p2, lf. split; [|done]. by destruct C.
Qed.

Lemma sorted_split_after a i x c : StronglySorted later (a ++ (i, x) :: c) ->
  forall j y, (j, y) ∈ c -> x < y.
Proof.
  induction a as [|z a IH]; cbn [app]; intros Hs j y Hj.
  - apply StronglySorted_inv in Hs as [_ Hs]. rewrite Forall_forall in Hs. by apply (Hs (j, y)).
  - apply StronglySorted_inv in Hs as [Hs _]. by eapply IH.
Qed.

(** The place found is inside the part that is not continuous. *)
Lemma search_core count b S pos n p1 p2 lf q :
  core count b S pos n p1 p2 lf -> pos <= q < pos + window ->
  let current := match recv_continuous b with None => head b | Some c => Some c end in
  exists r, search (length (elements b)) (u32 q) None current b = Some r
    ∧ match r with
      | Duplicate => True
      | After p => exists a c, p2 = a ++ c ∧ p = last (p1.*1 ++ a.*1) ∧ pos + n <= q
          ∧ (forall i x, (i, x) ∈ a -> x < q) ∧ (forall i x, (i, x) ∈ c -> q < x)
      end.
Proof.
  intros C Hq current. pose proof (p2_length _ _ _ _ _ _ _ _ C) as Hlen.
  assert (Hok : forall i x, (i, x) ∈ p1 ++ p2 -> seqNum (elem b i) = u32 x ∧ 0 < lenOf b i <= window
     ∧ pos - window <= x ∧ x + lenOf b i <= pos + window).
  { intros i x Hi. destruct (core_pos_len _ _ _ _ _ _ _ _ i x C Hi) as [? ?].
    by pose proof (core_range _ _ _ _ _ _ _ _ i x C Hi). }
  pose proof (c_sorted _ _ _ _ _ _ _ _ C) as Hs. pose proof (c_head _ _ _ _ _ _ _ _ C) as Hh.
  pose proof (c_contig _ _ _ _ _ _ _ _ C) as Hg. pose proof (c_rc _ _ _ _ _ _ _ _ C) as Hrc.
  rewrite length_app in Hlen.
  destruct p1 as [|[i0 q0] p0 _] using rev_ind.
  - cbn in Hg, Hrc. subst current. rewrite Hrc.
    destruct (search_spec b q pos (length (elements b)) None (head b) p2 Hh) as (r & -> & Hr);
      [lia|intros i x Hi; by apply Hok|done|].
    exists r. split; [done|]. destruct r as [p|]; [|done].
    destruct Hr as (a & c & -> & -> & Ha & Hc). exists a, c. split; [done|].
    split; [change ([].*1 ++ a.*1) with (a.*1); unfold last_or; by destruct (last a.*1)|]. split; [lia|]. split.
    + intros i x Hi. pose proof (Ha i x Hi). destruct (Hok i x ltac:(set_solver)). lia.
    + destruct c as [|[j y] c]; [by intros i x Hi%elem_of_nil|].
      intros i x [[= -> ->]|Hi]%elem_of_cons; [lia|].
      pose proof (sorted_split_after _ _ _ _ Hs i x Hi). lia.
  - rewrite fmap_app in *. cbn [fmap list_fmap fst] in *. fold (fmap (M:=list) (@fst nat Z) p2) in *.
    rewrite last_snoc in Hrc. subst current. rewrite Hrc.
    assert (Hc0 : chain (getNext b) (Some i0) (((i0, q0) :: p2).*1)).
    { rewrite <- app_assoc in Hh. exact (chain_at _ _ _ _ _ Hh). }
    destruct (search_spec b q pos (length (elements b)) None (Some i0) ((i0, q0) :: p2) Hc0)
      as (r & -> & Hr); [rewrite length_app in Hlen; cbn in *; lia|
        intros i x Hi; apply Hok; set_solver|done|].
    exists r. split; [done|]. destruct r as [p|]; [|done].
    destruct Hr as (a & c & E & -> & Ha & Hc). destruct a as [|[i' q'] a].
    { cbn in E. subst c. destruct Hc as [_ Hc]. done. }
    injection E as <- <- ->. apply contig_app in Hg as (m & _ & Hg). cbn in Hg.
    destruct Hg as [-> Hg]. pose proof (Ha i0 m ltac:(left)).
    exists a, c. split; [done|]. split.
    { rewrite <- app_assoc. cbn [app fmap list_fmap fst].
      change (last_or None (i0 :: a.*1) = last (p0.*1 ++ (i0 :: a.*1))). unfold last_or.
      rewrite last_app. by destruct (last (i0 :: a.*1)) eqn:El; [|apply last_None in El]. }
    split; [lia|]. split.
    + intros i x Hi. pose proof (Ha i x ltac:(by right)). destruct (Hok i x ltac:(set_solver)). lia.
    + destruct c as [|[j y] c]; [by intros i x Hi%elem_of_nil|].
      intros i x [[= -> ->]|Hi]%elem_of_cons; [lia|].
      pose proof (sorted_split_after _ _ _ _ Hs i x Hi). lia.
Qed.

Lemma insert_holds count b S pos n ptr segment q l :
  holds count b S pos n -> 0 < l -> pos - window <= q -> q + l <= pos + window ->
  carries e S segment q l ->
  exists r b' n', insert ptr segment (u32 q) l b = Some (r, b') ∧ holds count b' S pos n' ∧ n <= n'.
Proof.
  intros H Hl Hq1 Hq2 Hc. pose proof H as (p1 & p2 & lf & C & Hf & Hr). unfold insert.
  pose proof (c_free _ _ _ _ _ _ _ _ C) as Hfree. destruct lf as [|el lf].
  { cbn in Hfree. rewrite Hfree. by exists false, b, n. }
  destruct Hfree as [Efree Hfree]. rewrite Efree. rewrite Hf.
  rewrite TCP_Segment.SEQ_LT_spec by (unfold window in *; lia).
  destruct (Z.ltb_spec q pos); [by exists false, b, n|].
  destruct (search_core count b S pos n p1 p2 (el :: lf) q C ltac:(lia)) as (r & -> & Hr').
  cbn [mbind option_bind]. destruct r as [p|]; [|by exists false, b, n].
  destruct Hr' as (a & c & -> & -> & Hge & Ha & Hcl).
  unfold alloc. rewrite Efree. cbn [mbind option_bind].
  set (r := setSegment e ptr segment l (u32 q)).
  assert (Hok : elem_ok S r q) by (split; [done|]; split; [cbn; unfold window in *; lia|exact Hc]).
  destruct (link_core count b S pos n p1 a c lf el r q C Hok Hge Hq2 Ha Hcl) as (C' & Hf' & Hr').
  destruct (updateContinuous_spec count _ S pos n _ _ lf C') as (n' & H' & Hn' & _);
    [by rewrite Hf'|by rewrite Hr'|].
  eexists true, _, n'. split; [reflexivity|]. split; [|done].
  destruct (TCP_Segment.has_PSH e segment); [|done]. by eapply holds_ext.
Qed.

(** *** Reading *)

(** [core] does not mention the counters and the push flag. *)
Lemma core_ext count b b' S pos n p1 p2 lf : core count b S pos n p1 p2 lf ->
  elements b' = elements b -> head b' = head b -> freelist b' = freelist b ->
  recv_continuous b' = recv_continuous b -> core count b' S pos n p1 p2 lf.
Proof. destruct b, b'. cbn. intros C -> -> -> ->. by destruct C. Qed.

(** The state after the head element has been consumed. *)
Definition consumed (h : nat) (b : t) : t :=
  let b1 := if decide (head b = recv_continuous b) then b <| recv_continuous := None |> else b in
  (free h b1) <| head := getNext b h |>.

Lemma consumed_core count b S pos n i p1 p2 lf :
  core count b S pos n ((i, pos) :: p1) p2 lf ->
  core count (consumed i b) S (pos + lenOf b i) (n - lenOf b i) p1 p2 (i :: lf).
Proof.
  intros C. pose proof (core_NoDup _ _ _ _ _ _ _ _ C) as Hnd.
  pose proof (core_bound _ _ _ _ _ _ _ _ i C ltac:(set_solver)) as Hib.
  destruct (core_pos_len _ _ _ _ _ _ _ _ i pos C) as [Hlen _]; [left|].
  assert (Hcn : lenOf b i <= n).
  { destruct (contig_in _ _ _ _ i pos (c_contig _ _ _ _ _ _ _ _ C)) as [_ ?]; [|left|lia].
    intros j x Hj. apply (core_pos_len _ _ _ _ _ _ _ _ j x C). set_solver. }
  destruct C as [H1 H2 H3 H4 H5 H6 H7 H8 H9 H10]. cbn [fmap list_fmap fst app] in *.
  fold (fmap (M:=list) (@fst nat Z) p1) in *. destruct H2 as [Hh H2]. destruct H6 as [_ H6].
  apply NoDup_cons in Hnd as [Hi Hnd].
  set (b1 := if decide (head b = recv_continuous b) then b <| recv_continuous := None |> else b).
  assert (Hb1 : elements b1 = elements b ∧ freelist b1 = freelist b)
    by (unfold b1; by destruct (decide _)). destruct Hb1 as [He1 Hf1].
  assert (Hn : forall j, getNext (consumed i b) j = if decide (i = j) then freelist b else getNext b j).
  { intros j. unfold consumed. fold b1. rewrite <- Hf1.
    change (getNext ((free i b1) <| head := getNext b i |>) j) with (getNext (setNext i (freelist b1) b1) j).
    rewrite next_setNext by (by rewrite He1). unfold getNext. by rewrite He1. }
  assert (He : forall j, elem (consumed i b) j = elem b j).
  { intros j. unfold consumed. fold b1.
    change (elem ((free i b1) <| head := getNext b i |>) j) with (elem (setNext i (freelist b1) b1) j).
    rewrite elem_setNext. unfold elem. by rewrite He1. }
  assert (HL : forall j, lenOf (consumed i b) j = lenOf b j) by (intros j; unfold lenOf; by rewrite He).
  split.
  - unfold consumed. fold b1. change (length (elements (setNext i (freelist b1) b1)) = count).
    by rewrite elements_setNext, He1.
  - change (head (consumed i b)) with (getNext b i). apply (chain_ext (getNext b)); [|done].
    intros j Hj. rewrite Hn, decide_False; [done|]. intros ->. apply Hi. set_solver.
  - split; [done|]. rewrite Hn, decide_True by done. apply (chain_ext (getNext b)); [|done].
    intros j Hj. rewrite Hn, decide_False; [done|]. intros ->. apply Hi. set_solver.
  - rewrite <- H4. by rewrite <- Permutation_middle.
  - intros j x Hj. rewrite He. apply H5. by right.
  - replace (pos + lenOf b i + (n - lenOf b i)) with (pos + n) by lia.
    apply (contig_ext (lenOf b)); [|done]. intros j _. by rewrite HL.
  - unfold consumed. fold b1. change (recv_continuous b1 = last p1.*1). unfold b1.
    rewrite Hh, H7. destruct p1 as [|[j x] p1]; [by rewrite decide_True|].
    cbn [fmap list_fmap fst]. fold (fmap (M:=list) (@fst nat Z) p1).
    rewrite decide_False; [rewrite H7; reflexivity|]. intros E. symmetry in E.
    apply Hi. apply elem_of_app. left. apply elem_of_app. left.
    change (last (j :: p1.*1) = Some i) in E. by apply last_Some_elem_of in E.
  - done.
  - intros j x Hj. rewrite HL. pose proof (H9 j x Hj). unfold window in *. lia.
  - lia.
Qed.

Lemma partial_core count b S pos n i p1 p2 lf k :
  core count b S pos n ((i, pos) :: p1) p2 lf -> 0 <= k < lenOf b i ->
  core count (setElem i (increment k (elem b i)) b) S (pos + k) (n - k) ((i, pos + k) :: p1) p2 lf.
Proof.
  intros C Hk. pose proof (core_NoDup _ _ _ _ _ _ _ _ C) as Hnd.
  pose proof (core_bound _ _ _ _ _ _ _ _ i C ltac:(set_solver)) as Hib.
  pose proof (c_ok _ _ _ _ _ _ _ _ C i pos ltac:(left)) as (Hs & Hlen & Hd).
  assert (Hcn : lenOf b i <= n).
  { destruct (contig_in _ _ _ _ i pos (c_contig _ _ _ _ _ _ _ _ C)) as [_ ?]; [|left|lia].
    intros j x Hj. apply (core_pos_len _ _ _ _ _ _ _ _ j x C). set_solver. }
  destruct C as [H1 H2 H3 H4 H5 H6 H7 H8 H9 H10]. unfold lenOf in Hk, Hcn.
  set (r := increment k (elem b i)). set (b' := setElem i r b).
  assert (Hr : len r = len (elem b i) - k) by (unfold r, increment; cbn; unfold window in *; zlia).
  assert (He : forall j, elem b' j = if decide (i = j) then r else elem b j)
    by (intros j; unfold b'; by rewrite elem_setElem).
  cbn [fmap list_fmap fst app] in Hnd. apply NoDup_cons in Hnd as [Hi _].
  assert (Hne : forall j x, (j, x) ∈ p1 ++ p2 -> i ≠ j).
  { intros j x Hj <-. apply Hi. apply elem_of_app. left. rewrite <- fmap_app.
    by apply (list_elem_of_fmap_2 fst _ (i, x)). }
  split.
  - unfold b'. by rewrite length_setElem.
  - apply (chain_ext (getNext b)); [|done]. intros. unfold b'. by rewrite getNext_setElem.
  - apply (chain_ext (getNext b)); [|done]. intros. unfold b'. by rewrite getNext_setElem.
  - done.
  - intros j x Hj. apply elem_of_cons in Hj as [[= -> ->]|Hj].
    + rewrite He, decide_True by done. split; [cbn; rewrite Hs; unfold u32; by rewrite Zplus_mod_idemp_l|].
      rewrite Hr. split; [lia|]. apply drop_slice; [done|lia].
    + rewrite He, decide_False by (by eapply Hne). apply H5. by right.
  - destruct H6 as [_ H6]. split; [done|]. change (lenOf b' i) with (len (elem b' i)). rewrite He, decide_True, Hr by done.
    replace (pos + k + (len (elem b i) - k)) with (pos + lenOf b i) by (unfold lenOf; lia).
    replace (pos + k + (n - k)) with (pos + n) by lia.
    apply (contig_ext (lenOf b)); [|done]. intros j Hj. apply list_elem_of_fmap in Hj as ([j' x] & -> & Hj).
    unfold lenOf. rewrite He, decide_False; [done|]. apply (Hne _ x). set_solver.
  - done.
  - done.
  - intros j x Hj. unfold lenOf. rewrite He, decide_False by (apply (Hne _ x); set_solver).
    pose proof (H9 j x Hj). unfold lenOf, window in *. lia.
  - lia.
Qed.

Lemma copy_loop_spec count S fuel k dst freed b pos n p1 p2 lf :
  core count b S pos n p1 p2 lf -> 0 <= k <= n -> (length p1 < fuel)%nat ->
  exists freed' b' p1' lf', copy_loop fuel k dst freed b = Some (dst ++ slice S pos k, freed', b')
    ∧ core count b' S (pos + k) (n - k) p1' p2 lf'
    ∧ read_firstSeqNum b' = read_firstSeqNum b ∧ recv_bytes b' = recv_bytes b.
Proof.
  revert k dst freed b pos n p1 lf. induction fuel as [|fuel IH];
    intros k dst freed b pos n p1 lf C Hk Hf; [lia|]. cbn [copy_loop].
  destruct (Z.ltb_spec 0 k) as [Hpos|]; cycle 1.
  { assert (k = 0) as -> by lia. exists freed, b, p1, lf. rewrite app_nil_r, Z.add_0_r, Z.sub_0_r. done. }
  destruct p1 as [|[i q] p1]; [pose proof (c_contig _ _ _ _ _ _ _ _ C) as Hg; cbn in Hg; lia|].
  pose proof (c_contig _ _ _ _ _ _ _ _ C) as [-> Hg].
  pose proof (c_ok _ _ _ _ _ _ _ _ C i pos ltac:(left)) as (Hs & Hlen & Hd).
  destruct (c_head _ _ _ _ _ _ _ _ C) as [Hh Hc]. cbn [fst] in Hh. rewrite Hh. cbn [mbind option_bind].
  destruct (Z.leb_spec (len (elem b i)) k) as [Hle|Hgt].
  - rewrite Hd. pose proof (consumed_core _ _ _ _ _ _ _ _ _ C) as C'.
    set (b1 := if decide (Some i = recv_continuous b) then _ else b).
    assert (Eb1 : (free i b1) <| head := getNext b1 i |> = consumed i b).
    { unfold consumed, b1. rewrite Hh. by destruct (decide (Some i = recv_continuous b)). }
    assert (En : getNext b1 i = getNext b i) by (unfold b1; by destruct (decide _)).
    assert (Hsame : read_firstSeqNum (consumed i b) = read_firstSeqNum b
                    ∧ recv_bytes (consumed i b) = recv_bytes b)
      by (unfold consumed; destruct (decide (head b = recv_continuous b)); done).
    rewrite Eb1. change (lenOf b i) with (len (elem b i)) in C'.
    rewrite En. destruct (getNext b i) as [nx|] eqn:Enx.
    + destruct (IH (k - len (elem b i)) (dst ++ slice S pos (len (elem b i)))
        (freed ++ [segmentPtr (elem b1 i)]) _ _ _ _ _ C') as (freed' & b' & p1' & lf' & E & C2 & Hf2 & Hr2);
        [lia|cbn in Hf; lia|].
      exists freed', b', p1', lf'. rewrite E. split.
      { rewrite <- app_assoc, <- slice_app by lia. by replace (len _ + _) with k by lia. }
      split; [|split; [by rewrite Hf2, (proj1 Hsame)|by rewrite Hr2, (proj2 Hsame)]].
      replace (pos + k) with (pos + len (elem b i) + (k - len (elem b i))) by lia.
      by replace (n - k) with (n - len (elem b i) - (k - len (elem b i))) by lia.
    + pose proof (chain_head _ _ _ Hc) as Ehd. cbn [fst] in Ehd. rewrite Enx in Ehd.
      assert (p1 = []) as -> by (by destruct p1). cbn in Hg. unfold lenOf in Hg.
      assert (k = len (elem b i)) as -> by lia.
      eexists _, _, [], _. split; [reflexivity|]. split; [|exact Hsame].
      eapply core_ext; [exact C'|done..].
  - rewrite (memcpy_slice S _ pos (len (elem b i)) k Hd) by lia.
    eexists _, _, _, _. split; [reflexivity|]. split; [|done].
    eapply partial_core; [done|]. unfold lenOf. lia.
Qed.

Lemma copy_holds count b S pos n k :
  holds count b S pos n -> 0 < k <= n ->
  exists freed b', copyData k b = Some (slice S pos k, freed, b') ∧ holds count b' S (pos + k) (n - k).
Proof.
  intros (p1 & p2 & lf & C & Hf & Hr) Hk. unfold copyData. simpl_set.
  set (b1 := mk _ _ _ _ _ _ _).
  assert (C1 : core count b1 S pos n p1 p2 lf) by (eapply core_ext; [exact C|done..]).
  pose proof (p2_length _ _ _ _ _ _ _ _ C) as Hlen. rewrite length_app in Hlen.
  destruct (copy_loop_spec count S (Datatypes.S (length (elements b))) k [] [] b1 pos n p1 p2 lf C1)
    as (freed & b' & p1' & lf' & E & C2 & Hf2 & Hr2); [lia|lia|].
  exists freed, b'. split; [exact E|]. exists p1', p2, lf'. split; [done|].
  rewrite Hf2, Hr2. cbn. rewrite Hf, Hr. unfold u32. rewrite Zplus_mod_idemp_l. split; [done|].
  pose proof (c_n _ _ _ _ _ _ _ _ C). apply u32_id. unfold window in *. zlia.
Qed.

Lemma init_holds count S pos : (0 < count)%nat ->
  holds count (setFirstSeqNum (u32 pos) (init count)) S pos 0.
Proof.
  intros Hc. set (b := setFirstSeqNum _ _).
  assert (Hn : forall i, (i < count)%nat -> getNext b i
    = if decide (Datatypes.S i = count) then None else Some (Datatypes.S i)).
  { intros i Hi. unfold getNext, b, init. cbn. rewrite list_lookup_fmap, lookup_seq_lt by done. done. }
  assert (Hs : forall n i, (i + n = count)%nat -> (0 < n)%nat -> chain (getNext b) (Some i) (seq i n)).
  { induction n as [|n IH]; intros i Hi Hn0; [lia|]. cbn [seq]. split; [done|].
    rewrite Hn by lia. destruct (decide (Datatypes.S i = count)).
    - by replace n with 0%nat by lia.
    - apply IH; lia. }
  exists [], [], (seq 0 count). split; [|done]. split; try done.
  - unfold b, init. cbn. by rewrite length_map, length_seq.
  - by apply (Hs count 0%nat).
  - intros i q Hi. by apply elem_of_nil in Hi.
  - cbn. lia.
  - constructor.
  - intros i q Hi. by apply elem_of_nil in Hi.
Qed.

Lemma ack_holds count b S pos n : holds count b S pos n ->
  getRecvBytes b = n ∧ getAckNum b = u32 (pos + n) ∧ 0 <= n.
Proof.
  intros (p1 & p2 & lf & C & Hf & Hr). split; [done|]. pose proof (c_n _ _ _ _ _ _ _ _ C).
  split; [|lia]. unfold getAckNum. rewrite (c_rc _ _ _ _ _ _ _ _ C).
  destruct (last p1.*1) as [c|] eqn:El.
  - by rewrite (end_of_last _ _ _ _ _ _ _ _ _ C El).
  - apply last_None, fmap_nil_inv in El. subst p1. pose proof (c_contig _ _ _ _ _ _ _ _ C) as Hg.
    cbn in Hg. by rewrite Hf, <- Hg.
Qed.

(** A segment that follows directly what was received, with no other in its
    way, is taken and acknowledged. *)
Lemma insert_next count b S pos n p1 p2 el lf ptr segment l :
  core count b S pos n p1 p2 (el :: lf) -> read_firstSeqNum b = u32 pos -> recv_bytes b = n ->
  (forall i q, (i, q) ∈ p2 -> pos + n < q) ->
  0 < l -> n + l <= window -> n < window -> carries e S segment (pos + n) l ->
  exists b' n', insert ptr segment (u32 (pos + n)) l b = Some (true, b')
    ∧ holds count b' S pos n' ∧ n + l <= n'.
Proof.
  intros C Hf Hr Hp2 Hl Hnl Hnw Hc. unfold insert. destruct (c_free _ _ _ _ _ _ _ _ C) as [Efree _].
  pose proof (c_n _ _ _ _ _ _ _ _ C) as Hn.
  rewrite Efree, Hf, TCP_Segment.SEQ_LT_spec by (unfold window in *; lia).
  destruct (Z.ltb_spec (pos + n) pos); [lia|].
  pose proof (p2_length _ _ _ _ _ _ _ _ C) as Hlen. rewrite length_app in Hlen.
  assert (Hsearch : search (length (elements b)) (u32 (pos + n)) None
    (match recv_continuous b with None => head b | Some c => Some c end) b
    = Some (After (last p1.*1))).
  { rewrite (c_rc _ _ _ _ _ _ _ _ C). pose proof (c_head _ _ _ _ _ _ _ _ C) as Hh.
    assert (Hstop : forall fuel prev h, chain (getNext b) h p2.*1 -> (length p2 <= fuel)%nat ->
      (forall i, list.head p2.*1 = Some i -> recv_continuous b ≠ Some i) ->
      search fuel (u32 (pos + n)) prev h b = Some (After prev)).
    { intros fuel prev h Hch Hfu Hne. destruct p2 as [|[i q] p2'].
      - cbn in Hch. subst h. by destruct fuel.
      - destruct Hch as [-> Hch]. destruct fuel as [|fuel]; [cbn in Hfu; lia|]. cbn [search fst].
        destruct (core_pos_len _ _ _ _ _ _ _ _ i q C) as [Hli Hsi]; [set_solver|].
        pose proof (core_range _ _ _ _ _ _ _ _ i q C ltac:(set_solver)). pose proof (Hp2 i q ltac:(left)).
        assert (Hni : getNextSeqNum (elem b i) = u32 (q + lenOf b i))
          by (unfold getNextSeqNum, lenOf; rewrite Hsi; unfold u32; by rewrite Zplus_mod_idemp_l).
        rewrite Hni, Hsi, !TCP_Segment.SEQ_GEQ_spec by (unfold window in *; lia).
        destruct (Z.leb_spec (q + lenOf b i) (pos + n)); [lia|].
        destruct (Z.leb_spec q (pos + n)); [lia|].
        rewrite decide_False; [done|]. intros E. by apply (Hne i). }
    destruct p1 as [|[i0 q0] p0 _] using rev_ind.
    - cbn. apply Hstop; [exact Hh|lia|]. intros i _. by rewrite (c_rc _ _ _ _ _ _ _ _ C).
    - rewrite fmap_app in *. cbn [fmap list_fmap fst] in *. fold (fmap (M:=list) (@fst nat Z) p2) in *.
      rewrite last_snoc. rewrite length_app in Hlen. cbn [length] in Hlen.
      destruct (length (elements b)) as [|fuel] eqn:Efu; [lia|]. cbn [search].
      assert (El : last (p0 ++ [(i0, q0)]).*1 = Some i0)
        by (rewrite fmap_app; cbn [fmap list_fmap fst]; by rewrite last_snoc).
      rewrite (end_of_last _ _ _ _ _ _ _ _ _ C El), TCP_Segment.SEQ_GEQ_spec by (unfold window in *; lia).
      destruct (Z.leb_spec (pos + n) (pos + n)); [|lia]. rewrite <- app_assoc in Hh.
      apply Hstop; [by eapply chain_tail|lia|]. intros i Hi.
      rewrite (c_rc _ _ _ _ _ _ _ _ C), El. intros [= ->].
      pose proof (core_NoDup _ _ _ _ _ _ _ _ C) as Hnd. rewrite fmap_app in Hnd.
      cbn [fmap list_fmap fst] in Hnd. fold (fmap (M:=list) (@fst nat Z) p2) in Hnd.
      apply NoDup_app in Hnd as (Hnd & _). apply NoDup_app in Hnd as (_ & Hnd & _).
      apply (Hnd i); [set_solver|]. by apply head_Some_elem_of. }
  rewrite Hsearch. cbn [mbind option_bind]. unfold alloc. rewrite Efree. cbn [mbind option_bind].
  set (r := setSegment e ptr segment l (u32 (pos + n))).
  assert (Hok : elem_ok S r (pos + n)) by (split; [done|]; split; [cbn; lia|exact Hc]).
  pose proof (link_core count b S pos n p1 [] p2 lf el r (pos + n) C Hok) as Hlink.
  cbn [fmap list_fmap app] in Hlink. rewrite app_nil_r in Hlink.
  destruct Hlink as (C' & Hf' & Hr'); [lia|cbn; lia|by intros i x Hi%elem_of_nil|exact Hp2|].
  destruct (updateContinuous_spec count _ S pos n _ _ lf C') as (n' & H' & Hn' & Hd');
    [by rewrite Hf'|by rewrite Hr'|].
  specialize (Hd' el p2 eq_refl).
  assert (Hel : lenOf (link el (last p1.*1) (setElem el r (b <| freelist := getNext b el |>))) el = l).
  { pose proof (core_bound _ _ _ _ _ _ _ _ el C ltac:(set_solver)) as Hb.
    unfold lenOf, link. destruct (last p1.*1); rewrite ?elem_setNext.
    - rewrite elem_setElem, decide_True by done. done.
    - change (len (elem (setNext el (head b) (setElem el r (b <| freelist := getNext b el |>))) el) = l).
      rewrite elem_setNext, elem_setElem, decide_True by done. done. }
  eexists _, n'. split; [reflexivity|]. split; [|lia].
  destruct (TCP_Segment.has_PSH e segment); [|done]. by eapply holds_ext.
Qed.

(** The list discharges the contract. *)
#[export] Program Instance list_buffer (count : nat) (Hc : (0 < count)%nat) : ReceiveBuffer e t := {|
  rb_init := init count;
  rb_setFirstSeqNum := setFirstSeqNum;
  rb_isPushed := isPushed;
  rb_getRecvBytes := getRecvBytes;
  rb_getAckNum := getAckNum;
  rb_copyData := copyData;
  rb_insert := insert;
  rb_holds := holds count;
|}.
Next Obligation. done. Qed.
Next Obligation. intros count Hc S pos. by apply init_holds. Qed.
Next Obligation. intros count Hc b S pos n. apply ack_holds. Qed.
Next Obligation. intros count Hc b S pos n ptr segment q l. apply insert_holds. Qed.
Next Obligation. intros count Hc b S pos n l. apply copy_holds. Qed.

#[export] Instance list_reads_nothing (count : nat) (Hc : (0 < count)%nat) :
  ReadsNothing e t (RI := list_buffer count Hc).
Proof.
  intros b S pos n Hh. cbn in Hh |- *. unfold copyData. cbn [copy_loop].
  eexists. split; [reflexivity|]. eapply holds_ext; [exact Hh|try reflexivity..]; simpl_set.
  - rewrite Z.sub_0_r. destruct Hh as (? & ? & ? & C & _ & Hr).
    pose proof (c_n _ _ _ _ _ _ _ _ C). apply u32_id. unfold window in *. zlia.
  - rewrite Z.add_0_r. destruct Hh as (? & ? & ? & _ & -> & _). apply u32_id, u32_range.
Qed.

End Buffer.
End SegmentList.

(** ** Properties *)

Section Properties.
Context (e : endian) {R : Type} {I : ReceiveBuffer e R}.
Context (S : Z -> Z) (start : Z).

(** What the socket and the network do with a receive buffer after the
    connection was opened at stream position [start]: segments that carry
    pieces of the stream arrive in any order, overlapping or repeated, and the
    application reads at most what is there.  The list is what it was given. *)
Inductive received : R -> bytes -> Prop :=
| rcv_open : received (rb_setFirstSeqNum (u32 start) rb_init) []
| rcv_insert b out ptr segment q len r b' :
    received b out -> 0 < len ->
    start + Z.of_nat (length out) - window <= q ->
    q + len <= start + Z.of_nat (length out) + window ->
    carries e S segment q len ->
    rb_insert ptr segment (u32 q) len b = Some (r, b') -> received b' out
| rcv_read b out len d freed b' :
    received b out -> 0 < len <= rb_getRecvBytes b ->
    rb_copyData len b = Some (d, freed, b') -> received b' (out ++ d).

Lemma received_holds b out : received b out ->
  out = slice S start (Z.of_nat (length out))
  ∧ rb_holds b S (start + Z.of_nat (length out)) (rb_getRecvBytes b).
Proof.
  induction 1 as [|b out ptr segment q len r b' _ [IH1 IH2] Hl Hq1 Hq2 Hc E
                 |b out len d freed b' _ [IH1 IH2] Hl E].
  - pose proof (rb_init_ok S start) as Hi. destruct (rb_ack_ok _ _ _ _ Hi) as (-> & _).
    cbn [length Z.of_nat]. by rewrite Z.add_0_r.
  - destruct (rb_insert_ok _ S _ _ ptr segment q len IH2 Hl Hq1 Hq2 Hc) as (r' & b'' & n' & E' & H' & _).
    rewrite E in E'. injection E' as <- <-. split; [done|].
    by destruct (rb_ack_ok _ _ _ _ H') as (-> & _).
  - destruct (rb_copy_ok _ S _ _ len IH2 Hl) as (freed' & b'' & E' & H'). rewrite E in E'.
    injection E' as -> <- <-. rewrite length_app, length_slice.
    replace (Z.of_nat (length out + Z.to_nat len)) with (Z.of_nat (length out) + len) by lia.
    destruct (rb_ack_ok _ _ _ _ H') as (-> & _). split.
    + rewrite slice_app by lia. by rewrite <- IH1.
    + by rewrite Z.add_assoc.
Qed.

(** Nothing a peer sends makes a receive buffer follow a null pointer, what
    the application was given is the stream from its start, and the number
    acknowledged is that of the first byte the buffer does not have. *)
Lemma received_stream b out : received b out ->
  out = slice S start (Z.of_nat (length out))
  ∧ rb_getAckNum b = u32 (start + Z.of_nat (length out) + rb_getRecvBytes b)
  ∧ (forall len, 0 < len <= rb_getRecvBytes b -> exists freed b',
       rb_copyData len b = Some (slice S (start + Z.of_nat (length out)) len, freed, b'))
  ∧ (forall ptr segment q len, 0 < len ->
       start + Z.of_nat (length out) - window <= q ->
       q + len <= start + Z.of_nat (length out) + window -> carries e S segment q len ->
       exists r b', rb_insert ptr segment (u32 q) len b = Some (r, b')
         ∧ rb_getRecvBytes b <= rb_getRecvBytes b').
Proof.
  intros H. destruct (received_holds b out H) as [H1 H2]. split; [done|].
  destruct (rb_ack_ok _ _ _ _ H2) as (_ & Ha & _). split; [done|]. split.
  - intros len Hl. destruct (rb_copy_ok _ S _ _ len H2 Hl) as (freed & b' & E & _). eauto.
  - intros ptr segment q len Hl Hq1 Hq2 Hc.
    destruct (rb_insert_ok _ S _ _ ptr segment q len H2 Hl Hq1 Hq2 Hc) as (r & b' & n' & E & H' & Hn).
    exists r, b'. split; [done|]. by destruct (rb_ack_ok _ _ _ _ H') as (-> & _).
Qed.
End Properties.

Section SlidingWindowProperties.
Context (e : endian) (count : nat) (Hcount : (0 < count)%nat).
#[local] Instance sliding : ReceiveBuffer e SegmentList.t := SegmentList.list_buffer e count Hcount.

(** C3: in the sliding-window receive buffer, whatever segments of the stream
    arrive, in whatever order and however often: the application is given the
    stream from its first byte, in order and without gaps; the acknowledgement
    is the sequence number of the first byte not yet received; reading and
    inserting never follow a null pointer, and inserting never loses
    received bytes. *)
Theorem receive_stream_integrity S start (b : SegmentList.t) out :
  received e S start b out ->
  out = slice S start (Z.of_nat (length out))
  ∧ SegmentList.getAckNum b = u32 (start + Z.of_nat (length out) + SegmentList.getRecvBytes b)
  ∧ (forall len, 0 < len <= SegmentList.getRecvBytes b -> exists freed b',
       SegmentList.copyData len b = Some (slice S (start + Z.of_nat (length out)) len, freed, b'))
  ∧ (forall ptr segment q len, 0 < len ->
       start + Z.of_nat (length out) - window <= q ->
       q + len <= start + Z.of_nat (length out) + window -> carries e S segment q len ->
       exists r b', SegmentList.insert e ptr segment (u32 q) len b = Some (r, b')
         ∧ SegmentList.getRecvBytes b <= SegmentList.getRecvBytes b').
Proof. exact (received_stream e S start b out). Qed.

End SlidingWindowProperties.

(** *** Witnesses and a stall *)

(** The stream 0, 1, 2, ... and a segment of it. *)
Definition counting (i : Z) : Z := i.
Definition seg (q len : Z) : bytes := repeat 80 20 ++ slice counting q len.

Definition opened : SegmentList.t := SegmentList.setFirstSeqNum (u32 100) (SegmentList.init 4).
(** Bytes 104..107 arrive before 100..103. *)
Definition after_insert (ptr q len : Z) (b : SegmentList.t) : SegmentList.t :=
  (default (false, b) (SegmentList.insert LE ptr (seg q len) (u32 q) len b)).2.
Definition swapped1 : SegmentList.t := after_insert 2 104 4 opened.
Definition swapped2 : SegmentList.t := after_insert 1 100 4 swapped1.

Lemma four_elements : (0 < 4)%nat.
Proof. lia. Qed.

Lemma swapped2_received :
  received (I := SegmentList.list_buffer LE 4 four_elements) LE counting 100 swapped2 [].
Proof.
  set (I := SegmentList.list_buffer LE 4 four_elements).
  assert (H1 : received (I := I) LE counting 100 swapped1 []).
  { apply (rcv_insert LE (I := I) counting 100 opened [] 2 (seg 104 4) 104 4 true swapped1);
      [exact (rcv_open LE (I := I) counting 100)|lia|cbn; unfold window; lia|cbn; unfold window; lia
      |reflexivity|vm_compute; reflexivity]. }
  apply (rcv_insert LE (I := I) counting 100 swapped1 [] 1 (seg 100 4) 100 4 true swapped2);
    [exact H1|lia|cbn; unfold window; lia|cbn; unfold window; lia|reflexivity|vm_compute; reflexivity].
Qed.

Lemma receive_stream_integrity_witness :
  exists freed b', SegmentList.copyData 8 swapped2
    = Some (slice counting (100 + Z.of_nat (length (@nil Z))) 8, freed, b').
Proof.
  apply (receive_stream_integrity LE 4 four_elements counting 100 swapped2 [] swapped2_received).
  vm_compute; split; congruence.
Defined.

Lemma opened_core : SegmentList.core 4 opened counting 100 0 [] [] [0; 1; 2; 3]%nat.
Proof.
  split; cbn; try done; try lia; try (intros i q Hi; by apply elem_of_nil in Hi). constructor.
Qed.


(** Bytes 102..105 arrive, then 100..103, then the application reads all
    that is there. *)
Definition overlapped : option SegmentList.t :=
  r ← SegmentList.insert LE 2 (seg 102 4) (u32 102) 4 opened;
  r ← SegmentList.insert LE 1 (seg 100 4) (u32 100) 4 r.2;
  r ← SegmentList.copyData 4 r.2;
  Some r.2.

(** After two overlapping segments the connection is stuck: the buffer
    holds bytes 104 and 105 and three free elements but offers nothing to
    read, and it refuses every retransmission of byte 104, for good. *)
Theorem receive_overlap_stalls :
  exists b, overlapped = Some b ∧ SegmentList.getRecvBytes b = 0
    ∧ SegmentList.getAckNum b = 104
    ∧ forall ptr len segment, SegmentList.insert LE ptr segment (u32 104) len b = Some (false, b).
Proof. eexists. split; [vm_compute; reflexivity|]. split; [reflexivity|]. split; [reflexivity|]. reflexivity. Qed.
