(* ===== verification/TcpSocket.v ===== *)
(** * TcpSocket: the TCP connection

    Models [tcp/TCP_Socket.h], [tcp/TCP_Socket.cpp] and the eleven states of
    [tcp/statemachine/*.ah]: the socket as a record, each member function as a
    program of a state monad over the socket and what lies below it, [input]
    as the state machine switch.  The history and the receive buffer are used
    through the interfaces of [TcpHistory] and [TcpReceiveBuffer]; the network
    layer, the operating system and the clock are the class [Lower].  [None]
    is a dereference of the null pointer.  The retransmission counter of
    [TCP_Record_RetransmissionCounter.ah] is woven in. *)

From S2P Require Import Prelude Wire Packet TcpSegment TcpHistory SendBuffer TcpReceiveBuffer.

Open Scope Z_scope.

(** The states of the connection. *)
Inductive tcp_state :=
  CLOSED | LISTEN | SYNSENT | SYNRCVD | ESTABLISHED | FINWAIT1 | FINWAIT2 | CLOSEWAIT
| LASTACK | CLOSING | TIMEWAIT.
#[export] Instance tcp_state_eq_dec : EqDecision tcp_state.
Proof. solve_decision. Defined.

(** What the socket uses of the layers below and of the system: the clock, the
    interface in use, buffers from the network layer with its headers written
    ([requestSendBuffer]), the advice run before sending (checksum) and the
    interface's [send], the memory pool, [block] and the queue of received
    packets (address and bytes), the addresses and the demultiplexer. *)
Class Lower (W : Type) := {
  lo_now : W -> Z;
  lo_interface : W -> bool;
  lo_hasBeenSent : W -> SendBuffer.t -> bool;
  lo_request : Z -> W -> option SendBuffer.t * W;
  lo_before_send : SendBuffer.t -> W -> SendBuffer.t;
  lo_transmit : SendBuffer.t -> W -> W;
  lo_free : SendBuffer.t -> W -> W;
  lo_freeReceived : Z -> W -> W;
  lo_block : option Z -> W -> bool * W;
  lo_get : W -> option (Z * bytes) * W;
  lo_validAddresses : W -> bool;
  lo_bind : Z -> Z -> W -> option Z * W;
  lo_unbind : W -> W;
}.

Module TCP_Socket.
Section Socket.
Context (e : endian) `{Clk : Clock} {H R W : Type}
  {HI : History SendBuffer.t H} {RI : ReceiveBuffer e R} {L : Lower W}.

(** TCP_MAX_RETRANSMISSIONS. *)
Context (TCP_MAX_RETRANSMISSIONS : Z).

Definition DEFAULT_RTO : Z := 6000.

(** The members.  [application_buf] points to what is still to be sent or to
    where received data goes: the first is [application_src], all that has been
    stored through the second is [application_dst]. *)
Record sock := mk {
  state : tcp_state;
  receiving : bool;
  application_recv_len : Z;
  receiveBuffer : R;
  maxReceiveWindow_MSS : Z;
  maxReceiveWindow_Bytes : Z;
  seqnum_unacked : Z;
  seqnum_next : Z;
  history : H;
  sendWindow : Z;
  lwack : Z;
  lwseq : Z;
  FIN_received : bool;
  FIN_seqnum : Z;
  ACK_triggered : bool;
  dport : Z;
  sport : Z;
  mss : Z;
  application_src : bytes;
  application_dst : bytes;
  application_buflen : Z;
  waiting : bool }.
#[global] Instance eta_sock : Settable sock := λ s,
  mk (state s) (receiving s) (application_recv_len s) (receiveBuffer s) (maxReceiveWindow_MSS s)
     (maxReceiveWindow_Bytes s) (seqnum_unacked s) (seqnum_next s) (history s) (sendWindow s)
     (lwack s) (lwseq s) (FIN_received s) (FIN_seqnum s) (ACK_triggered s) (dport s) (sport s)
     (mss s) (application_src s) (application_dst s) (application_buflen s) (waiting s).

(** *** Programs *)

Definition St : Type := sock * W.
Definition M (A : Type) : Type := St -> option (A * St).
#[export] Instance M_ret : MRet M := λ A a s, Some (a, s).
#[export] Instance M_bind : MBind M := λ A B f m s,
  match m s with Some (a, s') => f a s' | None => None end.

Definition gets {A} (f : sock -> A) : M A := λ s, Some (f s.1, s).
Definition getsW {A} (f : W -> A) : M A := λ s, Some (f s.2, s).
Definition modify (f : sock -> sock) : M unit := λ s, Some ((), (f s.1, s.2)).
Definition modifyW (f : W -> W) : M unit := λ s, Some ((), (s.1, f s.2)).
Definition runW {A} (f : W -> A * W) : M A := λ s, let (a, w) := f s.2 in Some (a, (s.1, w)).
Definition fail {A} : M A := λ _, None.
Definition lift {A} (o : option A) : M A := λ s, a ← o; Some (a, s).
Definition when (b : bool) (m : M unit) : M unit := if b then m else mret ().

(** *** Small members *)

Definition isEstablished (s : sock) : bool := bool_decide (state s = ESTABLISHED).
Definition isCloseWait (s : sock) : bool := bool_decide (state s = CLOSEWAIT).
Definition isListening (s : sock) : bool := bool_decide (state s = LISTEN).
Definition isClosed (s : sock) : bool := bool_decide (state s = CLOSED).
Definition getRTO : Z := DEFAULT_RTO.

Definition getReceiveWindow (s : sock) : Z :=
  if bool_decide (state s = SYNSENT) || bool_decide (state s = CLOSED) then TCP_Segment.DEFAULT_MSS
  else
    let currRecvWnd := u32 (maxReceiveWindow_Bytes s - rb_getRecvBytes (receiveBuffer s)) in
    if 0xFFFF <? currRecvWnd then 0xFFFF else currRecvWnd.

Definition initSendWindow (window seqnum acknum : Z) (s : sock) : sock :=
  s <| sendWindow := window |> <| lwseq := seqnum |> <| lwack := acknum |>.
Definition getSendWindow (s : sock) : Z := sendWindow s.
Definition lowerSendWindow (subtract : Z) (s : sock) : sock :=
  s <| sendWindow := u16 (sendWindow s - u16 subtract) |>.
Definition min (a b c : Z) : Z :=
  if a <? b then (if a <? c then a else c) else (if b <? c then b else c).
Definition set_seqnum_unacked (acknum : Z) (s : sock) : sock := s <| seqnum_unacked := acknum |>.
Definition triggerACK (s : sock) : sock := s <| ACK_triggered := true |>.

Definition resetSocketState (s : sock) : sock :=
  s <| state := CLOSED |> <| receiving := false |> <| maxReceiveWindow_MSS := 1 |>
    <| maxReceiveWindow_Bytes := TCP_Segment.DEFAULT_MSS |> <| FIN_received := false |>
    <| ACK_triggered := false |> <| mss := TCP_Segment.DEFAULT_MSS |>
    <| application_buflen := 0 |> <| waiting := false |>.

(** The constructor; the members it does not set hold whatever the memory held. *)
Definition constructed (junk : sock) : sock :=
  resetSocketState (junk <| receiveBuffer := rb_init |> <| history := h_init |>
    <| dport := TCP_Segment.UNUSED_PORT |> <| sport := TCP_Segment.UNUSED_PORT |>).

(** [setMSS] for an [unsigned] of [size] bytes. *)
Definition setMSS (size max_segment_size : Z) (s : sock) : sock :=
  let s := s <| mss := max_segment_size |> in
  if size =? 2 then
    let maxRecvWnd := u32 (maxReceiveWindow_MSS s * max_segment_size) in
    if 0xFFFF <? maxRecvWnd then s <| maxReceiveWindow_Bytes := 0xFFFF |>
    else s <| maxReceiveWindow_Bytes := maxRecvWnd |>
  else
    let maxRecvWnd := u64 (maxReceiveWindow_MSS s * max_segment_size) in
    if 0xFFFFFFFF <? maxRecvWnd then s <| maxReceiveWindow_Bytes := 0xFFFFFFFF |>
    else s <| maxReceiveWindow_Bytes := maxRecvWnd |>.

Definition updateSendWindow (segment : bytes) (seqnum acknum : Z) (s : sock) : sock :=
  if TCP_Segment.SEQ_LT seqnum (lwseq s) then s
  else if (seqnum =? lwseq s) && TCP_Segment.SEQ_LT acknum (lwack s) then s
  else s <| sendWindow := TCP_Segment.get_window e segment |> <| lwseq := seqnum |> <| lwack := acknum |>.

Definition handleACK (acknum : Z) (s : sock) : sock :=
  if TCP_Segment.SEQ_LEQ acknum (seqnum_unacked s) then s
  else if TCP_Segment.SEQ_GT acknum (seqnum_next s) then s
  else set_seqnum_unacked acknum s.

Definition handleFIN (segment : bytes) (seqnum payload_len : Z) (s : sock) : sock :=
  if TCP_Segment.has_FIN e segment && Bool.eqb (FIN_received s) false then
    s <| FIN_seqnum := u32 (seqnum + payload_len) |> <| FIN_received := true |>
  else s.

(** *** Sending *)

(** [Socket_Send_Slice::send] with the advice before it. *)
Definition send (b : SendBuffer.t) : M SendBuffer.t :=
  w ← getsW id;
  let b := lo_before_send b w in
  if negb (SendBuffer.getState b =? SendBuffer.WritingState) then mret b
  else
    let b := SendBuffer.setState SendBuffer.TransmittedState b in
    modifyW (lo_transmit b);; mret b.

Definition history_add (b : SendBuffer.t) (msec : Z) : M unit :=
  now ← getsW lo_now; h ← gets history;
  h ← lift (h_add b msec now h); modify (λ s, s <| history := h |>).
Definition history_remove (record : nat) : M unit :=
  h ← gets history; h ← lift (h_remove record h); modify (λ s, s <| history := h |>).
Definition getSendBuffer (record : nat) : M SendBuffer.t :=
  h ← gets history; lift (TCP_Record.getSendBuffer (h_record h record)).

Fixpoint clear_loop (fuel : nat) : M unit :=
  match fuel with
  | O => fail
  | S n =>
      h ← gets history;
      match h_get h with
      | None => mret ()
      | Some record =>
          b ← getSendBuffer record; modifyW (lo_free b);; history_remove record;; clear_loop n
      end
  end.
Definition clearHistory : M unit := clear_loop (S h_capacity).

(** The loop of [abort] over the received packets, which other tasks refill:
    [fuel] bounds the packets in the queue. *)
Fixpoint drain_loop (fuel : nat) : M unit :=
  match fuel with
  | O => mret ()
  | S n =>
      t ← runW lo_get;
      match t with
      | None => mret ()
      | Some (ptr, _) => modifyW (lo_freeReceived ptr);; drain_loop n
      end
  end.

(** A queue holds at most 254 packets. *)
Definition abort : M unit :=
  clearHistory;; drain_loop 255;; modify resetSocketState.

(** [retransmit] and the advice that counts. *)
Definition retransmit_proceed (record : nat) : M unit :=
  b ← getSendBuffer record;
  b ← send (SendBuffer.recycle b);
  now ← getsW lo_now;
  modify (λ s, s <| history :=
    h_update record (λ r, TCP_Record.setTimeout now getRTO (r <| TCP_Record.sendbuffer := Some b |>))
      (history s) |>).
Definition retransmit (record : nat) : M unit :=
  h ← gets history;
  let counter := TCP_Record.retransmission_counter (h_record h record) in
  if TCP_MAX_RETRANSMISSIONS <? counter then modify (λ s, s <| state := CLOSED |>)
  else
    modify (λ s, s <| history :=
      h_update record (λ r, r <| TCP_Record.retransmission_counter := u8 (counter + 1) |>)
        (history s) |>);;
    retransmit_proceed record.

(** Whether [updateHistory] drops a packet. *)
Definition history_done (h : H) (record : nat) (b : SendBuffer.t) (unacked : Z) (w : W) : bool :=
  let timeout := TCP_Record.getTimeout (h_record h record) in
  (negb (timeout =? 0)
   && TCP_Segment.SEQ_LT (TCP_Segment.get_seqnum e (SendBuffer.transport b)) unacked)
  || ((timeout =? 0) && lo_hasBeenSent w b).

Fixpoint update_loop (do_retransmit : bool) (fuel : nat) (record : option nat) : M unit :=
  match fuel, record with
  | _, None => mret ()
  | O, Some _ => fail
  | S n, Some record =>
      b ← getSendBuffer record;
      h ← gets history; unacked ← gets seqnum_unacked; w ← getsW id;
      if history_done h record b unacked w then
        let next := h_getNext h record in
        modifyW (lo_free b);; history_remove record;; update_loop do_retransmit n next
      else
        when (do_retransmit && TCP_Record.isTimedOut (lo_now w) (h_record h record)) (retransmit record);;
        h ← gets history; update_loop do_retransmit n (h_getNext h record)
  end.

Definition updateHistory (do_retransmit : bool) : M unit :=
  i ← getsW lo_interface;
  (if negb i then clearHistory
   else h ← gets history; update_loop do_retransmit (S h_capacity) (h_get h));;
  s ← gets id; when (bool_decide (state s = CLOSED)) abort.

Definition requestSendBufferTCP (payloadsize : Z) : M (option SendBuffer.t) :=
  h ← gets history;
  when (h_isFull h) (updateHistory false);;
  h ← gets history;
  if h_isFull h then mret None
  else runW (lo_request (TCP_Segment.TCP_MIN_HEADER_SIZE + payloadsize)).

(** The header at the data pointer, with the window that is advertised. *)
Definition window_header (window : Z) (s : sock) (ack : option Z) (p : bytes) : bytes :=
  let p := TCP_Segment.set_dport e (dport s) p in
  let p := TCP_Segment.set_sport e (sport s) p in
  let p := TCP_Segment.set_checksum e 0 p in
  let p := TCP_Segment.set_seqnum e (seqnum_next s) p in
  let p := TCP_Segment.set_header_len e (TCP_Segment.TCP_MIN_HEADER_SIZE / 4) p in
  let p := TCP_Segment.set_flags e 0 p in
  let p := TCP_Segment.set_window e window p in
  let p := TCP_Segment.set_urgend_ptr e 0 p in
  match ack with
  | Some a => TCP_Segment.set_acknum e a (TCP_Segment.set_ACK e p)
  | None => TCP_Segment.set_acknum e 0 p
  end.
Definition header (s : sock) : option Z -> bytes -> bytes := window_header (getReceiveWindow s) s.
Definition writeHeaderWithAck (b : SendBuffer.t) (ack : Z) : M SendBuffer.t :=
  s ← gets id;
  mret (SendBuffer.writtenToDataPointer TCP_Segment.TCP_MIN_HEADER_SIZE
          (SendBuffer.at_pointer (SendBuffer.data b) (header s (Some ack)) b)).
Definition writeHeader (b : SendBuffer.t) : M SendBuffer.t :=
  s ← gets id;
  mret (SendBuffer.writtenToDataPointer TCP_Segment.TCP_MIN_HEADER_SIZE
          (SendBuffer.at_pointer (SendBuffer.data b) (header s None) b)).

Definition sendACK_num (ackNum : Z) : M bool :=
  ob ← requestSendBufferTCP 0;
  match ob with
  | Some b =>
      b ← writeHeaderWithAck b ackNum; b ← send b; history_add b 0;; mret true
  | None => mret false
  end.
Definition sendACK : M bool :=
  modify (λ s, s <| ACK_triggered := false |>);;
  s ← gets id; sendACK_num (rb_getAckNum (receiveBuffer s)).
Definition processACK : M unit :=
  t ← gets ACK_triggered; when t (sendACK;; mret ()).

Definition FIN_complete : M bool :=
  s ← gets id;
  if FIN_received s && (rb_getAckNum (receiveBuffer s) =? FIN_seqnum s) then
    sendACK_num (u32 (FIN_seqnum s + 1));; mret true
  else mret false.

Definition sendSegment (len : Z) : M bool :=
  ob ← requestSendBufferTCP len;
  match ob with
  | None => mret false
  | Some b =>
      let segment := SendBuffer.getDataPointer b in
      s ← gets id;
      b ← writeHeaderWithAck b (rb_getAckNum (receiveBuffer s));
      let b := SendBuffer.write (application_src s) len b in
      modify (λ s, s <| application_buflen := u32 (application_buflen s - len) |>);;
      modify (λ s, s <| application_src := drop (Z.to_nat len) (application_src s) |>);;
      s ← gets id;
      let b := if application_buflen s =? 0
               then SendBuffer.at_pointer segment (TCP_Segment.set_PSH e) b else b in
      modify (λ s, s <| seqnum_next := u32 (seqnum_next s + len) |>);;
      modify (λ s, if negb (sendWindow s =? 0) then lowerSendWindow len s else s);;
      b ← send b; history_add b getRTO;; mret true
  end.

Definition sendNextSegment : M bool :=
  s ← gets id; sendSegment (min (getSendWindow s) (application_buflen s) (mss s)).

(** The loop of [processSendData]; every round fills a place of the history. *)
Fixpoint send_loop (fuel : nat) : M unit :=
  s ← gets id;
  if (0 <? application_buflen s) && (0 <? getSendWindow s) then
    match fuel with
    | O => fail
    | S n => r ← sendNextSegment; if Bool.eqb r false then mret () else send_loop n
    end
  else mret ().

Definition processSendData : M unit :=
  s ← gets id;
  if application_buflen s =? 0 then mret ()
  else if sendWindow s =? 0 then
    w ← getsW id;
    when (h_getNextTimeout (lo_now w) (history s) =? 0) (sendSegment 1;; mret ())
  else send_loop (S (Z.to_nat (application_buflen s))).

(** *** Receiving *)

Definition freeReceivedSegment (ptr : Z) : M unit := modifyW (lo_freeReceived ptr).
Definition block (timeout : option Z) : M bool := runW (lo_block timeout).
Definition history_isEmpty (s : sock) : bool :=
  match h_get (history s) with None => true | Some _ => false end.
Definition history_nextTimeout : M Z :=
  h ← gets history; w ← getsW id; mret (h_getNextTimeout (lo_now w) h).

Definition handleData (ptr : Z) (segment : bytes) (seqnum payload_len : Z) : M bool :=
  if 0 <? payload_len then
    rb ← gets receiveBuffer;
    r ← lift (rb_insert ptr segment seqnum payload_len rb);
    modify (λ s, s <| receiveBuffer := r.2 |>);;
    modify triggerACK;;
    mret (Bool.eqb r.1 false)
  else mret true.

Fixpoint free_all (ptrs : list Z) : M unit :=
  match ptrs with
  | [] => mret ()
  | p :: ptrs => freeReceivedSegment p;; free_all ptrs
  end.

(** [receiveBuffer.copyData(application_buf, len)]. *)
Definition copyData (len : Z) : M unit :=
  rb ← gets receiveBuffer;
  r ← lift (rb_copyData len rb);
  modify (λ s, s <| receiveBuffer := r.2 |> <| application_dst := application_dst s ++ r.1.1 |>);;
  free_all r.1.2.

Definition handleSYN (ptr : Z) (segment : bytes) : M bool :=
  if TCP_Segment.has_SYN e segment then freeReceivedSegment ptr;; sendACK;; mret true
  else mret false.
Definition handleSYN_final (ptr : Z) (segment : bytes) : M bool :=
  if TCP_Segment.has_SYN e segment then
    freeReceivedSegment ptr;; s ← gets id; sendACK_num (u32 (FIN_seqnum s + 1));; mret true
  else mret false.
Definition handleRST (ptr : Z) (segment : bytes) : M bool :=
  if TCP_Segment.has_RST e segment then freeReceivedSegment ptr;; abort;; mret true
  else mret false.

(** [return] from a handler when a test succeeded. *)
Definition unless (m : M bool) (k : M unit) : M unit := m ≫= λ r : bool, if r then mret () else k.

(** [updateHistory()], then [block(history.getNextTimeout())]. *)
Definition block_history : M unit := t ← history_nextTimeout; block (Some t) ≫= λ _, mret ().

Definition set_state (st : tcp_state) : M unit := modify (λ s, s <| state := st |>).
Definition payload_length (segment : bytes) (len : Z) : Z :=
  u32 (len - TCP_Segment.get_header_len e segment * 4).

(** *** The states *)

Definition closed (segment : option (Z * bytes)) (len : Z) : M unit :=
  match segment with Some (ptr, _) => freeReceivedSegment ptr | None => mret () end;;
  modify (λ s, s <| waiting := false |>).

(** The SYN, with or without ACK, at [b]; [seqnum_next] is taken by it. *)
Definition listen_segment (segment : option (Z * bytes)) (len : Z) : M unit :=
  match segment with
  | Some (ptr, seg) =>
      unless (handleRST ptr seg) (
      modify (λ s, s <| receiveBuffer :=
        rb_setFirstSeqNum (u32 (TCP_Segment.get_seqnum e seg + 1)) (receiveBuffer s) |>);;
      freeReceivedSegment ptr;;
      ob ← requestSendBufferTCP 0;
      match ob with
      | Some b =>
          set_state SYNRCVD;;
          let segment := SendBuffer.getDataPointer b in
          s ← gets id;
          b ← writeHeaderWithAck b (rb_getAckNum (receiveBuffer s));
          let b := SendBuffer.at_pointer segment (TCP_Segment.set_SYN e) b in
          modify (λ s, s <| seqnum_next := u32 (seqnum_next s + 1) |>);;
          b ← send b; history_add b getRTO
      | None => mret ()
      end)
  | None => block None;; mret ()
  end.

Definition synrcvd (segment : option (Z * bytes)) (len : Z) : M unit :=
  match segment with
  | Some (ptr, seg) =>
      unless (handleRST ptr seg) (
      (if TCP_Segment.has_ACK e seg then
         let acknum := TCP_Segment.get_acknum e seg in
         modify (handleACK acknum);;
         s ← gets id;
         when (acknum =? seqnum_next s) (
           set_state ESTABLISHED;;
           modify (initSendWindow (TCP_Segment.get_window e seg) (TCP_Segment.get_seqnum e seg) acknum);;
           clearHistory;;
           modify (λ s, s <| waiting := false |>))
       else when (TCP_Segment.has_SYN e seg) (
         h ← gets history;
         match h_get h with
         | Some record =>
             b ← getSendBuffer record; b ← send b;
             modify (λ s, s <| history :=
               h_update record (λ r, r <| TCP_Record.sendbuffer := Some b |>) (history s) |>)
         | None => mret ()
         end));;
      freeReceivedSegment ptr)
  | None => updateHistory true;; block_history
  end.

(** The end of the ACK branch of [synsent]: a RST for an unacceptable ACK. *)
Definition acknum_incorrect (acknum : Z) : M unit :=
  ob ← requestSendBufferTCP 0;
  match ob with
  | Some b =>
      let segment := SendBuffer.getDataPointer b in
      b ← writeHeader b;
      let b := SendBuffer.at_pointer segment
        (λ p, TCP_Segment.set_RST e (TCP_Segment.set_seqnum e acknum p)) b in
      b ← send b; history_add b 0
  | None => mret ()
  end.

Definition synsent (segment : option (Z * bytes)) (len : Z) : M unit :=
  match segment with
  | Some (ptr, seg) =>
      let seqnum := TCP_Segment.get_seqnum e seg in
      let acknum := TCP_Segment.get_acknum e seg in
      let window := TCP_Segment.get_window e seg in
      freeReceivedSegment ptr;;
      if TCP_Segment.has_ACK e seg then
        if TCP_Segment.has_SYN e seg then
          modify (handleACK acknum);;
          s ← gets id;
          if seqnum_unacked s =? seqnum_next s then
            set_state ESTABLISHED;;
            modify (initSendWindow window seqnum acknum);;
            modify (λ s, s <| receiveBuffer := rb_setFirstSeqNum (u32 (seqnum + 1)) (receiveBuffer s) |>);;
            clearHistory;;
            r ← sendACK; when r (modify (λ s, s <| waiting := false |>))
          else acknum_incorrect acknum
        else if TCP_Segment.has_RST e seg then
          s ← gets id; when (acknum =? seqnum_next s) abort
        else acknum_incorrect acknum
      else when (TCP_Segment.has_SYN e seg) (
        clearHistory;;
        modify (λ s, s <| receiveBuffer := rb_setFirstSeqNum (u32 (seqnum + 1)) (receiveBuffer s) |>);;
        ob ← requestSendBufferTCP 0;
        match ob with
        | Some b =>
            set_state SYNRCVD;;
            let segment := SendBuffer.getDataPointer b in
            s ← gets id;
            b ← writeHeaderWithAck b (rb_getAckNum (receiveBuffer s));
            let b := SendBuffer.at_pointer segment
              (λ p, TCP_Segment.set_SYN e (TCP_Segment.set_seqnum e (u32 (seqnum_next s - 1)) p)) b in
            b ← send b; history_add b getRTO
        | None => mret ()
        end)
  | None => updateHistory true;; block_history
  end.

Definition established (segment : option (Z * bytes)) (len : Z) : M unit :=
  match segment with
  | Some (ptr, seg) =>
      unless (handleRST ptr seg) (unless (handleSYN ptr seg) (
      let payload_len := payload_length seg len in
      let seqnum := TCP_Segment.get_seqnum e seg in
      let acknum := TCP_Segment.get_acknum e seg in
      when (TCP_Segment.has_ACK e seg) (modify (handleACK acknum));;
      modify (handleFIN seg seqnum payload_len);;
      needToFree ← handleData ptr seg seqnum payload_len;
      modify (updateSendWindow seg seqnum acknum);;
      when needToFree (freeReceivedSegment ptr);;
      complete ← FIN_complete;
      when complete (set_state CLOSEWAIT);;
      s ← gets id;
      when (getReceiveWindow s =? 0) (modify triggerACK)))
  | None =>
      updateHistory true;;
      s ← gets id;
      if receiving s then
        let recvBytes := rb_getRecvBytes (receiveBuffer s) in
        if 0 <? recvBytes then
          let pushed := rb_isPushed (receiveBuffer s) in
          let copyBytes := if application_buflen s <? recvBytes then application_buflen s else recvBytes in
          copyData copyBytes;;
          modify (λ s, s <| application_recv_len := u32 (application_recv_len s + copyBytes) |>);;
          modify (λ s, s <| application_buflen := u32 (application_buflen s - copyBytes) |>);;
          processACK;;
          s ← gets id;
          if (application_buflen s =? 0) || Bool.eqb pushed true then
            modify (λ s, s <| waiting := false |> <| receiving := false |>)
          else block None ≫= λ _, mret ()
        else processACK;; block None ≫= λ _, mret ()
      else if waiting s then
        processACK;;
        processSendData;;
        s ← gets id;
        if (application_buflen s =? 0) && history_isEmpty s then modify (λ s, s <| waiting := false |>)
        else block_history
      else mret ()
  end.

Definition finwait1 (segment : option (Z * bytes)) (len : Z) : M unit :=
  match segment with
  | Some (ptr, seg) =>
      unless (handleRST ptr seg) (unless (handleSYN ptr seg) (
      let payload_len := payload_length seg len in
      let seqnum := TCP_Segment.get_seqnum e seg in
      let acknum := TCP_Segment.get_acknum e seg in
      when (TCP_Segment.has_ACK e seg) (modify (handleACK acknum));;
      modify (handleFIN seg seqnum payload_len);;
      needToFree ← handleData ptr seg seqnum payload_len;
      next ← gets seqnum_next;
      let FIN_acked := TCP_Segment.has_ACK e seg && (acknum =? next) in
      when needToFree (freeReceivedSegment ptr);;
      complete ← FIN_complete;
      when complete (if FIN_acked then set_state TIMEWAIT else set_state CLOSING)))
  | None =>
      updateHistory true;; processACK;;
      s ← gets id;
      if history_isEmpty s then set_state FINWAIT2 else block_history
  end.

Definition finwait2 (segment : option (Z * bytes)) (len : Z) : M unit :=
  match segment with
  | Some (ptr, seg) =>
      unless (handleRST ptr seg) (unless (handleSYN ptr seg) (
      let payload_len := payload_length seg len in
      let seqnum := TCP_Segment.get_seqnum e seg in
      modify (handleFIN seg seqnum payload_len);;
      needToFree ← handleData ptr seg seqnum payload_len;
      when needToFree (freeReceivedSegment ptr);;
      complete ← FIN_complete;
      when complete (set_state TIMEWAIT)))
  | None => updateHistory true;; processACK;; block None ≫= λ _, mret ()
  end.

(** Our ACK of the FIN got lost. *)
Definition retransmit_FIN_ACK (seg : bytes) : M unit :=
  when (TCP_Segment.has_FIN e seg) (
    fin ← gets FIN_seqnum; sendACK_num (u32 (fin + 1)) ≫= λ _, mret ()).

Definition closewait (segment : option (Z * bytes)) (len : Z) : M unit :=
  match segment with
  | Some (ptr, seg) =>
      unless (handleRST ptr seg) (unless (handleSYN_final ptr seg) (
      let seqnum := TCP_Segment.get_seqnum e seg in
      let acknum := TCP_Segment.get_acknum e seg in
      when (TCP_Segment.has_ACK e seg) (modify (handleACK acknum));;
      retransmit_FIN_ACK seg;;
      modify (updateSendWindow seg seqnum acknum);;
      freeReceivedSegment ptr))
  | None =>
      updateHistory true;;
      s ← gets id;
      if receiving s then
        let recvBytes := rb_getRecvBytes (receiveBuffer s) in
        when (recvBytes <? application_buflen s) (modify (λ s, s <| application_buflen := recvBytes |>));;
        modify (λ s, s <| application_recv_len := u32 (application_recv_len s + application_buflen s) |>);;
        len ← gets application_buflen;
        copyData len;;
        modify (λ s, s <| waiting := false |> <| receiving := false |>)
      else if waiting s then
        processSendData;;
        s ← gets id;
        if (application_buflen s =? 0) && history_isEmpty s then modify (λ s, s <| waiting := false |>)
        else block_history
      else mret ()
  end.

Definition closing (segment : option (Z * bytes)) (len : Z) : M unit :=
  match segment with
  | Some (ptr, seg) =>
      unless (handleRST ptr seg) (unless (handleSYN_final ptr seg) (
      when (TCP_Segment.has_ACK e seg) (modify (handleACK (TCP_Segment.get_acknum e seg)));;
      retransmit_FIN_ACK seg;;
      freeReceivedSegment ptr))
  | None =>
      updateHistory true;;
      s ← gets id;
      if history_isEmpty s then set_state TIMEWAIT else block_history
  end.

Definition lastack (segment : option (Z * bytes)) (len : Z) : M unit :=
  match segment with
  | Some (ptr, seg) =>
      unless (handleRST ptr seg) (unless (handleSYN_final ptr seg) (
      when (TCP_Segment.has_ACK e seg) (modify (handleACK (TCP_Segment.get_acknum e seg)));;
      freeReceivedSegment ptr))
  | None =>
      updateHistory true;;
      s ← gets id;
      if history_isEmpty s then abort else block_history
  end.

Definition timewait (segment : option (Z * bytes)) (len : Z) : M unit :=
  match segment with
  | Some (ptr, seg) =>
      unless (handleRST ptr seg) (unless (handleSYN_final ptr seg) (
      retransmit_FIN_ACK seg;;
      freeReceivedSegment ptr))
  | None =>
      updateHistory true;;
      block (Some (2 * getRTO)) ≫= λ r : bool, when (Bool.eqb r true) abort
  end.

(** The state machine switch. *)
Definition input (segment : option (Z * bytes)) (len : Z) : M unit :=
  st ← gets state;
  match st with
  | CLOSED => closed segment len
  | LISTEN => listen_segment segment len
  | SYNSENT => synsent segment len
  | SYNRCVD => synrcvd segment len
  | ESTABLISHED => established segment len
  | FINWAIT1 => finwait1 segment len
  | FINWAIT2 => finwait2 segment len
  | CLOSEWAIT => closewait segment len
  | LASTACK => lastack segment len
  | CLOSING => closing segment len
  | TIMEWAIT => timewait segment len
  end.

(** *** The application's calls *)

Definition get_input : M unit :=
  t ← runW lo_get;
  match t with
  | Some (ptr, seg) => input (Some (ptr, seg)) (Z.of_nat (length seg))
  | None => input None 0
  end.

(** [recv_loop] ends when the connection has nothing left to wait for, which
    is the peer's doing: [fuel] counts the packets and timeouts until then. *)
Fixpoint recv_loop (fuel : nat) : M unit :=
  w ← gets waiting;
  if negb w then mret ()
  else match fuel with O => fail | S n => get_input;; recv_loop n end.

Definition gen_initial_seqnum : M unit :=
  w ← getsW id;
  let usec := u64 (ticks_to_ms (lo_now w) * 1000) in
  modify (λ s, s <| seqnum_next := u32 (usec / 4) |>);;
  modify (λ s, s <| seqnum_unacked := seqnum_next s |>).

Definition connect (fuel : nat) : M bool :=
  w ← getsW id; s ← gets id;
  if negb (lo_validAddresses w) then mret false
  else if isClosed s then
    modify (λ s, s <| sport := TCP_Segment.UNUSED_PORT |>);;
    s ← gets id;
    port ← runW (lo_bind (sport s) (dport s));
    match port with
    | None => mret false
    | Some port =>
        modify (λ s, s <| sport := port |>);;
        s ← gets id;
        when (bool_decide (state s = CLOSED)) (
          gen_initial_seqnum;;
          modify (λ s, s <| sendWindow := 0 |>);;
          ob ← requestSendBufferTCP 0;
          match ob with
          | Some b =>
              let segment := SendBuffer.getDataPointer b in
              b ← writeHeader b;
              let b := SendBuffer.at_pointer segment (TCP_Segment.set_SYN e) b in
              modify (λ s, s <| seqnum_next := u32 (seqnum_next s + 1) |>);;
              set_state SYNSENT;;
              b ← send b;
              modify (λ s, s <| waiting := true |>);;
              history_add b getRTO
          | None => mret ()
          end);;
        recv_loop fuel;;
        s ← gets id; mret (isEstablished s)
    end
  else mret false.

Definition close (fuel : nat) : M bool :=
  s ← gets id;
  when (isCloseWait s || isEstablished s) (
    ob ← requestSendBufferTCP 0;
    match ob with
    | Some b =>
        let segment := SendBuffer.getDataPointer b in
        s ← gets id;
        b ← writeHeaderWithAck b (rb_getAckNum (receiveBuffer s));
        let b := SendBuffer.at_pointer segment (TCP_Segment.set_FIN e) b in
        modify (λ s, s <| seqnum_next := u32 (seqnum_next s + 1) |>);;
        b ← send b;
        modify (λ s, s <| waiting := true |>);;
        history_add b getRTO;;
        s ← gets id;
        if isCloseWait s then set_state LASTACK else set_state FINWAIT1
    | None => mret ()
    end);;
  recv_loop fuel;;
  modifyW lo_unbind;;
  s ← gets id; mret (isClosed s).

Definition listen : M bool :=
  s ← gets id;
  if isClosed s then
    gen_initial_seqnum;;
    modify (λ s, s <| sendWindow := 0 |>);;
    set_state LISTEN;;
    modify (λ s, s <| waiting := true |>);;
    mret true
  else mret false.

Fixpoint poll_loop (fuel : nat) (receiveB : Z * bytes) : M unit :=
  match fuel with
  | O => fail
  | S n =>
      input (Some receiveB) (Z.of_nat (length receiveB.2));;
      next ← runW lo_get;
      match next with Some receiveB => poll_loop n receiveB | None => mret () end
  end.

Definition poll (fuel : nat) (msec : Z) : M Z :=
  s ← gets id;
  if isEstablished s || isCloseWait s then
    first ← runW lo_get;
    receiveB ← match first with
               | Some b => mret (Some b)
               | None =>
                   block (Some msec) ≫= λ timeout_reached : bool,
                   if Bool.eqb timeout_reached false then runW lo_get else mret None
               end;
    match receiveB with
    | Some b => poll_loop fuel b;; updateHistory true;; processACK
    | None => mret ()
    end;;
    s ← gets id; mret (Z.land (rb_getRecvBytes (receiveBuffer s)) 0x7FFFFFFF)
  else mret (-1).

(** [application_dst] goes on with the next buffer. *)
Definition receive_begin (buffer_len : Z) (s : sock) : sock :=
  s <| application_buflen := Z.land buffer_len 0x7FFFFFFF |> <| application_recv_len := 0 |>
    <| receiving := true |> <| waiting := true |>.
Definition receive (fuel : nat) (buffer_len : Z) : M Z :=
  s ← gets id;
  if isEstablished s || isCloseWait s then
    modify (receive_begin buffer_len);;
    recv_loop fuel;;
    s ← gets id;
    if (application_recv_len s =? 0) && isCloseWait s then mret (-2)
    else mret (s32 (application_recv_len s))
  else mret (-1).

Definition write_begin (data : bytes) (datasize : Z) (s : sock) : sock :=
  s <| application_src := data |> <| application_buflen := datasize |> <| waiting := true |>.
Definition write (fuel : nat) (data : bytes) (datasize : Z) : M bool :=
  s ← gets id;
  if isEstablished s || isCloseWait s then
    modify (write_begin data datasize);;
    recv_loop fuel;;
    s ← gets id; mret (isEstablished s || isCloseWait s)
  else mret false.

End Socket.
End TCP_Socket.
