(* ===== verification/TcpConnection.v ===== *)
(** * TcpConnection: what the TCP socket guarantees

    Theorems about the socket of [TcpSocket]: a total-correctness logic for its
    programs, the connection's invariant, and what each part of the state
    machine keeps.  The history and the receive buffer appear through their
    interfaces only. *)

From S2P Require Import Prelude Wire Packet TcpSegment TcpHistory SendBuffer TcpReceiveBuffer TcpSocket.
Import TCP_Socket.

Open Scope Z_scope.

(** ** Total correctness of a program *)

Section Logic.
Context {H R W : Type}.

(** [m] ends, without following a null pointer, in a result and a state in [Q]. *)
Definition wp {A} (m : M (H:=H) (R:=R) (W:=W) A) (Q : A -> St -> Prop) (s : St) : Prop :=
  match m s with Some (a, s') => Q a s' | None => False end.

Lemma wp_bind {A B} (m : M A) (k : A -> M B) Q s :
  wp m (λ a, wp (k a) Q) s -> wp (m ≫= k) Q s.
Proof. unfold wp. unfold mbind, M_bind. by destruct (m s) as [[a s']|]. Qed.

Lemma wp_unbind {A B} (m : M A) (k : A -> M B) Q s :
  wp (m ≫= k) Q s -> wp m (λ a, wp (k a) Q) s.
Proof. unfold wp. unfold mbind, M_bind. by destruct (m s) as [[a s']|]. Qed.

(** The result and the state. *)
Lemma wp_run {A} (m : M A) Q s : wp m Q s -> exists a s', m s = Some (a, s') ∧ Q a s'.
Proof. unfold wp. destruct (m s) as [[a s']|]; [by exists a, s'|done]. Qed.

Lemma wp_mono {A} (m : M A) (Q Q' : A -> St -> Prop) s :
  wp m Q s -> (forall a s', Q a s' -> Q' a s') -> wp m Q' s.
Proof. unfold wp. destruct (m s) as [[a s']|]; eauto. Qed.

(** Reason about the first of two programs with its specification. *)
Lemma wp_seq {A B} (m : M A) (k : A -> M B) P Q s :
  wp m P s -> (forall a s', P a s' -> wp (k a) Q s') -> wp (m ≫= k) Q s.
Proof. intros Hm Hk. apply wp_bind. by eapply wp_mono. Qed.

Lemma wp_ret {A} (a : A) (Q : A -> St -> Prop) s : Q a s -> wp (mret a) Q s.
Proof. done. Qed.
Lemma wp_gets {A} (f : sock -> A) (Q : A -> St -> Prop) s : Q (f s.1) s -> wp (gets f) Q s.
Proof. done. Qed.
Lemma wp_getsW {A} (f : W -> A) (Q : A -> St -> Prop) s : Q (f s.2) s -> wp (getsW f) Q s.
Proof. done. Qed.
Lemma wp_modify f (Q : unit -> St -> Prop) s : Q () (f s.1, s.2) -> wp (modify f) Q s.
Proof. done. Qed.
Lemma wp_modifyW f (Q : unit -> St -> Prop) s : Q () (s.1, f s.2) -> wp (modifyW f) Q s.
Proof. done. Qed.
Lemma wp_runW {A} (f : W -> A * W) (Q : A -> St -> Prop) s :
  (forall a w, f s.2 = (a, w) -> Q a (s.1, w)) -> wp (runW f) Q s.
Proof. intros HQ. unfold wp, runW. destruct (f s.2) as [a w] eqn:E. by apply HQ. Qed.
Lemma wp_lift {A} (o : option A) a (Q : A -> St -> Prop) s : o = Some a -> Q a s -> wp (lift o) Q s.
Proof. by intros ->. Qed.
Lemma wp_when b m (Q : unit -> St -> Prop) s :
  (b = true -> wp m Q s) -> (b = false -> Q () s) -> wp (when b m) Q s.
Proof. destruct b; cbn; eauto. Qed.
Lemma wp_unless m k (Q : unit -> St -> Prop) s :
  wp m (λ r s', if r : bool then Q () s' else wp k Q s') s -> wp (unless m k) Q s.
Proof. intros Hm. eapply wp_seq; [exact Hm|]. by intros []. Qed.
End Logic.

(** One step through a program whose parts are assignments and reads. *)
Ltac wp_step :=
  lazymatch goal with
  | |- wp (mbind _ _) _ _ => apply wp_bind
  | |- wp (mret _) _ _ => apply wp_ret
  | |- wp (gets _) _ _ => apply wp_gets
  | |- wp (getsW _) _ _ => apply wp_getsW
  | |- wp (modify _) _ _ => apply wp_modify
  | |- wp (modifyW _) _ _ => apply wp_modifyW
  | |- wp (runW _) _ _ => apply wp_runW; intros ? ? ?
  | |- wp (if ?b then _ else _) _ _ => destruct b eqn:?
  end.
Ltac wp_steps := repeat (wp_step; cbn [fst snd id]).

(** ** The history as the socket uses it *)

Section Connection.
Context (e : endian) `{Clk : Clock} {H R W : Type}
  {HI : History SendBuffer.t H} {RI : ReceiveBuffer e R} {L : Lower W}.
Context (MAX : Z).

Abbreviation sock := (TCP_Socket.sock (H:=H) (R:=R)).
Abbreviation St := (TCP_Socket.St (H:=H) (R:=R) (W:=W)).
Abbreviation M := (TCP_Socket.M (H:=H) (R:=R) (W:=W)).

Definition records (s : sock) : list (nat * TCP_Record.t SendBuffer.t) := h_abs (history s).
Definition has_buffer (pr : nat * TCP_Record.t SendBuffer.t) : Prop :=
  is_Some (TCP_Record.sendbuffer pr.2).

(** Every stored record has its packet. *)
Definition sane (s : sock) : Prop := h_inv (history s) ∧ Forall has_buffer (records s).

(** Nothing but the history changes. *)
Definition keeps (s s' : sock) : Prop := s' = s <| history := history s' |> ∧ sane s'.

Lemma keeps_refl s : sane s -> keeps s s.
Proof. by destruct s. Qed.

Lemma keeps_sane s s' : keeps s s' -> sane s'.
Proof. by intros []. Qed.

Lemma keeps_trans s1 s2 s3 : keeps s1 s2 -> keeps s2 s3 -> keeps s1 s3.
Proof. intros [E1 _] [E2 H2]. split; [|done]. rewrite E2, E1. by destruct s1. Qed.

Lemma keeps_update s p f l1 r l2 : sane s -> records s = l1 ++ (p, r) :: l2 -> has_buffer (p, f r) ->
  keeps s (s <| history := h_update p f (history s) |>)
  ∧ records (s <| history := h_update p f (history s) |>) = l1 ++ (p, f r) :: l2.
Proof.
  intros [Hi Hb] E Hf. destruct (h_update_ok (history s) f l1 p r l2 Hi E) as [Hi' E'].
  unfold records in *. split; [split; [done|split]|]; cbn; [done| |done].
  unfold records. cbn. rewrite E'. rewrite E in Hb. apply Forall_app in Hb as [Hb1 Hb2].
  apply Forall_app. split; [done|]. by inversion_clear Hb2; constructor.
Qed.

Lemma history_remove_ok p r l1 l2 (st : St) (Q : unit -> St -> Prop) :
  sane st.1 -> records st.1 = l1 ++ (p, r) :: l2 ->
  (forall s', keeps st.1 s' -> records s' = l1 ++ l2 -> Q () (s', st.2)) ->
  wp (history_remove p) Q st.
Proof.
  intros [Hi Hb] E HQ. unfold history_remove. wp_steps.
  destruct (h_remove_ok _ _ _ _ _ Hi E) as (h' & Er & Hi' & E').
  eapply wp_lift; [exact Er|]. wp_steps. apply HQ; [|exact E'].
  split; [done|]. split; [done|]. unfold records in *. cbn. rewrite E'. rewrite E in Hb.
  apply Forall_app in Hb as [Hb1 Hb2]. apply Forall_app. split; [done|]. by inversion_clear Hb2.
Qed.

Lemma history_add_ok b msec (st : St) (Q : unit -> St -> Prop) :
  sane st.1 -> h_isFull (history st.1) = false ->
  (forall s' p r, keeps st.1 s' -> records s' = (p, r) :: records st.1 ->
     TCP_Record.sendbuffer r = Some b ->
     TCP_Record.timeout r = (if msec =? 0 then 0 else u64 (lo_now st.2 + ms_to_ticks msec)) ->
     Q () (s', st.2)) ->
  wp (history_add b msec) Q st.
Proof.
  intros [Hi Hb] Hf HQ. unfold history_add. wp_steps.
  destruct (h_add_ok _ b msec (lo_now st.2) Hi Hf) as (h' & p & r & Ea & Hi' & E' & Hs & _ & Ht).
  eapply wp_lift; [exact Ea|]. wp_steps. apply (HQ _ p r); [|exact E'|done|done].
  split; [done|]. split; [done|]. unfold records in *. cbn. rewrite E'. constructor; [|done].
  unfold has_buffer. cbn. by rewrite Hs.
Qed.

Lemma getSendBuffer_ok p r l1 l2 b (st : St) (Q : SendBuffer.t -> St -> Prop) :
  sane st.1 -> records st.1 = l1 ++ (p, r) :: l2 -> TCP_Record.sendbuffer r = Some b ->
  Q b st -> wp (getSendBuffer p) Q st.
Proof.
  intros [Hi _] E Hb HQ. unfold getSendBuffer. wp_steps. eapply wp_lift; [|exact HQ].
  unfold TCP_Record.getSendBuffer. destruct (h_next_ok _ _ _ _ _ Hi E) as [_ ->]. done.
Qed.

Lemma get_head (s : sock) : sane s -> h_get (history s) = head (records s).*1.
Proof. intros [Hi _]. by apply h_get_ok. Qed.

Lemma isEmpty_spec (s : sock) : sane s -> history_isEmpty s = true <-> records s = [].
Proof.
  intros Hs. unfold history_isEmpty. rewrite get_head by done. by destruct (records s) as [|[]].
Qed.

Lemma clear_loop_ok fuel (st : St) :
  sane st.1 -> (length (records st.1) < fuel)%nat ->
  wp (clear_loop fuel) (λ _ st', keeps st.1 st'.1 ∧ records st'.1 = []) st.
Proof.
  revert st. induction fuel as [|n IH]; intros st Hs Hl; [lia|]. cbn [clear_loop]. wp_steps.
  rewrite get_head by done. destruct (records st.1) as [|[p r] l] eqn:E; cbn [fmap list_fmap head].
  { wp_steps. split; [by apply keeps_refl|done]. }
  assert (Hb : is_Some (TCP_Record.sendbuffer r))
    by (destruct Hs as [_ Hb]; rewrite E in Hb; by inversion_clear Hb).
  destruct Hb as [b Hb]. apply wp_bind. eapply (getSendBuffer_ok p r [] l b); [done|done|done|].
  wp_steps. apply (history_remove_ok p r [] l); [done|done|]. intros s' K E'. cbn.
  eapply wp_mono; [apply IH; cbn; [by eapply keeps_sane|rewrite E'; cbn in *; lia]|].
  cbn. intros _ st' [K' E'']. split; [|done]. by eapply keeps_trans.
Qed.

Lemma records_capacity s : sane s -> (length (records s) <= h_capacity)%nat.
Proof. intros [Hi _]. by apply h_full_ok. Qed.

Lemma clearHistory_ok (st : St) : sane st.1 ->
  wp clearHistory (λ _ st', keeps st.1 st'.1 ∧ records st'.1 = []) st.
Proof. intros Hs. apply clear_loop_ok; [done|]. pose proof (records_capacity _ Hs). lia. Qed.

Lemma drain_ok fuel (st : St) (Q : unit -> St -> Prop) :
  (forall w, Q () (st.1, w)) -> wp (drain_loop fuel) Q st.
Proof.
  revert st. induction fuel as [|n IH]; intros st HQ; cbn [drain_loop]; wp_steps.
  - destruct st. apply HQ.
  - destruct a as [[ptr l]|]; wp_steps; [apply IH|]; cbn; intros; apply HQ.
Qed.

(** After [abort]: everything reset, nothing left to send again. *)
Definition aborted (s s' : sock) : Prop :=
  s' = resetSocketState (s <| history := history s' |>) ∧ sane s' ∧ records s' = [].

Lemma abort_ok (st : St) : sane st.1 -> wp abort (λ _ st', aborted st.1 st'.1) st.
Proof.
  intros Hs. unfold abort. eapply wp_seq; [by apply clearHistory_ok|]. intros [] st1 [[E1 K1] E1'].
  apply wp_bind. apply drain_ok. intros w. wp_steps. split; [|split]; [|exact K1|exact E1'].
  rewrite E1. by destruct (st.1).
Qed.

(** ** Sending and retransmitting *)

Lemma send_ok b (st : St) (Q : SendBuffer.t -> St -> Prop) :
  (forall b' w, Q b' (st.1, w)) -> wp (send b) Q st.
Proof. intros HQ. unfold send. wp_steps; [|apply HQ]. destruct st. apply HQ. Qed.

(** Nothing but the history changes, or the state becomes CLOSED as well. *)
Definition keeps_or_closes (s s' : sock) : Prop :=
  s' = s <| history := history s' |> <| state := state s' |> ∧ sane s'
  ∧ (state s' = state s ∨ state s' = CLOSED).

Lemma keeps_or_closes_refl s : sane s -> keeps_or_closes s s.
Proof. split; [by destruct s|]. split; [done|by left]. Qed.

Lemma keeps_or_closes_trans s1 s2 s3 :
  keeps_or_closes s1 s2 -> keeps_or_closes s2 s3 -> keeps_or_closes s1 s3.
Proof.
  intros (E1 & _ & C1) (E2 & H2 & C2). split; [rewrite E2, E1; by destruct s1|]. split; [done|].
  destruct C2 as [->| ->]; [done|by right].
Qed.

Lemma keeps_weaken s s' : keeps s s' -> keeps_or_closes s s'.
Proof.
  intros [E K]. split; [|split]; [|done|left]; rewrite E; by destruct s.
Qed.

Lemma keeps_state s s' : keeps s s' -> state s' = state s.
Proof. intros [-> _]. by destruct s. Qed.

Lemma keeps_of_same_state s s' : keeps_or_closes s s' -> state s' = state s -> keeps s s'.
Proof. intros (E & K & _) Es. split; [|done]. rewrite Es in E. rewrite E. by destruct s. Qed.

Lemma retransmit_ok p r l1 l2 (st : St) :
  sane st.1 -> records st.1 = l1 ++ (p, r) :: l2 ->
  wp (retransmit MAX p) (λ _ st', keeps_or_closes st.1 st'.1
    ∧ exists r', records st'.1 = l1 ++ (p, r') :: l2 ∧ has_buffer (p, r')) st.
Proof.
  intros Hs E. assert (Hb : has_buffer (p, r))
    by (destruct Hs as [_ Hb]; rewrite E in Hb; by apply Forall_app in Hb as [_ ?%Forall_inv]).
  unfold retransmit. wp_steps.
  { split; [|exists r; by split; [destruct st as [[] ?]|]].
    split; [by destruct st as [[] ?]|]. split; [by destruct st as [[] ?]|by right]. }
  set (f := λ r : TCP_Record.t SendBuffer.t, r <| TCP_Record.retransmission_counter := _ |>).
  destruct (keeps_update st.1 p f l1 r l2 Hs E Hb) as [K1 E1].
  set (s1 := st.1 <| history := _ |>) in *. unfold retransmit_proceed.
  destruct Hb as [b Hb]. wp_steps. eapply (getSendBuffer_ok p (f r)); [by eapply keeps_sane|exact E1|exact Hb|].
  wp_steps. apply send_ok. intros b' w. wp_steps.
  set (g := λ r : TCP_Record.t SendBuffer.t, TCP_Record.setTimeout _ _ _).
  destruct (keeps_update s1 p g l1 (f r) l2) as [K2 E2]; [by eapply keeps_sane|exact E1| |].
  { unfold has_buffer, g, TCP_Record.setTimeout. cbn. by eexists. }
  split; [|eexists; split; [exact E2|unfold has_buffer, g, TCP_Record.setTimeout; cbn; by eexists]].
  apply keeps_weaken. by eapply keeps_trans.
Qed.

(** *** [updateHistory] *)

Definition seqnum_of (b : SendBuffer.t) : Z := TCP_Segment.get_seqnum e (SendBuffer.transport b).
Definition acked (unacked : Z) (r : TCP_Record.t SendBuffer.t) : bool :=
  match TCP_Record.sendbuffer r with
  | Some b => TCP_Segment.SEQ_LT (seqnum_of b) unacked
  | None => false
  end.
(** Packets with a timeout wait for their acknowledgement. *)
Definition awaits_ack (r : TCP_Record.t SendBuffer.t) : bool := negb (TCP_Record.timeout r =? 0).

(** What may become of the stored packets. *)
Inductive updated (unacked : Z) :
    list (nat * TCP_Record.t SendBuffer.t) -> list (nat * TCP_Record.t SendBuffer.t) -> Prop :=
| up_nil : updated unacked [] []
| up_drop p r l l' :
    awaits_ack r = false ∨ acked unacked r = true -> updated unacked l l' ->
    updated unacked ((p, r) :: l) l'
| up_keep p r l l' :
    awaits_ack r = false ∨ acked unacked r = false -> updated unacked l l' ->
    updated unacked ((p, r) :: l) ((p, r) :: l')
| up_resent p r r' l l' :
    awaits_ack r = true -> acked unacked r = false -> has_buffer (p, r') -> updated unacked l l' ->
    updated unacked ((p, r) :: l) ((p, r') :: l').

Lemma history_done_spec (h : H) p r l1 l2 b unacked (w : W) :
  h_inv h -> h_abs h = l1 ++ (p, r) :: l2 -> TCP_Record.sendbuffer r = Some b ->
  history_done e h p b unacked w
  = (awaits_ack r && acked unacked r) || (negb (awaits_ack r) && lo_hasBeenSent w b).
Proof.
  intros Hi E Hb. unfold history_done, awaits_ack, acked, TCP_Record.getTimeout.
  destruct (h_next_ok _ _ _ _ _ Hi E) as [_ ->]. rewrite Hb, negb_involutive. done.
Qed.

(** The loop has handled [l1] and stands at the head of [l2]. *)
Definition update_post (again : bool) (l1 l2 : list (nat * TCP_Record.t SendBuffer.t)) (st st' : St) : Prop :=
  keeps_or_closes st.1 st'.1 ∧ (again = false -> state st'.1 = state st.1)
  ∧ exists l2', records st'.1 = l1 ++ l2' ∧ updated (seqnum_unacked st.1) l2 l2'.

Lemma update_loop_ok again fuel l1 l2 (st : St) :
  sane st.1 -> records st.1 = l1 ++ l2 -> (length l2 <= fuel)%nat ->
  wp (update_loop e MAX again fuel (head l2.*1)) (λ _ st', update_post again l1 l2 st st') st.
Proof.
  revert l1 l2 st. induction fuel as [|n IH]; intros l1 l2 st Hs E Hl;
    (destruct l2 as [|[p r] l2]; [cbn; wp_steps; split; [by apply keeps_or_closes_refl|];
      split; [done|]; eexists; split; [done|constructor]|cbn in Hl]); [lia|].
  cbn [fmap list_fmap head fst update_loop].
  assert (Hb : has_buffer (p, r))
    by (destruct Hs as [_ Hb]; rewrite E in Hb; by apply Forall_app in Hb as [_ ?%Forall_inv]).
  destruct Hb as [b Hb]. wp_steps. eapply getSendBuffer_ok; [done|exact E|exact Hb|]. wp_steps;
    rewrite (history_done_spec _ _ _ _ _ _ _ _ (proj1 Hs) E Hb) in Heqb0.
  - eapply history_remove_ok; [exact Hs|exact E|]. cbn. intros s' K E'.
    destruct (h_next_ok _ _ _ _ _ (proj1 Hs) E) as [-> _].
    eapply wp_mono; [apply (IH l1 l2); [by eapply keeps_sane|exact E'|lia]|].
    cbn. intros _ st' (K' & Ha & l2' & E2 & U). split; [|split].
    + eapply keeps_or_closes_trans; [by apply keeps_weaken|exact K'].
    + intros ->. rewrite Ha by done. by apply keeps_state.
    + exists l2'. split; [done|]. apply up_drop.
      * apply orb_true_iff in Heqb0 as [[??]%andb_true_iff|[?%negb_true_iff ?]%andb_true_iff]; auto.
      * cbn in U. destruct K as [Ek _]. rewrite Ek in U. destruct (st.1). exact U.
  - assert (Hkeep : awaits_ack r = false ∨ acked (seqnum_unacked st.1) r = false).
    { apply orb_false_iff in Heqb0 as [[|]%andb_false_iff _]; auto. }
    apply (wp_mono _ (λ _ st', keeps_or_closes st.1 st'.1 ∧ (again = false -> state st'.1 = state st.1)
      ∧ exists r', records st'.1 = l1 ++ (p, r') :: l2 ∧ has_buffer (p, r')
        ∧ (r' = r ∨ awaits_ack r = true))).
    + apply wp_when; intros Hag.
      * eapply wp_mono; [eapply retransmit_ok; [exact Hs|exact E]|]. cbn.
        intros _ st' (K & r' & E' & Hb'). split; [done|]. apply andb_true_iff in Hag as [-> Ht].
        split; [done|]. exists r'. split; [done|]. split; [done|]. right.
        destruct (h_next_ok _ _ _ _ _ (proj1 Hs) E) as [_ Er]. rewrite Er in Ht.
        revert Ht. unfold TCP_Record.isTimedOut, awaits_ack. destruct (negb (TCP_Record.timeout r =? 0)); [done|discriminate].
      * split; [by apply keeps_or_closes_refl|]. split; [done|]. exists r. split; [done|].
        split; [by eexists|by left].
    + cbn. intros _ st1 (K1 & Ha1 & r' & E1 & Hb' & Hr'). wp_steps.
      assert (Hs1 : sane st1.1) by apply K1.
      destruct (h_next_ok _ _ _ _ _ (proj1 Hs1) E1) as [-> _].
      eapply wp_mono; [apply (IH (l1 ++ [(p, r')]) l2); [done|by rewrite <- app_assoc|lia]|].
      cbn. intros _ st' (K' & Ha & l2' & E2 & U). split; [|split].
      * by eapply keeps_or_closes_trans.
      * intros Hag. by rewrite Ha, Ha1.
      * exists ((p, r') :: l2'). split; [by rewrite E2, <- app_assoc|].
        assert (U' : updated (seqnum_unacked st.1) l2 l2')
          by (destruct K1 as [Ek1 _]; rewrite Ek1 in U; destruct (st.1); exact U).
        destruct (awaits_ack r) eqn:Er, (acked (seqnum_unacked st.1) r) eqn:Ek;
          try (by destruct Hkeep); destruct Hr' as [->|?]; try done;
          first [by apply up_keep; [auto|] | by apply up_resent].
Qed.

Lemma aborted_trans s1 s2 s3 : keeps_or_closes s1 s2 -> aborted s2 s3 -> aborted s1 s3.
Proof.
  intros (E & _) (E' & K & R'). split; [|done]. rewrite E', E. by destruct s1.
Qed.

Lemma updateHistory_ok again (st : St) : sane st.1 ->
  wp (updateHistory e MAX again) (λ _ st',
    (keeps st.1 st'.1
     ∧ (lo_interface st.2 = true -> updated (seqnum_unacked st.1) (records st.1) (records st'.1)))
    ∨ (aborted st.1 st'.1 ∧ (again = true ∨ state st.1 = CLOSED))) st.
Proof.
  intros Hs. unfold updateHistory. apply wp_bind, wp_getsW, wp_bind.
  apply (wp_mono _ (λ _ st', keeps_or_closes st.1 st'.1
    ∧ (again = false -> state st'.1 = state st.1)
    ∧ (lo_interface st.2 = true -> updated (seqnum_unacked st.1) (records st.1) (records st'.1)))).
  - wp_step; cbn.
    + eapply wp_mono; [by apply clearHistory_ok|]. cbn. intros _ st' [K _].
      split; [by apply keeps_weaken|]. split; [intros _; by apply keeps_state|].
      intros E. by rewrite E in Heqb.
    + wp_steps. rewrite get_head by done. eapply wp_mono.
      * apply (update_loop_ok again (S h_capacity) [] (records st.1) st); [done..|].
        pose proof (records_capacity _ Hs). lia.
      * cbn. intros _ st' (K & Ha & l2' & -> & U). done.
  - cbn. intros _ st1 (K & Ha & U). wp_steps. apply wp_when; intros Hc.
    + eapply wp_mono; [apply abort_ok, K|]. cbn. intros _ st' A. right.
      split; [by eapply aborted_trans|]. destruct again; [by left|right].
      rewrite <- Ha by done. by apply bool_decide_eq_true in Hc.
    + left. split; [|done]. apply keeps_of_same_state; [done|].
      apply bool_decide_eq_false in Hc. by destruct K as (_ & _ & [?|?]).
Qed.

(** What the network layer promises for a request of [n] bytes: a buffer whose
    transport header starts at the data pointer and which has [n] bytes left. *)
Definition fits (n : Z) (b : SendBuffer.t) : Prop :=
  SendBuffer.wf b ∧ SendBuffer.memstart_transport b = SendBuffer.data b
  ∧ SendBuffer.getRemainingSize b = n.

Definition requested (n : Z) (b : SendBuffer.t) : Prop :=
  exists w w' : W, lo_request n w = (Some b, w').

Lemma requestSendBufferTCP_ok n (st : St) (Q : option SendBuffer.t -> St -> Prop) :
  sane st.1 -> state st.1 ≠ CLOSED ->
  (forall st', keeps st.1 st'.1 -> Q None st') ->
  (forall b st', keeps st.1 st'.1 -> h_isFull (history st'.1) = false -> requested (20 + n) b ->
     Q (Some b) st') ->
  wp (requestSendBufferTCP e MAX n) Q st.
Proof.
  intros Hs Hst HN HS. unfold requestSendBufferTCP. wp_steps.
  apply (wp_mono _ (λ _ st', keeps st.1 st'.1)).
  - apply wp_when; intros _; [|by apply keeps_refl].
    eapply wp_mono; [by apply updateHistory_ok|]. cbn.
    intros _ st' [[K _]|[_ [?|?]]]; done.
  - cbn. intros _ st1 K. wp_steps; [by apply HN|]. wp_steps.
    destruct a as [b|]; [|by apply HN]. apply HS; [done..|]. by exists (st1.2), w.
Qed.

(** Composing the post-condition of a program that only touches the history. *)
Definition kept (st : St) : forall A, A -> St -> Prop := λ A _ st', keeps st.1 st'.1.

Lemma writeHeaderWithAck_ok b ack (st : St) (Q : SendBuffer.t -> St -> Prop) :
  Q (SendBuffer.writtenToDataPointer 20
       (SendBuffer.at_pointer (SendBuffer.data b) (header e (st.1) (Some ack)) b)) st ->
  wp (writeHeaderWithAck e b ack) Q st.
Proof. done. Qed.

Lemma writeHeader_ok b (st : St) (Q : SendBuffer.t -> St -> Prop) :
  Q (SendBuffer.writtenToDataPointer 20
       (SendBuffer.at_pointer (SendBuffer.data b) (header e (st.1) None) b)) st ->
  wp (writeHeader e b) Q st.
Proof. done. Qed.

Lemma sendACK_num_ok ack (st : St) : sane st.1 -> state st.1 ≠ CLOSED ->
  wp (sendACK_num e MAX ack) (λ _ st', keeps st.1 st'.1) st.
Proof.
  intros Hs Hst. unfold sendACK_num. apply wp_bind.
  apply requestSendBufferTCP_ok; [done..| |]; [by intros st' K|]. intros b st1 K Hf _.
  apply wp_bind, writeHeaderWithAck_ok, wp_bind, send_ok. intros b' w.
  apply wp_bind, history_add_ok; [by eapply keeps_sane|done|].
  cbn. intros s' p r K' _ _ _. wp_steps. by eapply keeps_trans.
Qed.

(** Only the history and the flag that asks for an ACK change. *)
Definition keeps_but_ack (s s' : sock) : Prop :=
  s' = s <| history := history s' |> <| ACK_triggered := ACK_triggered s' |> ∧ sane s'.

Lemma sendACK_ok (st : St) : sane st.1 -> state st.1 ≠ CLOSED ->
  wp (sendACK e MAX) (λ _ st', keeps_but_ack st.1 st'.1) st.
Proof.
  intros Hs Hst. unfold sendACK. wp_steps. eapply wp_mono.
  - apply sendACK_num_ok; cbn; [|by destruct (st.1)]. destruct (st.1). exact Hs.
  - cbn. intros _ st' [E K]. split; [|done]. rewrite E. by destruct (st.1).
Qed.

Lemma processACK_ok (st : St) : sane st.1 -> (ACK_triggered st.1 = true -> state st.1 ≠ CLOSED) ->
  wp (processACK e MAX) (λ _ st', keeps_but_ack st.1 st'.1) st.
Proof.
  intros Hs Hst. unfold processACK. wp_steps. apply wp_when; intros Ha.
  - eapply wp_seq; [apply sendACK_ok; auto|]. by cbn.
  - split; [by destruct (st.1)|done].
Qed.

Lemma FIN_complete_ok (st : St) : sane st.1 -> state st.1 ≠ CLOSED ->
  wp (FIN_complete e MAX) (λ r st',
    if r then keeps st.1 st'.1 ∧ FIN_received st.1 = true
      ∧ rb_getAckNum (receiveBuffer st.1) = FIN_seqnum st.1
    else st' = st) st.
Proof.
  intros Hs Hst. unfold FIN_complete. wp_steps; [|done].
  apply andb_true_iff in Heqb as [Hr Ha%Z.eqb_eq].
  eapply wp_mono; [by apply sendACK_num_ok|]. cbn. intros _ st' K. by wp_steps.
Qed.

(** ** Sending data *)

(** The segment [sendSegment] builds in the buffer [b], before the advice of
    [send]. *)
Definition built (len : Z) (s : sock) (b : SendBuffer.t) : SendBuffer.t :=
  let segment := SendBuffer.data b in
  let b := SendBuffer.writtenToDataPointer 20 (SendBuffer.at_pointer segment
             (header e s (Some (rb_getAckNum (receiveBuffer s)))) b) in
  let b := SendBuffer.write (application_src s) len b in
  if u32 (application_buflen s - len) =? 0
  then SendBuffer.at_pointer segment (TCP_Segment.set_PSH e) b else b.

(** The socket after [len] bytes were sent. *)
Definition sent (len : Z) (s : sock) (h : H) : sock :=
  s <| history := h |>
    <| application_buflen := u32 (application_buflen s - len) |>
    <| application_src := drop (Z.to_nat len) (application_src s) |>
    <| seqnum_next := u32 (seqnum_next s + len) |>
    <| sendWindow := if sendWindow s =? 0 then 0 else u16 (sendWindow s - u16 len) |>.

(** The packet [send] leaves behind for [b], and the world: a packet that is ready is handed to the interface. *)
Definition after_send (b b' : SendBuffer.t) (w' : W) : Prop :=
  exists w : W, let b1 := lo_before_send b w in
    (SendBuffer.getState b1 ≠ SendBuffer.WritingState ∧ b' = b1 ∧ w' = w)
    ∨ (SendBuffer.getState b1 = SendBuffer.WritingState ∧ b' = SendBuffer.setState SendBuffer.TransmittedState b1
       ∧ w' = lo_transmit b' w).

Lemma send_packet b (st : St) (Q : SendBuffer.t -> St -> Prop) :
  (forall b' w, after_send b b' w -> Q b' (st.1, w)) -> wp (send b) Q st.
Proof.
  intros HQ. unfold send. wp_steps.
  - destruct st as [s w]. apply HQ. exists w. left. by apply negb_true_iff, Z.eqb_neq in Heqb0.
  - apply HQ. exists (st.2). right. by apply negb_false_iff, Z.eqb_eq in Heqb0.
Qed.

Lemma header_keeps s s' ack : keeps s s' -> header e s' ack = header e s ack.
Proof. intros [E _]. rewrite E. by destruct s. Qed.

Lemma sendSegment_ok len (st : St) (Q : bool -> St -> Prop) :
  sane st.1 -> state st.1 ≠ CLOSED ->
  (forall st', keeps st.1 st'.1 -> Q false st') ->
  (forall b0 b s1 h p r rs w, requested (20 + len) b0 -> after_send (built len st.1 b0) b w ->
     keeps st.1 s1 -> h_inv h -> h_abs h = (p, r) :: rs -> records s1 = rs ->
     TCP_Record.sendbuffer r = Some b ->
     TCP_Record.timeout r = u64 (lo_now w + ms_to_ticks getRTO) -> sane (sent len st.1 h) -> Q true (sent len st.1 h, w)) ->
  wp (sendSegment e MAX len) Q st.
Proof.
  intros Hs Hst HF HT. unfold sendSegment. apply wp_bind.
  apply requestSendBufferTCP_ok; [done..| |]; [intros st' K; wp_steps; auto|].
  intros b0 [s1 w1] K Hf Hreq. cbn in K, Hf. apply wp_bind, wp_gets. cbn [id fst].
  apply wp_bind, writeHeaderWithAck_ok. cbn [fst]. rewrite (header_keeps _ _ _ K).
  do 3 (apply wp_bind; first [apply wp_modify|apply wp_gets]; cbn [fst snd id]).
  do 2 (apply wp_bind, wp_modify; cbn [fst snd]). apply wp_bind, send_packet. cbn [fst].
  intros b w Hb. apply wp_bind.
  set (s2 := if negb _ then _ else _).
  assert (E2 : s2 = sent len st.1 (history s1)).
  { unfold s2, sent, lowerSendWindow. destruct K as [E _]. rewrite E. destruct (st.1). cbn.
    match goal with |- context [negb (?x =? 0)] => by destruct (Z.eqb_spec x 0) as [->|] end. }
  assert (Hs2 : sane s2) by (rewrite E2; destruct K as [E Ks]; rewrite E in Ks; exact Ks).
  assert (Eb : after_send (built len st.1 b0) b w).
  { unfold built. destruct K as [E _]. rewrite E in Hb. by destruct (st.1). }
  apply history_add_ok; cbn [fst snd]; [done|by rewrite E2|]. intros s' p r [E' K'] Er Hr Ht. wp_steps.
  assert (E3 : s' = sent len st.1 (history s')) by (rewrite E', E2; by destruct (st.1)).
  rewrite E3. rewrite E3 in K'. eapply (HT b0 b s1); [done..|apply K'|exact Er| |exact Hr|exact Ht|exact K'].
  by rewrite E2.
Qed.

(** The counters of a socket that may send. *)
Record sendable (s : sock) : Prop := {
  sd_window : is_u16 (sendWindow s);
  sd_buflen : is_u32 (application_buflen s);
  sd_next : is_u32 (seqnum_next s);
  sd_mss : 0 < mss s }.

(** The socket after [k] bytes were sent, in however many segments. *)
Definition sent_upto (k : Z) (s s' : sock) : Prop :=
  sane s' ∧ s' = s <| history := history s' |>
    <| application_buflen := application_buflen s - k |>
    <| application_src := drop (Z.to_nat k) (application_src s) |>
    <| seqnum_next := u32 (seqnum_next s + k) |>
    <| sendWindow := Z.max 0 (sendWindow s - k) |>.

Lemma keeps_sent_upto s s' : keeps s s' -> sendable s -> sent_upto 0 s s'.
Proof.
  intros [E K] [Hw Hb Hn _]. split; [done|]. rewrite E.
  destruct s; cbn in *. rewrite !Z.sub_0_r, Z.add_0_r, u32_id, Z.max_r by zlia. done.
Qed.

Lemma sent_sent_upto len s h : 0 <= len <= application_buflen s ->
  len <= sendWindow s ∨ sendWindow s = 0 -> sendable s -> sane (sent len s h) ->
  sent_upto len s (sent len s h).
Proof.
  intros Hl Hw [Hw' Hb Hn _] K. split; [done|]. unfold sent.
  assert (Ew : (if sendWindow s =? 0 then 0 else u16 (sendWindow s - u16 len))
    = Z.max 0 (sendWindow s - len)).
  { destruct (Z.eqb_spec (sendWindow s) 0); [lia|].
    rewrite (u16_id len), (u16_id (_ - len)) by zlia. lia. }
  rewrite Ew, (u32_id (_ - len)) by zlia. by destruct s.
Qed.

Lemma sent_upto_sendable k s s' : sent_upto k s s' -> 0 <= k <= application_buflen s ->
  sendable s -> sendable s'.
Proof.
  intros [_ E] Hk [Hw Hb Hn Hm]. rewrite E. split; destruct s; cbn in *; auto with width; zlia.
Qed.

Lemma sent_upto_trans j k s1 s2 s3 : 0 <= j -> 0 <= k -> sent_upto j s1 s2 -> sent_upto k s2 s3 ->
  sent_upto (j + k) s1 s3.
Proof.
  intros Hj Hk [_ E1] [K E2]. split; [done|]. rewrite E2, E1.
  replace (u32 (seqnum_next s1 + (j + k))) with (u32 (u32 (seqnum_next s1 + j) + k))
    by (rewrite u32_add_l; f_equal; lia).
  replace (application_buflen s1 - (j + k)) with (application_buflen s1 - j - k) by lia.
  replace (Z.max 0 (sendWindow s1 - (j + k))) with (Z.max 0 (Z.max 0 (sendWindow s1 - j) - k)) by lia.
  rewrite Z2Nat.inj_add, <- drop_drop by lia. by destruct s1.
Qed.

Lemma min_spec a b c : min a b c = Z.min a (Z.min b c).
Proof. unfold min. zcases; lia. Qed.

Lemma send_loop_ok fuel (st : St) :
  sane st.1 -> state st.1 ≠ CLOSED -> sendable st.1 -> (Z.to_nat (application_buflen st.1) < fuel)%nat ->
  wp (send_loop e MAX fuel) (λ _ st', exists k, 0 <= k <= application_buflen st.1
    ∧ k <= sendWindow st.1 ∧ sent_upto k st.1 st'.1) st.
Proof.
  revert st. induction fuel as [|n IH]; intros st Hs Hst Hd Hf; [lia|]. cbn [send_loop].
  assert (H0 : forall st' : St, keeps st.1 st'.1 -> exists k, 0 <= k <= application_buflen st.1
    ∧ k <= sendWindow st.1 ∧ sent_upto k st.1 st'.1).
  { intros st' K. exists 0. pose proof (sd_window _ Hd). pose proof (sd_buflen _ Hd).
    split; [zlia|]. split; [zlia|]. by apply keeps_sent_upto. }
  wp_steps; [|by apply H0, keeps_refl]. apply andb_true_iff in Heqb as [Hb%Z.ltb_lt Hw%Z.ltb_lt].
  unfold sendNextSegment. wp_steps. unfold getSendWindow in *. rewrite min_spec.
  set (len := Z.min _ _). pose proof (sd_mss _ Hd).
  apply sendSegment_ok; [done..| |].
  - intros st' K. cbn. wp_steps. by apply H0.
  - intros b0 b s1 h p r rs w _ _ _ _ _ _ _ _ Hs'. cbn [Bool.eqb].
    assert (U : sent_upto len st.1 (sent len st.1 h)) by (apply sent_sent_upto; [lia|lia|done|done]).
    eapply wp_mono; [apply IH|].
    + done.
    + by destruct (st.1).
    + eapply sent_upto_sendable; [exact U|lia|done].
    + destruct U as [_ ->]. cbn. destruct (st.1). cbn in *. lia.
    + intros _ st' (k & Hk1 & Hk2 & U'). cbn [fst] in Hk1, Hk2, U'.
      assert (E : application_buflen (sent len st.1 h) = application_buflen st.1 - len
        ∧ sendWindow (sent len st.1 h) = sendWindow st.1 - len).
      { destruct U as [_ ->]. destruct (st.1). cbn in *. lia. }
      destruct E as [E1 E2]. rewrite E1 in Hk1. rewrite E2 in Hk2. exists (len + k).
      split; [lia|]. split; [lia|]. eapply sent_upto_trans; [lia|lia|exact U|exact U'].
Qed.

Lemma processSendData_ok (st : St) :
  sane st.1 -> state st.1 ≠ CLOSED -> sendable st.1 ->
  wp (processSendData e MAX) (λ _ st', exists k, 0 <= k <= application_buflen st.1
    ∧ k <= Z.max 1 (sendWindow st.1) ∧ sent_upto k st.1 st'.1) st.
Proof.
  intros Hs Hst Hd. pose proof (sd_buflen _ Hd) as Hb. pose proof (sd_window _ Hd) as Hw.
  assert (H0 : forall st' : St, keeps st.1 st'.1 -> exists k, 0 <= k <= application_buflen st.1
    ∧ k <= Z.max 1 (sendWindow st.1) ∧ sent_upto k st.1 st'.1).
  { intros st' K. exists 0. split; [zlia|]. split; [lia|]. by apply keeps_sent_upto. }
  unfold processSendData. wp_steps.
  - by apply H0, keeps_refl.
  - apply Z.eqb_neq in Heqb. apply Z.eqb_eq in Heqb0. apply wp_when; intros _; [|by apply H0, keeps_refl].
    apply wp_bind, sendSegment_ok; [done..| |].
    + intros st' K. wp_steps. by apply H0.
    + intros b0 b s1 h p r rs w _ _ _ _ _ _ _ _ Hs'. wp_steps. exists 1. split; [zlia|].
      split; [lia|]. apply sent_sent_upto; [zlia|by right|done|done].
  - eapply wp_mono; [apply send_loop_ok; [done..|lia]|]. cbn. intros _ st' (k & ? & ? & ?).
    exists k. split; [done|]. split; [lia|done].
Qed.

(** ** The connection's invariant *)

(** The peer's stream, and the position of the byte that comes first in
    [application_dst]. *)
Context (S : Z -> Z) (base : Z).

Definition read_pos (s : sock) : Z := base + Z.of_nat (length (application_dst s)).

(** The application was given the stream from [base] on and the receive buffer
    holds what follows. *)
Definition synced (s : sock) : Prop :=
  application_dst s = slice S base (Z.of_nat (length (application_dst s)))
  ∧ exists n, rb_holds (receiveBuffer s) S (read_pos s) n.

(** Nothing was received yet. *)
Definition fresh (s : sock) : Prop :=
  application_dst s = []
  ∧ (receiveBuffer s = rb_init ∨ exists x, receiveBuffer s = rb_setFirstSeqNum x rb_init).

Definition receives (s : sock) : Prop :=
  match state s with
  | CLOSED => True
  | LISTEN | SYNSENT => fresh s
  | _ => synced s
  end.

Record inv (s : sock) : Prop := {
  inv_sane : sane s;
  inv_sendable : sendable s;
  inv_receives : receives s }.

(** The connection's invariant is kept, in the same state, and no data was
    given to the application. *)
Definition stays (s s' : sock) : Prop :=
  inv s' ∧ state s' = state s ∧ application_dst s' = application_dst s.

Lemma stays_refl s : inv s -> stays s s.
Proof. done. Qed.

Lemma stays_trans s1 s2 s3 : stays s1 s2 -> stays s2 s3 -> stays s1 s3.
Proof. intros (_ & E1 & D1) (I & E2 & D2). split; [done|]. by rewrite E2, D2. Qed.

Lemma synced_ext s s' : receiveBuffer s' = receiveBuffer s ->
  application_dst s' = application_dst s -> synced s -> synced s'.
Proof. unfold synced, read_pos. by intros -> ->. Qed.

(** Changes that the receive side does not see. *)
Lemma stays_same s s' : inv s -> sane s' -> sendable s' -> state s' = state s ->
  receiveBuffer s' = receiveBuffer s -> application_dst s' = application_dst s -> stays s s'.
Proof.
  intros [_ _ Hr] K Hd Es Er Ed. split; [|done]. split; [done|done|].
  revert Hr. unfold receives, fresh, synced, read_pos. by rewrite Es, Er, Ed.
Qed.

Lemma keeps_stays s s' : inv s -> keeps s s' -> stays s s'.
Proof.
  intros Hi [E K]. apply stays_same; [done|done| |rewrite E; by destruct s..].
  destruct (inv_sendable _ Hi) as [? ? ? ?]. rewrite E. by split; destruct s.
Qed.

Lemma keeps_but_ack_stays s s' : inv s -> keeps_but_ack s s' -> stays s s'.
Proof.
  intros Hi [E K]. apply stays_same; [done|done| |rewrite E; by destruct s..].
  destruct (inv_sendable _ Hi) as [? ? ? ?]. rewrite E. by split; destruct s.
Qed.

Lemma sent_upto_stays k s s' : inv s -> 0 <= k <= application_buflen s -> sent_upto k s s' -> stays s s'.
Proof.
  intros Hi Hk U. pose proof U as [K E].
  apply stays_same; [done|done|eapply sent_upto_sendable; [done|done|by destruct Hi]|..];
    rewrite E; by destruct s.
Qed.

Lemma aborted_inv s s' : inv s -> aborted s s' -> inv s' ∧ state s' = CLOSED.
Proof.
  intros [_ [] _] (E & K & _). split; [|rewrite E; by destruct s]. split; [done| |].
  - rewrite E. by split; destruct s.
  - rewrite E. by destruct s.
Qed.

Lemma aborted_dst s s' : aborted s s' -> application_dst s' = application_dst s.
Proof. intros [-> _]. by destruct s. Qed.

(** A program that keeps the connection where it is. *)
Definition steady {A} (m : M A) : Prop :=
  forall st, inv st.1 -> state st.1 ≠ CLOSED -> wp m (λ _ st', stays st.1 st'.1) st.

(** Run a steady program first. *)
Lemma wp_steady {A B} (m : M A) (k : A -> M B) (Q : B -> St -> Prop) st :
  steady m -> inv st.1 -> state st.1 ≠ CLOSED ->
  (forall a st', stays st.1 st'.1 -> inv st'.1 -> state st'.1 ≠ CLOSED -> wp (k a) Q st') ->
  wp (m ≫= k) Q st.
Proof.
  intros Hm Hi Hst Hk. eapply wp_seq; [by apply Hm|]. cbn. intros a st' Hs.
  apply Hk; [done|apply Hs|]. destruct Hs as (_ & -> & _). done.
Qed.

Lemma steady_bind {A B} (m : M A) (k : A -> M B) : steady m -> (forall a, steady (k a)) -> steady (m ≫= k).
Proof.
  intros Hm Hk st Hi Hst. apply wp_steady; [done..|]. intros a st' Hs Hi' Hst'.
  eapply wp_mono; [by apply Hk|]. cbn. intros b st'' Hs'. by eapply stays_trans.
Qed.

Lemma steady_ret {A} (a : A) : steady (mret a).
Proof. done. Qed.
Lemma steady_gets {A} (f : sock -> A) : steady (gets f).
Proof. done. Qed.
Lemma steady_getsW {A} (f : W -> A) : steady (getsW f).
Proof. done. Qed.
Lemma steady_modifyW f : steady (modifyW f).
Proof. done. Qed.
Lemma steady_runW {A} (f : W -> A * W) : steady (runW f).
Proof. intros st Hi _. by apply wp_runW. Qed.
Lemma steady_when b m : steady m -> steady (when b m).
Proof. intros Hm. destruct b; [done|apply steady_ret]. Qed.
Lemma steady_if {A} (b : bool) (m1 m2 : M A) : steady m1 -> steady m2 -> steady (if b then m1 else m2).
Proof. by destruct b. Qed.
Lemma steady_modify f :
  (forall s, inv s -> state s ≠ CLOSED -> stays s (f s)) -> steady (modify f).
Proof. intros Hf st Hi Hst. by apply Hf. Qed.
Lemma steady_sendACK_num a : steady (sendACK_num e MAX a).
Proof.
  intros st Hi Hst. eapply wp_mono; [by apply sendACK_num_ok; [apply Hi|]|].
  cbn. intros _ st'. by apply keeps_stays.
Qed.
Lemma steady_sendACK : steady (sendACK e MAX).
Proof.
  intros st Hi Hst. eapply wp_mono; [by apply sendACK_ok; [apply Hi|]|].
  cbn. intros _ st'. by apply keeps_but_ack_stays.
Qed.
Lemma steady_processACK : steady (processACK e MAX).
Proof.
  intros st Hi Hst. eapply wp_mono; [by apply processACK_ok; [apply Hi|]|].
  cbn. intros _ st'. by apply keeps_but_ack_stays.
Qed.
Lemma steady_processSendData : steady (processSendData e MAX).
Proof.
  intros st Hi Hst. eapply wp_mono; [by apply processSendData_ok; [apply Hi|done|apply Hi]|].
  cbn. intros _ st' (k & ? & _ & ?). by eapply sent_upto_stays.
Qed.
Lemma steady_block t : steady (block t).
Proof. apply steady_runW. Qed.
Lemma steady_clearHistory : steady clearHistory.
Proof.
  intros st Hi Hst. eapply wp_mono; [by apply clearHistory_ok, Hi|].
  cbn. intros _ st' [K _]. by apply keeps_stays.
Qed.

(** *** What a segment must be like *)

(** Its payload, if any, is a piece of the peer's stream near the read
    position. *)
Definition carries_stream (s : sock) (seg : bytes) (len : Z) : Prop :=
  0 < payload_length e seg len ->
  exists q, TCP_Segment.get_seqnum e seg = u32 q
    ∧ read_pos s - window <= q ∧ q + payload_length e seg len <= read_pos s + window
    ∧ carries e S seg q (payload_length e seg len).

(** The sequence number is that of the SYN in front of the stream. *)
Definition opens_stream (seg : bytes) : Prop := u32 (TCP_Segment.get_seqnum e seg + 1) = u32 base.

Definition expected (s : sock) (seg : bytes) (len : Z) : Prop :=
  is_bytes seg ∧
  match state s with
  | LISTEN => opens_stream seg
  | SYNSENT => TCP_Segment.has_SYN e seg = true -> opens_stream seg
  | ESTABLISHED | FINWAIT1 | FINWAIT2 => carries_stream s seg len
  | _ => True
  end.

(** *** Where a state may lead *)

(** From one state to another, [pk] being the packet that was there to be processed:
    what must have come, and what holds afterwards.  CLOSED is reached by a reset, or without a packet when
    LASTACK and TIMEWAIT are over or the connection is given up. *)
Definition ends (pk : option (Z * bytes)) : Prop :=
  pk = None ∨ exists ptr seg, pk = Some (ptr, seg) ∧ TCP_Segment.has_RST e seg = true.
Definition next_ok (pk : option (Z * bytes)) (from : tcp_state) (s' : sock) : Prop :=
  let all_received := FIN_received s' = true ∧ rb_getAckNum (receiveBuffer s') = FIN_seqnum s' in
  let came (P : bytes -> Prop) := exists ptr seg, pk = Some (ptr, seg) ∧ P seg in
  let acks_all seg := TCP_Segment.has_ACK e seg = true ∧ TCP_Segment.get_acknum e seg = seqnum_next s' in
  state s' = from ∨
  match from, state s' with
  | _, CLOSED => records s' = [] ∧ ends pk
  | FINWAIT1, FINWAIT2 | CLOSING, TIMEWAIT => records s' = [] ∧ pk = None
  | SYNRCVD, ESTABLISHED => records s' = [] ∧ came acks_all
  | LISTEN, SYNRCVD => came (λ seg, TCP_Segment.has_RST e seg = false)
  | SYNSENT, SYNRCVD => came (λ seg, TCP_Segment.has_SYN e seg = true ∧ TCP_Segment.has_ACK e seg = false)
  | SYNSENT, ESTABLISHED => seqnum_unacked s' = seqnum_next s'
      ∧ came (λ seg, TCP_Segment.has_SYN e seg = true ∧ TCP_Segment.has_ACK e seg = true)
  | FINWAIT1, TIMEWAIT => all_received ∧ came acks_all
  | ESTABLISHED, CLOSEWAIT | FINWAIT1, CLOSING | FINWAIT2, TIMEWAIT => all_received ∧ came (λ _, True)
  | _, _ => False
  end.

(** What a handler guarantees. *)
Definition handled (pk : option (Z * bytes)) (s s' : sock) : Prop :=
  inv s' ∧ next_ok pk (state s) s' ∧ exists d, application_dst s' = application_dst s ++ d.

Lemma stays_handled {pk} s s' : stays s s' -> handled pk s s'.
Proof.
  intros (Hi & Es & Ed). split; [done|]. split; [by left|]. exists []. by rewrite app_nil_r.
Qed.

Lemma handled_trans {pk} s s1 s' : stays s s1 -> handled pk s1 s' -> handled pk s s'.
Proof. intros (_ & E & Ed) (Hi & Hn & d & Ed'). rewrite E in Hn. split; [done|]. split; [done|].
  exists d. by rewrite Ed', Ed. Qed.

Lemma aborted_handled {pk} s s' : ends pk -> inv s -> aborted s s' -> handled pk s s'.
Proof.
  intros He Hi A. destruct (aborted_inv _ _ Hi A) as [Hi' Es]. split; [done|]. split.
  - right. rewrite Es. destruct A as (_ & _ & Er). by destruct (state s).
  - exists []. by rewrite app_nil_r, (aborted_dst _ _ A).
Qed.

Lemma wp_handled {A} {pk} (m : M A) (k : A -> M unit) (st : St) :
  steady m -> inv st.1 -> state st.1 ≠ CLOSED ->
  (forall a st', stays st.1 st'.1 -> inv st'.1 -> state st'.1 ≠ CLOSED ->
     wp (k a) (λ _ st'', handled pk st'.1 st''.1) st') ->
  wp (m ≫= k) (λ _ st', handled pk st.1 st'.1) st.
Proof.
  intros Hm Hi Hst Hk. apply wp_steady; [done..|]. intros a st' Hs Hi' Hst'.
  eapply wp_mono; [by apply Hk|]. cbn. intros [] st''. by apply handled_trans.
Qed.

Lemma steady_handled {pk} (m : M unit) (st : St) : steady m -> inv st.1 -> state st.1 ≠ CLOSED ->
  wp m (λ _ st', handled pk st.1 st'.1) st.
Proof.
  intros Hm Hi Hst. eapply wp_mono; [by apply Hm|]. cbn. intros _ st'. apply stays_handled.
Qed.

(** *** More steady programs *)

Lemma get_window_range seg : is_bytes seg -> is_u16 (TCP_Segment.get_window e seg).
Proof. apply (getf_range e TCP_Segment.f_window). Qed.

Lemma steady_handleACK a : steady (modify (handleACK a)).
Proof.
  apply steady_modify. intros s Hi _. unfold handleACK. destruct (_ : bool); [done|].
  destruct (_ : bool); [done|]. unfold set_seqnum_unacked.
  apply stays_same; [done|..]; destruct Hi as [? [] ?]; by destruct s.
Qed.

Lemma steady_updateSendWindow seg seq a : is_bytes seg -> steady (modify (updateSendWindow e seg seq a)).
Proof.
  intros Hb%get_window_range. apply steady_modify. intros s Hi _. unfold updateSendWindow.
  destruct (_ : bool); [done|]. destruct (_ : bool); [done|].
  apply stays_same; [done|..]; destruct Hi as [? [] ?]; by destruct s.
Qed.

Lemma steady_handleFIN seg seq len : steady (modify (handleFIN e seg seq len)).
Proof.
  apply steady_modify. intros s Hi _. unfold handleFIN. destruct (_ : bool); [|done].
  apply stays_same; [done|..]; destruct Hi as [? [] ?]; by destruct s.
Qed.

Lemma steady_triggerACK : steady (modify triggerACK).
Proof.
  apply steady_modify. intros s Hi _.
  apply stays_same; [done|..]; destruct Hi as [? [] ?]; by destruct s.
Qed.

Lemma steady_free ptr : steady (freeReceivedSegment ptr).
Proof. apply steady_modifyW. Qed.

Lemma steady_block_history : steady block_history.
Proof.
  unfold block_history, history_nextTimeout. apply steady_bind.
  - apply steady_bind; [apply steady_gets|]. intros h. apply steady_bind; [apply steady_getsW|].
    intros w. apply steady_ret.
  - intros t. apply steady_bind; [apply steady_block|]. intros. apply steady_ret.
Qed.

Lemma steady_retransmit_FIN_ACK seg : steady (retransmit_FIN_ACK e MAX seg).
Proof.
  apply steady_when, steady_bind; [apply steady_gets|]. intros fin.
  apply steady_bind; [apply steady_sendACK_num|]. intros. apply steady_ret.
Qed.

Lemma steady_free_all ptrs : steady (free_all ptrs).
Proof.
  induction ptrs as [|p ptrs IH]; [apply steady_ret|]. apply steady_bind; [apply steady_free|done].
Qed.

Lemma receives_synced s : inv s -> state s ≠ CLOSED -> state s ≠ LISTEN -> state s ≠ SYNSENT -> synced s.
Proof.
  intros Hi ???. pose proof (inv_receives _ Hi) as Hr. unfold receives in Hr. by destruct (state s).
Qed.

Lemma set_state_inv s st : inv s -> (st ≠ CLOSED -> st ≠ LISTEN -> st ≠ SYNSENT -> synced s) ->
  st ≠ LISTEN -> st ≠ SYNSENT -> inv (s <| state := st |>).
Proof.
  intros [[] [] _] Hr ??. split; [by destruct s|by split; destruct s|].
  unfold receives. replace (state (s <| state := st |>)) with st by done.
  destruct st; try done; (apply (synced_ext s); [done|done|by apply Hr]).
Qed.

(** *** Segments *)

(** The states that take data. *)
Definition data_state (st : tcp_state) : Prop :=
  match st with ESTABLISHED | FINWAIT1 | FINWAIT2 => True | _ => False end.

Lemma handleData_ok ptr seg len (st : St) : inv st.1 -> data_state (state st.1) ->
  carries_stream st.1 seg len ->
  wp (handleData e ptr seg (TCP_Segment.get_seqnum e seg) (payload_length e seg len))
    (λ _ st', stays st.1 st'.1) st.
Proof.
  intros Hi Hst Hg. unfold handleData. destruct (Z.ltb_spec 0 (payload_length e seg len)) as [Hl|_];
    [|done]. destruct (Hg Hl) as (q & -> & Hq1 & Hq2 & Hc). wp_steps.
  assert (Hsy : synced st.1) by (apply receives_synced; [done|by destruct (state st.1)..]).
  destruct Hsy as (Hd & n & Hn).
  destruct (rb_insert_ok _ S _ _ ptr seg q _ Hn Hl Hq1 Hq2 Hc) as (r & b' & n' & E & Hn' & _).
  eapply wp_lift; [exact E|]. wp_steps. split; [|by destruct (st.1)].
  destruct Hi as [[] [] _]. split; [by destruct (st.1)|by split; destruct (st.1)|].
  assert (Hs' : synced (triggerACK (st.1 <| receiveBuffer := b' |>)))
    by (split; [exact Hd|by exists n']).
  unfold receives. replace (state _) with (state st.1) by by destruct (st.1).
  by destruct (state st.1).
Qed.

Lemma handleRST_ok ptr seg (st : St) : inv st.1 ->
  wp (handleRST e ptr seg) (λ r st',
    if r then TCP_Segment.has_RST e seg = true ∧ aborted st.1 st'.1 else TCP_Segment.has_RST e seg = false ∧ st' = st) st.
Proof.
  intros Hi. unfold handleRST. destruct (TCP_Segment.has_RST e seg); [|done]. unfold freeReceivedSegment.
  wp_steps. eapply wp_mono; [apply abort_ok; apply Hi|]. cbn. intros _ st' A. by wp_steps.
Qed.

(** What the handlers of a segment have in common. *)
Lemma rst_guard ptr seg (k : M unit) (st : St) : inv st.1 ->
  (TCP_Segment.has_RST e seg = false -> wp k (λ _ st', handled (Some (ptr, seg)) st.1 st'.1) st) ->
  wp (unless (handleRST e ptr seg) k) (λ _ st', handled (Some (ptr, seg)) st.1 st'.1) st.
Proof.
  intros Hi Hk. apply wp_unless. eapply wp_mono; [by apply handleRST_ok|]. cbn. intros [] st'.
  - intros [Hr A]. apply aborted_handled; [|done..]. right. by exists ptr, seg.
  - intros [Hr ->]. by apply Hk.
Qed.

Lemma steady_guard {pk} (m : M bool) (k : M unit) (st : St) : steady m -> inv st.1 -> state st.1 ≠ CLOSED ->
  (forall st', stays st.1 st'.1 -> inv st'.1 -> state st'.1 ≠ CLOSED ->
     wp k (λ _ st'', handled pk st'.1 st''.1) st') ->
  wp (unless m k) (λ _ st', handled pk st.1 st'.1) st.
Proof.
  intros Hm Hi Hst Hk. apply wp_handled; [done..|]. intros [] st' K Hi' Hst'; [|auto].
  cbn. apply stays_handled, stays_refl, Hi'.
Qed.

Lemma steady_handleSYN ptr seg : steady (handleSYN e MAX ptr seg).
Proof.
  unfold handleSYN. apply steady_if; [|apply steady_ret]. apply steady_bind; [apply steady_free|].
  intros _. apply steady_bind; [apply steady_sendACK|]. intros. apply steady_ret.
Qed.

Lemma steady_handleSYN_final ptr seg : steady (handleSYN_final e MAX ptr seg).
Proof.
  unfold handleSYN_final. apply steady_if; [|apply steady_ret]. apply steady_bind; [apply steady_free|].
  intros _. apply steady_bind; [apply steady_gets|]. intros s.
  apply steady_bind; [apply steady_sendACK_num|]. intros. apply steady_ret.
Qed.

(** [updateHistory], after which the connection is where it was or aborted. *)
Lemma update_guard (k : M unit) (st : St) : inv st.1 ->
  (forall st', stays st.1 st'.1 -> wp k (λ _ st'', handled None st'.1 st''.1) st') ->
  (forall st', aborted st.1 st'.1 -> wp k (λ _ st'', handled None st.1 st''.1) st') ->
  wp (updateHistory e MAX true ≫= λ _, k) (λ _ st', handled None st.1 st'.1) st.
Proof.
  intros Hi Hk Ha. eapply wp_seq; [apply updateHistory_ok, Hi|]. cbn. intros _ st' [[K _]|[A _]].
  - eapply keeps_stays in K; [|done]. eapply wp_mono; [by apply Hk|]. cbn. intros _ st''.
    by apply handled_trans.
  - by apply Ha.
Qed.

(** ** The states *)

Lemma fresh_set x s : fresh s -> rb_setFirstSeqNum x (receiveBuffer s) = rb_setFirstSeqNum x rb_init.
Proof. intros [_ [->|[y ->]]]; [done|apply rb_set_set]. Qed.

Lemma opened_synced s : application_dst s = [] ->
  receiveBuffer s = rb_setFirstSeqNum (u32 base) rb_init -> synced s.
Proof.
  intros Ed Er. unfold synced, read_pos. rewrite Ed, Er. split; [done|]. exists 0.
  cbn. rewrite Z.add_0_r. apply rb_init_ok.
Qed.

Lemma closed_handled segment len (st : St) : inv st.1 -> state st.1 = CLOSED ->
  wp (closed segment len) (λ _ st', handled segment st.1 st'.1) st.
Proof.
  intros Hi Hst. unfold closed. apply wp_bind.
  apply (wp_mono _ (λ _ st', st'.1 = st.1)); [by destruct segment as [[]|]|]. cbn.
  intros _ st' E. wp_steps. rewrite E. apply stays_handled, stays_same; [done|..];
    destruct Hi as [[] [] ?]; by destruct (st.1).
Qed.

(** The SYN has gone out, with an acknowledgement of the peer's. *)
Lemma syn_sent pk from s1 s' sn : inv s1 ->
  application_dst s1 = [] -> receiveBuffer s1 = rb_setFirstSeqNum (u32 base) rb_init ->
  (forall s', state s' = SYNRCVD -> next_ok pk from s') -> is_u32 sn ->
  keeps (s1 <| state := SYNRCVD |> <| seqnum_next := sn |>) s' ->
  inv s' ∧ next_ok pk from s' ∧ exists d, application_dst s' = application_dst s1 ++ d.
Proof.
  intros [_ [] _] Ed Er Hf Hsn [E K].
  assert (Es : state s' = SYNRCVD) by (rewrite E; by destruct s1).
  split; [split; [done| |]|split].
  - rewrite E. by split; destruct s1.
  - unfold receives. rewrite Es. apply opened_synced; rewrite E; by destruct s1.
  - by apply Hf.
  - exists []. rewrite E, app_nil_r. by destruct s1.
Qed.

Lemma listen_handled segment len (st : St) : inv st.1 -> state st.1 = LISTEN ->
  (forall ptr seg, segment = Some (ptr, seg) -> expected st.1 seg len) ->
  wp (listen_segment e MAX segment len) (λ _ st', handled segment st.1 st'.1) st.
Proof.
  intros Hi Hst Hg. destruct segment as [[ptr seg]|]; cbn [listen_segment].
  2: { apply steady_handled; [|done|by rewrite Hst]. apply steady_bind; [apply steady_block|done]. }
  apply rst_guard; [done|]. intros Hrst.
  assert (Hsyn : forall s', state s' = SYNRCVD -> next_ok (Some (ptr, seg)) LISTEN s')
    by (intros s' E; right; rewrite E; by exists ptr, seg).
  destruct (Hg ptr seg eq_refl) as [_ Ho]. rewrite Hst in Ho. unfold opens_stream in Ho.
  pose proof (inv_receives _ Hi) as Hr. unfold receives in Hr. rewrite Hst in Hr.
  apply wp_bind, wp_modify. rewrite (fresh_set _ _ Hr), Ho.
  set (s0 := st.1 <| receiveBuffer := _ |>).
  assert (K0 : stays st.1 s0).
  { destruct Hi as [[] [] _], Hr as [Hd _]. split; [|by destruct (st.1)].
    split; [by destruct (st.1)|by split; destruct (st.1)|]. unfold receives.
    change (state s0) with (state st.1). rewrite Hst. split; [by destruct (st.1)|]. right. by exists (u32 base). }
  assert (D0 : application_dst s0 = []) by (destruct Hr as [Hd _]; by destruct (st.1)).
  unfold freeReceivedSegment. wp_steps. apply requestSendBufferTCP_ok; [apply K0|change (state st.1 ≠ CLOSED); by rewrite Hst|..].
  - cbn. intros st' K. wp_steps. apply stays_handled. eapply stays_trans; [exact K0|].
    apply keeps_stays; [apply K0|done].
  - cbn. intros b [s1 w1] K Hf _. cbn in K, Hf. unfold set_state. wp_steps. apply wp_bind.
    apply writeHeaderWithAck_ok. wp_steps. apply send_ok. intros b' w. cbn [fst].
    pose proof (keeps_stays _ _ (proj1 K0) K) as K1.
    assert (E1 : receiveBuffer s1 = rb_setFirstSeqNum (u32 base) rb_init ∧ application_dst s1 = []).
    { destruct K as [E _]. rewrite E. by destruct (st.1). }
    apply history_add_ok; cbn [fst snd]; [by destruct K as [_ K]; destruct s1|done|].
    intros s' p r K' _ _ _. unfold handled. rewrite Hst.
    replace (application_dst st.1) with (application_dst s1)
      by (destruct E1 as [_ ->]; by destruct Hr as [-> _]).
    eapply syn_sent; [apply K1|apply E1|apply E1|apply Hsyn|apply u32_range|exact K'].
Qed.

Lemma handled_free {pk} ptr (m : M unit) (st : St) :
  wp m (λ _ st', handled pk st.1 st'.1) st ->
  wp (m ≫= λ _, freeReceivedSegment ptr) (λ _ st', handled pk st.1 st'.1) st.
Proof. intros Hm. eapply wp_seq; [exact Hm|]. by cbn. Qed.

(** The three-way handshake is over. *)
Lemma opened_inv s1 s' wnd : inv s1 -> state s1 ≠ CLOSED -> synced s1 -> is_u16 wnd ->
  sane s' ->
  s' = s1 <| history := history s' |> <| state := ESTABLISHED |> <| sendWindow := wnd |>
    <| lwseq := lwseq s' |> <| lwack := lwack s' |> <| waiting := waiting s' |>
    <| ACK_triggered := ACK_triggered s' |> -> inv s'.
Proof.
  intros [_ [] _] Hst Hsy Hw K E. split; [done| |].
  - rewrite E. by split; destruct s1.
  - unfold receives. replace (state s') with ESTABLISHED by (rewrite E; by destruct s1).
    eapply synced_ext; [| |exact Hsy]; rewrite E; by destruct s1.
Qed.

Lemma synrcvd_handled segment len (st : St) : inv st.1 -> state st.1 = SYNRCVD ->
  (forall ptr seg, segment = Some (ptr, seg) -> expected st.1 seg len) ->
  wp (synrcvd e MAX segment len) (λ _ st', handled segment st.1 st'.1) st.
Proof.
  intros Hi Hst Hg. destruct segment as [[ptr seg]|]; cbn [synrcvd].
  2: { apply update_guard; [done| |].
    - intros st' K. apply steady_handled; [apply steady_block_history|apply K|].
      rewrite (proj1 (proj2 K)), Hst. done.
    - intros st' A. unfold block_history, history_nextTimeout, block. wp_steps.
      by apply aborted_handled; [left|..]. }
  apply rst_guard; [done|]. intros _. destruct (Hg ptr seg eq_refl) as [Hb _].
  assert (Hnc : state st.1 ≠ CLOSED) by (by rewrite Hst).
  apply handled_free. wp_step.
  - apply wp_handled; [apply steady_handleACK|done|done|]. intros _ st1 K1 Hi1 Hc1. wp_steps.
    apply wp_when; intros Hack; [|by apply stays_handled]. apply Z.eqb_eq in Hack.
    unfold set_state. wp_steps. apply (wp_mono _ (λ _ st', keeps (initSendWindow
      (TCP_Segment.get_window e seg) (TCP_Segment.get_seqnum e seg) (TCP_Segment.get_acknum e seg)
      (st1.1 <| state := ESTABLISHED |>)) st'.1 ∧ records st'.1 = [])).
    { apply clearHistory_ok. cbn. destruct Hi1 as [? _ _]. by destruct (st1.1). }
    cbn. intros _ st2 [[E K] Er]. wp_steps.
    destruct K1 as (_ & Es1 & _). rewrite Hst in Es1.
    set (s' := st2.1 <| waiting := false |>). split; [|split].
    + eapply (opened_inv st1.1 s'); [done|done| |by apply get_window_range|..].
      * apply receives_synced; [done|by rewrite Es1..].
      * unfold s'. by destruct (st2.1).
      * unfold s'. rewrite E. by destruct (st1.1).
    + right. rewrite Es1. replace (state s') with ESTABLISHED; [|unfold s'; rewrite E; by destruct (st1.1)].
      split; [unfold s', records in *; by destruct (st2.1)|]. exists ptr, seg. split; [done|]. split; [done|].
      rewrite Hack. unfold s'. rewrite E. by destruct (st1.1).
    + exists []. rewrite app_nil_r. unfold s'. rewrite E. by destruct (st1.1).
  - apply wp_when; intros _; [|by apply stays_handled, stays_refl]. wp_steps.
    pose proof (inv_sane _ Hi) as Hs. rewrite get_head by done.
    destruct (records st.1) as [|[p r] l] eqn:Er; cbn [fmap list_fmap head fst];
      [by apply stays_handled, stays_refl|].
    assert (Hbuf : has_buffer (p, r)) by (destruct Hs as [_ Hb']; rewrite Er in Hb'; by inversion_clear Hb').
    destruct Hbuf as [b Hbuf]. apply wp_bind. eapply (getSendBuffer_ok p r [] l b); [done|done|done|].
    apply wp_bind, send_ok. intros b' w. wp_steps. apply stays_handled, keeps_stays; [done|].
    eapply (keeps_update _ p _ [] r l); [done|done|]. by eexists.
Qed.

Lemma steady_acknum_incorrect a : steady (acknum_incorrect e MAX a).
Proof.
  intros st Hi Hst. unfold acknum_incorrect. apply wp_bind.
  apply requestSendBufferTCP_ok; [apply Hi|done|..].
  - intros st' K. wp_steps. by apply keeps_stays.
  - intros b [s1 w1] K Hf _. apply wp_bind, writeHeader_ok, wp_bind, send_ok. intros b' w.
    apply history_add_ok; [by eapply keeps_sane|done|]. cbn. intros s' p r K' _ _ _.
    apply keeps_stays; [done|]. by eapply keeps_trans.
Qed.

(** The peer's SYN+ACK was right. *)
Lemma synsent_established ptr seg (st : St) : TCP_Segment.has_SYN e seg = true -> TCP_Segment.has_ACK e seg = true ->
  inv st.1 -> state st.1 = SYNSENT -> is_bytes seg ->
  opens_stream seg -> seqnum_unacked st.1 = seqnum_next st.1 ->
  wp (set_state ESTABLISHED;;
      modify (initSendWindow (TCP_Segment.get_window e seg) (TCP_Segment.get_seqnum e seg)
                (TCP_Segment.get_acknum e seg));;
      modify (λ s, s <| receiveBuffer :=
        rb_setFirstSeqNum (u32 (TCP_Segment.get_seqnum e seg + 1)) (receiveBuffer s) |>);;
      clearHistory;;
      r ← sendACK e MAX; when r (modify (λ s, s <| waiting := false |>)))
    (λ _ st', handled (Some (ptr, seg)) st.1 st'.1) st.
Proof.
  intros Hsyn Hack Hi Hst Hb Ho Hun. unfold set_state, opens_stream in *. wp_steps. rewrite Ho.
  pose proof (inv_receives _ Hi) as Hr. unfold receives in Hr. rewrite Hst in Hr.
  set (s1 := (initSendWindow _ _ _ _) <| receiveBuffer := _ |>).
  assert (E1 : receiveBuffer s1 = rb_setFirstSeqNum (u32 base) rb_init)
    by (unfold s1; rewrite <- (fresh_set _ _ Hr); by destruct (st.1)).
  apply (wp_mono _ (λ _ st', keeps s1 st'.1)).
  { eapply wp_mono; [apply clearHistory_ok; cbn; destruct Hi as [? _ _]; by destruct (st.1)|].
    cbn. by intros _ st' []. }
  cbn. intros _ st2 K2. wp_steps. assert (Es2 : state st2.1 = ESTABLISHED)
    by (rewrite (keeps_state _ _ K2); unfold s1; by destruct (st.1)).
  eapply wp_mono; [apply sendACK_ok; [by eapply keeps_sane|by rewrite Es2]|]. cbn.
  intros r st3 [E3 K3].
  assert (Hend : forall s', sane s' -> s' = st3.1 <| waiting := waiting s' |> -> handled (Some (ptr, seg)) st.1 s').
  { intros s' K E. destruct K2 as [E2 _]. rewrite E3, E2 in E.
    assert (Ed : application_dst s' = []).
    { rewrite E. unfold s1. destruct Hr as [Hd _]. by destruct (st.1). }
    assert (Er : receiveBuffer s' = rb_setFirstSeqNum (u32 base) rb_init)
      by (rewrite E, <- E1; by destruct s1).
    assert (Est : state s' = ESTABLISHED) by (rewrite E; unfold s1; by destruct (st.1)).
    split; [split; [done| |]|split].
    - destruct Hi as [_ [] _]. pose proof (get_window_range seg Hb). rewrite E. unfold s1.
      by split; destruct (st.1).
    - unfold receives. rewrite Est. by apply opened_synced.
    - right. rewrite Hst, Est. split; [rewrite E; unfold s1; by destruct (st.1)|by exists ptr, seg].
    - exists (application_dst s'). by destruct Hr as [-> _]. }
  apply wp_when; intros _; [wp_steps|]; apply Hend; try done; by destruct (st3.1).
Qed.

Lemma synsent_handled segment len (st : St) : inv st.1 -> state st.1 = SYNSENT ->
  (forall ptr seg, segment = Some (ptr, seg) -> expected st.1 seg len) ->
  wp (synsent e MAX segment len) (λ _ st', handled segment st.1 st'.1) st.
Proof.
  intros Hi Hst Hg. assert (Hnc : state st.1 ≠ CLOSED) by (by rewrite Hst).
  destruct segment as [[ptr seg]|]; cbn [synsent].
  2: { apply update_guard; [done| |].
    - intros st' K. apply steady_handled; [apply steady_block_history|apply K|].
      by rewrite (proj1 (proj2 K)), Hst.
    - intros st' A. unfold block_history, history_nextTimeout, block. wp_steps.
      by apply aborted_handled; [left|..]. }
  destruct (Hg ptr seg eq_refl) as [Hb Ho]. rewrite Hst in Ho.
  apply wp_handled; [apply steady_free|done|done|]. intros _ st1 (_ & Es1 & _) Hi1 Hc1. rewrite Hst in Es1.
  destruct (TCP_Segment.has_ACK e seg) eqn:Eack.
  - destruct (TCP_Segment.has_SYN e seg) eqn:Esyn.
    + apply wp_handled; [apply steady_handleACK|done|done|]. intros _ st2 (_ & Es2 & _) Hi2 Hc2.
      apply wp_bind, wp_gets. cbn [id]. destruct (Z.eqb_spec (seqnum_unacked st2.1) (seqnum_next st2.1)).
      * apply synsent_established; [done|done|done|by rewrite Es2|done|by apply Ho|done].
      * by apply steady_handled; [apply steady_acknum_incorrect|..].
    + destruct (TCP_Segment.has_RST e seg) eqn:Erst.
      * wp_steps. apply wp_when; intros _; [|by apply stays_handled, stays_refl].
        eapply wp_mono; [apply abort_ok, Hi1|]. cbn. intros _ st'. apply aborted_handled; [right; by exists ptr, seg|done].
      * by apply steady_handled; [apply steady_acknum_incorrect|..].
  - apply wp_when; intros Esyn; [|by apply stays_handled, stays_refl].
    apply wp_handled; [apply steady_clearHistory|done|done|]. intros _ st2 (_ & Es2 & _) Hi2 Hc2.
    rewrite Es1 in Es2. pose proof (inv_receives _ Hi2) as Hr. unfold receives in Hr. rewrite Es2 in Hr.
    apply wp_bind, wp_modify. rewrite (fresh_set _ _ Hr), (Ho Esyn).
    set (s0 := st2.1 <| receiveBuffer := _ |>).
    assert (K0 : stays st2.1 s0).
    { destruct Hi2 as [[] [] _], Hr as [Hd _]. split; [|by destruct (st2.1)].
      split; [by destruct (st2.1)|by split; destruct (st2.1)|]. unfold receives.
      change (state s0) with (state st2.1). rewrite Es2. split; [by destruct (st2.1)|].
      right. by exists (u32 base). }
    assert (D0 : application_dst s0 = []) by (destruct Hr as [Hd _]; by destruct (st2.1)).
    apply wp_bind, requestSendBufferTCP_ok; [apply K0|change (state st2.1 ≠ CLOSED); done|..].
    + cbn. intros st' K. wp_steps. apply stays_handled. eapply stays_trans; [exact K0|].
      apply keeps_stays; [apply K0|done].
    + cbn. intros b [s1 w1] K Hf _. cbn in K, Hf. unfold set_state. wp_steps. apply wp_bind.
      apply writeHeaderWithAck_ok. wp_steps. apply send_ok. intros b' w. cbn [fst].
      pose proof (keeps_stays _ _ (proj1 K0) K) as K1.
      assert (E1 : receiveBuffer s1 = rb_setFirstSeqNum (u32 base) rb_init ∧ application_dst s1 = []).
      { destruct K as [E _]. rewrite E. by destruct (st2.1). }
      apply history_add_ok; cbn [fst snd]; [by destruct K as [_ K]; destruct s1|done|].
      intros s' p r K' _ _ _. unfold handled. rewrite Es2.
      replace (application_dst st2.1) with (application_dst s1)
        by (destruct E1 as [_ ->]; by destruct Hr as [-> _]).
      eapply (syn_sent _ _ _ _ (seqnum_next s1)); [apply K1|apply E1|apply E1|intros ? E; right; rewrite E; by exists ptr, seg|apply (inv_sendable _ (proj1 K1))|].
      destruct K' as [E' K']. split; [|done]. rewrite E'. by destruct s1.
Qed.

(** *** Data and FIN *)

(** Run a program first that keeps the state and may give data to the application. *)
Definition moves (s s' : sock) : Prop :=
  inv s' ∧ state s' = state s ∧ exists d, application_dst s' = application_dst s ++ d.

Lemma stays_moves s s' : stays s s' -> moves s s'.
Proof. intros (? & ? & E). split; [done|]. split; [done|]. exists []. by rewrite app_nil_r. Qed.

Lemma moves_handled {pk} s s1 s' : moves s s1 -> handled pk s1 s' -> handled pk s s'.
Proof.
  intros (_ & E & d & D) (Hi & Hn & d' & D'). rewrite E in Hn. split; [done|]. split; [done|].
  exists (d ++ d'). by rewrite D', D, app_assoc.
Qed.

Lemma wp_moves {A} {pk} (m : M A) (k : A -> M unit) (st : St) :
  wp m (λ _ st', moves st.1 st'.1) st ->
  (forall a st', moves st.1 st'.1 -> wp (k a) (λ _ st'', handled pk st'.1 st''.1) st') ->
  wp (m ≫= k) (λ _ st', handled pk st.1 st'.1) st.
Proof.
  intros Hm Hk. eapply wp_seq; [exact Hm|]. cbn. intros a st' K. eapply wp_mono; [by apply Hk|].
  cbn. intros [] st''. by apply moves_handled.
Qed.

Lemma carries_stream_stays s s' seg len : stays s s' -> carries_stream s seg len -> carries_stream s' seg len.
Proof. intros (_ & _ & E). unfold carries_stream, read_pos. by rewrite E. Qed.

(** The transitions on the peer's FIN. *)
Definition fin_step (from to : tcp_state) : Prop :=
  match from, to with
  | ESTABLISHED, CLOSEWAIT | FINWAIT1, CLOSING | FINWAIT1, TIMEWAIT | FINWAIT2, TIMEWAIT => True
  | _, _ => False
  end.

Lemma fin_handled ptr seg s s1 to : inv s -> keeps s s1 -> FIN_received s = true ->
  rb_getAckNum (receiveBuffer s) = FIN_seqnum s -> fin_step (state s) to ->
  (to = TIMEWAIT -> state s = FINWAIT1 -> TCP_Segment.has_ACK e seg = true ∧ TCP_Segment.get_acknum e seg = seqnum_next s) ->
  handled (Some (ptr, seg)) s (s1 <| state := to |>).
Proof.
  intros Hi K Hf Ha Hto Hack. pose proof (keeps_stays _ _ Hi K) as (Hi1 & Es & Ed). split; [|split].
  - apply set_state_inv; [done| |by destruct (state s), to|by destruct (state s), to].
    intros _ _ _. apply receives_synced; [done|rewrite Es; by destruct (state s)..].
  - destruct K as [E _]. assert (H1 : FIN_received s1 = true) by (rewrite E; by destruct s).
    assert (H2 : rb_getAckNum (receiveBuffer s1) = FIN_seqnum s1) by (rewrite E; by destruct s).
    assert (H3 : seqnum_next s1 = seqnum_next s) by (rewrite E; by destruct s).
    right. replace (state (s1 <| state := to |>)) with to by done. clear -Hack Hto H1 H2 H3. destruct (state s), to; try done;
      (split; [done|]; exists ptr, seg; split; [done|]; try done).
    change (seqnum_next (s1 <| state := ?x |>)) with (seqnum_next s1). rewrite H3. by apply Hack.
  - exists []. by rewrite app_nil_r, <- Ed.
Qed.

Lemma handled_trigger {pk} s s' : handled pk s s' -> handled pk s (triggerACK s').
Proof.
  intros ([[] [] Hr] & Hn & Hd). split; [|split].
  - split; [by destruct s'|by split; destruct s'|by destruct s'].
  - by destruct s'.
  - by destruct s'.
Qed.

(** Flags, data and the segment freed if nothing keeps it: the prefix that the
    three data states share. *)
Lemma data_prefix {pk} ptr seg len (k : bool -> M unit) (fin : M unit) (st : St) :
  steady fin -> inv st.1 -> data_state (state st.1) -> carries_stream st.1 seg len ->
  (forall free st', stays st.1 st'.1 -> wp (k free) (λ _ st'', handled pk st'.1 st''.1) st') ->
  wp (fin;; modify (handleFIN e seg (TCP_Segment.get_seqnum e seg) (payload_length e seg len));;
      needToFree ← handleData e ptr seg (TCP_Segment.get_seqnum e seg) (payload_length e seg len);
      k needToFree) (λ _ st', handled pk st.1 st'.1) st.
Proof.
  intros Hfin Hi Hst Hg Hk. assert (Hc : state st.1 ≠ CLOSED) by by destruct (state st.1).
  apply wp_steady; [done..|]. intros _ st1 K1 Hi1 Hc1.
  apply wp_steady; [apply steady_handleFIN|done|done|]. intros _ st2 K2 Hi2 Hc2.
  assert (K : stays st.1 st2.1) by by eapply stays_trans.
  eapply wp_seq; [apply handleData_ok; [done| |by eapply carries_stream_stays]|].
  { by rewrite (proj1 (proj2 K)). }
  cbn. intros free st3 K3. assert (K' : stays st.1 st3.1) by by eapply stays_trans.
  eapply wp_mono; [by apply Hk|]. cbn. intros [] st'. by apply handled_trans.
Qed.

Context {RN : ReadsNothing e R}.

Lemma free_all_ok ptrs (st : St) (Q : unit -> St -> Prop) :
  (forall w, Q () (st.1, w)) -> wp (free_all ptrs) Q st.
Proof.
  revert st. induction ptrs as [|p ptrs IH]; intros [s w] HQ; cbn [free_all]; [apply HQ|].
  unfold freeReceivedSegment. wp_steps. by apply IH.
Qed.

Lemma copyData_ok len (st : St) : inv st.1 -> synced st.1 -> state st.1 ≠ LISTEN -> state st.1 ≠ SYNSENT ->
  0 <= len <= rb_getRecvBytes (receiveBuffer st.1) ->
  wp (copyData e len) (λ _ st', moves st.1 st'.1) st.
Proof.
  intros Hi (Hd & n & Hn) Hl1 Hl2 Hlen. destruct (rb_ack_ok _ _ _ _ Hn) as (En & _ & Hn0).
  rewrite En in Hlen.
  assert (exists d freed b', rb_copyData len (receiveBuffer st.1) = Some (d, freed, b')
    ∧ d = slice S (read_pos st.1) len ∧ rb_holds b' S (read_pos st.1 + len) (n - len))
    as (d & freed & b' & E & Ed & Hn').
  { destruct (Z.eq_dec len 0) as [->|].
    - destruct (rb_copy_nothing _ _ _ _ Hn) as (b' & E & Hn'). exists [], [], b'. split; [done|].
      rewrite Z.add_0_r, Z.sub_0_r. done.
    - destruct (rb_copy_ok _ _ _ _ len Hn ltac:(lia)) as (freed & b' & E & Hn'). by eexists _, freed, b'. }
  unfold copyData. wp_steps. eapply wp_lift; [exact E|]. wp_steps.
  assert (Hsy : forall s', receiveBuffer s' = b' -> application_dst s' = application_dst st.1 ++ d -> synced s').
  { intros s' Er' Ed'. assert (Hlen' : Z.of_nat (length (application_dst s'))
      = Z.of_nat (length (application_dst st.1)) + len) by (rewrite Ed', length_app, Ed, length_slice; lia).
    unfold synced, read_pos. rewrite Hlen', Er'. split.
    - rewrite slice_app by lia. rewrite Ed', Ed, <- Hd. done.
    - exists (n - len). by rewrite Z.add_assoc. }
  apply free_all_ok. intros w. cbn [fst].
  split; [|split; [by destruct (st.1)|by exists d; destruct (st.1)]].
  destruct Hi as [[] [] _]. split; [by destruct (st.1)|by split; destruct (st.1)|].
  assert (Hs' : synced (st.1 <| receiveBuffer := b' |> <| application_dst := application_dst st.1 ++ d |>))
    by (by apply Hsy; destruct (st.1)).
  unfold receives. replace (state _) with (state st.1) by by destruct (st.1).
  by destruct (state st.1).
Qed.

Lemma stays_fields s s' : inv s -> state s' = state s -> receiveBuffer s' = receiveBuffer s ->
  application_dst s' = application_dst s -> history s' = history s -> sendWindow s' = sendWindow s ->
  seqnum_next s' = seqnum_next s -> mss s' = mss s -> is_u32 (application_buflen s') -> stays s s'.
Proof.
  intros Hi Es Er Ed Eh Ew En Em Hl. destruct (Hi) as [[Hh Hb] [] _].
  apply stays_same; try done.
  - split; unfold records; by rewrite Eh.
  - split; by rewrite ?Ew, ?En, ?Em.
Qed.

Lemma steady_app_recv_len x : steady (modify (λ s, s <| application_recv_len := x s |>)).
Proof. apply steady_modify. intros s Hi _. by apply stays_fields; [|..|apply (sd_buflen _ (inv_sendable _ Hi))]. Qed.
Lemma steady_app_buflen x : (forall s, is_u32 (x s)) -> steady (modify (λ s, s <| application_buflen := x s |>)).
Proof. intros Hx. apply steady_modify. intros s Hi _. by apply stays_fields; [|..|apply Hx]. Qed.
Lemma steady_waiting b : steady (modify (λ s, s <| waiting := b |>)).
Proof. apply steady_modify. intros s Hi _. by apply stays_fields; [|..|apply (sd_buflen _ (inv_sendable _ Hi))]. Qed.
Lemma steady_waiting_receiving b c : steady (modify (λ s, s <| waiting := b |> <| receiving := c |>)).
Proof. apply steady_modify. intros s Hi _. by apply stays_fields; [|..|apply (sd_buflen _ (inv_sendable _ Hi))]. Qed.

(** After sending, either there is nothing left to do or the task waits. *)
Lemma send_or_block {pk} (st : St) : inv st.1 -> state st.1 ≠ CLOSED ->
  wp (s ← gets id;
      if (application_buflen s =? 0) && history_isEmpty s then modify (λ s, s <| waiting := false |>)
      else block_history) (λ _ st', handled pk st.1 st'.1) st.
Proof.
  intros Hi Hc. wp_step. wp_step. cbn [id]. wp_step.
  - by apply steady_handled; [apply steady_waiting|..].
  - by apply steady_handled; [apply steady_block_history|..].
Qed.

(** [updateHistory] in a state that does nothing more when it was aborted. *)
Lemma aborted_idle s s' : aborted s s' -> receiving s' = false ∧ waiting s' = false.
Proof. intros [-> _]. by destruct s. Qed.

Lemma established_handled segment len (st : St) : inv st.1 -> state st.1 = ESTABLISHED ->
  (forall ptr seg, segment = Some (ptr, seg) -> expected st.1 seg len) ->
  wp (established e MAX segment len) (λ _ st', handled segment st.1 st'.1) st.
Proof.
  intros Hi Hst Hg. assert (Hc : state st.1 ≠ CLOSED) by (by rewrite Hst).
  destruct segment as [[ptr seg]|]; cbn [established].
  - destruct (Hg ptr seg eq_refl) as [Hb Hcar]. rewrite Hst in Hcar. apply rst_guard; [done|]. intros _.
    apply steady_guard; [apply steady_handleSYN|done|done|]. intros st1 K1 Hi1 Hc1.
    assert (Es1 : state st1.1 = ESTABLISHED) by (by rewrite (proj1 (proj2 K1))).
    apply data_prefix; [apply steady_when, steady_handleACK|done|by rewrite Es1|by eapply carries_stream_stays|].
    intros free st2 K2. assert (Es2 : state st2.1 = ESTABLISHED) by (by rewrite (proj1 (proj2 K2))).
    assert (Hc2 : state st2.1 ≠ CLOSED) by (by rewrite Es2).
    apply wp_handled; [by apply steady_updateSendWindow|apply K2|done|]. intros _ st3 K3 Hi3 Hc3.
    apply wp_handled; [apply steady_when, steady_free|done|done|]. intros _ st4 K4 Hi4 Hc4.
    assert (Es4 : state st4.1 = ESTABLISHED) by (rewrite (proj1 (proj2 K4)), (proj1 (proj2 K3)); done).
    eapply wp_seq; [apply FIN_complete_ok; [apply Hi4|done]|]. cbn. intros [] st5; cbn [when].
    + intros (K5 & Hf & Ha). unfold set_state. wp_steps.
      assert (Hd : handled (Some (ptr, seg)) st4.1 (st5.1 <| state := CLOSEWAIT |>)) by (apply fin_handled; try done; by rewrite Es4).
      apply wp_when; intros _; [|exact Hd]. wp_steps. by apply handled_trigger.
    + intros ->. wp_steps. apply wp_when; intros _; [wp_steps; apply handled_trigger|];
        by apply stays_handled, stays_refl.
  - apply update_guard; [done| |].
    + intros st1 K1. pose proof (proj1 K1) as Hi1.
      assert (Es1 : state st1.1 = ESTABLISHED) by (by rewrite (proj1 (proj2 K1))).
      assert (Hc1 : state st1.1 ≠ CLOSED) by (by rewrite Es1).
      wp_steps.
      * apply wp_unbind, wp_moves.
        { apply copyData_ok; [done|by apply receives_synced; rewrite ?Es1|by rewrite Es1..|].
          apply Z.ltb_lt in Heqb0. pose proof (sd_buflen _ (inv_sendable _ Hi1)).
          destruct (Z.ltb_spec (application_buflen st1.1) (rb_getRecvBytes (receiveBuffer st1.1))); zlia. }
        intros _ st2 (Hi2 & Es2 & _). rewrite Es1 in Es2.
        apply wp_handled; [apply steady_app_recv_len|done|by rewrite Es2|]. intros _ st3 _ Hi3 Hc3.
        apply wp_handled; [apply steady_app_buflen; intros; apply u32_range|done|done|]. intros _ st4 _ Hi4 Hc4.
        apply wp_handled; [apply steady_processACK|done|done|]. intros _ st5 _ Hi5 Hc5.
        apply wp_handled; [apply steady_gets|done|done|]. intros s st6 _ Hi6 Hc6.
        apply steady_handled; [|done|done]. apply steady_if; [apply steady_waiting_receiving|].
        apply steady_bind; [apply steady_block|]. intros; apply steady_ret.
      * apply wp_unbind, steady_handled; [|done|done]. apply steady_bind; [apply steady_processACK|]. intros _.
        apply steady_bind; [apply steady_block|]. intros; apply steady_ret.
      * apply wp_unbind, wp_handled; [apply steady_processACK|done|done|]. intros _ st2 _ Hi2 Hc2.
        apply wp_handled; [apply steady_processSendData|done|done|]. intros _ st3 _ Hi3 Hc3.
        by apply send_or_block.
      * by apply stays_handled.
    + intros st1 A. destruct (aborted_idle _ _ A) as [E1 E2]. wp_step. wp_step. cbn [id].
      rewrite E1, E2. wp_steps. by apply aborted_handled; [left|..].
Qed.

(** The transitions on an empty history. *)
Definition empty_step (from to : tcp_state) : Prop :=
  match from, to with FINWAIT1, FINWAIT2 | CLOSING, TIMEWAIT => True | _, _ => False end.

Lemma empty_handled s s1 to : inv s -> sane s1 -> sendable s1 -> receiveBuffer s1 = receiveBuffer s ->
  application_dst s1 = application_dst s -> records s1 = [] -> empty_step (state s) to ->
  handled None s (s1 <| state := to |>).
Proof.
  intros Hi K [] Er Ed Hr Hto. split; [|split].
  - split; [by destruct s1|by split; destruct s1|].
    assert (Hsy : synced s) by (apply receives_synced; [done|by destruct (state s)..]).
    apply (synced_ext _ s1) in Hsy; [|done|done].
    unfold receives. replace (state (s1 <| state := to |>)) with to by done.
    destruct (state s), to; done.
  - right. replace (state (s1 <| state := to |>)) with to by done. destruct (state s), to; done.
  - exists []. rewrite app_nil_r, <- Ed. by destruct s1.
Qed.

Lemma aborted_fields s s' : aborted s s' -> receiveBuffer s' = receiveBuffer s
  ∧ application_dst s' = application_dst s ∧ records s' = [] ∧ ACK_triggered s' = false.
Proof. intros (E & K & Hr). rewrite Hr, E. by destruct s. Qed.

Lemma aborted_empty_handled s s1 to : inv s -> aborted s s1 -> empty_step (state s) to ->
  handled None s (s1 <| state := to |>).
Proof.
  intros Hi A Hto. destruct (aborted_fields _ _ A) as (E1 & E2 & E3 & _).
  destruct (aborted_inv _ _ Hi A) as [[K Hd _] _]. by apply empty_handled.
Qed.

Lemma isEmpty_aborted s s' : aborted s s' -> history_isEmpty s' = true.
Proof. intros (_ & K & Hr). by apply isEmpty_spec. Qed.

Lemma finwait1_handled segment len (st : St) : inv st.1 -> state st.1 = FINWAIT1 ->
  (forall ptr seg, segment = Some (ptr, seg) -> expected st.1 seg len) ->
  wp (finwait1 e MAX segment len) (λ _ st', handled segment st.1 st'.1) st.
Proof.
  intros Hi Hst Hg. assert (Hc : state st.1 ≠ CLOSED) by (by rewrite Hst).
  destruct segment as [[ptr seg]|]; cbn [finwait1].
  - destruct (Hg ptr seg eq_refl) as [Hb Hcar]. rewrite Hst in Hcar. apply rst_guard; [done|]. intros _.
    apply steady_guard; [apply steady_handleSYN|done|done|]. intros st1 K1 Hi1 Hc1.
    assert (Es1 : state st1.1 = FINWAIT1) by (by rewrite (proj1 (proj2 K1))).
    apply data_prefix; [apply steady_when, steady_handleACK|done|by rewrite Es1|by eapply carries_stream_stays|].
    intros free st2 K2. assert (Es2 : state st2.1 = FINWAIT1) by (by rewrite (proj1 (proj2 K2))).
    apply wp_bind, wp_gets.
    apply (wp_seq _ _ (λ _ st', st'.1 = st2.1)); [by apply wp_when|]. intros _ st4 E4.
    rewrite <- E4 in *. pose proof (proj1 K2) as Hi4.
    eapply wp_seq; [apply FIN_complete_ok; [apply Hi4|by rewrite Es2]|]. cbn. intros [] st5; cbn [when].
    + intros (K5 & Hf & Ha). unfold set_state. wp_steps; apply fin_handled; try done; try (by rewrite Es2).
      intros _ _. by apply andb_true_iff in Heqb as [? ?%Z.eqb_eq].
    + intros ->. by apply stays_handled, stays_refl.
  - apply update_guard; [done| |].
    + intros st1 K1. pose proof (proj1 K1) as Hi1.
      assert (Es1 : state st1.1 = FINWAIT1) by (by rewrite (proj1 (proj2 K1))).
      apply wp_handled; [apply steady_processACK|done|by rewrite Es1|]. intros _ st2 K2 Hi2 Hc2.
      assert (Es2 : state st2.1 = FINWAIT1) by (by rewrite (proj1 (proj2 K2))).
      unfold set_state. wp_steps; [|by apply steady_handled; [apply steady_block_history|..]].
      apply isEmpty_spec in Heqb; [|apply Hi2].
      apply empty_handled; try done; [apply Hi2|apply Hi2|by rewrite Es2].
    + intros st1 A. unfold processACK. wp_step. wp_step. wp_step.
      rewrite (proj2 (proj2 (proj2 (aborted_fields _ _ A)))). cbn [when]. unfold set_state.
      do 3 (wp_step; cbn [id]). rewrite (isEmpty_aborted _ _ A). wp_steps.
      apply aborted_empty_handled; [done..|by rewrite Hst].
Qed.

Lemma finwait2_handled segment len (st : St) : inv st.1 -> state st.1 = FINWAIT2 ->
  (forall ptr seg, segment = Some (ptr, seg) -> expected st.1 seg len) ->
  wp (finwait2 e MAX segment len) (λ _ st', handled segment st.1 st'.1) st.
Proof.
  intros Hi Hst Hg. assert (Hc : state st.1 ≠ CLOSED) by (by rewrite Hst).
  destruct segment as [[ptr seg]|]; cbn [finwait2].
  - destruct (Hg ptr seg eq_refl) as [Hb Hcar]. rewrite Hst in Hcar. apply rst_guard; [done|]. intros _.
    apply steady_guard; [apply steady_handleSYN|done|done|]. intros st1 K1 Hi1 Hc1.
    assert (Es1 : state st1.1 = FINWAIT2) by (by rewrite (proj1 (proj2 K1))).
    pose proof (data_prefix (pk := Some (ptr, seg)) ptr seg len (λ needToFree : bool, when needToFree (freeReceivedSegment ptr);;
      complete ← FIN_complete e MAX; when complete (set_state TIMEWAIT)) (mret ()) st1
      (steady_ret ()) Hi1) as Hp.
    rewrite Es1 in Hp. apply Hp; [done|by eapply carries_stream_stays|]. clear Hp.
    intros free st2 K2. assert (Es2 : state st2.1 = FINWAIT2) by (by rewrite (proj1 (proj2 K2))).
    apply wp_handled; [apply steady_when, steady_free|apply K2|by rewrite Es2|]. intros _ st4 K4 Hi4 Hc4.
    assert (Es4 : state st4.1 = FINWAIT2) by (by rewrite (proj1 (proj2 K4))).
    eapply wp_seq; [apply FIN_complete_ok; [apply Hi4|done]|]. cbn. intros [] st5; cbn [when].
    + intros (K5 & Hf & Ha). unfold set_state. wp_steps. apply fin_handled; try done; by rewrite Es4.
    + intros ->. by apply stays_handled, stays_refl.
  - apply update_guard; [done| |].
    + intros st1 K1. apply steady_handled; [|apply K1|by rewrite (proj1 (proj2 K1)), Hst].
      apply steady_bind; [apply steady_processACK|]. intros _.
      apply steady_bind; [apply steady_block|]. intros; apply steady_ret.
    + intros st1 A. unfold processACK, block. wp_step. wp_step. wp_step.
      rewrite (proj2 (proj2 (proj2 (aborted_fields _ _ A)))). cbn [when]. wp_steps.
      by apply aborted_handled; [left|..].
Qed.

(** The start of the handlers after the peer's FIN. *)
Lemma final_guard ptr seg (k : M unit) (st : St) : inv st.1 -> state st.1 ≠ CLOSED -> steady k ->
  wp (unless (handleRST e ptr seg) (unless (handleSYN_final e MAX ptr seg) k))
    (λ _ st', handled (Some (ptr, seg)) st.1 st'.1) st.
Proof.
  intros Hi Hc Hk. apply rst_guard; [done|]. intros _.
  apply steady_guard; [apply steady_handleSYN_final|done|done|]. intros st1 K1 Hi1 Hc1.
  by apply steady_handled.
Qed.

Lemma steady_then {A} (m : M A) (k : M unit) : steady m -> steady k -> steady (m;; k).
Proof. intros Hm Hk. by apply steady_bind. Qed.

Lemma closewait_handled segment len (st : St) : inv st.1 -> state st.1 = CLOSEWAIT ->
  (forall ptr seg, segment = Some (ptr, seg) -> expected st.1 seg len) ->
  wp (closewait e MAX segment len) (λ _ st', handled segment st.1 st'.1) st.
Proof.
  intros Hi Hst Hg. assert (Hc : state st.1 ≠ CLOSED) by (by rewrite Hst).
  destruct segment as [[ptr seg]|]; cbn [closewait].
  - destruct (Hg ptr seg eq_refl) as [Hb _]. apply final_guard; [done|done|].
    apply steady_then; [apply steady_when, steady_handleACK|].
    apply steady_then; [apply steady_retransmit_FIN_ACK|].
    apply steady_then; [by apply steady_updateSendWindow|apply steady_free].
  - apply update_guard; [done| |].
    + intros st1 K1. pose proof (proj1 K1) as Hi1.
      assert (Es1 : state st1.1 = CLOSEWAIT) by (by rewrite (proj1 (proj2 K1))).
      assert (Hc1 : state st1.1 ≠ CLOSED) by (by rewrite Es1).
      pose proof (receives_synced _ Hi1 Hc1 ltac:(by rewrite Es1) ltac:(by rewrite Es1)) as (_ & n & Hn).
      destruct (rb_ack_ok _ _ _ _ Hn) as (En & _ & Hn0). pose proof (sd_buflen _ (inv_sendable _ Hi1)).
      wp_step. wp_step. cbn [id]. wp_step; [|wp_step].
      * apply (wp_seq _ _ (λ _ st', stays st1.1 st'.1 ∧ receiveBuffer st'.1 = receiveBuffer st1.1
          ∧ 0 <= application_buflen st'.1 <= n)).
        { apply wp_when; rewrite En; intros Hlt.
          - apply Z.ltb_lt in Hlt. wp_steps. split; [|split; [by destruct (st1.1)|cbn; lia]].
            apply stays_fields; try done. cbn. zlia.
          - apply Z.ltb_ge in Hlt. split; [by apply stays_refl|]. split; [done|zlia]. }
        cbn. intros _ st2 (K2 & E2 & Hb2). wp_steps.
        set (s3 := st2.1 <| application_recv_len := _ |>).
        assert (K3 : stays st2.1 s3) by (by apply stays_fields; [apply K2|..|apply (sd_buflen _ (inv_sendable _ (proj1 K2)))]).
        pose proof (stays_trans _ _ _ K2 K3) as K.
        eapply wp_mono; [apply copyData_ok; cbn [fst]|]; try (by rewrite (proj1 (proj2 K)), Es1).
        -- apply K3.
        -- apply receives_synced; [apply K3|by rewrite (proj1 (proj2 K)), Es1..].
        -- change (0 <= application_buflen st2.1 <= rb_getRecvBytes (receiveBuffer st2.1)).
           by rewrite E2, En.
        -- cbn. intros _ st4 K4. wp_steps. eapply moves_handled; [|apply stays_handled].
           ++ eapply (stays_moves _ _) in K. destruct K as (_ & Ea & d1 & Eb), K4 as (I4 & Ec & d2 & Ed).
              split; [exact I4|]. split; [by rewrite Ec, Ea|]. exists (d1 ++ d2). by rewrite Ed, Eb, app_assoc.
           ++ by apply stays_fields; [apply K4|..|apply (sd_buflen _ (inv_sendable _ (proj1 K4)))].
      * apply wp_handled; [apply steady_processSendData|done|done|]. intros _ st3 _ Hi3 Hc3.
        by apply send_or_block.
      * by apply stays_handled.
    + intros st1 A. destruct (aborted_idle _ _ A) as [E1 E2]. wp_step. wp_step. cbn [id].
      rewrite E1, E2. by apply aborted_handled; [left|..].
Qed.

Lemma closing_handled segment len (st : St) : inv st.1 -> state st.1 = CLOSING ->
  wp (closing e MAX segment len) (λ _ st', handled segment st.1 st'.1) st.
Proof.
  intros Hi Hst. assert (Hc : state st.1 ≠ CLOSED) by (by rewrite Hst).
  destruct segment as [[ptr seg]|]; cbn [closing].
  - apply final_guard; [done|done|]. apply steady_then; [apply steady_when, steady_handleACK|].
    apply steady_then; [apply steady_retransmit_FIN_ACK|apply steady_free].
  - unfold set_state. apply update_guard; [done| |].
    + intros st1 K1. pose proof (proj1 K1) as Hi1.
      assert (Es1 : state st1.1 = CLOSING) by (by rewrite (proj1 (proj2 K1))).
      wp_steps; [|by apply steady_handled; [apply steady_block_history|..|rewrite Es1]].
      apply isEmpty_spec in Heqb; [|apply Hi1].
      apply empty_handled; try done; [apply Hi1|apply Hi1|by rewrite Es1].
    + intros st1 A. wp_step. wp_step. cbn [id]. rewrite (isEmpty_aborted _ _ A). wp_steps.
      apply aborted_empty_handled; [done..|by rewrite Hst].
Qed.

Lemma aborted_again s s1 s2 : aborted s s1 -> aborted s1 s2 -> aborted s s2.
Proof.
  intros (E1 & _) (E2 & K & Hr). split; [|done].
  transitivity (resetSocketState (s1 <| history := history s2 |>)); [done|].
  generalize (history s2) as h2. intros h2. revert E1. generalize (history s1) as h1. intros h1 ->.
  by destruct s.
Qed.

Lemma lastack_handled segment len (st : St) : inv st.1 -> state st.1 = LASTACK ->
  wp (lastack e MAX segment len) (λ _ st', handled segment st.1 st'.1) st.
Proof.
  intros Hi Hst. assert (Hc : state st.1 ≠ CLOSED) by (by rewrite Hst).
  destruct segment as [[ptr seg]|]; cbn [lastack].
  - apply final_guard; [done|done|]. apply steady_then; [apply steady_when, steady_handleACK|apply steady_free].
  - apply update_guard; [done| |].
    + intros st1 K1. pose proof (proj1 K1) as Hi1.
      assert (Es1 : state st1.1 = LASTACK) by (by rewrite (proj1 (proj2 K1))).
      wp_step. wp_step. cbn [id]. wp_step; [|by apply steady_handled; [apply steady_block_history|..|rewrite Es1]].
      eapply wp_mono; [apply abort_ok, Hi1|]. cbn. intros _ st2. by apply aborted_handled; [left|..].
    + intros st1 A. wp_step. wp_step. cbn [id]. rewrite (isEmpty_aborted _ _ A).
      eapply wp_mono; [apply abort_ok; apply A|]. cbn. intros _ st2 A2.
      apply aborted_handled; [by left|done|]. exact (aborted_again _ _ _ A A2).
Qed.

Lemma timewait_handled segment len (st : St) : inv st.1 -> state st.1 = TIMEWAIT ->
  wp (timewait e MAX segment len) (λ _ st', handled segment st.1 st'.1) st.
Proof.
  intros Hi Hst. assert (Hc : state st.1 ≠ CLOSED) by (by rewrite Hst).
  destruct segment as [[ptr seg]|]; cbn [timewait].
  - apply final_guard; [done|done|]. apply steady_then; [apply steady_retransmit_FIN_ACK|apply steady_free].
  - unfold block. apply update_guard; [done| |].
    + intros st1 K1. pose proof (proj1 K1) as Hi1. wp_steps. apply wp_when; intros _.
      * eapply wp_mono; [apply abort_ok, Hi1|]. cbn. intros _ st2. by apply aborted_handled; [left|..].
      * by apply stays_handled.
    + intros st1 A. wp_steps. apply wp_when; intros _.
      * eapply wp_mono; [apply abort_ok; apply A|]. cbn. intros _ st2 A2.
        apply aborted_handled; [by left|done|]. exact (aborted_again _ _ _ A A2).
      * by apply aborted_handled; [left|..].
Qed.

(** *** The switch *)

Lemma input_handled segment len (st : St) : inv st.1 ->
  (forall ptr seg, segment = Some (ptr, seg) -> expected st.1 seg len) ->
  wp (input e MAX segment len) (λ _ st', handled segment st.1 st'.1) st.
Proof.
  intros Hi Hg. unfold input. wp_step. wp_step. destruct (state st.1) eqn:Hst.
  - by apply closed_handled.
  - by apply listen_handled.
  - by apply synsent_handled.
  - by apply synrcvd_handled.
  - by apply established_handled.
  - by apply finwait1_handled.
  - by apply finwait2_handled.
  - by apply closewait_handled.
  - by apply lastack_handled.
  - by apply closing_handled.
  - by apply timewait_handled.
Qed.

End Connection.
