(* ===== verification/TcpGuarantees.v ===== *)
(** * TcpGuarantees: the theorems about TCP connections

    What users of the socket and its peers may rely on, from the lemmas of
    [TcpConnection], with a concrete network and system ([World]) on which the
    theorems are exercised. *)

From S2P Require Import Prelude Wire Packet TcpSegment TcpHistory SendBuffer TcpReceiveBuffer TcpSocket.
From S2P Require Import TcpConnection.
Import TCP_Socket.

Open Scope Z_scope.

(** ** A network and system to run on *)

Module World.

(** A clock that counts milliseconds. *)
#[export] Instance ms_clock : Clock := {| ms_to_ticks := id; ticks_to_ms := id |}.

(** Packets that arrived and packets that were sent. *)
Record t := mk { now : Z; arrived : list (Z * bytes); transmitted : list bytes }.

(** The pool gives zeroed memory. *)
Definition buffer (n : Z) : SendBuffer.t :=
  SendBuffer.mk 4096 n SendBuffer.WritingState (repeat 0 (Z.to_nat n)) 0 0.

#[export] Instance world : Lower t := {|
  lo_now := now;
  lo_interface := λ _, true;
  lo_hasBeenSent := λ _ _, true;
  lo_request := λ n w, (Some (buffer n), w);
  lo_before_send := λ b _,
    SendBuffer.at_pointer (SendBuffer.memstart_transport b) (TCP_Segment.set_checksum LE 0) b;
  lo_transmit := λ b w, mk (now w) (arrived w) (transmitted w ++ [SendBuffer.mem b]);
  lo_free := λ _ w, w;
  lo_freeReceived := λ _ w, w;
  lo_block := λ _ w, (true, w);
  lo_get := λ w, match arrived w with
                 | [] => (None, w)
                 | p :: ps => (Some p, mk (now w) ps (transmitted w))
                 end;
  lo_validAddresses := λ _, true;
  lo_bind := λ _ _ w, (Some 1024, w);
  lo_unbind := λ w, w;
|}.

Definition quiet : t := mk 10000 [] [].

(** A socket in state [st] over the one-slot history. *)
Abbreviation hist := (OneSlot.t SendBuffer.t).
Abbreviation sock4 := (TCP_Socket.sock (H:=OneSlot.t SendBuffer.t) (R:=SegmentList.t)).
Definition socket {R} (st : tcp_state) (rb : R) (h : hist) : TCP_Socket.sock (H:=hist) (R:=R) :=
  TCP_Socket.mk st false 0 rb 1 536 1000 1000 h 1000 0 0 false 0 false 80 1024 536 [] [] 0 true.

Definition list4 : ReceiveBuffer LE SegmentList.t :=
  SegmentList.list_buffer LE 4 TcpReceiveBuffer.four_elements.
Definition list4_nothing : ReadsNothing LE SegmentList.t (RI := list4) :=
  SegmentList.list_reads_nothing LE 4 TcpReceiveBuffer.four_elements.

End World.

(** ** The life of a connection *)

Section Life.
Context (e : endian) `{Clk : Clock} {H R W : Type}
  {HI : History SendBuffer.t H} {RI : ReceiveBuffer e R} {RN : ReadsNothing e R} {L : Lower W}.
Context (MAX : Z) (S : Z -> Z) (base : Z).

(** What happens to a socket: [recv_loop] hands it a packet or finds none, the
    application starts to read or to write. *)
Inductive call :=
  | Input (segment : option (Z * bytes)) (len : Z)
  | Receive (buffer_len : Z)
  | Write (data : bytes) (datasize : Z).

Definition do_call (c : call) : M (H:=H) (R:=R) (W:=W) unit :=
  match c with
  | Input segment len => input e MAX segment len
  | Receive n => s ← gets id; when (isEstablished s || isCloseWait s) (modify (receive_begin n))
  | Write d n => s ← gets id; when (isEstablished s || isCloseWait s) (modify (write_begin d n))
  end.

Fixpoint run (calls : list call) : M (H:=H) (R:=R) (W:=W) unit :=
  match calls with
  | [] => mret ()
  | c :: calls => do_call c;; run calls
  end.

(** The packets are the peer's, the size of a buffer is an [unsigned]. *)
Definition proper (c : call) (s : TCP_Socket.sock (H:=H) (R:=R)) : Prop :=
  match c with
  | Input segment len => forall ptr seg, segment = Some (ptr, seg) -> expected e S base s seg len
  | Receive _ => True
  | Write _ n => is_u32 n
  end.
Fixpoint all_proper (calls : list call) (st : St (H:=H) (R:=R) (W:=W)) : Prop :=
  match calls with
  | [] => True
  | c :: calls => proper c st.1 ∧ forall st', do_call c st = Some ((), st') -> all_proper calls st'
  end.

Definition packet_of (c : call) : option (Z * bytes) := match c with Input segment _ => segment | _ => None end.

Lemma do_call_handled c (st : St (H:=H) (R:=R) (W:=W)) : inv e S base st.1 -> proper c st.1 ->
  wp (do_call c) (λ _ st', handled e S base (packet_of c) st.1 st'.1) st.
Proof.
  intros Hi Hp. destruct c as [segment len|n|d n]; cbn [do_call].
  - by apply input_handled.
  - wp_steps. apply wp_when; intros _; [wp_steps|by apply stays_handled, stays_refl].
    apply stays_handled. apply (stays_fields e S base st.1 (receive_begin n st.1)); try reflexivity; [done|].
    change (is_u32 (Z.land n 2147483647)).
    change 2147483647 with (Z.ones 31). rewrite Z.land_ones by lia. zlia.
  - wp_steps. apply wp_when; intros _; [wp_steps|by apply stays_handled, stays_refl].
    apply stays_handled. by apply (stays_fields e S base st.1 (write_begin d n st.1)).
Qed.

Lemma run_handled calls (st : St (H:=H) (R:=R) (W:=W)) : inv e S base st.1 -> all_proper calls st ->
  wp (run calls) (λ _ st', inv e S base st'.1) st.
Proof.
  revert st. induction calls as [|c calls IH]; intros st Hi Hp; [done|]. destruct Hp as [Hc Hp].
  cbn [run]. pose proof (do_call_handled c st Hi Hc) as Hd. apply wp_run in Hd as ([] & st' & E & Hd).
  assert (Hw : wp (do_call c) (λ _ st1, st1 = st') st) by (unfold wp; by rewrite E).
  eapply wp_seq; [exact Hw|]. intros _ st1 ->. apply IH; [apply Hd|by apply Hp].
Qed.

Lemma listen_ok junk w : application_dst junk = [] ->
  wp (listen (H:=H) (R:=R) (W:=W)) (λ r st, r = true ∧ state st.1 = LISTEN ∧ inv e S base st.1)
    (constructed e junk, w).
Proof.
  intros Hd. unfold listen, gen_initial_seqnum, set_state. apply wp_bind, wp_gets.
  replace (isClosed (id (constructed e junk, w).1)) with true by done. wp_steps.
  split; [done|]. split; [done|]. destruct h_init_ok as [H1 H2]. split.
  - split; [done|]. unfold records. cbn. by rewrite H2.
  - split; [split; done|split; done|apply u32_range|done].
  - unfold receives. cbn. split; [done|]. by left.
Qed.
End Life.

Section Guarantees.
Context (e : endian) `{Clk : Clock} {H R W : Type}
  {HI : History SendBuffer.t H} {RI : ReceiveBuffer e R} {L : Lower W}.
Context (MAX : Z).

Abbreviation sock := (TCP_Socket.sock (H:=H) (R:=R)).


(** C2: the receiving application gets the peer's stream: from [listen] on a
    new socket, whatever packets of the peer arrive, in whatever order and
    however often, and whenever the application reads or writes, every call
    returns, and what reading has stored is the stream from its first byte, in
    order and without gaps, and the acknowledgement number is that of the
    first byte not received. *)
Theorem stream_delivered {RN : ReadsNothing e R} S base junk w calls :
  application_dst junk = [] ->
  (forall st, listen (constructed e junk, w) = Some (true, st) -> all_proper e MAX S base calls st) ->
  exists st st', listen (constructed e junk, w) = Some (true, st)
    ∧ run e MAX calls st = Some ((), st')
    ∧ (state st'.1 ≠ CLOSED ->
       application_dst st'.1 = slice S base (Z.of_nat (length (application_dst st'.1))))
    ∧ (state st'.1 = ESTABLISHED -> rb_getAckNum (receiveBuffer st'.1)
       = u32 (base + Z.of_nat (length (application_dst st'.1)) + rb_getRecvBytes (receiveBuffer st'.1))).
Proof.
  intros Hd Hp. pose proof (listen_ok e S base junk w Hd) as Hl.
  apply wp_run in Hl as (r & st & El & -> & Hst & Hi).
  pose proof (run_handled e MAX S base calls st Hi (Hp st El)) as Hr.
  apply wp_run in Hr as ([] & st' & E & Hr). exists st, st'.
  split; [exact El|]. split; [exact E|]. pose proof (inv_receives _ _ _ _ Hr) as Hrc. unfold receives in Hrc.
  split.
  - intros Hc. destruct (state st'.1); try done; first [exact (proj1 Hrc)|by destruct Hrc as [-> _]].
  - intros Hs. rewrite Hs in Hrc. destruct Hrc as (_ & n & Hn).
    destruct (rb_ack_ok _ _ _ _ Hn) as (-> & -> & _). done.
Qed.

(** C4: flow control: one round of sending ends, sends no more than the
    advertised window (one byte to probe a closed window) and no more than
    there is, takes the bytes from the front of the application's data, and
    advances the sequence number by as many; the window never wraps. *)
Theorem send_respects_window (s : sock) (w : W) :
  sane s -> state s ≠ CLOSED -> sendable s ->
  exists s' w' k, processSendData e MAX (s, w) = Some ((), (s', w'))
    ∧ 0 <= k <= application_buflen s ∧ k <= Z.max 1 (sendWindow s)
    ∧ application_src s' = drop (Z.to_nat k) (application_src s)
    ∧ application_buflen s' = application_buflen s - k
    ∧ seqnum_next s' = u32 (seqnum_next s + k)
    ∧ sendWindow s' = Z.max 0 (sendWindow s - k).
Proof.
  intros Hs Hst Hd. pose proof (processSendData_ok e MAX (s, w) Hs Hst Hd) as Hp.
  apply wp_run in Hp as ([] & [s' w'] & Er & k & Hk & Hw & _ & E). exists s', w', k. cbn [fst] in *.
  split; [done|]. split; [done|]. split; [done|]. rewrite E. by destruct s.
Qed.

(** The stored packet begins at position [q] of our stream. *)
Definition starts (r : TCP_Record.t SendBuffer.t) (q : Z) : Prop :=
  exists b, TCP_Record.sendbuffer r = Some b ∧ seqnum_of e b = u32 q.

Lemma starts_acked r q una : starts r q -> -2147483648 <= q - una < 2147483648 ->
  acked e (u32 una) r = (q <? una).
Proof. intros (b & Hb & E) Hq. unfold acked. rewrite Hb, E. by apply TCP_Segment.SEQ_LT_spec. Qed.

(** What one call of [updateHistory] forgets and keeps, by the test of the code. *)
Lemma updateHistory_records again (s : sock) (w : W) :
  sane s -> lo_interface w = true ->
  exists s' w', updateHistory e MAX again (s, w) = Some ((), (s', w'))
    ∧ (state s' ≠ CLOSED ->
       (forall p r, (p, r) ∈ records s -> awaits_ack r = true -> acked e (seqnum_unacked s) r = false ->
          exists r', (p, r') ∈ records s')
       ∧ (forall p r', (p, r') ∈ records s' -> exists r, (p, r) ∈ records s
            ∧ (awaits_ack r = false ∨ acked e (seqnum_unacked s) r = false))).
Proof.
  intros Hs Hif. pose proof (updateHistory_ok e MAX again (s, w) Hs) as Hu.
  apply wp_run in Hu as ([] & [s' w'] & Er & Hu). exists s', w'. split; [done|]. intros Hc.
  destruct Hu as [[_ Hu]|[[E _] _]]; [|cbn [fst] in E; rewrite E in Hc; by destruct s].
  specialize (Hu Hif). cbn [fst] in Hu. clear -Hu. induction Hu as [|p r l l' Hr _ [IH1 IH2]
    |p r l l' Hr _ [IH1 IH2]|p r r0 l l' Ha Hk _ _ [IH1 IH2]]; split.
  - by intros ?? ?%elem_of_nil.
  - by intros ?? ?%elem_of_nil.
  - intros p' r' [[= -> ->]|Hin]%elem_of_cons Ha Hk; [destruct Hr; congruence|eauto].
  - intros p' r' (r1 & ? & ?)%IH2. exists r1. split; [by right|done].
  - intros p' r' [[= -> ->]|Hin]%elem_of_cons Ha Hk; [exists r; by left|].
    destruct (IH1 _ _ Hin Ha Hk) as [r1 ?]. exists r1. by right.
  - intros p' r' [[= -> ->]|Hin]%elem_of_cons; [exists r; split; [by left|done]|].
    destruct (IH2 _ _ Hin) as (r1 & ? & ?). exists r1. split; [by right|done].
  - intros p' r' [[= -> ->]|Hin]%elem_of_cons Ha' Hk'; [exists r0; by left|].
    destruct (IH1 _ _ Hin Ha' Hk') as [r1 ?]. exists r1. by right.
  - intros p' r' [[= -> ->]|Hin]%elem_of_cons; [exists r; split; [by left|by right]|].
    destruct (IH2 _ _ Hin) as (r1 & ? & ?). exists r1. split; [by right|done].
Qed.

(** C6: retransmission: with an interface [updateHistory] ends, and unless it gives the
    connection up it goes by the first byte of a packet: a stored packet that waits for its
    acknowledgement is kept, to be sent again, if its first byte is not acknowledged,
    and what is stored afterwards are packets from before, which either do not wait for an acknowledgement or begin
    behind all that was acknowledged.  (So a packet is forgotten although only a part of it is acknowledged.)  [una] is the
    position of the first byte not acknowledged; positions are compared within half of the sequence space. *)
Theorem unacked_packets_kept again (s : sock) (w : W) una :
  sane s -> lo_interface w = true -> seqnum_unacked s = u32 una ->
  exists s' w', updateHistory e MAX again (s, w) = Some ((), (s', w'))
    ∧ (state s' ≠ CLOSED ->
       (forall p r q, (p, r) ∈ records s -> awaits_ack r = true -> starts r q ->
          -2147483648 <= q - una < 2147483648 -> una <= q -> exists r', (p, r') ∈ records s')
       ∧ (forall p r', (p, r') ∈ records s' -> exists r, (p, r) ∈ records s
            ∧ (awaits_ack r = true -> forall q, starts r q -> -2147483648 <= q - una < 2147483648 -> una <= q))).
Proof.
  intros Hs Hif Hu. destruct (updateHistory_records again s w Hs Hif) as (s' & w' & E & H'). exists s', w'.
  split; [exact E|]. intros Hc. destruct (H' Hc) as [H1 H2]. rewrite Hu in *. split.
  - intros p r q Hin Ha Hq Hr Hle. apply (H1 p r Hin Ha). rewrite (starts_acked r q una Hq Hr). by apply Z.ltb_ge.
  - intros p r' Hin. destruct (H2 p r' Hin) as (r & Hin' & Hor). exists r. split; [exact Hin'|]. intros Ha q Hq Hr.
    destruct Hor as [Hf|Hk]; [congruence|]. rewrite (starts_acked r q una Hq Hr) in Hk. by apply Z.ltb_ge in Hk.
Qed.

(** With the bytes up to [una] acknowledged and those up to [nxt] sent, an
    acknowledgement number moves [seqnum_unacked] exactly if it is new and
    acknowledges something that was sent, wrap-around included. *)
Theorem ack_acceptance (s : sock) una nxt a :
  seqnum_unacked s = u32 una -> seqnum_next s = u32 nxt -> una <= nxt ->
  -2147483648 <= a - una < 2147483648 -> -2147483648 <= a - nxt < 2147483648 ->
  handleACK (u32 a) s = if (una <? a) && (a <=? nxt) then s <| seqnum_unacked := u32 a |> else s.
Proof.
  intros E1 E2 Hle H1 H2. unfold handleACK, set_seqnum_unacked. rewrite E1, E2.
  rewrite TCP_Segment.SEQ_LEQ_spec, TCP_Segment.SEQ_GT_spec by done.
  zcases; cbn [andb]; try done; lia.
Qed.

(** The send window follows the newest segment, as RFC 793 has it (page
    72): an update is taken exactly if its sequence number is later than that
    of the last update, or the same with an acknowledgement at least as late. *)
Theorem window_update_newest (s : sock) segment lseq lack seq ack :
  lwseq s = u32 lseq -> lwack s = u32 lack ->
  -2147483648 <= seq - lseq < 2147483648 -> -2147483648 <= ack - lack < 2147483648 ->
  updateSendWindow e segment (u32 seq) (u32 ack) s
  = if (lseq <? seq) || ((seq =? lseq) && (lack <=? ack))
    then s <| sendWindow := TCP_Segment.get_window e segment |> <| lwseq := u32 seq |> <| lwack := u32 ack |>
    else s.
Proof.
  intros E1 E2 H1 H2. unfold updateSendWindow. rewrite E1, E2, !TCP_Segment.SEQ_LT_spec by done.
  assert (Eq : (u32 seq =? u32 lseq) = (seq =? lseq)) by (zcases; zlia). rewrite Eq.
  zcases; cbn [andb orb]; try done; lia.
Qed.
End Guarantees.

(** ** What goes out on the wire *)

Section Wire.
Context (e : endian) `{Clk : Clock} {H R W : Type}
  {HI : History SendBuffer.t H} {RI : ReceiveBuffer e R} {L : Lower W}.
Context (MAX : Z).

Abbreviation sock := (TCP_Socket.sock (H:=H) (R:=R)).

(** The network layer gives buffers of the size asked for that may be written, and before sending
    it changes nothing of the segment but its checksum. *)
Context (Hrequest : forall n b, 0 <= n -> requested (W:=W) n b ->
  fits n b ∧ SendBuffer.getState b = SendBuffer.WritingState).
Context (Hsend : forall b (w : W), SendBuffer.getState (lo_before_send b w) = SendBuffer.getState b
  ∧ exists c, SendBuffer.transport (lo_before_send b w) = TCP_Segment.set_checksum e c (SendBuffer.transport b)).

(** The numbers that go into a header fit their fields. *)
Record header_ok (s : sock) : Prop := {
  ho_dport : is_u16 (dport s);
  ho_sport : is_u16 (sport s);
  ho_next : is_u32 (seqnum_next s) }.

Lemma getReceiveWindow_range (s : sock) : is_u16 (getReceiveWindow e s).
Proof.
  unfold getReceiveWindow. destruct (_ || _); [split; done|]. cbv zeta.
  destruct (Z.ltb_spec 0xFFFF (u32 (maxReceiveWindow_Bytes s - rb_getRecvBytes (receiveBuffer s))));
    [split; done|]. pose proof (u32_range (maxReceiveWindow_Bytes s - rb_getRecvBytes (receiveBuffer s))).
  zlia.
Qed.

(** What a segment says, apart from its checksum. *)
Record says (s : sock) (seq ack flags : Z) (p : bytes) : Prop := {
  says_dport : TCP_Segment.get_dport e p = dport s;
  says_sport : TCP_Segment.get_sport e p = sport s;
  says_seq : TCP_Segment.get_seqnum e p = seq;
  says_ack : TCP_Segment.get_acknum e p = ack;
  says_flags : getf e TCP_Segment.f_flags p = flags;
  says_len : TCP_Segment.get_header_len e p = 5;
  says_window : TCP_Segment.get_window e p = getReceiveWindow e s }.

Lemma header_says (s : sock) a p : (20 <= length p)%nat -> header_ok s -> is_u32 a ->
  says s (seqnum_next s) a TCP_Segment.ACK_FLAG (header e s (Some a) p).
Proof.
  intros Hp [] Ha. pose proof (getReceiveWindow_range s) as Hw.
  unfold header, window_header, TCP_Segment.set_ACK, TCP_Segment.set_flag, TCP_Segment.get_header_len.
  set (q := TCP_Segment.set_urgend_ptr _ _ _).
  assert (Ef : getf e TCP_Segment.f_flags q = 0) by (unfold q; through; done). rewrite Ef.
  assert (Hq : length q = length p) by (unfold q; repeat (unfold TCP_Segment.set_acknum,
    TCP_Segment.set_flags, TCP_Segment.set_seqnum, TCP_Segment.set_checksum, TCP_Segment.set_urgend_ptr,
    TCP_Segment.set_window, TCP_Segment.set_header_len, TCP_Segment.set_sport, TCP_Segment.set_dport);
    by rewrite !length_setf).
  change (Z.lor 0 TCP_Segment.ACK_FLAG) with 16.
  split; unfold TCP_Segment.get_header_len; through; try done; unfold q; through; done.
Qed.

Lemma length_header (s : sock) a p : length (header e s a p) = length p.
Proof.
  destruct a; unfold header, window_header, TCP_Segment.set_ACK, TCP_Segment.set_flag, TCP_Segment.set_acknum,
    TCP_Segment.set_flags, TCP_Segment.set_seqnum, TCP_Segment.set_checksum, TCP_Segment.set_urgend_ptr,
    TCP_Segment.set_window, TCP_Segment.set_header_len, TCP_Segment.set_sport, TCP_Segment.set_dport;
    by rewrite !length_setf.
Qed.

(** Later writes that a header survives. *)
Lemma says_ext s seq ack flags p p' :
  (forall f, f ∈ TCP_Segment.members -> f ≠ TCP_Segment.f_checksum -> getf e f p' = getf e f p) ->
  says s seq ack flags p -> says s seq ack flags p'.
Proof.
  intros Hf []. assert (Hm : forall f, f ∈ TCP_Segment.members -> f ≠ TCP_Segment.f_checksum ->
    getf e f p' = getf e f p) by done.
  unfold TCP_Segment.get_dport, TCP_Segment.get_sport, TCP_Segment.get_seqnum, TCP_Segment.get_acknum,
    TCP_Segment.get_header_len, TCP_Segment.get_window in *.
  split; unfold TCP_Segment.get_dport, TCP_Segment.get_sport, TCP_Segment.get_seqnum,
    TCP_Segment.get_acknum, TCP_Segment.get_header_len, TCP_Segment.get_window;
    rewrite Hm; try done; unfold TCP_Segment.members; repeat (first [left; reflexivity|right]).
Qed.

Lemma member_end f : f ∈ TCP_Segment.members -> (fend f <= 20)%nat.
Proof. apply (layout_in 20 TCP_Segment.members), TCP_Segment.members_layout. Qed.

Lemma transport_at o b f : o = SendBuffer.memstart_transport b ->
  (Z.to_nat o <= length (SendBuffer.mem b))%nat ->
  SendBuffer.transport (SendBuffer.at_pointer o f b) = f (SendBuffer.transport b).
Proof.
  intros -> Hl. unfold SendBuffer.transport, SendBuffer.at_pointer. simpl_set.
  rewrite drop_app_length'; [done|]. rewrite length_take. lia.
Qed.

Lemma drop_write_shift o k l m : drop o (Packet.write (o + k) l m) = Packet.write k l (drop o m).
Proof.
  revert k m. induction l as [|b l IH]; intros k m; [done|]. cbn [Packet.write].
  replace (S (o + k)) with (o + S k)%nat by lia. rewrite IH. f_equal.
  rewrite drop_insert_ge by lia. f_equal. lia.
Qed.

Lemma transport_write newdata len b : 0 <= SendBuffer.memstart_transport b <= SendBuffer.data b ->
  len <= SendBuffer.getRemainingSize b ->
  SendBuffer.transport (SendBuffer.write newdata len b)
  = Packet.write (Z.to_nat (SendBuffer.data b - SendBuffer.memstart_transport b))
      (take (Z.to_nat len) newdata) (SendBuffer.transport b).
Proof.
  intros Hd Hl. unfold SendBuffer.write.
  destruct (Z.ltb_spec (SendBuffer.getRemainingSize b) len); [lia|].
  unfold SendBuffer.transport. simpl_set.
  replace (Z.to_nat (SendBuffer.data b)) with (Z.to_nat (SendBuffer.memstart_transport b)
    + Z.to_nat (SendBuffer.data b - SendBuffer.memstart_transport b))%nat by lia.
  apply drop_write_shift.
Qed.

Lemma transport_length n b : fits n b -> length (SendBuffer.transport b) = Z.to_nat n.
Proof.
  intros ([_ Hs Hd] & E & Hn). unfold SendBuffer.transport, SendBuffer.getRemainingSize in *.
  rewrite E, length_drop. lia.
Qed.

(** The segment before [send]: header, data, and PSH on the last one. *)
Lemma transport_built len (s : sock) b0 : 0 <= len -> fits (20 + len) b0 ->
  SendBuffer.transport (built e len s b0)
  = (if u32 (application_buflen s - len) =? 0 then TCP_Segment.set_PSH e else id)
      (Packet.write 20 (take (Z.to_nat len) (application_src s))
        (header e s (Some (rb_getAckNum (receiveBuffer s))) (SendBuffer.transport b0))).
Proof.
  intros Hl Hf. pose proof (transport_length _ _ Hf) as Ht.
  destruct Hf as ([_ Hs Hd] & E & Hr). unfold built.
  set (h := header e s _). set (b1 := SendBuffer.writtenToDataPointer 20 _).
  assert (E1 : SendBuffer.transport b1 = h (SendBuffer.transport b0))
    by (apply transport_at; [done|unfold SendBuffer.getRemainingSize in Hr; lia]).
  assert (Ew : SendBuffer.transport (SendBuffer.write (application_src s) len b1)
    = Packet.write 20 (take (Z.to_nat len) (application_src s)) (h (SendBuffer.transport b0))).
  { rewrite transport_write, E1.
    - do 2 f_equal. unfold b1. cbn. lia.
    - unfold b1. cbn. lia.
    - unfold b1, SendBuffer.getRemainingSize in *. cbn. lia. }
  destruct (u32 _ =? 0); [|exact Ew]. rewrite transport_at, Ew; [done| |].
  - unfold SendBuffer.write. destruct (_ <? _); by rewrite <- E.
  - unfold SendBuffer.write, SendBuffer.getRemainingSize in *.
    destruct (_ <? _); simpl_set; rewrite length_write; simpl_set;
      rewrite length_app, length_take; unfold h; rewrite length_header, length_drop; lia.
Qed.

(** The fields and the data survive PSH and the checksum. *)
Lemma says_psh (s : sock) seq ack p : (20 <= length p)%nat ->
  says s seq ack 16 p -> says s seq ack 24 (TCP_Segment.set_PSH e p).
Proof.
  intros Hp []. unfold TCP_Segment.set_PSH, TCP_Segment.set_flag. rewrite says_flags0.
  change (Z.lor 16 TCP_Segment.PSH_FLAG) with 24.
  unfold TCP_Segment.get_dport, TCP_Segment.get_sport, TCP_Segment.get_seqnum, TCP_Segment.get_acknum,
    TCP_Segment.get_header_len, TCP_Segment.get_window in *.
  split; unfold TCP_Segment.get_header_len; through; done.
Qed.

Lemma says_checksum (s : sock) seq ack flags c p :
  says s seq ack flags p -> says s seq ack flags (TCP_Segment.set_checksum e c p).
Proof.
  apply says_ext. intros f Hf Hne. apply member_ne; [|done|done].
  unfold TCP_Segment.members. repeat (first [left; reflexivity|right]).
Qed.

Lemma says_write (s : sock) seq ack flags l p :
  says s seq ack flags p -> says s seq ack flags (Packet.write 20 l p).
Proof. apply says_ext. intros f Hf _. apply getf_write_out. right. by apply member_end. Qed.

Lemma drop_setf f v p : f ∈ TCP_Segment.members -> drop 20 (setf e f v p) = drop 20 p.
Proof.
  intros Hf. unfold setf. apply drop_write. rewrite length_fbytes. apply (member_end f Hf).
Qed.

Lemma built_state len (s : sock) b : SendBuffer.getState (built e len s b) = SendBuffer.getState b.
Proof. unfold built, SendBuffer.write. destruct (_ =? 0); by destruct (_ <? _). Qed.

(** The segment as it is sent and stored. *)
Lemma sent_says len (s : sock) b0 b (w : W) : 0 <= len <= Z.of_nat (length (application_src s)) ->
  requested (W:=W) (20 + len) b0 -> header_ok s -> is_u32 (rb_getAckNum (receiveBuffer s)) ->
  after_send (built e len s b0) b w ->
  says s (seqnum_next s) (rb_getAckNum (receiveBuffer s))
    (if u32 (application_buflen s - len) =? 0 then 24 else 16) (SendBuffer.transport b)
  ∧ take (Z.to_nat len) (drop 20 (SendBuffer.transport b)) = take (Z.to_nat len) (application_src s)
  ∧ SendBuffer.getState b = SendBuffer.TransmittedState ∧ exists w0, w = lo_transmit b w0.
Proof.
  intros Hl Hreq Hh Ha Haft. assert (Hn : 0 <= 20 + len) by lia. pose proof (Hrequest _ _ Hn Hreq) as [Hf Hst0].
  destruct Haft as (w0 & Haft). destruct (Hsend (built e len s b0) w0) as [Hst1 [c Hc]].
  destruct Haft as [(Hne & _)|(_ & Eb & Ew)]; [by rewrite Hst1, built_state in Hne|].
  assert (Et : SendBuffer.transport b = TCP_Segment.set_checksum e c (SendBuffer.transport (built e len s b0)))
    by (rewrite Eb; exact Hc).
  apply and_assoc. split; [|split; [by rewrite Eb|by exists w0]]. rewrite Et.
  rewrite (transport_built len s b0) by (done || lia). set (p := header e s _ _).
  assert (Hp : length p = Z.to_nat (20 + len))
    by (unfold p; rewrite length_header; apply transport_length, Hf).
  assert (Hs : says s (seqnum_next s) (rb_getAckNum (receiveBuffer s)) 16 p).
  { apply header_says; [|done|done]. unfold p in Hp. rewrite length_header in Hp. lia. }
  set (d := take (Z.to_nat len) (application_src s)).
  assert (Hd : length d = Z.to_nat len) by (unfold d; rewrite length_take; lia).
  split.
  - apply says_checksum. destruct (u32 _ =? 0); [|by apply says_write].
    apply says_psh; [rewrite length_write; lia|by apply says_write].
  - unfold TCP_Segment.set_checksum. rewrite drop_setf
      by (unfold TCP_Segment.members; repeat (first [left; reflexivity|right])).
    assert (E : drop 20 ((if u32 (application_buflen s - len) =? 0 then TCP_Segment.set_PSH e else id)
      (Packet.write 20 d p)) = drop 20 (Packet.write 20 d p)).
    { destruct (u32 _ =? 0); [|done]. apply drop_setf. unfold TCP_Segment.members.
      repeat (first [left; reflexivity|right]). }
    rewrite E, <- Hd. apply read_write. lia.
Qed.


End Wire.

(** ** Running the theorems *)

Section Runs.
Import World.
#[local] Existing Instance OneSlot.one_history.
#[local] Existing Instance list4.
#[local] Existing Instance list4_nothing.

(** The peer's stream has byte [i] at position [i] and starts at 100. *)
Definition no_packet : hist := OneSlot.init.
Definition rb100 : SegmentList.t := SegmentList.setFirstSeqNum 100 (SegmentList.init 4).
Definition established100 : sock4 := socket ESTABLISHED rb100 no_packet.

(** Header of a packet from port 80 to 1024 with window 1024. *)
Definition packet (seq ack : bytes) (flags : Z) (data : bytes) : bytes :=
  [0; 80; 4; 0] ++ seq ++ ack ++ [80; flags; 4; 0; 0; 0; 0; 0] ++ data.
Definition data100 : bytes := packet [0; 0; 0; 100] [0; 0; 3; 232] 24 [100; 101; 102; 103].

Lemma established100_inv : inv LE counting 100 established100.
Proof.
  split.
  - split; [done|]. cbn. done.
  - split; try (split; done).
  - split; [done|]. exists 0. exact (rb_init_ok counting 100).
Qed.

Lemma data100_expected : expected LE counting 100 established100 data100 24.
Proof.
  split; [repeat (apply Forall_cons_2; [split; done|]); apply Forall_nil_2|].
  intros _. exists 100. split; [reflexivity|]. split; [done|]. split; [done|]. reflexivity.
Qed.


(** A whole life: SYN, ACK of our SYN+ACK, the application reads, data, and
    an empty queue, on which the data is handed over. *)
Definition syn99 : bytes := packet [0; 0; 0; 99] [0; 0; 0; 0] 2 [].
Definition ack100 : bytes := packet [0; 0; 0; 100] [0; 38; 37; 161] 16 [].
Definition data100' : bytes := packet [0; 0; 0; 100] [0; 38; 37; 161] 24 [100; 101; 102; 103].
Definition life : list call :=
  [Input (Some (1, syn99)) 20; Input (Some (2, ack100)) 20; Receive 10; Input (Some (3, data100')) 24;
   Input None 0].
Definition new_socket : sock4 := socket CLOSED (SegmentList.init 4) no_packet.

Lemma packet_bytes l : forallb (λ b, (0 <=? b) && (b <? 256)) l = true -> is_bytes l.
Proof.
  intros Hl. apply Forall_forall. intros b Hb%list_elem_of_In. rewrite forallb_forall in Hl.
  apply Hl, andb_true_iff in Hb as [H1%Z.leb_le H2%Z.ltb_lt]. by split.
Qed.

(** What the application has been given at the end of [life]. *)
Lemma life_proper st : listen (constructed LE new_socket, quiet) = Some (true, st) ->
  all_proper LE 5 counting 100 life st.
Proof.
  intros E. vm_compute in E. injection E as <-. cbn [all_proper life]. split.
  { intros ptr seg [= <- <-]. split; [by apply packet_bytes|reflexivity]. }
  intros st' E. vm_compute in E. injection E as <-. split.
  { intros ptr seg [= <- <-]. split; [by apply packet_bytes|done]. }
  intros st' E. vm_compute in E. injection E as <-. split; [done|].
  intros st' E. vm_compute in E. injection E as <-. split.
  { intros ptr seg [= <- <-]. split; [by apply packet_bytes|]. intros _. exists 100.
    split; [reflexivity|]. split; [done|]. split; [done|]. reflexivity. }
  intros st' E. vm_compute in E. injection E as <-. split; [done|]. done.
Qed.
Lemma stream_delivered_witness :
  exists st st', listen (constructed LE new_socket, quiet) = Some (true, st)
    ∧ run LE 5 life st = Some ((), st')
    ∧ (state st'.1 ≠ CLOSED -> application_dst st'.1
         = slice counting 100 (Z.of_nat (length (application_dst st'.1))))
    ∧ (state st'.1 = ESTABLISHED -> SegmentList.getAckNum (receiveBuffer st'.1)
         = u32 (100 + Z.of_nat (length (application_dst st'.1))
                + SegmentList.getRecvBytes (receiveBuffer st'.1))).
Proof. exact (stream_delivered LE 5 counting 100 new_socket quiet life eq_refl life_proper). Defined.

(** The data reached the application. *)
Example life_delivers :
  (s ← (listen ≫= λ _, run LE 5 life) (constructed LE new_socket, quiet); Some (application_dst s.2.1))
  = Some [100; 101; 102; 103].
Proof. vm_compute. reflexivity. Qed.

(** 700 bytes to send, a window of 1000 and segments of 536. *)
Definition sender : sock4 :=
  established100 <| application_src := repeat 7 700 |> <| application_buflen := 700 |>.

Lemma sender_sane : sane sender.
Proof. split; [done|]. cbn. done. Qed.

Lemma sender_sendable : sendable sender.
Proof. split; try (split; done). Qed.

Lemma send_respects_window_witness :
  exists s' w' k, processSendData LE 5 (sender, quiet) = Some ((), (s', w'))
    ∧ 0 <= k <= 700 ∧ k <= Z.max 1 1000
    ∧ application_src s' = drop (Z.to_nat k) (repeat 7 700)
    ∧ application_buflen s' = 700 - k
    ∧ seqnum_next s' = u32 (1000 + k)
    ∧ sendWindow s' = Z.max 0 (1000 - k).
Proof. refine (send_respects_window LE 5 sender quiet sender_sane _ sender_sendable). discriminate. Defined.

(** A data packet, sent once, that waits for its acknowledgement. *)
Definition waiting_packet : TCP_Record.t SendBuffer.t := TCP_Record.mk 5000 (Some (buffer 40)) 6.
Definition one_packet : hist := OneSlot.mk waiting_packet true.
Definition finwait : sock4 := established100 <| state := FINWAIT1 |> <| history := one_packet |>
  <| seqnum_unacked := 0 |>.

Lemma finwait_sane : sane finwait.
Proof. split; [done|]. cbn. apply Forall_singleton. by eexists. Qed.

Lemma unacked_packets_kept_witness :
  exists s' w', updateHistory LE 200 false (finwait, quiet) = Some ((), (s', w'))
    ∧ (state s' ≠ CLOSED ->
       (forall p r q, (p, r) ∈ records finwait -> awaits_ack r = true -> starts LE r q ->
          -2147483648 <= q - 0 < 2147483648 -> 0 <= q -> exists r', (p, r') ∈ records s')
       ∧ (forall p r', (p, r') ∈ records s' -> exists r, (p, r) ∈ records finwait
            ∧ (awaits_ack r = true -> forall q, starts LE r q -> -2147483648 <= q - 0 < 2147483648 -> 0 <= q))).
Proof.
  refine (unacked_packets_kept LE 200 false finwait quiet 0 _ eq_refl eq_refl).
  exact finwait_sane.
Defined.

Lemma ack_acceptance_witness :
  handleACK (u32 1200) (established100 <| seqnum_next := 1536 |>)
  = established100 <| seqnum_next := 1536 |> <| seqnum_unacked := u32 1200 |>.
Proof.
  refine (ack_acceptance (established100 <| seqnum_next := 1536 |>) 1000 1536 1200 eq_refl eq_refl _ _ _);
    lia.
Defined.

Lemma window_update_newest_witness :
  updateSendWindow LE data100 (u32 100) (u32 1000) established100
  = established100 <| sendWindow := TCP_Segment.get_window LE data100 |> <| lwseq := u32 100 |>
      <| lwack := u32 1000 |>.
Proof.
  refine (window_update_newest LE established100 data100 0 0 100 1000 eq_refl eq_refl _ _);
    lia.
Defined.

Lemma world_request n b : 0 <= n -> requested (W:=World.t) n b ->
  fits n b ∧ SendBuffer.getState b = SendBuffer.WritingState.
Proof.
  intros Hn (w & w' & [= <- _]). split; [|done]. split; [split|split]; cbn.
  - apply Forall_forall. intros x ->%list_elem_of_In%repeat_spec. done.
  - rewrite repeat_length. lia.
  - lia.
  - done.
  - unfold SendBuffer.getRemainingSize. cbn. lia.
Qed.

Lemma world_send b (w : World.t) : SendBuffer.getState (lo_before_send b w) = SendBuffer.getState b ∧ exists c, SendBuffer.transport (lo_before_send b w)
  = TCP_Segment.set_checksum LE c (SendBuffer.transport b).
Proof.
  split; [done|]. exists 0. cbn. destruct (decide (Z.to_nat (SendBuffer.memstart_transport b) <= length (SendBuffer.mem b))%nat).
  - by apply transport_at.
  - unfold SendBuffer.transport. cbn. rewrite take_ge, (drop_ge (SendBuffer.mem b)) by lia.
    cbn. by rewrite drop_ge by (rewrite app_nil_r; lia).
Qed.

End Runs.

(** ** Where the handlers go wrong *)

Section Wrong.
Context (e : endian) `{Clk : Clock} {H W : Type} {HI : History SendBuffer.t H} {L : Lower W}.
Context (MAX : Z).

Lemma bind_run {R A B} (m : M (H:=H) (R:=R) (W:=W) A) (k : A -> M B) st a st' :
  m st = Some (a, st') -> (m ≫= k) st = k a st'.
Proof. unfold mbind, M_bind. by intros ->. Qed.

Lemma bind_none {R A B} (m : M (H:=H) (R:=R) (W:=W) A) (k : A -> M B) st :
  m st = None -> (m ≫= k) st = None.
Proof. unfold mbind, M_bind. by intros ->. Qed.

(** Giving up in FINWAIT1 is undone: when the retransmission limit makes
    [updateHistory] abort the connection, the handler takes the empty history
    for the acknowledgement of our FIN and leaves the socket in FINWAIT2
    instead of CLOSED, with nothing that would ever wake it. *)
Theorem give_up_in_finwait1 {R} {RI : ReceiveBuffer e R} (s s1 : TCP_Socket.sock (H:=H) (R:=R)) (w w1 : W) :
  updateHistory e MAX true (s, w) = Some ((), (s1, w1)) -> aborted s s1 ->
  exists s', finwait1 e MAX None 0 (s, w) = Some ((), (s', w1))
    ∧ state s1 = CLOSED ∧ state s' = FINWAIT2 ∧ waiting s' = false ∧ records s' = [].
Proof.
  intros Eu A. exists (s1 <| state := FINWAIT2 |>).
  destruct (aborted_fields _ _ A) as (_ & _ & Er & Ea).
  assert (Ee : history_isEmpty s1 = true) by (by apply (isEmpty_aborted s)).
  assert (Es : state s1 = CLOSED ∧ waiting s1 = false) by (destruct A as [-> _]; by destruct s).
  split; [|split; [apply Es|]; split; [done|]; split; [apply Es|exact Er]].
  assert (Hw : wp (finwait1 e MAX None 0) (λ _ st', st' = (s1 <| state := FINWAIT2 |>, w1)) (s, w)).
  { unfold finwait1. apply (wp_seq _ _ (λ _ st', st' = (s1, w1))); [by unfold wp; rewrite Eu|].
    intros _ st ->. unfold processACK, set_state. wp_step. wp_step. wp_step. cbn [fst].
    rewrite Ea. cbn [when]. do 3 wp_step. cbn [id fst]. rewrite Ee. by wp_step. }
  by apply wp_run in Hw as ([] & ? & E & ->).
Qed.

(** At the end of the peer's stream [receive] crashes without the sliding
    window: the one-segment buffer reads its null [head] even when asked for
    no bytes, and in CLOSEWAIT it is asked with nothing there. *)
Theorem closewait_receive_null (s s1 : TCP_Socket.sock (H:=H) (R:=OneSegment.t)) (w w1 : W) :
  updateHistory e MAX true (s, w) = Some ((), (s1, w1)) -> receiving s1 = true ->
  OneSegment.head (receiveBuffer s1) = false -> 0 <= application_buflen s1 ->
  closewait (RI := OneSegment.one_buffer e) e MAX None 0 (s, w) = None.
Proof.
  intros Eu Er Eh Hb. unfold closewait. rewrite (bind_run _ _ _ _ _ Eu).
  rewrite (bind_run (gets id) _ (s1, w1) s1 (s1, w1) eq_refl). cbn [id fst]. rewrite Er. cbv beta iota zeta.
  set (b := application_buflen s1) in *.
  set (s2 := if 0 <? b then s1 <| application_buflen := 0 |> else s1).
  assert (Ew : when (OneSegment.getRecvBytes (receiveBuffer s1) <? b)
    (modify (λ s, s <| application_buflen := OneSegment.getRecvBytes (receiveBuffer s1) |>)) (s1, w1)
    = Some ((), (s2, w1))).
  { unfold OneSegment.getRecvBytes. rewrite Eh. cbn. unfold s2, when, modify. by destruct (0 <? b). }
  etransitivity; [exact (bind_run _ _ _ _ _ Ew)|]. erewrite bind_run by reflexivity. erewrite bind_run by reflexivity.
  apply bind_none. unfold copyData. erewrite bind_run by reflexivity. apply bind_none.
  unfold lift. cbn. unfold OneSegment.copyData, s2. cbn. destruct (0 <? b); cbn; by rewrite Eh.
Qed.
End Wrong.

Section WrongRuns.
Import World.
#[local] Existing Instance OneSlot.one_history.
#[local] Existing Instance list4.

Definition gave_up : sock4 := resetSocketState (finwait <| history := OneSlot.mk waiting_packet false |>).

Lemma give_up_in_finwait1_witness :
  exists s', finwait1 LE 5 None 0 (finwait, quiet) = Some ((), (s', quiet))
    ∧ state gave_up = CLOSED ∧ state s' = FINWAIT2 ∧ waiting s' = false ∧ records s' = [].
Proof.
  apply (give_up_in_finwait1 LE 5 finwait gave_up quiet quiet).
  - vm_compute. reflexivity.
  - split; [reflexivity|]. split; [split; [done|]; cbn; done|reflexivity].
Defined.

(** The peer has closed, all was read, the application asks for more. *)
Definition at_end : TCP_Socket.sock (H:=hist) (R:=OneSegment.t) :=
  (socket CLOSEWAIT OneSegment.init no_packet) <| receiving := true |> <| application_buflen := 100 |>.

Lemma closewait_receive_null_witness :
  closewait (RI := OneSegment.one_buffer LE) LE 5 None 0 (at_end, quiet) = None.
Proof.
  apply (closewait_receive_null LE 5 at_end at_end quiet quiet); [vm_compute; reflexivity|done|done|done].
Defined.
End WrongRuns.
