(* ===== verification/TcpCongestion.v ===== *)
(** * TcpCongestion: slow start, round-trip times and silly windows

    Models the optional aspects of TCP: [tcp/congestion_avoidance], [tcp/rtt_estimation],
    [tcp/sws] and [tcp/retransmissionTracker].  Their slices are a record next to
    the world below the socket, so that the programs of [TcpSocket] serve for all
    they do not touch; a member function they advise appears again with the advice
    around it, under its own name.  Which aspects are woven is a configuration.
    Where the aspects' order is left open the tracker runs first and the
    retransmission counter last, as their comments ask for. *)

From S2P Require Import Prelude Wire Packet TcpSegment TcpHistory SendBuffer TcpReceiveBuffer TcpSocket TcpConnection TcpGuarantees.
Import TCP_Socket.

Open Scope Z_scope.

(** The aspects that are woven. *)
Record Config := MkConfig { slow_start : bool; rtt : bool; backoff : bool; sws_send : bool; sws_recv : bool }.

(** The members the slices add; [srtt] is scaled by 8, [rtt_var] by 4. *)
Record Slices := MkSlices {
  cwnd : Z; sstresh : Z; outstanding_bytes : Z;
  retransmitting : bool;
  rtt_seqnum : Z; rrt_time : Z; rrt_active : bool; srtt : Z; rtt_var : Z; rto : Z;
  max_sendWindow : Z }.
#[export] Instance Slices_settable : Settable Slices := λ s,
  MkSlices (cwnd s) (sstresh s) (outstanding_bytes s) (retransmitting s) (rtt_seqnum s) (rrt_time s) (rrt_active s)
    (srtt s) (rtt_var s) (rto s) (max_sendWindow s).

(** ** The slices *)

Module TCP_SlowStart_Slice.
Definition initSlowStart (mss : Z) (s : Slices) : Slices :=
  s <| cwnd := u32 mss |> <| sstresh := 0xFFFFFFFF |> <| outstanding_bytes := 0 |>.

Definition increment_cwnd (mss bytes_acked : Z) (s : Slices) : Slices :=
  let cwnd_old := cwnd s in
  let s := if cwnd s <=? sstresh s then s <| cwnd := u32 (cwnd s + bytes_acked) |>
           else s <| cwnd := u32 (cwnd s + u32 (bytes_acked * u32 mss) / cwnd s) |> in
  if cwnd s <? cwnd_old then s <| cwnd := 0xFFFFFFFF |> else s.

Definition drop_cwnd (mss : Z) (s : Slices) : Slices :=
  if cwnd s =? mss then s
  else
    let s := s <| sstresh := cwnd s / 2 |> in
    let min_sstresh := u32 (2 * mss) in
    let s := if sstresh s <? min_sstresh then s <| sstresh := min_sstresh |> else s in
    s <| cwnd := u32 mss |> <| outstanding_bytes := 0 |>.

Definition cwnd_opened (s : Slices) : bool := outstanding_bytes s <? cwnd s.
End TCP_SlowStart_Slice.

Module TCP_RTT_Estimation_Slice.
Definition LOWER_RTO_BOUND : Z := 200.
(** [RTT_Exponential_Backoff.ah]. *)
Definition UPPER_RTO_BOUND : Z := 64000.

Definition update_SRTT (meassured_rtt : Z) (s : Slices) : Slices :=
  if srtt s =? 0 then
    let s := s <| srtt := s32 (Z.shiftl meassured_rtt 3) |> <| rtt_var := s32 (Z.shiftl meassured_rtt 1) |> in
    s <| rto := u32 (meassured_rtt + s32 (Z.shiftl (rtt_var s) 1)) |>
  else
    let error := s32 (meassured_rtt - Z.shiftr (srtt s) 3) in
    let s := s <| srtt := s32 (srtt s + error) |> in
    let error := if error <? 0 then s32 (- error) else error in
    let s := s <| rtt_var := s32 (rtt_var s + s32 (error - Z.shiftr (rtt_var s) 2)) |> in
    s <| rto := u32 (Z.shiftr (srtt s) 3 + rtt_var s) |>.

Definition rtt_init (s : Slices) : Slices :=
  s <| rrt_active := false |> <| srtt := 0 |> <| rtt_var := 3000 |> <| rto := 6000 |>.

Definition start_RTT_Estimation (seqnum_next now : Z) (s : Slices) : Slices :=
  if Bool.eqb (rrt_active s) false then s <| rrt_active := true |> <| rtt_seqnum := seqnum_next |> <| rrt_time := now |> else s.

(** With the advice that doubles the timeout. *)
Definition abort_RTT_Estimation (backoff : bool) (s : Slices) : Slices :=
  let s := if backoff then s <| rto := if rto s <? UPPER_RTO_BOUND then u32 (Z.shiftl (rto s) 1) else UPPER_RTO_BOUND |> else s in
  s <| rrt_active := false |>.

(** A measurement, with the lower bound of the timeout. *)
Definition measured (msec : Z) (s : Slices) : Slices :=
  let s := update_SRTT msec s in
  if rto s <? LOWER_RTO_BOUND then s <| rto := LOWER_RTO_BOUND |> else s.

Definition update_RTT_Estimation `{Clk : Clock} (now acknum : Z) (s : Slices) : Slices :=
  if Bool.eqb (rrt_active s) true then
    if TCP_Segment.SEQ_LT (rtt_seqnum s) acknum then
      let meassured_rtt := u32 (ticks_to_ms (u64 (now - rrt_time s))) in
      let msec := Z.land meassured_rtt 0x7FFFFFFF in
      (measured msec s) <| rrt_active := false |>
    else s
  else s.
End TCP_RTT_Estimation_Slice.

Module TCP_RetransmissionTracker_Slice.
Import TCP_SlowStart_Slice TCP_RTT_Estimation_Slice.
(** The tracker is woven for the aspects that use it. *)
Definition tracker (c : Config) : bool := slow_start c || rtt c.
Definition isRetransmitting (s : Slices) : bool := retransmitting s.
(** With the advice of slow start and of the round-trip times before them. *)
Definition setRetransmitting (c : Config) (mss : Z) (s : Slices) : Slices :=
  let s := if slow_start c then (if Bool.eqb (isRetransmitting s) false then drop_cwnd mss s else s) else s in
  let s := if rtt c then abort_RTT_Estimation (backoff c) s else s in
  s <| retransmitting := true |>.
Definition clearRetransmitting (c : Config) (s : Slices) : Slices :=
  let s := if slow_start c then s <| outstanding_bytes := 0 |> else s in
  s <| retransmitting := false |>.
End TCP_RetransmissionTracker_Slice.

(** ** The socket with its aspects *)

(** What lies below the socket stays what it is. *)
#[export] Instance lower_slices {W} `{L : Lower W} : Lower (Slices * W) := {|
  lo_now w := lo_now w.2;
  lo_interface w := lo_interface w.2;
  lo_hasBeenSent w b := lo_hasBeenSent w.2 b;
  lo_request n w := let '(b, w') := lo_request n w.2 in (b, (w.1, w'));
  lo_before_send b w := lo_before_send b w.2;
  lo_transmit b w := (w.1, lo_transmit b w.2);
  lo_free b w := (w.1, lo_free b w.2);
  lo_freeReceived p w := (w.1, lo_freeReceived p w.2);
  lo_block t w := let '(r, w') := lo_block t w.2 in (r, (w.1, w'));
  lo_get w := let '(p, w') := lo_get w.2 in (p, (w.1, w'));
  lo_validAddresses w := lo_validAddresses w.2;
  lo_bind p q w := let '(r, w') := lo_bind p q w.2 in (r, (w.1, w'));
  lo_unbind w := (w.1, lo_unbind w.2);
|}.

Module Woven.
Section Woven.
Context (c : Config) (e : endian) `{Clk : Clock} {H R W : Type}
  {HI : History SendBuffer.t H} {RI : ReceiveBuffer e R} {L : Lower W}.
Context (MAX : Z).
Import TCP_SlowStart_Slice TCP_RTT_Estimation_Slice TCP_RetransmissionTracker_Slice.
Abbreviation M := (TCP_Socket.M (H:=H) (R:=R) (W:=Slices * W)).
Abbreviation sock := (TCP_Socket.sock (H:=H) (R:=R)).

(** The advice reads and writes the slices. *)
Definition slices {A} (f : Slices -> A) : M A := getsW (λ w, f w.1).
Definition advise (f : Slices -> Slices) : M unit := modifyW (λ w, (f w.1, w.2)).

(** *** Members *)

Definition getRTO : M Z := slices (λ s, if rtt c then rto s else TCP_Socket.getRTO).

Definition lowerSendWindow (subtract : Z) : M unit :=
  modify (TCP_Socket.lowerSendWindow subtract);;
  when (slow_start c) (advise (λ s, s <| outstanding_bytes := u16 (outstanding_bytes s + u16 subtract) |>)).

(** The advice of slow start before [set_seqnum_unacked]. *)
Definition acknowledged (mss acknum unacked : Z) (s : Slices) : Slices :=
  let acked := u16 (acknum - unacked) in
  let s := if acked <? outstanding_bytes s then s <| outstanding_bytes := outstanding_bytes s - acked |>
           else s <| outstanding_bytes := 0 |> in
  increment_cwnd mss acked s.
Definition set_seqnum_unacked (acknum : Z) : M unit :=
  k ← gets id;
  when (slow_start c) (advise (acknowledged (mss k) acknum (seqnum_unacked k)));;
  modify (TCP_Socket.set_seqnum_unacked acknum);;
  w ← getsW id;
  when (rtt c) (advise (update_RTT_Estimation (lo_now w) acknum)).

Definition handleACK (acknum : Z) : M unit :=
  k ← gets id;
  if TCP_Segment.SEQ_LEQ acknum (seqnum_unacked k) then mret ()
  else if TCP_Segment.SEQ_GT acknum (seqnum_next k) then mret ()
  else set_seqnum_unacked acknum.

Definition getSendWindow : M Z :=
  k ← gets id; s ← slices id;
  mret (if slow_start c then
          if cwnd_opened s && Bool.eqb (isRetransmitting s) false then TCP_Socket.getSendWindow k else 0
        else TCP_Socket.getSendWindow k).

Definition setMSS (size max_segment_size : Z) : M unit :=
  modify (TCP_Socket.setMSS size max_segment_size);;
  when (slow_start c) (advise (initSlowStart max_segment_size)).

Definition initSendWindow (window seqnum acknum : Z) : M unit :=
  modify (TCP_Socket.initSendWindow window seqnum acknum);;
  when (sws_send c) (advise (λ s, s <| max_sendWindow := 0 |>)).

Definition updateSendWindow (segment : bytes) (seqnum acknum : Z) : M unit :=
  modify (TCP_Socket.updateSendWindow e segment seqnum acknum);;
  k ← gets id;
  when (sws_send c) (advise (λ s, if max_sendWindow s <? sendWindow k then s <| max_sendWindow := sendWindow k |> else s)).

Definition getReceiveWindow (k : sock) : Z :=
  let window := TCP_Socket.getReceiveWindow e k in
  if sws_recv c && negb (bool_decide (state k = SYNSENT)) && negb (bool_decide (state k = CLOSED))
     && (window * 2 <? maxReceiveWindow_Bytes k) && (window <? mss k)
  then 0 else window.

Definition gen_initial_seqnum : M unit :=
  TCP_Socket.gen_initial_seqnum;; when (rtt c) (advise rtt_init).

(** *** Retransmission *)

Definition retransmit_proceed (record : nat) : M unit :=
  b ← getSendBuffer record;
  b ← send (SendBuffer.recycle b);
  now ← getsW lo_now; t ← getRTO;
  modify (λ s, s <| history :=
    h_update record (λ r, TCP_Record.setTimeout now t (r <| TCP_Record.sendbuffer := Some b |>)) (history s) |>).

(** [TCP_RetransmissionCounter]. *)
Definition retransmit_counted (record : nat) : M unit :=
  h ← gets history;
  let counter := TCP_Record.retransmission_counter (h_record h record) in
  if MAX <? counter then modify (λ s, s <| state := CLOSED |>)
  else
    modify (λ s, s <| history :=
      h_update record (λ r, r <| TCP_Record.retransmission_counter := u8 (counter + 1) |>) (history s) |>);;
    retransmit_proceed record.

(** The length slow start counts: the header's length is in words. *)
Definition counted_length (b : SendBuffer.t) : Z :=
  u32 (SendBuffer.data b - SendBuffer.memstart_transport b - TCP_Segment.get_header_len e (SendBuffer.transport b)).

Definition retransmit (record : nat) : M unit :=
  if tracker c then
    b ← getSendBuffer record; k ← gets id;
    let first := TCP_Segment.get_seqnum e (SendBuffer.transport b) =? seqnum_unacked k in
    when first (advise (setRetransmitting c (mss k)));;
    s ← slices id;
    if slow_start c then
      when (first || cwnd_opened s)
        (advise (λ s, s <| outstanding_bytes := u16 (outstanding_bytes s + counted_length b) |>);; retransmit_counted record)
    else retransmit_counted record
  else retransmit_counted record.

Fixpoint update_loop (do_retransmit : bool) (fuel : nat) (record : option nat) : M unit :=
  match fuel, record with
  | _, None => mret ()
  | O, Some _ => fail
  | S n, Some record =>
      b ← getSendBuffer record;
      h ← gets history; unacked ← gets seqnum_unacked; w ← getsW id;
      if history_done e h record b unacked w then
        let next := h_getNext h record in
        modifyW (lo_free b);; history_remove record;; update_loop do_retransmit n next
      else
        when (do_retransmit && TCP_Record.isTimedOut (lo_now w) (h_record h record)) (retransmit record);;
        h ← gets history; update_loop do_retransmit n (h_getNext h record)
  end.

(** The tracker looks at what [history.get()] answers. *)
Definition tracked (r : option nat) : M unit :=
  when (tracker c && bool_decide (r = None)) (advise (clearRetransmitting c)).
Definition updateHistory (do_retransmit : bool) : M unit :=
  i ← getsW lo_interface;
  (if negb i then clearHistory
   else h ← gets history; tracked (h_get h);; update_loop do_retransmit (S h_capacity) (h_get h));;
  s ← gets id; when (bool_decide (state s = CLOSED)) abort.

(** *** Sending *)

Definition requestSendBufferTCP (payloadsize : Z) : M (option SendBuffer.t) :=
  h ← gets history;
  when (h_isFull h) (updateHistory false);;
  h ← gets history;
  if h_isFull h then mret None
  else runW (lo_request (TCP_Segment.TCP_MIN_HEADER_SIZE + payloadsize)).

(** The header, whose window is the advised one. *)
Definition header (s : sock) : option Z -> bytes -> bytes := window_header e (getReceiveWindow s) s.
Definition writeHeaderWithAck (b : SendBuffer.t) (ack : Z) : M SendBuffer.t :=
  s ← gets id;
  mret (SendBuffer.writtenToDataPointer TCP_Segment.TCP_MIN_HEADER_SIZE
          (SendBuffer.at_pointer (SendBuffer.data b) (header s (Some ack)) b)).

Definition sendACK_num (ackNum : Z) : M bool :=
  ob ← requestSendBufferTCP 0;
  match ob with
  | Some b => b ← writeHeaderWithAck b ackNum; b ← send b; history_add b 0;; mret true
  | None => mret false
  end.
Definition sendACK : M bool :=
  modify (λ s, s <| ACK_triggered := false |>);;
  s ← gets id; sendACK_num (rb_getAckNum (receiveBuffer s)).

(** The call of [send] is in [sendSegment], not in [sendNextSegment], where
    the advice that starts a measurement looks for it. *)
Definition sendSegment (len : Z) : M bool :=
  ob ← requestSendBufferTCP len;
  match ob with
  | None => mret false
  | Some b =>
      let segment := SendBuffer.getDataPointer b in
      s ← gets id;
      b ← writeHeaderWithAck b (rb_getAckNum (receiveBuffer s));
      let b := SendBuffer.write (application_src s) len b in
      modify (λ s, s <| application_buflen := u32 (application_buflen s - len) |>);;
      modify (λ s, s <| application_src := drop (Z.to_nat len) (application_src s) |>);;
      s ← gets id;
      let b := if application_buflen s =? 0
               then SendBuffer.at_pointer segment (TCP_Segment.set_PSH e) b else b in
      modify (λ s, s <| seqnum_next := u32 (seqnum_next s + len) |>);;
      s ← gets id;
      when (negb (sendWindow s =? 0)) (lowerSendWindow len);;
      b ← send b; t ← getRTO; history_add b t;; mret true
  end.

Definition sendNextSegment_proceed : M bool :=
  window ← getSendWindow; s ← gets id; sendSegment (min window (application_buflen s) (mss s)).
(** With the advice against silly windows. *)
Definition sendNextSegment : M bool :=
  k ← gets id; s ← slices id;
  if sws_send c && (sendWindow k <? application_buflen k) && (sendWindow k * 2 <? max_sendWindow s) && (sendWindow k <? mss k) then
    timeout ← block (Some 500);
    if Bool.eqb timeout true then sendNextSegment_proceed else mret false
  else sendNextSegment_proceed.

Fixpoint send_loop (fuel : nat) : M unit :=
  s ← gets id; window ← getSendWindow;
  if (0 <? application_buflen s) && (0 <? window) then
    match fuel with
    | O => fail
    | S n => r ← sendNextSegment; if Bool.eqb r false then mret () else send_loop n
    end
  else mret ().

Definition processSendData : M unit :=
  s ← gets id;
  if application_buflen s =? 0 then mret ()
  else if sendWindow s =? 0 then
    w ← getsW id;
    when (h_getNextTimeout (lo_now w) (history s) =? 0) (sendSegment 1;; mret ())
  else send_loop (S (Z.to_nat (application_buflen s))).

(** *** Receiving *)

(** With the advice that announces a window that opens again. *)
Definition copyData (len : Z) : M unit :=
  before ← gets getReceiveWindow;
  TCP_Socket.copyData e len;;
  after ← gets getReceiveWindow;
  when (sws_recv c && (before =? 0) && negb (after =? 0)) (sendACK;; mret ()).
End Woven.
End Woven.

(** ** Round-trip times *)

Section RoundTrip.
Import TCP_RTT_Estimation_Slice.

Lemma s32_small z : -2147483648 <= z < 2147483648 -> s32 z = z.
Proof. intros H. unfold s32, u32. zcases; zlia. Qed.

(** RFC 6298 (2.3) with the scaled members: within the rounding of the divisions by 8 and by 4,
    seven eighths of the old time and one of the new one, three quarters of the old
    deviation and one of the new one; the timeout is the sum. *)
Record estimated (msec : Z) (s s' : Slices) : Prop := {
  est_time : 0 <= 8 * srtt s' - (7 * srtt s + 8 * msec) < 8;
  est_deviation : 0 <= 4 * rtt_var s' - (3 * rtt_var s + 4 * Z.abs (msec - srtt s / 8)) < 4;
  est_rto : rto s' = srtt s' / 8 + rtt_var s' }.

(** All measurements were between [lo] and [hi]. *)
Record measured_within (lo hi : Z) (s : Slices) : Prop := {
  mw_time : 8 * lo <= srtt s <= 8 * hi + 7;
  mw_deviation : 0 <= rtt_var s <= 4 * hi + 3 }.

Section Range.
Context (lo hi : Z) (range : 0 < lo <= hi ∧ hi < 2 ^ 28).

Lemma update_first m s : lo <= m <= hi -> srtt s = 0 ->
  measured_within lo hi (update_SRTT m s) ∧ (srtt (update_SRTT m s) = 8 * m ∧ rtt_var (update_SRTT m s) = 2 * m)
  ∧ rto (update_SRTT m s) = 5 * m.
Proof using range.
  intros Hm H0. unfold update_SRTT. rewrite H0. cbn [Z.eqb]. change (2 ^ 28) with 268435456 in range.
  cbv zeta. change (rtt_var (?r <| rtt_var := ?x |>)) with x.
  rewrite !shiftl_mul by lia. change (2 ^ 3) with 8. change (2 ^ 1) with 2. rewrite !(s32_small (m * _)), (s32_small (m * 2 * 2)) by lia.
  split; [split; cbn; lia|]. split; [cbn; lia|]. cbn. unfold u32. rewrite Z.mod_small by lia. lia.
Qed.

Lemma update_next m s : lo <= m <= hi -> measured_within lo hi s ->
  measured_within lo hi (update_SRTT m s) ∧ estimated m s (update_SRTT m s) ∧ lo <= rto (update_SRTT m s) <= 5 * hi + 3.
Proof using range.
  intros Hm [Ht Hv]. change (2 ^ 28) with 268435456 in range. unfold update_SRTT.
  destruct (Z.eqb_spec (srtt s) 0) as [H0|H0]; [lia|].
  rewrite !shiftr_div by lia. change (2 ^ 3) with 8. change (2 ^ 2) with 4.
  pose proof (Z.div_mod (srtt s) 8 ltac:(lia)). pose proof (Z.mod_pos_bound (srtt s) 8 ltac:(lia)).
  pose proof (Z.div_mod (rtt_var s) 4 ltac:(lia)). pose proof (Z.mod_pos_bound (rtt_var s) 4 ltac:(lia)).
  set (q := srtt s / 8) in *. set (d := rtt_var s / 4) in *.
  rewrite (s32_small (m - q)) by lia. cbv zeta.
  change (srtt (?r <| rtt_var := ?y |>)) with (srtt r). change (srtt (?r <| srtt := ?x |>)) with x.
  change (rtt_var (?r <| rtt_var := ?x |>)) with x. change (rtt_var (?r <| srtt := ?x |>)) with (rtt_var r). fold d.
  assert (E : (if m - q <? 0 then s32 (- (m - q)) else m - q) = Z.abs (m - q)).
  { destruct (Z.ltb_spec (m - q) 0); [rewrite s32_small by lia|]; lia. }
  rewrite E. rewrite (s32_small (srtt s + _)), (s32_small (Z.abs _ - d)), (s32_small (rtt_var s + _)) by lia.
  set (t := srtt s + (m - q)). set (v := rtt_var s + (Z.abs (m - q) - d)).
  pose proof (Z.div_mod t 8 ltac:(lia)). pose proof (Z.mod_pos_bound t 8 ltac:(lia)).
  unfold u32. rewrite Z.mod_small by lia. split; [split|split; [split|]]; cbn [srtt rtt_var rto].
  all: change (srtt (?r <| rto := ?z |>)) with (srtt r); change (rtt_var (?r <| rto := ?z |>)) with (rtt_var r); change (rto (?r <| rto := ?z |>)) with z;
    change (srtt (?r <| rtt_var := ?y |>)) with (srtt r); change (srtt (?r <| srtt := ?x |>)) with x; change (rtt_var (?r <| rtt_var := ?x |>)) with x.
  all: unfold t, v in *; fold q; lia.
Qed.

Lemma measured_rto m s : rto (measured m s) = Z.max LOWER_RTO_BOUND (rto (update_SRTT m s))
  ∧ srtt (measured m s) = srtt (update_SRTT m s) ∧ rtt_var (measured m s) = rtt_var (update_SRTT m s).
Proof. unfold measured. destruct (Z.ltb_spec (rto (update_SRTT m s)) LOWER_RTO_BOUND); (split; [cbn; lia|done]). Qed.

(** C9: The retransmission timeout follows the measured round-trip times.  Whatever times between [lo] and
    [hi] are measured, below three days, no computation overflows.  The first
    measurement makes the smoothed time and half of it the deviation, as RFC 6298 says, but the timeout
    five times what was measured, where it says three times.  Every later one changes time,
    deviation and timeout as RFC 6298 says.  The smoothed time stays between the smallest and the
    largest time measured, and the timeout, which is never below 200 ms, between the
    smallest and, but for rounding up by 3 ms, five times the largest of them. *)
Theorem rto_follows_measurements (ms : list Z) (m : Z) (s : Slices) :
  srtt s = 0 -> Forall (λ m, lo <= m <= hi) (m :: ms) ->
  let s' := fold_left (λ s m, measured m s) (m :: ms) s in
  (srtt (measured m s) = 8 * m ∧ rtt_var (measured m s) = 2 * m ∧ rto (measured m s) = Z.max 200 (5 * m))
  ∧ measured_within lo hi s' ∧ Z.max 200 lo <= rto s' <= Z.max 200 (5 * hi + 3)
  ∧ forall m', lo <= m' <= hi -> exists s'', estimated m' s' s'' ∧ srtt s'' = srtt (measured m' s')
      ∧ rtt_var s'' = rtt_var (measured m' s') ∧ rto (measured m' s') = Z.max 200 (rto s'').
Proof using range.
  intros H0 Hms s'. split.
  { apply Forall_inv in Hms as Hm. destruct (update_first m s Hm H0) as (_ & [E1 E2] & R).
    destruct (measured_rto m s) as (-> & -> & ->). by rewrite E1, E2, R. }
  assert (Hinv : measured_within lo hi s' ∧ Z.max 200 lo <= rto s' <= Z.max 200 (5 * hi + 3)).
  { unfold s'. clear s'. apply Forall_cons in Hms as [Hm Hms]. cbn [fold_left].
    destruct (update_first m s Hm H0) as ([W1 W2] & _ & R). destruct (measured_rto m s) as (E1 & E2 & E3).
    assert (Hs : measured_within lo hi (measured m s)) by (split; [rewrite E2|rewrite E3]; done).
    assert (Hr : Z.max 200 lo <= rto (measured m s) <= Z.max 200 (5 * hi + 3)) by (rewrite E1; unfold LOWER_RTO_BOUND; lia).
    clear -Hs Hr Hms range. revert Hs Hr. generalize (measured m s). induction Hms as [|m' ms Hm' _ IH]; intros t Hs Hr; [done|].
    cbn [fold_left]. destruct (update_next m' t Hm' Hs) as ([U1 U2] & _ & U4). destruct (measured_rto m' t) as (E1 & E2 & E3).
    apply IH; [split; [rewrite E2|rewrite E3]; done|rewrite E1; unfold LOWER_RTO_BOUND; lia]. }
  split; [apply Hinv|]. split; [apply Hinv|]. intros m' Hm'. destruct (update_next m' s' Hm' (proj1 Hinv)) as (_ & Hest & _).
  destruct (measured_rto m' s') as (E1 & E2 & E3). by exists (update_SRTT m' s').
Qed.
End Range.
End RoundTrip.

(** ** The congestion window *)

Section Window.
Import TCP_SlowStart_Slice TCP_RetransmissionTracker_Slice.
Context (mss : Z) (mss_range : 0 < mss < 65536).

Record window_ok (s : Slices) : Prop := {
  wo_cwnd : mss <= cwnd s < 4294967296;
  wo_sstresh : 2 * mss <= sstresh s < 4294967296;
  wo_outstanding : is_u16 (outstanding_bytes s) }.

Lemma increment_cwnd_eq acked s : window_ok s -> is_u16 acked ->
  increment_cwnd mss acked s
  = s <| cwnd := Z.min 4294967295 (cwnd s + (if cwnd s <=? sstresh s then acked else acked * mss / cwnd s)) |>.
Proof using mss_range.
  intros [Hc _ _] Ha. unfold is_u16 in Ha. unfold increment_cwnd. rewrite (u32_id mss), (u32_id (acked * mss)) by (unfold is_u32; nia).
  assert (Hcase : forall n, 0 <= n < 4294967296 ->
    (let s0 := s <| cwnd := u32 (cwnd s + n) |> in if cwnd s0 <? cwnd s then s0 <| cwnd := 0xFFFFFFFF |> else s0)
    = s <| cwnd := Z.min 4294967295 (cwnd s + n) |>).
  { intros n Hn. cbv zeta. change (cwnd (s <| cwnd := ?x |>)) with x.
    destruct (Z.ltb_spec (u32 (cwnd s + n)) (cwnd s)) as [H|H]; unfold u32 in *.
    - rewrite Z.min_l by zlia. done.
    - rewrite Z.min_r by zlia. rewrite Z.mod_small by zlia. done. }
  destruct (Z.leb_spec (cwnd s) (sstresh s)); apply Hcase; [lia|].
  pose proof (Z.div_pos (acked * mss) (cwnd s) ltac:(nia) ltac:(lia)).
  pose proof (Z.div_le_upper_bound (acked * mss) (cwnd s) 65535 ltac:(lia) ltac:(nia)). lia.
Qed.

(** C8: The congestion window never falls below one segment, so nothing is divided by zero. An
    acknowledgement opens it by the bytes acknowledged up to the threshold and by a segment for
    each full window above it, up to the largest 32-bit number; the first loss of a flight closes
    it to one segment and sets the threshold to half of it, at least two segments. *)
Theorem congestion_window_moves (c : Config) (s : Slices) :
  slow_start c = true -> window_ok s ->
  (forall acked, is_u16 acked -> window_ok (increment_cwnd mss acked s)
     ∧ cwnd (increment_cwnd mss acked s)
       = Z.min 4294967295 (cwnd s + (if cwnd s <=? sstresh s then acked else acked * mss / cwnd s)))
  ∧ (let s' := setRetransmitting c mss s in window_ok s' ∧ isRetransmitting s' = true
     ∧ if isRetransmitting s || (cwnd s =? mss) then cwnd s' = cwnd s ∧ sstresh s' = sstresh s
       else cwnd s' = mss ∧ sstresh s' = Z.max (cwnd s / 2) (2 * mss))
  ∧ forall junk, window_ok (initSlowStart mss junk) ∧ cwnd (initSlowStart mss junk) = mss.
Proof using mss_range.
  intros Hc Hs. pose proof Hs as [Hw Ht Ho]. split; [|split].
  - intros acked Ha. rewrite (increment_cwnd_eq acked s Hs Ha). split; [|done]. split; [|done|done]. cbn.
    assert (0 <= (if cwnd s <=? sstresh s then acked else acked * mss / cwnd s)).
    { unfold is_u16 in Ha. destruct (_ <=? _); [lia|]. apply Z.div_pos; nia. }
    lia.
  - unfold setRetransmitting. rewrite Hc. cbv zeta.
    set (s1 := if Bool.eqb _ _ then _ else _).
    assert (E : forall s2, cwnd (if rtt c then TCP_RTT_Estimation_Slice.abort_RTT_Estimation (backoff c) s2 else s2) = cwnd s2
      ∧ sstresh (if rtt c then TCP_RTT_Estimation_Slice.abort_RTT_Estimation (backoff c) s2 else s2) = sstresh s2
      ∧ outstanding_bytes (if rtt c then TCP_RTT_Estimation_Slice.abort_RTT_Estimation (backoff c) s2 else s2) = outstanding_bytes s2).
    { intros s2. unfold TCP_RTT_Estimation_Slice.abort_RTT_Estimation. by destruct (rtt c), (backoff c). }
    destruct (E s1) as (E1 & E2 & E3).
    assert (H1 : window_ok s1 ∧ if isRetransmitting s || (cwnd s =? mss) then cwnd s1 = cwnd s ∧ sstresh s1 = sstresh s
       else cwnd s1 = mss ∧ sstresh s1 = Z.max (cwnd s / 2) (2 * mss)).
    { unfold s1. destruct (isRetransmitting s); cbn [Bool.eqb orb]; [done|]. unfold drop_cwnd.
      destruct (Z.eqb_spec (cwnd s) mss) as [H|H]; [done|]. rewrite (u32_id (2 * mss)), (u32_id mss) by (unfold is_u32; lia).
      cbv zeta. change (sstresh (s <| sstresh := ?x |>)) with x.
      pose proof (Z.div_le_upper_bound (cwnd s) 2 (cwnd s) ltac:(lia) ltac:(lia)).
      destruct (Z.ltb_spec (cwnd s / 2) (2 * mss)); (split; [split; cbn; unfold is_u16; lia|cbn; lia]). }
    destruct H1 as [[A1 A2 A3] H1]. split; [|split; [done|]].
    + split; cbn; [rewrite E1|rewrite E2|rewrite E3]; done.
    + change (cwnd (?r <| retransmitting := ?b |>)) with (cwnd r). change (sstresh (?r <| retransmitting := ?b |>)) with (sstresh r).
      by rewrite E1, E2.
  - intros junk. unfold initSlowStart. rewrite u32_id by (unfold is_u32; lia). split; [|done].
    split; cbn; unfold is_u16; lia.
Qed.

(** One acknowledgement for the whole window doubles it below the threshold and adds a segment above. *)
Lemma full_window_acknowledged s : window_ok s -> cwnd s < 65536 ->
  cwnd (increment_cwnd mss (cwnd s) s) = if cwnd s <=? sstresh s then 2 * cwnd s else cwnd s + mss.
Proof using mss_range.
  intros Hs Hc. pose proof (wo_cwnd _ Hs). rewrite increment_cwnd_eq by (done || unfold is_u16; lia). cbn.
  destruct (_ <=? _); [lia|]. rewrite Z.mul_comm, Z.div_mul by lia. lia.
Qed.
End Window.

(** ** What is in flight *)

Create HintDb slices.

Section Untouched.
Context (e : endian) `{Clk : Clock} {H R W : Type}
  {HI : History SendBuffer.t H} {RI : ReceiveBuffer e R} {L : Lower W}.
Context (MAX : Z).
Abbreviation M := (TCP_Socket.M (H:=H) (R:=R) (W:=Slices * W)).
Abbreviation St := (TCP_Socket.St (H:=H) (R:=R) (W:=Slices * W)).

(** What the slices have before a program they have behind it. *)
Definition maintains (P : Slices -> Prop) {A} (m : M A) : Prop := forall st a st', m st = Some (a, st') -> P st.2.1 -> P st'.2.1.
Context (P : Slices -> Prop).

Lemma maintains_ret {A} (a : A) : maintains P (mret a).
Proof. by intros st ? ? [= _ <-]. Qed.
Lemma maintains_bind {A B} (m : M A) (k : A -> M B) : maintains P m -> (forall a, maintains P (k a)) -> maintains P (m ≫= k).
Proof.
  intros Hm Hk st b st'. unfold mbind, M_bind. destruct (m st) as [[a st1]|] eqn:E; [|done].
  intros E' HP. by apply (Hk a _ _ _ E'), (Hm _ _ _ E).
Qed.
Lemma maintains_gets {A} (f : TCP_Socket.sock (H:=H) (R:=R) -> A) : maintains P (gets f).
Proof. by intros st ? ? [= _ <-]. Qed.
Lemma maintains_getsW {A} (f : Slices * W -> A) : maintains P (getsW f).
Proof. by intros st ? ? [= _ <-]. Qed.
Lemma maintains_modify f : maintains P (modify f).
Proof. by intros st ? ? [= _ <-]. Qed.
Lemma maintains_modifyW f : (forall w, P w.1 -> P (f w).1) -> maintains P (modifyW f).
Proof. intros Hf st ? ? [= _ <-]. apply Hf. Qed.
Lemma maintains_runW {A} (f : Slices * W -> A * (Slices * W)) : (forall w, (f w).2.1 = w.1) -> maintains P (runW f).
Proof.
  intros Hf st a st'. unfold runW. specialize (Hf st.2). destruct (f st.2) as [x w]. intros [= _ <-]. cbn in *. by rewrite Hf.
Qed.
Lemma maintains_lift {A} (o : option A) : maintains P (lift o).
Proof. intros st a st'. unfold lift. destruct o; cbn [mbind option_bind]; [by intros [= _ <-]|done]. Qed.
Lemma maintains_fail {A} : maintains P (fail (A:=A)).
Proof. done. Qed.
Lemma maintains_when b (m : M unit) : maintains P m -> maintains P (when b m).
Proof. destruct b; [done|]. intros _. apply maintains_ret. Qed.
Lemma request_slices n (w : Slices * W) : (lo_request n w).2.1 = w.1.
Proof. cbn. by destruct (lo_request n w.2). Qed.
Lemma get_slices (w : Slices * W) : (lo_get w).2.1 = w.1.
Proof. cbn. by destruct (lo_get w.2). Qed.
Lemma block_slices t (w : Slices * W) : (lo_block t w).2.1 = w.1.
Proof. cbn. by destruct (lo_block t w.2). Qed.
End Untouched.

#[export] Hint Resolve maintains_ret maintains_bind maintains_gets maintains_getsW maintains_modify maintains_lift
  maintains_fail maintains_when : slices.
#[export] Hint Extern 2 (maintains _ (modifyW _)) => apply maintains_modifyW; auto : slices.
#[export] Hint Extern 2 (maintains _ (runW (lo_request _))) => apply maintains_runW; apply request_slices : slices.
#[export] Hint Extern 2 (maintains _ (runW lo_get)) => apply maintains_runW; apply get_slices : slices.
#[export] Hint Extern 2 (maintains _ (runW (lo_block _))) => apply maintains_runW; apply block_slices : slices.
#[export] Hint Extern 1 (forall _, maintains _ _) => intro : slices.
#[export] Hint Extern 3 (maintains _ (match ?x with _ => _ end)) => destruct x : slices.

Section Plain.
Context (e : endian) `{Clk : Clock} {H R W : Type}
  {HI : History SendBuffer.t H} {RI : ReceiveBuffer e R} {L : Lower W}.
Context (MAX : Z) (P : Slices -> Prop).
Abbreviation M := (TCP_Socket.M (H:=H) (R:=R) (W:=Slices * W)).
Abbreviation St := (TCP_Socket.St (H:=H) (R:=R) (W:=Slices * W)).

Lemma send_maintains b : maintains P (send b : M _).
Proof. unfold send. auto 10 with slices. Qed.
Lemma history_add_maintains b t : maintains P (history_add b t : M _).
Proof. unfold history_add. auto 10 with slices. Qed.
Lemma history_remove_maintains r : maintains P (history_remove r : M _).
Proof. unfold history_remove. auto 10 with slices. Qed.
Lemma getSendBuffer_maintains r : maintains P (getSendBuffer r : M _).
Proof. unfold getSendBuffer. auto 10 with slices. Qed.
Hint Resolve send_maintains history_add_maintains history_remove_maintains getSendBuffer_maintains : slices.

Lemma clear_loop_maintains n : maintains P (clear_loop n : M _).
Proof. induction n; cbn [clear_loop]; auto 12 with slices. Qed.
Lemma drain_loop_maintains n : maintains P (drain_loop n : M _).
Proof. induction n; cbn [drain_loop]; auto 12 with slices. Qed.
Hint Resolve clear_loop_maintains drain_loop_maintains : slices.

Lemma retransmit_maintains r : maintains P (TCP_Socket.retransmit MAX r : M _).
Proof. unfold TCP_Socket.retransmit, TCP_Socket.retransmit_proceed. auto 20 with slices. Qed.
Hint Resolve retransmit_maintains : slices.

Lemma update_loop_maintains b n r : maintains P (TCP_Socket.update_loop e MAX b n r : M _).
Proof. revert r. induction n; intros [r|]; cbn [TCP_Socket.update_loop]; auto 20 with slices. Qed.
Hint Resolve update_loop_maintains : slices.

Lemma requestSendBufferTCP_maintains n : maintains P (TCP_Socket.requestSendBufferTCP e MAX n : M _).
Proof.
  unfold TCP_Socket.requestSendBufferTCP, TCP_Socket.updateHistory, TCP_Socket.abort, clearHistory. auto 30 with slices.
Qed.
End Plain.

Section Flight.
Import TCP_SlowStart_Slice TCP_RetransmissionTracker_Slice.
Context (c : Config) (e : endian) `{Clk : Clock} {H R W : Type}
  {HI : History SendBuffer.t H} {RI : ReceiveBuffer e R} {L : Lower W}.
Context (MAX : Z).
Hypothesis with_slow_start : slow_start c = true.
(** Both histories have a place. *)
Hypothesis capacity : (0 < @h_capacity SendBuffer.t Clk H HI)%nat.
Abbreviation M := (TCP_Socket.M (H:=H) (R:=R) (W:=Slices * W)).
Abbreviation St := (TCP_Socket.St (H:=H) (R:=R) (W:=Slices * W)).
Abbreviation sock := (TCP_Socket.sock (H:=H) (R:=R)).

Lemma bind_same {A B} (m m' : M A) (k k' : A -> M B) st : m st = m' st -> (forall a st', k a st' = k' a st') ->
  (m ≫= k) st = (m' ≫= k') st.
Proof. intros E Ek. unfold mbind, M_bind. rewrite E. destruct (m' st) as [[a st']|]; [apply Ek|done]. Qed.

Lemma getsW_bind {A B} (f : Slices * W -> A) (k : A -> M B) st : (getsW f ≫= k) st = k (f st.2) st.
Proof using Type. done. Qed.
Lemma gets_bind {A B} (f : sock -> A) (k : A -> M B) st : (gets f ≫= k) st = k (f st.1) st.
Proof using Type. done. Qed.

(** Without retransmissions the loop is the plain one. *)
Lemma update_loop_plain n record (st : St) :
  Woven.update_loop c e MAX false n record st = TCP_Socket.update_loop e MAX false n record st.
Proof using Type.
  revert record st. induction n as [|n IH]; intros [record|] st; try done.
  cbn [Woven.update_loop TCP_Socket.update_loop andb when].
  repeat (apply bind_same; [done|intros]). destruct (history_done _ _ _ _ _ _); repeat (apply bind_same; [done|intros]); apply IH.
Qed.

(** A request is only made to wait when the history is full, and then not empty. *)
Lemma request_plain n (st : St) : sane st.1 ->
  Woven.requestSendBufferTCP c e MAX n st = TCP_Socket.requestSendBufferTCP e MAX n st.
Proof using capacity.
  intros Hs. unfold Woven.requestSendBufferTCP, TCP_Socket.requestSendBufferTCP.
  unfold mbind, M_bind, gets. destruct (h_isFull (history st.1)) eqn:Ef; [|done].
  assert (E : Woven.updateHistory c e MAX false st = TCP_Socket.updateHistory e MAX false st); [|cbn [when]; by rewrite E].
  unfold Woven.updateHistory, TCP_Socket.updateHistory. rewrite !getsW_bind. apply bind_same; [|done].
  destruct (negb _); [done|]. rewrite !gets_bind.
  assert (Et : Woven.tracked c (h_get (history st.1)) = mret () :> M unit).
  { unfold Woven.tracked. rewrite bool_decide_eq_false_2; [by rewrite andb_false_r|]. rewrite (get_head _ Hs). apply h_full_ok in Ef as El; [|apply Hs].
    unfold records. destruct (h_abs (history st.1)) as [|[]]; [cbn in El; lia|done]. }
  rewrite Et. apply update_loop_plain.
Qed.

Lemma wp_same {A} (m m' : M A) Q st : m st = m' st -> wp m' Q st -> wp m Q st.
Proof using Type. unfold wp. by intros ->. Qed.
Lemma wp_untouched {A} (m : M A) Q (st : St) : (forall P, maintains P m) -> wp m Q st -> wp m (λ a st', Q a st' ∧ st'.2.1 = st.2.1) st.
Proof using Type.
  intros Hm. unfold wp. destruct (m st) as [[a st']|] eqn:E; [|done]. intros HQ. split; [done|]. by apply (Hm (λ sl, sl = st.2.1) _ _ _ E).
Qed.

(** The slices after a segment of [len] bytes was sent. *)
Definition flown (len : Z) (s : sock) (sl : Slices) : Slices :=
  if sendWindow s =? 0 then sl else sl <| outstanding_bytes := u16 (outstanding_bytes sl + u16 len) |>.

Lemma sending_flight b len s sl (st : St) (Q : bool -> St -> Prop) :
  st.1 = sent len s (history st.1) -> st.2.1 = sl -> sane st.1 -> h_isFull (history st.1) = false ->
  (forall h w, sane (sent len s h) -> Q true (sent len s h, (sl, w))) ->
  wp (b ← send b; t ← Woven.getRTO c; history_add b t;; mret true) Q st.
Proof using Type.
  intros E1 E2 Hs Hf HQ. eapply wp_seq; [apply wp_untouched; [intros P; apply send_maintains|]; apply (send_ok b st (λ _ st', st'.1 = st.1)); done|].
  intros b' [s1 [sl1 w1]] [Es Esl]. cbn in Es, Esl. apply wp_bind, wp_getsW. cbn [fst snd].
  eapply wp_seq.
  { apply wp_untouched; [intros P; apply history_add_maintains|]. apply (history_add_ok b' _ _ (λ _ st', st'.1 = s1 <| history := history st'.1 |> ∧ sane st'.1));
      cbn [fst]; rewrite ?Es; [done|done|]. intros s' p r [E K] _ _ _. by split. }
  intros _ [s3 [sl3 w3]] [[E K] Esl3]. cbn in E, K, Esl3. wp_steps.
  assert (E3 : s3 = sent len s (history s3)) by (rewrite E, Es, E1; by destruct s). rewrite E3 in K |- *.
  replace sl3 with sl by congruence. by apply HQ.
Qed.

Lemma sendSegment_flight len (st : St) (Q : bool -> St -> Prop) :
  sane st.1 -> state st.1 ≠ CLOSED ->
  (forall st', keeps st.1 st'.1 -> st'.2.1 = st.2.1 -> Q false st') ->
  (forall h w, sane (sent len st.1 h) -> Q true (sent len st.1 h, (flown len st.1 st.2.1, w))) ->
  wp (Woven.sendSegment c e MAX len) Q st.
Proof using capacity with_slow_start.
  intros Hs Hst HF HT. unfold Woven.sendSegment. eapply wp_seq.
  { eapply wp_same; [by apply request_plain|]. apply wp_untouched; [intros P; apply requestSendBufferTCP_maintains|].
    apply (requestSendBufferTCP_ok e MAX len st (λ ob st', keeps st.1 st'.1 ∧ (ob ≠ None -> h_isFull (history st'.1) = false))); [done..| |].
    - intros st' K. by split.
    - intros b st' K Hf _. by split. }
  intros ob [s1 w1] [[K Hf] Esl]. cbn in K, Hf, Esl. destruct ob as [b0|]; [|wp_steps; by apply HF].
  specialize (Hf ltac:(done)). unfold Woven.writeHeaderWithAck.
  repeat (wp_step; cbn [fst snd id]). destruct K as [E Ks]. set (s2 := s1 <| application_buflen := _ |> <| application_src := _ |> <| seqnum_next := _ |>).
  assert (Ew : sendWindow s2 = sendWindow st.1) by (unfold s2; rewrite E; by destruct (st.1)).
  assert (E2 : s2 = (sent len st.1 (history s1)) <| sendWindow := sendWindow st.1 |>) by (unfold s2; rewrite E; by destruct (st.1)).
  assert (Ks2 : forall v, sane (s2 <| sendWindow := v |>)) by (intros v; unfold s2; rewrite E in Ks |- *; exact Ks).
  assert (Hf2 : h_isFull (history s2) = false) by exact Hf. clearbody s2. rewrite Ew.
  apply wp_when; intros Hw.
  - unfold Woven.lowerSendWindow, Woven.advise. rewrite with_slow_start. cbn [when].
    repeat (wp_step; cbn [fst snd id]). apply wp_unbind.
    apply sending_flight with (len := len) (s := st.1) (sl := flown len st.1 st.2.1); cbn [fst snd].
    + unfold TCP_Socket.lowerSendWindow. rewrite Ew, E2. unfold sent.
      destruct (sendWindow st.1 =? 0); [done|]. by destruct (st.1).
    + unfold flown. rewrite Esl. destruct (sendWindow st.1 =? 0); [done|]. done.
    + apply Ks2.
    + exact Hf2.
    + exact HT.
  - apply sending_flight with (len := len) (s := st.1) (sl := flown len st.1 st.2.1); cbn [fst snd].
    + rewrite E2. unfold sent. destruct (Z.eqb_spec (sendWindow st.1) 0) as [H0|H0]; [|done]. rewrite <- H0. by destruct (st.1).
    + unfold flown. rewrite Esl. by destruct (sendWindow st.1 =? 0).
    + specialize (Ks2 (sendWindow s2)). by destruct s2.
    + exact Hf2.
    + exact HT.
Qed.

(** What a round of sending leaves in flight: [k] bytes more, sent while the congestion window
    was open. *)
Definition flight (k mss : Z) (sl sl' : Slices) : Prop :=
  sl' = sl <| outstanding_bytes := outstanding_bytes sl + k |>
  ∧ (k = 0 ∨ isRetransmitting sl = false ∧ outstanding_bytes sl + k < cwnd sl + mss).

Lemma flight_none sl m : flight 0 m sl sl.
Proof. split; [|by left]. rewrite Z.add_0_r. by destruct sl. Qed.

Lemma window_open (k : sock) (sl : Slices) : 0 < (if cwnd_opened sl && Bool.eqb (isRetransmitting sl) false then TCP_Socket.getSendWindow k else 0) ->
  outstanding_bytes sl < cwnd sl ∧ isRetransmitting sl = false ∧ 0 < sendWindow k.
Proof.
  unfold cwnd_opened, TCP_Socket.getSendWindow. destruct (Z.ltb_spec (outstanding_bytes sl) (cwnd sl)); cbn [andb]; [|lia].
  destruct (isRetransmitting sl); cbn; [lia|]. done.
Qed.

(** The next segment, after the wait the advice against silly windows may ask for. *)
Lemma sendNextSegment_flight (st : St) (Q : bool -> St -> Prop) :
  sane st.1 -> state st.1 ≠ CLOSED -> sendable st.1 ->
  cwnd_opened st.2.1 = true -> isRetransmitting st.2.1 = false -> 0 < sendWindow st.1 ->
  (forall st', keeps st.1 st'.1 -> st'.2.1 = st.2.1 -> Q false st') ->
  (let len := Z.min (sendWindow st.1) (Z.min (application_buflen st.1) (mss st.1)) in
   forall h w, sane (sent len st.1 h) -> Q true (sent len st.1 h, (flown len st.1 st.2.1, w))) ->
  wp (Woven.sendNextSegment c e MAX) Q st.
Proof using capacity with_slow_start.
  intros Hs Hst Hd Ho Hr Hw HF HT. unfold Woven.sendNextSegment.
  assert (Hp : forall w, wp (Woven.sendNextSegment_proceed c e MAX) Q (st.1, (st.2.1, w))).
  { intros w. unfold Woven.sendNextSegment_proceed, Woven.getSendWindow, Woven.slices. rewrite with_slow_start. repeat (wp_step; cbn [fst snd id]).
    rewrite Ho, Hr. cbn [andb Bool.eqb]. unfold TCP_Socket.getSendWindow. rewrite min_spec.
    apply sendSegment_flight; cbn [fst snd]; done. }
  apply wp_bind, wp_gets, wp_bind, wp_getsW. cbn [fst snd id].
  destruct (_ && _).
  - apply wp_bind, wp_runW. intros r [sl w]. cbn [lo_block lower_slices]. destruct (lo_block _ _) as [r' w'].
    intros [= <- <- <-]. destruct (Bool.eqb r' true); [apply Hp|]. apply wp_ret. apply HF; [by apply keeps_refl|done].
  - destruct st as [s [sl w]]. apply Hp.
Qed.

Lemma send_loop_flight fuel (st : St) :
  sane st.1 -> state st.1 ≠ CLOSED -> sendable st.1 -> (Z.to_nat (application_buflen st.1) < fuel)%nat ->
  0 <= outstanding_bytes st.2.1 -> outstanding_bytes st.2.1 + sendWindow st.1 < 65536 ->
  wp (Woven.send_loop c e MAX fuel) (λ _ st', exists k, 0 <= k <= application_buflen st.1
    ∧ k <= sendWindow st.1 ∧ sent_upto k st.1 st'.1 ∧ flight k (mss st.1) st.2.1 st'.2.1) st.
Proof using capacity with_slow_start.
  revert st. induction fuel as [|n IH]; intros st Hs Hst Hd Hf H0 Hfit; [lia|]. cbn [Woven.send_loop].
  pose proof (sd_window _ Hd) as Hw. pose proof (sd_buflen _ Hd) as Hb. pose proof (sd_mss _ Hd) as Hm.
  assert (Hnone : forall st' : St, keeps st.1 st'.1 -> st'.2.1 = st.2.1 -> exists k, 0 <= k <= application_buflen st.1
    ∧ k <= sendWindow st.1 ∧ sent_upto k st.1 st'.1 ∧ flight k (mss st.1) st.2.1 st'.2.1).
  { intros st' K E. exists 0. split; [zlia|]. split; [zlia|]. split; [by apply keeps_sent_upto|]. rewrite E. apply flight_none. }
  unfold Woven.getSendWindow, Woven.slices. rewrite with_slow_start. repeat (wp_step; cbn [fst snd id]); [|apply Hnone; [by apply keeps_refl|done]].
  apply andb_true_iff in Heqb as [Hbuf%Z.ltb_lt Hwin%Z.ltb_lt]. apply window_open in Hwin as (Ho & Hr & Hpos).
  apply sendNextSegment_flight; [done|done|done|by apply Z.ltb_lt|done|done|intros st' K E; by apply Hnone|].
  intros len h w Hs'. cbn [Bool.eqb].
  assert (U : sent_upto len st.1 (sent len st.1 h)) by (apply sent_sent_upto; [lia|lia|done|done]).
  assert (Efl : flown len st.1 st.2.1 = st.2.1 <| outstanding_bytes := outstanding_bytes st.2.1 + len |>).
  { unfold flown. destruct (Z.eqb_spec (sendWindow st.1) 0); [lia|]. rewrite (u16_id len), u16_id by zlia. done. }
  assert (Efields : application_buflen (sent len st.1 h) = application_buflen st.1 - len
    ∧ sendWindow (sent len st.1 h) = sendWindow st.1 - len ∧ mss (sent len st.1 h) = mss st.1).
  { destruct U as [_ ->]. destruct (st.1). cbn in *. lia. }
  destruct Efields as (E1 & E2 & E3). rewrite Efl.
  eapply wp_mono; [apply IH; cbn [fst snd]|].
  - done.
  - by destruct (st.1).
  - eapply sent_upto_sendable; [exact U|lia|done].
  - rewrite E1. lia.
  - cbn. lia.
  - rewrite E2. change (outstanding_bytes (?r <| outstanding_bytes := ?x |>)) with x. lia.
  - intros _ st' (k & Hk1 & Hk2 & U' & F1 & F2). cbn [fst snd] in *. rewrite E1 in Hk1. rewrite E2 in Hk2. rewrite E3 in F2.
    exists (len + k). split; [lia|]. split; [lia|]. split; [eapply sent_upto_trans; [lia|lia|exact U|exact U']|].
    split; [rewrite F1; cbn; rewrite Z.add_assoc; by destruct (st.2.1)|].
    right. split; [done|]. cbn in F2. destruct F2 as [->|[_ F2]]; [unfold len; lia|lia].
Qed.

End Flight.

(** ** Without aspects *)

Section NoAspects.
Context (e : endian) `{Clk : Clock} {H R W : Type}
  {HI : History SendBuffer.t H} {RI : ReceiveBuffer e R} {L : Lower W}.
Context (MAX : Z).
Abbreviation M := (TCP_Socket.M (H:=H) (R:=R) (W:=Slices * W)).
Abbreviation St := (TCP_Socket.St (H:=H) (R:=R) (W:=Slices * W)).
Definition no_aspects : Config := MkConfig false false false false false.

(** The guards compute away. *)
Lemma updateHistory_none b (st : St) : Woven.updateHistory no_aspects e MAX b st = TCP_Socket.updateHistory e MAX b st.
Proof. done. Qed.
Lemma request_none n (st : St) : Woven.requestSendBufferTCP no_aspects e MAX n st = TCP_Socket.requestSendBufferTCP e MAX n st.
Proof. done. Qed.

Lemma sendSegment_none n (st : St) : Woven.sendSegment no_aspects e MAX n st = TCP_Socket.sendSegment e MAX n st.
Proof.
  unfold Woven.sendSegment, TCP_Socket.sendSegment. apply bind_same; [apply request_none|]. intros [b|] [s w]; [|done].
  rewrite !gets_bind. do 3 (apply bind_same; [done|intros]). rewrite !gets_bind. apply bind_same; [done|]. intros _ st1.
  rewrite gets_bind. unfold mbind, M_bind, modify. cbn beta iota zeta. unfold id.
  destruct (negb (sendWindow st1.1 =? 0)); [done|]. cbn [when]. by destruct st1.
Qed.

Lemma send_loop_none fuel (st : St) : Woven.send_loop no_aspects e MAX fuel st = TCP_Socket.send_loop e MAX fuel st.
Proof.
  revert st. induction fuel as [|n IH]; intros st; [done|]. cbn [Woven.send_loop TCP_Socket.send_loop].
  rewrite !gets_bind. unfold Woven.getSendWindow, Woven.slices. cbn [slow_start no_aspects].
  transitivity ((if (0 <? application_buflen st.1) && (0 <? TCP_Socket.getSendWindow st.1)
    then r ← Woven.sendNextSegment no_aspects e MAX; if Bool.eqb r false then mret () else Woven.send_loop no_aspects e MAX n
    else mret () : M unit) st); [done|]. destruct (_ && _); [|done].
  apply bind_same; [exact (sendSegment_none (min (TCP_Socket.getSendWindow st.1) (application_buflen st.1) (mss st.1)) st)|].
  intros [] st1; [apply IH|done].
Qed.

(** Where no aspect is woven the programs with advice are those of the socket, whatever the slices
    hold: sending, acknowledging, retransmitting, receiving and announcing windows. *)
Theorem no_aspects_plain (st : St) :
  Woven.processSendData no_aspects e MAX st = TCP_Socket.processSendData e MAX st
  ∧ (forall b, Woven.updateHistory no_aspects e MAX b st = TCP_Socket.updateHistory e MAX b st)
  ∧ (forall acknum, Woven.handleACK no_aspects acknum st = modify (TCP_Socket.handleACK acknum) st)
  ∧ Woven.sendACK no_aspects e MAX st = TCP_Socket.sendACK e MAX st
  ∧ (forall n, Woven.copyData no_aspects e MAX n st = TCP_Socket.copyData e n st)
  ∧ (forall p x y, Woven.updateSendWindow no_aspects e p x y st = modify (TCP_Socket.updateSendWindow e p x y) st)
  ∧ (forall n m, Woven.setMSS no_aspects n m st = modify (TCP_Socket.setMSS n m) st)
  ∧ Woven.gen_initial_seqnum no_aspects st = TCP_Socket.gen_initial_seqnum st.
Proof.
  split_and!; try done.
  - unfold Woven.processSendData, TCP_Socket.processSendData. rewrite !gets_bind.
    destruct (_ =? 0); [done|]. destruct (_ =? 0); [|apply send_loop_none].
    rewrite !getsW_bind. destruct (_ =? 0); [|done]. cbn [when]. apply bind_same; [apply sendSegment_none|done].
  - intros a. unfold Woven.handleACK, TCP_Socket.handleACK. rewrite gets_bind. unfold modify. cbn [id].
    destruct (TCP_Segment.SEQ_LEQ _ _); [by destruct st|]. destruct (TCP_Segment.SEQ_GT _ _); [by destruct st|done].
  - intros n. unfold Woven.copyData. rewrite gets_bind. unfold mbind, M_bind. destruct (TCP_Socket.copyData e n st) as [[[] st']|]; done.
Qed.
End NoAspects.

(** ** The measurement that never starts *)

Section Measurement.
Import TCP_SlowStart_Slice TCP_RTT_Estimation_Slice TCP_RetransmissionTracker_Slice.
Context (c : Config) (e : endian) `{Clk : Clock} {H R W : Type}
  {HI : History SendBuffer.t H} {RI : ReceiveBuffer e R} {L : Lower W}.
Context (MAX : Z).
Abbreviation M := (TCP_Socket.M (H:=H) (R:=R) (W:=Slices * W)).
Abbreviation St := (TCP_Socket.St (H:=H) (R:=R) (W:=Slices * W)).

(** Nothing was measured, nothing is being measured. *)
Definition unmeasured (s : Slices) : Prop := rrt_active s = false ∧ srtt s = 0 ∧ 6000 <= rto s < 128000.

Lemma unmeasured_other (f : Slices -> Slices) : (forall s, rrt_active (f s) = rrt_active s ∧ srtt (f s) = srtt s ∧ rto (f s) = rto s) ->
  forall s, unmeasured s -> unmeasured (f s).
Proof. intros Hf s. unfold unmeasured. by destruct (Hf s) as (-> & -> & ->). Qed.

Lemma drop_unmeasured mss s : unmeasured s -> unmeasured (drop_cwnd mss s).
Proof. apply unmeasured_other. intros t. unfold drop_cwnd. destruct (_ =? _); [done|]. cbv zeta. by destruct (_ <? _). Qed.
Lemma setRetransmitting_unmeasured mss s : unmeasured s -> unmeasured (setRetransmitting c mss s).
Proof.
  intros Hs. unfold setRetransmitting. cbv zeta.
  assert (H1 : unmeasured (if slow_start c then (if Bool.eqb (isRetransmitting s) false then drop_cwnd mss s else s) else s))
    by (destruct (slow_start c), (isRetransmitting s); cbn [Bool.eqb]; auto using drop_unmeasured).
  revert H1. generalize (if slow_start c then (if Bool.eqb (isRetransmitting s) false then drop_cwnd mss s else s) else s). intros t Ht.
  destruct (rtt c); [|exact Ht]. unfold abort_RTT_Estimation. destruct Ht as (_ & H2 & H3). destruct (backoff c); [|done].
  split; [done|]. split; [done|]. cbn. rewrite shiftl_mul by lia. change (2 ^ 1) with 2. unfold UPPER_RTO_BOUND, u32.
  destruct (Z.ltb_spec (rto t) 64000); zlia.
Qed.
Lemma clearRetransmitting_unmeasured s : unmeasured s -> unmeasured (clearRetransmitting c s).
Proof. apply unmeasured_other. intros t. unfold clearRetransmitting. by destruct (slow_start c). Qed.
Lemma acknowledged_unmeasured mss a u s : unmeasured s -> unmeasured (Woven.acknowledged mss a u s).
Proof.
  apply unmeasured_other. intros t. unfold Woven.acknowledged, increment_cwnd. cbv zeta.
  destruct (u16 (a - u) <? outstanding_bytes t); destruct (cwnd _ <=? sstresh _); by destruct (_ <? _).
Qed.
Lemma update_unmeasured now a s : unmeasured s -> unmeasured (update_RTT_Estimation now a s).
Proof. intros Hs. unfold update_RTT_Estimation. destruct Hs as (E & Hs). rewrite E. by split. Qed.

Lemma advise_maintains (f : Slices -> Slices) : (forall s, unmeasured s -> unmeasured (f s)) -> maintains unmeasured (Woven.advise f : M unit).
Proof. intros Hf. apply maintains_modifyW. intros w. apply Hf. Qed.

#[local] Hint Resolve drop_unmeasured setRetransmitting_unmeasured clearRetransmitting_unmeasured acknowledged_unmeasured
  update_unmeasured send_maintains history_add_maintains history_remove_maintains getSendBuffer_maintains clear_loop_maintains
  drain_loop_maintains : slices.
(** Through a program, advice by advice. *)
#[local] Ltac through_program :=
  repeat first
    [ solve [auto 3 with slices]
    | apply maintains_bind; [|intros ?]
    | apply maintains_when
    | apply advise_maintains; intros ? ?
    | match goal with |- maintains _ (match ?x with _ => _ end) => destruct x end ].

Lemma retransmit_unmeasured r : maintains unmeasured (Woven.retransmit c e MAX r : M unit).
Proof.
  assert (Hp : maintains unmeasured (Woven.retransmit_counted c MAX r : M unit)).
  { unfold Woven.retransmit_counted, Woven.retransmit_proceed, Woven.getRTO, Woven.slices. through_program. }
  unfold Woven.retransmit, Woven.slices. through_program; done.
Qed.
#[local] Hint Resolve retransmit_unmeasured : slices.

Lemma updateHistory_unmeasured b : maintains unmeasured (Woven.updateHistory c e MAX b : M unit).
Proof.
  assert (Hl : forall n r, maintains unmeasured (Woven.update_loop c e MAX b n r : M unit)).
  { induction n as [|n IH]; intros [r|]; cbn [Woven.update_loop]; through_program. }
  unfold Woven.updateHistory, Woven.tracked, abort, clearHistory. through_program.
Qed.
#[local] Hint Resolve updateHistory_unmeasured : slices.
Lemma request_unmeasured n : maintains unmeasured (Woven.requestSendBufferTCP c e MAX n : M _).
Proof. unfold Woven.requestSendBufferTCP. through_program. Qed.
#[local] Hint Resolve request_unmeasured : slices.

Lemma sendSegment_unmeasured n : maintains unmeasured (Woven.sendSegment c e MAX n : M bool).
Proof. unfold Woven.sendSegment, Woven.writeHeaderWithAck, Woven.lowerSendWindow, Woven.getRTO, Woven.slices. through_program; done. Qed.
#[local] Hint Resolve sendSegment_unmeasured : slices.

(** What the socket does, as far as it is advised. *)
Inductive activity :=
  | SendData | UpdateHistory (again : bool) | HandleACK (acknum : Z) | SendACK | CopyData (len : Z) | InitSendWindow (window seqnum acknum : Z)
  | UpdateSendWindow (segment : bytes) (seqnum acknum : Z) | SetMSS (size mss : Z) | GenInitialSeqnum.
Definition do_activity (a : activity) : M unit :=
  match a with
  | SendData => Woven.processSendData c e MAX
  | UpdateHistory again => Woven.updateHistory c e MAX again
  | HandleACK acknum => Woven.handleACK c acknum
  | SendACK => Woven.sendACK c e MAX;; mret ()
  | CopyData len => Woven.copyData c e MAX len
  | InitSendWindow w x y => Woven.initSendWindow c w x y
  | UpdateSendWindow p x y => Woven.updateSendWindow c e p x y
  | SetMSS size m => Woven.setMSS c size m
  | GenInitialSeqnum => Woven.gen_initial_seqnum c
  end.
Fixpoint do_activities (l : list activity) : M unit :=
  match l with [] => mret () | a :: l => do_activity a;; do_activities l end.

Lemma do_activity_unmeasured a : maintains unmeasured (do_activity a).
Proof.
  assert (Hloop : forall n, maintains unmeasured (Woven.send_loop c e MAX n : M unit)).
  { induction n; cbn [Woven.send_loop]; unfold Woven.getSendWindow, Woven.sendNextSegment, Woven.sendNextSegment_proceed, Woven.getSendWindow,
      Woven.slices, block; through_program. }
  assert (Hack : maintains unmeasured (Woven.sendACK c e MAX : M bool)).
  { unfold Woven.sendACK, Woven.sendACK_num, Woven.writeHeaderWithAck. through_program. }
  assert (Hfree : forall ps, maintains unmeasured (free_all ps : M unit)).
  { induction ps; cbn [free_all]; unfold freeReceivedSegment; through_program. }
  destruct a; cbn [do_activity].
  all: unfold Woven.processSendData, Woven.handleACK, Woven.set_seqnum_unacked, Woven.copyData, TCP_Socket.copyData, Woven.initSendWindow,
    Woven.updateSendWindow, Woven.setMSS, Woven.gen_initial_seqnum, TCP_Socket.gen_initial_seqnum; through_program; try done.
  by case_match.
Qed.

(** With the aspects woven as they are no round-trip time is ever measured: from the initial sequence number
    on, whatever the socket does, the timeout is never less than the six seconds it starts with. *)
Theorem rtt_never_measured (l : list activity) (s : sock) (sl : Slices) (w : W) (st : St) :
  rtt c = true -> do_activities (GenInitialSeqnum :: l) (s, (sl, w)) = Some ((), st) ->
  rrt_active st.2.1 = false ∧ srtt st.2.1 = 0 ∧ 6000 <= rto st.2.1 < 128000.
Proof.
  intros Hr E. assert (Hl : forall l, maintains unmeasured (do_activities l)).
  { clear l E. induction l as [|a l IH]; cbn [do_activities]; [apply maintains_ret|]. apply maintains_bind; [apply do_activity_unmeasured|done]. }
  cbn [do_activities] in E. unfold mbind, M_bind in E.
  destruct (do_activity GenInitialSeqnum (s, (sl, w))) as [[[] st1]|] eqn:E1; [|done]. apply (Hl _ _ _ _ E).
  cbn in E1. unfold Woven.gen_initial_seqnum in E1. rewrite Hr in E1. injection E1 as <-. split; [done|]. split; [done|]. cbn. lia.
Qed.
End Measurement.

(** ** Silly windows *)

Section Silly.
Context (c : Config) (e : endian) `{Clk : Clock} {H R W : Type}
  {HI : History SendBuffer.t H} {RI : ReceiveBuffer e R} {L : Lower W}.

(** The window announced to the peer is closed, or takes a full segment or half the buffer. *)
Lemma announced_window_not_silly (k : TCP_Socket.sock (H:=H) (R:=R)) :
  sws_recv c = true -> state k ≠ SYNSENT -> state k ≠ CLOSED ->
  let window := Woven.getReceiveWindow c e k in
  window = 0 ∨ mss k <= window ∨ maxReceiveWindow_Bytes k <= 2 * window.
Proof.
  intros Hc H1 H2 window. subst window. unfold Woven.getReceiveWindow. rewrite Hc, !bool_decide_eq_false_2 by done. cbn [negb andb].
  destruct (Z.ltb_spec (TCP_Socket.getReceiveWindow e k * 2) (maxReceiveWindow_Bytes k)); cbn [andb]; [|right; right; lia].
  destruct (Z.ltb_spec (TCP_Socket.getReceiveWindow e k) (mss k)); [by left|right; by left].
Qed.
End Silly.

(** ** Examples *)

Section Examples.
Import World TCP_SlowStart_Slice TCP_RTT_Estimation_Slice.
#[local] Existing Instances OneSlot.one_history list4.

Definition all_aspects : Config := MkConfig true true true true true.
(** Two segments are allowed, 36 bytes are in flight. *)
Definition slices_example : Slices := MkSlices 1072 4294967295 36 false 0 0 false 0 3000 6000 1000.

Lemma rto_follows_measurements_witness :
  let s' := fold_left (λ s m, measured m s) [100; 300; 200] slices_example in
  measured_within 100 300 s' ∧ 200 <= rto s' <= 1503.
Proof.
  destruct (rto_follows_measurements 100 300 ltac:(split; [lia|reflexivity]) [300; 200] 100 slices_example) as (_ & H1 & H2 & _).
  - reflexivity.
  - repeat constructor; lia.
  - split; [exact H1|]. exact H2.
Defined.

Lemma congestion_window_moves_witness :
  window_ok 536 (increment_cwnd 536 500 slices_example) ∧ cwnd (increment_cwnd 536 500 slices_example) = 1572.
Proof.
  apply (congestion_window_moves 536 ltac:(lia) all_aspects slices_example); [reflexivity| |unfold is_u16; lia].
  split; cbn; unfold is_u16; lia.
Defined.


Lemma rtt_never_measured_witness : exists st,
  do_activities all_aspects LE 5 [GenInitialSeqnum; SendData; HandleACK 0] (sender, (slices_example, quiet)) = Some ((), st)
  ∧ rrt_active st.2.1 = false ∧ srtt st.2.1 = 0 ∧ 6000 <= rto st.2.1 < 128000.
Proof.
  destruct (do_activities all_aspects LE 5 [GenInitialSeqnum; SendData; HandleACK 0] (sender, (slices_example, quiet))) as [[[] st]|] eqn:E.
  - exists st. split; [reflexivity|].
    exact (rtt_never_measured all_aspects LE 5 [SendData; HandleACK 0] sender slices_example quiet st eq_refl E).
  - exfalso. revert E. vm_compute. discriminate.
Defined.

(** Doubling passes the upper bound: the timeout is 96 s after four losses and 64 s after five. *)
Example backoff_exceeds_bound :
  map (λ n, rto (Nat.iter n (abort_RTT_Estimation true) slices_example)) [3; 4; 5]%nat = [48000; 96000; 64000].
Proof. reflexivity. Qed.

(** The first measurement sets the timeout to five times the measured time; RFC 6298 and the comment in the
    code say three times. *)
Example first_timeout : rto (update_SRTT 100 slices_example) = 500.
Proof. reflexivity. Qed.

(** With an open congestion window and 65500 bytes in flight the next segment makes the 16-bit counter wrap:
    500 bytes count as in flight. *)
Example outstanding_wraps :
  (λ r, outstanding_bytes (r.2.2.1)) <$>
    Woven.processSendData all_aspects LE 5 (sender, (slices_example <| cwnd := 70000 |> <| outstanding_bytes := 65500 |>, quiet))
  = Some 500.
Proof. vm_compute. reflexivity. Qed.

(** A retransmitted packet without data counts as fifteen bytes. *)
Example header_counts : Woven.counted_length LE (SendBuffer.mk 4096 20 SendBuffer.WritingState plain_syn 20 0) = 15.
Proof. reflexivity. Qed.
End Examples.
