(* ===== verification/Addresses.v ===== *)
(** * Addresses: IPv6 and Ethernet addresses, their text and their prefixes

    Models [ipv6/IPv6AddressUtilities.cpp] (scopes, comparison by prefix,
    parsing, printing) and [ethernet/EthernetAddressUtilities.cpp].  A
    character is its code, a string a list of codes with its terminating 0 in
    it; reading behind the string or writing behind a local array answers
    [None]. *)

From S2P Require Import Prelude.

Open Scope Z_scope.

(** The characters the code names. *)
Definition c_colon : Z := 58.

(** ** Digits *)

(** Both files have the same two functions. *)
Definition numberFromAscii (c : Z) : Z :=
  match c with
  | 48 => 0 | 49 => 1 | 50 => 2 | 51 => 3 | 52 => 4 | 53 => 5 | 54 => 6 | 55 => 7 | 56 => 8 | 57 => 9
  | 97 | 65 => 10 | 98 | 66 => 11 | 99 | 67 => 12 | 100 | 68 => 13 | 101 | 69 => 14 | 102 | 70 => 15
  | _ => 0
  end.

Definition numberToAscii (digit : Z) : Z :=
  match digit with
  | 0 => 48 | 1 => 49 | 2 => 50 | 3 => 51 | 4 => 52 | 5 => 53 | 6 => 54 | 7 => 55 | 8 => 56 | 9 => 57
  | 10 => 97 | 11 => 98 | 12 => 99 | 13 => 100 | 14 => 101 | 15 => 102
  | _ => 32
  end.

Lemma below_16 (P : Z -> Prop) : (forall i, (i < 16)%nat -> P (Z.of_nat i)) -> forall d, 0 <= d < 16 -> P d.
Proof. intros H d Hd. replace d with (Z.of_nat (Z.to_nat d)) by lia. apply H. lia. Qed.

Ltac upto16 := intros i Hi; do 16 (destruct i as [|i]; [try reflexivity|]); lia.

Lemma number_roundtrip d : 0 <= d < 16 -> numberFromAscii (numberToAscii d) = d.
Proof. revert d. apply below_16. upto16. Qed.

(** A digit is neither the colon nor the terminator. *)
Lemma numberToAscii_digit d : 0 <= d < 16 -> numberToAscii d ≠ c_colon ∧ numberToAscii d ≠ 0.
Proof.
  revert d. apply (below_16 (λ d, numberToAscii d ≠ c_colon ∧ numberToAscii d ≠ 0)).
  intros i Hi. do 16 (destruct i as [|i]; [by split|]). lia.
Qed.

(** [numberFromAscii] yields a half byte for whatever character. *)
Lemma numberFromAscii_range c : 0 <= numberFromAscii c < 16.
Proof.
  unfold numberFromAscii.
  repeat match goal with |- context [match ?x with _ => _ end] => destruct x; try lia end.
Qed.

(** ** IPv6 *)

Module IPv6.

(** *** Scopes *)

Inductive IPv6_ADDRESS_SCOPE :=
  IPV6_SCOPE_NONDEFINED | IPV6_SCOPE_LOOPBACK | IPV6_SCOPE_LINKLOCAL
| IPV6_SCOPE_UNIQUE_LOCAL_UNICAST | IPV6_SCOPE_MULTICAST | IPV6_SCOPE_GLOBAL_UNICAST
| IPV6_SCOPE_NOT_RECOGNICED.
#[global] Instance scope_eq_dec : EqDecision IPv6_ADDRESS_SCOPE.
Proof. solve_decision. Defined.

Definition getIPv6AddressScopePrefixLength (s : IPv6_ADDRESS_SCOPE) : Z :=
  match s with
  | IPV6_SCOPE_LINKLOCAL => 64
  | IPV6_SCOPE_GLOBAL_UNICAST => 3
  | IPV6_SCOPE_MULTICAST => 8
  | IPV6_SCOPE_UNIQUE_LOCAL_UNICAST => 7
  | _ => 0
  end.

(** Byte [i] of an address. *)
Definition B8 (a : bytes) (i : nat) : Z := nth i a 0.

Definition getIPv6AddressScope (addr : bytes) : IPv6_ADDRESS_SCOPE :=
  if Z.land (B8 addr 0) 0x30 =? 1 then IPV6_SCOPE_GLOBAL_UNICAST
  else if B8 addr 0 =? 0xff then IPV6_SCOPE_MULTICAST
  else if (B8 addr 0 =? 0xfe) && (B8 addr 1 =? 0x80) then IPV6_SCOPE_LINKLOCAL
  else if (B8 addr 0 =? 0xfc) || (B8 addr 0 =? 0xfd) then IPV6_SCOPE_UNIQUE_LOCAL_UNICAST
  else if forallb (λ i, B8 addr i =? 0) [0; 1; 2; 3; 4; 5; 6; 7; 8; 9]%nat then
    if (B8 addr 10 =? 0xff) && (B8 addr 11 =? 0xff) then IPV6_SCOPE_GLOBAL_UNICAST
    else if (B8 addr 10 =? 0) && (B8 addr 12 =? 0) && (B8 addr 13 =? 0) && (B8 addr 14 =? 0) then
      if B8 addr 15 =? 0 then IPV6_SCOPE_NONDEFINED
      else if B8 addr 15 =? 1 then IPV6_SCOPE_LOOPBACK
      else IPV6_SCOPE_NOT_RECOGNICED
    else IPV6_SCOPE_NOT_RECOGNICED
  else IPV6_SCOPE_NOT_RECOGNICED.

(** *** Whole addresses *)

Definition copy_ipv6_addr (src : bytes) : bytes := take 16 src.
Definition get_unspecified_ipv6_address : bytes := repeat 0 16.

(** [u] is a [char]; only whether it is 0 matters. *)
Definition is_not_unspecified_ipv6_address (dest : bytes) : bool :=
  negb (foldl (λ u i, u8 (Z.lor u (B8 dest i))) 0 (seq 0 16) =? 0).

Definition solicitedNode_multicast_addr (src : bytes) : bytes :=
  [0xff; 0x02; 0; 0; 0; 0; 0; 0; 0; 0; 0; 0x01; 0xff; B8 src 13; B8 src 14; B8 src 15].

Definition same_ipv6_addr (addr addr2 : bytes) : bool := bool_decide (take 16 addr = take 16 addr2).

(** *** Prefixes *)

(** The mask for the last [prefixlen] bits; [^] is exclusive or. *)
Definition prefix_mask (prefixlen : Z) : Z := u8 (Z.lnot (Z.lxor 2 (7 - prefixlen) - 1)).

(** The loop, from [block] on, [n] rounds left. *)
Fixpoint compare_loop (addr addrprefix : bytes) (n block : nat) (prefixlen : Z) : bool :=
  match n with
  | O => true
  | S n =>
      if 8 <=? prefixlen then
        if negb (B8 addr block =? B8 addrprefix block) then false
        else
          let prefixlen := prefixlen - 8 in
          if prefixlen =? 0 then true else compare_loop addr addrprefix n (S block) prefixlen
      else
        let mask := prefix_mask prefixlen in
        Z.land (B8 addr block) mask =? Z.land (B8 addrprefix block) mask
  end.
Definition compare_ipv6_addr (addr addrprefix : bytes) (prefixlen : Z) : bool :=
  compare_loop addr addrprefix 16 0 prefixlen.

(** *** Text *)

(** Length of the block at [p]: the characters up to a colon or the end. *)
Fixpoint block_length (s : list Z) : option nat :=
  match s with
  | [] => None
  | c :: s => if negb (c =? c_colon) && negb (c =? 0) then S <$> block_length s else Some 0%nat
  end.

(** Digit [i] of the block, from the right, in [blockdata], zeroed before. *)
Definition blockdata (block : list Z) (i : nat) : Z :=
  if decide (i < length block)%nat then numberFromAscii (nth (length block - 1 - i) block 0) else 0.

(** The bytes of a block of the text. *)
Definition block_bytes (block : list Z) : Z * Z :=
  (u8 (Z.lor (blockdata block 2) (Z.shiftl (blockdata block 3) 4)),
   u8 (Z.lor (blockdata block 0) (Z.shiftl (blockdata block 1) 4))).

(** The loop at the string [s] (the rest of [addrstr]); the length of a block
    is a [uint8_t], [blockdata] has four places. *)
Fixpoint parse_loop (n : nat) (blockIndex : nat) (s : list Z) (ipaddr : bytes) : option (nat * bytes) :=
  match n with
  | O => Some (blockIndex, ipaddr)
  | S n =>
      count ← block_length s;
      let blockLength := (count mod 256)%nat in
      let s := drop (count - blockLength) s in
      if decide (4 < blockLength)%nat then None
      else
        let (hi, lo) := block_bytes (take blockLength s) in
        let ipaddr := <[(blockIndex * 2 + 1)%nat := lo]> (<[(blockIndex * 2)%nat := hi]> ipaddr) in
        let s := drop blockLength s in
        c ← head s;
        if c =? 0 then Some (S blockIndex, ipaddr)
        else parse_loop n (S blockIndex) (tail s) ipaddr
  end.

Definition parse_ipv6_addr (addrstr : list Z) (ipaddr : bytes) : option (bool * bytes) :=
  '(blockIndex, ipaddr) ← parse_loop 8 0 addrstr ipaddr;
  Some (bool_decide (blockIndex = 8%nat), ipaddr).

(** The digits of block [b], and the text: 39 characters, no terminator. *)
Definition block_text (ipaddr : bytes) (b : nat) : list Z :=
  [numberToAscii (Z.shiftr (B8 ipaddr (b * 2)) 4); numberToAscii (Z.land (B8 ipaddr (b * 2)) 0x0f);
   numberToAscii (Z.shiftr (B8 ipaddr (b * 2 + 1)) 4); numberToAscii (Z.land (B8 ipaddr (b * 2 + 1)) 0x0f)].
Definition ipv6_addr_toString (ipaddr : bytes) : list Z :=
  concat (map (λ b, block_text ipaddr b ++ (if decide (b < 7)%nat then [c_colon] else [])) (seq 0 8)).

End IPv6.

(** ** What the text functions do *)

Section Text.
Import IPv6.

(** A block: at most four characters, none of them a colon or the end. *)
Definition is_block (b : list Z) : Prop :=
  (length b <= 4)%nat ∧ Forall (λ c, c ≠ c_colon ∧ c ≠ 0) b.

Fixpoint join (blocks : list (list Z)) : list Z :=
  match blocks with
  | [] => []
  | [b] => b
  | b :: bs => b ++ c_colon :: join bs
  end.

(** The value of a block: its digits in base 16. *)
Definition block_value (b : list Z) : Z := foldl (λ v c, v * 16 + numberFromAscii c) 0 b.

Lemma block_length_stop b c s : Forall (λ c, c ≠ c_colon ∧ c ≠ 0) b -> c = c_colon ∨ c = 0 ->
  block_length (b ++ c :: s) = Some (length b).
Proof.
  intros Hb Hc. induction Hb as [|x b [H1 H2] _ IH]; cbn [app block_length].
  - destruct Hc as [-> | ->]; [by rewrite Z.eqb_refl|by rewrite andb_false_r].
  - apply Z.eqb_neq in H1, H2. rewrite H1, H2. cbn [negb andb]. by rewrite IH.
Qed.

Lemma half_or a b : 0 <= a < 16 -> 0 <= b < 16 -> u8 (Z.lor a (Z.shiftl b 4)) = b * 16 + a.
Proof.
  intros Ha Hb. rewrite Z.lor_comm, lor_shiftl_add by lia. apply u8_id. unfold is_u8. lia.
Qed.

(** The two bytes of a block are its value in network order. *)
Lemma block_bytes_value b : (length b <= 4)%nat ->
  block_bytes b = (block_value b / 256, block_value b mod 256).
Proof.
  intros Hl. unfold block_bytes.
  assert (Hd : forall i, 0 <= blockdata b i < 16)
    by (intros i; unfold blockdata; destruct (decide _); [apply numberFromAscii_range|lia]).
  rewrite !half_or by apply Hd.
  assert (E : block_value b = ((blockdata b 3 * 16 + blockdata b 2) * 16 + blockdata b 1) * 16 + blockdata b 0).
  { unfold block_value, blockdata.
    destruct b as [|b0 [|b1 [|b2 [|b3 [|]]]]]; cbn [length] in Hl |- *; repeat destruct (decide _);
      cbn -[numberFromAscii]; lia. }
  pose proof (Hd 0%nat). pose proof (Hd 1%nat). pose proof (Hd 2%nat). pose proof (Hd 3%nat).
  rewrite E. f_equal; zlia.
Qed.

(** The loop reads [blocks], with [front] written and [back] still to be. *)
Lemma parse_loop_blocks blocks n idx front back rest :
  blocks ≠ [] -> (length blocks <= n)%nat -> Forall is_block blocks ->
  length front = (idx * 2)%nat -> length back = (n * 2)%nat ->
  parse_loop n idx (join blocks ++ 0 :: rest) (front ++ back)
  = Some ((idx + length blocks)%nat,
          front ++ concat (map (λ b, [block_value b / 256; block_value b mod 256]) blocks)
          ++ drop (length blocks * 2) back).
Proof.
  revert n idx front back. induction blocks as [|b blocks IH]; intros n idx front back Hne Hn Hb Hf Hk;
    [done|]. destruct n as [|n]; [cbn in Hn; lia|].
  apply Forall_cons in Hb as [[Hb1 Hb2] Hb]. destruct back as [|x [|y back]]; [done|done|].
  assert (Hs : exists c s', join (b :: blocks) ++ 0 :: rest = b ++ c :: s' ∧ (c = c_colon ∨ c = 0)
    ∧ (blocks = [] -> c = 0) ∧ (blocks ≠ [] -> c ≠ 0 ∧ s' = join blocks ++ 0 :: rest)).
  { destruct blocks as [|b' bs].
    - exists 0, rest. split; [done|]. split; [by right|done].
    - exists c_colon, (join (b' :: bs) ++ 0 :: rest). cbn [join]. split; [by rewrite <- app_assoc|].
      split; [by left|done]. }
  destruct Hs as (c & s' & Es & Hc & Hc0 & Hc1). cbn [parse_loop]. rewrite Es.
  rewrite block_length_stop by done. cbn [mbind option_bind].
  rewrite (Nat.mod_small (length b)) by lia. rewrite Nat.sub_diag.
  destruct (decide (4 < length b)%nat); [lia|].
  rewrite !drop_0, take_app_length, drop_app_length, block_bytes_value by lia. cbn [head mbind option_bind].
  set (v := block_value b).
  assert (Ei : <[(idx * 2 + 1)%nat:=v mod 256]> (<[(idx * 2)%nat:=v / 256]> (front ++ x :: y :: back))
    = (front ++ [v / 256; v mod 256]) ++ back).
  { rewrite <- Hf, insert_app_r_alt, Nat.sub_diag by lia. cbn [insert list_insert].
    rewrite insert_app_r_alt by lia. replace (length front + 1 - length front)%nat with 1%nat by lia.
    cbn. by rewrite <- app_assoc. }
  rewrite Ei. destruct (decide (blocks = [])) as [->|Hbl].
  - rewrite (Hc0 eq_refl). cbn. rewrite <- app_assoc, Nat.add_1_r. done.
  - destruct (Hc1 Hbl) as [Hc2 ->]. apply Z.eqb_neq in Hc2. rewrite Hc2. cbn [tail].
    rewrite IH; [|done|cbn in Hn; lia|done|rewrite length_app; cbn; lia|cbn in Hk; lia].
    cbn [length map concat]. f_equal. f_equal; [lia|]. by rewrite <- !app_assoc.
Qed.
End Text.

(** ** Ethernet addresses *)

Module Ethernet.

Definition is_eth_addr_set (eth_addr : bytes) : bool :=
  negb (nth 3 eth_addr 0 =? 0) || negb (nth 4 eth_addr 0 =? 0) || negb (nth 5 eth_addr 0 =? 0).

Definition numberFromAsciiE : Z -> Z := numberFromAscii.
Definition numberToAsciiE : Z -> Z := numberToAscii.

(** Two digits of the byte [b]; of the first byte the lower half is shifted. *)
Definition low_digits (b : Z) : list Z :=
  [numberToAsciiE (Z.shiftr (Z.land b 0x0f) 4); numberToAsciiE (Z.land b 0x0f)].
Definition digits (b : Z) : list Z := [numberToAsciiE (Z.shiftr b 4); numberToAsciiE (Z.land b 0x0f)].

Definition ethernet_addr_tostring (eth_addr : bytes) : list Z :=
  low_digits (nth 0 eth_addr 0) ++ [c_colon] ++ digits (nth 1 eth_addr 0) ++ [c_colon]
  ++ digits (nth 2 eth_addr 0) ++ [c_colon] ++ digits (nth 3 eth_addr 0) ++ [c_colon]
  ++ digits (nth 4 eth_addr 0) ++ [c_colon] ++ digits (nth 5 eth_addr 0).

(** The inner loop: up to [n] digits into [blockdata], the rest of the string. *)
Fixpoint read_digits (n position : nat) (s : list Z) (blockdata : list Z) : option (list Z * list Z) :=
  match n with
  | O => Some (blockdata, s)
  | S n =>
      c ← head s;
      if c =? c_colon then Some (blockdata, s)
      else read_digits n (S position) (tail s) (<[position := numberFromAsciiE c]> blockdata)
  end.

Fixpoint parse_loop (n blockIndex : nat) (s : list Z) (eth_addr : bytes) : option (nat * bytes) :=
  match n with
  | O => Some (blockIndex, eth_addr)
  | S n =>
      '(blockdata, s) ← read_digits 2 0 s [0; 0];
      let byte := u8 (Z.lor (nth 1 blockdata 0) (Z.shiftl (nth 0 blockdata 0) 4)) in
      let eth_addr := <[blockIndex := byte]> eth_addr in
      c ← head s;
      if c =? 0 then Some (S blockIndex, eth_addr) else parse_loop n (S blockIndex) (tail s) eth_addr
  end.

Definition parse_ethernet_addr (addrstr : list Z) (eth_addr : bytes) : option (bool * bytes) :=
  '(blockIndex, eth_addr) ← parse_loop 6 0 addrstr eth_addr;
  Some (bool_decide (blockIndex = 6%nat), eth_addr).

End Ethernet.

(** ** What the addresses' functions guarantee *)

Section Guarantees.
Import IPv6.

(** An address: sixteen bytes. *)
Definition is_addr (a : bytes) : Prop := length a = 16%nat ∧ Forall is_u8 a.

Lemma B8_u8 a i : is_addr a -> is_u8 (B8 a i).
Proof.
  intros [_ Ha]. unfold B8. destruct (decide (i < length a)%nat) as [Hi|Hi].
  - by apply (proj1 (List.Forall_forall _ _) Ha), nth_In.
  - rewrite nth_overflow by lia. unfold is_u8. lia.
Qed.

Lemma halves b : is_u8 b -> 0 <= Z.shiftr b 4 < 16 ∧ 0 <= Z.land b 15 < 16 ∧ Z.shiftr b 4 * 16 + Z.land b 15 = b.
Proof.
  unfold is_u8. intros Hb. change 15 with (Z.ones 4). rewrite Z.land_ones, Z.shiftr_div_pow2 by lia.
  change (2 ^ 4) with 16. zlia.
Qed.

Lemma digit_block a b : is_addr a -> is_block (block_text a b).
Proof.
  intros Ha. split; [done|]. destruct (halves _ (B8_u8 _ (b * 2) Ha)) as (?&?&_).
  destruct (halves _ (B8_u8 _ (b * 2 + 1) Ha)) as (?&?&_).
  unfold block_text. repeat (apply Forall_cons; split; [by apply numberToAscii_digit|]). by apply Forall_nil.
Qed.

Lemma digit_block_value a b : is_addr a ->
  block_value (block_text a b) = B8 a (b * 2) * 256 + B8 a (b * 2 + 1).
Proof.
  intros Ha. destruct (halves _ (B8_u8 _ (b * 2) Ha)) as (?&?&E1).
  destruct (halves _ (B8_u8 _ (b * 2 + 1) Ha)) as (?&?&E2).
  unfold block_value, block_text. cbn [foldl]. rewrite !number_roundtrip by done. lia.
Qed.

Lemma toString_join a : ipv6_addr_toString a = join (map (block_text a) (seq 0 8)).
Proof. reflexivity. Qed.

(** Reading a text of one to eight blocks of at most four hexadecimal
    digits writes the value of each block in network order; the answer is
    success exactly when there are eight, and without eight the bytes of the
    blocks read are written nevertheless. *)
Theorem parse_ipv6_addr_blocks (blocks : list (list Z)) (rest : list Z) (ipaddr : bytes) :
  blocks ≠ [] -> (length blocks <= 8)%nat -> Forall is_block blocks -> length ipaddr = 16%nat ->
  parse_ipv6_addr (join blocks ++ 0 :: rest) ipaddr
  = Some (bool_decide (length blocks = 8%nat),
          concat (map (λ b, [block_value b / 256; block_value b mod 256]) blocks)
          ++ drop (length blocks * 2) ipaddr).
Proof.
  intros Hne Hn Hb Hi. unfold parse_ipv6_addr. change ipaddr with ([] ++ ipaddr) at 1.
  by rewrite parse_loop_blocks.
Qed.

(** The text of an address reads back as the address. *)
Theorem ipv6_addr_text_roundtrip (a ipaddr : bytes) :
  is_addr a -> length ipaddr = 16%nat ->
  length (ipv6_addr_toString a) = 39%nat
  ∧ parse_ipv6_addr (ipv6_addr_toString a ++ [0]) ipaddr = Some (true, a).
Proof.
  intros Ha Hi. split; [done|]. unfold parse_ipv6_addr. rewrite toString_join.
  change ipaddr with ([] ++ ipaddr). rewrite parse_loop_blocks; [|done|done| |done|done].
  2:{ apply Forall_map, Forall_true. intros b. by apply digit_block. }
  rewrite length_map, length_seq, drop_ge, app_nil_r by lia. cbn [app mbind option_bind].
  f_equal. f_equal. rewrite map_map.
  rewrite (map_ext _ (λ b, [B8 a (b * 2); B8 a (b * 2 + 1)])).
  2:{ intros b. rewrite digit_block_value by done.
      pose proof (B8_u8 _ (b * 2) Ha). pose proof (B8_u8 _ (b * 2 + 1) Ha). unfold is_u8 in *.
      f_equal; [zlia|f_equal; zlia]. }
  destruct Ha as [Hl _]. do 16 (destruct a as [|? a]; [done|]). by destruct a.
Qed.

(** *** Prefixes *)

(** Bit [i] of an address, from the first bit sent. *)
Definition addr_bit (a : bytes) (i : nat) : bool :=
  Z.testbit (B8 a (i / 8)) (7 - Z.of_nat (i mod 8)).

(** The first [n] bits of two addresses are the same. *)
Definition same_prefix (a b : bytes) (n : nat) : Prop := forall i, (i < n)%nat -> addr_bit a i = addr_bit b i.
#[export] Instance same_prefix_dec a b n : Decision (same_prefix a b n).
Proof.
  unfold same_prefix. destruct (decide (Forall (λ i, addr_bit a i = addr_bit b i) (seq 0 n))) as [H|H];
    rewrite List.Forall_forall in H; [left|right].
  - intros i Hi. apply H, in_seq. lia.
  - intros H'. apply H. intros i Hi%in_seq. apply H'. lia.
Defined.

(** The first [r] bits of a byte are those under the mask of [r] leading ones. *)
Lemma land_leading r x y : is_u8 x -> is_u8 y -> (r <= 8)%nat ->
  Z.land x (Z.shiftl (Z.ones (Z.of_nat r)) (8 - Z.of_nat r))
  = Z.land y (Z.shiftl (Z.ones (Z.of_nat r)) (8 - Z.of_nat r))
  <-> forall i, (i < r)%nat -> Z.testbit x (7 - Z.of_nat i) = Z.testbit y (7 - Z.of_nat i).
Proof.
  intros Hx Hy Hr. split.
  - intros E i Hi. apply (f_equal (λ z, Z.testbit z (7 - Z.of_nat i))) in E.
    rewrite !Z.land_spec, Z.shiftl_spec, Z.ones_spec_low in E by lia. by rewrite !andb_true_r in E.
  - intros H. apply Z.bits_inj'. intros k Hk. rewrite !Z.land_spec, Z.shiftl_spec by lia.
    destruct (decide (8 - Z.of_nat r <= k < 8)) as [Hk'|Hk'].
    + specialize (H (Z.to_nat (7 - k)) ltac:(lia)). rewrite Z2Nat.id in H by lia.
      replace (7 - (7 - k)) with k in H by lia. by rewrite H.
    + destruct (decide (k < 8 - Z.of_nat r)) as [Hl|Hl].
      * rewrite (Z.testbit_neg_r (Z.ones _)) by lia. by rewrite !andb_false_r.
      * rewrite Z.ones_spec_high by lia. by rewrite !andb_false_r.
Qed.

Lemma byte_bits x y : is_u8 x -> is_u8 y ->
  x = y <-> forall i, (i < 8)%nat -> Z.testbit x (7 - Z.of_nat i) = Z.testbit y (7 - Z.of_nat i).
Proof.
  intros Hx Hy. rewrite <- (land_leading 8 x y) by (try done; lia).
  change (Z.shiftl _ _) with (Z.ones 8). rewrite !Z.land_ones by lia.
  unfold is_u8 in *. rewrite !Z.mod_small by (cbn; lia). done.
Qed.

(** The bits of block [b] are bits of the address. *)
Lemma addr_bit_block a b i : (i < 8)%nat -> addr_bit a (b * 8 + i) = Z.testbit (B8 a b) (7 - Z.of_nat i).
Proof.
  intros Hi. unfold addr_bit. rewrite Nat.add_comm, Nat.div_add, Nat.Div0.mod_add, Nat.div_small, Nat.mod_small by lia.
  done.
Qed.

(** The lengths the comparison is right for. *)
Definition good_prefixlen (p : Z) : Prop := (p mod 8 = 0 ∧ p ≠ 0) ∨ p mod 8 = 7.
#[export] Instance good_prefixlen_dec p : Decision (good_prefixlen p).
Proof. unfold good_prefixlen. apply _. Defined.

Lemma compare_loop_bits a b n block p :
  is_addr a -> is_addr b -> good_prefixlen p -> 0 <= p <= 8 * Z.of_nat n ->
  compare_loop a b n block p = true
  <-> forall i, (i < Z.to_nat p)%nat -> addr_bit a (block * 8 + i) = addr_bit b (block * 8 + i).
Proof.
  intros Ha Hb. revert block p. induction n as [|n IH]; intros block p Hg Hp; cbn [compare_loop].
  { split; [intros _ i Hi; lia|done]. }
  destruct (Z.leb_spec 8 p) as [H8|H8].
  - destruct (Z.eqb_spec (B8 a block) (B8 b block)) as [E|E]; cbn [negb].
    2:{ split; [done|]. intros H. exfalso. apply E, byte_bits; [by apply B8_u8|by apply B8_u8|].
        intros i Hi. rewrite <- !addr_bit_block by done. apply H. lia. }
    assert (Hfirst : forall i, (i < 8)%nat -> addr_bit a (block * 8 + i) = addr_bit b (block * 8 + i))
      by (intros i Hi; rewrite !addr_bit_block, E by done; done).
    destruct (Z.eqb_spec (p - 8) 0) as [H0|H0].
    { split; [|done]. intros _ i Hi. apply Hfirst. lia. }
    rewrite IH; [|unfold good_prefixlen in *; zlia|lia]. split; intros H i Hi.
    + destruct (decide (i < 8)%nat); [by apply Hfirst|].
      replace (block * 8 + i)%nat with (S block * 8 + (i - 8))%nat by lia. apply H. lia.
    + replace (S block * 8 + i)%nat with (block * 8 + (i + 8))%nat by lia. apply H. lia.
  - assert (p = 7) as -> by (unfold good_prefixlen in Hg; zlia).
    change (prefix_mask 7) with (Z.shiftl (Z.ones (Z.of_nat 7)) (8 - Z.of_nat 7)).
    rewrite Z.eqb_eq, land_leading; [|by apply B8_u8|by apply B8_u8|lia].
    change (Z.to_nat 7) with 7%nat.
    split; intros H i Hi; specialize (H i Hi); by rewrite !addr_bit_block in * by lia.
Qed.

(** Two addresses the comparison is wrong about, for a bad length: all zeros,
    and one with one bit set. *)
Definition telltale (p : Z) : bytes :=
  <[Z.to_nat (p / 8) := nth (Z.to_nat (p mod 8)) [0x01; 0x40; 0x20; 0x10; 0x08; 0x80; 0x01] 0]> (repeat 0 16).

Lemma telltales : Forall (λ p, ¬ good_prefixlen p ->
  compare_ipv6_addr (telltale p) (repeat 0 16) p ≠ bool_decide (same_prefix (telltale p) (repeat 0 16) (Z.to_nat p)))
  (map Z.of_nat (seq 0 128)).
Proof.
  apply (bool_decide_unpack _). vm_compute. exact I.
Qed.

(** The comparison of an address with a prefix is "the first [prefixlen] bits are
    the same" for all addresses exactly when the length ends on a byte (and is not 0)
    or one bit before one: the mask of a partial byte is computed with an exclusive
    or for a power, and is right for seven bits only. *)
Theorem compare_ipv6_addr_exact (p : Z) : 0 <= p <= 128 ->
  (forall a b, is_addr a -> is_addr b -> compare_ipv6_addr a b p = bool_decide (same_prefix a b (Z.to_nat p)))
  <-> good_prefixlen p.
Proof.
  intros Hp. split.
  - intros H. destruct (decide (good_prefixlen p)) as [|Hg]; [done|]. exfalso.
    assert (Hp' : p < 128) by (destruct (decide (p = 128)) as [->|]; [exfalso; apply Hg; by left|lia]).
    refine (proj1 (List.Forall_forall _ _) telltales p _ Hg (H _ _ _ _)).
    + apply in_map_iff. exists (Z.to_nat p). split; [lia|]. apply in_seq. lia.
    + split; [unfold telltale; by rewrite length_insert|]. unfold telltale.
      apply is_bytes_insert; [by repeat constructor|].
      assert (H8 := Z.mod_pos_bound p 8 ltac:(lia)). generalize dependent (Z.to_nat (p mod 8)). intros k.
      do 7 (destruct k as [|k]; [done|]). by destruct k.
    + split; [done|]. by repeat constructor.
  - intros Hg a b Ha Hb. apply eq_true_iff_eq. rewrite bool_decide_eq_true.
    exact (compare_loop_bits a b 16 0 p Ha Hb Hg ltac:(lia)).
Qed.

(** *** Scopes *)

(** A prefix of whole bytes. *)
Lemma same_prefix_bytes a b k : is_addr a -> is_addr b ->
  same_prefix a b (k * 8) <-> forall i, (i < k)%nat -> B8 a i = B8 b i.
Proof.
  intros Ha Hb. split; intros H i Hi.
  - apply byte_bits; [by apply B8_u8|by apply B8_u8|]. intros j Hj.
    rewrite <- !addr_bit_block by done. apply H. lia.
  - rewrite (Nat.div_mod i 8) by lia. rewrite (Nat.mul_comm 8).
    assert (i mod 8 < 8)%nat by (apply Nat.mod_upper_bound; lia).
    rewrite !addr_bit_block, H by (try done; apply Nat.Div0.div_lt_upper_bound; lia). done.
Qed.

(** The test for 2000::/3 holds for no address: the bit compared with is not under the mask. *)
Lemma global_test x : (Z.land x 0x30 =? 1) = false.
Proof.
  apply Z.eqb_neq. intros E. apply (f_equal (λ z, Z.testbit z 0)) in E.
  rewrite Z.land_spec, andb_false_r in E. done.
Qed.

(** The mask of seven bits leaves fc and fd. *)
Lemma unique_local_test x : is_u8 x -> (Z.land x (prefix_mask 7) =? Z.land 0xfc (prefix_mask 7)) = ((x =? 0xfc) || (x =? 0xfd)).
Proof.
  intros Hx.
  assert (H : Forall (λ x, (Z.land x (prefix_mask 7) =? Z.land 0xfc (prefix_mask 7)) = ((x =? 0xfc) || (x =? 0xfd)))
    (map Z.of_nat (seq 0 256))) by (apply (bool_decide_unpack _); vm_compute; exact I).
  apply (proj1 (List.Forall_forall _ _) H), in_map_iff. exists (Z.to_nat x). unfold is_u8 in Hx.
  split; [lia|apply in_seq; lia].
Qed.

(** The prefixes of the comments: multicast, link local, unique local, IPv4 mapped. *)
Definition p_multicast : bytes := 0xff :: repeat 0 15.
Definition p_linklocal : bytes := [0xfe; 0x80] ++ repeat 0 14.
Definition p_unique_local : bytes := 0xfc :: repeat 0 15.
Definition p_v4mapped : bytes := repeat 0 10 ++ [0xff; 0xff; 0; 0; 0; 0].

Lemma is_addr_literal a : length a = 16%nat -> forallb (λ b, (0 <=? b) && (b <? 256)) a = true -> is_addr a.
Proof.
  intros Hl H. split; [done|]. apply List.Forall_forall. intros b Hb.
  rewrite forallb_forall in H. specialize (H b Hb). unfold is_u8. lia.
Qed.

Lemma all_below (P : nat -> Prop) k : (forall i, (i < S k)%nat -> P i) <-> (forall i, (i < k)%nat -> P i) ∧ P k.
Proof.
  split; [intros H; split; [intros i Hi|]; apply H; lia|].
  intros [H Hk] i Hi. destruct (decide (i = k)) as [->|]; [done|apply H; lia].
Qed.
Lemma below_0 (P : nat -> Prop) : (forall i, (i < 0)%nat -> P i) <-> True.
Proof. split; [done|]. intros _ i Hi. lia. Qed.

(** The prefixes in bytes. *)
Lemma multicast_bytes a : is_addr a -> same_prefix a p_multicast 8 <-> B8 a 0 = 0xff.
Proof.
  intros Ha. rewrite (same_prefix_bytes a p_multicast 1) by (try done; by apply is_addr_literal).
  rewrite !all_below, below_0. cbn. tauto.
Qed.
Lemma linklocal_bytes a : is_addr a -> same_prefix a p_linklocal 16 <-> B8 a 0 = 0xfe ∧ B8 a 1 = 0x80.
Proof.
  intros Ha. rewrite (same_prefix_bytes a p_linklocal 2) by (try done; by apply is_addr_literal).
  rewrite !all_below, below_0. cbn. tauto.
Qed.
Lemma v4mapped_bytes a : is_addr a ->
  same_prefix a p_v4mapped 96
  <-> forallb (λ i, B8 a i =? 0) (seq 0 10) = true ∧ B8 a 10 = 0xff ∧ B8 a 11 = 0xff.
Proof.
  intros Ha. rewrite (same_prefix_bytes a p_v4mapped 12) by (try done; by apply is_addr_literal).
  rewrite !all_below, below_0. cbn [seq forallb]. rewrite !andb_true_iff, !Z.eqb_eq. cbn. tauto.
Qed.
Lemma unique_local_bytes a : is_addr a ->
  same_prefix a p_unique_local 7 <-> B8 a 0 = 0xfc ∨ B8 a 0 = 0xfd.
Proof.
  intros Ha. rewrite <- Z.eqb_eq, <- (Z.eqb_eq _ 0xfd), <- orb_true_iff, <- unique_local_test by (by apply B8_u8).
  symmetry. exact (compare_loop_bits a p_unique_local 16 0 7 Ha ltac:(by apply is_addr_literal)
    ltac:(by right) ltac:(lia)).
Qed.

(** The scope of an address is the one of its prefix: multicast for ff00::/8, unique
    local for fc00::/7, link local for fe80::/16 (the comment says /64), global for
    ::ffff:0:0/96 - and for no other address, the global unicast prefix 2000::/3 among
    them.  The solicited-node address of any address is multicast. *)
Theorem getIPv6AddressScope_prefixes (a : bytes) : is_addr a ->
  (getIPv6AddressScope a = IPV6_SCOPE_MULTICAST <-> same_prefix a p_multicast 8)
  ∧ (getIPv6AddressScope a = IPV6_SCOPE_UNIQUE_LOCAL_UNICAST <-> same_prefix a p_unique_local 7)
  ∧ (getIPv6AddressScope a = IPV6_SCOPE_LINKLOCAL <-> same_prefix a p_linklocal 16)
  ∧ (getIPv6AddressScope a = IPV6_SCOPE_GLOBAL_UNICAST <-> same_prefix a p_v4mapped 96)
  ∧ getIPv6AddressScope (solicitedNode_multicast_addr a) = IPV6_SCOPE_MULTICAST.
Proof.
  intros Ha. rewrite multicast_bytes, unique_local_bytes, linklocal_bytes, v4mapped_bytes by done.
  assert (Hz : forallb (λ i, B8 a i =? 0) (seq 0 10) = true -> B8 a 0 = 0)
    by (cbn [seq forallb]; intros [?%Z.eqb_eq _]%andb_true_iff; done).
  repeat split_and; [..|done]; unfold getIPv6AddressScope; rewrite global_test; change [0; 1; 2; 3; 4; 5; 6; 7; 8; 9]%nat with (seq 0 10);
    repeat case_match; split; intros; subst; try done; destruct_and?; try lia; specialize (Hz ltac:(done)); lia.
Qed.

(** *** Ethernet *)

Import Ethernet.

Lemma number_roundtripE d : 0 <= d < 16 -> numberFromAsciiE (numberToAsciiE d) = d.
Proof. apply number_roundtrip. Qed.

(** Two digits are read as the byte they spell. *)
Lemma read_two d1 d2 s : 0 <= d1 < 16 -> 0 <= d2 < 16 ->
  read_digits 2 0 (numberToAsciiE d1 :: numberToAsciiE d2 :: s) [0; 0] = Some ([d1; d2], s).
Proof.
  intros H1 H2. cbn [read_digits head mbind option_bind tail].
  destruct (numberToAscii_digit d1 H1) as [E1 _]. destruct (numberToAscii_digit d2 H2) as [E2 _].
  apply Z.eqb_neq in E1, E2. change numberToAscii with numberToAsciiE in *.
  by rewrite E1, E2, !number_roundtripE.
Qed.

Lemma parse_loop_two n idx d1 d2 c s e : 0 <= d1 < 16 -> 0 <= d2 < 16 ->
  Ethernet.parse_loop (S n) idx (numberToAsciiE d1 :: numberToAsciiE d2 :: c :: s) e
  = let e := <[idx := d1 * 16 + d2]> e in
    if c =? 0 then Some (S idx, e) else Ethernet.parse_loop n (S idx) s e.
Proof.
  intros H1 H2. cbn [Ethernet.parse_loop]. rewrite read_two by done. cbn [mbind option_bind nth head tail].
  by rewrite half_or.
Qed.

(** The text of an Ethernet address has seventeen characters and no terminator, and reads
    back as the address without the higher half of its first byte: the first digit printed
    is 0 whatever the address. *)
Theorem ethernet_addr_text (b0 b1 b2 b3 b4 b5 : Z) (eth_addr : bytes) :
  Forall is_u8 [b0; b1; b2; b3; b4; b5] -> length eth_addr = 6%nat ->
  length (ethernet_addr_tostring [b0; b1; b2; b3; b4; b5]) = 17%nat
  ∧ head (ethernet_addr_tostring [b0; b1; b2; b3; b4; b5]) = Some 48
  ∧ parse_ethernet_addr (ethernet_addr_tostring [b0; b1; b2; b3; b4; b5] ++ [0]) eth_addr
    = Some (true, [Z.land b0 0x0f; b1; b2; b3; b4; b5]).
Proof.
  intros Hb Hl. rewrite !Forall_cons in Hb. destruct Hb as (H0&H1&H2&H3&H4&H5&_).
  destruct (halves _ H0) as (_&?&_). destruct (halves _ H1) as (?&?&E1). destruct (halves _ H2) as (?&?&E2).
  destruct (halves _ H3) as (?&?&E3). destruct (halves _ H4) as (?&?&E4). destruct (halves _ H5) as (?&?&E5).
  assert (Hz : Z.shiftr (Z.land b0 15) 4 = 0).
  { rewrite Z.shiftr_div_pow2 by lia. apply Z.div_small. cbn. lia. }
  do 6 (destruct eth_addr as [|? eth_addr]; [done|]). destruct eth_addr; [|done].
  split; [done|]. unfold ethernet_addr_tostring, low_digits, digits. cbn [nth app]. rewrite Hz. split; [done|].
  unfold parse_ethernet_addr. change (c_colon =? 0) with false.
  repeat (rewrite parse_loop_two by lia; cbv zeta; change (c_colon =? 0) with false; cbn [insert list_insert]).
  rewrite E1, E2, E3, E4, E5. done.
Qed.

(** Digits missing from a block are read from the right: "f:..." is the byte 0xf0;
    a text that ends inside a block is read behind its end. *)
Example parse_short_block : parse_ethernet_addr
    [102; c_colon; 48; 49; c_colon; 48; 50; c_colon; 48; 51; c_colon; 48; 52; c_colon; 48; 53; 0] (repeat 0 6)
  = Some (true, [0xf0; 1; 2; 3; 4; 5]).
Proof. reflexivity. Qed.
Example parse_past_the_end : parse_ethernet_addr [102; 0] (repeat 0 6) = None.
Proof. reflexivity. Qed.

(** *** Witnesses *)

(** 2001:db8:ff:0:1:2:a:ffff *)
Definition text_example : list (list Z) :=
  [[50; 48; 48; 49]; [100; 98; 56]; [102; 102]; [48]; [49]; [50]; [65]; [102; 102; 102; 102]].

Lemma parse_ipv6_addr_blocks_witness :
  Forall is_block text_example
  ∧ parse_ipv6_addr (join text_example ++ 0 :: []) (repeat 0 16)
    = Some (bool_decide (length text_example = 8%nat),
            concat (map (λ b, [block_value b / 256; block_value b mod 256]) text_example)
            ++ drop (length text_example * 2) (repeat 0 16)).
Proof.
  assert (H : Forall is_block text_example).
  { repeat (apply Forall_cons; split; [split; [cbn; lia|]; repeat constructor; done|]). by apply Forall_nil. }
  split; [exact H|]. apply (parse_ipv6_addr_blocks text_example [] (repeat 0 16)); [done|cbn; lia|exact H|done].
Defined.

Definition addr_example : bytes := [0xfe; 0x80; 0; 0; 0; 0; 0; 0; 0; 0; 0; 0; 0; 0xab; 0xcd; 0xef].

Lemma ipv6_addr_text_roundtrip_witness :
  is_addr addr_example
  ∧ parse_ipv6_addr (ipv6_addr_toString addr_example ++ [0]) (repeat 0 16) = Some (true, addr_example).
Proof.
  split; [by apply is_addr_literal|].
  apply (ipv6_addr_text_roundtrip addr_example (repeat 0 16)); [by apply is_addr_literal|done].
Defined.

(** For a /32 the comparison is right, for a /5 it is not. *)
Lemma compare_ipv6_addr_exact_witness :
  good_prefixlen 32 ∧ ¬ good_prefixlen 5
  ∧ compare_ipv6_addr addr_example p_linklocal 32 = bool_decide (same_prefix addr_example p_linklocal (Z.to_nat 32)).
Proof.
  split; [by left|]. split; [by intros [[H _]|H]|].
  apply (proj2 (compare_ipv6_addr_exact 32 ltac:(lia))); [by left|by apply is_addr_literal|by apply is_addr_literal].
Defined.

Lemma getIPv6AddressScope_prefixes_witness :
  is_addr addr_example ∧ getIPv6AddressScope addr_example = IPV6_SCOPE_LINKLOCAL.
Proof.
  split; [by apply is_addr_literal|].
  apply (getIPv6AddressScope_prefixes addr_example); [by apply is_addr_literal|].
  apply (bool_decide_unpack _). vm_compute. exact I.
Defined.

Lemma ethernet_addr_text_witness :
  parse_ethernet_addr (ethernet_addr_tostring [0x20; 1; 2; 3; 4; 5] ++ [0]) (repeat 0 6)
  = Some (true, [Z.land 0x20 0x0f; 1; 2; 3; 4; 5]).
Proof.
  apply (ethernet_addr_text 0x20 1 2 3 4 5 (repeat 0 6)); [|done].
  repeat (apply Forall_cons; split; [unfold is_u8; lia|]). by apply Forall_nil.
Defined.
End Guarantees.
