(* ===== verification/Ipv4.v ===== *)
(** * Ipv4: the IPv4 layer

    Models [ipv4/IPv4.h] (class [IPv4_Packet]), the receive advice of
    [ipv4/IPv4_Receive.ah], fragment reassembly
    ([ipv4/fragmentation/IPv4_Receive_Fragment_Reassembly.ah]), routing
    ([ipv4/Router_IPv4_Slice.ah], [router/Router.cpp]) and the sending side of
    a socket ([ipv4/IPv4onSockets.cpp]).  A packet is the memory it occupies;
    an access behind an array of the code answers [None]. *)

From S2P Require Import Prelude Wire Checksum Packet.

Open Scope Z_scope.

(** ** The packet *)

Module IPv4_Packet.

Definition IPV4_VERSION : Z := 4.
Definition IPV4_MIN_HEADER_SIZE : Z := 20.
Definition IPV4_DF_FLAG : Z := 2.
Definition IPV4_MF_FLAG : Z := 1.
Definition IPV4_DEFAULT_TOS : Z := 0.
Definition IPV4_DEFAULT_TTL : Z := 64.
Definition IPV4_DEFAULT_FLAGS : Z := 0.
Definition IPV4_NO_FRAGMENT_OFFSET : Z := 0.

(** The private members; [ihl] and [version] share the first byte, [flags] and
    [fragment_offset] are one [uint16_t]. *)
Definition f_ihl_version := Field 0 K8.
Definition f_tos := Field 1 K8.
Definition f_total_len := Field 2 K16.
Definition f_id := Field 4 K16.
Definition f_flags := Field 6 H16.
Definition f_ttl := Field 8 K8.
Definition f_protocol := Field 9 K8.
Definition f_hdr_checksum := Field 10 K16.
Definition f_src_ipaddr := Field 12 H32.
Definition f_dst_ipaddr := Field 16 H32.

Definition members : list field :=
  [f_ihl_version; f_tos; f_total_len; f_id; f_flags; f_ttl; f_protocol; f_hdr_checksum; f_src_ipaddr; f_dst_ipaddr].

Definition FRAGMENT_MASK : Z := 0xFF1F.

Section Accessors.
Context (e : endian).

(** The first bit field of a byte has the low bits on a little-endian host. *)
Definition get_ihl (p : bytes) : Z :=
  match e with LE => Z.land (get8 0 p) 0xf | BE => Z.shiftr (get8 0 p) 4 end.
Definition get_version (p : bytes) : Z :=
  match e with LE => Z.shiftr (get8 0 p) 4 | BE => Z.land (get8 0 p) 0xf end.
Definition set_ihl (i : Z) (p : bytes) : bytes :=
  setf e f_ihl_version (match e with
    | LE => Z.lor (Z.land (get8 0 p) 0xf0) (Z.land i 0xf)
    | BE => Z.lor (Z.land (get8 0 p) 0xf) (Z.shiftl (Z.land i 0xf) 4) end) p.
Definition set_version (v : Z) (p : bytes) : bytes :=
  setf e f_ihl_version (match e with
    | LE => Z.lor (Z.land (get8 0 p) 0xf) (Z.shiftl (Z.land v 0xf) 4)
    | BE => Z.lor (Z.land (get8 0 p) 0xf0) (Z.land v 0xf) end) p.

Definition get_total_len := getf e f_total_len.
Definition set_total_len := setf e f_total_len.
Definition payload_len (p : bytes) : Z := u16 (get_total_len p - get_ihl p * 4).
Definition get_tos := getf e f_tos.
Definition set_tos := setf e f_tos.
Definition get_id := getf e f_id.
Definition set_id := setf e f_id.

(** The type of a flag is [uint8_t], which the aspect does not swap. *)
Definition get_flags (p : bytes) : Z := u8 (Z.land (Z.shiftr (getf e f_flags p) 5) 7).
Definition set_flags (f : Z) (p : bytes) : bytes :=
  let p := setf e f_flags (Z.land (getf e f_flags p) FRAGMENT_MASK) p in
  setf e f_flags (Z.lor (getf e f_flags p) (Z.shiftl (Z.land f 7) 5)) p.

Definition get_fragment_offset (p : bytes) : Z :=
  LittleEndian.Network_to_Host_Short e (Z.land (getf e f_flags p) FRAGMENT_MASK).
Definition set_fragment_offset (fo : Z) (p : bytes) : bytes :=
  let fo := LittleEndian.Host_to_Network_Short e (u16 fo) in
  let p := setf e f_flags (Z.land (getf e f_flags p) (Z.lnot FRAGMENT_MASK)) p in
  setf e f_flags (Z.lor (getf e f_flags p) (Z.land fo FRAGMENT_MASK)) p.

Definition get_ttl := getf e f_ttl.
Definition set_ttl := setf e f_ttl.
Definition get_protocol := getf e f_protocol.
Definition set_protocol := setf e f_protocol.
Definition get_hdr_checksum := getf e f_hdr_checksum.
Definition set_hdr_checksum := setf e f_hdr_checksum.
Definition get_src_ipaddr := getf e f_src_ipaddr.
Definition set_src_ipaddr := setf e f_src_ipaddr.
Definition get_dst_ipaddr := getf e f_dst_ipaddr.
Definition set_dst_ipaddr := setf e f_dst_ipaddr.

(** The memory from the payload on. *)
Definition get_data (p : bytes) : bytes := drop (Z.to_nat (get_ihl p * 4)) p.

Definition validPacketLength (packet_len : Z) (p : bytes) : Z :=
  if packet_len <? IPV4_MIN_HEADER_SIZE then 0
  else
    let ihl := u8 (get_ihl p * 4) in
    if ihl <? IPV4_MIN_HEADER_SIZE then 0
    else if packet_len <? ihl then 0
    else
      let total_len := get_total_len p in
      if total_len <? ihl then 0
      else if packet_len <? total_len then 0
      else total_len.

Definition validPacketChecksum (p : bytes) : option bool :=
  c ← IPv4Checksum.cksum e p (Z.to_nat (get_ihl p * 2));
  Some (c =? 0).

(** [hdr_checksum] is written without its setter. *)
Definition store_checksum (c : Z) : bytes -> bytes := setf e (Field 10 H16) c.
Definition clearChecksum (p : bytes) : bytes := store_checksum 0 p.
Definition computeChecksum (p : bytes) : option bytes :=
  let p := store_checksum 0 p in
  c ← IPv4Checksum.cksum e p (Z.to_nat (get_ihl p * 2));
  Some (store_checksum c p).

End Accessors.

Definition convert_ipv4_addr (a b c d : Z) : Z :=
  u32 (Z.lor (Z.land a 0xFF) (Z.lor (Z.shiftl (Z.land b 0xFF) 8)
      (Z.lor (Z.shiftl (Z.land c 0xFF) 16) (Z.shiftl (Z.land d 0xFF) 24)))).
Definition ipv4_addr_parts (ip : Z) : Z * Z * Z * Z :=
  (Z.land (u8 ip) 0xFF, Z.land (u8 (Z.shiftr ip 8)) 0xFF,
   Z.land (u8 (Z.shiftr ip 16)) 0xFF, Z.land (u8 (Z.shiftr ip 24)) 0xFF).

End IPv4_Packet.

(** ** Interfaces and routes *)

(** What IPv4 adds to an interface. *)
Record Interface := MkInterface { ipv4_addr : Z; ipv4_subnetmask : Z; ipv4_up : bool }.
#[export] Instance Interface_settable : Settable Interface :=
  λ i, MkInterface (ipv4_addr i) (ipv4_subnetmask i) (ipv4_up i).

Definition setIPv4Addr (addr : Z) (i : Interface) : Interface := i <| ipv4_addr := addr |>.
Definition setIPv4Subnetmask (mask : Z) (i : Interface) : Interface := i <| ipv4_subnetmask := mask |>.
Definition setIPv4Up (up : bool) (i : Interface) : Interface := i <| ipv4_up := up |>.

(** The router; an interface is known by its place in the list. *)
Record Router := MkRouter { interfaces : list Interface; ipv4_gateway_addr : Z }.
#[export] Instance Router_settable : Settable Router :=
  λ r, MkRouter (interfaces r) (ipv4_gateway_addr r).

Module Routing.

(** [get_interface]: [index] steps along the list. *)
Fixpoint get_interface (l : list Interface) (index : nat) : option Interface :=
  match l, index with
  | [], _ => None
  | i :: _, O => Some i
  | _ :: l, S n => get_interface l n
  end.

(** The address is on the subnet of the interface and not its own. *)
Definition is_route (ipv4_dstaddr : Z) (i : Interface) : bool :=
  ipv4_up i
  && ((Z.land (ipv4_addr i) (ipv4_subnetmask i) =? Z.land ipv4_dstaddr (ipv4_subnetmask i))
      && negb (ipv4_addr i =? ipv4_dstaddr)).

Fixpoint find_from (l : list Interface) (n : nat) (ipv4_dstaddr : Z) : option nat :=
  match l with
  | [] => None
  | i :: l => if is_route ipv4_dstaddr i then Some n else find_from l (S n) ipv4_dstaddr
  end.
Definition ipv4_find_route (r : Router) (ipv4_dstaddr : Z) : option nat :=
  find_from (interfaces r) 0 ipv4_dstaddr.

Definition ipv4_set_gateway_addr (addr : Z) (r : Router) : Router := r <| ipv4_gateway_addr := addr |>.

End Routing.

(** ** The IPv4 side of a socket *)

Module Sockets.
Import Routing.

Record IPV4 := MkIPV4 { interface : option nat; using_gateway : bool; dst_ipv4_addr : Z; id : Z }.
#[export] Instance IPV4_settable : Settable IPV4 :=
  λ s, MkIPV4 (interface s) (using_gateway s) (dst_ipv4_addr s) (id s).

(** The constructor leaves [using_gateway] alone. *)
Definition IPV4_ctor (garbage : bool) : IPV4 := MkIPV4 None garbage 0 0.

Definition resolveRoute (r : Router) (s : IPV4) : IPV4 :=
  let s := s <| interface := ipv4_find_route r (dst_ipv4_addr s) |> <| using_gateway := false |> in
  match interface s with
  | Some _ => s
  | None => s <| interface := ipv4_find_route r (ipv4_gateway_addr r) |> <| using_gateway := true |>
  end.

Definition set_dst_addr (r : Router) (dst : Z) (s : IPV4) : IPV4 :=
  resolveRoute r (s <| dst_ipv4_addr := dst |>).

Definition get_src_addr (r : Router) (s : IPV4) : Z :=
  match interface s with
  | Some i => from_option ipv4_addr 0 (get_interface (interfaces r) i)
  | None => 0
  end.

Definition hasValidInterface (s : IPV4) : bool := bool_decide (is_Some (interface s)).
Definition hasValidSrcDestAddresses (r : Router) (s : IPV4) : bool :=
  hasValidInterface s && negb (get_src_addr r s =? 0) && negb (dst_ipv4_addr s =? 0).

Definition get_nexthop_ipaddr (r : Router) (s : IPV4) : Z :=
  if using_gateway s then ipv4_gateway_addr r else dst_ipv4_addr s.

Definition getSpecificHeaderSize : Z := IPv4_Packet.IPV4_MIN_HEADER_SIZE.

Definition setupHeader (e : endian) (r : Router) (datasize : Z) (p : bytes) (s : IPV4) : bytes * IPV4 :=
  let p := IPv4_Packet.set_ihl e (IPv4_Packet.IPV4_MIN_HEADER_SIZE / 4) p in
  let p := IPv4_Packet.set_version e IPv4_Packet.IPV4_VERSION p in
  let p := IPv4_Packet.set_tos e IPv4_Packet.IPV4_DEFAULT_TOS p in
  let p := IPv4_Packet.set_total_len e (u16 datasize) p in
  let p := IPv4_Packet.set_id e (id s) p in
  let s := s <| id := u16 (id s + 1) |> in
  let p := IPv4_Packet.set_flags e IPv4_Packet.IPV4_DEFAULT_FLAGS p in
  let p := IPv4_Packet.set_fragment_offset e IPv4_Packet.IPV4_NO_FRAGMENT_OFFSET p in
  let p := IPv4_Packet.set_ttl e IPv4_Packet.IPV4_DEFAULT_TTL p in
  let p := IPv4_Packet.set_src_ipaddr e (get_src_addr r s) p in
  let p := IPv4_Packet.set_dst_ipaddr e (dst_ipv4_addr s) p in
  (p, s).

End Sockets.

(** ** Fragments *)

Module Reassembly.

Definition TIMEOUT : Z := 60.
Definition BUFFERSIZE : Z := 768.

(** The members of the aspect. *)
Record State := MkState {
  expired_time : Z; buffer : bytes; bitmap : list Z; header_len : Z; total_len : Z }.
#[export] Instance State_settable : Settable State :=
  λ s, MkState (expired_time s) (buffer s) (bitmap s) (header_len s) (total_len s).

(** Static memory: all zero. *)
Definition initial : State :=
  MkState 0 (repeat 0 (Z.to_nat BUFFERSIZE)) (repeat 0 (Z.to_nat (BUFFERSIZE / (8 * 8)))) 0 0.

(** The loop at [i], at most [n] rounds. *)
Fixpoint mark (n : nat) (i stop : Z) (bm : list Z) : option (list Z) :=
  match n with
  | O => None
  | S n =>
      if i <=? stop then
        b ← bm !! Z.to_nat (i / 64);
        mark n (u32 (i + 8)) stop
          (<[Z.to_nat (i / 64) := u8 (Z.lor b (Z.shiftl 1 (i mod 64 / 8)))]> bm)
      else Some bm
  end.
Definition update_bitmap (start stop : Z) (bm : list Z) : option (list Z) :=
  mark 98 (Z.land start 0xFFFFFFF8) stop bm.

(** The bytes of the bitmap from [i] to [stop], exclusive, are 0xFF. *)
Fixpoint all_full (n : nat) (i stop : Z) (bm : list Z) : option bool :=
  match n with
  | O => None
  | S n =>
      if i <? stop then
        b ← bm !! Z.to_nat i;
        if negb (b =? 0xFF) then Some false else all_full n (i + 1) stop bm
      else Some true
  end.
(** The bits from [i] to [stop], inclusive. *)
Fixpoint last_value (n : nat) (i stop value : Z) : Z :=
  match n with
  | O => value
  | S n =>
      if i <=? stop then last_value n (i + 8) stop (u8 (Z.lor value (Z.shiftl 1 (i mod 64 / 8))))
      else value
  end.
Definition full_bitmap (total_len : Z) (bm : list Z) : option bool :=
  full ← all_full 14 0 (u32 (total_len / (8 * 8) - 1)) bm;
  if negb full then Some false
  else
    let value := last_value 98 (Z.land total_len 0xFFFFFF40) total_len 0 in
    b ← bm !! Z.to_nat (total_len / (8 * 8));
    Some (b =? value).

(** [memcpy] of [n] bytes to offset [o] of the buffer. *)
Definition copy (buf : bytes) (o : Z) (src : bytes) (n : Z) : option bytes :=
  if (o + n <=? BUFFERSIZE) && (n <=? Z.of_nat (length src)) then
    Some (write (Z.to_nat o) (take (Z.to_nat n) src) buf)
  else None.

(** What the advice leaves: its state, the result, and the packet and length
    the references point to. *)
Definition answer := (State * bool * bytes * Z)%type.

Section Advice.
Context (e : endian).
Import IPv4_Packet.

(** This fragment belongs to the buffer. *)
Definition same_datagram (s : State) (packet : bytes) : bool :=
  (get_src_ipaddr e (buffer s) =? get_src_ipaddr e packet)
  && (get_dst_ipaddr e (buffer s) =? get_dst_ipaddr e packet)
  && (get_id e (buffer s) =? get_id e packet).

(** The buffer is cold: start with the header of [packet]. *)
Definition restart (s : State) (packet : bytes) : option State :=
  let hl := u8 (get_ihl e packet * 4) in
  buf ← copy (buffer s) 0 packet hl;
  bm ← update_bitmap 0 hl (repeat 0 12);
  Some (s <| total_len := 0 |> <| header_len := hl |> <| buffer := buf |> <| bitmap := bm |>).

(** The buffer holds the whole packet: hand it out. *)
Definition complete (s : State) : answer :=
  let packet := set_fragment_offset e 0 (buffer s) in
  let packet := set_flags e 0 packet in
  let packet := set_total_len e (total_len s) packet in
  (s <| buffer := packet |> <| expired_time := 0 |>, true, packet, total_len s).

(** [copy_data] is set. *)
Definition store (s : State) (curr_time timeout : Z) (packet : bytes) (len fragment_offset : Z) : option answer :=
  let data_start := u32 (header_len s + fragment_offset) in
  let data_len := u32 (get_total_len e packet - header_len s) in
  let data_end := u32 (data_start + data_len) in
  if BUFFERSIZE <? data_end then Some (s <| expired_time := 0 |>, false, packet, len)
  else
    buf ← copy (buffer s) data_start (get_data e packet) data_len;
    bm ← update_bitmap data_start data_end (bitmap s);
    let s := s <| buffer := buf |> <| bitmap := bm |> in
    let s := if negb (get_flags e packet =? IPV4_MF_FLAG) then s <| total_len := u16 data_end |> else s in
    full ← (if negb (total_len s =? 0) then full_bitmap (total_len s) (bitmap s) else Some false);
    if (full : bool) then Some (complete s)
    else Some (s <| expired_time := u64 (curr_time + timeout) |>, false, packet, len).

(** The advice; [timeout] is [Clock::ms_to_ticks(TIMEOUT * 1000UL)]. *)
Definition ipv4_reassemble (curr_time timeout : Z) (s : State) (packet : bytes) (len fragment_offset : Z)
    : option answer :=
  if curr_time <? expired_time s then
    if same_datagram s packet then store s curr_time timeout packet len fragment_offset
    else Some (s, false, packet, len)
  else
    s ← restart s packet;
    store s curr_time timeout packet len fragment_offset.

End Advice.
End Reassembly.

(** ** Receiving *)

Module IPv4_Receive.
Import IPv4_Packet.

(** What becomes of a received packet: nothing, [error_ttl], the rest of
    [ipv4_demux] with the packet and its length, or [ipv4_forward]. *)
Inductive fate := Discard | Error_ttl | Proceed (packet : bytes) (len : Z) | Forward (packet : bytes) (len : Z).

Section Demux.
(** [reassemble] is [Demux::ipv4_reassemble] with the advice of the configuration.  The packet and
    the length it gives back are variables of the advice here; [tjp->proceed()] goes on with the
    arguments of [ipv4_demux], the packet received and the length written back to it. *)
Context {S : Type} (e : endian) (reassemble : S -> bytes -> Z -> Z -> option (S * bool * bytes * Z)).

Definition is_fragment (p : bytes) : bool :=
  (get_flags e p =? IPV4_MF_FLAG) || negb (get_fragment_offset e p =? 0).

Definition ipv4_demux (i : Interface) (s : S) (packet : bytes) (len : Z) : option (S * fate) :=
  if negb (ipv4_up i) then Some (s, Discard)
  else
    let len := validPacketLength e len packet in
    if len =? 0 then Some (s, Discard)
    else if negb (get_version e packet =? IPV4_VERSION) then Some (s, Discard)
    else if get_ttl e packet =? 0 then Some (s, Error_ttl)
    else
      valid ← validPacketChecksum e packet;
      if negb valid then Some (s, Discard)
      else if get_dst_ipaddr e packet =? ipv4_addr i then
        if is_fragment packet then
          '(s, reassembled, _, _) ← reassemble s packet len (u16 (get_fragment_offset e packet * 8));
          if negb reassembled then Some (s, Discard) else Some (s, Proceed packet len)
        else Some (s, Proceed packet len)
      else if get_ttl e packet <=? 1 then Some (s, Error_ttl)
      else Some (s, Forward packet len).
End Demux.

(** Without the reassembly aspect the function's body is all. *)
Definition no_reassembly (s : unit) (packet : bytes) (len fragment_offset : Z)
    : option (unit * bool * bytes * Z) := Some (s, false, packet, len).

End IPv4_Receive.

(** ** Fields *)

Section Fields.
Import IPv4_Packet.

(** The members lie one behind the other in the twenty bytes. *)
Example ipv4_layout : layout_ok 20 members = true.
Proof. reflexivity. Qed.

(** The shared field of the flags and the fragment offset, in arithmetic. *)
Lemma land_FRAGMENT r : is_u16 r ->
  Z.land r FRAGMENT_MASK = r / 256 * 256 + r mod 32
  ∧ Z.land r (Z.lnot FRAGMENT_MASK) = r / 32 mod 8 * 32.
Proof.
  intros Hr. split.
  - change FRAGMENT_MASK with (Z.lor (Z.shiftl 0xff 8) (Z.ones 5)).
    rewrite Z.land_lor_distr_r, land_byte, Z.land_ones, lor_shiftl_add by zlia. zlia.
  - rewrite <- (u16_id r Hr) at 1. unfold u16. rewrite <- land_ffff, <- Z.land_assoc.
    change (Z.land 0xFFFF (Z.lnot FRAGMENT_MASK)) with (Z.shiftl (Z.ones 3) 5).
    rewrite land_shiftl_mask, Z.land_ones, shiftr_div, shiftl_mul by lia. done.
Qed.

Lemma lor_flags hi lo f : 0 <= lo < 32 -> 0 <= f < 8 ->
  Z.lor (hi * 256 + lo) (Z.shiftl f 5) = hi * 256 + f * 32 + lo.
Proof.
  intros Hl Hf. change 256 with (2 ^ 8) at 1. rewrite <- lor_shiftl_add by lia.
  rewrite <- Z.lor_assoc, (Z.lor_comm lo), (lor_shiftl_add f) by (cbn; lia).
  rewrite lor_shiftl_add by (cbn; lia). cbn. lia.
Qed.

Lemma lor_flags' hi lo f : 0 <= lo < 32 -> 0 <= f < 8 ->
  Z.lor (hi * 256 + lo) (f * 32) = hi * 256 + f * 32 + lo.
Proof. intros. change 32 with (2 ^ 5) at 1. rewrite <- shiftl_mul by lia. by apply lor_flags. Qed.

Lemma get_flags_raw p r : getf LE f_flags p = r -> is_u16 r -> get_flags LE p = r / 32 mod 8.
Proof.
  intros E Hr. unfold get_flags. change 7 with (Z.ones 3). rewrite E, (Z.land_ones _ 3), shiftr_div by lia.
  apply u8_id. zlia.
Qed.

Lemma get_fragment_offset_raw p r : getf LE f_flags p = r -> is_u16 r ->
  get_fragment_offset LE p = r mod 32 * 256 + r / 256.
Proof.
  intros E Hr. unfold get_fragment_offset. rewrite E. cbn. unfold LittleEndian.ntohs_.
  rewrite LittleEndian.htons_value, (proj1 (land_FRAGMENT r Hr)). zlia.
Qed.

Lemma stored_flags e v p : (8 <= length p)%nat -> is_u16 v -> getf e f_flags (setf e f_flags v p) = v.
Proof. intros. by apply getf_setf_eq. Qed.

Lemma set_flags_raw p f r : (8 <= length p)%nat -> is_u8 f -> getf LE f_flags p = r -> is_u16 r ->
  getf LE f_flags (set_flags LE f p) = r / 256 * 256 + f mod 8 * 32 + r mod 32.
Proof.
  intros Hl Hf E Hr. unfold set_flags. change 7 with (Z.ones 3). rewrite E, (proj1 (land_FRAGMENT r Hr)), (Z.land_ones f 3) by lia.
  rewrite !stored_flags; rewrite ?stored_flags, ?length_setf; try done; try zlia.
  - rewrite lor_flags by zlia. change (2 ^ 3) with 8. zlia.
  - rewrite lor_flags by zlia. change (2 ^ 3) with 8. zlia.
Qed.

Lemma set_fragment_offset_raw p fo r : (8 <= length p)%nat -> is_u16 fo -> getf LE f_flags p = r -> is_u16 r ->
  getf LE f_flags (set_fragment_offset LE fo p) = fo mod 256 * 256 + r / 32 mod 8 * 32 + fo / 256 mod 32.
Proof.
  intros Hl Hf E Hr. unfold set_fragment_offset. cbn [LittleEndian.Host_to_Network_Short].
  rewrite (u16_id fo), LittleEndian.htons_value by done.
  rewrite E, (proj2 (land_FRAGMENT r Hr)).
  rewrite (proj1 (land_FRAGMENT (fo mod 256 * 256 + fo / 256 mod 256) ltac:(zlia))).
  rewrite Z.lor_comm, !stored_flags; rewrite ?stored_flags, ?length_setf; try done; try zlia.
  all: first [rewrite lor_flags' by zlia|rewrite Z.lor_comm, lor_flags' by zlia]; zlia.
Qed.

Lemma flags_raw_u16 e p : is_bytes p -> is_u16 (getf e f_flags p).
Proof. intros. by apply (getf_range e f_flags). Qed.

(** On a little-endian host the setters and getters of the flags (three bits) and the
    fragment offset (thirteen bits), which share two bytes, do not disturb each other. *)
Theorem fragment_fields (p : bytes) (f fo : Z) :
  is_bytes p -> (8 <= length p)%nat -> is_u8 f -> is_u16 fo ->
  get_flags LE (set_flags LE f p) = f mod 8
  ∧ get_fragment_offset LE (set_flags LE f p) = get_fragment_offset LE p
  ∧ get_fragment_offset LE (set_fragment_offset LE fo p) = fo mod 8192
  ∧ get_flags LE (set_fragment_offset LE fo p) = get_flags LE p
  ∧ get_fragment_offset LE p = of_be16 (get8 6 p) (get8 7 p) mod 8192
  ∧ get_flags LE p = of_be16 (get8 6 p) (get8 7 p) / 8192.
Proof.
  intros Hp Hl Hf Hfo. pose proof (flags_raw_u16 LE p Hp) as Hr.
  pose proof (set_flags_raw p f _ Hl Hf eq_refl Hr) as E1.
  pose proof (set_fragment_offset_raw p fo _ Hl Hfo eq_refl Hr) as E2.
  assert (E : getf LE f_flags p = get8 6 p + get8 7 p * 256) by done.
  pose proof (get8_range 6 p Hp). pose proof (get8_range 7 p Hp). unfold of_be16.
  rewrite (get_flags_raw _ _ eq_refl), (get_fragment_offset_raw _ _ eq_refl),
    (get_fragment_offset_raw _ _ eq_refl), (get_flags_raw (set_fragment_offset _ _ _) _ eq_refl),
    (get_fragment_offset_raw _ _ eq_refl), (get_flags_raw _ _ eq_refl); rewrite ?E1, ?E2; try zlia.
Qed.
End Fields.

(** ** Reassembly *)

Module ReassemblyFacts.
Import Reassembly IPv4_Packet.

(** The bitmap with its first [k] bits set. *)
Definition filled (k : nat) : list Z := map (λ j, Z.ones (Z.of_nat (Nat.min 8 (k - 8 * j)))) (seq 0 12).

Lemma filled_length k : length (filled k) = 12%nat.
Proof. done. Qed.

(** One round of [mark] at a bit that is set or the next one, all of them. *)
Lemma mark_bit : forall m k : nat, (k <= m <= 96)%nat -> (k < 96)%nat ->
  exists b, filled m !! Z.to_nat (8 * Z.of_nat k / 64) = Some b
    ∧ <[Z.to_nat (8 * Z.of_nat k / 64) := u8 (Z.lor b (Z.shiftl 1 (8 * Z.of_nat k mod 64 / 8)))]> (filled m)
      = filled (Nat.max m (S k)).
Proof.
  assert (H : forallb (λ m, forallb (λ k, let i := Z.to_nat (8 * Z.of_nat k / 64) in
    match filled m !! i with
    | Some b => bool_decide (<[i := u8 (Z.lor b (Z.shiftl 1 (8 * Z.of_nat k mod 64 / 8)))]> (filled m)
                             = filled (Nat.max m (S k)))
    | None => false end) (seq 0 (Nat.min (S m) 96))) (seq 0 97) = true) by (vm_compute; done).
  intros m k Hk Hk'. rewrite forallb_forall in H. specialize (H m ltac:(apply in_seq; lia)).
  rewrite forallb_forall in H. specialize (H k ltac:(apply in_seq; lia)). cbv zeta in H.
  destruct (filled m !! _) as [b|]; [|done]. exists b. split; [done|]. by apply bool_decide_eq_true in H.
Qed.

Lemma mark_filled stop : 0 <= stop < 768 -> forall n k m : nat,
  (0 < n)%nat -> (k <= m <= 96)%nat -> stop / 8 + 1 - Z.of_nat k < Z.of_nat n ->
  mark n (8 * Z.of_nat k) stop (filled m) = Some (filled (Nat.max m (Z.to_nat (stop / 8 + 1)))).
Proof.
  intros Hs. induction n as [|n IH]; intros k m H0 Hm Hn; [lia|]. cbn [mark].
  destruct (Z.leb_spec (8 * Z.of_nat k) stop) as [Hle|Hgt].
  - destruct (mark_bit m k) as (b & -> & E); [lia|zlia|]. cbn [mbind option_bind]. rewrite E.
    rewrite u32_id by zlia. replace (8 * Z.of_nat k + 8) with (8 * Z.of_nat (S k)) by lia.
    rewrite IH by zlia. do 2 f_equal. zlia.
  - do 2 f_equal. zlia.
Qed.

(** Marking from inside the filled part or from its end. *)
Lemma update_bitmap_filled start stop m : 0 <= start <= stop -> stop < 768 ->
  start / 8 <= Z.of_nat m -> (m <= 96)%nat ->
  update_bitmap start stop (filled m) = Some (filled (Nat.max m (Z.to_nat (stop / 8 + 1)))).
Proof.
  intros H1 H2 Hm Hm'. unfold update_bitmap.
  replace (Z.land start 0xFFFFFFF8) with (8 * Z.of_nat (Z.to_nat (start / 8))).
  - apply mark_filled; zlia.
  - change 0xFFFFFFF8 with (Z.shiftl (Z.ones 29) 3).
    rewrite land_shiftl_mask, Z.land_ones, shiftr_div, shiftl_mul by lia.
    change (2 ^ 29) with 536870912. change (2 ^ 3) with 8. zlia.
Qed.

(** The lengths for which the test of a filled bitmap succeeds: at least one
    byte of the bitmap, and bit 7 of the length clear or the last byte full. *)
Definition good_length (t : Z) : bool := (64 <=? t) && ((Z.land t 128 =? 0) || (56 <=? t mod 64)).

Lemma full_bitmap_filled t : 0 <= t < 768 ->
  full_bitmap t (filled (Z.to_nat (t / 8 + 1))) = Some (good_length t).
Proof.
  assert (H : forallb (λ n, let t := Z.of_nat n in
    bool_decide (full_bitmap t (filled (Z.to_nat (t / 8 + 1))) = Some (good_length t))) (seq 0 768) = true)
    by (vm_compute; done).
  intros Ht. rewrite forallb_forall in H. specialize (H (Z.to_nat t) ltac:(apply in_seq; lia)).
  cbv zeta in H. rewrite Z2Nat.id in H by lia. by apply bool_decide_eq_true in H.
Qed.

Section InOrder.
Context (e : endian) (timeout : Z) (h : bytes).
Abbreviation hl := (Z.of_nat (length h)).

(** [pkt] is the fragment with the data [p] behind [acc], with the header [hd]. *)
Record fragment (acc : bytes) (last : bool) (p pkt : bytes) : Prop := Frag {
  fr_ihl : get_ihl e pkt * 4 = hl;
  fr_len : get_total_len e pkt = hl + Z.of_nat (length p);
  fr_offset : get_fragment_offset e pkt * 8 = Z.of_nat (length acc);
  fr_flags : (get_flags e pkt =? IPV4_MF_FLAG) = negb last;
  fr_src : get_src_ipaddr e pkt = get_src_ipaddr e h;
  fr_dst : get_dst_ipaddr e pkt = get_dst_ipaddr e h;
  fr_id : get_id e pkt = get_id e h;
  fr_data : exists hd pad, length hd = length h ∧ pkt = hd ++ p ++ pad }.

(** The buffer holds the header and the first data [acc]. *)
Record holding (acc : bytes) (s : State) : Prop := Holding {
  ho_header : header_len s = hl;
  ho_total : total_len s = 0;
  ho_bitmap : bitmap s = filled (Z.to_nat ((hl + Z.of_nat (length acc)) / 8 + 1));
  ho_buffer : exists rest, buffer s = h ++ acc ++ rest ∧ length (buffer s) = 768%nat }.

(** The call [ipv4_demux] makes. *)
Definition arrive (t : Z) (s : State) (pkt : bytes) (len : Z) : option answer :=
  ipv4_reassemble e t timeout s pkt len (u16 (get_fragment_offset e pkt * 8)).

Lemma write_prefix l k r : write (length l) k (l ++ r) = l ++ k ++ drop (length k) r ∨ (length r < length k)%nat.
Proof.
  destruct (decide (length r < length k)%nat) as [|Hl]; [by right|left].
  rewrite <- (take_drop (length k) r) at 1. apply write_app. rewrite length_take. lia.
Qed.

(** The data of a fragment is copied behind what is held. *)
Lemma copy_data acc rest p pad buf : buf = h ++ acc ++ rest -> length buf = 768%nat ->
  (length h + length acc + length p <= 768)%nat ->
  exists rest', copy buf (hl + Z.of_nat (length acc)) (p ++ pad) (Z.of_nat (length p)) = Some (h ++ (acc ++ p) ++ rest')
    ∧ length (h ++ (acc ++ p) ++ rest') = 768%nat.
Proof.
  intros -> Hl Hp. rewrite !length_app in Hl. unfold copy. unfold BUFFERSIZE.
  rewrite (proj2 (Z.leb_le _ 768)) by lia. rewrite (proj2 (Z.leb_le _ _)) by (rewrite length_app; lia). cbn [andb].
  replace (Z.to_nat (hl + Z.of_nat (length acc))) with (length (h ++ acc)) by (rewrite length_app; lia).
  rewrite Nat2Z.id, take_app_length. rewrite app_assoc.
  destruct (write_prefix (h ++ acc) p rest) as [-> |]; [|lia].
  exists (drop (length p) rest). rewrite <- !app_assoc. split; [done|].
  rewrite !length_app, length_drop. lia.
Qed.


Hypothesis Hh : (20 <= length h <= 60)%nat.
Hypothesis Hb : is_bytes h.

Lemma get_data_fragment acc last p pkt : fragment acc last p pkt ->
  exists pad, get_data e pkt = p ++ pad.
Proof.
  intros [E _ _ _ _ _ _ (hd & pad & Hl & ->)]. exists pad. unfold get_data.
  replace (Z.to_nat _) with (length hd) by lia. apply drop_app_length.
Qed.

(** What a fragment makes of the buffer. *)
Definition stored (s : State) (buf : bytes) (total : Z) : State :=
  s <| buffer := buf |> <| bitmap := filled (Z.to_nat (total / 8 + 1)) |>.

Lemma store_fragment acc last p pkt s t len : let total := hl + Z.of_nat (length acc) + Z.of_nat (length p) in
  holding acc s -> fragment acc last p pkt -> total < 768 ->
  exists rest, length (h ++ (acc ++ p) ++ rest) = 768%nat
    ∧ let s' := stored s (h ++ (acc ++ p) ++ rest) total in
      store e s t timeout pkt len (Z.of_nat (length acc))
      = if last then
          let s' := s' <| total_len := total |> in
          if good_length total then Some (complete e s')
          else Some (s' <| expired_time := u64 (t + timeout) |>, false, pkt, len)
        else Some (s' <| expired_time := u64 (t + timeout) |>, false, pkt, len).
Proof.
  intros total [H1 H2 H3 (rest & H4 & H5)] Hf Ht. destruct (get_data_fragment _ _ _ _ Hf) as [pad Ed].
  destruct (copy_data acc rest p pad (buffer s) H4 H5 ltac:(lia)) as (rest' & Ec & El).
  exists rest'. split; [done|]. cbv zeta. unfold store. rewrite H1, (fr_len _ _ _ _ Hf), Ed.
  rewrite (u32_id (hl + Z.of_nat (length acc))) by zlia.
  replace (hl + Z.of_nat (length p) - hl) with (Z.of_nat (length p)) by lia.
  rewrite (u32_id (Z.of_nat _)) by zlia. fold total. rewrite (u32_id total) by zlia.
  destruct (Z.ltb_spec BUFFERSIZE total) as [|_]; [unfold BUFFERSIZE in *; lia|].
  rewrite Ec. cbn [mbind option_bind]. rewrite H3, update_bitmap_filled by zlia. cbn [mbind option_bind].
  replace (Nat.max _ _) with (Z.to_nat (total / 8 + 1)) by zlia.
  rewrite (fr_flags _ _ _ _ Hf). destruct last; cbn [negb].
  - simpl_set. rewrite (u16_id total) by zlia. destruct (Z.eqb_spec total 0) as [|_]; [lia|]. cbn [negb].
    rewrite full_bitmap_filled by lia. cbn [mbind option_bind]. by destruct (good_length total).
  - simpl_set. rewrite H2. done.
Qed.

Lemma same_datagram_fragment acc last acc' p pkt s : holding acc' s -> fragment acc last p pkt ->
  same_datagram e s pkt = true.
Proof.
  intros [_ _ _ (rest & E & _)] Hf. unfold same_datagram. rewrite E.
  pose proof (fr_src _ _ _ _ Hf) as E1. pose proof (fr_dst _ _ _ _ Hf) as E2. pose proof (fr_id _ _ _ _ Hf) as E3.
  unfold get_src_ipaddr, get_dst_ipaddr, get_id in *.
  rewrite !getf_app by (cbn; lia). by rewrite E1, E2, E3, !Z.eqb_refl.
Qed.

(** The first fragment, in a cold buffer. *)
Lemma restart_fragment last p pkt s : fragment [] last p pkt -> take (length h) pkt = h ->
  length (buffer s) = 768%nat -> exists s', restart e s pkt = Some s' ∧ holding [] s'.
Proof.
  intros Hf Hp Hl. unfold restart. rewrite (fr_ihl _ _ _ _ Hf), (u8_id hl) by zlia.
  assert (Ec : exists rest, copy (buffer s) 0 pkt hl = Some (h ++ rest) ∧ length (h ++ rest) = 768%nat).
  { assert (length h <= length pkt)%nat by (rewrite <- Hp at 1; rewrite length_take; lia).
    unfold copy, BUFFERSIZE. rewrite (proj2 (Z.leb_le _ 768)), (proj2 (Z.leb_le _ _)) by lia. cbn [andb].
    rewrite Nat2Z.id, Hp. exists (drop (length h) (buffer s)).
    destruct (write_prefix [] h (buffer s)) as [E|]; [|lia]. cbn [app length] in E.
    change (Z.to_nat 0) with 0%nat. rewrite E. split; [done|]. rewrite length_app, length_drop. lia. }
  destruct Ec as (rest & -> & Er). cbn [mbind option_bind].
  change (repeat 0 12) with (filled 0). rewrite update_bitmap_filled by (try zlia; done). cbn [mbind option_bind].
  eexists. split; [done|]. constructor; simpl_set; [done|done| |by exists rest].
  cbn [length]. f_equal. zlia.
Qed.

(** [ps]: the fragments but the first, in order, each before the timeout after
    the one before; the last of them is the last of the packet. *)
Fixpoint in_order (acc : bytes) (prev : Z) (fs : list (Z * bytes * bytes)) : Prop :=
  match fs with
  | [] => True
  | (t, pkt, p) :: fs =>
      prev <= t < prev + timeout ∧ t + timeout < 18446744073709551616
      ∧ fragment acc (bool_decide (fs = [])) p pkt ∧ in_order (acc ++ p) t fs
  end.
Definition data (fs : list (Z * bytes * bytes)) : bytes := concat (map snd fs).

(** The packets arrive one after the other; the answer to the last. *)
Fixpoint feed (s : State) (fs : list (Z * bytes * bytes)) : option answer :=
  match fs with
  | [] => None
  | (t, pkt, p) :: fs =>
      match arrive t s pkt (Z.of_nat (length pkt)) with
      | Some (s, reassembled, packet, len) =>
          if bool_decide (fs = []) then Some (s, reassembled, packet, len)
          else if reassembled then None
          else feed s fs
      | None => None
      end
  end.


(** The answer to the last fragment of the data [P]: the packet whole if its length is
    good, else nothing. *)
Definition whole (P : bytes) (a : answer) : Prop :=
  let '(s, reassembled, packet, len) := a in
  let total := hl + Z.of_nat (length P) in
  reassembled = good_length total
  ∧ (reassembled = true ->
      expired_time s = 0 ∧ len = total ∧ get_total_len e packet = total
      ∧ take (length P) (drop (length h) packet) = P
      ∧ (e = LE -> get_flags e packet = 0 ∧ get_fragment_offset e packet = 0)).

Lemma complete_whole P rest s : buffer s = h ++ P ++ rest -> (length (buffer s) = 768)%nat ->
  total_len s = hl + Z.of_nat (length P) -> total_len s < 768 ->
  good_length (hl + Z.of_nat (length P)) = true -> whole P (complete e s).
Proof.
  intros Eb El Et Hlt Hg. unfold complete, whole. rewrite Hg. split; [done|]. intros _.
  split; [done|]. split; [done|]. split; [|split].
  - unfold get_total_len, set_total_len. rewrite getf_setf_eq; [done| |cbn; zlia].
    unfold set_flags, set_fragment_offset. rewrite !length_setf, El. cbn. lia.
  - unfold set_total_len, set_flags, set_fragment_offset, setf.
    rewrite !drop_write by (rewrite length_fbytes; cbn; lia).
    by rewrite Eb, drop_app_length, take_app_length.
  - intros ->. assert (Hr : is_u16 (getf LE f_flags (buffer s))).
    { rewrite Eb, getf_app by (cbn; lia). by apply flags_raw_u16. }
    pose proof (set_fragment_offset_raw (buffer s) 0 _ ltac:(lia) ltac:(zlia) eq_refl Hr) as E1.
    set (r := getf LE f_flags (buffer s)) in *. clearbody r.
    pose proof (set_flags_raw (set_fragment_offset LE 0 (buffer s)) 0 _
      ltac:(unfold set_fragment_offset; rewrite !length_setf; lia) ltac:(zlia) E1 ltac:(zlia)) as E2.
    assert (E3 : getf LE f_flags (set_total_len LE (total_len s) (set_flags LE 0 (set_fragment_offset LE 0 (buffer s)))) = 0)
      by (unfold set_total_len; rewrite getf_setf_ne by (cbn; lia); rewrite E2; zlia).
    by rewrite (get_flags_raw _ 0 E3), (get_fragment_offset_raw _ 0 E3) by zlia.
Qed.

Lemma arrive_hot acc last p pkt s t len : holding acc s -> fragment acc last p pkt ->
  hl + Z.of_nat (length acc) + Z.of_nat (length p) < 768 -> t < expired_time s ->
  arrive t s pkt len = store e s t timeout pkt len (Z.of_nat (length acc)).
Proof.
  intros Ho Hf Ht He. unfold arrive, ipv4_reassemble.
  destruct (Z.ltb_spec t (expired_time s)); [|lia].
  rewrite (same_datagram_fragment _ _ _ _ _ _ Ho Hf), (fr_offset _ _ _ _ Hf). by rewrite u16_id by zlia.
Qed.

(** After a fragment that is not the last the buffer holds its data as well. *)
Lemma store_middle acc p pkt s t len : holding acc s -> fragment acc false p pkt ->
  hl + Z.of_nat (length acc) + Z.of_nat (length p) < 768 -> 0 <= t -> t + timeout < 18446744073709551616 -> 0 <= timeout ->
  exists s', store e s t timeout pkt len (Z.of_nat (length acc)) = Some (s', false, pkt, len)
    ∧ holding (acc ++ p) s' ∧ expired_time s' = t + timeout.
Proof.
  intros Ho Hf Ht H0 H1 H2. destruct (store_fragment acc false p pkt s t len Ho Hf Ht) as (rest & El & ->).
  eexists. split; [done|]. destruct Ho as [Ha Hc _ _]. split.
  - constructor; simpl_set; [done|done| |by exists rest]. rewrite length_app. by rewrite Nat2Z.inj_add, Z.add_assoc.
  - simpl_set. unfold u64. apply Z.mod_small. lia.
Qed.

Lemma store_last acc p pkt s t len : holding acc s -> fragment acc true p pkt ->
  hl + Z.of_nat (length acc) + Z.of_nat (length p) < 768 ->
  exists a, store e s t timeout pkt len (Z.of_nat (length acc)) = Some a ∧ whole (acc ++ p) a.
Proof.
  intros Ho Hf Ht. destruct (store_fragment acc true p pkt s t len Ho Hf Ht) as (rest & El & ->).
  replace (hl + Z.of_nat (length acc) + Z.of_nat (length p)) with (hl + Z.of_nat (length (acc ++ p))) in *
    by (rewrite length_app; lia).
  destruct (good_length _) eqn:Hg; eexists; (split; [done|]).
  - by apply (complete_whole _ rest).
  - unfold whole. rewrite Hg. done.
Qed.

Lemma feed_rest fs : forall acc prev s, fs ≠ [] -> 0 <= prev -> 0 <= timeout -> holding acc s ->
  expired_time s = prev + timeout -> in_order acc prev fs ->
  hl + Z.of_nat (length (acc ++ data fs)) < 768 ->
  exists a, feed s fs = Some a ∧ whole (acc ++ data fs) a.
Proof.
  induction fs as [|[[t pkt] p] fs IH]; intros acc prev s Hne Hp Ht Ho He Hi Hlt; [done|].
  destruct Hi as (Ht1 & Ht2 & Hf & Hi). unfold data in *. cbn [map concat snd] in *.
  rewrite !length_app in Hlt. cbn [feed].
  rewrite (arrive_hot _ _ _ _ _ _ _ Ho Hf) by lia.
  destruct (decide (fs = [])) as [->|Hfs].
  - change (bool_decide _) with true in *. cbn [map concat]. rewrite app_nil_r.
    destruct (store_last acc p pkt s t (Z.of_nat (length pkt)) Ho Hf ltac:(lia)) as ([[[s' r] pk] ln] & -> & Hw).
    eauto.
  - rewrite bool_decide_eq_false_2 in * by done.
    destruct (store_middle acc p pkt s t (Z.of_nat (length pkt)) Ho Hf) as (s' & -> & Ho' & He'); [lia..|].
    rewrite app_assoc. apply (IH (acc ++ p) t s'); try done; [lia|]. rewrite !length_app. lia.
Qed.

End InOrder.
End ReassemblyFacts.

Section ReassemblyProperty.
Import Reassembly ReassemblyFacts IPv4_Packet.

(** C14: The fragments of a packet that fits into the buffer, received in order, each within
    the timeout, are put together exactly when the length of the packet is good (at least
    64, and bit 7 clear or the last byte of the bitmap full): then the header's length is the
    packet's, the payload is the concatenation of the fragments' data, on a little-endian host
    the flags and the offset are cleared, and the buffer is free; a packet of any other length
    is never complete. *)
Theorem reassembled_in_order (e : endian) (timeout t : Z) (h p pkt : bytes) (s : State)
    (fs : list (Z * bytes * bytes)) :
  (20 <= length h <= 60)%nat -> is_bytes h -> 0 <= timeout -> 0 <= t -> t + timeout < 18446744073709551616 ->
  length (buffer s) = 768%nat -> expired_time s <= t ->
  fragment e h [] false p pkt -> take (length h) pkt = h ->
  fs ≠ [] -> in_order e timeout h p t fs ->
  Z.of_nat (length h) + Z.of_nat (length (p ++ data fs)) < BUFFERSIZE ->
  exists a, feed e timeout s ((t, pkt, p) :: fs) = Some a ∧ whole e h (p ++ data fs) a.
Proof.
  intros Hh Hb HT Ht HT2 Hl He Hf Hp Hne Hi Hlt. unfold BUFFERSIZE in Hlt. rewrite length_app in Hlt.
  cbn [feed]. unfold arrive, ipv4_reassemble. destruct (Z.ltb_spec t (expired_time s)); [lia|].
  destruct (restart_fragment e h Hh false p pkt s Hf Hp Hl) as (s1 & -> & Ho). cbn [mbind option_bind].
  rewrite (fr_offset _ _ _ _ _ _ Hf), u16_id by (cbn; zlia).
  destruct (store_middle e timeout h Hh [] p pkt s1 t (Z.of_nat (length pkt)) Ho Hf) as (s2 & -> & Ho2 & He2);
    [cbn; lia..|].
  rewrite bool_decide_eq_false_2 by done.
  apply (feed_rest e timeout h Hh Hb fs p t s2); try done. rewrite length_app. lia.
Qed.
End ReassemblyProperty.

(** ** The header checksum *)

Section HeaderChecksum.
Import IPv4_Packet.
Context (e : endian).

Lemma get_ihl_bytes p : is_bytes p -> 0 <= get_ihl e p < 16.
Proof.
  intros Hp. pose proof (get8_range 0 p Hp). unfold get_ihl. destruct e.
  - rewrite (Z.land_ones _ 4) by lia. apply Z.mod_pos_bound. done.
  - rewrite shiftr_div by lia. zlia.
Qed.

Lemma get_ihl_store_checksum c p : get_ihl e (store_checksum e c p) = get_ihl e p.
Proof.
  unfold get_ihl, store_checksum, setf.
  rewrite get8_write_out by (left; cbn; lia). done.
Qed.

(** A checksum stored is bytes 10 and 11. *)
Lemma store_checksum_split c l w r : length l = 10%nat -> length w = 2%nat ->
  store_checksum e c (l ++ w ++ r) = l ++ store16 e (u16 c) ++ r.
Proof.
  intros Hl Hw. unfold store_checksum, setf. cbn [f_off f_kind fbytes]. rewrite <- Hl.
  apply write_app. rewrite Hw. by destruct e.
Qed.

(** What [computeChecksum] stores, [validPacketChecksum] accepts. *)
Lemma computeChecksum_valid p : is_bytes p -> 3 <= get_ihl e p ->
  (4 * Z.to_nat (get_ihl e p) <= length p)%nat ->
  exists c, computeChecksum e p = Some (store_checksum e c p)
    ∧ validPacketChecksum e (store_checksum e c p) = Some true.
Proof.
  intros Hp H3 Hl. pose proof (get_ihl_bytes p Hp) as Hi.
  unfold computeChecksum, validPacketChecksum. rewrite get_ihl_store_checksum.
  remember (Z.to_nat (get_ihl e p * 2)) as n eqn:En.
  assert (Hn : (6 <= n <= 30)%nat ∧ (2 * n <= length p)%nat) by lia. destruct Hn as [Hn Hn2]. clear Hi H3 Hl.
  set (l := take 10 p). set (w := take 2 (drop 10 p)). set (r := take (2 * n - 12) (drop 12 p)).
  set (k := drop (2 * n) p).
  assert (E : p = l ++ w ++ r ++ k).
  { subst l w r k. rewrite <- (take_drop 10 p) at 1. f_equal. rewrite <- (take_drop 2 (drop 10 p)) at 1. f_equal.
    rewrite drop_drop. change (10 + 2)%nat with 12%nat. rewrite <- (take_drop (2 * n - 12) (drop 12 p)) at 1.
    f_equal. rewrite drop_drop. f_equal. lia. }
  assert (Hlen : length l = 10%nat ∧ length w = 2%nat ∧ (length r = 2 * n - 12)%nat)
    by (subst l w r; rewrite !length_take, !length_drop; lia).
  destruct Hlen as (Hl & Hw & Hr). clearbody l w r k. subst p.
  rewrite !is_bytes_app in Hp. destruct Hp as (Hbl & _ & Hbr & _).
  destruct (cksum_roundtrip e l r k n) as (c & Ec & Hc & Ev).
  - rewrite is_bytes_app. done.
  - exists 5%nat. lia.
  - lia.
  - lia.
  - assert (E0 : store16 e (u16 0) = [0; 0]) by (by destruct e). exists c.
    rewrite get_ihl_store_checksum, <- En. rewrite !(store_checksum_split _ l w) by done. rewrite E0, Ec. cbn [mbind option_bind].
    rewrite (store_checksum_split _ l [0; 0]) by done. rewrite (u16_id c Hc), Ev. done.
Qed.

(** The checksum is valid when the words of the header sum to 0xFFFF. *)
Lemma validPacketChecksum_spec p : is_bytes p -> (4 * Z.to_nat (get_ihl e p) <= length p)%nat ->
  validPacketChecksum e p
  = Some (fold16 (IPv4Checksum.host_sum e (take (4 * Z.to_nat (get_ihl e p)) p)) =? 65535).
Proof.
  intros Hp Hl. pose proof (get_ihl_bytes p Hp) as Hi. unfold validPacketChecksum.
  set (n := Z.to_nat (get_ihl e p * 2)). replace (4 * Z.to_nat (get_ihl e p))%nat with (2 * n)%nat in * by lia.
  rewrite <- (take_drop (2 * n) p) at 1.
  rewrite IPv4Checksum.cksum_spec; [|by apply is_bytes_take|rewrite length_take; lia|lia].
  cbn [mbind option_bind]. f_equal. zcases; lia.
Qed.

(** ** Receiving *)

Lemma validPacketLength_spec len p : is_bytes p -> 0 <= len ->
  let n := validPacketLength e len p in
  (n = get_total_len e p ∧ 20 <= get_ihl e p * 4 <= n ∧ n <= len)
  ∨ (n = 0 ∧ ¬ (20 <= get_ihl e p * 4 <= get_total_len e p ∧ get_total_len e p <= len)).
Proof.
  intros Hp Hl. pose proof (get_ihl_bytes p Hp) as Hi. cbv zeta. unfold validPacketLength, IPV4_MIN_HEADER_SIZE.
  rewrite u8_id by zlia. zcases; lia.
Qed.

End HeaderChecksum.

Section Receiving.
Import IPv4_Packet IPv4_Receive.
Context (e : endian).

(** The header is whole, the packet lies in the [len] bytes received. *)
Definition header_ok (p : bytes) (len : Z) : Prop :=
  20 <= get_ihl e p * 4 <= get_total_len e p ∧ get_total_len e p <= len ∧ get_version e p = IPV4_VERSION.
Definition header_sum_ok (p : bytes) : Prop :=
  fold16 (IPv4Checksum.host_sum e (take (4 * Z.to_nat (get_ihl e p)) p)) = 65535.

(** What may become of a packet that is no fragment. *)
Definition fate_ok (i : Interface) (p : bytes) (f : fate) : Prop :=
  let len := Z.of_nat (length p) in
  let ttl := get_ttl e p in
  let local := get_dst_ipaddr e p = ipv4_addr i in
  match f with
  | Proceed q n =>
      q = p ∧ n = get_total_len e p ∧ payload_len e p = n - get_ihl e p * 4
      ∧ ipv4_up i = true ∧ header_ok p len ∧ 0 < ttl ∧ header_sum_ok p ∧ local
  | Forward q n =>
      q = p ∧ n = get_total_len e p
      ∧ ipv4_up i = true ∧ header_ok p len ∧ 1 < ttl ∧ header_sum_ok p ∧ ¬ local
  | Error_ttl =>
      ipv4_up i = true ∧ header_ok p len ∧ (ttl = 0 ∨ (header_sum_ok p ∧ ¬ local ∧ ttl = 1))
  | Discard => ipv4_up i = false ∨ ¬ header_ok p len ∨ (0 < ttl ∧ ¬ header_sum_ok p)
  end.



Lemma demux_accepts {S : Type} reassemble (i : Interface) (s : S) p :
  is_bytes p -> header_ok p (Z.of_nat (length p)) -> validPacketChecksum e p = Some true ->
  get_ttl e p ≠ 0 -> ipv4_up i = true -> get_dst_ipaddr e p = ipv4_addr i -> is_fragment e p = false ->
  ipv4_demux e reassemble i s p (Z.of_nat (length p)) = Some (s, Proceed p (get_total_len e p)).
Proof.
  intros Hp (H1 & H2 & H3) Hc Ht Hu Hd Hf. unfold ipv4_demux. rewrite Hu. cbn [negb].
  destruct (validPacketLength_spec e (Z.of_nat (length p)) p Hp ltac:(lia)) as [(E & _ & _)|[_ H]]; [|lia].
  rewrite E, Hc, Hd, Hf, H3. destruct (Z.eqb_spec (get_total_len e p) 0); [lia|].
  destruct (Z.eqb_spec (get_ttl e p) 0); [done|]. by rewrite !Z.eqb_refl.
Qed.

End Receiving.

(** ** Sending *)

Section Sending.
Import IPv4_Packet IPv4_Receive Sockets.
Context (e : endian).

(** Read a member of the header through the setters of the others. *)
Ltac past :=
  repeat first
    [ rewrite getf_setf_eq by (rewrite ?length_setf; cbn; first [lia|side|solve [unfold is_u8, is_u16, is_u32 in *; lia]])
    | rewrite getf_setf_ne by (cbn; lia) ].

Ltac unfold_setters :=
  unfold store_checksum, set_protocol, set_dst_ipaddr, set_src_ipaddr, set_ttl, set_id, set_total_len, set_tos in *.

(** The first byte after the setters of its halves. *)
Lemma first_byte p : is_bytes p -> (1 <= length p)%nat ->
  getf e f_ihl_version (set_version e 4 (set_ihl e 5 p)) = match e with LE => 0x45 | BE => 0x54 end.
Proof.
  intros Hp Hl. unfold set_version, set_ihl. pose proof (get8_range 0 p Hp) as Hb.
  assert (H : forallb (λ n, let b := Z.of_nat n in
     (Z.lor (Z.land (u8 (Z.lor (Z.land b 240) (Z.land 5 15))) 15) (Z.shiftl (Z.land 4 15) 4) =? 0x45)
     && (Z.lor (Z.land (u8 (Z.lor (Z.land b 15) (Z.shiftl (Z.land 5 15) 4))) 240) (Z.land 4 15) =? 0x54)) (seq 0 256) = true)
    by (vm_compute; done).
  rewrite forallb_forall in H. specialize (H (Z.to_nat (get8 0 p)) ltac:(apply in_seq; unfold is_u8 in Hb; lia)).
  cbv zeta in H. rewrite Z2Nat.id in H by apply Hb. apply andb_true_iff in H as [H1%Z.eqb_eq H2%Z.eqb_eq].
  assert (Eg : forall v q, (1 <= length q)%nat -> get8 0 (setf e f_ihl_version v q) = u8 v)
    by (intros v q Hq; unfold setf; cbn [f_off f_kind f_ihl_version fbytes write]; by rewrite get8_insert_eq).
  change (getf e f_ihl_version ?q) with (get8 0 q). destruct e.
  - rewrite Eg by (rewrite length_setf; lia). rewrite Eg by done. by rewrite H1.
  - rewrite Eg by (rewrite length_setf; lia). rewrite Eg by done. by rewrite H2.
Qed.

(** Neither flags nor offset are left by setting both to 0. *)
Lemma flags_cleared p : (8 <= length p)%nat -> is_bytes p ->
  getf e f_flags (set_fragment_offset e 0 (set_flags e 0 p)) = 0.
Proof.
  intros Hl Hp. unfold set_fragment_offset, set_flags.
  replace (LittleEndian.Host_to_Network_Short e (u16 0)) with 0 by (by destruct e).
  change (Z.shiftl (Z.land 0 7) 5) with 0. change (Z.land 0 FRAGMENT_MASK) with 0. rewrite !Z.lor_0_r.
  pose proof (flags_raw_u16 e p Hp) as Hr. set (r := getf e f_flags p) in *. clearbody r.
  rewrite (proj1 (land_FRAGMENT r Hr)). set (r1 := r / 256 * 256 + r mod 32). assert (H1 : is_u16 r1) by (subst r1; zlia).
  rewrite (stored_flags e r1 p), (stored_flags e r1 (setf _ _ _ p)) by (rewrite ?length_setf; done).
  rewrite (proj2 (land_FRAGMENT r1 H1)). replace (r1 / 32 mod 8 * 32) with 0 by (subst r1; zlia).
  rewrite (stored_flags e 0 (setf e f_flags r1 (setf e f_flags r1 p))) by (rewrite ?length_setf; done).
  by apply stored_flags; rewrite ?length_setf.
Qed.


Lemma bytes_set_ihl_version v w p : is_bytes p -> is_bytes (set_version e w (set_ihl e v p)).
Proof. intros. unfold set_version, set_ihl. auto with width. Qed.

Context (r : Router) (n : Z) (p : bytes) (s : IPV4) (proto : Z).
Hypothesis Hp : is_bytes p.
Hypothesis Hn : n = Z.of_nat (length p).
Hypothesis Hn' : 20 <= n < 65536.
Hypothesis Hproto : is_u8 proto.
Hypothesis Hid : is_u16 (id s).
Hypothesis Hdst : is_u32 (dst_ipv4_addr s).
Hypothesis Hsrc : is_u32 (get_src_addr r s).

(** The header the socket writes, with the protocol of the layer above. *)
Definition sent : bytes := set_protocol e proto (fst (setupHeader e r n p s)).

Lemma sent_bytes : is_bytes sent.
Proof.
  unfold sent, setupHeader. cbn [fst]. unfold_setters. unfold set_fragment_offset, set_flags, set_version, set_ihl.
  auto 30 with width.
Qed.
Lemma sent_length : length sent = length p.
Proof.
  unfold sent, setupHeader. cbn [fst]. unfold_setters. unfold set_fragment_offset, set_flags, set_version, set_ihl.
  by rewrite !length_setf.
Qed.
Lemma sent_data : drop 20 sent = drop 20 p.
Proof.
  unfold sent, setupHeader. cbn [fst]. unfold_setters. unfold set_fragment_offset, set_flags, set_version, set_ihl, setf.
  by rewrite !drop_write by (rewrite length_fbytes; cbn; lia).
Qed.

(** The members of the header sent, the checksum stored over it. *)
Lemma sent_fields c : let q := store_checksum e c sent in
  getf e f_ihl_version q = match e with LE => 0x45 | BE => 0x54 end
  ∧ get_total_len e q = n ∧ get_ttl e q = 64 ∧ getf e f_flags q = 0
  ∧ get_dst_ipaddr e q = dst_ipv4_addr s ∧ get_src_ipaddr e q = get_src_addr r s
  ∧ get_protocol e q = proto ∧ get_id e q = id s.
Proof.
  cbv zeta. unfold sent, setupHeader. cbn [fst]. unfold_setters.
  unfold get_total_len, get_ttl, get_dst_ipaddr, get_src_ipaddr, get_protocol, get_id.
  rewrite <- (first_byte p Hp) by lia.
  assert (Hf : forall q, (8 <= length q)%nat -> is_bytes q ->
    getf e f_flags (set_fragment_offset e IPV4_NO_FRAGMENT_OFFSET (set_flags e IPV4_DEFAULT_FLAGS q)) = 0)
    by (intros; by apply flags_cleared).
  assert (Hl : forall a q, length (set_flags e a q) = length q) by (intros; unfold set_flags; by rewrite !length_setf).
  assert (Hl2 : forall a q, length (set_fragment_offset e a q) = length q)
    by (intros; unfold set_fragment_offset; by rewrite !length_setf).
  assert (Hl3 : forall q, length (set_version e 4 (set_ihl e 5 q)) = length q)
    by (intros; unfold set_version, set_ihl; by rewrite !length_setf).
  assert (Hs : forall g a q, (fend g <= 6)%nat ∨ (8 <= f_off g)%nat ->
    getf e g (set_fragment_offset e a (set_flags e a q)) = getf e g q)
    by (intros g a q Hg; unfold set_fragment_offset, set_flags; rewrite !getf_setf_ne by (cbn; lia); done).
  change (IPV4_MIN_HEADER_SIZE / 4) with 5. change IPV4_VERSION with 4.
  change IPV4_DEFAULT_FLAGS with 0 in *. change IPV4_NO_FRAGMENT_OFFSET with 0 in *.
  repeat split_and; repeat first
    [ rewrite Hs by (cbn; lia)
    | rewrite getf_setf_ne by (cbn; lia) ]; try done.
  all: try (rewrite getf_setf_eq; [done|rewrite ?Hl2, ?Hl, ?length_setf, ?Hl2, ?Hl, ?length_setf, ?Hl3; cbn; lia|cbn; done || (unfold is_u16, is_u8; lia)]).
  - rewrite (u16_id n) by (unfold is_u16; lia).
    apply getf_setf_eq; [rewrite length_setf, Hl3; cbn; lia|cbn; unfold is_u16; lia].
  - apply Hf; [rewrite !length_setf, Hl3; lia|]. pose proof (bytes_set_ihl_version 5 4 p Hp). auto with width.
Qed.


(** What a socket sends passes the receive path of its destination. *)
Lemma sent_accepted {S : Type} reassemble (i : Interface) (st : S) :
  ipv4_up i = true -> ipv4_addr i = dst_ipv4_addr s ->
  exists q, computeChecksum e sent = Some q
    ∧ ipv4_demux e reassemble i st q n = Some (st, Proceed q n)
    ∧ get_data e q = drop 20 p ∧ payload_len e q = n - 20
    ∧ get_src_ipaddr e q = get_src_addr r s ∧ get_protocol e q = proto ∧ get_id e q = id s.
Proof.
  intros Hup Haddr. pose proof (sent_fields 0) as H0. cbv zeta in H0. destruct H0 as (F0 & _).
  assert (Ei0 : get_ihl e sent = 5).
  { rewrite <- (get_ihl_store_checksum e 0). change (get_ihl e ?q) with
      (match e with LE => Z.land (getf e f_ihl_version q) 0xf | BE => Z.shiftr (getf e f_ihl_version q) 4 end).
    rewrite F0. by destruct e. }
  destruct (computeChecksum_valid e sent sent_bytes) as (c & Ec & Ev).
  { rewrite Ei0. lia. } { rewrite Ei0, sent_length. lia. }
  exists (store_checksum e c sent). destruct (sent_fields c) as (F1 & F2 & F3 & F4 & F5 & F6 & F7 & F8).
  set (q := store_checksum e c sent) in *.
  assert (Hq : is_bytes q) by (subst q; unfold store_checksum; pose proof sent_bytes; auto with width).
  assert (Hlen : Z.of_nat (length q) = n) by (subst q; unfold store_checksum; rewrite length_setf, sent_length; done).
  assert (Ei : get_ihl e q = 5) by (subst q; by rewrite get_ihl_store_checksum).
  assert (Ever : get_version e q = 4).
  { change (get_version e q) with
      (match e with LE => Z.shiftr (getf e f_ihl_version q) 4 | BE => Z.land (getf e f_ihl_version q) 0xf end).
    rewrite F1. by destruct e. }
  assert (Efr : is_fragment e q = false).
  { unfold is_fragment, get_flags, get_fragment_offset. rewrite F4. by destruct e. }
  split; [done|]. split.
  { rewrite <- Hlen at 1. rewrite (demux_accepts e reassemble i st q); try done; [by rewrite F2|..].
    - unfold header_ok. rewrite Ei, F2, Ever, Hlen. split; [lia|]. split; [lia|done].
    - by rewrite F3.
    - by rewrite F5. }
  split. { unfold get_data. rewrite Ei. change (Z.to_nat (5 * 4)) with 20%nat. subst q.
    unfold store_checksum, setf. rewrite drop_write by (rewrite length_fbytes; cbn; lia). apply sent_data. }
  split. { unfold payload_len. rewrite Ei, F2. change (5 * 4) with 20. apply u16_id. unfold is_u16. lia. }
  done.
Qed.

(** C13: The header a socket prepares, with its checksum, is accepted by the interface it is
    addressed to: the receiver hands the whole packet, whose payload is what was below the
    header and whose source is the socket's address, to the protocol; and the next header of
    the socket has the next identification. *)
Theorem sent_is_received {S : Type} reassemble (i : Interface) (st : S) :
  ipv4_up i = true -> ipv4_addr i = dst_ipv4_addr s ->
  exists q, computeChecksum e sent = Some q
    ∧ ipv4_demux e reassemble i st q n = Some (st, Proceed q n)
    ∧ get_data e q = drop 20 p ∧ payload_len e q = n - 20
    ∧ get_src_ipaddr e q = get_src_addr r s ∧ get_protocol e q = proto ∧ get_id e q = id s
    ∧ id (snd (setupHeader e r n p s)) = u16 (id s + 1).
Proof.
  intros Hup Haddr. destruct (sent_accepted reassemble i st Hup Haddr) as (q & H1 & H2 & H3 & H4 & H5 & H6 & H7).
  by exists q.
Qed.

End Sending.

(** ** Routes *)

Section Routes.
Import Routing Sockets.

Lemma find_from_spec l n dst :
  match find_from l n dst with
  | Some k => exists j i, k = (n + j)%nat ∧ get_interface l j = Some i ∧ is_route dst i = true
      ∧ forall j' i', (j' < j)%nat -> get_interface l j' = Some i' -> is_route dst i' = false
  | None => forall j i, get_interface l j = Some i -> is_route dst i = false
  end.
Proof.
  revert n. induction l as [|i l IH]; intros n; cbn [find_from]; [done|].
  destruct (is_route dst i) eqn:E.
  - exists 0%nat, i. split; [lia|]. split; [done|]. split; [done|]. intros j' i' Hj. lia.
  - specialize (IH (S n)). destruct (find_from l (S n) dst) as [k|].
    + destruct IH as (j & i0 & -> & H1 & H2 & H3). exists (S j), i0. split; [lia|]. split; [done|]. split; [done|].
      intros [|j'] i' Hj; cbn; [congruence|]. apply H3. lia.
    + intros [|j] i0; cbn; [congruence|]. apply IH.
Qed.

(** [k] is the first interface with a route to [dst]. *)
Definition first_route (r : Router) (dst : Z) (k : nat) : Prop :=
  exists i, get_interface (interfaces r) k = Some i ∧ is_route dst i = true
    ∧ forall j i', (j < k)%nat -> get_interface (interfaces r) j = Some i' -> is_route dst i' = false.
Definition no_route (r : Router) (dst : Z) : Prop :=
  forall j i, get_interface (interfaces r) j = Some i -> is_route dst i = false.

Lemma ipv4_find_route_spec r dst :
  match ipv4_find_route r dst with Some k => first_route r dst k | None => no_route r dst end.
Proof.
  unfold ipv4_find_route, first_route, no_route. pose proof (find_from_spec (interfaces r) 0 dst) as H.
  destruct (find_from _ _ _); [|done]. destruct H as (j & i & -> & H). exists i. done.
Qed.

(** Setting the destination picks the first interface whose subnet the destination lies
    in, with the destination as next hop; without one, the first interface towards the
    gateway, with the gateway as next hop; and none when there is neither.  The source
    address is that of the interface picked. *)
Theorem set_dst_addr_route (r : Router) (dst : Z) (s : IPV4) :
  let s' := set_dst_addr r dst s in
  get_nexthop_ipaddr r s' = (if using_gateway s' then ipv4_gateway_addr r else dst)
  ∧ (using_gateway s' = true <-> no_route r dst)
  ∧ match interface s' with
    | Some k => first_route r (get_nexthop_ipaddr r s') k
        ∧ exists i, get_interface (interfaces r) k = Some i ∧ get_src_addr r s' = ipv4_addr i
    | None => no_route r dst ∧ no_route r (ipv4_gateway_addr r)
    end.
Proof.
  cbv zeta. unfold set_dst_addr, resolveRoute. simpl_set. pose proof (ipv4_find_route_spec r dst) as H1.
  destruct (ipv4_find_route r dst) as [k|]; simpl.
  - destruct H1 as (i & Hi & Hr & Hf). unfold get_nexthop_ipaddr, get_src_addr. simpl. rewrite Hi.
    split; [done|]. split; [|split; [by exists i|eauto]].
    split; [done|]. intros H. specialize (H k i Hi). congruence.
  - pose proof (ipv4_find_route_spec r (ipv4_gateway_addr r)) as H2.
    unfold get_nexthop_ipaddr, get_src_addr. simpl. split; [done|]. split; [done|].
    destruct (ipv4_find_route r (ipv4_gateway_addr r)) as [k|]; [|done].
    split; [done|]. destruct H2 as (i & Hi & _). rewrite Hi. eauto.
Qed.
End Routes.

(** ** Concrete packets *)

Section Examples.
Import Reassembly ReassemblyFacts IPv4_Packet IPv4_Receive Sockets.

(** A header of 20 bytes: total length [len], flags and offset [hi], [lo], without checksum. *)
Definition header_example (len hi lo : Z) : bytes :=
  [0x45; 0; 0; len; 0; 7; hi; lo; 64; 17; 0; 0; 10; 0; 0; 1; 10; 0; 0; 2].
Definition pk (len hi lo : Z) (d : bytes) : bytes := header_example len hi lo ++ d.

(** Two fragments of 32 and 40 bytes. *)
Definition part1 : bytes := pk 52 0x20 0 (repeat 1 32).
Definition part2 : bytes := pk 60 0 4 (repeat 2 40).

Lemma reassembled_in_order_witness : exists a,
  feed LE 100 initial [(5, part1, repeat 1 32); (50, part2, repeat 2 40)] = Some a
  ∧ whole LE (header_example 52 0x20 0) (repeat 1 32 ++ data [(50, part2, repeat 2 40)]) a.
Proof.
  apply (reassembled_in_order LE 100 5 (header_example 52 0x20 0) (repeat 1 32) part1 initial
    [(50, part2, repeat 2 40)]); try done; try lia.
  - cbn. lia.
  - solve_bytes; unfold is_u8; lia.
  - constructor; try reflexivity. by exists (header_example 52 0x20 0), [].
  - cbn [in_order]. split; [lia|]. split; [lia|]. split; [|done].
    constructor; try reflexivity. by exists (header_example 60 0 4), [].
Defined.

(** A packet of 64 to 127 bytes is whole; one with bit 7 of its length set and part of the
    last byte of the bitmap never is. *)
Example length_92_complete : good_length 92 = true.
Proof. reflexivity. Qed.
Example length_200_never : good_length 200 = false.
Proof. reflexivity. Qed.

(** The blocks of the bitmap and the fragments are not aligned with one another: the second
    of three fragments never arrives, and the packet is handed out all the same. *)
Example missing_fragment_not_noticed :
  match feed LE 100 initial
    [(5, pk 68 0x20 0 (repeat 1 48), []); (6, pk 28 0 7 (repeat 3 8), [])] with
  | Some (_, complete, packet, len) => (complete, len, firstn 16 (skipn 60 packet))
  | None => (false, 0, [])
  end = (true, 84, repeat 1 8 ++ repeat 0 8).
Proof. vm_compute. reflexivity. Qed.

(** A second fragment with a shorter header: the length of the data wraps, the end passes
    the check, and memcpy writes behind the buffer. *)
Example fragment_overruns_buffer :
  let first := [0x4f; 0; 0; 68; 0; 7; 0x20; 0; 64; 17; 0; 0; 10; 0; 0; 1; 10; 0; 0; 2] ++ repeat 0 40 ++ repeat 1 8 in
  let second := pk 28 0x20 1 (repeat 2 8) in
  (Reassembly.ipv4_reassemble LE 5 100 initial first 68 0 ≫= λ '(s, _, _, _),
   Reassembly.ipv4_reassemble LE 6 100 s second 28 8) = None.
Proof. vm_compute. reflexivity. Qed.

Lemma fragment_fields_witness :
  get_flags LE (set_flags LE 9 part1) = 1 ∧ get_fragment_offset LE (set_fragment_offset LE 8200 part1) = 8.
Proof.
  assert (Hb : is_bytes part1) by (solve_bytes; unfold is_u8; lia).
  destruct (fragment_fields part1 9 8200 Hb) as (H1 & _ & H2 & _);
    [cbn; lia|unfold is_u8; lia|unfold is_u16; lia|].
  split; [exact H1|exact H2].
Defined.

(** A packet whose header sum is right, 10.0.0.1 to 10.0.0.2. *)
Definition packet_example : bytes := store_checksum LE (0x66 + 0xd0 * 256) (pk 20 0 0 []).
Definition interface_example : Interface := MkInterface (convert_ipv4_addr 10 0 0 2) (convert_ipv4_addr 255 0 0 0) true.

(** Two fragments become a whole packet, but the protocols get the last fragment as it came, with its own header and length. *)
Example reassembled_packet_lost :
  let summed p := default p (computeChecksum LE p) in
  let reassemble t s p n o := Reassembly.ipv4_reassemble LE t 100 s p n o in
  (r ← ipv4_demux LE (reassemble 5) interface_example initial (summed part1) 52;
   r' ← ipv4_demux LE (reassemble 6) interface_example (fst r) (summed part2) 60;
   whole ← ipv4_reassemble LE 6 100 (fst r) (summed part2) 60 32;
   Some (snd r, snd r', snd whole, drop 20 (take 92 (snd (fst whole)))))
  = Some (Discard, Proceed (summed part2) 60, 92, repeat 1 32 ++ repeat 2 40).
Proof. vm_compute. reflexivity. Qed.

Example packet_example_proceeds :
  ipv4_demux LE no_reassembly interface_example tt packet_example 20 = Some (tt, Proceed packet_example 20).
Proof. vm_compute. reflexivity. Qed.

Definition router_example : Router := MkRouter [MkInterface (convert_ipv4_addr 10 0 0 1) (convert_ipv4_addr 255 0 0 0) true] 0.
Definition socket_example : IPV4 := set_dst_addr router_example (convert_ipv4_addr 10 0 0 2) (IPV4_ctor false).

Lemma sent_is_received_witness : exists q,
  computeChecksum LE (sent LE router_example 24 (repeat 9 24) socket_example 17) = Some q
  ∧ ipv4_demux LE no_reassembly interface_example tt q 24 = Some (tt, Proceed q 24).
Proof.
  assert (Hb : is_bytes (repeat 9 24)) by (solve_bytes; unfold is_u8; lia).
  assert (Hd : is_u32 (dst_ipv4_addr socket_example)) by (vm_compute; split; congruence).
  assert (Hs : is_u32 (get_src_addr router_example socket_example)) by (vm_compute; split; congruence).
  assert (Hi : is_u16 (id socket_example)) by (vm_compute; split; congruence).
  assert (Hn : 20 <= 24 < 65536) by lia. assert (H17 : is_u8 17) by (unfold is_u8; lia).
  pose proof (sent_is_received LE router_example 24 (repeat 9 24) socket_example 17 Hb eq_refl Hn H17 Hi Hd Hs
    no_reassembly interface_example tt eq_refl) as H.
  assert (Ha : ipv4_addr interface_example = dst_ipv4_addr socket_example) by (vm_compute; reflexivity).
  destruct (H Ha) as (q & H1 & H2 & _). exists q. split; [exact H1|exact H2].
Defined.

(** The four bytes of an address are read as they are written, on a little-endian host. *)
Example convert_ipv4_addr_bytes :
  ipv4_addr_parts (convert_ipv4_addr 192 168 1 20) = (192, 168, 1, 20)
  ∧ firstn 4 (skipn 12 (set_src_ipaddr LE (convert_ipv4_addr 192 168 1 20) (repeat 0 20))) = [192; 168; 1; 20]
  ∧ firstn 4 (skipn 12 (set_src_ipaddr BE (convert_ipv4_addr 192 168 1 20) (repeat 0 20))) = [20; 1; 168; 192].
Proof. vm_compute. done. Qed.
End Examples.
