(* ===== verification/Iphc.v ===== *)
(** * Iphc: the compressed IPv6 header of 6LoWPAN

    Models [6lowpan/IPv6iphc.h] and [6lowpan/IPv6iphc.cpp] (class
    [IPv6hc_Packet]).  A packet is the memory it occupies: two bytes of fragment
    header, the tag, and [data].  The switch statements are translated with
    their fall-throughs and with the case labels as they stand (masks are not
    shifted, [10] and [11] are decimal).  Reading an address out of a pointer
    variable answers [None]. *)

From S2P Require Import Prelude Wire Packet Addresses.

Open Scope Z_scope.

(** The choice of the configuration for the hop limit. *)
Inductive hopcount := uncompressed | hopcount_255 | hopcount_64 | hopcount_1.
#[export] Instance hopcount_eq_dec : EqDecision hopcount.
Proof. solve_decision. Defined.

Module IPv6hc_Packet.

Definition HC_HEADERSIZE_WITHOUT_FRAG_HEADER : Z := 2.
Definition HC_FRAG_HEADER : Z := 4.

(** The private members. *)
Definition f_fragmentheader0 := Field 0 K8.
Definition f_fragmentheader1 := Field 1 K8.
Definition f_datagram_tag := Field 2 H16.
Definition o_data : nat := 4.
Definition members : list field := [f_fragmentheader0; f_fragmentheader1; f_datagram_tag].

(** [data[i]] and [&data[i]]. *)
Definition data (p : bytes) (i : Z) : Z := get8 (o_data + Z.to_nat i) p.
Definition data_from (p : bytes) (i : Z) : bytes := drop (o_data + Z.to_nat i) p.
Definition set_data (i : Z) (l : bytes) (p : bytes) : bytes := write (o_data + Z.to_nat i) l p.

(** The macros. *)
Definition TF (p : bytes) : Z := Z.land (data p 0) 0x18.
Definition NH (p : bytes) : Z := Z.land (data p 0) 0x04.
Definition HLIM (p : bytes) : Z := Z.land (data p 0) 0x03.
Definition CID (p : bytes) : Z := Z.land (data p 1) 0x80.
Definition SAC (p : bytes) : Z := Z.land (data p 1) 0x40.
Definition SAM (p : bytes) : Z := Z.land (data p 1) 0x30.
Definition M (p : bytes) : Z := Z.land (data p 1) 0x08.
Definition DAC (p : bytes) : Z := Z.land (data p 1) 0x04.
Definition DAM (p : bytes) : Z := Z.land (data p 1) 0x03.

(** [char] may be signed. *)
Definition of_char (signed : bool) (b : Z) : Z := if signed && (128 <=? b) then b - 256 else b.

Section Configuration.
Context (e : endian) (char_signed : bool) (hc : hopcount).

Definition HOPLIMIT_SIZE : Z := match hc with uncompressed => 1 | _ => 0 end.

(** The counter of the tags is a static member: passed in and out. *)
Definition writeFragmentHeader (size : Z) (p : bytes) (datagram_tag_counter : Z) : bytes * Z :=
  let p := setf e f_fragmentheader0 (Z.lor 0xC0 (Z.land 0x0700 size)) p in
  let p := setf e f_fragmentheader1 (Z.land 0x00FF size) p in
  (setf e f_datagram_tag datagram_tag_counter p, u16 (datagram_tag_counter + 1)).

Definition setUpHeader (p : bytes) : bytes :=
  let p := set_data 0 [0x60] p in
  let p := match hc with
    | hopcount_255 => set_data 0 [Z.lor (data p 0) 3] p
    | hopcount_64 => set_data 0 [Z.lor (data p 0) 2] p
    | hopcount_1 => set_data 0 [Z.lor (data p 0) 1] p
    | uncompressed => p
    end in
  set_data 1 [0] p.

(** [&] binds weaker than [<<]; the woven aspect swaps the result. *)
Definition get_payload_len (p : bytes) : Z :=
  LittleEndian.Network_to_Host_Short e
    (u16 (Z.lor (Z.land (of_char char_signed (getf e f_fragmentheader0 p)) (Z.shiftl 0x07 8))
                (of_char char_signed (getf e f_fragmentheader1 p)))).
Definition set_payload_len (len : Z) (p : bytes) (datagram_tag_counter : Z) : bytes * Z :=
  writeFragmentHeader (LittleEndian.Host_to_Network_Short e (u16 len)) p datagram_tag_counter.

Definition getWriteSrcHeaderSize : Z := 16.
Definition getWriteDestHeaderSize : Z := 16.
Definition getWriteMulticastDestHeaderSize : Z := 16.
Definition getWriteHeaderSize : Z :=
  u8 (1 + HOPLIMIT_SIZE + HC_HEADERSIZE_WITHOUT_FRAG_HEADER + HC_FRAG_HEADER).

Definition calculateHCHeaderSizeWithoutFragmentSize (p : bytes) : Z :=
  2 + (if CID p =? 1 then 1 else 0).

(** What traffic class and flow label, next header and hop limit take. *)
Definition size_TF (p : bytes) : Z := match TF p with 0 => 4 | 1 => 3 | 2 => 1 | _ => 0 end.
Definition size_NH (p : bytes) : Z := if NH p =? 0 then 1 else 0.
Definition size_HLIM (p : bytes) : Z := if HLIM p =? 0 then 1 else 0.
Definition size_CID (p : bytes) : Z := if CID p =? 1 then 1 else 0.

(** [switch (SAC)]: case 0 falls through to case 1. *)
Definition size_source_1 (p : bytes) : Z := match SAM p with 1 => 8 | 2 => 2 | _ => 0 end.
Definition size_source_0 (p : bytes) : Z := match SAM p with 0 => 16 | 1 => 8 | 2 => 2 | _ => 0 end.
Definition size_source (p : bytes) : Z :=
  match SAC p with 0 => size_source_0 p + size_source_1 p | 1 => size_source_1 p | _ => 0 end.

(** [switch (M)]: the switch over [DAC] falls through inside, and case 0 falls
    through to case 1. *)
Definition size_unicast (p : bytes) : Z :=
  let case1 := match DAM p with 1 => 8 | 2 => 2 | _ => 0 end in
  match DAC p with
  | 0 => match DAM p with 0 => 16 | 1 => 8 | 2 => 2 | _ => 0 end + case1
  | 1 => case1
  | _ => 0
  end.
Definition size_multicast (p : bytes) : Z :=
  let case1 := match DAM p with 0 => 6 | _ => 0 end in
  match DAC p with
  | 0 => match DAM p with 0 => 16 | 1 => 6 | 2 => 4 | 3 => 1 | _ => 0 end + case1
  | 1 => case1
  | _ => 0
  end.
Definition size_destination (p : bytes) : Z :=
  match M p with 0 => size_unicast p + size_multicast p | 1 => size_multicast p | _ => 0 end.

Definition calculateHeaderSize (p : bytes) : Z :=
  u8 (4 + size_TF p + size_NH p + size_HLIM p + size_CID p + size_source p + size_destination p).

Definition get_payload (p : bytes) : bytes := data_from p (calculateHeaderSize p).

Definition get_hoplimit (p : bytes) : Z :=
  match HLIM p with
  | 0 => data p (calculateHCHeaderSizeWithoutFragmentSize p + size_TF p + size_NH p)
  | 1 => 1
  | 2 => 64
  | 3 => 255
  | _ => 0
  end.
Definition set_hoplimit (t : Z) (p : bytes) : bytes :=
  match hc with
  | uncompressed => set_data (HC_HEADERSIZE_WITHOUT_FRAG_HEADER + 1) [t] p
  | _ => p
  end.

Definition get_nextheader (p : bytes) : Z :=
  match NH p with
  | 0 => data p (calculateHCHeaderSizeWithoutFragmentSize p + size_TF p)
  | _ => 0
  end.
Definition set_nextheader (i : Z) (p : bytes) : bytes :=
  set_data HC_HEADERSIZE_WITHOUT_FRAG_HEADER [i] p.

(** Without the Ethernet aspect this has no effect. *)
Definition get_dest_ip_from_upper_protocol_addr (mem : bytes) : bytes := mem.

(** [from] is the memory at [readPtr]. *)
Definition linklocal (mem : bytes) : bytes := <[1%nat := 0x80]> (<[0%nat := 0xfe]> mem).
Definition read_compressed_ipaddr (from : bytes) (flagbyte : Z) : option bytes :=
  match flagbyte with
  | 0 => None
  | 1 => Some (write 8 (take 8 from) (linklocal IPv6.get_unspecified_ipv6_address))
  | 10 => Some (<[15%nat := get8 1 from]> (<[14%nat := get8 0 from]> (<[12%nat := 0xfe]> (<[11%nat := 0xff]>
            (linklocal IPv6.get_unspecified_ipv6_address)))))
  | 11 => Some (get_dest_ip_from_upper_protocol_addr (linklocal IPv6.get_unspecified_ipv6_address))
  | _ => Some IPv6.get_unspecified_ipv6_address
  end.

Definition read_compressed_multicast_dest_ipaddr (from : bytes) (flagbyte : Z) : option bytes :=
  let mem := IPv6.get_unspecified_ipv6_address in
  match flagbyte with
  | 0 => None
  | 1 => Some (write 11 [get8 1 from; get8 2 from; get8 3 from; get8 4 from; get8 5 from] (write 0 [0xff; get8 0 from] mem))
  | 10 => Some (write 13 [get8 1 from; get8 2 from; get8 3 from] (write 0 [0xff; get8 0 from] mem))
  | 11 => Some (write 15 [get8 0 from] (write 0 [0xff; 0x02] mem))
  | _ => Some mem
  end.

Definition get_src_ipaddr (p : bytes) : option bytes :=
  let offset := calculateHCHeaderSizeWithoutFragmentSize p + 1 + HOPLIMIT_SIZE in
  read_compressed_ipaddr (data_from p offset) (Z.land (data p 1) 0x30).

Definition get_dst_ipaddr (p : bytes) : option bytes :=
  let offset := calculateHCHeaderSizeWithoutFragmentSize p + 1 + HOPLIMIT_SIZE + getWriteSrcHeaderSize in
  if negb (Z.land (data p 1) 0x08 =? 0)
  then read_compressed_multicast_dest_ipaddr (data_from p offset) (Z.land (data p 1) 0x03)
  else read_compressed_ipaddr (data_from p offset) (Z.land (data p 1) 0x03).

(** Without a compression aspect the sixteen bytes are copied. *)
Definition write_compressed_src_ipaddr (addr : bytes) (offset : Z) (p : bytes) : bytes :=
  set_data offset (take 16 addr) p.
Definition write_compressed_dst_ipaddr (addr : bytes) (offset : Z) (p : bytes) : bytes :=
  set_data offset (take 16 addr) p.
Definition write_compressed_multicast_dst_ipaddr (addr : bytes) (offset : Z) (p : bytes) : bytes :=
  let p := set_data 1 [Z.lor (data p 1) 0x08] p in
  set_data offset (take 16 addr) p.

Definition set_src_ipaddr (addr : bytes) (p : bytes) : bytes :=
  write_compressed_src_ipaddr addr (HC_HEADERSIZE_WITHOUT_FRAG_HEADER + 1 + HOPLIMIT_SIZE) p.
Definition set_dst_ipaddr (addr : bytes) (p : bytes) : bytes :=
  let offset := HC_HEADERSIZE_WITHOUT_FRAG_HEADER + 1 + HOPLIMIT_SIZE + getWriteSrcHeaderSize in
  if bool_decide (IPv6.getIPv6AddressScope addr = IPv6.IPV6_SCOPE_MULTICAST)
  then write_compressed_multicast_dst_ipaddr addr offset p
  else write_compressed_dst_ipaddr addr offset p.

(** What [IPV6::setupHeader] and the next header's owner do with a packet. *)
Definition compose (len nextheader hoplimit : Z) (src dst : bytes) (p : bytes) (tag : Z) : bytes * Z :=
  let p := setUpHeader p in
  let '(p, tag) := set_payload_len len p tag in
  let p := set_hoplimit hoplimit p in
  let p := set_src_ipaddr src p in
  let p := set_dst_ipaddr dst p in
  (set_nextheader nextheader p, tag).

End Configuration.
End IPv6hc_Packet.

(** ** What is written and what is read *)

Section Layout.
Import IPv6hc_Packet.

Definition encoding (hc : hopcount) : Z :=
  match hc with uncompressed => 0x60 | hopcount_255 => 0x63 | hopcount_64 => 0x62 | hopcount_1 => 0x61 end.
Definition length_byte (e : endian) (len : Z) : Z := match e with LE => len / 256 | BE => len mod 256 end.
Definition is_multicast (a : bytes) : bool := bool_decide (IPv6.getIPv6AddressScope a = IPv6.IPV6_SCOPE_MULTICAST).

(** The header as it goes out. *)
Definition wire (e : endian) (hc : hopcount) (len nextheader hoplimit : Z) (src dst : bytes) (tag : Z) : bytes :=
  [0xC0; length_byte e len] ++ store16 e tag ++ [encoding hc; if is_multicast dst then 8 else 0; nextheader]
  ++ match hc with uncompressed => [hoplimit] | _ => [] end ++ src ++ dst.

(** Sixteen bytes, one by one. *)
Ltac each_byte a H := do 16 (destruct a as [|? a]; [discriminate H|]); destruct a; [clear H|discriminate H].

Lemma set_data_app (a b c d : bytes) i : (o_data + Z.to_nat i)%nat = length a -> length b = length c ->
  set_data i c (a ++ b ++ d) = a ++ c ++ d.
Proof. intros Hi Hl. unfold set_data. rewrite Hi. by apply write_app. Qed.

Lemma length_byte_stored e len : is_u16 len ->
  u8 (Z.land 0x00FF (LittleEndian.Host_to_Network_Short e len)) = length_byte e len
  ∧ u8 (Z.lor 0xC0 (Z.land 0x0700 (LittleEndian.Host_to_Network_Short e len))) = 0xC0.
Proof.
  intros Hl. split.
  - rewrite Z.land_comm. change 0x00FF with 0xFF. rewrite land_ff.
    destruct e; cbn [LittleEndian.Host_to_Network_Short length_byte]; [rewrite LittleEndian.htons_value|]; zlia.
  - set (x := LittleEndian.Host_to_Network_Short e len). clearbody x. unfold u8.
    change 256 with (2 ^ 8). rewrite <- Z.land_ones by lia. rewrite Z.land_lor_distr_l, <- (Z.land_comm x), <- Z.land_assoc.
    change (Z.land 0x0700 (Z.ones 8)) with 0. by rewrite Z.land_0_r.
Qed.

(** The writes of the fragment header. *)
Lemma fragment_header_written e len a b c d rest tag : is_u16 len -> is_u16 tag ->
  set_payload_len e len (a :: b :: c :: d :: rest) tag
  = ([0xC0; length_byte e len] ++ store16 e tag ++ rest, u16 (tag + 1)).
Proof.
  intros Hl Ht. destruct (length_byte_stored e len Hl) as [E1 E2].
  unfold set_payload_len, writeFragmentHeader. rewrite (u16_id len Hl). f_equal.
  unfold setf. cbn [f_off f_kind f_fragmentheader0 f_fragmentheader1 f_datagram_tag fbytes write insert list_insert].
  rewrite E1, E2, (u16_id tag Ht). destruct e; reflexivity.
Qed.

(** The setters of a packet, called in the order of the socket, write the fragment header
    (whose length field loses a byte of the length), the encoding bytes, the next header, the
    hop limit where it is not compressed, and both addresses, and leave the payload behind
    them alone; the header has the size that was reserved for it. *)
Theorem compressed_header_written e hc len nextheader hoplimit src dst hdr payload tag :
  is_u16 len -> is_u16 tag -> length src = 16%nat -> length dst = 16%nat ->
  Z.of_nat (length hdr) = getWriteHeaderSize hc + getWriteSrcHeaderSize + getWriteDestHeaderSize ->
  compose e hc len nextheader hoplimit src dst (hdr ++ payload) tag
  = (wire e hc len nextheader hoplimit src dst tag ++ payload, u16 (tag + 1)).
Proof.
  intros Hl Ht Hs Hd Hz.
  assert (Hh : length hdr = match hc with uncompressed => 40 | _ => 39 end%nat).
  { replace (getWriteHeaderSize hc + getWriteSrcHeaderSize + getWriteDestHeaderSize)
      with (match hc with uncompressed => 40 | _ => 39 end) in Hz by (by destruct hc). destruct hc; lia. }
  clear Hz. unfold compose, wire, set_dst_ipaddr, set_src_ipaddr, write_compressed_src_ipaddr,
    write_compressed_dst_ipaddr, write_compressed_multicast_dst_ipaddr. fold (is_multicast dst).
  rewrite !take_ge by lia.
  assert (Hf : forall rest, setUpHeader hc (hdr ++ payload) = rest -> exists a b c d r, rest = a :: b :: c :: d :: r).
  { intros rest <-. destruct hc; (do 6 (destruct hdr as [|? hdr]; [discriminate Hh|]); eauto 10). }
  destruct (Hf _ eq_refl) as (a & b & c & d & r & E). rewrite E, fragment_header_written by done. clear Hf.
  f_equal. revert E. generalize (is_multicast dst) as m. generalize (length_byte e len) as lb.
  assert (Hst : exists t0 t1, store16 e tag = [t0; t1]) by (destruct e; cbn; eauto).
  destruct Hst as (t0 & t1 & ->). intros lb m E.
  each_byte src Hs. each_byte dst Hd.
  destruct hc; (do 39 (destruct hdr as [|? hdr]; [discriminate Hh|])).
  1: destruct hdr as [|? hdr]; [discriminate Hh|].
  all: destruct hdr; [|discriminate Hh].
  all: cbn in E; injection E as <- <- <- <- <-; destruct m; reflexivity.
Qed.

Lemma payload_len_read e signed lb a b rest : is_u8 lb ->
  get_payload_len e signed (0xC0 :: lb :: a :: b :: rest)
  = LittleEndian.Network_to_Host_Short e
      (if signed then if 128 <=? lb then 0xFF00 + lb else 0x0700 + lb else lb).
Proof.
  intros Hl. unfold get_payload_len, getf, f_fragmentheader0, f_fragmentheader1. cbn [f_kind f_off].
  change (get8 0 _) with 0xC0. change (get8 1 _) with lb. f_equal. unfold of_char.
  assert (H : forallb (λ n, let lb := Z.of_nat n in
     (u16 (Z.lor (Z.land (0xC0 - 256) 0x700) (if 128 <=? lb then lb - 256 else lb))
        =? (if 128 <=? lb then 0xFF00 + lb else 0x0700 + lb))
     && (u16 (Z.lor (Z.land 0xC0 0x700) lb) =? lb)) (seq 0 256) = true) by (vm_compute; done).
  rewrite forallb_forall in H. specialize (H (Z.to_nat lb) ltac:(apply in_seq; unfold is_u8 in Hl; lia)).
  cbv zeta in H. rewrite Z2Nat.id in H by apply Hl. apply andb_true_iff in H as [H1%Z.eqb_eq H2%Z.eqb_eq].
  change (Z.shiftl 7 8) with 0x700. change (128 <=? 0xC0) with true.
  destruct signed; [exact H1|exact H2].
Qed.

(** The size of the data in front of the payload. *)
Definition data_size (hc : hopcount) : Z := 3 + HOPLIMIT_SIZE hc + 32.

(** Of the header written only a compressed hop limit is read back.  The readers count four
    bytes for traffic class and flow label, which are not sent: next header and hop limit are
    bytes of the source address.  Both addresses are read from the variable that points to
    them.  One byte of the length is lost (on a host whose char is signed, sign bits of
    the fragment header are added as well).  The payload is looked for behind the fall-throughs of
    the switch, at 63 or 25 bytes instead of 35. *)
Theorem compressed_header_read_back e hc len nextheader hoplimit src dst payload tag :
  is_u16 len -> length src = 16%nat -> length dst = 16%nat ->
  let p := wire e hc len nextheader hoplimit src dst tag ++ payload in
  get_hoplimit p = match hc with
    | uncompressed => get8 3 src | hopcount_255 => 255 | hopcount_64 => 64 | hopcount_1 => 1 end
  ∧ get_nextheader p = get8 (match hc with uncompressed => 2 | _ => 3 end) src
  ∧ get_src_ipaddr hc p = None ∧ get_dst_ipaddr hc p = None
  ∧ data_from p (data_size hc) = payload
  ∧ get_payload p = data_from p ((if is_multicast dst then 25 else 63) + HOPLIMIT_SIZE hc)
  ∧ get_payload_len e false p = match e with LE => len / 256 * 256 | BE => len mod 256 end.
Proof.
  intros Hl Hs Hd p. unfold p, wire. generalize (is_multicast dst) as m.
  assert (Hb : is_u8 (length_byte e len)) by (unfold length_byte; destruct e; zlia).
  assert (Hst : exists t0 t1, store16 e tag = [t0; t1]) by (destruct e; cbn; eauto).
  destruct Hst as (t0 & t1 & ->). intros m. clear p.
  each_byte src Hs. each_byte dst Hd. split_and!.
  1-6: by destruct hc, m.
  cbn [app]. rewrite payload_len_read by done. unfold length_byte. destruct e; cbn; [|done].
  unfold LittleEndian.ntohs_. rewrite LittleEndian.htons_value. zlia.
Qed.

Definition hdr_example : bytes := repeat 0 40.
Definition src_example : bytes := [0xfe; 0x80; 0; 0; 0; 0; 0; 0; 1; 2; 3; 4; 5; 6; 7; 8].
Definition dst_example : bytes := [0xff; 0x02; 0; 0; 0; 0; 0; 0; 0; 0; 0; 0; 0; 0; 0; 1].

Lemma compressed_header_written_witness :
  compose LE uncompressed 300 17 44 src_example dst_example (hdr_example ++ [9; 9]) 7
  = (wire LE uncompressed 300 17 44 src_example dst_example 7 ++ [9; 9], u16 (7 + 1)).
Proof.
  apply (compressed_header_written LE uncompressed 300 17 44 src_example dst_example hdr_example [9; 9] 7);
    [unfold is_u16; lia|unfold is_u16; lia|reflexivity|reflexivity|reflexivity].
Defined.

Lemma compressed_header_read_back_witness :
  get_src_ipaddr hopcount_255 (wire BE hopcount_255 300 17 44 src_example dst_example 7 ++ [9; 9]) = None.
Proof.
  apply (compressed_header_read_back BE hopcount_255 300 17 44 src_example dst_example [9; 9] 7);
    [unfold is_u16; lia|reflexivity|reflexivity].
Defined.

(** A receiver of the standard's encodings: the eight-byte interface identifier of a source
    (SAM = 01) is not recognised, because the mask 0x30 is not shifted. *)
Example source_identifier_not_recognised :
  get_src_ipaddr hopcount_255 ([0xC0; 1; 0; 7; 0x63; 0x10; 17; 1; 2; 3; 4; 5; 6; 7; 8] ++ repeat 0 20)
  = Some IPv6.get_unspecified_ipv6_address.
Proof. reflexivity. Qed.
(** ... that of a destination is (DAM = 01), the two-byte one (DAM = 10, in decimals) is not. *)
Example destination_identifier :
  get_dst_ipaddr hopcount_255 ([0xC0; 1; 0; 7; 0x63; 0x01; 17] ++ src_example ++ [1; 2; 3; 4; 5; 6; 7; 8])
  = Some [0xfe; 0x80; 0; 0; 0; 0; 0; 0; 1; 2; 3; 4; 5; 6; 7; 8].
Proof. reflexivity. Qed.
Example destination_short_not_recognised :
  get_dst_ipaddr hopcount_255 ([0xC0; 1; 0; 7; 0x63; 0x02; 17] ++ src_example ++ [1; 2])
  = Some IPv6.get_unspecified_ipv6_address.
Proof. reflexivity. Qed.
End Layout.
