(* ===== verification/Headers.v ===== *)
(** * Headers: the headers of the protocols above and below IP

    Models the packet classes of [udp/UDP.h], [icmpv4/ICMP.h],
    [icmpv6/ICMPv6.h], [ethernet/Eth_Frame.h], [arp/ARP.h] and
    [arp/ipv4/Eth_ARP_IPv4_Packet.h], and the messages and options of neighbor
    discovery ([icmpv6/ndp], [icmpv6/ndp_router]) and multicast listener
    discovery ([icmpv6/mld]).  A packet is the memory it occupies; the
    accessors are woven with the byte order. *)

From S2P Require Import Prelude Wire Checksum Packet TcpSegment Addresses Ipv4.

Open Scope Z_scope.

(** An array of bytes inside of a packet. *)
Definition get_bytes (o n : nat) (p : bytes) : bytes := take n (drop o p).
Definition set_bytes (o n : nat) (a : bytes) (p : bytes) : bytes := write o (take n a) p.

(** ** UDP *)

Module UDP_Packet.
Definition UDP_HEADER_SIZE : Z := 8.
Definition IP_TYPE_UDP : Z := 17.
Definition UNUSED_PORT : Z := 0.
Definition f_sport := Field 0 K16.
Definition f_dport := Field 2 K16.
Definition f_length := Field 4 K16.
Definition f_checksum := Field 6 K16.
Definition members : list field := [f_sport; f_dport; f_length; f_checksum].
Section Accessors.
Context (e : endian).
Definition get_sport := getf e f_sport.
Definition set_sport := setf e f_sport.
Definition get_dport := getf e f_dport.
Definition set_dport := setf e f_dport.
Definition get_length := getf e f_length.
Definition set_length := setf e f_length.
Definition get_checksum := getf e f_checksum.
Definition set_checksum := setf e f_checksum.
Definition calc_checksum := InternetChecksum.calc_checksum e.
Definition checksum_valid := InternetChecksum.checksum_valid e.
End Accessors.
Definition get_data (p : bytes) : bytes := drop 8 p.
End UDP_Packet.

(** ** ICMP *)

Module ICMP_Packet.
Definition ICMP_HEADER_SIZE : Z := 8.
Definition ICMP_MAX_DATA_SIZE : Z := 56.
Definition IPV4_TYPE_ICMP : Z := 1.
Definition ICMP_TYPE_ECHO_REQUEST : Z := 8.
Definition ICMP_TYPE_ECHO_REPLY : Z := 0.
Definition f_type := Field 0 K8.
Definition f_code := Field 1 K8.
Definition f_checksum := Field 2 K16.
Definition f_quench := Field 4 H32.
Definition members : list field := [f_type; f_code; f_checksum; f_quench].
Section Accessors.
Context (e : endian).
Definition get_type := getf e f_type.
Definition set_type := setf e f_type.
Definition get_code := getf e f_code.
Definition set_code := setf e f_code.
Definition get_checksum := getf e f_checksum.
Definition set_checksum := setf e f_checksum.
Definition get_quench := getf e f_quench.
Definition set_quench := setf e f_quench.
Definition calc_checksum := InternetChecksum.calc_checksum e.
Definition checksum_valid := InternetChecksum.checksum_valid e.
End Accessors.
Definition get_data (p : bytes) : bytes := drop 8 p.
End ICMP_Packet.

(** ** ICMPv6 *)

Module ICMPv6_Packet.
Definition ICMP_HEADER_SIZE : Z := 4.
Definition IPV6_TYPE_ICMP : Z := 58.
Definition ICMP_TYPE_ECHO_REQUEST : Z := 128.
Definition ICMP_TYPE_ECHO_REPLY : Z := 129.
Definition f_type := Field 0 K8.
Definition f_code := Field 1 K8.
Definition f_checksum := Field 2 K16.
Definition members : list field := [f_type; f_code; f_checksum].
Section Accessors.
Context (e : endian).
Definition get_type := getf e f_type.
Definition set_type := setf e f_type.
Definition get_code := getf e f_code.
Definition set_code := setf e f_code.
Definition get_checksum := getf e f_checksum.
Definition set_checksum := setf e f_checksum.
Definition calc_checksum := InternetChecksum.calc_checksum e.
Definition checksum_valid := InternetChecksum.checksum_valid e.
End Accessors.
Definition get_data (p : bytes) : bytes := drop 4 p.
End ICMPv6_Packet.

(** ** Ethernet *)

Module Eth_Frame.
Definition ETH_HEADER_SIZE : Z := 14.
Definition MAX_FRAME_SIZE : Z := 1518.
Definition o_dst_hwaddr : nat := 0.
Definition o_src_hwaddr : nat := 6.
Definition f_type := Field 12 K16.
Section Accessors.
Context (e : endian).
Definition get_type := getf e f_type.
Definition set_type := setf e f_type.
End Accessors.
Definition get_data (p : bytes) : bytes := drop 14 p.
Definition set_dst_hwaddr (dst : bytes) : bytes -> bytes := set_bytes o_dst_hwaddr 6 dst.
Definition get_dst_hwaddr : bytes -> bytes := get_bytes o_dst_hwaddr 6.
Definition set_dst_hwaddr_broadcast : bytes -> bytes := write o_dst_hwaddr [0xff; 0xff; 0xff; 0xff; 0xff; 0xff].
Definition set_src_hwaddr (src : bytes) : bytes -> bytes :=
  write o_src_hwaddr [get8 0 src; get8 1 src; get8 2 src; get8 3 src; get8 4 src; get8 5 src].
Definition get_src_hwaddr : bytes -> bytes := get_bytes o_src_hwaddr 6.
End Eth_Frame.

(** ** ARP *)

Module ARP_Packet.
Definition ETH_TYPE_ARP : Z := 0x0806.
Definition ARP_HW_TYPE_ETH : Z := 1.
Definition ARP_REQUEST : Z := 1.
Definition ARP_REPLY : Z := 2.
Definition ARP_HEADER_SIZE : Z := 8.
Definition ARP_PROTOCOL_TYPE_IPV4 : Z := 0x0800.
Definition ARP_HW_ADDR_SIZE_ETH : Z := 6.
Definition ARP_PROTOCOL_ADDR_SIZE_IPV4 : Z := 4.
Definition ARP_IPV4_PACKETSIZE : Z := ARP_HEADER_SIZE + 2 * ARP_HW_ADDR_SIZE_ETH + 2 * ARP_PROTOCOL_ADDR_SIZE_IPV4.
Definition f_hw_type := Field 0 K16.
Definition f_protocol_type := Field 2 K16.
Definition f_hw_addr_size := Field 4 K8.
Definition f_protocol_addr_size := Field 5 K8.
Definition f_opcode := Field 6 K16.
Definition members : list field := [f_hw_type; f_protocol_type; f_hw_addr_size; f_protocol_addr_size; f_opcode].
Section Accessors.
Context (e : endian).
Definition get_hw_type := getf e f_hw_type.
Definition set_hw_type := setf e f_hw_type.
Definition get_protocol_type := getf e f_protocol_type.
Definition set_protocol_type := setf e f_protocol_type.
Definition get_hw_addr_size := getf e f_hw_addr_size.
Definition set_hw_addr_size := setf e f_hw_addr_size.
Definition get_protocol_addr_size := getf e f_protocol_addr_size.
Definition set_protocol_addr_size := setf e f_protocol_addr_size.
Definition get_opcode := getf e f_opcode.
Definition set_opcode := setf e f_opcode.
End Accessors.
Definition get_payload (p : bytes) : bytes := drop 8 p.
End ARP_Packet.

(** An ARP packet for IPv4 in its frame: 22 bytes of headers, then the
    addresses, which are stored in the byte order of the host. *)
Module Eth_ARP_IPv4_Packet.
Definition HEADER_SIZE : Z := Eth_Frame.ETH_HEADER_SIZE + ARP_Packet.ARP_HEADER_SIZE.
Definition FRAMESIZE : Z := Eth_Frame.ETH_HEADER_SIZE + ARP_Packet.ARP_IPV4_PACKETSIZE.
Definition get_ARP_Packet (p : bytes) : bytes := drop 14 p.
Definition o_arp_src_hwaddr : nat := 22.
Definition f_arp_src_ipv4_addr := Field 28 H32.
Definition o_arp_dst_hwaddr : nat := 32.
Definition f_arp_dst_ipv4_addr := Field 38 H32.
(** The interface that sends it, if any, and what [hasBeenSent] answers. *)
Definition isFree (interface : option nat) (hasBeenSent : nat -> bool) : bool :=
  match interface with None => true | Some i => hasBeenSent i end.
End Eth_ARP_IPv4_Packet.

(** ** Neighbor discovery *)

Module NDPMessages.

Inductive LinkLayerAddressType := SourceLinkLayer | TargetLinkLayer.
Definition type_of (t : LinkLayerAddressType) : Z := match t with SourceLinkLayer => 1 | TargetLinkLayer => 2 end.

(** The loop over the options in the memory [data], at most [fuel] of them:
    the memory from the first option of the type on.  The outer option is
    [None] when memory behind the list is read or the fuel runs out. *)
Fixpoint find_option (fuel : nat) (type : Z) (data : bytes) (remaining_options_length : Z) : option (option bytes) :=
  match fuel with
  | O => None
  | S fuel =>
      len_in_octets ← data !! 1%nat;
      if (len_in_octets =? 0) || (remaining_options_length <? len_in_octets * 8) then Some None
      else
        t ← data !! 0%nat;
        if t =? type then Some (Some data)
        else find_option fuel type (drop (Z.to_nat (len_in_octets * 8)) data)
               (remaining_options_length - len_in_octets * 8)
  end.

(** Every option takes at least eight bytes of the length. *)
Definition option_fuel (remaining_options_length : Z) : nat := S (Z.to_nat (remaining_options_length / 8)).

Definition get_option_linklayer_address (type : LinkLayerAddressType) (data : bytes)
    (remaining_options_length : Z) : option (option bytes) :=
  r ← find_option (option_fuel remaining_options_length) (type_of type) data remaining_options_length;
  match r with
  | None => Some None
  | Some o => if Nat.leb 8 (length o) then Some (Some (get_bytes 2 6 o)) else None
  end.

(** [?:] binds weaker than [+]. *)
Definition multiple_of_octets (origSize : Z) : Z :=
  if negb (origSize / 8 + origSize mod 8 =? 0) then 1 else 0.

Definition write_option_linklayer_address (type : LinkLayerAddressType) (o : nat)
    (linklayerAddress : bytes) (linklayerAddressSize : Z) (p : bytes) : bytes :=
  let len := if 6 <? linklayerAddressSize then u8 (1 + multiple_of_octets linklayerAddressSize) else 1 in
  let p := write o [type_of type; len] p in
  set_bytes (o + 2) (Z.to_nat linklayerAddressSize) linklayerAddress p.

End NDPMessages.

Module NDPRouterMessages.
(** [RouterSolicitationMessage] and [RouterAdvertisementMessage]. *)
Definition solicitation_members : list field := [Field 0 K8; Field 1 K8; Field 2 H16; Field 4 H32].
Definition advertisement_members : list field :=
  [Field 0 K8; Field 1 K8; Field 2 H16; Field 4 K8; Field 5 K8; Field 6 H16; Field 8 H32; Field 12 H32].
(** [OptionPrefixInformation]; the getters of the lifetimes are woven with the long conversion. *)
Definition f_prefix_length := Field 2 K8.
Definition f_flags := Field 3 K8.
Definition f_valid_lifetime := Field 4 K32.
Definition f_preferred_lifetime := Field 8 K32.
Definition prefix_members : list field :=
  [Field 0 K8; Field 1 K8; f_prefix_length; f_flags; f_valid_lifetime; f_preferred_lifetime].
Definition get_prefix (p : bytes) : bytes := get_bytes 16 16 p.
Section Accessors.
Context (e : endian).
Definition isOnLink (p : bytes) : bool := negb (Z.land 0x80 (getf e f_flags p) =? 0).
Definition useForStatelessAddressConfiguration (p : bytes) : bool := negb (Z.land 0x40 (getf e f_flags p) =? 0).
Definition get_valid_lifetime := getf e f_valid_lifetime.
Definition get_preferred_lifetime := getf e f_preferred_lifetime.
End Accessors.
Definition get_prefix_option (data : bytes) (remaining_options_length : Z) : option (option bytes) :=
  NDPMessages.find_option (NDPMessages.option_fuel remaining_options_length) 3 data remaining_options_length.
End NDPRouterMessages.

Module NDPNeighborMessages.
Import NDPMessages.
(** The target address of both messages is at byte 8, the options at 24. *)
Definition sizeof_NeighborSolicitationMessage : Z := 24.
Definition f_flags := Field 4 K8.
Definition get_target_address (p : bytes) : bytes := get_bytes 8 16 p.
Section Flags.
Context (e : endian).
Definition isRouter (p : bytes) : bool := negb (Z.land 0x80 (getf e f_flags p) =? 0).
Definition isResponse (p : bytes) : bool := negb (Z.land 0x40 (getf e f_flags p) =? 0).
Definition isOverride (p : bytes) : bool := negb (Z.land 0x20 (getf e f_flags p) =? 0).
Definition setRouter (v : bool) (p : bytes) : bytes := if v then setf e f_flags (Z.lor (getf e f_flags p) 0x80) p else p.
Definition setResponse (v : bool) (p : bytes) : bytes := if v then setf e f_flags (Z.lor (getf e f_flags p) 0x40) p else p.
Definition setOverride (v : bool) (p : bytes) : bytes := if v then setf e f_flags (Z.lor (getf e f_flags p) 0x20) p else p.

(** The message [send_neighbor_solicitation] writes into the send buffer, and
    the size it asks for. *)
Definition solicitation_size (addressSize : Z) : Z :=
  u8 (sizeof_NeighborSolicitationMessage + multiple_of_octets addressSize * 8).
Definition neighbor_solicitation (ipv6_dstaddr address : bytes) (addressSize : Z) (p : bytes) : bytes :=
  let p := write 0 [135; 0] p in
  let p := setf e (Field 4 H32) 0 p in
  let p := set_bytes 8 16 ipv6_dstaddr p in
  write_option_linklayer_address SourceLinkLayer 24 address addressSize p.
End Flags.
(** Where it is sent: the solicited-node address on demand. *)
Definition solicitation_destination (ipv6_dstaddr : bytes) (useSolicitatedMulticastAddress : bool) : bytes :=
  if useSolicitatedMulticastAddress then IPv6.solicitedNode_multicast_addr ipv6_dstaddr
  else IPv6.copy_ipv6_addr ipv6_dstaddr.
End NDPNeighborMessages.

(** ** Multicast listener discovery *)

Module MLDMessages.
Inductive mldv2_listener_report_record_type := mldv2_CHANGE_TO_INCLUDE_MODE | mldv2_CHANGE_TO_EXCLUDE_MODE.
Definition rtype_of (t : mldv2_listener_report_record_type) : Z :=
  match t with mldv2_CHANGE_TO_INCLUDE_MODE => 3 | mldv2_CHANGE_TO_EXCLUDE_MODE => 4 end.
Section Writers.
Context (e : endian).
(** The members of the messages of version 1. *)
Definition write_mldv1 (type : Z) (multicast_addr : bytes) (p : bytes) : bytes :=
  let p := setf e (Field 0 K8) type p in
  let p := setf e (Field 1 K8) 0 p in
  let p := setf e (Field 2 H16) 0 p in
  let p := setf e (Field 4 H16) 0 p in
  let p := setf e (Field 6 H16) 0 p in
  set_bytes 8 16 multicast_addr p.
Definition write_mldv1_listener_report := write_mldv1 131.
Definition write_mldv1_listener_done := write_mldv1 132.
Definition sizeof_message : nat := 8.
Definition write_mldv2_listener_report_message (multicast_addr : bytes)
    (rtype : mldv2_listener_report_record_type) (p : bytes) : bytes :=
  let p := setf e (Field 0 K8) 143 p in
  let p := setf e (Field 1 K8) 0 p in
  let p := setf e (Field 2 H16) 0 p in
  let p := setf e (Field 4 H16) 0 p in
  let p := setf e (Field 6 K8) 0 p in
  let p := setf e (Field 7 K8) 1 p in
  let p := setf e (Field sizeof_message K8) (rtype_of rtype) p in
  let p := setf e (Field (sizeof_message + 1) K8) 0 p in
  let p := setf e (Field (sizeof_message + 2) H16) 0 p in
  set_bytes (sizeof_message + 4) 16 multicast_addr p.
End Writers.
Definition mldv2_listener_report_message_size : Z := 8 + 20.
End MLDMessages.

(** ** Options of neighbor discovery *)

Section Options.
Import NDPMessages.

(** An option: its type and what follows type and length; its length in units of eight bytes. *)
Definition option_ok (o : Z * bytes) : Prop :=
  exists k, 1 <= k < 256 ∧ Z.of_nat (length (snd o)) + 2 = 8 * k.
Definition encode (o : Z * bytes) : bytes := fst o :: (Z.of_nat (length (snd o)) + 2) / 8 :: snd o.

(** The memory from the first option of a type on. *)
Fixpoint first_option (type : Z) (opts : list (Z * bytes)) (rest : bytes) : option bytes :=
  match opts with
  | [] => None
  | o :: opts =>
      if fst o =? type then Some (encode o ++ concat (map encode opts) ++ rest) else first_option type opts rest
  end.

Lemma encode_length o : option_ok o -> (8 <= length (encode o))%nat ∧ Z.of_nat (length (encode o)) = 8 * ((Z.of_nat (length (snd o)) + 2) / 8).
Proof. intros (k & Hk & E). unfold encode. cbn [length]. zlia. Qed.

Lemma find_option_step fuel type o d m : option_ok o -> 0 <= m ->
  find_option (S fuel) type (encode o ++ d) (Z.of_nat (length (encode o)) + m)
  = if fst o =? type then Some (Some (encode o ++ d)) else find_option fuel type d m.
Proof.
  intros Ho Hm. destruct (encode_length o Ho) as [E8 El]. destruct o as [t body]. cbn [fst snd] in *.
  set (n := Z.of_nat (length (encode (t, body)))) in *.
  assert (Ed : forall x, x = Z.to_nat n -> drop x (encode (t, body) ++ d) = d)
    by (intros x ->; subst n; rewrite Nat2Z.id; apply drop_app_length).
  unfold encode in *. cbn [app fst snd] in *. set (k := (Z.of_nat (length body) + 2) / 8) in *.
  cbn [find_option lookup list_lookup mbind option_bind].
  destruct (Z.eqb_spec k 0); [lia|]. destruct (Z.ltb_spec (n + m) (k * 8)); [lia|]. cbn [orb].
  destruct (t =? type); [done|]. rewrite Ed by lia. f_equal. lia.
Qed.

Lemma find_option_spec type opts : forall fuel rest r l, Forall option_ok opts ->
  rest !! 1%nat = Some l -> 0 <= r -> (l = 0 ∨ r < l * 8) -> (length opts < fuel)%nat ->
  find_option fuel type (concat (map encode opts) ++ rest) (Z.of_nat (length (concat (map encode opts))) + r)
  = Some (first_option type opts rest).
Proof.
  induction opts as [|o opts IH]; intros fuel rest r l Ho Hl Hr Hb Hf; (destruct fuel as [|fuel]; [cbn in Hf; lia|]).
  - cbn [map concat app length]. cbn [find_option]. rewrite Hl. cbn [mbind option_bind].
    destruct (orb _ _) eqn:E; [done|]. apply orb_false_iff in E as [E1%Z.eqb_neq E2%Z.ltb_ge]. lia.
  - apply Forall_cons in Ho as [Ho Hos]. cbn [map concat first_option]. rewrite <- app_assoc, length_app, Nat2Z.inj_add, <- Z.add_assoc.
    rewrite find_option_step by (try done; lia). destruct (fst o =? type); [done|].
    apply (IH fuel rest r l); try done. cbn in Hf. lia.
Qed.

Lemma options_count opts : Forall option_ok opts -> (8 * length opts <= length (concat (map encode opts)))%nat.
Proof.
  induction 1 as [|o opts Ho _ IH]; [done|]. cbn [map concat length]. rewrite length_app.
  pose proof (encode_length o Ho). lia.
Qed.

Lemma first_option_length type opts rest o : Forall option_ok opts -> first_option type opts rest = Some o ->
  (8 <= length o)%nat.
Proof.
  induction 1 as [|[t b] opts Ho _ IH]; [done|]. cbn [first_option]. destruct (_ =? _); [|done].
  intros [= <-]. pose proof (encode_length (t, b) Ho). cbn [length] in *. rewrite ?length_app. unfold encode in *. cbn in *. lia.
Qed.

(** Searching the options of a message ends with the first option of the type, behind
    options of any other types, or without result at an option whose length is 0 or more
    than what is left (the end of the options included, where two bytes behind them are read). *)
Theorem ndp_options_searched (opts : list (Z * bytes)) (rest : bytes) (r l : Z) (t : LinkLayerAddressType) :
  Forall option_ok opts -> rest !! 1%nat = Some l -> 0 <= r -> (l = 0 ∨ r < l * 8) ->
  let data := concat (map encode opts) ++ rest in
  let remaining := Z.of_nat (length (concat (map encode opts))) + r in
  get_option_linklayer_address t data remaining = Some (get_bytes 2 6 <$> first_option (type_of t) opts rest)
  ∧ NDPRouterMessages.get_prefix_option data remaining = Some (first_option 3 opts rest).
Proof.
  intros Ho Hl Hr Hb data remaining.
  assert (Hf : (length opts < option_fuel remaining)%nat).
  { pose proof (options_count opts Ho). unfold option_fuel, remaining. zlia. }
  unfold get_option_linklayer_address, NDPRouterMessages.get_prefix_option, data, remaining in *.
  rewrite !(find_option_spec _ opts _ rest r l) by done. split; [|done]. cbn [mbind option_bind].
  destruct (first_option (type_of t) opts rest) as [o|] eqn:E; [|done].
  pose proof (first_option_length _ _ _ _ Ho E) as H8. by rewrite (proj2 (Nat.leb_le _ _) H8).
Qed.

(** An MTU option and the address of the source. *)
Definition options_example : list (Z * bytes) := [(5, [0; 0; 0; 0; 5; 220]); (1, [2; 0; 0; 0; 0; 9])].
Lemma ndp_options_searched_witness :
  get_option_linklayer_address SourceLinkLayer (concat (map encode options_example) ++ [0; 0])
    (Z.of_nat (length (concat (map encode options_example))) + 0) = Some (Some [2; 0; 0; 0; 0; 9]).
Proof.
  apply (ndp_options_searched options_example [0; 0] 0 0 SourceLinkLayer); [|done|lia|by left].
  repeat constructor; exists 1; cbn; lia.
Defined.

(** At the end of the options of a packet without bytes behind it, memory behind the packet is read. *)
Example options_read_past_the_end :
  NDPRouterMessages.get_prefix_option [5; 1; 0; 0; 0; 0; 5; 220] 8 = None.
Proof. reflexivity. Qed.

(** The units for an address of twenty bytes: one, not three ([?:] binds weaker than [+]). *)
Example multiple_of_octets_20 : multiple_of_octets 20 = 1.
Proof. reflexivity. Qed.

(** The neighbor solicitation for an address, sent with a link layer address of six bytes,
    fills the buffer of the size asked for, carries the target, and its option reads back
    as the link layer address; it is sent to the solicited-node address, whose last bytes
    are the target's. *)
Theorem neighbor_solicitation_read_back (e : endian) (target mac p rest : bytes) :
  is_addr target -> length mac = 6%nat -> Z.of_nat (length p) = NDPNeighborMessages.solicitation_size 6 ->
  let msg := NDPNeighborMessages.neighbor_solicitation e target mac 6 p in
  length msg = length p
  ∧ get8 0 msg = 135 ∧ NDPNeighborMessages.get_target_address msg = target
  ∧ get_option_linklayer_address SourceLinkLayer (drop 24 msg ++ rest) 8 = Some (Some mac)
  ∧ IPv6.getIPv6AddressScope (NDPNeighborMessages.solicitation_destination target true) = IPv6.IPV6_SCOPE_MULTICAST
  ∧ take 3 (drop 13 (NDPNeighborMessages.solicitation_destination target true)) = take 3 (drop 13 target).
Proof.
  intros [Ht _] Hm Hp msg. change (NDPNeighborMessages.solicitation_size 6) with 32 in Hp.
  assert (Hp' : length p = 32%nat) by lia. clear Hp.
  do 16 (destruct target as [|? target]; [done|]). destruct target; [clear Ht|done].
  do 6 (destruct mac as [|? mac]; [done|]). destruct mac; [clear Hm|done].
  do 32 (destruct p as [|? p]; [done|]). destruct p; [clear Hp'|done].
  assert (E : exists q, msg = q ++ encode (1, [z15; z16; z17; z18; z19; z20]) ∧ length q = 24%nat
     ∧ get8 0 q = 135 ∧ get_bytes 8 16 q = [z; z0; z1; z2; z3; z4; z5; z6; z7; z8; z9; z10; z11; z12; z13; z14]).
  { unfold msg. eexists (_ :: _ :: _ :: _ :: _ :: _ :: _ :: _ :: _ :: _ :: _ :: _ :: _ :: _ :: _ :: _
      :: _ :: _ :: _ :: _ :: _ :: _ :: _ :: _ :: []). split_and!; destruct e; reflexivity. }
  destruct E as (q & -> & Hq & E1 & E2).
  split_and!; try done.
  - rewrite length_app, Hq. done.
  - unfold get8. rewrite app_nth1 by lia. exact E1.
  - unfold NDPNeighborMessages.get_target_address, get_bytes in *.
    rewrite drop_app_le by lia. by rewrite take_app_le by (rewrite length_drop; lia).
  - assert (Ed : drop 24 (q ++ encode (1, [z15; z16; z17; z18; z19; z20])) = encode (1, [z15; z16; z17; z18; z19; z20]))
      by (rewrite <- Hq; apply drop_app_length).
    rewrite Ed. pose proof (find_option_step 1 1 (1, [z15; z16; z17; z18; z19; z20]) rest 0) as H.
    unfold get_option_linklayer_address. change (option_fuel 8) with 2%nat. change (type_of SourceLinkLayer) with 1.
    change 8 with (Z.of_nat (length (encode (1, [z15; z16; z17; z18; z19; z20]))) + 0) at 1.
    rewrite H; [reflexivity|exists 1; cbn; lia|lia].
Qed.

Lemma neighbor_solicitation_read_back_witness :
  let target := [0xfe; 0x80; 0; 0; 0; 0; 0; 0; 1; 2; 3; 4; 5; 6; 7; 8] in
  get_option_linklayer_address SourceLinkLayer
    (drop 24 (NDPNeighborMessages.neighbor_solicitation LE target [2; 0; 0; 0; 0; 9] 6 (repeat 0 32)) ++ [0; 0]) 8
  = Some (Some [2; 0; 0; 0; 0; 9]).
Proof.
  cbv zeta. apply (neighbor_solicitation_read_back LE [0xfe; 0x80; 0; 0; 0; 0; 0; 0; 1; 2; 3; 4; 5; 6; 7; 8]
    [2; 0; 0; 0; 0; 9] (repeat 0 32) [0; 0]); [|reflexivity|reflexivity].
  apply is_addr_literal; reflexivity.
Defined.
End Options.

(** The report of version 2 for ff02::1:ff00:9. *)
Example mldv2_report :
  let addr := [0xff; 2; 0; 0; 0; 0; 0; 0; 0; 0; 0; 1; 0xff; 0; 0; 9] in
  MLDMessages.write_mldv2_listener_report_message LE addr MLDMessages.mldv2_CHANGE_TO_EXCLUDE_MODE (repeat 7 28)
  = [143; 0; 0; 0; 0; 0; 0; 1; 4; 0; 0; 0] ++ addr.
Proof. reflexivity. Qed.
