(* ===== verification/Ipv6.v ===== *)
(** * Ipv6: the IPv6 layer

    Models [ipv6/IPv6.h] (class [IPv6_Packet]), the address memory of an
    interface ([ipv6/AddressMemory.h] with the entries of
    [ipv6/ndpcache/NDPCacheEntry.h] and [ipv6/multicast/MulticastEntry.h]),
    interfaces and routes ([ipv6/Interface_IPv6_Slice.ah],
    [ipv6/Router_IPv6_Slice.ah]), the sending side of a socket
    ([ipv6/IPv6onSockets.cpp]), reception ([ipv6/IPv6_Receive.ah],
    [ipv6/Demux_IPv6_Slice.ah]) and extension headers
    ([ipv6/ExtensionHeaderOptions.h], [ipv6/ipv6_hopbyhopheader]). *)

From S2P Require Import Prelude Wire Packet Addresses Headers.

Open Scope Z_scope.

(** ** The packet *)

Module IPv6_Packet.

Definition ETH_TYPE_IPV6 : Z := 0x86DD.
Definition IPV6_VERSION : Z := 6.
Definition IPV6_HEADER_SIZE_IN_BYTES : Z := 40.
Definition IPV6_DEFAULT_HOPLIMIT : Z := 255.

(** The private members; the first byte holds [traffic_class1] and [version]. *)
Definition f_version := Field 0 K8.
Definition f_traffic_class2_flowLabel1 := Field 1 K8.
Definition f_flowLabel2 := Field 2 K8.
Definition f_flowLabel3 := Field 3 K8.
Definition f_payload_length := Field 4 K16.
Definition f_nextheader := Field 6 K8.
Definition f_hoplimit := Field 7 K8.
Definition members : list field :=
  [f_version; f_traffic_class2_flowLabel1; f_flowLabel2; f_flowLabel3; f_payload_length; f_nextheader; f_hoplimit].
Definition o_src_ipaddr : nat := 8.
Definition o_dst_ipaddr : nat := 24.

Section Accessors.
Context (e : endian).

(** The first bit field of a byte has the low bits on a little-endian host. *)
Definition setUpHeader (p : bytes) : bytes :=
  let p := setf e f_flowLabel3 0 p in
  let p := setf e f_flowLabel2 0 p in
  let p := setf e f_traffic_class2_flowLabel1 0 p in
  let p := setf e f_version (match e with LE => Z.land (get8 0 p) 0xf0 | BE => Z.land (get8 0 p) 0x0f end) p in
  setf e f_version (match e with
    | LE => Z.lor (Z.land (get8 0 p) 0x0f) (Z.shiftl IPV6_VERSION 4)
    | BE => Z.lor (Z.land (get8 0 p) 0xf0) IPV6_VERSION end) p.

Definition get_payload_len := getf e f_payload_length.
Definition set_payload_len := setf e f_payload_length.
Definition get_version (p : bytes) : Z :=
  match e with LE => Z.shiftr (get8 0 p) 4 | BE => Z.land (get8 0 p) 0xf end.
Definition get_hoplimit := getf e f_hoplimit.
Definition set_hoplimit := setf e f_hoplimit.
Definition get_nextheader := getf e f_nextheader.
Definition set_nextheader := setf e f_nextheader.
Definition get_src_ipaddr : bytes -> bytes := get_bytes o_src_ipaddr 16.
Definition set_src_ipaddr (addr : bytes) : bytes -> bytes := set_bytes o_src_ipaddr 16 (IPv6.copy_ipv6_addr addr).
Definition get_dst_ipaddr : bytes -> bytes := get_bytes o_dst_ipaddr 16.
Definition set_dst_ipaddr (addr : bytes) : bytes -> bytes := set_bytes o_dst_ipaddr 16 (IPv6.copy_ipv6_addr addr).
Definition get_payload (p : bytes) : bytes := drop 40 p.

Definition validPacketLength (packet_len_in_bytes : Z) (p : bytes) : Z :=
  if packet_len_in_bytes <? IPV6_HEADER_SIZE_IN_BYTES then 0
  else
    let total_len := get_payload_len p in
    if packet_len_in_bytes <? total_len then 0 else total_len.

End Accessors.
End IPv6_Packet.

(** ** The address memory of an interface *)

(** A block of the memory: its first byte is the kind of its entry, 0 if it is free. *)
Module Entry.
Definition id (b : bytes) : Z := get8 0 b.
Definition ipv6 (b : bytes) : bytes := get_bytes 1 16 b.
Definition set_ipv6 (a b : bytes) : bytes := set_bytes 1 16 a b.
End Entry.

Module AddressEntry.
Definition ID : Z := 252.
Definition sizeof : nat := 21.
Definition AddressEntryStateTemporary : Z := 0.
Definition AddressEntryStateValid : Z := 1.
Definition reserve (b : bytes) : bytes := <[0%nat := ID]> b.
Definition prefixlen (b : bytes) : Z := get8 17 b.
Definition stateflag (b : bytes) : Z := get8 18 b.
Definition routerEntryPosition (b : bytes) : Z := get8 19 b.
Definition hoplimit (b : bytes) : Z := get8 20 b.
Section Bits.
Context (e : endian).
(** The bit fields of [stateflag]: [state] two bits, [isOnLink], [toBeRemoved]. *)
Definition state (b : bytes) : Z :=
  match e with LE => Z.land (stateflag b) 3 | BE => Z.shiftr (stateflag b) 6 end.
Definition set_state (s : Z) (b : bytes) : bytes :=
  <[18%nat := match e with
    | LE => Z.lor (Z.land (stateflag b) 0xfc) (Z.land s 3)
    | BE => Z.lor (Z.land (stateflag b) 0x3f) (Z.shiftl (Z.land s 3) 6) end]> b.
Definition set_isOnLink (b : bytes) : bytes :=
  <[18%nat := Z.lor (stateflag b) (match e with LE => 4 | BE => 32 end)]> b.
End Bits.
End AddressEntry.

Module NDPCacheEntry.
Definition ID : Z := 250.
Inductive StateEnum := NDPCacheEntryState_Incomplete | NDPCacheEntryState_Stale | NDPCacheEntryState_Delay
  | NDPCacheEntryState_Probe | NDPCacheEntryState_Reachable.
Definition reserve (b : bytes) : bytes := <[0%nat := ID]> b.
Definition state (b : bytes) : Z := get8 17 b.
Definition router_state (b : bytes) : Z := get8 18 b.
Definition isRouter (e : endian) (b : bytes) : bool :=
  negb (Z.land (router_state b) (match e with LE => 1 | BE => 128 end) =? 0).
Definition isRouting (e : endian) (b : bytes) : bool :=
  negb (Z.land (router_state b) (match e with LE => 2 | BE => 64 end) =? 0).
End NDPCacheEntry.

Module MulticastGroupEntry.
Definition ID : Z := 240.
Definition reserve (b : bytes) : bytes := <[0%nat := ID]> b.
End MulticastGroupEntry.

Module AddressMemory.

(** The blocks; an entry is known by its place. *)
Abbreviation memory := (list bytes).
Definition EntryUndefined : Z := 255.
Definition id_at (m : memory) (i : nat) : option Z := Entry.id <$> m !! i.

(** The constructor clears the first byte of every block. *)
Definition AddressMemory (m : memory) : memory := map (λ b, <[0%nat := 0]> b) m.

Definition freeEntry (i : nat) (m : memory) : memory := alter (λ b, <[0%nat := 0]> b) i m.

(** The search from block [i] on, [n] blocks left: the block found and the
    place behind it for the next search. *)
Fixpoint find_from (m : memory) (n i : nat) (type : Z) : option nat :=
  match n with
  | O => None
  | S n => if bool_decide (id_at m i = Some type) then Some i else find_from m n (S i) type
  end.
Definition findEntry (m : memory) (startentry : nat) (type : Z) : option (nat * nat) :=
  i ← find_from m (length m - startentry) startentry type; Some (i, S i).

Definition freeAll (type : Z) (m : memory) : memory :=
  map (λ b, if Entry.id b =? type then <[0%nat := 0]> b else b) m.

(** The pointer of an entry as its place, if it points to one. *)
Definition getPosition (m : memory) (entry : option nat) : Z :=
  match entry with
  | Some i => if Nat.ltb i (length m) then Z.of_nat i else EntryUndefined
  | None => EntryUndefined
  end.
Definition getEntryAtPosition (i : nat) : nat := i.

(** [while (entry = findEntry(&nextEntry)) if (test) return ...]: the first
    entry of the kind that passes the test. *)
Fixpoint search (fuel : nat) (m : memory) (nextEntry : nat) (type : Z) (test : bytes -> bool) : option nat :=
  match fuel with
  | O => None
  | S fuel =>
      '(i, next) ← findEntry m nextEntry type;
      if test (m !!! i) then Some i else search fuel m next type test
  end.
Definition first_entry (m : memory) (type : Z) (test : bytes -> bool) : option nat :=
  search (S (length m)) m 0 type test.

End AddressMemory.

(** ** Interfaces *)

Record Interface6 := MkInterface6 { ipv6_up : bool; addressmemory : AddressMemory.memory }.
#[export] Instance Interface6_settable : Settable Interface6 := λ i, MkInterface6 (ipv6_up i) (addressmemory i).

Module Interfaces.
Import AddressMemory.
Section Operations.
(** [addInterfaceIdentifierToIPv6Address] is woven by the link layer. *)
Context (e : endian) (addInterfaceIdentifierToIPv6Address : bytes -> bytes).

Definition getInterfaceIPv6AddressByScope (i : Interface6) (scope : IPv6.IPv6_ADDRESS_SCOPE) : option bytes :=
  k ← first_entry (addressmemory i) AddressEntry.ID
        (λ b, bool_decide (IPv6.getIPv6AddressScope (Entry.ipv6 b) = scope));
  Some (Entry.ipv6 (addressmemory i !!! k)).

Definition registerIPv6Address (b : bytes) : bytes := AddressEntry.reserve b.
(** Without duplicate address detection the address is valid whatever [ipstate]. *)
Definition setIPv6AddressState (ipstate : Z) (b : bytes) : bytes :=
  AddressEntry.set_state e AddressEntry.AddressEntryStateValid b.

(** The entry of a new address. *)
Definition new_address (prefix : bytes) (prefixlen routerEntryPosition : Z) (b : bytes) : bytes :=
  let b := Entry.set_ipv6 prefix b in
  let b := Entry.set_ipv6 (addInterfaceIdentifierToIPv6Address (Entry.ipv6 b)) b in
  let b := <[17%nat := prefixlen]> b in
  let b := AddressEntry.set_isOnLink e (<[18%nat := 0]> b) in
  <[19%nat := routerEntryPosition]> b.
Definition makeIPv6AddressByPrefix (prefix : bytes) (prefixlen ipstate routerEntryPosition : Z)
    (i : Interface6) : option nat * Interface6 :=
  match findEntry (addressmemory i) 0 0 with
  | None => (None, i)
  | Some (k, _) =>
      let b := setIPv6AddressState ipstate (registerIPv6Address (new_address prefix prefixlen routerEntryPosition (addressmemory i !!! k))) in
      (Some k, i <| addressmemory := <[k := b]> (addressmemory i) |>)
  end.

Definition hasIPv6Address (i : Interface6) (addr : bytes) : bool :=
  bool_decide (is_Some (first_entry (addressmemory i) AddressEntry.ID
    (λ b, IPv6.compare_ipv6_addr addr (Entry.ipv6 b) (AddressEntry.prefixlen b)))).

Definition setIPv6Up (up : bool) (i : Interface6) : Interface6 :=
  let i := if negb up && ipv6_up i then i <| addressmemory := freeAll AddressEntry.ID (addressmemory i) |> else i in
  i <| ipv6_up := up |>.

End Operations.
End Interfaces.

(** ** Routes *)

Module Routing6.
Import AddressMemory.

(** [RouteResult]: an entry (interface and place) and an interface. *)
Record RouteResult := MkRoute {
  proposed_src_addr : option (nat * nat); interface : option nat; isDefaultRouter : bool }.
#[export] Instance RouteResult_settable : Settable RouteResult :=
  λ r, MkRoute (proposed_src_addr r) (interface r) (isDefaultRouter r).
(** [isDefaultRouter] is not set by the constructor. *)
Definition RouteResult_ctor : RouteResult := MkRoute None None false.

Section Search.
Context (e : endian).
Definition ipv6_find_route_is_matching (ipv6_dstaddr : bytes) (b : bytes) : bool :=
  IPv6.compare_ipv6_addr ipv6_dstaddr (Entry.ipv6 b) (AddressEntry.prefixlen b).

(** The inner loop over the entries of interface [k]: a route, or the backup. *)
Fixpoint scan (fuel : nat) (m : memory) (k nextEntry : nat) (ipv6_dstaddr : bytes) (backup : RouteResult)
    : RouteResult + RouteResult :=
  match fuel with
  | O => inr backup
  | S fuel =>
      match findEntry m nextEntry AddressEntry.ID with
      | None => inr backup
      | Some (i, next) =>
          if ipv6_find_route_is_matching ipv6_dstaddr (m !!! i) then inl (MkRoute (Some (k, i)) (Some k) false)
          else
            let backup :=
              if bool_decide (interface backup = None)
                 && bool_decide (IPv6.getIPv6AddressScope (Entry.ipv6 (m !!! i)) = IPv6.IPV6_SCOPE_GLOBAL_UNICAST)
              then backup <| proposed_src_addr := Some (k, i) |> else backup in
            scan fuel m k next ipv6_dstaddr backup
      end
  end.

(** The loop over the interfaces from [k] on. *)
Fixpoint ipv6_find_route_from (l : list Interface6) (k : nat) (ipv6_dstaddr : bytes) (backup : RouteResult) : RouteResult :=
  match l with
  | [] => backup <| isDefaultRouter := true |>
  | i :: l =>
      if ipv6_up i then
        match scan (S (length (addressmemory i))) (addressmemory i) k 0 ipv6_dstaddr backup with
        | inl route => route
        | inr backup =>
            let backup :=
              if bool_decide (interface backup = None)
              then match first_entry (addressmemory i) NDPCacheEntry.ID (NDPCacheEntry.isRouting e) with
                   | Some _ => backup <| interface := Some k |>
                   | None => backup
                   end
              else backup in
            ipv6_find_route_from l (S k) ipv6_dstaddr backup
        end
      else ipv6_find_route_from l (S k) ipv6_dstaddr backup
  end.
Definition ipv6_find_route (l : list Interface6) (ipv6_dstaddr : bytes) : RouteResult :=
  ipv6_find_route_from l 0 ipv6_dstaddr RouteResult_ctor.
End Search.
End Routing6.

(** ** The IPv6 side of a socket *)

Module Sockets6.
Import Routing6.

Record IPV6 := MkIPV6 { s_interface : option nat; src_ipv6_addr : bytes; dst_ipv6_addr : bytes; hoplimit : Z }.
#[export] Instance IPV6_settable : Settable IPV6 :=
  λ s, MkIPV6 (s_interface s) (src_ipv6_addr s) (dst_ipv6_addr s) (hoplimit s).

Definition restoreDefaultSendingConfiguration (s : IPV6) : IPV6 :=
  s <| hoplimit := IPv6_Packet.IPV6_DEFAULT_HOPLIMIT |>.
Definition IPV6_ctor : IPV6 :=
  restoreDefaultSendingConfiguration
    (MkIPV6 None IPv6.get_unspecified_ipv6_address IPv6.get_unspecified_ipv6_address 0).
Definition setHoplimit (h : Z) (s : IPV6) : IPV6 := s <| hoplimit := h |>.

Section WithRouter.
Context (e : endian) (l : list Interface6).

(** The block of an entry. *)
Definition entry_at (a : nat * nat) : bytes := from_option addressmemory [] (l !! fst a) !!! snd a.

Definition resolveRoute (s : IPV6) : IPV6 :=
  if get8 0 (dst_ipv6_addr s) =? 0 then s <| s_interface := None |>
  else
    let route := ipv6_find_route e l (dst_ipv6_addr s) in
    let s := match proposed_src_addr route with
      | Some a =>
          let b := entry_at a in
          let s := s <| src_ipv6_addr := IPv6.copy_ipv6_addr (Entry.ipv6 b) |> in
          if negb (AddressEntry.hoplimit b =? 0) then s <| hoplimit := AddressEntry.hoplimit b |>
          else s <| hoplimit := IPv6_Packet.IPV6_DEFAULT_HOPLIMIT |>
      | None => s <| src_ipv6_addr := IPv6.get_unspecified_ipv6_address |>
      end in
    s <| s_interface := interface route |>.

Definition set_dst_addr (dst : bytes) (interface : option nat) (s : IPV6) : IPV6 :=
  let s := s <| dst_ipv6_addr := IPv6.copy_ipv6_addr dst |> in
  match interface with
  | None => resolveRoute s
  | Some _ => s <| s_interface := interface |>
  end.
End WithRouter.

Definition set_src_addr (src : bytes) (s : IPV6) : IPV6 := s <| src_ipv6_addr := IPv6.copy_ipv6_addr src |>.
Definition get_nexthop_ipaddr (s : IPV6) : bytes := dst_ipv6_addr s.
Definition hasValidInterface (s : IPV6) : bool := bool_decide (is_Some (s_interface s)).
Definition getSpecificHeaderSize : Z := IPv6_Packet.IPV6_HEADER_SIZE_IN_BYTES.
Definition hasValidSrcDestAddresses (s : IPV6) : bool :=
  negb (get8 0 (src_ipv6_addr s) =? 0) && negb (get8 0 (dst_ipv6_addr s) =? 0).

Definition setupHeader (e : endian) (datasize : Z) (p : bytes) (s : IPV6) : bytes :=
  let p := IPv6_Packet.setUpHeader e p in
  let p := IPv6_Packet.set_payload_len e (u16 (datasize - IPv6_Packet.IPV6_HEADER_SIZE_IN_BYTES)) p in
  let p := IPv6_Packet.set_hoplimit e (hoplimit s) p in
  let p := IPv6_Packet.set_src_ipaddr (src_ipv6_addr s) p in
  IPv6_Packet.set_dst_ipaddr (dst_ipv6_addr s) p.

End Sockets6.

(** ** Extension headers *)

Module ExtensionHeaderOptions.

(** Without an aspect for the type: refused when the high bits ask for it. *)
Definition parseOption (type : Z) : bool := Z.land type 0xC0 =? 0.

(** One round of the loop: the memory at [data] and the remaining length; the
    answer is [None] when memory behind the list is read. *)
Definition parse_step (s : bytes * Z) : (bytes * Z) + option bool :=
  let '(data, remaining_length) := s in
  if remaining_length =? 0 then inr (Some true)
  else
    match data !! 1%nat, data !! 0%nat with
    | Some option_len, Some type =>
        if negb (parseOption type) then inr (Some false)
        else if remaining_length <? option_len then inr (Some false)
        else inl (drop (Z.to_nat option_len) data, remaining_length - option_len)
    | _, _ => inr None
    end.
Definition parseOptions (fuel : nat) (data : bytes) (remaining_length : Z) : option (option bool) :=
  loop fuel parse_step (data, remaining_length).

Definition writePaddingOption (o : nat) (remainingBytes : Z) (p : bytes) : bytes :=
  if remainingBytes =? 1 then write o [0] p else write o [1; u8 (remainingBytes - 2)] p.

End ExtensionHeaderOptions.

(** The hop-by-hop header with the router alert option of the aspect. *)
Module IPv6HopByHop.
Import ExtensionHeaderOptions.

(** [use_alertoption] and [alertoptiontype] of the socket. *)
Record Alert := MkAlert { use_alertoption : bool; alertoptiontype : Z }.
Definition MLPMessageAlert : Z := 0.
Definition addAlertHopByHopOption (alerttype : Z) : Alert := MkAlert true alerttype.

Definition getMinSize (a : Alert) : Z := if use_alertoption a then 4 else 0.
Definition getSize (a : Alert) : Z :=
  let minsize := getMinSize a in
  if minsize =? 0 then 0
  else
    let rest := u8 (minsize mod 8) in
    if rest =? 0 then minsize else minsize + (8 - rest).

(** The options go to offset [o]; the size used. *)
Definition writeOptions (a : Alert) (o : nat) (p : bytes) : bytes * Z :=
  if use_alertoption a then (write o [5; 2; 0; alertoptiontype a] p, 4) else (p, 0).

(** The header at the start of [p]; its options are at 2. *)
Definition writeExtensionHeader (a : Alert) (p : bytes) : bytes * Z :=
  if getMinSize a =? 0 then (p, 0)
  else
    let all_size := getSize a in
    let '(p, used_size) := writeOptions a 2 p in
    let p := <[1%nat := u8 (all_size / 8 - 1)]> p in
    let used_size := u32 (all_size - used_size) in
    let p := if used_size =? 0 then p
      else writePaddingOption (2 + Z.to_nat used_size) (u8 (u8 used_size - 2)) p in
    (p, all_size).

End IPv6HopByHop.

(** ** Receiving *)

Module IPv6_Receive.

(** What [ipv6_payload_demux] is given by reference. *)
Record Rest := MkRest { payload : bytes; payload_length : Z; nextHeader : Z }.

(** How the walk over the headers ends. *)
Inductive walk := Handled | Consumed | No_protocol_handler.

Section Walk.
(** [ipv6_payload_demux] with the advice of the configuration: whether the walk
    is over, what is left, and what the handlers did to the state of the stack. *)
Context {S : Type} (ipv6_payload_demux : Rest * S -> bool * (Rest * S)).

Definition walk_step (s : Rest * S * Z) : (Rest * S * Z) + walk * S :=
  let '(rest, remainingLengthFailSafe) := s in
  let '(over, (rest, st)) := ipv6_payload_demux rest in
  if over then inr (Handled, st)
  else if payload_length rest =? 0 then inr (Consumed, st)
  else if payload_length rest =? remainingLengthFailSafe then inr (No_protocol_handler, st)
  else inl (rest, st, payload_length rest).

Definition ipv6_walk (fuel : nat) (rest : Rest * S) : option (walk * S) :=
  loop fuel walk_step (rest, payload_length (fst rest)).

(** [hasIPv6Address] with the advice of the configuration. *)
Context (hasIPv6Address : Interface6 -> bytes -> bool).
(** [ipv6_demux]: the packet is walked over when the checks let it pass. *)
Definition ipv6_demux (e : endian) (i : Interface6) (packet : bytes) (len : Z) : option Rest :=
  if negb (ipv6_up i) then None
  else
    let len := IPv6_Packet.validPacketLength e len packet in
    if len =? 0 then None
    else if negb (IPv6_Packet.get_version e packet =? IPv6_Packet.IPV6_VERSION) then None
    else if hasIPv6Address i (IPv6_Packet.get_dst_ipaddr packet) then
      Some (MkRest (IPv6_Packet.get_payload packet) (IPv6_Packet.get_payload_len e packet)
              (IPv6_Packet.get_nextheader e packet))
    else None.
End Walk.

(** Without advice the walk ends at "no next header" only. *)
Definition no_advice (r : Rest) : bool * Rest := (nextHeader r =? 59, r).

(** A handler without state. *)
Definition stateless (f : Rest -> bool * Rest) (r : Rest * unit) : bool * (Rest * unit) :=
  let '(over, rest) := f (fst r) in (over, (rest, snd r)).

(** The advice for hop-by-hop headers; [parse] tells the outcome of the options. *)
Definition hopByHop (parse : bytes -> Z -> bool) (r : Rest) : bool * Rest :=
  if nextHeader r =? 0 then
    let extension_length_in_bytes := get8 1 (payload r) * 8 + 8 in
    if parse (drop 2 (payload r)) extension_length_in_bytes then
      no_advice (MkRest (drop (Z.to_nat extension_length_in_bytes) (payload r))
                   (u32 (payload_length r - extension_length_in_bytes)) (nextHeader r))
    else (true, r)
  else no_advice r.

End IPv6_Receive.

(** ** The address memory *)

Section Memory.
Import AddressMemory.

Lemma find_from_spec6 m type n : forall i,
  match find_from m n i type with
  | Some k => (i <= k < i + n)%nat ∧ id_at m k = Some type ∧ forall j, (i <= j < k)%nat -> id_at m j ≠ Some type
  | None => forall j, (i <= j < i + n)%nat -> id_at m j ≠ Some type
  end.
Proof.
  induction n as [|n IH]; intros i; cbn [find_from]; [intros j; lia|].
  destruct (bool_decide_reflect (id_at m i = Some type)) as [E|E].
  - split; [lia|]. split; [done|]. intros j. lia.
  - specialize (IH (S i)). destruct (find_from m n (S i) type) as [k|].
    + destruct IH as (H1 & H2 & H3). split; [lia|]. split; [done|]. intros j Hj.
      destruct (decide (j = i)) as [->|]; [done|apply H3; lia].
    + intros j Hj. destruct (decide (j = i)) as [->|]; [done|apply IH; lia].
Qed.

Lemma id_at_lt m i t : id_at m i = Some t -> (i < length m)%nat.
Proof. unfold id_at. intros H. apply fmap_Some in H as (b & Hb & _). by eapply lookup_lt_Some. Qed.

(** [findEntry] finds the first entry of a kind from a place on. *)
Lemma findEntry_spec m start type :
  match findEntry m start type with
  | Some (k, next) => next = S k ∧ (start <= k < length m)%nat ∧ id_at m k = Some type
      ∧ forall j, (start <= j < k)%nat -> id_at m j ≠ Some type
  | None => forall j, (start <= j)%nat -> id_at m j ≠ Some type
  end.
Proof.
  unfold findEntry. pose proof (find_from_spec6 m type (length m - start) start) as H.
  destruct (find_from _ _ _ _) as [k|]; cbn.
  - destruct H as (H1 & H2 & H3). pose proof (id_at_lt _ _ _ H2). split; [done|]. split; [lia|]. done.
  - intros j Hj Hid. pose proof (id_at_lt _ _ _ Hid). apply (H j); [lia|done].
Qed.

Lemma entry_search_spec m type test : forall fuel start, (length m - start < fuel)%nat ->
  match search fuel m start type test with
  | Some k => (start <= k)%nat ∧ id_at m k = Some type ∧ test (m !!! k) = true
      ∧ forall j, (start <= j < k)%nat -> id_at m j = Some type -> test (m !!! j) = false
  | None => forall j, (start <= j)%nat -> id_at m j = Some type -> test (m !!! j) = false
  end.
Proof.
  induction fuel as [|fuel IH]; intros start Hf; [lia|]. cbn [search].
  pose proof (findEntry_spec m start type) as H. destruct (findEntry m start type) as [[k next]|]; cbn [mbind option_bind].
  - destruct H as (-> & H1 & H2 & H3). destruct (test (m !!! k)) eqn:E.
    + split; [lia|]. split; [done|]. split; [done|]. intros j Hj Hid. by destruct (H3 j Hj).
    + specialize (IH (S k) ltac:(lia)).
      assert (Hbelow : forall j, (start <= j < S k)%nat -> id_at m j = Some type -> test (m !!! j) = false).
      { intros j Hj Hid. destruct (decide (j = k)) as [->|]; [done|]. destruct (H3 j ltac:(lia)). done. }
      destruct (search fuel m (S k) type test) as [k'|].
      * destruct IH as (I1 & I2 & I3 & I4). split; [lia|]. split; [done|]. split; [done|].
        intros j Hj Hid. destruct (decide (j < S k)%nat); [apply Hbelow; [lia|done]|apply I4; [lia|done]].
      * intros j Hj Hid. destruct (decide (j < S k)%nat); [apply Hbelow; [lia|done]|apply IH; [lia|done]].
  - intros j Hj Hid. by destruct (H j Hj).
Qed.

(** [k] is the first entry of the kind that passes the test. *)
Definition is_first (m : memory) (type : Z) (test : bytes -> bool) (k : nat) : Prop :=
  id_at m k = Some type ∧ test (m !!! k) = true
  ∧ forall j, (j < k)%nat -> id_at m j = Some type -> test (m !!! j) = false.
Definition none_passes (m : memory) (type : Z) (test : bytes -> bool) : Prop :=
  forall j, id_at m j = Some type -> test (m !!! j) = false.

Lemma first_entry_spec m type test :
  match first_entry m type test with Some k => is_first m type test k | None => none_passes m type test end.
Proof.
  unfold first_entry. pose proof (entry_search_spec m type test (S (length m)) 0 ltac:(lia)) as H.
  destruct (search _ _ _ _ _) as [k|].
  - destruct H as (_ & H1 & H2 & H3). split; [done|]. split; [done|]. intros j Hj. apply H3. lia.
  - intros j. apply H. lia.
Qed.

Lemma first_entry_some m type test :
  is_Some (first_entry m type test) <-> exists j, id_at m j = Some type ∧ test (m !!! j) = true.
Proof.
  pose proof (first_entry_spec m type test) as H. destruct (first_entry m type test) as [k|].
  - split; [|eauto]. intros _. exists k. by destruct H as (? & ? & _).
  - split; [by intros []|]. intros (j & Hj & Ht). rewrite (H j Hj) in Ht. done.
Qed.

Lemma id_at_freeAll m type j : type ≠ 0 -> id_at (freeAll type m) j ≠ Some type.
Proof.
  intros Hne. unfold id_at, freeAll. rewrite list_lookup_fmap. destruct (m !! j) as [b|]; cbn; [|done].
  destruct (Z.eqb_spec (Entry.id b) type) as [E|E]; [|by intros [= ?]].
  destruct b as [|x b]; cbn in *; intros [= H]; unfold Entry.id, get8 in *; cbn in *; congruence.
Qed.
End Memory.

Section Addresses6.
Import AddressMemory Interfaces.
Context (e : endian) (ident : bytes -> bytes).

Lemma hasIPv6Address_spec i addr : hasIPv6Address i addr = true <->
  exists j, id_at (addressmemory i) j = Some AddressEntry.ID
    ∧ IPv6.compare_ipv6_addr addr (Entry.ipv6 (addressmemory i !!! j)) (AddressEntry.prefixlen (addressmemory i !!! j)) = true.
Proof. unfold hasIPv6Address. rewrite bool_decide_eq_true. apply first_entry_some. Qed.

(** The members of a block after [makeIPv6AddressByPrefix]. *)
Definition made (prefix : bytes) (prefixlen routerEntryPosition : Z) (b : bytes) : Prop :=
  Entry.id b = AddressEntry.ID ∧ Entry.ipv6 b = ident prefix ∧ AddressEntry.prefixlen b = prefixlen
  ∧ AddressEntry.state e b = AddressEntry.AddressEntryStateValid
  ∧ AddressEntry.routerEntryPosition b = routerEntryPosition.

Lemma read_ipv6 a b : length a = 16%nat -> (17 <= length b)%nat -> Entry.ipv6 (Entry.set_ipv6 a b) = a.
Proof.
  intros Ha Hb. unfold Entry.ipv6, Entry.set_ipv6, get_bytes, set_bytes. rewrite (take_ge a) by lia.
  rewrite <- Ha at 1. apply read_write. lia.
Qed.

(** The state is set in the block, whatever the flags are. *)
Lemma state_set v b : 0 <= v < 4 -> (19 <= length b)%nat -> AddressEntry.state e (AddressEntry.set_state e v b) = v.
Proof.
  intros Hv Hb. unfold AddressEntry.state, AddressEntry.set_state, AddressEntry.stateflag.
  rewrite get8_insert_eq by lia. destruct e.
  - rewrite Z.land_lor_distr_l, <- !Z.land_assoc. change (Z.land 0xfc 3) with 0. rewrite Z.land_0_r, Z.lor_0_l.
    change (Z.land 3 3) with (Z.ones 2). rewrite Z.land_ones by lia. by apply Z.mod_small.
  - rewrite Z.shiftr_lor, Z.shiftr_land, Z.shiftr_shiftl_l, Z.sub_diag, Z.shiftl_0_r by lia.
    change (Z.shiftr 0x3f 6) with 0. rewrite Z.land_0_r, Z.lor_0_l.
    change 3 with (Z.ones 2). rewrite Z.land_ones by lia. by apply Z.mod_small.
Qed.

Lemma made_block b prefix prefixlen ipstate pos :
  (21 <= length b)%nat -> length prefix = 16%nat -> length (ident prefix) = 16%nat ->
  made prefix prefixlen pos (setIPv6AddressState e ipstate (registerIPv6Address (new_address e ident prefix prefixlen pos b))).
Proof.
  intros Hb Hp Hi. unfold new_address. rewrite read_ipv6 by lia.
  assert (Hl : forall a c, length (Entry.set_ipv6 a c) = length c) by (intros; apply length_write).
  unfold made, setIPv6AddressState, registerIPv6Address. split_and!.
  - unfold Entry.id, AddressEntry.set_state, AddressEntry.reserve, AddressEntry.set_isOnLink.
    rewrite get8_insert_ne by lia. apply get8_insert_eq. rewrite !length_insert, !Hl. lia.
  - unfold Entry.ipv6 at 1, AddressEntry.set_state, AddressEntry.reserve, AddressEntry.set_isOnLink, get_bytes.
    rewrite !read_insert by lia. apply read_ipv6; [done|rewrite Hl; lia].
  - unfold AddressEntry.prefixlen, AddressEntry.set_state, AddressEntry.reserve, AddressEntry.set_isOnLink.
    rewrite !(get8_insert_ne 17) by lia. apply get8_insert_eq. rewrite !Hl. lia.
  - apply state_set; [unfold AddressEntry.AddressEntryStateValid; lia|].
    unfold AddressEntry.reserve, AddressEntry.set_isOnLink. rewrite !length_insert, !Hl. lia.
  - unfold AddressEntry.routerEntryPosition, AddressEntry.set_state, AddressEntry.reserve, AddressEntry.set_isOnLink.
    rewrite !(get8_insert_ne 19) by lia. apply get8_insert_eq. rewrite !length_insert, !Hl. lia.
Qed.

(** An address made from a prefix takes a free block of the memory and no other: the block
    becomes an entry with the address, valid; the interface's own addresses are then those
    it had and those with the prefix.  Without a free block nothing changes.  Taking the
    interface down leaves it without address. *)
Theorem makeIPv6AddressByPrefix_adds (i : Interface6) (prefix : bytes) (prefixlen ipstate pos : Z) :
  Forall (λ b, 21 <= length b)%nat (addressmemory i) -> length prefix = 16%nat -> length (ident prefix) = 16%nat ->
  match makeIPv6AddressByPrefix e ident prefix prefixlen ipstate pos i with
  | (None, i') => i' = i ∧ forall j, id_at (addressmemory i) j ≠ Some 0
  | (Some k, i') =>
      id_at (addressmemory i) k = Some 0 ∧ made prefix prefixlen pos (addressmemory i' !!! k)
      ∧ (forall j, j ≠ k -> addressmemory i' !! j = addressmemory i !! j) ∧ ipv6_up i' = ipv6_up i
      ∧ (forall a, hasIPv6Address i' a = true
           <-> IPv6.compare_ipv6_addr a (ident prefix) prefixlen = true ∨ hasIPv6Address i a = true)
  end
  ∧ (ipv6_up i = true -> forall a, hasIPv6Address (setIPv6Up false i) a = false).
Proof.
  intros Hb Hp Hi. split.
  2:{ intros Hu a. apply not_true_iff_false. rewrite hasIPv6Address_spec. intros (j & Hj & _).
      unfold setIPv6Up in Hj. rewrite Hu in Hj. cbn in Hj. by apply id_at_freeAll in Hj. }
  unfold makeIPv6AddressByPrefix. pose proof (findEntry_spec (addressmemory i) 0 0) as Hf.
  destruct (findEntry (addressmemory i) 0 0) as [[k next]|]; [|split; [done|]; intros j; apply Hf; lia].
  destruct Hf as (_ & Hk & Hid & _). set (m := addressmemory i) in *.
  destruct (lookup_lt_is_Some_2 m k ltac:(lia)) as [b Hbk]. rewrite (list_lookup_total_correct _ _ _ Hbk).
  match goal with |- context [<[k := ?x]> m] => set (b' := x) end.
  assert (Hlen : (21 <= length b)%nat) by (by eapply Forall_lookup_1 in Hb).
  assert (Hm : made prefix prefixlen pos b').
  { subst b'. apply made_block; done || lia. }
  split; [done|]. cbn. split; [by rewrite list_lookup_total_insert_eq by lia|].
  split; [intros j Hj; by apply list_lookup_insert_ne|]. split; [done|]. intros a.
  rewrite !hasIPv6Address_spec. cbn. fold m. destruct Hm as (M1 & M2 & M3 & _). split.
  - intros (j & Hj & Hc). destruct (decide (j = k)) as [->|Hne].
    + rewrite list_lookup_total_insert_eq, M2, M3 in Hc by lia. by left.
    + right. exists j. unfold id_at in Hj. rewrite list_lookup_insert_ne in Hj by done.
      rewrite list_lookup_total_insert_ne in Hc by done. done.
  - intros [Hc|(j & Hj & Hc)].
    + exists k. unfold id_at. rewrite list_lookup_insert_eq by lia. cbn. rewrite M1.
      rewrite list_lookup_total_insert_eq, M2, M3 by lia. done.
    + assert (j ≠ k) by (intros ->; rewrite Hid in Hj; discriminate Hj). exists j. unfold id_at.
      rewrite list_lookup_insert_ne, list_lookup_total_insert_ne by done. done.
Qed.
End Addresses6.

Lemma makeIPv6AddressByPrefix_adds_witness :
  fst (Interfaces.makeIPv6AddressByPrefix LE id (0xfe :: 0x80 :: replicate 14 1) 64 0 255
         (MkInterface6 true (replicate 2 (replicate 21 0)))) = Some 0%nat
  ∧ forall a, Interfaces.hasIPv6Address (Interfaces.setIPv6Up false
       (MkInterface6 true [(AddressEntry.ID :: 0xfe :: replicate 19 0)])) a = false.
Proof.
  split; [by vm_compute|].
  refine (proj2 (makeIPv6AddressByPrefix_adds LE id (MkInterface6 true [AddressEntry.ID :: 0xfe :: replicate 19 0])
    (replicate 16 0) 64 0 255 _ eq_refl eq_refl) eq_refl).
  apply (bool_decide_unpack _). by vm_compute.
Defined.

(** ** Routes *)

Section Routes.
Import AddressMemory Routing6.
Context (e : endian) (addr : bytes).

Definition global (b : bytes) : Prop := IPv6.getIPv6AddressScope (Entry.ipv6 b) = IPv6.IPV6_SCOPE_GLOBAL_UNICAST.
Definition global_at (m : memory) (j : nat) : Prop := id_at m j = Some AddressEntry.ID ∧ global (m !!! j).
Definition matching : bytes -> bool := ipv6_find_route_is_matching addr.

Lemma scan_spec m k : forall fuel start backup, (length m - start < fuel)%nat ->
  match scan fuel m k start addr backup with
  | inl r => exists i, (start <= i)%nat ∧ id_at m i = Some AddressEntry.ID ∧ matching (m !!! i) = true
      ∧ (forall j, (start <= j < i)%nat -> id_at m j = Some AddressEntry.ID -> matching (m !!! j) = false)
      ∧ r = MkRoute (Some (k, i)) (Some k) false
  | inr b => (forall j, (start <= j)%nat -> id_at m j = Some AddressEntry.ID -> matching (m !!! j) = false)
      ∧ interface b = interface backup ∧ isDefaultRouter b = isDefaultRouter backup
      ∧ ((proposed_src_addr b = proposed_src_addr backup
          ∧ (interface backup = None -> forall j, (start <= j)%nat -> ¬ global_at m j))
         ∨ (interface backup = None ∧ exists j, (start <= j)%nat ∧ proposed_src_addr b = Some (k, j)
            ∧ global_at m j ∧ forall j', (j < j')%nat -> ¬ global_at m j'))
  end.
Proof.
  induction fuel as [|fuel IH]; intros start backup Hf; [lia|]. cbn [scan].
  pose proof (findEntry_spec m start AddressEntry.ID) as H.
  destruct (findEntry m start AddressEntry.ID) as [[i next]|].
  2:{ split; [intros j Hj Hid; by destruct (H j Hj)|]. split; [done|]. split; [done|]. left. split; [done|].
      intros _ j Hj [Hid _]. by destruct (H j Hj). }
  destruct H as (-> & H1 & H2 & H3). fold matching. destruct (matching (m !!! i)) eqn:E.
  { exists i. split; [lia|]. split_and!; try done. intros j Hj Hid. by destruct (H3 j Hj). }
  set (b1 := if _ : bool then _ else _).
  assert (Hbelow : forall j, (start <= j < S i)%nat -> id_at m j = Some AddressEntry.ID -> matching (m !!! j) = false).
  { intros j Hj Hid. destruct (decide (j = i)) as [->|]; [done|]. destruct (H3 j ltac:(lia)). done. }
  assert (Hb1 : interface b1 = interface backup ∧ isDefaultRouter b1 = isDefaultRouter backup
    ∧ proposed_src_addr b1 = if bool_decide (interface backup = None) && bool_decide (global (m !!! i))
                             then Some (k, i) else proposed_src_addr backup).
  { subst b1. unfold global. by destruct (_ && _). }
  clearbody b1. destruct Hb1 as (B1 & B2 & B3).
  specialize (IH (S i) b1 ltac:(lia)). destruct (scan fuel m k (S i) addr b1) as [r|b].
  - destruct IH as (i' & I1 & I2 & I3 & I4 & ->). exists i'. split; [lia|]. split; [done|]. split; [done|].
    split; [|done]. intros j Hj Hid. destruct (decide (j < S i)%nat); [apply Hbelow; [lia|done]|apply I4; [lia|done]].
  - destruct IH as (I1 & I2 & I3 & I4). rewrite I2, I3, B1, B2.
    split; [intros j Hj Hid; destruct (decide (j < S i)%nat); [apply Hbelow; [lia|done]|apply I1; [lia|done]]|].
    split; [done|]. split; [done|]. rewrite B1 in I4. destruct I4 as [[I4 I5]|(I4 & j & I5 & I6 & I7 & I8)].
    2:{ right. split; [done|]. exists j. split; [lia|]. done. }
    rewrite I4, B3. destruct (decide (interface backup = None)) as [Hn|Hn].
    + rewrite (bool_decide_eq_true_2 _ Hn). cbn. destruct (decide (global (m !!! i))) as [Hg|Hg].
      * rewrite (bool_decide_eq_true_2 _ Hg). right. split; [done|]. exists i. split; [lia|]. split; [done|].
        split; [by split|]. intros j' Hj'. apply (I5 Hn). lia.
      * rewrite (bool_decide_eq_false_2 _ Hg). left. split; [done|]. intros _ j Hj [Gid Gj].
        destruct (decide (j = i)) as [->|]; [done|]. destruct (decide (j < i)%nat).
        -- destruct (H3 j ltac:(lia)). done.
        -- destruct (I5 Hn j); [lia|by split].
    + rewrite (bool_decide_eq_false_2 _ Hn). cbn. left. split; [done|]. by intros ?.
Qed.

(** The first entry of interface [i] that the destination matches is at [j]. *)
Definition matches_at (i : Interface6) (j : nat) : Prop := is_first (addressmemory i) AddressEntry.ID matching j.
Definition has_router (i : Interface6) : Prop := is_Some (first_entry (addressmemory i) NDPCacheEntry.ID (NDPCacheEntry.isRouting e)).
(** Entry [j] of interface [k] may be proposed as source for the router's interface. *)
Definition candidate (l : list Interface6) (router : option nat) (k j : nat) : Prop :=
  exists i, l !! k = Some i ∧ ipv6_up i = true ∧ global_at (addressmemory i) j
    ∧ match router with Some k0 => (k <= k0)%nat | None => True end.

(** The first [n] interfaces have no match, and [r] is the best router among them. *)
Record default_of (l : list Interface6) (n : nat) (r : RouteResult) : Prop := {
  no_match : forall k i, (k < n)%nat -> l !! k = Some i -> ipv6_up i = true ->
    none_passes (addressmemory i) AddressEntry.ID matching;
  first_router : match interface r with
    | Some k0 => (k0 < n)%nat ∧ (exists i, l !! k0 = Some i ∧ ipv6_up i = true ∧ has_router i)
        ∧ forall k i, (k < k0)%nat -> l !! k = Some i -> ipv6_up i = true -> ¬ has_router i
    | None => forall k i, (k < n)%nat -> l !! k = Some i -> ipv6_up i = true -> ¬ has_router i
    end;
  last_global : match proposed_src_addr r with
    | Some (k, j) => (k < n)%nat ∧ candidate l (interface r) k j
        ∧ forall k' j', (k' < n)%nat -> candidate l (interface r) k' j' -> (k' < k)%nat ∨ (k' = k ∧ (j' <= j)%nat)
    | None => forall k j, (k < n)%nat -> ¬ candidate l (interface r) k j
    end }.

Lemma default_of_down l n r i :
  l !! n = Some i -> ipv6_up i = false -> default_of l n r -> default_of l (S n) r.
Proof.
  intros Hi Hd [H1 H2 H3].
  assert (Hn : forall k (i' : Interface6), (k < S n)%nat -> l !! k = Some i' -> ipv6_up i' = true -> (k < n)%nat).
  { intros k i' Hk Hi' Hu. destruct (decide (k = n)) as [->|]; [|lia]. rewrite Hi in Hi'. congruence. }
  split.
  - intros k i' Hk Hi' Hu. eapply H1; eauto.
  - destruct (interface r) as [k0|]; [|intros k i' Hk Hi' Hu; eapply H2; eauto].
    destruct H2 as (? & ? & ?). split; [lia|done].
  - destruct (proposed_src_addr r) as [[k j]|].
    + destruct H3 as (? & ? & H3). split; [lia|]. split; [done|]. intros k' j' Hk' Hc. apply H3; [|done].
      destruct Hc as (i' & ? & ? & _). eauto.
    + intros k j Hk Hc. apply (H3 k j); [|done]. destruct Hc as (i' & ? & ? & _). eauto.
Qed.

(** After interface [n], which is up and has no match: its router is taken if there was none. *)
Lemma default_of_up l n r b i :
  l !! n = Some i -> ipv6_up i = true -> default_of l n r ->
  none_passes (addressmemory i) AddressEntry.ID matching -> interface b = interface r ->
  ((proposed_src_addr b = proposed_src_addr r
    ∧ (interface r = None -> forall j, ¬ global_at (addressmemory i) j))
   ∨ (interface r = None ∧ exists j, proposed_src_addr b = Some (n, j)
      ∧ global_at (addressmemory i) j ∧ forall j', (j < j')%nat -> ¬ global_at (addressmemory i) j')) ->
  default_of l (S n) (if bool_decide (interface b = None)
    then match first_entry (addressmemory i) NDPCacheEntry.ID (NDPCacheEntry.isRouting e) with
         | Some _ => b <| interface := Some n |> | None => b end
    else b).
Proof.
  intros Hi Hu [H1 H2 H3] Hnone Hb Hprop.
  set (b2 := if _ : bool then _ else _).
  assert (Hp : proposed_src_addr b2 = proposed_src_addr b).
  { subst b2. by destruct (bool_decide _); [destruct (first_entry (addressmemory i) _ _)|]. }
  assert (Hr : (interface r ≠ None ∧ interface b2 = interface r)
    ∨ (interface r = None ∧ ((interface b2 = Some n ∧ has_router i) ∨ (interface b2 = None ∧ ¬ has_router i)))).
  { subst b2. rewrite Hb. unfold has_router. destruct (interface r); [by left|right; split; [done|]].
    rewrite bool_decide_eq_true_2 by done.
    destruct (first_entry (addressmemory i) _ _); [left|right]; (split; [done|]); [by eexists|]. by intros []. }
  clearbody b2.
  assert (Hcase : forall k (i' : Interface6), (k < S n)%nat -> l !! k = Some i' -> (k < n)%nat ∨ (k = n ∧ i' = i)).
  { intros k i' Hk Hi'. destruct (decide (k = n)) as [->|]; [right|left; lia]. rewrite Hi in Hi'. naive_solver. }
  split.
  - intros k i' Hk Hi' Hu'. destruct (Hcase _ _ Hk Hi') as [|[-> ->]]; [eauto|done].
  - destruct Hr as [[Hr ->]|[Hr [[-> Hh]|[-> Hh]]]].
    + destruct (interface r); [|done]. destruct H2 as (? & ? & ?). split; [lia|done].
    + rewrite Hr in H2. split; [lia|]. split; [by eexists|]. intros k i' Hk. apply H2. lia.
    + rewrite Hr in H2. intros k i' Hk Hi' Hu'. destruct (Hcase _ _ Hk Hi') as [|[-> ->]]; [eauto|done].
  - rewrite Hp. clear H1 Hnone Hp.
    (* a candidate of the new router is one of the old or an entry of this interface *)
    assert (Hc : forall k j, (k < n)%nat -> candidate l (interface b2) k j <-> candidate l (interface r) k j).
    { intros k j Hk. unfold candidate. destruct Hr as [[Hr ->]|[-> [[-> _]|[-> _]]]]; [done| |done].
      split; intros (i' & ? & ? & ? & ?); exists i'; split_and!; done || lia. }
    assert (Hnew : forall j, candidate l (interface b2) n j <-> interface r = None ∧ global_at (addressmemory i) j).
    { intros j. unfold candidate. rewrite Hi. destruct Hr as [[Hr ->]|[-> Hr]].
      - destruct (interface r) as [k0|]; [|done]. destruct H2 as (? & _).
        split; [intros (i' & _ & _ & _ & ?); lia|by intros []].
      - split; [intros (i' & [= <-] & _ & ? & _); done|]. intros [_ Hg]. exists i. split_and!; try done.
        by destruct Hr as [[-> _]|[-> _]]. }
    destruct Hprop as [[-> Hno]|(Hnone & j & -> & Hg & Hlast)].
    + destruct (proposed_src_addr r) as [[k j]|].
      * destruct H3 as (H3 & H4 & H5). split; [lia|]. rewrite Hc by done. split; [done|]. intros k' j' Hk' Hj'.
        destruct (decide (k' = n)) as [->|]; [apply Hnew in Hj' as [? ?]; by destruct (Hno ltac:(done) j')|].
        apply H5; [lia|]. apply Hc; [lia|done].
      * intros k j Hk Hj. destruct (decide (k = n)) as [->|]; [apply Hnew in Hj as [? ?]; by destruct (Hno ltac:(done) j)|].
        destruct (H3 k j); [lia|]. apply Hc; [lia|done].
    + split; [lia|]. split; [by apply Hnew|]. intros k' j' Hk' Hj'. destruct (decide (k' = n)) as [->|]; [|left; lia].
      right. split; [done|]. apply Hnew in Hj' as [_ Hj']. destruct (decide (j < j')%nat) as [Hlt|]; [|lia].
      by destruct (Hlast _ Hlt).
Qed.

Lemma ipv6_find_route_from_spec l : forall post pre r, l = pre ++ post -> isDefaultRouter r = false ->
  default_of l (length pre) r ->
  let a := ipv6_find_route_from e post (length pre) addr r in
  (exists k i j, l !! k = Some i ∧ ipv6_up i = true ∧ matches_at i j ∧ a = MkRoute (Some (k, j)) (Some k) false
     ∧ forall k' i', (k' < k)%nat -> l !! k' = Some i' -> ipv6_up i' = true ->
         none_passes (addressmemory i') AddressEntry.ID matching)
  ∨ (default_of l (length l) a ∧ isDefaultRouter a = true).
Proof.
  induction post as [|i post IH]; intros pre r Hl Hd Hr a; subst a; cbn [ipv6_find_route_from].
  { right. rewrite app_nil_r in Hl. subst pre. split; [|done]. destruct Hr as [H1 H2 H3]. by split. }
  assert (Hi : l !! length pre = Some i) by (rewrite Hl; by apply list_lookup_middle).
  assert (Hl' : l = (pre ++ [i]) ++ post) by (by rewrite <- app_assoc).
  assert (Hlen : length (pre ++ [i]) = S (length pre)) by (rewrite length_app; cbn; lia).
  destruct (ipv6_up i) eqn:Hu.
  2:{ rewrite <- Hlen. apply (IH _ _ Hl' Hd). rewrite Hlen. by eapply default_of_down. }
  pose proof (scan_spec (addressmemory i) (length pre) (S (length (addressmemory i))) 0 r ltac:(lia)) as Hs.
  destruct (scan _ _ _ _ _ _) as [route|b].
  - left. destruct Hs as (j & _ & J1 & J2 & J3 & ->). exists (length pre), i, j.
    assert (matches_at i j) by (split; [done|]; split; [done|]; intros j' Hj'; apply J3; lia).
    split; [done|]. split; [done|]. split; [done|]. split; [done|]. apply Hr.
  - destruct Hs as (S1 & S2 & S3 & S4). rewrite <- Hlen. apply (IH _ _ Hl').
    { destruct (bool_decide _); [|congruence]. destruct (first_entry (addressmemory i) _ _); cbn; congruence. }
    rewrite Hlen. apply default_of_up with (r := r); try done.
    + intros j Hj. apply S1; [lia|done].
    + destruct S4 as [[S4 S5]|(S4 & j & _ & S5 & S6 & S7)]; [left|right; by eauto].
      split; [done|]. intros Hn j. apply S5; [done|lia].
Qed.

(** A route to an address is the first matching address entry of the first interface that
    is up and has one.  Without such an entry the route goes by default over the first up
    interface that knows a router, with the last global address of the interfaces up to that
    one as source address; without router it has no interface, and the address is the last
    global one of all. *)
Theorem ipv6_find_route_first (l : list Interface6) :
  let a := ipv6_find_route e l addr in
  (exists k i j, l !! k = Some i ∧ ipv6_up i = true ∧ matches_at i j ∧ a = MkRoute (Some (k, j)) (Some k) false
     ∧ forall k' i', (k' < k)%nat -> l !! k' = Some i' -> ipv6_up i' = true ->
         none_passes (addressmemory i') AddressEntry.ID matching)
  ∨ (default_of l (length l) a ∧ isDefaultRouter a = true).
Proof.
  apply (ipv6_find_route_from_spec l l [] RouteResult_ctor eq_refl eq_refl).
  split; cbn; intros; lia.
Qed.
End Routes.

(** ** Sending and receiving *)

Lemma get8_version e v q : (0 < length q)%nat -> get8 0 (setf e IPv6_Packet.f_version v q) = u8 v.
Proof. intros Hq. unfold setf. cbn. by apply get8_insert_eq. Qed.

Lemma get_version_setUpHeader e p : (1 <= length p)%nat ->
  IPv6_Packet.get_version e (IPv6_Packet.setUpHeader e p) = IPv6_Packet.IPV6_VERSION.
Proof.
  intros Hp. unfold IPv6_Packet.get_version, IPv6_Packet.setUpHeader. cbv zeta.
  match goal with |- context [setf e _ (match e with LE => Z.lor _ _ | BE => _ end) ?q] =>
    assert (Hq : (0 < length q)%nat) by (rewrite !length_setf; lia); set (q' := q) in * end.
  clearbody q'. rewrite get8_version by done.
  unfold u8. change 256 with (2 ^ 8). rewrite <- Z.land_ones by lia. destruct e.
  - rewrite Z.shiftr_land, Z.shiftr_lor, Z.shiftr_land. change (Z.shiftr 15 4) with 0. by rewrite Z.land_0_r.
  - rewrite <- Z.land_assoc. change (Z.land (Z.ones 8) 15) with 15. rewrite Z.land_lor_distr_l, <- Z.land_assoc.
    change (Z.land 240 15) with 0. by rewrite Z.land_0_r.
Qed.

Lemma setUpHeader_keeps e p : length (IPv6_Packet.setUpHeader e p) = length p
  ∧ forall n, (4 <= n)%nat -> drop n (IPv6_Packet.setUpHeader e p) = drop n p.
Proof.
  unfold IPv6_Packet.setUpHeader. cbv zeta. split; [by rewrite !length_setf|]. intros n Hn.
  unfold setf. rewrite !drop_write by (rewrite length_fbytes; cbn; lia). done.
Qed.

Section Sending.
Import IPv6_Packet Sockets6 IPv6_Receive.
Context (e : endian).

Lemma length_setupHeader n p s : length (setupHeader e n p s) = length p.
Proof.
  unfold setupHeader, set_dst_ipaddr, set_src_ipaddr, set_bytes, set_hoplimit, set_payload_len.
  rewrite !length_write, !length_setf. apply setUpHeader_keeps.
Qed.

(** The header and the packet that the socket prepares, with [nh] for the protocol. *)
Definition sent6 (s : IPV6) (nh : Z) (p : bytes) : bytes :=
  set_nextheader e nh (setupHeader e (Z.of_nat (length p)) p s).

Section Sent.
Context (s : IPV6) (nh : Z) (p : bytes).
Context (Hl : (40 <= length p)%nat) (Hl' : Z.of_nat (length p) <= 65575) (Hnh : is_u8 nh) (Hh : is_u8 (hoplimit s)).
Context (Hsrc : length (src_ipv6_addr s) = 16%nat) (Hdst : length (dst_ipv6_addr s) = 16%nat).

Let numbers := set_hoplimit e (hoplimit s) (set_payload_len e
  (u16 (Z.of_nat (length p) - IPV6_HEADER_SIZE_IN_BYTES)) (setUpHeader e p)).
Let q := sent6 s nh p.

Lemma length_numbers : length numbers = length p.
Proof. unfold numbers, set_hoplimit, set_payload_len. rewrite !length_setf. apply setUpHeader_keeps. Qed.

Lemma length_sent6 : length q = length p.
Proof. unfold q, sent6, set_nextheader. rewrite length_setf. apply length_setupHeader. Qed.

Lemma sent6_writes :
  q = setf e f_nextheader nh (write 24 (dst_ipv6_addr s) (write 8 (src_ipv6_addr s) numbers)).
Proof.
  assert (Hc : forall a : bytes, length a = 16%nat -> take 16 (IPv6.copy_ipv6_addr a) = a)
    by (intros a Ha; unfold IPv6.copy_ipv6_addr; rewrite (take_ge a) by lia; apply take_ge; lia).
  unfold q, sent6, set_nextheader, setupHeader, set_dst_ipaddr, set_src_ipaddr, set_bytes. by rewrite !Hc.
Qed.

Lemma sent6_field f : (fend f <= 8)%nat -> (fend f <= 6)%nat ∨ (7 <= f_off f)%nat -> getf e f q = getf e f numbers.
Proof.
  intros Hf Hn. rewrite sent6_writes. rewrite getf_setf_ne by (change (fend f_nextheader) with 7%nat; change (f_off f_nextheader) with 6%nat; lia).
  by rewrite 2!getf_write_out by lia.
Qed.

Lemma sent6_numbers :
  get_payload_len e q = Z.of_nat (length p) - 40 ∧ get_hoplimit e q = hoplimit s
  ∧ get_version e q = IPV6_VERSION ∧ get_nextheader e q = nh.
Proof.
  destruct (setUpHeader_keeps e p) as [Hk _]. pose proof length_numbers as Hln. split_and!.
  - unfold get_payload_len. rewrite sent6_field by (unfold fend; cbn; lia). unfold numbers, set_hoplimit.
    rewrite getf_setf_ne by (unfold fend; cbn; lia). unfold IPV6_HEADER_SIZE_IN_BYTES.
    unfold set_payload_len. rewrite getf_setf_eq; [zlia| |cbn; zlia]. rewrite Hk. unfold fend. cbn. lia.
  - unfold get_hoplimit. rewrite sent6_field by (unfold fend; cbn; lia).
    apply getf_setf_eq; [|done]. unfold set_payload_len. rewrite length_setf, Hk. unfold fend. cbn. lia.
  - rewrite <- (get_version_setUpHeader e p) by lia. unfold get_version.
    enough (get8 0 q = get8 0 (setUpHeader e p)) as -> by done.
    change (getf e f_version q = getf e f_version (setUpHeader e p)). rewrite sent6_field by (unfold fend; cbn; lia).
    unfold numbers, set_hoplimit, set_payload_len. by rewrite !getf_setf_ne by (unfold fend; cbn; lia).
  - apply getf_setf_eq; [|done]. rewrite length_setupHeader. unfold fend. cbn. lia.
Qed.

Lemma sent6_addresses : get_dst_ipaddr q = dst_ipv6_addr s ∧ get_src_ipaddr q = src_ipv6_addr s.
Proof.
  rewrite sent6_writes. pose proof length_numbers as Hln. unfold get_dst_ipaddr, get_src_ipaddr, get_bytes, setf, o_src_ipaddr, o_dst_ipaddr.
  rewrite !(read_write_out _ _ _ (fbytes _ _ _)) by (rewrite length_fbytes; cbn; lia). split.
  - rewrite <- Hdst at 1. apply read_write. rewrite length_write. lia.
  - rewrite read_write_out by lia. rewrite <- Hsrc at 1. apply read_write. lia.
Qed.

Lemma sent6_payload : get_payload q = drop 40 p.
Proof.
  rewrite sent6_writes. unfold get_payload, numbers, set_hoplimit, set_payload_len, setf.
  rewrite !drop_write by (rewrite ?length_fbytes; cbn; lia). apply setUpHeader_keeps. lia.
Qed.
End Sent.

(** The header a socket prepares, with the next header of the transport protocol, is accepted
    by the interface it is addressed to, and the payload reaches the protocol whole, with its
    source and hop limit; but a packet without payload is not accepted. *)
Theorem sent6_is_received6 (accepts : Interface6 -> bytes -> bool) (i : Interface6) (s : IPV6) (nh : Z) (p : bytes) :
  (40 <= length p)%nat -> Z.of_nat (length p) <= 65575 -> is_u8 nh -> is_u8 (hoplimit s) ->
  length (src_ipv6_addr s) = 16%nat -> length (dst_ipv6_addr s) = 16%nat ->
  ipv6_up i = true -> accepts i (dst_ipv6_addr s) = true ->
  ipv6_demux accepts e i (sent6 s nh p) (Z.of_nat (length (sent6 s nh p)))
  = (if decide (length p = 40%nat) then None
     else Some (MkRest (drop 40 p) (Z.of_nat (length p) - 40) nh))
  ∧ get_src_ipaddr (sent6 s nh p) = src_ipv6_addr s ∧ get_hoplimit e (sent6 s nh p) = hoplimit s.
Proof.
  intros Hl Hl' Hnh Hh Hsrc Hdst Hup Haddr.
  destruct (sent6_numbers s nh p) as (Hpay & Hhop & Hver & Hnext); try done.
  destruct (sent6_addresses s nh p) as [Hd1 Hd2]; try done. split; [|by split].
  unfold ipv6_demux, validPacketLength. rewrite Hup, Hver, Hnext, Hd1, Haddr, Hpay, length_sent6. cbn [negb].
  rewrite sent6_payload by done. change IPV6_HEADER_SIZE_IN_BYTES with 40.
  destruct (Z.ltb_spec (Z.of_nat (length p)) 40); [lia|]. destruct (Z.ltb_spec (Z.of_nat (length p)) (Z.of_nat (length p) - 40)); [lia|].
  rewrite Z.eqb_refl. cbn [negb].
  destruct (decide (length p = 40%nat)) as [E|E]; [by rewrite E|].
  destruct (Z.eqb_spec (Z.of_nat (length p) - 40) 0); [lia|]. done.
Qed.
End Sending.

Lemma sent6_is_received6_witness :
  let a := 0xfe :: 0x80 :: replicate 13 0 ++ [1] in
  let i := MkInterface6 true [AddressEntry.ID :: a ++ [64; 1; 255; 0]] in
  let s := Sockets6.MkIPV6 (Some 0%nat) a a 64 in
  let q := sent6 LE s 6 (replicate 44 7) in
  IPv6_Receive.ipv6_demux Interfaces.hasIPv6Address LE i q (Z.of_nat (length q)) = Some (IPv6_Receive.MkRest (replicate 4 7) 4 6)
  ∧ IPv6_Packet.get_src_ipaddr q = a ∧ IPv6_Packet.get_hoplimit LE q = 64.
Proof.
  intros a i s q.
  refine (sent6_is_received6 LE Interfaces.hasIPv6Address i s 6 (replicate 44 7) _ _ _ _ eq_refl eq_refl eq_refl _); [cbn; lia|cbn; lia|side|cbn; side|by vm_compute].
Defined.

(** ** The walk over the headers *)

Section Walks.
Import IPv6_Receive.
Context {S : Type} (demux : Rest * S -> bool * (Rest * S)).
Let left (r : Rest * S) : Z := payload_length (fst r).

(** The [n]th rest of a walk. *)
Definition rest_at (n : nat) (r : Rest * S) : Rest * S := Nat.iter n (λ r, snd (demux r)) r.

(** How a walk from [r] ends after [n] headers. *)
Definition ends_after (r : Rest * S) (n : nat) (w : walk * S) : Prop :=
  (forall m, (m < n)%nat -> fst (demux (rest_at m r)) = false
     ∧ 0 < left (rest_at (Datatypes.S m) r) < left (rest_at m r))
  ∧ let a := rest_at n r in
    snd w = snd (snd (demux a)) ∧
    match fst w with
    | Handled => fst (demux a) = true
    | Consumed => fst (demux a) = false ∧ left (snd (demux a)) = 0
    | No_protocol_handler => fst (demux a) = false ∧ left (snd (demux a)) = left a ∧ left a ≠ 0
    end.
Context (shortens : forall r, 0 <= left r -> 0 <= left (snd (demux r)) <= left r).

(** When no handler lengthens the rest of the packet, the walk over the headers ends: each
    header but the last left less than before it, and the walk is over exactly when a handler
    says so, nothing is left, or nobody took the header. *)
Theorem ipv6_walk_ends (r : Rest * S) (fuel : nat) :
  0 <= left r < Z.of_nat fuel ->
  exists w n, ipv6_walk demux fuel r = Some w ∧ ends_after r n w.
Proof.
  intros Hf. set (I := λ s : Rest * S * Z, snd s = left (fst s) ∧ 0 <= snd s ∧ exists n, fst s = rest_at n r
    ∧ forall m, (m < n)%nat -> fst (demux (rest_at m r)) = false
        ∧ 0 < left (rest_at (Datatypes.S m) r) < left (rest_at m r)).
  unfold ipv6_walk. destruct (loop_measure I (λ w, exists n, ends_after r n w) (λ s, Z.to_nat (snd s)) (walk_step demux))
    with (fuel := fuel) (s := (r, left r)) as (w & Hw & n & Hn).
  - intros [a L] s' (HL & H0 & n & Ha & Hm). cbn [fst snd] in *. unfold walk_step.
    destruct (demux a) as [over [a' st]] eqn:E. pose proof (shortens a ltac:(lia)) as Hs. rewrite E in Hs. unfold left in Hs, HL |- *. cbn [fst snd] in Hs.
    destruct over; [done|]. destruct (Z.eqb_spec (payload_length a') 0); [done|].
    destruct (Z.eqb_spec (payload_length a') L); [done|]. intros [= <-]. split; [|cbn; lia].
    split; [done|]. split; [cbn; lia|]. exists (Datatypes.S n).
    assert (HS : rest_at (Datatypes.S n) r = (a', st)) by (change (snd (demux (rest_at n r)) = (a', st)); by rewrite <- Ha, E).
    split; [done|]. intros m Hm'. destruct (decide (m = n)) as [->|]; [|apply Hm; lia].
    rewrite HS, <- Ha, E. unfold left. cbn [fst snd]. split; [done|lia].
  - intros [a L] w (HL & H0 & n & Ha & Hm) Hw. exists n. split; [done|]. cbn [fst snd] in *. cbv zeta. rewrite <- Ha.
    unfold walk_step in Hw. destruct (demux a) as [over [a' st]] eqn:E. unfold left in HL |- *. cbn [fst snd].
    destruct over; [by injection Hw as <-|].
    destruct (Z.eqb_spec (payload_length a') 0); [by injection Hw as <-|].
    destruct (Z.eqb_spec (payload_length a') L); [|done]. injection Hw as <-. split; [done|]. split; [done|]. cbn [fst]. split; lia.
  - split; [done|]. split; [cbn; lia|]. exists 0%nat. split; [done|]. lia.
  - cbn. lia.
  - by exists w, n.
Qed.
End Walks.

Lemma ipv6_walk_ends_witness : exists w n,
  IPv6_Receive.ipv6_walk (IPv6_Receive.stateless IPv6_Receive.no_advice) 5 (IPv6_Receive.MkRest [1; 2; 3] 3 6, ()) = Some w
  ∧ ends_after (IPv6_Receive.stateless IPv6_Receive.no_advice) (IPv6_Receive.MkRest [1; 2; 3] 3 6, ()) n w.
Proof. apply ipv6_walk_ends; [intros r Hr; cbn; lia|cbn; lia]. Defined.

(** ** Extension headers *)

(** The advice for hop-by-hop headers lengthens the rest when the header claims more than there is. *)
Example hopByHop_wraps :
  IPv6_Receive.payload_length (snd (IPv6_Receive.hopByHop (λ _ _, true) (IPv6_Receive.MkRest [6; 0; 1; 1] 4 0)))
  = 4294967292.
Proof. reflexivity. Qed.

(** It leaves the next header alone: what follows counts as a hop-by-hop header again. *)
Example hopByHop_keeps_nextHeader : forall parse r, IPv6_Receive.nextHeader (snd (IPv6_Receive.hopByHop parse r)) = IPv6_Receive.nextHeader r.
Proof.
  intros parse r. unfold IPv6_Receive.hopByHop, IPv6_Receive.no_advice.
  destruct (Z.eqb_spec (IPv6_Receive.nextHeader r) 0); [|done]. by destruct (parse _ _).
Qed.

(** A packet of a bare header that announces 40 bytes is accepted: they lie behind it. *)
Example validPacketLength_behind :
  IPv6_Packet.validPacketLength LE 40 ([0x60; 0; 0; 0; 0; 40; 6; 64] ++ replicate 32 0) = 40.
Proof. reflexivity. Qed.

(** [::1] is not a valid destination. *)
Example loopback_refused :
  Sockets6.hasValidSrcDestAddresses (Sockets6.MkIPV6 (Some 0%nat) (replicate 15 0 ++ [1]) (replicate 15 0 ++ [1]) 1) = false.
Proof. reflexivity. Qed.

Section Options.
Import ExtensionHeaderOptions IPv6HopByHop.

(** The hop-by-hop header that the stack writes for its multicast messages fills 8 bytes and
    holds the router alert option in front of padding; but the stack's own [parseOptions] never
    ends on it, whatever the receiver's memory behind it is: it advances by the length of the
    option's data, 2 of 4 bytes, and finds an option of length 0 there. *)
Theorem hop_by_hop_own_header_hangs (p rest : bytes) (fuel : nat) :
  length p = 8%nat ->
  exists nh, writeExtensionHeader (addAlertHopByHopOption MLPMessageAlert) p = ([nh; 0; 5; 2; 0; 0; 1; 0], 8)
    ∧ parseOptions fuel (drop 2 ([nh; 0; 5; 2; 0; 0; 1; 0] ++ rest)) 8 = None.
Proof.
  intros Hp. destruct p as [|nh [|a [|b [|c [|d [|x [|y [|z [|? ?]]]]]]]]]; try discriminate Hp.
  exists nh. split; [reflexivity|]. cbn [drop app]. unfold parseOptions.
  assert (H : forall fuel, loop fuel parse_step ([0; 0; 1; 0] ++ rest, 6) = None).
  { intros f. induction f as [|f IH]; [done|]. exact IH. }
  destruct fuel as [|fuel]; [done|]. exact (H fuel).
Qed.
End Options.

Lemma hop_by_hop_own_header_hangs_witness : exists nh,
  IPv6HopByHop.writeExtensionHeader (IPv6HopByHop.addAlertHopByHopOption 0) (replicate 8 9) = ([nh; 0; 5; 2; 0; 0; 1; 0], 8)
  ∧ ExtensionHeaderOptions.parseOptions 1000 (drop 2 ([nh; 0; 5; 2; 0; 0; 1; 0] ++ [])) 8 = None.
Proof. apply (hop_by_hop_own_header_hangs (replicate 8 9) [] 1000). reflexivity. Defined.
