(* ===== verification/HeaderBits.v ===== *)
(** * HeaderBits: the accessors of the headers and the diagrams of the RFCs

    The header classes of [Packet], [TcpSegment], [Ipv4], [Headers] and [Ipv6]
    against an account of the headers that knows neither host nor C++: a header
    is a sequence of bits, the first of a byte its most significant one, and a
    member is a number of so many bits from a position on, as in the diagrams
    of the RFCs.  The tables give every getter and setter its place there; the
    theorem shows that this is where the accessors read and write, and that
    they write nowhere else. *)

From S2P Require Import Prelude Wire Checksum Packet TcpSegment Addresses Ipv4 Headers Ipv6.

Open Scope Z_scope.

(** ** Bits of a header *)

Definition bit (p : bytes) (k : nat) : bool := Z.testbit (get8 (k / 8) p) (7 - Z.of_nat (k mod 8)).
(** The number of [width] bits from bit [first] on. *)
Fixpoint value (first width : nat) (p : bytes) : Z :=
  match width with
  | O => 0
  | S w => value first w p * 2 + Z.b2z (bit p (first + w))
  end.

(** A getter and the place it reads. *)
Record reader := Reader { r_get : bytes -> Z; r_first : nat; r_width : nat }.
(** A setter, the place of its member and the bits it changes; the setter of a flag only sets it. *)
Record writer := Writer { w_set : Z -> bytes -> bytes; w_first : nat; w_width : nat; w_touches : nat * nat; w_only : option Z }.
(** The accessors of an array of bytes. *)
Record bytes_member := BytesMember { a_get : bytes -> bytes; a_set : bytes -> bytes -> bytes; a_offset : nat; a_size : nat }.
Record class := Class { c_size : nat; readers : list reader; writers : list writer; arrays : list bytes_member }.

Definition sets (s : Z -> bytes -> bytes) (first width : nat) : writer := Writer s first width (first, width) None.
Definition raises (s : bytes -> bytes) (k : nat) : writer := Writer (λ _, s) k 1 (k, 1%nat) (Some 1).
Definition flag (f : bytes -> bool) (k : nat) : reader := Reader (λ p, Z.b2z (f p)) k 1.
(** An address that is kept as a number of the host: its bytes in memory. *)
Definition address (e : endian) (get : bytes -> Z) (set : Z -> bytes -> bytes) (o : nat) : bytes_member :=
  BytesMember (λ p, store32 e (get p)) (λ a, set (mem32 e 0 a)) o 4.

(** ** The tables *)

Section Tables.
Context (e : endian).

(** RFC 768. *)
Definition udp_class : class := Class 8
  [Reader (UDP_Packet.get_sport e) 0 16; Reader (UDP_Packet.get_dport e) 16 16;
   Reader (UDP_Packet.get_length e) 32 16; Reader (UDP_Packet.get_checksum e) 48 16]
  [sets (UDP_Packet.set_sport e) 0 16; sets (UDP_Packet.set_dport e) 16 16;
   sets (UDP_Packet.set_length e) 32 16; sets (UDP_Packet.set_checksum e) 48 16] [].

(** RFC 792 and RFC 4443; the last word of the former is only copied. *)
Definition icmp_class : class := Class 8
  [Reader (ICMP_Packet.get_type e) 0 8; Reader (ICMP_Packet.get_code e) 8 8; Reader (ICMP_Packet.get_checksum e) 16 16]
  [sets (ICMP_Packet.set_type e) 0 8; sets (ICMP_Packet.set_code e) 8 8; sets (ICMP_Packet.set_checksum e) 16 16]
  [address e (ICMP_Packet.get_quench e) (ICMP_Packet.set_quench e) 4].
Definition icmpv6_class : class := Class 4
  [Reader (ICMPv6_Packet.get_type e) 0 8; Reader (ICMPv6_Packet.get_code e) 8 8; Reader (ICMPv6_Packet.get_checksum e) 16 16]
  [sets (ICMPv6_Packet.set_type e) 0 8; sets (ICMPv6_Packet.set_code e) 8 8; sets (ICMPv6_Packet.set_checksum e) 16 16] [].

(** The frame of Ethernet, and RFC 826. *)
Definition ethernet_class : class := Class 14
  [Reader (Eth_Frame.get_type e) 96 16] [sets (Eth_Frame.set_type e) 96 16]
  [BytesMember Eth_Frame.get_dst_hwaddr Eth_Frame.set_dst_hwaddr 0 6;
   BytesMember Eth_Frame.get_src_hwaddr Eth_Frame.set_src_hwaddr 6 6].
Definition arp_class : class := Class 8
  [Reader (ARP_Packet.get_hw_type e) 0 16; Reader (ARP_Packet.get_protocol_type e) 16 16;
   Reader (ARP_Packet.get_hw_addr_size e) 32 8; Reader (ARP_Packet.get_protocol_addr_size e) 40 8;
   Reader (ARP_Packet.get_opcode e) 48 16]
  [sets (ARP_Packet.set_hw_type e) 0 16; sets (ARP_Packet.set_protocol_type e) 16 16;
   sets (ARP_Packet.set_hw_addr_size e) 32 8; sets (ARP_Packet.set_protocol_addr_size e) 40 8;
   sets (ARP_Packet.set_opcode e) 48 16] [].

(** RFC 793: the setter of the header's length clears the reserved bits behind it; the flags have a
    setter for all of their byte. *)
Definition tcp_class : class := Class 20
  [Reader (TCP_Segment.get_sport e) 0 16; Reader (TCP_Segment.get_dport e) 16 16;
   Reader (TCP_Segment.get_seqnum e) 32 32; Reader (TCP_Segment.get_acknum e) 64 32;
   Reader (TCP_Segment.get_header_len e) 96 4;
   flag (TCP_Segment.has_URG e) 106; flag (TCP_Segment.has_ACK e) 107; flag (TCP_Segment.has_PSH e) 108;
   flag (TCP_Segment.has_RST e) 109; flag (TCP_Segment.has_SYN e) 110; flag (TCP_Segment.has_FIN e) 111;
   Reader (TCP_Segment.get_window e) 112 16; Reader (TCP_Segment.get_checksum e) 128 16;
   Reader (TCP_Segment.get_urgend_ptr e) 144 16]
  [sets (TCP_Segment.set_sport e) 0 16; sets (TCP_Segment.set_dport e) 16 16;
   sets (TCP_Segment.set_seqnum e) 32 32; sets (TCP_Segment.set_acknum e) 64 32;
   Writer (TCP_Segment.set_header_len e) 96 4 (96, 8)%nat None; sets (TCP_Segment.set_flags e) 104 8;
   raises (TCP_Segment.set_URG e) 106; raises (TCP_Segment.set_ACK e) 107; raises (TCP_Segment.set_PSH e) 108;
   raises (TCP_Segment.set_RST e) 109; raises (TCP_Segment.set_SYN e) 110; raises (TCP_Segment.set_FIN e) 111;
   sets (TCP_Segment.set_window e) 112 16; sets (TCP_Segment.set_checksum e) 128 16;
   sets (TCP_Segment.set_urgend_ptr e) 144 16] [].

(** RFC 791; the bit fields of the first byte, the flags and the fragment offset are right on a
    little-endian host only. *)
Definition little {A} (l : list A) : list A := match e with LE => l | BE => [] end.
Definition ipv4_class : class := Class 20
  ([Reader (IPv4_Packet.get_tos e) 8 8; Reader (IPv4_Packet.get_total_len e) 16 16; Reader (IPv4_Packet.get_id e) 32 16;
    Reader (IPv4_Packet.get_ttl e) 64 8; Reader (IPv4_Packet.get_protocol e) 72 8; Reader (IPv4_Packet.get_hdr_checksum e) 80 16]
   ++ little [Reader (IPv4_Packet.get_version LE) 0 4; Reader (IPv4_Packet.get_ihl LE) 4 4;
              Reader (IPv4_Packet.get_flags LE) 48 3; Reader (IPv4_Packet.get_fragment_offset LE) 51 13])
  ([sets (IPv4_Packet.set_tos e) 8 8; sets (IPv4_Packet.set_total_len e) 16 16; sets (IPv4_Packet.set_id e) 32 16;
    sets (IPv4_Packet.set_ttl e) 64 8; sets (IPv4_Packet.set_protocol e) 72 8; sets (IPv4_Packet.set_hdr_checksum e) 80 16]
   ++ little [sets (IPv4_Packet.set_version LE) 0 4; sets (IPv4_Packet.set_ihl LE) 4 4;
              sets (IPv4_Packet.set_flags LE) 48 3; sets (IPv4_Packet.set_fragment_offset LE) 51 13])
  [address e (IPv4_Packet.get_src_ipaddr e) (IPv4_Packet.set_src_ipaddr e) 12;
   address e (IPv4_Packet.get_dst_ipaddr e) (IPv4_Packet.set_dst_ipaddr e) 16].

(** RFC 8200; the version has no setter of its own. *)
Definition ipv6_class : class := Class 40
  ([Reader (IPv6_Packet.get_payload_len e) 32 16; Reader (IPv6_Packet.get_nextheader e) 48 8;
    Reader (IPv6_Packet.get_hoplimit e) 56 8] ++ little [Reader (IPv6_Packet.get_version LE) 0 4])
  [sets (IPv6_Packet.set_payload_len e) 32 16; sets (IPv6_Packet.set_nextheader e) 48 8;
   sets (IPv6_Packet.set_hoplimit e) 56 8]
  [BytesMember IPv6_Packet.get_src_ipaddr IPv6_Packet.set_src_ipaddr 8 16;
   BytesMember IPv6_Packet.get_dst_ipaddr IPv6_Packet.set_dst_ipaddr 24 16].

(** RFC 4861: the prefix option, which is only read but for its prefix, and the flags of a neighbor advertisement. *)
Definition prefix_class : class := Class 32
  [flag (NDPRouterMessages.isOnLink e) 24; flag (NDPRouterMessages.useForStatelessAddressConfiguration e) 25;
   Reader (NDPRouterMessages.get_valid_lifetime e) 32 32; Reader (NDPRouterMessages.get_preferred_lifetime e) 64 32] [] [].
Definition neighbor_class : class := Class 24
  [flag (NDPNeighborMessages.isRouter e) 32; flag (NDPNeighborMessages.isResponse e) 33; flag (NDPNeighborMessages.isOverride e) 34]
  [raises (NDPNeighborMessages.setRouter e true) 32; raises (NDPNeighborMessages.setResponse e true) 33;
   raises (NDPNeighborMessages.setOverride e true) 34] [].

Definition classes : list class :=
  [udp_class; icmp_class; icmpv6_class; ethernet_class; arp_class; tcp_class; ipv4_class; ipv6_class; prefix_class; neighbor_class].
End Tables.

(** ** Numbers of bits *)

Lemma value_app first w1 w2 p : value first (w1 + w2) p = value first w1 p * 2 ^ Z.of_nat w2 + value (first + w1) w2 p.
Proof.
  induction w2 as [|w2 IH]; [rewrite Nat.add_0_r; cbn; lia|]. rewrite Nat.add_succ_r. cbn [value].
  rewrite IH, Nat.add_assoc, Nat2Z.inj_succ, Z.pow_succ_r by lia. lia.
Qed.

Lemma value_ext first w p p' : (forall k, (first <= k < first + w)%nat -> bit p' k = bit p k) -> value first w p' = value first w p.
Proof. induction w as [|w IH]; intros H; [done|]. cbn. rewrite IH, H by (intros; try apply H; lia). done. Qed.

Lemma bit_byte o i p : (i < 8)%nat -> bit p (8 * o + i) = Z.testbit (get8 o p) (7 - Z.of_nat i).
Proof.
  intros Hi. unfold bit. rewrite (Nat.mul_comm 8), Nat.div_add_l, Nat.div_small, Nat.add_0_r by lia.
  by rewrite Nat.add_comm, Nat.Div0.mod_add, Nat.mod_small.
Qed.

(** Bits of one byte. *)
Lemma value_in_byte o s w p : (s + w <= 8)%nat ->
  value (8 * o + s) w p = get8 o p / 2 ^ (8 - Z.of_nat s - Z.of_nat w) mod 2 ^ Z.of_nat w.
Proof.
  induction w as [|w IH]; intros Hw; [cbn [value]; by rewrite Z.mod_1_r|]. cbn [value]. rewrite IH by lia.
  rewrite <- Nat.add_assoc, bit_byte by lia. set (b := get8 o p). rewrite Z.testbit_spec' by lia.
  set (m := 8 - Z.of_nat s - Z.of_nat (S w)).
  replace (7 - Z.of_nat (s + w)) with m by lia. replace (8 - Z.of_nat s - Z.of_nat w) with (m + 1) by lia.
  rewrite Z.pow_add_r, <- Z.div_div by lia. change (2 ^ 1) with 2.
  rewrite Nat2Z.inj_succ, Z.pow_succ_r, Z.rem_mul_r by lia. lia.
Qed.
Lemma value_byte o p : is_u8 (get8 o p) -> value (8 * o) 8 p = get8 o p.
Proof.
  intros H. rewrite <- (Nat.add_0_r (8 * o)), value_in_byte by lia. change (2 ^ (8 - Z.of_nat 0 - Z.of_nat 8)) with 1.
  change (2 ^ Z.of_nat 8) with 256. unfold is_u8 in H. rewrite Z.div_1_r. apply Z.mod_small. lia.
Qed.
Lemma value_be16 o p : is_bytes p -> value (8 * o) 16 p = of_be16 (get8 o p) (get8 (o + 1) p).
Proof.
  intros H. change 16%nat with (8 + 8)%nat. rewrite value_app. replace (8 * o + 8)%nat with (8 * (o + 1))%nat by lia.
  rewrite !value_byte by auto with width. unfold of_be16. change (2 ^ Z.of_nat 8) with 256. lia.
Qed.
Lemma value_be32 o p : is_bytes p ->
  value (8 * o) 32 p = of_be32 (get8 o p) (get8 (o + 1) p) (get8 (o + 2) p) (get8 (o + 3) p).
Proof.
  intros H. change 32%nat with (8 + (8 + (8 + 8)))%nat. rewrite !value_app.
  replace (8 * o + 8)%nat with (8 * (o + 1))%nat by lia. replace (8 * (o + 1) + 8)%nat with (8 * (o + 2))%nat by lia.
  replace (8 * (o + 2) + 8)%nat with (8 * (o + 3))%nat by lia.
  rewrite !value_byte by auto with width. unfold of_be32, of_be16. cbn [Nat.add]. 
  change (2 ^ Z.of_nat 8) with 256. change (2 ^ Z.of_nat 16) with (256 * 256). change (2 ^ Z.of_nat 24) with (256 * 256 * 256). lia.
Qed.

(** Where memory is as before, so are its bits. *)
Lemma bit_ext p p' k : get8 (k / 8) p' = get8 (k / 8) p -> bit p' k = bit p k.
Proof. unfold bit. by intros ->. Qed.

(** ** What an accessor has to do *)

(** Numbers a setter is given. *)
Definition writable (w : writer) (v : Z) : Prop :=
  match w_only w with Some x => v = x | None => 0 <= v < 2 ^ Z.of_nat (w_width w) end.
Definition outside (k : nat) (range : nat * nat) : Prop := (k < fst range ∨ fst range + snd range <= k)%nat.

Definition reader_ok (size : nat) (r : reader) : Prop :=
  forall p, (size <= length p)%nat -> is_bytes p -> r_get r p = value (r_first r) (r_width r) p.
Definition writer_ok (size : nat) (w : writer) : Prop :=
  forall v p, (size <= length p)%nat -> is_bytes p -> writable w v ->
  let p' := w_set w v p in
  value (w_first w) (w_width w) p' = v ∧ (forall k, outside k (w_touches w) -> bit p' k = bit p k)
  ∧ length p' = length p ∧ is_bytes p'.
Definition array_ok (size : nat) (a : bytes_member) : Prop :=
  forall x p, (size <= length p)%nat -> is_bytes p -> is_bytes x -> length x = a_size a ->
  a_get a p = take (a_size a) (drop (a_offset a) p) ∧ a_set a x p = write (a_offset a) x p.

Section Plain.
Context (e : endian) (size o : nat).

Lemma reader8 : reader_ok size (Reader (getf e (Field o K8)) (8 * o) 8).
Proof. intros p _ Hp. cbn [r_get r_first r_width]. rewrite value_byte by auto with width. done. Qed.
Lemma reader16 : reader_ok size (Reader (getf e (Field o K16)) (8 * o) 16).
Proof. intros p _ Hp. cbn [r_get r_first r_width]. by rewrite value_be16, getf_K16. Qed.
Lemma reader32 : reader_ok size (Reader (getf e (Field o K32)) (8 * o) 32).
Proof. intros p _ Hp. cbn [r_get r_first r_width]. by rewrite value_be32, getf_K32. Qed.

(** Bits outside of the bytes of a member. *)
Lemma bit_setf k v n p i : ksize k = n -> outside i (8 * o, 8 * n)%nat -> bit (setf e (Field o k) v p) i = bit p i.
Proof.
  intros <- Hi. apply bit_ext, get8_write_out. cbn [f_off f_kind]. rewrite length_fbytes. unfold outside in Hi. cbn [fst snd] in Hi.
  pose proof (Nat.div_mod_eq i 8). pose proof (Nat.mod_upper_bound i 8 ltac:(lia)). lia.
Qed.

(** A setter that stores the whole member. *)
Lemma writer_plain k n : (o + n <= size)%nat -> ksize k = n -> reader_ok size (Reader (getf e (Field o k)) (8 * o) (8 * n)) ->
  (forall v, 0 <= v < 2 ^ Z.of_nat (8 * n) -> in_range k v) ->
  writer_ok size (sets (setf e (Field o k)) (8 * o) (8 * n)).
Proof.
  intros Ho Hk Hr Hv v p Hl Hp Hw. cbn in Hw. split_and!.
  - cbn [w_set w_first w_width sets]. pose proof (Hr (setf e (Field o k) v p)) as H. cbn [r_get r_first r_width] in H.
    rewrite <- H by (rewrite ?length_setf; auto with width). apply getf_setf_eq; [unfold fend; cbn; lia|by apply Hv].
  - intros i Hi. by apply (bit_setf k v n).
  - apply length_setf.
  - cbn. auto with width.
Qed.
Lemma writer8 : (o + 1 <= size)%nat -> writer_ok size (sets (setf e (Field o K8)) (8 * o) 8).
Proof. intros Ho. by apply (writer_plain K8 1); [..|apply reader8|]. Qed.
Lemma writer16 : (o + 2 <= size)%nat -> writer_ok size (sets (setf e (Field o K16)) (8 * o) 16).
Proof. intros Ho. by apply (writer_plain K16 2); [..|apply reader16|]. Qed.
Lemma writer32 : (o + 4 <= size)%nat -> writer_ok size (sets (setf e (Field o K32)) (8 * o) 32).
Proof. intros Ho. by apply (writer_plain K32 4); [..|apply reader32|]. Qed.
End Plain.

(** *** Parts of a byte *)

(** A getter of [w] bits from bit [s] of a byte on, tried on all bytes. *)
Definition all_bytes : list Z := map Z.of_nat (seq 0 256).
Definition reads_bits (f : Z -> Z) (s w : nat) : bool :=
  forallb (λ b, f b =? b / 2 ^ (8 - Z.of_nat s - Z.of_nat w) mod 2 ^ Z.of_nat w) all_bytes.
(** A setter that gives a byte a new value, tried on all bytes and all numbers. *)
Definition writes_bits (f : Z -> Z -> Z) (s w ts tw : nat) (values : list Z) : bool :=
  forallb (λ v, forallb (λ b,
    (u8 (f v b) / 2 ^ (8 - Z.of_nat s - Z.of_nat w) mod 2 ^ Z.of_nat w =? v)
    && forallb (λ i, (Nat.leb ts i && Nat.ltb i (ts + tw)) || Bool.eqb (Z.testbit (u8 (f v b)) (7 - Z.of_nat i)) (Z.testbit b (7 - Z.of_nat i)))
         (seq 0 8)) all_bytes) values.

Lemma elem_of_all_bytes b : is_u8 b -> In b all_bytes.
Proof. intros Hb. apply in_map_iff. exists (Z.to_nat b). unfold is_u8 in Hb. split; [lia|]. apply in_seq. lia. Qed.

Lemma reader_bits size o s w get f : (s + w <= 8)%nat -> reads_bits f s w = true -> (forall p, is_bytes p -> get p = f (get8 o p)) ->
  reader_ok size (Reader get (8 * o + s) w).
Proof.
  intros Hw Hf Hg p _ Hp. cbn [r_get r_first r_width]. rewrite value_in_byte, Hg by done.
  unfold reads_bits in Hf. rewrite forallb_forall in Hf. apply Z.eqb_eq, Hf, elem_of_all_bytes. auto with width.
Qed.

Lemma writes_bits_spec f s w ts tw values v b : writes_bits f s w ts tw values = true -> In v values -> is_u8 b ->
  u8 (f v b) / 2 ^ (8 - Z.of_nat s - Z.of_nat w) mod 2 ^ Z.of_nat w = v
  ∧ forall i, (i < 8)%nat -> outside i (ts, tw) -> Z.testbit (u8 (f v b)) (7 - Z.of_nat i) = Z.testbit b (7 - Z.of_nat i).
Proof.
  intros H Hv Hb. unfold writes_bits in H. rewrite forallb_forall in H. specialize (H v Hv). rewrite forallb_forall in H.
  specialize (H b (elem_of_all_bytes b Hb)). apply andb_true_iff in H as [H1%Z.eqb_eq H2]. split; [exact H1|].
  intros i Hi Ho. rewrite forallb_forall in H2. specialize (H2 i). rewrite in_seq in H2. specialize (H2 ltac:(lia)).
  apply orb_true_iff in H2 as [[H2%Nat.leb_le H3%Nat.ltb_lt]%andb_true_iff|H2%eqb_prop]; [|done].
  unfold outside in Ho. cbn in Ho. lia.
Qed.

(** A setter that replaces byte [o] by a function of it. *)
Lemma byte_replaced f o s w ts tw values v p p' : writes_bits f s w ts tw values = true -> In v values ->
  (s + w <= 8)%nat -> (ts + tw <= 8)%nat -> is_bytes p -> get8 o p' = u8 (f v (get8 o p)) -> (forall i, i ≠ o -> get8 i p' = get8 i p) ->
  value (8 * o + s) w p' = v ∧ forall k, outside k (8 * o + ts, tw)%nat -> bit p' k = bit p k.
Proof.
  intros H Hv Hw Ht Hp Eo En. destruct (writes_bits_spec f s w ts tw values v (get8 o p) H Hv ltac:(auto with width)) as [H1 H2].
  split; [by rewrite value_in_byte, Eo|]. intros k Hk. pose proof (Nat.div_mod_eq k 8) as Ek. pose proof (Nat.mod_upper_bound k 8 ltac:(lia)).
  destruct (decide (k / 8 = o)%nat) as [E|E]; [|by apply bit_ext, En]. unfold bit. rewrite E, Eo. apply H2; [done|].
  unfold outside in *. cbn [fst snd] in *. lia.
Qed.

Lemma writer_bits e size o s w ts tw only set f values :
  (o + 1 <= size)%nat -> (s + w <= 8)%nat -> (ts + tw <= 8)%nat ->
  (forall v, match only with Some x => v = x | None => 0 <= v < 2 ^ Z.of_nat w end -> In v values) ->
  writes_bits f s w ts tw values = true ->
  (forall v p, is_bytes p -> set v p = setf e (Field o K8) (f v (get8 o p)) p) ->
  writer_ok size (Writer set (8 * o + s) w (8 * o + ts, tw)%nat only).
Proof.
  intros Ho Hw Ht Hv Hf Hs v p Hl Hp Hwr. cbn [w_set w_first w_width w_touches]. unfold writable in Hwr. cbn [w_only w_width] in Hwr.
  rewrite Hs by done. set (x := f v (get8 o p)).
  destruct (byte_replaced f o s w ts tw values v p (setf e (Field o K8) x p) Hf (Hv v Hwr) Hw Ht Hp) as [E1 E2].
  - unfold setf. cbn [f_off f_kind fbytes write]. by rewrite get8_insert_eq by lia.
  - intros i Hi. unfold setf. cbn [f_off f_kind fbytes write]. by apply get8_insert_ne.
  - split; [exact E1|]. split; [exact E2|]. split; [apply length_setf|by apply setf_bytes].
Qed.

(** *** Flags and fragment offset of IPv4 *)

Section Fragment.
Import IPv4_Packet.

Lemma raw_flags p : getf LE f_flags p = get8 6 p + get8 7 p * 256.
Proof. done. Qed.

Lemma reader_flags : reader_ok 20 (Reader (get_flags LE) 48 3).
Proof.
  intros p _ Hp. cbn [r_get r_first r_width]. rewrite (get_flags_raw p _ eq_refl) by (by apply flags_raw_u16).
  change (value 48 3 p) with (value (8 * 6 + 0) 3 p). rewrite value_in_byte by lia. rewrite raw_flags. change (8 - Z.of_nat 0 - Z.of_nat 3) with 5.
  change (2 ^ 5) with 32. change (2 ^ Z.of_nat 3) with 8. pose proof (get8_range 6 p Hp). pose proof (get8_range 7 p Hp). zlia.
Qed.
(** Thirteen bits over two bytes. *)
Lemma value_offset p : is_bytes p -> value 51 13 p = get8 6 p mod 32 * 256 + get8 7 p.
Proof.
  intros Hp. change (value 51 13 p) with (value (8 * 6 + 3) (5 + 8) p). rewrite value_app. change (8 * 6 + 3 + 5)%nat with (8 * 7)%nat.
    rewrite value_in_byte, value_byte by (lia || auto with width). change (8 - Z.of_nat 3 - Z.of_nat 5) with 0.
  rewrite Z.pow_0_r, Z.div_1_r. done.
Qed.
Lemma reader_offset : reader_ok 20 (Reader (get_fragment_offset LE) 51 13).
Proof.
  intros p _ Hp. cbn [r_get r_first r_width]. rewrite (get_fragment_offset_raw p _ eq_refl) by (by apply flags_raw_u16).
  rewrite value_offset, raw_flags by done. pose proof (get8_range 6 p Hp). pose proof (get8_range 7 p Hp). zlia.
Qed.

Lemma word_bytes a b x y : is_u8 a -> is_u8 x -> a + b * 256 = x + y * 256 -> a = x ∧ b = y.
Proof. unfold is_u8. lia. Qed.
Lemma high_bits a b : is_u8 a -> (a + b * 256) / 32 mod 8 = a / 32 ∧ (a + b * 256) / 256 = b ∧ (a + b * 256) mod 32 = a mod 32.
Proof. intros. split_and!; zlia. Qed.

Lemma offset_parts b v : 0 <= v < 8192 -> (b / 32 * 32 + v / 256) mod 32 * 256 + v mod 256 = v.
Proof.
  intros Hv. rewrite (Z.add_comm (_ * 32)), Z.mod_add by lia. assert (0 <= v / 256 < 32) by zlia.
  rewrite (Z.mod_small (v / 256)) by done. rewrite (Z.div_mod v 256) at 3 by lia. lia.
Qed.

(** Both setters store twice into the same two bytes. *)
Lemma stored_twice p x y : is_bytes p ->
  let p' := setf LE f_flags y (setf LE f_flags x p) in
  length p' = length p ∧ is_bytes p' ∧ forall i, i ≠ 6%nat -> i ≠ 7%nat -> get8 i p' = get8 i p.
Proof.
  intros Hp. split; [by rewrite !length_setf|]. split; [by repeat apply setf_bytes|]. intros i H6 H7.
  unfold setf. rewrite !get8_write_out by (rewrite length_fbytes; cbn; lia). done.
Qed.

Lemma writer_flags : writer_ok 20 (sets (set_flags LE) 48 3).
Proof.
  intros v p Hl Hp Hv. cbn in Hv. cbn [w_set w_first w_width w_touches sets].
  destruct (stored_twice p (Z.land (getf LE f_flags p) FRAGMENT_MASK)
    (Z.lor (getf LE f_flags (setf LE f_flags (Z.land (getf LE f_flags p) FRAGMENT_MASK) p)) (Z.shiftl (Z.land v 7) 5)) Hp) as (L & B & O).
  pose proof (set_flags_raw p v _ ltac:(lia) ltac:(unfold is_u8; lia) eq_refl (flags_raw_u16 LE p Hp)) as E.
  fold (set_flags LE v p) in L, B, O. set (p' := set_flags LE v p) in *. rewrite !raw_flags in E.
  pose proof (get8_range 6 p Hp) as R6. pose proof (get8_range 6 p' B) as R6'.
  destruct (high_bits (get8 6 p) (get8 7 p) R6) as (_ & E1 & E2). rewrite E1, E2, (Z.mod_small v) in E by lia. clear E1 E2.
  destruct (word_bytes (get8 6 p') (get8 7 p') (get8 6 p mod 32 + v * 32) (get8 7 p)) as [E6 E7]; [done|zlia|lia|].
  assert (Hf : writes_bits (λ v b, b mod 32 + v * 32) 0 3 0 3 (map Z.of_nat (seq 0 8)) = true) by (vm_compute; reflexivity).
  assert (Hin : In v (map Z.of_nat (seq 0 8))).
  { apply in_map_iff. exists (Z.to_nat v). split; [lia|]. apply in_seq. lia. }
  destruct (byte_replaced (λ v b, b mod 32 + v * 32) 6 0 3 0 3 _ v p p' Hf Hin ltac:(lia) ltac:(lia) Hp) as [E1 E2].
  - rewrite u8_id by zlia. exact E6.
  - intros i Hi. destruct (decide (i = 7%nat)) as [->|]; [exact E7|]. by apply O.
  - exact (conj E1 (conj E2 (conj L B))).
Qed.

Lemma writer_offset : writer_ok 20 (sets (set_fragment_offset LE) 51 13).
Proof.
  intros v p Hl Hp Hv. cbn in Hv. cbn [w_set w_first w_width w_touches sets].
  set (y := Z.land (LittleEndian.Host_to_Network_Short LE (u16 v)) FRAGMENT_MASK).
  set (x := Z.land (getf LE f_flags p) (Z.lnot FRAGMENT_MASK)).
  destruct (stored_twice p x (Z.lor (getf LE f_flags (setf LE f_flags x p)) y) Hp) as (L & B & O).
  pose proof (set_fragment_offset_raw p v _ ltac:(lia) ltac:(unfold is_u16; lia) eq_refl (flags_raw_u16 LE p Hp)) as E.
  fold (set_fragment_offset LE v p) in L, B, O. set (p' := set_fragment_offset LE v p) in *. rewrite !raw_flags in E.
  pose proof (get8_range 6 p Hp) as R6. pose proof (get8_range 6 p' B) as R6'.
  assert (Rv : 0 <= v / 256 < 32) by zlia.
  destruct (high_bits (get8 6 p) (get8 7 p) R6) as (E1 & _ & _). rewrite E1, (Z.mod_small (v / 256)) in E by done. clear E1.
  assert (R : is_u8 (get8 6 p / 32 * 32 + v / 256)) by zlia.
  destruct (word_bytes (get8 6 p') (get8 7 p') (get8 6 p / 32 * 32 + v / 256) (v mod 256)) as [E6 E7]; [done|done|lia|].
  assert (Hf : writes_bits (λ v b, b / 32 * 32 + v) 3 5 3 5 (map Z.of_nat (seq 0 32)) = true) by (vm_compute; reflexivity).
  assert (Hin : In (v / 256) (map Z.of_nat (seq 0 32))).
  { apply in_map_iff. exists (Z.to_nat (v / 256)). split; [lia|]. apply in_seq. lia. }
  destruct (writes_bits_spec _ 3 5 3 5 _ (v / 256) (get8 6 p) Hf Hin R6) as [_ Hb]. rewrite u8_id, <- E6 in Hb by done.
  split.
  { rewrite value_offset, E6, E7 by done. by apply offset_parts. }
  split; [|exact (conj L B)]. intros k Hk. pose proof (Nat.div_mod_eq k 8) as Ek.
  pose proof (Nat.mod_upper_bound k 8 ltac:(lia)). unfold outside in Hk. cbn [fst snd] in Hk.
  destruct (decide (k / 8 = 6)%nat) as [E6'|]; [|apply bit_ext, O; lia]. unfold bit. rewrite E6'. apply Hb; [done|].
  unfold outside. cbn [fst snd]. lia.
Qed.
End Fragment.

(** *** Arrays *)

Lemma array_bytes size o n get set :
  (forall p, get p = take n (drop o p)) -> (forall x p, length x = n -> set x p = write o x p) -> array_ok size (BytesMember get set o n).
Proof. intros Hg Hs x p _ _ _ Hx. split; [apply Hg|by apply Hs]. Qed.

Lemma array_address e size o : (o + 4 <= size)%nat ->
  array_ok size (address e (getf e (Field o H32)) (setf e (Field o H32)) o).
Proof.
  intros Ho x p Hl Hp Hx Lx. cbn [a_size address] in Lx. cbn [a_get a_set a_size a_offset address]. split.
  - unfold getf. cbn [f_kind f_off].
    assert (E : take 4 (drop o p) = [get8 o p; get8 (o + 1) p; get8 (o + 2) p; get8 (o + 3) p]).
    { assert (G : forall i, get8 (o + i) p = default 0 (drop o p !! i)) by (intros i; unfold get8; by rewrite nth_lookup, lookup_drop).
      rewrite <- (Nat.add_0_r o) at 2. rewrite !G.
      destruct (drop o p) as [|a [|b [|c [|d r]]]] eqn:Ed; try (apply (f_equal length) in Ed; rewrite length_drop in Ed; cbn in Ed; lia).
      done. }
    rewrite E. pose proof (get8_range o p Hp). pose proof (get8_range (o + 1) p Hp). pose proof (get8_range (o + 2) p Hp). pose proof (get8_range (o + 3) p Hp).
    unfold mem32. destruct e; cbn; repeat (apply (f_equal2 cons); [zlia|]); done.
  - unfold setf. cbn [f_off f_kind]. f_equal.
    destruct x as [|a [|b [|c [|d [|? ?]]]]]; try (cbn in Lx; lia). unfold is_bytes in Hx. rewrite !Forall_cons in Hx. split_ands.
    destruct e; cbn; repeat (apply (f_equal2 cons); [zlia|]); done.
Qed.

(** ** The tables are right *)

Definition class_ok (c : class) : Prop :=
  Forall (reader_ok (c_size c)) (readers c) ∧ Forall (writer_ok (c_size c)) (writers c) ∧ Forall (array_ok (c_size c)) (arrays c).

(** A flag of a byte. *)
Lemma reader_flag e size o i mask : (i < 8)%nat -> reads_bits (λ b, Z.b2z (negb (Z.land b mask =? 0))) i 1 = true ->
  reader_ok size (flag (λ p, negb (Z.land (getf e (Field o K8) p) mask =? 0)) (8 * o + i)).
Proof. intros Hi H. by apply (reader_bits size o i 1 _ (λ b, Z.b2z (negb (Z.land b mask =? 0)))); [lia|..]. Qed.
Lemma reader_flag' e size o i mask : (i < 8)%nat -> reads_bits (λ b, Z.b2z (negb (Z.land mask b =? 0))) i 1 = true ->
  reader_ok size (flag (λ p, negb (Z.land mask (getf e (Field o K8) p) =? 0)) (8 * o + i)).
Proof. intros Hi H. by apply (reader_bits size o i 1 _ (λ b, Z.b2z (negb (Z.land mask b =? 0)))); [lia|..]. Qed.
Lemma writer_flag e size o i mask : (o + 1 <= size)%nat -> (i < 8)%nat ->
  writes_bits (λ _ b, Z.lor b mask) i 1 i 1 [1] = true ->
  writer_ok size (raises (λ p, setf e (Field o K8) (Z.lor (getf e (Field o K8) p) mask) p) (8 * o + i)).
Proof. intros Ho Hi H. apply (writer_bits e size o i 1 i 1 (Some 1) _ (λ _ b, Z.lor b mask) [1]); try lia; [intros v ->; by left|done|done]. Qed.

(** Four bits of a byte that a setter replaces. *)
Lemma writer_half e size o s ts tw f set : (o + 1 <= size)%nat -> (s + 4 <= 8)%nat -> (ts + tw <= 8)%nat ->
  writes_bits f s 4 ts tw (map Z.of_nat (seq 0 16)) = true -> (forall v p, set v p = setf e (Field o K8) (f v (get8 o p)) p) ->
  writer_ok size (Writer set (8 * o + s) 4 (8 * o + ts, tw)%nat None).
Proof.
  intros Ho Hs Ht Hf E. apply (writer_bits e size o s 4 ts tw None set f (map Z.of_nat (seq 0 16))); try done.
  intros v Hv. apply in_map_iff. exists (Z.to_nat v). change (2 ^ Z.of_nat 4) with 16 in Hv. split; [lia|]. apply in_seq. lia.
Qed.

(** Members of whole bytes: the accessor has to be that of a field of this place and size. *)
Ltac is_field f first width :=
  let f := eval hnf in f in
  lazymatch f with
  | Field ?o ?k =>
      let place := eval vm_compute in (8 * o, 8 * ksize k)%nat in
      let wanted := eval vm_compute in (first, width)%nat in
      constr_eq place wanted
  end.
Ltac plain :=
  lazymatch goal with
  | |- reader_ok ?n (Reader ?g ?f ?w) =>
      let g' := eval red in g in
      let o := eval vm_compute in (f / 8)%nat in
      lazymatch g' with
      | getf _ ?fld =>
          is_field fld f w;
          lazymatch w with 8%nat => exact (reader8 _ n o) | 16%nat => exact (reader16 _ n o) | 32%nat => exact (reader32 _ n o) end
      end
  | |- writer_ok ?n (sets ?s ?f ?w) =>
      let s' := eval red in s in
      let o := eval vm_compute in (f / 8)%nat in
      lazymatch s' with
      | setf _ ?fld =>
          is_field fld f w;
          lazymatch w with
          | 8%nat => exact (writer8 _ n o ltac:(lia))
          | 16%nat => exact (writer16 _ n o ltac:(lia))
          | 32%nat => exact (writer32 _ n o ltac:(lia))
          end
      end
  | |- array_ok ?n (address ?e _ _ ?o) => exact (array_address e n o ltac:(lia))
  end.
(** One goal for each accessor of a class; those of whole bytes are done. *)
Ltac accessors :=
  unfold class_ok; cbn [readers writers arrays c_size app];
  split; [|split]; repeat apply Forall_cons_2; try apply Forall_nil_2; try solve [plain].

Section Classes.
Context (e : endian).

Lemma udp_ok : class_ok (udp_class e).
Proof. unfold udp_class. accessors. Qed.
Lemma icmp_ok : class_ok (icmp_class e).
Proof. unfold icmp_class. accessors. Qed.
Lemma icmpv6_ok : class_ok (icmpv6_class e).
Proof. unfold icmpv6_class. accessors. Qed.
Lemma arp_ok : class_ok (arp_class e).
Proof. unfold arp_class. accessors. Qed.

Lemma ethernet_ok : class_ok (ethernet_class e).
Proof.
  unfold ethernet_class. accessors; apply array_bytes; try done; intros x p Hx.
  - unfold Eth_Frame.set_dst_hwaddr, set_bytes. by rewrite take_ge by lia.
  - unfold Eth_Frame.set_src_hwaddr. do 6 (destruct x as [|? x]; [done|]). by destruct x.
Qed.

Lemma tcp_ok : class_ok (tcp_class e).
Proof.
  unfold tcp_class. accessors.
  - by apply (reader_bits 20 12 0 4 _ (λ b, Z.land (Z.shiftr b 4) 0xF)); [lia|vm_compute|].
  - exact (reader_flag e 20 13 2 32 ltac:(lia) ltac:(by vm_compute)).
  - exact (reader_flag e 20 13 3 16 ltac:(lia) ltac:(by vm_compute)).
  - exact (reader_flag e 20 13 4 8 ltac:(lia) ltac:(by vm_compute)).
  - exact (reader_flag e 20 13 5 4 ltac:(lia) ltac:(by vm_compute)).
  - exact (reader_flag e 20 13 6 2 ltac:(lia) ltac:(by vm_compute)).
  - exact (reader_flag e 20 13 7 1 ltac:(lia) ltac:(by vm_compute)).
  - by apply (writer_half e 20 12 0 0 8 (λ v _, Z.land (Z.shiftl v 4) 0xF0)); try lia; vm_compute.
  - exact (writer_flag e 20 13 2 32 ltac:(lia) ltac:(lia) ltac:(by vm_compute)).
  - exact (writer_flag e 20 13 3 16 ltac:(lia) ltac:(lia) ltac:(by vm_compute)).
  - exact (writer_flag e 20 13 4 8 ltac:(lia) ltac:(lia) ltac:(by vm_compute)).
  - exact (writer_flag e 20 13 5 4 ltac:(lia) ltac:(lia) ltac:(by vm_compute)).
  - exact (writer_flag e 20 13 6 2 ltac:(lia) ltac:(lia) ltac:(by vm_compute)).
  - exact (writer_flag e 20 13 7 1 ltac:(lia) ltac:(lia) ltac:(by vm_compute)).
Qed.

Lemma reader_version size : reader_ok size (Reader (IPv4_Packet.get_version LE) 0 4).
Proof. by apply (reader_bits size 0 0 4 _ (λ b, Z.shiftr b 4)); [lia|vm_compute|]. Qed.

Lemma ipv4_ok : class_ok (ipv4_class e).
Proof.
  unfold ipv4_class, little. destruct e; accessors.
  - apply reader_version.
  - by apply (reader_bits 20 0 4 4 _ (λ b, Z.land b 0xf)); [lia|vm_compute|].
  - apply reader_flags.
  - apply reader_offset.
  - by apply (writer_half LE 20 0 0 0 4 (λ v b, Z.lor (Z.land b 0xf) (Z.shiftl (Z.land v 0xf) 4))); try lia; vm_compute.
  - by apply (writer_half LE 20 0 4 4 4 (λ v b, Z.lor (Z.land b 0xf0) (Z.land v 0xf))); try lia; vm_compute.
  - apply writer_flags.
  - apply writer_offset.
Qed.

Lemma ipv6_ok : class_ok (ipv6_class e).
Proof.
  assert (Copy : forall x, length x = 16%nat -> take 16 (IPv6.copy_ipv6_addr x) = x).
  { intros x Hx. unfold IPv6.copy_ipv6_addr. by rewrite take_take, take_ge by lia. }
  assert (Src : array_ok 40 (BytesMember IPv6_Packet.get_src_ipaddr IPv6_Packet.set_src_ipaddr 8 16)).
  { apply array_bytes; [done|]. intros x p Hx. unfold IPv6_Packet.set_src_ipaddr, set_bytes. by rewrite Copy. }
  assert (Dst : array_ok 40 (BytesMember IPv6_Packet.get_dst_ipaddr IPv6_Packet.set_dst_ipaddr 24 16)).
  { apply array_bytes; [done|]. intros x p Hx. unfold IPv6_Packet.set_dst_ipaddr, set_bytes. by rewrite Copy. }
  unfold ipv6_class, little. destruct e; accessors; first [exact Src|exact Dst|apply reader_version].
Qed.

Lemma prefix_ok : class_ok (prefix_class e).
Proof.
  unfold prefix_class. accessors.
  - exact (reader_flag' e 32 3 0 0x80 ltac:(lia) ltac:(by vm_compute)).
  - exact (reader_flag' e 32 3 1 0x40 ltac:(lia) ltac:(by vm_compute)).
Qed.

Lemma neighbor_ok : class_ok (neighbor_class e).
Proof.
  unfold neighbor_class. accessors.
  - exact (reader_flag' e 24 4 0 0x80 ltac:(lia) ltac:(by vm_compute)).
  - exact (reader_flag' e 24 4 1 0x40 ltac:(lia) ltac:(by vm_compute)).
  - exact (reader_flag' e 24 4 2 0x20 ltac:(lia) ltac:(by vm_compute)).
  - exact (writer_flag e 24 4 0 0x80 ltac:(lia) ltac:(lia) ltac:(by vm_compute)).
  - exact (writer_flag e 24 4 1 0x40 ltac:(lia) ltac:(lia) ltac:(by vm_compute)).
  - exact (writer_flag e 24 4 2 0x20 ltac:(lia) ltac:(lia) ltac:(by vm_compute)).
Qed.

Lemma classes_are_ok : Forall class_ok (classes e).
Proof.
  repeat apply Forall_cons_2; [apply udp_ok|apply icmp_ok|apply icmpv6_ok|apply ethernet_ok|apply arp_ok|apply tcp_ok|apply ipv4_ok|
    apply ipv6_ok|apply prefix_ok|apply neighbor_ok|constructor].
Qed.

End Classes.


(** On a big-endian host the first bit field of a byte has its high bits: version and header length change places. *)
Example big_endian_version : IPv4_Packet.get_version BE [0x46] = 6 ∧ IPv4_Packet.get_ihl BE [0x46] = 4 ∧ IPv6_Packet.get_version BE [0x60] = 0.
Proof. by vm_compute. Qed.
