(* ===== verification/NdpCache.v ===== *)
(** * NdpCache: the neighbor cache of an interface

    Models the entries of neighbor discovery in the address memory of an
    interface ([ipv6/ndpcache/NDPCache_Interface_Slice.ah] and [NDPCacheEntry.h]
    with the hardware address of [ipv6/ethernet/NDPCacheEntry_Ethernet_Slice.ah]),
    their aging ([ipv6/ndpcache_expire]) and that of address prefixes
    ([ipv6/address_prefix_expire]).  An entry is known by its place in the memory; where
    the slices put the members they add is a parameter, [Layout]. *)

From stdpp Require Import gmap.
From S2P Require Import Prelude Wire Packet Addresses Headers Ipv6.
Import AddressMemory.

Open Scope Z_scope.

(** The offsets of the members that slices add to the entries. *)
Class Layout := {
  o_hw : nat; o_expire_value : nat;
  o_valid_time_minutes : nat; o_preferred_time_minutes : nat;
  block_size : nat;
}.
(** They lie behind the members of the classes and do not overlap. *)
Class LayoutOk (L : Layout) : Prop := {
  hw_behind : (19 <= o_hw ∧ o_hw + 6 <= block_size)%nat;
  expire_behind : (19 <= o_expire_value < block_size ∧ (o_expire_value < o_hw ∨ o_hw + 6 <= o_expire_value))%nat;
  valid_behind : (21 <= o_valid_time_minutes ∧ o_valid_time_minutes + 4 <= block_size)%nat;
  preferred_behind : (21 <= o_preferred_time_minutes ∧ o_preferred_time_minutes + 4 <= block_size)%nat;
  times_disjoint : (o_valid_time_minutes + 4 <= o_preferred_time_minutes ∨ o_preferred_time_minutes + 4 <= o_valid_time_minutes)%nat;
}.

(** ** Members *)

Module NDPEntry.
Import NDPCacheEntry.
Section Members.
Context (e : endian) {L : Layout}.
Definition value (s : StateEnum) : Z :=
  match s with
  | NDPCacheEntryState_Incomplete => 0 | NDPCacheEntryState_Stale => 1 | NDPCacheEntryState_Delay => 2
  | NDPCacheEntryState_Probe => 3 | NDPCacheEntryState_Reachable => 4 end.
Definition set_state (s : StateEnum) (b : bytes) : bytes := <[17%nat := value s]> b.
Definition set_router_state (v : Z) (b : bytes) : bytes := <[18%nat := v]> b.
(** The bit fields of [router_state]. *)
Definition bit_isRouter : Z := match e with LE => 1 | BE => 128 end.
Definition bit_isRouting : Z := match e with LE => 2 | BE => 64 end.
Definition set_bit (m : Z) (v : bool) (b : bytes) : bytes :=
  set_router_state (if v then Z.lor (router_state b) m else Z.land (router_state b) (255 - m)) b.
Definition set_isRouter : bool -> bytes -> bytes := set_bit bit_isRouter.
Definition set_isRouting : bool -> bytes -> bytes := set_bit bit_isRouting.
Definition hw (b : bytes) : bytes := get_bytes o_hw 6 b.
Definition set_hw (a b : bytes) : bytes := set_bytes o_hw 6 a b.
Definition expire_value (b : bytes) : Z := get8 o_expire_value b.
Definition set_expire_value (v : Z) (b : bytes) : bytes := <[o_expire_value := u8 v]> b.
End Members.

Inductive NDPCacheEntryImportance := IMPORTANCE_not_important | IMPORTANCE_good_to_know | IMPORTANCE_solicitation_renew
  | IMPORTANCE_router | IMPORTANCE_important | IMPORTANCE_always_keep.
Definition importance (i : NDPCacheEntryImportance) : Z :=
  match i with
  | IMPORTANCE_not_important => 0 | IMPORTANCE_good_to_know => 50 | IMPORTANCE_solicitation_renew => 70
  | IMPORTANCE_router => 100 | IMPORTANCE_important => 128 | IMPORTANCE_always_keep => 255 end.
End NDPEntry.

(** ** Loops over the entries of a kind

    [while (entry = findEntry(&nextEntry)) ...], where the body may change the memory. *)
Fixpoint each_entry {S : Type} (fuel : nat) (type : Z) (body : nat -> memory * S -> memory * S) (next : nat) (st : memory * S)
    : memory * S :=
  match fuel with
  | O => st
  | Datatypes.S fuel =>
      match findEntry (fst st) next type with
      | None => st
      | Some (k, next) => each_entry fuel type body next (body k st)
      end
  end.
Definition for_entries {S : Type} (type : Z) (body : nat -> memory * S -> memory * S) (st : memory * S) : memory * S :=
  each_entry (Datatypes.S (length (fst st))) type body 0 st.
(** Without further state. *)
Definition for_each (type : Z) (body : nat -> memory -> memory) (m : memory) : memory :=
  fst (for_entries type (λ k st, (body k (fst st), ())) (m, ())).

(** ** The cache *)

Module NDPCache.
Import NDPEntry NDPCacheEntry.
Section Operations.
(** Whether the entries age is a choice of the configuration. *)
Context (e : endian) {L : Layout} (expires : bool).

Definition NDP_CACHE_REFRESH_IN_MINUTES : Z := 3.
Definition NDPCACHE_EXPIRE_RATE_PER_MINUTE : Z := 2 * NDP_CACHE_REFRESH_IN_MINUTES.
Definition NDPCACHE_TRESHOLD_REQUIRE_SOLICITATION : Z := NDPCACHE_EXPIRE_RATE_PER_MINUTE * 3.

(** The block at a place, and a write through a pointer to it. *)
Definition at_entry (f : bytes -> bytes) (k : nat) (m : memory) : memory := alter f k m.

Definition is_NDPCacheEntry_reachable (b : bytes) : bool := state b =? value NDPCacheEntryState_Reachable.
Definition ndpcache_findRouter (m : memory) : option nat := first_entry m ID (isRouting e).
(** The advice that marks an entry as used matches a function without result, not this one. *)
Definition ndpcache_find (addr : bytes) (m : memory) : option nat :=
  first_entry m ID (λ b, IPv6.same_ipv6_addr addr (Entry.ipv6 b)).

Definition freeNDPCacheEntry (k : nat) (m : memory) : memory :=
  let pos := getPosition m (Some k) in
  if pos =? EntryUndefined then m
  else
    let m := if isRouter e (m !!! k) then
        for_each AddressEntry.ID (λ j m, if AddressEntry.routerEntryPosition (m !!! j) =? pos then freeEntry j m else m) m
      else m in
    freeEntry k m.

(** With the advice that sets the default age. *)
Definition reserveNDPCacheEntry (b : bytes) : bytes :=
  let b := if expires then set_expire_value (NDPCACHE_TRESHOLD_REQUIRE_SOLICITATION + NDPCACHE_EXPIRE_RATE_PER_MINUTE) b else b in
  reserve (set_router_state 0 b).

Definition update_NDPCacheEntry_importance (i : NDPCacheEntryImportance) (b : bytes) : bytes :=
  set_expire_value (Z.lor (expire_value b) (importance i)) b.
Definition entryConfirmed (b : bytes) : bytes :=
  if expires then
    update_NDPCacheEntry_importance (if isRouter e b then IMPORTANCE_router else IMPORTANCE_solicitation_renew) b
  else b.

(** The loop keeps the oldest entry and the bound it has lowered. *)
Definition releaseEntryBelowImportance (importance_below_value : Z) (m : memory) : memory :=
  let body (k : nat) (st : memory * (Z * option nat)) :=
    let '(m, (below, oldest)) := st in
    let v := expire_value (m !!! k) in
    if negb (v =? 255) && (v <? below) then (m, (v, Some k)) else st in
  let '(m, (_, oldest_entry)) := for_entries ID body (m, (importance_below_value, None)) in
  match oldest_entry with Some k => freeNDPCacheEntry k m | None => m end.
Definition dropUnused (m : memory) : memory :=
  if expires then releaseEntryBelowImportance (importance IMPORTANCE_good_to_know) m else m.

Definition addNDPCacheEntry (addr : bytes) (hwaddr : option bytes) (s : StateEnum) (m : memory) : option nat * memory :=
  match ndpcache_find addr m with
  | Some k => (Some k, at_entry (set_state s) k m)
  | None =>
      let entry := fst <$> findEntry m 0 0 in
      let '(entry, m) :=
        match entry with
        | Some k => (Some k, m)
        | None => let m := dropUnused m in (fst <$> findEntry m 0 0, m)
        end in
      match entry with
      | None => (None, m)
      | Some k =>
          let write b :=
            let b := Entry.set_ipv6 addr b in
            let b := match hwaddr with Some h => set_hw h b | None => b end in
            reserveNDPCacheEntry (set_state s b) in
          (Some k, at_entry write k m)
      end
  end.

(** *** Aging *)

(** Without the advice of neighbor discovery that solicits the entry instead. *)
Definition ipv6_router_entry_refresh (b : bytes) : bytes := set_expire_value (importance IMPORTANCE_router) b.
Definition ipv6_nonrouter_entry_refresh (b : bytes) : bytes := set_expire_value (importance IMPORTANCE_good_to_know) b.
Definition ipv6_useentry (b : bytes) : bytes :=
  if expire_value b <? NDPCACHE_TRESHOLD_REQUIRE_SOLICITATION then
    if expire_value b =? 1 then b
    else
      let b := set_expire_value 1 b in
      if isRouter e b then ipv6_router_entry_refresh b else ipv6_nonrouter_entry_refresh b
  else if negb (Z.land (expire_value b) 1 =? 0) then
    set_expire_value (expire_value b + (NDPCACHE_EXPIRE_RATE_PER_MINUTE - 1)) b
  else b.
Definition suspect_unreachable (addr : bytes) (m : memory) : memory :=
  match ndpcache_find addr m with
  | None => m
  | Some k => at_entry (λ b, set_state NDPCacheEntryState_Stale (set_expire_value 0 b)) k m
  end.

Definition releaseOldEntries (m : memory) : memory * Z :=
  for_entries ID (λ k st,
    let '(m, releasedEntries) := st in
    let v := expire_value (m !!! k) in
    if v <? NDPCACHE_EXPIRE_RATE_PER_MINUTE then (freeNDPCacheEntry k m, u8 (releasedEntries + 1))
    else if negb (v =? 255) then
      (at_entry (set_expire_value (Z.lor (v - NDPCACHE_EXPIRE_RATE_PER_MINUTE) 1)) k m, releasedEntries)
    else st) (m, 0).
End Operations.
End NDPCache.

(** ** The lifetimes of addresses *)

Module PrefixExpire.
Section Operations.
Context (e : endian) {L : Layout}.
Definition NoTimeExpire : Z := 0xFFFFFFFF.
Definition IPV6_REFRESH_IN_MINUTES : Z := 3.
(** The times are members of the host's byte order. *)
Definition f_valid : field := Field o_valid_time_minutes H32.
Definition f_preferred : field := Field o_preferred_time_minutes H32.
Definition valid_time_minutes := getf e f_valid.
Definition preferred_time_minutes := getf e f_preferred.
Definition set_valid_time_minutes := setf e f_valid.
Definition set_preferred_time_minutes := setf e f_preferred.

Definition refreshIPv6Addresses (m : memory) : memory :=
  for_each AddressEntry.ID (λ k m,
    let b := m !!! k in
    if valid_time_minutes b =? NoTimeExpire then m
    else if valid_time_minutes b <=? IPV6_REFRESH_IN_MINUTES then freeEntry k m
    else
      let b := set_valid_time_minutes (valid_time_minutes b - IPV6_REFRESH_IN_MINUTES) b in
      let b := if preferred_time_minutes b <=? IPV6_REFRESH_IN_MINUTES then set_preferred_time_minutes 0 b
               else set_preferred_time_minutes (preferred_time_minutes b - IPV6_REFRESH_IN_MINUTES) b in
      NDPCache.at_entry (λ _, b) k m) m.

(** The advice on a new address.  That on the test of a route names one argument of a function that has two, so it
    matches nothing and is not woven. *)
Definition without_lifetime (b : bytes) : bytes :=
  set_preferred_time_minutes NoTimeExpire (set_valid_time_minutes NoTimeExpire b).
End Operations.
End PrefixExpire.

(** ** The loops *)

Section Loops.

Lemma each_entry_local {S : Type} type (f : bytes -> bytes) (body : nat -> memory * S -> memory * S) :
  (forall k b m s, m !! k = Some b -> fst (body k (m, s)) = <[k := f b]> m) ->
  forall fuel next m s, (length m - next < fuel)%nat ->
  fst (each_entry fuel type body next (m, s))
  = take next m ++ ((λ b, if Entry.id b =? type then f b else b) <$> drop next m).
Proof.
  intros Hb. set (g := λ b, if Entry.id b =? type then f b else b).
  assert (Hskip : forall (l : memory), (forall j, id_at l j ≠ Some type) -> g <$> l = l).
  { induction l as [|x l IH]; intros Hn; [done|]. cbn. rewrite IH by (intros j; apply (Hn (Datatypes.S j))). f_equal. unfold g.
    destruct (Z.eqb_spec (Entry.id x) type) as [E|]; [|done]. by destruct (Hn 0%nat ltac:(cbn; by rewrite E)). }
  assert (Hdrop : forall m (n j : nat), id_at (drop n m) j = id_at m (n + j)) by (intros; unfold id_at; by rewrite lookup_drop).
  induction fuel as [|fuel IH]; intros next m s Hf; [lia|]. cbn [each_entry fst].
  pose proof (findEntry_spec m next type) as H. destruct (findEntry m next type) as [[k next']|].
  - destruct H as (-> & Hk & Hid & Hbefore). destruct (lookup_lt_is_Some_2 m k ltac:(lia)) as [b Eb].
    specialize (Hb k b m s Eb). destruct (body k (m, s)) as [m' s']. cbn [fst] in Hb. subst m'.
    rewrite IH by (rewrite length_insert; lia).
    assert (Hgb : g b = f b) by (unfold g, id_at in *; rewrite Eb in Hid; injection Hid as ->; by rewrite Z.eqb_refl).
    rewrite drop_insert_lt by lia.
    assert (Es : drop next m = take (k - next) (drop next m) ++ b :: drop (Datatypes.S k) m).
    { rewrite <- (take_drop (k - next) (drop next m)) at 1. f_equal. rewrite drop_drop. replace (next + (k - next))%nat with k by lia. by apply drop_S. }
    rewrite Es, fmap_app, fmap_cons, Hgb.
    assert (Eskip : g <$> take (k - next) (drop next m) = take (k - next) (drop next m)).
    { apply Hskip. intros j Hj. unfold id_at in Hj. destruct (decide (j < k - next)%nat) as [Hl|Hl].
      - rewrite lookup_take_lt in Hj by done. apply (Hbefore (next + j)%nat ltac:(lia)). by rewrite <- Hdrop.
      - by rewrite lookup_take_ge in Hj by lia. }
    rewrite Eskip, app_assoc. change (f b :: ?l) with ([f b] ++ l). rewrite (app_assoc _ [f b]). f_equal.
    rewrite (take_S_r (<[k:=f b]> m) k (f b)) by (rewrite list_lookup_insert_eq by lia; done). f_equal.
    rewrite take_insert_ge by lia. rewrite <- (take_drop next (take k m)). rewrite take_take, Nat.min_l by lia. f_equal.
    by rewrite <- skipn_firstn_comm.
  - rewrite Hskip; [by rewrite take_drop|]. intros j. rewrite Hdrop. apply H. lia.
Qed.

(** A loop whose body changes the entry it is at changes the entries of the kind, each by itself. *)
Lemma for_each_local type (f : bytes -> bytes) (body : nat -> memory -> memory) m :
  (forall k b m, m !! k = Some b -> body k m = <[k := f b]> m) ->
  for_each type body m = (λ b, if Entry.id b =? type then f b else b) <$> m.
Proof.
  intros Hb. unfold for_each, for_entries. cbn [fst].
  rewrite (each_entry_local type f); [by rewrite drop_0|intros k b m' s E; cbn; by apply Hb|lia].
Qed.
End Loops.

(** The rule for loops whose body does more. *)
Lemma for_entries_ind {S : Type} (P : nat -> memory * S -> Prop) type (body : nat -> memory * S -> memory * S) st :
  P 0%nat st ->
  (forall n k st', P n st' -> (n <= k)%nat -> id_at (fst st') k = Some type -> (forall j, (n <= j < k)%nat -> id_at (fst st') j ≠ Some type) ->
     P (Datatypes.S k) (body k st') ∧ length (fst (body k st')) = length (fst st')) ->
  exists n, P n (for_entries type body st) ∧ forall j, (n <= j)%nat -> id_at (fst (for_entries type body st)) j ≠ Some type.
Proof.
  intros H0 Hstep. unfold for_entries.
  assert (H : forall fuel n st, P n st -> (length (fst st) - n < fuel)%nat ->
    exists n', P n' (each_entry fuel type body n st) ∧ forall j, (n' <= j)%nat -> id_at (fst (each_entry fuel type body n st)) j ≠ Some type).
  { clear H0. clear st. induction fuel as [|fuel IH]; intros n st HP Hf; [lia|]. cbn [each_entry].
    pose proof (findEntry_spec (fst st) n type) as H. destruct (findEntry (fst st) n type) as [[k next]|].
    - destruct H as (-> & Hk & Hid & Hbefore). destruct (Hstep n k st HP ltac:(lia) Hid Hbefore) as [HP' Hl].
      apply IH; [done|lia].
    - exists n. split; [done|]. intros j Hj. by apply H. }
  apply H; [done|lia].
Qed.

(** ** Blocks *)

Section Blocks.
Import NDPEntry NDPCacheEntry.
Context (e : endian) {L : Layout} {LOk : LayoutOk L}.

Definition freed (b : bytes) : bytes := <[0%nat := 0]> b.
Definition is_ndp (b : bytes) : bool := Entry.id b =? ID.
Definition is_address (b : bytes) : bool := Entry.id b =? AddressEntry.ID.
(** What a new entry holds. *)
Record entry_is (b : bytes) (addr : bytes) (s : StateEnum) : Prop := {
  ei_id : Entry.id b = ID; ei_addr : Entry.ipv6 b = addr; ei_state : state b = value s }.

Ltac layout := pose proof hw_behind; pose proof expire_behind; pose proof valid_behind; pose proof preferred_behind.
(** Reading a member after others were written. *)
Ltac member := unfold Entry.id, Entry.ipv6, Entry.set_ipv6, hw, set_hw, state, set_state, router_state, set_router_state, set_bit,
    expire_value, set_expire_value, reserve, freed, AddressEntry.routerEntryPosition, get_bytes, set_bytes;
  repeat first
    [ rewrite get8_insert_ne by lia
    | rewrite get8_insert_eq by (rewrite ?length_insert, ?length_write; lia)
    | rewrite get8_write_out by (rewrite ?length_take; lia)
    | rewrite read_insert by lia
    | rewrite read_write_out by (rewrite ?length_take; lia) ].

Lemma id_freed b : b ≠ [] -> Entry.id (freed b) = 0.
Proof. by destruct b. Qed.
Lemma is_ndp_freed b : is_ndp (freed b) = false.
Proof. by destruct b. Qed.
Lemma is_address_freed b : is_address (freed b) = false.
Proof. by destruct b. Qed.
Lemma set_state_keeps s b : (block_size <= length b)%nat ->
  let b' := set_state s b in Entry.id b' = Entry.id b ∧ Entry.ipv6 b' = Entry.ipv6 b ∧ hw b' = hw b ∧ state b' = value s
  ∧ expire_value b' = expire_value b ∧ router_state b' = router_state b.
Proof. intros Hb. layout. split_and!; member; done. Qed.
Lemma set_expire_keeps v b : (block_size <= length b)%nat -> is_u8 v ->
  let b' := set_expire_value v b in Entry.id b' = Entry.id b ∧ Entry.ipv6 b' = Entry.ipv6 b ∧ hw b' = hw b ∧ state b' = state b
  ∧ expire_value b' = v ∧ router_state b' = router_state b.
Proof. intros Hb Hv. layout. split_and!; member; try done. by apply u8_id. Qed.

Lemma new_entry (expires : bool) addr (h : option bytes) s b : (block_size <= length b)%nat -> length addr = 16%nat ->
  (forall x, h = Some x -> length x = 6%nat) ->
  let b' := NDPCache.reserveNDPCacheEntry expires (set_state s (match h with Some x => set_hw x (Entry.set_ipv6 addr b) | None => Entry.set_ipv6 addr b end)) in
  entry_is b' addr s ∧ length b' = length b ∧ router_state b' = 0 ∧ hw b' = default (hw b) h
  ∧ (expires = true -> expire_value b' = 24) ∧ (expires = false -> expire_value b' = expire_value b).
Proof.
  intros Hb Ha Hh b'. layout.
  set (b1 := match h with Some x => set_hw x (Entry.set_ipv6 addr b) | None => Entry.set_ipv6 addr b end) in *.
  assert (Hb1 : length b1 = length b ∧ Entry.ipv6 b1 = addr ∧ hw b1 = default (hw b) h ∧ expire_value b1 = expire_value b).
  { assert (Hset : Entry.ipv6 (Entry.set_ipv6 addr b) = addr) by (apply read_ipv6; [done|lia]).
    assert (Hl : length (Entry.set_ipv6 addr b) = length b) by apply length_write.
    unfold b1. destruct h as [x|]; [change (default (hw b) (Some x)) with x|].
    - specialize (Hh x eq_refl). split_and!.
      + unfold set_hw, set_bytes. by rewrite length_write.
      + rewrite <- Hset at 2. by member.
      + unfold hw, set_hw, get_bytes, set_bytes. rewrite (take_ge x) by lia.
        transitivity (take (length x) (drop o_hw (write o_hw x (Entry.set_ipv6 addr b)))); [by rewrite Hh|apply read_write; lia].
      + by member.
    - split_and!; [done|done| |]; by member. }
  destruct Hb1 as (L1 & A1 & W1 & V1). subst b'. unfold NDPCache.reserveNDPCacheEntry.
  assert (Hk : (block_size <= length b1)%nat) by lia.
  destruct (set_state_keeps s b1 Hk) as (_ & A2 & W2 & S2 & V2 & _). rewrite A1 in A2. rewrite W1 in W2. rewrite V1 in V2.
  assert (L2 : length (set_state s b1) = length b) by (unfold set_state; by rewrite length_insert).
  destruct expires.
  - destruct (set_expire_keeps 24 (set_state s b1) ltac:(lia) ltac:(unfold is_u8; lia)) as (_ & A3 & W3 & S3 & V3 & _).
    rewrite A2 in A3. rewrite W2 in W3. rewrite S2 in S3.
    change (NDPCache.NDPCACHE_TRESHOLD_REQUIRE_SOLICITATION + NDPCache.NDPCACHE_EXPIRE_RATE_PER_MINUTE) with 24.
    assert (L3 : length (set_expire_value 24 (set_state s b1)) = length b) by (unfold set_expire_value; by rewrite length_insert).
    revert A3 W3 S3 V3 L3. generalize (set_expire_value 24 (set_state s b1)). intros b3 A3 W3 S3 V3 L3.
    split; [split|]; [by member|rewrite <- A3; by member|rewrite <- S3; by member|].
    split_and!; [unfold reserve, set_router_state; by rewrite !length_insert|by member|rewrite <- W3; by member| |done].
    intros _. rewrite <- V3. by member.
  - revert A2 W2 S2 V2 L2. generalize (set_state s b1). intros b3 A3 W3 S3 V3 L3.
    split; [split|]; [by member|rewrite <- A3; by member|rewrite <- S3; by member|].
    split_and!; [unfold reserve, set_router_state; by rewrite !length_insert|by member|rewrite <- W3; by member|done|].
    intros _. rewrite <- V3. by member.
Qed.
Lemma u8_lor a b : is_u8 a -> is_u8 b -> is_u8 (Z.lor a b).
Proof.
  intros Ha Hb. rewrite <- (u8_id a Ha), <- (u8_id b Hb). unfold u8. rewrite <- !land_ff, <- Z.land_lor_distr_l, land_ff.
  unfold is_u8. zlia.
Qed.
Lemma u8_land a b : is_u8 a -> is_u8 (Z.land a b).
Proof.
  intros Ha. rewrite <- (u8_id a Ha). unfold u8. rewrite <- land_ff, <- Z.land_assoc, (Z.land_comm 255), Z.land_assoc, land_ff.
  unfold is_u8. zlia.
Qed.

(** An entry whose address was advertised. *)
Definition advertised (expires router : bool) (mac b : bytes) : bytes :=
  set_state NDPCacheEntryState_Reachable (set_hw mac (NDPCache.entryConfirmed e expires (set_isRouter e router b))).
Lemma advertised_entry expires router mac b : (block_size <= length b)%nat -> is_bytes b -> length mac = 6%nat -> is_bytes mac ->
  let b' := advertised expires router mac b in
  length b' = length b ∧ is_bytes b' ∧ Entry.id b' = Entry.id b ∧ Entry.ipv6 b' = Entry.ipv6 b ∧ hw b' = mac
  ∧ state b' = value NDPCacheEntryState_Reachable.
Proof.
  intros Lb Bb Lm Bm. cbv zeta. layout. set (b1 := set_isRouter e router b).
  assert (Hb1 : length b1 = length b ∧ is_bytes b1 ∧ Entry.id b1 = Entry.id b ∧ Entry.ipv6 b1 = Entry.ipv6 b).
  { unfold b1, set_isRouter, set_bit. set (r := router_state b). assert (Hr : is_u8 r) by (by apply get8_range).
    assert (Hv : is_u8 (if router then Z.lor r (bit_isRouter e) else Z.land r (255 - bit_isRouter e))).
    { destruct router; [apply u8_lor; [done|destruct e; unfold is_u8; cbn; lia]|by apply u8_land]. }
    clearbody r. split_and!; [unfold set_router_state; by rewrite length_insert|by apply is_bytes_insert|by member|by member]. }
  destruct Hb1 as (L1 & B1 & I1 & A1).
  set (b2 := NDPCache.entryConfirmed e expires b1).
  assert (Hb2 : length b2 = length b ∧ is_bytes b2 ∧ Entry.id b2 = Entry.id b ∧ Entry.ipv6 b2 = Entry.ipv6 b).
  { unfold b2, NDPCache.entryConfirmed. destruct expires; [|done]. unfold NDPCache.update_NDPCacheEntry_importance.
    generalize (Z.lor (expire_value b1) (importance (if NDPCacheEntry.isRouter e b1 then IMPORTANCE_router else IMPORTANCE_solicitation_renew))). intros v.
    split_and!; [unfold set_expire_value; by rewrite length_insert|apply is_bytes_insert; auto with width| |].
    - rewrite <- I1. by member.
    - rewrite <- A1. by member. }
  destruct Hb2 as (L2 & B2 & I2 & A2). unfold advertised. fold b1 b2.
  split_and!.
  - unfold set_state, set_hw, set_bytes. by rewrite length_insert, length_write.
  - apply is_bytes_insert; [apply is_bytes_write; [done|by apply is_bytes_take]|unfold is_u8; cbn; lia].
  - rewrite <- I2. by member.
  - rewrite <- A2. by member.
  - transitivity (hw (set_hw mac b2)); [by member|]. unfold hw, set_hw, get_bytes, set_bytes. rewrite (take_ge mac) by lia.
    rewrite <- Lm at 1. apply read_write. lia.
  - by member.
Qed.
End Blocks.

(** ** Entries of one kind *)

Section SameKind.
Context (type : Z) (m m' : memory).
Hypothesis same : forall i b, Entry.id b = type -> m !! i = Some b <-> m' !! i = Some b.

Lemma id_at_same i : id_at m i = Some type <-> id_at m' i = Some type.
Proof.
  unfold id_at. split; intros H; apply fmap_Some in H as (b & Hb & E); apply (same i b) in Hb; try done; by rewrite Hb, E.
Qed.
Lemma block_same i : id_at m i = Some type -> m !!! i = m' !!! i.
Proof.
  unfold id_at. intros H. apply fmap_Some in H as (b & Hb & E). rewrite (list_lookup_total_correct _ _ _ Hb).
  apply (same i b) in Hb; [|done]. by rewrite (list_lookup_total_correct _ _ _ Hb).
Qed.
(** What is searched for among them is found where it was. *)
Lemma first_entry_same test : first_entry m type test = first_entry m' type test.
Proof.
  pose proof (first_entry_spec m type test) as H. pose proof (first_entry_spec m' type test) as H'.
  assert (Ht : forall j, id_at m j = Some type -> test (m' !!! j) = test (m !!! j)) by (intros j Hj; by rewrite (block_same j)).
  destruct (first_entry m type test) as [i|], (first_entry m' type test) as [j|]; [|exfalso|exfalso|done].
  - destruct H as (I1 & T1 & F1), H' as (I2 & T2 & F2). f_equal. apply id_at_same in I2 as I2'.
    destruct (lt_eq_lt_dec i j) as [[Hlt| ->]|Hlt]; [|done|].
    + specialize (F2 i Hlt (proj1 (id_at_same i) I1)). rewrite Ht in F2 by done. congruence.
    + specialize (F1 j Hlt I2'). rewrite <- Ht in F1 by done. congruence.
  - destruct H as (I1 & T1 & _). specialize (H' i (proj1 (id_at_same i) I1)). rewrite Ht in H' by done. congruence.
  - destruct H' as (I1 & T1 & _). apply id_at_same in I1. specialize (H j I1). rewrite <- Ht in H by done. congruence.
Qed.
End SameKind.

(** ** The cache as a map *)

Section Cache.
Import NDPEntry NDPCacheEntry NDPCache.
Context (e : endian) {L : Layout} {LOk : LayoutOk L} (expires : bool).

Record wf (m : memory) : Prop := {
  wf_blocks : Forall (λ b, block_size <= length b ∧ is_bytes b)%nat m;
  wf_size : (length m <= 255)%nat;
  wf_unique : forall j k b c, m !! j = Some b -> m !! k = Some c -> is_ndp b = true -> is_ndp c = true ->
    Entry.ipv6 b = Entry.ipv6 c -> j = k }.

(** What the cache knows: for an address the hardware address and the state. *)
Definition known (b : bytes) : option (bytes * (bytes * Z)) :=
  if is_ndp b then Some (Entry.ipv6 b, (hw b, state b)) else None.
Definition cache (m : memory) : gmap bytes (bytes * Z) := list_to_map (omap known m).

Lemma wf_block m k b : wf m -> m !! k = Some b -> (block_size <= length b)%nat ∧ is_bytes b.
Proof. intros Hm Hk. pose proof (wf_blocks m Hm) as H. by eapply Forall_lookup_1 in H. Qed.

Lemma cache_lookup m a v : wf m ->
  cache m !! a = Some v <-> exists k b, m !! k = Some b ∧ is_ndp b = true ∧ Entry.ipv6 b = a ∧ v = (hw b, state b).
Proof.
  intros Hm. unfold cache.
  assert (Hin : (a, v) ∈ omap known m <-> exists k b, m !! k = Some b ∧ is_ndp b = true ∧ Entry.ipv6 b = a ∧ v = (hw b, state b)).
  { rewrite list_elem_of_omap. unfold known. split.
    - intros (b & Hb & E). apply list_elem_of_lookup in Hb as [k Hk]. destruct (is_ndp b) eqn:En; [|done].
      injection E as <- <-. by exists k, b.
    - intros (k & b & Hk & En & <- & ->). exists b. split; [by eapply list_elem_of_lookup_2|]. by rewrite En. }
  rewrite <- Hin. symmetry. apply elem_of_list_to_map.
  pose proof (wf_unique m Hm) as Hu. clear Hin Hm. induction m as [|b m IH]; [constructor|]. cbn [omap list_omap]. unfold known at 1.
  assert (Hu' : forall j k b c, m !! j = Some b -> m !! k = Some c -> is_ndp b = true -> is_ndp c = true ->
    Entry.ipv6 b = Entry.ipv6 c -> j = k).
  { intros j k b1 c1 Hj Hk H1 H2 E. specialize (Hu (Datatypes.S j) (Datatypes.S k) b1 c1 Hj Hk H1 H2 E). lia. }
  destruct (is_ndp b) eqn:En; [|by apply IH]. cbn. constructor; [|by apply IH].
  intros Hx. apply list_elem_of_fmap in Hx as ([a' v'] & Ea & Hx). cbn in Ea. apply list_elem_of_omap in Hx as (c & Hc & Ec).
  apply list_elem_of_lookup in Hc as [k Hk]. unfold known in Ec. destruct (is_ndp c) eqn:Enc; [|done]. injection Ec as <- <-.
  by specialize (Hu 0%nat (Datatypes.S k) b c eq_refl Hk En Enc Ea).
Qed.

Lemma id_is_ndp m k : id_at m k = Some ID <-> exists b, m !! k = Some b ∧ is_ndp b = true.
Proof.
  unfold id_at, is_ndp. split.
  - intros H. apply fmap_Some in H as (b & Hb & E). exists b. split; [done|]. by apply Z.eqb_eq.
  - intros (b & -> & E). apply Z.eqb_eq in E. cbn. by rewrite E.
Qed.

Lemma same_addr a b : length a = 16%nat -> IPv6.same_ipv6_addr a (Entry.ipv6 b) = bool_decide (a = Entry.ipv6 b).
Proof. intros Ha. unfold IPv6.same_ipv6_addr, Entry.ipv6, get_bytes. rewrite take_ge by lia. by rewrite take_take. Qed.

Lemma find_spec m a : length a = 16%nat ->
  match ndpcache_find a m with
  | Some k => exists b, m !! k = Some b ∧ is_ndp b = true ∧ Entry.ipv6 b = a
  | None => forall k b, m !! k = Some b -> is_ndp b = true -> Entry.ipv6 b ≠ a
  end.
Proof.
  intros Ha. unfold ndpcache_find. pose proof (first_entry_spec m ID (λ b, IPv6.same_ipv6_addr a (Entry.ipv6 b))) as H.
  destruct (first_entry _ _ _) as [k|].
  - destruct H as (H1 & H2 & _). apply id_is_ndp in H1 as (b & Hk & En). exists b. split; [done|]. split; [done|].
    rewrite (list_lookup_total_correct _ _ _ Hk), same_addr in H2 by done. symmetry. by apply bool_decide_eq_true in H2.
  - intros k b Hk En E. specialize (H k). rewrite (list_lookup_total_correct _ _ _ Hk), same_addr in H by done.
    assert (H' := H (proj2 (id_is_ndp m k) (ex_intro _ b (conj Hk En)))). apply bool_decide_eq_false in H'. congruence.
Qed.

(** An entry is found where it is. *)
Lemma found_at m k b a : wf m -> length a = 16%nat -> m !! k = Some b -> is_ndp b = true -> Entry.ipv6 b = a -> ndpcache_find a m = Some k.
Proof.
  intros Hm Ha Hk Nb Ab. pose proof (find_spec m a Ha) as H. destruct (ndpcache_find a m) as [j|].
  - destruct H as (d & Hd & Nd & Ed). f_equal. apply (wf_unique m Hm j k d b); try done. congruence.
  - by destruct (H k b Hk Nb).
Qed.

(** Finding an entry is looking it up. *)
Lemma find_lookup m a : wf m -> length a = 16%nat ->
  (λ k, let b := m !!! k in (hw b, state b)) <$> ndpcache_find a m = cache m !! a.
Proof.
  intros Hm Ha. pose proof (find_spec m a Ha) as H. destruct (ndpcache_find a m) as [k|]; cbn.
  - destruct H as (b & Hk & En & Ea). rewrite (list_lookup_total_correct _ _ _ Hk). symmetry. apply cache_lookup; [done|]. by exists k, b.
  - symmetry. apply eq_None_not_Some. intros [v Hv]. apply cache_lookup in Hv as (k & b & Hk & En & Ea & _); [|done]. by apply (H k b).
Qed.

(** ** Freeing *)

Definition free_with (b : bytes) (k j : nat) (c : bytes) : bytes :=
  if bool_decide (j = k) then freed c
  else if isRouter e b && is_address c && (AddressEntry.routerEntryPosition c =? Z.of_nat k) then freed c else c.

Lemma freeNDPCacheEntry_spec m k b : (length m <= 255)%nat -> m !! k = Some b -> is_ndp b = true ->
  freeNDPCacheEntry e k m = imap (free_with b k) m.
Proof.
  intros Hm Hk En. unfold freeNDPCacheEntry, getPosition. pose proof (lookup_lt_Some _ _ _ Hk) as Hl.
  rewrite (proj2 (Nat.ltb_lt _ _) Hl). destruct (Z.eqb_spec (Z.of_nat k) EntryUndefined) as [E|_]; [unfold EntryUndefined in E; lia|].
  rewrite (list_lookup_total_correct _ _ _ Hk). unfold freeEntry, free_with.
  set (g := λ c, if AddressEntry.routerEntryPosition c =? Z.of_nat k then freed c else c).
  assert (Eg : for_each AddressEntry.ID (λ j m, if AddressEntry.routerEntryPosition (m !!! j) =? Z.of_nat k then alter freed j m else m) m
    = (λ c, if Entry.id c =? AddressEntry.ID then g c else c) <$> m).
  { apply for_each_local. intros j c m' Hj. rewrite (list_lookup_total_correct _ _ _ Hj). unfold g. destruct (_ =? _).
    - by apply alter_insert.
    - symmetry. by apply list_insert_id. }
  unfold freed in *. cbv zeta. destruct (isRouter e b); cbn [andb].
  - rewrite Eg. apply list_eq. intros j. rewrite list_lookup_imap. destruct (decide (j = k)) as [->|Hne].
    + rewrite list_lookup_alter_eq, list_lookup_fmap, Hk. cbn. rewrite bool_decide_eq_true_2 by done.
      unfold is_ndp in En. apply Z.eqb_eq in En. rewrite En. done.
    + rewrite list_lookup_alter_ne, list_lookup_fmap by done. destruct (m !! j) as [c|]; [|done]. cbn. rewrite bool_decide_eq_false_2 by done.
      unfold is_address, g. by destruct (Entry.id c =? AddressEntry.ID), (AddressEntry.routerEntryPosition c =? Z.of_nat k).
  - apply list_eq. intros j. rewrite list_lookup_imap. destruct (decide (j = k)) as [->|Hne].
    + rewrite list_lookup_alter_eq, Hk. cbn. by rewrite bool_decide_eq_true_2.
    + rewrite list_lookup_alter_ne by done. destruct (m !! j) as [c|]; [|done]. cbn. by rewrite bool_decide_eq_false_2.
Qed.

Lemma imap_wf m (f : nat -> bytes -> bytes) : wf m ->
  (forall j b, m !! j = Some b -> (block_size <= length (f j b))%nat ∧ is_bytes (f j b)) ->
  (forall j b, m !! j = Some b -> is_ndp (f j b) = true -> is_ndp b = true ∧ Entry.ipv6 (f j b) = Entry.ipv6 b) -> wf (imap f m).
Proof.
  intros Hm Hb Hn. split.
  - apply Forall_lookup. intros j b. rewrite list_lookup_imap. intros H. apply fmap_Some in H as (c & Hc & ->). by apply Hb.
  - rewrite length_imap. by apply wf_size.
  - intros j k b c Hj Hk. rewrite list_lookup_imap in Hj, Hk. apply fmap_Some in Hj as (b0 & Hj & ->). apply fmap_Some in Hk as (c0 & Hk & ->).
    intros H1 H2 E. destruct (Hn j b0 Hj H1) as [H3 E3]. destruct (Hn k c0 Hk H2) as [H4 E4].
    apply (wf_unique m Hm j k b0 c0); try done. congruence.
Qed.

Lemma freed_keeps b : length (freed b) = length b ∧ (is_bytes b -> is_bytes (freed b)).
Proof. unfold freed. split; [by rewrite length_insert|]. intros H. apply is_bytes_insert; [done|]. unfold is_u8. lia. Qed.

Lemma freeNDPCacheEntry_cache m k b : wf m -> m !! k = Some b -> is_ndp b = true ->
  wf (freeNDPCacheEntry e k m) ∧ cache (freeNDPCacheEntry e k m) = delete (Entry.ipv6 b) (cache m).
Proof.
  intros Hm Hk En. rewrite (freeNDPCacheEntry_spec m k b (wf_size m Hm) Hk En).
  assert (Hw : wf (imap (free_with b k) m)).
  { apply imap_wf; [done| |].
    - intros j c Hj. destruct (wf_block m j c Hm Hj). destruct (freed_keeps c). unfold free_with.
      case_bool_decide; [split; [lia|auto]|]. destruct (_ && _); split; auto; lia.
    - intros j c Hj. unfold free_with. case_bool_decide; [by rewrite is_ndp_freed|]. destruct (_ && _); [by rewrite is_ndp_freed|done]. }
  split; [done|]. apply map_eq. intros a. apply option_eq. intros v. rewrite cache_lookup by done.
  assert (Hsame : forall j c, m !! j = Some c -> is_ndp c = true -> j ≠ k -> free_with b k j c = c).
  { intros j c _ Hn Hne. unfold free_with. rewrite bool_decide_eq_false_2 by done.
    assert (is_address c = false) as ->; [|by rewrite andb_false_r]. unfold is_address, is_ndp in *. apply Z.eqb_eq in Hn. by rewrite Hn. }
  rewrite lookup_delete_Some, cache_lookup by done. split.
  - intros (j & c & Hj & Hn & Ea & ->). rewrite list_lookup_imap in Hj. apply fmap_Some in Hj as (c0 & Hj & ->).
    unfold free_with in Hn. case_bool_decide as Hjk; [by rewrite is_ndp_freed in Hn|].
    destruct (_ && _) eqn:Ef; [by rewrite is_ndp_freed in Hn|]. unfold free_with in Ea |- *. rewrite bool_decide_eq_false_2, Ef in Ea |- * by done.
    split; [|by exists j, c0]. intros Eb. apply Hjk. apply (wf_unique m Hm j k c0 b); congruence.
  - intros (Hne & j & c & Hj & Hn & Ea & ->). exists j, c. rewrite list_lookup_imap, Hj. cbn.
    assert (j ≠ k) by (intros ->; congruence). by rewrite (Hsame j c).
Qed.

(** ** Making room *)

(** An entry that may be dropped: its age is below the bound, and it is not fixed. *)
Definition droppable (below : Z) (b : bytes) : bool := is_ndp b && negb (expire_value b =? 255) && (expire_value b <? below).
(** The oldest of them. *)
Definition is_oldest (m : memory) (below : Z) (k : nat) : Prop :=
  exists b, m !! k = Some b ∧ droppable below b = true
  ∧ forall j c, m !! j = Some c -> droppable below c = true -> expire_value b <= expire_value c.

(** What the loop knows of the first [n] blocks: the age found so far and where it was found. *)
Record oldest_below (m : memory) (below : Z) (n : nat) (st : memory * (Z * option nat)) : Prop := {
  ob_memory : fst st = m;
  ob_least : forall j c, (j < n)%nat -> m !! j = Some c -> droppable below c = true -> fst (snd st) <= expire_value c;
  ob_place : match snd (snd st) with
             | Some k => exists b, m !! k = Some b ∧ droppable below b = true ∧ fst (snd st) = expire_value b
             | None => fst (snd st) = below end }.

(** Blocks of other kinds do not matter. *)
Lemma not_droppable m below n k : (forall j, (n <= j < k)%nat -> id_at m j ≠ Some ID) ->
  forall j c, (n <= j < k)%nat -> m !! j = Some c -> droppable below c = false.
Proof.
  intros H j c Hj Hc. unfold droppable. destruct (is_ndp c) eqn:Ec; [|done]. destruct (H j Hj). apply id_is_ndp. by exists c.
Qed.

Lemma oldest_step m below n k b b0 o : oldest_below m below n (m, (b0, o)) -> (n <= k)%nat -> m !! k = Some b -> is_ndp b = true ->
  (forall j, (n <= j < k)%nat -> id_at m j ≠ Some ID) ->
  oldest_below m below (S k) (if negb (expire_value b =? 255) && (expire_value b <? b0) then (m, (expire_value b, Some k)) else (m, (b0, o))).
Proof.
  intros [_ Hl Hp] Hnk Hk En Hbefore. cbn [fst snd] in *.
  assert (Hd : droppable below b = negb (expire_value b =? 255) && (expire_value b <? below)) by (unfold droppable; by rewrite En).
  assert (Hb0 : b0 <= below) by (destruct o as [o|]; [destruct Hp as (b1 & _ & H1 & ->); unfold droppable in H1; apply andb_true_iff in H1 as [_ H1]; lia|lia]).
  assert (Hcase : forall j c, (j < S k)%nat -> m !! j = Some c -> droppable below c = true -> (j < n)%nat ∨ c = b).
  { intros j c Hj Hc Hdc. destruct (decide (j < n)%nat); [by left|]. right. destruct (decide (j = k)) as [->|]; [congruence|].
    rewrite (not_droppable m below n k Hbefore j c) in Hdc by (done || lia). done. }
  destruct (Z.eqb_spec (expire_value b) 255) as [E255|E255]; cbn [negb andb] in *; [|destruct (Z.ltb_spec (expire_value b) b0)]; (split; cbn [fst snd]; [done| |]).
  - intros j c Hj Hc Hdc. destruct (Hcase j c Hj Hc Hdc) as [| ->]; [by apply (Hl j)|congruence].
  - done.
  - intros j c Hj Hc Hdc. destruct (Hcase j c Hj Hc Hdc) as [Hn| ->]; [specialize (Hl j c Hn Hc Hdc)|]; lia.
  - exists b. rewrite Hd. split; [done|]. split; [|done]. apply Z.ltb_lt. lia.
  - intros j c Hj Hc Hdc. destruct (Hcase j c Hj Hc Hdc) as [| ->]; [by apply (Hl j)|lia].
  - done.
Qed.

Lemma release_spec below m :
  (releaseEntryBelowImportance e below m = m ∧ forall k b, m !! k = Some b -> droppable below b = false)
  ∨ exists k, is_oldest m below k ∧ releaseEntryBelowImportance e below m = freeNDPCacheEntry e k m.
Proof.
  unfold releaseEntryBelowImportance. set (body := λ (k : nat) (st : memory * (Z * option nat)), _).
  destruct (for_entries_ind (oldest_below m below) ID body (m, (below, None))) as (n & [Em Hl Hp] & Hrest).
  - split; [done| |done]. intros j c Hj. lia.
  - intros n k [m' [b0 o]] HP Hnk Hid Hbefore. pose proof (ob_memory _ _ _ _ HP) as Em. cbn [fst snd] in *. subst m'.
    apply id_is_ndp in Hid as (b & Hk & En). unfold body. rewrite (list_lookup_total_correct _ _ _ Hk).
    split; [by apply (oldest_step m below n)|by case_match].
  - revert Em Hl Hp Hrest. destruct (for_entries ID body (m, (below, None))) as [m' [b0 o]]. cbn [fst snd]. intros -> Hl Hp Hrest.
    assert (Hall : forall j c, m !! j = Some c -> droppable below c = true -> b0 <= expire_value c).
    { intros j c Hc Hdc. destruct (decide (j < n)%nat); [by apply (Hl j)|]. unfold droppable in Hdc. destruct (is_ndp c) eqn:Ec; [|done].
      destruct (Hrest j ltac:(lia)). apply id_is_ndp. by exists c. }
    destruct o as [k|]; [right|left].
    + destruct Hp as (b & Hk & Hd & ->). exists k. split; [|done]. exists b. auto.
    + split; [done|]. intros k c Hc. destruct (droppable below c) eqn:Hdc; [|done]. specialize (Hall k c Hc Hdc).
      unfold droppable in Hdc. apply andb_true_iff in Hdc as [_ Hdc]. lia.
Qed.

(** ** Adding *)

(** A block becomes an entry, or another one. *)
Lemma update_cache m k b b' : wf m -> m !! k = Some b -> (block_size <= length b')%nat ∧ is_bytes b' -> is_ndp b' = true ->
  (forall j c, j ≠ k -> m !! j = Some c -> is_ndp c = true -> Entry.ipv6 c ≠ Entry.ipv6 b') ->
  wf (<[k := b']> m) ∧ cache (<[k := b']> m)
    = <[Entry.ipv6 b' := (hw b', state b')]> (if is_ndp b then delete (Entry.ipv6 b) (cache m) else cache m).
Proof.
  intros Hm Hk Hb' En' Hother. pose proof (lookup_lt_Some _ _ _ Hk) as Hlt.
  assert (Hj : forall j c, <[k:=b']> m !! j = Some c -> j = k ∧ c = b' ∨ j ≠ k ∧ m !! j = Some c).
  { intros j c. destruct (decide (j = k)) as [->|Hne]; [rewrite list_lookup_insert_eq by done; left; split; congruence|].
    rewrite list_lookup_insert_ne by done. by right. }
  assert (Hw : wf (<[k := b']> m)).
  { split.
    - apply Forall_insert; [by apply wf_blocks|done].
    - rewrite length_insert. by apply wf_size.
    - intros i j c d Hc Hd Nc Nd E. destruct (Hj i c Hc) as [[-> ->]|[Hi Hc']], (Hj j d Hd) as [[-> ->]|[Hj' Hd']]; [done| | |].
      + by destruct (Hother j d Hj' Hd' Nd).
      + by destruct (Hother i c Hi Hc' Nc).
      + by apply (wf_unique m Hm i j c d). }
  split; [done|]. apply map_eq. intros a. apply option_eq. intros v. rewrite cache_lookup by done. rewrite lookup_insert_Some.
  assert (Hdel : (if is_ndp b then delete (Entry.ipv6 b) (cache m) else cache m) !! a = Some v
    <-> (exists j c, j ≠ k ∧ m !! j = Some c ∧ is_ndp c = true ∧ Entry.ipv6 c = a ∧ v = (hw c, state c))).
  { destruct (is_ndp b) eqn:Enb; [rewrite lookup_delete_Some|]; rewrite cache_lookup by done.
    - split.
      + intros (Hne & j & c & H1 & H2 & H3 & H4). exists j, c. split; [|done]. intros ->. congruence.
      + intros (j & c & Hne & H1 & H2 & H3 & H4). split; [|by exists j, c]. intros Hab. apply Hne. apply (wf_unique m Hm j k c b); congruence.
    - split; [|intros (j & c & _ & H); by exists j, c]. intros (j & c & H1 & H2 & H3). exists j, c. split; [|done]. intros ->. congruence. }
  rewrite Hdel. split.
  - intros (j & c & Hc & Nc & Ea & ->). destruct (Hj j c Hc) as [[-> ->]|[Hne Hc']]; [by left|]. right.
    split; [|by exists j, c]. intros E. by apply (Hother j c Hne Hc' Nc); congruence.
  - intros [[<- <-]|[Hne (j & c & H1 & H2 & H3 & H4 & H5)]].
    + exists k, b'. by rewrite list_lookup_insert_eq.
    + exists j, c. by rewrite list_lookup_insert_ne.
Qed.

Lemma at_entry_insert f k m b : m !! k = Some b -> at_entry f k m = <[k := f b]> m.
Proof. apply alter_insert. Qed.

Lemma set_state_bytes s b : is_bytes b -> is_bytes (set_state s b).
Proof. intros H. apply is_bytes_insert; [done|]. destruct s; unfold is_u8; cbn; lia. Qed.

Lemma new_entry_bytes addr (h : option bytes) s b : is_bytes b -> is_bytes addr -> (forall x, h = Some x -> is_bytes x) ->
  is_bytes (reserveNDPCacheEntry expires (set_state s (match h with Some x => set_hw x (Entry.set_ipv6 addr b) | None => Entry.set_ipv6 addr b end))).
Proof.
  intros Hb Ha Hh. unfold reserveNDPCacheEntry. assert (H1 : is_bytes (Entry.set_ipv6 addr b)) by (apply is_bytes_write; auto with width).
  assert (H2 : is_bytes (match h with Some x => set_hw x (Entry.set_ipv6 addr b) | None => Entry.set_ipv6 addr b end)).
  { destruct h as [x|]; [|done]. apply is_bytes_write; [done|]. apply is_bytes_take. by apply Hh. }
  apply (set_state_bytes s) in H2. unfold reserve, set_router_state, set_expire_value.
  destruct expires; repeat first [done | apply is_bytes_insert; [|by split; vm_compute]].
Qed.

(** The parameters of a call. *)
Record call_ok (addr : bytes) (h : option bytes) : Prop := {
  co_addr : length addr = 16%nat; co_addr_bytes : is_bytes addr;
  co_hw : forall x, h = Some x -> length x = 6%nat ∧ is_bytes x }.

(** A new entry in a free block. *)
Lemma add_new m k addr h s : wf m -> call_ok addr h -> cache m !! addr = None -> id_at m k = Some 0 ->
  let write b := reserveNDPCacheEntry expires (set_state s (match h with Some x => set_hw x (Entry.set_ipv6 addr b) | None => Entry.set_ipv6 addr b end)) in
  let m' := at_entry write k m in
  wf m' ∧ exists hw', cache m' = <[addr := (hw', value s)]> (cache m) ∧ (forall x, h = Some x -> hw' = x)
    ∧ ndpcache_find addr m' = Some k.
Proof.
  intros Hm [Ha Hab Hh] Hnew Hid write m'. unfold id_at in Hid. apply fmap_Some in Hid as (b & Hk & Eb).
  destruct (wf_block m k b Hm Hk) as [Lb Bb].
  destruct (new_entry expires addr h s b Lb Ha ltac:(intros x Hx; by apply Hh)) as ([N1 N2 N3] & N4 & _ & N6 & _). fold (write b) in *.
  assert (Bw : is_bytes (write b)) by (apply new_entry_bytes; [done|done|intros x Hx; by apply Hh]).
  assert (Enb : is_ndp b = false) by (unfold is_ndp; by rewrite <- Eb).
  assert (Enw : is_ndp (write b) = true) by (unfold is_ndp; rewrite N1; apply Z.eqb_refl).
  assert (Hfind := find_spec m addr Ha). rewrite <- (find_lookup m addr Hm Ha) in Hnew. destruct (ndpcache_find addr m); [done|].
  unfold m'. rewrite (at_entry_insert write k m b Hk).
  destruct (update_cache m k b (write b) Hm Hk ltac:(split; [lia|done]) Enw) as [Hw Hc].
  { intros j c Hj Hcj Nc. rewrite N2. by apply (Hfind j). }
  split; [done|]. exists (hw (write b)). rewrite Hc, Enb, N2, N3. split; [done|]. split; [intros x ->; by rewrite N6|].
  pose proof (find_spec (<[k:=write b]> m) addr Ha) as Hf. destruct (ndpcache_find addr (<[k:=write b]> m)) as [j|].
  - destruct Hf as (c & Hc' & Nc & Ec). f_equal. apply (wf_unique _ Hw j k c (write b)); try done; [|congruence].
    apply list_lookup_insert_eq. by eapply lookup_lt_Some.
  - exfalso. apply (Hf k (write b)); [|done|done]. apply list_lookup_insert_eq. by eapply lookup_lt_Some.
Qed.

(** An address that is known gets the state. *)
Lemma add_known m k addr s : wf m -> length addr = 16%nat -> ndpcache_find addr m = Some k ->
  let m' := at_entry (set_state s) k m in
  wf m' ∧ exists hw0 s0, cache m !! addr = Some (hw0, s0) ∧ cache m' = <[addr := (hw0, value s)]> (cache m) ∧ ndpcache_find addr m' = Some k.
Proof.
  intros Hm Ha Hf m'. pose proof (find_spec m addr Ha) as H. rewrite Hf in H. destruct H as (b & Hk & En & Ea).
  destruct (wf_block m k b Hm Hk) as [Lb Bb]. destruct (set_state_keeps s b Lb) as (S1 & S2 & S3 & S4 & _).
  unfold m'. rewrite (at_entry_insert _ k m b Hk).
  destruct (update_cache m k b (set_state s b) Hm Hk) as [Hw Hc].
  { split; [unfold set_state; by rewrite length_insert|by apply set_state_bytes]. }
  { unfold is_ndp. by rewrite S1. }
  { intros j c Hj Hcj Nc E. apply Hj. apply (wf_unique m Hm j k c b); congruence. }
  split; [done|]. exists (hw b), (state b). split; [apply cache_lookup; [done|]; by exists k, b|].
  rewrite Hc, En, S2, S3, S4, Ea. split; [by rewrite insert_delete_eq|].
  pose proof (find_spec (<[k:=set_state s b]> m) addr Ha) as H. assert (Hk' : <[k:=set_state s b]> m !! k = Some (set_state s b))
    by (apply list_lookup_insert_eq; by eapply lookup_lt_Some).
  assert (En' : is_ndp (set_state s b) = true) by (unfold is_ndp; by rewrite S1).
  destruct (ndpcache_find addr (<[k:=set_state s b]> m)) as [j|].
  - destruct H as (c & Hc' & Nc & Ec). f_equal. apply (wf_unique _ Hw j k c (set_state s b)); congruence.
  - exfalso. by apply (H k (set_state s b) Hk' En'); congruence.
Qed.

(** What adding an address may do to a full memory: drop the oldest unimportant entry. *)
Definition dropped (m : memory) (c : gmap bytes (bytes * Z)) : Prop :=
  c = cache m ∨ expires = true ∧ (forall j, id_at m j ≠ Some 0)
    ∧ exists k b, is_oldest m 50 k ∧ m !! k = Some b ∧ c = delete (Entry.ipv6 b) (cache m).

Lemma free_block m : match fst <$> findEntry m 0 0 with Some k => id_at m k = Some 0 | None => forall j, id_at m j ≠ Some 0 end.
Proof.
  pose proof (findEntry_spec m 0 0) as H. destruct (findEntry m 0 0) as [[k next]|]; cbn; [apply H|].
  intros j. apply H. lia.
Qed.

Lemma dropUnused_spec m : wf m -> (forall j, id_at m j ≠ Some 0) ->
  let m1 := dropUnused e expires m in
  wf m1 ∧ dropped m (cache m1) ∧ (m1 = m ∧ (expires = true -> forall k b, m !! k = Some b -> droppable 50 b = false) ∨ exists j, id_at m1 j = Some 0).
Proof.
  intros Hm Hfull m1. unfold m1, dropUnused. destruct expires eqn:Ex.
  - destruct (release_spec 50 m) as [[E H]|(k & Hold & E)]; change (importance IMPORTANCE_good_to_know) with 50; rewrite E.
    + split; [done|]. split; [by left|]. left. by split.
    + pose proof Hold as (b & Hk & Hd & _). assert (En : is_ndp b = true) by (unfold droppable in Hd; by destruct (is_ndp b)).
      destruct (freeNDPCacheEntry_cache m k b Hm Hk En) as [Hw Hc]. split; [done|]. split.
      * right. split; [done|]. split; [done|]. by exists k, b.
      * right. exists k. rewrite (freeNDPCacheEntry_spec m k b (wf_size m Hm) Hk En). unfold id_at. rewrite list_lookup_imap, Hk. cbn.
        unfold free_with. rewrite bool_decide_eq_true_2 by done. rewrite id_freed; [done|]. intros ->. by destruct (Hfull k).
  - split; [done|]. split; [by left|]. left. done.
Qed.

(** What adding an address does. *)
Lemma add_spec (m : memory) (addr : bytes) (h : option bytes) (s : StateEnum) : wf m -> call_ok addr h ->
  match addNDPCacheEntry e expires addr h s m with
    | (Some k, m') => wf m' ∧ ndpcache_find addr m' = Some k ∧ exists hw' c, cache m' = <[addr := (hw', value s)]> c
        ∧ match cache m !! addr with
          | Some (hw0, _) => hw' = hw0 ∧ c = cache m
          | None => (forall x, h = Some x -> hw' = x) ∧ dropped m c
          end
    | (None, m') => m' = m ∧ cache m !! addr = None ∧ (forall j, id_at m j ≠ Some 0)
        ∧ (expires = true -> forall k b, m !! k = Some b -> droppable 50 b = false)
    end.
Proof.
  intros Hm Hcall.
  unfold addNDPCacheEntry. pose proof (find_lookup m addr Hm (co_addr _ _ Hcall)) as Hf.
  destruct (ndpcache_find addr m) as [k|] eqn:Ek.
  - destruct (add_known m k addr s Hm (co_addr _ _ Hcall) Ek) as (Hw & hw0 & s0 & E0 & Ec & Ef). rewrite E0.
    split; [done|]. split; [done|]. by exists hw0, (cache m).
  - assert (Hnone : cache m !! addr = None) by (by rewrite <- Hf). rewrite Hnone.
    pose proof (free_block m) as Hfree. destruct (fst <$> findEntry m 0 0) as [k|].
    + destruct (add_new m k addr h s Hm Hcall Hnone Hfree) as (Hw & hw' & Ec & Eh & Ef). split; [done|]. split; [done|].
      exists hw', (cache m). split; [done|]. split; [done|]. by left.
    + destruct (dropUnused_spec m Hm Hfree) as (Hw1 & Hd & Hroom). set (m1 := dropUnused e expires m) in *.
      pose proof (free_block m1) as Hfree1. destruct (fst <$> findEntry m1 0 0) as [k|].
      * assert (Hn1 : cache m1 !! addr = None).
        { destruct Hd as [->|(_ & _ & k' & b & _ & _ & ->)]; [done|]. rewrite lookup_delete_None. by right. }
        destruct (add_new m1 k addr h s Hw1 Hcall Hn1 Hfree1) as (Hw & hw' & Ec & Eh & Ef). split; [done|]. split; [done|].
        exists hw', (cache m1). done.
      * destruct Hroom as [[E Hd']|[j Hj]]; [done|]. by destruct (Hfree1 j).
Qed.

(** Where there is a free block no other kind of entry is touched. *)
Lemma add_keeps_addresses m addr h s : wf m -> cache m !! addr = None -> length addr = 16%nat -> (exists j, id_at m j = Some 0) ->
  forall i b, Entry.id b = AddressEntry.ID -> m !! i = Some b <-> snd (addNDPCacheEntry e expires addr h s m) !! i = Some b.
Proof.
  intros Hm Hnone Ha [j Hj] i b Hb. unfold addNDPCacheEntry. rewrite <- (find_lookup m addr Hm Ha) in Hnone.
  destruct (ndpcache_find addr m); [done|]. pose proof (free_block m) as Hfree. destruct (fst <$> findEntry m 0 0) as [k|]; [|by destruct (Hfree j)].
  cbn [snd]. unfold at_entry. destruct (decide (i = k)) as [->|Hne]; [|by rewrite list_lookup_alter_ne].
  unfold id_at in Hfree. apply fmap_Some in Hfree as (d & Hd & Ed). destruct (wf_block m k d Hm Hd) as [Ld _].
  rewrite list_lookup_alter_eq, Hd. split; intros [= E]; subst; exfalso; [by rewrite <- Ed in Hb|].
  unfold reserveNDPCacheEntry, reserve, Entry.id in Hb.
  rewrite get8_insert_eq in Hb; [done|]. pose proof hw_behind.
  destruct expires, h; unfold set_router_state, set_expire_value, set_state, set_hw, Entry.set_ipv6, set_bytes;
    rewrite ?length_insert, ?length_write; lia.
Qed.

(** C22: The neighbor cache is a map from addresses to a hardware address and a state: a lookup finds what is
    in it; an address that is added has the new state, and the hardware address given unless it
    was there before, when it keeps the old one; when the memory is full the oldest
    unimportant entry makes room, or nothing changes; an entry that is freed is gone, and with a
    router the addresses made from its prefixes are. *)
Theorem ndp_cache_refines_map (m : memory) (addr : bytes) (h : option bytes) (s : StateEnum) :
  wf m -> call_ok addr h ->
  (λ k, let b := m !!! k in (hw b, state b)) <$> ndpcache_find addr m = cache m !! addr
  ∧ match addNDPCacheEntry e expires addr h s m with
    | (Some k, m') => wf m' ∧ ndpcache_find addr m' = Some k ∧ exists hw' c, cache m' = <[addr := (hw', value s)]> c
        ∧ match cache m !! addr with
          | Some (hw0, _) => hw' = hw0 ∧ c = cache m
          | None => (forall x, h = Some x -> hw' = x) ∧ dropped m c
          end
    | (None, m') => m' = m ∧ cache m !! addr = None ∧ (forall j, id_at m j ≠ Some 0)
        ∧ (expires = true -> forall k b, m !! k = Some b -> droppable 50 b = false)
    end
  ∧ forall k b, m !! k = Some b -> is_ndp b = true ->
    let m' := freeNDPCacheEntry e k m in
    wf m' ∧ cache m' = delete (Entry.ipv6 b) (cache m)
    ∧ forall j c, m !! j = Some c -> j ≠ k ->
      m' !! j = Some (if isRouter e b && is_address c && (AddressEntry.routerEntryPosition c =? Z.of_nat k) then freed c else c).
Proof.
  intros Hm Hcall. split; [apply find_lookup; [done|apply Hcall]|]. split; [by apply add_spec|].
  intros k b Hk En. destruct (freeNDPCacheEntry_cache m k b Hm Hk En) as [Hw Hc]. split; [done|]. split; [done|].
  intros j c Hj Hne. rewrite (freeNDPCacheEntry_spec m k b (wf_size m Hm) Hk En), list_lookup_imap, Hj. cbn. unfold free_with.
  by rewrite bool_decide_eq_false_2.
Qed.

(** ** Aging *)

(** A round of [releaseOldEntries] on a single entry. *)
Definition old (b : bytes) : bool := is_ndp b && (expire_value b <? NDPCACHE_EXPIRE_RATE_PER_MINUTE).
Definition age (b : bytes) : bytes :=
  if old b then freed b else if expire_value b =? 255 then b
  else set_expire_value (Z.lor (expire_value b - NDPCACHE_EXPIRE_RATE_PER_MINUTE) 1) b.
(** An address whose router is among the old entries of the first [n] blocks. *)
Definition router_old (m : memory) (n : nat) (c : bytes) : bool :=
  existsb (λ k, match m !! k with
    | Some b => old b && isRouter e b && (AddressEntry.routerEntryPosition c =? Z.of_nat k)
    | None => false end) (seq 0 n).
(** A block when the loop has passed the first [n]. *)
Definition aged (m : memory) (n j : nat) (b : bytes) : bytes :=
  if is_ndp b then (if bool_decide (j < n)%nat then age b else b)
  else if is_address b && router_old m n b then freed b else b.

Lemma kinds b : is_ndp b = true -> is_address b = false.
Proof. unfold is_ndp, is_address. intros E%Z.eqb_eq. by rewrite E. Qed.
Lemma age_kind b : (block_size <= length b)%nat -> is_address b = false -> is_address (age b) = false.
Proof.
  intros Hb Ha. unfold age. destruct (old b); [apply is_address_freed|]. destruct (_ =? 255); [done|].
  unfold is_address, Entry.id, set_expire_value in *. pose proof expire_behind. by rewrite get8_insert_ne by lia.
Qed.

Lemma router_old_step m n k b c : m !! k = Some b -> (n <= k)%nat -> (forall j d, (n <= j < k)%nat -> m !! j = Some d -> is_ndp d = false) ->
  router_old m (S k) c = router_old m n c || (old b && isRouter e b && (AddressEntry.routerEntryPosition c =? Z.of_nat k)).
Proof.
  intros Hk Hn Hskip. unfold router_old. replace (S k) with (n + ((k - n) + 1))%nat by lia.
  rewrite seq_app, existsb_app. f_equal. rewrite seq_app, existsb_app. replace (0 + n + (k - n))%nat with k by lia. cbn [seq existsb]. rewrite Hk, orb_false_r.
  enough (Hno : existsb (λ k, match m !! k with
    | Some b => old b && isRouter e b && (AddressEntry.routerEntryPosition c =? Z.of_nat k) | None => false end) (seq (0 + n) (k - n)) = false) by (by rewrite Hno).
  apply not_true_iff_false. rewrite existsb_exists. intros (j & Hj & E). apply in_seq in Hj. destruct (m !! j) as [d|] eqn:Ej; [|done].
  unfold old in E. rewrite (Hskip j d) in E by (done || lia). done.
Qed.

Lemma aged_step m n k j b c : wf m -> m !! k = Some b -> is_ndp b = true -> (n <= k)%nat ->
  (forall i d, (n <= i < k)%nat -> m !! i = Some d -> is_ndp d = false) -> m !! j = Some c ->
  (if old b then free_with b k j (aged m n j c) else if bool_decide (j = k) then age b else aged m n j c) = aged m (S k) j c.
Proof.
  intros Hm Hk En Hn Hskip Hj. unfold aged. destruct (is_ndp c) eqn:Ec.
  - destruct (decide (j = k)) as [->|Hne].
    + simplify_eq. rewrite !(bool_decide_eq_true_2 (k < S k)%nat), (bool_decide_eq_false_2 (k < n)%nat) by lia.
      unfold free_with. rewrite bool_decide_eq_true_2 by done. unfold age. by destruct (old b).
    + assert (Hlt : bool_decide (j < S k)%nat = bool_decide (j < n)%nat).
      { apply bool_decide_ext. split; [|lia]. intros H. destruct (decide (j < n)%nat); [done|]. rewrite (Hskip j c) in Ec by (done || lia). done. }
      rewrite Hlt, (bool_decide_eq_false_2 (j = k)) by done. destruct (old b); [|done]. unfold free_with. rewrite bool_decide_eq_false_2 by done.
      assert (Ha : is_address (if bool_decide (j < n)%nat then age c else c) = false).
      { pose proof (kinds c Ec) as Ea. destruct (bool_decide (j < n)%nat); [|exact Ea]. apply age_kind; [by eapply wf_block|exact Ea]. }
      by rewrite Ha, andb_false_r.
  - assert (Hne : j ≠ k) by congruence. rewrite (bool_decide_eq_false_2 (j = k)) by done.
    rewrite (router_old_step m n k b c Hk Hn Hskip). destruct (is_address c) eqn:Ea; cbn [andb].
    + destruct (router_old m n c); cbn [orb].
      * destruct (old b); [|done]. unfold free_with. rewrite bool_decide_eq_false_2 by done. by rewrite is_address_freed, andb_false_r.
      * destruct (old b); cbn [andb]; [|done]. unfold free_with. rewrite bool_decide_eq_false_2, Ea by done. by destruct (isRouter e b).
    + destruct (old b); [|done]. unfold free_with. rewrite bool_decide_eq_false_2, Ea by done. by rewrite andb_false_r.
Qed.

Lemma aged_length m n j b : length (aged m n j b) = length b.
Proof.
  unfold aged, age, freed, set_expire_value. repeat (case_match; rewrite ?length_insert; try done).
Qed.

(** Behind the last entry nothing happens. *)
Lemma aged_all m n : (forall i d, (n <= i)%nat -> m !! i = Some d -> is_ndp d = false) -> imap (aged m n) m = imap (aged m (length m)) m.
Proof.
  intros Hend. apply list_eq. intros j. rewrite !list_lookup_imap. destruct (m !! j) as [b|] eqn:Hj; [|done]. cbn. f_equal. unfold aged.
  destruct (is_ndp b) eqn:Eb.
  - assert (j < n)%nat by (destruct (decide (j < n)%nat); [done|]; rewrite (Hend j b) in Eb by (done || lia); done).
    rewrite !bool_decide_eq_true_2; [done|by eapply lookup_lt_Some|done].
  - assert (E : router_old m n b = router_old m (length m) b); [|by rewrite E].
    unfold router_old. apply eq_true_iff_eq. rewrite !existsb_exists.
    split; intros (k & Hk & E); exists k; (split; [|done]); apply in_seq in Hk; apply in_seq; destruct (m !! k) as [d|] eqn:Ek; try done.
    + pose proof (lookup_lt_Some _ _ _ Ek). lia.
    + destruct (decide (k < n)%nat); [lia|]. unfold old in E. by rewrite (Hend k d) in E by (done || lia).
Qed.

Lemma aged_lookup m n j b : m !! j = Some b -> imap (aged m n) m !! j = Some (aged m n j b).
Proof. intros H. by rewrite list_lookup_imap, H. Qed.
(** The entries the loop has not come to are as they were. *)
Lemma aged_later m n j b : (n <= j)%nat -> m !! j = Some b -> is_ndp (aged m n j b) = is_ndp b.
Proof.
  intros Hj Hb. unfold aged. destruct (is_ndp b) eqn:Eb; [by rewrite bool_decide_eq_false_2 by lia|].
  destruct (_ && _); [by rewrite is_ndp_freed|done].
Qed.
Lemma no_entries m n (P : nat -> Prop) : (forall j, (n <= j)%nat -> P j -> id_at (imap (aged m n) m) j ≠ Some ID) ->
  forall j b, (n <= j)%nat -> P j -> m !! j = Some b -> is_ndp b = false.
Proof.
  intros H j b Hj HP Hb. destruct (is_ndp b) eqn:Eb; [|done]. destruct (H j Hj HP). apply id_is_ndp.
  exists (aged m n j b). split; [by apply aged_lookup|]. by rewrite aged_later.
Qed.

(** The body of the loop at an entry. *)
Lemma release_step m n k b : wf m -> m !! k = Some b -> is_ndp b = true -> (n <= k)%nat ->
  (forall i d, (n <= i < k)%nat -> m !! i = Some d -> is_ndp d = false) ->
  (if old b then freeNDPCacheEntry e k (imap (aged m n) m) else <[k := age b]> (imap (aged m n) m)) = imap (aged m (S k)) m.
Proof.
  intros Hm Hk En Hnk Hskip. assert (Hk' : imap (aged m n) m !! k = Some b).
  { rewrite (aged_lookup m n k b Hk). f_equal. unfold aged. by rewrite En, bool_decide_eq_false_2 by lia. }
  apply list_eq. intros j. rewrite list_lookup_imap. pose proof (λ c, aged_step m n k j b c Hm Hk En Hnk Hskip) as Estep.
  destruct (old b).
  - rewrite (freeNDPCacheEntry_spec _ k b) by (try done; rewrite length_imap; by apply wf_size). rewrite !list_lookup_imap.
    destruct (m !! j) as [d|]; [|done]. cbn. by rewrite (Estep d).
  - destruct (decide (j = k)) as [->|Hne].
    + rewrite list_lookup_insert_eq by (rewrite length_imap; by eapply lookup_lt_Some). rewrite Hk. cbn. rewrite <- (Estep b) by done.
      by rewrite bool_decide_eq_true_2.
    + rewrite list_lookup_insert_ne, list_lookup_imap by done. destruct (m !! j) as [d|]; [|done]. cbn. rewrite <- (Estep d) by done.
      by rewrite bool_decide_eq_false_2.
Qed.

(** What a round does to the memory. *)
Lemma releaseOldEntries_spec m : wf m -> fst (releaseOldEntries e m) = imap (aged m (length m)) m.
Proof.
  intros Hm. unfold releaseOldEntries. set (body := λ (k : nat) (st : memory * Z), _).
  destruct (for_entries_ind (λ n st, fst st = imap (aged m n) m) ID body (m, 0)) as (n & HP & Hrest).
  - cbn. symmetry. apply list_eq. intros j. rewrite list_lookup_imap. destruct (m !! j) as [b|]; [|done]. cbn. unfold aged.
    rewrite andb_false_r. destruct (is_ndp b); [|done]. rewrite bool_decide_eq_false_2 by lia. done.
  - intros n k [m' c] Em Hnk Hid Hbefore. cbn [fst] in *. subst m'.
    assert (Hskip := no_entries m n (λ j, j < k)%nat ltac:(intros; by apply Hbefore)).
    apply id_is_ndp in Hid as (b' & Hk' & En). pose proof Hk' as Hk. rewrite list_lookup_imap in Hk. apply fmap_Some in Hk as (b & Hk & ->).
    rewrite (aged_later m n k b Hnk Hk) in En. assert (Eb : aged m n k b = b) by (unfold aged; rewrite En, bool_decide_eq_false_2 by lia; done).
    rewrite Eb in Hk'. pose proof (release_step m n k b Hm Hk En Hnk ltac:(intros i d [H1 H2]; by apply Hskip)) as Estep.
    assert (Hl : length (imap (aged m (S k)) m) = length (imap (aged m n) m)) by (by rewrite !length_imap).
    unfold body. rewrite (list_lookup_total_correct _ _ _ Hk'). unfold old, age in Estep. rewrite En in Estep. cbn [andb] in Estep.
    destruct (expire_value b <? NDPCACHE_EXPIRE_RATE_PER_MINUTE) eqn:Ev; [by rewrite Estep|].
    unfold old in Estep. rewrite En, Ev in Estep. cbn [andb] in Estep. destruct (expire_value b =? 255); cbn [negb fst].
    + rewrite list_insert_id in Estep by done. by rewrite <- Estep.
    + rewrite (at_entry_insert _ k _ b Hk'). by rewrite Estep.
  - rewrite HP in Hrest |- *. apply aged_all. intros i d Hi. by apply (no_entries m n (λ _, True)); auto.
Qed.

(** ** Many rounds *)

Definition rounds (n : nat) (m : memory) : memory := Nat.iter n (λ m, fst (releaseOldEntries e m)) m.
(** An entry that nothing refreshes is there for a round per six points of its age. *)
Definition lives (n : nat) (b : bytes) : bool :=
  (expire_value b =? 255) || (NDPCACHE_EXPIRE_RATE_PER_MINUTE * Z.of_nat n <=? expire_value b).
Definition router_dead (n : nat) (m : memory) (c : bytes) : bool :=
  existsb (λ k, match m !! k with
    | Some b => is_ndp b && negb (lives n b) && isRouter e b && (AddressEntry.routerEntryPosition c =? Z.of_nat k)
    | None => false end) (seq 0 (length m)).

(** The age after [n] rounds. *)
Definition aged_value (n : nat) (v : Z) : Z :=
  v - (if (v =? 255) || Nat.eqb n 0 then 0 else NDPCACHE_EXPIRE_RATE_PER_MINUTE * Z.of_nat n - (if Z.even v then 1 else 0)).

Record kept (b b' : bytes) : Prop := {
  kp_id : Entry.id b' = Entry.id b; kp_addr : Entry.ipv6 b' = Entry.ipv6 b; kp_hw : hw b' = hw b; kp_state : state b' = state b;
  kp_router : router_state b' = router_state b }.
Record after_rounds (n : nat) (m : memory) (b b' : bytes) : Prop := {
  ar_lives : is_ndp b = true -> lives n b = true -> kept b b'
    ∧ expire_value b' = aged_value n (expire_value b);
  ar_gone : is_ndp b = true -> lives n b = false -> is_ndp b' = false ∧ is_address b' = false;
  ar_address : is_address b = true -> b' = if router_dead n m b then freed b else b;
  ar_other : is_ndp b = false -> is_address b = false -> b' = b }.

Lemma lor_one x : 0 <= x -> Z.lor x 1 = x + (if Z.even x then 1 else 0).
Proof.
  intros Hx. assert (E2 : forall y, Z.lor (Z.shiftl y 1) 1 = y * 2 + 1) by (intros y; apply (lor_shiftl_add y 1 1); lia).
  destruct (Z.even x) eqn:E.
  - apply Z.even_spec in E as [y ->]. replace (2 * y) with (y * 2) by lia. rewrite <- (E2 y). by rewrite Z.shiftl_mul_pow2 by lia.
  - rewrite <- Z.negb_odd in E. apply negb_false_iff, Z.odd_spec in E as [y ->].
    replace (2 * y + 1) with (y * 2 + 1) by lia. rewrite <- (E2 y). by rewrite <- Z.lor_assoc, Z.add_0_r.
Qed.

Lemma aged_value_step n v : is_u8 v -> v ≠ 255 -> 6 * Z.of_nat n <= v ->
  (aged_value n v <? 6) = negb (6 * Z.of_nat (S n) <=? v) ∧ (6 * Z.of_nat (S n) <= v ->
    Z.lor (aged_value n v - 6) 1 = aged_value (S n) v ∧ is_u8 (aged_value (S n) v) ∧ aged_value n v ≠ 255).
Proof.
  intros Hv Hne Hn. unfold aged_value. rewrite (proj2 (Z.eqb_neq v 255) Hne). cbn [orb]. change NDPCACHE_EXPIRE_RATE_PER_MINUTE with 6.
  replace (Nat.eqb (S n) 0) with false by done. pose proof (Zmod_even v) as Hpar. unfold is_u8 in *.
  destruct n as [|n]; cbn [Nat.eqb].
  - split; [destruct (Z.ltb_spec (v - 0) 6), (Z.leb_spec (6 * Z.of_nat 1) v); cbn [negb]; lia|]. intros H6.
    rewrite lor_one by lia. rewrite Z.sub_0_r, Z.even_sub. change (Z.even 6) with true.
    destruct (Z.even v); cbn [Bool.eqb]; lia.
  - destruct (Z.even v) eqn:Ev.
    + split; [destruct (Z.ltb_spec (v - (6 * Z.of_nat (S n) - 1)) 6), (Z.leb_spec (6 * Z.of_nat (S (S n))) v); cbn [negb]; zlia|]. intros H6.
      rewrite lor_one by lia. assert (E : Z.even (v - (6 * Z.of_nat (S n) - 1) - 6) = false).
      { rewrite !Z.even_sub, Z.even_mul, Ev. done. }
      rewrite E. lia.
    + split; [destruct (Z.ltb_spec (v - (6 * Z.of_nat (S n) - 0)) 6), (Z.leb_spec (6 * Z.of_nat (S (S n))) v); cbn [negb]; lia|]. intros H6.
      rewrite lor_one by lia. assert (E : Z.even (v - (6 * Z.of_nat (S n) - 0) - 6) = false).
      { rewrite !Z.even_sub, Z.even_mul, Ev. done. }
      rewrite E. lia.
Qed.

(** One entry, one more round. *)
Lemma age_step n b b' : (block_size <= length b')%nat -> is_u8 (expire_value b) -> is_ndp b = true -> lives n b = true ->
  kept b b' -> expire_value b' = aged_value n (expire_value b) ->
  if lives (S n) b then kept b (age b') ∧ expire_value (age b') = aged_value (S n) (expire_value b)
  else is_ndp (age b') = false ∧ is_address (age b') = false.
Proof.
  intros Hl Hv En Hn [K1 K2 K3 K4 K5] Ev. unfold lives in *. change NDPCACHE_EXPIRE_RATE_PER_MINUTE with 6 in *.
  assert (En' : is_ndp b' = true) by (unfold is_ndp in *; by rewrite K1). unfold age, old. rewrite En'. cbn [andb].
  destruct (Z.eqb_spec (expire_value b) 255) as [E|E]; cbn [orb] in *.
  - assert (H255 : expire_value b' = 255) by (rewrite Ev, E; done). rewrite H255. change (255 <? NDPCACHE_EXPIRE_RATE_PER_MINUTE) with false. change (255 =? 255) with true. cbv iota.
    split; [by split|]. rewrite H255, E. done.
  - apply Z.leb_le in Hn. destruct (aged_value_step n (expire_value b) Hv E Hn) as [Hold Hnext]. rewrite <- Ev in Hold.
    change NDPCACHE_EXPIRE_RATE_PER_MINUTE with 6. rewrite Hold. destruct (Z.leb_spec (6 * Z.of_nat (S n)) (expire_value b)) as [H6|H6]; cbn [negb].
    + destruct (Hnext H6) as (N1 & N2 & N3). rewrite Ev, (proj2 (Z.eqb_neq _ _) N3), N1.
      destruct (set_expire_keeps (aged_value (S n) (expire_value b)) b' Hl N2) as (S1 & S2 & S3 & S4 & S5 & S6).
      split; [|done]. split; congruence.
    + split; [apply is_ndp_freed|apply is_address_freed].
Qed.

Lemma kept_kind b b' : kept b b' -> is_ndp b = true -> is_ndp b' = true ∧ isRouter e b' = isRouter e b.
Proof. intros [K1 _ _ _ K5] H. unfold is_ndp, isRouter in *. by rewrite K1, K5. Qed.

Lemma aged_wf m n : wf m -> wf (imap (aged m n) m).
Proof.
  intros Hm. apply imap_wf; [done| |].
  - intros j b Hj. destruct (wf_block m j b Hm Hj) as [L1 L2]. rewrite aged_length. split; [done|].
    destruct (freed_keeps b) as [_ F]. unfold aged, age, set_expire_value. repeat case_match; auto.
    all: apply is_bytes_insert; [done|apply u8_range].
  - intros j b Hj. destruct (wf_block m j b Hm Hj) as [L1 L2]. unfold aged. destruct (is_ndp b) eqn:En.
    + intros _. split; [done|]. case_bool_decide; [|done]. unfold age. unfold old. destruct (is_ndp b && _) eqn:Eo.
      * unfold freed, Entry.ipv6, get_bytes. rewrite read_insert by lia. done.
      * destruct (_ =? 255); [done|]. set (v := Z.lor _ 1).
        destruct (set_expire_keeps (u8 v) b L1 (u8_range v)) as (_ & E & _). unfold set_expire_value in E |- *.
        by rewrite (u8_id (u8 v)) in E by apply u8_range.
    + destruct (_ && _); [by rewrite is_ndp_freed|by rewrite En].
Qed.

Lemma old_kept n b b' : is_u8 (expire_value b) -> is_ndp b' = true -> lives n b = true -> expire_value b' = aged_value n (expire_value b) ->
  old b' = negb (lives (S n) b).
Proof.
  intros Hv En' Hn Ev. unfold old, lives in *. rewrite En'. cbn [andb]. change NDPCACHE_EXPIRE_RATE_PER_MINUTE with 6 in *.
  destruct (Z.eqb_spec (expire_value b) 255) as [E|E]; cbn [orb] in *; [by rewrite Ev, E|].
  apply Z.leb_le in Hn. rewrite Ev. by apply aged_value_step.
Qed.

Lemma lives_mono n b : lives (S n) b = true -> lives n b = true.
Proof.
  unfold lives. change NDPCACHE_EXPIRE_RATE_PER_MINUTE with 6. destruct (_ =? 255); [done|]. cbn [orb]. rewrite !Z.leb_le. lia.
Qed.

(** The routers that die in a round are those that were alive and are not any more. *)
Lemma router_dead_step n m m' c : wf m -> length m' = length m ->
  (forall k b, m !! k = Some b -> exists b', m' !! k = Some b' ∧ after_rounds n m b b') -> router_dead n m c = false ->
  router_old m' (length m') c = router_dead (S n) m c.
Proof.
  intros Hm Hlen Hall Halive. unfold router_old, router_dead in *. rewrite Hlen. apply eq_true_iff_eq. rewrite !existsb_exists.
  split; intros (k & Hk & E); exists k; (split; [done|]); apply in_seq in Hk; destruct (lookup_lt_is_Some_2 m k ltac:(lia)) as [b Eb];
    destruct (Hall k b Eb) as (b' & Eb' & R); rewrite Eb in *; rewrite Eb' in *; destruct (wf_block m k b Hm Eb) as [_ Bb];
    assert (Hv : is_u8 (expire_value b)) by (by apply get8_range).
  - apply andb_true_iff in E as [E Epos]. apply andb_true_iff in E as [Eold Erouter].
    assert (En' : is_ndp b' = true) by (unfold old in Eold; by destruct (is_ndp b')).
    destruct (is_ndp b) eqn:En.
    + destruct (lives n b) eqn:Eln.
      * destruct (ar_lives _ _ _ _ R En Eln) as [K Ev]. destruct (kept_kind b b' K En) as [_ Er]. rewrite (old_kept n b b') in Eold by done.
        by rewrite Eold, <- Er, Erouter, Epos.
      * by destruct (ar_gone _ _ _ _ R En Eln) as [E0 _]; congruence.
    + destruct (is_address b) eqn:Ea.
      * exfalso. rewrite (ar_address _ _ _ _ R Ea) in En'. destruct (router_dead n m b); [by rewrite is_ndp_freed in En'|congruence].
      * exfalso. rewrite (ar_other _ _ _ _ R En Ea) in En'. congruence.
  - apply andb_true_iff in E as [E Epos]. apply andb_true_iff in E as [E Erouter]. apply andb_true_iff in E as [En Elives]. apply negb_true_iff in Elives.
    destruct (lives n b) eqn:Eln.
    + destruct (ar_lives _ _ _ _ R En Eln) as [K Ev]. destruct (kept_kind b b' K En) as [En' Er]. rewrite (old_kept n b b') by done.
      by rewrite Elives, Er, Erouter, Epos.
    + exfalso. rewrite <- not_true_iff_false, existsb_exists in Halive. apply Halive. exists k. split; [apply in_seq; lia|]. rewrite Eb.
      by rewrite En, Eln, Erouter, Epos.
Qed.

Lemma router_dead_mono n m c : router_dead n m c = true -> router_dead (S n) m c = true.
Proof.
  unfold router_dead. rewrite !existsb_exists. intros (k & Hk & E). exists k. split; [done|]. destruct (m !! k) as [b|]; [|done].
  destruct (is_ndp b), (isRouter e b); cbn [andb] in *; rewrite ?andb_false_r in *; try done. rewrite andb_true_r in *.
  destruct (lives n b) eqn:El; [done|]. destruct (lives (S n) b) eqn:El'; [|done]. apply lives_mono in El'. congruence.
Qed.

Lemma address_not_ndp b : is_address b = true -> is_ndp b = false.
Proof. intros H. destruct (is_ndp b) eqn:E; [|done]. by rewrite (kinds b E) in H. Qed.

Lemma rounds_spec n m : wf m -> wf (rounds n m) ∧ length (rounds n m) = length m
  ∧ forall j b, m !! j = Some b -> exists b', rounds n m !! j = Some b' ∧ after_rounds n m b b'.
Proof.
  intros Hm. induction n as [|n (Hw & Hlen & IH)].
  - split; [done|]. split; [done|]. intros j b Hj. exists b. split; [done|]. split; [| | |done].
    + intros _ _. split; [done|]. unfold aged_value. destruct (_ =? 255); cbn; lia.
    + intros _ Hl. pose proof (get8_range o_expire_value b (proj2 (wf_block m j b Hm Hj))) as Hr. unfold lives, expire_value, is_u8 in *.
      apply orb_false_iff in Hl as [_ Hl]. apply Z.leb_gt in Hl. lia.
    + intros _. assert (router_dead 0 m b = false) as ->; [|done]. apply not_true_iff_false. unfold router_dead. rewrite existsb_exists.
      intros (k & Hk & E). destruct (m !! k) as [r|] eqn:Er; [|done]. pose proof (get8_range o_expire_value r (proj2 (wf_block m k r Hm Er))) as Hr.
      apply andb_true_iff in E as [E _]. apply andb_true_iff in E as [E _]. apply andb_true_iff in E as [_ E]. apply negb_true_iff in E.
      unfold lives, expire_value, is_u8 in *. apply orb_false_iff in E as [_ E]. apply Z.leb_gt in E. lia.
  - set (m' := rounds n m) in *. change (rounds (S n) m) with (fst (releaseOldEntries e m')).
    rewrite (releaseOldEntries_spec m' Hw). split; [by apply aged_wf|]. split; [by rewrite length_imap|].
    intros j b Hj. destruct (IH j b Hj) as (b' & Hj' & R). exists (aged m' (length m') j b'). split; [by apply aged_lookup|].
    pose proof (lookup_lt_Some _ _ _ Hj') as Hlt. destruct (wf_block m j b Hm Hj) as [_ Bb]. destruct (wf_block m' j b' Hw Hj') as [Lb' _].
    assert (Hother : is_ndp b' = false -> is_address b' = false -> aged m' (length m') j b' = b') by (intros E1 E2; unfold aged; by rewrite E1, E2).
    assert (Hentry : is_ndp b' = true -> aged m' (length m') j b' = age b') by (intros E1; unfold aged; by rewrite E1, bool_decide_eq_true_2).
    assert (Hlife : is_ndp b = true -> if lives (S n) b then kept b (aged m' (length m') j b')
        ∧ expire_value (aged m' (length m') j b') = aged_value (S n) (expire_value b)
      else is_ndp (aged m' (length m') j b') = false ∧ is_address (aged m' (length m') j b') = false).
    { intros En. destruct (lives n b) eqn:El.
      - destruct (ar_lives _ _ _ _ R En El) as [K Ev]. rewrite Hentry by apply (kept_kind b b' K En). apply (age_step n); try done.
        by apply get8_range.
      - destruct (ar_gone _ _ _ _ R En El) as [E1 E2]. rewrite (Hother E1 E2). destruct (lives (S n) b) eqn:El'; [|done].
        apply lives_mono in El'. congruence. }
    split.
    + intros En El. specialize (Hlife En). by rewrite El in Hlife.
    + intros En El. specialize (Hlife En). by rewrite El in Hlife.
    + intros Ea. pose proof (ar_address _ _ _ _ R Ea) as Eb. pose proof (address_not_ndp b Ea) as En. destruct (router_dead n m b) eqn:Ed.
      * rewrite (router_dead_mono n m b Ed), Eb. subst b'. apply Hother; [apply is_ndp_freed|apply is_address_freed].
      * subst b'. rewrite <- (router_dead_step n m m' b Hm Hlen IH Ed). unfold aged. by rewrite En, Ea.
    + intros En Ea. pose proof (ar_other _ _ _ _ R En Ea) as Eb. subst b'. by apply Hother.
Qed.

(** C25: An entry of the neighbor cache that is not refreshed is there for as many rounds of [releaseOldEntries]
    as six fits into its age (four for a new entry), with its addresses and its state, and is gone
    afterwards (so an entry of age six survives one round, though the comment on the function says that it is killed); one of age 255 stays for ever.  An address made from a router's prefix
    goes with the router, all others stay. *)
Theorem unused_entry_expires (n : nat) (m : memory) : wf m ->
  wf (rounds n m)
  ∧ (forall a v, cache (rounds n m) !! a = Some v <->
       exists k b, m !! k = Some b ∧ is_ndp b = true ∧ Entry.ipv6 b = a ∧ v = (hw b, state b) ∧ lives n b = true)
  ∧ forall j b, m !! j = Some b -> is_address b = true -> rounds n m !! j = Some (if router_dead n m b then freed b else b).
Proof.
  intros Hm. destruct (rounds_spec n m Hm) as (Hw & Hlen & Hall). split; [done|]. split.
  - intros a v. rewrite cache_lookup by done. split.
    + intros (k & b' & Hk' & En' & Ea & Ev). pose proof (lookup_lt_Some _ _ _ Hk') as Hlt. rewrite Hlen in Hlt.
      destruct (lookup_lt_is_Some_2 m k Hlt) as [b Hk]. destruct (Hall k b Hk) as (b2 & Hk2 & R). simplify_eq. exists k, b.
      destruct (is_ndp b) eqn:En.
      * destruct (lives n b) eqn:El.
        -- destruct (ar_lives _ _ _ _ R En El) as [[K1 K2 K3 K4 K5] _]. split_and!; try done; congruence.
        -- destruct (ar_gone _ _ _ _ R En El) as [E _]. congruence.
      * exfalso. destruct (is_address b) eqn:Eadr.
        -- rewrite (ar_address _ _ _ _ R Eadr) in En'. destruct (router_dead n m b); [by rewrite is_ndp_freed in En'|congruence].
        -- rewrite (ar_other _ _ _ _ R En Eadr) in En'. congruence.
    + intros (k & b & Hk & En & Ea & Ev & El). destruct (Hall k b Hk) as (b' & Hk' & R).
      destruct (ar_lives _ _ _ _ R En El) as [K _]. exists k, b'. destruct (kept_kind b b' K En) as [En' _]. destruct K as [K1 K2 K3 K4 K5].
      split_and!; try done; congruence.
  - intros j b Hj Ea. destruct (Hall j b Hj) as (b' & Hj' & R). by rewrite Hj', (ar_address _ _ _ _ R Ea).
Qed.
End Cache.

(** ** Lifetimes of addresses *)

Section Lifetimes.
Import PrefixExpire.
Context (e : endian) {L : Layout} {LOk : LayoutOk L}.

(** One entry in one round. *)
Definition refreshed (b : bytes) : bytes :=
  if valid_time_minutes e b =? NoTimeExpire then b
  else if valid_time_minutes e b <=? IPV6_REFRESH_IN_MINUTES then freed b
  else
    let b' := set_valid_time_minutes e (valid_time_minutes e b - IPV6_REFRESH_IN_MINUTES) b in
    if preferred_time_minutes e b' <=? IPV6_REFRESH_IN_MINUTES then set_preferred_time_minutes e 0 b'
    else set_preferred_time_minutes e (preferred_time_minutes e b' - IPV6_REFRESH_IN_MINUTES) b'.

Lemma refreshIPv6Addresses_spec m : refreshIPv6Addresses e m = (λ b, if is_address b then refreshed b else b) <$> m.
Proof.
  apply for_each_local. intros k b m' Hk. rewrite (list_lookup_total_correct _ _ _ Hk). unfold refreshed, freeEntry, NDPCache.at_entry.
  destruct (_ =? NoTimeExpire); [symmetry; by apply list_insert_id|]. destruct (_ <=? _); [by apply alter_insert|].
  cbv zeta. destruct (_ <=? _); by rewrite (alter_insert _ k b m' Hk).
Qed.

(** How long an address lasts: [n] rounds leave it these times. *)
Definition lasts (n : nat) (b : bytes) : bool :=
  (valid_time_minutes e b =? NoTimeExpire) || Nat.eqb n 0 || (IPV6_REFRESH_IN_MINUTES * Z.of_nat n <? valid_time_minutes e b).
Record times_left (n : nat) (b b' : bytes) : Prop := {
  tl_length : length b' = length b; tl_bytes : is_bytes b';
  tl_rest : forall i, (i < 21)%nat -> get8 i b' = get8 i b;
  tl_valid : valid_time_minutes e b' = if valid_time_minutes e b =? NoTimeExpire then NoTimeExpire
             else valid_time_minutes e b - IPV6_REFRESH_IN_MINUTES * Z.of_nat n;
  tl_preferred : preferred_time_minutes e b' = if valid_time_minutes e b =? NoTimeExpire then preferred_time_minutes e b
             else Z.max 0 (preferred_time_minutes e b - IPV6_REFRESH_IN_MINUTES * Z.of_nat n) }.

Lemma set_times v p b : (block_size <= length b)%nat -> is_bytes b -> is_u32 v -> is_u32 p ->
  let b' := set_preferred_time_minutes e p (set_valid_time_minutes e v b) in
  length b' = length b ∧ is_bytes b' ∧ (forall i, (i < 21)%nat -> get8 i b' = get8 i b)
  ∧ valid_time_minutes e b' = v ∧ preferred_time_minutes e b' = p
  ∧ preferred_time_minutes e (set_valid_time_minutes e v b) = preferred_time_minutes e b.
Proof.
  intros Hb Bb Hv Hp b'. pose proof valid_behind as V. pose proof preferred_behind as P. pose proof times_disjoint as D.
  unfold b', valid_time_minutes, preferred_time_minutes, set_valid_time_minutes, set_preferred_time_minutes in *. split_and!.
  - by rewrite !length_setf.
  - auto with width.
  - intros i Hi. unfold setf. rewrite !get8_write_out by (cbn; lia). done.
  - rewrite getf_setf_ne by (cbn; lia). apply getf_setf_eq; [cbn; lia|done].
  - apply getf_setf_eq; [rewrite length_setf; cbn; lia|done].
  - apply getf_setf_ne. cbn. lia.
Qed.

Lemma times_range b : is_bytes b -> is_u32 (valid_time_minutes e b) ∧ is_u32 (preferred_time_minutes e b).
Proof. intros Hb. split; apply (getf_range e (Field _ H32) b Hb). Qed.

Lemma refreshed_step n b b' : (block_size <= length b)%nat -> is_bytes b -> lasts n b = true -> times_left n b b' ->
  if lasts (S n) b then times_left (S n) b (refreshed b') else refreshed b' = freed b'.
Proof.
  intros Hb Bb Hn [T1 T2 T3 T4 T5]. destruct (times_range b Bb) as [Rv Rp]. destruct (times_range b' T2) as [Rv' Rp'].
  unfold lasts, refreshed in *. change IPV6_REFRESH_IN_MINUTES with 3 in *.
  destruct (Z.eqb_spec (valid_time_minutes e b) NoTimeExpire) as [E|E]; cbn [orb] in *.
  - rewrite T4, Z.eqb_refl. split; try done; rewrite (proj2 (Z.eqb_eq _ _) E); done.
  - assert (Hv : valid_time_minutes e b' ≠ NoTimeExpire) by (rewrite T4; unfold NoTimeExpire, is_u32 in *; lia).
    rewrite (proj2 (Z.eqb_neq _ _) Hv). change (Nat.eqb (S n) 0) with false. cbn [orb].
    destruct (Z.ltb_spec (3 * Z.of_nat (S n)) (valid_time_minutes e b)) as [H3|H3], (Z.leb_spec (valid_time_minutes e b') 3) as [H4|H4]; try lia.
    + cbv zeta. destruct (set_times (valid_time_minutes e b' - 3) 0 b' ltac:(lia) T2 ltac:(unfold is_u32 in *; lia) ltac:(unfold is_u32; lia))
        as (_ & _ & _ & _ & _ & Epref). rewrite Epref.
      set (p := if preferred_time_minutes e b' <=? 3 then 0 else preferred_time_minutes e b' - 3).
      assert (Hp : is_u32 p ∧ p = Z.max 0 (preferred_time_minutes e b' - 3))
        by (unfold p; destruct (Z.leb_spec (preferred_time_minutes e b') 3); unfold is_u32 in *; lia).
      replace (if preferred_time_minutes e b' <=? 3 then set_preferred_time_minutes e 0 _ else _)
        with (set_preferred_time_minutes e p (set_valid_time_minutes e (valid_time_minutes e b' - 3) b')) by (unfold p; by destruct (_ <=? 3)).
      destruct (set_times (valid_time_minutes e b' - 3) p b' ltac:(lia) T2 ltac:(unfold is_u32 in *; lia) ltac:(apply Hp)) as (S1 & S2 & S3 & S4 & S5 & _).
      split; [lia|done|intros i Hi; by rewrite S3, T3| |]; rewrite (proj2 (Z.eqb_neq _ _) E); change IPV6_REFRESH_IN_MINUTES with 3.
      * rewrite S4, T4. lia.
      * rewrite S5, (proj2 Hp), T5. lia.
    + done.
Qed.

(** C26: An address lasts as long as its valid lifetime, in steps of three minutes, and for ever when it
    has none; meanwhile its lifetimes count down, the preferred one to zero, and nothing else of it changes, so that
    it serves as a route for the same destinations as before, even when its preferred lifetime is over.
    What is not an address stays. *)
Theorem address_lifetime (n : nat) (m : memory) : Forall (λ b, block_size <= length b ∧ is_bytes b)%nat m ->
  forall j b, m !! j = Some b -> exists b', Nat.iter n (refreshIPv6Addresses e) m !! j = Some b'
    ∧ if is_address b then
        if lasts n b then times_left n b b' ∧ forall dst, Routing6.ipv6_find_route_is_matching dst b' =
            Routing6.ipv6_find_route_is_matching dst b
        else is_address b' = false ∧ Entry.id b' = 0
      else b' = b.
Proof.
  intros Hm j b Hj. destruct (Forall_lookup_1 _ _ _ _ Hm Hj) as [Lb Bb].
  assert (H : exists b', Nat.iter n (refreshIPv6Addresses e) m !! j = Some b'
    ∧ if is_address b then if lasts n b then times_left n b b' else is_address b' = false ∧ Entry.id b' = 0 else b' = b).
  { induction n as [|n (b' & Hj' & IH)].
    - exists b. split; [done|]. destruct (is_address b); [|done]. unfold lasts. rewrite orb_true_r. split; try done.
      + destruct (Z.eqb_spec (valid_time_minutes e b) NoTimeExpire); lia.
      + destruct (times_range b Bb) as [_ Rp]. unfold is_u32 in Rp. destruct (_ =? _); lia.
    - change (Nat.iter (S n) (refreshIPv6Addresses e) m) with (refreshIPv6Addresses e (Nat.iter n (refreshIPv6Addresses e) m)).
      rewrite refreshIPv6Addresses_spec, list_lookup_fmap, Hj'. cbn. eexists. split; [done|].
      destruct (is_address b) eqn:Ea; [|subst b'; by rewrite Ea]. destruct (lasts n b) eqn:El.
      + assert (Ea' : is_address b' = true) by (unfold is_address, Entry.id in *; by rewrite (tl_rest _ _ _ IH) by lia). rewrite Ea'.
        pose proof (refreshed_step n b b' Lb Bb El IH) as Hs. destruct (lasts (S n) b); [done|]. rewrite Hs. split; [apply is_address_freed|].
        apply id_freed. intros ->. by pose proof (tl_length _ _ _ IH) as E; destruct b.
      + destruct IH as [E1 E2]. rewrite E1. assert (lasts (S n) b = false) as ->; [|done]. unfold lasts in *. change IPV6_REFRESH_IN_MINUTES with 3 in *.
        destruct (_ =? NoTimeExpire); [done|]. cbn [orb] in *. apply orb_false_iff in El as [_ El]. apply Z.ltb_ge in El.
        change (Nat.eqb (S n) 0) with false. apply Z.ltb_ge. lia. }
  destruct H as (b' & Hj' & H). exists b'. split; [done|]. destruct (is_address b) eqn:Ea; [|done]. destruct (lasts n b); [|done]. split; [done|].
  intros dst.
  unfold Routing6.ipv6_find_route_is_matching, Entry.ipv6, AddressEntry.prefixlen. rewrite (tl_rest _ _ _ H) by lia. f_equal.
  unfold get_bytes. apply list_eq. intros i. destruct (decide (i < 16)%nat) as [Hi|Hi]; [|by rewrite !lookup_take_ge by lia].
  rewrite !lookup_take_lt, !lookup_drop by done. pose proof (tl_rest _ _ _ H (1 + i) ltac:(lia)) as E. unfold get8 in E. rewrite !nth_lookup in E.
  pose proof (tl_length _ _ _ H) as El. pose proof valid_behind. destruct (lookup_lt_is_Some_2 b (1 + i) ltac:(lia)) as [x Ex], (lookup_lt_is_Some_2 b' (1 + i) ltac:(lia)) as [y Ey].
  rewrite Ex, Ey in *. cbn in E. by subst.
Qed.
End Lifetimes.

(** ** Examples *)

Section Examples.
Import NDPEntry NDPCacheEntry NDPCache.

(** Every member behind the last one. *)
#[local] Instance packed : Layout :=
  {| o_hw := 19; o_expire_value := 25; o_valid_time_minutes := 21; o_preferred_time_minutes := 25; block_size := 29 |}.
#[local] Instance packed_ok : LayoutOk packed.
Proof. split; cbn; lia. Qed.

(** A router of age 24 with its hardware address, an address made from its prefix for ten minutes,
    and a free block. *)
Definition router_addr : bytes := 0xfe :: 0x80 :: replicate 13 0 ++ [1].
Definition neighbor_addr : bytes := 0xfe :: 0x80 :: replicate 13 0 ++ [2].
Definition router_block : bytes := ID :: router_addr ++ [4; 1] ++ [2; 0; 0; 0; 0; 9] ++ [24] ++ replicate 3 0.
Definition address_block : bytes := AddressEntry.ID :: neighbor_addr ++ [64; 1; 0; 0] ++ [10; 0; 0; 0] ++ [5; 0; 0; 0].
Definition memory_example : memory := [router_block; address_block; replicate 29 0].

Lemma blocks_example : Forall (λ b, block_size <= length b ∧ is_bytes b)%nat memory_example.
Proof. apply (bool_decide_unpack _). by vm_compute. Qed.
Lemma wf_example : wf memory_example.
Proof.
  split; [exact blocks_example|cbn; lia|].
  assert (H : forall j b, memory_example !! j = Some b -> is_ndp b = true -> j = 0%nat).
  { intros [|[|[|j]]] b E; try done; injection E as <-; done. }
  intros j k b c Hj Hk Nb Nc _. by rewrite (H j b), (H k c).
Qed.

Lemma ndp_cache_refines_map_witness :
  cache (snd (addNDPCacheEntry LE true neighbor_addr (Some [2; 0; 0; 0; 0; 7]) NDPCacheEntryState_Stale memory_example)) !! neighbor_addr
    = Some ([2; 0; 0; 0; 0; 7], 1)
  ∧ cache (freeNDPCacheEntry LE 0 memory_example) = delete router_addr (cache memory_example).
Proof.
  destruct (ndp_cache_refines_map LE true memory_example neighbor_addr (Some [2; 0; 0; 0; 0; 7]) NDPCacheEntryState_Stale wf_example)
    as (_ & Hadd & Hfree).
  - split; [done| |]; [by apply (bool_decide_unpack _); vm_compute|intros x [= <-]]. split; [done|]. by apply (bool_decide_unpack _); vm_compute.
  - split.
    + revert Hadd. replace (cache memory_example !! neighbor_addr) with (@None (bytes * Z)) by (by vm_compute).
      replace (addNDPCacheEntry LE true neighbor_addr (Some [2; 0; 0; 0; 0; 7]) NDPCacheEntryState_Stale memory_example)
        with (Some 2%nat, snd (addNDPCacheEntry LE true neighbor_addr (Some [2; 0; 0; 0; 0; 7]) NDPCacheEntryState_Stale memory_example)) by (by vm_compute).
      intros (_ & _ & hw' & c & Ec & Hhw & _). cbn [snd]. rewrite Ec, lookup_insert_eq. by rewrite (Hhw _ eq_refl).
    + by apply (Hfree 0%nat router_block).
Defined.

Lemma unused_entry_expires_witness :
  cache (rounds LE 4 memory_example) !! router_addr = Some ([2; 0; 0; 0; 0; 9], 4)
  ∧ rounds LE 5 memory_example !! 1%nat = Some (freed address_block).
Proof.
  split.
  - apply (proj1 (proj2 (unused_entry_expires LE 4 memory_example wf_example))). by exists 0%nat, router_block.
  - by apply (proj2 (proj2 (unused_entry_expires LE 5 memory_example wf_example)) 1%nat address_block).
Defined.

Lemma address_lifetime_witness : exists b', Nat.iter 3 (PrefixExpire.refreshIPv6Addresses LE) memory_example !! 1%nat = Some b'
  ∧ PrefixExpire.preferred_time_minutes LE b' = 0 ∧ Routing6.ipv6_find_route_is_matching (Entry.ipv6 address_block) b' = true.
Proof.
  destruct (address_lifetime LE 3 memory_example blocks_example 1 address_block eq_refl) as (b' & Hb & Ht & Hm).
  exists b'. split; [exact Hb|]. split; [by rewrite (tl_preferred _ _ _ _ Ht)|]. rewrite Hm. by vm_compute.
Defined.

(** A new entry is there for four rounds, not two as the comment says. *)
Example new_entry_rounds : map (λ n, bool_decide (is_Some (ndpcache_find router_addr (rounds LE n memory_example)))) (seq 0 6)
  = [true; true; true; true; true; false].
Proof. by vm_compute. Qed.

(** The address of a frame that arrives while its sender is looked up is not stored: the entry is
    reachable, at the hardware address its block happened to hold. *)
Example reachable_without_address :
  let m := snd (addNDPCacheEntry LE false neighbor_addr None NDPCacheEntryState_Incomplete memory_example) in
  cache (snd (addNDPCacheEntry LE false neighbor_addr (Some [2; 0; 0; 0; 0; 7]) NDPCacheEntryState_Reachable m)) !! neighbor_addr
  = Some (replicate 6 0, 4).
Proof. by vm_compute. Qed.

(** The importance is or-ed, so a lower one can raise the age; using a fixed entry makes it the next to go. *)
Example importance_is_or :
  expire_value (update_NDPCacheEntry_importance IMPORTANCE_good_to_know router_block) = 58
  ∧ expire_value (ipv6_useentry LE (update_NDPCacheEntry_importance IMPORTANCE_always_keep router_block)) = 4.
Proof. by vm_compute. Qed.
End Examples.
