(* ===== verification/MulticastGroups.v ===== *)
(** * MulticastGroups: the groups an interface listens to

    Models the groups of an interface ([ipv6/multicast/Interface_Multicast_Slice.ah],
    entries of its address memory), the advice of [ipv6/multicast/IPv6_Multicast.ah]
    on the interface, the link-local address it gives itself
    ([ipv6/IPv6_addlinklocalIP.ah]) and the interface identifier made of its hardware
    address ([ipv6/IPv6AddressSuffixEthernet.ah]).  The advice on
    [AddressMemory::freeEntry] asks for an [Interface] as [that], which an address memory is
    not: it is never woven.  What multicast listener discovery sends when a group is joined
    is not part of this file. *)

From stdpp Require Import gmap.
From S2P Require Import Prelude Wire Packet Addresses Headers Ipv6.
Import AddressMemory.

Open Scope Z_scope.

Module Multicast.

(** ** The interface identifier *)

(** [SET_BIT] and [CLR_BIT] of a byte. *)
Definition SET_BIT (p n : Z) : Z := u8 (Z.lor p (Z.shiftl 1 n)).
Definition CLR_BIT (p n : Z) : Z := u8 (Z.land p (Z.lnot (Z.shiftl 1 n))).
Definition addInterfaceIdentifierToIPv6Address (ethAddr : bytes) (address : bytes) : bytes :=
  take 8 address ++
  [SET_BIT (CLR_BIT (get8 0 ethAddr) 0) 1; get8 1 ethAddr; get8 2 ethAddr; 0xFF; 0xFE; get8 3 ethAddr; get8 4 ethAddr; get8 5 ethAddr].

(** ** Groups *)

Definition is_solicitedNode_multicast_addr (multicast_addr : bytes) (m : memory) : bool :=
  if (IPv6.B8 multicast_addr 0 =? 0xff) && (IPv6.B8 multicast_addr 1 =? 0x02) then
    bool_decide (is_Some (first_entry m AddressEntry.ID (λ b,
      let ip := Entry.ipv6 b in
      (IPv6.B8 ip 13 =? IPv6.B8 multicast_addr 13) && (IPv6.B8 ip 14 =? IPv6.B8 multicast_addr 14)
      && (IPv6.B8 ip 15 =? IPv6.B8 multicast_addr 15))))
  else false.

Definition find_group (multicast_addr : bytes) (m : memory) : option nat :=
  first_entry m MulticastGroupEntry.ID (λ b, IPv6.same_ipv6_addr (Entry.ipv6 b) multicast_addr).
Definition multicast_addr_joined (multicast_addr : bytes) (m : memory) : bool :=
  bool_decide (is_Some (find_group multicast_addr m)).

Definition leave_multicastGroup (multicast_addr : bytes) (m : memory) : memory :=
  match find_group multicast_addr m with Some k => freeEntry k m | None => m end.

(** The entry of a group; its state is reserved. *)
Definition group_entry (multicast_addr b : bytes) : bytes :=
  <[17%nat := 0]> (Entry.set_ipv6 multicast_addr (MulticastGroupEntry.reserve b)).
Definition join_multicastGroup (multicast_addr : bytes) (m : memory) : bool * memory :=
  if multicast_addr_joined multicast_addr m then (false, m)
  else match findEntry m 0 0 with
       | None => (false, m)
       | Some (k, _) => (true, alter (group_entry multicast_addr) k m)
       end.
(** The address of a solicited node is not stored: [is_solicitedNode_multicast_addr] finds it. *)
Definition join_multicastGroup_solicitedNode (multicast_addr : bytes) (m : memory) : bool * memory := (true, m).
Definition join_solicitedNode_multicastGroup (ip_addr : bytes) (m : memory) : memory :=
  snd (join_multicastGroup_solicitedNode (IPv6.solicitedNode_multicast_addr ip_addr) m).
Definition leave_solicitedNode_multicastGroup (ip_addr : bytes) (m : memory) : memory :=
  leave_multicastGroup (IPv6.solicitedNode_multicast_addr ip_addr) m.

Definition linkLocal_group (last : Z) : bytes := [0xff; 0x02; 0; 0; 0; 0; 0; 0; 0; 0; 0; 0; 0; 0; 0; last].
Definition allNodes : bytes := linkLocal_group 0x01.
Definition allRouters : bytes := linkLocal_group 0x02.
Definition join_linkLocal_allRouters_multicastGroup (m : memory) : memory := snd (join_multicastGroup allRouters m).
Definition join_linkLocal_allNodes_multicastGroup (m : memory) : memory := snd (join_multicastGroup allNodes m).
Definition leave_linkLocal_allRouters_multicastGroup : memory -> memory := leave_multicastGroup allRouters.
Definition leave_linkLocal_allNodes_multicastGroup : memory -> memory := leave_multicastGroup allNodes.

(** ** The interface with the advice *)

Section Interface.
(** The hardware address, and what the uninitialised half of a local variable holds. *)
Context (e : endian) (ethAddr junk : bytes).

Definition isMulticast (addr : bytes) : bool := bool_decide (IPv6.getIPv6AddressScope addr = IPv6.IPV6_SCOPE_MULTICAST).
Definition hasIPv6Address (i : Interface6) (addr : bytes) : bool :=
  if isMulticast addr then
    multicast_addr_joined addr (addressmemory i) || is_solicitedNode_multicast_addr addr (addressmemory i)
  else Interfaces.hasIPv6Address i addr.

(** The advice after the registration of an address, which joins the group of its solicited node. *)
Definition register_advice (ip : bytes) (m : memory) : memory :=
  let scope := IPv6.getIPv6AddressScope ip in
  if bool_decide (scope = IPv6.IPV6_SCOPE_GLOBAL_UNICAST) || bool_decide (scope = IPv6.IPV6_SCOPE_UNIQUE_LOCAL_UNICAST)
     || bool_decide (scope = IPv6.IPV6_SCOPE_LINKLOCAL)
  then join_solicitedNode_multicastGroup ip m else m.

Definition makeIPv6AddressByPrefix (prefix : bytes) (prefixlen ipstate routerEntryPosition : Z) (i : Interface6)
    : option nat * Interface6 :=
  let '(k, i) := Interfaces.makeIPv6AddressByPrefix e (addInterfaceIdentifierToIPv6Address ethAddr)
    prefix prefixlen ipstate routerEntryPosition i in
  (k, match k with
      | Some k => i <| addressmemory := register_advice (Entry.ipv6 (addressmemory i !!! k)) (addressmemory i) |>
      | None => i
      end).

(** [IPv6_add_link_local_address], around [proceed]. *)
Definition link_local_advice (proceed : Interface6 -> Interface6) (up : bool) (i : Interface6) : Interface6 :=
  if negb up then proceed i
  else
    match Interfaces.getInterfaceIPv6AddressByScope i IPv6.IPV6_SCOPE_LINKLOCAL with
    | Some _ => proceed i
    | None =>
        let prefix := [0xfe; 0x80; 0; 0; 0; 0; 0; 0] ++ junk in
        proceed (snd (makeIPv6AddressByPrefix prefix 64 AddressEntry.AddressEntryStateTemporary EntryUndefined i))
    end.
(** [IPv6_Multicast_aspect], the outer one. *)
Definition multicast_advice (proceed : Interface6 -> Interface6) (up : bool) (i : Interface6) : Interface6 :=
  let on_memory f (i : Interface6) := i <| addressmemory := f (addressmemory i) |> in
  proceed
    (if up then on_memory join_linkLocal_allNodes_multicastGroup (on_memory join_linkLocal_allRouters_multicastGroup i)
     else on_memory leave_linkLocal_allNodes_multicastGroup (on_memory leave_linkLocal_allRouters_multicastGroup i)).
Definition setIPv6Up (up : bool) : Interface6 -> Interface6 :=
  multicast_advice (link_local_advice (Interfaces.setIPv6Up up) up) up.
End Interface.
End Multicast.

(** ** The groups as a set *)

Section Groups.
Import Multicast.

(** The address of a group's entry. *)
Definition group_of (b : bytes) : option bytes := if Entry.id b =? MulticastGroupEntry.ID then Some (Entry.ipv6 b) else None.
Definition groups (m : memory) : gset bytes := list_to_set (omap group_of m).

(** Every block is large enough for an entry, and no group has two entries. *)
Record wf (m : memory) : Prop := {
  wf_blocks : Forall (λ b, AddressEntry.sizeof <= length b)%nat m;
  wf_distinct : forall j k b c a, m !! j = Some b -> m !! k = Some c -> group_of b = Some a -> group_of c = Some a -> j = k }.

Lemma wf_length m k b : wf m -> m !! k = Some b -> (21 <= length b)%nat.
Proof. intros H Hk. exact (Forall_lookup_1 _ _ _ _ (wf_blocks m H) Hk). Qed.

Lemma elem_groups a m : a ∈ groups m <-> exists k b, m !! k = Some b ∧ group_of b = Some a.
Proof.
  unfold groups. rewrite elem_of_list_to_set, list_elem_of_omap. split.
  - intros (b & Hb & E). apply list_elem_of_lookup in Hb as [k Hk]. by exists k, b.
  - intros (k & b & Hk & E). exists b. split; [|done]. by eapply list_elem_of_lookup_2.
Qed.

Lemma group_at m k a : id_at m k = Some MulticastGroupEntry.ID ∧ Entry.ipv6 (m !!! k) = a
  <-> exists b, m !! k = Some b ∧ group_of b = Some a.
Proof.
  unfold id_at, group_of. split.
  - intros [H <-]. destruct (m !! k) as [b|] eqn:E; [|done]. exists b. split; [done|]. cbn in H. injection H as ->.
    by rewrite (list_lookup_total_correct _ _ _ E).
  - intros (b & E & H). rewrite E, (list_lookup_total_correct _ _ _ E). cbn. destruct (Z.eqb_spec (Entry.id b) MulticastGroupEntry.ID) as [Ei|]; [|done].
    rewrite Ei. injection H as <-. done.
Qed.

Lemma same_group a b : length a = 16%nat -> IPv6.same_ipv6_addr (Entry.ipv6 b) a = bool_decide (Entry.ipv6 b = a).
Proof. intros Ha. unfold IPv6.same_ipv6_addr, Entry.ipv6, get_bytes. rewrite (take_ge a) by lia. by rewrite take_take. Qed.

Lemma find_group_spec a m : length a = 16%nat ->
  match find_group a m with
  | Some k => exists b, m !! k = Some b ∧ group_of b = Some a
  | None => a ∉ groups m
  end.
Proof.
  intros Ha. unfold find_group. pose proof (first_entry_spec m MulticastGroupEntry.ID (λ b, IPv6.same_ipv6_addr (Entry.ipv6 b) a)) as H.
  destruct (first_entry _ _ _) as [k|]; cbv beta in H.
  - destruct H as (Hid & Ht & _). cbv beta in Ht. rewrite same_group, bool_decide_eq_true in Ht by done. by apply group_at.
  - rewrite elem_groups. intros (k & b & Hk & E). assert (Hg := proj2 (group_at m k a) (ex_intro _ b (conj Hk E))).
    destruct Hg as [Hid Hi]. specialize (H k Hid). cbv beta in H. rewrite same_group, bool_decide_eq_false in H by done. done.
Qed.

Lemma joined_spec a m : length a = 16%nat -> multicast_addr_joined a m = bool_decide (a ∈ groups m).
Proof.
  intros Ha. unfold multicast_addr_joined. apply bool_decide_ext. pose proof (find_group_spec a m Ha) as H.
  destruct (find_group a m) as [k|].
  - split; [|by eexists]. intros _. apply elem_groups. exists k. exact H.
  - split; [by intros []|done].
Qed.

(** Writing a block: what becomes of the set. *)
Lemma groups_insert m k b b' : m !! k = Some b -> wf m -> (21 <= length b')%nat ->
  (forall a, group_of b' = Some a -> group_of b = Some a ∨ a ∉ groups m) ->
  wf (<[k := b']> m)
  ∧ groups (<[k := b']> m) = (match group_of b' with Some a => {[a]} | None => ∅ end)
      ∪ (groups m ∖ match group_of b with Some a => {[a]} | None => ∅ end).
Proof.
  intros Hk Hm Hl Hnew. pose proof (lookup_lt_Some _ _ _ Hk) as Hlt.
  assert (Hother : forall j c, j ≠ k -> <[k := b']> m !! j = Some c -> m !! j = Some c) by (intros; by rewrite list_lookup_insert_ne in *).
  split.
  - split.
    + apply Forall_insert; [apply Hm|done].
    + intros i j x y a Hx Hy Ex Ey. destruct (decide (i = k)) as [->|Hi], (decide (j = k)) as [->|Hj]; [done|..].
      * rewrite list_lookup_insert_eq in Hx by done. injection Hx as <-. apply Hother in Hy; [|done].
        destruct (Hnew a Ex) as [E|E]; [by apply (wf_distinct m Hm k j b y a)|]. destruct E. apply elem_groups. eauto.
      * rewrite list_lookup_insert_eq in Hy by done. injection Hy as <-. apply Hother in Hx; [|done].
        destruct (Hnew a Ey) as [E|E]; [by apply (wf_distinct m Hm i k x b a)|]. destruct E. apply elem_groups. eauto.
      * apply (wf_distinct m Hm i j x y a); auto.
  - apply set_eq. intros a. rewrite elem_of_union, elem_of_difference, !elem_groups. split.
    + intros (j & c & Hj & E). destruct (decide (j = k)) as [->|Hne].
      * rewrite list_lookup_insert_eq in Hj by done. injection Hj as <-. left. rewrite E. set_solver.
      * right. apply Hother in Hj; [|done]. split; [eauto|]. destruct (group_of b) as [a'|] eqn:Eb; [|set_solver].
        intros ->%elem_of_singleton. by apply Hne, (wf_distinct m Hm j k c b a').
    + intros [H|[(j & c & Hj & E) Hn]].
      * exists k, b'. rewrite list_lookup_insert_eq by done. destruct (group_of b'); set_solver.
      * exists j, c. split; [|done]. rewrite list_lookup_insert_ne; [done|]. intros <-. simplify_eq. rewrite E in Hn. set_solver.
Qed.

(** Free blocks and groups come and go; everything else stays. *)
Definition spare (b : bytes) : Prop := Entry.id b = 0 ∨ Entry.id b = MulticastGroupEntry.ID.
Definition same_others : memory -> memory -> Prop := Forall2 (λ b b', b' = b ∨ spare b ∧ spare b').
#[global] Instance same_others_preorder : PreOrder same_others.
Proof.
  split.
  - intros m. apply Forall_Forall2_diag, Forall_true. by left.
  - intros m1 m2 m3 H12. revert m3. induction H12 as [|b1 b2 m1 m2 H12 _ IH]; intros m3 H23; [done|].
    inversion H23 as [|? b3 ? m4 H3 H4]; subst. constructor; [|by apply IH]. destruct H12 as [->|[]], H3 as [->|[]]; auto.
Qed.

Lemma same_others_insert m k b b' : m !! k = Some b -> spare b -> spare b' -> same_others m (<[k := b']> m).
Proof.
  intros Hk Hb Hb'. apply Forall2_same_length_lookup. split; [by rewrite length_insert|]. intros j x y Hx Hy.
  destruct (decide (j = k)) as [->|]; [|rewrite list_lookup_insert_ne in Hy by done; left; congruence].
  rewrite list_lookup_insert_eq in Hy by (by eapply lookup_lt_Some). simplify_eq. by right.
Qed.

(** A search for other entries finds the same. *)
Lemma same_others_search m m' type test : same_others m m' -> type ≠ 0 -> type ≠ MulticastGroupEntry.ID ->
  bool_decide (is_Some (first_entry m' type test)) = bool_decide (is_Some (first_entry m type test)).
Proof.
  intros H H0 Hg. apply bool_decide_ext. rewrite !first_entry_some. apply Forall2_same_length_lookup in H as [Hl H].
  split; intros (j & Hid & Ht); exists j; unfold id_at in *.
  - destruct (m' !! j) as [b'|] eqn:E'; [|done]. pose proof (lookup_lt_Some _ _ _ E').
    destruct (lookup_lt_is_Some_2 m j ltac:(lia)) as [b E]. cbn in Hid. injection Hid as Hid. rewrite (list_lookup_total_correct _ _ _ E') in Ht.
    destruct (H j b b' E E') as [->|[_ [?|?]]]; [|congruence..]. rewrite E, (list_lookup_total_correct _ _ _ E). cbn. by rewrite Hid.
  - destruct (m !! j) as [b|] eqn:E; [|done]. pose proof (lookup_lt_Some _ _ _ E).
    destruct (lookup_lt_is_Some_2 m' j ltac:(lia)) as [b' E']. cbn in Hid. injection Hid as Hid. rewrite (list_lookup_total_correct _ _ _ E) in Ht.
    destruct (H j b b' E E') as [->|[[?|?] _]]; [|congruence..]. rewrite E', (list_lookup_total_correct _ _ _ E'). cbn. by rewrite Hid.
Qed.

(** The entry that is written, and the one that is freed. *)
Lemma group_entry_spec a b : length a = 16%nat -> (21 <= length b)%nat ->
  group_of (group_entry a b) = Some a ∧ spare (group_entry a b) ∧ length (group_entry a b) = length b.
Proof.
  intros Ha Hb. unfold group_of, spare, group_entry, Entry.id, Entry.ipv6, Entry.set_ipv6, MulticastGroupEntry.reserve.
  assert (Hid : get8 0 (<[17%nat := 0]> (set_bytes 1 16 a (<[0%nat := MulticastGroupEntry.ID]> b))) = MulticastGroupEntry.ID).
  { rewrite get8_insert_ne by lia. unfold set_bytes. rewrite get8_write_out by lia. apply get8_insert_eq. lia. }
  rewrite Hid, Z.eqb_refl. split_and!; [f_equal|by right|].
  - unfold get_bytes. rewrite read_insert by lia. apply (read_ipv6 a (<[0%nat := MulticastGroupEntry.ID]> b)); [done|rewrite length_insert; lia].
  - unfold set_bytes. by rewrite length_insert, length_write, length_insert.
Qed.

Lemma freed_group b : (21 <= length b)%nat -> group_of (<[0%nat := 0]> b) = None ∧ spare (<[0%nat := 0]> b).
Proof.
  intros Hb. unfold group_of, spare, Entry.id. rewrite get8_insert_eq by lia. split; [done|by left].
Qed.

Lemma group_spare b a : group_of b = Some a -> spare b.
Proof. unfold group_of, spare. destruct (Z.eqb_spec (Entry.id b) MulticastGroupEntry.ID); [by right|done]. Qed.
Lemma free_no_group b : Entry.id b = 0 -> group_of b = None.
Proof. intros H. unfold group_of. by rewrite H. Qed.

Definition free_blocks (m : memory) : nat := length (filter (λ b, Entry.id b = 0) m).
Lemma free_blocks_insert m k b b' : m !! k = Some b -> Entry.id b = 0 -> Entry.id b' ≠ 0 ->
  S (free_blocks (<[k := b']> m)) = free_blocks m.
Proof.
  intros Hk Hb Hb'. pose proof (lookup_lt_Some _ _ _ Hk) as Hlt. unfold free_blocks.
  rewrite insert_take_drop by done. rewrite <- (take_drop_middle m k b Hk) at 3.
  rewrite !filter_app, filter_cons_False, filter_cons_True by done. rewrite !length_app. cbn. lia.
Qed.
Lemma free_blocks_find m : (0 < free_blocks m)%nat -> exists k b, findEntry m 0 0 = Some (k, S k) ∧ m !! k = Some b ∧ Entry.id b = 0.
Proof.
  intros H. pose proof (findEntry_spec m 0 0) as Hf. destruct (findEntry m 0 0) as [[k next]|].
  - destruct Hf as (-> & _ & Hid & _). exists k. unfold id_at in Hid. destruct (m !! k) as [b|]; [|done]. exists b. cbn in Hid. by injection Hid as ->.
  - exfalso. unfold free_blocks in H. destruct (filter _ m) as [|b l] eqn:E; [cbn in H; lia|].
    assert (Hb : b ∈ filter (λ b, Entry.id b = 0) m) by (rewrite E; by left).
    apply list_elem_of_filter in Hb as [H0 Hin]. apply list_elem_of_lookup in Hin as [j Hj]. apply (Hf j ltac:(lia)). unfold id_at. rewrite Hj. cbn. by rewrite H0.
Qed.

(** Joining takes a free block, if the group is new. *)
Lemma join_spec a m : wf m -> length a = 16%nat ->
  let '(ok, m') := join_multicastGroup a m in
  wf m' ∧ same_others m m' ∧ groups m' = ((if ok then {[a]} else ∅) ∪ groups m)
  ∧ (ok = true <-> (a ∉ groups m) ∧ (exists j, id_at m j = Some 0))
  ∧ (free_blocks m <= S (free_blocks m'))%nat.
Proof.
  intros Hm Ha. unfold join_multicastGroup. rewrite joined_spec by done. case_bool_decide as Hj.
  { split_and!; [done|done|set_solver|split; [done|by intros []]|lia]. }
  pose proof (findEntry_spec m 0 0) as Hf. destruct (findEntry m 0 0) as [[k next]|].
  - destruct Hf as (_ & _ & Hid & _). unfold id_at in Hid. destruct (m !! k) as [b|] eqn:Hk; [|done]. cbn in Hid. injection Hid as H0.
    rewrite (alter_insert _ k b m Hk). pose proof (wf_length m k b Hm Hk) as Hl. destruct (group_entry_spec a b Ha Hl) as (Eg & Hs & El).
    pose proof (free_no_group b H0) as Eb.
    destruct (groups_insert m k b (group_entry a b) Hk Hm ltac:(lia)) as [W G].
    { intros x Ex. right. congruence. }
    rewrite Eg, Eb in G. split_and!; [done|by apply (same_others_insert m k b); [|left|]|rewrite G; set_solver| |].
    + split; [|done]. intros _. split; [done|]. exists k. unfold id_at. rewrite Hk. cbn. by rewrite H0.
    + rewrite (free_blocks_insert m k b) by (try done; unfold group_of in Eg; destruct (Z.eqb_spec (Entry.id (group_entry a b)) MulticastGroupEntry.ID) as [->|]; done).
      lia.
  - split_and!; [done|done|set_solver| |lia]. split; [done|]. intros [_ (j & Hid)]. by destruct (Hf j ltac:(lia)).
Qed.

Lemma leave_spec a m : wf m -> length a = 16%nat ->
  wf (leave_multicastGroup a m) ∧ same_others m (leave_multicastGroup a m) ∧ groups (leave_multicastGroup a m) = groups m ∖ {[a]}.
Proof.
  intros Hm Ha. unfold leave_multicastGroup. pose proof (find_group_spec a m Ha) as H. destruct (find_group a m) as [k|].
  - destruct H as (b & Hk & Eb). pose proof (wf_length m k b Hm Hk) as Hl. destruct (freed_group b Hl) as [Eg Hs].
    unfold freeEntry. rewrite (alter_insert _ k b m Hk). destruct (groups_insert m k b (<[0%nat := 0]> b) Hk Hm ltac:(rewrite length_insert; lia)) as [W G].
    { intros x Ex. congruence. }
    rewrite Eg, Eb in G. split_and!; [done| |rewrite G; set_solver]. apply (same_others_insert m k b); [done|by eapply group_spare|done].
  - split_and!; [done|done|set_solver].
Qed.

(** The groups of an interface are a set of addresses: asking for one answers whether it is in the set,
    joining adds it, unless it is there already or no block is free, which the result tells, leaving
    removes it, and the other entries of the address memory stay as they are. *)
Theorem groups_refine_set (m : memory) (a : bytes) : wf m -> length a = 16%nat ->
  multicast_addr_joined a m = bool_decide (a ∈ groups m)
  ∧ (let '(ok, m') := join_multicastGroup a m in
     wf m' ∧ same_others m m' ∧ groups m' = ((if ok then {[a]} else ∅) ∪ groups m)
     ∧ (ok = true <-> (a ∉ groups m) ∧ (exists j, id_at m j = Some 0)))
  ∧ (let m' := leave_multicastGroup a m in wf m' ∧ same_others m m' ∧ groups m' = groups m ∖ {[a]}).
Proof.
  intros Hm Ha. split; [by apply joined_spec|]. split; [|by apply leave_spec].
  pose proof (join_spec a m Hm Ha) as H. destruct (join_multicastGroup a m). naive_solver.
Qed.
End Groups.

(** ** Up and down *)

Section UpDown.
Import Multicast.
Context (e : endian) (ethAddr junk : bytes).
Hypothesis junk_length : length junk = 8%nat.

(** The address the interface gives itself. *)
Definition link_local : bytes := addInterfaceIdentifierToIPv6Address ethAddr (0xfe :: 0x80 :: replicate 14 0).

Lemma identifier_length a : (8 <= length a)%nat -> length (addInterfaceIdentifierToIPv6Address ethAddr a) = 16%nat.
Proof. intros H. unfold addInterfaceIdentifierToIPv6Address. rewrite length_app, length_take. cbn [length]. lia. Qed.
Lemma link_local_made : addInterfaceIdentifierToIPv6Address ethAddr ([0xfe; 0x80; 0; 0; 0; 0; 0; 0] ++ junk) = link_local.
Proof. reflexivity. Qed.
Lemma link_local_scope : IPv6.getIPv6AddressScope link_local = IPv6.IPV6_SCOPE_LINKLOCAL.
Proof. reflexivity. Qed.

(** Every address has its own prefix. *)
Lemma compare_refl a n : forall block p, IPv6.compare_loop a a n block p = true.
Proof.
  induction n as [|n IH]; intros block p; cbn [IPv6.compare_loop]; [done|].
  rewrite !Z.eqb_refl. cbn [negb]. destruct (8 <=? p); [|done]. by destruct (p - 8 =? 0).
Qed.

Lemma solicited_shape a : length (IPv6.solicitedNode_multicast_addr a) = 16%nat ∧ isMulticast (IPv6.solicitedNode_multicast_addr a) = true.
Proof. by split. Qed.

(** The interface accepts what is sent to the solicited node of its addresses. *)
Lemma accepts_solicited i k b : addressmemory i !! k = Some b -> Entry.id b = AddressEntry.ID ->
  hasIPv6Address i (IPv6.solicitedNode_multicast_addr (Entry.ipv6 b)) = true.
Proof.
  intros Hk Hb. unfold hasIPv6Address. destruct (solicited_shape (Entry.ipv6 b)) as [_ ->]. apply orb_true_intro. right.
  unfold is_solicitedNode_multicast_addr. cbn [IPv6.B8 IPv6.solicitedNode_multicast_addr nth]. change ((0xff =? 0xff) && (0x02 =? 0x02)) with true. cbv iota.
  apply bool_decide_eq_true, first_entry_some. exists k. unfold id_at. rewrite Hk, (list_lookup_total_correct _ _ _ Hk). cbn. rewrite Hb. split; [done|].
  unfold IPv6.B8, IPv6.solicitedNode_multicast_addr. cbn [nth]. by rewrite !Z.eqb_refl.
Qed.

Lemma accepts_group i a : length a = 16%nat -> isMulticast a = true -> a ∈ groups (addressmemory i) -> hasIPv6Address i a = true.
Proof.
  intros Hl Hm Ha. unfold hasIPv6Address. rewrite Hm, joined_spec by done. by rewrite bool_decide_true.
Qed.

(** An interface with an address made from a prefix. *)
Lemma make_spec i prefix prefixlen ipstate pos : wf (addressmemory i) -> length prefix = 16%nat ->
  (0 < free_blocks (addressmemory i))%nat ->
  exists k b, let '(r, i') := makeIPv6AddressByPrefix e ethAddr prefix prefixlen ipstate pos i in
  r = Some k ∧ addressmemory i' = <[k := b]> (addressmemory i) ∧ ipv6_up i' = ipv6_up i
  ∧ (k < length (addressmemory i))%nat ∧ id_at (addressmemory i) k = Some 0
  ∧ made e (addInterfaceIdentifierToIPv6Address ethAddr) prefix prefixlen pos b
  ∧ wf (addressmemory i') ∧ groups (addressmemory i') = groups (addressmemory i).
Proof.
  intros Hm Hp Hf. destruct (free_blocks_find _ Hf) as (k & b0 & Ef & Hk & H0). pose proof (wf_length _ _ _ Hm Hk) as Hl.
  unfold makeIPv6AddressByPrefix, Interfaces.makeIPv6AddressByPrefix. rewrite Ef, (list_lookup_total_correct _ _ _ Hk). cbv zeta.
  match goal with |- context [<[k := ?x]> (addressmemory i)] => set (b := x) end.
  exists k, b. assert (Hb : made e (addInterfaceIdentifierToIPv6Address ethAddr) prefix prefixlen pos b).
  { apply made_block; [done|done|]. apply identifier_length. lia. }
  assert (Lb : length b = length b0).
  { unfold b, Interfaces.new_address, Interfaces.setIPv6AddressState, Interfaces.registerIPv6Address, AddressEntry.set_state, AddressEntry.reserve, AddressEntry.set_isOnLink,
      Entry.set_ipv6, set_bytes. by rewrite !length_insert, !length_write. }
  assert (Eg : group_of b = None) by (unfold group_of; destruct Hb as [-> _]; done).
  destruct (groups_insert (addressmemory i) k b0 b Hk Hm ltac:(lia)) as [W G]; [congruence|].
  rewrite Eg, (free_no_group b0 H0) in G. cbn [addressmemory ipv6_up].
  assert (Er : forall ip m, register_advice ip m = m) by (intros; unfold register_advice; by destruct (_ || _)).
  split_and!; try done.
  - by rewrite Er.
  - by eapply lookup_lt_Some.
  - unfold id_at. rewrite Hk. cbn. by rewrite H0.
  - by rewrite Er.
  - rewrite Er. change (groups (<[k := b]> (addressmemory i)) = groups (addressmemory i)). rewrite G. set_solver.
Qed.

Lemma freeAll_groups m : wf m -> wf (freeAll AddressEntry.ID m) ∧ groups (freeAll AddressEntry.ID m) = groups m.
Proof.
  intros Hm. assert (Hl : forall k b', freeAll AddressEntry.ID m !! k = Some b' -> exists b, m !! k = Some b ∧ (21 <= length b')%nat ∧ group_of b' = group_of b).
  { intros k b'. unfold freeAll. change (map ?f m) with (f <$> m). rewrite list_lookup_fmap. destruct (m !! k) as [b|] eqn:Hk; [|done]. cbn. intros [= <-].
    exists b. pose proof (wf_length m k b Hm Hk). destruct (Z.eqb_spec (Entry.id b) AddressEntry.ID) as [E|]; [|done].
    rewrite length_insert. destruct (freed_group b) as [-> _]; [done|]. split; [done|]. split; [done|]. unfold group_of. by rewrite E. }
  assert (Lm : length (freeAll AddressEntry.ID m) = length m) by apply length_map.
  split.
  - split.
    + apply Forall_lookup. intros k b' Hk. by destruct (Hl k b' Hk) as (b & _ & ? & _).
    + intros j k b c a Hj Hk Eb Ec. destruct (Hl j b Hj) as (b1 & H1 & _ & E1), (Hl k c Hk) as (b2 & H2 & _ & E2).
      apply (wf_distinct m Hm j k b1 b2 a); congruence.
  - apply set_eq. intros a. rewrite !elem_groups. split.
    + intros (k & b' & Hk & E). destruct (Hl k b' Hk) as (b & Hb & _ & Eg). exists k, b. split; congruence.
    + intros (k & b & Hk & E). destruct (lookup_lt_is_Some_2 (freeAll AddressEntry.ID m) k) as [b' Hb']; [rewrite Lm; by eapply lookup_lt_Some|].
      destruct (Hl k b' Hb') as (b1 & H1 & _ & Eg). exists k, b'. split; congruence.
Qed.

(** The groups of every node. *)
Definition node_groups : gset bytes := {[allNodes; allRouters]}.

Lemma two_joins (x y : bytes) (g g1 g2 : gset bytes) (ok1 ok2 : bool) :
  g1 = (if ok1 then {[x]} else ∅) ∪ g -> g2 = (if ok2 then {[y]} else ∅) ∪ g1 ->
  ok1 = true ∨ x ∈ g -> ok2 = true ∨ y ∈ g1 -> g2 = {[y; x]} ∪ g.
Proof. clear. intros -> -> H1 H2. destruct ok1, ok2; set_solver. Qed.

Lemma join_all_spec m : wf m ->
  let m' := join_linkLocal_allNodes_multicastGroup (join_linkLocal_allRouters_multicastGroup m) in
  wf m' ∧ same_others m m' ∧ (free_blocks m <= S (S (free_blocks m')))%nat
  ∧ ((2 <= free_blocks m)%nat -> groups m' = node_groups ∪ groups m).
Proof.
  intros Hm m'. unfold m', join_linkLocal_allNodes_multicastGroup, join_linkLocal_allRouters_multicastGroup.
  pose proof (join_spec allRouters m Hm eq_refl) as H1. destruct (join_multicastGroup allRouters m) as [ok1 m1]. cbn [snd].
  destruct H1 as (W1 & O1 & G1 & K1 & F1). pose proof (join_spec allNodes m1 W1 eq_refl) as H2.
  destruct (join_multicastGroup allNodes m1) as [ok2 m2]. cbn [snd]. destruct H2 as (W2 & O2 & G2 & K2 & F2).
  split_and!; [done|by transitivity m1|lia|]. intros Hf.
  assert (Hfree : forall x, (0 < free_blocks x)%nat -> exists j, id_at x j = Some 0).
  { intros x Hx. destruct (free_blocks_find x Hx) as (k & b & _ & Hk & H0). exists k. unfold id_at. rewrite Hk. cbn. by rewrite H0. }
  assert (N1 : ok1 = true ∨ allRouters ∈ groups m).
  { destruct (decide (allRouters ∈ groups m)); [by right|left]. apply K1. split; [done|]. apply Hfree. lia. }
  assert (N2 : ok2 = true ∨ allNodes ∈ groups m1).
  { destruct (decide (allNodes ∈ groups m1)); [by right|left]. apply K2. split; [done|]. apply Hfree. lia. }
  exact (two_joins _ _ _ _ _ _ _ G1 G2 N1 N2).
Qed.

Lemma scope_same i i' scope : same_others (addressmemory i) (addressmemory i') ->
  bool_decide (is_Some (Interfaces.getInterfaceIPv6AddressByScope i' scope)) = bool_decide (is_Some (Interfaces.getInterfaceIPv6AddressByScope i scope)).
Proof.
  intros H. unfold Interfaces.getInterfaceIPv6AddressByScope.
  set (t := λ b, bool_decide (IPv6.getIPv6AddressScope (Entry.ipv6 b) = scope)).
  pose proof (same_others_search _ _ AddressEntry.ID t H ltac:(done) ltac:(done)) as E.
  destruct (first_entry (addressmemory i') _ t), (first_entry (addressmemory i) _ t); cbn; by revert E; repeat case_bool_decide; naive_solver.
Qed.
Lemma found_address i scope ll : Interfaces.getInterfaceIPv6AddressByScope i scope = Some ll ->
  exists k b, addressmemory i !! k = Some b ∧ Entry.id b = AddressEntry.ID ∧ Entry.ipv6 b = ll ∧ IPv6.getIPv6AddressScope ll = scope.
Proof.
  unfold Interfaces.getInterfaceIPv6AddressByScope. intros H. apply bind_Some in H as (k & H & Ell).
  pose proof (first_entry_spec (addressmemory i) AddressEntry.ID (λ b, bool_decide (IPv6.getIPv6AddressScope (Entry.ipv6 b) = scope))) as Hs.
  rewrite H in Hs. destruct Hs as (Hid & Ht & _). unfold id_at in Hid. destruct (addressmemory i !! k) as [b|] eqn:Hk; [|done].
  cbv beta in Ht. rewrite (list_lookup_total_correct _ _ _ Hk) in *. exists k, b. cbn in Hid. injection Hid as Hid. injection Ell as <-.
  by rewrite bool_decide_eq_true in Ht.
Qed.

(** The addresses of [i] are addresses of [i']. *)
Definition keeps (i i' : Interface6) : Prop :=
  forall k b, addressmemory i !! k = Some b -> Entry.id b = AddressEntry.ID -> addressmemory i' !! k = Some b.

Lemma keeps_others i i' : same_others (addressmemory i) (addressmemory i') -> keeps i i'.
Proof.
  intros H k b Hk Hb. apply Forall2_same_length_lookup in H as [Hl H]. destruct (lookup_lt_is_Some_2 (addressmemory i') k) as [b' Hb'].
  { rewrite <- Hl. by eapply lookup_lt_Some. }
  destruct (H k b b' Hk Hb') as [->|[[E|E] _]]; [done|by rewrite Hb in E..].
Qed.

Lemma keeps_search i i' test : keeps i i' -> is_Some (first_entry (addressmemory i) AddressEntry.ID test) ->
  is_Some (first_entry (addressmemory i') AddressEntry.ID test).
Proof.
  intros H. rewrite !first_entry_some. intros (j & Hid & Ht). unfold id_at in Hid. destruct (addressmemory i !! j) as [b|] eqn:E; [|done].
  cbn in Hid. injection Hid as Hid. specialize (H j b E Hid). exists j. unfold id_at. rewrite H, (list_lookup_total_correct _ _ _ H).
  rewrite (list_lookup_total_correct _ _ _ E) in Ht. cbn. by rewrite Hid.
Qed.

Lemma keeps_accepts i i' a : keeps i i' -> length a = 16%nat -> groups (addressmemory i) ⊆ groups (addressmemory i') ->
  hasIPv6Address i a = true -> hasIPv6Address i' a = true.
Proof.
  intros Hk Ha Hg. unfold hasIPv6Address, is_solicitedNode_multicast_addr, Interfaces.hasIPv6Address. rewrite !joined_spec by done.
  destruct (isMulticast a).
  - rewrite !orb_true_iff, !bool_decide_eq_true. intros [H|H]; [left; set_solver|right]. destruct (_ && _); [|done].
    rewrite bool_decide_eq_true in *. by apply (keeps_search i).
  - rewrite !bool_decide_eq_true. by apply keeps_search.
Qed.

Lemma own_address i k b : addressmemory i !! k = Some b -> Entry.id b = AddressEntry.ID -> isMulticast (Entry.ipv6 b) = false ->
  hasIPv6Address i (Entry.ipv6 b) = true.
Proof.
  intros Hk Hb Hm. unfold hasIPv6Address. rewrite Hm. unfold Interfaces.hasIPv6Address. apply bool_decide_eq_true, first_entry_some.
  exists k. unfold id_at. rewrite Hk, (list_lookup_total_correct _ _ _ Hk). split; [|apply compare_refl].
  change (Some (Entry.id b) = Some AddressEntry.ID). by rewrite Hb.
Qed.

(** What the interface has once it is up. *)
Record listening (i i' : Interface6) (ll : bytes) : Prop := {
  li_up : ipv6_up i' = true; li_wf : wf (addressmemory i');
  li_groups : groups (addressmemory i') = node_groups ∪ groups (addressmemory i);
  li_address : Interfaces.getInterfaceIPv6AddressByScope i' IPv6.IPV6_SCOPE_LINKLOCAL = Some ll;
  li_new : Interfaces.getInterfaceIPv6AddressByScope i IPv6.IPV6_SCOPE_LINKLOCAL = None -> ll = link_local;
  li_accepts : forall a, a ∈ [ll; IPv6.solicitedNode_multicast_addr ll; allNodes; allRouters] -> hasIPv6Address i' a = true;
  li_keeps : forall a, length a = 16%nat -> hasIPv6Address i a = true -> hasIPv6Address i' a = true }.

Lemma listening_intro i i' ll : ipv6_up i' = true -> wf (addressmemory i') ->
  groups (addressmemory i') = node_groups ∪ groups (addressmemory i) -> keeps i i' ->
  Interfaces.getInterfaceIPv6AddressByScope i' IPv6.IPV6_SCOPE_LINKLOCAL = Some ll ->
  (Interfaces.getInterfaceIPv6AddressByScope i IPv6.IPV6_SCOPE_LINKLOCAL = None -> ll = link_local) -> listening i i' ll.
Proof.
  intros Hu Hw Hg Hk Hll Hnew. split; try done.
  - destruct (found_address i' _ ll Hll) as (k & b & Hb & Hid & <- & Hs).
    intros a [->|[->|[->|[->|[]%not_elem_of_nil]%elem_of_cons]%elem_of_cons]%elem_of_cons]%elem_of_cons.
    + apply (own_address i' k b Hb Hid). unfold isMulticast. by rewrite Hs.
    + by apply (accepts_solicited i' k b).
    + apply accepts_group; [done..|]. rewrite Hg. unfold node_groups. set_solver.
    + apply accepts_group; [done..|]. rewrite Hg. unfold node_groups. set_solver.
  - intros a Ha. apply keeps_accepts; [done..|]. rewrite Hg. set_solver.
Qed.

(** Without an address of the scope before, the new one is the one found. *)
Lemma found_new i i1 k b scope : same_others (addressmemory i) (addressmemory i1) -> (k < length (addressmemory i1))%nat ->
  id_at (addressmemory i1) k = Some 0 -> Entry.id b = AddressEntry.ID -> IPv6.getIPv6AddressScope (Entry.ipv6 b) = scope ->
  Interfaces.getInterfaceIPv6AddressByScope i scope = None ->
  forall i2, addressmemory i2 = <[k := b]> (addressmemory i1) -> Interfaces.getInterfaceIPv6AddressByScope i2 scope = Some (Entry.ipv6 b).
Proof.
  intros Hs Hk H0 Hb Hsc Hn i2 E2. pose proof (scope_same i i1 scope Hs) as Hn1. rewrite Hn in Hn1.
  assert (Hnone : none_passes (addressmemory i1) AddressEntry.ID (λ b, bool_decide (IPv6.getIPv6AddressScope (Entry.ipv6 b) = scope))).
  { unfold Interfaces.getInterfaceIPv6AddressByScope in Hn1.
    pose proof (first_entry_spec (addressmemory i1) AddressEntry.ID (λ b, bool_decide (IPv6.getIPv6AddressScope (Entry.ipv6 b) = scope))) as H.
    destruct (first_entry _ _ _); [|done]. cbn in Hn1. by repeat case_bool_decide; try naive_solver. }
  unfold Interfaces.getInterfaceIPv6AddressByScope. rewrite E2.
  pose proof (first_entry_spec (<[k := b]> (addressmemory i1)) AddressEntry.ID (λ b, bool_decide (IPv6.getIPv6AddressScope (Entry.ipv6 b) = scope))) as H.
  destruct (first_entry _ _ _) as [j|]; cbn [mbind option_bind].
  - destruct H as (Hid & Ht & _). destruct (decide (j = k)) as [->|Hne]; [by rewrite list_lookup_total_insert_eq|].
    unfold id_at in Hid. rewrite list_lookup_insert_ne in Hid by done. cbv beta in Ht. rewrite list_lookup_total_insert_ne in Ht by done.
    specialize (Hnone j Hid). cbv beta in Hnone. congruence.
  - specialize (H k). unfold id_at in H. rewrite list_lookup_insert_eq, list_lookup_total_insert_eq in H by done. cbn in H. rewrite Hb in H.
    specialize (H eq_refl). by rewrite Hsc, bool_decide_true in H.
Qed.

Lemma up_listens i : wf (addressmemory i) -> (3 <= free_blocks (addressmemory i))%nat ->
  exists ll, listening i (setIPv6Up e ethAddr junk true i) ll.
Proof.
  intros Hm Hf. unfold setIPv6Up, multicast_advice. cbn [addressmemory]. destruct (join_all_spec _ Hm) as (W & O & F & G). specialize (G ltac:(lia)).
  set (i1 := MkInterface6 (ipv6_up i) (join_linkLocal_allNodes_multicastGroup (join_linkLocal_allRouters_multicastGroup (addressmemory i)))).
  match goal with |- context [link_local_advice _ _ _ _ _ ?x] => change x with i1 end.
  unfold link_local_advice. cbn [negb].
  destruct (Interfaces.getInterfaceIPv6AddressByScope i1 IPv6.IPV6_SCOPE_LINKLOCAL) as [ll|] eqn:E1.
  - exists ll. apply listening_intro; [done|exact W|exact G|by apply keeps_others|exact E1|].
    intros En. pose proof (scope_same i i1 IPv6.IPV6_SCOPE_LINKLOCAL O) as Hs. rewrite E1, En in Hs. by repeat case_bool_decide; try naive_solver.
  - destruct (make_spec i1 ([0xfe; 0x80; 0; 0; 0; 0; 0; 0] ++ junk) 64 AddressEntry.AddressEntryStateTemporary EntryUndefined W) as (k & b & H).
    { cbn. lia. } { change (addressmemory i1) with (join_linkLocal_allNodes_multicastGroup (join_linkLocal_allRouters_multicastGroup (addressmemory i))). lia. }
    destruct (makeIPv6AddressByPrefix _ _ _ _ _ _ i1) as [r i2]. destruct H as (_ & E2 & _ & Hk & H0 & Hb & W2 & G2). cbn [snd].
    destruct Hb as (Hid & Hip & _). rewrite link_local_made in Hip.
    exists link_local. apply listening_intro; [done|exact W2| | | |done].
    + change (groups (addressmemory i2) = node_groups ∪ groups (addressmemory i)). by rewrite G2.
    + intros j c Hj Hc. change (addressmemory i2 !! j = Some c). rewrite E2. pose proof (keeps_others i i1 O j c Hj Hc) as Hj1.
      rewrite list_lookup_insert_ne; [done|]. intros <-. unfold id_at in H0. rewrite Hj1 in H0. change (Some (Entry.id c) = Some 0) in H0. by rewrite Hc in H0.
    + change (Interfaces.getInterfaceIPv6AddressByScope i2 IPv6.IPV6_SCOPE_LINKLOCAL = Some link_local). rewrite <- Hip.
      apply (found_new i1 i1 k b); [done..| |done|done]. by rewrite Hip.
Qed.

(** C27: An interface that is set up listens to all nodes and all routers of the link, to its link-local address and
    to the solicited node of that; the address is the one it had, or made of its hardware
    address; whatever it accepted before it still accepts.  Set down it accepts the groups
    joined besides, and nothing else. *)
Theorem interface_up_down (i : Interface6) : wf (addressmemory i) ->
  ((3 <= free_blocks (addressmemory i))%nat -> exists ll, listening i (setIPv6Up e ethAddr junk true i) ll)
  ∧ (ipv6_up i = true -> let i' := setIPv6Up e ethAddr junk false i in
     ipv6_up i' = false ∧ wf (addressmemory i')
     ∧ forall a, length a = 16%nat ->
         hasIPv6Address i' a = isMulticast a && bool_decide (a ∈ groups (addressmemory i) ∖ node_groups)).
Proof.
  intros Hm. split; [by apply up_listens|]. intros Hu i'.
  set (m := freeAll AddressEntry.ID (leave_multicastGroup allNodes (leave_multicastGroup allRouters (addressmemory i)))).
  assert (Ei : i' = MkInterface6 false m) by (unfold i', m; destruct i as [u m0]; cbn in Hu; by subst u). rewrite Ei.
  destruct (leave_spec allRouters (addressmemory i) Hm eq_refl) as (W1 & _ & G1).
  destruct (leave_spec allNodes _ W1 eq_refl) as (W2 & _ & G2). destruct (freeAll_groups _ W2) as [W3 G3]. fold m in W3, G3.
  split; [done|]. split; [exact W3|]. intros a Ha. unfold hasIPv6Address.
  unfold Interfaces.hasIPv6Address. change (addressmemory (MkInterface6 false m)) with m.
  assert (Hno : forall test, bool_decide (is_Some (first_entry m AddressEntry.ID test)) = false).
  { intros test. apply bool_decide_eq_false. rewrite first_entry_some. intros (j & Hj & _). by apply id_at_freeAll in Hj. }
  destruct (isMulticast a); cbn [andb].
  - rewrite joined_spec by done. unfold is_solicitedNode_multicast_addr. rewrite Hno.
    match goal with |- _ || (if ?c then _ else _) = _ => destruct c end; rewrite orb_false_r; apply bool_decide_ext;
      rewrite G3, G2, G1; unfold node_groups; clear; generalize allNodes allRouters; set_solver.
  - apply Hno.
Qed.
End UpDown.

(** ** Examples *)

Section Examples.
Import Multicast.

Definition mac_example : bytes := [0x02; 0; 0; 0; 0xab; 9].
(** A group that was joined before, an address behind a prefix, and room. *)
Definition group_example : bytes := linkLocal_group 0x16.
Definition prefix_address_example : bytes := 0x20 :: 0x01 :: replicate 13 0 ++ [7].
Definition memory_example : memory :=
  [MulticastGroupEntry.ID :: group_example ++ replicate 4 0; AddressEntry.ID :: prefix_address_example ++ [64; 1; 255; 0]]
  ++ replicate 3 (replicate 21 0).
Definition interface_example : Interface6 := MkInterface6 false memory_example.

Lemma memory_wf : wf memory_example.
Proof.
  split; [by apply (bool_decide_unpack _); vm_compute|].
  intros j k b c a Hj Hk Eb Ec.
  assert (H : forall j b, memory_example !! j = Some b -> is_Some (group_of b) -> j = 0%nat).
  { intros [|[|[|[|[|?]]]]] x Hx [y Hy]; try done; by injection Hx as <-. }
  by rewrite (H j b), (H k c).
Qed.

Lemma groups_refine_set_witness :
  multicast_addr_joined group_example memory_example = bool_decide (group_example ∈ groups memory_example)
  ∧ groups (leave_multicastGroup group_example memory_example) = groups memory_example ∖ {[group_example]}.
Proof.
  destruct (groups_refine_set memory_example group_example memory_wf eq_refl) as (H1 & _ & _ & _ & H2). exact (conj H1 H2).
Defined.

Lemma interface_up_down_witness :
  (exists ll, listening mac_example interface_example (setIPv6Up LE mac_example (replicate 8 77) true interface_example) ll)
  ∧ hasIPv6Address (setIPv6Up LE mac_example [] false (MkInterface6 true memory_example)) prefix_address_example = false.
Proof.
  destruct (interface_up_down LE mac_example (replicate 8 77) eq_refl interface_example memory_wf) as [H1 _].
  split; [apply H1; by apply (bool_decide_unpack _); vm_compute|].
  destruct (interface_up_down LE mac_example (replicate 8 77) eq_refl (MkInterface6 true memory_example) memory_wf) as [_ H2].
  by destruct (H2 eq_refl) as (_ & _ & ->).
Defined.

(** The link-local address of a host, the groups it is in once it is up. *)
Example up_example :
  let i := setIPv6Up LE mac_example [] true interface_example in
  Interfaces.getInterfaceIPv6AddressByScope i IPv6.IPV6_SCOPE_LINKLOCAL
    = Some [0xfe; 0x80; 0; 0; 0; 0; 0; 0; 0x02; 0; 0; 0xff; 0xfe; 0; 0xab; 9]
  ∧ map (hasIPv6Address i) [allNodes; allRouters; group_example; linkLocal_group 5] = [true; true; true; false].
Proof. by vm_compute. Qed.

(** An address whose scope is a global one is accepted at its solicited node too, although
    the scope is not recognised and no group is joined for it. *)
Example solicited_of_prefix : hasIPv6Address interface_example (IPv6.solicitedNode_multicast_addr prefix_address_example) = true
  ∧ IPv6.getIPv6AddressScope prefix_address_example = IPv6.IPV6_SCOPE_NOT_RECOGNICED.
Proof. by vm_compute. Qed.
End Examples.
