(* ===== verification/Text.v ===== *)
(** * Text: strings and maps of the build program

    [std::string] and [std::map] as the build program uses them (the parser of
    JSON in [Json], the program itself in [FeatureFiles]): lists of characters,
    and lists of pairs in the order of their keys. *)

From Stdlib Require Import Ascii String.
From stdpp Require Import strings sorting.
From S2P Require Import Prelude.

Open Scope Z_scope.

(** [std::string]. *)
Abbreviation text := (list ascii).
Definition str : string -> text := list_ascii_of_string.
Definition newline : ascii := "010"%char.

(** [operator<] of strings compares unsigned characters. *)
Fixpoint text_compare (a b : text) : comparison :=
  match a, b with
  | [], [] => Eq
  | [], _ => Lt
  | _, [] => Gt
  | x :: a, y :: b =>
      match N.compare (N_of_ascii x) (N_of_ascii y) with Eq => text_compare a b | c => c end
  end.

(** [std::map::insert] and [find], the pairs in the order of their keys. *)
Section Maps.
Context {V : Type}.
Fixpoint map_insert (k : text) (v : V) (m : list (text * V)) : list (text * V) :=
  match m with
  | [] => [(k, v)]
  | (k', v') :: m' =>
      match text_compare k k' with
      | Lt => (k, v) :: m
      | Eq => m
      | Gt => (k', v') :: map_insert k v m'
      end
  end.
(** The assignment [m[k] = v]. *)
Fixpoint map_assign (k : text) (v : V) (m : list (text * V)) : list (text * V) :=
  match m with
  | [] => [(k, v)]
  | (k', v') :: m' =>
      match text_compare k k' with
      | Lt => (k, v) :: m
      | Eq => (k', v) :: m'
      | Gt => (k', v') :: map_assign k v m'
      end
  end.
Fixpoint map_find (k : text) (m : list (text * V)) : option V :=
  match m with
  | [] => None
  | (k', v') :: m => if bool_decide (k = k') then Some v' else map_find k m
  end.
End Maps.

(** ** Maps *)

Definition text_lt (a b : text) : Prop := text_compare a b = Lt.

Lemma N_of_ascii_compare x y : N.compare (N_of_ascii x) (N_of_ascii y) = Eq <-> x = y.
Proof.
  rewrite N.compare_eq_iff. split; [|by intros ->]. intros H.
  rewrite <- (ascii_N_embedding x), <- (ascii_N_embedding y). by rewrite H.
Qed.

Lemma text_compare_eq a : forall b, text_compare a b = Eq <-> a = b.
Proof.
  induction a as [|x a IH]; intros [|y b]; cbn; try done.
  destruct (N.compare _ _) eqn:E.
  - apply N_of_ascii_compare in E as ->. rewrite IH. split; congruence.
  - split; [done|]. intros [= -> ->]. rewrite N.compare_refl in E. done.
  - split; [done|]. intros [= -> ->]. rewrite N.compare_refl in E. done.
Qed.

Lemma text_compare_antisym a : forall b, text_compare b a = CompOpp (text_compare a b).
Proof.
  induction a as [|x a IH]; intros [|y b]; cbn; try done. rewrite N.compare_antisym.
  destruct (N.compare (N_of_ascii x) _); cbn; [apply IH|done|done].
Qed.

#[export] Instance text_lt_trans : Transitive text_lt.
Proof.
  unfold text_lt. intros a. induction a as [|x a IH]; intros [|y b] [|z c]; cbn; try done.
  destruct (N.compare_spec (N_of_ascii x) (N_of_ascii y)) as [->|H1|H1]; try done.
  - destruct (N.compare_spec (N_of_ascii y) (N_of_ascii z)); try done. by apply IH.
  - intros _. destruct (N.compare_spec (N_of_ascii y) (N_of_ascii z)) as [<-|H2|H2]; try done;
      intros _; rewrite (proj2 (N.compare_lt_iff _ _)); lia || done.
Qed.

Section Map_laws.
Context {V : Type}.
Implicit Types (k : text) (v : V) (m : list (text * V)).

(** The keys in order, each once. *)
Definition ordered m : Prop := StronglySorted text_lt (map fst m).

Lemma map_find_below k m : Forall (text_lt k) (map fst m) -> map_find k m = None.
Proof.
  induction m as [|[k' v'] m IH]; [done|]. cbn. intros [Hk Hm]%Forall_cons.
  rewrite bool_decide_eq_false_2; [by apply IH|]. intros <-. unfold text_lt in Hk.
  by rewrite (proj2 (text_compare_eq k k) eq_refl) in Hk.
Qed.

Lemma map_insert_keys k v m x : Forall (text_lt x) (map fst m) -> text_lt x k -> Forall (text_lt x) (map fst (map_insert k v m)).
Proof.
  induction m as [|[k' v'] m IH]; cbn; intros Hm Hk; [by constructor|].
  apply Forall_cons in Hm as [? ?]. destruct (text_compare k k'); cbn; auto.
Qed.

Lemma map_insert_ordered k v m : ordered m -> ordered (map_insert k v m).
Proof.
  unfold ordered. induction m as [|[k' v'] m IH]; cbn; intros Hm; [repeat constructor|].
  apply StronglySorted_inv in Hm as [Hm Hk']. destruct (text_compare k k') eqn:E; cbn.
  - by constructor.
  - constructor; [by constructor|]. constructor; [done|]. eapply Forall_impl; [exact Hk'|]. intros y. by apply text_lt_trans.
  - constructor; [by apply IH|]. apply map_insert_keys; [done|]. unfold text_lt. by rewrite text_compare_antisym, E.
Qed.

(** Inserting keeps a key that is there. *)
Lemma map_find_insert k v m k0 : ordered m ->
  map_find k0 (map_insert k v m) = if bool_decide (k0 = k) then Some (default v (map_find k m)) else map_find k0 m.
Proof.
  unfold ordered. induction m as [|[k' v'] m IH]; cbn; intros Hm; [done|].
  apply StronglySorted_inv in Hm as [Hm Hk']. destruct (text_compare k k') eqn:E.
  - apply text_compare_eq in E as ->. cbn. rewrite (bool_decide_eq_true_2 (k' = k')) by done. by case_bool_decide.
  - cbn. rewrite (bool_decide_eq_false_2 (k = k')); [rewrite (map_find_below k); [by destruct (bool_decide (k0 = k))|]|].
    + eapply Forall_impl; [exact Hk'|]. intros y. by apply text_lt_trans.
    + intros ->. by rewrite (proj2 (text_compare_eq k' k') eq_refl) in E.
  - cbn. rewrite IH by done. assert (k ≠ k') by (intros ->; by rewrite (proj2 (text_compare_eq k' k') eq_refl) in E).
    rewrite (bool_decide_eq_false_2 (k = k')) by done.
    destruct (decide (k0 = k')) as [->|]; [|by rewrite (bool_decide_eq_false_2 (k0 = k'))].
    by rewrite (bool_decide_eq_true_2 (k' = k')), (bool_decide_eq_false_2 (k' = k)).
Qed.
End Map_laws.

(** A key behind all others is assigned at the end. *)
Lemma map_assign_last {V} k (v : V) m : Forall (λ k', text_lt k' k) (map fst m) -> map_assign k v m = m ++ [(k, v)].
Proof.
  induction m as [|[k' v'] m IH]; [done|]. cbn. intros [Hk Hm]%Forall_cons.
  rewrite text_compare_antisym, Hk. cbn. by rewrite IH.
Qed.

Lemma ordered_before {V} (m : list (text * V)) k v m' : ordered (m ++ (k, v) :: m') -> Forall (λ k', text_lt k' k) (map fst m).
Proof.
  unfold ordered. induction m as [|[k' v'] m IH]; [done|]. cbn. intros [Hm Hk]%StronglySorted_inv.
  constructor; [|by apply IH]. rewrite map_app in Hk. apply Forall_app in Hk as [_ Hk]. by apply Forall_cons in Hk as [? _].
Qed.
