(* ===== verification/Decimal.v ===== *)
(** * Decimal: doubles and their decimal text

    The numbers of the JSON library are [double]s, written with [snprintf] ("%.f"
    and "%.17g", [picojson.h], [value::to_str]) and read with [strtod]
    ([_parse_number]).  This file has these functions of the C library, with
    correct rounding (to nearest, ties to even, as the C standard recommends and
    glibc does), and proves that 17 digits are enough: every finite double reads
    back from what was printed ([strtod_print_g17], [strtod_print_f]). *)

From Stdlib Require Import Ascii String SpecFloat.
From Stdlib Require Import QArith Qpower Lqa.
From stdpp Require Import strings.
From S2P Require Import Prelude Text.

Open Scope Z_scope.

(** A [double]: the standard library's specification of binary64; [canonical] ones are values of the type. *)
Abbreviation double := spec_float.
Definition canonical (d : double) : bool := valid_binary 53 1024 d.
Definition finite (d : double) : bool := match d with S754_zero _ | S754_finite _ _ _ => true | _ => false end.

(** ** Characters and digits *)

(** A character as [unsigned char] and back. *)
Definition Z_of_char (c : ascii) : Z := Z.of_N (N_of_ascii c).
Definition char_of_Z (z : Z) : ascii := ascii_of_N (Z.to_N (u8 z)).

Definition digit (n : Z) : ascii := char_of_Z (48 + n).
Definition is_digit (c : ascii) : bool := (48 <=? Z_of_char c) && (Z_of_char c <=? 57).

(** The decimal digits of a number that is not negative. *)
Fixpoint decimal_loop (fuel : nat) (n : Z) (acc : text) : text :=
  match fuel with
  | O => acc
  | S fuel => if n <? 10 then digit n :: acc else decimal_loop fuel (n / 10) (digit (n mod 10) :: acc)
  end.
Definition decimal (n : Z) : text := decimal_loop (S (Z.to_nat (Z.log2 n))) n [].
Definition digits_value (ds : text) : Z := fold_left (λ n c, 10 * n + (Z_of_char c - 48)) ds 0.

Definition sign_text (neg : bool) : text := if neg then str "-" else [].

(** ** Rounding *)

(** [num / den], to the nearest integer, a tie to the even one. *)
Definition rnd_even (num den : Z) : Z :=
  let q := num / den in
  match 2 * (num mod den) ?= den with
  | Lt => q
  | Gt => q + 1
  | Eq => if Z.even q then q else q + 1
  end.

(** [(num / den) / b^k] as a fraction, for a [k] of any sign. *)
Definition scale (b k num den : Z) : Z * Z := (num * b ^ Z.max 0 (- k), den * b ^ Z.max 0 k).

(** The [k] with [b^k <= num / den < b^(k+1)]; [guess] is it or the number above it. *)
Definition floor_log (b guess num den : Z) : Z :=
  let '(n, d) := scale b guess num den in if d <=? n then guess else guess - 1.
Definition floor_log2 (num den : Z) : Z := floor_log 2 (Z.log2 num - Z.log2 den) num den.
Definition floor_log10 (num den : Z) : Z :=
  floor_log 10 (Z.of_nat (length (decimal num)) - Z.of_nat (length (decimal den))) num den.

(** The double next to [num / den]. *)
Definition nearest (neg : bool) (num den : Z) : double :=
  let e := Z.max (floor_log2 num den - 52) (-1074) in
  let '(n, d) := scale 2 e num den in
  let m := rnd_even n d in
  let '(m, e) := if m =? 2 ^ 53 then (2 ^ 52, e + 1) else (m, e) in
  if m <=? 0 then S754_zero neg
  else if e <=? 971 then S754_finite neg (Z.to_pos m) e else S754_infinity neg.

(** ** printf *)

(** The value of a finite double is [m * 2^e], as a fraction. *)
Definition num_of (m : positive) (e : Z) : Z := Zpos m * 2 ^ Z.max 0 e.
Definition den_of (e : Z) : Z := 2 ^ Z.max 0 (- e).

(** "%.f", the nearest integer. *)
Definition print_f (d : double) : text :=
  match d with
  | S754_zero s => sign_text s ++ str "0"
  | S754_infinity s => sign_text s ++ str "inf"
  | S754_nan => str "nan"
  | S754_finite s m e => sign_text s ++ decimal (rnd_even (num_of m e) (den_of e))
  end.

(** Without the zeros at the end. *)
Fixpoint strip_zeros (s : text) : text :=
  match s with
  | [] => []
  | c :: s => match strip_zeros s with [] => if bool_decide (c = "0"%char) then [] else [c] | t => c :: t end
  end.
Definition fraction (s : text) : text := match strip_zeros s with [] => [] | t => "."%char :: t end.
Definition exponent_text (x : Z) : text :=
  str "e" ++ (if x <? 0 then str "-" else str "+") ++ (if Z.abs x <? 10 then str "0" else []) ++ decimal (Z.abs x).

(** The 17 digits, as a number, and the decimal exponent of the first of them. *)
Definition digits17 (num den : Z) : Z * Z :=
  let x := floor_log10 num den in
  let '(n, d) := scale 10 (x - 16) num den in
  let m := rnd_even n d in
  if m =? 10 ^ 17 then (10 ^ 16, x + 1) else (m, x).

(** "%.17g". *)
Definition print_g17 (d : double) : text :=
  match d with
  | S754_zero s => sign_text s ++ str "0"
  | S754_infinity s => sign_text s ++ str "inf"
  | S754_nan => str "nan"
  | S754_finite s m e =>
      let '(n, x) := digits17 (num_of m e) (den_of e) in
      let ds := decimal n in
      sign_text s ++
      (if (x <? -4) || (17 <=? x) then take 1 ds ++ fraction (drop 1 ds) ++ exponent_text x
       else if x <? 0 then str "0" ++ fraction (replicate (Z.to_nat (- x - 1)) "0"%char ++ ds)
       else take (Z.to_nat (x + 1)) ds ++ fraction (drop (Z.to_nat (x + 1)) ds))
  end.

(** ** strtod *)

Fixpoint span_digits (s : text) : text * text :=
  match s with
  | c :: t => if is_digit c then let '(ds, r) := span_digits t in (c :: ds, r) else ([], s)
  | [] => ([], [])
  end.
Definition read_sign (s : text) : bool * text :=
  match s with
  | c :: t => if bool_decide (c = "-"%char) then (true, t) else if bool_decide (c = "+"%char) then (false, t) else (false, s)
  | [] => (false, [])
  end.
(** An exponent, if there is one with a digit. *)
Definition read_exponent (s : text) : Z * text :=
  match s with
  | c :: t =>
      if bool_decide (c = "e"%char) || bool_decide (c = "E"%char) then
        let '(neg, t) := read_sign t in
        let '(ds, r) := span_digits t in
        match ds with [] => (0, s) | _ => ((if neg then - digits_value ds else digits_value ds), r) end
      else (0, s)
  | [] => (0, [])
  end.

(** The double and the text behind it, the whole text if there is no number.  (For texts
    without white space and letters other than "e" and "E": no "inf", "nan" or "0x".) *)
Definition strtod (s : text) : double * text :=
  let '(neg, s1) := read_sign s in
  let '(ip, s2) := span_digits s1 in
  let '(fp, s3) :=
    match s2 with
    | c :: t => if bool_decide (c = "."%char) then span_digits t else ([], s2)
    | [] => ([], [])
    end in
  match ip ++ fp with
  | [] => (S754_zero false, s)
  | ds =>
      let '(x, r) := read_exponent s3 in
      let x := x - Z.of_nat (length fp) in
      let v := digits_value ds in
      ((if v =? 0 then S754_zero neg else nearest neg (v * 10 ^ Z.max 0 x) (10 ^ Z.max 0 (- x))), r)
  end.

Example print_tenth : print_g17 (fst (strtod (str "0.1"))) = str "0.10000000000000001".
Proof. vm_compute. reflexivity. Qed.
Example print_dbl_max : print_g17 (fst (strtod (str "1.7976931348623157e+308"))) = str "1.7976931348623157e+308".
Proof. vm_compute. reflexivity. Qed.
Example print_dbl_min : print_g17 (fst (strtod (str "4.9406564584124654e-324"))) = str "4.9406564584124654e-324".
Proof. vm_compute. reflexivity. Qed.
Example print_integer : print_f (fst (strtod (str "-9007199254740991"))) = str "-9007199254740991".
Proof. vm_compute. reflexivity. Qed.
Example read_tenth : strtod (str "0.1e") = (S754_finite false 7205759403792794 (-56), str "e").
Proof. vm_compute. reflexivity. Qed.

(** ** Digits *)

Lemma Z_of_char_range c : 0 <= Z_of_char c < 256.
Proof. unfold Z_of_char. pose proof (N_ascii_bounded c). lia. Qed.

Lemma char_of_Z_of_char c : char_of_Z (Z_of_char c) = c.
Proof.
  unfold char_of_Z. rewrite u8_id by exact (Z_of_char_range c). unfold Z_of_char.
  by rewrite N2Z.id, ascii_N_embedding.
Qed.

Lemma Z_of_char_of_Z z : is_u8 z -> Z_of_char (char_of_Z z) = z.
Proof.
  intros Hz. unfold Z_of_char, char_of_Z. rewrite u8_id by done. unfold is_u8 in Hz.
  rewrite N_ascii_embedding by lia. lia.
Qed.

Lemma digit_value n : 0 <= n < 10 -> Z_of_char (digit n) = 48 + n.
Proof. intros Hn. unfold digit. rewrite Z_of_char_of_Z; [done|]. unfold is_u8. lia. Qed.

Lemma is_digit_digit n : 0 <= n < 10 -> is_digit (digit n) = true.
Proof. intros Hn. unfold is_digit. rewrite digit_value by done. lia. Qed.

Abbreviation digits := (Forall (λ c, is_digit c = true)).

Lemma fold_digits ds : forall n,
  fold_left (λ n c, 10 * n + (Z_of_char c - 48)) ds n = n * 10 ^ Z.of_nat (length ds) + digits_value ds.
Proof.
  unfold digits_value. induction ds as [|c ds IH]; intros n; cbn [fold_left length]; [lia|].
  rewrite IH, (IH (10 * 0 + _)). rewrite Nat2Z.inj_succ, Z.pow_succ_r by lia. lia.
Qed.

Lemma digits_value_app a b : digits_value (a ++ b) = digits_value a * 10 ^ Z.of_nat (length b) + digits_value b.
Proof. unfold digits_value at 1. rewrite fold_left_app. apply fold_digits. Qed.

Lemma digits_value_zeros k : digits_value (replicate k "0"%char) = 0.
Proof. induction k as [|k IH]; [done|]. unfold digits_value in *. cbn [replicate fold_left]. exact IH. Qed.

Lemma decimal_loop_spec fuel : forall n acc, 0 <= n < 2 ^ Z.of_nat fuel -> (0 < fuel)%nat -> digits acc ->
  exists ds, decimal_loop fuel n acc = ds ++ acc ∧ digits ds ∧ digits_value ds = n
    ∧ (0 < length ds)%nat ∧ n < 10 ^ Z.of_nat (length ds) ∧ (0 < n -> 10 ^ Z.of_nat (length ds) <= 10 * n).
Proof.
  induction fuel as [|fuel IH]; intros n acc Hn Hf Hacc; [lia|]. cbn [decimal_loop].
  destruct (Z.ltb_spec n 10) as [Hs|Hs].
  - exists [digit n]. split_and!; [done| | |cbn; lia|cbn; lia|cbn; lia].
    + apply Forall_singleton, is_digit_digit. lia.
    + unfold digits_value. cbn [fold_left]. rewrite digit_value by lia. lia.
  - assert (Hm : 0 <= n mod 10 < 10) by (apply Z.mod_pos_bound; lia).
    rewrite Nat2Z.inj_succ, Z.pow_succ_r in Hn by lia.
    assert (Hd : 0 <= n / 10 < 2 ^ Z.of_nat fuel).
    { split; [apply Z.div_pos; lia|]. apply Z.div_lt_upper_bound; lia. }
    destruct (IH (n / 10) (digit (n mod 10) :: acc) Hd) as (ds & E & H1 & H2 & H3 & H4 & H5).
    { destruct fuel; [cbn in Hd; lia|lia]. }
    { constructor; [by apply is_digit_digit|done]. }
    exists (ds ++ [digit (n mod 10)]). rewrite E, <- app_assoc. split_and!; [done| | | | |].
    + apply Forall_app. split; [done|]. by apply Forall_singleton, is_digit_digit.
    + rewrite digits_value_app, H2. unfold digits_value. cbn [fold_left length]. rewrite digit_value by done.
      rewrite Z.pow_1_r. pose proof (Z.div_mod n 10). lia.
    + rewrite length_app. cbn. lia.
    + rewrite length_app, Nat2Z.inj_add, Z.pow_add_r by lia. cbn [length].
      pose proof (Z.div_mod n 10). change (10 ^ Z.of_nat 1) with 10. lia.
    + intros _. rewrite length_app, Nat2Z.inj_add, Z.pow_add_r by lia. cbn [length].
      pose proof (Z.div_mod n 10). change (10 ^ Z.of_nat 1) with 10. lia.
Qed.

Lemma decimal_spec n : 0 <= n ->
  digits (decimal n) ∧ digits_value (decimal n) = n ∧ (0 < length (decimal n))%nat
    ∧ n < 10 ^ Z.of_nat (length (decimal n)) ∧ (0 < n -> 10 ^ Z.of_nat (length (decimal n)) <= 10 * n).
Proof.
  intros Hn. unfold decimal.
  destruct (decimal_loop_spec (S (Z.to_nat (Z.log2 n))) n []) as (ds & -> & H); [|lia|done|].
  - split; [done|]. rewrite Nat2Z.inj_succ, Z2Nat.id by apply Z.log2_nonneg.
    destruct (Z.eq_dec n 0) as [->|]; [done|]. apply Z.log2_spec. lia.
  - by rewrite app_nil_r.
Qed.

Lemma decimal_length n k : 0 <= k -> 10 ^ k <= n < 10 ^ (k + 1) -> Z.of_nat (length (decimal n)) = k + 1.
Proof.
  intros Hk [H1 H2]. assert (0 < 10 ^ k) by (apply Z.pow_pos_nonneg; lia).
  destruct (decimal_spec n) as (_ & _ & _ & H3 & H4); [lia|]. specialize (H4 ltac:(lia)).
  apply Z.le_antisymm.
  - apply Z.lt_succ_r, (Z.pow_lt_mono_r_iff 10); [lia|lia|]. rewrite <- Z.add_1_r, Z.pow_add_r by lia.
    change (10 ^ 1) with 10. lia.
  - apply Z.lt_pred_le, (Z.pow_lt_mono_r_iff 10); [lia|lia|]. replace (Z.pred (k + 1)) with k by lia. lia.
Qed.

(** ** Rounding, in rational numbers *)

Definition ratio (num den : Z) : Q := inject_Z num / inject_Z den.
(** [b^k] for a [k] of any sign. *)
Definition pow (b k : Z) : Q := Qpower (inject_Z b) k.

Lemma inject_pos z : 0 < z -> (0 < inject_Z z)%Q.
Proof. intros H. change 0%Q with (inject_Z 0). by rewrite <- Zlt_Qlt. Qed.

Lemma ratio_pos num den : 0 < num -> 0 < den -> (0 < ratio num den)%Q.
Proof.
  intros Hn Hd. unfold ratio. apply Qlt_shift_div_l; [by apply inject_pos|].
  rewrite Qmult_0_l. by apply inject_pos.
Qed.

Lemma pow_pos b k : 0 < b -> (0 < pow b k)%Q.
Proof. intros Hb. apply Qpower_0_lt, inject_pos, Hb. Qed.

Lemma pow_add b j k : 0 < b -> (pow b (j + k) == pow b j * pow b k)%Q.
Proof. intros Hb. apply Qpower_plus. intros H. pose proof (inject_pos b Hb) as P. rewrite H in P. by apply Qlt_irrefl in P. Qed.

Lemma pow_nonneg b k : 0 <= k -> (pow b k == inject_Z (b ^ k))%Q.
Proof. intros Hk. unfold pow. by rewrite Zpower_Qpower. Qed.

Lemma pow_le b j k : 1 < b -> j <= k -> (pow b j <= pow b k)%Q.
Proof. intros Hb Hj. apply Qpower_le_compat_l; [done|]. change 1%Q with (inject_Z 1). rewrite <- Zle_Qle. lia. Qed.

Lemma pow_lt_inv b j k : 1 < b -> (pow b j < pow b k)%Q -> j < k.
Proof.
  intros Hb H. destruct (Z.le_gt_cases k j) as [Hj|]; [|done]. apply (pow_le b) in Hj; [|done].
  by apply Qle_not_lt in Hj.
Qed.

(** The positive and the negative part of an exponent. *)
Lemma pow_parts b k : 0 < b -> (pow b k * inject_Z (b ^ Z.max 0 (- k)) == inject_Z (b ^ Z.max 0 k))%Q.
Proof.
  intros Hb. rewrite <- !pow_nonneg by lia. rewrite <- pow_add by done. by replace (k + Z.max 0 (- k)) with (Z.max 0 k) by lia.
Qed.

Lemma scale_spec b k num den : 0 < b -> 0 < num -> 0 < den ->
  let '(n, d) := scale b k num den in 0 < n ∧ 0 < d ∧ (ratio n d * pow b k == ratio num den)%Q.
Proof.
  intros Hb Hn Hd. unfold scale.
  assert (H1 : 0 < b ^ Z.max 0 (- k)) by (apply Z.pow_pos_nonneg; lia).
  assert (H2 : 0 < b ^ Z.max 0 k) by (apply Z.pow_pos_nonneg; lia).
  split_and!; [lia|lia|]. unfold ratio. rewrite !inject_Z_mult, <- (pow_parts b k) by done.
  pose proof (inject_pos _ H1). pose proof (inject_pos _ Hd). pose proof (pow_pos b k Hb).
  field. repeat split; intros E; rewrite E in *; by eapply Qlt_irrefl.
Qed.

Lemma num_den_spec m e : (ratio (num_of m e) (den_of e) == inject_Z (Zpos m) * pow 2 e)%Q ∧ 0 < num_of m e ∧ 0 < den_of e.
Proof.
  unfold num_of, den_of. assert (H1 : 0 < 2 ^ Z.max 0 (- e)) by (apply Z.pow_pos_nonneg; lia).
  assert (H2 : 0 < 2 ^ Z.max 0 e) by (apply Z.pow_pos_nonneg; lia). split_and!; [|lia|lia].
  unfold ratio. rewrite inject_Z_mult, <- (pow_parts 2 e) by done. pose proof (inject_pos _ H1).
  field. intros E; rewrite E in *; by eapply Qlt_irrefl.
Qed.

Lemma ratio_mult num den : 0 < den -> (ratio num den * inject_Z den == inject_Z num)%Q.
Proof. intros Hd. unfold ratio. pose proof (inject_pos _ Hd). field. intros E; rewrite E in *; by eapply Qlt_irrefl. Qed.

(** [num / den] against an integer, without the division. *)
Lemma ratio_le z num den : 0 < den -> (inject_Z z <= ratio num den)%Q <-> z * den <= num.
Proof.
  intros Hd. rewrite <- (Qmult_le_r _ _ (inject_Z den)) by by apply inject_pos.
  by rewrite ratio_mult, <- inject_Z_mult, <- Zle_Qle.
Qed.
Lemma ratio_lt z num den : 0 < den -> (ratio num den < inject_Z z)%Q <-> num < z * den.
Proof.
  intros Hd. rewrite <- (Qmult_lt_r _ _ (inject_Z den)) by by apply inject_pos.
  by rewrite ratio_mult, <- inject_Z_mult, <- Zlt_Qlt.
Qed.

(** Near means at most, or less than, one half away. *)
Lemma rnd_even_near num den : 0 < den ->
  (- (1 # 2) <= inject_Z (rnd_even num den) - ratio num den /\ inject_Z (rnd_even num den) - ratio num den <= 1 # 2)%Q.
Proof.
  intros Hd. assert (H : 2 * (rnd_even num den * den - num) <= den ∧ - den <= 2 * (rnd_even num den * den - num)).
  { unfold rnd_even. pose proof (Z.div_mod num den ltac:(lia)). pose proof (Z.mod_pos_bound num den Hd).
    destruct (Z.compare_spec (2 * (num mod den)) den); [destruct (Z.even _)| |]; lia. }
  destruct H as [H1 H2]. rewrite Zle_Qle in H1, H2. pose proof (ratio_mult num den Hd) as R.
  pose proof (inject_pos _ Hd) as P. revert H1 H2. unfold Z.sub. rewrite !inject_Z_mult, !inject_Z_plus, !inject_Z_opp, !inject_Z_mult.
  rewrite <- R. change (inject_Z 2) with (2 # 1). intros H1 H2.
  split; apply (Qmult_le_r _ _ (inject_Z den)); try done; nra.
Qed.

Lemma rnd_even_unique num den z : 0 < den ->
  (- (1 # 2) < inject_Z z - ratio num den)%Q -> (inject_Z z - ratio num den < 1 # 2)%Q -> rnd_even num den = z.
Proof.
  intros Hd H1 H2. destruct (rnd_even_near num den Hd) as [H3 H4].
  assert (H5 : (inject_Z (rnd_even num den) < inject_Z (z + 1))%Q) by (rewrite inject_Z_plus; change (inject_Z 1) with 1%Q; lra).
  assert (H6 : (inject_Z z < inject_Z (rnd_even num den + 1))%Q) by (rewrite inject_Z_plus; change (inject_Z 1) with 1%Q; lra).
  rewrite <- Zlt_Qlt in H5, H6. lia.
Qed.

(** ** Exponents *)

Lemma floor_log_spec b guess num den : 1 < b -> 0 < num -> 0 < den ->
  (pow b (guess - 1) <= ratio num den)%Q -> (ratio num den < pow b (guess + 1))%Q ->
  let k := floor_log b guess num den in (pow b k <= ratio num den /\ ratio num den < pow b (k + 1))%Q.
Proof.
  intros Hb Hn Hd H1 H2. unfold floor_log. pose proof (scale_spec b guess num den ltac:(lia) Hn Hd) as S.
  destruct (scale b guess num den) as [n d]. destruct S as (Hn' & Hd' & S).
  pose proof (pow_pos b guess ltac:(lia)) as P.
  destruct (Z.leb_spec d n) as [H|H].
  - split; [|done]. rewrite <- S.
    apply Qle_trans with (1 * pow b guess)%Q; [rewrite Qmult_1_l; apply Qle_refl|].
    apply Qmult_le_compat_r; [|by apply Qlt_le_weak]. change 1%Q with (inject_Z 1). apply ratio_le; lia.
  - split; [done|]. replace (guess - 1 + 1) with guess by lia. rewrite <- S.
    apply Qlt_le_trans with (1 * pow b guess)%Q; [|rewrite Qmult_1_l; apply Qle_refl].
    apply Qmult_lt_compat_r; [done|]. change 1%Q with (inject_Z 1). apply ratio_lt; lia.
Qed.

(** The number of digits tells the exponent up to one. *)
Lemma guess_spec b a c num den : 1 < b -> 0 < num -> 0 < den ->
  b ^ a <= num < b ^ (a + 1) -> b ^ c <= den < b ^ (c + 1) -> 0 <= a -> 0 <= c ->
  (pow b (a - c - 1) <= ratio num den /\ ratio num den < pow b (a - c + 1))%Q.
Proof.
  intros Hb Hn Hd [A1 A2] [C1 C2] Ha Hc. rewrite Zle_Qle in A1, C1. rewrite Zlt_Qlt in A2, C2.
  rewrite <- !pow_nonneg in * by lia. pose proof (ratio_mult num den Hd) as R.
  pose proof (inject_pos _ Hd) as P.
  split.
  - apply (Qmult_le_r _ _ (inject_Z den)); [done|]. rewrite R.
    apply Qle_trans with (pow b (a - c - 1) * pow b (c + 1))%Q.
    + rewrite !(Qmult_comm (pow b (a - c - 1))). apply Qmult_le_compat_r; [by apply Qlt_le_weak|]. apply Qlt_le_weak, pow_pos. lia.
    + rewrite <- pow_add by lia. by replace (a - c - 1 + (c + 1)) with a by lia.
  - apply (Qmult_lt_r _ _ (inject_Z den)); [done|]. rewrite R.
    apply Qlt_le_trans with (pow b (a - c + 1) * pow b c)%Q.
    + rewrite <- pow_add by lia. by replace (a - c + 1 + c) with (a + 1) by lia.
    + rewrite !(Qmult_comm (pow b (a - c + 1))). apply Qmult_le_compat_r; [done|]. apply Qlt_le_weak, pow_pos. lia.
Qed.

Lemma floor_log2_spec num den : 0 < num -> 0 < den ->
  let k := floor_log2 num den in (pow 2 k <= ratio num den /\ ratio num den < pow 2 (k + 1))%Q.
Proof.
  intros Hn Hd. pose proof (Z.log2_spec num Hn). pose proof (Z.log2_spec den Hd).
  destruct (guess_spec 2 (Z.log2 num) (Z.log2 den) num den); rewrite ?Z.add_1_r; auto using Z.log2_nonneg; try lia.
  by apply floor_log_spec.
Qed.

Lemma floor_log10_spec num den : 0 < num -> 0 < den ->
  let k := floor_log10 num den in (pow 10 k <= ratio num den /\ ratio num den < pow 10 (k + 1))%Q.
Proof.
  intros Hn Hd.
  assert (D : forall n, 0 < n -> exists k, 0 <= k ∧ Z.of_nat (length (decimal n)) = k + 1 ∧ 10 ^ k <= n < 10 ^ (k + 1)).
  { intros n Hp. destruct (decimal_spec n) as (_ & _ & H1 & H2 & H3); [lia|].
    exists (Z.of_nat (length (decimal n)) - 1). rewrite Z.sub_add. split_and!; try lia. specialize (H3 Hp).
    replace (Z.of_nat (length (decimal n))) with (Z.of_nat (length (decimal n)) - 1 + 1) in H3 by lia.
    rewrite Z.pow_add_r in H3 by lia. change (10 ^ 1) with 10 in H3. lia. }
  destruct (D num Hn) as (a & Ha & Ea & A). destruct (D den Hd) as (c & Hc & Ec & C).
  unfold floor_log10. rewrite Ea, Ec. replace (a + 1 - (c + 1)) with (a - c) by lia.
  destruct (guess_spec 10 a c num den); auto; [lia|]. by apply floor_log_spec.
Qed.

(** ** The nearest double *)

Lemma digits2_log2 m : Zpos (digits2_pos m) = Z.log2 (Zpos m) + 1.
Proof.
  assert (E : digits2_pos m = Pos.size m) by (induction m as [m IH|m IH|]; cbn; rewrite ?IH; done).
  rewrite E. destruct m; cbn; lia.
Qed.

Lemma canonical_cases s m e : canonical (S754_finite s m e) = true ->
  -1074 <= e <= 971 ∧ Zpos m < 2 ^ 53 ∧ (2 ^ 52 <= Zpos m ∨ e = -1074).
Proof.
  unfold canonical, valid_binary, bounded, canonical_mantissa, fexp, emin. rewrite digits2_log2.
  intros [H1%Z.eqb_eq H2%Z.leb_le]%andb_prop. pose proof (Z.log2_spec (Zpos m) ltac:(lia)) as [L1 L2].
  split_and!; [lia|lia| |].
  - apply Z.lt_le_trans with (2 ^ Z.succ (Z.log2 (Zpos m))); [done|]. apply Z.pow_le_mono_r; lia.
  - destruct (Z.eq_dec e (-1074)); [by right|left]. transitivity (2 ^ Z.log2 (Zpos m)); [|done]. apply Z.pow_le_mono_r; lia.
Qed.

Lemma inject_le_pow (m : Z) k e : 0 <= k -> 2 ^ k <= m -> (pow 2 (k + e) <= inject_Z m * pow 2 e)%Q.
Proof.
  intros Hk Hm. rewrite pow_add by lia. rewrite pow_nonneg by done.
  apply Qmult_le_compat_r; [by rewrite <- Zle_Qle|]. apply Qlt_le_weak, pow_pos. lia.
Qed.

(** The exponent of a fraction between two powers of two. *)
Lemma floor_log2_unique num den k : 0 < num -> 0 < den ->
  (pow 2 k <= ratio num den)%Q -> (ratio num den < pow 2 (k + 1))%Q -> floor_log2 num den = k.
Proof.
  intros Hn Hd H1 H2. destruct (floor_log2_spec num den Hn Hd) as [H3 H4].
  assert (floor_log2 num den < k + 1) by (apply (pow_lt_inv 2); [lia|by eapply Qle_lt_trans]).
  assert (k < floor_log2 num den + 1) by (apply (pow_lt_inv 2); [lia|by eapply Qle_lt_trans]). lia.
Qed.

Lemma floor_log2_below num den k : 0 < num -> 0 < den -> (ratio num den < pow 2 (k + 1))%Q -> floor_log2 num den <= k.
Proof.
  intros Hn Hd H1. destruct (floor_log2_spec num den Hn Hd) as [H3 H4].
  assert (floor_log2 num den < k + 1) by (apply (pow_lt_inv 2); [lia|by eapply Qle_lt_trans]). lia.
Qed.

(** Rounding to the exponent [e] a fraction that is less than half a unit from [z]. *)
Lemma rnd_scaled num den e z : 0 < num -> 0 < den ->
  (- (1 # 2) * pow 2 e < inject_Z z * pow 2 e - ratio num den)%Q ->
  (inject_Z z * pow 2 e - ratio num den < (1 # 2) * pow 2 e)%Q ->
  let '(n, d) := scale 2 e num den in rnd_even n d = z.
Proof.
  intros Hn Hd H1 H2. pose proof (scale_spec 2 e num den ltac:(lia) Hn Hd) as S.
  destruct (scale 2 e num den) as [n d]. destruct S as (Hn' & Hd' & S). rewrite <- S in H1, H2.
  pose proof (pow_pos 2 e ltac:(lia)) as P.
  apply rnd_even_unique; [done| |]; apply (Qmult_lt_r _ _ (pow 2 e)); try done; lra.
Qed.

Lemma nearest_spec neg m e num den : canonical (S754_finite neg m e) = true -> 0 < num -> 0 < den ->
  let v := (inject_Z (Zpos m) * pow 2 e)%Q in
  (- (1 # 2) * pow 2 e < v - ratio num den)%Q -> (v - ratio num den < (1 # 2) * pow 2 e)%Q ->
  (Zpos m = 2 ^ 52 -> (v - ratio num den < (1 # 4) * pow 2 e)%Q) ->
  nearest neg num den = S754_finite neg m e.
Proof.
  intros Hc Hn Hd v H1 H2 H3. apply canonical_cases in Hc as (He & Hm & Hlow).
  pose proof (pow_pos 2 e ltac:(lia)) as P. unfold nearest.
  assert (Hup : (ratio num den < pow 2 (52 + e + 1))%Q).
  { replace (52 + e + 1) with (53 + e) by lia. rewrite pow_add, pow_nonneg by lia.
    assert (inject_Z (Zpos m) + 1 <= inject_Z (2 ^ 53))%Q.
    { change 1%Q with (inject_Z 1). rewrite <- inject_Z_plus, <- Zle_Qle. lia. }
    assert ((inject_Z (Zpos m) + 1) * pow 2 e <= inject_Z (2 ^ 53) * pow 2 e)%Q by (apply Qmult_le_compat_r; [done|by apply Qlt_le_weak]).
    subst v. lra. }
  pose proof (floor_log2_below _ _ _ Hn Hd Hup) as Hk.
  assert (Hsame : Z.max (floor_log2 num den - 52) (-1074) = e ->
    (let e := Z.max (floor_log2 num den - 52) (-1074) in
     let '(n, d) := scale 2 e num den in
     let m := rnd_even n d in
     let '(m, e) := if m =? 2 ^ 53 then (2 ^ 52, e + 1) else (m, e) in
     if m <=? 0 then S754_zero neg else if e <=? 971 then S754_finite neg (Z.to_pos m) e else S754_infinity neg)
    = S754_finite neg m e).
  { intros E. cbv zeta. rewrite E. pose proof (rnd_scaled num den e (Zpos m) Hn Hd H1 H2) as R.
    destruct (scale 2 e num den) as [n d]. rewrite R. destruct (Z.eqb_spec (Zpos m) (2 ^ 53)); [lia|].
    cbn [Z.leb Z.compare]. destruct (Z.leb_spec e 971); [done|lia]. }
  destruct (Qlt_le_dec (ratio num den) (pow 2 (52 + e))) as [Hlt|Hge].
  - (* below the power of two the doubles are twice as dense *)
    destruct (Z.eq_dec e (-1074)) as [->|Hne]; [apply Hsame; lia|].
    assert (Em : Zpos m = 2 ^ 52).
    { destruct Hlow as [Hlow|]; [|done]. destruct (Z.eq_dec (Zpos m) (2 ^ 52)); [done|exfalso].
      rewrite pow_add, pow_nonneg in Hlt by lia.
      assert (inject_Z (2 ^ 52) + 1 <= inject_Z (Zpos m))%Q.
      { change 1%Q with (inject_Z 1). rewrite <- inject_Z_plus, <- Zle_Qle. lia. }
      assert ((inject_Z (2 ^ 52) + 1) * pow 2 e <= inject_Z (Zpos m) * pow 2 e)%Q by (apply Qmult_le_compat_r; [done|by apply Qlt_le_weak]).
      subst v. lra. }
    specialize (H3 Em). subst v. rewrite Em in *.
    assert (Ee : (pow 2 e == 2 * pow 2 (e - 1))%Q).
    { replace e with (1 + (e - 1)) at 1 by lia. rewrite pow_add by lia. reflexivity. }
    assert (E52 : (pow 2 (52 + e) == inject_Z (2 ^ 52) * pow 2 e)%Q) by (rewrite pow_add, pow_nonneg by lia; reflexivity).
    assert (E51 : (2 * pow 2 (51 + e) == pow 2 (52 + e))%Q).
    { replace (52 + e) with (1 + (51 + e)) by lia. rewrite (pow_add 2 1) by lia. reflexivity. }
    assert (E53 : (inject_Z (2 ^ 53) * pow 2 (e - 1) == inject_Z (2 ^ 52) * pow 2 e)%Q).
    { rewrite Ee. change (inject_Z (2 ^ 53)) with (2 * inject_Z (2 ^ 52))%Q. ring. }
    assert (B : (1 <= inject_Z (2 ^ 52))%Q) by (change 1%Q with (inject_Z 1); rewrite <- Zle_Qle; lia).
    assert (B' : (1 * pow 2 e <= inject_Z (2 ^ 52) * pow 2 e)%Q) by (apply Qmult_le_compat_r; [done|by apply Qlt_le_weak]).
    rewrite (floor_log2_unique num den (51 + e)); [|done|done|lra|by replace (51 + e + 1) with (52 + e) by lia].
    replace (Z.max (51 + e - 52) (-1074)) with (e - 1) by lia.
    pose proof (rnd_scaled num den (e - 1) (2 ^ 53) Hn Hd) as R.
    destruct (scale 2 (e - 1) num den) as [n d]. rewrite R; [|rewrite E53; lra|rewrite E53; lra].
    rewrite Z.eqb_refl. replace (e - 1 + 1) with e by lia. cbn [Z.leb Z.compare]. rewrite <- Em.
    destruct (Z.leb_spec e 971); [done|lia].
  - apply Hsame. rewrite (floor_log2_unique num den (52 + e)); [lia|done..].
Qed.

(** ** Seventeen digits *)

(** What is printed differs from the number by less than its 2 * 10^16th part. *)
Lemma digits17_spec num den : 0 < num -> 0 < den ->
  let '(n, x) := digits17 num den in
  10 ^ 16 <= n < 10 ^ 17
  ∧ (- ratio num den <= inject_Z (2 * 10 ^ 16) * (ratio num den - inject_Z n * pow 10 (x - 16)))%Q
  ∧ (inject_Z (2 * 10 ^ 16) * (ratio num den - inject_Z n * pow 10 (x - 16)) <= ratio num den)%Q.
Proof.
  intros Hn Hd. destruct (floor_log10_spec num den Hn Hd) as [L1 L2]. unfold digits17.
  set (k := floor_log10 num den) in *. pose proof (scale_spec 10 (k - 16) num den ltac:(lia) Hn Hd) as S.
  destruct (scale 10 (k - 16) num den) as [n d]. destruct S as (Hn' & Hd' & S).
  pose proof (pow_pos 10 (k - 16) ltac:(lia)) as P. set (u := pow 10 (k - 16)) in *.
  assert (E16 : (pow 10 k == inject_Z (10 ^ 16) * u)%Q).
  { subst u. rewrite <- pow_nonneg, <- pow_add by lia. by replace (16 + (k - 16)) with k by lia. }
  assert (E17 : (pow 10 (k + 1) == inject_Z (10 ^ 17) * u)%Q).
  { subst u. rewrite <- pow_nonneg, <- pow_add by lia. by replace (17 + (k - 16)) with (k + 1) by lia. }
  assert (R1 : 10 ^ 16 * d <= n). { apply ratio_le; [done|]. apply (Qmult_le_r _ _ u); [done|]. lra. }
  assert (R2 : n < 10 ^ 17 * d). { apply ratio_lt; [done|]. apply (Qmult_lt_r _ _ u); [done|]. lra. }
  assert (M : 10 ^ 16 <= rnd_even n d <= 10 ^ 17).
  { unfold rnd_even. pose proof (Z.div_mod n d ltac:(lia)). pose proof (Z.mod_pos_bound n d Hd').
    assert (10 ^ 16 <= n / d) by (apply Z.div_le_lower_bound; lia).
    assert (n / d < 10 ^ 17) by (apply Z.div_lt_upper_bound; lia).
    destruct (Z.compare_spec (2 * (n mod d)) d); [destruct (Z.even _)| |]; lia. }
  destruct (rnd_even_near n d Hd') as [N1 N2]. set (m := rnd_even n d) in *.
  assert (T1 : (- (1 # 2) * u <= (inject_Z m - ratio n d) * u)%Q) by (apply Qmult_le_compat_r; [done|by apply Qlt_le_weak]).
  assert (T2 : ((inject_Z m - ratio n d) * u <= (1 # 2) * u)%Q) by (apply Qmult_le_compat_r; [done|by apply Qlt_le_weak]).
  change (inject_Z (2 * 10 ^ 16)) with (2 * inject_Z (10 ^ 16))%Q.
  assert (G : (- ratio num den <= 2 * inject_Z (10 ^ 16) * (ratio num den - inject_Z m * u)
            /\ 2 * inject_Z (10 ^ 16) * (ratio num den - inject_Z m * u) <= ratio num den)%Q).
  { rewrite <- S in L1 |- *. change (inject_Z (10 ^ 16)) with (10000000000000000 # 1)%Q in *. split; lra. }
  destruct (Z.eqb_spec m (10 ^ 17)) as [Em|]; [|split_and!; [lia|lia|apply G..]].
  assert (E : (inject_Z (10 ^ 16) * pow 10 (k + 1 - 16) == inject_Z m * u)%Q).
  { replace (k + 1 - 16) with (1 + (k - 16)) by lia. rewrite pow_add by lia. fold u. rewrite Em.
    change (inject_Z (10 ^ 17)) with (inject_Z (10 ^ 16) * pow 10 1)%Q. ring. }
  split_and!; [lia|lia| |]; rewrite E; apply G.
Qed.

(** Which is near enough to find the double again. *)
Lemma nearest_digits17 neg m e num den n x : canonical (S754_finite neg m e) = true ->
  digits17 (num_of m e) (den_of e) = (n, x) ->
  0 < num -> 0 < den -> (ratio num den == inject_Z n * pow 10 (x - 16))%Q ->
  nearest neg num den = S754_finite neg m e.
Proof.
  intros Hc E Hn Hd R. destruct (num_den_spec m e) as (V & Hvn & Hvd).
  pose proof (digits17_spec _ _ Hvn Hvd) as D. rewrite E in D. destruct D as (_ & D1 & D2).
  rewrite <- R, V in D1, D2. change (inject_Z (2 * 10 ^ 16)) with (20000000000000000 # 1)%Q in *.
  pose proof (canonical_cases _ _ _ Hc) as (_ & Hm & _). pose proof (pow_pos 2 e ltac:(lia)) as P.
  assert (Hm' : (inject_Z (Zpos m) * pow 2 e <= (9007199254740992 # 1) * pow 2 e)%Q).
  { apply Qmult_le_compat_r; [|by apply Qlt_le_weak]. change (9007199254740992 # 1)%Q with (inject_Z (2 ^ 53)). rewrite <- Zle_Qle. lia. }
  apply nearest_spec; [done..| | |]; [lra|lra|]. intros Em. rewrite Em in *. change (inject_Z (2 ^ 52)) with (4503599627370496 # 1)%Q in *. lra.
Qed.

(** An integral double is printed exactly. *)
Lemma nearest_exact neg m e num den : canonical (S754_finite neg m e) = true -> 0 < num -> 0 < den ->
  (ratio num den == inject_Z (Zpos m) * pow 2 e)%Q -> nearest neg num den = S754_finite neg m e.
Proof.
  intros Hc Hn Hd R. pose proof (pow_pos 2 e ltac:(lia)) as P.
  apply nearest_spec; [done..| | |]; intros; rewrite ?R; lra.
Qed.

(** ** Reading what was printed *)

Definition no_digit (s : text) : Prop := match s with c :: _ => is_digit c = false | [] => True end.

Lemma span_digits_app ds rest : digits ds -> no_digit rest -> span_digits (ds ++ rest) = (ds, rest).
Proof.
  intros Hds Hr. induction Hds as [|c ds Hc _ IH]; cbn [app].
  - destruct rest as [|c rest]; [done|]. cbn in *. by rewrite Hr.
  - cbn [span_digits]. by rewrite Hc, IH.
Qed.

Lemma read_sign_text neg s : match s with c :: _ => is_digit c = true | [] => False end ->
  read_sign (sign_text neg ++ s) = (neg, s).
Proof.
  intros Hs. destruct neg; [done|]. destruct s as [|c s]; [done|]. cbn. 
  rewrite !bool_decide_eq_false_2; [done| |]; by intros ->.
Qed.

Lemma strip_zeros_spec s : exists k, s = strip_zeros s ++ replicate k "0"%char.
Proof.
  induction s as [|c s [k IH]]; [by exists 0%nat|]. cbn [strip_zeros]. destruct (strip_zeros s) as [|d t] eqn:E.
  - case_bool_decide as Hc; [exists (S k); subst c; by rewrite IH at 1|exists k; by rewrite IH at 1].
  - exists k. by rewrite IH at 1.
Qed.

Lemma digits_app a b : digits (a ++ b) <-> digits a ∧ digits b.
Proof. apply Forall_app. Qed.

Lemma digits_hd ds rest : digits ds -> ds ≠ [] -> match ds ++ rest with c :: _ => is_digit c = true | [] => False end.
Proof. intros [|c ds' Hc _]; [done|]. done. Qed.

(** The exponent, and what may stand behind the digits. *)
Definition ends_digits (x : Z) (ext : text) : Prop :=
  read_exponent ext = (x, []) ∧ no_digit ext ∧ head ext ≠ Some "."%char.

Lemma ends_digits_nil : ends_digits 0 [].
Proof. done. Qed.

Lemma ends_digits_exponent x : ends_digits x (exponent_text x).
Proof.
  destruct (decimal_spec (Z.abs x)) as (D1 & D2 & D3 & _); [lia|]. split_and!; [|done|done].
  set (ds := (if Z.abs x <? 10 then str "0" else []) ++ decimal (Z.abs x)).
  assert (Hds : digits ds) by (apply digits_app; split; [by destruct (_ <? _); repeat constructor|done]).
  assert (Hv : digits_value ds = Z.abs x) by (subst ds; rewrite digits_value_app, D2; by destruct (_ <? _)).
  assert (Hne : ds ≠ []) by (subst ds; destruct (_ <? _); [done|]; intros E; cbn [app] in E; rewrite E in D3; cbn in D3; lia).
  change (exponent_text x) with ("e"%char :: ((if x <? 0 then str "-" else str "+") ++ ds)). cbn [read_exponent].
  rewrite bool_decide_eq_true_2 by done. cbn [orb].
  destruct (Z.ltb_spec x 0) as [Hx|Hx]; cbn [app str list_ascii_of_string read_sign].
  - rewrite bool_decide_eq_true_2 by done. rewrite <- (app_nil_r ds), span_digits_app, Hv by done.
    destruct ds; [done|]. f_equal. lia.
  - rewrite bool_decide_eq_false_2, bool_decide_eq_true_2 by done. rewrite <- (app_nil_r ds), span_digits_app, Hv by done.
    destruct ds; [done|]. f_equal. lia.
Qed.

Lemma strtod_parts neg ip fp ext x : digits ip -> ip ≠ [] -> digits fp -> ends_digits x ext ->
  strtod (sign_text neg ++ ip ++ (match fp with [] => [] | _ => "."%char :: fp end) ++ ext)
  = ((let v := digits_value (ip ++ fp) in let y := x - Z.of_nat (length fp) in
      if v =? 0 then S754_zero neg else nearest neg (v * 10 ^ Z.max 0 y) (10 ^ Z.max 0 (- y))), []).
Proof.
  intros Hi Hne Hf (He & Hd & Hp). unfold strtod. rewrite read_sign_text by by apply digits_hd.
  assert (E : span_digits (ip ++ (match fp with [] => [] | _ => "."%char :: fp end) ++ ext)
            = (ip, (match fp with [] => [] | _ => "."%char :: fp end) ++ ext)).
  { apply span_digits_app; [done|]. by destruct fp. }
  rewrite E. clear E.
  assert (E : match (match fp with [] => [] | _ => "."%char :: fp end) ++ ext with
    | c :: t => if bool_decide (c = "."%char) then span_digits t else ([], (match fp with [] => [] | _ => "."%char :: fp end) ++ ext)
    | [] => ([], [])
    end = (fp, ext)).
  { destruct fp as [|c fp].
    - cbn [app]. destruct ext as [|c ext]; [done|]. rewrite bool_decide_eq_false_2; [done|]. intros ->. by apply Hp.
    - cbn [app]. rewrite bool_decide_eq_true_2 by done. by apply (span_digits_app (c :: fp)). }
  rewrite E, He. destruct ip; [done|]. reflexivity.
Qed.

(** Digits with a fraction, its zeros at the end removed, name the number they named before. *)
Lemma strtod_fraction neg ip f ext x n : digits ip -> ip ≠ [] -> digits f -> ends_digits x ext ->
  digits_value (ip ++ f) = n -> 0 < n ->
  exists num den, 0 < num ∧ 0 < den ∧ (ratio num den == inject_Z n * pow 10 (x - Z.of_nat (length f)))%Q
  ∧ strtod (sign_text neg ++ ip ++ fraction f ++ ext) = (nearest neg num den, []).
Proof.
  intros Hi Hne Hf He Hn Hpos. destruct (strip_zeros_spec f) as [k Ek]. set (fp := strip_zeros f) in *.
  assert (Hfp : digits fp) by (rewrite Ek in Hf; by apply digits_app in Hf as [? _]).
  assert (Ef : fraction f = match fp with [] => [] | _ => "."%char :: fp end) by (unfold fraction; fold fp; by destruct fp).
  rewrite Ef, (strtod_parts neg ip fp ext x) by done. cbv zeta.
  set (v := digits_value (ip ++ fp)). set (y := x - Z.of_nat (length fp)).
  assert (Hv : n = v * 10 ^ Z.of_nat k).
  { rewrite <- Hn, Ek, app_assoc, digits_value_app, digits_value_zeros, length_replicate. subst v. lia. }
  assert (0 < 10 ^ Z.of_nat k) by (apply Z.pow_pos_nonneg; lia). assert (Hv0 : 0 < v) by nia.
  destruct (Z.eqb_spec v 0); [lia|].
  assert (H1 : 0 < 10 ^ Z.max 0 y) by (apply Z.pow_pos_nonneg; lia).
  assert (H2 : 0 < 10 ^ Z.max 0 (- y)) by (apply Z.pow_pos_nonneg; lia).
  eexists _, _. split_and!; [| | |reflexivity]; [lia|lia|].
  replace (x - Z.of_nat (length f)) with (y - Z.of_nat k) by (subst y; rewrite Ek, length_app, length_replicate; lia).
  assert (E : (pow 10 y == inject_Z (10 ^ Z.of_nat k) * pow 10 (y - Z.of_nat k))%Q).
  { rewrite <- pow_nonneg, <- pow_add by lia. by replace (Z.of_nat k + (y - Z.of_nat k)) with y by lia. }
  rewrite Hv, inject_Z_mult. rewrite <- Qmult_assoc, <- E. unfold ratio.
  rewrite inject_Z_mult, <- (pow_parts 10 y) by done. pose proof (inject_pos _ H2).
  field. intros E0; rewrite E0 in *; by eapply Qlt_irrefl.
Qed.

(** The value is an integer. *)
Definition integral (d : double) : bool :=
  match d with
  | S754_zero _ => true
  | S754_finite _ m e => num_of m e mod den_of e =? 0
  | _ => false
  end.

Lemma strtod_zero s : strtod (sign_text s ++ str "0") = (S754_zero s, []).
Proof. by destruct s. Qed.

Lemma decimal_nonempty n : 0 <= n -> decimal n ≠ [].
Proof. intros Hn E. destruct (decimal_spec n Hn) as (_ & _ & H & _). rewrite E in H. cbn in H. lia. Qed.

(** An integer printed without fraction reads back. *)
Theorem strtod_print_f (d : double) : canonical d = true -> integral d = true -> strtod (print_f d) = (d, []).
Proof.
  intros Hc Hi. destruct d as [s|s| |s m e]; [apply strtod_zero|done|done|]. cbn [integral print_f] in *. apply Z.eqb_eq in Hi.
  destruct (num_den_spec m e) as (V & Hn & Hd). set (n := rnd_even (num_of m e) (den_of e)).
  assert (En : num_of m e = n * den_of e).
  { subst n. unfold rnd_even. rewrite Hi. pose proof (Z.div_mod (num_of m e) (den_of e)).
    destruct (Z.compare_spec (2 * 0) (den_of e)); lia. }
  assert (Hpos : 0 < n) by nia. destruct (decimal_spec n) as (D1 & D2 & _); [lia|].
  destruct (strtod_fraction s (decimal n) [] [] 0 n) as (a & b & Ha & Hb & R & E);
    [done|apply decimal_nonempty; lia|done|apply ends_digits_nil|by rewrite app_nil_r|done|].
  cbn [fraction strip_zeros app] in E. rewrite !app_nil_r in E. rewrite E. f_equal. apply nearest_exact; [done..|].
  rewrite R, <- V. unfold ratio. rewrite En, inject_Z_mult. pose proof (inject_pos _ Hd). cbn [length]. change (0 - Z.of_nat 0) with 0.
  change (pow 10 0) with 1%Q. field. intros E0; rewrite E0 in *; by eapply Qlt_irrefl.
Qed.

(** Seventeen digits are enough for every finite double. *)
Theorem strtod_print_g17 (d : double) : canonical d = true -> finite d = true -> strtod (print_g17 d) = (d, []).
Proof.
  intros Hc Hf. destruct d as [s|s| |s m e]; [apply strtod_zero|done|done|]. cbn [print_g17].
  destruct (num_den_spec m e) as (_ & Hn & Hd). pose proof (digits17_spec _ _ Hn Hd) as D.
  destruct (digits17 (num_of m e) (den_of e)) as [n x] eqn:E17. destruct D as (D & _ & _).
  destruct (decimal_spec n) as (D1 & D2 & _); [lia|]. pose proof (decimal_length n 16 ltac:(lia) D) as L.
  assert (Hsplit : forall k, digits (take k (decimal n)) ∧ digits (drop k (decimal n))) by (intros k; apply digits_app; by rewrite take_drop).
  assert (Fin : forall ip f ext x', digits ip -> ip ≠ [] -> digits f -> ends_digits x' ext -> digits_value (ip ++ f) = n ->
    x' - Z.of_nat (length f) = x - 16 -> strtod (sign_text s ++ ip ++ fraction f ++ ext) = (S754_finite s m e, [])).
  { intros ip f ext x' H1 H2 H3 H4 H5 H6. destruct (strtod_fraction s ip f ext x' n) as (a & b & Ha & Hb & R & ->); [done..|lia|].
    f_equal. rewrite H6 in R. by apply (nearest_digits17 s m e a b n x). }
  assert (Htake : forall k, (0 < k)%nat -> take k (decimal n) ≠ []).
  { intros k Hk E. apply (f_equal length) in E. rewrite length_take in E. cbn [length] in E. lia. }
  destruct ((x <? -4) || (17 <=? x)) eqn:Hx.
  - apply (Fin _ _ _ x); [apply Hsplit|apply Htake; lia|apply Hsplit|apply ends_digits_exponent|by rewrite take_drop|].
    rewrite length_drop. lia.
  - apply orb_false_elim in Hx as [Hx1%Z.ltb_ge Hx2%Z.leb_gt]. destruct (Z.ltb_spec x 0) as [Hx|Hx].
    + rewrite <- (app_nil_r (fraction _)). apply (Fin _ _ _ 0); [by repeat constructor|done| |apply ends_digits_nil| |].
      * apply digits_app. split; [by apply Forall_replicate|done].
      * rewrite !digits_value_app, digits_value_zeros, D2. change (digits_value (str "0")) with 0. lia.
      * rewrite length_app, length_replicate. lia.
    + rewrite <- (app_nil_r (fraction _)). apply (Fin _ _ _ 0); [apply Hsplit|apply Htake; lia|apply Hsplit|apply ends_digits_nil|by rewrite take_drop|].
      rewrite length_drop. lia.
Qed.

(** The characters of a finite number. *)
Definition number_text (s : text) : Prop :=
  Forall (λ c, is_digit c = true ∨ c ∈ str "+-.e") s ∧ match s with c :: _ => is_digit c = true ∨ c = "-"%char | [] => False end.

Abbreviation number_chars := (Forall (λ c, is_digit c = true ∨ c ∈ str "+-.e")).

Lemma number_chars_digits ds : digits ds -> number_chars ds.
Proof. intros H. eapply Forall_impl; [exact H|]. by left. Qed.

Lemma number_chars_app a b : number_chars (a ++ b) <-> number_chars a ∧ number_chars b.
Proof. apply Forall_app. Qed.

Lemma number_chars_fraction f : digits f -> number_chars (fraction f).
Proof.
  intros Hf. destruct (strip_zeros_spec f) as [k Ek]. unfold fraction. rewrite Ek in Hf. apply digits_app in Hf as [Hf _].
  destruct (strip_zeros f); [done|]. constructor; [right; by set_solver|by apply number_chars_digits].
Qed.

Lemma number_chars_exponent x : number_chars (exponent_text x).
Proof.
  unfold exponent_text. rewrite !number_chars_app. split_and!.
  - repeat constructor; right; set_solver.
  - destruct (x <? 0); repeat constructor; right; set_solver.
  - destruct (_ <? 10); [|constructor]. by repeat constructor.
  - apply number_chars_digits, decimal_spec. lia.
Qed.

Lemma number_text_sign neg ds rest : digits ds -> ds ≠ [] -> number_chars rest -> number_text (sign_text neg ++ ds ++ rest).
Proof.
  intros Hds Hne Hr. split.
  - rewrite !number_chars_app. split_and!; [|by apply number_chars_digits|done].
    destruct neg; apply (bool_decide_unpack _); by vm_compute.
  - destruct neg; [cbn; by right|]. pose proof (digits_hd ds rest Hds Hne). cbn [sign_text app]. destruct (ds ++ rest); [done|by left].
Qed.

Lemma print_f_text d : finite d = true -> number_text (print_f d).
Proof.
  intros Hf. destruct d as [s|s| |s m e]; [|done|done|]; cbn [print_f].
  - rewrite <- (app_nil_r (str "0")). by apply number_text_sign; repeat constructor.
  - rewrite <- (app_nil_r (decimal _)). destruct (num_den_spec m e) as (_ & Hn & Hd).
    assert (0 <= rnd_even (num_of m e) (den_of e)).
    { unfold rnd_even. pose proof (Z.div_pos (num_of m e) (den_of e)). destruct (_ ?= _); [destruct (Z.even _)| |]; lia. }
    apply number_text_sign; [by apply decimal_spec|by apply decimal_nonempty|constructor].
Qed.

Lemma print_g17_text d : finite d = true -> number_text (print_g17 d).
Proof.
  intros Hf. destruct d as [s|s| |s m e]; [|done|done|]; cbn [print_g17].
  - rewrite <- (app_nil_r (str "0")). by apply number_text_sign; repeat constructor.
  - destruct (num_den_spec m e) as (_ & Hn & Hd). pose proof (digits17_spec _ _ Hn Hd) as D.
    destruct (digits17 (num_of m e) (den_of e)) as [n x]. destruct D as (D & _ & _).
    destruct (decimal_spec n) as (D1 & _); [lia|]. pose proof (decimal_length n 16 ltac:(lia) D) as L.
    assert (Hsplit : forall k, digits (take k (decimal n)) ∧ digits (drop k (decimal n))) by (intros k; apply digits_app; by rewrite take_drop).
    assert (Htake : forall k, (0 < k)%nat -> take k (decimal n) ≠ []).
    { intros k Hk E. apply (f_equal length) in E. rewrite length_take in E. cbn [length] in E. lia. }
    destruct (_ || _); [|destruct (Z.ltb_spec x 0)].
    + apply number_text_sign; [apply Hsplit|apply Htake; lia|]. apply number_chars_app.
      split; [apply number_chars_fraction, Hsplit|apply number_chars_exponent].
    + apply number_text_sign; [by repeat constructor|done|]. apply number_chars_fraction, digits_app.
      split; [by apply Forall_replicate|done].
    + apply number_text_sign; [apply Hsplit|apply Htake; lia|apply number_chars_fraction, Hsplit].
Qed.
