(* ===== verification/Json.v ===== *)
(** * Json: the JSON library of the build program

    Models [picojson.h]: the value type, the serializer ([value::serialize]), the
    input with its one character of look-ahead (class [input]), the parser over a
    context that takes what was found ([_parse] and the three contexts), error
    texts, comparison and the stream operators.  Values are trees: a copy of a
    value shares nothing with it.  A parser is a program of a state monad over the
    input; [None] is a failed assertion or, for the functions with fuel, that the
    fuel was used up, and [parse_ends] shows that neither happens. *)

From Stdlib Require Import Ascii String SpecFloat.
From stdpp Require Import strings sorting.
From S2P Require Import Prelude Text Decimal.

Open Scope Z_scope.

(** ** Values *)

(** [picojson::value], the type and the storage as one: a number is a double, an object a map. *)
#[warnings="-register-all"]
Inductive value :=
  | null_type
  | boolean_type (b : bool)
  | number_type (d : double)
  | string_type (s : text)
  | array_type (l : list value)
  | object_type (m : list (text * value)).
Abbreviation array := (list value).
Abbreviation object := (list (text * value)).

(** The enumeration of the types. *)
Inductive type := Null | Boolean | Number | String_ | Array | Object.
#[export] Instance type_eq_dec : EqDecision type.
Proof. solve_decision. Defined.

Definition type_ (v : value) : type :=
  match v with
  | null_type => Null | boolean_type _ => Boolean | number_type _ => Number
  | string_type _ => String_ | array_type _ => Array | object_type _ => Object
  end.

(** The constructor from a type: the empty value of it. *)
Definition value_of_type (t : type) : value :=
  match t with
  | Null => null_type
  | Boolean => boolean_type false
  | Number => number_type (S754_zero false)
  | String_ => string_type []
  | Array => array_type []
  | Object => object_type []
  end.

Definition is_ (t : type) (v : value) : bool := bool_decide (type_ v = t).

(** [get]: the assertion fails for a value of another type. *)
Definition get_string (v : value) : option text := match v with string_type s => Some s | _ => None end.
Definition get_array (v : value) : option array := match v with array_type l => Some l | _ => None end.
Definition get_object (v : value) : option object := match v with object_type m => Some m | _ => None end.

Definition evaluate_as_boolean (v : value) : bool :=
  match v with
  | null_type => false
  | boolean_type b => b
  | number_type d => negb (SFeqb d (S754_zero false))
  | string_type s => negb (bool_decide (s = []))
  | _ => true
  end.

(** The element of an array and the member of an object; the null value if there is none. *)
Definition get_idx (idx : nat) (v : value) : option value := l ← get_array v; Some (default null_type (l !! idx)).
Definition get_key (key : text) (v : value) : option value := m ← get_object v; Some (default null_type (map_find key m)).
Definition contains_idx (idx : nat) (v : value) : option bool := l ← get_array v; Some (Nat.ltb idx (length l)).
Definition contains_key (key : text) (v : value) : option bool :=
  m ← get_object v; Some (bool_decide (is_Some (map_find key m))).

(** ** The serializer *)

(** [fabs(u) < (1ULL << 53)]. *)
Definition below_2_53 (d : double) : bool :=
  match d with
  | S754_zero _ => true
  | S754_finite _ m e => num_of m e <? 2 ^ 53 * den_of e
  | _ => false
  end.

Definition to_str (v : value) : text :=
  match v with
  | null_type => str "null"
  | boolean_type b => if b then str "true" else str "false"
  | number_type d => if below_2_53 d && integral d then print_f d else print_g17 d
  | string_type s => s
  | array_type _ => str "array"
  | object_type _ => str "object"
  end.

Definition quote : ascii := "034"%char.

(** "%04x" of a number of one byte. *)
Definition hex_digit (n : Z) : ascii := char_of_Z (if n <? 10 then 48 + n else 87 + n).
Definition hex4 (n : Z) : text := [hex_digit (n / 4096); hex_digit (n / 256 mod 16); hex_digit (n / 16 mod 16); hex_digit (n mod 16)].

Definition escape (c : ascii) : text :=
  if bool_decide (c = quote) then ["\"%char; quote]
  else if bool_decide (c = "\"%char) then str "\\"
  else if bool_decide (c = "/"%char) then str "\/"
  else if bool_decide (c = "008"%char) then str "\b"
  else if bool_decide (c = "012"%char) then str "\f"
  else if bool_decide (c = "010"%char) then str "\n"
  else if bool_decide (c = "013"%char) then str "\r"
  else if bool_decide (c = "009"%char) then str "\t"
  else if (Z_of_char c <? 0x20) || (Z_of_char c =? 0x7f) then str "\u" ++ hex4 (Z.land (Z_of_char c) 0xff)
  else [c].

Definition serialize_str (s : text) : text := quote :: mjoin (map escape s) ++ [quote].

(** A comma before every element but the first. *)
Definition separated (l : list text) : text :=
  match l with
  | [] => []
  | t :: l => t ++ mjoin (map (λ t, ","%char :: t) l)
  end.

Fixpoint serialize (v : value) : text :=
  match v with
  | string_type s => serialize_str s
  | array_type l => "["%char :: separated (map serialize l) ++ str "]"
  | object_type m => "{"%char :: separated (map (λ kv, serialize_str (fst kv) ++ ":"%char :: serialize (snd kv)) m) ++ str "}"
  | _ => to_str v
  end.

(** [operator==]; maps are compared as the sequences of their pairs. *)
Fixpoint value_eqb (x y : value) : bool :=
  match x, y with
  | null_type, null_type => true
  | boolean_type a, boolean_type b => Bool.eqb a b
  | number_type a, number_type b => SFeqb a b
  | string_type a, string_type b => bool_decide (a = b)
  | array_type a, array_type b =>
      (fix array_eqb (a b : array) : bool :=
         match a, b with
         | [], [] => true
         | x :: a, y :: b => value_eqb x y && array_eqb a b
         | _, _ => false
         end) a b
  | object_type a, object_type b =>
      (fix object_eqb (a b : object) : bool :=
         match a, b with
         | [], [] => true
         | (k, x) :: a, (l, y) :: b => bool_decide (k = l) && value_eqb x y && object_eqb a b
         | _, _ => false
         end) a b
  | _, _ => false
  end.

(** ** The input *)

(** The iterator as the text in front of it; [-1] for no character. *)
Record input := MkInput { cur_ : text; last_ch_ : Z; ungot_ : bool; line_ : Z }.
#[global] Instance input_settable : Settable input := λ i, MkInput (cur_ i) (last_ch_ i) (ungot_ i) (line_ i).
Definition input_of (s : text) : input := MkInput s (-1) false 1.

(** Programs that read. *)
Definition reader (A : Type) : Type := input -> option (A * input).
#[export] Instance reader_ret : MRet reader := λ _ a i, Some (a, i).
#[export] Instance reader_bind : MBind reader :=
  λ _ _ k p i, match p i with Some (a, i) => k a i | None => None end.
Definition fail {A} : reader A := λ _, None.

Definition getc : reader Z := λ i,
  if ungot_ i then Some (last_ch_ i, i <| ungot_ := false |>)
  else match cur_ i with
       | [] => Some (-1, i <| last_ch_ := -1 |>)
       | c :: s =>
           let i := if last_ch_ i =? 10 then i <| line_ := line_ i + 1 |> else i in
           Some (Z_of_char c, i <| cur_ := s |> <| last_ch_ := Z_of_char c |>)
       end.

(** The assertion is that no character has been given back already. *)
Definition ungetc : reader () := λ i,
  if last_ch_ i =? -1 then Some (tt, i)
  else if ungot_ i then None else Some (tt, i <| ungot_ := true |>).

(** The fuel of a loop that reads at least a character per round. *)
Definition while {A} (p : nat -> reader A) : reader A := λ i, p (S (S (length (cur_ i)))) i.

Definition is_ws (ch : Z) : bool := (ch =? 32) || (ch =? 9) || (ch =? 10) || (ch =? 13).
Fixpoint skip_ws_loop (fuel : nat) : reader () :=
  match fuel with
  | O => fail
  | S fuel => ch ← getc; if is_ws ch then skip_ws_loop fuel else ungetc
  end.
Definition skip_ws : reader () := while skip_ws_loop.

Definition expect (c : ascii) : reader bool :=
  skip_ws;; ch ← getc; if ch =? Z_of_char c then mret true else ungetc;; mret false.

Fixpoint match_ (pattern : text) : reader bool :=
  match pattern with
  | [] => mret true
  | p :: pattern => ch ← getc; if ch =? Z_of_char p then match_ pattern else ungetc;; mret false
  end.

(** ** Strings *)

(** What a string is parsed into: [std::string], or the [dummy_str] of [null_parse_context]. *)
Class String (T : Type) := push_back : Z -> T -> T.
#[export] Instance std_string : String text := λ ch s, s ++ [char_of_Z ch].
#[export] Instance dummy_str : String () := λ _ _, tt.

Definition hex_value (ch : Z) : option Z :=
  if (48 <=? ch) && (ch <=? 57) then Some (ch - 48)
  else if (65 <=? ch) && (ch <=? 70) then Some (ch - 55)
  else if (97 <=? ch) && (ch <=? 102) then Some (ch - 87)
  else None.

Fixpoint quadhex_loop (n : nat) (uni_ch : Z) : reader Z :=
  match n with
  | O => mret uni_ch
  | S n =>
      hex ← getc;
      if hex =? -1 then mret (-1)
      else match hex_value hex with
           | Some h => quadhex_loop n (uni_ch * 16 + h)
           | None => ungetc;; mret (-1)
           end
  end.
Definition _parse_quadhex : reader Z := quadhex_loop 4 0.

Section Strings.
Context {T : Type} `{String T}.

(** The bytes of a code point in UTF-8. *)
Definition push_codepoint (uni_ch : Z) (out : T) : T :=
  if uni_ch <? 0x80 then push_back uni_ch out
  else
    let out :=
      if uni_ch <? 0x800 then push_back (Z.lor 0xc0 (Z.shiftr uni_ch 6)) out
      else
        let out :=
          if uni_ch <? 0x10000 then push_back (Z.lor 0xe0 (Z.shiftr uni_ch 12)) out
          else push_back (Z.lor 0x80 (Z.land (Z.shiftr uni_ch 12) 0x3f)) (push_back (Z.lor 0xf0 (Z.shiftr uni_ch 18)) out) in
        push_back (Z.lor 0x80 (Z.land (Z.shiftr uni_ch 6) 0x3f)) out in
    push_back (Z.lor 0x80 (Z.land uni_ch 0x3f)) out.

Definition _parse_codepoint (out : T) : reader (bool * T) :=
  uni_ch ← _parse_quadhex;
  if uni_ch =? -1 then mret (false, out)
  else if (0xd800 <=? uni_ch) && (uni_ch <=? 0xdfff) then
    if 0xdc00 <=? uni_ch then mret (false, out)
    else
      ch ← getc;
      other ← (if negb (ch =? 92) then mret true else ch ← getc; mret (negb (ch =? 117)));
      if other : bool then ungetc;; mret (false, out)
      else
        second ← _parse_quadhex;
        if negb ((0xdc00 <=? second) && (second <=? 0xdfff)) then mret (false, out)
        else
          let uni_ch := Z.lor (Z.shiftl (uni_ch - 0xd800) 10) (Z.land (second - 0xdc00) 0x3ff) in
          mret (true, push_codepoint (uni_ch + 0x10000) out)
  else mret (true, push_codepoint uni_ch out).

(** The character an escape stands for. *)
Definition unescape (ch : Z) : option Z :=
  if ch =? 34 then Some 34
  else if ch =? 92 then Some 92
  else if ch =? 47 then Some 47
  else if ch =? 98 then Some 8
  else if ch =? 102 then Some 12
  else if ch =? 110 then Some 10
  else if ch =? 114 then Some 13
  else if ch =? 116 then Some 9
  else None.

Fixpoint string_loop (fuel : nat) (out : T) : reader (bool * T) :=
  match fuel with
  | O => fail
  | S fuel =>
      ch ← getc;
      if ch <? 32 then ungetc;; mret (false, out)
      else if ch =? 34 then mret (true, out)
      else if ch =? 92 then
        ch ← getc;
        if ch =? -1 then mret (false, out)
        else match unescape ch with
             | Some val => string_loop fuel (push_back val out)
             | None =>
                 if ch =? 117 then
                   '(ok, out) ← _parse_codepoint out;
                   if ok : bool then string_loop fuel out else mret (false, out)
                 else mret (false, out)
             end
      else string_loop fuel (push_back ch out)
  end.
Definition _parse_string (out : T) : reader (bool * T) := while (λ fuel, string_loop fuel out).
End Strings.

(** ** Numbers *)

Definition number_char (ch : Z) : bool :=
  ((48 <=? ch) && (ch <=? 57)) || (ch =? 43) || (ch =? 45) || (ch =? 46) || (ch =? 101) || (ch =? 69).
Fixpoint number_loop (fuel : nat) (num_str : text) : reader text :=
  match fuel with
  | O => fail
  | S fuel =>
      ch ← getc;
      if number_char ch then number_loop fuel (num_str ++ [char_of_Z ch]) else ungetc;; mret num_str
  end.
(** Whether [strtod] has read all of it, and the number. *)
Definition _parse_number : reader (bool * double) :=
  num_str ← while (λ fuel, number_loop fuel []);
  let '(out, endp) := strtod num_str in mret (bool_decide (endp = []), out).

(** ** Parse contexts *)

(** A parse context: what is done with what was found.  [T] is what the context writes to
    ([out_], its pointer); the parser of a value is given to the operations that call it. *)
Class ParseContext (T : Type) := {
  set_null : T -> bool * T;
  set_bool : bool -> T -> bool * T;
  set_number : double -> T -> bool * T;
  parse_string : T -> reader (bool * T);
  parse_array_start : T -> bool * T;
  parse_array_item : (T -> reader (bool * T)) -> nat -> T -> reader (bool * T);
  parse_object_start : T -> bool * T;
  parse_object_item : (T -> reader (bool * T)) -> text -> T -> reader (bool * T)
}.

Section Parser.
Context {T : Type} `{ParseContext T}.

Section Items.
(** [_parse] with the same context. *)
Context (parse : T -> reader (bool * T)).

Fixpoint array_loop (fuel : nat) (idx : nat) (out : T) : reader (bool * T) :=
  match fuel with
  | O => fail
  | S fuel =>
      '(ok, out) ← parse_array_item parse idx out;
      if ok : bool then
        more ← expect ",";
        if more : bool then array_loop fuel (S idx) out else ok ← expect "]"; mret (ok, out)
      else mret (false, out)
  end.
Definition _parse_array (out : T) : reader (bool * T) :=
  let '(ok, out) := parse_array_start out in
  if ok then
    empty ← expect "]";
    if empty : bool then mret (true, out) else while (λ fuel, array_loop fuel 0 out)
  else mret (false, out).

(** The key of a member; [None] if there is none. *)
Definition object_key : reader (option text) :=
  ok ← expect quote;
  if negb ok then mret None
  else
    '(ok, key) ← _parse_string (T := text) [];
    if negb ok then mret None
    else ok ← expect ":"; mret (if ok : bool then Some key else None).
Fixpoint object_loop (fuel : nat) (out : T) : reader (bool * T) :=
  match fuel with
  | O => fail
  | S fuel =>
      key ← object_key;
      match key with
      | None => mret (false, out)
      | Some key =>
          '(ok, out) ← parse_object_item parse key out;
          if ok : bool then
            more ← expect ",";
            if more : bool then object_loop fuel out else ok ← expect "}"; mret (ok, out)
          else mret (false, out)
      end
  end.
Definition _parse_object (out : T) : reader (bool * T) :=
  let '(ok, out) := parse_object_start out in
  if ok then
    empty ← expect "}";
    if empty : bool then mret (true, out) else while (λ fuel, object_loop fuel out)
  else mret (false, out).
End Items.

(** A literal whose first character was read. *)
Definition literal (rest : text) (op : T -> bool * T) (out : T) : reader (bool * T) :=
  ok ← match_ rest; mret (if ok : bool then op out else (false, out)).

(** Values at most [fuel] levels deep. *)
Fixpoint _parse (fuel : nat) (out : T) : reader (bool * T) :=
  match fuel with
  | O => fail
  | S fuel =>
      skip_ws;;
      ch ← getc;
      if ch =? 110 then literal (str "ull") set_null out
      else if ch =? 102 then literal (str "alse") (set_bool false) out
      else if ch =? 116 then literal (str "rue") (set_bool true) out
      else if ch =? 34 then parse_string out
      else if ch =? 91 then _parse_array (_parse fuel) out
      else if ch =? 123 then _parse_object (_parse fuel) out
      else if ((48 <=? ch) && (ch <=? 57)) || (ch =? 45) then
        ungetc;;
        '(ok, f) ← _parse_number;
        mret (if ok : bool then (true, snd (set_number f out)) else (false, out))
      else ungetc;; mret (false, out)
  end.

Fixpoint error_loop (fuel : nat) (err : text) : reader text :=
  match fuel with
  | O => fail
  | S fuel =>
      ch ← getc;
      if (ch =? -1) || (ch =? 10) then mret err
      else error_loop fuel (if 32 <=? ch then err ++ [char_of_Z ch] else err)
  end.
(** The parser of a text: what the context has written, the error and the text behind the
    iterator it returns.  [err] is [None] for a null pointer. *)
Definition _parse_text (out : T) (first : text) (err : option text) : option (T * option text * text) :=
  match _parse (S (length first)) out (input_of first) with
  | None => None
  | Some ((ok, out), i) =>
      match err with
      | Some _ =>
          if ok : bool then Some (out, err, cur_ i)
          else match while (λ fuel, error_loop fuel (str "syntax error at line " ++ decimal (line_ i) ++ str " near: ")) i with
               | Some (err, i) => Some (out, Some err, cur_ i)
               | None => None
               end
      | None => Some (out, None, cur_ i)
      end
  end.
End Parser.

(** Writes the value found. *)
#[export] Instance default_parse_context : ParseContext value := {
  set_null _ := (true, null_type);
  set_bool b _ := (true, boolean_type b);
  set_number f _ := (true, number_type f);
  parse_string _ := '(ok, s) ← _parse_string (T := text) []; mret (ok, string_type s);
  parse_array_start _ := (true, value_of_type Array);
  parse_array_item parse _ out :=
    match get_array out with
    | Some a => '(ok, v) ← parse null_type; mret (ok, array_type (a ++ [v]))
    | None => fail
    end;
  parse_object_start _ := (true, value_of_type Object);
  (* [operator[]] adds a null value for a new key *)
  parse_object_item parse key out :=
    match get_object out with
    | Some o => '(ok, v) ← parse (default null_type (map_find key o)); mret (ok, object_type (map_assign key v o))
    | None => fail
    end
}.

(** Only looks whether the text is right. *)
#[export] Instance null_parse_context : ParseContext () := {
  set_null _ := (true, tt);
  set_bool _ _ := (true, tt);
  set_number _ _ := (true, tt);
  parse_string _ := _parse_string (T := ()) tt;
  parse_array_start _ := (true, tt);
  parse_array_item parse _ out := parse out;
  parse_object_start _ := (true, tt);
  parse_object_item parse _ out := parse out
}.

(** Refuses everything; the type keeps it from being taken for another context. *)
Inductive denied := Denied.
#[export] Instance deny_parse_context : ParseContext denied := {
  set_null out := (false, out);
  set_bool _ out := (false, out);
  set_number _ out := (false, out);
  parse_string out := mret (false, out);
  parse_array_start out := (false, out);
  parse_array_item _ _ out := mret (false, out);
  parse_object_start out := (false, out);
  parse_object_item _ _ out := mret (false, out)
}.

(** ** Whole texts *)

(** [parse] into a value, from iterators and from a stream (the value and the error). *)
Definition parse_iter (out : value) (first : text) (err : option text) : option (value * option text * text) :=
  _parse_text out first err.
Definition parse_stream (out : value) (istream : text) : option (value * text) :=
  '(out, err, _) ← parse_iter out istream (Some []); Some (out, default [] err).

(** [operator>>]: the value, the last error and whether the stream has failed. *)
Record extracted := MkExtracted { target : value; last_error : text; failbit : bool }.
Definition extract (out : value) (istream : text) : option extracted :=
  '(out, err) ← parse_stream out istream;
  Some (if bool_decide (err = []) then MkExtracted out [] false else MkExtracted out err true).

Example errors_of_the_tests :
  (λ s, x ← parse_stream null_type s; Some (snd x)) <$> [str "falsoa"; str "{]"; newline :: "008"%char :: str "bell"; quote :: str "abc" ++ newline :: str "d" ++ [quote]]
  = [Some (str "syntax error at line 1 near: oa"); Some (str "syntax error at line 1 near: ]");
     Some (str "syntax error at line 2 near: bell"); Some (str "syntax error at line 1 near: ")].
Proof. vm_compute. reflexivity. Qed.

(** ** A logic of readers

    What is in front of a reader: the text not yet read and, right after [getc], the
    character it gave, which [ungetc] may put back. *)

Definition at_ (i : input) (last : option Z) (s : text) : Prop :=
  match last with
  | None => (ungot_ i = false ∧ cur_ i = s)
            ∨ (ungot_ i = true ∧ exists c, last_ch_ i = Z_of_char c ∧ s = c :: cur_ i)
  | Some ch => ungot_ i = false ∧ last_ch_ i = ch ∧ cur_ i = s
  end.

(** The reader ends without failed assertion, in a result and a place that satisfy [Q]. *)
Definition wp {A} (p : reader A) (last : option Z) (s : text) (Q : A -> option Z -> text -> Prop) : Prop :=
  forall i, at_ i last s -> exists a i' last' s', p i = Some (a, i') ∧ at_ i' last' s' ∧ Q a last' s'.

Section Logic.
Context {A B : Type}.
Implicit Types (Q : A -> option Z -> text -> Prop) (l : option Z) (s : text).

Lemma read_ret a l s Q : Q a l s -> wp (mret a) l s Q.
Proof. intros HQ i Hi. exists a, i, l, s. done. Qed.

Lemma read_bind (p : reader B) (k : B -> reader A) l s Q :
  wp p l s (λ b l' s', wp (k b) l' s' Q) -> wp (p ≫= k) l s Q.
Proof.
  intros Hp i Hi. destruct (Hp i Hi) as (b & i' & l' & s' & E & Hi' & Hk).
  destruct (Hk i' Hi') as (a & i'' & l'' & s'' & E' & Hi'' & HQ).
  exists a, i'', l'', s''. split; [|done]. unfold mbind, reader_bind. by rewrite E.
Qed.

Lemma read_mono (p : reader A) l s (Q R : A -> option Z -> text -> Prop) :
  wp p l s Q -> (forall a l' s', Q a l' s' -> R a l' s') -> wp p l s R.
Proof. intros Hp HQ i Hi. destruct (Hp i Hi) as (a & i' & l' & s' & ? & ? & ?). exists a, i', l', s'. auto. Qed.

(** The character read last need not be known. *)
Lemma wp_forget (p : reader A) l s Q : wp p None s Q -> wp p l s Q.
Proof. intros Hp i Hi. apply Hp. destruct l; [|done]. destruct Hi as (? & ? & ?). by left. Qed.

Lemma wp_while (p : nat -> reader A) l s Q :
  (forall fuel, (length s < fuel)%nat -> wp (p fuel) l s Q) -> wp (while p) l s Q.
Proof.
  intros Hp i Hi. apply Hp; [|done]. destruct l as [ch|]; [destruct Hi as (? & ? & <-); lia|].
  destruct Hi as [[_ <-]|(_ & c & _ & ->)]; cbn; lia.
Qed.
End Logic.

Lemma wp_getc s (Q : Z -> option Z -> text -> Prop) :
  match s with [] => Q (-1) (Some (-1)) [] | c :: s => Q (Z_of_char c) (Some (Z_of_char c)) s end -> wp getc None s Q.
Proof.
  intros HQ i [[Hu Hs]|(Hu & c & Hc & ->)]; unfold getc; rewrite Hu.
  - rewrite Hs. destruct s as [|c s]; [by eexists _, _, (Some (-1)), []|].
    eexists _, _, (Some (Z_of_char c)), s. split; [reflexivity|]. by destruct (_ =? _).
  - rewrite Hc. by eexists _, _, (Some (Z_of_char c)), _.
Qed.

Lemma wp_ungetc c s (Q : () -> option Z -> text -> Prop) : Q tt None (c :: s) -> wp ungetc (Some (Z_of_char c)) s Q.
Proof.
  intros HQ i (Hu & Hc & Hs). unfold ungetc. rewrite Hu, Hc. pose proof (Z_of_char_range c).
  destruct (Z.eqb_spec (Z_of_char c) (-1)); [lia|].
  eexists _, _, None, (c :: s). split; [reflexivity|]. split; [|done]. right. split; [done|]. exists c. cbn. by rewrite Hs.
Qed.
Lemma wp_ungetc_end (Q : () -> option Z -> text -> Prop) : Q tt None [] -> wp ungetc (Some (-1)) [] Q.
Proof. intros HQ i (Hu & Hc & Hs). unfold ungetc. rewrite Hc. eexists _, _, None, []. split; [done|]. split; [|done]. by left. Qed.

(** Giving the character back that was read last. *)
Lemma wp_unget s (Q : () -> option Z -> text -> Prop) : Q tt None s ->
  match s with [] => wp ungetc (Some (-1)) [] Q | c :: s => wp ungetc (Some (Z_of_char c)) s Q end.
Proof. destruct s; [apply wp_ungetc_end|apply wp_ungetc]. Qed.

(** ** Termination *)

(** The text left is a rest of the text before. *)
Definition ends {A} (p : reader A) : Prop := forall l s, wp p l s (λ _ _ s', (length s' <= length s)%nat).

Create HintDb ends.

Lemma ends_ret {A} (a : A) : ends (mret a).
Proof. intros l s. by apply read_ret. Qed.

Lemma ends_bind {A B} (p : reader B) (k : B -> reader A) : ends p -> (forall b, ends (k b)) -> ends (p ≫= k).
Proof.
  intros Hp Hk l s. apply read_bind. eapply read_mono; [apply Hp|]. cbn. intros b l' s' Hs.
  eapply read_mono; [apply Hk|]. cbn. lia.
Qed.

Lemma ends_getc : ends getc.
Proof. intros l s. apply wp_forget, wp_getc. destruct s; cbn; lia. Qed.

(** Reading a character and looking at it. *)
Lemma wp_peek {A} (k : Z -> reader A) l s (Q : A -> option Z -> text -> Prop) :
  match s with [] => wp (k (-1)) (Some (-1)) [] Q | c :: s => wp (k (Z_of_char c)) (Some (Z_of_char c)) s Q end -> wp (getc ≫= k) l s Q.
Proof. intros Hk. apply read_bind, wp_forget, wp_getc. by destruct s. Qed.

Lemma wp_ungetc_ret {A} (a : A) s (Q : A -> option Z -> text -> Prop) : Q a None s ->
  match s with [] => wp (ungetc;; mret a) (Some (-1)) [] Q | c :: s => wp (ungetc;; mret a) (Some (Z_of_char c)) s Q end.
Proof.
  intros HQ. pose proof (wp_unget s (λ _ l s, wp (mret a) l s Q)) as H.
  destruct s; (apply read_bind, H; by apply read_ret).
Qed.

(** What [skip_ws] leaves. *)
Fixpoint strip (s : text) : text :=
  match s with c :: t => if is_ws (Z_of_char c) then strip t else s | [] => [] end.
Lemma strip_length s : (length (strip s) <= length s)%nat.
Proof. induction s as [|c s IH]; cbn; [lia|]. destruct (is_ws _); cbn; lia. Qed.

Lemma wp_skip_ws l s (Q : () -> option Z -> text -> Prop) : Q tt None (strip s) -> wp skip_ws l s Q.
Proof.
  intros HQ. apply wp_while. revert l HQ.
  induction s as [|c s IH]; intros l HQ [|fuel] Hf; try (cbn in Hf; lia); cbn [skip_ws_loop]; apply wp_peek.
  - by apply (wp_ungetc_end Q).
  - cbn in HQ. destruct (is_ws _); [|by apply wp_ungetc]. apply IH; [done|]. cbn in Hf. lia.
Qed.

Lemma wp_expect c l s (Q : bool -> option Z -> text -> Prop) :
  (match strip s with
   | [] => Q false None []
   | d :: t => if bool_decide (d = c) then Q true (Some (Z_of_char c)) t else Q false None (d :: t)
   end) -> wp (expect c) l s Q.
Proof.
  intros HQ. unfold expect. apply read_bind, wp_skip_ws, wp_peek. destruct (strip s) as [|d t].
  - pose proof (Z_of_char_range c). destruct (Z.eqb_spec (-1) (Z_of_char c)); [lia|]. by apply (wp_ungetc_ret false []).
  - destruct (Z.eqb_spec (Z_of_char d) (Z_of_char c)) as [E|E].
    + assert (d = c) as -> by (rewrite <- (char_of_Z_of_char d), E; apply char_of_Z_of_char).
      rewrite bool_decide_eq_true_2 in HQ by done. by apply read_ret.
    + rewrite bool_decide_eq_false_2 in HQ by (intros ->; done). by apply (wp_ungetc_ret false (d :: t)).
Qed.

(** A character expected and found is gone. *)
Lemma expect_length c l s : wp (expect c) l s (λ b _ s', (length s' + (if b : bool then 1 else 0) <= length s)%nat).
Proof.
  apply wp_expect. pose proof (strip_length s). destruct (strip s) as [|d t]; cbn in *; [lia|].
  case_bool_decide; cbn in *; lia.
Qed.

Lemma ends_expect c : ends (expect c).
Proof. intros l s. eapply read_mono; [apply expect_length|]. cbn. intros b _ s'. destruct b; lia. Qed.

Lemma ends_match pattern : ends (match_ pattern).
Proof.
  induction pattern as [|p pattern IH]; [apply ends_ret|]. intros l s. cbn [match_]. apply wp_peek.
  destruct s as [|c s]; destruct (_ =? _).
  - apply IH.
  - by apply (wp_ungetc_ret false []).
  - eapply read_mono; [apply IH|]. cbn. lia.
  - by apply (wp_ungetc_ret false (c :: s)).
Qed.

#[export] Hint Resolve ends_ret ends_bind ends_getc ends_expect ends_match : ends.

(** A character is looked at and given back, or the reading goes on behind it. *)
Lemma ends_peek {A} (k : Z -> reader A) :
  (forall ch, ends (k ch) ∨ exists a, k ch = (ungetc;; mret a)) -> ends (getc ≫= k).
Proof.
  intros Hk l s. apply wp_peek. destruct s as [|c s].
  - destruct (Hk (-1)) as [H|[a ->]]; [apply H|]. by apply (wp_ungetc_ret a []).
  - destruct (Hk (Z_of_char c)) as [H|[a ->]]; [eapply read_mono; [apply H|]; cbn; lia|]. by apply (wp_ungetc_ret a (c :: s)).
Qed.

Lemma ends_quadhex n : forall u, ends (quadhex_loop n u).
Proof.
  induction n as [|n IH]; intros u; [apply ends_ret|]. cbn [quadhex_loop]. apply ends_peek. intros ch.
  destruct (ch =? -1); [left; apply ends_ret|]. destruct (hex_value ch); [left; apply IH|right; by eexists].
Qed.

Lemma ends_codepoint {T} `{String T} (out : T) : ends (_parse_codepoint out).
Proof.
  unfold _parse_codepoint. apply ends_bind; [apply ends_quadhex|]. intros u.
  destruct (u =? -1); [apply ends_ret|]. destruct (_ && _); [|apply ends_ret]. destruct (_ <=? u); [apply ends_ret|].
  (* the place right behind the last character read *)
  intros l s. apply wp_peek.
  assert (Rest : ends (second ← _parse_quadhex;
    if negb ((0xdc00 <=? second) && (second <=? 0xdfff)) then mret (false, out)
    else mret (true, push_codepoint (Z.lor (Z.shiftl (u - 0xd800) 10) (Z.land (second - 0xdc00) 0x3ff) + 0x10000) out))).
  { apply ends_bind; [apply ends_quadhex|]. intros v. destruct (negb _); apply ends_ret. }
  destruct s as [|c s].
  - cbn. apply read_bind, read_ret. by apply (wp_ungetc_ret (false, out) []).
  - destruct (Z_of_char c =? 92); cbn [negb].
    + apply read_bind, wp_peek. destruct s as [|d s].
      * apply read_ret. cbn. eapply read_mono; [by apply (wp_ungetc_ret (false, out) [] (λ _ _ s', (length s' <= 0)%nat))|]. cbn. lia.
      * apply read_ret. destruct (negb _).
        -- eapply read_mono; [by apply (wp_ungetc_ret (false, out) (d :: s) (λ _ _ s', (length s' <= S (length s))%nat))|]. cbn. lia.
        -- eapply read_mono; [apply Rest|]. cbn. lia.
    + apply read_bind, read_ret. by apply (wp_ungetc_ret (false, out) (c :: s)).
Qed.

Lemma ends_string {T} `{String T} (out : T) : ends (_parse_string out).
Proof.
  intros l s. apply wp_while. intros fuel Hf. revert l s Hf out. induction fuel as [|fuel IH]; intros l s Hf out; [lia|].
  cbn [string_loop]. apply wp_peek.
  assert (More : forall l t o, (S (length t) <= length s)%nat -> wp (string_loop fuel o) l t (λ _ _ s', (length s' <= length s)%nat)).
  { intros l' t o Ht. eapply read_mono; [apply IH; lia|]. cbn. lia. }
  destruct s as [|c s]; [by apply (wp_ungetc_ret (false, out) [])|].
  destruct (_ <? 32); [by apply (wp_ungetc_ret (false, out) (c :: s))|].
  destruct (_ =? 34); [apply read_ret; cbn; lia|]. destruct (_ =? 92); [|by apply More].
  apply read_bind, wp_forget, wp_getc. destruct s as [|d s]; [apply read_ret; cbn; lia|].
  destruct (_ =? -1); [apply read_ret; cbn; lia|]. destruct (unescape _); [apply More; cbn; lia|].
  destruct (_ =? 117); [|apply read_ret; cbn; lia].
  apply read_bind. eapply read_mono; [apply ends_codepoint|]. cbn. intros [[] o] l' s' Hs; [apply More; cbn; lia|apply read_ret; lia].
Qed.

Lemma ends_number : ends _parse_number.
Proof.
  unfold _parse_number. apply ends_bind; [|intros num; destruct (strtod num); apply ends_ret].
  intros l s. apply wp_while. intros fuel Hf. generalize (@nil ascii). revert l s Hf. induction fuel as [|fuel IH]; intros l s Hf acc; [lia|].
  cbn [number_loop]. apply wp_peek. destruct s as [|c s]; [by apply (wp_ungetc_ret acc [])|].
  destruct (number_char _); [|by apply (wp_ungetc_ret acc (c :: s))].
  eapply read_mono; [apply IH; cbn in Hf; lia|]. cbn. lia.
Qed.

(** A parser that ends on texts of less than [n] characters. *)
Definition ends_below {T} (n : nat) (parse : T -> reader (bool * T)) : Prop :=
  forall out l s, (length s < n)%nat -> wp (parse out) l s (λ _ _ s', (length s' <= length s)%nat).

(** A program that only reads forward: what it leaves is the end of what it was given. *)
Definition advances {A} (p : reader A) : Prop := forall i a i', p i = Some (a, i') -> cur_ i' `suffix_of` cur_ i.

Lemma advances_ret {A} (a : A) : advances (mret a).
Proof. by intros i b i' [= _ ->]. Qed.
Lemma advances_fail {A} : advances (fail (A := A)).
Proof. done. Qed.
Lemma advances_bind {A B} (p : reader A) (k : A -> reader B) :
  advances p -> (forall a, advances (k a)) -> advances (p ≫= k).
Proof.
  intros Hp Hk i b i' E. unfold mbind, reader_bind in E. destruct (p i) as [[a i1]|] eqn:Ep; [|done].
  transitivity (cur_ i1); [by eapply Hk|by eapply Hp].
Qed.
Lemma advances_while {A} (p : nat -> reader A) : (forall fuel, advances (p fuel)) -> advances (while p).
Proof. intros Hp i a i' E. by eapply Hp. Qed.
Lemma advances_getc : advances getc.
Proof.
  intros i a i' E. unfold getc in E. destruct (ungot_ i); [by injection E as <- <-|].
  destruct (cur_ i) as [|c s] eqn:Ec; injection E as <- <-; cbn; [by rewrite Ec|].
  exists [c]. done.
Qed.
Lemma advances_ungetc : advances ungetc.
Proof.
  intros i a i' E. unfold ungetc in E. repeat case_match; try done; by injection E as <- <-.
Qed.
Create HintDb advances.
#[export] Hint Resolve advances_ret advances_fail advances_bind advances_while advances_getc advances_ungetc : advances.
(** Splits a program that reads at its sequences, tests and results. *)
Ltac advance :=
  repeat first
    [ progress intros | progress cbn match | solve [eauto 3 with advances]
    | apply advances_while | apply advances_bind | progress case_match ].

Lemma advances_skip_ws : advances skip_ws.
Proof. apply advances_while. intros fuel. induction fuel; cbn [skip_ws_loop]; advance. Qed.
Lemma advances_match pattern : advances (match_ pattern).
Proof. induction pattern; cbn [match_]; advance. Qed.
#[export] Hint Resolve advances_skip_ws advances_match : advances.
Lemma advances_expect c : advances (expect c).
Proof. unfold expect. advance. Qed.
Lemma advances_quadhex n : forall u, advances (quadhex_loop n u).
Proof. induction n; intros u; cbn [quadhex_loop]; advance. Qed.
#[export] Hint Resolve advances_expect advances_quadhex : advances.
Lemma advances_codepoint {T} `{String T} (out : T) : advances (_parse_codepoint out).
Proof. unfold _parse_codepoint, _parse_quadhex. advance. Qed.
#[export] Hint Resolve advances_codepoint : advances.
Lemma advances_string {T} `{String T} (out : T) : advances (_parse_string out).
Proof. apply advances_while. intros fuel. revert out. induction fuel; intros out; cbn [string_loop]; advance. Qed.
Lemma advances_number : advances _parse_number.
Proof.
  apply advances_bind; [|advance]. apply advances_while. intros fuel. generalize (@nil ascii).
  induction fuel; intros acc; cbn [number_loop]; advance.
Qed.
#[export] Hint Resolve advances_string advances_number : advances.

(** What the parser needs of a context: it keeps to the array, or object, it has started,
    its own readers of strings and items end when the parser they are given does, and only read forward. *)
Class LawfulContext (T : Type) `{ParseContext T} := {
  in_array : T -> Prop;
  in_object : T -> Prop;
  array_started out : fst (parse_array_start out) = true -> in_array (snd (parse_array_start out));
  object_started out : fst (parse_object_start out) = true -> in_object (snd (parse_object_start out));
  parse_string_ends out : ends (parse_string out);
  parse_string_advances out : advances (parse_string out);
  array_item_advances parse idx out : (forall out, advances (parse out)) -> advances (parse_array_item parse idx out);
  object_item_advances parse key out : (forall out, advances (parse out)) -> advances (parse_object_item parse key out);
  array_item_ends parse n idx out l s : in_array out -> ends_below n parse -> (length s < n)%nat ->
    wp (parse_array_item parse idx out) l s (λ r _ s', (length s' <= length s)%nat ∧ (fst r = true -> in_array (snd r)));
  object_item_ends parse n key out l s : in_object out -> ends_below n parse -> (length s < n)%nat ->
    wp (parse_object_item parse key out) l s (λ r _ s', (length s' <= length s)%nat ∧ (fst r = true -> in_object (snd r)))
}.

#[export] Program Instance default_lawful : LawfulContext value := {
  in_array v := type_ v = Array;
  in_object v := type_ v = Object
}.
Next Obligation. done. Qed.
Next Obligation. done. Qed.
Next Obligation. intros out. apply ends_bind; [apply ends_string|]. intros []. apply ends_ret. Qed.
Next Obligation. intros out. cbn. advance. Qed.
Next Obligation. intros parse idx out Hp. cbn. advance. Qed.
Next Obligation. intros parse key out Hp. cbn. advance. Qed.
Next Obligation.
  intros parse n idx out l s Ho Hp Hs. destruct out; try done. apply read_bind. cbn.
  eapply read_mono; [by apply Hp|]. cbn. intros [ok v] l' s' Hl. by apply read_ret.
Qed.
Next Obligation.
  intros parse n key out l s Ho Hp Hs. destruct out; try done. apply read_bind. cbn.
  eapply read_mono; [by apply Hp|]. cbn. intros [ok v] l' s' Hl. by apply read_ret.
Qed.

#[export] Program Instance null_lawful : LawfulContext () := { in_array _ := True; in_object _ := True }.
Next Obligation. done. Qed.
Next Obligation. done. Qed.
Next Obligation. intros out. exact (ends_string tt). Qed.
Next Obligation. intros out. exact (advances_string tt). Qed.
Next Obligation. intros parse idx out Hp. apply Hp. Qed.
Next Obligation. intros parse key out Hp. apply Hp. Qed.
Next Obligation. intros parse n idx out l s _ Hp Hs. eapply read_mono; [by apply Hp|]. done. Qed.
Next Obligation. intros parse n key out l s _ Hp Hs. eapply read_mono; [by apply Hp|]. done. Qed.

#[export] Program Instance denied_lawful : LawfulContext denied := { in_array _ := True; in_object _ := True }.
Next Obligation. done. Qed.
Next Obligation. done. Qed.
Next Obligation. intros out. apply ends_ret. Qed.
Next Obligation. intros out. apply advances_ret. Qed.
Next Obligation. intros parse idx out _. apply advances_ret. Qed.
Next Obligation. intros parse key out _. apply advances_ret. Qed.
Next Obligation. intros parse n idx out l s _ _ _. apply (read_ret (false, out)). done. Qed.
Next Obligation. intros parse n key out l s _ _ _. apply (read_ret (false, out)). done. Qed.

Section Parser_ends.
Context {T : Type} `{LawfulContext T}.

Lemma ends_object_key l s : wp object_key l s (λ _ _ s', (length s' <= length s)%nat).
Proof.
  revert l s. change (ends object_key). apply ends_bind; [auto with ends|]. intros []; cbn [negb]; [|apply ends_ret].
  apply ends_bind; [apply ends_string|]. intros [[] key]; cbn [negb]; [|apply ends_ret].
  apply ends_bind; auto with ends.
Qed.

(** Behind an element: another one, the end, or an error. *)
Lemma ends_separator c (more : reader (bool * T)) (out : T) n l s :
  (length s <= n)%nat -> (forall l' s', (length s' < n)%nat -> wp more l' s' (λ _ _ s'', (length s'' <= n)%nat)) ->
  wp (b ← expect ","; if b : bool then more else ok ← expect c; mret (ok, out)) l s (λ _ _ s', (length s' <= n)%nat).
Proof.
  intros Hs Hm. apply read_bind. eapply read_mono; [apply expect_length|]. cbn. intros [] l' s' Hl; [apply Hm; lia|].
  apply read_bind. eapply read_mono; [apply ends_expect|]. cbn. intros b l'' s'' Hl'. apply read_ret. lia.
Qed.

Lemma ends_array_loop parse n fuel : ends_below n parse -> forall idx out l s, in_array out ->
  (length s < n)%nat -> (length s < fuel)%nat -> wp (array_loop parse fuel idx out) l s (λ _ _ s', (length s' <= length s)%nat).
Proof.
  intros Hp. induction fuel as [|fuel IH]; intros idx out l s Ho Hs Hf; [lia|]. cbn [array_loop]. apply read_bind.
  eapply read_mono; [by eapply array_item_ends|]. cbn. intros [[] o] l' s' [Hl Ho']; [|by apply read_ret].
  apply ends_separator; [done|]. intros l'' s'' Hl'. eapply read_mono; [apply IH; [by apply Ho'|lia..]|]. cbn. lia.
Qed.

Lemma ends_object_loop parse n fuel : ends_below n parse -> forall out l s, in_object out ->
  (length s < n)%nat -> (length s < fuel)%nat -> wp (object_loop parse fuel out) l s (λ _ _ s', (length s' <= length s)%nat).
Proof.
  intros Hp. induction fuel as [|fuel IH]; intros out l s Ho Hs Hf; [lia|]. cbn [object_loop]. apply read_bind.
  eapply read_mono; [apply ends_object_key|]. cbn. intros [key|] l1 s1 Hl1; [|by apply read_ret]. apply read_bind.
  eapply read_mono; [eapply object_item_ends; [done|done|lia]|]. cbn. intros [[] o] l' s' [Hl Ho']; [|apply read_ret; lia].
  apply ends_separator; [lia|]. intros l'' s'' Hl'. eapply read_mono; [apply IH; [by apply Ho'|lia..]|]. cbn. lia.
Qed.

Lemma ends_parse n : ends_below n (_parse (T := T) n).
Proof.
  induction n as [|n IH]; intros out l s Hs; [lia|]. cbn [_parse]. apply read_bind, wp_skip_ws.
  pose proof (strip_length s). eapply (read_mono _ _ _ (λ _ _ s', (length s' <= length (strip s))%nat)); [|cbn; lia].
  assert (Hn : (length (strip s) < S n)%nat) by lia.
  revert Hn. generalize (strip s). clear s Hs H1. intros s Hn. apply wp_peek.
  assert (Lit : forall t op, ends (literal (T := T) t op out)).
  { intros t op. apply ends_bind; [apply ends_match|]. intros b. apply ends_ret. }
  destruct s as [|c s]; [by apply (wp_ungetc_ret (false, out) [])|]. cbn in Hn. apply Nat.succ_lt_mono in Hn.
  assert (Sub : forall p : reader (bool * T), wp p (Some (Z_of_char c)) s (λ _ _ s', (length s' <= length s)%nat) ->
    wp p (Some (Z_of_char c)) s (λ _ _ s', (length s' <= length (c :: s))%nat)).
  { intros p Hp. eapply read_mono; [exact Hp|]. cbn. lia. }
  do 3 (destruct (Z_of_char c =? _); [apply Sub, Lit|]).
  destruct (Z_of_char c =? 34); [apply Sub, parse_string_ends|].
  destruct (Z_of_char c =? 91).
  { apply Sub. unfold _parse_array. pose proof (array_started out) as Ho.
    destruct (parse_array_start out) as [[] o]; [|by apply read_ret]. apply read_bind. eapply read_mono; [apply ends_expect|].
    cbn. intros [] l' s' Hl; [by apply read_ret|]. apply wp_while. intros fuel Hf.
    eapply read_mono; [apply (ends_array_loop _ n); [done|by apply Ho|lia|done]|]. cbn. lia. }
  destruct (Z_of_char c =? 123).
  { apply Sub. unfold _parse_object. pose proof (object_started out) as Ho.
    destruct (parse_object_start out) as [[] o]; [|by apply read_ret]. apply read_bind. eapply read_mono; [apply ends_expect|].
    cbn. intros [] l' s' Hl; [by apply read_ret|]. apply wp_while. intros fuel Hf.
    eapply read_mono; [apply (ends_object_loop _ n); [done|by apply Ho|lia|done]|]. cbn. lia. }
  destruct (_ || _).
  - apply read_bind, wp_ungetc, read_bind. eapply read_mono; [apply ends_number|]. cbn. intros [ok f] l' s' Hl. by apply read_ret.
  - by apply (wp_ungetc_ret (false, out) (c :: s)).
Qed.

Lemma advances_object_key : advances object_key.
Proof. unfold object_key. advance. Qed.

Lemma advances_array parse out : (forall out, advances (parse out)) -> advances (_parse_array parse out).
Proof.
  intros Hp. unfold _parse_array. case_match. case_match; [|advance]. apply advances_bind; [advance|]. intros []; [advance|].
  apply advances_while. intros fuel. generalize t 0%nat. induction fuel as [|fuel IH]; intros o idx; [apply advances_fail|].
  cbn [array_loop]. apply advances_bind; [by apply array_item_advances|]. advance.
Qed.

Lemma advances_object parse out : (forall out, advances (parse out)) -> advances (_parse_object parse out).
Proof.
  intros Hp. unfold _parse_object. case_match. case_match; [|advance]. apply advances_bind; [advance|]. intros []; [advance|].
  apply advances_while. intros fuel. generalize t. induction fuel as [|fuel IH]; intros o; [apply advances_fail|].
  cbn [object_loop]. apply advances_bind; [apply advances_object_key|]. intros [key|]; [|advance].
  apply advances_bind; [by apply object_item_advances|]. advance.
Qed.

Lemma advances_parse n : forall out : T, advances (_parse n out).
Proof.
  assert (Lit : forall t op out, advances (literal (T := T) t op out)) by (intros; unfold literal; advance).
  induction n as [|n IH]; intros out; [apply advances_fail|]. cbn [_parse].
  do 2 (apply advances_bind; [advance|intros ?]).
  repeat (case_match; [first [apply Lit|apply parse_string_advances|by apply advances_array|by apply advances_object|advance]|]).
  advance.
Qed.

Lemma advances_error fuel : forall err, advances (error_loop fuel err).
Proof. induction fuel; intros err; cbn [error_loop]; advance. Qed.
End Parser_ends.

(** ** Reading a serialized value *)

Section Value_induction.
Context (P : value -> Prop) (Hnull : P null_type) (Hbool : forall b, P (boolean_type b)) (Hnum : forall d, P (number_type d))
  (Hstr : forall s, P (string_type s)) (Harr : forall l, Forall P l -> P (array_type l))
  (Hobj : forall m, Forall (λ kv, P (snd kv)) m -> P (object_type m)).
Fixpoint value_ind_all (v : value) : P v :=
  match v with
  | null_type => Hnull
  | boolean_type b => Hbool b
  | number_type d => Hnum d
  | string_type s => Hstr s
  | array_type l =>
      Harr l ((fix all (l : array) : Forall P l :=
                 match l with [] => Forall_nil_2 _ | v :: l => Forall_cons_2 _ _ _ (value_ind_all v) (all l) end) l)
  | object_type m =>
      Hobj m ((fix all (m : object) : Forall (λ kv, P (snd kv)) m :=
                 match m with [] => Forall_nil_2 _ | kv :: m => Forall_cons_2 (λ kv, P (snd kv)) kv m (value_ind_all (snd kv)) (all m) end) m)
  end.
End Value_induction.

(** The values a text can stand for: numbers that are finite, keys in order. *)
Fixpoint json_value (v : value) : Prop :=
  match v with
  | number_type d => canonical d = true ∧ finite d = true
  | array_type l => (fix all (l : array) : Prop := match l with [] => True | v :: l => json_value v ∧ all l end) l
  | object_type m =>
      ordered m ∧ (fix all (m : object) : Prop := match m with [] => True | kv :: m => json_value (snd kv) ∧ all m end) m
  | _ => True
  end.

Lemma json_array l : json_value (array_type l) <-> Forall json_value l.
Proof. cbn. induction l as [|v l IH]; [done|]. rewrite Forall_cons. by rewrite IH. Qed.
Lemma json_object m : json_value (object_type m) <-> ordered m ∧ Forall (λ kv, json_value (snd kv)) m.
Proof.
  cbn. apply and_iff_compat_l. induction m as [|v m IH]; [done|]. rewrite Forall_cons. by rewrite IH.
Qed.

(** *** Strings *)

Section Escapes.
Implicit Types (Q : bool * text -> option Z -> text -> Prop) (t out : text).

Lemma string_plain fuel out l c t Q : 32 <= Z_of_char c -> Z_of_char c ≠ 34 -> Z_of_char c ≠ 92 ->
  wp (string_loop fuel (out ++ [c])) (Some (Z_of_char c)) t Q -> wp (string_loop (S fuel) out) l (c :: t) Q.
Proof.
  intros H1 H2 H3 HQ. cbn [string_loop]. apply wp_peek.
  destruct (Z.ltb_spec (Z_of_char c) 32); [lia|]. destruct (Z.eqb_spec (Z_of_char c) 34); [lia|].
  destruct (Z.eqb_spec (Z_of_char c) 92); [lia|]. unfold push_back, std_string. by rewrite char_of_Z_of_char.
Qed.

Lemma string_escape fuel out l d c t Q : unescape (Z_of_char d) = Some (Z_of_char c) ->
  wp (string_loop fuel (out ++ [c])) (Some (Z_of_char d)) t Q -> wp (string_loop (S fuel) out) l ("\"%char :: d :: t) Q.
Proof.
  intros Hd HQ. cbn [string_loop]. apply wp_peek. change (Z_of_char "\"%char) with 92. cbn [Z.ltb Z.eqb Z.compare Pos.compare Pos.compare_cont Pos.eqb].
  apply wp_peek. pose proof (Z_of_char_range d). destruct (Z.eqb_spec (Z_of_char d) (-1)); [lia|].
  rewrite Hd. unfold push_back, std_string. by rewrite char_of_Z_of_char.
Qed.

Lemma hex_digit_value n : 0 <= n < 16 -> hex_value (Z_of_char (hex_digit n)) = Some n.
Proof.
  intros Hn. unfold hex_digit. rewrite Z_of_char_of_Z by (unfold is_u8; destruct (n <? 10); lia). unfold hex_value.
  destruct (Z.ltb_spec n 10).
  - destruct (Z.leb_spec 48 (48 + n)); [|lia]. destruct (Z.leb_spec (48 + n) 57); [|lia]. cbn. f_equal. lia.
  - destruct (Z.leb_spec (87 + n) 57); [lia|]. rewrite andb_false_r. destruct (Z.leb_spec (87 + n) 70); [lia|]. rewrite andb_false_r.
    destruct (Z.leb_spec 97 (87 + n)); [|lia]. destruct (Z.leb_spec (87 + n) 102); [|lia]. cbn. f_equal. lia.
Qed.

Lemma wp_quadhex_loop hs : forall u l t (R : Z -> option Z -> text -> Prop), Forall (λ h, 0 <= h < 16) hs ->
  (forall l', R (fold_left (λ u h, u * 16 + h) hs u) l' t) -> wp (quadhex_loop (length hs) u) l (map hex_digit hs ++ t) R.
Proof.
  induction hs as [|h hs IH]; intros u l t R Hh HR; [by apply read_ret|]. apply Forall_cons in Hh as [Hh Hhs].
  cbn [length map quadhex_loop app]. apply wp_peek. pose proof (Z_of_char_range (hex_digit h)).
  destruct (Z.eqb_spec (Z_of_char (hex_digit h)) (-1)); [lia|]. rewrite hex_digit_value by done. by apply IH.
Qed.

Lemma wp_hex4 n l t (R : Z -> option Z -> text -> Prop) : 0 <= n < 65536 -> (forall l', R n l' t) -> wp _parse_quadhex l (hex4 n ++ t) R.
Proof.
  intros Hn HR. assert (0 <= n / 4096 < 16) by (split; [apply Z.div_pos|apply Z.div_lt_upper_bound]; lia).
  pose proof (Z.mod_pos_bound (n / 256) 16 ltac:(lia)). pose proof (Z.mod_pos_bound (n / 16) 16 ltac:(lia)).
  pose proof (Z.mod_pos_bound n 16 ltac:(lia)).
  apply (wp_quadhex_loop [n / 4096; n / 256 mod 16; n / 16 mod 16; n mod 16]); [rewrite !Forall_cons; done|].
  intros l'. cbn [fold_left]. replace (_ + _) with n; [done|].
  pose proof (Z.div_mod n 16). pose proof (Z.div_mod (n / 16) 16). pose proof (Z.div_mod (n / 256) 16).
  rewrite !Z.div_div in * by lia. change (16 * 16) with 256 in *. change (256 * 16) with 4096 in *. lia.
Qed.

Lemma string_unicode fuel out l c t Q : Z_of_char c < 128 ->
  (forall l', wp (string_loop fuel (out ++ [c])) l' t Q) -> wp (string_loop (S fuel) out) l (str "\u" ++ hex4 (Z_of_char c) ++ t) Q.
Proof.
  intros Hc HQ. pose proof (Z_of_char_range c). cbn [str list_ascii_of_string app string_loop]. apply wp_peek.
  change (Z_of_char "\"%char) with 92. cbn [Z.ltb Z.eqb Z.compare Pos.compare Pos.compare_cont Pos.eqb].
  apply wp_peek. change (Z_of_char "u"%char) with 117. cbn [Z.eqb unescape Pos.eqb].
  apply read_bind. unfold _parse_codepoint. apply read_bind, wp_hex4; [lia|]. intros l'.
  destruct (Z.eqb_spec (Z_of_char c) (-1)); [lia|]. destruct (Z.leb_spec 0xd800 (Z_of_char c)); [lia|]. cbn [andb].
  apply read_ret. unfold push_codepoint. destruct (Z.ltb_spec (Z_of_char c) 0x80); [|lia].
  unfold push_back, std_string. rewrite char_of_Z_of_char. apply HQ.
Qed.

(** One character is read back from what stands for it. *)
Lemma string_char fuel out l c t Q :
  (forall l', wp (string_loop fuel (out ++ [c])) l' t Q) -> wp (string_loop (S fuel) out) l (escape c ++ t) Q.
Proof.
  intros HQ. unfold escape.
  do 8 (case_bool_decide; [apply (string_escape _ _ _ _ c); [by subst c|apply HQ]|]).
  destruct (_ || _) eqn:E.
  - change 0xff with (Z.ones 8). rewrite Z.land_ones, Z.mod_small by (apply Z_of_char_range || lia). rewrite <- app_assoc. apply string_unicode; [|done].
    apply orb_prop in E as [E%Z.ltb_lt|E%Z.eqb_eq]; lia.
  - apply orb_false_elim in E as [E%Z.ltb_ge _]. apply string_plain; [done| | |apply HQ].
    + intros Ec. apply H. rewrite <- (char_of_Z_of_char c), Ec. done.
    + intros Ec. apply H0. rewrite <- (char_of_Z_of_char c), Ec. done.
Qed.

Lemma wp_parse_string s out l t Q : (forall l', Q (true, out ++ s) l' t) ->
  wp (_parse_string out) l (mjoin (map escape s) ++ quote :: t) Q.
Proof.
  intros HQ. apply wp_while. intros fuel Hf.
  assert (Hlen : (length s < fuel)%nat).
  { assert (H : forall s, (length s <= length (mjoin (map escape s)))%nat).
    { induction s0 as [|c s0 IH]; [done|]. change (length (c :: s0) <= length (escape c ++ mjoin (map escape s0)))%nat.
      rewrite length_app. cbn [length].
      assert (1 <= length (escape c))%nat; [|lia]. unfold escape. repeat case_match; cbn; lia. }
    rewrite length_app in Hf. specialize (H s). lia. }
  clear Hf. revert out l HQ fuel Hlen. induction s as [|c s IH]; intros out l HQ [|fuel] Hf; try (cbn in Hf; lia).
  - rewrite app_nil_r in HQ. cbn [map mjoin list_join app string_loop]. apply wp_peek. by apply read_ret.
  - change (mjoin (map escape (c :: s))) with (escape c ++ mjoin (map escape s)). rewrite <- app_assoc. apply string_char. intros l'. apply IH; [|cbn in Hf; lia].
    intros l2. by rewrite <- app_assoc.
Qed.
End Escapes.

(** *** Numbers *)

(** A number ends where the text does, or another character stands. *)
Definition stops (t : text) : Prop := match t with c :: _ => number_char (Z_of_char c) = false | [] => True end.

Lemma number_char_spec c : is_digit c = true ∨ c ∈ str "+-.e" -> number_char (Z_of_char c) = true.
Proof.
  intros [H|H].
  - unfold number_char. unfold is_digit in H. by rewrite H.
  - change (str "+-.e") with ["+"%char; "-"%char; "."%char; "e"%char] in H. do 4 (apply elem_of_cons in H as [->|H]; [reflexivity|]). by apply not_elem_of_nil in H.
Qed.

Lemma to_str_number d : canonical d = true -> finite d = true ->
  strtod (to_str (number_type d)) = (d, []) ∧ number_text (to_str (number_type d)).
Proof.
  intros Hc Hf. cbn [to_str]. destruct (below_2_53 d && integral d) eqn:E.
  - apply andb_prop in E as [_ Hi]. split; [by apply strtod_print_f|by apply print_f_text].
  - split; [by apply strtod_print_g17|by apply print_g17_text].
Qed.

Lemma wp_parse_number d l t (Q : bool * double -> option Z -> text -> Prop) : canonical d = true -> finite d = true -> stops t ->
  (forall l', Q (true, d) l' t) -> wp _parse_number l (to_str (number_type d) ++ t) Q.
Proof.
  intros Hc Hf Ht HQ. destruct (to_str_number d Hc Hf) as [Hs [Hn _]]. unfold _parse_number. apply read_bind.
  eapply (read_mono _ _ _ (λ s _ s', s = to_str (number_type d) ∧ s' = t)).
  2: { intros s l' s' [-> ->]. rewrite Hs. apply read_ret. by rewrite bool_decide_eq_true_2. }
  apply wp_while. clear Hs HQ Hc Hf. revert Hn l. generalize (to_str (number_type d)) as n. clear d.
  assert (H : forall n acc l fuel, number_chars n -> (length (n ++ t) < fuel)%nat ->
    wp (number_loop fuel acc) l (n ++ t) (λ s _ s', s = acc ++ n ∧ s' = t)); [|by intros; apply (H n [])].
  induction n as [|c n IH]; intros acc l [|fuel] Hn Hf; try lia; cbn [number_loop]; apply wp_peek; cbn [app] in *.
  - rewrite app_nil_r. destruct t as [|c t]; [by apply (wp_ungetc_ret acc [])|].
    cbn in Ht. rewrite Ht. by apply (wp_ungetc_ret acc (c :: t)).
  - apply Forall_cons in Hn as [Hc Hn]. rewrite number_char_spec, char_of_Z_of_char by done.
    eapply read_mono; [apply IH; [done|cbn in Hf; lia]|]. cbn. intros s l' s' [-> ->]. by rewrite <- app_assoc.
Qed.

(** *** Values *)

Fixpoint height (v : value) : nat :=
  match v with
  | array_type l => S (list_max (map height l))
  | object_type m => S (list_max (map (λ kv, height (snd kv)) m))
  | _ => 0
  end.

(** A reader of values reads [v] where its text stands. *)
Definition reads (parse : value -> reader (bool * value)) (v : value) : Prop :=
  forall out l t (Q : bool * value -> option Z -> text -> Prop), stops t -> (forall l', Q (true, v) l' t) ->
    wp (parse out) l (serialize v ++ t) Q.

(** The first character of a value. *)
Lemma serialize_head v : json_value v -> exists c s, serialize v = c :: s ∧ is_ws (Z_of_char c) = false ∧ c ≠ "]"%char ∧ c ≠ "}"%char.
Proof.
  intros Hv. destruct v as [|[]|d|s|l|m]; try (by eexists _, _; split_and!; [reflexivity|..]).
  destruct Hv as [Hc Hf]. destruct (to_str_number d Hc Hf) as [_ [_ Hn]]. change (serialize (number_type d)) with (to_str (number_type d)).
  destruct (to_str (number_type d)) as [|c s]; [done|]. exists c, s. split; [done|].
  destruct Hn as [Hn| ->]; [|done]. unfold is_digit in Hn. apply andb_prop in Hn as [H1%Z.leb_le H2%Z.leb_le]. split_and!.
  - unfold is_ws. repeat match goal with |- context [Z_of_char c =? ?k] => destruct (Z.eqb_spec (Z_of_char c) k); [lia|] end. done.
  - intros ->. by vm_compute in H2.
  - intros ->. by vm_compute in H2.
Qed.

Lemma strip_head c s : is_ws (Z_of_char c) = false -> strip (c :: s) = c :: s.
Proof. intros Hc. cbn. by rewrite Hc. Qed.

(** Behind an element: a comma and the next, or the end. *)
Lemma separated_cons t l : separated (t :: l) = t ++ match l with [] => [] | _ => ","%char :: separated l end.
Proof. cbn. destruct l as [|u l]; [done|]. done. Qed.

Lemma wp_expect_here c t l (Q : bool -> option Z -> text -> Prop) : is_ws (Z_of_char c) = false ->
  (forall l', Q true l' t) -> wp (expect c) l (c :: t) Q.
Proof. intros Hc HQ. apply wp_expect. rewrite strip_head by done. by rewrite bool_decide_eq_true_2. Qed.
Lemma wp_expect_other c d t l (Q : bool -> option Z -> text -> Prop) : is_ws (Z_of_char d) = false -> d ≠ c ->
  (forall l', Q false l' (d :: t)) -> wp (expect c) l (d :: t) Q.
Proof. intros Hd Hc HQ. apply wp_expect. rewrite strip_head by done. by rewrite bool_decide_eq_false_2. Qed.

Section Elements.
Context (parse : value -> reader (bool * value)).
Implicit Types (l : option Z) (t : text) (Q : bool * value -> option Z -> text -> Prop).

(** The elements of an array behind the first bracket. *)
Lemma wp_array_loop t Q vs : forall fuel idx acc l, vs ≠ [] -> Forall (reads parse) vs ->
  (length (separated (map serialize vs) ++ "]"%char :: t) < fuel)%nat ->
  (forall l', Q (true, array_type (acc ++ vs)) l' t) ->
  wp (array_loop parse fuel idx (array_type acc)) l (separated (map serialize vs) ++ "]"%char :: t) Q.
Proof.
  induction vs as [|v vs IH]; intros [|fuel] idx acc l Hne Hvs Hf HQ; try lia; [done|].
  apply Forall_cons in Hvs as [Hv Hvs]. cbn [map] in *. rewrite separated_cons, <- app_assoc in *. cbn [array_loop].
  apply read_bind. change (parse_array_item parse idx (array_type acc))
    with ('(ok, v) ← parse null_type; mret (ok, array_type (acc ++ [v])) : reader (bool * value)).
  apply read_bind, Hv; [by destruct vs|]. intros l1. apply read_ret. apply read_bind. destruct vs as [|w vs].
  - apply wp_expect_other; [done..|]. intros l2. apply read_bind, wp_expect_here; [done|]. intros l3. by apply read_ret.
  - cbn [app]. apply wp_expect_here; [done|]. intros l2. apply (IH fuel (S idx) (acc ++ [v])); [done|done| |by rewrite <- app_assoc].
    rewrite length_app in Hf.
    change (length (serialize v) + S (length (separated (map serialize (w :: vs)) ++ "]"%char :: t)) < S fuel)%nat in Hf. lia.
Qed.

Definition member_text (kv : text * value) : text := serialize_str (fst kv) ++ ":"%char :: serialize (snd kv).

Lemma wp_object_key k l t (R : option text -> option Z -> text -> Prop) : (forall l', R (Some k) l' t) ->
  wp object_key l (serialize_str k ++ ":"%char :: t) R.
Proof.
  intros HR. unfold object_key, serialize_str. cbn [app]. rewrite <- app_assoc. cbn [app].
  apply read_bind, wp_expect_here; [done|]. intros l1. cbn [negb]. apply read_bind, wp_parse_string. intros l2. cbn [app negb].
  apply read_bind, wp_expect_here; [done|]. intros l3. by apply read_ret.
Qed.

Lemma wp_object_loop t Q ms : forall fuel acc l, ms ≠ [] -> Forall (λ kv, reads parse (snd kv)) ms ->
  ordered (acc ++ ms) -> (length (separated (map member_text ms) ++ "}"%char :: t) < fuel)%nat ->
  (forall l', Q (true, object_type (acc ++ ms)) l' t) ->
  wp (object_loop parse fuel (object_type acc)) l (separated (map member_text ms) ++ "}"%char :: t) Q.
Proof.
  induction ms as [|[k v] ms IH]; intros [|fuel] acc l Hne Hvs Ho Hf HQ; try lia; [done|].
  apply Forall_cons in Hvs as [Hv Hvs]. cbn [map] in *. rewrite separated_cons, <- app_assoc in *. cbn [object_loop].
  unfold member_text at 1. cbn [fst snd] in *. rewrite <- app_assoc. cbn [app].
  apply read_bind, wp_object_key. intros l1. apply read_bind.
  change (parse_object_item parse k (object_type acc))
    with ('(ok, v) ← parse (default null_type (map_find k acc)); mret (ok, object_type (map_assign k v acc)) : reader (bool * value)).
  apply read_bind, Hv; [by destruct ms|]. intros l2. apply read_ret.
  rewrite map_assign_last by by eapply ordered_before. apply read_bind. destruct ms as [|w ms].
  - apply wp_expect_other; [done..|]. intros l3. apply read_bind, wp_expect_here; [done|]. intros l4. by apply read_ret.
  - cbn [app]. apply wp_expect_here; [done|]. intros l3. apply (IH fuel (acc ++ [(k, v)])); [done|done| | |]; rewrite <- ?app_assoc; [done| |done].
    rewrite length_app in Hf.
    change (length (member_text (k, v)) + S (length (separated (map member_text (w :: ms)) ++ "}"%char :: t)) < S fuel)%nat in Hf. lia.
Qed.
End Elements.

Lemma list_max_elem (l : list nat) n x : (list_max l < n)%nat -> x ∈ l -> (x < n)%nat.
Proof.
  intros Hn Hx. destruct (list_max_le l (list_max l)) as [M _]. specialize (M ltac:(lia)). rewrite List.Forall_forall in M.
  apply list_elem_of_In in Hx. specialize (M x Hx). lia.
Qed.

Lemma wp_literal p op (out v : value) l t (Q : bool * value -> option Z -> text -> Prop) :
  op out = (true, v) -> (forall l', Q (true, v) l' t) -> wp (literal p op out) l (p ++ t) Q.
Proof.
  intros Hop HQ. unfold literal. apply read_bind. revert l. induction p as [|c p IH]; intros l; cbn [match_ app].
  - apply read_ret, read_ret. by rewrite Hop.
  - apply wp_peek. rewrite Z.eqb_refl. apply IH.
Qed.

(** A value is read back, whatever stands behind it that does not continue a number. *)
Lemma parse_value v : json_value v -> forall n, (height v < n)%nat -> reads (_parse n) v.
Proof.
  induction v as [ |b|d|s|vs IH|ms IH] using value_ind_all; intros Hv [|n] Hn out l t Q Ht HQ; try lia;
    cbn [_parse]; apply read_bind, wp_skip_ws.
  - change (strip (serialize null_type ++ t)) with (str "null" ++ t). apply (wp_peek _ _ (str "null" ++ t)).
    by apply (wp_literal (str "ull") set_null out null_type).
  - destruct b.
    + apply (wp_peek _ _ (str "true" ++ t)). by apply (wp_literal (str "rue") (set_bool true) out (boolean_type true)).
    + apply (wp_peek _ _ (str "false" ++ t)). by apply (wp_literal (str "alse") (set_bool false) out (boolean_type false)).
  - destruct (serialize_head _ Hv) as (c & s & Es & Hc & _). destruct Hv as [Hd Hf].
    destruct (to_str_number d Hd Hf) as [_ [_ Hn0]]. change (serialize (number_type d)) with (to_str (number_type d)) in *.
    rewrite Es in *. cbn [app]. rewrite strip_head by done. apply wp_peek.
    assert (Hdig : ((48 <=? Z_of_char c) && (Z_of_char c <=? 57)) || (Z_of_char c =? 45) = true).
    { destruct Hn0 as [Hn0| ->]; [|done]. unfold is_digit in Hn0. by rewrite Hn0. }
    assert (Hno : forall k, 57 < k -> (Z_of_char c =? k) = false).
    { intros k Hk. apply orb_prop in Hdig as [[_ H%Z.leb_le]%andb_prop|H%Z.eqb_eq]; lia. }
    assert (H34 : (Z_of_char c =? 34) = false).
    { apply orb_prop in Hdig as [[H%Z.leb_le _]%andb_prop|H%Z.eqb_eq]; lia. }
    rewrite (Hno 110), (Hno 102), (Hno 116), (Hno 91), (Hno 123), H34, Hdig by lia.
    apply read_bind, wp_ungetc, read_bind. change (c :: s ++ t) with ((c :: s) ++ t). rewrite <- Es.
    apply wp_parse_number; [done..|]. intros l'. by apply read_ret.
  - change (strip (serialize (string_type s) ++ t)) with (quote :: (mjoin (map escape s) ++ [quote]) ++ t).
    apply wp_peek. change (wp (parse_string out) (Some 34) ((mjoin (map escape s) ++ [quote]) ++ t) Q).
    rewrite <- app_assoc. apply read_bind, wp_parse_string. intros l'. by apply read_ret.
  - apply json_array in Hv. cbn [height] in Hn.
    assert (Hr : Forall (reads (_parse n)) vs).
    { apply list.Forall_forall. intros v Hin. rewrite list.Forall_forall in IH, Hv. apply IH; [done|by apply Hv|].
      eapply list_max_elem; [apply Nat.succ_lt_mono, Hn|]. by apply list_elem_of_fmap_2. }
    change (strip (serialize (array_type vs) ++ t)) with ("["%char :: (separated (map serialize vs) ++ str "]") ++ t).
    apply wp_peek. change (wp (_parse_array (_parse n) out) (Some 91) ((separated (map serialize vs) ++ str "]") ++ t) Q).
    rewrite <- app_assoc. unfold _parse_array. cbn [parse_array_start default_parse_context].
    destruct vs as [|v vs].
    + apply read_bind, wp_expect_here; [done|]. intros l'. by apply read_ret.
    + apply Forall_cons in Hv as [Hv _]. destruct (serialize_head v Hv) as (c & s & Es & Hc & Hb & _).
      assert (E : exists s', separated (map serialize (v :: vs)) ++ str "]" ++ t = c :: s').
      { cbn [map]. rewrite separated_cons, Es. by eexists. }
      destruct E as [s' E]. rewrite E. apply read_bind, wp_expect_other; [done..|]. intros l'. rewrite <- E.
      apply wp_while. intros fuel Hf. by apply (wp_array_loop (_parse n) t Q (v :: vs) fuel 0 []).
  - apply json_object in Hv as [Ho Hv]. cbn [height] in Hn.
    assert (Hr : Forall (λ kv, reads (_parse n) (snd kv)) ms).
    { apply list.Forall_forall. intros kv Hin. rewrite list.Forall_forall in IH, Hv. apply IH; [done|by apply Hv|].
      eapply list_max_elem; [apply Nat.succ_lt_mono, Hn|]. by apply (list_elem_of_fmap_2 (λ kv, height (snd kv))). }
    change (strip (serialize (object_type ms) ++ t)) with ("{"%char :: (separated (map member_text ms) ++ str "}") ++ t).
    apply wp_peek. change (wp (_parse_object (_parse n) out) (Some 123) ((separated (map member_text ms) ++ str "}") ++ t) Q).
    rewrite <- app_assoc. unfold _parse_object. cbn [parse_object_start default_parse_context].
    destruct ms as [|kv ms].
    + apply read_bind, wp_expect_here; [done|]. intros l'. by apply read_ret.
    + assert (E : exists s', separated (map member_text (kv :: ms)) ++ str "}" ++ t = quote :: s').
      { cbn [map]. rewrite separated_cons. unfold member_text at 1, serialize_str. by eexists. }
      destruct E as [s' E]. rewrite E. apply read_bind, wp_expect_other; [done..|]. intros l'. rewrite <- E.
      apply wp_while. intros fuel Hf. by apply (wp_object_loop (_parse n) t Q (kv :: ms) fuel []).
Qed.

(** ** Whole texts *)

Lemma at_input_of s : at_ (input_of s) None s.
Proof. by left. Qed.

Lemma ends_error err : ends (while (λ fuel, error_loop fuel err)).
Proof.
  intros l s. apply wp_while. intros fuel Hf. revert l s Hf err. induction fuel as [|fuel IH]; intros l s Hf err; [lia|].
  cbn [error_loop]. apply wp_peek. destruct s as [|c s]; [by apply read_ret|].
  destruct (_ || _); [apply read_ret; cbn; lia|]. eapply read_mono; [apply IH; cbn in Hf; lia|]. cbn. lia.
Qed.

(** C33: Parsing ends for every text and every context whose own readers of strings and items do:
    no assertion fails, and the depth of the recursion and the rounds of every loop are bounded by the
    length of the text.  What it returns as not read is an end of the text, and there is
    an error text behind the pointer exactly when the pointer is not null. *)
Theorem parse_ends {T : Type} `{LawfulContext T} (out : T) (first : text) (err : option text) :
  exists out' err' rest, _parse_text out first err = Some (out', err', rest) ∧ rest `suffix_of` first
    ∧ (is_Some err' <-> is_Some err).
Proof.
  unfold _parse_text.
  destruct (ends_parse (S (length first)) out None first ltac:(lia) _ (at_input_of first)) as ([ok o] & i & l & s & E & Hi & Hs).
  pose proof (advances_parse _ _ _ _ _ E) as Ha. cbn [cur_ input_of] in Ha. rewrite E.
  destruct err as [e|]; [|by eexists _, _, _]. destruct ok; [by eexists _, _, _|].
  set (e0 := _ ++ _). destruct (ends_error e0 l s i Hi) as (e' & i' & l' & s' & E' & _).
  rewrite E'. eexists _, _, _. split_and!; [done| |done]. transitivity (cur_ i); [|done].
  refine (advances_while _ _ _ _ _ E'). intros fuel. apply advances_error.
Qed.

Lemma separated_length l t : t ∈ l -> (length t <= length (separated l))%nat.
Proof.
  induction l as [|u l IH]; intros Ht; [by apply not_elem_of_nil in Ht|]. rewrite separated_cons, length_app.
  apply elem_of_cons in Ht as [->|Ht]; [lia|]. specialize (IH Ht). destruct l; [by apply not_elem_of_nil in Ht|]. cbn [length]. lia.
Qed.

Lemma list_max_bound (l : list nat) n : Forall (λ x, (x <= n)%nat) l -> (list_max l <= n)%nat.
Proof. intros H. by apply list_max_le. Qed.

Lemma height_length v : (height v <= length (serialize v))%nat.
Proof.
  induction v as [ |b|d|s|vs IH|ms IH] using value_ind_all; cbn [height]; try lia.
  - change (serialize (array_type vs)) with ("["%char :: separated (map serialize vs) ++ str "]"). cbn [length]. rewrite length_app.
    apply le_n_S. transitivity (length (separated (map serialize vs))); [|lia]. apply list_max_bound.
    apply Forall_map, list.Forall_forall. intros v Hv. rewrite list.Forall_forall in IH. rewrite IH by done.
    apply separated_length. by apply list_elem_of_fmap_2.
  - change (serialize (object_type ms)) with ("{"%char :: separated (map member_text ms) ++ str "}"). cbn [length]. rewrite length_app.
    apply le_n_S. transitivity (length (separated (map member_text ms))); [|lia]. apply list_max_bound.
    apply Forall_map, list.Forall_forall. intros kv Hv. rewrite list.Forall_forall in IH. rewrite IH by done.
    transitivity (length (member_text kv)); [unfold member_text; rewrite length_app; cbn; lia|].
    apply separated_length. by apply list_elem_of_fmap_2.
Qed.

Lemma parse_stream_serialize (v out : value) (t : text) : json_value v -> stops t ->
  parse_stream out (serialize v ++ t) = Some (v, []).
Proof.
  intros Hv Ht. unfold parse_stream, parse_iter, _parse_text.
  assert (Hn : (height v < S (length (serialize v ++ t)))%nat) by (rewrite length_app; pose proof (height_length v); lia).
  destruct (parse_value v Hv _ Hn out None t (λ r _ _, r = (true, v)) Ht (λ _, eq_refl) _ (at_input_of _))
    as (r & i & l & s & -> & _ & ->). done.
Qed.

(** C32: What the serializer writes, the stream operator reads: the same value, no error, whatever
    the target held before and whatever follows that does not continue a number. *)
Theorem extract_serialize (v out : value) (t : text) : json_value v -> stops t ->
  extract out (serialize v ++ t) = Some (MkExtracted v [] false).
Proof. intros Hv Ht. unfold extract. by rewrite parse_stream_serialize. Qed.

Lemma SFeqb_refl d : finite d = true -> SFeqb d d = true.
Proof.
  destruct d as [[]|[]| |[] m e]; try done; intros _; unfold SFeqb, SFcompare; rewrite Z.compare_refl;
    change (Pos.compare_cont Eq m m) with (Pos.compare m m); by rewrite Pos.compare_refl.
Qed.

(** A value without infinities and NaNs equals itself. *)
Lemma value_eqb_refl v : json_value v -> value_eqb v v = true.
Proof.
  induction v as [ |b|d|s|vs IH|ms IH] using value_ind_all; intros Hv; cbn.
  - done.
  - by destruct b.
  - by apply SFeqb_refl, Hv.
  - by apply bool_decide_eq_true_2.
  - apply json_array in Hv. induction IH as [|v vs H _ IH']; [done|]. apply Forall_cons in Hv as [Hv Hvs].
    by rewrite H, IH'.
  - apply json_object in Hv as [_ Hv]. induction IH as [|[k v] ms H _ IH']; [done|]. apply Forall_cons in Hv as [Hv Hvs].
    cbn in *. by rewrite bool_decide_eq_true_2, H, IH'.
Qed.

(** ** Examples *)

Definition sample : value :=
  object_type [(str "a/b", array_type [number_type (fst (strtod (str "-0.1"))); boolean_type true; null_type; array_type []]);
               (str "n", number_type (fst (strtod (str "1e22"))));
               (str "s", string_type (quote :: newline :: "001"%char :: "255"%char :: str "\ x"))].
Lemma sample_ok : json_value sample.
Proof. cbn. split_and!; try done; [|by vm_compute..]. repeat constructor. Qed.

Lemma extract_serialize_witness : extract (number_type S754_nan) (serialize sample ++ [newline]) = Some (MkExtracted sample [] false).
Proof. exact (extract_serialize sample (number_type S754_nan) [newline] sample_ok eq_refl). Defined.

Example sample_text : serialize (array_type [number_type (fst (strtod (str "-0.1"))); number_type (fst (strtod (str "42.0")));
    string_type (str "a/" ++ [newline; "001"%char])])
  = str "[-0.10000000000000001,42," ++ [quote] ++ str "a\/\n\u0001" ++ [quote] ++ str "]".
Proof. vm_compute. reflexivity. Qed.

(** Two surrogates are one code point of four bytes. *)
Example surrogate_pair : target <$> extract null_type ([quote] ++ str "\ud840\udc0b" ++ [quote])
  = Some (string_type (char_of_Z <$> [0xf0; 0xa0; 0x80; 0x8b])).
Proof. vm_compute. reflexivity. Qed.

(** The iterator [parse] returns stands behind the character that ended a number: what follows
    "1" here is read as "2", the space is lost, while behind the array nothing is. *)
Example number_takes_one_more :
  parse_iter null_type (str "1,2") (Some []) = Some (number_type (fst (strtod (str "1"))), Some [], str "2")
  ∧ parse_iter null_type (str "[],2") (Some []) = Some (array_type [], Some [], str ",2").
Proof. vm_compute. split; reflexivity. Qed.

(** The context that is to refuse everything accepts numbers, as the result of [set_number] is not looked at. *)
Example deny_accepts_numbers : _parse_text Denied (str "7") (Some []) = Some (Denied, Some [], [])
  ∧ _parse_text Denied (str "true") (Some []) = Some (Denied, Some (str "syntax error at line 1 near: "), []).
Proof. vm_compute. split; reflexivity. Qed.

(** Infinity is written as a text that cannot be read. *)
Example infinity_is_lost : serialize (number_type (fst (strtod (str "1e999")))) = str "inf"
  ∧ failbit <$> extract null_type (str "inf") = Some true.
Proof. vm_compute. split; reflexivity. Qed.

Lemma parse_ends_witness : exists out' err' rest,
  _parse_text () (str "[{ ]") (Some []) = Some (out', err', rest) ∧ rest `suffix_of` str "[{ ]"
  ∧ (is_Some err' <-> is_Some (Some (@nil ascii))).
Proof. exact (parse_ends () (str "[{ ]") (Some [])). Defined.
