(* ===== verification/FeatureFiles.v ===== *)
(** * FeatureFiles: from a configuration to the files of the stack

    Models the build tool [buildsystem/determine_relevant_files]: the reader of
    the configuration ([parsekconfig.h], class [kconfigparser]), the walk over
    the family model ([determine_files.h/.cpp], class [FeatureToFiles]) and the
    program around them ([main.cpp]).  The family model decides which aspects
    are woven into the stack.  The JSON parser is that of [Json]; [getopt] is a
    parameter.  An abnormal end, by a failed assertion or an
    exception, is [None]. *)

From Stdlib Require Import Ascii String.
From stdpp Require Import strings sorting.
From S2P Require Import Prelude Text Json.

Open Scope Z_scope.

(** ** The configuration *)

Module Kconfig.

(** The set [kconfig_enabled] as the map to the unit. *)
Record kconfigparser := MkKconfig {
  kconfig_enabled : list (text * unit); kconfig_keyvalue : list (text * text) }.
#[global] Instance kconfigparser_settable : Settable kconfigparser :=
  λ k, MkKconfig (kconfig_enabled k) (kconfig_keyvalue k).

Definition hasEnding (fullString ending : text) : bool :=
  if Nat.leb (length ending) (length fullString)
  then bool_decide (drop (length fullString - length ending) fullString = ending)
  else false.

(** The lines [getline] gives until the file is no longer good. *)
Fixpoint getlines (s : text) : list text :=
  match s with
  | [] => [[]]
  | c :: s =>
      if bool_decide (c = newline) then [] :: getlines s
      else match getlines s with l :: ls => (c :: l) :: ls | [] => [[c]] end
  end.

Fixpoint find_first_of (c : ascii) (s : text) : option nat :=
  match s with
  | [] => None
  | x :: s => if bool_decide (x = c) then Some 0%nat else S <$> find_first_of c s
  end.

(** One line; [resize(npos)] throws when there is no [=]. *)
Definition load_line (line : text) (k : kconfigparser) : option kconfigparser :=
  if Nat.ltb (length line) 2 || bool_decide (head line = Some "#"%char) then Some k
  else
    let key := drop 7 line in
    if hasEnding key (str "=y") then
      Some (k <| kconfig_enabled := map_insert (take (length key - 2) key) tt (kconfig_enabled k) |>)
    else
      n ← find_first_of "="%char key;
      Some (k <| kconfig_keyvalue := map_insert (take n key) (drop (n + 1) key) (kconfig_keyvalue k) |>).

Fixpoint load_lines (ls : list text) (k : kconfigparser) : option kconfigparser :=
  match ls with
  | [] => Some k
  | l :: ls => k ← load_line l k; load_lines ls k
  end.

Definition empty : kconfigparser := MkKconfig [] [].
(** The file's content, if it can be opened; whether it could be, and what was read. *)
Definition load_kconfig_file (content : option text) : option (bool * kconfigparser) :=
  match content with
  | None => Some (false, empty)
  | Some content => k ← load_lines (getlines content) empty; Some (true, k)
  end.
End Kconfig.

(** ** The family model *)

Module Dir.
Definition replace (c d : ascii) : text -> text := map (λ x, if bool_decide (x = c) then d else x).
Definition Dir (dir : text) : text := replace "\"%char "/"%char dir.
Definition cd (sub dir : text) : text :=
  let dir := match sub with c :: _ => if bool_decide (c = "/"%char) then dir else dir ++ str "/" | [] => dir end in
  dir ++ sub.
Fixpoint find_last_of (c : ascii) (s : text) : option nat :=
  match s with
  | [] => None
  | x :: s => match find_last_of c s with Some n => Some (S n) | None => if bool_decide (x = c) then Some 0%nat else None end
  end.
Definition up (dir : text) : text :=
  match find_last_of "/"%char dir with Some i => take i dir | None => dir end.
End Dir.

Module FeatureToFiles.

Definition getMapString (obj : object) (name : text) : option text :=
  match map_find name obj with
  | None => Some []
  | Some (string_type s) => Some s
  | Some _ => None
  end.

Fixpoint strings (l : list value) : option (list text) :=
  match l with
  | [] => Some []
  | string_type s :: l => ss ← strings l; Some (s :: ss)
  | _ :: _ => None
  end.
Definition get_files (obj : object) : option (list text) :=
  match map_find (str "file") obj with
  | Some (string_type s) => Some [s]
  | Some _ => None
  | None =>
      match map_find (str "files") obj with
      | Some (array_type l) => strings l
      | Some _ => None
      | None => Some []
      end
  end.

(** The words [operator>>] extracts, one after the other. *)
Definition isspace (c : ascii) : bool := let n := N_of_ascii c in (n =? 32)%N || ((9 <=? n)%N && (n <=? 13)%N).
Fixpoint words_from (w s : text) : list text :=
  match s with
  | [] => match w with [] => [] | _ => [w] end
  | c :: s =>
      if isspace c then match w with [] => words_from [] s | _ => w :: words_from [] s end
      else words_from (w ++ [c]) s
  end.
Definition words (s : text) : list text := words_from [] s.

Section Selection.
Context (mEnabled : text -> bool) (all_features : bool).

(** The loop of [checkDepends] over the words left, with its four variables. *)
Fixpoint check_words (ok negate_depend all_depend min_one_depend : bool) (ws : list text) : bool :=
  if all_depend && negb ok then ok
  else
    match ws with
    | [] => ok
    | sub :: ws =>
        if bool_decide (sub = str "not") then check_words ok true all_depend min_one_depend ws
        else if bool_decide (sub = str "and") then check_words ok false true false ws
        else if bool_decide (sub = str "or") then check_words ok false false true ws
        else if bool_decide (head sub = Some "&"%char) then
          let enabled := mEnabled (tail sub) in
          let enabled := (enabled && negb negate_depend) || (negb enabled && negate_depend) in
          let ok := if all_depend then ok && enabled else if min_one_depend then ok || enabled else ok && enabled in
          check_words ok negate_depend all_depend min_one_depend ws
        else false
    end.
Definition checkDepends (depends : text) : bool := check_words true false false false (words depends).

(** What the walk changes: the directory, the depth and the text written. *)
Record State := MkState { mdir : text; depth : Z; output : text }.
#[global] Instance State_settable : Settable State := λ s, MkState (mdir s) (depth s) (output s).

Definition write_files (files : list text) (s : State) : State :=
  s <| output := output s ++ mjoin (map (λ f, mdir s ++ str "/" ++ f ++ str ";") files) |>.

(** [node] and [component], at most [fuel] levels deep. *)
Fixpoint node (fuel : nat) (obj : object) (s : State) : option (bool * State) :=
  match fuel with
  | O => None
  | S fuel =>
      let fix component (l : list value) (s : State) : option (bool * State) :=
        match l with
        | [] => Some (true, s)
        | object_type o :: l =>
            match node fuel o s with
            | Some (true, s) => component l s
            | Some (false, s) => Some (false, s)
            | None => None
            end
        | _ :: _ => Some (false, s)
        end in
      let s := s <| depth := depth s + 1 |> in
      _ ← getMapString obj (str "vname"); _ ← getMapString obj (str "name");
      subdir ← getMapString obj (str "subdir"); depends ← getMapString obj (str "depends");
      files ← get_files obj;
      if negb all_features && negb (bool_decide (depends = [])) && negb (checkDepends depends) then Some (true, s)
      else
        let s := if bool_decide (subdir = []) then s else s <| mdir := Dir.cd subdir (mdir s) |> in
        let s := write_files files s in
        let up (result : bool) (s : State) :=
          let s := if bool_decide (subdir = []) then s else s <| mdir := Dir.up (mdir s) |> in
          Some (result, s <| depth := depth s - 1 |>) in
        match map_find (str "comp") obj with
        | None => up true s
        | Some (array_type l) => match component l s with Some (result, s) => up result s | None => None end
        | Some _ => Some (false, s)
        end
  end.
End Selection.

(** The constructor walks over the model, whose depth bounds the depth of the walk. *)
Definition FeatureToFiles (basedir : text) (obj : object) (kconfig_enabled : list (text * unit))
    (all_features : bool) : option (bool * text) :=
  match node (λ k, bool_decide (is_Some (map_find k kconfig_enabled))) all_features (height (object_type obj)) obj
          (MkState (Dir.Dir basedir) 0 []) with
  | Some (msuccess, s) => Some (msuccess, output s)
  | None => None
  end.
End FeatureToFiles.

(** ** The program *)

Module Main.
Import Kconfig FeatureToFiles.

(** The variables of [main]; an output file is known by its name once it is open. *)
Record Options := MkOptions {
  output_files_file : option text; output_definitions_file : option text;
  kconfigfile : text; base_directory : text; definitions_prefix : text; featureToFilesRelationfile : text;
  all_features : bool; definitions : bool; featureFiles : bool }.
#[global] Instance Options_settable : Settable Options := λ o, MkOptions
  (output_files_file o) (output_definitions_file o) (kconfigfile o) (base_directory o) (definitions_prefix o)
  (featureToFilesRelationfile o) (all_features o) (definitions o) (featureFiles o).
Definition no_options : Options := MkOptions None None [] [] [] [] false false false.

(** What the program leaves: its exit status and the text of the two streams. *)
Record Outcome := MkOutcome { status : Z; files_text : text; definitions_text : text }.
Definition EXIT_FAILURE : Z := 1.

Section Program.
(** The file system: which files can be written, the content of those that can be read. *)
Context (can_open : text -> bool) (read_file : text -> option text).

(** A second [open] of a [filebuf] fails and leaves it open. *)
Definition open_output (file : option text) (optarg : text) : option (option text) :=
  if bool_decide (optarg = []) then Some file
  else match file with
       | Some f => Some (Some f)
       | None => if can_open optarg then Some (Some optarg) else None
       end.

(** The options [getopt] finds, [None] for an unknown one. *)
Fixpoint parse_options (l : list (option (ascii * text))) (o : Options) : option Options :=
  match l with
  | [] => Some o
  | None :: _ => None
  | Some (opt, optarg) :: l =>
      if bool_decide (opt = "o"%char) then
        let o := o <| featureFiles := true |> in
        f ← open_output (output_files_file o) optarg; parse_options l (o <| output_files_file := f |>)
      else if bool_decide (opt = "d"%char) then
        let o := o <| definitions := true |> in
        f ← open_output (output_definitions_file o) optarg; parse_options l (o <| output_definitions_file := f |>)
      else if bool_decide (opt = "p"%char) then parse_options l (o <| definitions_prefix := optarg |>)
      else if bool_decide (opt = "k"%char) then parse_options l (o <| kconfigfile := optarg |>)
      else if bool_decide (opt = "b"%char) then parse_options l (o <| base_directory := optarg |>)
      else if bool_decide (opt = "f"%char) then parse_options l (o <| featureToFilesRelationfile := optarg |>)
      else if bool_decide (opt = "a"%char) then parse_options l (o <| all_features := true |>)
      else None
  end.

(** The checks behind "error handling". *)
Definition options_ok (o : Options) : bool :=
  let no_kconfig := bool_decide (kconfigfile o = []) in
  negb (no_kconfig && definitions o)
  && negb (no_kconfig && negb (all_features o))
  && negb (bool_decide (featureToFilesRelationfile o = []) && (negb (definitions o) || featureFiles o))
  && negb (bool_decide (output_files_file o = None) && bool_decide (output_definitions_file o = None)).

Definition define (prefix key value : text) : text := str "#define " ++ prefix ++ key ++ value ++ [newline].
Definition output_definitions (o : Options) (k : kconfigparser) : text :=
  if definitions o then
    mjoin (map (λ kv, define (definitions_prefix o) (fst kv) (str " " ++ snd kv)) (kconfig_keyvalue k))
    ++ mjoin (map (λ kv, define (definitions_prefix o) (fst kv) []) (kconfig_enabled k))
  else [].

(** The exit status and the text of the files. *)
Definition output_files (o : Options) (k : kconfigparser) : option (Z * text) :=
  if featureFiles o then
    match read_file (featureToFilesRelationfile o) with
    | None => Some (EXIT_FAILURE, [])
    | Some content =>
        r ← extract null_type content;
        if negb (bool_decide (last_error r = [])) then Some (EXIT_FAILURE, [])
        else match target r with
             | object_type obj =>
                 '(success, t) ← FeatureToFiles (base_directory o) obj (kconfig_enabled k) (all_features o);
                 Some (if success : bool then 0 else 1, t)
             | _ => Some (EXIT_FAILURE, [])
             end
    end
  else Some (0, []).

Definition main (argv : list (option (ascii * text))) : option Outcome :=
  match parse_options argv no_options with
  | None => Some (MkOutcome EXIT_FAILURE [] [])
  | Some o =>
      if options_ok o then
        '(loaded, k) ← (if definitions o || negb (all_features o) then load_kconfig_file (read_file (kconfigfile o))
                        else Some (true, empty));
        if loaded : bool then
          '(res, t) ← output_files o k;
          Some (MkOutcome res t (output_definitions o k))
        else Some (MkOutcome EXIT_FAILURE [] [])
      else Some (MkOutcome EXIT_FAILURE [] [])
  end.
End Program.
End Main.

(** ** Dependencies *)

(** A feature or its negation; all or any of several. *)
Record literal := MkLiteral { negated : bool; feature : text }.
Inductive dependency := All_of (x : literal) (l : list literal) | Any_of (x : literal) (l : list literal).

Definition literal_words (x : literal) : list text :=
  (if negated x then [str "not"] else []) ++ ["&"%char :: feature x].
Definition dependency_words (d : dependency) : list text :=
  match d with
  | All_of x l => literal_words x ++ mjoin (map (λ y, str "and" :: literal_words y) l)
  | Any_of x l => literal_words x ++ mjoin (map (λ y, str "or" :: literal_words y) l)
  end.
(** The words with spaces between them. *)
Fixpoint spaced (ws : list text) : text :=
  match ws with [] => [] | [w] => w | w :: ws => w ++ " "%char :: spaced ws end.

(** The features are words. *)
Definition is_word (w : text) : Prop := Forall (λ c, FeatureToFiles.isspace c = false) w.
Definition literal_ok (x : literal) : Prop := is_word (feature x).
Definition dependency_ok (d : dependency) : Prop :=
  match d with All_of x l | Any_of x l => Forall literal_ok (x :: l) end.

Section Depends.
Import FeatureToFiles.
Context (mEnabled : text -> bool).

Definition literal_holds (x : literal) : bool := xorb (negated x) (mEnabled (feature x)).
Definition dependency_holds (d : dependency) : bool :=
  match d with
  | All_of x l => forallb literal_holds (x :: l)
  | Any_of x l => existsb literal_holds (x :: l)
  end.

Lemma words_from_word w rest : forall u, is_word w -> words_from u (w ++ rest) = words_from (u ++ w) rest.
Proof.
  induction w as [|c w IH]; intros u Hw; [by rewrite app_nil_r|]. apply Forall_cons in Hw as [Hc Hw].
  cbn [app words_from]. rewrite Hc, IH by done. by rewrite <- app_assoc.
Qed.

Lemma words_spaced ws : Forall (λ w, is_word w ∧ w ≠ []) ws -> words (spaced ws) = ws.
Proof.
  unfold words. induction 1 as [|w ws [Hw Hne] Hws IH]; [done|].
  destruct ws as [|w' ws]; cbn [spaced] in *.
  - rewrite <- (app_nil_r w), words_from_word, app_nil_r by done. cbn. by destruct w.
  - rewrite words_from_word by done. cbn [app words_from]. change (isspace " ") with true. cbn match. rewrite IH.
    by destruct w.
Qed.

Lemma literal_words_ok x : literal_ok x -> Forall (λ w, is_word w ∧ w ≠ []) (literal_words x).
Proof.
  intros Hx. unfold literal_words. apply Forall_app. split.
  - destruct (negated x); [|constructor]. repeat constructor. done.
  - apply Forall_singleton. split; [by constructor|done].
Qed.

Lemma dependency_words_ok d : dependency_ok d -> Forall (λ w, is_word w ∧ w ≠ []) (dependency_words d).
Proof.
  assert (H : forall op l, is_word op ∧ op ≠ [] -> Forall literal_ok l ->
    Forall (λ w, is_word w ∧ w ≠ []) (mjoin (map (λ y, op :: literal_words y) l))).
  { intros op l Hop Hl. induction Hl as [|y l Hy _ IH]; [constructor|]. cbn. constructor; [done|].
    apply Forall_app. split; [by apply literal_words_ok|done]. }
  destruct d as [x l|x l]; intros [Hx Hl]%Forall_cons; apply Forall_app; (split; [by apply literal_words_ok|]);
    apply H; try done; (split; [repeat constructor|done]).
Qed.

(** The connectives, unless the loop is left. *)
Lemma check_connective ok n a m ws : a && negb ok = false ->
  check_words mEnabled ok n a m (str "not" :: ws) = check_words mEnabled ok true a m ws
  ∧ check_words mEnabled ok n a m (str "and" :: ws) = check_words mEnabled ok false true false ws
  ∧ check_words mEnabled ok n a m (str "or" :: ws) = check_words mEnabled ok false false true ws.
Proof.
  intros Ha. set (g := check_words mEnabled).
  assert (H : forall sub, g ok n a m (sub :: ws)
    = if bool_decide (sub = str "not") then g ok true a m ws
      else if bool_decide (sub = str "and") then g ok false true false ws
      else if bool_decide (sub = str "or") then g ok false false true ws
      else g ok n a m (sub :: ws)).
  { intros sub. unfold g at 1 5. cbn [check_words]. rewrite Ha. fold g. by repeat case_bool_decide. }
  split_and!; rewrite H; reflexivity.
Qed.

(** A literal changes [ok] by its value; the flags decide how. *)
Lemma check_literal ok n a m x ws : a && negb ok = false -> n = false ->
  check_words mEnabled ok n a m (literal_words x ++ ws)
  = check_words mEnabled (if a then ok && literal_holds x else if m then ok || literal_holds x else ok && literal_holds x)
      (negated x) a m ws.
Proof.
  intros Ha ->. assert (H : forall n, check_words mEnabled ok n a m (("&"%char :: feature x) :: ws)
    = let v := xorb n (mEnabled (feature x)) in
      check_words mEnabled (if a then ok && v else if m then ok || v else ok && v) n a m ws).
  { intros n. set (g := check_words mEnabled). unfold g at 1. cbn [check_words]. rewrite Ha. fold g. cbn [head tail].
    rewrite !(bool_decide_eq_false_2 (_ :: _ = _)) by done. rewrite bool_decide_eq_true_2 by done. cbv zeta.
    by destruct n, (mEnabled (feature x)). }
  unfold literal_words, literal_holds. destruct (negated x); cbn [app]; [|apply H].
  destruct (check_connective ok false a m (("&"%char :: feature x) :: ws) Ha) as [-> _]. apply H.
Qed.

Lemma check_all l : forall ok n a m,
  check_words mEnabled ok n a m (mjoin (map (λ y, str "and" :: literal_words y) l)) = ok && forallb literal_holds l.
Proof.
  induction l as [|x l IH]; intros ok n a m.
  - cbn. rewrite andb_true_r. by destruct (_ && _).
  - change (mjoin (map (λ y, str "and" :: literal_words y) (x :: l)))
      with (str "and" :: literal_words x ++ mjoin (map (λ y, str "and" :: literal_words y) l)).
    destruct ok.
    + destruct (check_connective true n a m (literal_words x ++ mjoin (map (λ y, str "and" :: literal_words y) l)))
        as (_ & -> & _); [apply andb_false_r|]. rewrite check_literal by done. by rewrite IH.
    + destruct a; [done|]. destruct (check_connective false n false m
        (literal_words x ++ mjoin (map (λ y, str "and" :: literal_words y) l)) eq_refl) as (_ & -> & _).
      by destruct (literal_words x ++ _).
Qed.

Lemma check_any l : forall ok n m,
  check_words mEnabled ok n false m (mjoin (map (λ y, str "or" :: literal_words y) l)) = ok || existsb literal_holds l.
Proof.
  induction l as [|x l IH]; intros ok n m; [cbn; by rewrite orb_false_r|].
  change (mjoin (map (λ y, str "or" :: literal_words y) (x :: l)))
    with (str "or" :: literal_words x ++ mjoin (map (λ y, str "or" :: literal_words y) l)).
  destruct (check_connective ok n false m (literal_words x ++ mjoin (map (λ y, str "or" :: literal_words y) l)) eq_refl)
    as (_ & _ & ->). rewrite check_literal by done. rewrite IH. cbn. by rewrite orb_assoc.
Qed.

Lemma checkDepends_holds d : dependency_ok d ->
  checkDepends mEnabled (spaced (dependency_words d)) = dependency_holds d.
Proof.
  intros Hd. unfold checkDepends. rewrite words_spaced by (by apply dependency_words_ok).
  destruct d as [x l|x l]; cbn [dependency_words dependency_holds forallb existsb]; rewrite check_literal by done.
  - by rewrite check_all.
  - by rewrite check_any.
Qed.

(** C31: A dependency written with "and" only or with "or" only, its features negated or not, is met
    exactly when all, or any, of them hold. *)
Theorem checkDepends_correct (d : dependency) : dependency_ok d ->
  checkDepends mEnabled (spaced (dependency_words d)) = dependency_holds d.
Proof. apply checkDepends_holds. Qed.
End Depends.

(** What a component of the family model depends on, nothing or a dependency, as its text. *)
Definition depends_text (d : option dependency) : text :=
  match d with Some d => spaced (dependency_words d) | None => [] end.
Definition depends_ok (d : option dependency) : Prop := from_option dependency_ok True d.
Definition depends_met (mEnabled : text -> bool) (d : option dependency) : bool :=
  from_option (dependency_holds mEnabled) true d.

Lemma depends_text_nonempty d : spaced (dependency_words d) ≠ [].
Proof. destruct d as [[[] ?] [|]|[[] ?] [|]]; cbn; done. Qed.

Lemma depends_test mEnabled d : depends_ok d ->
  bool_decide (depends_text d = []) || FeatureToFiles.checkDepends mEnabled (depends_text d) = depends_met mEnabled d.
Proof.
  intros Hd. destruct d as [d|]; [|done]. cbn [depends_text depends_met from_option].
  rewrite bool_decide_eq_false_2 by apply depends_text_nonempty. by apply checkDepends_holds.
Qed.

Lemma checkDepends_correct_witness :
  let depends := str "&ipv6 and &ethernet and not &privacy" in
  FeatureToFiles.checkDepends (λ f, negb (bool_decide (f = str "privacy"))) depends = true
  ∧ FeatureToFiles.checkDepends (λ f, bool_decide (f = str "ipv6")) depends = false.
Proof.
  assert (H : dependency_ok (All_of (MkLiteral false (str "ipv6"))
    [MkLiteral false (str "ethernet"); MkLiteral true (str "privacy")])) by (repeat constructor).
  split; exact (checkDepends_correct _ _ H).
Defined.

(** A mixture is not read with the usual precedence: the first failed "and" decides. *)
Example mixed_dependency :
  FeatureToFiles.checkDepends (λ f, bool_decide (f = str "c")) (str "&a and &b or &c") = false
  ∧ FeatureToFiles.checkDepends (λ f, bool_decide (f = str "c")) (str "&c or &a and &b") = false.
Proof. by vm_compute. Qed.

(** ** The walk over the family model *)

(** A component: its dependency, if it has one, directory, files and parts. *)
#[warnings="-register-all"]
Inductive tree := Node (depends : option dependency) (subdir : text) (files : list text) (comp : list tree).

Section Tree_induction.
Context (P : tree -> Prop) (H : forall d s fs ts, Forall P ts -> P (Node d s fs ts)).
Fixpoint tree_ind_all (t : tree) : P t :=
  match t with
  | Node d s fs ts =>
      H d s fs ts ((fix all ts : Forall P ts :=
        match ts with [] => @List.Forall_nil _ P | t :: ts => @List.Forall_cons _ P t ts (tree_ind_all t) (all ts) end) ts)
  end.
End Tree_induction.

(** A directory of one step: "name" or "/name". *)
Definition one_step (s : text) : Prop :=
  "/"%char ∉ (match s with c :: s' => if bool_decide (c = "/"%char) then s' else s | [] => [] end).
(** Only the component that the walk comes to last, and those around it, may have a directory of more steps,
    as "../api" of the repository's model: what is left of its path then stays, and nothing comes behind it. *)
Fixpoint tidy (last : bool) (t : tree) : Prop :=
  match t with
  | Node _ s _ ts =>
      (last = true ∨ one_step s)
      ∧ (fix all ts := match ts with
                       | [] => True
                       | t :: ts => tidy (last && bool_decide (ts = [])) t ∧ all ts
                       end) ts
  end.

Section Walk.
Import FeatureToFiles.

(** The JSON object of a component; it may have any other members. *)
Fixpoint represents (t : tree) (o : object) : Prop :=
  match t with
  | Node d s fs ts =>
      is_Some (getMapString o (str "vname")) ∧ is_Some (getMapString o (str "name"))
      ∧ depends_ok d ∧ getMapString o (str "depends") = Some (depends_text d) ∧ getMapString o (str "subdir") = Some s ∧ get_files o = Some fs
      ∧ match map_find (str "comp") o with
        | None => ts = []
        | Some (array_type l) =>
            (fix all ts l := match ts, l with
                             | [], [] => True
                             | t :: ts, object_type o :: l => represents t o ∧ all ts l
                             | _, _ => False
                             end) ts l
        | Some _ => False
        end
  end.

Context (mEnabled : text -> bool).

(** The paths of the files of a component and its parts under [dir]: those whose
    dependencies are met all the way from the root. *)
Definition enter (s dir : text) : text := if bool_decide (s = []) then dir else Dir.cd s dir.
Fixpoint selected (all_features : bool) (dir : text) (t : tree) : list text :=
  match t with
  | Node d s fs ts =>
      if all_features || depends_met mEnabled d
      then map (λ f, enter s dir ++ str "/" ++ f) fs ++ mjoin (map (selected all_features (enter s dir)) ts)
      else []
  end.
Definition listing (l : list text) : text := mjoin (map (λ f, f ++ str ";") l).

Lemma find_last_of_app d name : "/"%char ∉ name ->
  Dir.find_last_of "/" (d ++ "/"%char :: name) = Some (length d).
Proof.
  intros Hn. induction d as [|c d IH]; cbn; [|by rewrite IH].
  assert (Dir.find_last_of "/" name = None) as ->; [|done].
  clear -Hn. induction name as [|c name IH]; [done|]. apply not_elem_of_cons in Hn as [Hc Hn]. cbn.
  rewrite IH by done. by rewrite bool_decide_eq_false_2.
Qed.

(** Going up undoes going into a directory of one step. *)
Lemma up_cd s d : s ≠ [] -> one_step s -> Dir.up (Dir.cd s d) = d.
Proof.
  intros Hs Ho. destruct s as [|c s]; [done|]. unfold one_step in Ho. unfold Dir.up, Dir.cd.
  destruct (decide (c = "/"%char)) as [->|Hc].
  - rewrite bool_decide_eq_true_2 in Ho |- * by done. rewrite find_last_of_app by done. apply take_app_length.
  - rewrite bool_decide_eq_false_2 in Ho |- * by done. rewrite <- app_assoc. cbn [app str list_ascii_of_string].
    rewrite find_last_of_app by done. apply take_app_length.
Qed.

Lemma listing_app l k : listing (l ++ k) = listing l ++ listing k.
Proof. unfold listing. by rewrite map_app, join_app. Qed.

Lemma height_comp o l : map_find (str "comp") o = Some (array_type l) ->
  forall o', object_type o' ∈ l -> (S (height (object_type o')) < height (object_type o))%nat.
Proof.
  intros Ho o' Hin.
  assert (H1 : (height (array_type l) <= list_max (map (λ kv, height (snd kv)) o))%nat).
  { clear Hin. induction o as [|[k v] o IH]; [done|]. cbn [map_find] in Ho. cbn [map list_max fold_right].
    unfold list_max in *. cbn [map fold_right snd].
    case_bool_decide; [injection Ho as ->; lia|]. specialize (IH Ho). lia. }
  assert (H2 : (height (object_type o') <= list_max (map height l))%nat).
  { clear -Hin. induction l as [|v l IH]; [by apply elem_of_nil in Hin|]. unfold list_max in *. cbn [map fold_right].
    apply elem_of_cons in Hin as [<-|Hin]; [lia|]. specialize (IH Hin). lia. }
  cbn [height] in *. lia.
Qed.

(** The walk over the parts, given what it does to each. *)
Lemma component_selected all (node' : object -> State -> option (bool * State)) last ts : forall l s,
  Forall (λ t, forall b o s, object_type o ∈ l -> represents t o -> tidy b t ->
    exists s', node' o s = Some (true, s') ∧ (b = false -> mdir s' = mdir s)
      ∧ output s' = output s ++ listing (selected all (mdir s) t)) ts ->
  (fix all ts l := match ts, l with
                   | [], [] => True
                   | t :: ts, object_type o :: l => represents t o ∧ all ts l
                   | _, _ => False
                   end) ts l ->
  (fix all ts := match ts with
                 | [] => True
                 | t :: ts => tidy (last && bool_decide (ts = [])) t ∧ all ts
                 end) ts ->
  exists s', (fix component (l : list value) (s : State) : option (bool * State) :=
        match l with
        | [] => Some (true, s)
        | object_type o :: l =>
            match node' o s with
            | Some (true, s) => component l s
            | Some (false, s) => Some (false, s)
            | None => None
            end
        | _ :: _ => Some (false, s)
        end) l s = Some (true, s') ∧ (last = false -> mdir s' = mdir s)
    ∧ output s' = output s ++ listing (mjoin (map (selected all (mdir s)) ts)).
Proof.
  induction ts as [|t ts IH]; intros l s HF Hr Hp.
  - destruct l; [|done]. exists s. by rewrite app_nil_r.
  - destruct l as [|[] l]; try done. destruct Hr as [Hr Hrs], Hp as [Hp Hps]. apply Forall_cons in HF as [Ht HF].
    destruct (Ht _ m s ltac:(left) Hr Hp) as (s1 & E1 & D1 & O1). rewrite E1.
    destruct (IH l s1) as (s2 & E2 & D2 & O2); [|done|done|].
    { eapply Forall_impl; [exact HF|]. cbn. intros t' Ht' b o s' Ho. apply Ht'. by right. }
    exists s2. split; [exact E2|]. split; [intros ->; rewrite D2 by done; by apply D1|].
    rewrite O2, O1. cbn [map mjoin list_join]. rewrite listing_app. destruct ts as [|t' ts]; [by rewrite !app_nil_r|].
    rewrite D1 by (rewrite bool_decide_eq_false_2 by done; by destruct last). by rewrite app_assoc.
Qed.

(** The walk over a component that a family model describes ends, succeeds, comes back to the
    directory it started in, unless nothing follows, and writes exactly the files of the parts whose
    dependencies are met. *)
Lemma node_selected all t : forall last o fuel s, represents t o -> tidy last t ->
  (height (object_type o) <= fuel)%nat ->
  exists s', node mEnabled all fuel o s = Some (true, s') ∧ (last = false -> mdir s' = mdir s)
    ∧ output s' = output s ++ listing (selected all (mdir s) t).
Proof.
  induction t as [d sub fs ts IH] using tree_ind_all. intros last o fuel s Hr Hp Hf.
  destruct fuel as [|fuel]; [cbn in Hf; lia|]. cbn [node].
  destruct Hr as ([v ->] & [nm ->] & Hd & -> & -> & -> & Hcomp), Hp as [Hsub Hps]. cbn [mbind option_bind].
  cbn [selected]. rewrite <- (depends_test mEnabled d) by done. destruct (negb all && _ && _) eqn:Hmet.
  { exists (s <| depth := depth s + 1 |>). split; [done|]. split; [done|].
    apply andb_true_iff in Hmet as [[H1 H2]%andb_true_iff H3].
    apply negb_true_iff in H1, H2, H3. rewrite H1, H2, H3. by rewrite app_nil_r. }
  assert (Hcond : all || (bool_decide (depends_text d = []) || checkDepends mEnabled (depends_text d)) = true).
  { by destruct all, (bool_decide (depends_text d = [])), (checkDepends mEnabled (depends_text d)). }
  rewrite Hcond. clear Hmet Hcond. set (s1 := if bool_decide (sub = []) then _ else _).
  assert (D1 : mdir s1 = enter sub (mdir s)) by (unfold s1, enter; repeat case_bool_decide; done).
  assert (O1 : output s1 = output s) by (unfold s1; case_bool_decide; done).
  assert (Hup : forall s2, last = false -> mdir s2 = mdir s1 ->
    mdir (if bool_decide (sub = []) then s2 else s2 <| mdir := Dir.up (mdir s2) |>) = mdir s).
  { intros s2 El E. destruct Hsub as [?|Hsub]; [congruence|].
    rewrite D1 in E. unfold enter in E. case_bool_decide; [done|]. cbn. rewrite E. by apply up_cd. }
  assert (W : output (write_files fs s1) = output s ++ listing (map (λ f, enter sub (mdir s) ++ str "/" ++ f) fs)).
  { cbn. rewrite O1, D1. unfold listing. rewrite map_map. do 2 f_equal. apply map_ext. intros f. by rewrite <- !app_assoc. }
  rewrite listing_app. destruct (map_find (str "comp") o) as [[]|] eqn:Hc; try done.
  - destruct (component_selected all (node mEnabled all fuel) last ts l (write_files fs s1)) as (s2 & E2 & D2 & O2);
      [|exact Hcomp|exact Hps|].
    { eapply Forall_impl; [exact IH|]. cbn. intros t Ht b o' s' Ho' Hr' Hp'. apply (Ht b); try done.
      change (height (object_type o') <= fuel)%nat. pose proof (height_comp _ _ Hc _ Ho'). lia. }
    rewrite E2. eexists. split; [reflexivity|]. split; [intros El; apply Hup; [done|by apply D2]|].
    assert (Ho2 : forall b (x : State), output (x <| depth := depth b - 1 |>) = output x) by done.
    rewrite Ho2. transitivity (output s2); [by case_bool_decide|]. rewrite O2, W. cbn [mdir write_files].
    change (mdir (write_files fs s1)) with (mdir s1). by rewrite D1, app_assoc.
  - subst ts. eexists. split; [reflexivity|]. split; [intros El; by apply Hup|]. cbn [map mjoin list_join].
    rewrite app_nil_r. transitivity (output (write_files fs s1)); [by case_bool_decide|exact W].
Qed.
End Walk.

(** All features select at least the files of every configuration, in the same order. *)
Lemma selected_all_superset mEnabled t : forall dir, selected mEnabled false dir t `sublist_of` selected mEnabled true dir t.
Proof.
  induction t as [d sub fs ts IH] using tree_ind_all. intros dir. cbn [selected orb].
  destruct (depends_met mEnabled d); [|apply sublist_nil_l]. apply sublist_app; [done|].
  induction IH as [|t ts Ht _ IH]; [done|]. cbn [map mjoin list_join]. by apply sublist_app.
Qed.

(** ** Reading the configuration *)

(** A line of the file: a comment, an option that is set, a value. *)
Inductive entry := Comment (t : text) | Enabled (key : text) | Setting (key v : text).
Definition entry_line (x : entry) : text :=
  match x with
  | Comment t => "#"%char :: t
  | Enabled key => str "CONFIG_" ++ key ++ str "=y"
  | Setting key v => str "CONFIG_" ++ key ++ "="%char :: v
  end.
Definition config_file (l : list entry) : text := mjoin (map (λ x, entry_line x ++ [newline]) l).
(** Keys without "=", one line each; the value does not look like a set option. *)
Definition entry_ok (x : entry) : Prop :=
  (newline ∉ entry_line x)
  ∧ match x with
    | Comment _ => True
    | Enabled key => "="%char ∉ key
    | Setting key v => ("="%char ∉ key) ∧ v ≠ str "y" ∧ ¬ (str "=y" `suffix_of` v)
    end.

Section Configuration.
Import Kconfig.

(** What is read: the options set, and of every other key the first value. *)
Fixpoint first_setting (key : text) (l : list entry) : option text :=
  match l with
  | Setting key' v :: l => if bool_decide (key = key') then Some v else first_setting key l
  | _ :: l => first_setting key l
  | [] => None
  end.
Definition is_read (l : list entry) (k : kconfigparser) : Prop :=
  (forall key, is_Some (map_find key (kconfig_enabled k)) <-> Enabled key ∈ l)
  ∧ (forall key, map_find key (kconfig_keyvalue k) = first_setting key l).

Definition read_entry (k : kconfigparser) (x : entry) : kconfigparser :=
  match x with
  | Comment _ => k
  | Enabled key => k <| kconfig_enabled := map_insert key tt (kconfig_enabled k) |>
  | Setting key v => k <| kconfig_keyvalue := map_insert key v (kconfig_keyvalue k) |>
  end.

Lemma getlines_line w rest : newline ∉ w -> getlines (w ++ newline :: rest) = w :: getlines rest.
Proof.
  induction w as [|c w IH]; intros Hw.
  - cbn [app getlines]. by rewrite bool_decide_eq_true_2.
  - apply not_elem_of_cons in Hw as [Hc Hw]. cbn [app getlines]. rewrite bool_decide_eq_false_2 by done. by rewrite IH.
Qed.

Lemma getlines_file l : Forall entry_ok l -> getlines (config_file l) = map entry_line l ++ [[]].
Proof.
  induction 1 as [|x l [Hx _] _ IH]; [done|]. change (getlines ((entry_line x ++ [newline]) ++ config_file l) = map entry_line (x :: l) ++ [[]]).
  rewrite <- app_assoc. cbn [app map]. rewrite getlines_line by done. by rewrite IH.
Qed.

Lemma hasEnding_spec s e : hasEnding s e = true <-> e `suffix_of` s.
Proof.
  unfold hasEnding. destruct (Nat.leb_spec (length e) (length s)) as [H|H].
  - rewrite bool_decide_eq_true. split; [intros <-; apply suffix_drop|]. intros [k ->]. rewrite length_app.
    replace (length k + length e - length e)%nat with (length k) by lia. apply drop_app_length.
  - split; [done|]. intros Hs. apply suffix_length in Hs. lia.
Qed.

Lemma find_first_of_app c w rest : c ∉ w -> find_first_of c (w ++ c :: rest) = Some (length w).
Proof.
  induction w as [|x w IH]; intros Hw; cbn; [by rewrite bool_decide_eq_true_2|].
  apply not_elem_of_cons in Hw as [Hc Hw]. rewrite bool_decide_eq_false_2 by done. by rewrite IH.
Qed.

(** A value line ends in "=y" only if its value does, or is "y". *)
Lemma setting_not_enabled key v : v ≠ str "y" -> ¬ (str "=y" `suffix_of` v) -> ¬ (str "=y" `suffix_of` (key ++ "="%char :: v)).
Proof.
  intros H1 H2 [k E]. destruct (decide (2 <= length v)%nat) as [Hl|Hl].
  - apply H2. exists (drop (S (length key)) k).
    assert (Hk : (length k = length key + length v - 1)%nat)
      by (apply (f_equal length) in E; rewrite !length_app in E; cbn in E; lia).
    apply (f_equal (drop (S (length key)))) in E. rewrite (drop_app_le k) in E by lia.
    rewrite (drop_app_ge key) in E by lia. replace (S (length key) - length key)%nat with 1%nat in E by lia. exact E.
  - destruct v as [|c [|? ?]]; cbn in Hl; try lia.
    + change (str "=y") with (["="%char] ++ ["y"%char]) in E. rewrite app_assoc in E.
      apply (f_equal last) in E. rewrite !last_snoc in E. discriminate E.
    + change (str "=y") with (["="%char] ++ ["y"%char]) in E. change (key ++ ["="%char; c]) with (key ++ ["="%char] ++ [c]) in E.
      rewrite !app_assoc in E. apply (f_equal last) in E. rewrite !last_snoc in E. injection E as ->. by apply H1.
Qed.

Lemma load_entry x k : entry_ok x -> load_line (entry_line x) k = Some (read_entry k x).
Proof.
  intros [_ Hx]. unfold load_line. destruct x as [t|key|key v]; cbn [entry_line].
  - cbn [head]. rewrite bool_decide_eq_true_2 by done. by rewrite orb_true_r.
  - rewrite bool_decide_eq_false_2 by done. rewrite orb_false_r. destruct (Nat.ltb_spec (length (str "CONFIG_" ++ key ++ str "=y")) 2) as [Hl|_].
    { rewrite !length_app in Hl. cbn in Hl. lia. }
    change (drop 7 (str "CONFIG_" ++ key ++ str "=y")) with (key ++ str "=y").
    rewrite (proj2 (hasEnding_spec _ _)) by apply suffix_app_r, suffix_nil || (by exists key).
    rewrite length_app. cbn [length str list_ascii_of_string]. rewrite Nat.add_sub. by rewrite take_app_length.
  - rewrite bool_decide_eq_false_2 by done. rewrite orb_false_r. destruct Hx as (Hk & H1 & H2).
    destruct (Nat.ltb_spec (length (str "CONFIG_" ++ key ++ "="%char :: v)) 2) as [Hl|_].
    { rewrite !length_app in Hl. cbn in Hl. lia. }
    change (drop 7 (str "CONFIG_" ++ key ++ "="%char :: v)) with (key ++ "="%char :: v).
    destruct (hasEnding (key ++ "="%char :: v) (str "=y")) eqn:E.
    { apply hasEnding_spec in E. by apply setting_not_enabled in E. }
    rewrite find_first_of_app by done. cbn [mbind option_bind]. rewrite take_app_length.
    rewrite drop_app_ge by lia. by replace (length key + 1 - length key)%nat with 1%nat by lia.
Qed.

Lemma load_entries l : forall k, Forall entry_ok l ->
  load_lines (map entry_line l ++ [[]]) k = Some (fold_left read_entry l k).
Proof.
  induction l as [|x l IH]; intros k Hl; [done|]. apply Forall_cons in Hl as [Hx Hl].
  cbn [map app load_lines fold_left]. rewrite load_entry by done. by apply IH.
Qed.

(** Reading a configuration file gives exactly the options that are set in it, and for every
    other key the first of its values; comments and empty lines count for nothing. *)
Theorem load_kconfig_roundtrip (l : list entry) : Forall entry_ok l ->
  exists k, load_kconfig_file (Some (config_file l)) = Some (true, k) ∧ is_read l k
    ∧ ordered (kconfig_enabled k) ∧ ordered (kconfig_keyvalue k).
Proof.
  intros Hl. unfold load_kconfig_file. rewrite getlines_file, load_entries by done. cbn [mbind option_bind].
  eexists. split; [reflexivity|].
  assert (H : forall l k, ordered (kconfig_enabled k) -> ordered (kconfig_keyvalue k) ->
    let k' := fold_left read_entry l k in
    (forall key, is_Some (map_find key (kconfig_enabled k')) <-> is_Some (map_find key (kconfig_enabled k)) ∨ Enabled key ∈ l)
    ∧ (forall key, map_find key (kconfig_keyvalue k') = match map_find key (kconfig_keyvalue k) with
                     Some v => Some v | None => first_setting key l end)
    ∧ ordered (kconfig_enabled k') ∧ ordered (kconfig_keyvalue k')).
  { clear l Hl. induction l as [|x l IH]; intros k H1 H2 k'.
    - split_and!; try done; intros key; cbn; [|by destruct (map_find _ _)].
      split; [by left|]. intros [?|H]; [done|by apply elem_of_nil in H].
    - subst k'. cbn [fold_left]. destruct (IH (read_entry k x)) as (I1 & I2 & I3 & I4).
      { destruct x; cbn; auto using map_insert_ordered. }
      { destruct x; cbn; auto using map_insert_ordered. }
      split_and!; try done; intros key.
      + rewrite I1, elem_of_cons. destruct x as [t|key'|key' v]; cbn; [naive_solver| |naive_solver].
        rewrite map_find_insert by done. case_bool_decide as Hk; [subst; naive_solver|].
        assert (Enabled key ≠ Enabled key') by congruence. naive_solver.
      + rewrite I2. destruct x as [t|key'|key' v]; cbn; [done|done|].
        rewrite map_find_insert by done. destruct (decide (key = key')) as [->|Hk].
        * rewrite !bool_decide_eq_true_2 by done. by destruct (map_find key' _).
        * by rewrite !bool_decide_eq_false_2. }
  destruct (H l empty) as (H1 & H2 & H3 & H4); [constructor|constructor|].
  split; [|by split]. split; [|exact H2]. intros key. rewrite H1. cbn. split; [intros [[? [=]]|?]; done|by right].
Qed.
End Configuration.

Definition config_example : list entry :=
  [Comment (str " IP stack"); Enabled (str "ipv6"); Setting (str "mtu") (str "1500"); Enabled (str "tcp");
   Setting (str "mtu") (str "576")].
Lemma config_example_ok : Forall entry_ok config_example.
Proof.
  repeat constructor; try (apply (bool_decide_unpack _); by vm_compute); try done;
    intros [k E]; apply (f_equal last) in E; rewrite last_app in E; discriminate E.
Qed.

Lemma load_kconfig_roundtrip_witness : exists k,
  Kconfig.load_kconfig_file (Some (config_file config_example)) = Some (true, k)
  ∧ is_read config_example k ∧ ordered (Kconfig.kconfig_enabled k) ∧ ordered (Kconfig.kconfig_keyvalue k).
Proof. exact (load_kconfig_roundtrip config_example config_example_ok). Defined.

(** A line without "=" ends the program with an exception. *)
Example line_without_value : Kconfig.load_kconfig_file (Some (str "CONFIG_ipv6")) = None.
Proof. reflexivity. Qed.

(** A directory of two steps is left by one only: the parts behind it are looked for in its parent. *)
Example two_steps_are_not_undone :
  Dir.up (Dir.cd (str "../api") (str "src")) = str "src/..".
Proof. reflexivity. Qed.

(** ** The program *)

#[export] Instance entry_eq_dec : EqDecision entry.
Proof. solve_decision. Defined.

Lemma depends_met_ext f g d : (forall k, f k = g k) -> depends_met f d = depends_met g d.
Proof.
  intros Hfg. destruct d as [d|]; [|done]. cbn.
  assert (H : forall x, literal_holds f x = literal_holds g x) by (intros x; unfold literal_holds; by rewrite Hfg).
  destruct d as [x l|x l]; cbn; rewrite H; f_equal; induction l as [|y l IH]; cbn; by rewrite ?H, ?IH.
Qed.

Lemma selected_ext f g all t : (forall k, f k = g k) -> forall dir, selected f all dir t = selected g all dir t.
Proof.
  intros Hfg. induction t as [d sub fs ts IH] using tree_ind_all. intros dir. cbn [selected].
  rewrite (depends_met_ext f g) by done. destruct (_ || _); [|done]. f_equal. f_equal.
  apply map_ext_Forall. eapply Forall_impl; [exact IH|]. cbn. intros t Ht. apply Ht.
Qed.

Section Programs.
Import Main.
Context (can_open : text -> bool) (read_file : text -> option text).
(** A family model in file [fam], a file [f] for the result. *)
Context (fam f base : text) (content : text) (o : object) (t : tree).
Context (Hfam : fam ≠ []) (Hf : f ≠ []) (Hopen : can_open f = true).
Context (Hread : read_file fam = Some content) (Hjson : extract null_type content = Some (MkExtracted (object_type o) [] false)).
Context (Ht : represents t o) (Hp : tidy true t).

Lemma FeatureToFiles_selected enabled all :
  FeatureToFiles.FeatureToFiles base o enabled all
  = Some (true, listing (selected (λ k, bool_decide (is_Some (map_find k enabled))) all (Dir.Dir base) t)).
Proof.
  unfold FeatureToFiles.FeatureToFiles.
  destruct (node_selected (λ k, bool_decide (is_Some (map_find k enabled))) all t true o (height (object_type o))
    (FeatureToFiles.MkState (Dir.Dir base) 0 []) Ht Hp ltac:(done)) as (s & E & _ & O).
  rewrite E, O. done.
Qed.

(** Single options. *)
Lemma parse_step op :
  (forall arg l, parse_options can_open (Some ("b"%char, arg) :: l) op = parse_options can_open l (op <| base_directory := arg |>))
  ∧ (forall arg l, parse_options can_open (Some ("f"%char, arg) :: l) op
       = parse_options can_open l (op <| featureToFilesRelationfile := arg |>))
  ∧ (forall arg l, parse_options can_open (Some ("k"%char, arg) :: l) op = parse_options can_open l (op <| kconfigfile := arg |>))
  ∧ (forall arg l, parse_options can_open (Some ("a"%char, arg) :: l) op = parse_options can_open l (op <| all_features := true |>)).
Proof. done. Qed.

Lemma parse_output l :
  parse_options can_open (Some ("o"%char, f) :: l) no_options
  = parse_options can_open l (MkOptions (Some f) None [] [] [] [] false false true).
Proof.
  transitivity (f' ← open_output can_open None f;
    parse_options can_open l (MkOptions f' None [] [] [] [] false false true)); [done|].
  unfold open_output. rewrite (bool_decide_eq_false_2 (f = [])) by done. by rewrite Hopen.
Qed.

End Programs.

(** Without a file for the output the program only fails, whatever the usage says of the standard output. *)
Lemma main_needs_output_file can_open read_file argv : 
  (forall opt arg, Some (opt, arg) ∈ argv -> opt ≠ "o"%char ∧ opt ≠ "d"%char ∨ arg = []) ->
  Main.main can_open read_file argv = Some (Main.MkOutcome 1 [] []).
Proof.
  intros Hargv. unfold Main.main.
  assert (H : forall argv o, (forall opt arg, Some (opt, arg) ∈ argv -> opt ≠ "o"%char ∧ opt ≠ "d"%char ∨ arg = []) ->
    Main.output_files_file o = None -> Main.output_definitions_file o = None ->
    match Main.parse_options can_open argv o with
    | Some o' => Main.output_files_file o' = None ∧ Main.output_definitions_file o' = None
    | None => True
    end).
  { clear argv Hargv. induction argv as [|[[opt arg]|] argv IH]; intros o Ha H1 H2; [done| |done].
    assert (Ha' : forall opt' arg', Some (opt', arg') ∈ argv -> opt' ≠ "o"%char ∧ opt' ≠ "d"%char ∨ arg' = [])
      by (intros opt' arg' ?; apply Ha; by right).
    destruct (Ha opt arg ltac:(left)) as [[Ho Hd]| ->]; cbn; unfold Main.open_output;
      repeat (case_bool_decide; [cbn; first [done|apply IH; done]|]); done. }
  specialize (H argv Main.no_options Hargv eq_refl eq_refl). destruct (Main.parse_options _ _ _) as [o|]; [|done].
  destruct H as [H1 H2]. unfold Main.options_ok. rewrite H1, H2. cbn. by rewrite andb_false_r.
Qed.

(** Three components, the last of them in a directory of two steps as in the repository's model; the
    configuration above selects two. *)
Definition model_tree : tree :=
  Node None (str "src") []
    [Node (Some (All_of (MkLiteral false (str "tcp")) [])) (str "/tcp") [str "TCP.cpp"] [];
     Node (Some (All_of (MkLiteral false (str "tcp")) [MkLiteral false (str "ipv4")])) [] [str "IPv4.cpp"] [];
     Node (Some (Any_of (MkLiteral false (str "udp")) [MkLiteral true (str "ipv4")])) (str "../api") [str "Setup.h"] []].
Definition model_object : object :=
  [(str "comp", array_type
     [object_type [(str "depends", string_type (str "&tcp")); (str "file", string_type (str "TCP.cpp"));
                   (str "subdir", string_type (str "/tcp"))];
      object_type [(str "depends", string_type (str "&tcp and &ipv4"));
                   (str "files", array_type [string_type (str "IPv4.cpp")])];
      object_type [(str "depends", string_type (str "&udp or not &ipv4")); (str "file", string_type (str "Setup.h"));
                   (str "subdir", string_type (str "../api"))]]);
   (str "subdir", string_type (str "src"))].

Lemma model_represented : represents model_tree model_object ∧ tidy true model_tree.
Proof.
  split.
  - vm_compute. split_and!; try done; solve [by eexists | repeat constructor].
  - cbn. split_and!; try done; first [by left|right; apply (bool_decide_unpack _); by vm_compute].
Qed.

(** The same as the text of a file, with apostrophes for the quotes. *)
Definition model_text : text :=
  map (λ c, if bool_decide (c = "'"%char) then quote else c)
    (str "{ 'subdir': 'src',
  'comp': [ {'depends': '&tcp', 'subdir': '/tcp', 'file': 'TCP.cpp'},
    { 'depends': '&tcp and &ipv4', 'files': ['IPv4.cpp'] },
    { 'depends': '&udp or not &ipv4', 'subdir': '../api', 'file': 'Setup.h' } ]
}
").
Lemma model_parsed : extract null_type model_text = Some (MkExtracted (object_type model_object) [] false).
Proof. vm_compute. reflexivity. Qed.

