(* ===== verification/Demux.v ===== *)
(** * Demux: the lists of bound sockets and their ports

    Models the socket lists of the demultiplexer: [DemuxLinkedList]
    ([demux/DemuxLinkedListContainer.h]), binding, unbinding and the search
    for a free port for UDP ([udp/Demux_UDP_Slice.ah]) and TCP
    ([tcp/Demux_TCP_Slice.ah]) and the list of listening sockets
    ([tcp/Demux_TCP_Listen_Slice.ah]).  A socket is known by its index in the
    heap, the null pointer is [None].  A loop answers [None] when its fuel is
    used up; inside, [None] stands for the use of a null pointer. *)

From stdpp Require Import gmap.
From S2P Require Import Prelude LinkedList.

Open Scope Z_scope.

(** The members of a socket that the lists use. *)
Record Socket := MkSocket { sport : Z; dport : Z; next : option nat }.
#[export] Instance Socket_settable : Settable Socket := λ s, MkSocket (sport s) (dport s) (next s).

Record Demux := MkDemux { last_default_port : Z; head_socket : option nat; sockets : gmap nat Socket }.
#[export] Instance Demux_settable : Settable Demux := λ d, MkDemux (last_default_port d) (head_socket d) (sockets d).

Module DemuxLinkedList.
Definition DemuxLinkedList : option nat := None.
Definition getNext (d : Demux) (i : nat) : option (option nat) := next <$> sockets d !! i.
Definition setNext (sock : option nat) (i : nat) (d : Demux) : Demux :=
  d <| sockets := alter (λ s, s <| next := sock |>) i (sockets d) |>.
End DemuxLinkedList.

Module Demux_UDP_Slice.
Import DemuxLinkedList.
Definition UNUSED_PORT : Z := 0.
Definition get_sport (d : Demux) (i : nat) : option Z := sport <$> sockets d !! i.
Definition set_sport (p : Z) (i : nat) (d : Demux) : Demux :=
  d <| sockets := alter (λ s, s <| sport := p |>) i (sockets d) |>.

(** [udp_last_default_port++] and the lower bound. *)
Definition next_port (p : Z) : Z := let p := u16 (p + 1) in if p <? 1024 then 1024 else p.

(** The loop of [udp_get_free_port]: the port tried and the socket looked at. *)
Definition free_port_step (d : Demux) (st : Z * option nat) : (Z * option nat) + option Z :=
  let '(port, current) := st in
  match current with
  | None => inr (Some port)
  | Some i =>
      match sockets d !! i with
      | None => inr None
      | Some s => if sport s =? port then inl (next_port port, head_socket d) else inl (port, next s)
      end
  end.
Definition get_free_port (fuel : nat) (d : Demux) : option (option (Z * Demux)) :=
  r ← loop fuel (free_port_step d) (next_port (last_default_port d), head_socket d);
  Some (port ← r; Some (port, d <| last_default_port := port |>)).

(** The loop of [bind]: whether a socket of the list has the port. *)
Definition in_use_step (d : Demux) (port : Z) (current : option nat) : option nat + option bool :=
  match current with
  | None => inr (Some false)
  | Some i =>
      match sockets d !! i with
      | None => inr None
      | Some s => if sport s =? port then inr (Some true) else inl (next s)
      end
  end.

Definition insert_front (i : nat) (d : Demux) : Demux :=
  (setNext (head_socket d) i d) <| head_socket := Some i |>.

Definition bind (fuel : nat) (socket : nat) (d : Demux) : option (option (bool * Demux)) :=
  match get_sport d socket with
  | None => Some None
  | Some port =>
      if port =? UNUSED_PORT then
        r ← get_free_port fuel d;
        Some ('(port, d) ← r; Some (true, insert_front socket (set_sport port socket d)))
      else
        r ← loop fuel (in_use_step d port) (head_socket d);
        Some (used ← r; Some (if used : bool then (false, d) else (true, insert_front socket d)))
  end.

(** The loop of [unbind] over [current] and [next]. *)
Definition unbind_step (d : Demux) (socket : nat) (st : nat * option nat) : (nat * option nat) + option Demux :=
  let '(current, nxt) := st in
  match nxt with
  | None => inr (Some d)
  | Some n =>
      if bool_decide (n = socket) then inr (nn ← getNext d n; Some (setNext nn current d))
      else match getNext d n with None => inr None | Some nn => inl (n, nn) end
  end.
Definition unbind (fuel : nat) (socket : nat) (d : Demux) : option (option Demux) :=
  if bool_decide (head_socket d = Some socket) then
    Some (n ← getNext d socket; Some (d <| head_socket := n |>))
  else
    match head_socket d with
    | None => Some None
    | Some current =>
        match getNext d current with
        | None => Some None
        | Some n => loop fuel (unbind_step d socket) (current, n)
        end
    end.
End Demux_UDP_Slice.

(** TCP has the same code but for the loop of [bind]. *)
Module Demux_TCP_Slice.
Definition tcp_get_free_port := Demux_UDP_Slice.get_free_port.
Definition unbind := Demux_UDP_Slice.unbind.

(** [current] does not change inside of the loop, and is followed behind it. *)
Definition conflict_step (d : Demux) (port dest : Z) (current : option nat) : option nat + option bool :=
  match current with
  | None => inr None
  | Some i =>
      match sockets d !! i with
      | None => inr None
      | Some s => if (sport s =? port) && (dport s =? dest) then inr (Some true) else inl current
      end
  end.
Definition bind (fuel : nat) (socket : nat) (d : Demux) : option (option (bool * Demux)) :=
  match sockets d !! socket with
  | None => Some None
  | Some s =>
      if sport s =? Demux_UDP_Slice.UNUSED_PORT then
        r ← tcp_get_free_port fuel d;
        Some ('(port, d) ← r; Some (true, Demux_UDP_Slice.insert_front socket (Demux_UDP_Slice.set_sport port socket d)))
      else
        r ← loop fuel (conflict_step d (sport s) (dport s)) (head_socket d);
        Some (used ← r; Some (if used : bool then (false, d) else (true, Demux_UDP_Slice.insert_front socket d)))
  end.

(** [listen] and [deaf] on the list of listening sockets. *)
Definition listen (socket : nat) (d : Demux) : option (bool * Demux) :=
  port ← Demux_UDP_Slice.get_sport d socket;
  if port =? Demux_UDP_Slice.UNUSED_PORT then Some (false, d)
  else Some (true, Demux_UDP_Slice.insert_front socket d).
Definition deaf := Demux_UDP_Slice.unbind.
End Demux_TCP_Slice.

(** ** The list a demultiplexer stands for *)

Section Lists.
Import DemuxLinkedList Demux_UDP_Slice.

Definition nxt (d : Demux) (i : nat) : option nat := sockets d !! i ≫= next.
Definition port_of (d : Demux) (i : nat) : Z := from_option sport 0 (sockets d !! i).

(** The sockets of the list, first to last. *)
Definition listed (d : Demux) (l : list nat) : Prop :=
  chain (nxt d) (head_socket d) l ∧ NoDup l ∧ Forall (λ i, is_Some (sockets d !! i)) l.
Definition ports (d : Demux) (l : list nat) : list Z := map (port_of d) l.

Lemma socket_at d l i : listed d l -> i ∈ l -> exists s, sockets d !! i = Some s ∧ port_of d i = sport s ∧ nxt d i = next s.
Proof.
  intros (_ & _ & Hs) Hi. rewrite Forall_forall in Hs. destruct (Hs i Hi) as [s E]. exists s.
  unfold port_of, nxt. by rewrite E.
Qed.

Lemma in_use_loop d l port : listed d l -> forall l2 l1 fuel current, l = l1 ++ l2 -> chain (nxt d) current l2 ->
  (length l2 < fuel)%nat ->
  loop fuel (in_use_step d port) current = Some (Some (bool_decide (port ∈ ports d l2))).
Proof.
  intros Hl. induction l2 as [|i l2 IH]; intros l1 fuel current E Hc Hf; (destruct fuel as [|fuel]; [cbn in Hf; lia|]).
  - cbn in Hc. subst current. cbn. by rewrite bool_decide_eq_false_2 by apply not_elem_of_nil.
  - destruct Hc as [-> Hc]. destruct (socket_at d l i Hl) as (s & Es & Ep & En).
    { subst l. apply elem_of_app. right. left. }
    cbn [loop in_use_step]. rewrite Es. unfold ports. cbn [map]. rewrite Ep. destruct (Z.eqb_spec (sport s) port) as [H|H].
    + by rewrite bool_decide_eq_true_2 by (subst; left).
    + rewrite <- En, (IH (l1 ++ [i])); [|by rewrite <- app_assoc|done|cbn in Hf; lia].
      do 2 f_equal. apply bool_decide_ext. unfold ports. rewrite elem_of_cons. naive_solver.
Qed.

(** ** The search for a free port *)

Definition nth_port (p : Z) (n : nat) : Z := Nat.iter n next_port p.

Lemma next_port_range p : 1024 <= next_port p < 65536.
Proof. unfold next_port. destruct (Z.ltb_spec (u16 (p + 1)) 1024); zlia. Qed.

Lemma nth_port_offset p n : 1024 <= p < 65536 -> nth_port p n = 1024 + (p - 1024 + Z.of_nat n) mod 64512.
Proof.
  intros Hp. induction n as [|n IH]; [cbn; rewrite Z.add_0_r, Z.mod_small by lia; lia|].
  change (nth_port p (S n)) with (next_port (nth_port p n)). rewrite IH. unfold next_port, u16.
  destruct (Z.ltb_spec ((1024 + (p - 1024 + Z.of_nat n) mod 64512 + 1) mod 65536) 1024); zlia.
Qed.

Lemma nth_port_range p n : 1024 <= p < 65536 -> 1024 <= nth_port p n < 65536.
Proof. intros Hp. rewrite nth_port_offset by done. zlia. Qed.

(** Fewer sockets than ports: one of the first ports is free. *)
Lemma port_free p (used : list Z) : 1024 <= p < 65536 -> (length used < Z.to_nat 64512)%nat ->
  exists n, (n <= length used)%nat ∧ (nth_port p n ∉ used) ∧ forall j, (j < n)%nat -> nth_port p j ∈ used.
Proof.
  intros Hp Hu.
  assert (Hleast : forall k, (exists n, (n <= k)%nat ∧ (nth_port p n ∉ used) ∧ forall j, (j < n)%nat -> nth_port p j ∈ used)
    ∨ forall j, (j <= k)%nat -> nth_port p j ∈ used).
  { induction k as [|k [(n & Hn & H)|IH]].
    - destruct (decide (nth_port p 0 ∈ used)); [right|left].
      + intros j Hj. by replace j with 0%nat by lia.
      + exists 0%nat. split; [done|]. split; [done|]. lia.
    - left. exists n. split; [lia|done].
    - destruct (decide (nth_port p (S k) ∈ used)); [right|left].
      + intros j Hj. destruct (decide (j = S k)) as [->|]; [done|]. apply IH. lia.
      + exists (S k). split; [done|]. split; [done|]. intros j Hj. apply IH. lia. }
  destruct (Hleast (length used)) as [H|H]; [exact H|]. exfalso.
  assert (Hs : map (nth_port p) (seq 0 (S (length used))) ⊆+ used).
  { apply NoDup_submseteq.
    - apply NoDup_fmap_2_strong; [|apply NoDup_seq]. intros x y Hx%elem_of_seq Hy%elem_of_seq E.
      rewrite !nth_port_offset in E by done. zlia.
    - intros q Hq. apply list_elem_of_fmap in Hq as (j & -> & Hj%elem_of_seq). apply H. lia. }
  apply submseteq_length in Hs. rewrite length_map, length_seq in Hs. lia.
Qed.

Lemma free_port_loop d l p n : listed d l -> (nth_port p n ∉ ports d l) ->
  (forall j, (j < n)%nat -> nth_port p j ∈ ports d l) ->
  forall fuel m l1 l2 current, l = l1 ++ l2 -> chain (nxt d) current l2 -> (m <= n)%nat ->
  (nth_port p m ∉ ports d l1) -> ((n - m) * (length l + 1) + length l2 < fuel)%nat ->
  loop fuel (free_port_step d) (nth_port p m, current) = Some (Some (nth_port p n)).
Proof.
  intros Hl Hfree Hused. induction fuel as [|fuel IH]; intros m l1 l2 current E Hc Hm Hl1 Hf; [by apply Nat.nlt_0_r in Hf|].
  destruct l2 as [|i l2].
  - cbn in Hc. subst current. cbn. rewrite app_nil_r in E. subst l1. destruct (decide (m = n)) as [->|]; [done|].
    destruct Hl1. apply Hused. lia.
  - destruct Hc as [-> Hc]. destruct (socket_at d l i Hl) as (s & Es & Ep & En).
    { subst l. apply elem_of_app. right. left. }
    cbn [loop free_port_step]. rewrite Es. destruct (Z.eqb_spec (sport s) (nth_port p m)) as [H|H].
    + assert (m < n)%nat.
      { destruct (decide (m = n)) as [->|]; [|lia]. destruct Hfree. rewrite <- H, <- Ep.
        apply list_elem_of_fmap_2. subst l. apply elem_of_app. right. left. }
      change (next_port (nth_port p m)) with (nth_port p (S m)).
      apply (IH (S m) [] l); [done|apply Hl|lia|apply not_elem_of_nil|].
      replace (n - m)%nat with (S (n - S m)) in Hf by lia. cbn in Hf. lia.
    + rewrite <- En. apply (IH m (l1 ++ [i]) l2); [by rewrite <- app_assoc|done|done| |cbn in Hf; lia].
      unfold ports. rewrite map_app. rewrite not_elem_of_app. split; [exact Hl1|].
      cbn. rewrite Ep. intros ?%list_elem_of_singleton. congruence.
Qed.

(** The search ends at the first port behind the last one chosen that no socket has. *)
Lemma get_free_port_first d l fuel : listed d l -> (length l < Z.to_nat 64512)%nat ->
  ((length l + 1) * (length l + 1) <= fuel)%nat ->
  exists n, let port := nth_port (next_port (last_default_port d)) n in
    get_free_port fuel d = Some (Some (port, d <| last_default_port := port |>))
    ∧ (n <= length l)%nat ∧ 1024 <= port < 65536 ∧ (port ∉ ports d l)
    ∧ forall j, (j < n)%nat -> nth_port (next_port (last_default_port d)) j ∈ ports d l.
Proof.
  intros Hl Hlen Hf. pose proof (next_port_range (last_default_port d)) as Hp. set (p := next_port _) in *.
  destruct (port_free p (ports d l) Hp) as (n & Hn & Hfree & Hused); [unfold ports; by rewrite length_map|].
  unfold ports in Hn at 1. rewrite length_map in Hn. exists n. cbv zeta. unfold get_free_port. fold p.
  change (p, head_socket d) with (nth_port p 0, head_socket d).
  rewrite (free_port_loop d l p n Hl Hfree Hused fuel 0 [] l); [| | | | |nia]; try done.
  - split_and!; try done; by apply nth_port_range.
  - apply Hl.
  - lia.
  - apply not_elem_of_nil.
Qed.

(** A list whose sockets have ports of their own. *)
Definition bound (d : Demux) (l : list nat) : Prop := listed d l ∧ NoDup (ports d l).

Lemma insert_front_listed d l i : listed d l -> i ∉ l -> is_Some (sockets d !! i) ->
  listed (insert_front i d) (i :: l) ∧ forall j, port_of (insert_front i d) j = port_of d j.
Proof.
  intros (Hc & Hn & Hs) Hi [s Es].
  assert (Hsock : forall j, j ≠ i -> sockets (insert_front i d) !! j = sockets d !! j)
    by (intros j Hj; cbn; by rewrite lookup_alter_ne).
  assert (Hsi : sockets (insert_front i d) !! i = Some (s <| next := head_socket d |>))
    by (cbn; rewrite lookup_alter_eq, Es; done).
  split; [split_and!|].
  - cbn [chain]. split; [done|]. unfold nxt at 2. rewrite Hsi. cbn.
    apply chain_ext with (nxt := nxt d); [|done]. intros j Hj. unfold nxt. rewrite Hsock; [done|]. by intros ->.
  - by constructor.
  - constructor; [by rewrite Hsi|]. apply Forall_forall. intros j Hj. rewrite Hsock by (by intros ->).
    rewrite Forall_forall in Hs. by apply Hs.
  - intros j. unfold port_of. destruct (decide (j = i)) as [->|Hj]; [by rewrite Hsi, Es|by rewrite Hsock].
Qed.

Lemma set_sport_listed d l i q : listed d l -> i ∉ l -> is_Some (sockets d !! i) ->
  listed (set_sport q i d) l ∧ port_of (set_sport q i d) i = q
  ∧ (forall j, j ≠ i -> port_of (set_sport q i d) j = port_of d j) ∧ is_Some (sockets (set_sport q i d) !! i).
Proof.
  intros (Hc & Hn & Hs) Hi [s Es].
  assert (Hsock : forall j, j ≠ i -> sockets (set_sport q i d) !! j = sockets d !! j)
    by (intros j Hj; cbn; by rewrite lookup_alter_ne).
  assert (Hsi : sockets (set_sport q i d) !! i = Some (s <| sport := q |>)) by (cbn; rewrite lookup_alter_eq, Es; done).
  split_and!.
  - split_and!; [|done|].
    + apply chain_ext with (nxt := nxt d); [|done]. intros j Hj. unfold nxt. rewrite Hsock; [done|]. by intros ->.
    + apply Forall_forall. intros j Hj. rewrite Hsock by (by intros ->). rewrite Forall_forall in Hs. by apply Hs.
  - unfold port_of. by rewrite Hsi.
  - intros j Hj. unfold port_of. by rewrite Hsock.
  - by rewrite Hsi.
Qed.

Lemma ports_ext d d' l : (forall j, j ∈ l -> port_of d' j = port_of d j) -> ports d' l = ports d l.
Proof. intros H. unfold ports. apply map_ext_Forall. by apply Forall_forall. Qed.

(** Binding a UDP socket ends.  A socket with a port joins the list unless a bound socket has
    that port; a socket without one gets the first free port behind the last one given away.
    The bound sockets keep ports of their own. *)
Theorem udp_bind_ports (d : Demux) (l : list nat) (k : nat) (fuel : nat) :
  bound d l -> (k ∉ l) -> is_Some (sockets d !! k) -> (length l < Z.to_nat 64512)%nat ->
  ((length l + 1) * (length l + 1) <= fuel)%nat ->
  if bool_decide (port_of d k ≠ 0 ∧ port_of d k ∈ ports d l) then bind fuel k d = Some (Some (false, d))
  else exists d', bind fuel k d = Some (Some (true, d')) ∧ bound d' (k :: l)
    ∧ (forall j, j ∈ l -> port_of d' j = port_of d j)
    ∧ if bool_decide (port_of d k = 0)
      then exists n, port_of d' k = nth_port (next_port (last_default_port d)) n ∧ 1024 <= port_of d' k < 65536
        ∧ forall j, (j < n)%nat -> nth_port (next_port (last_default_port d)) j ∈ ports d l
      else port_of d' k = port_of d k.
Proof.
  intros [Hl Hn] Hk [s Es] Hlen Hf. assert (Hne : forall j, j ∈ l -> j ≠ k) by (intros j Hj ->; done).
  assert (Hpk : port_of d k = sport s) by (unfold port_of; by rewrite Es).
  unfold bind, get_sport. rewrite Es, Hpk. cbn [fmap option_fmap option_map]. destruct (Z.eqb_spec (sport s) UNUSED_PORT) as [H0|H0].
  - rewrite bool_decide_eq_false_2 by (intros [? _]; done). rewrite (bool_decide_eq_true_2 (_ = 0)) by done.
    destruct (get_free_port_first d l fuel Hl Hlen Hf) as (n & E & _ & Hr & Hfree & Hused).
    set (q := nth_port _ n) in *. rewrite E. cbn [mbind option_bind]. set (d1 := d <| last_default_port := q |>).
    destruct (set_sport_listed d1 l k q) as (L1 & P1 & P2 & S1); [exact Hl|done|by exists s|].
    destruct (insert_front_listed (set_sport q k d1) l k L1 Hk S1) as [L2 P3].
    eexists. split; [reflexivity|].
    assert (Hports : ports (insert_front k (set_sport q k d1)) l = ports d l).
    { apply ports_ext. intros j Hj. rewrite P3. apply P2. by apply Hne. }
    split; [split; [exact L2|]|split; [intros j Hj; rewrite P3; apply P2; by apply Hne|]].
    + cbn [ports map]. change (map (port_of (insert_front k (set_sport q k d1))) l) with (ports (insert_front k (set_sport q k d1)) l).
      rewrite Hports, P3, P1. by constructor.
    + exists n. rewrite P3, P1. split; [done|]. split; [exact Hr|exact Hused].
  - assert (Hf' : (length l < fuel)%nat) by nia.
    rewrite (in_use_loop d l (sport s) Hl l [] fuel) by (done || apply Hl). cbn [mbind option_bind].
    destruct (decide (sport s ∈ ports d l)) as [Hu|Hu].
    + rewrite !bool_decide_eq_true_2 by done. done.
    + rewrite !(bool_decide_eq_false_2 (sport s ∈ _)) by done. rewrite bool_decide_eq_false_2 by (intros [_ ?]; done).
      destruct (insert_front_listed d l k Hl Hk) as [L P]; [by exists s|]. eexists. split; [reflexivity|].
      rewrite (bool_decide_eq_false_2 (sport s = 0)) by done. split; [split; [exact L|]|split; [intros j _; apply P|by rewrite P]].
      cbn [ports map]. rewrite P. change (map (port_of (insert_front k d)) l) with (ports (insert_front k d) l).
      rewrite (ports_ext d) by (intros; apply P). constructor; [by rewrite Hpk|done].
Qed.

(** ** Unbinding *)

Lemma getNext_at d l i : listed d l -> i ∈ l -> getNext d i = Some (nxt d i).
Proof. intros Hl Hi. destruct (socket_at d l i Hl Hi) as (s & E & _ & En). unfold getNext. rewrite E, En. done. Qed.

Lemma unbind_loop d l k : listed d l -> forall r l0 c fuel, l = l0 ++ c :: r -> (length r < fuel)%nat ->
  (k ∉ r -> loop fuel (unbind_step d k) (c, nxt d c) = Some (Some d))
  ∧ forall r1 r2, r = r1 ++ k :: r2 -> k ∉ r1 ->
      loop fuel (unbind_step d k) (c, nxt d c) = Some (Some (setNext (nxt d k) (default c (last r1)) d)).
Proof.
  intros Hl. induction r as [|i r IH]; intros l0 c fuel E Hf; (destruct fuel as [|fuel]; [by apply Nat.nlt_0_r in Hf|]).
  - assert (nxt d c = None) as ->.
    { destruct Hl as [Hc _]. subst l. by apply chain_next in Hc. }
    split; [done|]. intros [|? ?] r2 H; discriminate H.
  - assert (Hn : nxt d c = Some i) by (destruct Hl as [Hc _]; subst l; by apply chain_next in Hc).
    assert (Hi : i ∈ l) by (subst l; apply elem_of_app; right; right; left).
    destruct (IH (l0 ++ [c]) i fuel) as [I1 I2]; [by rewrite <- app_assoc|cbn in Hf; lia|].
    cbn [loop]. unfold unbind_step at 1 3. rewrite Hn, (getNext_at d l i Hl Hi). split.
    + intros Hk%not_elem_of_cons. rewrite bool_decide_eq_false_2 by naive_solver. apply I1, Hk.
    + intros [|j r1] r2 [= -> ->] Hk.
      * by rewrite bool_decide_eq_true_2.
      * apply not_elem_of_cons in Hk as [Hjk Hk]. rewrite bool_decide_eq_false_2 by done.
        rewrite (I2 r1 r2) by done. do 3 f_equal. destruct r1 as [|x r1]; [done|].
        change (last (j :: x :: r1)) with (last (x :: r1)). destruct (last (x :: r1)) eqn:El; [done|].
        by apply last_None in El.
Qed.

(** What a list with fewer sockets keeps. *)
Lemma listed_without d d' l1 k l2 : listed d (l1 ++ k :: l2) ->
  (forall j, is_Some (sockets d !! j) -> is_Some (sockets d' !! j)) ->
  chain (nxt d') (head_socket d') (l1 ++ l2) -> listed d' (l1 ++ l2).
Proof.
  intros (_ & Hn & Hs) H1 H3. split; [done|split].
  - rewrite NoDup_app, NoDup_cons in Hn. rewrite NoDup_app. destruct Hn as (N1 & N2 & _ & N3).
    split; [done|]. split; [|done]. intros x Hx Hx2. apply (N2 x Hx). by right.
  - apply Forall_app in Hs as [S1 S2]. apply Forall_cons in S2 as [_ S2]. apply Forall_app.
    split; eapply Forall_impl; eauto.
Qed.

Lemma ports_without d l1 k l2 : NoDup (ports d (l1 ++ k :: l2)) -> NoDup (ports d (l1 ++ l2)).
Proof.
  unfold ports. rewrite !map_app. cbn [map]. rewrite !NoDup_app, NoDup_cons. intros (N1 & N2 & _ & N3).
  split; [done|]. split; [|done]. intros x Hx Hx2. apply (N2 x Hx). by right.
Qed.

(** Redirecting the [next] field of the socket in front of [k]. *)
Lemma unlink_listed d c l1 k l2 : let i := default c (last l1) in
  listed d (c :: l1 ++ k :: l2) ->
  listed (setNext (nxt d k) i d) (c :: l1 ++ l2)
  ∧ (forall j, port_of (setNext (nxt d k) i d) j = port_of d j)
  ∧ forall j, j ∉ c :: l1 -> sockets (setNext (nxt d k) i d) !! j = sockets d !! j.
Proof.
  intros i Hb. pose proof Hb as (Hc & Hn & Hs). change (c :: l1 ++ k :: l2) with ((c :: l1) ++ k :: l2) in *.
  assert (Hlast : last (c :: l1) = Some i).
  { unfold i. destruct l1 as [|y l1]; [done|]. change (last (c :: y :: l1)) with (last (y :: l1)).
    destruct (last (y :: l1)) eqn:El; [done|]. by apply last_None in El. }
  pose proof (last_Some_elem_of _ _ Hlast) as Hin.
  assert (Hsi : is_Some (sockets d !! i)) by (rewrite Forall_forall in Hs; apply Hs, elem_of_app; by left).
  destruct Hsi as [si Hi].
  assert (Hother : forall j, j ≠ i -> sockets (setNext (nxt d k) i d) !! j = sockets d !! j)
    by (intros j Hj; cbn; by rewrite lookup_alter_ne).
  assert (Hat : sockets (setNext (nxt d k) i d) !! i = Some (si <| next := nxt d k |>))
    by (cbn; rewrite lookup_alter_eq, Hi; done).
  split; [|split].
  - apply (listed_without d _ (c :: l1) k l2 Hb).
    + intros j Hj. destruct (decide (j = i)) as [->|]; [by rewrite Hat|by rewrite Hother].
    + assert (Hnn : nxt d k = head l2) by (by eapply chain_next).
      pose proof (chain_relink (nxt d) (nxt (setNext (nxt d k) i d)) (head_socket d) (c :: l1) (k :: l2) l2) as Hr.
      rewrite decide_False in Hr by done. apply NoDup_app in Hn as (N1 & N2 & _). apply Hr; try done.
      * intros j Hj Hjl. unfold nxt. rewrite Hother; [done|]. intros ->. by apply Hjl.
      * intros j Hj. rewrite Hlast in Hj. injection Hj as <-. unfold nxt at 1. rewrite Hat. exact Hnn.
      * apply chain_ext with (nxt := nxt d); [|rewrite <- Hnn; by eapply chain_tail].
        intros j Hj. unfold nxt. rewrite Hother; [done|]. intros ->. apply (N2 i Hin). by right.
  - intros j. unfold port_of. destruct (decide (j = i)) as [->|]; [by rewrite Hat, Hi|by rewrite Hother].
  - intros j Hj. apply Hother. by intros ->.
Qed.

(** Taking out a socket of the list; the sockets of other lists are left alone. *)
Lemma unbind_listed d l1 k l2 fuel : listed d (l1 ++ k :: l2) -> (length (l1 ++ k :: l2) < fuel)%nat ->
  exists d', unbind fuel k d = Some (Some d') ∧ listed d' (l1 ++ l2) ∧ (forall j, port_of d' j = port_of d j)
    ∧ (forall j, j ∉ l1 -> sockets d' !! j = sockets d !! j) ∧ last_default_port d' = last_default_port d.
Proof.
  intros Hl Hf. pose proof Hl as (Hc & Hn & Hs).
  assert (Hk : k ∉ l1) by (apply NoDup_app in Hn as (_ & H & _); intros Hk; destruct (H k Hk); left).
  assert (Hnk : getNext d k = Some (nxt d k)) by (apply (getNext_at d _ k Hl), elem_of_app; right; left).
  unfold unbind. destruct l1 as [|c l1].
  - destruct Hc as [-> Hc]. rewrite bool_decide_eq_true_2 by done. rewrite Hnk. cbn [mbind option_bind].
    eexists. split; [reflexivity|]. split; [|done]. by apply (listed_without d _ [] k l2).
  - pose proof Hc as [-> _]. apply not_elem_of_cons in Hk as [Hck Hk]. rewrite bool_decide_eq_false_2 by congruence.
    rewrite (getNext_at d _ c Hl) by left.
    destruct (unbind_loop d _ k Hl (l1 ++ k :: l2) [] c fuel eq_refl) as [_ H]; [cbn in Hf; lia|].
    rewrite (H l1 l2 eq_refl Hk). eexists. split; [reflexivity|].
    destruct (unlink_listed d c l1 k l2 Hl) as (U1 & U2 & U3). by split_and!.
Qed.

(** Unbinding a socket of the list takes it out and leaves the others in their order, with their
    ports; any other socket changes nothing when the list has a socket.  With an empty list
    a null pointer is followed. *)
Theorem unbind_removes (d : Demux) (l : list nat) (k : nat) (fuel : nat) :
  bound d l -> (length l < fuel)%nat ->
  (forall l1 l2, l = l1 ++ k :: l2 ->
     exists d', unbind fuel k d = Some (Some d') ∧ bound d' (l1 ++ l2) ∧ ports d' (l1 ++ l2) = ports d (l1 ++ l2))
  ∧ (k ∉ l -> unbind fuel k d = Some (if bool_decide (l = []) then None else Some d)).
Proof.
  intros Hb Hf. pose proof Hb as [Hl Hp]. pose proof Hl as (Hc & Hn & Hs). split.
  - intros l1 l2 ->. destruct (unbind_listed d l1 k l2 fuel Hl Hf) as (d' & E & L & P & _).
    exists d'. split; [done|]. assert (Ep : ports d' (l1 ++ l2) = ports d (l1 ++ l2)) by (apply ports_ext; intros; apply P).
    split; [split; [done|]|done]. rewrite Ep. by eapply ports_without.
  - intros Hk. unfold unbind. destruct l as [|c l].
    + cbn in Hc. rewrite Hc. done.
    + destruct Hc as [-> Hc]. apply not_elem_of_cons in Hk as [Hkc Hk]. rewrite bool_decide_eq_false_2 by congruence.
      rewrite (getNext_at d _ c Hl) by left. rewrite bool_decide_eq_false_2 by done.
      destruct (unbind_loop d _ k Hl l [] c fuel eq_refl) as [H _]; [cbn in Hf; lia|]. by apply H.
Qed.
End Lists.

(** Binding a TCP socket that has a port never succeeds: the loop does not advance, so it either
    finds the conflict in the first socket of the list or never ends; with an empty list
    the null pointer behind the loop is followed. *)
Theorem tcp_bind_never_binds (d : Demux) (l : list nat) (k : nat) (s : Socket) (fuel : nat) :
  listed d l -> sockets d !! k = Some s -> sport s ≠ 0 ->
  Demux_TCP_Slice.bind fuel k d
  = match l with
    | [] => if bool_decide (fuel = 0%nat) then None else Some None
    | i :: _ =>
        if bool_decide (fuel ≠ 0%nat ∧ port_of d i = sport s ∧ (dport <$> sockets d !! i) = Some (dport s))
        then Some (Some (false, d)) else None
    end.
Proof.
  intros (Hc & _ & Hs) Es Hp. unfold Demux_TCP_Slice.bind. rewrite Es.
  destruct (Z.eqb_spec (sport s) Demux_UDP_Slice.UNUSED_PORT); [done|]. destruct l as [|i l].
  - cbn in Hc. rewrite Hc. by destruct fuel.
  - destruct Hc as [-> _]. apply Forall_cons in Hs as [[si Ei] _].
    assert (E : port_of d i = sport si) by (unfold port_of; by rewrite Ei). rewrite E, Ei. cbn [fmap option_fmap option_map].
    assert (Hstep : Demux_TCP_Slice.conflict_step d (sport s) (dport s) (Some i)
      = if bool_decide (sport si = sport s ∧ Some (dport si) = Some (dport s)) then inr (Some true) else inl (Some i)).
    { unfold Demux_TCP_Slice.conflict_step. rewrite Ei.
      destruct (Z.eqb_spec (sport si) (sport s)), (Z.eqb_spec (dport si) (dport s)); cbn;
        [rewrite bool_decide_eq_true_2 by (split; congruence)|rewrite bool_decide_eq_false_2 by naive_solver..]; done. }
    destruct (decide (sport si = sport s ∧ Some (dport si) = Some (dport s))) as [H|H].
    + rewrite (bool_decide_eq_true_2 _ H) in Hstep. destruct fuel as [|fuel]; [by rewrite bool_decide_eq_false_2 by (intros [? _]; done)|].
      cbn [loop]. rewrite Hstep. rewrite bool_decide_eq_true_2 by (split; [done|exact H]). done.
    + rewrite (bool_decide_eq_false_2 _ H) in Hstep. rewrite bool_decide_eq_false_2 by (intros (_ & H1 & H2); apply H; by split).
      assert (Hn : loop fuel (Demux_TCP_Slice.conflict_step d (sport s) (dport s)) (Some i) = None);
        [|by rewrite Hn].
      induction fuel as [|fuel IH]; [done|]. cbn [loop]. by rewrite Hstep.
Qed.

(** ** Examples *)

(** Three sockets; the first two are bound to ports 1024 and 5000. *)
Definition demux_example : Demux :=
  MkDemux 1023 (Some 0%nat) (<[0%nat := MkSocket 1024 0 (Some 1%nat)]> (<[1%nat := MkSocket 5000 0 None]>
    (<[2%nat := MkSocket 0 0 None]> (<[3%nat := MkSocket 5000 80 None]> ∅)))).
Lemma demux_example_bound : bound demux_example [0%nat; 1%nat].
Proof.
  split; [split; [by cbn|split]|].
  - apply (bool_decide_unpack _). by vm_compute.
  - repeat constructor; by eexists.
  - apply (bool_decide_unpack _). by vm_compute.
Qed.

Lemma udp_bind_ports_witness : exists d',
  Demux_UDP_Slice.bind 9 2 demux_example = Some (Some (true, d')) ∧ bound d' [2%nat; 0%nat; 1%nat]
  ∧ (forall j, j ∈ [0%nat; 1%nat] -> port_of d' j = port_of demux_example j)
  ∧ exists n, port_of d' 2 = nth_port (Demux_UDP_Slice.next_port 1023) n ∧ 1024 <= port_of d' 2 < 65536
    ∧ forall j, (j < n)%nat -> nth_port (Demux_UDP_Slice.next_port 1023) j ∈ ports demux_example [0%nat; 1%nat].
Proof.
  refine (udp_bind_ports demux_example [0%nat; 1%nat] 2 9 demux_example_bound _ _ _ _).
  - apply (bool_decide_unpack _). by vm_compute.
  - by eexists.
  - apply Nat.ltb_lt. by vm_compute.
  - cbn. lia.
Defined.

Lemma unbind_removes_witness : exists d',
  Demux_UDP_Slice.unbind 3 1 demux_example = Some (Some d') ∧ bound d' [0%nat] ∧ ports d' [0%nat] = [1024].
Proof.
  apply (unbind_removes demux_example [0%nat; 1%nat] 1 3 demux_example_bound ltac:(cbn; lia)) with (l1 := [0%nat]) (l2 := []).
  reflexivity.
Defined.

Lemma tcp_bind_never_binds_witness : Demux_TCP_Slice.bind 1000 3 demux_example = None.
Proof.
  refine (tcp_bind_never_binds demux_example [0%nat; 1%nat] 3 (MkSocket 5000 80 None) 1000 (proj1 demux_example_bound) _ _);
    [by vm_compute|discriminate].
Defined.

(** The destructor of a socket that was never bound unbinds it: with no other socket a null pointer is followed. *)
Example unbind_without_sockets :
  Demux_UDP_Slice.unbind 5 0 (MkDemux 0 None {[ 0%nat := MkSocket 0 0 None ]}) = Some None.
Proof. reflexivity. Qed.
