(* ===== verification/Udp.v ===== *)
(** * Udp: receiving datagrams

    Models the UDP socket ([udp/UDP_Socket.h/.cpp]), the buffers a datagram is
    received into ([ReceiveBuffer.h], [ipv4/udp/ReceiveBufferUDPIPv4.h],
    [ipv6/udp/ReceiveBufferUDPIPv6.h]), the receive queue
    ([udp/UDP_Receive_Slice.ah]) and the advice that finds the socket of a
    datagram ([ipv4/udp/Receive_UDP_IPv4.ah]).  A buffer is the memory from
    [m_dataStart] to the end of its block; an access outside of it, or outside
    of the memory of the packet, is [None]. *)

From stdpp Require Import gmap.
From S2P Require Import Prelude Wire Ringbuffer Packet LinkedList Ipv4 Headers Demux.

Open Scope Z_scope.

(** ** Buffers *)

Record ReceiveBuffer := MkReceive { m_receivedSize : Z; m_dataStart : bytes }.
#[export] Instance ReceiveBuffer_settable : Settable ReceiveBuffer := λ b, MkReceive (m_receivedSize b) (m_dataStart b).

(** A write at an offset of a block. *)
Definition store (o : Z) (bs mem : bytes) : option bytes :=
  if o + Z.of_nat (length bs) <=? Z.of_nat (length mem) then Some (write (Z.to_nat o) bs mem) else None.

Section Buffers.
Context (e : endian).
(** The answer of the pool to a request for a payload of so many bytes. *)
Context (mempool : Z -> option bytes).

(** [None]: memory outside is used; [Some None]: no memory. *)
Definition createReceiveBuffer (payload : bytes) (payloadsize : Z) : option (option ReceiveBuffer) :=
  let payloadsize := u16 payloadsize in
  match mempool payloadsize with
  | None => Some None
  | Some area =>
      if Z.of_nat (length payload) <? payloadsize then None
      else area ← store 0 (take (Z.to_nat payloadsize) payload) area; Some (Some (MkReceive payloadsize area))
  end.
Definition getData (b : ReceiveBuffer) : bytes := m_dataStart b.
Definition getSize (b : ReceiveBuffer) : Z := m_receivedSize b.

End Buffers.

Module ReceiveBufferUDPIPv4.
(** [ipv4], [remoteport], [id] and a byte of padding. *)
Definition sizeof_RemoteInfo : Z := 8.
Definition id4 : Z := 52.
Record RemoteInfo := MkRemote { ipv4 : Z; remoteport : Z; id : Z }.
Section Operations.
Context (e : endian).
Definition padding (payloadsize : Z) : Z := u8 ((4 - (payloadsize + sizeof_RemoteInfo) mod 4) mod 4).
Definition remote_offset (b : ReceiveBuffer) : Z := m_receivedSize b + padding (m_receivedSize b).
(** The bytes of the structure in memory; its last byte is left alone. *)
Definition remote_bytes (i : RemoteInfo) : bytes :=
  fbytes e H32 (ipv4 i) ++ fbytes e H16 (remoteport i) ++ fbytes e K8 (id i).
Definition createReceiveBufferUDPIPv4 (mempool : Z -> option bytes) (payload : bytes) (payloadsize remoteport ipv4 : Z)
    : option (option ReceiveBuffer) :=
  let payloadsize := u16 payloadsize in
  match createReceiveBuffer mempool payload (payloadsize + sizeof_RemoteInfo + padding payloadsize) with
  | Some (Some r) =>
      let r := r <| m_receivedSize := payloadsize |> in
      area ← store (remote_offset r) (remote_bytes (MkRemote ipv4 remoteport id4)) (m_dataStart r);
      Some (Some (r <| m_dataStart := area |>))
  | x => x
  end.
Definition getRemoteInfo (b : ReceiveBuffer) : RemoteInfo :=
  let d := Z.to_nat (remote_offset b) in
  MkRemote (getf e (Field d H32) (m_dataStart b)) (getf e (Field (d + 4) H16) (m_dataStart b))
    (getf e (Field (d + 6) K8) (m_dataStart b)).
Definition cast (b : ReceiveBuffer) : option ReceiveBuffer :=
  if negb (id (getRemoteInfo b) =? id4) then None else Some b.
End Operations.
End ReceiveBufferUDPIPv4.

Module ReceiveBufferUDPIPv6.
(** [id], a byte of padding, [remoteport] and [ipv6]. *)
Definition sizeof_RemoteInfo : Z := 20.
Definition id6 : Z := 54.
Record RemoteInfo := MkRemote { id : Z; remoteport : Z; ipv6 : bytes }.
Section Operations.
Context (e : endian).
Definition createReceiveBufferUDPIPv6 (mempool : Z -> option bytes) (payload : bytes) (payloadsize remoteport : Z)
    (ipv6 : bytes) : option (option ReceiveBuffer) :=
  let payloadsize := u16 payloadsize in
  match createReceiveBuffer mempool payload (payloadsize + sizeof_RemoteInfo) with
  | Some (Some r) =>
      let r := r <| m_receivedSize := payloadsize |> in
      area ← store payloadsize (fbytes e K8 id6) (m_dataStart r);
      area ← store (payloadsize + 2) (fbytes e H16 remoteport ++ take 16 ipv6) area;
      Some (Some (r <| m_dataStart := area |>))
  | x => x
  end.
Definition getRemoteInfo (b : ReceiveBuffer) : RemoteInfo :=
  let d := Z.to_nat (m_receivedSize b) in
  MkRemote (getf e (Field d K8) (m_dataStart b)) (getf e (Field (d + 2) H16) (m_dataStart b))
    (get_bytes (d + 4) 16 (m_dataStart b)).
Definition cast (b : ReceiveBuffer) : option ReceiveBuffer :=
  if negb (id (getRemoteInfo b) =? id6) then None else Some b.
End Operations.
End ReceiveBufferUDPIPv6.

(** ** The socket *)

Module UDP_Socket.
(** The ports are those of the socket at the demultiplexer. *)
Definition UDP_Socket : Socket := MkSocket UDP_Packet.UNUSED_PORT UDP_Packet.UNUSED_PORT DemuxLinkedList.DemuxLinkedList.
Definition set_dport (d : Z) (s : Socket) : Socket := s <| dport := d |>.
Definition get_dport (s : Socket) : Z := dport s.
Definition set_sport (p : Z) (s : Socket) : Socket := s <| sport := p |>.
Definition get_sport (s : Socket) : Z := sport s.

Definition setupHeader (e : endian) (datasize : Z) (s : Socket) (packet : bytes) : bytes :=
  let packet := UDP_Packet.set_dport e (dport s) packet in
  let packet := UDP_Packet.set_sport e (sport s) packet in
  let packet := UDP_Packet.set_length e datasize packet in
  UDP_Packet.set_checksum e 0 packet.
End UDP_Socket.

(** ** Receiving *)

(** The demultiplexer, the receive queues of the sockets (of pointers to buffers)
    and the buffers in memory. *)
Record Receiver := MkReceiver {
  demux : Demux; m_receivequeue : gmap nat BasicRingbuffer.t; buffers : gmap Z ReceiveBuffer }.
#[export] Instance Receiver_settable : Settable Receiver := λ r, MkReceiver (demux r) (m_receivequeue r) (buffers r).

Inductive report := error_receiving_memory_too_small | error_receiving_queue_full | error_port_not_reachable.
Inductive fate := Proceed | Dropped | Received (reports : list report).

Module UDP_Receive.
Section Receive.
Context (e : endian) (tBUFFERSIZE : Z).
(** The pools of the sockets: the address of a block and the memory from its [m_dataStart] on. *)
Context (mempool : nat -> Z -> option (Z * bytes)).

Definition addToReceiveQueue (receivebuffer : Z) (k : nat) (r : Receiver) : option (bool * Receiver) :=
  q ← m_receivequeue r !! k;
  Some (if BasicRingbuffer.isFull tBUFFERSIZE q then (false, r)
        else (true, r <| m_receivequeue := <[k := BasicRingbuffer.put tBUFFERSIZE q receivebuffer]> (m_receivequeue r) |>)).
Definition receive (k : nat) (r : Receiver) : option (Z * Receiver) :=
  q ← m_receivequeue r !! k;
  let '(b, q) := BasicRingbuffer.get tBUFFERSIZE q in
  Some (b, r <| m_receivequeue := <[k := q]> (m_receivequeue r) |>).

(** The loop over the bound sockets. *)
Definition find_step (d : Demux) (port : Z) (socket : option nat) : option nat + option (option nat) :=
  match socket with
  | None => inr (Some None)
  | Some i =>
      match sockets d !! i with
      | None => inr None
      | Some s => if sport s =? port then inr (Some (Some i)) else inl (next s)
      end
  end.

(** A datagram for socket [k]: the buffer is made and queued, a null pointer as well. *)
Definition deliver (k : nat) (ipv4_packet udp_packet : bytes) (r : Receiver) : option (fate * Receiver) :=
  b ← ReceiveBufferUDPIPv4.createReceiveBufferUDPIPv4 e (λ n, snd <$> mempool k n) (UDP_Packet.get_data udp_packet)
        (u16 (UDP_Packet.get_length e udp_packet - UDP_Packet.UDP_HEADER_SIZE)) (UDP_Packet.get_sport e udp_packet)
        (IPv4_Packet.get_src_ipaddr e ipv4_packet);
  let size := u16 (UDP_Packet.get_length e udp_packet - UDP_Packet.UDP_HEADER_SIZE) in
  let request := u16 (size + ReceiveBufferUDPIPv4.sizeof_RemoteInfo + ReceiveBufferUDPIPv4.padding size) in
  let pointer := from_option fst 0 (mempool k request) in
  let r := match b with Some b => r <| buffers := <[pointer := b]> (buffers r) |> | None => r end in
  let reports := match b with Some _ => [] | None => [error_receiving_memory_too_small] end in
  '(queued, r) ← addToReceiveQueue pointer k r;
  Some (Received (reports ++ if queued : bool then [] else [error_receiving_queue_full]), r).

Definition ipv4_demux (fuel : nat) (ipv4_packet : bytes) (len : Z) (r : Receiver) : option (option (fate * Receiver)) :=
  if negb (IPv4_Packet.get_protocol e ipv4_packet =? UDP_Packet.IP_TYPE_UDP) then Some (Some (Proceed, r))
  else if (len <? UDP_Packet.UDP_HEADER_SIZE) || (len <? IPv4_Packet.get_ihl e ipv4_packet * 4) then Some (Some (Dropped, r))
  else
    let udp_packet := IPv4_Packet.get_data e ipv4_packet in
    found ← loop fuel (find_step (demux r) (UDP_Packet.get_dport e udp_packet)) (head_socket (demux r));
    Some (socket ← found;
          match socket with
          | Some k => deliver k ipv4_packet udp_packet r
          | None => Some (Received [error_port_not_reachable], r)
          end).
End Receive.
End UDP_Receive.

(** ** Buffers keep what they were made of *)

Lemma store_length o bs m m' : store o bs m = Some m' -> length m' = length m.
Proof. unfold store. destruct (_ <=? _); [|done]. intros [= <-]. apply length_write. Qed.

Lemma store_outside o bs m : Z.of_nat (length m) < o + Z.of_nat (length bs) -> store o bs m = None.
Proof. intros H. unfold store. destruct (Z.leb_spec (o + Z.of_nat (length bs)) (Z.of_nat (length m))); [lia|done]. Qed.

Section Remote.
Import ReceiveBufferUDPIPv4.
Context (e : endian).

Lemma padding_range n : 0 <= padding n < 4 ∧ (n + sizeof_RemoteInfo + padding n) mod 4 = 0.
Proof. unfold padding, sizeof_RemoteInfo. zlia. Qed.

Lemma remote_writes o i m : write o (remote_bytes e i) m
  = setf e (Field (o + 6) K8) (id i) (setf e (Field (o + 4) H16) (remoteport i) (setf e (Field o H32) (ipv4 i) m)).
Proof.
  unfold remote_bytes, setf. cbn [f_off f_kind].
  replace (o + 6)%nat with ((o + 4) + length (fbytes e H16 (remoteport i)))%nat by (rewrite length_fbytes; cbn; lia).
  rewrite write_write. replace (o + 4)%nat with (o + length (fbytes e H32 (ipv4 i)))%nat by (rewrite length_fbytes; cbn; lia).
  by rewrite write_write.
Qed.

Lemma read_remote o i m : (o + 8 <= length m)%nat -> is_u32 (ipv4 i) -> is_u16 (remoteport i) -> is_u8 (id i) ->
  let m' := write o (remote_bytes e i) m in
  getf e (Field o H32) m' = ipv4 i ∧ getf e (Field (o + 4) H16) m' = remoteport i ∧ getf e (Field (o + 6) K8) m' = id i.
Proof.
  intros Hl H1 H2 H3. cbv zeta. rewrite remote_writes. split_and!.
  - rewrite !getf_setf_ne by (unfold fend; cbn [f_off f_kind ksize]; lia). apply getf_setf_eq; [unfold fend; cbn [f_off f_kind ksize]; lia|done].
  - rewrite getf_setf_ne by (unfold fend; cbn [f_off f_kind ksize]; lia).
    apply getf_setf_eq; [unfold fend; cbn [f_off f_kind ksize]; rewrite length_setf; lia|done].
  - apply getf_setf_eq; [unfold fend; cbn [f_off f_kind ksize]; rewrite !length_setf; lia|done].
Qed.

Lemma create4_made mempool payload n port addr area : 0 <= n <= 65524 ->
  let need := n + sizeof_RemoteInfo + padding n in
  need <= Z.of_nat (length payload) -> mempool need = Some area -> need <= Z.of_nat (length area) ->
  is_u32 addr -> is_u16 port ->
  exists r, createReceiveBufferUDPIPv4 e mempool payload n port addr = Some (Some r)
    ∧ getSize r = n ∧ take (Z.to_nat n) (getData r) = take (Z.to_nat n) payload
    ∧ getRemoteInfo e r = MkRemote addr port id4.
Proof.
  intros Hn need Hp Hm Ha Haddr Hport. destruct (padding_range n) as [Hpad _].
  unfold sizeof_RemoteInfo in need. subst need. unfold createReceiveBufferUDPIPv4. rewrite (u16_id n) by zlia.
  unfold createReceiveBuffer, sizeof_RemoteInfo. rewrite (u16_id (n + 8 + padding n)) by zlia. rewrite Hm.
  destruct (Z.ltb_spec (Z.of_nat (length payload)) (n + 8 + padding n)); [lia|].
  set (N := Z.to_nat (n + 8 + padding n)).
  assert (HN : length (take N payload) = N) by (rewrite length_take; lia).
  unfold store at 1. destruct (Z.leb_spec (0 + Z.of_nat (length (take N payload))) (Z.of_nat (length area))); [|lia].
  cbn [mbind option_bind]. set (area1 := write (Z.to_nat 0) (take N payload) area).
  assert (Hl1 : length area1 = length area) by apply length_write.
  cbn [m_receivedSize m_dataStart]. change (m_receivedSize (_ <| m_receivedSize := n |>)) with n.
  unfold remote_offset. change (m_receivedSize (_ <| m_receivedSize := n |>)) with n.
  change (m_dataStart ((MkReceive (n + 8 + padding n) area1) <| m_receivedSize := n |>)) with area1.
  unfold store. destruct (Z.leb_spec (n + padding n + Z.of_nat (length (remote_bytes e (MkRemote addr port id4)))) (Z.of_nat (length area1))) as [_|Hbad].
  2:{ unfold remote_bytes in Hbad. rewrite !length_app, !length_fbytes in Hbad. cbn in Hbad. lia. }
  cbn [mbind option_bind]. eexists. split; [reflexivity|]. split; [done|]. split.
  - unfold getData. cbn. rewrite <- (drop_0 (write _ _ area1)), read_write_out by lia. rewrite drop_0.
    transitivity (take (Z.to_nat n) (take N area1)); [rewrite take_take; f_equal; lia|].
    transitivity (take (Z.to_nat n) (take N payload)); [|rewrite take_take; f_equal; lia]. f_equal.
    rewrite <- (drop_0 area1). rewrite <- HN at 1. apply read_write. lia.
  - destruct (read_remote (Z.to_nat (n + padding n)) (MkRemote addr port id4) area1) as (E1 & E2 & E3);
      [lia|done|done|unfold id4; side|]. cbv zeta in E1, E2, E3. cbn [ipv4 remoteport id] in E1, E2, E3.
    by apply (f_equal3 MkRemote).
Qed.
End Remote.

(** ** Datagrams reach the socket of their port *)

Section Delivery.
Import UDP_Receive.
Context (e : endian) (tBUFFERSIZE : Z) (mempool : nat -> Z -> option (Z * bytes)).

Lemma find_loop d l port : listed d l -> forall l2 l1 fuel current, l = l1 ++ l2 -> chain (nxt d) current l2 ->
  (length l2 < fuel)%nat ->
  loop fuel (find_step d port) current = Some (Some (list_find (λ i, port_of d i = port) l2 ≫= λ x, Some (snd x))).
Proof.
  intros Hl. induction l2 as [|i l2 IH]; intros l1 fuel current E Hc Hf; (destruct fuel as [|fuel]; [by apply Nat.nlt_0_r in Hf|]).
  - cbn in Hc. by subst current.
  - destruct Hc as [-> Hc]. destruct (socket_at d l i Hl) as (s & Es & Ep & En).
    { subst l. apply elem_of_app. right. left. }
    cbn [loop find_step]. rewrite Es. cbn [list_find]. rewrite Ep. destruct (Z.eqb_spec (sport s) port) as [H|H].
    + by rewrite decide_True.
    + rewrite decide_False by done. rewrite <- En, (IH (l1 ++ [i])); [|by rewrite <- app_assoc|done|cbn in Hf; lia].
      by destruct (list_find _ l2) as [[? ?]|].
Qed.

(** The socket with a port is found; no other has it. *)
Lemma find_socket d l k fuel : bound d l -> k ∈ l -> (length l < fuel)%nat ->
  loop fuel (find_step d (port_of d k)) (head_socket d) = Some (Some (Some k)).
Proof.
  intros [Hl Hp] Hk Hf. rewrite (find_loop d l _ Hl l [] fuel) by (done || apply Hl).
  destruct (list_find _ l) as [[i x]|] eqn:E.
  - apply list_find_Some in E as (Hx & Ex & _). do 3 f_equal. apply list_elem_of_lookup in Hk as [j Hj].
    assert (i = j).
    { eapply NoDup_lookup; [exact Hp| |]; unfold ports; rewrite list_lookup_fmap.
      - rewrite Hx. cbn. by rewrite Ex.
      - by rewrite Hj. }
    subst j. cbn. congruence.
  - apply list_find_None in E. rewrite Forall_forall in E. by destruct (E k Hk).
Qed.

Section Datagram.
Context (r : Receiver) (l : list nat) (k : nat) (packet : bytes) (len : Z) (fuel : nat).
Context (Hb : bound (demux r) l) (Hk : k ∈ l) (Hfuel : (length l < fuel)%nat).
Let udp := IPv4_Packet.get_data e packet.
Context (Hproto : IPv4_Packet.get_protocol e packet = UDP_Packet.IP_TYPE_UDP).
Context (Hlen : UDP_Packet.UDP_HEADER_SIZE <= len) (Hihl : IPv4_Packet.get_ihl e packet * 4 <= len).
Context (Hport : UDP_Packet.get_dport e udp = port_of (demux r) k).

Lemma demux_delivers :
  UDP_Receive.ipv4_demux e tBUFFERSIZE mempool fuel packet len r = Some (deliver e tBUFFERSIZE mempool k packet udp r).
Proof.
  unfold ipv4_demux. rewrite Hproto, Z.eqb_refl. cbn [negb].
  destruct (Z.ltb_spec len UDP_Packet.UDP_HEADER_SIZE); [lia|]. destruct (Z.ltb_spec len (IPv4_Packet.get_ihl e packet * 4)); [lia|].
  cbn [orb]. fold udp. rewrite Hport, (find_socket _ l) by done. done.
Qed.

(** A datagram whose length field is right is delivered to the socket bound to its port and to no
    other: a buffer with its payload, the sender's address and port joins the queue's end. *)
Theorem udp_delivered (a : Z) (area : bytes) (q : BasicRingbuffer.t) :
  let n := UDP_Packet.get_length e udp - UDP_Packet.UDP_HEADER_SIZE in
  let need := n + ReceiveBufferUDPIPv4.sizeof_RemoteInfo + ReceiveBufferUDPIPv4.padding n in
  is_bytes packet -> 0 <= n <= 65524 -> need <= Z.of_nat (length (UDP_Packet.get_data udp)) ->
  mempool k need = Some (a, area) -> need <= Z.of_nat (length area) ->
  m_receivequeue r !! k = Some q -> BasicRingbuffer.wf tBUFFERSIZE q ->
  Z.of_nat (length (BasicRingbuffer.contents tBUFFERSIZE q)) < BasicRingbuffer.BUFFERSIZE tBUFFERSIZE - 1 ->
  exists b q', UDP_Receive.ipv4_demux e tBUFFERSIZE mempool fuel packet len r
      = Some (Some (Received [], MkReceiver (demux r) (<[k := q']> (m_receivequeue r)) (<[a := b]> (buffers r))))
    ∧ BasicRingbuffer.contents tBUFFERSIZE q' = BasicRingbuffer.contents tBUFFERSIZE q ++ [a]
    ∧ getSize b = n ∧ take (Z.to_nat n) (getData b) = take (Z.to_nat n) (UDP_Packet.get_data udp)
    ∧ ReceiveBufferUDPIPv4.cast e b = Some b
    ∧ ReceiveBufferUDPIPv4.getRemoteInfo e b
      = ReceiveBufferUDPIPv4.MkRemote (IPv4_Packet.get_src_ipaddr e packet) (UDP_Packet.get_sport e udp) ReceiveBufferUDPIPv4.id4.
Proof.
  intros n need Hp Hn Hpay Hm Ha Hq Hwf Hfree. rewrite demux_delivers. unfold deliver. fold n.
  assert (En : u16 n = n) by (apply u16_id; zlia). rewrite En.
  destruct (padding_range n) as [Hpad _].
  assert (Eneed : u16 need = need) by (apply u16_id; unfold need, ReceiveBufferUDPIPv4.sizeof_RemoteInfo; zlia).
  fold need. rewrite Eneed, Hm.
  assert (Hudp : is_bytes udp) by (apply Forall_drop; exact Hp).
  destruct (create4_made e (λ x, snd <$> mempool k x) (UDP_Packet.get_data udp) n (UDP_Packet.get_sport e udp)
    (IPv4_Packet.get_src_ipaddr e packet) area Hn Hpay) as (b & Eb & B1 & B2 & B3).
  { fold need. by rewrite Hm. }
  { exact Ha. }
  { exact (getf_range e IPv4_Packet.f_src_ipaddr packet Hp). }
  { exact (getf_range e UDP_Packet.f_sport udp Hudp). }
  rewrite Eb. cbn [mbind option_bind from_option fst]. unfold addToReceiveQueue. cbn [m_receivequeue].
  change (m_receivequeue (r <| buffers := _ |>)) with (m_receivequeue r). rewrite Hq. cbn [mbind option_bind].
  rewrite Ringbuffer.isFull_contents by done.
  destruct (Z.leb_spec (BasicRingbuffer.BUFFERSIZE tBUFFERSIZE - 1) (Z.of_nat (length (BasicRingbuffer.contents tBUFFERSIZE q)))); [lia|].
  exists b, (BasicRingbuffer.put tBUFFERSIZE q a). split; [done|]. split; [|split_and!; try done].
  - rewrite Ringbuffer.put_contents by done. destruct (Z.ltb_spec (Z.of_nat (length (BasicRingbuffer.contents tBUFFERSIZE q)))
      (BasicRingbuffer.BUFFERSIZE tBUFFERSIZE - 1)); [done|lia].
  - unfold ReceiveBufferUDPIPv4.cast. by rewrite B3.
Qed.

(** The length field is not compared with anything: below 8 the size wraps around, the block is
    requested for the wrapped sum, and the sender's address is written 64 KiB behind its start. *)
Theorem udp_short_length_corrupts (a : Z) (area : bytes) :
  let n := u16 (UDP_Packet.get_length e udp - UDP_Packet.UDP_HEADER_SIZE) in
  0 <= UDP_Packet.get_length e udp < 8 ->
  mempool k (u16 (n + ReceiveBufferUDPIPv4.sizeof_RemoteInfo + ReceiveBufferUDPIPv4.padding n)) = Some (a, area) ->
  Z.of_nat (length area) < 65535 ->
  UDP_Receive.ipv4_demux e tBUFFERSIZE mempool fuel packet len r = Some None.
Proof.
  intros n Hn Hm Ha. rewrite demux_delivers. unfold deliver. fold n.
  assert (Hn' : 65528 <= n < 65536) by (unfold n, UDP_Packet.UDP_HEADER_SIZE; zlia).
  destruct (padding_range n) as [Hpad _].
  unfold ReceiveBufferUDPIPv4.createReceiveBufferUDPIPv4. rewrite (u16_id n) by zlia. unfold createReceiveBuffer.
  rewrite Hm. cbn [fmap option_fmap option_map snd]. destruct (_ <? _); [done|].
  destruct (store 0 _ area) as [area1|] eqn:E; [|done]. apply store_length in E. cbn [mbind option_bind].
  unfold ReceiveBufferUDPIPv4.remote_offset. rewrite store_outside; [done|].
  change (m_receivedSize (_ <| m_receivedSize := n |>)) with n.
  change (m_dataStart (_ <| m_receivedSize := n |>)) with area1. unfold ReceiveBufferUDPIPv4.remote_bytes.
  rewrite !length_app, !length_fbytes. cbn. lia.
Qed.
End Datagram.
End Delivery.

(** ** Examples *)

(** Four bytes from 54.1.2.3, port 53, to port 5000; memory goes on behind the packet. *)
Definition datagram (length_field : Z) : bytes :=
  [0x45; 0; 0; 32; 0; 0; 0; 0; 64; 17; 0; 0; 54; 1; 2; 3; 10; 0; 0; 1]
  ++ [0; 53; 0x13; 0x88; 0; length_field; 0; 0] ++ [1; 2; 3; 4] ++ replicate 16 0.
Definition receiver_example : Receiver :=
  MkReceiver demux_example {[ 1%nat := BasicRingbuffer.init (replicate 3 0) ]} ∅.
Definition pool_example (k : nat) (n : Z) : option (Z * bytes) := Some (4096, replicate (Z.to_nat n) 0).

Lemma udp_delivered_witness : exists b q',
  UDP_Receive.ipv4_demux LE 3 pool_example 3 (datagram 12) 32 receiver_example
    = Some (Some (Received [], MkReceiver demux_example (<[1%nat := q']> (m_receivequeue receiver_example)) (<[4096 := b]> ∅)))
  ∧ BasicRingbuffer.contents 3 q' = [4096] ∧ getSize b = 4 ∧ take 4 (getData b) = [1; 2; 3; 4]
  ∧ ReceiveBufferUDPIPv4.cast LE b = Some b
  ∧ ReceiveBufferUDPIPv4.getRemoteInfo LE b = ReceiveBufferUDPIPv4.MkRemote 0x03020136 53 52.
Proof.
  destruct (udp_delivered LE 3 pool_example receiver_example [0%nat; 1%nat] 1 (datagram 12) 32 3 demux_example_bound)
    with (a := 4096) (area := replicate 12 0) (q := BasicRingbuffer.init (replicate 3 0)) as (b & q' & H1 & H2 & H3 & H4 & H5 & H6).
  - right. left.
  - cbn. lia.
  - reflexivity.
  - vm_compute. discriminate.
  - vm_compute. discriminate.
  - reflexivity.
  - apply (bool_decide_unpack _). by vm_compute.
  - vm_compute. split; discriminate.
  - vm_compute. discriminate.
  - reflexivity.
  - vm_compute. discriminate.
  - reflexivity.
  - by constructor.
  - reflexivity.
  - exists b, q'. split; [exact H1|]. split; [exact H2|]. split; [exact H3|]. split; [exact H4|]. split; [exact H5|exact H6].
Defined.

Lemma udp_short_length_corrupts_witness :
  UDP_Receive.ipv4_demux LE 3 pool_example 3 (datagram 0) 32 receiver_example = Some None.
Proof.
  refine (udp_short_length_corrupts LE 3 pool_example receiver_example [0%nat; 1%nat] 1 (datagram 0) 32 3 demux_example_bound
    _ _ eq_refl _ _ eq_refl 4096 [] _ eq_refl _).
  - right. left.
  - cbn. lia.
  - vm_compute. discriminate.
  - vm_compute. discriminate.
  - vm_compute. split; [discriminate|reflexivity].
  - reflexivity.
Defined.

(** Without memory a null pointer is queued: [receive] answers as if nothing had come, and takes it out. *)
Example null_is_queued : exists r,
  UDP_Receive.ipv4_demux LE 3 (λ _ _, None) 3 (datagram 12) 32 receiver_example
    = Some (Some (Received [error_receiving_memory_too_small], r))
  ∧ (BasicRingbuffer.contents 3 <$> m_receivequeue r !! 1%nat) = Some [0].
Proof. eexists. split; vm_compute; reflexivity. Qed.

(** The buffer of a datagram from 54.0.0.10 passes for one of IPv6: its address is where the id of the other class is. *)
Example ipv4_passes_for_ipv6 :
  ReceiveBufferUDPIPv6.cast LE (MkReceive 4 ([1; 2; 3; 4] ++ ReceiveBufferUDPIPv4.remote_bytes LE
    (ReceiveBufferUDPIPv4.MkRemote 0x0A000036 53 52) ++ [0])) ≠ None.
Proof. vm_compute. discriminate. Qed.
