(* ===== verification/Management.v ===== *)
(** * Management: the memory the stack's own messages share

    Models [ip_management_memory/SharedMemory.h/.cpp] and the advice of
    [SharedMemory.ah] around [SendBuffer::createInstance]: the stack's own
    messages (resets, ICMP, neighbor discovery) are never freed by a socket,
    so every buffer made of the shared pool is kept in a list, and the list is
    searched for buffers that have been sent before the next one is made.
    The pool is any [Allocator]; a pointer is its address, 0 the null pointer. *)

From S2P Require Import Prelude Mempool SendBuffer.

Open Scope Z_scope.

Module SharedMemory.
Section Memory.
Context {M : Type} `{!Allocator M}.
(** [SLOTS] is the number of blocks of the pool. *)
Context (SLOTS : nat).
(** The buffers at their addresses and whether the interface has sent them. *)
Context (buffer_at : Z -> SendBuffer.t) (hasBeenSend : Z -> bool).

Record SharedMemory := MkShared { mempool : M; allocatedMemories : list Z }.
#[global] Instance SharedMemory_settable : Settable SharedMemory := λ s, MkShared (mempool s) (allocatedMemories s).

(** The constructor clears the list. *)
Definition init (m : M) : SharedMemory := MkShared m (replicate SLOTS 0).

(** The first free place from [i] on gets the pointer. *)
Fixpoint insert_from (n i : nat) (data : Z) (l : list Z) : option (list Z) :=
  match n with
  | O => None
  | S n => if nth i l 0 =? 0 then Some (<[i := data]> l) else insert_from n (S i) data l
  end.
Definition insert (data : Z) (s : SharedMemory) : bool * SharedMemory :=
  match insert_from SLOTS 0 data (allocatedMemories s) with
  | Some l => (true, s <| allocatedMemories := l |>)
  | None => (false, s)
  end.

(** A buffer that may be freed. *)
Definition unused (buffer : Z) : bool :=
  let s := SendBuffer.getState (buffer_at buffer) in
  (s =? SendBuffer.InvalidState) || ((s =? SendBuffer.TransmittedState) && hasBeenSend buffer).

(** [None] when the pool does not know the block. *)
Definition remove (index : nat) (s : SharedMemory) : option (bool * SharedMemory) :=
  let buffer := nth index (allocatedMemories s) 0 in
  if unused buffer then
    m ← al_free (mempool s) buffer;
    Some (true, MkShared m (<[index := 0]> (allocatedMemories s)))
  else Some (false, s).

(** The first entry from [index] on and its place. *)
Fixpoint getNext_from (n i : nat) (l : list Z) : option (nat * Z) :=
  match n with
  | O => None
  | S n => if nth i l 0 =? 0 then getNext_from n (S i) l else Some (i, nth i l 0)
  end.
Definition getNext (index : nat) (s : SharedMemory) : option (nat * Z) :=
  getNext_from (SLOTS - index) index (allocatedMemories s).

Fixpoint free_from (n i : nat) (s : SharedMemory) : option SharedMemory :=
  match n with
  | O => Some s
  | S n =>
      if nth i (allocatedMemories s) 0 =? 0 then free_from n (S i) s
      else match remove i s with Some (_, s) => free_from n (S i) s | None => None end
  end.
Definition freeAllUnused (s : SharedMemory) : option SharedMemory := free_from SLOTS 0 s.

(** [createInstance] of a management socket, with its advice: the buffer or the null
    pointer, and whether the list had room for it. *)
Definition createInstance (size : Z) (s : SharedMemory) : option (Z * bool * SharedMemory) :=
  s ← freeAllUnused s;
  let '(p, m) := al_alloc (mempool s) size in
  let s := s <| mempool := m |> in
  if p =? 0 then Some (0, true, s)
  else let '(inserted, s) := insert p s in Some (p, inserted, s).

(** ** Every block is in the list *)

(** The pointers of the list. *)
Definition tracked (s : SharedMemory) : list Z := filter (λ p, p ≠ 0) (allocatedMemories s).
Record inv (s : SharedMemory) : Prop := {
  inv_slots : length (allocatedMemories s) = SLOTS;
  inv_held : al_inv (mempool s) (tracked s) }.

Lemma filter_all (l : list Z) : Forall (λ p, p ≠ 0) l -> filter (λ p, p ≠ 0) l = l.
Proof. induction 1 as [|x l Hx _ IH]; [done|]. rewrite filter_cons_True by done. by rewrite IH. Qed.

Lemma tracked_set l i p : (i < length l)%nat -> nth i l 0 = 0 -> p ≠ 0 ->
  filter (λ p, p ≠ 0) (<[i := p]> l) ≡ₚ p :: filter (λ p, p ≠ 0) l.
Proof.
  intros Hi H0 Hp. destruct (lookup_lt_is_Some_2 l i Hi) as [x E].
  rewrite (nth_lookup_Some _ _ _ _ E) in H0. subst x.
  rewrite insert_take_drop by done. rewrite <- (take_drop_middle l i 0 E) at 3.
  rewrite !filter_app, filter_cons_True, filter_cons_False by (done || lia). by rewrite Permutation_middle.
Qed.

Lemma tracked_clear l i : (i < length l)%nat -> nth i l 0 ≠ 0 ->
  filter (λ p, p ≠ 0) l ≡ₚ nth i l 0 :: filter (λ p, p ≠ 0) (<[i := 0]> l).
Proof.
  intros Hi H0. destruct (lookup_lt_is_Some_2 l i Hi) as [x E]. rewrite (nth_lookup_Some _ _ _ _ E) in *.
  rewrite <- (take_drop_middle l i x E) at 1. rewrite insert_take_drop by done.
  rewrite !filter_app, filter_cons_True, filter_cons_False by (done || lia). by rewrite Permutation_middle.
Qed.

Lemma insert_from_spec data l : forall n i, (i + n = length l)%nat ->
  match insert_from n i data l with
  | Some l' => exists j, (i <= j < length l)%nat ∧ nth j l 0 = 0 ∧ l' = <[j := data]> l
  | None => forall j, (i <= j < length l)%nat -> nth j l 0 ≠ 0
  end.
Proof.
  induction n as [|n IH]; intros i Hi; cbn [insert_from]; [lia|].
  destruct (Z.eqb_spec (nth i l 0) 0) as [E|E]; [exists i; split; [lia|done]|].
  specialize (IH (S i) ltac:(lia)). destruct (insert_from n (S i) data l).
  - destruct IH as (j & ? & ?). exists j. split; [lia|done].
  - intros j Hj. destruct (decide (j = i)) as [->|]; [done|apply IH; lia].
Qed.

(** A place is free as long as not all of them hold a block. *)
Lemma insert_tracks s p : length (allocatedMemories s) = SLOTS -> p ≠ 0 -> (length (tracked s) < SLOTS)%nat ->
  exists s', insert p s = (true, s') ∧ mempool s' = mempool s ∧ length (allocatedMemories s') = SLOTS
    ∧ tracked s' ≡ₚ p :: tracked s.
Proof.
  intros Hs Hp Hlen. unfold insert. pose proof (insert_from_spec p (allocatedMemories s) SLOTS 0 ltac:(lia)) as H.
  destruct (insert_from _ _ _ _) as [l'|].
  - destruct H as (j & Hj & H0 & ->). eexists. split; [reflexivity|]. split; [done|]. cbn. split; [by rewrite length_insert|].
    unfold tracked. cbn. apply tracked_set; [lia|done|done].
  - exfalso. assert (E : tracked s = allocatedMemories s); [|rewrite E in Hlen; lia].
    unfold tracked. apply filter_all. apply Forall_lookup. intros j x Hx.
    rewrite <- (nth_lookup_Some _ _ 0 _ Hx). apply H. apply lookup_lt_Some in Hx. lia.
Qed.

(** Removing an entry frees its block, if it may be freed. *)
Lemma remove_inv s i : inv s -> (i < SLOTS)%nat -> nth i (allocatedMemories s) 0 ≠ 0 ->
  exists b s', remove i s = Some (b, s') ∧ inv s' ∧ b = unused (nth i (allocatedMemories s) 0)
    ∧ allocatedMemories s' = if b then <[i := 0]> (allocatedMemories s) else allocatedMemories s.
Proof.
  intros [Hl Hh] Hi H0. unfold remove. destruct (unused _) eqn:E; [|by exists false, s].
  pose proof (tracked_clear (allocatedMemories s) i ltac:(lia) H0) as Hp.
  destruct (al_free_ok (mempool s) (filter (λ p, p ≠ 0) (<[i := 0]> (allocatedMemories s))) (nth i (allocatedMemories s) 0))
    as (m' & Em & Hm').
  { eapply al_perm; [exact Hp|exact Hh]. }
  rewrite Em. cbn [mbind option_bind]. eexists true, _. split; [reflexivity|]. split; [|done].
  split; cbn; [by rewrite length_insert|exact Hm'].
Qed.

Lemma free_from_inv : forall n i s, inv s -> (i + n = SLOTS)%nat ->
  exists s', free_from n i s = Some s' ∧ inv s'
    ∧ forall j, nth j (allocatedMemories s') 0
        = if bool_decide ((i <= j < SLOTS)%nat ∧ unused (nth j (allocatedMemories s) 0) = true) then 0
          else nth j (allocatedMemories s) 0.
Proof.
  induction n as [|n IH]; intros i s Hs Hi; cbn [free_from].
  - exists s. split; [done|]. split; [done|]. intros j. by rewrite bool_decide_eq_false_2 by lia.
  - destruct (Z.eqb_spec (nth i (allocatedMemories s) 0) 0) as [E|E].
    + destruct (IH (S i) s Hs ltac:(lia)) as (s' & E' & I' & H'). exists s'. split; [done|]. split; [done|].
      intros j. rewrite H'. destruct (decide (j = i)) as [->|]; [rewrite E; by repeat case_bool_decide|].
      erewrite bool_decide_ext; [reflexivity|]. split; intros [? ?]; (split; [lia|done]).
    + destruct (remove_inv s i Hs ltac:(lia) E) as (b & s1 & E1 & I1 & Hb & A1). rewrite E1.
      destruct (IH (S i) s1 I1 ltac:(lia)) as (s' & E' & I' & H'). exists s'. split; [done|]. split; [done|].
      intros j. rewrite H', A1. destruct (decide (j = i)) as [->|Hj].
      * rewrite (bool_decide_eq_false_2 ((S i <= i < SLOTS)%nat ∧ _)) by lia. destruct b.
        -- rewrite bool_decide_eq_true_2 by (split; [lia|done]). rewrite nth_lookup, list_lookup_insert_eq; [done|].
           destruct Hs as [-> _]. lia.
        -- rewrite bool_decide_eq_false_2; [done|]. rewrite <- Hb. by intros [_ ?].
      * assert (E2 : nth j (if b then <[i := 0]> (allocatedMemories s) else allocatedMemories s) 0 = nth j (allocatedMemories s) 0).
        { destruct b; [|done]. rewrite !nth_lookup. by rewrite list_lookup_insert_ne. }
        rewrite E2. erewrite bool_decide_ext; [reflexivity|]. split; intros [? ?]; (split; [lia|done]).
Qed.

(** Making a buffer for a message of the stack first frees every block whose buffer has been sent
    or spoiled, and keeps every other; a block it gets from the pool always finds a place
    in the list, so that no block of the pool is ever lost. *)
Theorem createInstance_tracks (size : Z) (s : SharedMemory) :
  inv s -> (al_capacity <= SLOTS)%nat -> 0 <= size ->
  exists p s1 s', freeAllUnused s = Some s1 ∧ inv s1
    ∧ (forall x, x ∈ tracked s1 <-> x ∈ tracked s ∧ unused x = false)
    ∧ createInstance size s = Some (p, true, s') ∧ inv s'
    ∧ p = fst (al_alloc (mempool s1) size)
    ∧ tracked s' ≡ₚ (if p =? 0 then tracked s1 else p :: tracked s1).
Proof.
  intros Hs Hcap Hsize. destruct (free_from_inv SLOTS 0 s Hs ltac:(lia)) as (s1 & E1 & I1 & H1).
  destruct (al_alloc (mempool s1) size) as [p m] eqn:Ea. exists p, s1.
  assert (Hx : forall x, x ∈ tracked s1 <-> x ∈ tracked s ∧ unused x = false).
  { intros x. unfold tracked. rewrite !list_elem_of_filter, !list_elem_of_lookup.
    pose proof (inv_slots s Hs) as L0. pose proof (inv_slots s1 I1) as L1.
    assert (Hnth : forall l : list Z, (exists i, l !! i = Some x) <-> exists i, (i < length l)%nat ∧ nth i l 0 = x).
    { intros l. split; intros [i Hi]; exists i.
      - split; [by eapply lookup_lt_Some|by apply nth_lookup_Some].
      - destruct Hi as [Hi <-]. destruct (lookup_lt_is_Some_2 l i Hi) as [y E]. by rewrite (nth_lookup_Some _ _ _ _ E). }
    rewrite !Hnth, L0, L1. split.
    - intros [Hx0 (i & Hi & E)]. rewrite H1 in E. case_bool_decide as Hu; [congruence|]. split; [eauto|].
      apply not_true_iff_false. intros Hux. apply Hu. split; [lia|congruence].
    - intros [[Hx0 (i & Hi & E)] Hu]. split; [done|]. exists i. split; [done|]. rewrite H1, E.
      rewrite bool_decide_eq_false_2; [done|]. rewrite Hu. by intros [_ ?]. }
  assert (Hal : inv (s1 <| mempool := m |>) ∧ p = 0 ∨ p ≠ 0 ∧ al_inv m (p :: tracked s1)).
  { destruct (al_alloc_ok (mempool s1) (tracked s1) size p m (inv_held s1 I1) Hsize Ea) as [[-> ->]|(Hp & _ & Hm)]; [|by right].
    left. split; [|done]. split; [apply I1|exact (inv_held s1 I1)]. }
  unfold createInstance. unfold freeAllUnused. rewrite E1. cbn [mbind option_bind]. rewrite Ea.
  destruct Hal as [[I2 ->]|[Hp Hm]].
  { rewrite Z.eqb_refl. eexists. split; [done|]. split; [done|]. split; [done|]. split; [reflexivity|]. by split_and!. }
  destruct (Z.eqb_spec p 0) as [|_]; [done|]. destruct (al_bounded m (p :: tracked s1) Hm) as [Hb _]. cbn in Hb.
  destruct (insert_tracks (s1 <| mempool := m |>) p) as (s' & Ei & Em & El & Et); [apply I1|done|unfold tracked in *; cbn in *; lia|].
  rewrite Ei. exists s'. split; [done|]. split; [done|]. split; [done|]. split; [reflexivity|].
  split; [|by split]. split; [done|]. rewrite Em. eapply al_perm; [symmetry; exact Et|exact Hm].
Qed.

(** Once every buffer has been sent or spoiled, the next message finds the whole pool. *)
Lemma all_sent_all_free (s : SharedMemory) :
  inv s -> Forall (λ p, unused p = true) (tracked s) ->
  exists s1, freeAllUnused s = Some s1 ∧ inv s1 ∧ tracked s1 = [].
Proof.
  intros Hs Hall. destruct (free_from_inv SLOTS 0 s Hs ltac:(lia)) as (s1 & E1 & I1 & H1).
  exists s1. split; [done|]. split; [done|].
  assert (Hno : forall x, x ∉ tracked s1); [|by destruct (tracked s1) as [|x l]; [done|destruct (Hno x); left]].
  intros x [Hx0 [i Hi]%list_elem_of_lookup]%list_elem_of_filter.
  pose proof (lookup_lt_Some _ _ _ Hi) as Hlt. rewrite (inv_slots s1 I1) in Hlt.
  apply (nth_lookup_Some _ _ 0) in Hi. rewrite H1 in Hi. case_bool_decide as Hu; [congruence|]. apply Hu.
  split; [lia|]. rewrite Hi. rewrite Forall_forall in Hall. apply Hall. unfold tracked. apply list_elem_of_filter. split; [done|].
  rewrite <- Hi. apply list_elem_of_lookup. exists i. destruct (lookup_lt_is_Some_2 (allocatedMemories s) i) as [y E].
  { rewrite (inv_slots s Hs). lia. }
  by rewrite (nth_lookup_Some _ _ _ _ E).
Qed.
End Memory.
End SharedMemory.

(** The shared memory with the default pool and its eight blocks. *)
#[local] Instance default_allocator : Allocator BasicMempool.t :=
  @BasicMempool.basic_allocator default_config default_config_ok.
Lemma default_shared_inv : SharedMemory.inv 8 (SharedMemory.init 8 default_pool).
Proof.
  split; [done|]. apply (@BasicMempool.basic_init_inv default_config default_config_ok 4096 16384); by vm_compute.
Qed.

Definition idle (a : Z) : SendBuffer.t := SendBuffer.mk a 40 SendBuffer.WritingState [] 0 0.

Lemma createInstance_tracks_witness : exists p s1 s',
  SharedMemory.freeAllUnused 8 idle (λ _, true) (SharedMemory.init 8 default_pool) = Some s1
  ∧ SharedMemory.createInstance 8 idle (λ _, true) 40 (SharedMemory.init 8 default_pool) = Some (p, true, s')
  ∧ SharedMemory.inv 8 s' ∧ p = fst (al_alloc (SharedMemory.mempool s1) 40).
Proof.
  destruct (SharedMemory.createInstance_tracks 8 idle (λ _, true) 40 (SharedMemory.init 8 default_pool) default_shared_inv)
    as (p & s1 & s' & H1 & _ & _ & H2 & H3 & H4 & _); [vm_compute; lia|lia|].
  exists p, s1, s'. by split_and!.
Defined.
