(* ===== verification/Arp.v ===== *)
(** * Arp: the link layer addresses of IPv4 neighbors

    Models the ARP cache ([arp/ARP_Cache.h] with the slices of [arp/ipv4]):
    its entries, the static entries, the packet pool, requests, replies and the
    lookup that waits for a reply, the advice that empties the cache
    ([arp/ARP_Cache_Global_Timeout.ah]), and the way of a frame to it
    ([ethernet/Receive_Ethernet.ah], [arp/ARP_Ethernet.ah],
    [arp/ipv4/IPv4_ARP_Send_Receive.ah]).  The clock and the network device
    are the class [System]; reading the clock delivers the frames that have
    arrived meanwhile, whose handler runs as an interrupt.  A hardware address
    the cache answers is a pointer into it, [Static] or [Entry] with an index. *)

From stdpp Require Import gmap.
From S2P Require Import Prelude Wire Packet TcpHistory Ipv4 Headers.

Open Scope Z_scope.

(** A network device: its place in the router's list, its type, its hardware
    address and what IPv4 adds to it. *)
Record Nic := MkNic { n_id : nat; n_type : Z; n_address : bytes; n_ipv4 : Interface }.
Definition ETHERNET : Z := 1.

(** The device driver and the clock.  [sys_send] is given the device and the
    packet of the pool it sends, by its index. *)
Class System (W : Type) := {
  sys_now : W -> Z * list bytes * W;
  sys_send : nat -> nat -> bytes -> W -> W;
  sys_hasBeenSent : nat -> nat -> W -> bool;
}.

Module ARP_Cache.

Definition MAX_CACHE_ENTRIES : nat := 5.
Definition MAX_STATIC_ENTRIES : nat := 1.
Definition MAX_PACKETS : nat := 1.
(** [ARP_Cache_Global_Timeout]: twenty minutes, in seconds. *)
Definition TIMEOUT : Z := 20 * 60.

Record cache_entry := MkEntry { ipv4_addr : Z; hw_addr : bytes }.
#[global] Instance cache_entry_settable : Settable cache_entry := λ x, MkEntry (ipv4_addr x) (hw_addr x).

(** A packet of the pool: the frame and the device that sends it. *)
Record pool_packet := MkPacket { frame : bytes; interface : option nat }.

Record t := mk {
  entries : list cache_entry; static_entries : list cache_entry;
  packet_pool : list pool_packet; timeout_window : Z }.
#[global] Instance t_settable : Settable t :=
  λ c, mk (entries c) (static_entries c) (packet_pool c) (timeout_window c).

Inductive pointer := Static (i : nat) | Entry (i : nat).

(** ** Entries *)

Definition ipv4_clear (c : t) : t := c <| entries := map (λ x, x <| ipv4_addr := 0 |>) (entries c) |>.

Fixpoint find_from (l : list cache_entry) (i : nat) (addr : Z) : option nat :=
  match l with
  | [] => None
  | x :: l => if ipv4_addr x =? addr then Some i else find_from l (S i) addr
  end.
Definition ipv4_find (addr : Z) (c : t) : option nat := find_from (entries c) 0 addr.

(** The loop of [ipv4_update]: [selected_index] and [first_free_index]. *)
Fixpoint select (l : list cache_entry) (i : nat) (addr : Z) (first_free_index : nat) : nat * nat :=
  match l with
  | [] => (MAX_CACHE_ENTRIES, first_free_index)
  | x :: l =>
      if ipv4_addr x =? addr then (i, first_free_index)
      else if ipv4_addr x =? 0 then
        select l (S i) addr (if bool_decide (first_free_index = MAX_CACHE_ENTRIES) then i else first_free_index)
      else select l (S i) addr first_free_index
  end.
Definition ipv4_update (addr : Z) (hw : bytes) (c : t) : t :=
  let '(selected_index, first_free_index) := select (entries c) 0 addr MAX_CACHE_ENTRIES in
  let selected_index :=
    if bool_decide (selected_index = MAX_CACHE_ENTRIES) then
      if bool_decide (first_free_index = MAX_CACHE_ENTRIES) then 0%nat else first_free_index
    else selected_index in
  c <| entries := <[selected_index := MkEntry addr (take 6 hw)]> (entries c) |>.

(** The first static entry without address. *)
Definition ipv4_insert (addr : Z) (hw : bytes) (c : t) : bool * t :=
  match find_from (static_entries c) 0 0 with
  | Some i => (true, c <| static_entries := <[i := MkEntry addr (take 6 hw)]> (static_entries c) |>)
  | None => (false, c)
  end.
Definition ipv4_remove (addr : Z) (c : t) : t :=
  match find_from (static_entries c) 0 addr with
  | Some i => c <| static_entries := alter (λ x, x <| ipv4_addr := 0 |>) i (static_entries c) |>
  | None => c
  end.

(** ** Packets *)

(** A write through a pointer to the header at offset [o] of the frame. *)
Definition through (o : nat) (f : bytes -> bytes) (p : bytes) : bytes := take o p ++ f (drop o p).

Section Operations.
Context (e : endian) `{Clk : Clock} {W : Type} `{Sys : System W}.

Fixpoint free_from (l : list pool_packet) (i : nat) (w : W) : option nat :=
  match l with
  | [] => None
  | p :: l =>
      if Eth_ARP_IPv4_Packet.isFree (interface p) (λ k, sys_hasBeenSent k i w) then Some i else free_from l (S i) w
  end.
Definition getNextFreePacket (c : t) (w : W) : option nat := free_from (packet_pool c) 0 w.

(** The header of an ARP packet for IPv4 over Ethernet. *)
Definition arp_header (opcode : Z) : bytes -> bytes := through 14 (λ p,
  let p := ARP_Packet.set_hw_type e ARP_Packet.ARP_HW_TYPE_ETH p in
  let p := ARP_Packet.set_protocol_type e ARP_Packet.ARP_PROTOCOL_TYPE_IPV4 p in
  let p := ARP_Packet.set_hw_addr_size e ARP_Packet.ARP_HW_ADDR_SIZE_ETH p in
  let p := ARP_Packet.set_protocol_addr_size e ARP_Packet.ARP_PROTOCOL_ADDR_SIZE_IPV4 p in
  ARP_Packet.set_opcode e opcode p).

(** The frame [ipv4_request] and [ipv4_reply] fill in, for a destination. *)
Definition fill_request (nic : Nic) (addr : Z) (p : bytes) : bytes :=
  let p := Eth_Frame.set_type e ARP_Packet.ETH_TYPE_ARP p in
  let p := arp_header ARP_Packet.ARP_REQUEST p in
  let p := set_bytes Eth_ARP_IPv4_Packet.o_arp_src_hwaddr 6 (n_address nic) p in
  let p := Eth_Frame.set_src_hwaddr (n_address nic) p in
  let p := setf e Eth_ARP_IPv4_Packet.f_arp_src_ipv4_addr (Ipv4.ipv4_addr (n_ipv4 nic)) p in
  let p := write Eth_ARP_IPv4_Packet.o_arp_dst_hwaddr [0xff; 0xff; 0xff; 0xff; 0xff; 0xff] p in
  let p := Eth_Frame.set_dst_hwaddr_broadcast p in
  setf e Eth_ARP_IPv4_Packet.f_arp_dst_ipv4_addr addr p.
Definition fill_reply (nic : Nic) (src_hwaddr : bytes) (src_ipv4_addr : Z) (p : bytes) : bytes :=
  let p := Eth_Frame.set_type e ARP_Packet.ETH_TYPE_ARP p in
  let p := arp_header ARP_Packet.ARP_REPLY p in
  let p := set_bytes Eth_ARP_IPv4_Packet.o_arp_src_hwaddr 6 (n_address nic) p in
  let p := Eth_Frame.set_src_hwaddr (n_address nic) p in
  let p := setf e Eth_ARP_IPv4_Packet.f_arp_src_ipv4_addr (Ipv4.ipv4_addr (n_ipv4 nic)) p in
  let p := set_bytes Eth_ARP_IPv4_Packet.o_arp_dst_hwaddr 6 src_hwaddr p in
  let p := Eth_Frame.set_dst_hwaddr src_hwaddr p in
  setf e Eth_ARP_IPv4_Packet.f_arp_dst_ipv4_addr src_ipv4_addr p.

(** Send packet [i] of the pool after [fill] has written it. *)
Definition send_packet (nic : Nic) (fill : bytes -> bytes) (c : t) (w : W) : t * W :=
  match getNextFreePacket c w with
  | None => (c, w)
  | Some i =>
      let f := fill (from_option frame [] (packet_pool c !! i)) in
      (c <| packet_pool := <[i := MkPacket f (Some (n_id nic))]> (packet_pool c) |>, sys_send (n_id nic) i f w)
  end.
Definition ipv4_request (addr : Z) (nic : Nic) (c : t) (w : W) : t * W := send_packet nic (fill_request nic addr) c w.
Definition ipv4_reply (src_hwaddr : bytes) (src_ipv4_addr : Z) (nic : Nic) (c : t) (w : W) : t * W :=
  send_packet nic (fill_reply nic src_hwaddr src_ipv4_addr) c w.

(** ** Receiving *)

Definition arp_demux (packet : bytes) (len : Z) (nic : Nic) (c : t) (w : W) : t * W :=
  if negb (ARP_Packet.get_protocol_type e packet =? ARP_Packet.ARP_PROTOCOL_TYPE_IPV4) then (c, w)
  else if negb (ipv4_up (n_ipv4 nic)) then (c, w)
  else if len <? ARP_Packet.ARP_IPV4_PACKETSIZE then (c, w)
  else
    let payload := ARP_Packet.get_payload packet in
    if negb (Ipv4.ipv4_addr (n_ipv4 nic) =? getf e (Field 16 H32) payload) then (c, w)
    else
      let src_hw_addr := take 6 payload in
      let src_ipv4_addr := getf e (Field 6 H32) payload in
      if ARP_Packet.get_opcode e packet =? ARP_Packet.ARP_REQUEST then ipv4_reply src_hw_addr src_ipv4_addr nic c w
      else if ARP_Packet.get_opcode e packet =? ARP_Packet.ARP_REPLY then (ipv4_update src_ipv4_addr src_hw_addr c, w)
      else (c, w).

Definition ethernet_demux (ethernet_frame : bytes) (framelen : Z) (nic : Nic) (c : t) (w : W) : t * W :=
  if negb (Eth_Frame.get_type e ethernet_frame =? ARP_Packet.ETH_TYPE_ARP) then (c, w)
  else
    let framelen := u32 (framelen - Eth_Frame.ETH_HEADER_SIZE) in
    if framelen <? ARP_Packet.ARP_HEADER_SIZE then (c, w)
    else
      let packet := Eth_Frame.get_data ethernet_frame in
      if negb (ARP_Packet.get_hw_type e packet =? ARP_Packet.ARP_HW_TYPE_ETH) then (c, w)
      else arp_demux packet framelen nic c w.

(** [Demux::demux]; what other link layers do with the data is not ours. *)
Definition demux (data : bytes) (len : Z) (nic : Nic) (c : t) (w : W) : t * W :=
  if negb (n_type nic =? ETHERNET) then (c, w)
  else if (len <? Eth_Frame.ETH_HEADER_SIZE) || (Eth_Frame.MAX_FRAME_SIZE <? len) then (c, w)
  else ethernet_demux data len nic c w.

(** ** Lookup *)

Definition receive_all (nic : Nic) (frames : list bytes) (c : t) (w : W) : t * W :=
  foldl (λ '(c, w) f, demux f (Z.of_nat (length f)) nic c w) (c, w) frames.

(** [Clock::now()] and the interrupts up to its return. *)
Definition now (nic : Nic) (c : t) (w : W) : Z * t * W :=
  let '(time, frames, w) := sys_now w in
  let '(c, w) := receive_all nic frames c w in (time, c, w).

Definition wait_step (nic : Nic) (addr timeout : Z) (st : t * W) : t * W + t * W :=
  let '(time, c, w) := now nic (fst st) (snd st) in
  if (time <? timeout) && bool_decide (ipv4_find addr c = None) then inl (c, w) else inr (c, w).
Definition ipv4_wait (fuel : nat) (addr : Z) (nic : Nic) (c : t) (w : W) : option (t * W) :=
  let '(time, c, w) := now nic c w in
  loop fuel (wait_step nic addr (u64 (time + ms_to_ticks 1000))) (c, w).

(** The loop over the retries left. *)
Fixpoint request_loop (retries : nat) (fuel : nat) (addr : Z) (nic : Nic) (c : t) (w : W) : option (option nat * t * W) :=
  match retries, ipv4_find addr c with
  | S n, None =>
      let '(c, w) := ipv4_request addr nic c w in
      '(c, w) ← ipv4_wait fuel addr nic c w;
      request_loop n fuel addr nic c w
  | _, found => Some (found, c, w)
  end.

(** [ARP_Cache_Global_Timeout], before a lookup. *)
Definition global_timeout (nic : Nic) (c : t) (w : W) : t * W :=
  let '(curr_time, c, w) := now nic c w in
  if timeout_window c <? curr_time then
    (ipv4_clear (c <| timeout_window := u64 (curr_time + ms_to_ticks (TIMEOUT * 1000)) |>), w)
  else (c, w).

(** The lookup: static entries first, then the cache with up to three requests. *)
Definition ipv4_lookup (fuel : nat) (expires : bool) (addr : Z) (nic : Nic) (c : t) (w : W)
    : option (option pointer * t * W) :=
  let '(c, w) := if expires then global_timeout nic c w else (c, w) in
  match find_from (static_entries c) 0 addr with
  | Some i => Some (Some (Static i), c, w)
  | None =>
      match request_loop 3 fuel addr nic c w with
      | Some (found, c, w) => Some (option_map Entry found, c, w)
      | None => None
      end
  end.

(** The six bytes behind the pointer. *)
Definition read_pointer (p : pointer) (c : t) : option bytes :=
  match p with
  | Static i => hw_addr <$> static_entries c !! i
  | Entry i => hw_addr <$> entries c !! i
  end.
End Operations.
End ARP_Cache.

(** ** The cache as a finite map *)

Section Map.
Import ARP_Cache.

Lemma find_from_Some l : forall i addr j, find_from l i addr = Some j ->
  exists k x, j = (i + k)%nat ∧ l !! k = Some x ∧ ipv4_addr x = addr.
Proof.
  induction l as [|x l IH]; intros i addr j; cbn [find_from]; [done|].
  destruct (Z.eqb_spec (ipv4_addr x) addr) as [H|H].
  - intros [= <-]. exists 0%nat, x. by rewrite Nat.add_0_r.
  - intros (k & y & -> & Hy & Ha)%IH. exists (S k), y. split; [lia|done].
Qed.

Lemma find_from_None l : forall i addr, find_from l i addr = None -> Forall (λ x, ipv4_addr x ≠ addr) l.
Proof.
  induction l as [|x l IH]; intros i addr; cbn [find_from]; [by constructor|].
  destruct (Z.eqb_spec (ipv4_addr x) addr) as [H|H]; [done|]. intros Hl. constructor; [done|by eapply IH].
Qed.

Lemma find_from_absent l i addr : Forall (λ x, ipv4_addr x ≠ addr) l -> find_from l i addr = None.
Proof.
  intros H. revert i. induction H as [|x l Hx _ IH]; intros i; cbn [find_from]; [done|].
  destruct (Z.eqb_spec (ipv4_addr x) addr); [done|apply IH].
Qed.

(** What the loop of [ipv4_update] finds. *)
Lemma select_spec addr l : forall i ff, (i + length l = MAX_CACHE_ENTRIES)%nat -> (ff < i)%nat ∨ ff = MAX_CACHE_ENTRIES ->
  match find_from l i addr with
  | Some j => fst (select l i addr ff) = j
  | None => select l i addr ff = (MAX_CACHE_ENTRIES,
      if bool_decide (ff = MAX_CACHE_ENTRIES) then default MAX_CACHE_ENTRIES (find_from l i 0) else ff)
  end.
Proof.
  induction l as [|x l IH]; intros i ff Hl Hff; cbn [find_from select length] in *; [by case_bool_decide as Hf; [rewrite Hf|]|].
  destruct (Z.eqb_spec (ipv4_addr x) addr) as [H|H]; [done|].
  destruct (Z.eqb_spec (ipv4_addr x) 0) as [H0|H0].
  - case_bool_decide as Hm.
    + specialize (IH (S i) i ltac:(lia) ltac:(lia)). destruct (find_from l (S i) addr); [done|].
      rewrite IH. rewrite bool_decide_false by lia. done.
    + specialize (IH (S i) ff ltac:(lia) ltac:(lia)). destruct (find_from l (S i) addr); [done|].
      rewrite IH. by rewrite bool_decide_false by done.
  - apply IH; lia.
Qed.

Definition pairs (l : list cache_entry) : list (Z * bytes) :=
  map (λ x, (ipv4_addr x, hw_addr x)) (filter (λ x, ipv4_addr x ≠ 0) l).
(** The addresses the cache knows, with their hardware addresses. *)
Definition to_map (c : t) : gmap Z bytes := list_to_map (pairs (entries c)).

(** The cache has five entries, and no address twice. *)
Record inv (c : t) : Prop := {
  inv_length : length (entries c) = MAX_CACHE_ENTRIES;
  inv_distinct : NoDup (fst <$> pairs (entries c)) }.

Lemma pairs_app l k : pairs (l ++ k) = pairs l ++ pairs k.
Proof. unfold pairs. by rewrite filter_app, map_app. Qed.
Lemma pairs_cons x l : pairs (x :: l) = if bool_decide (ipv4_addr x = 0) then pairs l else (ipv4_addr x, hw_addr x) :: pairs l.
Proof. unfold pairs. rewrite filter_cons. case_bool_decide; by case_decide. Qed.

Lemma pairs_key l a : a ≠ 0 -> a ∈ (fst <$> pairs l) <-> exists x, x ∈ l ∧ ipv4_addr x = a.
Proof.
  intros Ha. unfold pairs. change (map ?f ?l) with (f <$> l). rewrite <- list_fmap_compose, list_elem_of_fmap. split.
  - intros (x & -> & [Hx Hin]%list_elem_of_filter). by exists x.
  - intros (x & Hin & <-). exists x. split; [done|]. by apply list_elem_of_filter.
Qed.

(** An entry put among the others. *)
Definition put (x : cache_entry) (m : gmap Z bytes) : gmap Z bytes :=
  if bool_decide (ipv4_addr x = 0) then m else <[ipv4_addr x := hw_addr x]> m.

Lemma map_middle l1 x l2 : NoDup (fst <$> pairs (l1 ++ x :: l2)) ->
  list_to_map (M := gmap Z bytes) (pairs (l1 ++ x :: l2)) = put x (list_to_map (pairs (l1 ++ l2)))
  ∧ NoDup (fst <$> pairs (l1 ++ l2)) ∧ (ipv4_addr x ≠ 0 -> ipv4_addr x ∉ (fst <$> pairs (l1 ++ l2))).
Proof.
  rewrite !pairs_app, pairs_cons. unfold put. case_bool_decide as H0; [done|]. intros Hd.
  assert (Hp : pairs l1 ++ (ipv4_addr x, hw_addr x) :: pairs l2 ≡ₚ (ipv4_addr x, hw_addr x) :: pairs l1 ++ pairs l2)
    by (by rewrite Permutation_middle).
  split; [by rewrite (list_to_map_proper _ _ Hd Hp)|]. rewrite Hp in Hd. cbn [fmap list_fmap] in Hd.
  by apply NoDup_cons in Hd as [H1 H2].
Qed.

Lemma nodup_middle l1 x l2 : NoDup (fst <$> pairs (l1 ++ l2)) ->
  (ipv4_addr x ≠ 0 -> ipv4_addr x ∉ (fst <$> pairs (l1 ++ l2))) -> NoDup (fst <$> pairs (l1 ++ x :: l2)).
Proof.
  rewrite !pairs_app, pairs_cons. case_bool_decide; [done|]. intros Hd Hx.
  rewrite <- Permutation_middle. cbn [fmap list_fmap]. apply NoDup_cons. auto.
Qed.

Lemma pairs_not_zero l : 0 ∉ (fst <$> pairs l).
Proof.
  unfold pairs. change (map ?f ?l) with (f <$> l). rewrite <- list_fmap_compose, list_elem_of_fmap.
  by intros (x & E & [Hx _]%list_elem_of_filter).
Qed.

Lemma to_map_replace l i x y : NoDup (fst <$> pairs l) -> l !! i = Some x ->
  (forall j z, l !! j = Some z -> ipv4_addr z = ipv4_addr y -> ipv4_addr y ≠ 0 -> j = i) ->
  NoDup (fst <$> pairs (<[i := y]> l))
  ∧ list_to_map (pairs (<[i := y]> l)) = put y (delete (ipv4_addr x) (list_to_map (M := gmap Z bytes) (pairs l))).
Proof.
  intros Hd Hi Hy. pose proof (take_drop_middle l i x Hi) as El. set (l1 := take i l) in *. set (l2 := drop (S i) l) in *.
  assert (Hl1 : length l1 = i) by (apply length_take_le, Nat.lt_le_incl, (lookup_lt_Some _ _ _ Hi)).
  assert (Ei : <[i := y]> l = l1 ++ y :: l2) by (by rewrite insert_take_drop by (by eapply lookup_lt_Some)).
  rewrite <- El in Hd. destruct (map_middle l1 x l2 Hd) as (Em & Hd' & Hx).
  assert (Hnew : ipv4_addr y ≠ 0 -> ipv4_addr y ∉ (fst <$> pairs (l1 ++ l2))).
  { intros H0 (z & Hz & Ez)%(pairs_key _ _ H0). apply list_elem_of_lookup in Hz as [j Hj].
    destruct (decide (j < i)%nat) as [H|H].
    - rewrite lookup_app_l in Hj by lia. enough (j = i) by lia. apply (Hy j z); [|done|done].
      rewrite <- El, lookup_app_l by lia. done.
    - rewrite lookup_app_r in Hj by lia. enough (S j = i) by lia. apply (Hy (S j) z); [|done|done].
      rewrite <- El, lookup_app_r, Hl1 by lia. replace (S j - i)%nat with (S (j - length l1)) by lia. done. }
  pose proof (nodup_middle l1 y l2 Hd' Hnew) as Hn. rewrite Ei. split; [done|].
  destruct (map_middle l1 y l2 Hn) as (En & _). rewrite En. f_equal. rewrite <- El at 1. rewrite Em. unfold put.
  case_bool_decide as H0.
  - rewrite H0. symmetry. apply delete_id, not_elem_of_list_to_map_1, pairs_not_zero.
  - symmetry. apply delete_insert_id. apply not_elem_of_list_to_map_1. auto.
Qed.

(** The entry an answer for a new address replaces when the cache is full. *)
Definition victim (c : t) : Z := from_option ipv4_addr 0 (entries c !! 0%nat).

Lemma full_size c : inv c -> size (to_map c) = MAX_CACHE_ENTRIES <-> Forall (λ x, ipv4_addr x ≠ 0) (entries c).
Proof.
  intros [Hl Hd]. unfold to_map. rewrite map_size_list_to_map by done. unfold pairs. rewrite length_map, <- Hl. split.
  - intros H. apply Forall_forall. intros x Hx H0.
    assert (Hlt : (length (filter (λ x, ipv4_addr x ≠ 0%Z) (entries c)) < length (entries c))%nat).
    { apply (length_filter_lt _ _ x); [done|intros H1; by apply H1]. }
    lia.
  - intros H. f_equal. clear Hl Hd. induction H as [|x l Hx _ IH]; [done|].
    rewrite filter_cons_True by done. by rewrite IH.
Qed.

(** Where an answer is stored: at its address, else at the first free place, else at the front. *)
Lemma ipv4_update_place c addr hw : length (entries c) = MAX_CACHE_ENTRIES ->
  exists i x, entries c !! i = Some x
    ∧ ipv4_update addr hw c = c <| entries := <[i := MkEntry addr (take 6 hw)]> (entries c) |>
    ∧ (ipv4_addr x = addr
       ∨ (Forall (λ y, ipv4_addr y ≠ addr) (entries c)
          ∧ (ipv4_addr x = 0 ∨ (Forall (λ y, ipv4_addr y ≠ 0) (entries c) ∧ i = 0%nat)))).
Proof.
  intros Hl. pose proof (select_spec addr (entries c) 0 MAX_CACHE_ENTRIES) as Hs.
  rewrite Hl in Hs. specialize (Hs eq_refl ltac:(by right)). unfold ipv4_update.
  destruct (find_from (entries c) 0 addr) as [j|] eqn:Ef.
  - apply find_from_Some in Ef as (k & x & -> & Hk & Ha). exists k, x. split; [done|].
    destruct (select _ _ _ _) as [sel ff]. cbn [fst] in Hs. subst sel.
    pose proof (lookup_lt_Some _ _ _ Hk). cbn [Nat.add]. rewrite bool_decide_false by lia. auto.
  - apply find_from_None in Ef. rewrite Hs, !(bool_decide_true (MAX_CACHE_ENTRIES = MAX_CACHE_ENTRIES)) by done.
    destruct (find_from (entries c) 0 0) as [j|] eqn:E0; cbn [default from_option].
    + apply find_from_Some in E0 as (k & x & -> & Hk & Ha). exists k, x. split; [done|].
      pose proof (lookup_lt_Some _ _ _ Hk). rewrite bool_decide_false by (cbn; lia). cbn [Nat.add]. tauto.
    + apply find_from_None in E0. rewrite bool_decide_true by done.
      destruct (lookup_lt_is_Some_2 (entries c) 0%nat) as [x Hx]; [rewrite Hl; unfold MAX_CACHE_ENTRIES; lia|].
      exists 0%nat, x. tauto.
Qed.

Lemma to_map_absent c addr : Forall (λ y, ipv4_addr y ≠ addr) (entries c) -> to_map c !! addr = None.
Proof.
  intros H. apply not_elem_of_list_to_map_1. destruct (decide (addr = 0)) as [->|H0]; [apply pairs_not_zero|].
  rewrite pairs_key by done. intros (x & Hx & <-). rewrite Forall_forall in H. by apply (H x Hx).
Qed.

Lemma to_map_lookup c i x : inv c -> entries c !! i = Some x -> ipv4_addr x ≠ 0 ->
  to_map c !! ipv4_addr x = Some (hw_addr x).
Proof.
  intros [_ Hd] Hi H0. apply elem_of_list_to_map_1; [done|]. unfold pairs. apply list_elem_of_fmap.
  exists x. split; [done|]. apply list_elem_of_filter. split; [done|]. by eapply list_elem_of_lookup_2.
Qed.

Lemma inv_same c i j x y : inv c -> entries c !! i = Some x -> entries c !! j = Some y ->
  ipv4_addr y = ipv4_addr x -> ipv4_addr x ≠ 0 -> j = i.
Proof.
  intros [_ Hd] Hi Hj E H0. destruct (decide (j = i)) as [|Hne]; [done|]. exfalso.
  pose proof (take_drop_middle _ _ _ Hi) as El. rewrite <- El in Hd, Hj.
  destruct (map_middle _ _ _ Hd) as (_ & _ & Hx). apply (Hx H0). apply pairs_key; [done|]. exists y. split; [|done].
  pose proof (lookup_lt_Some _ _ _ Hi) as Hlt. assert (Hl1 : length (take i (entries c)) = i) by (apply length_take_le; lia).
  apply elem_of_app. destruct (decide (j < i)%nat).
  - rewrite lookup_app_l in Hj by lia. left. by eapply list_elem_of_lookup_2.
  - right. rewrite lookup_app_r, Hl1 in Hj by lia. replace (j - i)%nat with (S (j - i - 1)) in Hj by lia.
    by eapply list_elem_of_lookup_2.
Qed.

Lemma ipv4_find_map c addr : inv c -> addr ≠ 0 ->
  (ipv4_find addr c ≫= λ i, hw_addr <$> entries c !! i) = to_map c !! addr.
Proof.
  intros Hc H0. unfold ipv4_find. destruct (find_from (entries c) 0 addr) as [j|] eqn:Ef.
  - apply find_from_Some in Ef as (k & x & -> & Hk & <-). cbn. rewrite Hk. cbn. symmetry. by eapply to_map_lookup.
  - cbn. symmetry. by apply to_map_absent, (find_from_None _ 0).
Qed.

Lemma ipv4_clear_spec c : inv c -> to_map (ipv4_clear c) = ∅ ∧ inv (ipv4_clear c).
Proof.
  intros [Hl _]. assert (E : pairs (entries (ipv4_clear c)) = []).
  { change (entries (ipv4_clear c)) with (map (λ x, x <| ipv4_addr := 0 |>) (entries c)).
    clear Hl. induction (entries c) as [|x l IH]; [done|]. cbn [map]. by rewrite pairs_cons. }
  unfold to_map. rewrite E. split; [done|]. split; [by cbn; rewrite length_map|rewrite E; constructor].
Qed.

(** What an answer leaves in the map. *)
Definition answered (c : t) (addr : Z) (hw : bytes) : gmap Z bytes :=
  let m := to_map c in
  let m' := if decide (m !! addr = None ∧ size m = MAX_CACHE_ENTRIES) then delete (victim c) m else m in
  if addr =? 0 then m' else <[addr := take 6 hw]> m'.

Lemma ipv4_update_map c addr hw : inv c ->
  inv (ipv4_update addr hw c) ∧ to_map (ipv4_update addr hw c) = answered c addr hw.
Proof.
  intros Hc. unfold answered. cbv zeta. set (m := to_map c). set (m' := if decide _ then _ else _).
  pose proof Hc as [Hl Hd]. destruct (ipv4_update_place c addr hw Hl) as (i & x & Hi & -> & Hx).
  destruct (to_map_replace (entries c) i x (MkEntry addr (take 6 hw)) Hd Hi) as [H1 H2].
  { cbn [ipv4_addr]. intros j y Hj Ey H0. destruct Hx as [Ex|[Hn _]]; [apply (inv_same c i j x y); congruence|].
    rewrite Forall_forall in Hn. by destruct (Hn y ltac:(by eapply list_elem_of_lookup_2)). }
  split; [split; [by cbn; rewrite length_insert|done]|].
  unfold to_map. change (entries (c <| entries := ?l |>)) with l. rewrite H2. unfold put. cbn [ipv4_addr hw_addr].
  fold (to_map c). fold m. pose proof (full_size c Hc) as Hfull. fold m in Hfull.
  assert (Hz : m !! 0 = None) by (apply not_elem_of_list_to_map_1, pairs_not_zero).
  assert (Hnot : ipv4_addr x = 0 -> m' = m ∧ delete (ipv4_addr x) m = m).
  { intros E. rewrite E, delete_id by done. split; [|done]. subst m'. apply decide_False. rewrite Hfull, Forall_forall.
    intros [_ Hf]. by apply (Hf x ltac:(by eapply list_elem_of_lookup_2)). }
  assert (Hm' : delete (ipv4_addr x) m = m' ∨ (ipv4_addr x = addr ∧ addr ≠ 0 ∧ m' = m)).
  { destruct (decide (ipv4_addr x = 0)) as [Ex|Ex]; [left; by destruct (Hnot Ex) as [-> ->]|].
    destruct Hx as [<-|[Hn [Hx|[Hf Hi0]]]]; [right|done|left].
    - split_and!; [done..|]. subst m'. apply decide_False. intros [Hn _]. unfold m in Hn. by rewrite (to_map_lookup c i x) in Hn.
    - subst m'. rewrite decide_True by (split; [by apply to_map_absent|by apply Hfull]).
      f_equal. unfold victim. subst i. by rewrite Hi. }
  destruct Hm' as [->|(-> & H0 & ->)].
  - destruct (Z.eqb_spec addr 0) as [H0|H0]; [by rewrite bool_decide_true|by rewrite bool_decide_false].
  - rewrite bool_decide_false, (proj2 (Z.eqb_neq _ _) H0) by done. by rewrite insert_delete_eq.
Qed.

(** The answers of the cache are those of a finite map with at most five addresses: a new
    answer is added, or replaces the one for its address, or, when the map is full, drives out
    the first entry; an answer from 0.0.0.0 only drives out; emptying the cache leaves no address. *)
Theorem arp_cache_refines_map (c : t) (addr : Z) (hw : bytes) :
  inv c ->
  inv (ipv4_update addr hw c) ∧ to_map (ipv4_update addr hw c) = answered c addr hw
  ∧ (size (to_map c) <= MAX_CACHE_ENTRIES)%nat
  ∧ (addr ≠ 0 -> (ipv4_find addr c ≫= λ i, hw_addr <$> entries c !! i) = to_map c !! addr)
  ∧ to_map (ipv4_clear c) = ∅ ∧ inv (ipv4_clear c).
Proof.
  intros Hc. destruct (ipv4_update_map c addr hw Hc). split_and!; [done|done| | |by apply ipv4_clear_spec|by apply ipv4_clear_spec].
  - destruct Hc as [Hl Hd]. unfold to_map. rewrite map_size_list_to_map by done. unfold pairs.
    rewrite length_map, <- Hl. apply length_filter.
  - by apply ipv4_find_map.
Qed.

(** A cache with five neighbors, and the answer of a sixth. *)
Definition cache_example : t :=
  mk (map (λ a, MkEntry a [2; 0; 0; 0; 0; a]) [11; 12; 13; 14; 15]) [MkEntry 0 []] [MkPacket (repeat 0 42) None] 0.
Lemma cache_example_inv : inv cache_example.
Proof. split; [done|]. by apply (bool_decide_unpack _). Qed.
Lemma arp_cache_refines_map_witness :
  to_map (ipv4_update 16 [2; 0; 0; 0; 0; 16] cache_example)
  = <[16 := [2; 0; 0; 0; 0; 16]]> (delete 11 (to_map cache_example)).
Proof.
  destruct (arp_cache_refines_map cache_example 16 [2; 0; 0; 0; 0; 16] cache_example_inv) as (_ & E & _).
  exact E.
Defined.
End Map.

(** ** Requests and replies *)

Section Resolution.
Import ARP_Cache.
Context (e : endian) `{Clk : Clock} {W : Type} `{Sys : System W}.

(** The bytes of an ARP packet for IPv4 over Ethernet, as RFC 826 has them. *)
Definition arp_wire (dst src : bytes) (opcode : Z) (src_ip : Z) (target : bytes) (dst_ip : Z) : bytes :=
  dst ++ src ++ be16 0x0806 ++ be16 1 ++ be16 0x0800 ++ [6; 4] ++ be16 opcode
  ++ src ++ fbytes e H32 src_ip ++ target ++ fbytes e H32 dst_ip.

Definition broadcast : bytes := [0xff; 0xff; 0xff; 0xff; 0xff; 0xff].

Lemma fill_request_wire nic addr p : length p = 42%nat -> length (n_address nic) = 6%nat ->
  fill_request e nic addr p
  = arp_wire broadcast (n_address nic) ARP_Packet.ARP_REQUEST (Ipv4.ipv4_addr (n_ipv4 nic)) broadcast addr.
Proof.
  intros Hp Hm. unfold fill_request, arp_wire. set (ip := Ipv4.ipv4_addr (n_ipv4 nic)). clearbody ip.
  set (mac := n_address nic) in *. clearbody mac. unfold_list Hm. unfold_list Hp. by destruct e.
Qed.

Lemma fill_reply_wire nic hw ip p : length p = 42%nat -> length (n_address nic) = 6%nat -> length hw = 6%nat ->
  fill_reply e nic hw ip p = arp_wire hw (n_address nic) ARP_Packet.ARP_REPLY (Ipv4.ipv4_addr (n_ipv4 nic)) hw ip.
Proof.
  intros Hp Hm Hh. unfold fill_reply, arp_wire. set (own := Ipv4.ipv4_addr (n_ipv4 nic)). clearbody own.
  set (mac := n_address nic) in *. clearbody mac. unfold_list Hm. unfold_list Hh. unfold_list Hp. by destruct e.
Qed.

(** What a receiver reads from the frame, whatever follows it. *)
Lemma arp_wire_fields dst src op sip target dip pad :
  length dst = 6%nat -> length src = 6%nat -> length target = 6%nat -> is_u16 op -> is_u32 sip -> is_u32 dip ->
  let f := arp_wire dst src op sip target dip ++ pad in
  let packet := Eth_Frame.get_data f in
  Eth_Frame.get_type e f = ARP_Packet.ETH_TYPE_ARP
  ∧ ARP_Packet.get_hw_type e packet = ARP_Packet.ARP_HW_TYPE_ETH
  ∧ ARP_Packet.get_protocol_type e packet = ARP_Packet.ARP_PROTOCOL_TYPE_IPV4
  ∧ ARP_Packet.get_opcode e packet = op
  ∧ take 6 (ARP_Packet.get_payload packet) = src
  ∧ getf e (Field 6 H32) (ARP_Packet.get_payload packet) = sip
  ∧ getf e (Field 16 H32) (ARP_Packet.get_payload packet) = dip.
Proof.
  intros Hd Hs Ht Hop Hsip Hdip f packet. subst packet. subst f. unfold arp_wire.
  unfold_list Hd. unfold_list Hs. unfold_list Ht.
  split_and!; [by destruct e..| | | |].
  - assert (E : be16 op = fbytes e K16 op) by (cbn [fbytes]; rewrite LittleEndian.set16_network by side; by rewrite u16_id).
    rewrite E, <- !app_assoc. exact (getf_at e K16 op (be16 1 ++ be16 0x0800 ++ [6; 4]) _ Hop).
  - done.
  - rewrite <- !app_assoc. exact (getf_at e H32 sip [x5; x6; x7; x8; x9; x10] _ Hsip).
  - rewrite <- !app_assoc.
    assert (E : forall r, getf e (Field 16 H32) ([x5; x6; x7; x8; x9; x10] ++ fbytes e H32 sip ++ [x11; x12; x13; x14; x15; x16] ++ r)
      = getf e (Field 0 H32) r).
    { intros r. by destruct e. }
    etransitivity; [apply E|]. exact (getf_at e H32 dip [] _ Hdip).
Qed.

(** What a device does with such a frame. *)
Lemma demux_wire dst src op sip target dip pad nic c (w : W) :
  length dst = 6%nat -> length src = 6%nat -> length target = 6%nat -> is_u16 op -> is_u32 sip -> is_u32 dip ->
  n_type nic = ETHERNET -> ipv4_up (n_ipv4 nic) = true -> (length pad <= 1476)%nat ->
  let f := arp_wire dst src op sip target dip ++ pad in
  demux e f (Z.of_nat (length f)) nic c w
  = if negb (Ipv4.ipv4_addr (n_ipv4 nic) =? dip) then (c, w)
    else if op =? ARP_Packet.ARP_REQUEST then ipv4_reply e src sip nic c w
    else if op =? ARP_Packet.ARP_REPLY then (ipv4_update sip src c, w)
    else (c, w).
Proof.
  intros Hd Hs Ht Hop Hsip Hdip Hty Hup Hpad f.
  destruct (arp_wire_fields dst src op sip target dip pad Hd Hs Ht Hop Hsip Hdip) as (F1 & F2 & F3 & F4 & F5 & F6 & F7).
  fold f in F1, F2, F3, F4, F5, F6, F7. set (packet := Eth_Frame.get_data f) in *.
  assert (Hlen : Z.of_nat (length f) = 42 + Z.of_nat (length pad)).
  { unfold f, arp_wire. rewrite !length_app, !length_fbytes, Hd, Hs, Ht. cbn. lia. }
  set (len := Z.of_nat (length f)) in *. clearbody len.
  unfold demux. rewrite Hty, Z.eqb_refl. cbn [negb]. change Eth_Frame.ETH_HEADER_SIZE with 14. change Eth_Frame.MAX_FRAME_SIZE with 1518.
  destruct (Z.ltb_spec len 14); [lia|]. destruct (Z.ltb_spec 1518 len); [lia|]. cbn [orb].
  unfold ethernet_demux. rewrite F1, Z.eqb_refl. cbn [negb]. change Eth_Frame.ETH_HEADER_SIZE with 14.
  rewrite (u32_id (len - 14)) by (unfold is_u32; lia). change ARP_Packet.ARP_HEADER_SIZE with 8.
  destruct (Z.ltb_spec (len - 14) 8); [lia|]. fold packet. rewrite F2, Z.eqb_refl. cbn [negb].
  unfold arp_demux. rewrite F3, Hup, Z.eqb_refl. cbn [negb]. change ARP_Packet.ARP_IPV4_PACKETSIZE with 28.
  destruct (Z.ltb_spec (len - 14) 28); [lia|]. by rewrite F4, F5, F6, F7.
Qed.

Record device_ok (nic : Nic) : Prop := {
  device_type : n_type nic = ETHERNET;
  device_up : ipv4_up (n_ipv4 nic) = true;
  device_address : length (n_address nic) = 6%nat;
  device_ipv4 : is_u32 (Ipv4.ipv4_addr (n_ipv4 nic)) }.

Definition frames_ok (c : t) : Prop := Forall (λ p, length (frame p) = 42%nat) (packet_pool c).

Lemma free_from_lookup l : forall i (w : W) j, free_from l i w = Some j -> exists k, j = (i + k)%nat ∧ is_Some (l !! k).
Proof.
  induction l as [|p l IH]; intros i w j; cbn [free_from]; [done|].
  destruct (Eth_ARP_IPv4_Packet.isFree _ _).
  - intros [= <-]. exists 0%nat. split; [lia|by eexists].
  - intros (k & -> & Hk)%IH. exists (S k). split; [lia|done].
Qed.

Lemma send_packet_free nic fill c (w : W) i : frames_ok c -> getNextFreePacket c w = Some i ->
  exists p, length p = 42%nat ∧ send_packet nic fill c w
    = (c <| packet_pool := <[i := MkPacket (fill p) (Some (n_id nic))]> (packet_pool c) |>, sys_send (n_id nic) i (fill p) w).
Proof.
  intros Hf Hi. unfold send_packet. rewrite Hi. unfold getNextFreePacket in Hi.
  apply free_from_lookup in Hi as (k & -> & [p Hp]). cbn [Nat.add]. rewrite Hp. exists (frame p). split; [|done].
  unfold frames_ok in Hf. rewrite Forall_forall in Hf. apply (Hf p). by eapply list_elem_of_lookup_2.
Qed.

(** C19: Two hosts on one link: the request of one is a broadcast, the other answers it to the
    asker alone, and with the answer the cache of the asker knows the hardware address,
    whatever padding the link adds to the frames. *)
Theorem arp_resolves (A B : Nic) (cA cB : t) (wA wB : W) (i j : nat) (pad pad' : bytes) :
  device_ok A -> device_ok B -> frames_ok cA -> frames_ok cB ->
  getNextFreePacket cA wA = Some i -> getNextFreePacket cB wB = Some j ->
  inv cA -> Ipv4.ipv4_addr (n_ipv4 B) ≠ 0 -> (length pad <= 1476)%nat -> (length pad' <= 1476)%nat ->
  exists request reply cA' cB',
    ipv4_request e (Ipv4.ipv4_addr (n_ipv4 B)) A cA wA = (cA', sys_send (n_id A) i request wA)
    ∧ Eth_Frame.get_dst_hwaddr request = broadcast
    ∧ demux e (request ++ pad) (Z.of_nat (length (request ++ pad))) B cB wB = (cB', sys_send (n_id B) j reply wB)
    ∧ Eth_Frame.get_dst_hwaddr reply = n_address A ∧ entries cB' = entries cB
    ∧ forall wA', exists cA'', demux e (reply ++ pad') (Z.of_nat (length (reply ++ pad'))) A cA' wA' = (cA'', wA')
        ∧ inv cA'' ∧ to_map cA'' !! Ipv4.ipv4_addr (n_ipv4 B) = Some (n_address B).
Proof.
  intros [A1 A2 A3 A4] [B1 B2 B3 B4] FA FB Hi Hj HA H0 Hp Hp'.
  set (ipA := Ipv4.ipv4_addr (n_ipv4 A)) in *. set (ipB := Ipv4.ipv4_addr (n_ipv4 B)) in *.
  destruct (send_packet_free A (fill_request e A ipB) cA wA i FA Hi) as (p & Lp & E1).
  rewrite fill_request_wire in E1 by done.
  destruct (send_packet_free B (fill_reply e B (n_address A) ipA) cB wB j FB Hj) as (q & Lq & E2).
  rewrite fill_reply_wire in E2 by done. fold ipA in E1. fold ipB in E2.
  eexists _, _, _, _. split; [exact E1|]. split; [reflexivity|]. split.
  { rewrite demux_wire by done. fold ipB. rewrite Z.eqb_refl. cbn [negb]. exact E2. }
  split; [unfold Eth_Frame.get_dst_hwaddr, get_bytes, arp_wire; rewrite drop_0, <- A3; by apply take_app_length|].
  split; [done|]. intros wA'. eexists. split.
  { rewrite demux_wire by done. fold ipA. rewrite Z.eqb_refl. cbn [negb]. reflexivity. }
  set (cA' := cA <| packet_pool := _ |>). assert (HA' : inv cA') by (destruct HA; by split).
  destruct (ipv4_update_map cA' ipB (n_address B) HA') as [H1 H2]. split; [done|]. rewrite H2. unfold answered.
  rewrite (proj2 (Z.eqb_neq _ _) H0), lookup_insert_eq, <- B3. by rewrite firstn_all.
Qed.
End Resolution.

(** ** Waiting for an answer *)

Section Waiting.
Import ARP_Cache.
Context (e : endian) `{Clk : Clock} {W : Type} `{Sys : System W}.

(** The clock answers the time, which never goes back and goes on after at most [readings]
    readings; [left] counts down to it.  Sending a frame takes no time. *)
Context (time : W -> Z) (left : W -> nat) (readings : nat).
Hypothesis clock_runs : forall w t frames w', sys_now w = (t, frames, w') ->
  t = time w ∧ time w <= time w' ∧ (time w' = time w -> (left w' < left w)%nat).
Hypothesis clock_left : forall w, (left w <= readings)%nat.
Hypothesis send_at_once : forall k i f w, time (sys_send k i f w) = time w ∧ left (sys_send k i f w) = left w.
Hypothesis second : 0 <= ms_to_ticks 1000.

(** What receiving and sending leave as it is. *)
Definition kept (st st' : t * W) : Prop :=
  static_entries (fst st') = static_entries (fst st) ∧ time (snd st') = time (snd st) ∧ left (snd st') = left (snd st).

Lemma kept_refl st : kept st st.
Proof. done. Qed.
Lemma kept_trans a b c : kept a b -> kept b c -> kept a c.
Proof. unfold kept. intros (-> & -> & ->). done. Qed.

Lemma send_packet_kept nic fill c w : kept (c, w) (send_packet nic fill c w).
Proof.
  unfold send_packet. destruct (getNextFreePacket c w); [|apply kept_refl]. split; [done|]. apply send_at_once.
Qed.

Lemma ipv4_update_kept addr hw c w : kept (c, w) (ipv4_update addr hw c, w).
Proof. unfold ipv4_update. by destruct (select _ _ _ _). Qed.

Lemma demux_kept data len nic c w : kept (c, w) (demux e data len nic c w).
Proof.
  unfold demux, ethernet_demux, arp_demux.
  repeat (case_match; try apply kept_refl); first [apply send_packet_kept | apply ipv4_update_kept].
Qed.

Lemma receive_all_kept nic frames : forall c w, kept (c, w) (receive_all e nic frames c w).
Proof.
  unfold receive_all. induction frames as [|f l IH]; intros c w; cbn [foldl]; [apply kept_refl|].
  pose proof (demux_kept f (Z.of_nat (length f)) nic c w) as H. destruct (demux _ _ _ _ _ _) as [c' w'].
  eapply kept_trans; [exact H|apply IH].
Qed.

Lemma now_runs nic c w : exists c' w', now e nic c w = (time w, c', w') ∧ static_entries c' = static_entries c
  ∧ time w <= time w' ∧ (time w' = time w -> (left w' < left w)%nat).
Proof.
  unfold now. destruct (sys_now w) as [[t frames] w1] eqn:E. destruct (clock_runs w t frames w1 E) as (-> & H1 & H2).
  pose proof (receive_all_kept nic frames c w1) as (K1 & K2 & K3). destruct (receive_all _ _ _ _ _) as [c' w'].
  exists c', w'. cbn in *. rewrite K2, K3. auto.
Qed.

Definition wait_fuel : nat := (Z.to_nat (ms_to_ticks 1000) * S readings + readings + 2)%nat.

(** A reading of the clock with the frames that arrive in it: all that happens in a wait. *)
Definition reads (nic : Nic) (st st' : t * W) : Prop := exists time, now e nic (fst st) (snd st) = (time, fst st', snd st').

(** The wait ends: with the address found, or when its second is over. *)
Lemma ipv4_wait_ends fuel addr nic c w : (wait_fuel <= fuel)%nat -> 0 <= time w ->
  exists c' w', ipv4_wait e fuel addr nic c w = Some (c', w') ∧ static_entries c' = static_entries c
    ∧ time w <= time w' ∧ rtc (reads nic) (c, w) (c', w')
    ∧ (ipv4_find addr c' = None -> time w' + ms_to_ticks 1000 < 2 ^ 64 -> time w + ms_to_ticks 1000 <= time w').
Proof.
  intros Hf Ht. unfold ipv4_wait. destruct (now_runs nic c w) as (c1 & w1 & N1 & S1 & T1 & _). rewrite N1.
  assert (R1 : rtc (reads nic) (c, w) (c1, w1)) by (apply rtc_once; eexists; exact N1).
  set (limit := u64 (time w + ms_to_ticks 1000)).
  assert (Hlim : limit <= time w + ms_to_ticks 1000) by (unfold limit, u64; apply Z.mod_le; lia).
  destruct (loop_measure
    (λ st : t * W, static_entries (fst st) = static_entries c ∧ time w <= time (snd st) ∧ rtc (reads nic) (c, w) st)
    (λ st : t * W, static_entries (fst st) = static_entries c ∧ time w <= time (snd st) ∧ rtc (reads nic) (c, w) st
       ∧ (ipv4_find addr (fst st) = None -> limit <= time (snd st)))
    (λ st, (Z.to_nat (limit - time (snd st)) * S readings + left (snd st))%nat)
    (wait_step e nic addr limit)) with (fuel := fuel) (s := (c1, w1)) as ([c' w'] & E & H1 & H2 & HR & H3).
  - intros [c2 w2] [c3 w3] (I1 & I2 & I3). unfold wait_step. cbn [fst snd] in *.
    destruct (now_runs nic c2 w2) as (c4 & w4 & N4 & S4 & T4 & L4). rewrite N4.
    destruct (Z.ltb_spec (time w2) limit) as [Hlt|Hlt]; cbn [andb]; [|done]. case_bool_decide; [|done]. intros [= <- <-].
    split; [split_and!; [congruence|lia|eapply rtc_r; [exact I3|by eexists]]|]. pose proof (clock_left w4).
    destruct (decide (time w4 = time w2)) as [Eq|Ne]; [rewrite Eq; specialize (L4 Eq); lia|].
    assert (Hd : (Z.to_nat (limit - time w4) + 1 <= Z.to_nat (limit - time w2))%nat) by lia.
    nia.
  - intros [c2 w2] [c3 w3] (I1 & I2 & I3). unfold wait_step. cbn [fst snd] in *.
    destruct (now_runs nic c2 w2) as (c4 & w4 & N4 & S4 & T4 & L4). rewrite N4.
    assert (R4 : rtc (reads nic) (c, w) (c4, w4)) by (eapply rtc_r; [exact I3|by eexists]).
    destruct (Z.ltb_spec (time w2) limit) as [Hlt|Hlt]; cbn [andb].
    + case_bool_decide as Hn; [done|]. intros [= <- <-]. split_and!; [congruence|lia|done|done].
    + intros [= <- <-]. split_and!; [congruence|lia|done|lia].
  - done.
  - cbn [snd]. unfold wait_fuel in Hf. pose proof (clock_left w1).
    assert ((Z.to_nat (limit - time w1) <= Z.to_nat (ms_to_ticks 1000))%nat) by lia. nia.
  - exists c', w'. split_and!; [done..|]. intros Hn Hov. specialize (H3 Hn). cbn [snd] in *.
    unfold limit, u64 in H3. rewrite Z.mod_small in H3 by lia. exact H3.
Qed.

(** [n] requests for the address in a row, none of them answered: each is the frame [ipv4_request] writes, if a packet
    of the pool is free, and after it nothing happens but readings of the clock, for a second at least, if the clock's
    64 bits do not wrap around. *)
Inductive asked (addr : Z) (nic : Nic) : nat -> t * W -> t * W -> Prop :=
| asked_done st : asked addr nic 0 st st
| asked_again n c w c1 w1 c2 w2 st :
    ipv4_find addr c = None ->
    match getNextFreePacket c w with
    | Some i => w1 = sys_send (n_id nic) i (fill_request e nic addr (from_option frame [] (packet_pool c !! i))) w
    | None => w1 = w
    end ->
    entries c1 = entries c -> rtc (reads nic) (c1, w1) (c2, w2) ->
    (time w2 + ms_to_ticks 1000 < 2 ^ 64 -> time w1 + ms_to_ticks 1000 <= time w2) ->
    asked addr nic n (c2, w2) st -> asked addr nic (S n) (c, w) st.

(** A known address is answered at once. *)
Lemma request_loop_found n fuel addr nic c w i : ipv4_find addr c = Some i ->
  request_loop e n fuel addr nic c w = Some (Some i, c, w).
Proof. intros E. destruct n; cbn [request_loop]; by rewrite E. Qed.

Lemma request_loop_ends fuel addr nic : (wait_fuel <= fuel)%nat -> forall n c w, 0 <= time w ->
  exists c' w', request_loop e n fuel addr nic c w = Some (ipv4_find addr c', c', w')
    ∧ static_entries c' = static_entries c ∧ time w <= time w'
    ∧ (ipv4_find addr c' = None -> asked addr nic n (c, w) (c', w') ∧ (time w' + ms_to_ticks 1000 < 2 ^ 64 ->
       time w + Z.of_nat n * ms_to_ticks 1000 <= time w')).
Proof.
  intros Hf n c w Ht. destruct (ipv4_find addr c) as [i|] eqn:Ei.
  { exists c, w. rewrite (request_loop_found _ _ _ _ _ _ i), Ei by done. split_and!; [done|done|lia|done]. }
  revert c w Ht Ei. induction n as [|n IH]; intros c w Ht Ei; cbn [request_loop].
  { exists c, w. split_and!; [done|done|lia|]. intros _. split; [constructor|lia]. }
  rewrite Ei. pose proof (send_packet_kept nic (fill_request e nic addr) c w) as (K1 & K2 & K3). unfold ipv4_request.
  assert (Hreq : let '(c1, w1) := send_packet nic (fill_request e nic addr) c w in entries c1 = entries c
    ∧ match getNextFreePacket c w with
      | Some i => w1 = sys_send (n_id nic) i (fill_request e nic addr (from_option frame [] (packet_pool c !! i))) w
      | None => w1 = w end) by (unfold send_packet; by destruct (getNextFreePacket c w)).
  destruct (send_packet _ _ _ _) as [c1 w1]. cbn [fst snd] in K1, K2, K3. destruct Hreq as [Ec1 Ew1].
  destruct (ipv4_wait_ends fuel addr nic c1 w1 Hf ltac:(lia)) as (c2 & w2 & -> & S2 & T2 & R2 & N2). cbn [mbind option_bind].
  destruct (ipv4_find addr c2) as [i|] eqn:E2.
  - exists c2, w2. rewrite (request_loop_found _ _ _ _ _ _ i), E2 by done. split_and!; [done|congruence|lia|done].
  - destruct (IH c2 w2 ltac:(lia) E2) as (c3 & w3 & -> & S3 & T3 & N3). exists c3, w3.
    split_and!; [done|congruence|lia|]. intros Hn. destruct (N3 Hn) as [A3 N3']. split.
    + by apply (asked_again _ _ n c w c1 w1 c2 w2); [| | | |apply N2|].
    + intros Hov. specialize (N3' Hov). specialize (N2 eq_refl ltac:(lia)). lia.
Qed.

(** The lookup before its loop. *)
Definition lookup_start (expires : bool) (nic : Nic) (c : t) (w : W) : t * W :=
  if expires then global_timeout e nic c w else (c, w).

Lemma lookup_start_spec expires nic c w : let '(c', w') := lookup_start expires nic c w in
  static_entries c' = static_entries c ∧ time w <= time w'.
Proof.
  unfold lookup_start. destruct expires; [|split; [done|lia]]. unfold global_timeout.
  destruct (now_runs nic c w) as (c' & w' & -> & S' & T' & _). destruct (_ <? _); by split.
Qed.

(** C20: A lookup ends, whatever arrives while it waits.  It answers a static entry for the
    address, else an entry of the cache for it, at once if there is one, else the null
    pointer; then there is none for the address, and three requests for it were sent, each when
    a packet of the pool was free, with a second to wait after each, unless the clock's 64 bits
    wrap around. *)
Theorem arp_lookup_ends (fuel : nat) (expires : bool) (addr : Z) (nic : Nic) (c : t) (w : W) :
  (wait_fuel <= fuel)%nat -> 0 <= time w ->
  exists r c' w', ipv4_lookup e fuel expires addr nic c w = Some (r, c', w')
    ∧ match r with
      | Some (Static i) => exists x, static_entries c !! i = Some x ∧ ipv4_addr x = addr
      | Some (Entry i) => Forall (λ x, ipv4_addr x ≠ addr) (static_entries c)
          ∧ (exists x, entries c' !! i = Some x ∧ ipv4_addr x = addr)
          ∧ (ipv4_find addr (fst (lookup_start expires nic c w)) = Some i -> (c', w') = lookup_start expires nic c w)
      | None => Forall (λ x, ipv4_addr x ≠ addr) (static_entries c ++ entries c')
          ∧ asked addr nic 3 (lookup_start expires nic c w) (c', w')
          ∧ (time w' + ms_to_ticks 1000 < 2 ^ 64 -> time w + 3 * ms_to_ticks 1000 <= time w')
      end.
Proof.
  intros Hf Ht. unfold ipv4_lookup. pose proof (lookup_start_spec expires nic c w) as H.
  fold (lookup_start expires nic c w). destruct (lookup_start expires nic c w) as [c1 w1] eqn:E1. destruct H as [S1 T1].
  rewrite S1. destruct (find_from (static_entries c) 0 addr) as [i|] eqn:Es.
  - apply find_from_Some in Es as (k & x & -> & Hk & Hx). eexists _, _, _. split; [done|]. by exists x.
  - apply find_from_None in Es. destruct (request_loop_ends fuel addr nic Hf 3 c1 w1 ltac:(lia)) as (c2 & w2 & E2 & S2 & T2 & N2).
    rewrite E2. destruct (ipv4_find addr c2) as [i|] eqn:Ef; eexists _, _, _; (split; [done|]); cbn [option_map].
    + split; [done|]. split.
      * unfold ipv4_find in Ef. apply find_from_Some in Ef as (k & x & -> & Hk & Hx). by exists x.
      * cbn [fst]. intros Hi. rewrite (request_loop_found _ _ _ _ _ _ i Hi) in E2. congruence.
    + split; [apply Forall_app; split; [done|by eapply find_from_None]|].
      destruct (N2 eq_refl) as [A2 N2']. split; [exact A2|]. intros Hov. specialize (N2' Hov). lia.
Qed.
End Waiting.

(** ** A link to try it on *)

Section Example.
Import ARP_Cache.

(** The clock ticks at every second reading; [l_arriving] says which frames arrive in a tick. *)
Record Link := MkLink { l_time : Z; l_again : bool; l_arriving : Z -> list bytes; l_sent : list (nat * bytes) }.
#[local] Instance link_system : System Link := {
  sys_now w :=
    if l_again w then (l_time w, [], MkLink (l_time w) false (l_arriving w) (l_sent w))
    else (l_time w, l_arriving w (l_time w), MkLink (l_time w + 1) true (l_arriving w) (l_sent w));
  sys_send k i f w := MkLink (l_time w) (l_again w) (l_arriving w) (l_sent w ++ [(k, f)]);
  sys_hasBeenSent k i w := true }.
#[local] Instance link_clock : Clock := { ms_to_ticks ms := ms / 100; ticks_to_ms t := t * 100 }.

Definition ip_example (d : Z) : Z := IPv4_Packet.convert_ipv4_addr 10 0 0 d.
Definition host_example (d : Z) : Nic :=
  MkNic 0 ETHERNET [2; 0; 0; 0; 0; d] (MkInterface (ip_example d) (IPv4_Packet.convert_ipv4_addr 255 0 0 0) true).
Definition empty_cache : t := mk (repeat (MkEntry 0 (repeat 0 6)) 5) [MkEntry 0 (repeat 0 6)] [MkPacket (repeat 0 42) None] 0.
Definition link_example : Link := MkLink 1 true (λ t,
  if t =? 3 then [arp_wire LE [2; 0; 0; 0; 0; 1] [2; 0; 0; 0; 0; 2] ARP_Packet.ARP_REPLY (ip_example 2) [2; 0; 0; 0; 0; 1] (ip_example 1)]
  else []) [].

(** The answer that arrives in the third tick is found; a second lookup sends nothing. *)
Example lookup_example :
  match ipv4_lookup LE 40 true (ip_example 2) (host_example 1) empty_cache link_example with
  | Some (Some p, c, w) =>
      read_pointer p c = Some [2; 0; 0; 0; 0; 2] ∧ length (l_sent w) = 1%nat
      ∧ match ipv4_lookup LE 40 true (ip_example 2) (host_example 1) c w with
        | Some (Some q, _, w') => q = p ∧ l_sent w' = l_sent w
        | _ => False
        end
  | _ => False
  end.
Proof. vm_compute. auto. Qed.

Lemma empty_cache_inv : inv empty_cache.
Proof. split; [done|]. by apply (bool_decide_unpack _). Qed.
Lemma host_example_ok d : is_u8 d -> device_ok (host_example d).
Proof.
  intros Hd. split; try done. cbn. unfold ip_example, IPv4_Packet.convert_ipv4_addr. apply u32_range.
Qed.

Lemma arp_lookup_ends_witness :
  exists r c w, ipv4_lookup LE 100 true (ip_example 2) (host_example 1) empty_cache link_example = Some (r, c, w).
Proof.
  destruct (arp_lookup_ends LE l_time (λ w, Nat.b2n (l_again w)) 1) with (fuel := 100%nat) (expires := true) (addr := ip_example 2)
    (nic := host_example 1) (c := empty_cache) (w := link_example) as (r & c & w & E & _).
  - intros [t [] a l] ? ? ? [= <- <- <-]; cbn; split_and!; lia.
  - intros [t [] a l]; cbn; lia.
  - done.
  - done.
  - apply (bool_decide_unpack _). vm_compute. exact I.
  - done.
  - eauto.
Defined.

Lemma arp_resolves_witness :
  exists request c1 reply c2,
    ipv4_request LE (ip_example 2) (host_example 1) empty_cache link_example = (c1, sys_send 0 0 request link_example)
    ∧ demux LE (request ++ repeat 0 18) (Z.of_nat (length (request ++ repeat 0 18))) (host_example 2) empty_cache link_example
      = (c2, sys_send 0 0 reply link_example).
Proof.
  destruct (arp_resolves LE (host_example 1) (host_example 2) empty_cache empty_cache link_example link_example 0 0
    (repeat 0 18) (repeat 0 18)) as (request & reply & c1 & c2 & E1 & _ & E2 & _).
  1, 2: apply host_example_ok; unfold is_u8; lia.
  1, 2: by repeat constructor.
  1, 2: reflexivity.
  - apply empty_cache_inv.
  - done.
  - cbn; lia.
  - cbn; lia.
  - eauto 10.
Defined.
End Example.
