(* ===== verification/Send4.v ===== *)
(** * Send4: how a socket sends IPv4 over Ethernet

    Models the sending slice of a socket ([Socket_Send_Slice.ah]) with the advice
    woven around it for IPv4 over Ethernet: the sizes
    ([ethernet/Sendbuffer_Ethernet.ah], [ipv4/SendBuffer_IPv4.ah]), the Ethernet
    header ([ipv4/ethernet/Send_IPv4.ah]), the IPv4 header, the link layer address
    ([arp/ipv4/IPv4_Ethernet_ARP.ah]) and the checksum of the header
    ([ipv4/SendBuffer_IPv4_checksum.ah]).  The order is the one the aspects ask
    for: Ethernet, IPv4, ARP, then the protocol above.  A use of the null pointer
    answers [None], and so does a wait that has used up its fuel. *)

From S2P Require Import Prelude Wire Checksum Packet TcpHistory SendBuffer Ipv4 Headers Arp.

Open Scope Z_scope.

(** The memory and the driver below the sockets: [dv_alloc] is
    [mempool->alloc], answered by an address (0 is the null pointer) and the
    memory behind the [SendBuffer] object; [dv_maxFree] is
    [mempool->getMaxFreeBlockSize()]. *)
Class Device (W : Type) := {
  dv_alloc : Z -> W -> Z * bytes * W;
  dv_maxFree : W -> Z;
  dv_getMTU : nat -> W -> Z;
  dv_send : nat -> bytes -> W -> W;
}.

(** A buffer with the pointers the aspects add, as offsets into its memory, and
    its interface. *)
Record Buffer := MkBuffer {
  sb : SendBuffer.t; m_interface : Nic; memstart_ethernet : Z; memstart_ip : Z; nextheaderfield_ip : Z }.
#[export] Instance Buffer_settable : Settable Buffer := λ b,
  MkBuffer (sb b) (m_interface b) (memstart_ethernet b) (memstart_ip b) (nextheaderfield_ip b).

(** A socket's IPv4 side, the ARP cache and all below. *)
Record SendState (W : Type) := MkSend { ipv4 : Sockets.IPV4; cache : ARP_Cache.t; world : W }.
Arguments MkSend {W}.
Arguments ipv4 {W}.
Arguments cache {W}.
Arguments world {W}.
#[export] Instance SendState_settable {W} : Settable (SendState W) := λ s, MkSend (ipv4 s) (cache s) (world s).

Module Socket_Send.
Section Send.
Context (e : endian) `{Clk : Clock} {W : Type} `{Sys : System W} `{Dev : Device W}.
(** The interfaces, the default gateway, the size of the C++ object, the width of
    [uint_fast16_t], whether entries of the ARP cache expire. *)
Context (nics : list Nic) (gateway sizeof_SendBuffer fast_bits : Z) (expires : bool) (fuel : nat).

Definition fast16 (z : Z) : Z := z mod 2 ^ fast_bits.
Definition router : Router := MkRouter (map n_ipv4 nics) gateway.

Definition getUsedInterface (s : SendState W) : option Nic := Sockets.interface (ipv4 s) ≫= λ i, nics !! i.

(** With the advice of Ethernet, which follows the used interface, and of IPv4. *)
Definition estimateSendBufferMinSize (s : SendState W) : option Z :=
  nic ← getUsedInterface s;
  Some ((if n_type nic =? ETHERNET then Eth_Frame.ETH_HEADER_SIZE else 0) + Sockets.getSpecificHeaderSize).

Definition getMTU (s : SendState W) : Z :=
  match getUsedInterface s with Some nic => fast16 (dv_getMTU (n_id nic) (world s)) | None => 0 end.
Definition getMaxPayloadLength (s : SendState W) : Z :=
  let headersize := fast16 (default 0 (estimateSendBufferMinSize s)) in
  let memsize := fast16 (dv_maxFree (world s)) in
  let mtusize := getMTU s in
  if memsize <? mtusize then fast16 (memsize - headersize) else fast16 (mtusize - headersize).

(** [ipv4.set_dst_addr] of the socket. *)
Definition set_dst_addr (dst : Z) (s : SendState W) : SendState W :=
  s <| ipv4 := Sockets.set_dst_addr router dst (ipv4 s) |>.

(** ** Preparing a buffer *)

Definition on_sb (f : SendBuffer.t -> SendBuffer.t) (b : Buffer) : Buffer := b <| sb := f (sb b) |>.
Definition getDataPointer (b : Buffer) : Z := SendBuffer.getDataPointer (sb b).

Definition is_broadcast (ip : Z) : bool := ip =? 2 ^ 32 - 1.
Definition leftpart (ip : Z) : Z := u8 (Z.shiftr ip 24).
Definition is_multicast (ip : Z) : bool := (224 <=? leftpart ip) && (leftpart ip <=? 239).
Definition multicast_mac (ip : Z) : bytes :=
  [0x01; 0x00; 0x5e; Z.land (leftpart ip) 0x7f; u8 (Z.shiftr ip 16); u8 ip].

(** [Sendbuffer_IPv4_Ethernet]. *)
Definition ethernet_advice (s : SendState W) (b : Buffer) : option Buffer :=
  interface ← getUsedInterface s;
  if negb (n_type interface =? ETHERNET) then Some b
  else
    let o := getDataPointer b in
    let b := on_sb (SendBuffer.writtenToDataPointer Eth_Frame.ETH_HEADER_SIZE) (b <| memstart_ethernet := o |>) in
    let ip := Sockets.get_nexthop_ipaddr router (ipv4 s) in
    let b := on_sb (SendBuffer.at_pointer o (λ p,
      Eth_Frame.set_src_hwaddr (n_address interface) (Eth_Frame.set_type e 0x0800 p))) b in
    Some (if is_broadcast ip then on_sb (SendBuffer.at_pointer o Eth_Frame.set_dst_hwaddr_broadcast) b
          else if is_multicast ip then on_sb (SendBuffer.at_pointer o (Eth_Frame.set_dst_hwaddr (multicast_mac ip))) b
          else on_sb (SendBuffer.setState (Z.lor SendBuffer.WritingState SendBuffer.ResolveLinkLayerStateOption)) b).

(** [Sendbuffer_IPv4]; the protocol is the tenth byte of the header. *)
Definition ipv4_advice (s : SendState W) (b : Buffer) : Buffer * SendState W :=
  let o := getDataPointer b in
  let '(p, sock) := Sockets.setupHeader e router (SendBuffer.getRemainingSize (sb b)) (drop (Z.to_nat o) (SendBuffer.mem (sb b))) (ipv4 s) in
  let b := on_sb (SendBuffer.at_pointer o (λ _, p)) (b <| memstart_ip := o |>) in
  let b := on_sb (SendBuffer.writtenToDataPointer Sockets.getSpecificHeaderSize) b in
  (b <| nextheaderfield_ip := o + 9 |>, s <| ipv4 := sock |>).

(** [IPv4_Socket_Ethernet_ARP_Aspect]: whether the advice proceeds. *)
Definition arp_advice (s : SendState W) (b : Buffer) : option (bool * Buffer * SendState W) :=
  if Z.land (SendBuffer.getState (sb b)) SendBuffer.ResolveLinkLayerStateOption =? 0 then Some (true, b, s)
  else
    let dst := IPv4_Packet.get_dst_ipaddr e (drop (Z.to_nat (memstart_ip b)) (SendBuffer.mem (sb b))) in
    match ARP_Cache.ipv4_lookup e fuel expires dst (m_interface b) (cache s) (world s) with
    | None => None
    | Some (found, c, w) =>
        let s := s <| cache := c |> <| world := w |> in
        match found with
        | None => Some (false, on_sb (SendBuffer.setState SendBuffer.InvalidState) b, s)
        | Some p =>
            hw ← ARP_Cache.read_pointer p c;
            let b := on_sb (SendBuffer.at_pointer (memstart_ethernet b) (Eth_Frame.set_dst_hwaddr hw)) b in
            Some (true, on_sb (SendBuffer.setState SendBuffer.WritingState) b, s)
        end
    end.

(** What the protocol above notes: where its header begins and its number in the IPv4 header
    ([Sendbuffer_ICMPv4_aspect], [Sendbuffer_TCP]). *)
Definition transport_advice (type : Z) (b : Buffer) : Buffer :=
  let b := on_sb (λ s, s <| SendBuffer.memstart_transport := SendBuffer.getDataPointer s |>) b in
  on_sb (λ s, s <| SendBuffer.mem := Packet.write (Z.to_nat (nextheaderfield_ip b)) [type] (SendBuffer.mem s) |>) b.

(** [prepareSendBuffer] with the advice of the protocol above. *)
Definition prepareSendBuffer (transport : Buffer -> Buffer) (s : SendState W) (b : Buffer) : option (Buffer * SendState W) :=
  b ← ethernet_advice s b;
  let '(b, s) := ipv4_advice s b in
  match arp_advice s b with
  | None => None
  | Some (proceeds, b, s) => Some (if proceeds : bool then transport b else b, s)
  end.

(** [requestSendBuffer] when [estimateSendBufferMinSize] answers [headers]; protocols above may ask for more. *)
Definition request_behind (headers : option Z) (transport : Buffer -> Buffer) (interface : Nic) (requestSize : Z) (s : SendState W)
    : option (option Buffer * SendState W) :=
  headers ← headers;
  let size := fast16 (headers + fast16 requestSize) in
  let '(a, area, w) := dv_alloc (size + sizeof_SendBuffer) (world s) in
  let s := s <| world := w |> in
  match SendBuffer.createInstance a size area with
  | None => Some (None, s)
  | Some b =>
      match prepareSendBuffer transport s (MkBuffer b interface 0 0 0) with
      | None => None
      | Some (b, s) =>
          if negb (SendBuffer.getState (sb b) =? SendBuffer.WritingState) then Some (None, s) else Some (Some b, s)
      end
  end.
Definition requestSendBuffer (transport : Buffer -> Buffer) (interface : Nic) (requestSize : Z) (s : SendState W)
    : option (option Buffer * SendState W) := request_behind (estimateSendBufferMinSize s) transport interface requestSize s.

(** ** Sending it *)

(** [Sendbuffer_IPv4_Checksum]. *)
Definition checksum_advice (b : Buffer) : option Buffer :=
  q ← IPv4_Packet.computeChecksum e (drop (Z.to_nat (memstart_ip b)) (SendBuffer.mem (sb b)));
  Some (on_sb (SendBuffer.at_pointer (memstart_ip b) (λ _, q)) b).

(** The checksum a protocol fills in whose sum covers a pseudo header; [set_checksum] writes its field. *)
Definition pseudo_checksum_advice (type : Z) (set_checksum : Z -> bytes -> bytes) (b : Buffer) : option Buffer :=
  let ip := drop (Z.to_nat (memstart_ip b)) (SendBuffer.mem (sb b)) in
  let o := SendBuffer.memstart_transport (sb b) in
  let payloadsize := u16 (SendBuffer.data (sb b) - o) in
  let csum := computePseudoHeaderV4 (IPv4_Packet.get_src_ipaddr e ip) (IPv4_Packet.get_dst_ipaddr e ip) payloadsize type in
  let b := on_sb (SendBuffer.at_pointer o (set_checksum 0)) b in
  c ← InternetChecksum.calc_checksum e csum (drop (Z.to_nat o) (SendBuffer.mem (sb b))) payloadsize;
  Some (on_sb (SendBuffer.at_pointer o (set_checksum c)) b).

Definition send (b : Buffer) (s : SendState W) : bool * Buffer * SendState W :=
  if negb (SendBuffer.getState (sb b) =? SendBuffer.WritingState) then (false, b, s)
  else
    let b := on_sb (SendBuffer.setState SendBuffer.TransmittedState) b in
    (true, b, s <| world := dv_send (n_id (m_interface b))
       (take (Z.to_nat (SendBuffer.getSize (sb b))) (SendBuffer.mem (sb b))) (world s) |>).
(** [send] of a socket, with the advice of the header checksum and of the protocol above before it. *)
Definition send_checked (transport_checksum : Buffer -> option Buffer) (b : Buffer) (s : SendState W) : option (SendState W) :=
  b ← transport_checksum b;
  b ← checksum_advice b;
  let '(_, _, s) := send b s in Some s.
End Send.
End Socket_Send.

Lemma set_dst_addr_keeps {W} nics gateway dst (t : SendState W) : Sockets.dst_ipv4_addr (ipv4 (Socket_Send.set_dst_addr nics gateway dst t)) = dst
  ∧ Sockets.id (ipv4 (Socket_Send.set_dst_addr nics gateway dst t)) = Sockets.id (ipv4 t)
  ∧ world (Socket_Send.set_dst_addr nics gateway dst t) = world t ∧ cache (Socket_Send.set_dst_addr nics gateway dst t) = cache t.
Proof.
  unfold Socket_Send.set_dst_addr, Sockets.set_dst_addr, Sockets.resolveRoute.
  split_and!; try done; cbn; by case_match.
Qed.

(** ** What is written where *)

Section Header.
Context (e : endian).
Import IPv4_Packet Sockets.

Lemma get8_app_in i x y : (i < length x)%nat -> get8 i (x ++ y) = get8 i x.
Proof. intros H. unfold get8. by rewrite app_nth1. Qed.

(** The header is written into its twenty bytes, whatever follows. *)
Lemma setupHeader_app r n x y s : length x = 20%nat ->
  fst (setupHeader e r n (x ++ y) s) = fst (setupHeader e r n x s) ++ y
  ∧ length (fst (setupHeader e r n x s)) = 20%nat ∧ snd (setupHeader e r n (x ++ y) s) = snd (setupHeader e r n x s).
Proof.
  intros Hx. unfold setupHeader. cbn [fst snd].
  unfold set_dst_ipaddr, set_src_ipaddr, set_ttl, set_id, set_total_len, set_tos.
  unfold set_fragment_offset, set_flags, set_version, set_ihl.
  split; [|split; [by rewrite !length_setf|done]].
  repeat first
    [ rewrite get8_app_in by (rewrite ?length_setf, ?Hx; cbn; lia)
    | rewrite getf_app by (rewrite ?length_setf, ?Hx; cbn; lia)
    | rewrite setf_app by (rewrite ?length_setf, ?Hx; cbn; lia) ].
  done.
Qed.

Lemma computeChecksum_length p q : computeChecksum e p = Some q -> length q = length p.
Proof.
  unfold computeChecksum. destruct (IPv4Checksum.cksum _ _ _); cbn [mbind option_bind]; [|discriminate].
  intros H. apply (f_equal (from_option length 0%nat)) in H. cbn [from_option] in H. rewrite <- H.
  unfold store_checksum. by rewrite !length_setf.
Qed.

(** The sum is stored in front of the addresses. *)
Lemma computeChecksum_addresses p q : computeChecksum e p = Some q ->
  get_src_ipaddr e q = get_src_ipaddr e p ∧ get_dst_ipaddr e q = get_dst_ipaddr e p.
Proof.
  unfold computeChecksum. destruct (IPv4Checksum.cksum _ _ _); cbn [mbind option_bind]; [|discriminate].
  intros H. injection H as <-. unfold store_checksum, get_src_ipaddr, get_dst_ipaddr.
  split; by rewrite !getf_setf_ne by (cbn; lia).
Qed.

(** The Ethernet header in front of a packet. *)
Definition eth_header (dst src : bytes) : bytes := dst ++ src ++ be16 0x0800.

Lemma eth_header_written hw mac d : length hw = 6%nat -> length mac = 6%nat -> length d = 14%nat ->
  let d' := Eth_Frame.set_src_hwaddr mac (Eth_Frame.set_type e 0x0800 d) in
  length d' = 14%nat
  ∧ (forall r, Eth_Frame.set_src_hwaddr mac (Eth_Frame.set_type e 0x0800 (d ++ r)) = d' ++ r)
  ∧ (forall r, Eth_Frame.set_dst_hwaddr hw (d' ++ r) = eth_header hw mac ++ r).
Proof.
  intros Hh Hm Hd. unfold_list Hh. unfold_list Hm. unfold_list Hd. cbv zeta. by destruct e.
Qed.
End Header.

(** The destination of the socket is a single host that can be reached directly over the
    interface [B], and the ARP cache knows its hardware address [hw]. *)
Record direct_neighbor {W} (nics : list Nic) (s : SendState W) (B : Nic) (hw : bytes) : Prop := {
  nb_used : Socket_Send.getUsedInterface nics s = Some B;
  nb_direct : Sockets.using_gateway (ipv4 s) = false;
  nb_device : device_ok B;
  nb_range : is_u32 (Sockets.dst_ipv4_addr (ipv4 s));
  nb_single : Socket_Send.is_broadcast (Sockets.dst_ipv4_addr (ipv4 s)) = false
    ∧ Socket_Send.is_multicast (Sockets.dst_ipv4_addr (ipv4 s)) = false;
  nb_static : ARP_Cache.find_from (ARP_Cache.static_entries (cache s)) 0 (Sockets.dst_ipv4_addr (ipv4 s)) = None;
  nb_known : (ARP_Cache.ipv4_find (Sockets.dst_ipv4_addr (ipv4 s)) (cache s)
    ≫= λ j, ARP_Cache.hw_addr <$> ARP_Cache.entries (cache s) !! j) = Some hw;
  nb_length : length hw = 6%nat }.

Section Prepared.
Import Socket_Send.
Context (e : endian) `{Clk : Clock} {W : Type} `{Sys : System W} `{Dev : Device W}.
Context (nics : list Nic) (gateway sizeof_SendBuffer fast_bits : Z) (fuel : nat).
Context (s : SendState W) (B : Nic) (hw : bytes) (area : bytes) (a size : Z) (w : W).
Let dst := Sockets.dst_ipv4_addr (ipv4 s).
Hypothesis N : direct_neighbor nics s B hw.
Hypothesis bits : 16 <= fast_bits.
Hypothesis size_fits : 0 <= size ∧ 34 + size < 65536.
Hypothesis area_length : Z.of_nat (length area) = 34 + size.

Let x := take 20 (drop 14 area).
Let rest := drop 34 area.
Let header := Sockets.setupHeader e (router nics gateway) (20 + size) x (ipv4 s).

(** The buffer as the protocol above finds it. *)
Definition prepared : Buffer :=
  MkBuffer (SendBuffer.mk a (34 + size) SendBuffer.WritingState (eth_header hw (n_address B) ++ fst header ++ rest) 34 0) B 0 14 23.

Lemma fast16_small z : 0 <= z < 65536 -> fast16 fast_bits z = z.
Proof using bits.
  clear -bits. intros Hz. unfold fast16. apply Z.mod_small. pose proof (Z.pow_le_mono_r 2 16 fast_bits ltac:(lia) bits).
  change (2 ^ 16) with 65536 in *. lia.
Qed.

Lemma area_parts : exists d, length d = 14%nat ∧ length x = 20%nat ∧ length rest = Z.to_nat size ∧ area = d ++ x ++ rest.
Proof using size_fits area_length.
  clear -size_fits area_length.
  exists (take 14 area). assert (Hl : length area = (34 + Z.to_nat size)%nat) by lia.
  unfold x, rest. rewrite !length_take, !length_drop. split; [lia|]. split; [lia|]. split; [lia|].
  rewrite <- (take_drop 14 area) at 1. f_equal. rewrite <- (take_drop 20 (drop 14 area)) at 1. by rewrite drop_drop.
Qed.

Lemma B_length : length (n_address B) = 6%nat.
Proof. apply (nb_device nics s B hw N). Qed.

Let d' := Eth_Frame.set_src_hwaddr (n_address B) (Eth_Frame.set_type e 0x0800 (take 14 area)).

Definition buffer_at (state data : Z) (mem : bytes) (ip next : Z) : Buffer :=
  MkBuffer (SendBuffer.mk a (34 + size) state mem data 0) B 0 ip next.

Lemma ethernet_prepared :
  ethernet_advice e nics gateway (s <| world := w |>) (buffer_at SendBuffer.WritingState 0 area 0 0)
  = Some (buffer_at 17 14 (d' ++ x ++ rest) 0 0).
Proof.
  destruct area_parts as (d & Hd & Hx & Hr & Ea). unfold ethernet_advice.
  change (getUsedInterface nics (s <| world := w |>)) with (getUsedInterface nics s). rewrite (nb_used nics s B hw N). cbn [mbind option_bind].
  rewrite (device_type B (nb_device nics s B hw N)). change (negb (ETHERNET =? ETHERNET)) with false. cbv iota.
  unfold Sockets.get_nexthop_ipaddr. change (ipv4 (s <| world := w |>)) with (ipv4 s). rewrite (nb_direct nics s B hw N). fold dst.
  destruct (nb_single nics s B hw N) as [H1 H2]. fold dst in H1, H2. rewrite H1, H2. cbv zeta.
  transitivity (Some (buffer_at 17 14
    (Eth_Frame.set_src_hwaddr (n_address B) (Eth_Frame.set_type e 0x0800 area)) 0 0)); [reflexivity|].
  do 2 f_equal. unfold d'. assert (Et : take 14 area = d) by (rewrite Ea; rewrite <- Hd at 1; apply take_app_length).
  rewrite Et, Ea at 1. by apply (eth_header_written e hw (n_address B) d (nb_length nics s B hw N) B_length Hd).
Qed.

Lemma d'_length : length d' = 14%nat.
Proof.
  destruct area_parts as (d & Hd & Hx & Hr & Ea). unfold d'. rewrite Ea, <- Hd at 1. rewrite take_app_length.
  by apply (eth_header_written e hw (n_address B) d (nb_length nics s B hw N) B_length Hd).
Qed.

Lemma ipv4_prepared :
  ipv4_advice e nics gateway (s <| world := w |>) (buffer_at 17 14 (d' ++ x ++ rest) 0 0)
  = (buffer_at 17 34 (d' ++ fst header ++ rest) 14 23, s <| world := w |> <| ipv4 := snd header |>).
Proof.
  destruct area_parts as (d & Hd & Hx & Hr & Ea). unfold ipv4_advice.
  change (getDataPointer (buffer_at 17 14 ?m 0 0)) with 14.
  change (SendBuffer.getRemainingSize (sb (buffer_at 17 14 ?m 0 0))) with (34 + size - 14).
  change (SendBuffer.mem (sb (buffer_at 17 14 ?m 0 0))) with m. change (Z.to_nat 14) with 14%nat.
  replace (34 + size - 14) with (20 + size) by lia.
  assert (E : drop 14 (d' ++ x ++ rest) = x ++ rest) by (rewrite <- d'_length at 1; apply drop_app_length). rewrite E.
  change (ipv4 (s <| world := w |>)) with (ipv4 s).
  destruct (setupHeader_app e (router nics gateway) (20 + size) x rest (ipv4 s) Hx) as (E1 & E2 & E3).
  fold header in E1, E2, E3. destruct (Sockets.setupHeader _ _ _ (x ++ rest) _) as [p sock]. cbn [fst snd] in E1, E3. subst p sock.
  assert (Em : take 14 (d' ++ x ++ rest) = d') by (rewrite <- d'_length at 1; apply take_app_length).
  transitivity (buffer_at 17 34 (take 14 (d' ++ x ++ rest) ++ fst header ++ rest) 14 23, s <| world := w |> <| ipv4 := snd header |>);
    [reflexivity|by rewrite Em].
Qed.

(** The destination is read back from the header. *)
Lemma header_destination r : IPv4_Packet.get_dst_ipaddr e (fst header ++ r) = dst.
Proof.
  destruct area_parts as (d & Hd & Hx & Hr & Ea).
  destruct (setupHeader_app e (router nics gateway) (20 + size) x [] (ipv4 s) Hx) as (_ & E2 & _). fold header in E2.
  unfold IPv4_Packet.get_dst_ipaddr. rewrite getf_app by (rewrite E2; cbn; lia). unfold header, Sockets.setupHeader. cbn [fst].
  apply getf_setf_eq; [|exact (nb_range nics s B hw N)].
  cbn [fend]. unfold header, Sockets.setupHeader in E2. cbn [fst] in E2. unfold IPv4_Packet.set_dst_ipaddr in E2.
  rewrite length_setf in E2. rewrite E2. cbn. lia.
Qed.

Lemma arp_prepared mem next :
  mem = d' ++ fst header ++ rest ->
  arp_advice e false fuel (s <| world := w |> <| ipv4 := snd header |>) (buffer_at 17 34 mem 14 next)
  = Some (true, buffer_at SendBuffer.WritingState 34 (eth_header hw (n_address B) ++ fst header ++ rest) 14 next,
      s <| world := w |> <| ipv4 := snd header |>).
Proof.
  intros ->. unfold arp_advice. change (Z.land _ _ =? 0) with false. cbv iota.
  change (SendBuffer.mem (sb (buffer_at 17 34 ?m 14 next))) with m.
  change (Z.to_nat (memstart_ip (buffer_at 17 34 ?m 14 next))) with 14%nat.
  assert (E : drop 14 (d' ++ fst header ++ rest) = fst header ++ rest) by (rewrite <- d'_length at 1; apply drop_app_length).
  rewrite E, header_destination. change (m_interface (buffer_at 17 34 ?m 14 next)) with B.
  change (cache (s <| world := w |> <| ipv4 := ?q |>)) with (cache s). change (world (s <| world := w |> <| ipv4 := ?q |>)) with w.
  unfold ARP_Cache.ipv4_lookup. pose proof (nb_static nics s B hw N) as no_static.
  pose proof (nb_known nics s B hw N) as known. fold dst in no_static, known. rewrite no_static.
  destruct (ARP_Cache.ipv4_find dst (cache s)) as [j|] eqn:Ej; [|done]. cbn [mbind option_bind] in known.
  rewrite (request_loop_found e 3 fuel dst B (cache s) w j Ej). cbn [option_map ARP_Cache.read_pointer]. rewrite known.
  cbn [mbind option_bind].
  transitivity (Some (true, buffer_at SendBuffer.WritingState 34 (Eth_Frame.set_dst_hwaddr hw (d' ++ fst header ++ rest)) 14 next,
      s <| world := w |> <| ipv4 := snd header |>)); [reflexivity|].
  do 3 f_equal. f_equal. destruct area_parts as (d & Hd & Hx & Hr & Ea).
  unfold d'. rewrite Ea, <- Hd at 1. rewrite take_app_length.
  by apply (eth_header_written e hw (n_address B) d (nb_length nics s B hw N) B_length Hd).
Qed.

Lemma prepare_prepared (transport : Buffer -> Buffer) :
  prepareSendBuffer e nics gateway false fuel transport (s <| world := w |>) (buffer_at SendBuffer.WritingState 0 area 0 0)
  = Some (transport prepared, s <| world := w |> <| ipv4 := snd header |>).
Proof.
  unfold prepareSendBuffer. rewrite ethernet_prepared. cbn [mbind option_bind]. rewrite ipv4_prepared, (arp_prepared _ 23) by done.
  reflexivity.
Qed.

(** With memory for it, the buffer requested is that one. *)
Lemma request_prepared_behind (transport : Buffer -> Buffer) headers size0 w0 : 0 <= size0 -> 0 <= headers -> headers + size0 = 34 + size ->
  dv_alloc (34 + size + sizeof_SendBuffer) w0 = (a, area, w) -> a ≠ 0 ->
  SendBuffer.getState (sb (transport prepared)) = SendBuffer.WritingState ->
  request_behind e nics gateway sizeof_SendBuffer fast_bits false fuel (Some headers) transport B size0 (s <| world := w0 |>)
  = Some (Some (transport prepared), s <| world := w |> <| ipv4 := snd header |>).
Proof.
  intros H1 H2 Hsum Ha H0 Ht. unfold request_behind. cbn [mbind option_bind].
  rewrite (fast16_small size0), Hsum, (fast16_small (34 + size)) by lia. change (world (s <| world := w0 |>)) with w0. rewrite Ha.
  cbv zeta. unfold SendBuffer.createInstance. rewrite (proj2 (Z.eqb_neq _ _) H0).
  change (s <| world := w0 |> <| world := w |>) with (s <| world := w |>).
  change (MkBuffer (SendBuffer.mk a (34 + size) SendBuffer.WritingState area 0 0) B 0 0 0)
    with (buffer_at SendBuffer.WritingState 0 area 0 0).
  rewrite prepare_prepared, Ht. reflexivity.
Qed.

Lemma estimated : estimateSendBufferMinSize nics s = Some 34.
Proof.
  unfold estimateSendBufferMinSize. rewrite (nb_used nics s B hw N). cbn [mbind option_bind].
  by rewrite (device_type B (nb_device nics s B hw N)).
Qed.

Lemma request_prepared (transport : Buffer -> Buffer) w0 :
  dv_alloc (34 + size + sizeof_SendBuffer) w0 = (a, area, w) -> a ≠ 0 ->
  SendBuffer.getState (sb (transport prepared)) = SendBuffer.WritingState ->
  requestSendBuffer e nics gateway sizeof_SendBuffer fast_bits false fuel transport B size (s <| world := w0 |>)
  = Some (Some (transport prepared), s <| world := w |> <| ipv4 := snd header |>).
Proof.
  intros Ha H0 Ht. unfold requestSendBuffer.
  change (estimateSendBufferMinSize nics (s <| world := w0 |>)) with (estimateSendBufferMinSize nics s). rewrite estimated.
  by apply request_prepared_behind; [lia..| | |].
Qed.
End Prepared.

(** ** What leaves is accepted where it arrives *)

Section Transport.
Import Socket_Send.
Context `{Clk : Clock} {W : Type} `{Sys : System W} `{Dev : Device W}.
Context (nics : list Nic) (gateway : Z).
Context (s : SendState W) (B : Nic) (hw : bytes) (area : bytes) (a size proto : Z).
Let r := router nics gateway.
Hypothesis N : direct_neighbor nics s B hw.
Hypothesis id_range : is_u16 (Sockets.id (ipv4 s)).
Hypothesis size_fits : 8 <= size ∧ 34 + size < 65536.
Hypothesis area_length : Z.of_nat (length area) = 34 + size.
Hypothesis area_bytes : is_bytes area.
Hypothesis proto_range : is_u8 proto.

Let x := take 20 (drop 14 area).
Let rest := drop 34 area.
Let header := Sockets.setupHeader LE r (20 + size) x (ipv4 s).
(** The IPv4 header without its checksum, and the Ethernet header. *)
Definition ip_header : bytes := IPv4_Packet.set_protocol LE proto (fst header).
Let hdr := ip_header.
Let eth := eth_header hw (n_address B).

Lemma lengths : length x = 20%nat ∧ length rest = Z.to_nat size ∧ length (fst header) = 20%nat ∧ length hdr = 20%nat
  ∧ length eth = 14%nat ∧ is_bytes x ∧ is_bytes rest.
Proof.
  destruct (area_parts area size ltac:(lia) area_length) as (d & Hd & Hx & Hr & _).
  destruct (setupHeader_app LE r (20 + size) x [] (ipv4 s) Hx) as (_ & E2 & _). fold header in E2.
  unfold hdr, ip_header, IPv4_Packet.set_protocol. rewrite length_setf, E2.
  pose proof (nb_length nics s B hw N) as H1. pose proof (device_address B (nb_device nics s B hw N)) as H2.
  unfold eth, eth_header. rewrite !length_app, H1, H2.
  split_and!; try done; [unfold x; auto with width|unfold rest; auto with width].
Qed.

(** The buffer with the protocol's header at its place. *)
Definition transport_buffer (data : Z) (mem : bytes) : Buffer :=
  MkBuffer (SendBuffer.mk a (34 + size) SendBuffer.WritingState mem data 34) B 0 14 23.

Lemma transport_prepared :
  transport_advice proto (prepared LE nics gateway s B hw area a size) = transport_buffer 34 (eth ++ hdr ++ rest).
Proof.
  destruct lengths as (_ & _ & H2 & _ & H4 & _).
  transitivity (transport_buffer 34 (Packet.write 23 [proto] (eth ++ fst header ++ rest))); [reflexivity|]. f_equal.
  replace 23%nat with (length eth + 9)%nat by lia. rewrite write_app_behind. f_equal.
  unfold hdr, ip_header, IPv4_Packet.set_protocol, setf. cbn [f_off f_kind IPv4_Packet.f_protocol fbytes].
  rewrite u8_id by done. apply write_app_in. rewrite H2. cbn. lia.
Qed.

Lemma prefix_length : length (eth ++ hdr) = 34%nat.
Proof. destruct lengths as (_ & _ & _ & H3 & H4 & _). rewrite length_app. lia. Qed.
Lemma drop_prefix m : drop 34 (eth ++ hdr ++ m) = m.
Proof. rewrite app_assoc, <- prefix_length. apply drop_app_length. Qed.

(** A write through the pointer to the protocol's header. *)
Lemma at_message d f m : on_sb (SendBuffer.at_pointer 34 f) (transport_buffer d (eth ++ hdr ++ m)) = transport_buffer d (eth ++ hdr ++ f m).
Proof.
  transitivity (transport_buffer d (take 34 (eth ++ hdr ++ m) ++ f (drop 34 (eth ++ hdr ++ m)))); [reflexivity|].
  rewrite drop_prefix, app_assoc, <- prefix_length at 1. by rewrite take_app_length, <- app_assoc.
Qed.

(** What the destination does with an IPv4 packet [q], and the message it carries. *)
Record arrives (q : bytes) (src : Z) (m : bytes) : Prop := {
  ar_accepted : forall (S : Type) reassemble (i : Interface) (st : S), ipv4_up i = true ->
    Ipv4.ipv4_addr i = Sockets.dst_ipv4_addr (ipv4 s) ->
    IPv4_Receive.ipv4_demux LE reassemble i st q (20 + size) = Some (st, IPv4_Receive.Proceed q (20 + size));
  ar_source : IPv4_Packet.get_src_ipaddr LE q = src;
  ar_destination : IPv4_Packet.get_dst_ipaddr LE q = Sockets.dst_ipv4_addr (ipv4 s);
  ar_protocol : IPv4_Packet.get_protocol LE q = proto;
  ar_message : IPv4_Packet.get_data LE q = m;
  ar_length : Z.of_nat (length q) = 20 + size }.

Lemma source_address : Sockets.get_src_addr r (ipv4 s) = Ipv4.ipv4_addr (n_ipv4 B).
Proof.
  pose proof (nb_used nics s B hw N) as H. unfold getUsedInterface in H. unfold Sockets.get_src_addr.
  destruct (Sockets.interface (ipv4 s)) as [i|]; [|done]. cbn in H.
  assert (E : forall l j, l !! j = Some B -> Routing.get_interface (map n_ipv4 l) j = Some (n_ipv4 B)).
  { clear. induction l as [|n l IH]; intros [|j]; cbn; try done; [by intros [= ->]|apply IH]. }
  cbn [interfaces r router]. by rewrite (E nics i H).
Qed.

Lemma ip_header_addresses m : IPv4_Packet.get_src_ipaddr LE (hdr ++ m) = Ipv4.ipv4_addr (n_ipv4 B)
  ∧ IPv4_Packet.get_dst_ipaddr LE (hdr ++ m) = Sockets.dst_ipv4_addr (ipv4 s).
Proof.
  destruct lengths as (Hx & _ & H2 & H3 & _). unfold IPv4_Packet.get_src_ipaddr, IPv4_Packet.get_dst_ipaddr.
  rewrite !getf_app by (rewrite H3; cbn; lia). unfold hdr, ip_header, IPv4_Packet.set_protocol.
  rewrite !(getf_setf_ne _ IPv4_Packet.f_protocol) by (cbn; lia).
  unfold header, Sockets.setupHeader in *. cbn [fst] in *. unfold IPv4_Packet.set_dst_ipaddr, IPv4_Packet.set_src_ipaddr in *.
  rewrite !length_setf in H2. rewrite getf_setf_ne by (cbn; lia).
  rewrite !getf_setf_eq; rewrite ?length_setf, ?H2; try (cbn; lia).
  - split; [exact source_address|done].
  - exact (nb_range nics s B hw N).
  - change (is_u32 (Sockets.get_src_addr r (ipv4 s))). rewrite source_address. apply (device_ipv4 B (nb_device nics s B hw N)).
Qed.

Lemma packet_sent m : length m = Z.to_nat size -> is_bytes m ->
  exists q, IPv4_Packet.computeChecksum LE (hdr ++ m) = Some q ∧ length q = (20 + Z.to_nat size)%nat
    ∧ arrives q (Ipv4.ipv4_addr (n_ipv4 B)) m.
Proof.
  intros Hm Hb. destruct lengths as (Hx & _ & H2 & H3 & _ & Bx & _). pose proof source_address as Hsrc.
  assert (Es : sent LE r (20 + size) (x ++ m) (ipv4 s) proto = hdr ++ m).
  { unfold sent. destruct (setupHeader_app LE r (20 + size) x m (ipv4 s) Hx) as (-> & _ & _). fold header.
    unfold IPv4_Packet.set_protocol. rewrite setf_app by (rewrite H2; cbn; lia). done. }
  assert (Hxm : is_bytes (x ++ m)) by (rewrite is_bytes_app; done).
  assert (Hl : 20 + size = Z.of_nat (length (x ++ m))) by (rewrite length_app; lia).
  assert (Hsent := fun (S : Type) reassemble (i : Interface) (st : S) =>
    sent_accepted LE r (20 + size) (x ++ m) (ipv4 s) proto Hxm Hl ltac:(lia) proto_range id_range
      (nb_range nics s B hw N) ltac:(rewrite Hsrc; apply (device_ipv4 B (nb_device nics s B hw N))) reassemble i st).
  rewrite Es in Hsent.
  destruct (Hsent unit IPv4_Receive.no_reassembly (MkInterface (Sockets.dst_ipv4_addr (ipv4 s)) 0 true) tt eq_refl eq_refl)
    as (q & Eq & _ & Ed & Ep & Esrc & Eproto & _).
  assert (Lq : length q = (20 + Z.to_nat size)%nat) by (rewrite (computeChecksum_length LE _ _ Eq); by rewrite length_app, H3, Hm).
  exists q. split; [done|]. split; [exact Lq|].
  destruct (computeChecksum_addresses LE _ _ Eq) as [_ Edst]. rewrite (proj2 (ip_header_addresses m)) in Edst.
  split; [|by rewrite Esrc|done|done| |lia].
  - intros S reassemble i st Hu Hi. destruct (Hsent S reassemble i st Hu Hi) as (q' & Eq' & E & _). congruence.
  - rewrite Ed, <- Hx. apply drop_app_length.
Qed.

(** The checksum of a message, wherever it has its field. *)
Lemma pseudo_header_range src dst len : is_u16 len -> 0 <= computePseudoHeaderV4 src dst len proto < 2147483648.
Proof using proto_range.
  clear -proto_range. intros Hl. unfold computePseudoHeaderV4. cbv zeta.
  assert (H : forall x, is_u16 (InternetChecksum.byteswap16 x)) by (intros; apply u16_range).
  pose proof (H (u16 src)). pose proof (H (u16 (Z.shiftr src 16))). pose proof (H (u16 dst)). pose proof (H (u16 (Z.shiftr dst 16))).
  unfold is_u16, is_u8 in *. zlia.
Qed.

Lemma message_summed (set_checksum : Z -> bytes -> bytes) l c0 body :
  (forall u m, is_u16 u -> length m = 2%nat -> set_checksum u (l ++ m ++ body) = l ++ be16 u ++ body) ->
  is_bytes (l ++ body) -> Nat.Even (length l) -> length c0 = 2%nat -> size = Z.of_nat (length l + 2 + length body) ->
  exists c, is_u16 c
  ∧ pseudo_checksum_advice LE proto set_checksum (transport_buffer (34 + size) (eth ++ hdr ++ l ++ c0 ++ body))
    = Some (transport_buffer (34 + size) (eth ++ hdr ++ l ++ be16 c ++ body))
  ∧ InternetChecksum.checksum_valid LE (computePseudoHeaderV4 (Ipv4.ipv4_addr (n_ipv4 B)) (Sockets.dst_ipv4_addr (ipv4 s)) size proto)
      (l ++ be16 c ++ body) size = Some true.
Proof.
  intros Hset Hb He Hc Hsz. assert (Hu : is_u16 size) by (unfold is_u16; lia).
  set (sum := computePseudoHeaderV4 _ _ size proto).
  destruct (checksum_filled_in sum l body [] size) as (c & Ec & Huc & Ev); [by rewrite app_nil_r|done|done|done|by apply pseudo_header_range|].
  rewrite app_nil_r in Ec, Ev. exists c. split; [done|]. split; [|done].
  unfold pseudo_checksum_advice. change (SendBuffer.memstart_transport (sb (transport_buffer ?d ?m))) with 34.
  change (SendBuffer.data (sb (transport_buffer ?d ?m))) with d. replace (34 + size - 34) with size by lia. rewrite u16_id by done.
  change (SendBuffer.mem (sb (transport_buffer ?d ?m))) with m. change (Z.to_nat (memstart_ip (transport_buffer ?d ?m))) with 14%nat.
  destruct lengths as (_ & _ & _ & _ & Le & _).
  assert (Hd : forall m, drop 14 (eth ++ hdr ++ m) = hdr ++ m) by (intros; rewrite <- Le; apply drop_app_length).
  rewrite Hd. destruct (ip_header_addresses (l ++ c0 ++ body)) as [Es Ed]. fold hdr in Es, Ed. rewrite Es, Ed. fold sum.
  rewrite at_message, Hset by (done || (unfold is_u16; lia)). change (SendBuffer.mem (sb (transport_buffer ?d ?m))) with m.
  change (Z.to_nat 34) with 34%nat. rewrite drop_prefix. change (be16 0) with [0; 0]. rewrite Ec. cbn [mbind option_bind].
  by rewrite at_message, Hset.
Qed.

(** Sending the message [M]: a frame for the neighbor with a packet it accepts. *)
Lemma transport_sent transport_checksum data m M t : transport_checksum (transport_buffer data (eth ++ hdr ++ m))
    = Some (transport_buffer (34 + size) (eth ++ hdr ++ M)) -> length M = Z.to_nat size -> is_bytes M ->
  exists q, send_checked LE transport_checksum (transport_buffer data (eth ++ hdr ++ m)) t
      = Some (t <| world := dv_send (n_id B) (eth ++ q) (world t) |>)
    ∧ arrives q (Ipv4.ipv4_addr (n_ipv4 B)) M.
Proof.
  intros Hsum Hlen Hb. destruct lengths as (_ & _ & _ & _ & Le & _). destruct (packet_sent M Hlen Hb) as (q & Eq & Lq & Hq).
  exists q. split; [|done]. unfold send_checked. rewrite Hsum. cbn [mbind option_bind].
  unfold checksum_advice. change (SendBuffer.mem (sb (transport_buffer (34 + size) ?m))) with m.
  change (Z.to_nat (memstart_ip (transport_buffer (34 + size) ?m))) with 14%nat.
  assert (Hdrop : drop 14 (eth ++ hdr ++ M) = hdr ++ M) by (rewrite <- Le; apply drop_app_length).
  assert (Htake : take 14 (eth ++ hdr ++ M) = eth) by (rewrite <- Le at 1; apply take_app_length).
  rewrite Hdrop, Eq. cbn [mbind option_bind].
  change (on_sb (SendBuffer.at_pointer _ (λ _, q)) (transport_buffer (34 + size) ?m)) with (transport_buffer (34 + size) (take 14 m ++ q)).
  rewrite Htake. unfold send. change (negb (SendBuffer.getState (sb (transport_buffer (34 + size) ?m)) =? SendBuffer.WritingState)) with false.
  cbv iota zeta.
  change (SendBuffer.mem (sb (on_sb ?f (transport_buffer (34 + size) ?m)))) with m.
  change (SendBuffer.getSize (sb (on_sb (SendBuffer.setState ?f) (transport_buffer (34 + size) ?m)))) with (34 + size).
  assert (Hall : take (Z.to_nat (34 + size)) (eth ++ q) = eth ++ q) by (apply take_ge; rewrite length_app; lia).
  by rewrite Hall.
Qed.
End Transport.
