(* ===== verification/Icmp.v ===== *)
(** * Icmp: the stack's own messages over IPv4

    Models the reception of ICMP ([icmpv4/IPv4_ICMP_Receive.ah]), the answer to an
    echo request ([icmpv4/IPv4_ICMP_Echo_Reply.ah]), the reports that a port or a
    protocol cannot be reached ([icmpv4/IPv4_ICMP_Port_Unreachable.ah],
    [icmpv4/IPv4_ICMP_Protocol_Unreachable.ah]), the advice that prepares and sums
    up an ICMP message ([icmpv4/Sendbuffer_icmp.ah],
    [icmpv4/Sendbuffer_icmp_checksum.ah]) and the way of a frame to the IPv4 layer
    ([ipv4/ethernet/IPv4_Receive_Ethernet.ah]).  The flag of
    [demux/DirectResponse_Slice.ah] is set, but no aspect of the sending side
    that is woven reads it. *)

From S2P Require Import Prelude Wire Checksum Packet TcpHistory SendBuffer Ipv4 Headers Arp Send4.

Open Scope Z_scope.

Module ICMPv4.

Definition ICMP_TYPE_DESTINATION_UNREACHABLE : Z := 3.
Definition ICMP_CODE_PROTOCOL_UNREACHABLE : Z := 2.
Definition ICMP_CODE_PORT_UNREACHABLE : Z := 3.
Definition ICMP_CODE_ECHO : Z := 0.
Definition ETH_TYPE_IPV4 : Z := 0x0800.

Section Icmp.
Context (e : endian) `{Clk : Clock} {W : Type} `{Sys : System W} `{Dev : Device W}.
Context (nics : list Nic) (gateway sizeof_SendBuffer fast_bits : Z) (expires : bool) (fuel : nat).
Import Socket_Send.

(** [Sendbuffer_ICMPv4_aspect]. *)
Definition icmp_advice : Buffer -> Buffer := transport_advice ICMP_Packet.IPV4_TYPE_ICMP.

(** [Sendbuffer_ICMPv4_Checksum]. *)
Definition icmp_checksum_advice (b : Buffer) : option Buffer :=
  let o := SendBuffer.memstart_transport (sb b) in
  let payloadsize := u16 (SendBuffer.data (sb b) - o) in
  let b := on_sb (SendBuffer.at_pointer o (ICMP_Packet.set_checksum e 0)) b in
  c ← ICMP_Packet.calc_checksum e 0 (drop (Z.to_nat o) (SendBuffer.mem (sb b))) payloadsize;
  Some (on_sb (SendBuffer.at_pointer o (ICMP_Packet.set_checksum e c)) b).

(** [ICMPv4_Socket::send] with the advice of both checksums. *)
Definition icmp_send : Buffer -> SendState W -> option (SendState W) := send_checked e icmp_checksum_advice.

(** A message of a type and code with the data behind its header; writing behind the
    buffer and reading behind the data are [None]. *)
Definition write_message (type code quench : Z) (newdata : bytes) (length : Z) (b : Buffer) : option Buffer :=
  let b := on_sb (SendBuffer.at_pointer (getDataPointer b) (λ p,
    ICMP_Packet.set_quench e quench (ICMP_Packet.set_code e code (ICMP_Packet.set_type e type p)))) b in
  let b := on_sb (SendBuffer.writtenToDataPointer ICMP_Packet.ICMP_HEADER_SIZE) b in
  let length := fast16 fast_bits length in
  let remaining := SendBuffer.getRemainingSize (sb b) in
  if (remaining <? 0) || (Z.of_nat (List.length newdata) <? Z.min remaining length) then None
  else Some (on_sb (SendBuffer.write newdata length) b).

Definition request_and_send (interface : Nic) (size type code quench : Z) (newdata : bytes) (length : Z) (s : SendState W)
    : option (SendState W) :=
  match requestSendBuffer e nics gateway sizeof_SendBuffer fast_bits expires fuel icmp_advice interface size s with
  | None => None
  | Some (None, s) => Some s
  | Some (Some b, s) => b ← write_message type code quench newdata length b; icmp_send b s
  end.

(** [icmpv4_demux] with the echo advice; other messages are ignored. *)
Definition icmpv4_demux (packet : bytes) (payloadlen : Z) (interface : Nic) (s : SendState W) : option (SendState W) :=
  let icmp_packet := IPv4_Packet.get_data e packet in
  if (ICMP_Packet.get_type e icmp_packet =? ICMP_Packet.ICMP_TYPE_ECHO_REQUEST)
     && (ICMP_Packet.get_code e icmp_packet =? ICMP_CODE_ECHO) then
    let s := set_dst_addr nics gateway (IPv4_Packet.get_src_ipaddr e packet) s in
    let maxlen := u16 (getMaxPayloadLength nics fast_bits s) in
    let payloadlen := if maxlen <? payloadlen then maxlen else payloadlen in
    request_and_send interface payloadlen ICMP_Packet.ICMP_TYPE_ECHO_REPLY 0 (ICMP_Packet.get_quench e icmp_packet)
      (ICMP_Packet.get_data icmp_packet) (u32 (payloadlen - ICMP_Packet.ICMP_HEADER_SIZE)) s
  else Some s.

(** The report of an error about a packet: its header and eight bytes of its payload. *)
Definition error_message (code : Z) (packet : bytes) (interface : Nic) (s : SendState W) : option (SendState W) :=
  let s := set_dst_addr nics gateway (IPv4_Packet.get_src_ipaddr e packet) s in
  let echoErrornousPacketSize := u8 (IPv4_Packet.get_ihl e packet * 4 + 8) in
  request_and_send interface (echoErrornousPacketSize + ICMP_Packet.ICMP_HEADER_SIZE)
    ICMP_TYPE_DESTINATION_UNREACHABLE code 0 packet echoErrornousPacketSize s.
Definition error_port_not_reachable := error_message ICMP_CODE_PORT_UNREACHABLE.
Definition error_no_protocol_handler := error_message ICMP_CODE_PROTOCOL_UNREACHABLE.

(** [IPv4_ICMP_Receive]; [proceed] is the next advice of [ipv4_demux]. *)
Definition ipv4_demux (proceed : SendState W -> option (SendState W)) (packet : bytes) (interface : Nic) (s : SendState W)
    : option (SendState W) :=
  if IPv4_Packet.get_protocol e packet =? ICMP_Packet.IPV4_TYPE_ICMP then
    let payloadlen := u32 (IPv4_Packet.get_total_len e packet - IPv4_Packet.get_ihl e packet * 4) in
    if payloadlen <? ICMP_Packet.ICMP_HEADER_SIZE then Some s
    else
      valid ← ICMP_Packet.checksum_valid e 0 (IPv4_Packet.get_data e packet) (u16 payloadlen);
      if negb valid then Some s else icmpv4_demux packet payloadlen interface s
  else proceed s.

(** [IPv4_Receive_Ethernet] behind [Demux::demux], for a host without reassembly
    whose only protocol is ICMP. *)
Definition demux (data : bytes) (len : Z) (interface : Nic) (s : SendState W) : option (SendState W) :=
  if negb (n_type interface =? ETHERNET) then Some s
  else if (len <? Eth_Frame.ETH_HEADER_SIZE) || (Eth_Frame.MAX_FRAME_SIZE <? len) then Some s
  else
    let '(c, w) := ARP_Cache.ethernet_demux e data len interface (cache s) (world s) in
    let s := s <| cache := c |> <| world := w |> in
    if negb (Eth_Frame.get_type e data =? ETH_TYPE_IPV4) then Some s
    else
      '(_, fate) ← IPv4_Receive.ipv4_demux e IPv4_Receive.no_reassembly (n_ipv4 interface) tt (Eth_Frame.get_data data)
        (u32 (len - Eth_Frame.ETH_HEADER_SIZE));
      match fate with
      | IPv4_Receive.Proceed packet _ => ipv4_demux (error_no_protocol_handler packet interface) packet interface s
      | _ => Some s
      end.
End Icmp.
End ICMPv4.

(** ** A message of the stack is one its receiver accepts *)

(** The bytes of a message without its checksum. *)
Definition message (type code : Z) (c : bytes) (quench : Z) (payload : bytes) : bytes :=
  [type; code] ++ c ++ fbytes LE H32 quench ++ payload.

Lemma message_fields type code c quench payload : is_u8 type -> is_u8 code -> length c = 2%nat -> is_u32 quench ->
  let m := message type code c quench payload in
  ICMP_Packet.get_type LE m = type ∧ ICMP_Packet.get_code LE m = code ∧ ICMP_Packet.get_quench LE m = quench
  ∧ ICMP_Packet.get_data m = payload.
Proof.
  intros Ht Hc Hl Hq. unfold_list Hl. cbv zeta. split_and!; [done|done| |done].
  exact (getf_at LE H32 quench [type; code; x; x0] payload Hq).
Qed.

(** The setters and the copy of the payload write these bytes. *)
Lemma message_written type code quench payload (p : bytes) :
  is_u8 type -> is_u8 code -> length p = (8 + length payload)%nat ->
  exists c, length c = 2%nat
    ∧ Packet.write 8 payload (ICMP_Packet.set_quench LE quench (ICMP_Packet.set_code LE code (ICMP_Packet.set_type LE type p)))
      = message type code c quench payload.
Proof.
  intros Ht Hc Hp. do 8 (destruct p as [|? p]; [done|]). cbn [length Nat.add] in Hp. injection Hp as Hp.
  exists [z1; z2]. split; [done|]. unfold message.
  transitivity (([u8 type; u8 code; z1; z2] ++ fbytes LE H32 quench) ++ Packet.write 0 payload p).
  - exact (write_app_behind ([u8 type; u8 code; z1; z2] ++ fbytes LE H32 quench) 0 payload p).
  - pose proof (write_app [] p payload []) as E. rewrite !app_nil_r in E. cbn [app length] in E.
    rewrite E by done. by rewrite !u8_id.
Qed.

Lemma message_checksum type code c quench payload v : length c = 2%nat -> is_u16 v ->
  ICMP_Packet.set_checksum LE v (message type code c quench payload) = message type code (be16 v) quench payload.
Proof.
  intros Hc Hv. unfold_list Hc. assert (E : be16 v = fbytes LE K16 v).
  { cbn [fbytes]. rewrite LittleEndian.set16_network by side. by rewrite u16_id. }
  rewrite E. reflexivity.
Qed.

Section Messages.
Import ICMPv4 Socket_Send.
Context `{Clk : Clock} {W : Type} `{Sys : System W} `{Dev : Device W}.
Context (nics : list Nic) (gateway sizeof_SendBuffer fast_bits : Z) (fuel : nat).
Context (s : SendState W) (B : Nic) (hw : bytes) (area : bytes) (a size : Z) (w : W).
Let r := router nics gateway.
Hypothesis N : direct_neighbor nics s B hw.
Hypothesis id_range : is_u16 (Sockets.id (ipv4 s)).
Hypothesis bits : 16 <= fast_bits.
Hypothesis size_fits : 8 <= size ∧ 34 + size < 65536.
Hypothesis memory : dv_alloc (34 + size + sizeof_SendBuffer) (world s) = (a, area, w).
Hypothesis memory_found : a ≠ 0.
Hypothesis area_length : Z.of_nat (length area) = 34 + size.
Hypothesis area_bytes : is_bytes area.

Context (type code quench : Z) (newdata : bytes).
Hypothesis type_range : is_u8 type.
Hypothesis code_range : is_u8 code.
Hypothesis quench_range : is_u32 quench.
Hypothesis newdata_bytes : is_bytes newdata.
Hypothesis newdata_length : size - 8 <= Z.of_nat (length newdata).
Let payload := take (Z.to_nat (size - 8)) newdata.

Let rest := drop 34 area.
Let hdr := ip_header nics gateway s area size ICMP_Packet.IPV4_TYPE_ICMP.
Let eth := eth_header hw (n_address B).
Let icmp_buffer := transport_buffer B a size.
Let type_icmp : is_u8 ICMP_Packet.IPV4_TYPE_ICMP.
Proof. unfold is_u8, ICMP_Packet.IPV4_TYPE_ICMP. lia. Qed.

Lemma payload_length : length payload = Z.to_nat (size - 8).
Proof. unfold payload. rewrite length_take. lia. Qed.
Lemma rest_length : length rest = Z.to_nat size.
Proof. by destruct (lengths nics gateway s B hw area size ICMP_Packet.IPV4_TYPE_ICMP N size_fits area_length area_bytes) as (_ & ? & _). Qed.

(** The message, whose checksum is right. *)
Lemma message_made p : length p = Z.to_nat size ->
  exists c0 v, length c0 = 2%nat ∧ is_u16 v
    ∧ Packet.write 8 payload (ICMP_Packet.set_quench LE quench (ICMP_Packet.set_code LE code (ICMP_Packet.set_type LE type p)))
      = message type code c0 quench payload
    ∧ ICMP_Packet.calc_checksum LE 0 (message type code (be16 0) quench payload) size = Some v
    ∧ ICMP_Packet.checksum_valid LE 0 (message type code (be16 v) quench payload) size = Some true.
Proof.
  intros Hp. pose proof payload_length as Lp.
  destruct (message_written type code quench payload p type_range code_range) as (c0 & H0 & E0); [lia|].
  destruct (checksum_filled_in 0 [type; code] (fbytes LE H32 quench ++ payload) [] size) as (v & Ev & Hv & Ec).
  - rewrite !is_bytes_app. split_and!; [repeat apply Forall_cons_2; try done; constructor|apply fbytes_bytes|..|constructor].
    unfold payload. auto with width.
  - by exists 1%nat.
  - rewrite !length_app, length_fbytes, Lp. cbn. lia.
  - unfold is_u16. lia.
  - lia.
  - exists c0, v. rewrite !app_nil_r in Ev, Ec. split_and!; done.
Qed.

Lemma at_icmp d f m : on_sb (SendBuffer.at_pointer 34 f) (icmp_buffer d (eth ++ hdr ++ m)) = icmp_buffer d (eth ++ hdr ++ f m).
Proof. apply (at_message nics gateway s B hw area a size _ N size_fits area_length area_bytes). Qed.

Lemma drop_icmp m : drop 34 (eth ++ hdr ++ m) = m.
Proof. apply (drop_prefix nics gateway s B hw area size _ N size_fits area_length area_bytes). Qed.

Lemma write_payload m : on_sb (SendBuffer.write newdata (size - 8)) (icmp_buffer 42 (eth ++ hdr ++ m))
  = icmp_buffer (34 + size) (eth ++ hdr ++ Packet.write 8 payload m).
Proof.
  unfold on_sb, SendBuffer.write. change (SendBuffer.getRemainingSize (sb (icmp_buffer 42 ?q))) with (34 + size - 42).
  destruct (Z.ltb_spec (34 + size - 42) (size - 8)); [lia|]. fold payload.
  transitivity (icmp_buffer (42 + (size - 8)) (Packet.write 42 payload (eth ++ hdr ++ m))); [reflexivity|].
  replace (42 + (size - 8)) with (34 + size) by lia. f_equal. rewrite !app_assoc.
  pose proof (prefix_length nics gateway s B hw area size ICMP_Packet.IPV4_TYPE_ICMP N size_fits area_length area_bytes) as Lp.
  fold hdr eth in Lp. replace 42%nat with (length (eth ++ hdr) + 8)%nat by lia. apply write_app_behind.
Qed.

Lemma icmp_written : exists c0 v, length c0 = 2%nat ∧ is_u16 v
  ∧ write_message LE fast_bits type code quench newdata (size - 8) (icmp_buffer 34 (eth ++ hdr ++ rest))
    = Some (icmp_buffer (34 + size) (eth ++ hdr ++ message type code c0 quench payload))
  ∧ icmp_checksum_advice LE (icmp_buffer (34 + size) (eth ++ hdr ++ message type code c0 quench payload))
    = Some (icmp_buffer (34 + size) (eth ++ hdr ++ message type code (be16 v) quench payload))
  ∧ ICMP_Packet.checksum_valid LE 0 (message type code (be16 v) quench payload) size = Some true.
Proof.
  pose proof payload_length as Lp. destruct (message_made rest rest_length) as (c0 & v & Hc0 & Hv & Ew & Ev & Ec).
  exists c0, v. split; [done|]. split; [done|]. split; [|split; [|done]].
  - unfold write_message. rewrite fast16_small by lia. change (getDataPointer (icmp_buffer 34 ?m)) with 34. rewrite at_icmp.
    change (on_sb (SendBuffer.writtenToDataPointer _) (icmp_buffer 34 ?m)) with (icmp_buffer 42 m).
    change (SendBuffer.getRemainingSize (sb (icmp_buffer 42 ?q))) with (34 + size - 42).
    destruct (Z.ltb_spec (34 + size - 42) 0); [lia|].
    destruct (Z.ltb_spec (Z.of_nat (length newdata)) (Z.min (34 + size - 42) (size - 8))); [lia|]. cbn [orb].
    by rewrite write_payload, Ew.
  - unfold icmp_checksum_advice. change (SendBuffer.memstart_transport (sb (icmp_buffer (34 + size) ?m))) with 34.
    change (SendBuffer.data (sb (icmp_buffer (34 + size) ?m))) with (34 + size).
    replace (u16 (34 + size - 34)) with size by (rewrite u16_id; [lia|unfold is_u16; lia]).
    rewrite at_icmp, message_checksum by (done || unfold is_u16; lia).
    change (SendBuffer.mem (sb (icmp_buffer (34 + size) ?m))) with m. change (Z.to_nat 34) with 34%nat.
    rewrite drop_icmp, Ev. cbn [mbind option_bind]. by rewrite at_icmp, message_checksum.
Qed.

(** The stack's message leaves in a frame for the neighbor, as a packet it accepts with
    this message, and the memory and the cache are as the request left them. *)
Lemma message_sent : exists s' q v, is_u16 v
  ∧ request_and_send LE nics gateway sizeof_SendBuffer fast_bits false fuel B size type code quench newdata (size - 8) s = Some s'
  ∧ world s' = dv_send (n_id B) (eth ++ q) w ∧ cache s' = cache s
  ∧ let m := message type code (be16 v) quench payload in
    arrives s size ICMP_Packet.IPV4_TYPE_ICMP q (Ipv4.ipv4_addr (n_ipv4 B)) m ∧ ICMP_Packet.checksum_valid LE 0 m size = Some true.
Proof.
  destruct icmp_written as (c0 & v & Hc0 & Hv & E1 & E2 & E3). pose proof payload_length as Lp.
  set (M := message type code (be16 v) quench payload) in *.
  assert (LM : length M = Z.to_nat size) by (unfold M, message; rewrite !length_app, length_fbytes, Lp; cbn; lia).
  assert (BM : is_bytes M).
  { unfold M, message. rewrite !is_bytes_app. split_and!; [repeat apply Forall_cons_2; try done; constructor|side|apply fbytes_bytes|].
    unfold payload. auto with width. }
  destruct (transport_sent nics gateway s B hw area a size _ N id_range size_fits area_length area_bytes type_icmp
    (icmp_checksum_advice LE) (34 + size) (message type code c0 quench payload) M
    (s <| world := w |> <| ipv4 := snd (Sockets.setupHeader LE r (20 + size) (take 20 (drop 14 area)) (ipv4 s)) |>) E2 LM BM) as (q & Es & Hq).
  eexists _, q, v. split; [done|]. unfold request_and_send.
  replace s with (s <| world := world s |>) at 1 by (by destruct s).
  rewrite (request_prepared LE nics gateway sizeof_SendBuffer fast_bits fuel s B hw area a size w N bits ltac:(lia)
    area_length icmp_advice (world s) memory memory_found)
    by (unfold icmp_advice; by rewrite (transport_prepared nics gateway s B hw area a size _ N size_fits area_length area_bytes type_icmp)).
  unfold icmp_advice. rewrite (transport_prepared nics gateway s B hw area a size _ N size_fits area_length area_bytes type_icmp).
  fold rest hdr eth icmp_buffer. rewrite E1. cbn [mbind option_bind]. split; [exact Es|]. by split_and!.
Qed.
End Messages.

(** ** Answers *)

Section Answers.
Import ICMPv4 Socket_Send.
Context `{Clk : Clock} {W : Type} `{Sys : System W} `{Dev : Device W}.
Context (nics : list Nic) (gateway sizeof_SendBuffer fast_bits : Z) (fuel : nat) (s : SendState W).
(** A packet from the neighbor with hardware address [hw], received by [B]. *)
Context (packet : bytes) (B : Nic) (hw : bytes).
Let src := IPv4_Packet.get_src_ipaddr LE packet.
Let s1 := set_dst_addr nics gateway src s.
Hypothesis packet_bytes : is_bytes packet.

(** What the neighbor gets: a frame with a packet it accepts, from the address of [B], with
    an ICMP message whose checksum is right. *)
Definition answered (size : Z) (w : W) (s' : SendState W) (type code quench : Z) (payload : bytes) : Prop :=
  exists q m, world s' = dv_send (n_id B) (eth_header hw (n_address B) ++ q) w ∧ cache s' = cache s
    ∧ arrives s1 size ICMP_Packet.IPV4_TYPE_ICMP q (Ipv4.ipv4_addr (n_ipv4 B)) m ∧ ICMP_Packet.checksum_valid LE 0 m size = Some true
    ∧ ICMP_Packet.get_type LE m = type ∧ ICMP_Packet.get_code LE m = code
    ∧ ICMP_Packet.get_quench LE m = quench ∧ ICMP_Packet.get_data m = payload.

Lemma answer_sent size area a w type code quench newdata :
  direct_neighbor nics s1 B hw -> is_u16 (Sockets.id (ipv4 s)) -> 16 <= fast_bits -> 8 <= size ∧ 34 + size < 65536 ->
  dv_alloc (34 + size + sizeof_SendBuffer) (world s) = (a, area, w) -> a ≠ 0 ->
  Z.of_nat (length area) = 34 + size -> is_bytes area ->
  is_u8 type -> is_u8 code -> is_u32 quench -> is_bytes newdata -> size - 8 <= Z.of_nat (length newdata) ->
  exists s', request_and_send LE nics gateway sizeof_SendBuffer fast_bits false fuel B size type code quench newdata (size - 8) s1 = Some s'
    ∧ answered size w s' type code quench (take (Z.to_nat (size - 8)) newdata).
Proof.
  intros N Hid Hbits Hsize Hmem Ha Hal Hab Ht Hc Hq Hn Hl. destruct (set_dst_addr_keeps nics gateway src s) as (_ & Ei & Ew & Ec).
  fold s1 in Ei, Ew, Ec. rewrite <- Ei in Hid. rewrite <- Ew in Hmem.
  destruct (message_sent nics gateway sizeof_SendBuffer fast_bits fuel s1 B hw area a size w N Hid Hbits Hsize Hmem Ha Hal Hab
    type code quench newdata Ht Hc Hn Hl) as (s' & q & v & Hv & E & W' & C' & H1 & H2).
  exists s'. split; [done|]. eexists q, _. split; [exact W'|]. split; [congruence|]. split; [exact H1|]. split; [exact H2|].
  by apply message_fields.
Qed.

(** C16: An echo request is answered: if the sender is a neighbor whose hardware address the
    cache knows, the answer fits and there is memory for it, the receiver sends it one frame
    with a packet it accepts; the message in it is an echo reply with the identifier, the sequence
    number and the data of the request, and its checksum is right. *)
Theorem echo_answered (size : Z) (area : bytes) (a : Z) (w : W) (proceed : SendState W -> option (SendState W)) :
  let request := IPv4_Packet.get_data LE packet in
  IPv4_Packet.get_protocol LE packet = ICMP_Packet.IPV4_TYPE_ICMP ->
  IPv4_Packet.get_total_len LE packet = IPv4_Packet.get_ihl LE packet * 4 + size ->
  size <= Z.of_nat (length request) ->
  ICMP_Packet.checksum_valid LE 0 request size = Some true ->
  ICMP_Packet.get_type LE request = ICMP_Packet.ICMP_TYPE_ECHO_REQUEST -> ICMP_Packet.get_code LE request = ICMP_CODE_ECHO ->
  direct_neighbor nics s1 B hw -> is_u16 (Sockets.id (ipv4 s)) -> 16 <= fast_bits -> 8 <= size ∧ 34 + size < 65536 ->
  size <= u16 (getMaxPayloadLength nics fast_bits s1) ->
  dv_alloc (34 + size + sizeof_SendBuffer) (world s) = (a, area, w) -> a ≠ 0 ->
  Z.of_nat (length area) = 34 + size -> is_bytes area ->
  exists s', ipv4_demux LE nics gateway sizeof_SendBuffer fast_bits false fuel proceed packet B s = Some s'
    ∧ answered size w s' ICMP_Packet.ICMP_TYPE_ECHO_REPLY 0 (ICMP_Packet.get_quench LE request)
        (take (Z.to_nat (size - 8)) (ICMP_Packet.get_data request)).
Proof.
  intros request Hp Hlen Hreq Hsum Hty Hco N Hid Hbits Hsize Hmax Hmem Ha Hal Hab.
  assert (Hrb : is_bytes request) by (apply is_bytes_drop, packet_bytes).
  unfold ipv4_demux. rewrite Hp. change (ICMP_Packet.IPV4_TYPE_ICMP =? ICMP_Packet.IPV4_TYPE_ICMP) with true. cbv iota.
  rewrite Hlen. replace (IPv4_Packet.get_ihl LE packet * 4 + size - IPv4_Packet.get_ihl LE packet * 4) with size by lia.
  rewrite (u32_id size), (u16_id size) by (unfold is_u32, is_u16; lia). change ICMP_Packet.ICMP_HEADER_SIZE with 8 at 1.
  destruct (Z.ltb_spec size 8); [lia|]. fold request. rewrite Hsum. cbn [mbind option_bind negb].
  unfold icmpv4_demux. fold request. rewrite Hty, Hco. change (_ && _) with true at 1. cbv iota zeta. fold src. fold s1.
  destruct (Z.ltb_spec (u16 (getMaxPayloadLength nics fast_bits s1)) size); [lia|].
  change ICMP_Packet.ICMP_HEADER_SIZE with 8. rewrite (u32_id (size - 8)) by (unfold is_u32; lia).
  apply (answer_sent size area a w); try done.
  - exact (getf_range LE ICMP_Packet.f_quench request Hrb).
  - apply is_bytes_drop, Hrb.
  - unfold ICMP_Packet.get_data. rewrite length_drop. lia.
Qed.

(** A packet for a protocol or port nobody serves is reported to its sender, with its header and the
    first eight bytes of its payload. *)
Theorem error_reported (code : Z) (area : bytes) (a : Z) (w : W) :
  let size := IPv4_Packet.get_ihl LE packet * 4 + 16 in
  code = ICMP_CODE_PORT_UNREACHABLE ∨ code = ICMP_CODE_PROTOCOL_UNREACHABLE ->
  IPv4_Packet.get_ihl LE packet * 4 + 8 <= Z.of_nat (length packet) ->
  direct_neighbor nics s1 B hw -> is_u16 (Sockets.id (ipv4 s)) -> 16 <= fast_bits ->
  dv_alloc (34 + size + sizeof_SendBuffer) (world s) = (a, area, w) -> a ≠ 0 ->
  Z.of_nat (length area) = 34 + size -> is_bytes area ->
  exists s', error_message LE nics gateway sizeof_SendBuffer fast_bits false fuel code packet B s = Some s'
    ∧ answered size w s' ICMP_TYPE_DESTINATION_UNREACHABLE code 0
        (take (Z.to_nat (IPv4_Packet.get_ihl LE packet * 4 + 8)) packet).
Proof.
  intros size Hcode Hlen N Hid Hbits Hmem Ha Hal Hab. pose proof (get_ihl_bytes LE packet packet_bytes) as Hi.
  unfold error_message. fold src. fold s1.
  assert (E : u8 (IPv4_Packet.get_ihl LE packet * 4 + 8) = size - 8) by (rewrite u8_id; unfold is_u8, size in *; lia).
  rewrite E. change ICMP_Packet.ICMP_HEADER_SIZE with 8. replace (size - 8 + 8) with size by lia.
  replace (IPv4_Packet.get_ihl LE packet * 4 + 8) with (size - 8) in * by (unfold size; lia).
  apply (answer_sent size area a w); try done.
  - unfold size in *. lia.
  - by destruct Hcode as [->| ->].
Qed.

(** Without a route to the sender the null pointer is followed. *)
Theorem echo_without_route_null payloadlen :
  let request := IPv4_Packet.get_data LE packet in
  ICMP_Packet.get_type LE request = ICMP_Packet.ICMP_TYPE_ECHO_REQUEST -> ICMP_Packet.get_code LE request = ICMP_CODE_ECHO ->
  getUsedInterface nics s1 = None ->
  icmpv4_demux LE nics gateway sizeof_SendBuffer fast_bits false fuel packet payloadlen B s = None.
Proof.
  intros request Ht Hc Hn. unfold icmpv4_demux. fold request. rewrite Ht, Hc. change (_ && _) with true at 1. cbv iota zeta.
  fold src. fold s1. unfold request_and_send, requestSendBuffer, estimateSendBufferMinSize. by rewrite Hn.
Qed.
End Answers.

(** ** A network to try it on *)

(** The value of an address of four octets. *)
Lemma convert_ipv4_addr_value a b c d : is_u8 a -> is_u8 b -> is_u8 c -> is_u8 d ->
  IPv4_Packet.convert_ipv4_addr a b c d = a + b * 2 ^ 8 + c * 2 ^ 16 + d * 2 ^ 24.
Proof.
  unfold is_u8. intros Ha Hb Hc Hd. unfold IPv4_Packet.convert_ipv4_addr. rewrite !land_ff, !Z.mod_small by lia.
  rewrite (Z.lor_comm (Z.shiftl c 16)), (lor_shiftl_add d) by (rewrite ?shiftl_mul; lia).
  replace (d * 2 ^ 24 + Z.shiftl c 16) with (Z.shiftl (d * 256 + c) 16) by (rewrite !shiftl_mul; lia).
  rewrite (Z.lor_comm (Z.shiftl b 8)), lor_shiftl_add by (rewrite ?shiftl_mul; lia).
  replace ((d * 256 + c) * 2 ^ 16 + Z.shiftl b 8) with (Z.shiftl ((d * 256 + c) * 256 + b) 8) by (rewrite !shiftl_mul; lia).
  rewrite Z.lor_comm, lor_shiftl_add by lia. rewrite u32_id by (unfold is_u32; lia). lia.
Qed.

(** Whether a destination is taken for a multicast address depends on its last octet, and
    the Ethernet address made for it lacks the third. *)
Theorem multicast_by_last_octet a b c d : is_u8 a -> is_u8 b -> is_u8 c -> is_u8 d ->
  let ip := IPv4_Packet.convert_ipv4_addr a b c d in
  Socket_Send.is_multicast ip = (224 <=? d) && (d <=? 239)
  ∧ Socket_Send.multicast_mac ip = [0x01; 0x00; 0x5e; d mod 128; c; a].
Proof.
  intros Ha Hb Hc Hd ip. pose proof (convert_ipv4_addr_value a b c d Ha Hb Hc Hd) as E. fold ip in E. unfold is_u8 in *.
  assert (E1 : Socket_Send.leftpart ip = d).
  { unfold Socket_Send.leftpart. rewrite shiftr_div, E by lia. zlia. }
  unfold Socket_Send.is_multicast, Socket_Send.multicast_mac. rewrite E1. split; [done|].
  rewrite shiftr_div by lia. change 0x7f with (Z.ones 7). rewrite Z.land_ones by lia. change (2 ^ 7) with 128.
  do 4 f_equal. f_equal; [rewrite E; zlia|f_equal; rewrite E; zlia].
Qed.

Lemma multicast_by_last_octet_witness :
  Socket_Send.is_multicast (IPv4_Packet.convert_ipv4_addr 10 0 0 230) = true
  ∧ Socket_Send.is_multicast (IPv4_Packet.convert_ipv4_addr 224 0 0 1) = false.
Proof.
  split; [apply (multicast_by_last_octet 10 0 0 230)|apply (multicast_by_last_octet 224 0 0 1)]; unfold is_u8; lia.
Defined.

Section Example.
Import ICMPv4.

Record Net := MkNet { net_time : Z; net_sent : list (nat * bytes) }.
#[local] Instance net_system : System Net := {
  sys_now w := (net_time w, [], MkNet (net_time w + 1) (net_sent w));
  sys_send k i f w := MkNet (net_time w) (net_sent w ++ [(k, f)]);
  sys_hasBeenSent k i w := true }.
#[local] Instance net_clock : Clock := { ms_to_ticks ms := ms / 100; ticks_to_ms t := t * 100 }.
#[local] Instance net_device : Device Net := {
  dv_alloc n w := (4096, repeat 0 (Z.to_nat (n - 32)), w);
  dv_maxFree w := 512;
  dv_getMTU k w := 1500;
  dv_send k f w := MkNet (net_time w) (net_sent w ++ [(k, f)]) }.

(** The host 10.0.0.2, which knows the hardware addresses of 10.0.0.1 and of 10.0.0.254. *)
Definition neighbors : ARP_Cache.t :=
  empty_cache <| ARP_Cache.entries := map (λ d, ARP_Cache.MkEntry (ip_example d) [2; 0; 0; 0; 0; d]) [1; 254]
    ++ repeat (ARP_Cache.MkEntry 0 (repeat 0 6)) 3 |>.
Definition state_example : SendState Net := MkSend (Sockets.IPV4_ctor false) neighbors (MkNet 1 []).

(** An echo request with three bytes of data from a source address. *)
Definition ping_example (src : Z) : bytes :=
  let message := [8; 0; 0xf3; 0xf5; 0; 1; 0; 7; 1; 2; 3] in
  let header := fst (Sockets.setupHeader LE (MkRouter [MkInterface src 255 true] 0) 31 (repeat 0 20)
    (Sockets.MkIPV4 (Some 0%nat) false (ip_example 2) 9)) in
  default [] (IPv4_Packet.computeChecksum LE (IPv4_Packet.set_protocol LE 1 header ++ message)).
Definition frame_example (src : Z) : bytes := eth_header [2; 0; 0; 0; 0; 2] [2; 0; 0; 0; 0; 1] ++ ping_example src.
Definition demux_example (gateway src : Z) : option (SendState Net) :=
  demux LE [host_example 2] gateway 32 32 false 40 (frame_example src) 45 (host_example 2) state_example.

(** The request of a neighbor is answered; the frame is all that is sent. *)
Example ping_answered :
  option_map (λ s, net_sent (world s)) (demux_example 0 (ip_example 1))
  = Some [(0%nat, eth_header [2; 0; 0; 0; 0; 1] [2; 0; 0; 0; 0; 2]
      ++ [0x45; 0; 0; 31; 0; 0; 0; 0; 64; 1; 102; 220; 10; 0; 0; 2; 10; 0; 0; 1]
      ++ [0; 0; 251; 245; 0; 1; 0; 7; 1; 2; 3])].
Proof. by vm_compute. Qed.

(** A request from another network: with a gateway, ARP asks for the distant host three
    times, although the cache knows the gateway, and nothing else is sent; without one, the null
    pointer is followed. *)
Example ping_over_gateway :
  let far := IPv4_Packet.convert_ipv4_addr 192 168 0 1 in
  let ask := arp_wire LE broadcast [2; 0; 0; 0; 0; 2] ARP_Packet.ARP_REQUEST (ip_example 2) broadcast far in
  option_map (λ s, net_sent (world s)) (demux_example (ip_example 254) far) = Some (repeat (0%nat, ask) 3)
  ∧ demux_example 0 far = None.
Proof. by vm_compute. Qed.

Lemma neighbor_known p : IPv4_Packet.get_src_ipaddr LE p = ip_example 1 ->
  direct_neighbor [host_example 2] (Socket_Send.set_dst_addr [host_example 2] 0 (IPv4_Packet.get_src_ipaddr LE p) state_example)
    (host_example 2) [2; 0; 0; 0; 0; 1].
Proof.
  intros ->. split; try reflexivity.
  - apply host_example_ok. unfold is_u8. lia.
  - unfold is_u32. vm_compute. split; [discriminate|reflexivity].
  - split; reflexivity.
Qed.

Lemma ping_example_bytes : is_bytes (ping_example (ip_example 1)).
Proof. apply (bool_decide_unpack _). vm_compute. exact I. Qed.

Lemma echo_answered_witness : exists s',
  ipv4_demux LE [host_example 2] 0 32 32 false 40 (λ s, Some s) (ping_example (ip_example 1)) (host_example 2) state_example
  = Some s'.
Proof.
  destruct (echo_answered [host_example 2] 0 32 32 40 state_example (ping_example (ip_example 1)) (host_example 2)
    [2; 0; 0; 0; 0; 1]) with (size := 11) (area := repeat 0 45) (a := 4096) (w := MkNet 1 [])
    (proceed := λ s : SendState Net, Some s) as (s' & E & _).
  all: try reflexivity.
  - apply ping_example_bytes.
  - apply neighbor_known. by vm_compute.
  - unfold is_u16. cbn. lia.
  - lia.
  - lia.
  - vm_compute. discriminate.
  - lia.
  - apply (bool_decide_unpack _). vm_compute. exact I.
  - by exists s'.
Defined.

Lemma error_reported_witness : exists s',
  error_message LE [host_example 2] 0 32 32 false 40 ICMP_CODE_PROTOCOL_UNREACHABLE (ping_example (ip_example 1))
    (host_example 2) state_example = Some s'.
Proof.
  destruct (error_reported [host_example 2] 0 32 32 40 state_example (ping_example (ip_example 1)) (host_example 2)
    [2; 0; 0; 0; 0; 1]) with (code := ICMP_CODE_PROTOCOL_UNREACHABLE) (area := repeat 0 70) (a := 4096) (w := MkNet 1 [])
    as (s' & E & _).
  all: try reflexivity.
  - apply ping_example_bytes.
  - by right.
  - vm_compute. discriminate.
  - apply neighbor_known. by vm_compute.
  - unfold is_u16. cbn. lia.
  - lia.
  - lia.
  - apply (bool_decide_unpack _). vm_compute. exact I.
  - by exists s'.
Defined.

Lemma echo_without_route_null_witness :
  icmpv4_demux LE [host_example 2] 0 32 32 false 40 (ping_example (IPv4_Packet.convert_ipv4_addr 192 168 0 1)) 11
    (host_example 2) state_example = None.
Proof.
  apply (echo_without_route_null [host_example 2] 0 32 32 40 state_example
    (ping_example (IPv4_Packet.convert_ipv4_addr 192 168 0 1)) (host_example 2) 11); reflexivity.
Defined.
End Example.
