(* ===== verification/Transport4.v ===== *)
(** * Transport4: UDP over IPv4

    Models how a UDP socket sends ([udp/SendBuffer_UDP.ah], which IPv6 uses as well), the checksum
    it fills in over IPv4 ([ipv4/udp/IPv4_UDP_Tx_Checksumming.ah]) over the sending side of [Send4],
    the check of that checksum where a datagram arrives ([ipv4/udp/IPv4_UDP_Rx_Checksumming.ah]) in
    front of the receiving side of [Udp], and the receiving calls that wait
    ([udp/UDP_Receive_Slice.ah]). *)

From stdpp Require Import gmap.
From S2P Require Import Prelude Wire Checksum Ringbuffer Packet TcpHistory SendBuffer Ipv4 Headers Demux Udp Arp Send4 Icmp.

Open Scope Z_scope.

#[local] Abbreviation IP_TYPE_UDP := UDP_Packet.IP_TYPE_UDP.

(** ** The header of a datagram *)

Section Header.
Import Socket_Send.
Context (e : endian) (sk : Socket).
(** [Sendbuffer_UDP]: the header behind that of the layer below, for a socket with these ports. *)
Definition udp_header_advice (b : Buffer) : Buffer :=
  let b := on_sb (SendBuffer.at_pointer (getDataPointer b) (UDP_Socket.setupHeader e (SendBuffer.getRemainingSize (sb b)) sk)) b in
  on_sb (SendBuffer.writtenToDataPointer UDP_Packet.UDP_HEADER_SIZE) b.
Definition udp_advice (b : Buffer) : Buffer := udp_header_advice (transport_advice IP_TYPE_UDP b).
End Header.

(** A datagram in memory. *)
Definition udp_message (sport' dport' checksum : Z) (payload : bytes) : bytes :=
  (be16 sport' ++ be16 dport' ++ be16 (8 + Z.of_nat (length payload))) ++ be16 checksum ++ payload.

Lemma length_udp_message s d c data : length (udp_message s d c data) = (8 + length data)%nat.
Proof. unfold udp_message. rewrite !length_app. cbn. lia. Qed.
Lemma udp_message_bytes s d c data : is_bytes data -> is_bytes (udp_message s d c data).
Proof.
  intros H. unfold udp_message. rewrite !is_bytes_app. unfold be16.
  split_and!; try done; repeat apply Forall_cons_2; try apply u8_range; constructor.
Qed.

Lemma fbytes_be16 v : is_u16 v -> fbytes LE K16 v = be16 v.
Proof. intros Hv. cbn [fbytes]. rewrite LittleEndian.set16_network by side. by rewrite u16_id. Qed.

Lemma at_offset k v l r o : in_range k v -> length l = o -> getf LE (Field o k) (l ++ fbytes LE k v ++ r) = v.
Proof. intros Hv <-. by apply getf_at. Qed.

Lemma udp_message_read s d c data junk : is_u16 s -> is_u16 d -> is_u16 c -> Z.of_nat (length data) < 65528 ->
  let m := udp_message s d c data ++ junk in
  UDP_Packet.get_sport LE m = s ∧ UDP_Packet.get_dport LE m = d ∧ UDP_Packet.get_length LE m = 8 + Z.of_nat (length data)
  ∧ UDP_Packet.get_checksum LE m = c ∧ UDP_Packet.get_data m = data ++ junk.
Proof.
  intros Hs Hd Hc Hl. cbv zeta. unfold udp_message. assert (Hlen : is_u16 (8 + Z.of_nat (length data))) by (unfold is_u16; lia).
  set (n := 8 + Z.of_nat (length data)) in *. rewrite <- !app_assoc, <- !fbytes_be16 by done.
  split_and!.
  - exact (getf_at LE K16 s [] _ Hs).
  - exact (at_offset K16 d (fbytes LE K16 s) _ 2 Hd (length_fbytes LE K16 s)).
  - pose proof (at_offset K16 n (fbytes LE K16 s ++ fbytes LE K16 d) (fbytes LE K16 c ++ data ++ junk) 4 Hlen) as E.
    rewrite <- !app_assoc in E. apply E. by rewrite length_app, !length_fbytes.
  - pose proof (at_offset K16 c (fbytes LE K16 s ++ fbytes LE K16 d ++ fbytes LE K16 n) (data ++ junk) 6 Hc) as E.
    rewrite <- !app_assoc in E. apply E. by rewrite !length_app, !length_fbytes.
  - unfold UDP_Packet.get_data. transitivity (drop 8 ((fbytes LE K16 s ++ fbytes LE K16 d ++ fbytes LE K16 n ++ fbytes LE K16 c) ++ data ++ junk)).
    { by rewrite <- !app_assoc. }
    apply drop_app_length'. by rewrite !length_app, !length_fbytes.
Qed.

(** The header a socket writes. *)
Lemma udp_header_written n sk x r : length x = 8%nat -> is_u16 n -> is_u16 (sport sk) -> is_u16 (dport sk) ->
  UDP_Socket.setupHeader LE n sk (x ++ r) = be16 (sport sk) ++ be16 (dport sk) ++ be16 n ++ be16 0 ++ r.
Proof.
  intros Hx Hn Hs Hd. unfold UDP_Socket.setupHeader, UDP_Packet.set_dport, UDP_Packet.set_sport, UDP_Packet.set_length, UDP_Packet.set_checksum, setf.
  cbn [f_off f_kind UDP_Packet.f_dport UDP_Packet.f_sport UDP_Packet.f_length UDP_Packet.f_checksum].
  rewrite !fbytes_be16 by (done || (unfold is_u16; lia)). unfold be16.
  generalize (u8 (dport sk / 256)) (u8 (dport sk)) (u8 (sport sk / 256)) (u8 (sport sk)) (u8 (n / 256)) (u8 n). intros.
  unfold_list Hx. reflexivity.
Qed.

Lemma valid_behind csum m junk n : is_bytes m -> is_bytes junk -> n = Z.of_nat (length m) -> is_u16 n -> 0 <= csum < 2147483648 ->
  InternetChecksum.checksum_valid LE csum m n = Some true -> InternetChecksum.checksum_valid LE csum (m ++ junk) n = Some true.
Proof.
  intros Hm Hj Hn Hu Hc H. unfold InternetChecksum.checksum_valid in *.
  rewrite InternetChecksum.calc_checksum_spec in H by (done || lia).
  rewrite InternetChecksum.calc_checksum_spec by (done || (rewrite is_bytes_app; done) || (rewrite length_app; lia)).
  rewrite take_app_le by lia. exact H.
Qed.

(** ** Sending *)

Section Send.
Import Socket_Send.
Context (e : endian) `{Clk : Clock} {W : Type} `{Sys : System W} `{Dev : Device W}.
Context (nics : list Nic) (gateway sizeof_SendBuffer fast_bits : Z) (expires : bool) (fuel : nat).
(** The ports of the socket. *)
Context (sk : Socket).

(** [Sendbuffer_UDP]: what is asked for. *)
Definition udp_estimate (s : SendState W) : option Z :=
  headers ← estimateSendBufferMinSize nics s; Some (headers + UDP_Packet.UDP_HEADER_SIZE).
Definition udp_requestSendBuffer (interface : Nic) (requestSize : Z) (s : SendState W) : option (option Buffer * SendState W) :=
  request_behind e nics gateway sizeof_SendBuffer fast_bits expires fuel (udp_estimate s) (udp_advice e sk) interface requestSize s.

(** [IPv4_UDP_Tx_Checksumming]; the socket uses IPv4. *)
Definition udp_checksum_advice : Buffer -> option Buffer := pseudo_checksum_advice e IP_TYPE_UDP (UDP_Packet.set_checksum e).
Definition udp_send : Buffer -> SendState W -> option (SendState W) := send_checked e udp_checksum_advice.

(** A buffer requested, filled and sent, as [Socket_Send_Slice] tells applications to: whether there was one. *)
Definition transmit (data : bytes) (s : SendState W) : option (bool * SendState W) :=
  let n := Z.of_nat (length data) in
  nic ← getUsedInterface nics s;
  '(b, s) ← udp_requestSendBuffer nic n s;
  match b with
  | None => Some (false, s)
  | Some b => s ← udp_send (on_sb (SendBuffer.write data n) b) s; Some (true, s)
  end.
End Send.

(** ** Receiving *)

Section Receive.
Context (e : endian) (tBUFFERSIZE : Z) (mempool : nat -> Z -> option (Z * bytes)) (fuel : nat).

(** [IPv4_UDP_Rx_Checksumming]: a datagram with a checksum is dropped when it is wrong. *)
Definition IPv4_UDP_Rx_Checksumming (proceed : Receiver -> option (option (fate * Receiver))) (packet : bytes) (len : Z) (r : Receiver)
    : option (option (fate * Receiver)) :=
  if negb (IPv4_Packet.get_protocol e packet =? IP_TYPE_UDP) then proceed r
  else if len <? IPv4_Packet.IPV4_MIN_HEADER_SIZE + UDP_Packet.UDP_HEADER_SIZE then Some (Some (Dropped, r))
  else
    let len := u32 (len - IPv4_Packet.get_ihl e packet * 4) in
    let datagram := IPv4_Packet.get_data e packet in
    if negb (UDP_Packet.get_checksum e datagram =? 0) then
      match UDP_Packet.checksum_valid e (computePseudoHeaderV4 (IPv4_Packet.get_src_ipaddr e packet) (IPv4_Packet.get_dst_ipaddr e packet) len IP_TYPE_UDP)
              datagram (u16 len) with
      | None => Some None
      | Some false => Some (Some (Dropped, r))
      | Some true => proceed r
      end
    else proceed r.

(** [ipv4_demux] with both advices of UDP. The aspects do not order them; the check of the checksum comes first. *)
Definition ipv4_demux (packet : bytes) (len : Z) (r : Receiver) : option (option (fate * Receiver)) :=
  IPv4_UDP_Rx_Checksumming (UDP_Receive.ipv4_demux e tBUFFERSIZE mempool fuel packet len) packet len r.

(** Reading the clock, and what interrupts deliver meanwhile. *)
Context {W : Type} `{Clk : Clock} (now : Receiver * W -> Z * (Receiver * W)).

Definition get_buffer (k : nat) (s : Receiver * W) : option (Z * (Receiver * W)) :=
  '(b, r) ← UDP_Receive.receive tBUFFERSIZE k (fst s); Some (b, (r, snd s)).

(** [receive] with a timeout in milliseconds; 0 is the null pointer. *)
Definition timed_step (k : nat) (timeout : Z) (s : Receiver * W) : Receiver * W + option (Z * (Receiver * W)) :=
  let '(time, s) := now s in
  if timeout <? time then
    match get_buffer k s with
    | None => inr None
    | Some (b, s) => if b =? 0 then inl s else inr (Some (b, s))
    end
  else inr (Some (0, s)).
Definition receive_timed (k : nat) (waitForPacketTimeoutMS : Z) (s : Receiver * W) : option (option (Z * (Receiver * W))) :=
  match get_buffer k s with
  | None => Some None
  | Some (b, s) =>
      if negb (b =? 0) then Some (Some (b, s))
      else if waitForPacketTimeoutMS =? 0 then Some (Some (0, s))
      else
        let '(time, s) := now s in
        loop fuel (timed_step k (u64 (time + u64 (ms_to_ticks waitForPacketTimeoutMS)))) s
  end.

(** [receiveBlock]: [block] returns when there may be something. *)
Context (block : Receiver * W -> Receiver * W).
Definition block_step (k : nat) (s : Receiver * W) : Receiver * W + option (Z * (Receiver * W)) :=
  match get_buffer k (block s) with
  | None => inr None
  | Some (b, s) => if b =? 0 then inl s else inr (Some (b, s))
  end.
Definition receiveBlock (k : nat) (s : Receiver * W) : option (option (Z * (Receiver * W))) :=
  match get_buffer k s with
  | None => Some None
  | Some (b, s) => if b =? 0 then loop fuel (block_step k) s else Some (Some (b, s))
  end.
End Receive.

(** ** The timed receive does not wait *)

(** With an empty queue and a clock that is not past the timeout at its second reading, the null pointer is answered at once,
    whatever time was asked for. *)
Theorem timed_receive_gives_up tBUFFERSIZE fuel {W} `{Clk : Clock} (now : Receiver * W -> Z * (Receiver * W)) k ms (s s0 s1 s2 : Receiver * W) t0 t1 :
  fuel ≠ 0%nat -> get_buffer tBUFFERSIZE k s = Some (0, s0) -> ms ≠ 0 -> now s0 = (t0, s1) -> now s1 = (t1, s2) ->
  t1 <= u64 (t0 + u64 (ms_to_ticks ms)) -> receive_timed tBUFFERSIZE fuel now k ms s = Some (Some (0, s2)).
Proof.
  intros Hf Hs Hms H0 H1 Ht. unfold receive_timed. rewrite Hs, Z.eqb_refl. cbn [negb]. rewrite (proj2 (Z.eqb_neq _ _) Hms), H0.
  destruct fuel as [|fuel]; [done|]. cbn [loop]. unfold timed_step. rewrite H1.
  by destruct (Z.ltb_spec (u64 (t0 + u64 (ms_to_ticks ms))) t1); [lia|].
Qed.

(** ** From socket to socket *)

Lemma udp_type : is_u8 IP_TYPE_UDP.
Proof. unfold is_u8, UDP_Packet.IP_TYPE_UDP. lia. Qed.

Section Sent.
Import Socket_Send.
Context `{Clk : Clock} {W : Type} `{Sys : System W} `{Dev : Device W}.
Context (nics : list Nic) (gateway sizeof_SendBuffer fast_bits : Z) (fuel : nat).
Context (sk : Socket) (s : SendState W) (B : Nic) (hw area : bytes) (a : Z) (w : W) (data : bytes).
Let size := 8 + Z.of_nat (length data).
Hypothesis N : direct_neighbor nics s B hw.
Hypothesis id_range : is_u16 (Sockets.id (ipv4 s)).
Hypothesis ports16 : is_u16 (sport sk) ∧ is_u16 (dport sk).
Hypothesis data_bytes : is_bytes data.
Hypothesis bits : 16 <= fast_bits.
Hypothesis size_fits : 34 + size < 65536.
Hypothesis memory : dv_alloc (34 + size + sizeof_SendBuffer) (world s) = (a, area, w).
Hypothesis memory_found : a ≠ 0.
Hypothesis area_length : Z.of_nat (length area) = 34 + size.
Hypothesis area_bytes : is_bytes area.
Let dst := Sockets.dst_ipv4_addr (ipv4 s).
Let own := Ipv4.ipv4_addr (n_ipv4 B).

Let hdr := ip_header nics gateway s area size IP_TYPE_UDP.
Let eth := eth_header hw (n_address B).
Let at_34 d m := transport_buffer B a size d (eth ++ hdr ++ m).
Let size_ok : 8 <= size ∧ 34 + size < 65536.
Proof. lia. Qed.

(** The header and the data are written behind the IPv4 header. *)
Lemma datagram_written rest : length rest = Z.to_nat size ->
  udp_header_advice LE sk (at_34 34 rest) = at_34 42 (be16 (sport sk) ++ be16 (dport sk) ++ be16 size ++ be16 0 ++ drop 8 rest)
  ∧ on_sb (SendBuffer.write data (Z.of_nat (length data))) (at_34 42 (be16 (sport sk) ++ be16 (dport sk) ++ be16 size ++ be16 0 ++ drop 8 rest))
    = at_34 (34 + size) ((be16 (sport sk) ++ be16 (dport sk) ++ be16 size) ++ be16 0 ++ data).
Proof.
  intros Lr. destruct ports16 as [Ps Pd]. split.
  - unfold udp_header_advice. change (SendBuffer.getRemainingSize (sb (at_34 34 rest))) with (34 + size - 34).
    replace (34 + size - 34) with size by lia. change (getDataPointer (at_34 34 rest)) with 34. unfold at_34, eth, hdr.
    rewrite (at_message nics gateway s B hw area a size _ N size_ok area_length area_bytes).
    rewrite <- (take_drop 8 rest) at 1. rewrite udp_header_written by (done || (rewrite length_take; lia) || (unfold is_u16; lia)). reflexivity.
  - set (head := be16 (sport sk) ++ be16 (dport sk) ++ be16 size). unfold on_sb, SendBuffer.write.
    change (SendBuffer.getRemainingSize (sb (at_34 ?d ?m))) with (34 + size - d).
    destruct (Z.ltb_spec (34 + size - 42) (Z.of_nat (length data))); [lia|]. rewrite take_ge by lia.
    transitivity (transport_buffer B a size (42 + Z.of_nat (length data))
      (Packet.write 42 data (eth ++ hdr ++ head ++ be16 0 ++ drop 8 rest))); [reflexivity|].
    unfold at_34. replace (42 + Z.of_nat (length data)) with (34 + size) by lia. f_equal.
    assert (L42 : length (eth ++ hdr ++ head ++ be16 0) = 42%nat).
    { rewrite (app_assoc eth), length_app. unfold eth, hdr.
      rewrite (prefix_length nics gateway s B hw area size _ N size_ok area_length area_bytes). done. }
    transitivity (Packet.write 42 data ((eth ++ hdr ++ head ++ be16 0) ++ drop 8 rest)); [by rewrite <- !app_assoc|].
    rewrite <- L42. rewrite <- (app_nil_r (drop 8 rest)), write_app by (rewrite length_drop; lia). by rewrite app_nil_r, <- !app_assoc.
Qed.

Lemma datagram_sent : exists c q s', is_u16 c
  ∧ transmit LE nics gateway sizeof_SendBuffer fast_bits false fuel sk data s = Some (true, s')
  ∧ world s' = dv_send (n_id B) (eth ++ q) w ∧ cache s' = cache s
  ∧ arrives s size IP_TYPE_UDP q own (udp_message (sport sk) (dport sk) c data)
  ∧ InternetChecksum.checksum_valid LE (computePseudoHeaderV4 own dst size IP_TYPE_UDP) (udp_message (sport sk) (dport sk) c data) size = Some true.
Proof.
  destruct (message_summed nics gateway s B hw area a size IP_TYPE_UDP N size_ok area_length area_bytes udp_type (UDP_Packet.set_checksum LE)
    (be16 (sport sk) ++ be16 (dport sk) ++ be16 size) (be16 0) data) as (c & Hc & E1 & E2).
  { intros u m Hu Hm. unfold UDP_Packet.set_checksum, setf. cbn [f_off f_kind UDP_Packet.f_checksum]. rewrite fbytes_be16 by done.
    change 6%nat with (length (be16 (sport sk) ++ be16 (dport sk) ++ be16 size)). by apply write_app. }
  { rewrite !is_bytes_app. unfold be16. split_and!; try done; repeat apply Forall_cons_2; try apply u8_range; constructor. }
  { by exists 3%nat. } { done. } { rewrite !length_app. cbn. lia. }
  set (rest := drop 34 area). assert (Lr : length rest = Z.to_nat size) by (unfold rest; rewrite length_drop; lia).
  destruct (datagram_written rest Lr) as [W1 W2].
  set (st := s <| world := w |> <| ipv4 := snd (Sockets.setupHeader LE (router nics gateway) (20 + size) (take 20 (drop 14 area)) (ipv4 s)) |>).
  destruct (transport_sent nics gateway s B hw area a size IP_TYPE_UDP N id_range size_ok area_length area_bytes udp_type (udp_checksum_advice LE)
    (34 + size) _ (udp_message (sport sk) (dport sk) c data) st E1) as (q & Es & Hq); [rewrite length_udp_message; lia|by apply udp_message_bytes|].
  exists c, q, (st <| world := dv_send (n_id B) (eth ++ q) w |>). split; [done|]. split; [|done].
  unfold transmit. rewrite (nb_used nics s B hw N). cbn [mbind option_bind]. unfold udp_requestSendBuffer, udp_estimate.
  rewrite (estimated nics s B hw N). cbn [mbind option_bind]. change (34 + UDP_Packet.UDP_HEADER_SIZE) with 42.
  pose proof (transport_prepared nics gateway s B hw area a size IP_TYPE_UDP N size_ok area_length area_bytes udp_type) as Ep.
  fold rest hdr eth in Ep. change (transport_buffer B a size 34 (eth ++ hdr ++ rest)) with (at_34 34 rest) in Ep.
  assert (Ea : udp_advice LE sk (prepared LE nics gateway s B hw area a size) = at_34 42 (be16 (sport sk) ++ be16 (dport sk) ++ be16 size ++ be16 0 ++ drop 8 rest))
    by (unfold udp_advice; by rewrite Ep, W1).
  replace s with (s <| world := world s |>) at 1 by (by destruct s).
  rewrite (request_prepared_behind LE nics gateway sizeof_SendBuffer fast_bits fuel s B hw area a size w N bits ltac:(lia) area_length
    (udp_advice LE sk) 42 (Z.of_nat (length data)) (world s)) by (done || lia || by rewrite Ea).
  rewrite Ea. cbn [mbind option_bind]. rewrite W2. unfold udp_send. fold st.
  unfold at_34. unfold eth, hdr. rewrite Es. reflexivity.
Qed.
End Sent.

(** A packet keeps its header and its message when something follows it in memory. *)
Lemma packet_behind q junk m : (20 <= length q)%nat -> IPv4_Packet.get_data LE q = m -> Z.of_nat (length q) = 20 + Z.of_nat (length m) -> m ≠ [] ->
  IPv4_Packet.get_protocol LE (q ++ junk) = IPv4_Packet.get_protocol LE q
  ∧ IPv4_Packet.get_ihl LE (q ++ junk) * 4 = 20
  ∧ IPv4_Packet.get_data LE (q ++ junk) = m ++ junk
  ∧ IPv4_Packet.get_src_ipaddr LE (q ++ junk) = IPv4_Packet.get_src_ipaddr LE q
  ∧ IPv4_Packet.get_dst_ipaddr LE (q ++ junk) = IPv4_Packet.get_dst_ipaddr LE q.
Proof.
  intros Hq Hm Hl Hne.
  assert (Ei : IPv4_Packet.get_ihl LE (q ++ junk) = IPv4_Packet.get_ihl LE q).
  { unfold IPv4_Packet.get_ihl. destruct q; [cbn in Hq; lia|done]. }
  assert (E5 : IPv4_Packet.get_ihl LE q * 4 = 20).
  { unfold IPv4_Packet.get_data in Hm. apply (f_equal length) in Hm. rewrite length_drop in Hm. destruct m; [done|]. cbn in *. lia. }
  unfold IPv4_Packet.get_protocol, IPv4_Packet.get_src_ipaddr, IPv4_Packet.get_dst_ipaddr.
  rewrite !getf_app by (cbn; lia). split; [done|]. split; [by rewrite Ei|]. split; [|done].
  unfold IPv4_Packet.get_data in *. rewrite Ei, E5 in *. rewrite drop_app_le by (cbn; lia). by rewrite Hm.
Qed.

Section EndToEnd.
Import Socket_Send.
Context `{Clk : Clock} {W : Type} `{Sys : System W} `{Dev : Device W}.
(** The sender, a neighbor of the receiver. *)
Context (nics : list Nic) (gateway sizeof_SendBuffer fast_bits : Z) (fuel : nat).
Context (sk : Socket) (s : SendState W) (B : Nic) (hw area : bytes) (a : Z) (w : W) (data : bytes).
Let size := 8 + Z.of_nat (length data).
Hypothesis N : direct_neighbor nics s B hw.
Hypothesis id_range : is_u16 (Sockets.id (ipv4 s)).
Hypothesis ports16 : is_u16 (sport sk) ∧ is_u16 (dport sk).
Hypothesis data_bytes : is_bytes data.
Hypothesis bits : 16 <= fast_bits.
Hypothesis size_fits : 34 + size < 65536.
Hypothesis memory : dv_alloc (34 + size + sizeof_SendBuffer) (world s) = (a, area, w).
Hypothesis memory_found : a ≠ 0.
Hypothesis area_length : Z.of_nat (length area) = 34 + size.
Hypothesis area_bytes : is_bytes area.
Let own := Ipv4.ipv4_addr (n_ipv4 B).
(** The receiver: a socket bound to the port the datagram is for, with a place in its queue and memory. *)
Context (tBUFFERSIZE : Z) (mempool : nat -> Z -> option (Z * bytes)).
Context (r : Receiver) (bl : list nat) (k : nat) (q : BasicRingbuffer.t) (b : Z) (block : bytes).
Hypothesis bound_sockets : bound (demux r) bl.
Hypothesis listens : k ∈ bl ∧ port_of (demux r) k = dport sk.
Hypothesis enough : (length bl < fuel)%nat.
Hypothesis queue : m_receivequeue r !! k = Some q ∧ BasicRingbuffer.wf tBUFFERSIZE q
  ∧ Z.of_nat (length (BasicRingbuffer.contents tBUFFERSIZE q)) < BasicRingbuffer.BUFFERSIZE tBUFFERSIZE - 1.
Let n := Z.of_nat (length data).
Let need := n + ReceiveBufferUDPIPv4.sizeof_RemoteInfo + ReceiveBufferUDPIPv4.padding n.
Hypothesis room : n <= 65524 ∧ mempool k need = Some (b, block) ∧ need <= Z.of_nat (length block).

(** What a UDP socket sends over IPv4 reaches the socket bound to the port it is sent to: the datagram leaves in one frame
    for the neighbor, whose interface with that address accepts the packet, and whatever follows the packet in memory (eleven
    bytes of it may be read) a buffer with the payload, the sender's address and its port joins the queue of that socket. *)
Theorem udp4_end_to_end : exists packet s',
  transmit LE nics gateway sizeof_SendBuffer fast_bits false fuel sk data s = Some (true, s')
  ∧ world s' = dv_send (n_id B) (eth_header hw (n_address B) ++ packet) w
  ∧ (forall (i : Interface), ipv4_up i = true -> Ipv4.ipv4_addr i = Sockets.dst_ipv4_addr (ipv4 s) ->
      IPv4_Receive.ipv4_demux LE IPv4_Receive.no_reassembly i tt packet (20 + size) = Some (tt, IPv4_Receive.Proceed packet (20 + size)))
  ∧ forall junk, (11 <= length junk)%nat -> is_bytes junk -> exists buffer q',
      ipv4_demux LE tBUFFERSIZE mempool fuel (packet ++ junk) (20 + size) r
        = Some (Some (Received [], MkReceiver (demux r) (<[k := q']> (m_receivequeue r)) (<[b := buffer]> (buffers r))))
      ∧ BasicRingbuffer.contents tBUFFERSIZE q' = BasicRingbuffer.contents tBUFFERSIZE q ++ [b]
      ∧ getSize buffer = n ∧ take (length data) (getData buffer) = data
      ∧ ReceiveBufferUDPIPv4.getRemoteInfo LE buffer = ReceiveBufferUDPIPv4.MkRemote own (sport sk) ReceiveBufferUDPIPv4.id4.
Proof.
  destruct (datagram_sent nics gateway sizeof_SendBuffer fast_bits fuel sk s B hw area a w data N id_range ports16 data_bytes bits size_fits memory memory_found
    area_length area_bytes) as (c & p & s' & Hc & E & Ew & _ & Hp & Hsum).
  fold size own in Hp, Hsum. exists p, s'. split; [exact E|]. split; [exact Ew|]. split.
  { intros i Hu Hi. by apply (ar_accepted _ _ _ _ _ _ Hp). }
  intros junk Hj Bj. destruct listens as [Hbl Hport], ports16 as [Ps Pd], queue as (Hq & Hwf & Hfree), room as (Hn & Hm & Hblock).
  set (m := udp_message (sport sk) (dport sk) c data) in *.
  assert (Lm : length m = Z.to_nat size) by (unfold m; rewrite length_udp_message; unfold size; lia). assert (Bm : is_bytes m) by (by apply udp_message_bytes).
  destruct (packet_behind p junk m) as (K1 & K2 & K3 & K4 & K5).
  { pose proof (ar_length _ _ _ _ _ _ Hp). lia. } { apply Hp. } { rewrite Lm. pose proof (ar_length _ _ _ _ _ _ Hp). lia. }
  { intros Em. rewrite Em in Lm. cbn in Lm. lia. }
  destruct (udp_message_read (sport sk) (dport sk) c data junk Ps Pd Hc ltac:(unfold n in *; lia)) as (R1 & R2 & R3 & R4 & R5). fold m in R1, R2, R3, R4, R5.
  pose proof (padding_range n) as [Hpad _].
  assert (Hneed : need = n + 8 + ReceiveBufferUDPIPv4.padding n) by done.
  destruct (create4_made LE (λ x, snd <$> mempool k x) (data ++ junk) n (sport sk) own block) as (buffer & Eb & B1 & B2 & B3);
    [unfold n; lia|fold need; rewrite length_app; unfold n in *; lia|fold need; by rewrite Hm|exact Hblock|
     apply (device_ipv4 B (nb_device nics s B hw N))|done|].
  exists buffer, (BasicRingbuffer.put tBUFFERSIZE q b). split.
  - unfold ipv4_demux, IPv4_UDP_Rx_Checksumming, UDP_Receive.ipv4_demux. rewrite K1, (ar_protocol _ _ _ _ _ _ Hp), Z.eqb_refl. cbn [negb].
    change (IPv4_Packet.IPV4_MIN_HEADER_SIZE + UDP_Packet.UDP_HEADER_SIZE) with 28. change UDP_Packet.UDP_HEADER_SIZE with 8.
    rewrite K2, K3, K4, K5, (ar_source _ _ _ _ _ _ Hp), (ar_destination _ _ _ _ _ _ Hp).
    destruct (Z.ltb_spec (20 + size) 28); [unfold size in *; lia|]. destruct (Z.ltb_spec (20 + size) 8); [lia|].
    destruct (Z.ltb_spec (20 + size) 20); [unfold size in *; lia|]. cbn [orb].
    replace (20 + size - 20) with size by lia. rewrite (u32_id size), (u16_id size) by (unfold is_u32, is_u16, size in *; lia).
    unfold UDP_Packet.checksum_valid. rewrite (valid_behind _ m junk size) by
      (done || (rewrite Lm; unfold size; lia) || (unfold is_u16, size in *; lia) || (apply pseudo_header_range; [apply udp_type|unfold is_u16, size in *; lia])).
    assert (Er : forall x : option (option (fate * Receiver)), (if negb (UDP_Packet.get_checksum LE (m ++ junk) =? 0) then x else x) = x)
      by (intros; by destruct (negb _)).
    rewrite Er, R2, <- Hport, (find_socket _ bl) by done. cbn [mbind option_bind]. unfold UDP_Receive.deliver.
    rewrite R1, R3, R5. change UDP_Packet.UDP_HEADER_SIZE with 8. fold n.
    replace (u16 (8 + n - 8)) with n by (rewrite u16_id; [lia|unfold is_u16, n in *; lia]).
    rewrite K4, (ar_source _ _ _ _ _ _ Hp), Eb. cbn [mbind option_bind]. fold need. rewrite (u16_id need) by (unfold is_u16; lia).
    rewrite Hm. cbn [from_option fst]. unfold UDP_Receive.addToReceiveQueue.
    change (m_receivequeue (r <| buffers := _ |>)) with (m_receivequeue r). rewrite Hq. cbn [mbind option_bind].
    rewrite Ringbuffer.isFull_contents by done.
    destruct (Z.leb_spec (BasicRingbuffer.BUFFERSIZE tBUFFERSIZE - 1) (Z.of_nat (length (BasicRingbuffer.contents tBUFFERSIZE q)))); [lia|].
    reflexivity.
  - split.
    + rewrite Ringbuffer.put_contents by done. destruct (Z.ltb_spec (Z.of_nat (length (BasicRingbuffer.contents tBUFFERSIZE q)))
        (BasicRingbuffer.BUFFERSIZE tBUFFERSIZE - 1)); [done|lia].
    + split; [exact B1|]. split; [unfold n in B2; rewrite Nat2Z.id in B2; rewrite B2; apply take_app_length|exact B3].
Qed.
End EndToEnd.

(** ** Hosts to try it on *)

Section Example.
#[local] Existing Instances net_system net_clock net_device.

(** The host 10.0.0.2 sends four bytes from port 7000 to port 5000 of 10.0.0.1, which it knows. *)
Definition sender_example : SendState Net := Socket_Send.set_dst_addr [host_example 2] 0 (ip_example 1) state_example.
Definition udp_socket_example : Socket := MkSocket 7000 5000 None.
Definition transmit_example : option (bool * SendState Net) :=
  transmit LE [host_example 2] 0 32 32 false 40 udp_socket_example [1; 2; 3; 4] sender_example.

Lemma sender_neighbor : direct_neighbor [host_example 2] sender_example (host_example 2) [2; 0; 0; 0; 0; 1].
Proof.
  split; try reflexivity.
  - apply host_example_ok. unfold is_u8. lia.
  - unfold is_u32. vm_compute. split; [discriminate|reflexivity].
  - split; reflexivity.
Qed.

Lemma udp4_end_to_end_witness : exists packet s' buffer q',
  transmit_example = Some (true, s') ∧ net_sent (world s') = [(0%nat, eth_header [2; 0; 0; 0; 0; 1] [2; 0; 0; 0; 0; 2] ++ packet)]
  ∧ ipv4_demux LE 3 pool_example 40 (packet ++ replicate 11 0) 32 receiver_example
    = Some (Some (Received [], MkReceiver Demux.demux_example (<[1%nat := q']> (m_receivequeue receiver_example)) (<[4096 := buffer]> ∅)))
  ∧ BasicRingbuffer.contents 3 q' = [4096] ∧ take 4 (getData buffer) = [1; 2; 3; 4]
  ∧ ReceiveBufferUDPIPv4.getRemoteInfo LE buffer = ReceiveBufferUDPIPv4.MkRemote (ip_example 2) 7000 52.
Proof.
  destruct (udp4_end_to_end [host_example 2] 0 32 32 40 udp_socket_example sender_example (host_example 2) [2; 0; 0; 0; 0; 1]
    (repeat 0 46) 4096 (MkNet 1 []) [1; 2; 3; 4] sender_neighbor)
    with (tBUFFERSIZE := 3) (mempool := pool_example) (r := receiver_example) (bl := [0%nat; 1%nat]) (k := 1%nat)
      (q := BasicRingbuffer.init (replicate 3 0)) (b := 4096) (block := replicate 12 0) as (packet & s' & E1 & E2 & _ & E3).
  - unfold is_u16. vm_compute. split; [discriminate|reflexivity].
  - unfold is_u16. cbn. lia.
  - apply (bool_decide_unpack _). by vm_compute.
  - lia.
  - cbn. lia.
  - reflexivity.
  - lia.
  - reflexivity.
  - apply (bool_decide_unpack _). by vm_compute.
  - apply demux_example_bound.
  - split; [right; left|by vm_compute].
  - cbn. lia.
  - split; [reflexivity|]. split; [by constructor|by vm_compute].
  - split; [cbn; lia|]. split; [reflexivity|vm_compute; discriminate].
  - destruct (E3 (replicate 11 0)) as (buffer & q' & H1 & H2 & H3 & H4 & H5); [cbn; lia|apply (bool_decide_unpack _); by vm_compute|].
    exists packet, s', buffer, q'. split; [exact E1|]. split; [by rewrite E2|]. split; [exact H1|]. split; [exact H2|]. split; [exact H4|exact H5].
Defined.

(** A second of waiting for an empty queue, with a clock that ticks at each reading: nothing is waited for. *)
Lemma timed_receive_gives_up_witness : receive_timed 3 5 (λ s : Receiver * Z, (snd s, (fst s, snd s + 1))) 1 1000 (receiver_example, 7)
  = Some (Some (0, (receiver_example <| m_receivequeue := {[ 1%nat := BasicRingbuffer.init (replicate 3 0) ]} |>, 9))).
Proof. eapply timed_receive_gives_up; try reflexivity; [discriminate|discriminate|vm_compute; discriminate]. Defined.
End Example.
