(* ===== verification/TcpDemux.v ===== *)
(** * TcpDemux: the way of a segment to its socket

    Models the advice that finds the socket of a TCP segment over IPv4:
    [ipv4/tcp/IPv4_TCP_Receive.ah] (connections), [ipv4/tcp/IPv4_TCP_Listen.ah]
    (listening sockets), [ipv4/tcp/IPv4_TCP_Reset.ah] (nobody), in the order the
    aspects ask for, the receive queue of a socket ([TCP_Socket::packetBufferFull],
    [addToReceiveQueue]), the binding of a listening socket in [tcp/TCP_Listen.ah],
    and the way the reset leaves ([tcp/SendBuffer_TCP.ah],
    [ipv4/tcp/IPv4_TCP_Tx_Checksumming.ah]) over the sending side of [Send4].  An outer
    [None] is fuel that was used up, an inner one a null pointer or memory outside
    of the packet. *)

From stdpp Require Import gmap.
From S2P Require Import Prelude Wire Checksum Ringbuffer Packet TcpSegment LinkedList TcpHistory SendBuffer Ipv4 Headers Demux Udp Arp Send4 Icmp.

Open Scope Z_scope.

(** ** What TCP needs of the layer below *)

(** The side of a socket that the layer below keeps: the addresses of both ends. *)
Class Peer (Side Addr : Type) := {
  remote : Side -> Addr;
  local : Side -> Addr;
  same : Addr -> Addr -> bool;
  set_remote : Addr -> Side -> Side }.
Class PeerOk (Side Addr : Type) `{Peer Side Addr} (valid : Addr -> Prop) :=
  remote_set a s : valid a -> remote (set_remote a s) = a.

(** IPv4. *)
Definition peer4 (r : Router) : Peer Sockets.IPV4 Z := {|
  remote := Sockets.dst_ipv4_addr; local := Sockets.get_src_addr r; same := Z.eqb; set_remote := Sockets.set_dst_addr r |}.
Lemma peer4_ok (r : Router) : @PeerOk _ _ (peer4 r) (λ _, True).
Proof. intros a s _. cbn. unfold Sockets.set_dst_addr, Sockets.resolveRoute. by case_match. Qed.

(** ** State *)

(** The demultiplexer with both lists, which share the sockets' [next], the sides of
    the sockets, their receive queues (of pointers to buffers) and the buffers. *)
Record TcpDemux {Side : Type} := MkTcpDemux {
  tcp_sockets : Demux; tcp_head_listen_socket : option nat; sides : gmap nat Side;
  packetbuffer : gmap nat BasicRingbuffer.t; segments : gmap Z ReceiveBuffer }.
Arguments TcpDemux : clear implicits.
Arguments MkTcpDemux {Side}.
#[export] Instance TcpDemux_settable {Side} : Settable (TcpDemux Side) := λ t,
  MkTcpDemux (tcp_sockets t) (tcp_head_listen_socket t) (sides t) (packetbuffer t) (segments t).

(** What becomes of a segment: other protocols proceed; an unknown segment goes on to
    the reset advice. *)
Inductive tcp_fate := OtherProtocol | NotForUs | ToSocket (k : nat) (reports : list report) | FromListen (k : nat) | Unknown.

#[local] Abbreviation IP_TYPE_TCP := TCP_Segment.IP_TYPE_TCP.

(** ** Queues, lists and sockets, whatever the layer below *)

Section Shared.
Context {Side Addr : Type} `{P : Peer Side Addr} (tBUFFERSIZE : Z).
(** The pools of the sockets. *)
Context (mempool : nat -> Z -> option (Z * bytes)).
#[local] Abbreviation TcpDemux := (TcpDemux Side).

(** The view of the demultiplexer whose list is that of the listening sockets. *)
Definition listening (t : TcpDemux) : Demux := (tcp_sockets t) <| head_socket := tcp_head_listen_socket t |>.
Definition set_listening (d : Demux) (t : TcpDemux) : TcpDemux :=
  t <| tcp_sockets := d <| head_socket := head_socket (tcp_sockets t) |> |> <| tcp_head_listen_socket := head_socket d |>.

Definition packetBufferFull (k : nat) (t : TcpDemux) : option bool :=
  q ← packetbuffer t !! k; Some (BasicRingbuffer.isFull tBUFFERSIZE q).

(** Whether the buffer could be made. *)
Definition addToReceiveQueue (segment : bytes) (segment_len : Z) (k : nat) (t : TcpDemux) : option (bool * TcpDemux) :=
  q ← packetbuffer t !! k;
  b ← createReceiveBuffer (λ n, snd <$> mempool k n) segment segment_len;
  Some (match b with
        | None => (false, t)
        | Some b =>
            let p := from_option fst 0 (mempool k (u16 segment_len)) in
            (true, t <| segments := <[p := b]> (segments t) |>
                     <| packetbuffer := <[k := BasicRingbuffer.put tBUFFERSIZE q p]> (packetbuffer t) |>)
        end).

(** The queue of a socket gets the segment, or an error is reported. *)
Definition queue_segment (segment : bytes) (len : Z) (k : nat) (t : TcpDemux) : option (bool * list report * TcpDemux) :=
  full ← packetBufferFull k t;
  if full : bool then Some (false, [error_receiving_queue_full], t)
  else
    '(made, t) ← addToReceiveQueue segment len k t;
    Some (if made : bool then (true, [], t) else (false, [error_receiving_memory_too_small], t)).

(** The four ifs: ports and addresses seen from the sender. *)
Definition is_connection (s : Socket) (side : Side) (dport' sport' : Z) (sip dip : Addr) : bool :=
  (sport s =? dport') && (dport s =? sport') && same (remote side) sip && same (local side) dip.
Definition connection_step (t : TcpDemux) (dport' sport' : Z) (sip dip : Addr) (socket : option nat)
    : option nat + option (option nat) :=
  match socket with
  | None => inr (Some None)
  | Some k =>
      match sockets (tcp_sockets t) !! k, sides t !! k with
      | Some s, Some side => if is_connection s side dport' sport' sip dip then inr (Some (Some k)) else inl (next s)
      | _, _ => inr None
      end
  end.

(** The first listening socket on the port of a segment takes it, leaves its list and has the sender
    for its destination. *)
Definition offer (proceed : TcpDemux -> option (option (tcp_fate * TcpDemux))) (fuel : nat) (tcp_segment : bytes) (len port : Z)
    (sip : Addr) (t : TcpDemux) : option (option (tcp_fate * TcpDemux)) :=
  found ← loop fuel (UDP_Receive.find_step (listening t) port) (tcp_head_listen_socket t);
  match found with
  | None => Some None
  | Some None => proceed t
  | Some (Some k) =>
      match queue_segment tcp_segment len k t with
      | None => Some None
      | Some (false, reports, t) => Some (Some (ToSocket k reports, t))
      | Some (true, _, t) =>
          d ← Demux_TCP_Slice.deaf fuel k (listening t);
          Some (d ← d;
                let t := set_listening d t in
                Some (FromListen k, t <| sides := alter (set_remote sip) k (sides t) |>))
      end
  end.
End Shared.

(** ** The advice for IPv4 *)

Section Receive.
Context (e : endian) (r : Router) (tBUFFERSIZE : Z).
Context (mempool : nat -> Z -> option (Z * bytes)).
#[local] Abbreviation TcpDemux := (TcpDemux Sockets.IPV4).
#[local] Abbreviation connection_step := (connection_step (P := peer4 r)).
#[local] Abbreviation queue_segment := (queue_segment tBUFFERSIZE mempool).

(** Connections. *)
Definition IPv4_TCP_Receive (proceed : TcpDemux -> option (option (tcp_fate * TcpDemux))) (fuel : nat)
    (packet : bytes) (len : Z) (interface : Interface) (t : TcpDemux) : option (option (tcp_fate * TcpDemux)) :=
  if negb (IPv4_Packet.get_protocol e packet =? IP_TYPE_TCP) then proceed t
  else if Ipv4.ipv4_addr interface =? 0 then Some (Some (NotForUs, t))
  else if (len <? TCP_Segment.TCP_MIN_HEADER_SIZE) || (len <? IPv4_Packet.get_ihl e packet * 4) then Some (Some (NotForUs, t))
  else
    let len := u32 (len - IPv4_Packet.get_ihl e packet * 4) in
    let tcp_segment := IPv4_Packet.get_data e packet in
    let sip := IPv4_Packet.get_src_ipaddr e packet in
    let dip := IPv4_Packet.get_dst_ipaddr e packet in
    match InternetChecksum.checksum_valid e (computePseudoHeaderV4 sip dip len IP_TYPE_TCP) tcp_segment (u16 len) with
    | None => Some None
    | Some false => Some (Some (NotForUs, t))
    | Some true =>
        found ← loop fuel (connection_step t (TCP_Segment.get_dport e tcp_segment) (TCP_Segment.get_sport e tcp_segment) sip dip)
                  (head_socket (tcp_sockets t));
        match found with
        | None => Some None
        | Some (Some k) => Some ('(_, reports, t) ← queue_segment tcp_segment len k t; Some (ToSocket k reports, t))
        | Some None => proceed t
        end
    end.

(** Listening sockets. *)
Definition IPv4_TCP_Listen (proceed : TcpDemux -> option (option (tcp_fate * TcpDemux))) (fuel : nat)
    (packet : bytes) (len : Z) (t : TcpDemux) : option (option (tcp_fate * TcpDemux)) :=
  if IPv4_Packet.get_protocol e packet =? IP_TYPE_TCP then
    let tcp_segment := IPv4_Packet.get_data e packet in
    if TCP_Segment.has_SYN e tcp_segment then
      let len := u32 (len - IPv4_Packet.get_ihl e packet * 4) in
      offer (P := peer4 r) tBUFFERSIZE mempool proceed fuel tcp_segment len (TCP_Segment.get_dport e tcp_segment)
        (IPv4_Packet.get_src_ipaddr e packet) t
    else proceed t
  else proceed t.

(** [ipv4_demux] with the advice of TCP but the reset, which answers what is [Unknown]. *)
Definition ipv4_demux (fuel : nat) (packet : bytes) (len : Z) (interface : Interface) (t : TcpDemux)
    : option (option (tcp_fate * TcpDemux)) :=
  let last (t : TcpDemux) :=
    Some (Some ((if IPv4_Packet.get_protocol e packet =? IP_TYPE_TCP then Unknown else OtherProtocol), t)) in
  IPv4_TCP_Receive (IPv4_TCP_Listen last fuel packet len) fuel packet len interface t.

End Receive.

(** What [TCP_Listen_aspect] does with a SYN it takes from the queue: whether the connection was bound. *)
Definition bind_connection {Side} (e : endian) (fuel : nat) (k : nat) (segment : bytes) (t : TcpDemux Side)
    : option (option (bool * TcpDemux Side)) :=
  let d := (tcp_sockets t) <| sockets := alter (λ s, s <| dport := TCP_Segment.get_sport e segment |>) k (sockets (tcp_sockets t)) |> in
  res ← Demux_TCP_Slice.bind fuel k d;
  Some ('(bound, d) ← res; Some (bound : bool, t <| tcp_sockets := d |>)).

(** ** The reset *)

Module IPv4_TCP_Reset.
Section Reset.
Context (e : endian) `{Clk : Clock} {W : Type} `{Sys : System W} `{Dev : Device W}.
Context (nics : list Nic) (gateway sizeof_SendBuffer fast_bits : Z) (expires : bool) (fuel : nat).
Import Socket_Send Management_TCP_Socket.

(** [IPv4_TCP_Tx_Checksumming]. *)
Definition tcp_checksum_advice : Buffer -> option Buffer := pseudo_checksum_advice e IP_TYPE_TCP (TCP_Segment.set_checksum e).

Definition requestSendBufferTCP (interface : Nic) : SendState W -> option (option Buffer * SendState W) :=
  requestSendBuffer e nics gateway sizeof_SendBuffer fast_bits expires fuel (transport_advice IP_TYPE_TCP) interface
    TCP_Segment.TCP_MIN_HEADER_SIZE.

(** The advice for an unknown segment; the socket is that of [Management_TCP_Socket]. *)
Definition ipv4_demux (packet : bytes) (interface : Nic) (s : SendState W) : option (SendState W) :=
  let tcp_segment := IPv4_Packet.get_data e packet in
  if answers_reset e tcp_segment then
    let s := set_dst_addr nics gateway (IPv4_Packet.get_src_ipaddr e packet) s in
    match requestSendBufferTCP interface s with
    | None => None
    | Some (None, s) => Some s
    | Some (Some b, s) =>
        let payload_len := fast16 fast_bits (reset_payload_v4 e (IPv4_Packet.get_total_len e packet) (IPv4_Packet.get_ihl e packet) tcp_segment) in
        let b := on_sb (SendBuffer.at_pointer (getDataPointer b) (λ p, prepareResponse e p tcp_segment payload_len)) b in
        let b := on_sb (SendBuffer.writtenToDataPointer TCP_Segment.TCP_MIN_HEADER_SIZE) b in
        send_checked e tcp_checksum_advice b s
    end
  else Some s.
End Reset.
End IPv4_TCP_Reset.

(** ** The socket of a segment *)

(** What a queue takes in from a segment of so many bytes, or what is reported. *)
Inductive received {Side} (tBUFFERSIZE : Z) (mempool : nat -> Z -> option (Z * bytes)) (k : nat) (data : bytes) (len : Z)
    (t : TcpDemux Side) : list report -> TcpDemux Side -> Prop :=
  | received_full q :
      packetbuffer t !! k = Some q ->
      BasicRingbuffer.BUFFERSIZE tBUFFERSIZE - 1 <= Z.of_nat (length (BasicRingbuffer.contents tBUFFERSIZE q)) ->
      received tBUFFERSIZE mempool k data len t [error_receiving_queue_full] t
  | received_no_memory :
      mempool k len = None ->
      received tBUFFERSIZE mempool k data len t [error_receiving_memory_too_small] t
  | received_queued q q' a area b :
      packetbuffer t !! k = Some q -> mempool k len = Some (a, area) ->
      BasicRingbuffer.contents tBUFFERSIZE q' = BasicRingbuffer.contents tBUFFERSIZE q ++ [a] ->
      BasicRingbuffer.wf tBUFFERSIZE q' ->
      getSize b = len -> take (Z.to_nat len) (getData b) = take (Z.to_nat len) data ->
      received tBUFFERSIZE mempool k data len t []
        (t <| segments := <[a := b]> (segments t) |> <| packetbuffer := <[k := q']> (packetbuffer t) |>).

Section Fate.
Context {Side Addr : Type} `{P : Peer Side Addr} (tBUFFERSIZE : Z) (mempool : nat -> Z -> option (Z * bytes)).
#[local] Abbreviation TcpDemux := (TcpDemux Side).
(** The blocks of the pools are as long as what was asked for. *)
Hypothesis mempool_length : forall k n a area, mempool k n = Some (a, area) -> n <= Z.of_nat (length area).

(** The connections and the listening sockets, in the order of their lists. *)
Record wf (t : TcpDemux) (bl ll : list nat) : Prop := {
  wf_bound : listed (tcp_sockets t) bl;
  wf_listening : listed (listening t) ll;
  wf_disjoint : bl ## ll;
  wf_sides : Forall (λ k, is_Some (sides t !! k)) (bl ++ ll);
  wf_queues : Forall (λ k, exists q, packetbuffer t !! k = Some q ∧ BasicRingbuffer.wf tBUFFERSIZE q) (bl ++ ll) }.

Lemma queue_received (t : TcpDemux) k q data len : packetbuffer t !! k = Some q -> BasicRingbuffer.wf tBUFFERSIZE q ->
  is_u16 len -> len <= Z.of_nat (length data) ->
  exists reports t', queue_segment tBUFFERSIZE mempool data len k t = Some (bool_decide (reports = []), reports, t')
    ∧ received tBUFFERSIZE mempool k data len t reports t'.
Proof.
  intros Hq Hwf Hu Hlen. unfold queue_segment, packetBufferFull, addToReceiveQueue. rewrite Hq. cbn [mbind option_bind].
  rewrite Ringbuffer.isFull_contents by done. zcases.
  { exists [error_receiving_queue_full], t. split; [reflexivity|]. by eapply received_full. }
  unfold createReceiveBuffer. rewrite (u16_id len) by done. destruct (mempool k len) as [[a area]|] eqn:Hm; cbn [fmap option_fmap option_map snd].
  2:{ exists [error_receiving_memory_too_small], t. split; [reflexivity|]. by apply received_no_memory. }
  destruct (Z.ltb_spec (Z.of_nat (length data)) len); [lia|]. unfold store.
  assert (HN : length (take (Z.to_nat len) data) = Z.to_nat len) by (rewrite length_take; unfold is_u16 in *; lia).
  pose proof (mempool_length _ _ _ _ Hm). rewrite HN. unfold is_u16 in Hu.
  destruct (Z.leb_spec (0 + Z.of_nat (Z.to_nat len)) (Z.of_nat (length area))); [|lia].
  cbn [mbind option_bind from_option fst]. eexists [], _. split; [reflexivity|].
  eapply received_queued; [done|exact Hm| |by apply BasicRingbuffer.put_wf|done|].
  - rewrite Ringbuffer.put_contents by done. destruct (Z.ltb_spec (Z.of_nat (length (BasicRingbuffer.contents tBUFFERSIZE q)))
      (BasicRingbuffer.BUFFERSIZE tBUFFERSIZE - 1)); [done|lia].
  - unfold getData. cbn [m_dataStart]. rewrite <- HN at 1. rewrite <- (drop_0 (write _ _ _)). rewrite read_write by lia. done.
Qed.

Lemma received_keeps (t t' : TcpDemux) k data len reports : received tBUFFERSIZE mempool k data len t reports t' ->
  tcp_sockets t' = tcp_sockets t ∧ tcp_head_listen_socket t' = tcp_head_listen_socket t ∧ sides t' = sides t
  ∧ (forall j, j ≠ k -> packetbuffer t' !! j = packetbuffer t !! j).
Proof. destruct 1; split_and!; try done. intros j Hj. cbn. by rewrite lookup_insert_ne. Qed.

(** With room and memory it is taken. *)
Lemma received_taken (t t' : TcpDemux) k data len reports q a : received tBUFFERSIZE mempool k data len t reports t' ->
  packetbuffer t !! k = Some q -> Z.of_nat (length (BasicRingbuffer.contents tBUFFERSIZE q)) < BasicRingbuffer.BUFFERSIZE tBUFFERSIZE - 1 ->
  mempool k len = Some a -> reports = [].
Proof.
  destruct 1 as [q0 Hq0 Hf|Hm|]; [|congruence|done]. intros Hq Hl _. rewrite Hq0 in Hq. injection Hq as ->. lia.
Qed.

Lemma received_wf (t t' : TcpDemux) k data len reports bl ll : received tBUFFERSIZE mempool k data len t reports t' ->
  wf t bl ll -> wf t' bl ll.
Proof.
  intros Hr [B L D S Q]. pose proof (received_keeps _ _ _ _ _ _ Hr) as (E1 & E2 & E3 & E4).
  split; rewrite ?E1, ?E3; try done.
  - unfold listening. by rewrite E1, E2.
  - eapply Forall_impl; [exact Q|]. intros j (q & Hq & Hwf). destruct Hr as [| |q0 q' a area b H1 H2 H3 H4 H5 H6]; [by exists q..|].
    cbn. destruct (decide (j = k)) as [->|]; [rewrite lookup_insert_eq; by exists q'|rewrite lookup_insert_ne by done; by exists q].
Qed.

(** *** Connections *)

Definition connected (t : TcpDemux) (dport' sport' : Z) (sip dip : Addr) (k : nat) : bool :=
  match sockets (tcp_sockets t) !! k, sides t !! k with
  | Some s, Some side => is_connection s side dport' sport' sip dip
  | _, _ => false
  end.
(** The first socket of a list that passes a test. *)
Definition first_of (f : nat -> bool) (l : list nat) : option nat := snd <$> list_find (λ k, f k = true) l.

Lemma first_of_cons f i l : first_of f (i :: l) = if f i then Some i else first_of f l.
Proof.
  unfold first_of. cbn [list_find]. destruct (f i); [by rewrite decide_True|]. rewrite decide_False by done.
  by destruct (list_find _ l) as [[? ?]|].
Qed.
Lemma first_of_Some f l k : first_of f l = Some k -> k ∈ l ∧ f k = true.
Proof.
  unfold first_of. destruct (list_find _ l) as [[i x]|] eqn:E; [|done]. intros [= <-].
  apply list_find_Some in E as (H1 & H2 & _). split; [by eapply list_elem_of_lookup_2|done].
Qed.

Lemma connection_loop (t : TcpDemux) bl p q sip dip : listed (tcp_sockets t) bl -> Forall (λ k, is_Some (sides t !! k)) bl ->
  forall l2 l1 fuel current, bl = l1 ++ l2 -> chain (nxt (tcp_sockets t)) current l2 -> (length l2 < fuel)%nat ->
  loop fuel (connection_step t p q sip dip) current = Some (Some (first_of (connected t p q sip dip) l2)).
Proof.
  intros Hl Hs. induction l2 as [|i l2 IH]; intros l1 fuel current E Hc Hf; (destruct fuel as [|fuel]; [by apply Nat.nlt_0_r in Hf|]).
  - cbn in Hc. by subst current.
  - destruct Hc as [-> Hc].
    assert (Hi : i ∈ bl) by (subst bl; apply elem_of_app; right; left).
    destruct (socket_at _ bl i Hl Hi) as (s & Es & _ & En). rewrite Forall_forall in Hs. destruct (Hs i Hi) as [side Eside].
    cbn [loop connection_step]. rewrite Es, Eside, first_of_cons. unfold connected at 1. rewrite Es, Eside.
    destruct (is_connection _ _ _ _ _ _); [done|]. rewrite <- En. apply (IH (l1 ++ [i])); [by rewrite <- app_assoc|done|cbn in Hf; lia].
Qed.

Lemma listen_loop d l port fuel : listed d l -> (length l < fuel)%nat ->
  loop fuel (UDP_Receive.find_step d port) (head_socket d) = Some (Some (first_of (λ i, bool_decide (port_of d i = port)) l)).
Proof.
  intros Hl Hf. rewrite (find_loop d l port Hl l [] fuel) by (done || apply Hl). do 2 f_equal. unfold first_of.
  rewrite (list_find_ext (λ k, bool_decide (port_of d k = port) = true) (λ i, port_of d i = port)).
  - by destruct (list_find _ l) as [[? ?]|].
  - intros k. by rewrite bool_decide_eq_true.
Qed.

(** *** Leaving the list of listening sockets *)

Lemma NoDup_middle {A} (x : A) l1 l2 m1 m2 : NoDup (l1 ++ x :: l2) -> l1 ++ x :: l2 = m1 ++ x :: m2 -> l1 = m1 ∧ l2 = m2.
Proof.
  revert m1. induction l1 as [|y l1 IH]; intros [|z m1] Hn E; cbn in *.
  - by injection E.
  - injection E as <- ->. apply NoDup_cons in Hn as [[] _]. apply elem_of_app. right. left.
  - injection E as -> _. apply NoDup_cons in Hn as [[] _]. apply elem_of_app. right. left.
  - injection E as <- E. apply NoDup_cons in Hn as [_ Hn]. destruct (IH m1 Hn E) as [-> ->]. done.
Qed.

Lemma chain_other nxt' d l h : chain (nxt d) h l -> (forall j, j ∈ l -> nxt' j = nxt d j) -> chain nxt' h l.
Proof. intros Hc H. by apply chain_ext with (nxt := nxt d). Qed.

Lemma listed_frame d d' l : listed d l -> head_socket d' = head_socket d -> (forall j, j ∈ l -> sockets d' !! j = sockets d !! j) ->
  listed d' l.
Proof.
  intros (Hc & Hn & Hs) Hh Hj. split_and!; [|done|].
  - rewrite Hh. apply chain_other with d; [done|]. intros j H. unfold nxt. by rewrite Hj.
  - rewrite Forall_forall in *. intros j H. rewrite Hj by done. by apply Hs.
Qed.

Lemma deaf_listening (t : TcpDemux) bl l1 k l2 fuel : wf t bl (l1 ++ k :: l2) -> (length (l1 ++ k :: l2) < fuel)%nat ->
  exists d, Demux_TCP_Slice.deaf fuel k (listening t) = Some (Some d) ∧ wf (set_listening d t) bl (l1 ++ l2)
    ∧ (forall j, port_of d j = port_of (tcp_sockets t) j) ∧ last_default_port d = last_default_port (tcp_sockets t).
Proof.
  intros [B L D S Q] Hf. destruct (unbind_listed (listening t) l1 k l2 fuel L Hf) as (d & E & Hl & Hp & Ho & Hlast).
  exists d. split; [exact E|]. split; [|done].
  assert (Hsub : forall j, j ∈ bl ++ l1 ++ l2 -> j ∈ bl ++ l1 ++ k :: l2).
  { intros j. rewrite !elem_of_app, elem_of_cons. tauto. }
  rewrite Forall_forall in S, Q. split; [| | |by apply Forall_forall; auto|by apply Forall_forall; auto].
  - apply listed_frame with (tcp_sockets t); [done|done|]. intros j Hj. apply (Ho j). intros Hj1.
    apply (D j Hj). apply elem_of_app. by left.
  - destruct Hl as (H1 & H2 & H3). by split_and!.
  - intros j Hj Hj2. apply (D j Hj). apply elem_of_app. apply elem_of_app in Hj2 as [?|?]; [by left|right; by right].
Qed.

(** *** Finding it *)

Section Segment.
Context (t : TcpDemux) (bl ll : list nat) (seg : bytes) (n : Z) (sport' dport' : Z) (syn : bool) (sip dip : Addr) (fuel : nat).
Hypothesis state_wf : wf t bl ll.
Hypothesis length_given : is_u16 n ∧ n <= Z.of_nat (length seg).
Hypothesis enough : (length bl < fuel ∧ length ll < fuel)%nat.

(** The connection a segment belongs to, and the socket that listens for it. *)
Definition connection : option nat := first_of (connected t dport' sport' sip dip) bl.
Definition listener : option nat :=
  if syn then first_of (λ i, bool_decide (port_of (tcp_sockets t) i = dport')) ll else None.
(** A listening socket takes the segment as the first of a connection. *)
Definition accepted (k : nat) (t1 t' : TcpDemux) : Prop :=
  packetbuffer t' = packetbuffer t1 ∧ segments t' = segments t1
  ∧ (forall j, port_of (tcp_sockets t') j = port_of (tcp_sockets t) j)
  ∧ (remote <$> sides t' !! k) = Some sip ∧ (forall j, j ≠ k -> sides t' !! j = sides t !! j)
  ∧ forall l1 l2, ll = l1 ++ k :: l2 -> wf t' bl (l1 ++ l2).
(** What becomes of a valid segment. *)
Definition dispatched (result : option (option (tcp_fate * TcpDemux))) : Prop :=
  match connection, listener with
  | Some k, _ => exists reports t', result = Some (Some (ToSocket k reports, t'))
      ∧ received tBUFFERSIZE mempool k seg n t reports t' ∧ wf t' bl ll
  | None, Some k => exists reports t1, received tBUFFERSIZE mempool k seg n t reports t1
      ∧ if bool_decide (reports = [])
        then exists t', result = Some (Some (FromListen k, t')) ∧ accepted k t1 t'
        else result = Some (Some (ToSocket k reports, t))
  | None, None => result = Some (Some (Unknown, t))
  end.

(** The segment goes into the queue of a socket of the lists. *)
Lemma queued k : k ∈ bl ++ ll -> exists reports t1,
  queue_segment tBUFFERSIZE mempool seg n k t = Some (bool_decide (reports = []), reports, t1)
  ∧ received tBUFFERSIZE mempool k seg n t reports t1 ∧ wf t1 bl ll.
Proof.
  intros Hk. destruct length_given as [Hu Hl]. pose proof (wf_queues _ _ _ state_wf) as Q. rewrite Forall_forall in Q.
  destruct (Q k Hk) as (q & Hq & Hwf). destruct (queue_received t k q seg n Hq Hwf Hu Hl) as (reports & t1 & E & Hr).
  exists reports, t1. split; [exact E|]. split; [exact Hr|]. by eapply received_wf.
Qed.

Hypothesis sip_set : forall side, remote (set_remote sip side) = sip.

Lemma taken_from_listen k t1 : k ∈ ll -> received tBUFFERSIZE mempool k seg n t [] t1 -> wf t1 bl ll ->
  exists d t', Demux_TCP_Slice.deaf fuel k (listening t1) = Some (Some d)
    ∧ t' = (set_listening d t1) <| sides := alter (set_remote sip) k (sides t1) |> ∧ accepted k t1 t'.
Proof.
  intros Hk Hr Hwf. apply list_elem_of_split in Hk as (l1 & l2 & E). pose proof Hwf as Hwf1. rewrite E in Hwf1.
  destruct (deaf_listening t1 bl l1 k l2 fuel Hwf1) as (d & Ed & Hd & Hp & _); [rewrite <- E; apply enough|].
  destruct (received_keeps _ _ _ _ _ _ Hr) as (K1 & K2 & K3 & K4).
  eexists d, _. split; [exact Ed|]. split; [reflexivity|].
  assert (Hside : is_Some (sides t1 !! k)).
  { pose proof (wf_sides _ _ _ Hwf) as S. rewrite Forall_forall in S. apply S. rewrite E, !elem_of_app. right. right. left. }
  destruct Hside as [side Hside]. split; [done|]. split; [done|]. split; [|split; [|split]].
  - intros j. rewrite <- K1. apply Hp.
  - cbn. rewrite lookup_alter_eq, Hside. cbn. by rewrite sip_set.
  - intros j Hj. cbn. by rewrite lookup_alter_ne, K3.
  - intros m1 m2 E2. pose proof (proj1 (proj2 (wf_listening _ _ _ Hwf))) as Hn. rewrite E in E2, Hn.
    destruct (NoDup_middle _ _ _ _ _ Hn E2) as [<- <-].
    destruct Hd as [B L D S Q]. split; try done.
    eapply Forall_impl; [exact S|]. intros j Hj. cbn. destruct (decide (j = k)) as [->|];
      [rewrite lookup_alter_eq, Hside; by eexists|by rewrite lookup_alter_ne].
Qed.

(** The way of a valid segment through both lists. *)
Definition passed (unknown : TcpDemux -> option (option (tcp_fate * TcpDemux))) : option (option (tcp_fate * TcpDemux)) :=
  match connection with
  | Some k => Some ('(_, reports, t) ← queue_segment tBUFFERSIZE mempool seg n k t; Some (ToSocket k reports, t))
  | None => if syn then offer tBUFFERSIZE mempool unknown fuel seg n dport' sip t else unknown t
  end.

Lemma searched_connections : loop fuel (connection_step t dport' sport' sip dip) (head_socket (tcp_sockets t)) = Some (Some connection).
Proof.
  destruct state_wf as [B _ _ S _]. apply Forall_app in S as [S _].
  by rewrite (connection_loop t bl _ _ _ _ B S bl [] fuel) by (done || apply B || apply enough).
Qed.

Lemma passed_dispatched : dispatched (passed (λ t, Some (Some (Unknown, t)))).
Proof.
  unfold dispatched, passed. destruct connection as [k|] eqn:Ec.
  - apply first_of_Some in Ec as [Hk _]. destruct (queued k) as (reports & t1 & E & Hr & Hw); [apply elem_of_app; by left|].
    exists reports, t1. by rewrite E.
  - unfold listener. destruct syn; [|done]. unfold offer. change (tcp_head_listen_socket t) with (head_socket (listening t)).
    rewrite (listen_loop (listening t) ll) by (apply state_wf || apply enough). cbn [mbind option_bind].
    change (port_of (listening t)) with (port_of (tcp_sockets t)). destruct (first_of _ ll) as [k|] eqn:El; [|done].
    apply first_of_Some in El as [Hk _].
    destruct (queued k) as (reports & t1 & E & Hr & Hw); [apply elem_of_app; by right|].
    exists reports, t1. split; [exact Hr|]. rewrite E. destruct (decide (reports = [])) as [->|Hne].
    + rewrite !bool_decide_eq_true_2 by done. destruct (taken_from_listen k t1 Hk Hr Hw) as (d & t' & -> & -> & Ha).
      eexists. split; [reflexivity|exact Ha].
    + rewrite !bool_decide_eq_false_2 by done. by inversion Hr; subst.
Qed.

Lemma dispatched_answers a : dispatched a -> exists f t', a = Some (Some (f, t')).
Proof.
  unfold dispatched. destruct connection as [k|].
  - intros (reports & t' & -> & _). by eexists _, _.
  - destruct listener as [k|]; [|intros ->; by eexists _, _].
    intros (reports & t1 & _ & H). destruct (bool_decide _); [destruct H as (t' & -> & _)|rewrite H]; by eexists _, _.
Qed.
End Segment.
End Fate.

(** ** Segments over IPv4 *)

Lemma tcp_type : is_u8 IP_TYPE_TCP.
Proof. unfold is_u8, IP_TYPE_TCP. lia. Qed.

Section Segment4.
Context (r : Router) (tBUFFERSIZE : Z) (mempool : nat -> Z -> option (Z * bytes)).
Hypothesis mempool_length : forall k n a area, mempool k n = Some (a, area) -> n <= Z.of_nat (length area).
Context (t : TcpDemux Sockets.IPV4) (bl ll : list nat) (packet : bytes) (len : Z) (interface : Interface) (fuel : nat).
Hypothesis state_wf : wf tBUFFERSIZE t bl ll.
Hypothesis packet_bytes : is_bytes packet.
Hypothesis length_given : is_u16 len ∧ len <= Z.of_nat (length packet).
Hypothesis enough : (length bl < fuel ∧ length ll < fuel)%nat.

Let seg := IPv4_Packet.get_data LE packet.
Let ihl := IPv4_Packet.get_ihl LE packet * 4.
Let n := len - ihl.
Let sip := IPv4_Packet.get_src_ipaddr LE packet.
Let dip := IPv4_Packet.get_dst_ipaddr LE packet.
Let result := ipv4_demux LE r tBUFFERSIZE mempool fuel packet len interface t.
Let syn := TCP_Segment.has_SYN LE seg.

Hypothesis tcp : IPv4_Packet.get_protocol LE packet = IP_TYPE_TCP.

Lemma refused : Ipv4.ipv4_addr interface = 0 ∨ len < TCP_Segment.TCP_MIN_HEADER_SIZE ∨ len < ihl -> result = Some (Some (NotForUs, t)).
Proof.
  intros H. unfold result, ipv4_demux, IPv4_TCP_Receive. rewrite tcp. cbn [negb]. change (IP_TYPE_TCP =? IP_TYPE_TCP) with true.
  cbn [negb]. destruct (Z.eqb_spec (Ipv4.ipv4_addr interface) 0) as [|H0]; [done|]. fold ihl.
  destruct (Z.ltb_spec len TCP_Segment.TCP_MIN_HEADER_SIZE), (Z.ltb_spec len ihl); try done. exfalso. lia.
Qed.

Hypothesis address : Ipv4.ipv4_addr interface ≠ 0.
Hypothesis long : TCP_Segment.TCP_MIN_HEADER_SIZE <= len ∧ ihl <= len.

Lemma n_range : is_u16 n ∧ n <= Z.of_nat (length seg).
Proof.
  pose proof (get_ihl_bytes LE packet packet_bytes) as Hi. destruct length_given as [Hu Hl], long as [H1 H2].
  unfold n, seg, ihl, IPv4_Packet.get_data, is_u16 in *. rewrite length_drop. lia.
Qed.

Lemma checksum_answers : exists valid,
  InternetChecksum.checksum_valid LE (computePseudoHeaderV4 sip dip n IP_TYPE_TCP) seg n = Some valid.
Proof.
  destruct n_range as [Hu Hl]. edestruct (InternetChecksum.checksum_valid_iff (computePseudoHeaderV4 sip dip n IP_TYPE_TCP) seg n)
    as (valid & E & _); [|done|done|by apply pseudo_header_range; [apply tcp_type|]|by exists valid].
  apply Forall_drop, packet_bytes.
Qed.

Lemma result_checked valid :
  InternetChecksum.checksum_valid LE (computePseudoHeaderV4 sip dip n IP_TYPE_TCP) seg n = Some valid ->
  result = if valid then passed (P := peer4 r) tBUFFERSIZE mempool t bl seg n (TCP_Segment.get_sport LE seg) (TCP_Segment.get_dport LE seg)
                           syn sip dip fuel (λ t, Some (Some (Unknown, t)))
    else Some (Some (NotForUs, t)).
Proof.
  intros Hv. destruct n_range as [Hu _]. unfold result, ipv4_demux, IPv4_TCP_Receive, IPv4_TCP_Listen. rewrite tcp.
  change (IP_TYPE_TCP =? IP_TYPE_TCP) with true.
  cbn [negb]. rewrite (proj2 (Z.eqb_neq _ _) address). fold ihl.
  destruct (Z.ltb_spec len TCP_Segment.TCP_MIN_HEADER_SIZE), (Z.ltb_spec len ihl); try (exfalso; lia). cbn [orb]. fold n.
  rewrite (u32_id n), (u16_id n) by (unfold is_u16, is_u32 in *; lia). fold seg sip dip syn. rewrite Hv. destruct valid; [|done].
  rewrite (searched_connections (P := peer4 r) tBUFFERSIZE t bl ll _ _ _ _ fuel state_wf enough). cbn [mbind option_bind].
  unfold passed. by destruct (connection _ _ _ _ _ _).
Qed.

(** C36: A segment whose checksum is right goes to the first connection with its addresses and ports; a
    SYN for no connection goes to the first socket that listens on its port, which then leaves
    the listening sockets (the others and the connections stay as they are, in their order) and
    has the sender as its destination; any other is unknown.  The queue of the socket found
    takes the bytes of the segment at its end, or the reason why not is reported and
    nothing has changed.  All other segments change nothing. *)
Theorem tcp_segment_fate :
  exists valid, InternetChecksum.checksum_valid LE (computePseudoHeaderV4 sip dip n IP_TYPE_TCP) seg n = Some valid
  ∧ if valid then dispatched (P := peer4 r) tBUFFERSIZE mempool t bl ll seg n (TCP_Segment.get_sport LE seg)
                    (TCP_Segment.get_dport LE seg) syn sip dip result
    else result = Some (Some (NotForUs, t)).
Proof.
  destruct checksum_answers as [valid Hv]. exists valid. split; [exact Hv|]. rewrite (result_checked valid Hv).
  destruct valid; [|done]. apply passed_dispatched; [exact mempool_length|exact state_wf|apply n_range|exact enough|].
  intros side. by apply (peer4_ok r).
Qed.
End Segment4.

(** ** The reset of an unknown segment *)

Section ResetMessage.
Import Management_TCP_Socket.
Context (rest seg : bytes) (payload_len : Z).
Hypothesis rest_shape : length rest = 20%nat ∧ is_bytes rest.
Let P := prepareResponse LE rest seg payload_len.

Lemma reset_shape : length P = 20%nat ∧ is_bytes P.
Proof.
  destruct rest_shape as [Hr Hb].
  split; unfold P, prepareResponse; destruct (TCP_Segment.has_ACK LE seg).
  1,2: unfold TCP_Segment.set_acknum, TCP_Segment.set_flags, TCP_Segment.set_seqnum, TCP_Segment.set_checksum, TCP_Segment.set_urgend_ptr,
    TCP_Segment.set_window, TCP_Segment.set_header_len, TCP_Segment.set_sport, TCP_Segment.set_dport; by rewrite !length_setf.
  all: repeat apply setf_bytes; exact Hb.
Qed.

(** The checksum of the reset is the two bytes at offset 16. *)
Lemma checksum_set : exists l c0 r, P = l ++ c0 ++ r ∧ length c0 = 2%nat ∧ Nat.Even (length l) ∧ length (l ++ r) = 18%nat ∧ is_bytes (l ++ r)
  ∧ forall v c, is_u16 v -> length c = 2%nat -> TCP_Segment.set_checksum LE v (l ++ c ++ r) = l ++ be16 v ++ r.
Proof.
  destruct reset_shape as (Hl & Hb). exists (take 16 P), (take 2 (drop 16 P)), (drop 18 P).
  split. { rewrite <- (take_drop 16 P) at 1. f_equal. rewrite <- (take_drop 2 (drop 16 P)) at 1. by rewrite drop_drop. }
  split; [rewrite length_take, length_drop; lia|]. split; [exists 8%nat; rewrite length_take; lia|].
  split; [rewrite length_app, length_take, length_drop; lia|]. split; [rewrite is_bytes_app; auto with width|].
  intros v c Hv Hc. assert (Ev : be16 v = fbytes LE K16 v).
  { cbn [fbytes]. rewrite LittleEndian.set16_network by side. by rewrite u16_id. }
  rewrite Ev. unfold TCP_Segment.set_checksum, setf. cbn [f_off f_kind TCP_Segment.f_checksum].
  assert (E16 : length (take 16 P) = 16%nat) by (rewrite length_take; lia). rewrite <- E16 at 1. apply write_app. by rewrite length_fbytes, Hc.
Qed.

(** What its receiver reads when the checksum has been filled in. *)
Lemma reset_read v : is_bytes seg -> 0 <= payload_len < 65536 ->
  let M := TCP_Segment.set_checksum LE v P in
  TCP_Segment.get_dport LE M = TCP_Segment.get_sport LE seg ∧ TCP_Segment.get_sport LE M = TCP_Segment.get_dport LE seg
  ∧ TCP_Segment.has_RST LE M = true
  ∧ if TCP_Segment.has_ACK LE seg
    then TCP_Segment.get_seqnum LE M = TCP_Segment.get_acknum LE seg ∧ TCP_Segment.has_ACK LE M = false
    else TCP_Segment.get_seqnum LE M = 0 ∧ TCP_Segment.has_ACK LE M = true
      ∧ TCP_Segment.get_acknum LE M = u32 (TCP_Segment.get_seqnum LE seg + payload_len
          + (if TCP_Segment.has_SYN LE seg || TCP_Segment.has_FIN LE seg then 1 else 0)).
Proof.
  intros Hseg Hnum M.
  assert (Hkept : forall f, (fend f <= 16)%nat -> getf LE f M = getf LE f P).
  { intros f Hf. apply getf_setf_ne. left. exact Hf. }
  destruct (reset_follows_rfc793 LE rest seg payload_len) as (F1 & F2 & _ & F4 & F5 & F6); [apply rest_shape|exact Hseg|destruct rest_shape; lia|].
  fold P in F1, F2, F4, F5, F6.
  assert (Hflag : forall f, TCP_Segment.has_flag LE f M = TCP_Segment.has_flag LE f P)
    by (intros f; unfold TCP_Segment.has_flag; rewrite Hkept by (cbn; lia); done).
  unfold TCP_Segment.has_RST, TCP_Segment.get_dport, TCP_Segment.get_sport, TCP_Segment.get_seqnum, TCP_Segment.get_acknum in *.
  rewrite Hflag, !Hkept by (cbn; lia).
  split; [exact F1|]. split; [exact F2|]. split; [exact F4|]. change (TCP_Segment.has_ACK LE M) with (TCP_Segment.has_flag LE TCP_Segment.ACK_FLAG M).
  rewrite Hflag. destruct (TCP_Segment.has_ACK LE seg); auto.
Qed.
End ResetMessage.

(** SEG.LEN of RFC 793 page 25: the bytes of a segment and its SYN and FIN. *)
Definition sequence_length (seg : bytes) (payload_len : Z) : Z :=
  payload_len + Z.b2z (TCP_Segment.has_SYN LE seg) + Z.b2z (TCP_Segment.has_FIN LE seg).

Section ResetSent.
Import Socket_Send Management_TCP_Socket IPv4_TCP_Reset.
Context `{Clk : Clock} {W : Type} `{Sys : System W} `{Dev : Device W}.
Context (nics : list Nic) (gateway sizeof_SendBuffer fast_bits : Z) (fuel : nat) (s : SendState W).
Context (packet : bytes) (B : Nic) (hw : bytes) (area : bytes) (a : Z) (w : W).
Let src := IPv4_Packet.get_src_ipaddr LE packet.
Let s1 := set_dst_addr nics gateway src s.
Let seg := IPv4_Packet.get_data LE packet.
Let payload_len := IPv4_Packet.get_total_len LE packet - (IPv4_Packet.get_ihl LE packet + TCP_Segment.get_header_len LE seg) * 4.
Hypothesis packet_bytes : is_bytes packet.
Hypothesis N : direct_neighbor nics s1 B hw.
Hypothesis id_range : is_u16 (Sockets.id (ipv4 s)).
Hypothesis bits : 16 <= fast_bits.
Hypothesis memory : dv_alloc (54 + sizeof_SendBuffer) (world s) = (a, area, w).
Hypothesis memory_found : a ≠ 0.
Hypothesis area_length : Z.of_nat (length area) = 54.
Hypothesis area_bytes : is_bytes area.
Hypothesis payload_known : 0 <= payload_len.

Let rest := drop 34 area.
Let hdr := ip_header nics gateway s1 area 20 IP_TYPE_TCP.
Let eth := eth_header hw (n_address B).
Let tcp_buffer := transport_buffer B a 20.
Let size_fits : 8 <= 20 ∧ 34 + 20 < 65536.
Proof. lia. Qed.

Lemma s1_keeps : Sockets.id (ipv4 s1) = Sockets.id (ipv4 s) ∧ world s1 = world s ∧ cache s1 = cache s.
Proof. by destruct (set_dst_addr_keeps nics gateway src s) as (_ & ? & ? & ?). Qed.

Let P := prepareResponse LE rest seg payload_len.
Let rest_shape : length rest = 20%nat ∧ is_bytes rest.
Proof. unfold rest. split; [rewrite length_drop; lia|auto with width]. Qed.

Lemma at_tcp d f m : on_sb (SendBuffer.at_pointer 34 f) (tcp_buffer d (eth ++ hdr ++ m)) = tcp_buffer d (eth ++ hdr ++ f m).
Proof. apply (at_message nics gateway s1 B hw area a 20 _ N size_fits area_length area_bytes). Qed.

Let sum : Z := computePseudoHeaderV4 (Ipv4.ipv4_addr (n_ipv4 B)) src 20 IP_TYPE_TCP.

Lemma reset_summed : exists v, is_u16 v
  ∧ tcp_checksum_advice LE (tcp_buffer 54 (eth ++ hdr ++ P)) = Some (tcp_buffer 54 (eth ++ hdr ++ TCP_Segment.set_checksum LE v P))
  ∧ InternetChecksum.checksum_valid LE sum (TCP_Segment.set_checksum LE v P) 20 = Some true.
Proof.
  destruct (checksum_set rest seg payload_len rest_shape) as (l & c0 & r & EP & Lc & He & Hl & Hb & Hset). fold P in EP.
  rewrite length_app in Hl.
  destruct (message_summed nics gateway s1 B hw area a 20 IP_TYPE_TCP N size_fits area_length area_bytes tcp_type
    (TCP_Segment.set_checksum LE) l c0 r) as (v & Hv & E1 & E2); try done; [lia|].
  exists v. split; [done|]. rewrite EP, (Hset v c0 Hv Lc). split; [exact E1|].
  unfold sum. destruct (set_dst_addr_keeps nics gateway src s) as (Edst & _). fold s1 in Edst. by rewrite <- Edst.
Qed.

(** C38: A segment nobody expects, whose headers fit in its packet, is answered: unless it is a reset
    itself, the sender, a neighbor whose hardware address the cache knows, gets one frame with a packet
    it accepts, from the address of the interface; the segment in it has a right checksum and is the
    reset of RFC 793 page 36: between the same ports, with the number the segment acknowledges, or
    acknowledging what the segment occupies of the sequence space -- but one less for a segment with
    both SYN and FIN, which the code counts as one and the RFC as two. *)
Theorem unknown_segment_reset :
  TCP_Segment.has_RST LE seg = false ->
  exists s' q m, IPv4_TCP_Reset.ipv4_demux LE nics gateway sizeof_SendBuffer fast_bits false fuel packet B s = Some s'
    ∧ world s' = dv_send (n_id B) (eth ++ q) w ∧ cache s' = cache s
    ∧ arrives s1 20 IP_TYPE_TCP q (Ipv4.ipv4_addr (n_ipv4 B)) m
    ∧ InternetChecksum.checksum_valid LE
        (computePseudoHeaderV4 (IPv4_Packet.get_src_ipaddr LE q) (IPv4_Packet.get_dst_ipaddr LE q) 20 IP_TYPE_TCP) m 20 = Some true
    ∧ TCP_Segment.get_dport LE m = TCP_Segment.get_sport LE seg ∧ TCP_Segment.get_sport LE m = TCP_Segment.get_dport LE seg
    ∧ TCP_Segment.has_RST LE m = true
    ∧ if TCP_Segment.has_ACK LE seg
      then TCP_Segment.get_seqnum LE m = TCP_Segment.get_acknum LE seg ∧ TCP_Segment.has_ACK LE m = false
      else TCP_Segment.get_seqnum LE m = 0 ∧ TCP_Segment.has_ACK LE m = true
        ∧ TCP_Segment.get_acknum LE m = u32 (TCP_Segment.get_seqnum LE seg + sequence_length seg payload_len
            - (if TCP_Segment.has_SYN LE seg && TCP_Segment.has_FIN LE seg then 1 else 0)).
Proof.
  intros Hrst. destruct (reset_shape rest seg payload_len rest_shape) as (HP & HbP). fold P in HP, HbP. destruct reset_summed as (v & Hv & Esum & Evalid).
  destruct s1_keeps as (Ei & Ew & Ec). set (M := TCP_Segment.set_checksum LE v P) in *.
  assert (LM : length M = Z.to_nat 20) by (unfold M, TCP_Segment.set_checksum; rewrite length_setf; lia).
  assert (BM : is_bytes M) by (apply setf_bytes, HbP). pose proof id_range as Hid. rewrite <- Ei in Hid.
  set (st := s1 <| world := w |> <| ipv4 := snd (Sockets.setupHeader LE (router nics gateway) 40 (take 20 (drop 14 area)) (ipv4 s1)) |>).
  destruct (transport_sent nics gateway s1 B hw area a 20 _ N Hid size_fits area_length area_bytes tcp_type
    (tcp_checksum_advice LE) 54 P M st Esum LM BM) as (q & Es & Hq).
  assert (Hnum : 0 <= payload_len < 65536).
  { split; [exact payload_known|]. assert (Ht : is_u16 (IPv4_Packet.get_total_len LE packet)) by exact (getf_range LE IPv4_Packet.f_total_len packet packet_bytes).
    pose proof (get_ihl_bytes LE packet packet_bytes). pose proof (TCP_Segment.header_len_range LE seg (is_bytes_drop _ _ packet_bytes)).
    unfold payload_len, is_u16 in *. lia. }
  eexists (st <| world := dv_send (n_id B) (eth ++ q) w |>), q, M. split; [|split; [done|]].
  - unfold IPv4_TCP_Reset.ipv4_demux. fold seg. unfold answers_reset. rewrite Hrst. cbn [Bool.eqb]. fold src s1. unfold requestSendBufferTCP.
    change TCP_Segment.TCP_MIN_HEADER_SIZE with 20.
    replace s1 with (s1 <| world := world s1 |>) at 1 by (by destruct s1).
    rewrite (request_prepared LE nics gateway sizeof_SendBuffer fast_bits fuel s1 B hw area a 20 w N bits ltac:(lia)
      area_length (transport_advice IP_TYPE_TCP) (world s1) ltac:(rewrite Ew; exact memory) memory_found)
      by (by rewrite (transport_prepared nics gateway s1 B hw area a 20 _ N size_fits area_length area_bytes tcp_type)).
    rewrite (transport_prepared nics gateway s1 B hw area a 20 _ N size_fits area_length area_bytes tcp_type).
    fold rest hdr eth tcp_buffer. change (reset_payload_v4 LE _ _ seg) with payload_len. rewrite fast16_small by lia.
    change (getDataPointer (tcp_buffer 34 ?m)) with 34. rewrite at_tcp. fold P.
    change (on_sb (SendBuffer.writtenToDataPointer 20) (tcp_buffer 34 ?m)) with (tcp_buffer 54 m). fold st. exact Es.
  - split; [exact Ec|]. split; [exact Hq|].
    pose proof (ar_destination _ _ _ _ _ _ Hq) as Edst. rewrite (ar_source _ _ _ _ _ _ Hq), Edst.
    assert (E : Sockets.dst_ipv4_addr (ipv4 s1) = src) by apply (set_dst_addr_keeps nics gateway src s). rewrite E. fold sum. split; [exact Evalid|].
    destruct (reset_read rest seg payload_len rest_shape v (is_bytes_drop _ _ packet_bytes) Hnum) as (F1 & F2 & F3 & F4).
    split_and!; [exact F1|exact F2|exact F3|]. revert F4. fold P M. destruct (TCP_Segment.has_ACK LE seg); [done|].
    intros (F4 & F5 & F6). split_and!; [exact F4|exact F5|]. rewrite F6. f_equal. unfold sequence_length.
    destruct (TCP_Segment.has_SYN LE seg), (TCP_Segment.has_FIN LE seg); cbn; lia.
Qed.
End ResetSent.

(** ** Listening sockets and connections *)

(** The segment a listening socket took never makes it a connection: with no connection a null
    pointer is followed, else the search for a conflict finds one or does not end. *)
Theorem listener_never_connects (tBUFFERSIZE : Z) {Side} (t : TcpDemux Side) (bl ll : list nat) (k fuel : nat) (segment : bytes) :
  wf tBUFFERSIZE t bl ll -> k ∈ ll -> port_of (tcp_sockets t) k ≠ 0 ->
  (forall t', bind_connection LE fuel k segment t ≠ Some (Some (true, t')))
  ∧ (bl = [] -> fuel ≠ 0%nat -> bind_connection LE fuel k segment t = Some None).
Proof.
  intros [Bd L D S Q] Hk Hp. destruct (socket_at _ ll k L Hk) as (s & Es & Ep & _). cbn in Es.
  change (port_of (listening t) k) with (port_of (tcp_sockets t) k) in Ep. rewrite Ep in Hp.
  unfold bind_connection. set (d := (tcp_sockets t) <| sockets := _ |>).
  assert (Hd : listed d bl).
  { apply listed_frame with (tcp_sockets t); [done|done|]. intros j Hj. cbn. apply lookup_alter_ne. intros ->. by apply (D j). }
  rewrite (tcp_bind_never_binds d bl k (s <| dport := TCP_Segment.get_sport LE segment |>) fuel Hd); [|cbn; by rewrite lookup_alter_eq, Es|done].
  split.
  - intros t'. destruct bl as [|i bl]; [by destruct (bool_decide _)|]. by destruct (bool_decide _).
  - intros -> Hf. by rewrite bool_decide_eq_false_2.
Qed.

(** ** A host to try it on *)

Section Example.
#[local] Existing Instances net_system net_clock net_device.
Let router_example : Router := MkRouter [n_ipv4 (host_example 2)] 0.

(** A connection of port 80 with port 1024 of 10.0.0.1 and a socket that listens on port 80. *)
Definition tcp_example : TcpDemux Sockets.IPV4 :=
  MkTcpDemux (MkDemux 0 (Some 0%nat) (<[0%nat := MkSocket 80 1024 None]> {[1%nat := MkSocket 80 0 None]})) (Some 1%nat)
    (<[0%nat := Sockets.MkIPV4 (Some 0%nat) false (ip_example 1) 0]> {[1%nat := Sockets.IPV4_ctor false]})
    (<[0%nat := BasicRingbuffer.init (replicate 3 0)]> {[1%nat := BasicRingbuffer.init (replicate 3 0)]}) ∅.
Lemma tcp_example_wf : wf 3 tcp_example [0%nat] [1%nat].
Proof.
  split.
  - split; [done|]. split; [repeat constructor; by intros ?%elem_of_nil|]. repeat constructor. by eexists.
  - split; [done|]. split; [repeat constructor; by intros ?%elem_of_nil|]. repeat constructor. by eexists.
  - by intros j ->%list_elem_of_singleton ?%list_elem_of_singleton.
  - repeat constructor; by eexists.
  - repeat constructor; (eexists; split; [reflexivity|by constructor]).
Qed.

(** A packet of 10.0.0.1 for 10.0.0.2 with a segment whose checksum is right. *)
Definition tcp_packet (segment : bytes) : bytes :=
  let len := Z.of_nat (length segment) in
  let csum := computePseudoHeaderV4 (ip_example 1) (ip_example 2) len IP_TYPE_TCP in
  let segment := TCP_Segment.set_checksum LE (default 0 (InternetChecksum.calc_checksum LE csum segment len)) segment in
  let header := fst (Sockets.setupHeader LE (MkRouter [MkInterface (ip_example 1) 255 true] 0) (20 + len) (repeat 0 20)
    (Sockets.MkIPV4 (Some 0%nat) false (ip_example 2) 9)) in
  default [] (IPv4_Packet.computeChecksum LE (IPv4_Packet.set_protocol LE IP_TYPE_TCP header ++ segment)).
(** A SYN from a port, with number 9, to port 80 or another. *)
Definition syn_example (from to : Z) : bytes := be16 from ++ be16 to ++ [0; 0; 0; 9; 0; 0; 0; 0; 0x50; 2; 16; 0; 0; 0; 0; 0].
Definition run_example (packet : bytes) (len : Z) : option (option (tcp_fate * TcpDemux Sockets.IPV4)) :=
  ipv4_demux LE router_example 3 pool_example 5 packet len (n_ipv4 (host_example 2)) tcp_example.

Example fates : map (λ s, option_map (option_map fst) (run_example (tcp_packet s) 40))
    [syn_example 1024 80; syn_example 1025 80; syn_example 1024 81]
  = [Some (Some (ToSocket 0 [])); Some (Some (FromListen 1)); Some (Some Unknown)].
Proof. by vm_compute. Qed.

Lemma pool_example_length k n a area : pool_example k n = Some (a, area) -> n <= Z.of_nat (length area).
Proof. intros [= <- <-]. rewrite length_replicate. lia. Qed.

Lemma tcp_segment_fate_witness : exists t1 t',
  run_example (tcp_packet (syn_example 1025 80)) 40 = Some (Some (FromListen 1, t'))
  ∧ accepted (P := peer4 router_example) 3 tcp_example [0%nat] [1%nat] (ip_example 1) 1 t1 t'.
Proof.
  destruct (tcp_segment_fate router_example 3 pool_example pool_example_length tcp_example [0%nat] [1%nat]
    (tcp_packet (syn_example 1025 80)) 40 (n_ipv4 (host_example 2)) 5 tcp_example_wf) as (valid & Hv & H).
  - apply (bool_decide_unpack _). by vm_compute.
  - unfold is_u16. vm_compute. split; [split; [discriminate|reflexivity]|discriminate].
  - cbn. lia.
  - by vm_compute.
  - by vm_compute.
  - vm_compute. split; discriminate.
  - destruct valid; [|exfalso; revert Hv; vm_compute; discriminate].
    unfold dispatched in H. set (c := connection _ _ _ _ _ _) in H. assert (Ec : c = None) by (by vm_compute). rewrite Ec in H. clear Ec c.
    set (c := listener _ _ _ _) in H. assert (Ec : c = Some 1%nat) by (by vm_compute). rewrite Ec in H. clear Ec c.
    destruct H as (reports & t1 & Hr & H).
    assert (E : reports = []).
    { apply (received_taken 3 pool_example _ _ _ _ _ _ (BasicRingbuffer.init (replicate 3 0)) (4096, replicate 20 0) Hr); by vm_compute. }
    subst reports. rewrite bool_decide_eq_true_2 in H by done. destruct H as (t' & H & Ha). exists t1, t'. split; [exact H|exact Ha].
Defined.

(** A segment with SYN and FIN at number 9 occupies 9 and 10; the reset acknowledges 10 only. *)
Example syn_fin_reset : let seg := <[13%nat := 3]> (syn_example 1024 81) in
  sequence_length seg 0 = 2 ∧ TCP_Segment.get_acknum LE (Management_TCP_Socket.prepareResponse LE (repeat 0 20) seg 0) = 10.
Proof. by vm_compute. Qed.

(** The length is compared before the IP header is subtracted: a packet with eighteen bytes behind its
    header is taken for a segment of the connection, whose flags are read behind its end. *)
Example short_segment_taken : exists t',
  run_example (tcp_packet ([4; 0; 0; 80; 0] ++ replicate 13 0)) 38 = Some (Some (ToSocket 0 [], t')).
Proof. eexists. by vm_compute. Qed.

Lemma listener_never_connects_witness :
  (forall t', bind_connection LE 5 1 (syn_example 1025 80) tcp_example ≠ Some (Some (true, t'))).
Proof.
  apply (listener_never_connects 3 tcp_example [0%nat] [1%nat] 1 5 (syn_example 1025 80) tcp_example_wf); [by left|by vm_compute].
Defined.

Lemma unknown_segment_reset_witness : exists s',
  IPv4_TCP_Reset.ipv4_demux LE [host_example 2] 0 32 32 false 40 (tcp_packet (syn_example 1024 81)) (host_example 2) state_example = Some s'.
Proof.
  destruct (unknown_segment_reset [host_example 2] 0 32 32 40 state_example (tcp_packet (syn_example 1024 81)) (host_example 2)
    [2; 0; 0; 0; 0; 1] (repeat 0 54) 4096 (MkNet 1 [])) as (s' & q & m & E & _).
  - apply (bool_decide_unpack _). by vm_compute.
  - apply neighbor_known. by vm_compute.
  - unfold is_u16. cbn. lia.
  - lia.
  - reflexivity.
  - lia.
  - reflexivity.
  - apply (bool_decide_unpack _). by vm_compute.
  - by vm_compute.
  - reflexivity.
  - by exists s'.
Defined.
End Example.
