(* ===== verification/Send6.v ===== *)
(** * Send6: how a socket sends IPv6 over Ethernet

    Models the sending slice of a socket ([Socket_Send_Slice.ah]) with the advice
    woven around it for IPv6 over Ethernet: the sizes, the Ethernet header
    ([ipv6/ethernet/Send_IPv6.ah]), the IPv6 header ([ipv6/SendBuffer_IPv6.ah]), the
    hop-by-hop header ([ipv6_hopbyhopheader/SendBuffer_HopByHop_Extension.ah]), the link
    layer address from the neighbor cache ([ipv6/ethernet/NDPCache_BlockingLookup.ah]),
    the copies of a multicast packet for the other interfaces ([ipv6/multicast/IPv6_Multicast.ah]),
    and the socket of the stack's own messages ([icmpv6/SendBuffer_icmpv6.ah],
    [icmpv6/Sendbuffer_icmpv6_checksum.ah]) with the solicitation that a new entry of the
    neighbor cache sends ([icmpv6/ndp_addr_resolve/AddressResolutionRequest.ah]).

    The lookup adds an entry, which solicits, which requests a buffer, which may look up: the
    knot is a fuel, of which one unit is enough ([lookup_nests_once]).  Reading the clock delivers
    the frames that have arrived, whose handler runs as an interrupt and is a parameter here.
    A use of the null pointer answers [None], and so does a wait that has used up its fuel. *)

From S2P Require Import Prelude Wire Checksum Packet TcpHistory SendBuffer Addresses Headers Ipv6 NdpCache MulticastGroups Ipv4 Arp Send4.

Open Scope Z_scope.

(** The clock: the time, and the frames that arrived meanwhile with their interfaces. *)
Class System6 (W : Type) := { sys_now6 : W -> Z * list (nat * bytes) * W }.

(** What the aspects put into a socket. *)
Record Sock6 := MkSock6 { ipv6 : Sockets6.IPV6; alert : IPv6HopByHop.Alert }.
#[export] Instance Sock6_settable : Settable Sock6 := λ s, MkSock6 (ipv6 s) (alert s).

(** A socket that sends, and the one instance for the stack's own messages. *)
Inductive who := User | Instance_.

(** Both sockets, the IPv6 side of the interfaces, and the world below. *)
Record Stack (W : Type) := MkStack { user : Sock6; instance : Sock6; interfaces : list Interface6; world : W }.
Arguments MkStack {W}.
Arguments user {W}.
Arguments instance {W}.
Arguments interfaces {W}.
Arguments world {W}.
#[export] Instance Stack_settable {W} : Settable (Stack W) := λ s, MkStack (user s) (instance s) (interfaces s) (world s).

Definition NDPCACHE_WAIT_FOR_RESPONSE : Z := 1000.

Module Socket_Send6.
Import Socket_Send.

Section State.
Context {W : Type}.
Definition sock (i : who) (s : Stack W) : Sock6 := match i with User => user s | Instance_ => instance s end.
Definition on_sock (i : who) (f : Sock6 -> Sock6) (s : Stack W) : Stack W :=
  match i with User => s <| user := f (user s) |> | Instance_ => s <| instance := f (instance s) |> end.
Definition on_ipv6 (i : who) (f : Sockets6.IPV6 -> Sockets6.IPV6) : Stack W -> Stack W :=
  on_sock i (λ k, k <| ipv6 := f (ipv6 k) |>).

Definition interface_at (k : nat) (s : Stack W) : Interface6 := default (MkInterface6 false []) (interfaces s !! k).
Definition memory_at (k : nat) (s : Stack W) : list bytes := addressmemory (interface_at k s).
Definition on_interface (k : nat) (f : Interface6 -> Interface6) (s : Stack W) : Stack W := s <| interfaces := alter f k (interfaces s) |>.
Definition on_memory (k : nat) (f : list bytes -> list bytes) : Stack W -> Stack W :=
  on_interface k (λ i, i <| addressmemory := f (addressmemory i) |>).
End State.

Section Send.
Context (e : endian) `{Clk : Clock} {W : Type} `{Sys : System6 W} `{Dev : Device W}.
(** The interfaces, the layout of the entries, the size of the C++ object, the width of
    [uint_fast16_t], whether entries of the neighbor cache expire. *)
Context (nics : list Nic) {L : Layout} (sizeof_SendBuffer fast_bits : Z) (expires : bool) (fuel : nat).
(** The handler of a frame that arrives at an interface. *)
Context (demux : nat -> bytes -> Stack W -> option (Stack W)).

Definition getUsedInterface (i : who) (s : Stack W) : option nat := Sockets6.s_interface (ipv6 (sock i s)).

(** With the advice of Ethernet, of IPv6 and of the hop-by-hop header. *)
Definition estimateSendBufferMinSize (i : who) (s : Stack W) : option Z :=
  nic ← getUsedInterface i s ≫= λ k, nics !! k;
  Some ((if n_type nic =? ETHERNET then Eth_Frame.ETH_HEADER_SIZE else 0) + Sockets6.getSpecificHeaderSize
        + IPv6HopByHop.getSize (alert (sock i s))).

Definition getMTU (i : who) (s : Stack W) : Z :=
  match getUsedInterface i s with Some k => fast16 fast_bits (dv_getMTU k (world s)) | None => 0 end.
Definition getMaxPayloadLength (i : who) (s : Stack W) : Z :=
  let headersize := fast16 fast_bits (default 0 (estimateSendBufferMinSize i s)) in
  let memsize := fast16 fast_bits (dv_maxFree (world s)) in
  let mtusize := getMTU i s in
  if memsize <? mtusize then fast16 fast_bits (memsize - headersize) else fast16 fast_bits (mtusize - headersize).

(** ** Preparing a buffer *)

Definition multicast_mac6 (ip : bytes) : bytes := [0x33; 0x33; IPv6.B8 ip 12; IPv6.B8 ip 13; IPv6.B8 ip 14; IPv6.B8 ip 15].

(** [Sendbuffer_IPv6_Ethernet], for a next hop that [get_nexthop_ipaddr] answers. *)
Definition ethernet_advice_to (ip : bytes) (i : who) (s : Stack W) (b : Buffer) : option Buffer :=
  interface ← getUsedInterface i s ≫= λ k, nics !! k;
  if negb (n_type interface =? ETHERNET) then Some b
  else
    let o := getDataPointer b in
    let b := on_sb (SendBuffer.writtenToDataPointer Eth_Frame.ETH_HEADER_SIZE) (b <| memstart_ethernet := o |>) in
    let b := on_sb (SendBuffer.at_pointer o (λ p,
      Eth_Frame.set_src_hwaddr (n_address interface) (Eth_Frame.set_type e IPv6_Packet.ETH_TYPE_IPV6 p))) b in
    Some (if Multicast.isMulticast ip then on_sb (SendBuffer.at_pointer o (Eth_Frame.set_dst_hwaddr (multicast_mac6 ip))) b
          else on_sb (SendBuffer.setState (Z.lor SendBuffer.WritingState SendBuffer.ResolveLinkLayerStateOption)) b).
Definition ethernet_advice (i : who) (s : Stack W) : Buffer -> option Buffer :=
  ethernet_advice_to (Sockets6.get_nexthop_ipaddr (ipv6 (sock i s))) i s.

(** [Sendbuffer_IPv6]; the next header is the seventh byte of the header. *)
Definition ipv6_advice (i : who) (s : Stack W) (b : Buffer) : Buffer :=
  let o := getDataPointer b in
  let remaining := SendBuffer.getRemainingSize (sb b) in
  let b := on_sb (SendBuffer.at_pointer o (λ p, Sockets6.setupHeader e remaining p (ipv6 (sock i s)))) (b <| memstart_ip := o |>) in
  let b := on_sb (SendBuffer.writtenToDataPointer Sockets6.getSpecificHeaderSize) b in
  b <| nextheaderfield_ip := o + 6 |>.

(** [Sendbuffer_IPv6_HopByHop_extension]. *)
Definition hopbyhop_advice (i : who) (s : Stack W) (b : Buffer) : Buffer :=
  let nextHeader := getDataPointer b in
  let '(p, size) := IPv6HopByHop.writeExtensionHeader (alert (sock i s)) (drop (Z.to_nat nextHeader) (SendBuffer.mem (sb b))) in
  if size =? 0 then b
  else
    let b := on_sb (SendBuffer.at_pointer nextHeader (λ _, p)) b in
    let b := on_sb (SendBuffer.writtenToDataPointer size) b in
    let b := on_sb (λ t, t <| SendBuffer.mem := Packet.write (Z.to_nat (nextheaderfield_ip b)) [0] (SendBuffer.mem t) |>) b in
    b <| nextheaderfield_ip := nextHeader |>.

(** ** Waiting for a neighbor *)

(** [Clock::now()] and the interrupts up to its return. *)
Fixpoint receive_all (frames : list (nat * bytes)) (s : Stack W) : option (Stack W) :=
  match frames with
  | [] => Some s
  | (k, f) :: frames => s ← demux k f s; receive_all frames s
  end.
Definition now (s : Stack W) : option (Z * Stack W) :=
  let '(time, frames, w) := sys_now6 (world s) in
  s ← receive_all frames (s <| world := w |>); Some (time, s).

Definition reachable (k j : nat) (s : Stack W) : bool := NDPCache.is_NDPCacheEntry_reachable (memory_at k s !!! j).
Definition wait_step (k j : nat) (timeout : Z) (s : Stack W) : Stack W + option (Stack W) :=
  match now s with
  | None => inr None
  | Some (time, s) => if (time <? timeout) && negb (reachable k j s) then inl s else inr (Some s)
  end.
Definition block_until_neighbor_advertisement (k j : nat) (s : Stack W) : option (Stack W) :=
  '(time, s) ← now s;
  default None (loop fuel (wait_step k j (u64 (time + ms_to_ticks NDPCACHE_WAIT_FOR_RESPONSE))) s).

Section Lookup.
(** [addNDPCacheEntry] with its advice. *)
Context (addNDPCacheEntry : nat -> bytes -> option bytes -> NDPCacheEntry.StateEnum -> Stack W -> option (option nat * Stack W)).

(** The entry that is used: whatever its state if it is in the cache, a new one if it is
    answered in time, else a router's. *)
Definition find_neighbor (k : nat) (dst : bytes) (s : Stack W) : option (option nat * Stack W) :=
  match NDPCache.ndpcache_find dst (memory_at k s) with
  | Some j => Some (Some j, s)
  | None =>
      '(entry, s) ← addNDPCacheEntry k dst None NDPCacheEntry.NDPCacheEntryState_Incomplete s;
      match entry with
      | Some j =>
          s ← block_until_neighbor_advertisement k j s;
          if reachable k j s then Some (Some j, s)
          else let s := on_memory k (AddressMemory.freeEntry j) s in Some (NDPCache.ndpcache_findRouter e (memory_at k s), s)
      | None => Some (NDPCache.ndpcache_findRouter e (memory_at k s), s)
      end
  end.

(** [IPv6_Ethernet_NDPCache_Blocking_Aspect]: whether the advice proceeds. *)
Definition lookup_advice (s : Stack W) (b : Buffer) : option (bool * Buffer * Stack W) :=
  if Z.land (SendBuffer.getState (sb b)) SendBuffer.ResolveLinkLayerStateOption =? 0 then Some (true, b, s)
  else
    let k := n_id (m_interface b) in
    let dst := IPv6_Packet.get_dst_ipaddr (drop (Z.to_nat (memstart_ip b)) (SendBuffer.mem (sb b))) in
    '(entry, s) ← find_neighbor k dst s;
    match entry with
    | None => Some (false, on_sb (SendBuffer.setState SendBuffer.InvalidState) b, s)
    | Some j =>
        let b := on_sb (SendBuffer.at_pointer (memstart_ethernet b) (Eth_Frame.set_dst_hwaddr (NDPEntry.hw (memory_at k s !!! j)))) b in
        Some (true, on_sb (SendBuffer.setState SendBuffer.WritingState) b, s)
    end.

(** [prepareSendBuffer] with the advice of the protocol above. *)
Definition prepareSendBuffer (i : who) (transport : Buffer -> Buffer) (s : Stack W) (b : Buffer) : option (Buffer * Stack W) :=
  b ← ethernet_advice i s b;
  let b := hopbyhop_advice i s (ipv6_advice i s b) in
  '(proceeds, b, s) ← lookup_advice s b;
  Some (if proceeds : bool then transport b else b, s).

(** [requestSendBuffer] when [estimateSendBufferMinSize] answers [headers]; protocols above may ask for more. *)
Definition request_behind (headers : option Z) (i : who) (transport : Buffer -> Buffer) (interface : Nic) (requestSize : Z) (s : Stack W)
    : option (option Buffer * Stack W) :=
  headers ← headers;
  let size := fast16 fast_bits (headers + fast16 fast_bits requestSize) in
  let '(a, area, w) := dv_alloc (size + sizeof_SendBuffer) (world s) in
  let s := s <| world := w |> in
  match SendBuffer.createInstance a size area with
  | None => Some (None, s)
  | Some b =>
      '(b, s) ← prepareSendBuffer i transport s (MkBuffer b interface 0 0 0);
      if negb (SendBuffer.getState (sb b) =? SendBuffer.WritingState) then Some (None, s) else Some (Some b, s)
  end.
Definition requestSendBuffer (i : who) (transport : Buffer -> Buffer) (interface : Nic) (requestSize : Z) (s : Stack W)
    : option (option Buffer * Stack W) := request_behind (estimateSendBufferMinSize i s) i transport interface requestSize s.
End Lookup.

(** ** Sending it *)

(** [IPv6_Multicast_aspect] after a send that worked: the packet goes out of all other interfaces that are up. *)
Definition multicast_copies (i : who) (b : Buffer) (s : Stack W) : Stack W :=
  if Multicast.isMulticast (Sockets6.dst_ipv6_addr (ipv6 (sock i s))) then
    s <| world := foldl (λ w k,
      if negb (Nat.eqb k (n_id (m_interface b))) && ipv6_up (interface_at k s)
      then dv_send k (take (Z.to_nat (SendBuffer.getSize (sb b))) (SendBuffer.mem (sb b))) w else w)
      (world s) (seq 0 (length nics)) |>
  else s.

Definition send (i : who) (b : Buffer) (s : Stack W) : bool * Buffer * Stack W :=
  if negb (SendBuffer.getState (sb b) =? SendBuffer.WritingState) then (false, b, s)
  else
    let b := on_sb (SendBuffer.setState SendBuffer.TransmittedState) b in
    let s := s <| world := dv_send (n_id (m_interface b))
       (take (Z.to_nat (SendBuffer.getSize (sb b))) (SendBuffer.mem (sb b))) (world s) |> in
    (true, b, multicast_copies i b s).

(** ** The stack's own messages *)

(** [Sendbuffer_IPCMPv6]. *)
Definition icmp_advice : Buffer -> Buffer := transport_advice ICMPv6_Packet.IPV6_TYPE_ICMP.

(** The checksum a protocol over IPv6 fills in before it sends; [set_checksum] writes its field. *)
Definition checksum_advice (type : Z) (set_checksum : Z -> bytes -> bytes) (b : Buffer) : option Buffer :=
  let packet := drop (Z.to_nat (memstart_ip b)) (SendBuffer.mem (sb b)) in
  let o := SendBuffer.memstart_transport (sb b) in
  let payloadsize := u16 (SendBuffer.data (sb b) - o) in
  let pseudo := computePseudoHeaderV6 (IPv6_Packet.get_src_ipaddr packet) (IPv6_Packet.get_dst_ipaddr packet) payloadsize type in
  let b := on_sb (SendBuffer.at_pointer o (set_checksum 0)) b in
  c ← InternetChecksum.calc_checksum e pseudo (drop (Z.to_nat o) (SendBuffer.mem (sb b))) payloadsize;
  Some (on_sb (SendBuffer.at_pointer o (set_checksum c)) b).

(** [Sendbuffer_ICMPv6_Checksum]. *)
Definition icmp_checksum_advice : Buffer -> option Buffer :=
  checksum_advice ICMPv6_Packet.IPV6_TYPE_ICMP (ICMPv6_Packet.set_checksum e).

(** [ICMPv6_Socket::send] with its advice. *)
Definition icmp_send (b : Buffer) (s : Stack W) : option (Stack W) :=
  b ← icmp_checksum_advice b;
  let '(_, _, s) := send Instance_ b s in Some s.

Section Own.
Context (addNDPCacheEntry : nat -> bytes -> option bytes -> NDPCacheEntry.StateEnum -> Stack W -> option (option nat * Stack W)).

(** What all handlers do with the instance: set the addresses, request a buffer of a size, fill it, send it.
    [fill] is given the state after the request, and the packet from the data pointer on. *)
Definition set_addresses (dst : bytes) (k : nat) (src : option bytes) (s : Stack W) : Stack W :=
  on_ipv6 Instance_ (λ t,
    let t := Sockets6.set_dst_addr e (interfaces s) dst (Some k) t in
    match src with Some a => Sockets6.set_src_addr a t | None => t end) s.
Definition request_and_send (k : nat) (resSize : Z) (fill : Stack W -> Buffer -> option Buffer) (s : Stack W) : option (Stack W) :=
  nic ← nics !! k;
  '(b, s) ← requestSendBuffer addNDPCacheEntry Instance_ icmp_advice nic resSize s;
  match b with
  | None => Some s
  | Some b => b ← fill s b; icmp_send b s
  end.
(** A message of a fixed size written at the data pointer. *)
Definition write_message (resSize : Z) (message : bytes -> bytes) (b : Buffer) : Buffer :=
  on_sb (SendBuffer.writtenToDataPointer resSize) (on_sb (SendBuffer.at_pointer (getDataPointer b) message) b).

Definition address_size (nic : Nic) : Z := Z.of_nat (length (n_address nic)).

(** [AddressResolutionRequest], after an entry has been added: its address is solicited from the
    link-local address, at the entry's own address if it is only stale, else at the solicited
    node, which is written into the socket directly. *)
Definition address_resolution_request (k : nat) (entry : option nat) (s : Stack W) : option (Stack W) :=
  if negb (ipv6_up (interface_at k s)) then Some s
  else
    match entry with
    | None => Some s
    | Some j =>
        let b := memory_at k s !!! j in
        if NDPCache.is_NDPCacheEntry_reachable b then Some s
        else
          match Interfaces.getInterfaceIPv6AddressByScope (interface_at k s) IPv6.IPV6_SCOPE_LINKLOCAL with
          | None => Some s
          | Some src =>
              nic ← nics !! k;
              let stale := NDPCacheEntry.state b =? NDPEntry.value NDPCacheEntry.NDPCacheEntryState_Stale in
              let dst := if stale then Entry.ipv6 b else IPv6.solicitedNode_multicast_addr (Entry.ipv6 b) in
              let s := set_addresses dst k (Some src) s in
              let resSize := NDPNeighborMessages.solicitation_size (address_size nic) in
              request_and_send k resSize (λ s b,
                Some (write_message resSize (NDPNeighborMessages.neighbor_solicitation e (Entry.ipv6 (memory_at k s !!! j))
                  (n_address nic) (address_size nic)) b)) s
          end
    end.

Definition add_and_request (k : nat) (addr : bytes) (hwaddr : option bytes) (st : NDPCacheEntry.StateEnum) (s : Stack W)
    : option (option nat * Stack W) :=
  let '(entry, m) := NDPCache.addNDPCacheEntry e expires addr hwaddr st (memory_at k s) in
  s ← address_resolution_request k entry (on_memory k (λ _, m) s);
  Some (entry, s).
End Own.

(** The knot: how deep the additions of entries may nest. *)
Fixpoint add_nested (depth : nat) : nat -> bytes -> option bytes -> NDPCacheEntry.StateEnum -> Stack W -> option (option nat * Stack W) :=
  match depth with
  | O => λ _ _ _ _ _, None
  | S depth => add_and_request (add_nested depth)
  end.
Definition addNDPCacheEntry := add_nested 1.
End Send.
End Socket_Send6.

(** ** What a request prepares

    On a little-endian host, for a destination that is a group or whose hardware address the
    neighbor cache knows, and a socket without a hop-by-hop option, the headers are these. *)

Definition eth6_header (dst src : bytes) : bytes := dst ++ src ++ [0x86; 0xdd].
Definition ip6_header (src dst : bytes) (size hop nh : Z) : bytes := [0x60; 0; 0; 0] ++ be16 size ++ [nh; hop] ++ src ++ dst.

Lemma length_eth6 dst src : length dst = 6%nat -> length src = 6%nat -> length (eth6_header dst src) = 14%nat.
Proof. intros H1 H2. unfold eth6_header. rewrite !length_app. cbn. lia. Qed.
Lemma length_ip6 src dst size hop nh : length src = 16%nat -> length dst = 16%nat -> length (ip6_header src dst size hop nh) = 40%nat.
Proof. intros H1 H2. unfold ip6_header. rewrite !length_app. cbn. lia. Qed.

Lemma eth6_written mac d r : length mac = 6%nat -> length d = 14%nat ->
  Eth_Frame.set_src_hwaddr mac (Eth_Frame.set_type LE IPv6_Packet.ETH_TYPE_IPV6 (d ++ r)) = eth6_header (take 6 d) mac ++ r.
Proof. intros Hm Hd. unfold_list Hm. unfold_list Hd. reflexivity. Qed.
Lemma eth6_destination hw x mac r : length hw = 6%nat -> length x = 6%nat -> length mac = 6%nat ->
  Eth_Frame.set_dst_hwaddr hw (eth6_header x mac ++ r) = eth6_header hw mac ++ r.
Proof. intros Hh Hx Hm. unfold_list Hh. unfold_list Hx. unfold_list Hm. reflexivity. Qed.

Lemma setUpHeader_bytes x0 x1 x2 x3 p : IPv6_Packet.setUpHeader LE (x0 :: x1 :: x2 :: x3 :: p) = [0x60; 0; 0; 0] ++ p.
Proof.
  assert (E : Z.land (u8 (Z.land x0 0xf0)) 0x0f = 0) by (unfold u8; rewrite <- land_ff, <- !Z.land_assoc; apply Z.land_0_r).
  transitivity (u8 (Z.lor (Z.land (u8 (Z.land x0 0xf0)) 0x0f) 0x60) :: 0 :: 0 :: 0 :: p); [reflexivity|by rewrite E].
Qed.

Lemma ip6_written size x r s : length x = 40%nat -> 0 <= size < 65536 -> is_u8 (Sockets6.hoplimit s) ->
  length (Sockets6.src_ipv6_addr s) = 16%nat -> length (Sockets6.dst_ipv6_addr s) = 16%nat ->
  Sockets6.setupHeader LE (40 + size) (x ++ r) s
  = ip6_header (Sockets6.src_ipv6_addr s) (Sockets6.dst_ipv6_addr s) size (Sockets6.hoplimit s) (get8 6 x) ++ r.
Proof.
  intros Hx Hsize Hhop Hsrc Hdst. destruct s as [i src dst hop]. cbn [Sockets6.src_ipv6_addr Sockets6.dst_ipv6_addr Sockets6.hoplimit] in *.
  unfold Sockets6.setupHeader. cbn [Sockets6.src_ipv6_addr Sockets6.dst_ipv6_addr Sockets6.hoplimit].
  replace (u16 (40 + size - IPv6_Packet.IPV6_HEADER_SIZE_IN_BYTES)) with size
    by (unfold IPv6_Packet.IPV6_HEADER_SIZE_IN_BYTES; rewrite u16_id; [lia|unfold is_u16; lia]).
  assert (E : IPv6_Packet.set_payload_len LE size = Packet.write 4 (be16 size)).
  { assert (E : be16 size = fbytes LE K16 size) by (cbn [fbytes]; rewrite LittleEndian.set16_network by side; by rewrite u16_id).
    rewrite E. reflexivity. }
  assert (E' : IPv6_Packet.set_hoplimit LE hop = Packet.write 7 [hop]).
  { unfold IPv6_Packet.set_hoplimit, setf. cbn [f_kind IPv6_Packet.f_hoplimit fbytes]. by rewrite u8_id. }
  rewrite E, E'.
  unfold ip6_header, be16. generalize (u8 (size / 256)) (u8 size). intros h l.
  unfold_list Hsrc. unfold_list Hdst. unfold_list Hx. cbn [app]. rewrite setUpHeader_bytes. reflexivity.
Qed.

Lemma ip6_addresses src dst size hop nh r : length src = 16%nat -> length dst = 16%nat ->
  let q := ip6_header src dst size hop nh ++ r in IPv6_Packet.get_dst_ipaddr q = dst ∧ IPv6_Packet.get_src_ipaddr q = src.
Proof. intros H1 H2. unfold_list H1. unfold_list H2. split; reflexivity. Qed.

(** The sum of the addresses does not overflow. *)
Lemma pseudo6_range src dst len nh : length src = 16%nat -> length dst = 16%nat -> is_bytes src -> is_bytes dst -> 0 <= len < 65536 -> is_u8 nh ->
  0 <= computePseudoHeaderV6 src dst len nh < 2147483648.
Proof.
  intros H1 H2 Bs Bd Hlen Hnh.
  unfold computePseudoHeaderV6. pose proof (InternetChecksum.words_sum_bound src Bs) as W1. pose proof (InternetChecksum.words_sum_bound dst Bd) as W2.
  rewrite H1 in W1. rewrite H2 in W2. unfold is_u8 in Hnh. cbn in W1, W2.
  rewrite (addPairsV6_spec src) by (done || (unfold is_u32; lia) || apply u32_range || by exists 8%nat).
  rewrite (addPairsV6_spec dst) by (done || (unfold is_u32; lia) || apply u32_range || by exists 8%nat).
  change ((Z.of_nat 16 + 1) `div` 2) with 8 in W1, W2. zlia.
Qed.

(** The destination [hw] of the frames to the socket's destination. *)
Record neighbor6 {W} {L : Layout} (nics : list Nic) (k : nat) (nic : Nic) (s : Stack W) (t : Sock6) (hw : bytes) : Prop := {
  n6_nic : nics !! k = Some nic;
  n6_id : n_id nic = k;
  n6_type : n_type nic = ETHERNET;
  n6_address : length (n_address nic) = 6%nat;
  n6_used : Sockets6.s_interface (ipv6 t) = Some k;
  n6_no_alert : IPv6HopByHop.use_alertoption (alert t) = false;
  n6_hoplimit : is_u8 (Sockets6.hoplimit (ipv6 t));
  n6_src : length (Sockets6.src_ipv6_addr (ipv6 t)) = 16%nat;
  n6_dst : length (Sockets6.dst_ipv6_addr (ipv6 t)) = 16%nat;
  n6_length : length hw = 6%nat;
  n6_known : if Multicast.isMulticast (Sockets6.dst_ipv6_addr (ipv6 t))
             then hw = Socket_Send6.multicast_mac6 (Sockets6.dst_ipv6_addr (ipv6 t))
             else (λ j, NDPEntry.hw (Socket_Send6.memory_at k s !!! j))
                    <$> NDPCache.ndpcache_find (Sockets6.dst_ipv6_addr (ipv6 t)) (Socket_Send6.memory_at k s) = Some hw }.

Section Prepared.
Import Socket_Send Socket_Send6.
Context `{Clk : Clock} {W : Type} `{Sys : System6 W} `{Dev : Device W}.
Context (nics : list Nic) {L : Layout} (sizeof_SendBuffer fast_bits : Z) (expires : bool) (fuel : nat).
Context (demux : nat -> bytes -> Stack W -> option (Stack W)).
Context (add : nat -> bytes -> option bytes -> NDPCacheEntry.StateEnum -> Stack W -> option (option nat * Stack W)).
Context (i : who) (s : Stack W) (k : nat) (nic : Nic) (hw : bytes) (area : bytes) (a size : Z).
Let t := ipv6 (sock i s).
Let src := Sockets6.src_ipv6_addr t.
Let dst := Sockets6.dst_ipv6_addr t.
Hypothesis N : neighbor6 nics k nic s (sock i s) hw.
Hypothesis size_fits : 0 <= size < 65536.
Hypothesis area_length : Z.of_nat (length area) = 54 + size.

Let rest := drop 54 area.
Let eth := eth6_header hw (n_address nic).
Definition ip6_of (nh : Z) : bytes := ip6_header src dst size (Sockets6.hoplimit t) nh.

Lemma area6_parts : exists d x, length d = 14%nat ∧ length x = 40%nat ∧ length rest = Z.to_nat size ∧ area = d ++ x ++ rest.
Proof using size_fits area_length.
  clear -size_fits area_length. exists (take 14 area), (take 40 (drop 14 area)). unfold rest. rewrite !length_take, !length_drop.
  split; [lia|]. split; [lia|]. split; [lia|].
  rewrite <- (take_drop 14 area) at 1. f_equal. rewrite <- (take_drop 40 (drop 14 area)) at 1. by rewrite drop_drop.
Qed.

(** The buffer on its way through the advice. *)
Definition buffer6 (state data : Z) (mem : bytes) (ip next transport : Z) : Buffer :=
  MkBuffer (SendBuffer.mk a (54 + size) state mem data transport) nic 0 ip next.

Lemma ethernet6_prepared : exists x st, length x = 6%nat
  ∧ ethernet_advice LE nics i s (buffer6 SendBuffer.WritingState 0 area 0 0 0)
    = Some (buffer6 st 14 (eth6_header x (n_address nic) ++ drop 14 area) 0 0 0)
  ∧ (if Multicast.isMulticast dst then st = SendBuffer.WritingState ∧ x = hw else st = 17).
Proof.
  destruct area6_parts as (d & y & Hd & Hy & _ & Ea). unfold ethernet_advice, ethernet_advice_to, getUsedInterface.
  rewrite (n6_used _ _ _ _ _ _ N). cbn [mbind option_bind]. rewrite (n6_nic _ _ _ _ _ _ N). cbn [mbind option_bind].
  rewrite (n6_type _ _ _ _ _ _ N). change (negb (ETHERNET =? ETHERNET)) with false. cbv iota.
  change (Sockets6.get_nexthop_ipaddr (ipv6 (sock i s))) with dst. cbv zeta.
  pose proof (n6_known _ _ _ _ _ _ N) as K. fold t dst in K.
  assert (E0 : Eth_Frame.set_src_hwaddr (n_address nic) (Eth_Frame.set_type LE IPv6_Packet.ETH_TYPE_IPV6 area)
    = eth6_header (take 6 d) (n_address nic) ++ drop 14 area).
  { assert (Ed : drop 14 area = y ++ rest) by (rewrite Ea, <- Hd at 1; apply drop_app_length).
    rewrite Ed, Ea at 1. apply eth6_written; [apply (n6_address _ _ _ _ _ _ N)|done]. }
  assert (H6 : length (take 6 d) = 6%nat) by (rewrite length_take; lia).
  destruct (Multicast.isMulticast dst).
  - exists hw, SendBuffer.WritingState. split; [apply (n6_length _ _ _ _ _ _ N)|]. split; [|done].
    transitivity (Some (buffer6 SendBuffer.WritingState 14 (Eth_Frame.set_dst_hwaddr (multicast_mac6 dst)
      (Eth_Frame.set_src_hwaddr (n_address nic) (Eth_Frame.set_type LE IPv6_Packet.ETH_TYPE_IPV6 area))) 0 0 0)); [reflexivity|].
    rewrite E0, <- K. rewrite eth6_destination; [done|apply (n6_length _ _ _ _ _ _ N)|done|apply (n6_address _ _ _ _ _ _ N)].
  - exists (take 6 d), 17. split; [done|]. split; [|done].
    transitivity (Some (buffer6 17 14 (Eth_Frame.set_src_hwaddr (n_address nic) (Eth_Frame.set_type LE IPv6_Packet.ETH_TYPE_IPV6 area)) 0 0 0));
      [reflexivity|by rewrite E0].
Qed.

(** What the buffer's memory held at the next header. *)
Let nh0 := get8 6 (take 40 (drop 14 area)).

Lemma ipv6_prepared st E : length E = 14%nat ->
  ipv6_advice LE i s (buffer6 st 14 (E ++ drop 14 area) 0 0 0) = buffer6 st 54 (E ++ ip6_of nh0 ++ rest) 14 20 0.
Proof.
  intros HE. unfold ipv6_advice. change (getDataPointer (buffer6 st 14 ?m 0 0 0)) with 14.
  change (SendBuffer.getRemainingSize (sb (buffer6 st 14 ?m 0 0 0))) with (54 + size - 14).
  replace (54 + size - 14) with (40 + size) by lia.
  transitivity (buffer6 st 54 (take 14 (E ++ drop 14 area) ++ Sockets6.setupHeader LE (40 + size) (drop 14 (E ++ drop 14 area)) t) 14 20 0);
    [reflexivity|]. f_equal.
  assert (E1 : take 14 (E ++ drop 14 area) = E) by (rewrite <- HE at 1; apply take_app_length).
  assert (E2 : drop 14 (E ++ drop 14 area) = drop 14 area) by (rewrite <- HE at 1; apply drop_app_length).
  rewrite E1, E2. f_equal. destruct area6_parts as (d & x & Hd & Hx & _ & Ea).
  assert (E3 : drop 14 area = x ++ rest) by (rewrite Ea, <- Hd at 1; apply drop_app_length).
  assert (E4 : take 40 (drop 14 area) = x) by (rewrite E3, <- Hx at 1; apply take_app_length).
  unfold nh0. rewrite E4, E3. unfold ip6_of.
  apply ip6_written; [done|done|apply (n6_hoplimit _ _ _ _ _ _ N)|apply (n6_src _ _ _ _ _ _ N)|apply (n6_dst _ _ _ _ _ _ N)].
Qed.

Lemma hopbyhop_prepared b : hopbyhop_advice i s b = b.
Proof.
  unfold hopbyhop_advice, IPv6HopByHop.writeExtensionHeader, IPv6HopByHop.getMinSize. by rewrite (n6_no_alert _ _ _ _ _ _ N).
Qed.

Lemma ip6_of_addresses nh r : IPv6_Packet.get_dst_ipaddr (ip6_of nh ++ r) = dst ∧ IPv6_Packet.get_src_ipaddr (ip6_of nh ++ r) = src.
Proof. apply ip6_addresses; [apply (n6_src _ _ _ _ _ _ N)|apply (n6_dst _ _ _ _ _ _ N)]. Qed.

Lemma lookup_prepared w x st nh r : length x = 6%nat ->
  (if Multicast.isMulticast dst then st = SendBuffer.WritingState ∧ x = hw else st = 17) ->
  lookup_advice LE fuel demux add (s <| world := w |>) (buffer6 st 54 (eth6_header x (n_address nic) ++ ip6_of nh ++ r) 14 20 0)
  = Some (true, buffer6 SendBuffer.WritingState 54 (eth ++ ip6_of nh ++ r) 14 20 0, s <| world := w |>).
Proof.
  intros Hx Hst. unfold lookup_advice. change (SendBuffer.getState (sb (buffer6 st 54 ?m 14 20 0))) with st.
  pose proof (n6_known _ _ _ _ _ _ N) as K. fold t dst in K. destruct (Multicast.isMulticast dst).
  { destruct Hst as [-> ->]. reflexivity. }
  subst st. change (Z.land 17 _ =? 0) with false. cbv iota zeta.
  change (SendBuffer.mem (sb (buffer6 17 54 ?m 14 20 0))) with m. change (Z.to_nat (memstart_ip (buffer6 17 54 ?m 14 20 0))) with 14%nat.
  change (n_id (m_interface (buffer6 17 54 ?m 14 20 0))) with (n_id nic). rewrite (n6_id _ _ _ _ _ _ N).
  pose proof (length_eth6 x (n_address nic) Hx (n6_address _ _ _ _ _ _ N)) as HE.
  rewrite <- HE at 1. rewrite drop_app_length, (proj1 (ip6_of_addresses _ _)).
  change (memory_at k (s <| world := w |>)) with (memory_at k s).
  unfold find_neighbor. change (memory_at k (s <| world := w |>)) with (memory_at k s).
  destruct (NDPCache.ndpcache_find dst (memory_at k s)) as [j|]; [|done]. injection K as K. cbn [mbind option_bind].
  change (memory_at k (s <| world := w |>)) with (memory_at k s). rewrite K.
  transitivity (Some (true, buffer6 SendBuffer.WritingState 54 (Eth_Frame.set_dst_hwaddr hw (eth6_header x (n_address nic) ++ ip6_of nh ++ r)) 14 20 0,
    s <| world := w |>)); [reflexivity|].
  rewrite eth6_destination; [done|apply (n6_length _ _ _ _ _ _ N)|done|apply (n6_address _ _ _ _ _ _ N)].
Qed.

Lemma prepared6 w transport :
  prepareSendBuffer LE nics fuel demux add i transport (s <| world := w |>) (buffer6 SendBuffer.WritingState 0 area 0 0 0)
  = Some (transport (buffer6 SendBuffer.WritingState 54 (eth ++ ip6_of nh0 ++ rest) 14 20 0), s <| world := w |>).
Proof.
  destruct ethernet6_prepared as (x & st & Hx & E & Hst). unfold prepareSendBuffer.
  assert (Es : forall b, ethernet_advice LE nics i (s <| world := w |>) b = ethernet_advice LE nics i s b) by (by destruct i).
  rewrite Es, E. cbn [mbind option_bind].
  assert (Ei : forall b, ipv6_advice LE i (s <| world := w |>) b = ipv6_advice LE i s b) by (by destruct i).
  assert (Eh : forall b, hopbyhop_advice i (s <| world := w |>) b = hopbyhop_advice i s b) by (by destruct i).
  rewrite Ei, Eh, hopbyhop_prepared, ipv6_prepared by (by apply length_eth6; [|apply (n6_address _ _ _ _ _ _ N)]).
  rewrite lookup_prepared by done. reflexivity.
Qed.

(** A protocol, and the buffer with its number and place. *)
Context (proto : Z).
Definition message_buffer (data : Z) (m : bytes) : Buffer :=
  buffer6 SendBuffer.WritingState data (eth ++ ip6_of proto ++ m) 14 20 54.

Lemma transport_prepared6 :
  transport_advice proto (buffer6 SendBuffer.WritingState 54 (eth ++ ip6_of nh0 ++ rest) 14 20 0) = message_buffer 54 rest.
Proof.
  transitivity (buffer6 SendBuffer.WritingState 54 (Packet.write 20 [proto] (eth ++ ip6_of nh0 ++ rest)) 14 20 54);
    [reflexivity|]. unfold message_buffer. f_equal.
  pose proof (length_eth6 hw (n_address nic) (n6_length _ _ _ _ _ _ N) (n6_address _ _ _ _ _ _ N)) as HE. fold eth in HE.
  replace 20%nat with (length eth + 6)%nat by lia. rewrite write_app_behind. f_equal.
Qed.

Lemma estimated6 : estimateSendBufferMinSize nics i s = Some 54.
Proof.
  unfold estimateSendBufferMinSize, getUsedInterface.
  rewrite (n6_used _ _ _ _ _ _ N). cbn [mbind option_bind]. rewrite (n6_nic _ _ _ _ _ _ N). cbn [mbind option_bind].
  rewrite (n6_type _ _ _ _ _ _ N). unfold IPv6HopByHop.getSize, IPv6HopByHop.getMinSize. by rewrite (n6_no_alert _ _ _ _ _ _ N).
Qed.

(** With memory for it, the buffer requested is what the transport makes of that one. *)
Lemma request6_behind w headers size0 transport : 16 <= fast_bits -> 0 <= size0 -> 0 <= headers -> headers + size0 = 54 + size -> 54 + size < 65536 ->
  dv_alloc (54 + size + sizeof_SendBuffer) (world s) = (a, area, w) -> a ≠ 0 ->
  SendBuffer.getState (sb (transport (message_buffer 54 rest))) = SendBuffer.WritingState ->
  request_behind LE nics sizeof_SendBuffer fast_bits fuel demux add (Some headers) i (λ b, transport (transport_advice proto b)) nic size0 s
  = Some (Some (transport (message_buffer 54 rest)), s <| world := w |>).
Proof.
  intros Hbits H1 H2 Hsum Hsize Ha H0 Hst. unfold request_behind. cbn [mbind option_bind].
  rewrite (fast16_small fast_bits Hbits size0), Hsum, (fast16_small fast_bits Hbits (54 + size)) by lia. rewrite Ha.
  unfold SendBuffer.createInstance. rewrite (proj2 (Z.eqb_neq _ _) H0).
  change (MkBuffer (SendBuffer.mk a (54 + size) SendBuffer.WritingState area 0 0) nic 0 0 0) with (buffer6 SendBuffer.WritingState 0 area 0 0 0).
  rewrite prepared6, transport_prepared6. cbn [mbind option_bind]. by rewrite Hst.
Qed.

Lemma request6_prepared w : 16 <= fast_bits -> 54 + size < 65536 ->
  dv_alloc (54 + size + sizeof_SendBuffer) (world s) = (a, area, w) -> a ≠ 0 ->
  requestSendBuffer LE nics sizeof_SendBuffer fast_bits fuel demux add i (transport_advice proto) nic size s
  = Some (Some (message_buffer 54 rest), s <| world := w |>).
Proof.
  intros Hbits Hsize Ha H0. unfold requestSendBuffer. rewrite estimated6.
  by apply (request6_behind w 54 size (λ b, b)); [|lia..| | |].
Qed.

(** ** Sending it *)

(** What the driver is given for a frame to [dst]: on the interface, and if it goes to a group on all others that are up. *)
Definition emitted (dst : bytes) (k : nat) (frame : bytes) (s : Stack W) : Stack W :=
  let w := dv_send k frame (world s) in
  s <| world := if Multicast.isMulticast dst
    then foldl (λ w j, if negb (Nat.eqb j k) && ipv6_up (interface_at j s) then dv_send j frame w else w) w (seq 0 (length nics))
    else w |>.

(** Writing a message into it. *)
Record behaves (at_54 : Z -> bytes -> Buffer) : Prop := {
  bh_write : forall n f m, write_message n f (at_54 54 m) = at_54 (54 + n) (f m);
  bh_remaining : forall d m, SendBuffer.getRemainingSize (sb (at_54 d m)) = 54 + size - d;
  bh_append : forall o n newdata m, 0 <= o -> 0 <= n -> o + n <= size -> length m = Z.to_nat size ->
    on_sb (SendBuffer.write newdata n) (at_54 (54 + o) m) = at_54 (54 + o + n) (Packet.write (Z.to_nat o) (take (Z.to_nat n) newdata) m) }.

Lemma length_header6 : length (ip6_of proto) = 40%nat.
Proof. apply length_ip6; [apply (n6_src _ _ _ _ _ _ N)|apply (n6_dst _ _ _ _ _ _ N)]. Qed.

Lemma message_buffer_behaves : behaves message_buffer.
Proof.
  pose proof (length_eth6 hw (n_address nic) (n6_length _ _ _ _ _ _ N) (n6_address _ _ _ _ _ _ N)) as HE. fold eth in HE.
  pose proof length_header6 as HP. set (hdr := ip6_of proto) in *.
  assert (H54 : length (eth ++ hdr) = 54%nat) by (rewrite length_app; lia). split.
  - intros n f m. transitivity (buffer6 SendBuffer.WritingState (54 + n) (take 54 (eth ++ hdr ++ m) ++ f (drop 54 (eth ++ hdr ++ m))) 14 20 54); [reflexivity|].
    unfold message_buffer. fold hdr. rewrite !(app_assoc eth), <- H54. by rewrite take_app_length, drop_app_length.
  - done.
  - intros o n newdata m Ho Hn Hon Hm. unfold on_sb, SendBuffer.write.
    change (SendBuffer.getRemainingSize (sb (message_buffer ?d ?q))) with (54 + size - d).
    destruct (Z.ltb_spec (54 + size - (54 + o)) n); [lia|].
    transitivity (buffer6 SendBuffer.WritingState (54 + o + n)
      (Packet.write (Z.to_nat (54 + o)) (take (Z.to_nat n) newdata) (eth ++ hdr ++ m)) 14 20 54); [reflexivity|].
    unfold message_buffer. fold hdr. f_equal. rewrite !(app_assoc eth). replace (Z.to_nat (54 + o)) with (length (eth ++ hdr) + Z.to_nat o)%nat by lia.
    apply write_app_behind.
Qed.

(** The checksum of a message behind the headers, wherever it has its field. *)
Section Filled.
Context (set_checksum : Z -> bytes -> bytes) (l c0 body : bytes).
Hypothesis set_at : forall u m, is_u16 u -> length m = 2%nat -> set_checksum u (l ++ m ++ body) = l ++ be16 u ++ body.

Lemma checksum_prepared : is_bytes src -> is_bytes dst -> is_bytes (l ++ body) -> Nat.Even (length l) -> length c0 = 2%nat -> is_u8 proto ->
  size = Z.of_nat (length l + 2 + length body) ->
  exists v, is_u16 v
  ∧ checksum_advice LE proto set_checksum (message_buffer (54 + size) (l ++ c0 ++ body)) = Some (message_buffer (54 + size) (l ++ be16 v ++ body))
  ∧ InternetChecksum.checksum_valid LE (computePseudoHeaderV6 src dst size proto) (l ++ be16 v ++ body) size = Some true.
Proof.
  intros Bs Bd Hb He Hc Hp Hsz. set (pseudo := computePseudoHeaderV6 src dst size proto).
  destruct (checksum_filled_in pseudo l body [] size) as (v & Ev & Hv & Ec).
  - by rewrite app_nil_r.
  - done.
  - exact Hsz.
  - unfold is_u16. lia.
  - apply pseudo6_range; [apply (n6_src _ _ _ _ _ _ N)|apply (n6_dst _ _ _ _ _ _ N)|done|done|lia|done].
  - rewrite app_nil_r in Ev, Ec. exists v. split; [done|]. split; [|done].
    pose proof (length_eth6 hw (n_address nic) (n6_length _ _ _ _ _ _ N) (n6_address _ _ _ _ _ _ N)) as HE. fold eth in HE.
    pose proof length_header6 as HP. set (hdr := ip6_of proto) in *.
    assert (H54 : length (eth ++ hdr) = 54%nat) by (rewrite length_app; lia).
    assert (Hset : forall u m, is_u16 u -> length m = 2%nat ->
      on_sb (SendBuffer.at_pointer 54 (set_checksum u)) (message_buffer (54 + size) (l ++ m ++ body)) = message_buffer (54 + size) (l ++ be16 u ++ body)).
    { intros u m Hu Hm. set (M := l ++ m ++ body).
      transitivity (buffer6 SendBuffer.WritingState (54 + size)
        (take 54 (eth ++ hdr ++ M) ++ set_checksum u (drop 54 (eth ++ hdr ++ M))) 14 20 54); [reflexivity|].
      rewrite !(app_assoc eth), <- H54. rewrite take_app_length, drop_app_length. unfold message_buffer. fold hdr. rewrite (app_assoc eth).
      unfold M. by rewrite set_at. }
    unfold checksum_advice. change (SendBuffer.memstart_transport (sb (message_buffer ?d ?m))) with 54.
    change (SendBuffer.data (sb (message_buffer ?d ?m))) with d.
    replace (u16 (54 + size - 54)) with size by (rewrite u16_id; [lia|unfold is_u16; lia]).
    change (SendBuffer.mem (sb (message_buffer ?d ?m))) with (eth ++ hdr ++ m).
    change (Z.to_nat (memstart_ip (message_buffer ?d ?m))) with 14%nat.
    assert (E14 : drop 14 (eth ++ hdr ++ l ++ c0 ++ body) = hdr ++ l ++ c0 ++ body) by (rewrite <- HE; apply drop_app_length).
    rewrite E14. destruct (ip6_of_addresses proto (l ++ c0 ++ body)) as [Ed Es]. fold hdr in Ed, Es. rewrite Ed, Es. fold pseudo.
    rewrite Hset by (done || unfold is_u16; lia).
    change (SendBuffer.mem (sb (message_buffer ?d ?m))) with (eth ++ hdr ++ m). change (Z.to_nat 54) with 54%nat.
    assert (E54 : drop 54 (eth ++ hdr ++ l ++ be16 0 ++ body) = l ++ be16 0 ++ body)
      by (rewrite app_assoc; rewrite <- H54; apply drop_app_length).
    rewrite E54. change (be16 0) with [0; 0]. rewrite Ev. cbn [mbind option_bind]. by rewrite Hset.
Qed.
End Filled.

(** A buffer that is full leaves as one frame. *)
Lemma buffer_sent6 w M : Z.of_nat (length M) = size ->
  exists b, send nics i (message_buffer (54 + size) M) (s <| world := w |>)
    = (true, b, emitted dst k (eth ++ ip6_of proto ++ M) (s <| world := w |>)).
Proof.
  intros HM. unfold send. change (negb (SendBuffer.getState (sb (message_buffer ?d ?m)) =? SendBuffer.WritingState)) with false. cbv iota zeta.
  eexists. f_equal. unfold multicast_copies, emitted.
  assert (Et : forall x, ipv6 (sock i (s <| world := w |> <| world := x |>)) = t) by (by destruct i). rewrite Et. fold dst.
  change (SendBuffer.mem (sb (message_buffer ?d ?m))) with (eth ++ ip6_of proto ++ m).
  change (SendBuffer.mem (sb (on_sb (SendBuffer.setState ?f) (message_buffer ?d ?m)))) with (eth ++ ip6_of proto ++ m).
  change (SendBuffer.getSize (sb (on_sb (SendBuffer.setState ?f) (message_buffer ?d ?m)))) with (54 + size).
  change (n_id (m_interface (on_sb ?f (message_buffer ?d ?m)))) with (n_id nic).
  rewrite (n6_id _ _ _ _ _ _ N), take_ge.
  - by destruct (Multicast.isMulticast dst).
  - rewrite !length_app, length_header6. unfold eth. rewrite (length_eth6 _ _ (n6_length _ _ _ _ _ _ N) (n6_address _ _ _ _ _ _ N)). lia.
Qed.
End Prepared.

(** The stack's own socket sends a message that fills what was requested. *)
Section Message.
Import Socket_Send Socket_Send6.
Context `{Clk : Clock} {W : Type} `{Sys : System6 W} `{Dev : Device W}.
Context (nics : list Nic) {L : Layout} (sizeof_SendBuffer fast_bits : Z) (expires : bool) (fuel : nat).
Context (demux : nat -> bytes -> Stack W -> option (Stack W)).
Context (add : nat -> bytes -> option bytes -> NDPCacheEntry.StateEnum -> Stack W -> option (option nat * Stack W)).
Context (s : Stack W) (k : nat) (nic : Nic) (hw : bytes) (area : bytes) (a size : Z) (w : W).
Let t := ipv6 (instance s).
Let src := Sockets6.src_ipv6_addr t.
Let dst := Sockets6.dst_ipv6_addr t.
Hypothesis N : neighbor6 nics k nic s (instance s) hw.
Hypothesis addresses_bytes : is_bytes src ∧ is_bytes dst.
Hypothesis bits : 16 <= fast_bits.
Hypothesis size_fits : 0 <= size ∧ 54 + size < 65536.
Hypothesis memory : dv_alloc (54 + size + sizeof_SendBuffer) (world s) = (a, area, w).
Hypothesis memory_found : a ≠ 0.
Hypothesis area_length : Z.of_nat (length area) = 54 + size.

Lemma message6_sent (fill : Stack W -> Buffer -> option Buffer) tc c0 body :
  let at_54 d m := message_buffer Instance_ s nic hw a size ICMPv6_Packet.IPV6_TYPE_ICMP d m in
  is_bytes (tc ++ body) -> length tc = 2%nat -> length c0 = 2%nat -> size = Z.of_nat (4 + length body) ->
  fill (s <| world := w |>) (at_54 54 (drop 54 area)) = Some (at_54 (54 + size) (tc ++ c0 ++ body)) ->
  exists v, is_u16 v
  ∧ request_and_send LE nics sizeof_SendBuffer fast_bits fuel demux add k size fill s
    = Some (emitted nics dst k (eth6_header hw (n_address nic) ++ ip6_header src dst size (Sockets6.hoplimit t) ICMPv6_Packet.IPV6_TYPE_ICMP
        ++ tc ++ be16 v ++ body) (s <| world := w |>))
  ∧ ICMPv6_Packet.checksum_valid LE (computePseudoHeaderV6 src dst size ICMPv6_Packet.IPV6_TYPE_ICMP) (tc ++ be16 v ++ body) size = Some true.
Proof.
  intros at_54 Hb Ht Hc Hsz Hfill. destruct addresses_bytes as [Bs Bd].
  destruct (checksum_prepared nics Instance_ s k nic hw area a size N ltac:(lia) ICMPv6_Packet.IPV6_TYPE_ICMP (ICMPv6_Packet.set_checksum LE) tc c0 body)
    as (v & Hv & E1 & E2); try done.
  { intros u m Hu Hm.
    assert (Eb : be16 u = fbytes LE K16 u) by (cbn [fbytes]; rewrite LittleEndian.set16_network by side; by rewrite u16_id).
    rewrite Eb. clear -Ht Hm. unfold_list Ht. unfold_list Hm. reflexivity. }
  { rewrite Ht. by exists 1%nat. }
  { rewrite Ht. exact Hsz. }
  exists v. split; [done|]. split; [|exact E2].
  unfold request_and_send. rewrite (n6_nic _ _ _ _ _ _ N). cbn [mbind option_bind].
  unfold icmp_advice. rewrite (request6_prepared nics sizeof_SendBuffer fast_bits fuel demux add Instance_ s k nic hw area a size N ltac:(lia) area_length
    ICMPv6_Packet.IPV6_TYPE_ICMP w bits ltac:(lia) memory memory_found). cbn [mbind option_bind].
  unfold at_54 in Hfill. rewrite Hfill. cbn [mbind option_bind]. unfold icmp_send, icmp_checksum_advice. rewrite E1. cbn [mbind option_bind].
  destruct (buffer_sent6 nics Instance_ s k nic hw area a size N ltac:(lia) ICMPv6_Packet.IPV6_TYPE_ICMP w (tc ++ be16 v ++ body)) as [b ->]; [|done].
  rewrite !length_app, Ht. cbn. lia.
Qed.
End Message.

(** ** A lookup nests once *)

Section Nesting.
Import Socket_Send Socket_Send6 NDPCacheEntry.
Context (e : endian) `{Clk : Clock} {W : Type} `{Sys : System6 W} `{Dev : Device W}.
Context (nics : list Nic) {L : Layout} {LOk : LayoutOk L} (sizeof_SendBuffer fast_bits : Z) (expires : bool) (fuel : nat).
Context (demux : nat -> bytes -> Stack W -> option (Stack W)).
Abbreviation adding := (nat -> bytes -> option bytes -> StateEnum -> Stack W -> option (option nat * Stack W)).
(** The interfaces know their place, and the pool hands out what it is asked for. *)
Hypothesis numbered : forall k nic, nics !! k = Some nic -> n_id nic = k.
Hypothesis pool : forall n w, let '(a, area, _) := dv_alloc n w in a ≠ 0 -> sizeof_SendBuffer <= n -> Z.of_nat (length area) = n - sizeof_SendBuffer.
Hypothesis bits : 16 <= fast_bits.

(** No entry has to be added to reach the destination of a socket. *)
Definition resolved (k : nat) (i : who) (s : Stack W) : Prop :=
  Multicast.isMulticast (Sockets6.dst_ipv6_addr (ipv6 (sock i s))) = true
  ∨ is_Some (NDPCache.ndpcache_find (Sockets6.dst_ipv6_addr (ipv6 (sock i s))) (memory_at k s)).

(** What the lookup finds in a buffer. *)
Definition needs (b : Buffer) : bool := negb (Z.land (SendBuffer.getState (sb b)) SendBuffer.ResolveLinkLayerStateOption =? 0).
Definition destination (b : Buffer) : bytes := IPv6_Packet.get_dst_ipaddr (drop (Z.to_nat (memstart_ip b)) (SendBuffer.mem (sb b))).

(** The advice moves the data pointer and keeps the size. *)
Record moved (b b' : Buffer) (d : Z) : Prop := {
  mv_data : SendBuffer.data (sb b') = SendBuffer.data (sb b) + d;
  mv_length : length (SendBuffer.mem (sb b')) = length (SendBuffer.mem (sb b));
  mv_interface : m_interface b' = m_interface b }.
Lemma moved_trans b c d m n : moved b c m -> moved c d n -> moved b d (m + n).
Proof. intros [] []. split; [lia|congruence|congruence]. Qed.

Lemma length_at_pointer o (f : bytes -> bytes) (b : Buffer) : (forall p, length (f p) = length p) ->
  length (SendBuffer.mem (sb (on_sb (SendBuffer.at_pointer o f) b))) = length (SendBuffer.mem (sb b)).
Proof.
  intros Hf. change (SendBuffer.mem (sb (on_sb (SendBuffer.at_pointer o f) b)))
    with (take (Z.to_nat o) (SendBuffer.mem (sb b)) ++ f (drop (Z.to_nat o) (SendBuffer.mem (sb b)))).
  rewrite length_app, Hf, <- length_app. by rewrite take_drop.
Qed.
Lemma at_pointer_moved o f b : (forall p, length (f p) = length p) -> moved b (on_sb (SendBuffer.at_pointer o f) b) 0.
Proof. intros Hf. split; [symmetry; apply Z.add_0_r|by apply length_at_pointer|done]. Qed.

Lemma lookup_resolved s b :
  (needs b = true -> is_Some (NDPCache.ndpcache_find (destination b) (memory_at (n_id (m_interface b)) s))) ->
  exists b', (forall f : adding, lookup_advice e fuel demux f s b = Some (true, b', s)) ∧ moved b b' 0.
Proof.
  intros H. unfold lookup_advice, needs in *. destruct (_ =? 0).
  - exists b. split; [done|]. split; [lia|done|done].
  - destruct (H eq_refl) as [j E]. unfold destination in E. unfold find_neighbor. rewrite E. cbn [mbind option_bind].
    eexists. split; [done|].
    destruct (at_pointer_moved (memstart_ethernet b) (Eth_Frame.set_dst_hwaddr (NDPEntry.hw (memory_at (n_id (m_interface b)) s !!! j))) b) as [H1 H2 H3];
      [intros p; apply length_write|by split].
Qed.

(** What the advice of Ethernet leaves. *)
Lemma ethernet_moves i (s : Stack W) b nic : getUsedInterface i s ≫= (λ k, nics !! k) = Some nic ->
  exists b', ethernet_advice e nics i s b = Some b' ∧ moved b b' (if n_type nic =? ETHERNET then 14 else 0)
  ∧ (needs b = false -> needs b' = true -> Multicast.isMulticast (Sockets6.dst_ipv6_addr (ipv6 (sock i s))) = false ∧ n_type nic = ETHERNET).
Proof.
  intros Hu. unfold ethernet_advice, ethernet_advice_to. rewrite Hu. cbn [mbind option_bind].
  destruct (Z.eqb_spec (n_type nic) ETHERNET) as [Ht|_]; cbn [negb].
  2: { exists b. split; [done|]. split; [split; [lia|done|done]|congruence]. }
  change (Sockets6.get_nexthop_ipaddr (ipv6 (sock i s))) with (Sockets6.dst_ipv6_addr (ipv6 (sock i s))).
  set (g := λ p, Eth_Frame.set_src_hwaddr (n_address nic) (Eth_Frame.set_type e IPv6_Packet.ETH_TYPE_IPV6 p)).
  assert (Hg : forall p, length (g p) = length p).
  { intros p. unfold g, Eth_Frame.set_src_hwaddr. rewrite length_write. apply length_setf. }
  set (b1 := on_sb (SendBuffer.writtenToDataPointer Eth_Frame.ETH_HEADER_SIZE) (b <| memstart_ethernet := getDataPointer b |>)).
  assert (M1 : moved b b1 14) by done.
  pose proof (moved_trans _ _ _ _ _ M1 (at_pointer_moved (getDataPointer b) g b1 Hg)) as M2. change (14 + 0) with 14 in M2.
  cbv zeta. fold b1 g. destruct (Multicast.isMulticast _); eexists; (split; [reflexivity|]).
  - split; [|intros H1 H2; change (needs b = true) in H2; congruence].
    apply (moved_trans _ _ _ 14 0 M2), at_pointer_moved. intros p. apply length_write.
  - split; [|done]. destruct M2. by split.
Qed.

Lemma length_writeExtensionHeader al p : length (fst (IPv6HopByHop.writeExtensionHeader al p)) = length p
  ∧ snd (IPv6HopByHop.writeExtensionHeader al p) = IPv6HopByHop.getSize al.
Proof.
  destruct al as [[] type]; [|done]. split; [|done].
  transitivity (length (ExtensionHeaderOptions.writePaddingOption 6 2 (<[1%nat := 0]> (Packet.write 2 [5; 2; 0; type] p)))); [reflexivity|].
  change (ExtensionHeaderOptions.writePaddingOption 6 2 ?q) with (Packet.write 6 [1; 0] q). by rewrite length_write, length_insert, length_write.
Qed.

Lemma ipv6_moves i (s : Stack W) b : moved b (hopbyhop_advice i s (ipv6_advice e i s b)) (40 + IPv6HopByHop.getSize (alert (sock i s))).
Proof.
  apply (moved_trans b (ipv6_advice e i s b)).
  - destruct (at_pointer_moved (getDataPointer b) (λ p, Sockets6.setupHeader e (SendBuffer.getRemainingSize (sb b)) p (ipv6 (sock i s))) b) as [_ H _].
    { intros p. apply length_setupHeader. }
    split; [reflexivity|exact H|reflexivity].
  - set (b1 := ipv6_advice e i s b). unfold hopbyhop_advice.
    destruct (length_writeExtensionHeader (alert (sock i s)) (drop (Z.to_nat (getDataPointer b1)) (SendBuffer.mem (sb b1)))) as [H1 H2].
    destruct (IPv6HopByHop.writeExtensionHeader _ _) as [p size]. cbn [fst snd] in H1, H2. subst size.
    destruct (Z.eqb_spec (IPv6HopByHop.getSize (alert (sock i s))) 0) as [->|_]; [split; [lia|done|done]|].
    split; [done| |done].
    transitivity (length (Packet.write (Z.to_nat (nextheaderfield_ip b1)) [0]
      (take (Z.to_nat (getDataPointer b1)) (SendBuffer.mem (sb b1)) ++ p))); [reflexivity|].
    rewrite length_write, length_app, H1, <- length_app. by rewrite take_drop.
Qed.

Lemma read_behind (x q p : bytes) : length x = 14%nat -> (40 <= length q)%nat ->
  take 16 (drop 38 (take 54 (x ++ q) ++ p)) = take 16 (drop 24 q).
Proof.
  intros Hx Hq. rewrite (take_app_ge x) by lia. rewrite <- app_assoc, (drop_app_ge x), Hx by lia.
  rewrite drop_app_le by (rewrite length_take; lia). rewrite take_app_le by (rewrite length_drop, length_take; lia).
  change (54 - 14)%nat with (24 + 16)%nat. change (38 - 14)%nat with 24%nat. by rewrite <- take_drop_commute, take_take.
Qed.

(** The destination behind the IPv6 header is the socket's. *)
Lemma ipv6_keeps i (s : Stack W) b : length (Sockets6.dst_ipv6_addr (ipv6 (sock i s))) = 16%nat ->
  SendBuffer.data (sb b) = 14 -> (54 <= length (SendBuffer.mem (sb b)))%nat ->
  let b' := hopbyhop_advice i s (ipv6_advice e i s b) in
  needs b' = needs b ∧ m_interface b' = m_interface b ∧ destination b' = Sockets6.dst_ipv6_addr (ipv6 (sock i s)).
Proof.
  intros Hd H14 Hm. set (t := ipv6 (sock i s)) in *. set (m := SendBuffer.mem (sb b)) in *.
  set (q := Sockets6.setupHeader e (SendBuffer.getRemainingSize (sb b)) (drop 14 m) t).
  assert (Lq : length q = (length m - 14)%nat) by (unfold q; rewrite length_setupHeader, length_drop; done).
  assert (Eq : get_bytes 24 16 q = Sockets6.dst_ipv6_addr t).
  { unfold q, Sockets6.setupHeader, IPv6_Packet.set_dst_ipaddr, IPv6_Packet.o_dst_ipaddr, set_bytes, get_bytes.
    assert (Et : take 16 (IPv6.copy_ipv6_addr (Sockets6.dst_ipv6_addr t)) = Sockets6.dst_ipv6_addr t)
      by (unfold IPv6.copy_ipv6_addr; rewrite take_take; apply take_ge; lia).
    rewrite Et. rewrite <- Hd at 1. apply read_write.
    unfold q, Sockets6.setupHeader, IPv6_Packet.set_dst_ipaddr, set_bytes in Lq. rewrite length_write in Lq. lia. }
  set (b1 := ipv6_advice e i s b).
  assert (E1 : SendBuffer.mem (sb b1) = take 14 m ++ q).
  { unfold b1, ipv6_advice, getDataPointer, SendBuffer.getDataPointer. rewrite H14. reflexivity. }
  assert (D1 : SendBuffer.data (sb b1) = 54 ∧ memstart_ip b1 = 14 ∧ nextheaderfield_ip b1 = 20 ∧ m_interface b1 = m_interface b ∧ needs b1 = needs b).
  { unfold b1, ipv6_advice, getDataPointer, SendBuffer.getDataPointer. rewrite H14.
    split_and!; try reflexivity. transitivity (SendBuffer.data (sb b) + 40); [reflexivity|by rewrite H14]. }
  destruct D1 as (D1 & I1 & N1 & M1 & S1). cbv zeta. fold b1. unfold hopbyhop_advice.
  change (getDataPointer b1) with (SendBuffer.data (sb b1)). rewrite D1.
  destruct (IPv6HopByHop.writeExtensionHeader _ _) as [p size].
  assert (Et : length (take 14 m) = 14%nat) by (rewrite length_take; lia).
  destruct (size =? 0).
  - split; [done|]. split; [done|]. unfold destination. rewrite I1, E1. change (Z.to_nat 14) with 14%nat.
    rewrite <- Et at 1. by rewrite drop_app_length.
  - split; [exact S1|]. split; [exact M1|].
    transitivity (get_bytes 24 16 (drop 14 (Packet.write 20 [0] (take 54 (SendBuffer.mem (sb b1)) ++ p)))).
    { unfold destination. change (memstart_ip ?x) with (memstart_ip b1) at 1. rewrite I1. do 2 f_equal.
      transitivity (Packet.write (Z.to_nat (nextheaderfield_ip b1)) [0] (take 54 (SendBuffer.mem (sb b1)) ++ p)); [reflexivity|by rewrite N1]. }
    rewrite E1. unfold get_bytes. rewrite drop_drop. change (24 + 14)%nat with 38%nat.
    rewrite read_write_out by (cbn; lia).
    rewrite read_behind; [exact Eq|done|lia].
Qed.

(** A request of a socket whose destination needs no lookup returns, whatever the additions do. *)
Lemma request_resolved k i (s : Stack W) nic size transport :
  getUsedInterface i s = Some k -> nics !! k = Some nic -> resolved k i s ->
  length (Sockets6.dst_ipv6_addr (ipv6 (sock i s))) = 16%nat -> 0 <= size < 1024 ->
  exists r w, (forall f : adding, requestSendBuffer e nics sizeof_SendBuffer fast_bits fuel demux f i transport nic size s
      = Some (r, s <| world := w |>))
  ∧ forall b, r = Some b -> exists b', b = transport b' ∧ 0 <= SendBuffer.data (sb b')
      ∧ Z.of_nat (length (SendBuffer.mem (sb b'))) = SendBuffer.data (sb b') + size.
Proof.
  intros Hu Hn Hr Hd Hsize. unfold requestSendBuffer, estimateSendBufferMinSize, request_behind. rewrite Hu. cbn [mbind option_bind].
  rewrite Hn. cbn [mbind option_bind]. rewrite (fast16_small fast_bits bits size) by lia.
  set (headers := (if n_type nic =? ETHERNET then _ else _) + _ + _).
  assert (Hh : 40 <= headers <= 62 ∧ (n_type nic = ETHERNET -> 54 <= headers)).
  { unfold headers, IPv6HopByHop.getSize, IPv6HopByHop.getMinSize. destruct (Z.eqb_spec (n_type nic) ETHERNET), (IPv6HopByHop.use_alertoption _); by vm_compute. }
  rewrite (fast16_small fast_bits bits) by lia.
  pose proof (pool (headers + size + sizeof_SendBuffer) (world s)) as Hpool.
  destruct (dv_alloc _ _) as [[a area] w]. set (s1 := s <| world := w |>).
  unfold SendBuffer.createInstance. destruct (Z.eqb_spec a 0) as [|Ha]; [exists None, w; split; [done|done]|]. specialize (Hpool Ha ltac:(lia)).
  set (b := MkBuffer _ nic 0 0 0).
  assert (Ei : sock i s1 = sock i s) by (by destruct i). assert (Em : memory_at k s1 = memory_at k s) by done.
  destruct (ethernet_moves i s1 b nic) as (b1 & Eb & M1 & N1).
  { unfold getUsedInterface. rewrite Ei. fold (getUsedInterface i s). by rewrite Hu. }
  rewrite Ei in N1. pose proof (ipv6_moves i s1 b1) as M2. rewrite Ei in M2.
  destruct (lookup_resolved s1 (hopbyhop_advice i s1 (ipv6_advice e i s1 b1))) as (b3 & E3 & M3).
  { intros Hneed. assert (H : needs (hopbyhop_advice i s1 (ipv6_advice e i s1 b1)) = needs b1).
    { unfold hopbyhop_advice. destruct (IPv6HopByHop.writeExtensionHeader _ _) as [p z]. by destruct (z =? 0). }
    rewrite H in Hneed. destruct (N1 eq_refl Hneed) as [Hm Ht]. destruct M1 as [D1 L1 I1]. rewrite (proj2 (Z.eqb_eq _ _) Ht) in D1.
    destruct (ipv6_keeps i s1 b1) as (_ & I2 & D2); rewrite ?Ei; [done|exact D1|rewrite L1; cbn; lia|].
    rewrite I2, I1, D2, Ei, (numbered k nic Hn : n_id (m_interface b) = k), Em. destruct Hr; [congruence|done]. }
  assert (M : moved b b3 headers).
  { pose proof (moved_trans _ _ _ _ _ (moved_trans _ _ _ _ _ M1 M2) M3) as M. clear -M. destruct M as [H1 H2 H3]. split; [|done|done].
    rewrite H1. unfold headers, Eth_Frame.ETH_HEADER_SIZE, Sockets6.getSpecificHeaderSize, IPv6_Packet.IPV6_HEADER_SIZE_IN_BYTES.
    destruct (_ =? _); lia. }
  exists (if negb (SendBuffer.getState (sb (transport b3)) =? SendBuffer.WritingState) then None else Some (transport b3)), w. split.
  - intros f. unfold prepareSendBuffer. rewrite Eb. cbn [mbind option_bind]. rewrite E3. cbn [mbind option_bind]. by destruct (negb _).
  - intros b' Hb'. destruct (negb _); [done|]. injection Hb' as <-. exists b3. split; [done|]. destruct M as [H1 H2 _]. rewrite H1, H2.
    change (SendBuffer.data (sb b)) with 0. change (SendBuffer.mem (sb b)) with area. lia.
Qed.

(** A message that fills what was requested has a checksum. *)
Lemma checksum_defined size (msg : bytes -> bytes) b : (forall p, length (msg p) = length p) -> 0 <= size < 1024 ->
  0 <= SendBuffer.data (sb b) -> Z.of_nat (length (SendBuffer.mem (sb b))) = SendBuffer.data (sb b) + size ->
  is_Some (icmp_checksum_advice e (write_message size msg (icmp_advice b))).
Proof.
  intros Hmsg Hsize Hd Hl. unfold icmp_checksum_advice, checksum_advice. set (b1 := write_message size msg (icmp_advice b)).
  assert (E1 : SendBuffer.memstart_transport (sb b1) = SendBuffer.data (sb b) ∧ SendBuffer.data (sb b1) = SendBuffer.data (sb b) + size) by done.
  assert (E2 : length (SendBuffer.mem (sb b1)) = length (SendBuffer.mem (sb b))).
  { transitivity (length (SendBuffer.mem (sb (on_sb (SendBuffer.at_pointer (getDataPointer (icmp_advice b)) msg) (icmp_advice b))))); [reflexivity|].
    rewrite (length_at_pointer _ _ _ Hmsg).
    transitivity (length (Packet.write (Z.to_nat (nextheaderfield_ip b)) [ICMPv6_Packet.IPV6_TYPE_ICMP] (SendBuffer.mem (sb b)))); [reflexivity|].
    apply length_write. }
  destruct E1 as [-> ->]. replace (SendBuffer.data (sb b) + size - SendBuffer.data (sb b)) with size by lia.
  rewrite u16_id by (unfold is_u16; lia).
  destruct (InternetChecksum.calc_checksum_defined e (computePseudoHeaderV6
      (IPv6_Packet.get_src_ipaddr (drop (Z.to_nat (memstart_ip b1)) (SendBuffer.mem (sb b1))))
      (IPv6_Packet.get_dst_ipaddr (drop (Z.to_nat (memstart_ip b1)) (SendBuffer.mem (sb b1)))) size ICMPv6_Packet.IPV6_TYPE_ICMP)
    (drop (Z.to_nat (SendBuffer.data (sb b))) (SendBuffer.mem (sb (on_sb (SendBuffer.at_pointer (SendBuffer.data (sb b)) (ICMPv6_Packet.set_checksum e 0)) b1)))) size) as [c Ec].
  { rewrite length_drop, length_at_pointer by (intros; apply length_setf). rewrite E2. lia. }
  rewrite Ec. by eexists.
Qed.

Lemma message_resolved k (s : Stack W) nic size (msg : Stack W -> bytes -> bytes) :
  nics !! k = Some nic -> getUsedInterface Instance_ s = Some k -> resolved k Instance_ s ->
  length (Sockets6.dst_ipv6_addr (ipv6 (instance s))) = 16%nat -> 0 <= size < 1024 -> (forall s p, length (msg s p) = length p) ->
  exists w, forall f : adding,
  request_and_send e nics sizeof_SendBuffer fast_bits fuel demux f k size (λ s b, Some (write_message size (msg s) b)) s = Some (s <| world := w |>).
Proof.
  intros Hn Hu Hr Hd Hsize Hmsg. unfold request_and_send. rewrite Hn. cbn [mbind option_bind].
  destruct (request_resolved k Instance_ s nic size icmp_advice Hu Hn Hr Hd Hsize) as (r & w & E & Hb).
  destruct r as [b|].
  - destruct (Hb b eq_refl) as (b' & -> & H0 & Hl). unfold icmp_send.
    destruct (checksum_defined size (msg (s <| world := w |>)) b' (Hmsg _) Hsize H0 Hl) as [c Ec].
    assert (Es : exists w', (let '(_, _, t) := send nics Instance_ c (s <| world := w |>) in t) = s <| world := w' |>).
    { unfold send, multicast_copies. destruct (negb _); [by eexists|]. cbv zeta. destruct (Multicast.isMulticast _); by eexists. }
    destruct Es as [w' Es]. exists w'. intros f. rewrite E. cbn [mbind option_bind].
    rewrite Ec. cbn [mbind option_bind]. rewrite <- Es. by destruct (send _ _ _ _) as [[??]?].
  - exists w. intros f. by rewrite E.
Qed.

Lemma on_memory_at (k : nat) f (s : Stack W) : interfaces s !! k ≠ None -> memory_at k (on_memory k f s) = f (memory_at k s).
Proof.
  intros H. unfold on_memory, on_interface, memory_at, interface_at. cbn. rewrite list_lookup_alter_eq.
  by destruct (interfaces s !! k).
Qed.

(** What a message of the stack leaves as it was. *)
Record kept (s s' : Stack W) : Prop := {
  kp_user : user s' = user s;
  kp_interfaces : interfaces s' = interfaces s;
  kp_alert : alert (instance s') = alert (instance s);
  kp_hoplimit : Sockets6.hoplimit (ipv6 (instance s')) = Sockets6.hoplimit (ipv6 (instance s)) }.
Lemma kept_addresses dst k src w (s : Stack W) : kept s (set_addresses e dst k src s <| world := w |>).
Proof. split; try done; by destruct src. Qed.

(** The solicitation that follows an addition never adds an entry, and returns. *)
Lemma request_adds_nothing k j nic (s : Stack W) : nics !! k = Some nic ->
  NDPCache.ndpcache_find (Entry.ipv6 (memory_at k s !!! j)) (memory_at k s) = Some j ->
  length (Entry.ipv6 (memory_at k s !!! j)) = 16%nat ->
  exists s', kept s s' ∧ forall f : adding, address_resolution_request e nics sizeof_SendBuffer fast_bits fuel demux f k (Some j) s = Some s'.
Proof.
  intros Hn Hf Ha. unfold address_resolution_request. destruct (negb _); [by exists s|].
  destruct (NDPCache.is_NDPCacheEntry_reachable _); [by exists s|].
  destruct (Interfaces.getInterfaceIPv6AddressByScope _ _) as [src|]; [|by exists s]. rewrite Hn. cbn [mbind option_bind].
  assert (Hz : forall z, 0 <= NDPNeighborMessages.solicitation_size z < 1024).
  { intros z. unfold NDPNeighborMessages.solicitation_size. zlia. }
  assert (Hmsg : forall a z (s : Stack W) p, length (NDPNeighborMessages.neighbor_solicitation e (Entry.ipv6 (memory_at k s !!! j)) a z p) = length p).
  { intros a z t p. unfold NDPNeighborMessages.neighbor_solicitation, NDPMessages.write_option_linklayer_address, set_bytes.
    by rewrite !length_write, length_setf, length_write. }
  set (addr := Entry.ipv6 (memory_at k s !!! j)) in *.
  set (dst := if _ =? _ then addr else _). set (s1 := set_addresses e dst k (Some src) s).
  destruct (message_resolved k s1 nic (NDPNeighborMessages.solicitation_size (address_size nic))
    (λ s, NDPNeighborMessages.neighbor_solicitation e (Entry.ipv6 (memory_at k s !!! j)) (n_address nic) (address_size nic)) Hn) as [w Hw];
    [done| | |apply Hz|apply Hmsg|].
  - unfold resolved. change (Sockets6.dst_ipv6_addr (ipv6 (sock Instance_ s1))) with (IPv6.copy_ipv6_addr dst).
    change (memory_at k s1) with (memory_at k s). unfold IPv6.copy_ipv6_addr, dst. destruct (_ =? _); [|by left].
    right. rewrite take_ge by lia. by exists j.
  - change (length (IPv6.copy_ipv6_addr dst) = 16%nat). unfold IPv6.copy_ipv6_addr, dst. destruct (_ =? _); [rewrite length_take; lia|done].
  - exists (s1 <| world := w |>). split; [apply kept_addresses|exact Hw].
Qed.

(** Adding an entry: the memory is that of the cache, and a solicitation may have been sent. *)
Lemma add_returns k nic addr h st (s : Stack W) : nics !! k = Some nic -> NdpCache.wf (memory_at k s) -> call_ok addr h ->
  let '(entry, m') := NDPCache.addNDPCacheEntry e expires addr h st (memory_at k s) in
  exists s', kept (on_memory k (λ _, m') s) s'
  ∧ forall f : adding, add_and_request e nics sizeof_SendBuffer fast_bits expires fuel demux f k addr h st s = Some (entry, s').
Proof.
  intros Hn Hm Hc. unfold add_and_request. pose proof (add_spec e expires (memory_at k s) addr h st Hm Hc) as H.
  destruct (NDPCache.addNDPCacheEntry e expires addr h st (memory_at k s)) as [[j|] m'] eqn:Eadd.
  2: { exists (on_memory k (λ _, m') s). split; [done|]. intros f. unfold address_resolution_request. by destruct (negb _). }
  destruct H as (Hw & Hf & _). set (s1 := on_memory k (λ _, m') s).
  assert (E : memory_at k s1 = m').
  { apply on_memory_at. intros Hi. unfold memory_at, interface_at in Eadd. rewrite Hi in Eadd. by destruct expires. }
  assert (Ea : Entry.ipv6 (memory_at k s1 !!! j) = addr).
  { rewrite E. pose proof (find_spec m' addr (co_addr _ _ Hc)) as Hs. rewrite Hf in Hs. destruct Hs as (b & Hb & _ & Ea).
    by rewrite (list_lookup_total_correct _ _ _ Hb). }
  destruct (request_adds_nothing k j nic s1 Hn) as (s2 & Hk & H2); rewrite ?Ea; [by rewrite E|apply Hc|].
  exists s2. split; [done|]. intros f. by rewrite H2.
Qed.

(** C21: Adding an entry to the neighbor cache may solicit its address, for which a buffer is requested, for
    which an address may be looked up, which may add an entry: this nests only once. However deep the
    additions may nest, adding an entry returns, without waiting for a neighbor, and the result is the same. *)
Theorem lookup_nests_once (k : nat) (nic : Nic) (addr : bytes) (h : option bytes) (st : StateEnum) (s : Stack W) :
  nics !! k = Some nic -> NdpCache.wf (memory_at k s) -> call_ok addr h ->
  exists r, Socket_Send6.addNDPCacheEntry e nics sizeof_SendBuffer fast_bits expires fuel demux k addr h st s = Some r
  ∧ forall depth, add_nested e nics sizeof_SendBuffer fast_bits expires fuel demux (Datatypes.S depth) k addr h st s = Some r.
Proof.
  intros Hn Hm Hc. pose proof (add_returns k nic addr h st s Hn Hm Hc) as H.
  destruct (NDPCache.addNDPCacheEntry _ _ _ _ _ _) as [entry m']. destruct H as (s' & _ & Hs').
  exists (entry, s'). split; [apply Hs'|intros depth; apply Hs'].
Qed.
End Nesting.

(** ** A host to try it on *)

Section Example.
(** The time passes with each reading of the clock, when the next frames arrive. *)
Record Net6 := MkNet6 { net_time : Z; arriving : list (list (nat * bytes)); net_sent : list (nat * bytes) }.
Definition net6_system : System6 Net6 :=
  {| sys_now6 w := (net_time w, default [] (head (arriving w)), MkNet6 (net_time w + 1) (tail (arriving w)) (net_sent w)) |}.
Definition net6_device : Device Net6 :=
  {| dv_alloc n w := (4096, repeat 0 (Z.to_nat (n - 32)), w); dv_maxFree _ := 1600; dv_getMTU _ _ := 1500;
     dv_send k f w := MkNet6 (net_time w) (arriving w) (net_sent w ++ [(k, f)]) |}.
Definition net6_clock : Clock := {| ms_to_ticks ms := ms / 100; ticks_to_ms t := t * 100 |}.
#[local] Existing Instance net6_system.
#[local] Existing Instance net6_device.
#[local] Existing Instance net6_clock.
#[local] Existing Instance packed.
#[local] Existing Instance packed_ok.

(** The host with the hardware address 2:0:0:0:0:[d] and the link-local address made of it, which listens to the
    group of all nodes; it has room for [n] further entries. *)
Definition mac6_example (d : Z) : bytes := [2; 0; 0; 0; 0; d].
Definition ll_example (d : Z) : bytes := [0xfe; 0x80; 0; 0; 0; 0; 0; 0; 2; 0; 0; 0xff; 0xfe; 0; 0; d].
Definition nic6_example (d : Z) : Nic := MkNic 0 ETHERNET (mac6_example d) (MkInterface 0 0 true).
Definition memory6_example (d : Z) (n : nat) : list bytes :=
  [MulticastGroupEntry.ID :: Multicast.allNodes ++ repeat 0 12; AddressEntry.ID :: ll_example d ++ [64; 5; 255; 0] ++ repeat 0 8]
  ++ replicate n (replicate 29 0).
Definition no_alert : IPv6HopByHop.Alert := IPv6HopByHop.MkAlert false 0.
Definition host6_example (d : Z) (n : nat) : Stack Net6 :=
  MkStack (MkSock6 Sockets6.IPV6_ctor no_alert) (MkSock6 Sockets6.IPV6_ctor no_alert)
    [MkInterface6 true (memory6_example d n)] (MkNet6 0 [] []).
Definition add_example (d : Z) : nat -> bytes -> option bytes -> NDPCacheEntry.StateEnum -> Stack Net6 -> option (option nat * Stack Net6) :=
  Socket_Send6.addNDPCacheEntry LE [nic6_example d] 32 32 false 20 (λ _ _ s, Some s).

Lemma wf6_example d n : is_u8 d -> (n <= 200)%nat -> NdpCache.wf (memory6_example d n).
Proof.
  intros Hd Hn. unfold memory6_example. split.
  - apply Forall_app_2; [|apply Forall_replicate; split; [cbn; lia|apply (bool_decide_unpack _); by vm_compute]].
    repeat apply Forall_cons_2; [split; [cbn; lia|apply (bool_decide_unpack _); by vm_compute]|split; [cbn; lia|]|constructor].
    unfold ll_example, is_u8 in *. repeat apply Forall_cons_2; try apply Forall_nil_2; unfold is_u8, AddressEntry.ID; lia.
  - rewrite length_app, length_replicate. cbn. lia.
  - assert (H : forall j b, memory6_example d n !! j = Some b -> is_ndp b = false).
    { intros j b Hj. unfold memory6_example in Hj. apply lookup_app_Some in Hj as [Hj|[_ Hj]].
      - destruct j as [|[|j]]; [injection Hj as <-|injection Hj as <-|]; done.
      - apply lookup_replicate in Hj as [-> _]. done. }
    intros j k b c Hj Hk Nb. by rewrite (H j b Hj) in Nb.
Qed.

(** The solicitation of an address that is not known goes to the group of its solicited node. *)
Example solicitation_example :
  (λ r, net_sent (world (snd r))) <$> add_example 10 0 (ll_example 11) None NDPCacheEntry.NDPCacheEntryState_Incomplete (host6_example 10 2)
  = Some [(0%nat, eth6_header [51; 51; 255; 0; 0; 11] (mac6_example 10)
      ++ ip6_header (ll_example 10) (IPv6.solicitedNode_multicast_addr (ll_example 11)) 32 255 58
      ++ [135; 0; 120; 115; 0; 0; 0; 0] ++ ll_example 11 ++ [1; 1] ++ mac6_example 10)].
Proof. by vm_compute. Qed.

Lemma lookup_nests_once_witness : exists r,
  add_example 10 0 (ll_example 11) None NDPCacheEntry.NDPCacheEntryState_Incomplete (host6_example 10 2) = Some r.
Proof.
  destruct (lookup_nests_once LE [nic6_example 10] 32 32 false 20 (λ _ _ s, Some s)
    ltac:(intros [|k] nic H; [by injection H as <-|done]) ltac:(intros n w; cbn; intros _ Hn; rewrite repeat_length; lia) ltac:(lia)
    0 (nic6_example 10) (ll_example 11) None NDPCacheEntry.NDPCacheEntryState_Incomplete (host6_example 10 2)) as (r & E & _).
  - reflexivity.
  - apply wf6_example; [unfold is_u8; lia|lia].
  - split; [reflexivity|apply (bool_decide_unpack _); vm_compute; exact I|done].
  - by exists r.
Defined.
End Example.
