(* ===== verification/DestCache.v ===== *)
(** * DestCache: the destination cache and redirects

    Models the destination cache ([ipv6/destcache]): the list of all IPv6 sides of sockets that
    the router keeps, the neighbor cache entry that each may have as its next hop, what resolving a
    route, an interface that comes up and an entry that is freed do to them, and the redirect
    messages that set them ([icmpv6/ndp_redirect/NDP_Redirect.ah]).

    A socket's IPv6 side is known by its index, the null pointer is [None]; an entry is an
    interface and a place in its memory.  An outer [None] is fuel that was used up, an inner one
    the use of a null pointer or of memory behind a message. *)

From stdpp Require Import gmap.
From S2P Require Import Prelude Wire LinkedList Packet TcpHistory SendBuffer Addresses Headers Ipv6 NdpCache MulticastGroups Arp Send4 Send6.

Open Scope Z_scope.

Definition Entry_ptr : Type := nat * nat.

(** [IPv6_DEST_CACHE_Slice] with the class it extends. *)
Record Cached := MkCached { ip_side : Sockets6.IPV6; next : option nat; nexthop_ndpcache_entry : option Entry_ptr }.
#[export] Instance Cached_settable : Settable Cached := λ c, MkCached (ip_side c) (next c) (nexthop_ndpcache_entry c).

(** [Router_IPv6_DEST_CACHE_Slice], and the objects. *)
Record DestCache := MkDestCache { ipv6_head : option nat; instances : gmap nat Cached }.
#[export] Instance DestCache_settable : Settable DestCache := λ d, MkDestCache (ipv6_head d) (instances d).

Module DestinationCache.

Definition getFirstDestinationCacheEntry (d : DestCache) : option nat := ipv6_head d.
Definition getNext (i : nat) (d : DestCache) : option (option nat) := next <$> instances d !! i.
Definition setNext (sock : option nat) (i : nat) (d : DestCache) : DestCache :=
  d <| instances := alter (λ c, c <| next := sock |>) i (instances d) |>.
Definition set_nexthop_ndpcache_entry (a : option Entry_ptr) (c : Cached) : Cached := c <| nexthop_ndpcache_entry := a |>.

(** ** Loops over all sockets

    [visit] is the body of the loop for one socket; [X] is what else it changes. *)
Section Each.
Context {X : Type} (visit : Cached -> X -> option (Cached * X)).
Definition each_step (st : option nat * DestCache * X) : (option nat * DestCache * X) + option (DestCache * X) :=
  let '(current, d, x) := st in
  match current with
  | None => inr (Some (d, x))
  | Some i =>
      match (c ← instances d !! i; visit c x) with
      | None => inr None
      | Some (c, x) => inl (next c, d <| instances := <[i := c]> (instances d) |>, x)
      end
  end.
Definition each (fuel : nat) (d : DestCache) (x : X) : option (option (DestCache * X)) :=
  loop fuel each_step (getFirstDestinationCacheEntry d, d, x).
End Each.

(** The addresses of the entry go with the interface's memory. *)
Definition clear_one (entry : option Entry_ptr) (c : Cached) (_ : unit) : option (Cached * unit) :=
  Some (if bool_decide (entry = None) || bool_decide (nexthop_ndpcache_entry c = entry) then set_nexthop_ndpcache_entry None c else c, tt).
Definition clearDestinationCacheEntry (fuel : nat) (entry : option Entry_ptr) (d : DestCache) : option (option DestCache) :=
  r ← each (clear_one entry) fuel d tt;
  Some ('(d, _) ← r; Some d).

(** ** The list *)

Definition find_step (d : DestCache) (i : nat) (current : option nat) : option nat + option bool :=
  match current with
  | None => inr (Some false)
  | Some j => if Nat.eqb j i then inr (Some true) else match getNext j d with None => inr None | Some n => inl n end
  end.
Definition addToDestinationCache (fuel : nat) (i : nat) (d : DestCache) : option (option (bool * DestCache)) :=
  known ← loop fuel (find_step d i) (ipv6_head d);
  Some (known ← known; Some (if known : bool then (false, d) else (true, (setNext (ipv6_head d) i d) <| ipv6_head := Some i |>))).

Definition remove_step (d : DestCache) (i : nat) (st : nat * option nat) : (nat * option nat) + option DestCache :=
  let '(current, nxt) := st in
  match nxt with
  | None => inr (Some d)
  | Some n =>
      if Nat.eqb n i then inr (nn ← getNext n d; Some (setNext nn current d))
      else match getNext n d with None => inr None | Some nn => inl (n, nn) end
  end.
Definition removeFromDestinationCache (fuel : nat) (i : nat) (d : DestCache) : option (option DestCache) :=
  if bool_decide (Some i = ipv6_head d) then Some (n ← getNext i d; Some (d <| ipv6_head := n |>))
  else
    match (current ← ipv6_head d; n ← getNext current d; Some (current, n)) with
    | None => Some None
    | Some st => loop fuel (remove_step d i) st
    end.

(** The constructor and the destructor of [IPV6] with their advice. *)
Definition construct (fuel : nat) (i : nat) (d : DestCache) : option (option DestCache) :=
  r ← addToDestinationCache fuel i (d <| instances := <[i := MkCached Sockets6.IPV6_ctor None None]> (instances d) |>);
  Some ('(_, d) ← r; Some d).
Definition destroy (fuel : nat) (i : nat) (d : DestCache) : option (option DestCache) :=
  r ← removeFromDestinationCache fuel i d;
  Some (d ← r; Some (d <| instances := delete i (instances d) |>)).

(** ** Routes *)

Section Routes.
Context (e : endian).

Definition get_nexthop_ipaddr (l : list Interface6) (c : Cached) : bytes :=
  match nexthop_ndpcache_entry c with
  | None => Sockets6.get_nexthop_ipaddr (ip_side c)
  | Some a => Entry.ipv6 (Sockets6.entry_at l a)
  end.

Definition on_entry (f : bytes -> bytes) (a : Entry_ptr) (l : list Interface6) : list Interface6 :=
  alter (λ i, i <| addressmemory := alter f (snd a) (addressmemory i) |>) (fst a) l.

(** [resolveRoute] with its advice; its result is the address entry proposed as source. *)
Definition resolveRoute (c : Cached) (l : list Interface6) : option (Cached * list Interface6) :=
  let t := Sockets6.resolveRoute e l (ip_side c) in
  let c := c <| ip_side := t |> in
  let result := if get8 0 (Sockets6.dst_ipv6_addr t) =? 0 then None
                else Routing6.proposed_src_addr (Routing6.ipv6_find_route e l (Sockets6.dst_ipv6_addr t)) in
  match Sockets6.s_interface t, result with
  | Some k, Some a =>
      let b := Sockets6.entry_at l a in
      if bool_decide (IPv6.getIPv6AddressScope (Entry.ipv6 b) = IPv6.IPV6_SCOPE_LINKLOCAL)
      then Some (set_nexthop_ndpcache_entry None c, l)
      else if AddressEntry.routerEntryPosition b =? AddressMemory.EntryUndefined then Some (c, l)
      else
        let j := AddressMemory.getEntryAtPosition (Z.to_nat (AddressEntry.routerEntryPosition b)) in
        i ← l !! k;
        id ← AddressMemory.id_at (addressmemory i) j;
        Some (if negb (id =? NDPCacheEntry.ID) then (c, on_entry (λ b, <[19%nat := AddressMemory.EntryUndefined]> b) a l)
              else (set_nexthop_ndpcache_entry (Some (k, j)) c, l))
  | _, _ => Some (c, l)
  end.

Definition setupDestinationCacheEntryForInterface (fuel : nat) (k : nat) (d : DestCache) (l : list Interface6)
    : option (option (DestCache * list Interface6)) :=
  each (λ c l, if bool_decide (Sockets6.s_interface (ip_side c) = Some k) then resolveRoute c l else Some (c, l)) fuel d l.

(** [setIPv6Up] with this advice only. *)
Definition setIPv6Up (fuel : nat) (up : bool) (k : nat) (d : DestCache) (l : list Interface6)
    : option (option (DestCache * list Interface6)) :=
  r ← setupDestinationCacheEntryForInterface fuel k d l;
  Some ('(d, l) ← r; Some (d, alter (Interfaces.setIPv6Up up) k l)).

(** [freeNDPCacheEntry] of an entry, with this advice. *)
Definition freeNDPCacheEntry (fuel : nat) (k j : nat) (d : DestCache) (m : list bytes) : option (option (DestCache * list bytes)) :=
  r ← clearDestinationCacheEntry fuel (Some (k, j)) d;
  Some (d ← r; Some (d, NDPCache.freeNDPCacheEntry e j m)).
End Routes.

(** ** Redirects *)

Section Redirect.
Context (e : endian) `{Clk : Clock} {W : Type} `{Sys : System6 W} `{Dev : Device W}.
Context (nics : list Nic) {L : Layout} (sizeof_SendBuffer fast_bits : Z) (expires : bool) (fuel : nat).
(** What uninitialised local variables hold. *)
Context (junk : bytes).
Context (interrupt : nat -> bytes -> Stack W -> option (Stack W)).

Definition sizeof_RedirectMessage : Z := 40.
Definition target_address : bytes -> bytes := get_bytes 8 16.
Definition destination_address : bytes -> bytes := get_bytes 24 16.
Definition redirect_one (destination : bytes) (entry : Entry_ptr) (c : Cached) (_ : unit) : option (Cached * unit) :=
  Some (if IPv6.same_ipv6_addr (Sockets6.dst_ipv6_addr (ip_side c)) destination
        then set_nexthop_ndpcache_entry (Some entry) c else c, tt).

Definition NDP_Redirect (proceed : Stack W * DestCache -> option (Stack W * DestCache))
    (k : nat) (message : bytes) (payloadlen : Z) (sd : Stack W * DestCache) : option (Stack W * DestCache) :=
  let '(s, d) := sd in
  if (ICMPv6_Packet.get_type e message =? 137) && (ICMPv6_Packet.get_code e message =? 0) then
    if payloadlen <? sizeof_RedirectMessage then Some (s, d)
    else
      let payloadlen := payloadlen - sizeof_RedirectMessage in
      mac ← NDPMessages.get_option_linklayer_address NDPMessages.TargetLinkLayer (drop 40 message) payloadlen;
      '(entry, s) ← Socket_Send6.addNDPCacheEntry e nics sizeof_SendBuffer fast_bits expires fuel interrupt k
        (target_address message) (Some (default (take 6 junk) mac))
        (match mac with Some _ => NDPCacheEntry.NDPCacheEntryState_Reachable | None => NDPCacheEntry.NDPCacheEntryState_Incomplete end) s;
      match entry with
      | None => Some (s, d)
      | Some j =>
          '(d, _) ← default None (each (redirect_one (destination_address message) (k, j)) fuel d tt);
          Some (s, d)
      end
  else proceed sd.

(** [prepareSendBuffer] for a socket with the destination cache. *)
Definition prepareSendBuffer (c : Cached)
    (add : nat -> bytes -> option bytes -> NDPCacheEntry.StateEnum -> Stack W -> option (option nat * Stack W))
    (i : who) (transport : Buffer -> Buffer) (s : Stack W) (b : Buffer) : option (Buffer * Stack W) :=
  b ← Socket_Send6.ethernet_advice_to e nics (get_nexthop_ipaddr (interfaces s) c) i s b;
  let b := Socket_Send6.hopbyhop_advice i s (Socket_Send6.ipv6_advice e i s b) in
  '(proceeds, b, s) ← Socket_Send6.lookup_advice e fuel interrupt add s b;
  Some (if proceeds : bool then transport b else b, s).
End Redirect.
End DestinationCache.

(** ** The list the cache stands for *)

Section Lists.
Import DestinationCache.

Definition nxt (d : DestCache) (i : nat) : option nat := instances d !! i ≫= next.
(** The sockets that exist, newest first. *)
Definition listed (d : DestCache) (l : list nat) : Prop :=
  chain (nxt d) (ipv6_head d) l ∧ NoDup l ∧ forall i, i ∈ l <-> is_Some (instances d !! i).
(** What the sockets hold. *)
Definition held (d : DestCache) : gmap nat (Sockets6.IPV6 * option Entry_ptr) :=
  (λ c, (ip_side c, nexthop_ndpcache_entry c)) <$> instances d.

Lemma next_destination_at d i : is_Some (instances d !! i) -> getNext i d = Some (nxt d i).
Proof. intros [c Hc]. unfold getNext, nxt. by rewrite Hc. Qed.

(** A loop over all sockets, whose body keeps an invariant [P] of what else it changes and relates each socket to what
    it leaves by [R]. *)
Lemma each_loop {X} (visit : Cached -> X -> option (Cached * X)) (P : X -> Prop) (R : Cached -> Cached -> Prop) :
  (forall c x, P x -> exists c' x', visit c x = Some (c', x') ∧ next c' = next c ∧ P x' ∧ R c c') ->
  forall l fuel current d x, chain (nxt d) current l -> NoDup l -> Forall (λ i, is_Some (instances d !! i)) l -> P x ->
  (length l < fuel)%nat ->
  exists d' x', loop fuel (each_step visit) (current, d, x) = Some (Some (d', x')) ∧ P x' ∧ ipv6_head d' = ipv6_head d
  ∧ (forall i, i ∉ l -> instances d' !! i = instances d !! i)
  ∧ (forall i c, i ∈ l -> instances d !! i = Some c -> exists c', instances d' !! i = Some c' ∧ next c' = next c ∧ R c c').
Proof.
  intros Hv. induction l as [|i l IH]; intros fuel current d x Hc Hn Hs Hx Hf; (destruct fuel as [|fuel]; [cbn in Hf; lia|]).
  - cbn in Hc. subst current. exists d, x. split_and!; try done. intros i c Hi. by apply elem_of_nil in Hi.
  - destruct Hc as [-> Hc]. apply NoDup_cons in Hn as [Hi Hn]. apply Forall_cons in Hs as [[c Ec] Hs].
    destruct (Hv c x Hx) as (c' & x' & E & En & Hx' & Hr). cbn [loop each_step]. rewrite Ec. cbn [mbind option_bind]. rewrite E.
    set (d1 := d <| instances := <[i := c']> (instances d) |>).
    assert (Hother : forall j, j ∈ l -> instances d1 !! j = instances d !! j).
    { intros j Hj. cbn. rewrite lookup_insert_ne; [done|]. by intros ->. }
    destruct (IH fuel (next c') d1 x') as (d' & x2 & E' & Hx2 & Hh & Hsame & Hall); [| |  | |cbn in Hf; lia|].
    + apply chain_ext with (nxt := nxt d); [intros j Hj; unfold nxt; by rewrite Hother|].
      unfold nxt in Hc at 2. rewrite Ec in Hc. cbn in Hc. by rewrite En.
    + done.
    + eapply Forall_impl; [apply Forall_forall; intros j Hj; exact Hj|]. intros j Hj. cbn beta. rewrite Hother by done.
      rewrite Forall_forall in Hs. by apply Hs.
    + done.
    + exists d', x2. split; [done|]. split; [done|]. split; [done|]. split.
      * intros j Hj. apply not_elem_of_cons in Hj as [Hji Hj]. rewrite Hsame by done. cbn. by rewrite lookup_insert_ne.
      * intros j c0 Hj Ej. apply elem_of_cons in Hj as [->|Hj].
        -- rewrite Ec in Ej. injection Ej as <-. exists c'. rewrite Hsame by done. cbn. by rewrite lookup_insert_eq.
        -- apply (Hall j); [done|]. by rewrite Hother.
Qed.

Lemma each_listed {X} (visit : Cached -> X -> option (Cached * X)) (P : X -> Prop) (R : Cached -> Cached -> Prop) fuel d l x :
  (forall c x, P x -> exists c' x', visit c x = Some (c', x') ∧ next c' = next c ∧ P x' ∧ R c c') ->
  listed d l -> P x -> (length l < fuel)%nat ->
  exists d' x', each visit fuel d x = Some (Some (d', x')) ∧ P x' ∧ listed d' l
  ∧ (forall i c', instances d' !! i = Some c' -> exists c, instances d !! i = Some c ∧ R c c')
  ∧ (forall i, is_Some (instances d' !! i) <-> is_Some (instances d !! i)).
Proof.
  intros Hv (Hc & Hn & Hi) Hx Hf.
  destruct (each_loop visit P R Hv l fuel (ipv6_head d) d x Hc Hn) as (d' & x' & E & Hx' & Hh & Hsame & Hall); [|done|done|].
  { apply Forall_forall. intros i Hil. by apply Hi. }
  assert (Hdom : forall i, is_Some (instances d' !! i) <-> is_Some (instances d !! i)).
  { intros i. destruct (decide (i ∈ l)) as [Hil|Hil]; [|by rewrite Hsame].
    destruct (proj1 (Hi i) Hil) as [c Ec]. destruct (Hall i c Hil Ec) as (c' & -> & _). by rewrite Ec. }
  exists d', x'. split; [exact E|]. split; [done|]. split.
  - split; [|split; [done|intros i; rewrite Hdom; apply Hi]]. rewrite Hh. apply chain_ext with (nxt := nxt d); [|done].
    intros i Hil. destruct (proj1 (Hi i) Hil) as [c Ec]. destruct (Hall i c Hil Ec) as (c' & E1 & E2 & _). unfold nxt. rewrite E1, Ec. cbn. by rewrite E2.
  - split; [|done]. intros i c' E1. destruct (proj1 (Hdom i) ltac:(by eexists)) as [c Ec]. exists c. split; [done|].
    destruct (Hall i c) as (c2 & E2 & _ & Hr); [apply Hi; by eexists|done|]. congruence.
Qed.

(** A body that changes the socket by a function. *)
Lemma each_map (f : Cached -> Cached) fuel d l : (forall c, next (f c) = next c) -> listed d l -> (length l < fuel)%nat ->
  exists d', each (λ c (_ : unit), Some (f c, tt)) fuel d tt = Some (Some (d', tt)) ∧ listed d' l ∧ instances d' = f <$> instances d.
Proof.
  intros Hf Hl Hfuel. destruct (each_listed (λ c (_ : unit), Some (f c, tt)) (λ _, True) (λ c c', c' = f c) fuel d l tt) as (d' & [] & E & _ & L & H & D);
    try done; [intros c []; by exists (f c), tt|]. exists d'. split; [done|]. split; [done|].
  apply map_eq. intros i. rewrite lookup_fmap. destruct (instances d' !! i) as [c'|] eqn:E'.
  - by destruct (H i c' E') as (c & -> & ->).
  - destruct (instances d !! i) as [c|] eqn:Ec; [|done]. exfalso. assert (H1 : is_Some (instances d' !! i)) by (apply D; by eexists).
    rewrite E' in H1. by destruct H1.
Qed.

(** ** Constructing and destroying sockets *)

Lemma find_destination_loop d i l : chain (nxt d) (ipv6_head d) l -> Forall (λ j, is_Some (instances d !! j)) l -> i ∉ l -> forall fuel, (length l < fuel)%nat ->
  loop fuel (find_step d i) (ipv6_head d) = Some (Some false).
Proof.
  generalize (ipv6_head d). induction l as [|j l IH]; intros h Hc Hs Hi fuel Hf; (destruct fuel as [|fuel]; [cbn in Hf; lia|]).
  - cbn in Hc. by subst h.
  - destruct Hc as [-> Hc]. apply not_elem_of_cons in Hi as [Hj Hi]. apply Forall_cons in Hs as [Sj Hs].
    cbn [loop find_step]. destruct (Nat.eqb_spec j i); [congruence|]. rewrite (next_destination_at d j Sj). apply IH; [done|done|done|cbn in Hf; lia].
Qed.

Lemma held_insert d i c : held (d <| instances := <[i := c]> (instances d) |>) = <[i := (ip_side c, nexthop_ndpcache_entry c)]> (held d).
Proof. unfold held. cbn. by rewrite fmap_insert. Qed.

Lemma constructed d l i fuel : listed d l -> i ∉ l -> (length l < fuel)%nat ->
  exists d', construct fuel i d = Some (Some d') ∧ listed d' (i :: l) ∧ held d' = <[i := (Sockets6.IPV6_ctor, None)]> (held d).
Proof.
  intros (Hc & Hn & Hs) Hi Hf. set (c := MkCached Sockets6.IPV6_ctor None None). set (d1 := d <| instances := <[i := c]> (instances d) |>).
  assert (Hother : forall j, j ∈ l -> instances d1 !! j = instances d !! j).
  { intros j Hj. cbn. rewrite lookup_insert_ne; [done|]. by intros ->. }
  assert (Hc1 : chain (nxt d1) (ipv6_head d1) l) by (apply chain_ext with (nxt := nxt d); [intros j Hj; unfold nxt; by rewrite Hother|done]).
  unfold construct, addToDestinationCache. fold c d1.
  rewrite (find_destination_loop d1 i l Hc1) by (done || (apply Forall_forall; intros j Hj; rewrite Hother by done; by apply Hs)). cbn [mbind option_bind].
  eexists. split; [reflexivity|]. set (d2 := _ <| ipv6_head := _ |>).
  assert (E : instances d2 = <[i := c <| next := ipv6_head d |>]> (instances d)).
  { cbn. apply map_eq. intros j. destruct (decide (j = i)) as [->|Hj]; [by rewrite lookup_alter_eq, !lookup_insert_eq|].
    by rewrite lookup_alter_ne, !lookup_insert_ne. }
  split; [split; [|split]|].
  - cbn [chain]. split; [done|]. unfold nxt at 2. rewrite E, lookup_insert_eq. cbn.
    apply chain_ext with (nxt := nxt d); [|done]. intros j Hj. unfold nxt. rewrite E, lookup_insert_ne; [done|by intros ->].
  - by constructor.
  - intros j. rewrite elem_of_cons, Hs, E. destruct (decide (j = i)) as [->|Hj]; [rewrite lookup_insert_eq; naive_solver|].
    rewrite lookup_insert_ne by done. naive_solver.
  - unfold held. rewrite E, fmap_insert. done.
Qed.

Lemma remove_loop d i : forall l1 l2 fuel p n, chain (nxt d) n (l1 ++ i :: l2) -> i ∉ l1 -> Forall (λ j, is_Some (instances d !! j)) (l1 ++ i :: l2) ->
  (length l1 < fuel)%nat -> loop fuel (remove_step d i) (p, n) = Some (Some (setNext (nxt d i) (default p (last l1)) d)).
Proof.
  induction l1 as [|j l1 IH]; intros l2 fuel p n Hc Hi Hs Hf; (destruct fuel as [|fuel]; [cbn in Hf; lia|]).
  - destruct Hc as [-> Hc]. apply Forall_cons in Hs as [Si _]. cbn [loop remove_step]. rewrite Nat.eqb_refl, (next_destination_at d i Si). done.
  - destruct Hc as [-> Hc]. apply not_elem_of_cons in Hi as [Hj Hi]. apply Forall_cons in Hs as [Sj Hs].
    cbn [loop remove_step]. destruct (Nat.eqb_spec j i); [congruence|]. rewrite (next_destination_at d j Sj).
    rewrite (IH l2) by (done || (cbn in Hf; lia)). do 3 f_equal. destruct l1 as [|x l1]; [done|].
    change (last (j :: x :: l1)) with (last (x :: l1)). by destruct (last (x :: l1)) eqn:El; [|apply last_None in El].
Qed.

Lemma listed_delete d d1 l1 i l2 : listed d (l1 ++ i :: l2) -> chain (nxt d1) (ipv6_head d1) (l1 ++ l2) ->
  (forall j, is_Some (instances d1 !! j) <-> is_Some (instances d !! j)) -> held d1 = held d ->
  let d' := d1 <| instances := delete i (instances d1) |> in listed d' (l1 ++ l2) ∧ held d' = delete i (held d).
Proof.
  intros (_ & Hn & Hs) Hc Hd Hh d'. rewrite NoDup_app, NoDup_cons in Hn. destruct Hn as (N1 & N2 & N4 & N3).
  assert (Hi : i ∉ l1 ++ l2). { rewrite not_elem_of_app. split; [|done]. intros H. apply (N2 i H). left. }
  split; [split; [|split]|].
  - apply chain_ext with (nxt := nxt d1); [|done]. intros j Hj. unfold nxt. cbn. rewrite lookup_delete_ne; [done|by intros ->].
  - rewrite NoDup_app. split; [done|]. split; [|done]. intros x Hx Hx2. apply (N2 x Hx). by right.
  - intros j. cbn. destruct (decide (j = i)) as [->|Hj].
    + rewrite lookup_delete_eq. split; [done|]. by intros [? ?].
    + rewrite lookup_delete_ne, Hd, <- Hs by done. rewrite !elem_of_app, elem_of_cons. naive_solver.
  - unfold held in *. cbn. by rewrite fmap_delete, Hh.
Qed.

Lemma destroyed d l1 i l2 fuel : listed d (l1 ++ i :: l2) -> (length l1 < fuel)%nat ->
  exists d', destroy fuel i d = Some (Some d') ∧ listed d' (l1 ++ l2) ∧ held d' = delete i (held d).
Proof.
  intros Hl Hf. pose proof Hl as (Hc & Hn & Hs). assert (Hall : Forall (λ j, is_Some (instances d !! j)) (l1 ++ i :: l2)).
  { apply Forall_forall. intros j Hj. by apply Hs. }
  assert (Hi : i ∉ l1) by (apply NoDup_app in Hn as (_ & H & _); intros Hi; apply (H i Hi); left).
  assert (Hnn : nxt d i = head l2) by (by eapply chain_next).
  unfold destroy, removeFromDestinationCache. destruct l1 as [|c l1].
  - destruct Hc as [Eh Hc]. rewrite Eh, bool_decide_eq_true_2 by done. rewrite next_destination_at by (apply Hs; left). cbn [mbind option_bind].
    eexists. split; [reflexivity|]. by apply (listed_delete d _ [] i l2 Hl).
  - cbn [app] in Hall, Hs, Hc. destruct Hc as [Eh Hc]. apply not_elem_of_cons in Hi as [Hic Hi]. rewrite Eh, bool_decide_eq_false_2 by congruence.
    cbn [mbind option_bind]. rewrite next_destination_at by (apply Hs; left). cbn [mbind option_bind].
    apply Forall_cons in Hall as [Sc Hall]. rewrite (remove_loop d i l1 l2) by (done || (cbn in Hf; lia)). cbn [mbind option_bind].
    eexists. split; [reflexivity|]. set (p := default c (last l1)). set (d1 := setNext (nxt d i) p d).
    assert (Hlast : last (c :: l1) = Some p).
    { unfold p. destruct l1 as [|y l1]; [done|]. change (last (c :: y :: l1)) with (last (y :: l1)).
      destruct (last (y :: l1)) eqn:El; [done|]. by apply last_None in El. }
    pose proof (last_Some_elem_of _ _ Hlast) as Hin.
    assert (Hp : is_Some (instances d !! p)) by (apply Hs; change (p ∈ (c :: l1) ++ i :: l2); apply elem_of_app; by left). destruct Hp as [cp Ep].
    assert (Hother : forall j, j ≠ p -> instances d1 !! j = instances d !! j) by (intros j Hj; cbn; by rewrite lookup_alter_ne).
    assert (Hat : instances d1 !! p = Some (cp <| next := nxt d i |>)) by (cbn; rewrite lookup_alter_eq, Ep; done).
    apply (listed_delete d d1 (c :: l1) i l2 Hl).
    + pose proof (chain_relink (nxt d) (nxt d1) (ipv6_head d) (c :: l1) (i :: l2) l2) as Hr.
      rewrite decide_False in Hr by done. apply NoDup_app in Hn as (N1 & N2 & _). apply Hr; try done.
      * intros j Hj Hjl. unfold nxt. rewrite Hother; [done|]. intros ->. by apply Hjl.
      * intros j Hj. rewrite Hlast in Hj. injection Hj as <-. unfold nxt at 1. rewrite Hat. exact Hnn.
      * apply chain_ext with (nxt := nxt d); [|rewrite <- Hnn; eapply (chain_tail _ _ (c :: l1)); by split].
        intros j Hj. unfold nxt. rewrite Hother; [done|]. intros ->. apply (N2 p Hin). by right.
    + intros j. destruct (decide (j = p)) as [->|]; [by rewrite Hat, Ep|by rewrite Hother].
    + unfold held. apply map_eq. intros j. rewrite !lookup_fmap. destruct (decide (j = p)) as [->|]; [by rewrite Hat, Ep|by rewrite Hother].
Qed.

(** C23: The destination cache is a finite map from the sockets that exist to their next hops: constructing a socket adds
    it without one, destroying a socket removes it wherever it stands in the list, and clearing an entry takes it from the
    sockets that have it and from no other. No null pointer is followed, and the list stays well-formed. *)
Theorem destination_cache_refines_map (d : DestCache) (l : list nat) (fuel : nat) : listed d l -> (length l < fuel)%nat ->
  (forall i, i ∉ l -> exists d', construct fuel i d = Some (Some d') ∧ listed d' (i :: l)
     ∧ held d' = <[i := (Sockets6.IPV6_ctor, None)]> (held d))
  ∧ (forall i l1 l2, l = l1 ++ i :: l2 -> exists d', destroy fuel i d = Some (Some d') ∧ listed d' (l1 ++ l2) ∧ held d' = delete i (held d))
  ∧ (forall a, exists d', clearDestinationCacheEntry fuel (Some a) d = Some (Some d') ∧ listed d' l
     ∧ held d' = (λ v, if bool_decide (snd v = Some a) then (fst v, None) else v) <$> held d).
Proof.
  intros Hl Hf. split_and!.
  - intros i Hi. by apply (constructed d l).
  - intros i l1 l2 ->. apply destroyed; [done|]. rewrite length_app in Hf. lia.
  - intros a. set (f c := if bool_decide (nexthop_ndpcache_entry c = Some a) then set_nexthop_ndpcache_entry None c else c).
    destruct (each_map f fuel d l) as (d' & E & L & I); [intros c; unfold f; by destruct (bool_decide _)|done|done|].
    exists d'. split; [|split; [done|]].
    + unfold clearDestinationCacheEntry. change (clear_one (Some a)) with (λ c (_ : unit), Some (f c, tt)). by rewrite E.
    + unfold held. rewrite I. apply map_eq. intros i. rewrite !lookup_fmap. destruct (instances d !! i) as [c|]; [|done]. cbn.
      unfold f. by destruct (bool_decide _).
Qed.

(** Destroying a socket when there is none follows a null pointer. *)
Lemma destroy_empty d i fuel : listed d [] -> destroy fuel i d = Some None.
Proof.
  intros (Hc & _). cbn in Hc. unfold destroy, removeFromDestinationCache. rewrite Hc. by rewrite bool_decide_eq_false_2.
Qed.
End Lists.

(** ** An interface that comes up *)

Section Restart.
Import DestinationCache AddressMemory.
Context (e : endian).

(** The routers that addresses name have a place in the memories. *)
Definition sane (l : list Interface6) : Prop := forall k i j b, l !! k = Some i -> addressmemory i !! j = Some b ->
  Entry.id b = AddressEntry.ID -> AddressEntry.routerEntryPosition b = EntryUndefined
  ∨ forall k' i', l !! k' = Some i' -> (Z.to_nat (AddressEntry.routerEntryPosition b) < length (addressmemory i'))%nat.
Definition down (k : nat) (l : list Interface6) : Prop := forall i, l !! k = Some i -> ipv6_up i = false.

Lemma route_sound l dst : let r := Routing6.ipv6_find_route e l dst in
  (forall k, Routing6.interface r = Some k -> exists i, l !! k = Some i ∧ ipv6_up i = true)
  ∧ (forall k j, Routing6.proposed_src_addr r = Some (k, j) -> exists i, l !! k = Some i ∧ id_at (addressmemory i) j = Some AddressEntry.ID).
Proof.
  intros r. destruct (ipv6_find_route_first e dst l) as [(k & i & j & Hk & Hu & Hm & E & _)|[[_ H2 H3] _]].
  - fold r in E. rewrite E. cbn. split; [intros k' [= <-]; by exists i|intros k' j' [= <- <-]; exists i; split; [done|apply Hm]].
  - fold r in H2, H3. split.
    + intros k Hk. rewrite Hk in H2. destruct H2 as (_ & (i & Hi & Hu & _) & _). by exists i.
    + intros k j Hk. rewrite Hk in H3. destruct H3 as (_ & (i & Hi & _ & Hg & _) & _). exists i. split; [done|apply Hg].
Qed.

Lemma on_entry_sane a l : sane l -> sane (on_entry (λ b, <[19%nat := EntryUndefined]> b) a l)
  ∧ forall k, ipv6_up <$> on_entry (λ b, <[19%nat := EntryUndefined]> b) a l !! k = ipv6_up <$> l !! k.
Proof.
  intros Hs. destruct a as [ka ja]. unfold on_entry. cbn [fst snd]. set (f := λ b : bytes, <[19%nat := EntryUndefined]> b).
  assert (Hlook : forall k, alter (λ i, i <| addressmemory := alter f ja (addressmemory i) |>) ka l !! k
    = (λ i, if decide (k = ka) then i <| addressmemory := alter f ja (addressmemory i) |> else i) <$> l !! k).
  { intros k. destruct (decide (k = ka)) as [->|]; [by rewrite list_lookup_alter_eq|]. rewrite list_lookup_alter_ne by done. by destruct (l !! k). }
  split.
  - intros k i j b Hi Hb Hid. rewrite Hlook in Hi. apply fmap_Some in Hi as (i0 & Hi0 & ->).
    assert (Hlen : forall k' i', alter (λ i, i <| addressmemory := alter f ja (addressmemory i) |>) ka l !! k' = Some i' ->
      exists i1, l !! k' = Some i1 ∧ length (addressmemory i') = length (addressmemory i1)).
    { intros k' i' Hi'. rewrite Hlook in Hi'. apply fmap_Some in Hi' as (i1 & Hi1 & ->). exists i1. split; [done|].
      destruct (decide (k' = ka)); [|done]. cbn. by rewrite length_alter. }
    assert (Hcase : AddressEntry.routerEntryPosition b = EntryUndefined ∨ addressmemory i0 !! j = Some b).
    { destruct (decide (k = ka)) as [->|]; [|by right]. cbn in Hb. destruct (decide (j = ja)) as [->|Hj].
      - rewrite list_lookup_alter_eq in Hb. apply fmap_Some in Hb as (b0 & Hb0 & ->). destruct (decide (19 < length b0)%nat) as [Hl|Hl].
        + left. unfold AddressEntry.routerEntryPosition, f. by apply get8_insert_eq.
        + right. unfold f. by rewrite list_insert_ge by lia.
      - right. by rewrite list_lookup_alter_ne in Hb. }
    destruct Hcase as [|Hb0]; [by left|]. destruct (Hs k i0 j b Hi0 Hb0 Hid) as [|Hpos]; [by left|right].
    intros k' i' Hi'. destruct (Hlen k' i' Hi') as (i1 & Hi1 & ->). by apply (Hpos k').
  - intros k. rewrite Hlook. destruct (l !! k); [|done]. cbn. by destruct (decide _).
Qed.

Lemma resolved_elsewhere k c l : down k l -> sane l ->
  exists c' l', resolveRoute e c l = Some (c', l') ∧ next c' = next c ∧ (down k l' ∧ sane l')
  ∧ Sockets6.s_interface (ip_side c') ≠ Some k ∧ ipv6_up <$> l' !! k = ipv6_up <$> l !! k.
Proof.
  intros Hd Hs. unfold resolveRoute. cbv zeta. set (t := Sockets6.resolveRoute e l (ip_side c)).
  set (r := Routing6.ipv6_find_route e l (Sockets6.dst_ipv6_addr (ip_side c))).
  assert (Edst : Sockets6.dst_ipv6_addr t = Sockets6.dst_ipv6_addr (ip_side c)).
  { unfold t, Sockets6.resolveRoute. destruct (_ =? 0); [done|]. destruct (Routing6.proposed_src_addr _); [|done]. by destruct (negb _). }
  assert (Eif : Sockets6.s_interface t = if get8 0 (Sockets6.dst_ipv6_addr (ip_side c)) =? 0 then None else Routing6.interface r).
  { unfold t, Sockets6.resolveRoute. by destruct (_ =? 0). }
  destruct (route_sound l (Sockets6.dst_ipv6_addr (ip_side c))) as [Hif Hsrc]. fold r in Hif, Hsrc.
  assert (Hk : Sockets6.s_interface t ≠ Some k).
  { rewrite Eif. destruct (_ =? 0); [done|]. intros E. destruct (Hif k E) as (i & Hi & Hu). rewrite (Hd i Hi) in Hu. done. }
  assert (Hsame : forall n a, let c' := MkCached t n a in n = next c -> exists c0 l', Some (c', l) = Some (c0, l') ∧ next c0 = next c
    ∧ (down k l' ∧ sane l') ∧ Sockets6.s_interface (ip_side c0) ≠ Some k ∧ ipv6_up <$> l' !! k = ipv6_up <$> l !! k) by (intros n a c' ->; by exists c', l).
  rewrite Edst. fold r. destruct (Sockets6.s_interface t) as [k1|] eqn:Ek; [|by apply Hsame].
  destruct (_ =? 0) eqn:E0; [done|]. destruct (Routing6.proposed_src_addr r) as [[ka ja]|] eqn:Ea; [|by apply Hsame].
  destruct (bool_decide _); [by apply Hsame|]. destruct (_ =? EntryUndefined) eqn:Eu; [by apply Hsame|].
  destruct (Hif k1 (eq_sym Eif)) as (i1 & Hi1 & _). rewrite Hi1. cbn [mbind option_bind].
  destruct (Hsrc ka ja eq_refl) as (ia & Hia & Hja). unfold id_at in Hja. apply fmap_Some in Hja as (b & Hb & Eid).
  assert (Eb : Sockets6.entry_at l (ka, ja) = b) by (unfold Sockets6.entry_at; cbn; rewrite Hia; cbn; by apply list_lookup_total_correct).
  rewrite Eb in *. apply Z.eqb_neq in Eu. destruct (Hs ka ia ja b Hia Hb (eq_sym Eid)) as [|Hpos]; [done|].
  destruct (lookup_lt_is_Some_2 (addressmemory i1) (getEntryAtPosition (Z.to_nat (AddressEntry.routerEntryPosition b))) (Hpos k1 i1 Hi1)) as [n Hn].
  unfold id_at. rewrite Hn. cbn [fmap option_fmap option_map mbind option_bind].
  destruct (negb _); [|by apply Hsame].
  destruct (on_entry_sane (ka, ja) l Hs) as [Hs' Hu']. eexists _, _. split; [reflexivity|]. split; [done|]. split; [|split; [cbn; by rewrite Ek|apply Hu']].
  split; [|done]. intros i Hi. specialize (Hu' k). rewrite Hi in Hu'. destruct (l !! k) as [i0|] eqn:Ei0; [|done]. cbn in Hu'. injection Hu' as ->. by apply Hd.
Qed.

(** When an interface comes up, the routes of the sockets that use it are resolved before it is marked as up: none of
    them keeps it, so a restart of an interface leaves its sockets without an interface to send on. *)
Theorem restart_loses_sockets (d : DestCache) (lst : list nat) (l : list Interface6) (k : nat) (i : Interface6) (fuel : nat) :
  listed d lst -> (length lst < fuel)%nat -> l !! k = Some i -> ipv6_up i = false -> sane l ->
  exists d' l', setIPv6Up e fuel true k d l = Some (Some (d', l')) ∧ listed d' lst
  ∧ ipv6_up <$> l' !! k = Some true ∧ forall j c, instances d' !! j = Some c -> Sockets6.s_interface (ip_side c) ≠ Some k.
Proof.
  intros Hl Hf Hk Hu Hs. unfold setIPv6Up, setupDestinationCacheEntryForInterface.
  set (visit := λ c l, if bool_decide (Sockets6.s_interface (ip_side c) = Some k) then resolveRoute e c l else Some (c, l)).
  destruct (each_listed visit (λ l', (down k l' ∧ sane l') ∧ is_Some (l' !! k)) (λ _ c', Sockets6.s_interface (ip_side c') ≠ Some k) fuel d lst l)
    as (d' & l' & E & [_ [i' Hi']] & L & H & _); [|done| |done|].
  - intros c x [[Hdx Hsx] [ix Hix]]. unfold visit. destruct (bool_decide _) eqn:Eb.
    + destruct (resolved_elsewhere k c x Hdx Hsx) as (c' & x' & E & En & Hp & Hq & Hsame). exists c', x'. split; [done|]. split; [done|]. split; [|done]. split; [done|].
      rewrite Hix in Hsame. destruct (x' !! k); [by eexists|done].
    + apply bool_decide_eq_false in Eb. exists c, x. split_and!; try done; by exists ix.
  - split; [split; [intros i0 Hi0; congruence|done]|by exists i].
  - rewrite E. cbn [mbind option_bind]. eexists d', _. split; [reflexivity|]. split; [done|]. split.
    + rewrite list_lookup_alter_eq, Hi'. done.
    + intros j c Hj. by destruct (H j c Hj) as (_ & _ & Hq).
Qed.
End Restart.

(** ** A redirect *)

Section Redirected.
Import Socket_Send DestinationCache NDPCacheEntry.
Context (e : endian) `{Clk : Clock} {W : Type} `{Sys : System6 W} `{Dev : Device W}.
Context (nics : list Nic) {L : Layout} {LOk : LayoutOk L} (sizeof_SendBuffer fast_bits : Z) (expires : bool) (fuel : nat) (junk : bytes).
Context (interrupt : nat -> bytes -> Stack W -> option (Stack W)).
Hypothesis numbered : forall k nic, nics !! k = Some nic -> n_id nic = k.
Hypothesis pool : forall n w, let '(a, area, _) := dv_alloc n w in a ≠ 0 -> sizeof_SendBuffer <= n -> Z.of_nat (length area) = n - sizeof_SendBuffer.
Hypothesis bits : 16 <= fast_bits.

(** The next hop has no say in where a packet to a unicast address goes. *)
Lemma next_hop_ignored (hop hop' : bytes) i (s : Stack W) b : Multicast.isMulticast hop = Multicast.isMulticast hop' ->
  Multicast.isMulticast hop = false ->
  Socket_Send6.ethernet_advice_to e nics hop i s b = Socket_Send6.ethernet_advice_to e nics hop' i s b.
Proof.
  intros H H0. unfold Socket_Send6.ethernet_advice_to. rewrite <- H, H0. by destruct (Socket_Send6.getUsedInterface i s ≫= λ k, nics !! k).
Qed.

Definition redirected (destination : bytes) (a : Entry_ptr) (v : Sockets6.IPV6 * option Entry_ptr) : Sockets6.IPV6 * option Entry_ptr :=
  if IPv6.same_ipv6_addr (Sockets6.dst_ipv6_addr (fst v)) destination then (fst v, Some a) else v.

(** C24: A redirect from a router with the link layer address of a better next hop makes a reachable entry of it, and the next
    hop of exactly the sockets with the redirected destination, whose next hop address is then the target. But no packet
    takes that way: the hardware address is looked up by the destination in the packet, so what a socket
    prepares is the same with the next hop as without. *)
Theorem redirect_without_effect (k : nat) (nic : Nic) (s : Stack W) (d : DestCache) (l : list nat) (message mac : bytes) (payloadlen : Z)
    (proceed : Stack W * DestCache -> option (Stack W * DestCache)) :
  let target := target_address message in
  nics !! k = Some nic -> NdpCache.wf (Socket_Send6.memory_at k s) -> listed d l -> (length l < fuel)%nat ->
  ICMPv6_Packet.get_type e message = 137 -> ICMPv6_Packet.get_code e message = 0 -> sizeof_RedirectMessage <= payloadlen ->
  NDPMessages.get_option_linklayer_address NDPMessages.TargetLinkLayer (drop 40 message) (payloadlen - sizeof_RedirectMessage) = Some (Some mac) ->
  call_ok target (Some mac) -> (exists j, AddressMemory.id_at (Socket_Send6.memory_at k s) j = Some 0) ->
  NdpCache.cache (Socket_Send6.memory_at k s) !! target = None ->
  exists s' d' j, NDP_Redirect e nics sizeof_SendBuffer fast_bits expires fuel junk interrupt proceed k message payloadlen (s, d) = Some (s', d')
  ∧ NdpCache.cache (Socket_Send6.memory_at k s') = <[target := (mac, NDPEntry.value NDPCacheEntryState_Reachable)]> (NdpCache.cache (Socket_Send6.memory_at k s))
  ∧ held d' = redirected (destination_address message) (k, j) <$> held d
  ∧ (forall i c, instances d' !! i = Some c -> nexthop_ndpcache_entry c = Some (k, j) -> get_nexthop_ipaddr (interfaces s') c = target)
  ∧ (forall c add i transport t b, nexthop_ndpcache_entry c = Some (k, j) -> Socket_Send6.memory_at k t = Socket_Send6.memory_at k s' ->
       ipv6 (Socket_Send6.sock i t) = ip_side c -> Multicast.isMulticast target = false ->
       Multicast.isMulticast (Sockets6.dst_ipv6_addr (ip_side c)) = false ->
       prepareSendBuffer e nics fuel interrupt c add i transport t b = Socket_Send6.prepareSendBuffer e nics fuel interrupt add i transport t b).
Proof.
  intros target Hn Hm Hl Hf Hty Hco Hlen Hopt Hc Hfree Hnone. unfold NDP_Redirect. rewrite Hty, Hco.
  change ((137 =? 137) && (0 =? 0)) with true. cbv iota. destruct (Z.ltb_spec payloadlen sizeof_RedirectMessage); [lia|]. rewrite Hopt.
  cbn [mbind option_bind default from_option]. fold target.
  pose proof (add_returns e nics sizeof_SendBuffer fast_bits expires fuel interrupt numbered pool bits k nic target (Some mac)
    NDPCacheEntryState_Reachable s Hn Hm Hc) as Hadd.
  pose proof (add_spec e expires (Socket_Send6.memory_at k s) target (Some mac) NDPCacheEntryState_Reachable Hm Hc) as Hspec.
  destruct (NDPCache.addNDPCacheEntry _ _ _ _ _ _) as [[j|] m'].
  2: { destruct Hspec as (_ & _ & Hfull & _). destruct Hfree as [i Hi]. by destruct (Hfull i). }
  destruct Hspec as (Hw & Hfind & hw' & dc & Ed & Hd). rewrite Hnone in Hd. destruct Hd as [Ehw Hd]. rewrite (Ehw mac eq_refl) in Ed.
  assert (Hd' : dc = NdpCache.cache (Socket_Send6.memory_at k s)).
  { destruct Hd as [->|(_ & Hfull & _)]; [done|]. destruct Hfree as [i Hi]. by destruct (Hfull i). }
  subst dc. destruct Hadd as (s' & Hk & Hs'). unfold Socket_Send6.addNDPCacheEntry. cbn [Socket_Send6.add_nested]. rewrite Hs'.
  cbn [mbind option_bind].
  assert (Hi : interfaces s !! k ≠ None).
  { intros Hi. unfold Socket_Send6.memory_at, Socket_Send6.interface_at in Hfree. rewrite Hi in Hfree. by destruct Hfree. }
  assert (Em : Socket_Send6.memory_at k s' = m').
  { transitivity (Socket_Send6.memory_at k (Socket_Send6.on_memory k (λ _, m') s)); [|by apply on_memory_at].
    unfold Socket_Send6.memory_at, Socket_Send6.interface_at. by rewrite (kp_interfaces _ _ Hk). }
  assert (Et : Entry.ipv6 (m' !!! j) = target).
  { pose proof (find_spec m' target (co_addr _ _ Hc)) as Hs. rewrite Hfind in Hs. destruct Hs as (b & Hb & _ & Ea).
    by rewrite (list_lookup_total_correct _ _ _ Hb). }
  assert (Eat : forall t : Stack W, Socket_Send6.memory_at k t = m' -> forall c, nexthop_ndpcache_entry c = Some (k, j) ->
    get_nexthop_ipaddr (interfaces t) c = target).
  { intros t Ht c Hnh. unfold get_nexthop_ipaddr. rewrite Hnh. unfold Sockets6.entry_at. cbn [fst snd].
    rewrite <- Et, <- Ht. unfold Socket_Send6.memory_at, Socket_Send6.interface_at. by destruct (interfaces t !! k). }
  set (f c := if IPv6.same_ipv6_addr (Sockets6.dst_ipv6_addr (ip_side c)) (destination_address message)
              then set_nexthop_ndpcache_entry (Some (k, j)) c else c).
  destruct (each_map f fuel d l) as (d' & E & _ & I); [intros c; unfold f; by destruct (IPv6.same_ipv6_addr _ _)|done|done|].
  change (redirect_one (destination_address message) (k, j)) with (λ c (_ : unit), Some (f c, tt)). rewrite E. cbn [default from_option mbind option_bind].
  exists s', d', j. split; [done|]. rewrite Em. split; [done|]. split; [|split].
  - unfold held. rewrite I. apply map_eq. intros i. rewrite !lookup_fmap. destruct (instances d !! i) as [c|]; [|done]. cbn.
    unfold f, redirected. cbn [fst]. by destruct (IPv6.same_ipv6_addr _ _).
  - intros i c _ Hnh. by apply Eat.
  - intros c add i transport t b Hnh Ht Hip Mt Md. unfold prepareSendBuffer, Socket_Send6.prepareSendBuffer, Socket_Send6.ethernet_advice.
    rewrite (Eat t Ht c Hnh), Hip. by rewrite (next_hop_ignored target (Sockets6.get_nexthop_ipaddr (ip_side c))) by (unfold Sockets6.get_nexthop_ipaddr; congruence).
Qed.
End Redirected.

(** ** A host to try it on *)

Section Example.
Import DestinationCache.
#[local] Existing Instance net6_system.
#[local] Existing Instance net6_device.
#[local] Existing Instance net6_clock.
#[local] Existing Instance packed.
#[local] Existing Instance packed_ok.

(** Two sockets, one of which sends to [dst]; both use the first interface. *)
Definition sockets_example (dst : bytes) : DestCache :=
  MkDestCache (Some 1%nat) {[
    0%nat := MkCached (Sockets6.MkIPV6 (Some 0%nat) (ll_example 10) dst 255) None None;
    1%nat := MkCached (Sockets6.MkIPV6 (Some 0%nat) (ll_example 10) (ll_example 11) 255) (Some 0%nat) None ]}.
Lemma listed_example dst : listed (sockets_example dst) [1%nat; 0%nat].
Proof.
  split; [done|]. split; [by apply (bool_decide_unpack _)|]. intros i. unfold sockets_example. cbn [instances].
  destruct (decide (i = 0%nat)) as [->|]; [rewrite lookup_insert_eq; split; [by eexists|intros _; right; left]|].
  rewrite lookup_insert_ne by done. destruct (decide (i = 1%nat)) as [->|]; [rewrite lookup_singleton_eq; split; [by eexists|left]|].
  rewrite lookup_singleton_ne by done. split; [|by intros [? ?]].
  intros H. apply elem_of_cons in H as [->|H]; [done|]. by apply list_elem_of_singleton in H.
Qed.

Definition global_example : bytes := [0x20; 1; 0; 0; 0; 0; 0; 0; 0; 0; 0; 0; 0; 0; 0; 99].
(** The router knows a better way to the destination: the neighbor whose address ends in 12. *)
Definition redirect_example : bytes :=
  [137; 0; 0; 0; 0; 0; 0; 0] ++ ll_example 12 ++ global_example ++ [2; 1] ++ mac6_example 12.

Lemma destination_cache_refines_map_witness :
  exists d', destroy 3 0 (sockets_example global_example) = Some (Some d') ∧ listed d' [1%nat].
Proof.
  destruct (destination_cache_refines_map (sockets_example global_example) [1%nat; 0%nat] 3 (listed_example _) ltac:(cbn; lia)) as (_ & H & _).
  destruct (H 0%nat [1%nat] [] eq_refl) as (d' & E & L & _). by exists d'.
Defined.

Lemma restart_loses_sockets_witness : exists d' l',
  setIPv6Up LE 3 true 0 (sockets_example global_example) [MkInterface6 false (memory6_example 10 2)] = Some (Some (d', l'))
  ∧ forall j c, instances d' !! j = Some c -> Sockets6.s_interface (ip_side c) ≠ Some 0%nat.
Proof.
  destruct (restart_loses_sockets LE (sockets_example global_example) [1%nat; 0%nat] [MkInterface6 false (memory6_example 10 2)] 0
    (MkInterface6 false (memory6_example 10 2)) 3 (listed_example _) ltac:(cbn; lia) eq_refl eq_refl) as (d' & l' & E & _ & _ & H).
  - intros k i j b Hi Hb Hid. left. destruct k as [|k]; [|done]. injection Hi as <-.
    destruct j as [|[|[|[|j]]]]; [injection Hb as <-; done|by injection Hb as <-|injection Hb as <-; done|injection Hb as <-; done|done].
  - by exists d', l'.
Defined.

Lemma redirect_without_effect_witness : exists s' d',
  NDP_Redirect LE [nic6_example 10] 32 32 false 20 [] (λ _ _ s, Some s) (λ sd, Some sd) 0 redirect_example 48
    (host6_example 10 2, sockets_example global_example) = Some (s', d').
Proof.
  destruct (redirect_without_effect LE (Dev := net6_device) [nic6_example 10] 32 32 false 20 [] (λ _ _ s, Some s)
    ltac:(intros [|k] nic H; [by injection H as <-|done]) ltac:(intros n w; cbn; intros _ Hn; rewrite repeat_length; lia) ltac:(lia)
    0 (nic6_example 10) (host6_example 10 2) (sockets_example global_example) [1%nat; 0%nat] redirect_example (mac6_example 12) 48 (λ sd, Some sd))
    as (s' & d' & j & E & _).
  - reflexivity.
  - apply wf6_example; [unfold is_u8; lia|lia].
  - apply listed_example.
  - cbn. lia.
  - reflexivity.
  - reflexivity.
  - unfold sizeof_RedirectMessage. lia.
  - reflexivity.
  - split; [reflexivity|apply (bool_decide_unpack _); vm_compute; exact I|].
    intros x [= <-]. split; [reflexivity|apply (bool_decide_unpack _); vm_compute; exact I].
  - by exists 2%nat.
  - rewrite <- find_lookup by (reflexivity || (apply wf6_example; [unfold is_u8; lia|lia])). vm_compute. reflexivity.
  - by exists s', d'.
Defined.
End Example.
