(* ===== verification/Icmp6.v ===== *)
(** * Icmp6: ICMPv6 and neighbor discovery

    Models the reception of ICMPv6 ([icmpv6/IPv6_ICMP_Receive.ah]) with the handlers of
    echo requests, of neighbor solicitations and advertisements ([icmpv6/ndp/*_Receive.ah],
    [icmpv6/ndp_addr_resolve]), of router advertisements ([icmpv6/ndp_router]) and of listener
    queries ([icmpv6/mld/MDL_Respond.ah]), the reports of errors, what an interface sends
    when it is set up ([icmpv6/ndp_router/Router_Solicitation.ah],
    [icmpv6/ndp_addr_duplication]), what joining and leaving a group sends
    ([icmpv6/mld/MDLv1_AutoJoinLeave.ah], [MDLv2_AutoJoinLeave.ah]), and the way of a frame to
    them.  Sending is that of [Send6]; a handler is a function from the stack to the
    stack, [None] when it uses the null pointer or reads behind the frame.

    The advice on the handler of neighbor solicitations is not ordered by the aspects:
    [update_first] chooses.  Redirects need the destination cache and are not modelled. *)

From stdpp Require Import gmap.
From S2P Require Import Prelude Wire Checksum Packet TcpHistory SendBuffer Addresses Headers Ipv6 NdpCache MulticastGroups Ipv4 Arp Send4 Send6.

Open Scope Z_scope.

(** Which version of multicast listener discovery tells the routers about groups. *)
Inductive mld_version := MLDv1 | MLDv2.

Record config := MkConfig {
  (** entries of the neighbor cache age *)
  expires : bool;
  (** addresses have lifetimes *)
  lifetimes : bool;
  (** new addresses are checked for duplicates *)
  duplicate_detection : bool;
  (** [AddressResolutionUpdate] runs before [AddressResolutionResponse] *)
  update_first : bool;
  mld : option mld_version;
  (** the senders of incoming frames are remembered *)
  prefetch : bool }.

Module NDP.
Import Socket_Send Socket_Send6 NDPNeighborMessages.

Section Handlers.
Context (e : endian) `{Clk : Clock} {W : Type} `{Sys : System6 W} `{Dev : Device W}.
Context (nics : list Nic) {L : Layout} (sizeof_SendBuffer fast_bits : Z) (c : config) (fuel : nat).
(** What uninitialised local variables hold. *)
Context (junk : bytes).
(** The handler of the frames that arrive while the stack waits. *)
Context (interrupt : nat -> bytes -> Stack W -> option (Stack W)).

Let add := Socket_Send6.addNDPCacheEntry e nics sizeof_SendBuffer fast_bits (expires c) fuel interrupt.
Let request := request_and_send e nics sizeof_SendBuffer fast_bits fuel interrupt add.
Let set_addresses := @set_addresses e W.

(** ** Messages of neighbor discovery *)

Definition send_neighbor_solicitation (ipv6_srcaddr ipv6_dstaddr : bytes) (k : nat) (useSolicitatedMulticastAddress : bool)
    (s : Stack W) : option (Stack W) :=
  nic ← nics !! k;
  let s := set_addresses (solicitation_destination ipv6_dstaddr useSolicitatedMulticastAddress) k (Some ipv6_srcaddr) s in
  let resSize := solicitation_size (address_size nic) in
  request k resSize (λ _ b, Some (write_message resSize (neighbor_solicitation e ipv6_dstaddr (n_address nic) (address_size nic)) b)) s.

Definition neighbor_advertisement (target address : bytes) (addressSize : Z) (p : bytes) : bytes :=
  let p := Packet.write 0 [136; 0] p in
  let p := setf e (Field 5 K8) 0 p in
  let p := setf e (Field 6 H16) 0 p in
  let p := setf e f_flags 0 p in
  let p := setOverride e true (setResponse e true (setRouter e false p)) in
  let p := set_bytes 8 16 target p in
  NDPMessages.write_option_linklayer_address NDPMessages.TargetLinkLayer 24 address addressSize p.

(** [AddressResolutionResponse]: the answer to a solicitation. *)
Definition address_resolution_response (k : nat) (packet message : bytes) (s : Stack W) : option (Stack W) :=
  nic ← nics !! k;
  let s := set_addresses (IPv6_Packet.get_src_ipaddr packet) k (Some (get_target_address message)) s in
  let resSize := solicitation_size (address_size nic) in
  request k resSize (λ _ b, Some (write_message resSize
    (neighbor_advertisement (get_target_address message) (n_address nic) (address_size nic)) b)) s.

(** [AddressResolutionUpdate]: the sender of a solicitation is remembered. *)
Definition remember_sender (k : nat) (packet message : bytes) (payloadlen : Z) (s : Stack W) : option (Stack W) :=
  mac ← NDPMessages.get_option_linklayer_address NDPMessages.SourceLinkLayer (drop 24 message) payloadlen;
  let src := IPv6_Packet.get_src_ipaddr packet in
  match mac with
  | Some mac =>
      if IPv6.is_not_unspecified_ipv6_address src then
        match NDPCache.ndpcache_find src (memory_at k s) with
        | Some _ => Some s
        | None => '(_, s) ← add k src (Some mac) NDPCacheEntry.NDPCacheEntryState_Stale s; Some s
        end
      else Some s
  | None => Some s
  end.

Definition ndp_neighbor_solicitation_demux (k : nat) (packet message : bytes) (payloadlen : Z) (s : Stack W) : option (Stack W) :=
  if update_first c then s ← remember_sender k packet message payloadlen s; address_resolution_response k packet message s
  else s ← address_resolution_response k packet message s; remember_sender k packet message payloadlen s.

(** [AddressResolutionUpdate]: an advertisement updates the entry of its target. *)
Definition update_entry (k : nat) (message : bytes) (payloadlen : Z) (s : Stack W) : option (Stack W) :=
  match NDPCache.ndpcache_find (get_target_address message) (memory_at k s) with
  | None => Some s
  | Some j =>
      let confirm b := NDPCache.entryConfirmed e (expires c) (NDPEntry.set_isRouter e (isRouter e message) b) in
      let s := on_memory k (NDPCache.at_entry confirm j) s in
      mac ← NDPMessages.get_option_linklayer_address NDPMessages.TargetLinkLayer (drop 24 message) payloadlen;
      match mac with
      | Some mac =>
          if isOverride e message || negb (NDPCache.is_NDPCacheEntry_reachable (memory_at k s !!! j)) then
            Some (on_memory k (NDPCache.at_entry (λ b,
              NDPEntry.set_state NDPCacheEntry.NDPCacheEntryState_Reachable (NDPEntry.set_hw mac b)) j) s)
          else Some s
      | None => Some s
      end
  end.

(** ** Groups *)

(** The source of what an interface says about itself: its link-local address, or none. *)
Definition own_source (k : nat) (s : Stack W) : bytes :=
  default IPv6.get_unspecified_ipv6_address
    (Interfaces.getInterfaceIPv6AddressByScope (interface_at k s) IPv6.IPV6_SCOPE_LINKLOCAL).

(** What joining or leaving a group tells the routers. *)
Definition mld_report (v : mld_version) (joined : bool) (multicast_addr : bytes) (p : bytes) : bytes :=
  match v, joined with
  | MLDv1, true => MLDMessages.write_mldv1_listener_report e multicast_addr p
  | MLDv1, false => MLDMessages.write_mldv1_listener_done e multicast_addr p
  | MLDv2, true => MLDMessages.write_mldv2_listener_report_message e multicast_addr MLDMessages.mldv2_CHANGE_TO_EXCLUDE_MODE p
  | MLDv2, false => MLDMessages.write_mldv2_listener_report_message e multicast_addr MLDMessages.mldv2_CHANGE_TO_INCLUDE_MODE p
  end.
Definition mld_size (v : mld_version) : Z := match v with MLDv1 => 24 | MLDv2 => MLDMessages.mldv2_listener_report_message_size end.
Definition mld_destination (v : mld_version) : bytes :=
  match v with MLDv1 => Multicast.allRouters | MLDv2 => Multicast.linkLocal_group 0x16 end.
Definition restoreDefaultSendingConfiguration : Stack W -> Stack W :=
  on_sock Instance_ (λ t, t <| ipv6 := Sockets6.restoreDefaultSendingConfiguration (ipv6 t) |>
    <| alert := IPv6HopByHop.MkAlert false (IPv6HopByHop.alertoptiontype (alert t)) |>).
Definition mld_tell (joined : bool) (multicast_addr : bytes) (k : nat) (s : Stack W) : option (Stack W) :=
  match mld c with
  | None => Some s
  | Some v =>
      let s := on_sock Instance_ (λ t, t <| alert := IPv6HopByHop.addAlertHopByHopOption IPv6HopByHop.MLPMessageAlert |>) s in
      let s := set_addresses (mld_destination v) k (Some (own_source k s)) (on_ipv6 Instance_ (Sockets6.setHoplimit 1) s) in
      s ← request k (mld_size v) (λ _ b, Some (write_message (mld_size v) (mld_report v joined multicast_addr) b)) s;
      Some (restoreDefaultSendingConfiguration s)
  end.
Definition join_multicastGroup (multicast_addr : bytes) (registerToRouters : bool) (k : nat) (s : Stack W) : option (bool * Stack W) :=
  let '(ok, m) := Multicast.join_multicastGroup multicast_addr (memory_at k s) in
  let s := on_memory k (λ _, m) s in
  s ← (if registerToRouters && ok then mld_tell true multicast_addr k s else Some s); Some (ok, s).
Definition leave_multicastGroup (multicast_addr : bytes) (k : nat) (s : Stack W) : option (Stack W) :=
  mld_tell false multicast_addr k (on_memory k (Multicast.leave_multicastGroup multicast_addr) s).

(** ** Addresses of the interface *)

(** The group of the solicited node of an address is not stored, only told. *)
Definition registerIPv6Address (k j : nat) (s : Stack W) : option (Stack W) :=
  let s := on_memory k (NDPCache.at_entry Interfaces.registerIPv6Address j) s in
  let ip := Entry.ipv6 (memory_at k s !!! j) in
  let scope := IPv6.getIPv6AddressScope ip in
  if bool_decide (scope = IPv6.IPV6_SCOPE_GLOBAL_UNICAST) || bool_decide (scope = IPv6.IPV6_SCOPE_UNIQUE_LOCAL_UNICAST)
     || bool_decide (scope = IPv6.IPV6_SCOPE_LINKLOCAL)
  then mld_tell true (IPv6.solicitedNode_multicast_addr ip) k s else Some s.

(** With the advice of duplicate address detection: the address is solicited before it is valid. *)
Definition setIPv6AddressState (k j : nat) (ipstate : Z) (s : Stack W) : option (Stack W) :=
  s ← (if duplicate_detection c && (ipstate =? AddressEntry.AddressEntryStateTemporary) then
         send_neighbor_solicitation (replicate 16 0) (Entry.ipv6 (memory_at k s !!! j)) k true s
       else Some s);
  Some (on_memory k (NDPCache.at_entry (Interfaces.setIPv6AddressState e ipstate) j) s).

(** [NDP_Address_Duplication::is_duplicate_address]: the address gets another last byte and is tried again. *)
Definition is_duplicate_address (ipv6_dstaddr : bytes) (k : nat) (s : Stack W) : option (bool * Stack W) :=
  match AddressMemory.first_entry (memory_at k s) AddressEntry.ID (λ b, IPv6.same_ipv6_addr ipv6_dstaddr (Entry.ipv6 b)) with
  | None => Some (false, s)
  | Some j =>
      let s := on_memory k (AddressMemory.freeEntry j) s in
      let s := on_memory k (NDPCache.at_entry (λ b, <[16%nat := u8 (get8 16 b + 1)]> b) j) s in
      s ← registerIPv6Address k j s;
      s ← setIPv6AddressState k j AddressEntry.AddressEntryStateTemporary s;
      Some (true, s)
  end.

Definition ndp_neighbor_advertisement_demux (k : nat) (message : bytes) (payloadlen : Z) (s : Stack W) : option (Stack W) :=
  s ← (if duplicate_detection c && isResponse e message then
         '(_, s) ← is_duplicate_address (get_target_address message) k s; Some s
       else Some s);
  update_entry k message payloadlen s.

Definition makeIPv6AddressByPrefix (prefix : bytes) (prefixlen ipstate routerEntryPosition : Z) (k : nat) (s : Stack W)
    : option (option nat * Stack W) :=
  nic ← nics !! k;
  match AddressMemory.findEntry (memory_at k s) 0 0 with
  | None => Some (None, s)
  | Some (j, _) =>
      let s := on_memory k (NDPCache.at_entry 
        (Interfaces.new_address e (Multicast.addInterfaceIdentifierToIPv6Address (n_address nic)) prefix prefixlen routerEntryPosition) j) s in
      s ← registerIPv6Address k j s;
      s ← setIPv6AddressState k j ipstate s;
      let s := if lifetimes c then on_memory k (NDPCache.at_entry (PrefixExpire.without_lifetime e) j) s else s in
      Some (Some j, s)
  end.

(** ** Reception *)

(** [Neighbor_Solicitation_Receive] and [Neighbor_Advertisement_Receive]. *)
Definition for_us (k : nat) (message : bytes) (s : Stack W) : bool :=
  Multicast.hasIPv6Address (interface_at k s) (get_target_address message).
Definition neighbor_solicitation_receive (k : nat) (packet message : bytes) (payloadlen : Z) (s : Stack W) : option (Stack W) :=
  if payloadlen <? sizeof_NeighborSolicitationMessage then Some s
  else if negb (for_us k message s) then Some s
  else ndp_neighbor_solicitation_demux k packet message (payloadlen - sizeof_NeighborSolicitationMessage) s.
Definition neighbor_advertisement_receive (k : nat) (message : bytes) (payloadlen : Z) (s : Stack W) : option (Stack W) :=
  if payloadlen <? sizeof_NeighborSolicitationMessage then Some s
  else if negb (for_us k message s) then Some s
  else ndp_neighbor_advertisement_demux k message (payloadlen - sizeof_NeighborSolicitationMessage) s.

(** ** Router advertisements *)

(** The bit fields and the time-to-live of an address entry; [get8 6] and [get8 7] are the bytes of
    [router_lifetime], [get_bytes 8 4] those of [reachable_time]. *)
Definition bit_toBeRemoved : Z := match e with LE => 8 | BE => 16 end.
Definition bit_isOnLink : Z := match e with LE => 4 | BE => 32 end.
Definition set_flag (m : Z) (v : bool) (b : bytes) : bytes :=
  <[18%nat := if v then Z.lor (AddressEntry.stateflag b) m else Z.land (AddressEntry.stateflag b) (255 - m)]> b.
Definition toBeRemoved (b : bytes) : bool := negb (Z.land (AddressEntry.stateflag b) bit_toBeRemoved =? 0).
Definition of_router (pos : Z) (b : bytes) : bool := AddressEntry.routerEntryPosition b =? pos.

(** The search of the second step goes on where the last one ended, first behind the last address of
    all: the entry, and where the next search begins. *)
Fixpoint search_next (fuel : nat) (m : list bytes) (nextEntry : nat) (test : bytes -> bool) : option nat * nat :=
  match fuel with
  | O => (None, nextEntry)
  | S fuel =>
      match AddressMemory.findEntry m nextEntry AddressEntry.ID with
      | None => (None, nextEntry)
      | Some (j, nextEntry) => if test (m !!! j) then (Some j, nextEntry) else search_next fuel m nextEntry test
      end
  end.
Definition find_prefix (m : list bytes) (nextEntry : nat) (pos : Z) (prefix : bytes) (prefix_length : Z) : option nat * nat :=
  search_next (S (length m)) m nextEntry (λ b, of_router pos b && IPv6.compare_ipv6_addr (Entry.ipv6 b) prefix prefix_length).

(** Where the flagging of the first step leaves the search. *)
Fixpoint last_next (fuel : nat) (m : list bytes) (type : Z) (next : nat) : nat :=
  match fuel with
  | O => next
  | S fuel => match AddressMemory.findEntry m next type with Some (_, next) => last_next fuel m type next | None => next end
  end.

(** One prefix of the message: [routerprefix] is the memory from the option on. *)
Definition use_prefix (k : nat) (message routerprefix : bytes) (pos : Z) (nextEntry : nat) (s : Stack W) : option (nat * Stack W) :=
  if negb (NDPRouterMessages.useForStatelessAddressConfiguration e routerprefix) then Some (nextEntry, s)
  else
    let prefix := NDPRouterMessages.get_prefix routerprefix in
    let prefix_length := getf e NDPRouterMessages.f_prefix_length routerprefix in
    let '(found, nextEntry) := find_prefix (memory_at k s) nextEntry pos prefix prefix_length in
    '(entry, s) ←
      match found with
      | Some j => Some (Some j, s)
      | None => makeIPv6AddressByPrefix prefix prefix_length AddressEntry.AddressEntryStateTemporary pos k s
      end;
    match entry with
    | None => Some (nextEntry, s)
    | Some j =>
        let write b :=
          let b := set_flag bit_toBeRemoved false b in
          let b := <[20%nat := get8 4 message]> b in
          let b := set_flag bit_isOnLink (NDPRouterMessages.isOnLink e routerprefix) b in
          let b := PrefixExpire.set_valid_time_minutes e (NDPRouterMessages.get_valid_lifetime e routerprefix) b in
          PrefixExpire.set_preferred_time_minutes e (NDPRouterMessages.get_preferred_lifetime e routerprefix) b in
        Some (nextEntry, on_memory k (NDPCache.at_entry write j) s)
    end.

(** The loop over the prefixes: the next option is searched for from the last one on, with 32 bytes less left. *)
Definition prefix_step (k : nat) (message : bytes) (pos : Z) (st : option bytes * Z * nat * Stack W)
    : (option bytes * Z * nat * Stack W) + option (Stack W) :=
  let '(routerprefix, payloadlen, nextEntry, s) := st in
  match routerprefix with
  | None => inr (Some s)
  | Some o =>
      match use_prefix k message o pos nextEntry s with
      | None => inr None
      | Some (nextEntry, s) =>
          let payloadlen := u32 (payloadlen - 32) in
          match NDPRouterMessages.get_prefix_option o payloadlen with
          | None => inr None
          | Some next => inl (next, payloadlen, nextEntry, s)
          end
      end
  end.

Definition router_advertisement (k : nat) (packet message : bytes) (payloadlen : Z) (s : Stack W) : option (Stack W) :=
  if payloadlen <? 16 then Some s
  else
    let payloadlen := payloadlen - 16 in
    let options := drop 16 message in
    mac ← NDPMessages.get_option_linklayer_address NDPMessages.SourceLinkLayer options payloadlen;
    let src := IPv6_Packet.get_src_ipaddr packet in
    '(entry, s) ←
      match NDPCache.ndpcache_find src (memory_at k s) with
      | Some j => Some (Some j, s)
      | None => add k src (Some (default (take 6 junk) mac))
          (match mac with Some _ => NDPCacheEntry.NDPCacheEntryState_Stale | None => NDPCacheEntry.NDPCacheEntryState_Incomplete end) s
      end;
    match entry with
    | None => Some s
    | Some j =>
        let has_lifetime := negb ((get8 6 message =? 0) && (get8 7 message =? 0)) in
        let important b := match mac with
          | Some _ => if expires c then NDPCache.update_NDPCacheEntry_importance NDPEntry.IMPORTANCE_router b else b
          | None => b end in
        let s := on_memory k (NDPCache.at_entry (λ b, NDPEntry.set_isRouting e has_lifetime (important b)) j) s in
        let pos := AddressMemory.getPosition (memory_at k s) (Some j) in
        (* First: flag the addresses of this router *)
        let s := on_memory k (for_each AddressEntry.ID (λ j m,
          if of_router pos (m !!! j) then NDPCache.at_entry (set_flag bit_toBeRemoved true) j m else m)) s in
        let nextEntry := last_next (S (length (memory_at k s))) (memory_at k s) AddressEntry.ID 0 in
        let router_is_shuting_down := negb has_lifetime && forallb (λ b, b =? 0) (get_bytes 8 4 message) in
        (* Second: add and update *)
        s ← (if router_is_shuting_down then Some s
             else
               first ← NDPRouterMessages.get_prefix_option options payloadlen;
               default None (loop fuel (prefix_step k message pos) (first, payloadlen, nextEntry, s)));
        (* Third: remove what is still flagged *)
        Some (on_memory k (for_each AddressEntry.ID (λ j m,
          if of_router pos (m !!! j) && toBeRemoved (m !!! j) then AddressMemory.freeEntry j m else m)) s)
    end.

(** ** Setting an interface up *)

Definition solicitation_message (address : bytes) (addressSize : Z) (p : bytes) : bytes :=
  NDPMessages.write_option_linklayer_address NDPMessages.SourceLinkLayer 8 address addressSize
    (setf e (Field 4 H32) 0 (Packet.write 0 [133; 0] p)).
(** A solicitation of the routers of the link ([Router_Solicitation.ah], [RefreshNDPCache_routers.ah]). *)
Definition router_solicitation (k : nat) (s : Stack W) : option (Stack W) :=
  nic ← nics !! k;
  let s := set_addresses Multicast.allRouters k (Some (own_source k s)) s in
  let resSize := u8 (8 + NDPMessages.multiple_of_octets (address_size nic) * 8) in
  request k resSize (λ _ b, Some (write_message resSize (solicitation_message (n_address nic) (address_size nic)) b)) s.

(** [setIPv6Up] with the advice of multicast, of the link-local address and of router solicitation. *)
Definition setIPv6Up (up : bool) (k : nat) (s : Stack W) : option (Stack W) :=
  if up then
    '(_, s) ← join_multicastGroup Multicast.allRouters false k s;
    '(_, s) ← join_multicastGroup Multicast.allNodes false k s;
    s ← (match Interfaces.getInterfaceIPv6AddressByScope (interface_at k s) IPv6.IPV6_SCOPE_LINKLOCAL with
         | Some _ => Some s
         | None =>
             '(_, s) ← makeIPv6AddressByPrefix ([0xfe; 0x80; 0; 0; 0; 0; 0; 0] ++ take 8 junk) 64
                AddressEntry.AddressEntryStateTemporary AddressMemory.EntryUndefined k s; Some s
         end);
    router_solicitation k (on_interface k (Interfaces.setIPv6Up true) s)
  else
    s ← leave_multicastGroup Multicast.allRouters k s;
    s ← leave_multicastGroup Multicast.allNodes k s;
    Some (on_interface k (Interfaces.setIPv6Up false) s).

(** ** Messages that answer a packet *)

Definition ICMP_MAX_DATA_SIZE : Z := 56.

(** [SendBuffer::write] of memory of the frame: reading behind it is [None]. *)
Definition append (newdata : bytes) (size : Z) (b : Buffer) : option Buffer :=
  let size := fast16 fast_bits size in
  let remaining := SendBuffer.getRemainingSize (sb b) in
  if (remaining <? 0) || (Z.of_nat (length newdata) <? Z.min remaining size) then None
  else Some (on_sb (SendBuffer.write newdata size) b).

(** [IPv6_ICMP_Echo_Reply]: the source address of the instance stays as it was. *)
Definition echo_reply (k : nat) (packet message : bytes) (payloadlen : Z) (s : Stack W) : option (Stack W) :=
  let s := set_addresses (IPv6_Packet.get_src_ipaddr packet) k None s in
  let maxlen := getMaxPayloadLength nics fast_bits Instance_ s in
  let payloadlen := if maxlen <? payloadlen then maxlen else payloadlen in
  if payloadlen =? 0 then Some s
  else
    request k payloadlen (λ _ b,
      let b := write_message ICMPv6_Packet.ICMP_HEADER_SIZE
        (λ p, ICMPv6_Packet.set_code e 0 (ICMPv6_Packet.set_type e ICMPv6_Packet.ICMP_TYPE_ECHO_REPLY p)) b in
      append (ICMPv6_Packet.get_data message) (u32 (payloadlen - ICMPv6_Packet.ICMP_HEADER_SIZE)) b) s.

(** The reports of errors ([IPv6_ICMP_Port_Unreachable], [IPv6_ICMP_Protocol_Unreachable],
    [IPv6_ICMP_Option_Unknown]): eight bytes, of which the checksum is filled in later, and
    the beginning of the packet. *)
Definition error_message (type code : Z) (fourth : bytes) (k : nat) (packet : bytes) (s : Stack W) : option (Stack W) :=
  let s := set_addresses (IPv6_Packet.get_src_ipaddr packet) k (Some (IPv6_Packet.get_dst_ipaddr packet)) s in
  request k ICMP_MAX_DATA_SIZE (λ _ b,
    append packet (ICMP_MAX_DATA_SIZE - 8) (write_message 8 (λ p, Packet.write 4 fourth (Packet.write 0 [type; code] p)) b)) s.
Definition error_port_not_reachable_v6 := error_message 1 4 [0; 0; 0; 0].
Definition error_no_protocol_handler_v6 := error_message 4 1 [0; 0; 0; 7].
Definition error_option_unknown_v6 := error_message 4 2 [0; 0; 0; 0].

(** [NDP_MDL_Respond]: the length of a query is not checked. *)
Definition listener_query (k : nat) (packet message : bytes) (s : Stack W) : option (Stack W) :=
  if (length message <? 24)%nat then None
  else
    let addr := get_bytes 8 16 message in
    if negb (IPv6.is_not_unspecified_ipv6_address addr) || Multicast.hasIPv6Address (interface_at k s) addr then
      let s := set_addresses (IPv6_Packet.get_src_ipaddr packet) k (Some (IPv6_Packet.get_dst_ipaddr packet)) s in
      let s := on_ipv6 Instance_ (Sockets6.setHoplimit 1) s in
      s ← request k 24 (λ _ b, Some (write_message 24 (MLDMessages.write_mldv1_listener_report e addr) b)) s;
      Some (restoreDefaultSendingConfiguration s)
    else Some s.

(** ** The way of a frame to its handler *)

(** [icmpv6_demux] with the advice of all handlers, whose conditions exclude each other. *)
Definition icmpv6_demux (k : nat) (packet message : bytes) (payloadlen : Z) (s : Stack W) : option (Stack W) :=
  let type := ICMPv6_Packet.get_type e message in
  let code0 := ICMPv6_Packet.get_code e message =? 0 in
  if (type =? ICMPv6_Packet.ICMP_TYPE_ECHO_REQUEST) && code0 then echo_reply k packet message payloadlen s
  else if type =? 130 then listener_query k packet message s
  else if (type =? 134) && code0 then router_advertisement k packet message payloadlen s
  else if (type =? 135) && code0 then neighbor_solicitation_receive k packet message payloadlen s
  else if (type =? 136) && code0 then neighbor_advertisement_receive k message payloadlen s
  else Some s.

(** [IPv6_ICMP_Receive]. *)
Definition icmp_receive (k : nat) (packet : bytes) (rest : IPv6_Receive.Rest) (s : Stack W) : option (Stack W) :=
  let message := IPv6_Receive.payload rest in
  let payload_length := IPv6_Receive.payload_length rest in
  if payload_length <? ICMPv6_Packet.ICMP_HEADER_SIZE then Some s
  else
    let pseudo := computePseudoHeaderV6 (IPv6_Packet.get_src_ipaddr packet) (IPv6_Packet.get_dst_ipaddr packet)
      (u16 payload_length) ICMPv6_Packet.IPV6_TYPE_ICMP in
    valid ← ICMPv6_Packet.checksum_valid e pseudo message (u16 payload_length);
    if negb valid then Some s else icmpv6_demux k packet message payload_length s.

Definition ipv6_payload_demux (k : nat) (packet : bytes) (r : IPv6_Receive.Rest * option (Stack W))
    : bool * (IPv6_Receive.Rest * option (Stack W)) :=
  let '(rest, s) := r in
  if IPv6_Receive.nextHeader rest =? ICMPv6_Packet.IPV6_TYPE_ICMP then (true, (rest, s ≫= icmp_receive k packet rest))
  else let '(over, rest) := IPv6_Receive.no_advice rest in (over, (rest, s)).

(** [ipv6_demux] for a host whose only protocol is ICMPv6; the advice for hop-by-hop headers names a
    function with other parameters, so no advice shortens what is left, and the first round ends the walk. *)
Definition ipv6_demux (k : nat) (packet : bytes) (len : Z) (s : Stack W) : option (Stack W) :=
  match IPv6_Receive.ipv6_demux Multicast.hasIPv6Address e (interface_at k s) packet len with
  | None => Some s
  | Some rest =>
      '(outcome, s) ← IPv6_Receive.ipv6_walk (ipv6_payload_demux k packet) 1 (rest, Some s);
      s ← s;
      match outcome with
      | IPv6_Receive.No_protocol_handler => error_no_protocol_handler_v6 k packet s
      | _ => Some s
      end
  end.

(** [IPv6_Ethernet_NDPCache_Incoming_Aspect], which may be woven as well: the sender of a frame for
    this host is remembered; reading behind the frame is [None]. *)
Definition cache_incoming (k : nat) (interface : Nic) (data : bytes) (s : Stack W) : option (Stack W) :=
  if negb (Eth_Frame.get_type e data =? IPv6_Packet.ETH_TYPE_IPV6) then Some s
  else if (length data <? 38)%nat then None
  else if bool_decide (Eth_Frame.get_dst_hwaddr data = take 6 (n_address interface)) then
    '(entry, s) ← add k (IPv6_Packet.get_src_ipaddr (Eth_Frame.get_data data)) (Some (Eth_Frame.get_src_hwaddr data))
      NDPCacheEntry.NDPCacheEntryState_Reachable s;
    Some (match entry with
          | Some j => if expires c then on_memory k (NDPCache.at_entry
              (NDPCache.update_NDPCacheEntry_importance NDPEntry.IMPORTANCE_good_to_know) j) s else s
          | None => s
          end)
  else Some s.

(** [IPv6_Receive_Ethernet] behind [Demux::demux]. The aspects do not order the two advices. *)
Definition demux (k : nat) (data : bytes) (s : Stack W) : option (Stack W) :=
  interface ← nics !! k;
  let len := Z.of_nat (length data) in
  if negb (n_type interface =? ETHERNET) then Some s
  else if (len <? Eth_Frame.ETH_HEADER_SIZE) || (Eth_Frame.MAX_FRAME_SIZE <? len) then Some s
  else
    s ← (if prefetch c then cache_incoming k interface data s else Some s);
    if negb (Eth_Frame.get_type e data =? IPv6_Packet.ETH_TYPE_IPV6) then Some s
    else ipv6_demux k (Eth_Frame.get_data data) (len - Eth_Frame.ETH_HEADER_SIZE) s.
End Handlers.

Section Receive.
Context (e : endian) `{Clk : Clock} {W : Type} `{Sys : System6 W} `{Dev : Device W}.
Context (nics : list Nic) {L : Layout} (sizeof_SendBuffer fast_bits : Z) (c : config) (fuel : nat) (junk : bytes).

(** A frame that arrives while its handler waits is handled within: how deep that may go. *)
Fixpoint receive (depth : nat) : nat -> bytes -> Stack W -> option (Stack W) :=
  match depth with
  | O => λ _ _ _, None
  | S depth => demux e nics sizeof_SendBuffer fast_bits c fuel junk (receive depth)
  end.
End Receive.
End NDP.

(** ** Receiving a message *)

(** The header a host of this stack prepares is accepted where its destination is listened to. *)
Lemma ip6_received (accepts : Interface6 -> bytes -> bool) i src dst size hop nh m :
  length src = 16%nat -> length dst = 16%nat -> 0 < size < 65536 -> is_u8 nh ->
  ipv6_up i = true -> accepts i dst = true ->
  IPv6_Receive.ipv6_demux accepts LE i (ip6_header src dst size hop nh ++ m) (40 + size) = Some (IPv6_Receive.MkRest m size nh).
Proof.
  intros Hs Hd Hsize Hnh Hup Hacc. unfold IPv6_Receive.ipv6_demux. rewrite Hup. cbn [negb].
  destruct (ip6_addresses src dst size hop nh m Hs Hd) as [-> _].
  assert (El : IPv6_Packet.get_payload_len LE (ip6_header src dst size hop nh ++ m) = size).
  { transitivity (getf LE IPv6_Packet.f_payload_length ([0x60; 0; 0; 0] ++ be16 size ++ [nh; hop] ++ src ++ dst ++ m));
      [unfold ip6_header; by rewrite <- !app_assoc|].
    assert (E : be16 size = fbytes LE K16 size) by (cbn [fbytes]; rewrite LittleEndian.set16_network by side; by rewrite u16_id by (unfold is_u16; lia)).
    rewrite E. apply (getf_at LE K16 size [0x60; 0; 0; 0] ([nh; hop] ++ src ++ dst ++ m)). change (is_u16 size). unfold is_u16. lia. }
  unfold IPv6_Packet.validPacketLength. rewrite El. change IPv6_Packet.IPV6_HEADER_SIZE_IN_BYTES with 40.
  destruct (Z.ltb_spec (40 + size) 40); [lia|]. destruct (Z.ltb_spec (40 + size) size); [lia|].
  destruct (Z.eqb_spec size 0); [lia|].
  change (IPv6_Packet.get_version LE (ip6_header src dst size hop nh ++ m) =? IPv6_Packet.IPV6_VERSION) with true. cbn [negb].
  rewrite Hacc. f_equal. f_equal.
  unfold ip6_header, be16. unfold_list Hs. unfold_list Hd. reflexivity.
Qed.

Section Delivery.
Import Socket_Send Socket_Send6 NDP.
Context `{Clk : Clock} {W : Type} `{Sys : System6 W} `{Dev : Device W}.
Context (nics : list Nic) {L : Layout} (sizeof_SendBuffer fast_bits : Z) (c : config) (fuel : nat) (junk : bytes).
Context (interrupt : nat -> bytes -> Stack W -> option (Stack W)).

(** A message in a frame for an interface that listens to its destination reaches the handlers. *)
Lemma message_delivered (k : nat) (nic : Nic) (s : Stack W) (hw hw' src dst m : bytes) (size hop : Z) :
  nics !! k = Some nic -> n_type nic = ETHERNET -> prefetch c = false ->
  ipv6_up (interface_at k s) = true -> Multicast.hasIPv6Address (interface_at k s) dst = true ->
  length hw = 6%nat -> length hw' = 6%nat -> length src = 16%nat -> length dst = 16%nat ->
  Z.of_nat (length m) = size -> 4 <= size <= 1464 ->
  ICMPv6_Packet.checksum_valid LE (computePseudoHeaderV6 src dst size ICMPv6_Packet.IPV6_TYPE_ICMP) m size = Some true ->
  let packet := ip6_header src dst size hop ICMPv6_Packet.IPV6_TYPE_ICMP ++ m in
  demux LE nics sizeof_SendBuffer fast_bits c fuel junk interrupt k (eth6_header hw hw' ++ packet) s
  = icmpv6_demux LE nics sizeof_SendBuffer fast_bits c fuel junk interrupt k packet m size s.
Proof.
  intros Hn Ht Hp Hup Hacc Lh Lh' Ls Ld Lm Hsize Hsum packet. unfold demux. rewrite Hn. cbn [mbind option_bind].
  rewrite Ht. change (negb (ETHERNET =? ETHERNET)) with false. cbv iota.
  pose proof (length_eth6 hw hw' Lh Lh') as Le. pose proof (length_ip6 src dst size hop ICMPv6_Packet.IPV6_TYPE_ICMP Ls Ld) as Li.
  assert (El : Z.of_nat (length (eth6_header hw hw' ++ packet)) = 54 + size) by (unfold packet; rewrite !length_app, Le, Li; lia).
  rewrite El. change Eth_Frame.ETH_HEADER_SIZE with 14. change Eth_Frame.MAX_FRAME_SIZE with 1518.
  destruct (Z.ltb_spec (54 + size) 14); [lia|]. destruct (Z.ltb_spec 1518 (54 + size)); [lia|]. cbn [orb].
  rewrite Hp. cbn [mbind option_bind].
  assert (Ety : (Eth_Frame.get_type LE (eth6_header hw hw' ++ packet) =? IPv6_Packet.ETH_TYPE_IPV6) = true).
  { clear -Lh Lh'. clearbody packet. unfold_list Lh. unfold_list Lh'. reflexivity. }
  rewrite Ety. cbn [negb].
  assert (Ed : Eth_Frame.get_data (eth6_header hw hw' ++ packet) = packet) by (unfold Eth_Frame.get_data; rewrite <- Le at 1; apply drop_app_length).
  rewrite Ed. unfold ipv6_demux. replace (54 + size - 14) with (40 + size) by lia. unfold packet at 1.
  rewrite (ip6_received Multicast.hasIPv6Address) by (done || lia || (unfold is_u8, ICMPv6_Packet.IPV6_TYPE_ICMP; lia)).
  unfold IPv6_Receive.ipv6_walk, loop, IPv6_Receive.walk_step, ipv6_payload_demux. cbn [IPv6_Receive.nextHeader].
  rewrite Z.eqb_refl. cbn [mbind option_bind]. unfold icmp_receive. cbn [IPv6_Receive.payload IPv6_Receive.payload_length].
  change ICMPv6_Packet.ICMP_HEADER_SIZE with 4. destruct (Z.ltb_spec size 4); [lia|]. rewrite u16_id by (unfold is_u16; lia).
  destruct (ip6_addresses src dst size hop ICMPv6_Packet.IPV6_TYPE_ICMP m Ls Ld) as [Edst Esrc]. fold packet in Edst, Esrc.
  rewrite Edst, Esrc, Hsum. cbn [mbind option_bind negb]. by destruct (icmpv6_demux _ _ _ _ _ _ _ _ _ _ _ _ _).
Qed.
End Delivery.

(** ** Two hosts find each other *)

(** The messages behind their first four bytes, for link layer addresses of six bytes. *)
Definition solicitation_body (target mac : bytes) : bytes := [0; 0; 0; 0] ++ target ++ [1; 1] ++ mac.
Definition advertisement_body (target mac : bytes) : bytes := [0x60; 0; 0; 0] ++ target ++ [2; 1] ++ mac.

Lemma solicitation_written target mac p : length target = 16%nat -> length mac = 6%nat -> length p = 32%nat ->
  exists c0, length c0 = 2%nat
  ∧ NDPNeighborMessages.neighbor_solicitation LE target mac 6 p = [135; 0] ++ c0 ++ solicitation_body target mac.
Proof.
  intros Ht Hm Hp. exists (take 2 (drop 2 p)). rewrite length_take, length_drop, Hp. split; [done|].
  unfold_list Ht. unfold_list Hm. unfold_list Hp. reflexivity.
Qed.
Lemma advertisement_written target mac p : length target = 16%nat -> length mac = 6%nat -> length p = 32%nat ->
  exists c0, length c0 = 2%nat
  ∧ NDP.neighbor_advertisement LE target mac 6 p = [136; 0] ++ c0 ++ advertisement_body target mac.
Proof.
  intros Ht Hm Hp. exists (take 2 (drop 2 p)). rewrite length_take, length_drop, Hp. split; [done|].
  unfold_list Ht. unfold_list Hm. unfold_list Hp. reflexivity.
Qed.

(** What is read from them. *)
Lemma solicitation_read target mac c0 : length target = 16%nat -> length mac = 6%nat -> length c0 = 2%nat ->
  let m := [135; 0] ++ c0 ++ solicitation_body target mac in
  ICMPv6_Packet.get_type LE m = 135 ∧ ICMPv6_Packet.get_code LE m = 0 ∧ NDPNeighborMessages.get_target_address m = target
  ∧ NDPMessages.get_option_linklayer_address NDPMessages.SourceLinkLayer (drop 24 m) 8 = Some (Some mac) ∧ length m = 32%nat.
Proof. intros Ht Hm Hc. unfold_list Ht. unfold_list Hm. unfold_list Hc. split_and!; reflexivity. Qed.
Lemma advertisement_read target mac c0 : length target = 16%nat -> length mac = 6%nat -> length c0 = 2%nat ->
  let m := [136; 0] ++ c0 ++ advertisement_body target mac in
  (ICMPv6_Packet.get_type LE m = 136 ∧ ICMPv6_Packet.get_code LE m = 0 ∧ NDPNeighborMessages.get_target_address m = target)
  ∧ (NDPMessages.get_option_linklayer_address NDPMessages.TargetLinkLayer (drop 24 m) 8 = Some (Some mac) ∧ length m = 32%nat)
  ∧ NDPNeighborMessages.isOverride LE m = true ∧ NDPNeighborMessages.isResponse LE m = true ∧ NDPNeighborMessages.isRouter LE m = false.
Proof. intros Ht Hm Hc. unfold_list Ht. unfold_list Hm. unfold_list Hc. split_and!; reflexivity. Qed.

Section Resolution.
Import Socket_Send Socket_Send6 NDP NDPCacheEntry.
Context `{Clk : Clock} {W : Type} `{Sys : System6 W} `{Dev : Device W}.
Context (nics : list Nic) {L : Layout} {LOk : LayoutOk L} (sizeof_SendBuffer fast_bits : Z) (c : config) (fuel : nat) (junk : bytes).
Context (interrupt : nat -> bytes -> Stack W -> option (Stack W)).
Hypothesis numbered : forall k nic, nics !! k = Some nic -> n_id nic = k.
Hypothesis pool : forall n w, let '(a, area, _) := dv_alloc n w in a ≠ 0 -> sizeof_SendBuffer <= n -> Z.of_nat (length area) = n - sizeof_SendBuffer.
Hypothesis bits : 16 <= fast_bits.

(** An interface that can send, over Ethernet and without a hop-by-hop option. *)
Record speaks (k : nat) (nic : Nic) (s : Stack W) : Prop := {
  sp_nic : nics !! k = Some nic;
  sp_type : n_type nic = ETHERNET;
  sp_address : length (n_address nic) = 6%nat ∧ is_bytes (n_address nic);
  sp_no_alert : IPv6HopByHop.use_alertoption (alert (instance s)) = false;
  sp_hoplimit : is_u8 (Sockets6.hoplimit (ipv6 (instance s)));
  sp_memory : NdpCache.wf (memory_at k s) }.
Definition is_addr6 (a : bytes) : Prop := length a = 16%nat ∧ is_bytes a.
(** There is memory for a message of a size. *)
Definition available (size : Z) (w : W) : Prop := (dv_alloc (54 + size + sizeof_SendBuffer) w).1.1 ≠ 0.

(** The hardware address that frames for [dst] get. *)
Definition reaches (k : nat) (s : Stack W) (dst hw : bytes) : Prop :=
  length hw = 6%nat
  ∧ if Multicast.isMulticast dst then hw = multicast_mac6 dst else exists st, NdpCache.cache (memory_at k s) !! dst = Some (hw, st).

Lemma speaks_kept k nic s s' : speaks k nic s -> kept s s' -> speaks k nic s'.
Proof.
  intros [] [H1 H2 H3 H4]. split; try done; try congruence.
  unfold memory_at, interface_at in *. by rewrite H2.
Qed.

(** A message of the stack, and the frame in which it leaves. *)
Definition frame6 (hw mac src dst : bytes) (hop : Z) (m : bytes) : bytes :=
  eth6_header hw mac ++ ip6_header src dst (Z.of_nat (length m)) hop ICMPv6_Packet.IPV6_TYPE_ICMP ++ m.
Definition valid6 (src dst m : bytes) : Prop :=
  ICMPv6_Packet.checksum_valid LE (computePseudoHeaderV6 src dst (Z.of_nat (length m)) ICMPv6_Packet.IPV6_TYPE_ICMP) m (Z.of_nat (length m)) = Some true.

(** The source address of a message: the one given, or the one of the message before. *)
Definition source6 (s : Stack W) (src : option bytes) : bytes := default (Sockets6.src_ipv6_addr (ipv6 (instance s))) src.

Lemma answer_sent6 (add : nat -> bytes -> option bytes -> StateEnum -> Stack W -> option (option nat * Stack W)) k nic s osrc dst hw
    (fill : Stack W -> Buffer -> option Buffer) size tc body :
  let src := source6 s osrc in
  speaks k nic s -> is_addr6 src -> is_addr6 dst -> reaches k s dst hw -> available size (world s) ->
  length tc = 2%nat -> is_bytes (tc ++ body) -> size = Z.of_nat (4 + length body) -> 54 + size < 65536 ->
  (forall w b at_54, behaves size at_54 -> length b = Z.to_nat size ->
     exists c0, length c0 = 2%nat ∧ fill (set_addresses LE dst k osrc s <| world := w |>) (at_54 54 b) = Some (at_54 (54 + size) (tc ++ c0 ++ body))) ->
  exists v w, is_u16 v ∧ valid6 src dst (tc ++ be16 v ++ body)
  ∧ request_and_send LE nics sizeof_SendBuffer fast_bits fuel interrupt add k size fill (set_addresses LE dst k osrc s)
    = Some (emitted nics dst k (frame6 hw (n_address nic) src dst (Sockets6.hoplimit (ipv6 (instance s))) (tc ++ be16 v ++ body))
        (set_addresses LE dst k osrc s <| world := w |>)).
Proof.
  intros src Sp [Ls Bs] [Ld Bd] [Lh Hr] Hav Ht Hb Hsz Hsize Hfill. set (s1 := set_addresses LE dst k osrc s).
  assert (Ecopy : forall a : bytes, length a = 16%nat -> IPv6.copy_ipv6_addr a = a) by (intros a Ha; unfold IPv6.copy_ipv6_addr; apply take_ge; lia).
  assert (Edst : Sockets6.dst_ipv6_addr (ipv6 (instance s1)) = dst) by (destruct osrc; by apply Ecopy).
  assert (Esrc : Sockets6.src_ipv6_addr (ipv6 (instance s1)) = src) by (destruct osrc; [by apply Ecopy|done]).
  assert (Ehop : Sockets6.hoplimit (ipv6 (instance s1)) = Sockets6.hoplimit (ipv6 (instance s))) by (by destruct osrc).
  destruct (sp_address k nic s Sp) as [La Ba].
  assert (N : neighbor6 nics k nic s1 (instance s1) hw).
  { split; rewrite ?Edst, ?Esrc, ?Ehop; try done; try apply Sp.
    - apply (numbered k nic), Sp.
    - by destruct osrc.
    - change (memory_at k s1) with (memory_at k s). destruct (Multicast.isMulticast dst); [done|]. destruct Hr as [st Hst].
      rewrite <- (find_lookup (memory_at k s) dst (sp_memory k nic s Sp) Ld) in Hst.
      destruct (NDPCache.ndpcache_find dst (memory_at k s)) as [j|]; [|done]. cbn in Hst |- *. by injection Hst as -> _. }
  unfold available in Hav. change (world s) with (world s1) in Hav.
  pose proof (pool (54 + size + sizeof_SendBuffer) (world s1)) as Hp. destruct (dv_alloc _ _) as [[a area] w] eqn:Ea. cbn [fst] in Hav.
  specialize (Hp Hav ltac:(lia)).
  destruct (Hfill w (drop 54 area) (message_buffer Instance_ s1 nic hw a size ICMPv6_Packet.IPV6_TYPE_ICMP)) as (c0 & Hc0 & Efill).
  { apply (message_buffer_behaves nics Instance_ s1 k nic hw area a size N). }
  { rewrite length_drop. lia. }
  destruct (message6_sent nics sizeof_SendBuffer fast_bits fuel interrupt add s1 k nic hw area a size w N) with (fill := fill) (tc := tc) (c0 := c0) (body := body)
    as (v & Hv & E & Hsum); try done; try lia; [by rewrite Edst, Esrc|].
  rewrite Edst, Esrc, Ehop in *.
  assert (El : Z.of_nat (length (tc ++ be16 v ++ body)) = size) by (rewrite !length_app, Ht; cbn; lia).
  exists v, w. split; [done|]. split; [unfold valid6; by rewrite El|].
  rewrite E. unfold frame6. by rewrite El.
Qed.

Let add := Socket_Send6.addNDPCacheEntry LE nics sizeof_SendBuffer fast_bits (expires c) fuel interrupt.

(** There is a free block for an address, or it is known. *)
Definition has_room (k : nat) (s : Stack W) (a : bytes) : Prop :=
  is_Some (NdpCache.cache (memory_at k s) !! a) ∨ exists j, AddressMemory.id_at (memory_at k s) j = Some 0.
(** The cache once the sender of a message is remembered: what is known stays. *)
Definition remembered (k : nat) (s : Stack W) (a mac : bytes) : gmap bytes (bytes * Z) :=
  match NdpCache.cache (memory_at k s) !! a with
  | Some _ => NdpCache.cache (memory_at k s)
  | None => <[a := (mac, NDPEntry.value NDPCacheEntryState_Stale)]> (NdpCache.cache (memory_at k s))
  end.

Lemma room_interface k (s : Stack W) a : has_room k s a -> interfaces s !! k ≠ None.
Proof.
  unfold has_room, memory_at, interface_at. intros H E. rewrite E in H. cbn in H. by destruct H as [[? ?]|[j Hj]].
Qed.

Lemma sender_remembered k nic s packet m src mac :
  speaks k nic s -> IPv6_Packet.get_src_ipaddr packet = src -> is_addr6 src -> length mac = 6%nat ∧ is_bytes mac ->
  IPv6.is_not_unspecified_ipv6_address src = true ->
  NDPMessages.get_option_linklayer_address NDPMessages.SourceLinkLayer (drop 24 m) 8 = Some (Some mac) -> has_room k s src ->
  exists s', remember_sender LE nics sizeof_SendBuffer fast_bits c fuel interrupt k packet m 8 s = Some s'
  ∧ speaks k nic s' ∧ NdpCache.cache (memory_at k s') = remembered k s src mac
  ∧ Sockets6.hoplimit (ipv6 (instance s')) = Sockets6.hoplimit (ipv6 (instance s)).
Proof.
  intros Sp Es [La Ba] [Lm Bm] Hsrc Hopt Hroom. unfold remember_sender. rewrite Hopt. cbn [mbind option_bind]. rewrite Es, Hsrc.
  pose proof (sp_memory k nic s Sp) as Hm. unfold remembered. rewrite <- (find_lookup (memory_at k s) src Hm La).
  destruct (NDPCache.ndpcache_find src (memory_at k s)) as [j|] eqn:Ef; cbn [fmap option_fmap option_map]; [by exists s|].
  assert (Hc : call_ok src (Some mac)) by (split; [done|done|by intros x [= <-]]).
  pose proof (add_returns LE nics sizeof_SendBuffer fast_bits (expires c) fuel interrupt numbered pool bits k nic src (Some mac)
    NDPCacheEntryState_Stale s (sp_nic k nic s Sp) Hm Hc) as Hadd.
  pose proof (add_spec LE (expires c) (memory_at k s) src (Some mac) NDPCacheEntryState_Stale Hm Hc) as Hspec.
  assert (Hnone : NdpCache.cache (memory_at k s) !! src = None) by (rewrite <- (find_lookup (memory_at k s) src Hm La), Ef; done).
  assert (Hfree : exists j, AddressMemory.id_at (memory_at k s) j = Some 0).
  { destruct Hroom as [[x Hx]|Hj]; [congruence|done]. }
  destruct (NDPCache.addNDPCacheEntry _ _ _ _ _ _) as [[j|] m'].
  2: { destruct Hspec as (_ & _ & Hfull & _). destruct Hfree as [i Hi]. by destruct (Hfull i). }
  destruct Hspec as (Hw & _ & hw' & d & Ed & Hd). rewrite Hnone in Hd. destruct Hd as [Ehw Hd].
  rewrite (Ehw mac eq_refl) in Ed. assert (Hd' : d = NdpCache.cache (memory_at k s)).
  { destruct Hd as [->|(_ & Hfull & _)]; [done|]. destruct Hfree as [i Hi]. by destruct (Hfull i). }
  subst d. destruct Hadd as (s' & Hk & Hs').
  assert (Em : memory_at k s' = m').
  { transitivity (memory_at k (on_memory k (λ _, m') s)); [unfold memory_at, interface_at; by rewrite (kp_interfaces _ _ Hk)|].
    apply on_memory_at. by eapply room_interface. }
  exists s'. unfold Socket_Send6.addNDPCacheEntry. cbn [add_nested]. rewrite Hs'. cbn [mbind option_bind].
  split; [done|]. split; [|split; [by rewrite Em|apply Hk]].
  destruct Sp. destruct Hk as [K1 K2 K3 K4]. split; try done; [by rewrite K3|by rewrite K4|by rewrite Em].
Qed.

(** The answer to a solicitation of a host that is known. *)
Lemma solicitation_response k nic s packet m src target hw :
  speaks k nic s -> IPv6_Packet.get_src_ipaddr packet = src -> NDPNeighborMessages.get_target_address m = target ->
  is_addr6 src -> is_addr6 target -> reaches k s src hw -> available 32 (world s) ->
  exists v w, is_u16 v ∧ let answer := [136; 0] ++ be16 v ++ advertisement_body target (n_address nic) in
  valid6 target src answer
  ∧ address_resolution_response LE nics sizeof_SendBuffer fast_bits c fuel interrupt k packet m s
    = Some (emitted nics src k (frame6 hw (n_address nic) target src (Sockets6.hoplimit (ipv6 (instance s))) answer)
        (set_addresses LE src k (Some target) s <| world := w |>)).
Proof.
  intros Sp Es Et Hs Ht Hr Hav. unfold address_resolution_response. rewrite (sp_nic k nic s Sp). cbn [mbind option_bind].
  rewrite Es, Et. unfold address_size. destruct (sp_address k nic s Sp) as [La Ba]. rewrite La. change (Z.of_nat 6) with 6.
  change (NDPNeighborMessages.solicitation_size 6) with 32.
  destruct (answer_sent6 (Socket_Send6.addNDPCacheEntry LE nics sizeof_SendBuffer fast_bits (expires c) fuel interrupt) k nic s (Some target) src hw
    (λ _ b, Some (write_message 32 (neighbor_advertisement LE target (n_address nic) 6) b)) 32 [136; 0] (advertisement_body target (n_address nic)))
    as (v & w & Hv & Hsum & E); try done.
  - rewrite is_bytes_app. split; [apply (bool_decide_unpack _); by vm_compute|]. unfold advertisement_body. rewrite !is_bytes_app.
    split_and!; try (apply (bool_decide_unpack _); by vm_compute); [apply Ht|done].
  - unfold advertisement_body. destruct Ht as [Lt _]. rewrite !length_app, Lt, La. done.
  - intros w b at_54 Hwrite Hb. destruct (advertisement_written target (n_address nic) b) as (c0 & Hc0 & Ew); [apply Ht|done|lia|].
    exists c0. split; [done|]. by rewrite (bh_write _ _ Hwrite), Ew.
  - exists v, w. by split_and!.
Qed.

(** The solicitation of an address of this host. *)
Lemma solicitation_answered k nic s hw' src mac target v hop b block :
  speaks k nic s -> prefetch c = false -> (forall w, available 32 w) ->
  ipv6_up (interface_at k s) = true -> memory_at k s !! b = Some block -> Entry.id block = AddressEntry.ID -> Entry.ipv6 block = target ->
  Multicast.isMulticast target = false -> Multicast.isMulticast src = false -> IPv6.is_not_unspecified_ipv6_address src = true ->
  is_addr6 src -> is_addr6 target -> length mac = 6%nat ∧ is_bytes mac -> length hw' = 6%nat ->
  has_room k s src -> update_first c = true ∨ is_Some (NdpCache.cache (memory_at k s) !! src) ->
  let dst := IPv6.solicitedNode_multicast_addr target in
  let question := [135; 0] ++ be16 v ++ solicitation_body target mac in
  valid6 src dst question ->
  exists s' w hw v', is_u16 v' ∧ let answer := [136; 0] ++ be16 v' ++ advertisement_body target (n_address nic) in
  demux LE nics sizeof_SendBuffer fast_bits c fuel junk interrupt k (frame6 hw' mac src dst hop question) s = Some s'
  ∧ speaks k nic s' ∧ NdpCache.cache (memory_at k s') = remembered k s src mac ∧ fst <$> NdpCache.cache (memory_at k s') !! src = Some hw
  ∧ world s' = dv_send k (frame6 hw (n_address nic) target src (Sockets6.hoplimit (ipv6 (instance s))) answer) w
  ∧ valid6 target src answer.
Proof.
  intros Sp Hp Hav Hup Hb Hid Ha Hmt Hms Hns Hs Ht [Lm Bm] Lh Hroom Horder dst question Hsum.
  destruct (solicited_shape target) as [Ld Hmd]. fold dst in Ld, Hmd.
  destruct Hs as [Ls Bs]. destruct Ht as [Lt Bt].
  assert (Lq : length question = 32%nat) by (unfold question, solicitation_body; rewrite !length_app, Lt, Lm; done).
  unfold valid6 in Hsum. rewrite Lq in Hsum. unfold frame6. rewrite Lq. change (Z.of_nat 32) with 32 in *.
  rewrite (message_delivered nics sizeof_SendBuffer fast_bits c fuel junk interrupt k nic s hw' mac src dst question 32 hop (sp_nic _ _ _ Sp)
    (sp_type _ _ _ Sp) Hp Hup) by (done || lia || (unfold dst; rewrite <- Ha; by apply (accepts_solicited _ b block))).
  set (packet := ip6_header src dst 32 hop ICMPv6_Packet.IPV6_TYPE_ICMP ++ question).
  assert (Epk : IPv6_Packet.get_src_ipaddr packet = src) by (by apply ip6_addresses).
  destruct (solicitation_read target mac (be16 v) Lt Lm eq_refl) as (E1 & E2 & E3 & E4 & _). fold question in E1, E2, E3, E4.
  unfold icmpv6_demux. rewrite E1, E2. change ((135 =? ICMPv6_Packet.ICMP_TYPE_ECHO_REQUEST) && (0 =? 0)) with false.
  change (135 =? 130) with false. change ((135 =? 134) && (0 =? 0)) with false. change ((135 =? 135) && (0 =? 0)) with true. cbv iota.
  unfold neighbor_solicitation_receive, for_us. change (32 <? NDPNeighborMessages.sizeof_NeighborSolicitationMessage) with false. cbv iota.
  rewrite E3. assert (Hacc : Multicast.hasIPv6Address (interface_at k s) target = true).
  { unfold Multicast.hasIPv6Address. rewrite Hmt. apply hasIPv6Address_spec. exists b. unfold AddressMemory.id_at. fold (memory_at k s).
    rewrite (list_lookup_total_correct _ _ _ Hb), Hb, Ha. split; [cbn; by rewrite Hid|apply compare_refl]. }
  rewrite Hacc. cbn [negb]. unfold ndp_neighbor_solicitation_demux. change (32 - NDPNeighborMessages.sizeof_NeighborSolicitationMessage) with 8.
  assert (Hanswer : forall t, speaks k nic t -> is_Some (NdpCache.cache (memory_at k t) !! src) ->
    exists hw v' w, is_u16 v' ∧ valid6 target src ([136; 0] ++ be16 v' ++ advertisement_body target (n_address nic))
    ∧ fst <$> NdpCache.cache (memory_at k t) !! src = Some hw
    ∧ address_resolution_response LE nics sizeof_SendBuffer fast_bits c fuel interrupt k packet question t
      = Some (set_addresses LE src k (Some target) t <| world := dv_send k (frame6 hw (n_address nic) target src (Sockets6.hoplimit (ipv6 (instance t)))
          ([136; 0] ++ be16 v' ++ advertisement_body target (n_address nic))) w |>)).
  { intros t St [[hw st] Hk]. assert (Lhw : length hw = 6%nat).
    { apply cache_lookup in Hk as (j & bl & Hj & _ & _ & [= -> _]); [|apply St]. pose proof (wf_block _ _ _ (sp_memory _ _ _ St) Hj) as [Lb _].
      unfold NDPEntry.hw, get_bytes. rewrite length_take, length_drop. pose proof hw_behind. lia. }
    destruct (solicitation_response k nic t packet question src target hw St Epk E3) as (v' & w & Hv' & Hsum' & E); try done.
    { split; [done|]. rewrite Hms. by exists st. }
    exists hw, v', w. split; [done|]. split; [done|]. split; [by rewrite Hk|]. rewrite E. unfold emitted. by rewrite Hms. }
  destruct (sender_remembered k nic s packet question src mac Sp Epk ltac:(done) ltac:(done) Hns E4 Hroom) as (s1 & R1 & S1 & C1 & H1).
  assert (Hknown : is_Some (NdpCache.cache (memory_at k s1) !! src)).
  { rewrite C1. unfold remembered. destruct (NdpCache.cache (memory_at k s) !! src) eqn:E; [by rewrite E|by rewrite lookup_insert_eq]. }
  destruct (update_first c) eqn:Eorder.
  - rewrite R1. cbn [mbind option_bind]. destruct (Hanswer s1 S1 Hknown) as (hw & v' & w & Hv' & Hsum' & Hk & E).
    eexists _, w, hw, v'. split; [done|]. cbv zeta. split; [exact E|]. rewrite H1.
    split; [apply (speaks_kept k nic s1); [done|apply kept_addresses]|]. done.
  - destruct Horder as [|Hk0]; [done|]. destruct (Hanswer s Sp Hk0) as (hw & v' & w & Hv' & Hsum' & Hk & E).
    rewrite E. cbn [mbind option_bind]. set (s2 := set_addresses LE src k (Some target) s <| world := _ |>).
    assert (S2 : speaks k nic s2) by (apply (speaks_kept k nic s); [done|apply kept_addresses]).
    assert (R2 : remember_sender LE nics sizeof_SendBuffer fast_bits c fuel interrupt k packet question 8 s2 = Some s2).
    { unfold remember_sender. rewrite E4. cbn [mbind option_bind]. rewrite Epk, Hns. change (memory_at k s2) with (memory_at k s).
      destruct Hk0 as [x Hx]. rewrite <- (find_lookup (memory_at k s) src (sp_memory _ _ _ Sp) Ls) in Hx.
      by destruct (NDPCache.ndpcache_find src (memory_at k s)). }
    exists s2, w, hw, v'. split; [done|]. cbv zeta. split; [exact R2|]. split; [done|].
    change (memory_at k s2) with (memory_at k s). unfold remembered. destruct Hk0 as [x Hx]. rewrite Hx in *. by split_and!.
Qed.

(** The advertisement of an address that is in the cache. *)
Lemma entry_updated k (s : Stack W) m target mac : NdpCache.wf (memory_at k s) -> is_addr6 target -> length mac = 6%nat ∧ is_bytes mac ->
  NDPNeighborMessages.get_target_address m = target ->
  NDPMessages.get_option_linklayer_address NDPMessages.TargetLinkLayer (drop 24 m) 8 = Some (Some mac) ->
  NDPNeighborMessages.isOverride LE m = true -> is_Some (NdpCache.cache (memory_at k s) !! target) ->
  exists s', update_entry LE c k m 8 s = Some s' ∧ NdpCache.wf (memory_at k s') ∧ world s' = world s
  ∧ NDPCache.ndpcache_find target (memory_at k s') = NDPCache.ndpcache_find target (memory_at k s)
  ∧ NdpCache.cache (memory_at k s') = <[target := (mac, NDPEntry.value NDPCacheEntryState_Reachable)]> (NdpCache.cache (memory_at k s)).
Proof.
  intros Hm [Lt Bt] [Lm Bm] Et Hopt Hover [x Hx]. unfold update_entry. rewrite Et.
  pose proof (find_spec (memory_at k s) target Lt) as Hf. rewrite <- (find_lookup _ target Hm Lt) in Hx.
  destruct (NDPCache.ndpcache_find target (memory_at k s)) as [j|]; [|done]. destruct Hf as (b & Hj & Nb & Ab).
  rewrite Hopt, Hover. cbn [mbind option_bind orb]. eexists. split; [reflexivity|].
  destruct (wf_block _ _ _ Hm Hj) as [Lb Bb].
  destruct (advertised_entry LE (expires c) (NDPNeighborMessages.isRouter LE m) mac b Lb Bb Lm Bm) as (L' & B' & I' & A' & H' & S').
  assert (Hi : interfaces s !! k ≠ None) by (intros E; unfold memory_at, interface_at in Hj; by rewrite E in Hj).
  assert (E : memory_at k (on_memory k (NDPCache.at_entry (λ b, NDPEntry.set_state NDPCacheEntryState_Reachable (NDPEntry.set_hw mac b)) j)
      (on_memory k (NDPCache.at_entry (λ b, NDPCache.entryConfirmed LE (expires c) (NDPEntry.set_isRouter LE (NDPNeighborMessages.isRouter LE m) b)) j) s))
    = <[j := advertised LE (expires c) (NDPNeighborMessages.isRouter LE m) mac b]> (memory_at k s)).
  { rewrite on_memory_at.
    - rewrite on_memory_at by done. unfold NDPCache.at_entry. rewrite (alter_insert _ j b _ Hj), (alter_insert _ j _ _ (list_lookup_insert_eq _ _ _ (lookup_lt_Some _ _ _ Hj))).
      by rewrite list_insert_insert_eq.
    - unfold on_memory, on_interface. cbn. rewrite list_lookup_alter_eq. by destruct (interfaces s !! k). }
  destruct (update_cache (memory_at k s) j b (advertised LE (expires c) (NDPNeighborMessages.isRouter LE m) mac b) Hm Hj) as [Hw Hc].
  { split; [by rewrite L'|exact B']. }
  { unfold is_ndp. by rewrite I'. }
  { intros i d Hne Hd Nd Ed. apply Hne. by apply (wf_unique _ Hm i j d b); try done; congruence. }
  rewrite E. split; [done|]. split; [done|]. split; [apply (found_at _ j (advertised LE (expires c) (NDPNeighborMessages.isRouter LE m) mac b) target Hw Lt); [apply list_lookup_insert_eq; by eapply lookup_lt_Some| |congruence]|].
  { unfold is_ndp. by rewrite I'. }
  rewrite Hc, Nb, A', H', S', Ab. by rewrite insert_delete_eq.
Qed.

(** No address of the interface is the one given, which duplicate detection looks for. *)
Definition not_own (k : nat) (s : Stack W) (a : bytes) : Prop :=
  duplicate_detection c = false ∨ forall j b, memory_at k s !! j = Some b -> Entry.id b = AddressEntry.ID -> Entry.ipv6 b ≠ a.

Lemma advertisement_received k nic s hw' mac target dst hop v :
  nics !! k = Some nic -> n_type nic = ETHERNET -> prefetch c = false -> ipv6_up (interface_at k s) = true ->
  Multicast.hasIPv6Address (interface_at k s) dst = true -> Multicast.hasIPv6Address (interface_at k s) target = true -> not_own k s target ->
  NdpCache.wf (memory_at k s) -> is_addr6 target -> is_addr6 dst -> length mac = 6%nat ∧ is_bytes mac -> length hw' = 6%nat ->
  is_Some (NdpCache.cache (memory_at k s) !! target) ->
  let answer := [136; 0] ++ be16 v ++ advertisement_body target mac in valid6 target dst answer ->
  exists s', demux LE nics sizeof_SendBuffer fast_bits c fuel junk interrupt k (frame6 hw' mac target dst hop answer) s = Some s'
  ∧ NdpCache.wf (memory_at k s') ∧ world s' = world s
  ∧ NDPCache.ndpcache_find target (memory_at k s') = NDPCache.ndpcache_find target (memory_at k s)
  ∧ NdpCache.cache (memory_at k s') = <[target := (mac, NDPEntry.value NDPCacheEntryState_Reachable)]> (NdpCache.cache (memory_at k s)).
Proof.
  intros Hn Hty Hp Hup Hd Ht Hown Hm Hta [Ld Bd] Hmac Lh Hknown answer Hsum. destruct Hta as [Lt Bt]. destruct Hmac as [Lm Bm].
  destruct (advertisement_read target mac (be16 v) Lt Lm eq_refl) as ((E1 & E2 & E3) & (E4 & La) & E5 & E6 & E7).
  fold answer in E1, E2, E3, E4, E5, E6, E7, La.
  unfold valid6 in Hsum. rewrite La in Hsum. unfold frame6. rewrite La. change (Z.of_nat 32) with 32 in *.
  rewrite (message_delivered nics sizeof_SendBuffer fast_bits c fuel junk interrupt k nic s hw' mac target dst answer 32 hop) by (done || lia).
  unfold icmpv6_demux. rewrite E1, E2. change ((136 =? ICMPv6_Packet.ICMP_TYPE_ECHO_REQUEST) && (0 =? 0)) with false.
  change (136 =? 130) with false. change ((136 =? 134) && (0 =? 0)) with false. change ((136 =? 135) && (0 =? 0)) with false.
  change ((136 =? 136) && (0 =? 0)) with true. cbv iota.
  unfold neighbor_advertisement_receive, for_us. change (32 <? NDPNeighborMessages.sizeof_NeighborSolicitationMessage) with false. cbv iota.
  rewrite E3, Ht. cbn [negb]. change (32 - NDPNeighborMessages.sizeof_NeighborSolicitationMessage) with 8.
  unfold ndp_neighbor_advertisement_demux. rewrite E6, andb_true_r.
  assert (Hdup : (if duplicate_detection c then
      '(_, s) ← is_duplicate_address LE nics sizeof_SendBuffer fast_bits c fuel interrupt (NDPNeighborMessages.get_target_address answer) k s; Some s
    else Some s) = Some s).
  { destruct Hown as [->|Hown]; [done|]. destruct (duplicate_detection c); [|done]. rewrite E3. unfold is_duplicate_address.
    pose proof (first_entry_spec (memory_at k s) AddressEntry.ID (λ b, IPv6.same_ipv6_addr target (Entry.ipv6 b))) as Hf.
    destruct (AddressMemory.first_entry _ _ _) as [j|]; [|done]. exfalso. destruct Hf as (Hj & Hs & _). cbv beta in Hs.
    unfold AddressMemory.id_at in Hj. apply fmap_Some in Hj as (b & Hb & Eb). rewrite (list_lookup_total_correct _ _ _ Hb), same_addr in Hs by done.
    apply bool_decide_eq_true in Hs. by apply (Hown j b). }
  rewrite Hdup. cbn [mbind option_bind].
  apply (entry_updated k s answer target mac); done.
Qed.

(** The addresses of an interface: its entries of the other kinds may change. *)
Definition same_addresses (k : nat) (s s' : Stack W) : Prop :=
  ipv6_up (interface_at k s') = ipv6_up (interface_at k s)
  ∧ forall i b, Entry.id b = AddressEntry.ID -> memory_at k s !! i = Some b <-> memory_at k s' !! i = Some b.
Lemma has_address_same k s s' a : same_addresses k s s' -> Multicast.isMulticast a = false ->
  Multicast.hasIPv6Address (interface_at k s') a = Multicast.hasIPv6Address (interface_at k s) a.
Proof.
  intros [_ H] Ha. unfold Multicast.hasIPv6Address, Interfaces.hasIPv6Address. rewrite Ha.
  f_equal. fold (memory_at k s) (memory_at k s'). by rewrite (first_entry_same _ _ _ H).
Qed.
Lemma by_scope_same k s s' scope : same_addresses k s s' ->
  Interfaces.getInterfaceIPv6AddressByScope (interface_at k s') scope = Interfaces.getInterfaceIPv6AddressByScope (interface_at k s) scope.
Proof.
  intros [_ H]. unfold Interfaces.getInterfaceIPv6AddressByScope. fold (memory_at k s) (memory_at k s').
  pose proof (first_entry_spec (memory_at k s) AddressEntry.ID (λ b, bool_decide (IPv6.getIPv6AddressScope (Entry.ipv6 b) = scope))) as Hf.
  rewrite <- (first_entry_same _ _ _ H). destruct (AddressMemory.first_entry _ _ _) as [j|]; cbn [mbind option_bind]; [|done].
  destruct Hf as (Hj & _). by rewrite (block_same _ _ _ H j Hj).
Qed.
Lemma not_own_same k s s' a : same_addresses k s s' -> not_own k s a -> not_own k s' a.
Proof. intros [_ H] [|Hn]; [by left|]. right. intros j b Hj Hb. apply (Hn j b); [|done]. by apply H. Qed.

(** What is sent depends on the world and on which interfaces are up. *)
Lemma emitted_world dst k frame (s s' : Stack W) : (forall i, ipv6_up (interface_at i s) = ipv6_up (interface_at i s')) -> world s = world s' ->
  world (emitted nics dst k frame s) = world (emitted nics dst k frame s').
Proof.
  intros Hup Hw. unfold emitted. cbn [world]. rewrite Hw. destruct (Multicast.isMulticast dst); [|done].
  generalize (dv_send k frame (world s')). generalize (seq 0 (length nics)).
  intros l. induction l as [|i l IH]; intros w; [done|]. cbn [foldl]. rewrite Hup. apply IH.
Qed.

(** What a new entry's solicitation leaves as. *)
Lemma solicitation_sent k nic s target src :
  speaks k nic s -> available 32 (world s) -> ipv6_up (interface_at k s) = true ->
  Interfaces.getInterfaceIPv6AddressByScope (interface_at k s) IPv6.IPV6_SCOPE_LINKLOCAL = Some src -> is_addr6 src -> is_addr6 target ->
  (exists j, AddressMemory.id_at (memory_at k s) j = Some 0) -> NdpCache.cache (memory_at k s) !! target = None ->
  let dst := IPv6.solicitedNode_multicast_addr target in
  exists s' j v w, is_u16 v ∧ let question := [135; 0] ++ be16 v ++ solicitation_body target (n_address nic) in
  add k target None NDPCacheEntryState_Incomplete s = Some (Some j, s') ∧ valid6 src dst question
  ∧ world s' = world (emitted nics dst k (frame6 (multicast_mac6 dst) (n_address nic) src dst (Sockets6.hoplimit (ipv6 (instance s))) question) (s <| world := w |>))
  ∧ NdpCache.wf (memory_at k s') ∧ NDPCache.ndpcache_find target (memory_at k s') = Some j
  ∧ (exists hw, NdpCache.cache (memory_at k s') = <[target := (hw, NDPEntry.value NDPCacheEntryState_Incomplete)]> (NdpCache.cache (memory_at k s)))
  ∧ same_addresses k s s'.
Proof.
  intros Sp Hav Hup Hsrc Hs Ht Hfree Hnone dst. destruct (solicited_shape target) as [Ld Hmd]. fold dst in Ld, Hmd.
  assert (Hc : call_ok target None) by (split; [apply Ht|apply Ht|done]).
  pose proof (sp_memory k nic s Sp) as Hm.
  pose proof (add_spec LE (expires c) (memory_at k s) target None NDPCacheEntryState_Incomplete Hm Hc) as Hspec.
  pose proof (add_keeps_addresses LE (expires c) (memory_at k s) target None NDPCacheEntryState_Incomplete Hm Hnone (proj1 Ht) Hfree) as Hkeep.
  unfold add, Socket_Send6.addNDPCacheEntry. cbn [add_nested]. unfold add_and_request.
  destruct (NDPCache.addNDPCacheEntry _ _ _ _ _ _) as [[j|] m'].
  2: { destruct Hspec as (_ & _ & Hfull & _). destruct Hfree as [i Hi]. by destruct (Hfull i). }
  destruct Hspec as (Hw & Hf & hw & d & Ed & Hd). rewrite Hnone in Hd. cbn [snd] in Hkeep.
  assert (Hd' : d = NdpCache.cache (memory_at k s)).
  { destruct Hd as [_ [->|(_ & Hfull & _)]]; [done|]. destruct Hfree as [i Hi]. by destruct (Hfull i). }
  subst d. set (s1 := on_memory k (λ _, m') s).
  assert (Hi : interfaces s !! k ≠ None) by (apply (room_interface k s target); by right).
  assert (E1 : memory_at k s1 = m') by (by apply on_memory_at).
  assert (Same1 : same_addresses k s s1).
  { split; [|by rewrite E1]. unfold s1, on_memory, on_interface, interface_at. cbn. rewrite list_lookup_alter_eq. by destruct (interfaces s !! k). }
  pose proof (find_spec m' target (proj1 Ht)) as Hb. rewrite Hf in Hb. destruct Hb as (b & Hb & Nb & Ab).
  assert (Stb : NDPCacheEntry.state b = 0).
  { assert (H : NdpCache.cache m' !! target = Some (NDPEntry.hw b, NDPCacheEntry.state b)) by (apply cache_lookup; [done|]; by exists j, b).
    rewrite Ed, lookup_insert_eq in H. by injection H. }
  assert (Etot : m' !!! j = b) by (by apply list_lookup_total_correct).
  destruct (sp_address k nic s Sp) as [La Ba].
  assert (Sp1 : speaks k nic s1) by (destruct Sp; split; try done; by rewrite E1).
  destruct (answer_sent6 (λ _ _ _ _ _, None) k nic s1 (Some src) dst (multicast_mac6 dst)
    (λ s b, Some (write_message 32 (NDPNeighborMessages.neighbor_solicitation LE (Entry.ipv6 (memory_at k s !!! j)) (n_address nic) 6) b))
    32 [135; 0] (solicitation_body target (n_address nic)) Sp1 Hs) as (v & w & Hv & Hsum & E).
  - split; [done|]. unfold dst, IPv6.solicitedNode_multicast_addr. destruct Ht as [Lt Bt].
    repeat (apply Forall_cons_2; [unfold is_u8; try lia|]); try apply Forall_nil_2; by apply (get8_range _ target Bt).
  - split; [done|]. by rewrite Hmd.
  - done.
  - done.
  - rewrite is_bytes_app. split; [apply (bool_decide_unpack _); by vm_compute|]. unfold solicitation_body. rewrite !is_bytes_app.
    split_and!; try (apply (bool_decide_unpack _); by vm_compute); [apply Ht|done].
  - unfold solicitation_body. destruct Ht as [Lt _]. rewrite !length_app, Lt, La. done.
  - lia.
  - intros w p at_54 Hwrite Hp. destruct (solicitation_written target (n_address nic) p) as (c0 & Hc0 & Ew); [apply Ht|done|lia|].
    exists c0. split; [done|]. rewrite (bh_write _ _ Hwrite). change (memory_at k (set_addresses LE dst k (Some src) s1 <| world := w |>)) with (memory_at k s1).
    by rewrite E1, Etot, Ab, Ew.
  - exists (emitted nics dst k (frame6 (multicast_mac6 dst) (n_address nic) src dst (Sockets6.hoplimit (ipv6 (instance s)))
      ([135; 0] ++ be16 v ++ solicitation_body target (n_address nic))) (set_addresses LE dst k (Some src) s1 <| world := w |>)), j, v, w.
    split; [done|]. cbv zeta. split.
    { unfold address_resolution_request. rewrite (proj1 Same1), Hup. cbn [negb]. rewrite E1, Etot.
      unfold NDPCache.is_NDPCacheEntry_reachable. rewrite Stb. change (0 =? NDPEntry.value NDPCacheEntryState_Reachable) with false.
      change (0 =? NDPEntry.value NDPCacheEntryState_Stale) with false. cbv iota zeta.
      rewrite (by_scope_same k s s1 _ Same1), Hsrc, (sp_nic k nic s Sp). cbn [mbind option_bind]. unfold address_size. rewrite La.
      change (Z.of_nat 6) with 6. change (NDPNeighborMessages.solicitation_size 6) with 32. rewrite Ab. fold dst. by rewrite E. }
    split; [done|]. split; [|split; [by rewrite <- E1 in Hw|split; [by rewrite <- E1 in Hf|split; [exists hw; rewrite <- E1 in Ed; exact Ed|exact Same1]]]].
    apply emitted_world; [|done]. intros i. unfold s1, on_memory, on_interface, interface_at. cbn.
    destruct (decide (i = k)) as [->|Hne]; [|by rewrite list_lookup_alter_ne]. rewrite list_lookup_alter_eq. by destruct (interfaces s !! k).
Qed.

(** ** Answers *)

(** Four bytes more or less, and data copied from the frame. *)
Lemma copied at_54 size o n newdata b : behaves size at_54 -> 0 <= o -> 0 <= n -> o + n = size -> size < 65536 ->
  length b = Z.to_nat size -> n <= Z.of_nat (length newdata) ->
  append fast_bits newdata n (at_54 (54 + o) b) = Some (at_54 (54 + size) (Packet.write (Z.to_nat o) (take (Z.to_nat n) newdata) b)).
Proof.
  intros [_ Hrem Happ] Ho Hn Hon Hsz Hb Hl. unfold append. rewrite (fast16_small fast_bits bits) by lia. rewrite Hrem.
  destruct (Z.ltb_spec (54 + size - (54 + o)) 0); [lia|]. destruct (Z.ltb_spec (Z.of_nat (length newdata)) (Z.min (54 + size - (54 + o)) n)); [lia|].
  cbn [orb]. rewrite Happ by lia. by replace (54 + o + n) with (54 + size) by lia.
Qed.

Lemma tail_written (x y q : bytes) : length q = length y -> Packet.write (length x) y (x ++ q) = x ++ y.
Proof. intros H. pose proof (write_app x q y [] (eq_sym H)) as E. by rewrite !app_nil_r in E. Qed.

(** The answer to an echo request, whatever the source address was before. *)
Lemma echo_reply_sent k nic s packet m src hw data :
  let size := Z.of_nat (4 + length data) in
  speaks k nic s -> IPv6_Packet.get_src_ipaddr packet = src -> ICMPv6_Packet.get_data m = data ->
  is_addr6 (source6 s None) -> is_addr6 src -> reaches k s src hw -> available size (world s) -> is_bytes data -> 54 + size < 65536 ->
  size <= getMaxPayloadLength nics fast_bits Instance_ (set_addresses LE src k None s) ->
  exists v w, is_u16 v ∧ let answer := [129; 0] ++ be16 v ++ data in valid6 (source6 s None) src answer
  ∧ echo_reply LE nics sizeof_SendBuffer fast_bits c fuel interrupt k packet m size s
    = Some (emitted nics src k (frame6 hw (n_address nic) (source6 s None) src (Sockets6.hoplimit (ipv6 (instance s))) answer)
        (set_addresses LE src k None s <| world := w |>)).
Proof.
  intros size Sp Es Em Ho Hs Hr Hav Hd Hsize Hmax. unfold echo_reply. rewrite Es, Em.
  destruct (Z.ltb_spec (getMaxPayloadLength nics fast_bits Instance_ (set_addresses LE src k None s)) size); [lia|].
  destruct (Z.eqb_spec size 0); [lia|]. change ICMPv6_Packet.ICMP_HEADER_SIZE with 4. rewrite u32_id by (unfold is_u32; lia).
  set (fill := λ (_ : Stack W) b, append fast_bits data (size - 4) (write_message 4
    (λ p, ICMPv6_Packet.set_code LE 0 (ICMPv6_Packet.set_type LE ICMPv6_Packet.ICMP_TYPE_ECHO_REPLY p)) b)).
  destruct (answer_sent6 (Socket_Send6.addNDPCacheEntry LE nics sizeof_SendBuffer fast_bits (expires c) fuel interrupt) k nic s None src hw
    fill size [129; 0] data) as (v & w & Hv & Hsum & E); try done.
  - rewrite is_bytes_app. split; [apply (bool_decide_unpack _); by vm_compute|done].
  - intros w b at_54 Hat Hb. unfold fill. rewrite (bh_write _ _ Hat). assert (Lb : length b = (4 + length data)%nat) by lia.
    do 4 (destruct b as [|? b]; [done|]). exists [z1; z2]. split; [done|].
    change (ICMPv6_Packet.set_code LE 0 (ICMPv6_Packet.set_type LE _ (z :: z0 :: z1 :: z2 :: b))) with ([129; 0; z1; z2] ++ b).
    rewrite (copied at_54 size 4 (size - 4)) by (done || lia || (rewrite length_app; cbn in *; lia)).
    do 2 f_equal. rewrite take_ge by lia. change (Z.to_nat 4) with (length [129; 0; z1; z2]). cbn in Lb. rewrite tail_written by lia. done.
  - exists v, w. by split_and!.
Qed.

(** C18: An echo request is answered: the receiver sends one frame to the hardware address it knows for the sender, with an
    echo reply that carries the identifier, the sequence number and the data of the request and has a right checksum. But
    its source is not the address that was asked: it is the source of the stack's last own message. *)
Theorem echo6_answered (k : nat) (nic : Nic) (s : Stack W) (hw hw' mac src dst data : bytes) (hop v : Z) :
  let asked := [128; 0] ++ be16 v ++ data in
  let size := Z.of_nat (length asked) in
  let source := Sockets6.src_ipv6_addr (ipv6 (instance s)) in
  speaks k nic s -> prefetch c = false -> ipv6_up (interface_at k s) = true -> Multicast.hasIPv6Address (interface_at k s) dst = true ->
  is_addr6 src -> is_addr6 dst -> is_addr6 source -> is_bytes data -> length mac = 6%nat -> length hw' = 6%nat ->
  Multicast.isMulticast src = false -> reaches k s src hw -> available size (world s) -> size <= 1464 ->
  size <= getMaxPayloadLength nics fast_bits Instance_ (set_addresses LE src k None s) -> valid6 src dst asked ->
  exists s' w v', is_u16 v' ∧ let answer := [129; 0] ++ be16 v' ++ data in
  demux LE nics sizeof_SendBuffer fast_bits c fuel junk interrupt k (frame6 hw' mac src dst hop asked) s = Some s'
  ∧ world s' = dv_send k (frame6 hw (n_address nic) source src (Sockets6.hoplimit (ipv6 (instance s))) answer) w ∧ valid6 source src answer.
Proof.
  intros asked size source Sp Hp Hup Hacc Hs Hd Ho Hb Lm Lh Ms Hr Hav Hsize Hmax Hsum.
  assert (Esz : size = Z.of_nat (4 + length data)) by done.
  unfold frame6. fold size.
  rewrite (message_delivered nics sizeof_SendBuffer fast_bits c fuel junk interrupt k nic s hw' mac src dst asked size hop (sp_nic _ _ _ Sp)
    (sp_type _ _ _ Sp) Hp Hup Hacc) by (done || lia || apply Hs || apply Hd).
  set (packet := ip6_header src dst size hop ICMPv6_Packet.IPV6_TYPE_ICMP ++ asked).
  unfold icmpv6_demux. change ((ICMPv6_Packet.get_type LE asked =? ICMPv6_Packet.ICMP_TYPE_ECHO_REQUEST) && (ICMPv6_Packet.get_code LE asked =? 0)) with true.
  cbv iota. destruct (echo_reply_sent k nic s packet asked src hw data) as (v' & w & Hv' & Hsum' & E); try done; try lia.
  { apply ip6_addresses; [apply Hs|apply Hd]. }
  eexists _, w, v'. split; [done|]. cbv zeta. split; [rewrite <- Esz in E; exact E|]. split; [|exact Hsum'].
  unfold emitted. rewrite Ms. done.
Qed.

(** A report of an error carries the first 48 bytes of the packet it is about. *)
Theorem error_reported6 (type code : Z) (fourth packet hw : bytes) (k : nat) (nic : Nic) (s : Stack W) :
  let src := IPv6_Packet.get_src_ipaddr packet in
  let dst := IPv6_Packet.get_dst_ipaddr packet in
  speaks k nic s -> is_u8 type -> is_u8 code -> length fourth = 4%nat ∧ is_bytes fourth -> is_bytes packet -> is_addr6 src -> is_addr6 dst ->
  reaches k s src hw -> available 56 (world s) ->
  (48 <= length packet)%nat ->
  exists w v, is_u16 v ∧ let report := [type; code] ++ be16 v ++ fourth ++ take 48 packet in
  valid6 dst src report
  ∧ error_message LE nics sizeof_SendBuffer fast_bits c fuel interrupt type code fourth k packet s
    = Some (emitted nics src k (frame6 hw (n_address nic) dst src (Sockets6.hoplimit (ipv6 (instance s))) report)
        (set_addresses LE src k (Some dst) s <| world := w |>)).
Proof.
  intros src dst Sp Hty Hco [Lf Bf] Hb Hs Hd Hr Hav Hl. unfold error_message. fold src dst. change ICMP_MAX_DATA_SIZE with 56. change (56 - 8) with 48.
  set (fill := λ (_ : Stack W) b, append fast_bits packet 48 (write_message 8 (λ p, Packet.write 4 fourth (Packet.write 0 [type; code] p)) b)).
  assert (Hw : forall b, length b = 56%nat -> exists c0 q, length c0 = 2%nat ∧ length q = 48%nat
    ∧ Packet.write 4 fourth (Packet.write 0 [type; code] b) = ([type; code] ++ c0 ++ fourth) ++ q).
  { intros b Lb. exists (take 2 (drop 2 b)), (drop 8 b). rewrite length_take, !length_drop, Lb. split; [done|]. split; [done|].
    unfold_list Lf. unfold_list Lb. reflexivity. }
  destruct (answer_sent6 (Socket_Send6.addNDPCacheEntry LE nics sizeof_SendBuffer fast_bits (expires c) fuel interrupt) k nic s (Some dst) src hw
    fill 56 [type; code] (fourth ++ take 48 packet)) as (v & w & Hv & Hsum & E); try done.
  - rewrite !is_bytes_app. split_and!; [by repeat apply Forall_cons_2|done|by apply is_bytes_take].
  - rewrite length_app, length_take, Lf. lia.
  - intros w b at_54 Hat Lb. unfold fill. rewrite (bh_write _ _ Hat). destruct (Hw b Lb) as (c0 & q & Lc & Lq & Ew). exists c0. split; [done|].
    assert (L8 : length ([type; code] ++ c0 ++ fourth) = 8%nat) by (rewrite !length_app, Lc, Lf; done).
    rewrite (copied at_54 56 8 48); [|done|lia|lia|lia|lia|by rewrite Ew, length_app, L8, Lq|lia].
    do 2 f_equal. rewrite Ew. change (Z.to_nat 8) with 8%nat. rewrite <- L8 at 1.
    rewrite tail_written by (rewrite length_take; lia). by rewrite <- !app_assoc.
  - exists w, v. by split_and!.
Qed.

(** A host that asks for [target] from its link-local address [src]: the target is on the link, is not one of its own
    addresses, and is not in its cache, which has room. *)
Record solicitor (k : nat) (nic : Nic) (s : Stack W) (src target : bytes) : Prop := {
  so_speaks : speaks k nic s;
  so_memory : available 32 (world s);
  so_up : ipv6_up (interface_at k s) = true;
  so_source : Interfaces.getInterfaceIPv6AddressByScope (interface_at k s) IPv6.IPV6_SCOPE_LINKLOCAL = Some src;
  so_listens : Multicast.hasIPv6Address (interface_at k s) src = true;
  so_on_link : Multicast.hasIPv6Address (interface_at k s) target = true;
  so_not_own : not_own k s target;
  so_room : exists j, AddressMemory.id_at (memory_at k s) j = Some 0;
  so_unknown : NdpCache.cache (memory_at k s) !! target = None }.
(** A host with the address [target]. *)
Record owner (k : nat) (nic : Nic) (s : Stack W) (src target : bytes) : Prop := {
  ow_speaks : speaks k nic s;
  ow_memory : forall w, available 32 w;
  ow_up : ipv6_up (interface_at k s) = true;
  ow_address : exists i b, memory_at k s !! i = Some b ∧ Entry.id b = AddressEntry.ID ∧ Entry.ipv6 b = target;
  ow_room : has_room k s src;
  ow_order : update_first c = true ∨ is_Some (NdpCache.cache (memory_at k s) !! src) }.
End Resolution.

Section TwoHosts.
Import Socket_Send Socket_Send6 NDP NDPCacheEntry.
Context `{Clk : Clock} {W : Type} `{Sys : System6 W} `{Dev : Device W} {L : Layout} {LOk : LayoutOk L}.
Context (nicsA nicsB : list Nic) (sizeof_SendBuffer fast_bits : Z) (cA cB : config) (fuel : nat) (junk : bytes).
Context (interrupt : nat -> bytes -> Stack W -> option (Stack W)).
Hypothesis numberedA : forall k nic, nicsA !! k = Some nic -> n_id nic = k.
Hypothesis numberedB : forall k nic, nicsB !! k = Some nic -> n_id nic = k.
Hypothesis pool : forall n w, let '(a, area, _) := dv_alloc n w in a ≠ 0 -> sizeof_SendBuffer <= n -> Z.of_nat (length area) = n - sizeof_SendBuffer.
Hypothesis bits : 16 <= fast_bits.
Hypothesis plainA : prefetch cA = false.
Hypothesis plainB : prefetch cB = false.

End TwoHosts.

(** ** Router advertisements *)

Section Advertisements.
Import Socket_Send Socket_Send6 NDP.
Context (e : endian) `{Clk : Clock} {W : Type} `{Sys : System6 W} `{Dev : Device W}.
Context (nics : list Nic) {L : Layout} (sizeof_SendBuffer fast_bits : Z) (c : config) (fuel : nat) (junk : bytes).
Context (interrupt : nat -> bytes -> Stack W -> option (Stack W)).

(** The memory from a prefix option of [u] units on that is not for address configuration. *)
Section PrefixLoop.
Context (u : Z) (body rest message : bytes) (k : nat) (pos : Z).
Let o := encode (3, body) ++ rest.
Hypothesis units : 1 <= u <= 4 ∧ Z.of_nat (length body) + 2 = 8 * u.
Hypothesis not_autonomous : NDPRouterMessages.useForStatelessAddressConfiguration e o = false.
Let step := prefix_step e nics sizeof_SendBuffer fast_bits c fuel interrupt k message pos.

(** The search that starts at the option finds it again as long as its bytes are left. *)
Lemma prefix_found_again left : NDPRouterMessages.get_prefix_option o left = Some (if left <? 8 * u then None else Some o).
Proof.
  assert (O1 : o !! 1%nat = Some u) by (unfold o, encode; cbn; f_equal; zlia).
  unfold NDPRouterMessages.get_prefix_option, NDPMessages.option_fuel. cbn [NDPMessages.find_option]. rewrite O1. cbn [mbind option_bind].
  destruct (Z.eqb_spec u 0); [lia|]. cbn [orb]. replace (u * 8) with (8 * u) by lia. by destruct (left <? 8 * u).
Qed.

Lemma prefix_stepped left nextEntry (s : Stack W) :
  step (Some o, left, nextEntry, s) = inl (if u32 (left - 32) <? 8 * u then None else Some o, u32 (left - 32), nextEntry, s).
Proof.
  unfold step, prefix_step, use_prefix. rewrite not_autonomous. cbn [negb]. by rewrite prefix_found_again.
Qed.

Lemma prefix_loop_hangs : forall rounds left nextEntry (s : Stack W), 0 <= left < 2 ^ 32 -> 8 * u <= left mod 32 ->
  loop rounds step (Some o, left, nextEntry, s) = None.
Proof.
  induction rounds as [|rounds IH]; intros left nextEntry s Hleft Hmod; [done|]. cbn [loop]. rewrite prefix_stepped.
  assert (Hnext : 0 <= u32 (left - 32) < 2 ^ 32 ∧ u32 (left - 32) mod 32 = left mod 32 ∧ left mod 32 <= u32 (left - 32)).
  { unfold u32. change (2 ^ 32) with 4294967296 in *. zlia. }
  destruct (Z.ltb_spec (u32 (left - 32)) (8 * u)); [lia|]. apply IH; [apply Hnext|lia].
Qed.

Lemma prefix_loop_ends : forall rounds left nextEntry (s : Stack W), 8 * u <= left < 2 ^ 32 -> left mod 32 < 8 * u ->
  left / 32 + 1 < Z.of_nat rounds -> loop rounds step (Some o, left, nextEntry, s) = Some (Some s).
Proof.
  induction rounds as [|[|rounds] IH]; intros left nextEntry s Hleft Hmod Hr; [zlia..|].
  assert (Hnext : u32 (left - 32) = left - 32 ∧ (left - 32) mod 32 = left mod 32 ∧ (left - 32) / 32 = left / 32 - 1).
  { unfold u32. change (2 ^ 32) with 4294967296 in *. zlia. }
  destruct Hnext as (E1 & E2 & E3). remember (S rounds) as n. cbn [loop]. rewrite prefix_stepped, E1.
  destruct (Z.ltb_spec (left - 32) (8 * u)); [by subst n|]. apply IH; [|by rewrite E2|]; lia.
Qed.
End PrefixLoop.

End Advertisements.

(** ** Two hosts to try it on *)

Section Example.
Import Socket_Send Socket_Send6 NDP NDPCacheEntry.
#[local] Existing Instance net6_system.
#[local] Existing Instance net6_device.
#[local] Existing Instance net6_clock.
#[local] Existing Instance packed.
#[local] Existing Instance packed_ok.

Definition plain_config : config := MkConfig false false false true None false.
(** The handler of the host whose addresses end in [d]. *)
Definition demux_example (d : Z) : nat -> bytes -> Stack Net6 -> option (Stack Net6) :=
  receive LE [nic6_example d] 32 32 plain_config 20 [] 3.

Lemma numbered_example d k nic : [nic6_example d] !! k = Some nic -> n_id nic = k.
Proof. destruct k as [|k]; [by intros [= <-]|done]. Qed.
Lemma pool_example (n : Z) (w : Net6) : let '(a, area, _) := dv_alloc n w in a ≠ 0 -> 32 <= n -> Z.of_nat (length area) = n - 32.
Proof. cbn. intros _ Hn. rewrite repeat_length. lia. Qed.
Lemma mac_example d : is_u8 d -> length (mac6_example d) = 6%nat ∧ is_bytes (mac6_example d).
Proof. intros Hd. split; [done|]. repeat apply Forall_cons_2; try apply Forall_nil_2; unfold is_u8 in *; lia. Qed.
Lemma speaks_example d n : is_u8 d -> (n <= 200)%nat -> speaks [nic6_example d] 0 (nic6_example d) (host6_example d n).
Proof.
  intros Hd Hn. split; try done.
  - by apply mac_example.
  - apply wf6_example; done.
Qed.
Lemma addr_example d : is_u8 d -> is_addr6 (ll_example d).
Proof. intros Hd. split; [done|]. repeat apply Forall_cons_2; try apply Forall_nil_2; unfold is_u8 in *; lia. Qed.

(** Asking for a host: the one that is asked solicits the other as well, and then answers. *)
Example hosts_example :
  (λ r, NDPCache.is_NDPCacheEntry_reachable (memory_at 0 r !!! 2%nat) && bool_decide (NDPEntry.hw (memory_at 0 r !!! 2%nat) = mac6_example 11)) <$>
  ('(_, a) ← add_example 10 0 (ll_example 11) None NDPCacheEntryState_Incomplete (host6_example 10 2);
   '(_, question) ← head (net_sent (world a));
   b ← demux_example 11 0 question (host6_example 11 2);
   '(_, answer) ← last (net_sent (world b));
   demux_example 10 0 answer a) = Some true.
Proof. by vm_compute. Qed.

(** The host knows nobody. *)
Lemma unknown_example d n a : is_u8 d -> (n <= 200)%nat -> length a = 16%nat -> NDPCache.ndpcache_find a (memory_at 0 (host6_example d n)) = None ->
  NdpCache.cache (memory_at 0 (host6_example d n)) !! a = None.
Proof. intros Hd Hn Ha Hf. rewrite <- find_lookup by (done || by apply wf6_example). by rewrite Hf. Qed.

(** A host that knows its neighbor, has sent a message before, and is asked for an echo. *)
Definition known_memory (d n : Z) : list bytes :=
  snd (NDPCache.addNDPCacheEntry LE false (ll_example n) (Some (mac6_example n)) NDPCacheEntryState_Reachable (memory6_example d 2)).
Definition known_example (d n : Z) : Stack Net6 :=
  on_ipv6 Instance_ (Sockets6.set_src_addr (ll_example d)) (on_memory 0 (λ _, known_memory d n) (host6_example d 2)).
Lemma wf_known d n : is_u8 d -> is_u8 n -> NdpCache.wf (known_memory d n).
Proof.
  intros Hd Hn. assert (Hm : NdpCache.wf (memory6_example d 2)) by (apply wf6_example; [done|lia]).
  assert (Hc : call_ok (ll_example n) (Some (mac6_example n))) by (split; [done|apply addr_example, Hn|intros x [= <-]; by apply mac_example]).
  pose proof (add_spec LE false _ _ _ NDPCacheEntryState_Reachable Hm Hc) as H.
  unfold known_memory. destruct (NDPCache.addNDPCacheEntry _ _ _ _ _ _) as [[j|] m]; [apply H|]. destruct H as [-> _]. exact Hm.
Qed.
Definition echo_data : bytes := [0; 1; 0; 2; 3; 4].
Definition ping_example : bytes := frame6 (mac6_example 11) (mac6_example 10) (ll_example 10) (ll_example 11) 64
  ([128; 0] ++ be16 0x7d9d ++ echo_data).

(** Its answer. *)
Example pong_example : (λ s, net_sent (world s)) <$> demux_example 11 0 ping_example (known_example 11 10)
  = Some [(0%nat, frame6 (mac6_example 10) (mac6_example 11) (ll_example 11) (ll_example 10) 255 ([129; 0] ++ be16 0x7c9d ++ echo_data))].
Proof. by vm_compute. Qed.

Lemma echo6_answered_witness : exists s,
  demux LE [nic6_example 11] 32 32 plain_config 20 [] (λ _ _ s, Some s) 0 ping_example (known_example 11 10) = Some s.
Proof.
  destruct (echo6_answered (Dev := net6_device) [nic6_example 11] 32 32 plain_config 20 [] (λ _ _ s, Some s) (numbered_example 11) pool_example
    ltac:(lia) 0 (nic6_example 11) (known_example 11 10) (mac6_example 10) (mac6_example 11) (mac6_example 10) (ll_example 10) (ll_example 11) echo_data
    64 0x7d9d) as (s & w & v & _ & E & _).
  - split; [done|done|apply mac_example; unfold is_u8; lia|done|done|apply wf_known; unfold is_u8; lia].
  - reflexivity.
  - reflexivity.
  - by vm_compute.
  - apply addr_example. unfold is_u8; lia.
  - apply addr_example. unfold is_u8; lia.
  - apply (addr_example 11). unfold is_u8; lia.
  - apply (bool_decide_unpack _). vm_compute. exact I.
  - reflexivity.
  - reflexivity.
  - reflexivity.
  - split; [reflexivity|]. change (Multicast.isMulticast (ll_example 10)) with false. exists 4.
    rewrite <- find_lookup by (reflexivity || (apply wf_known; unfold is_u8; lia)). vm_compute. reflexivity.
  - done.
  - apply (bool_decide_unpack _). vm_compute. exact I.
  - apply (bool_decide_unpack _). vm_compute. exact I.
  - vm_compute. reflexivity.
  - by exists s.
Defined.

(** An advertisement of a router that is known, with its link-layer address and a prefix option of eight bytes; then the
    same with two options of eight bytes more. *)
Definition advertisement_example (opts : list (Z * bytes)) (fuel : nat) : option (Stack Net6) :=
  router_advertisement LE [nic6_example 11] 32 32 plain_config fuel [] (λ _ _ s, Some s) 0 (ip6_header (ll_example 10) (ll_example 11) 32 255 58)
    ([134; 0; 0; 0; 64; 0; 7; 8; 0; 0; 0; 0; 0; 0; 0; 0] ++ concat (map encode opts) ++ [0; 0])
    (16 + Z.of_nat (length (concat (map encode opts)))) (known_example 11 10).

End Example.
