(* ===== verification/DelaySend.v ===== *)
(** * DelaySend: the stack's own messages wait for the end of the packet

    Models [icmpv6/delay_send/DelaySend.ah] and [DelaySendMethod.h/.cpp].  While an ICMPv6
    message is processed, [ICMPv6_Socket::send] only marks the buffer; when the outermost
    message is done, the list of the shared memory ([Management]) is gone through and every
    marked buffer is sent, so that a driver with one buffer for both directions is not asked to
    send while the received packet is still read.  Sending itself is that of [Send6].

    The buffers lie at their addresses in a heap.  What processing a message does is any [script] of
    changes to the stack that send nothing, messages, and messages that arrive meanwhile. *)

From stdpp Require Import functions.
From S2P Require Import Prelude Wire Checksum Mempool TcpHistory SendBuffer Ipv6 NdpCache Ipv4 Arp Management Send4 Send6.

Open Scope Z_scope.

Module DelaySend.
Import Socket_Send Socket_Send6.

Section Delay.
Context (e : endian) `{Clk : Clock} {W : Type} `{Sys : System6 W} `{Dev : Device W} (nics : list Nic).
(** The pool of the shared memory with its number of blocks, and what the interface of a buffer says of it. *)
Context {M : Type} `{Al : !Allocator M} (SLOTS : nat) (hasBeenSent : Buffer -> W -> bool).

Record t := MkDelay { mHoldBack : Z; sharedmemory : SharedMemory.SharedMemory (M := M); heap : Z -> Buffer; stack : Stack W }.
#[global] Instance t_settable : Settable t := λ d, MkDelay (mHoldBack d) (sharedmemory d) (heap d) (stack d).

Definition state_at (d : t) (p : Z) : Z := SendBuffer.getState (sb (heap d p)).

(** [SendBuffer::createInstance] of the stack's sockets: the pointer, and the buffer [b] as it is prepared and filled;
    [size] is that of the object with its data. *)
Definition createInstance (size : Z) (b : Buffer) (d : t) : option (Z * t) :=
  '(p, _, m) ← SharedMemory.createInstance SLOTS (λ a, sb (heap d a)) (λ a, hasBeenSent (heap d a) (world (stack d))) size
    (sharedmemory d);
  let d := d <| sharedmemory := m |> in
  Some (p, if p =? 0 then d else d <| heap := <[p := b]> (heap d) |>).

(** [ICMPv6_Socket::send]: the advice, which goes first, and what it proceeds to. *)
Definition proceed_send (p : Z) (d : t) : option (bool * t) :=
  b ← icmp_checksum_advice e (heap d p);
  let '(r, b, s) := send nics Instance_ b (stack d) in
  Some (r, d <| heap := <[p := b]> (heap d) |> <| stack := s |>).
Definition mark (state p : Z) (d : t) : t := d <| heap := <[p := on_sb (SendBuffer.setState state) (heap d p)]> (heap d) |>.
Definition send (p : Z) (d : t) : option (bool * t) :=
  if negb (mHoldBack d =? 0) then Some (false, mark SendBuffer.AboutToBeTransmittedState p d) else proceed_send p d.

Definition sendDelayed (p : Z) (d : t) : option t :=
  if state_at d p =? SendBuffer.AboutToBeTransmittedState then snd <$> send p (mark SendBuffer.WritingState p d) else Some d.

(** The loop over the list; [None] also when the fuel is used up. *)
Fixpoint send_all (fuel index : nat) (d : t) : option t :=
  match fuel with
  | O => None
  | S fuel =>
      match SharedMemory.getNext SLOTS index (sharedmemory d) with
      | None => Some d
      | Some (index, p) => d ← sendDelayed p d; send_all fuel (S index) d
      end
  end.

(** The advice around [Demux::icmpv6_demux]. *)
Definition icmpv6_demux {A} (fuel : nat) (proceed : t -> option (A * t)) (d : t) : option (A * t) :=
  '(a, d) ← proceed (d <| mHoldBack := u8 (mHoldBack d + 1) |>);
  let d := d <| mHoldBack := u8 (mHoldBack d - 1) |> in
  if 0 <? mHoldBack d then Some (a, d) else d ← send_all fuel 0 d; Some (a, d).

(** ** What processing does *)

(** A buffer that could not be prepared is not in [WritingState], and the handler is given none. *)
Inductive script :=
| Done
| Work (f : Stack W -> Stack W) (k : Stack W -> script)
| Message (size : Z) (b : Stack W -> Buffer) (k : script)
| Packet (inner k : script).

(** The pointers the requests are answered with, and the state. *)
Fixpoint run (l : script) (d : t) : option (list Z * t) :=
  match l with
  | Done => Some ([], d)
  | Work f k => let d := d <| stack := f (stack d) |> in run (k (stack d)) d
  | Message size b k =>
      '(p, d) ← createInstance size (b (stack d)) d;
      d ← (if negb (p =? 0) && (state_at d p =? SendBuffer.WritingState) then snd <$> send p d else Some d);
      '(ps, d) ← run k d; Some (p :: ps, d)
  | Packet inner k =>
      '(ps, d) ← icmpv6_demux (S SLOTS) (run inner) d;
      '(qs, d) ← run k d; Some (ps ++ qs, d)
  end.

(** The specification: what the script does to the stack apart from sending, its messages in order, those that found a
    buffer, and sending some one after the other. *)
Fixpoint quiet (l : script) (s : Stack W) : Stack W :=
  match l with
  | Done => s
  | Work f k => quiet (k (f s)) (f s)
  | Message _ _ k => quiet k s
  | Packet inner k => quiet k (quiet inner s)
  end.
Fixpoint messages (l : script) (s : Stack W) : list Buffer :=
  match l with
  | Done => []
  | Work f k => messages (k (f s)) (f s)
  | Message _ b k => b s :: messages k s
  | Packet inner k => messages inner s ++ messages k (quiet inner s)
  end.
Definition granted (ps : list Z) (bs : list Buffer) : list Buffer :=
  snd <$> filter (λ x, x.1 ≠ 0 ∧ SendBuffer.getState (sb x.2) = SendBuffer.WritingState) (zip ps bs).
Fixpoint icmp_send_each (bs : list Buffer) (s : Stack W) : option (Stack W) :=
  match bs with [] => Some s | b :: bs => s ← icmp_send e nics b s; icmp_send_each bs s end.

(** At most [n] messages within each other, no size below zero, and no handler hands a buffer over that waits already. *)
Fixpoint allowed (n : nat) (l : script) : Prop :=
  match l with
  | Done => True
  | Work _ k => forall s, allowed n (k s)
  | Message size b k => 0 <= size ∧ (forall s, SendBuffer.getState (sb (b s)) ≠ SendBuffer.AboutToBeTransmittedState) ∧ allowed n k
  | Packet inner k => allowed n k ∧ match n with O => False | S n => allowed n inner end
  end.

(** ** Going through the list *)

#[local] Abbreviation AboutToBe := SendBuffer.AboutToBeTransmittedState.

Definition delayed (b : Buffer) : Buffer := on_sb (SendBuffer.setState AboutToBe) b.
Definition writing (b : Buffer) : Buffer := on_sb (SendBuffer.setState SendBuffer.WritingState) b.
(** The buffers of a list that wait, as they are sent. *)
Definition waiting (d : t) (l : list Z) : list Buffer := writing ∘ heap d <$> filter (λ p, state_at d p = AboutToBe) l.

Lemma writing_delayed b : SendBuffer.getState (sb b) = SendBuffer.WritingState -> writing (delayed b) = b.
Proof. destruct b as [[] ? ? ? ?]. cbn. by intros ->. Qed.

Lemma waiting_cons d p l :
  waiting d (p :: l) = if bool_decide (state_at d p = AboutToBe) then writing (heap d p) :: waiting d l else waiting d l.
Proof. unfold waiting. rewrite filter_cons. by repeat case_decide; case_bool_decide. Qed.

Lemma waiting_none d l : (forall p, p ∈ l -> state_at d p ≠ AboutToBe) -> waiting d l = [].
Proof.
  induction l as [|p l IH]; intros H; [done|]. rewrite waiting_cons, bool_decide_eq_false_2; [|apply H; by left].
  apply IH. intros q Hq. apply H. by right.
Qed.

Lemma waiting_ext d d' l : (forall p, p ∈ l -> heap d' p = heap d p) -> waiting d' l = waiting d l.
Proof.
  induction l as [|p l IH]; intros H; [done|]. rewrite !waiting_cons, IH by set_solver. unfold state_at. by rewrite H by left.
Qed.

Lemma checksum_state b b' : icmp_checksum_advice e b = Some b' -> SendBuffer.getState (sb b') = SendBuffer.getState (sb b).
Proof.
  unfold icmp_checksum_advice, checksum_advice. destruct (InternetChecksum.calc_checksum _ _ _ _); cbn [mbind option_bind]; [|done].
  by intros [= <-].
Qed.

(** A buffer ready to be sent is sent as the stack's socket sends it, and is sent then. *)
Lemma proceed_send_spec p d : state_at d p = SendBuffer.WritingState ->
  match proceed_send p d with
  | Some (_, d') => icmp_send e nics (heap d p) (stack d) = Some (stack d') ∧ mHoldBack d' = mHoldBack d
      ∧ sharedmemory d' = sharedmemory d ∧ state_at d' p = SendBuffer.TransmittedState ∧ forall q, q ≠ p -> heap d' q = heap d q
  | None => icmp_send e nics (heap d p) (stack d) = None
  end.
Proof.
  unfold state_at, proceed_send, icmp_send. intros Hw. destruct (icmp_checksum_advice e (heap d p)) as [b|] eqn:Eb; cbn [mbind option_bind]; [|done].
  unfold Socket_Send6.send. rewrite (checksum_state _ _ Eb), Hw. cbn. split; [done|]. do 2 (split; [done|]). split; [|].
  - by rewrite fn_lookup_insert.
  - intros q Hq. by rewrite fn_lookup_insert_ne.
Qed.

Lemma getNext_from_spec l : forall n i, (i + n = length l)%nat ->
  match SharedMemory.getNext_from n i l with
  | None => filter (λ p, p ≠ 0) (drop i l) = []
  | Some (j, p) => (i <= j < length l)%nat ∧ filter (λ p, p ≠ 0) (drop i l) = p :: filter (λ p, p ≠ 0) (drop (S j) l)
  end.
Proof.
  induction n as [|n IH]; intros i Hi; cbn [SharedMemory.getNext_from]; [by rewrite drop_ge by lia|].
  destruct (lookup_lt_is_Some_2 l i) as [x E]; [lia|]. rewrite (nth_lookup_Some _ _ _ _ E), (drop_S _ _ _ E).
  destruct (Z.eqb_spec x 0) as [->|Hx].
  - rewrite filter_cons_False by lia. specialize (IH (S i) ltac:(lia)). destruct (SharedMemory.getNext_from _ _ _) as [[j p]|]; [|done].
    split; [lia|apply IH].
  - rewrite filter_cons_True by done. split; [lia|done].
Qed.

(** What the loop leaves. *)
Record flushed (l : list Z) (d d' : t) : Prop := {
  fl_hold : mHoldBack d' = mHoldBack d;
  fl_list : sharedmemory d' = sharedmemory d;
  fl_none : forall p, p ∈ l -> state_at d' p ≠ AboutToBe;
  fl_rest : forall p, p ∉ l ∨ state_at d p ≠ AboutToBe -> heap d' p = heap d p }.

(** One entry after the other, by a list of pointers. *)
Fixpoint send_each (l : list Z) (d : t) : option t :=
  match l with [] => Some d | p :: l => d ← sendDelayed p d; send_each l d end.

Lemma send_each_spec : forall l d, NoDup l -> mHoldBack d = 0 ->
  match send_each l d with
  | Some d' => icmp_send_each (waiting d l) (stack d) = Some (stack d') ∧ flushed l d d'
  | None => icmp_send_each (waiting d l) (stack d) = None
  end.
Proof.
  induction l as [|p l IH]; intros d Hl H0; cbn [send_each]; [split; [done|]; split; [done..|set_solver|done]|].
  apply NoDup_cons in Hl as [Hp Hl]. rewrite waiting_cons. unfold sendDelayed.
  destruct (Z.eqb_spec (state_at d p) AboutToBe) as [Es|Es].
  - rewrite bool_decide_eq_true_2 by done. unfold send. change (mHoldBack (mark _ p d)) with (mHoldBack d). rewrite H0.
    change (negb (0 =? 0)) with false. cbv iota. set (d0 := mark SendBuffer.WritingState p d).
    assert (E0 : heap d0 p = writing (heap d p)) by (unfold d0, mark; simpl_set; by rewrite fn_lookup_insert).
    pose proof (proceed_send_spec p d0 ltac:(unfold state_at; by rewrite E0)) as Hp1. rewrite E0 in Hp1.
    cbn [icmp_send_each]. change (stack d0) with (stack d) in Hp1.
    destruct (proceed_send p d0) as [[r d1]|]; cbn [fmap option_fmap option_map snd mbind option_bind]; [|by rewrite Hp1].
    destruct Hp1 as (-> & Hh & Hm & Ht & Hq). cbn [mbind option_bind].
    assert (Hq' : forall q, q ≠ p -> heap d1 q = heap d q).
    { intros q Hqp. rewrite Hq by done. unfold d0, mark. simpl_set. by rewrite fn_lookup_insert_ne. }
    specialize (IH d1 Hl ltac:(rewrite Hh; exact H0)).
    assert (El : waiting d1 l = waiting d l) by (apply waiting_ext; intros q Hql; apply Hq'; by intros ->).
    rewrite El in IH. destruct (send_each l d1) as [d'|]; [|exact IH]. destruct IH as [? [F1 F2 F3 F4]]. split; [done|]. split.
    + by rewrite F1, Hh.
    + by rewrite F2, Hm.
    + intros q [->|Hql]%elem_of_cons; [|by apply F3]. unfold state_at in *. rewrite F4 by (by left). by rewrite Ht.
    + intros q Hqs. assert (q ≠ p) by (intros ->; destruct Hqs as [Hqs|Hqs]; [by apply Hqs; left|done]).
      rewrite F4, Hq'; [done|done|]. destruct Hqs as [Hqs|Hqs]; [left; set_solver|right]. unfold state_at in *. by rewrite Hq'.
  - rewrite bool_decide_eq_false_2 by done. cbn [mbind option_bind]. specialize (IH d Hl H0).
    destruct (send_each l d) as [d'|]; [|exact IH]. destruct IH as [? [F1 F2 F3 F4]]. split; [done|]. split; [done..| |].
    + intros q [->|Hql]%elem_of_cons; [|by apply F3]. unfold state_at in *. by rewrite F4 by (by right).
    + intros q [Hn|Hn]; apply F4; [left; set_solver|by right].
Qed.

Lemma sendDelayed_list p d d' : sendDelayed p d = Some d' -> sharedmemory d' = sharedmemory d.
Proof.
  unfold sendDelayed. destruct (_ =? _); [|by intros [= <-]]. intros ([r d1] & E & ->)%fmap_Some. revert E. unfold send.
  destruct (negb _); [by intros [= _ <-]|]. unfold proceed_send. destruct (icmp_checksum_advice _ _) as [b|]; [|done].
  cbn [mbind option_bind]. destruct (Socket_Send6.send _ _ _ _) as [[? ?] ?]. by intros [= _ <-].
Qed.

(** The loop visits every entry once and ends. *)
Lemma send_all_each : forall fuel i d, length (SharedMemory.allocatedMemories (sharedmemory d)) = SLOTS ->
  (i <= SLOTS)%nat -> (SLOTS - i < fuel)%nat ->
  send_all fuel i d = send_each (filter (λ p, p ≠ 0) (drop i (SharedMemory.allocatedMemories (sharedmemory d)))) d.
Proof.
  induction fuel as [|fuel IH]; intros i d Hl Hi Hf; [lia|]. cbn [send_all]. unfold SharedMemory.getNext.
  pose proof (getNext_from_spec (SharedMemory.allocatedMemories (sharedmemory d)) (SLOTS - i) i ltac:(lia)) as H.
  destruct (SharedMemory.getNext_from _ _ _) as [[j p]|]; [|by rewrite H]. destruct H as [Hj ->]. cbn [send_each].
  destruct (sendDelayed p d) as [d1|] eqn:E; [|done]. cbn [mbind option_bind]. pose proof (sendDelayed_list _ _ _ E) as Em.
  rewrite IH; rewrite ?Em; [done|done|lia|lia].
Qed.

(** ** Processing *)

(** Every buffer of the pool is in the list. *)
Abbreviation ok d := (SharedMemory.inv SLOTS (sharedmemory d)).
Abbreviation tracked d := (SharedMemory.tracked (sharedmemory d)).

Lemma tracked_NoDup d : ok d -> NoDup (tracked d).
Proof. intros H. eapply al_bounded, H. Qed.

Lemma waiting_perm d l l' : l ≡ₚ l' -> waiting d l ≡ₚ waiting d l'.
Proof. unfold waiting. intros H. by rewrite H. Qed.

Lemma waiting_filter d l (P : Z -> Prop) `{HP : !forall x, Decision (P x)} : (forall p, p ∈ l -> state_at d p = AboutToBe -> P p) ->
  waiting d (filter P l) = waiting d l.
Proof.
  intros H. unfold waiting. f_equal. induction l as [|p l IH]; [done|]. rewrite !filter_cons.
  specialize (IH ltac:(intros q Hq; apply H; by right)). destruct (decide (P p)) as [|Hp]; rewrite ?filter_cons; case_decide.
  - by f_equal.
  - done.
  - destruct Hp. apply H; [by left|done].
  - done.
Qed.

(** A request forgets no buffer that waits, whatever it is answered with. *)
Lemma createInstance_waiting size b d : ok d -> (al_capacity <= SLOTS)%nat -> 0 <= size ->
  exists p d', createInstance size b d = Some (p, d') ∧ ok d' ∧ mHoldBack d' = mHoldBack d ∧ stack d' = stack d
    ∧ exists l, waiting d' l ≡ₚ waiting d (tracked d) ∧ tracked d' ≡ₚ (if p =? 0 then l else p :: l)
        ∧ (p ≠ 0 -> heap d' p = b ∧ p ∉ l).
Proof.
  intros Hd Hcap Hsize. set (at_ := λ a, sb (heap d a)). set (sent := λ a, hasBeenSent (heap d a) (world (stack d))).
  destruct (SharedMemory.createInstance_tracks SLOTS at_ sent size (sharedmemory d) Hd Hcap Hsize)
    as (p & s1 & s' & _ & I1 & Hx & E & I' & _ & Ht).
  unfold createInstance. fold at_ sent. rewrite E. cbn [mbind option_bind]. eexists p, _. split; [reflexivity|].
  assert (Hw : waiting d (SharedMemory.tracked s1) ≡ₚ waiting d (tracked d)).
  { rewrite <- (waiting_filter d (tracked d) (λ x, SharedMemory.unused at_ sent x = false)).
    - apply waiting_perm, NoDup_Permutation.
      + eapply al_bounded, (SharedMemory.inv_held _ _ I1).
      + apply NoDup_filter, (tracked_NoDup d Hd).
      + intros x. rewrite Hx, list_elem_of_filter. tauto.
    - intros x _ Hs. unfold SharedMemory.unused, at_. unfold state_at in Hs. by rewrite Hs. }
  destruct (Z.eqb_spec p 0) as [->|Hp].
  - do 3 (split; [done|]). exists (SharedMemory.tracked s1). by split; [|split].
  - do 3 (split; [done|]). exists (SharedMemory.tracked s1).
    assert (Hn : p ∉ SharedMemory.tracked s1).
    { pose proof (al_bounded _ _ (SharedMemory.inv_held _ _ I')) as [_ Hnd]. rewrite Ht in Hnd. by apply NoDup_cons in Hnd as [? _]. }
    split; [|split; [done|]].
    + rewrite <- Hw. erewrite (waiting_ext d); [done|]. intros q Hq. simpl_set. rewrite fn_lookup_insert_ne; [done|]. by intros ->.
    + intros _. simpl_set. by rewrite fn_lookup_insert.
Qed.

Lemma granted_app ps qs bs cs : length ps = length bs -> granted (ps ++ qs) (bs ++ cs) = granted ps bs ++ granted qs cs.
Proof. intros H. unfold granted. by rewrite zip_with_app, filter_app, fmap_app. Qed.

Lemma granted_cons p ps b bs : granted (p :: ps) (b :: bs)
  = (if negb (p =? 0) && (SendBuffer.getState (sb b) =? SendBuffer.WritingState) then [b] else []) ++ granted ps bs.
Proof.
  unfold granted. cbn [zip zip_with]. rewrite filter_cons. cbn [fst snd].
  destruct (Z.eqb_spec p 0), (Z.eqb_spec (SendBuffer.getState (sb b)) SendBuffer.WritingState), (decide _); cbn; tauto || done.
Qed.

(** A message handed over while a message is processed waits with the others. *)
Lemma message_waits size b d : ok d -> (al_capacity <= SLOTS)%nat -> 0 <= size -> mHoldBack d ≠ 0 ->
  exists p d1 d2, createInstance size b d = Some (p, d1)
  ∧ (if negb (p =? 0) && (state_at d1 p =? SendBuffer.WritingState) then snd <$> send p d1 else Some d1) = Some d2
  ∧ ok d2 ∧ mHoldBack d2 = mHoldBack d ∧ stack d2 = stack d
  ∧ (SendBuffer.getState (sb b) ≠ AboutToBe -> waiting d2 (tracked d2) ≡ₚ
      waiting d (tracked d) ++ (if negb (p =? 0) && (SendBuffer.getState (sb b) =? SendBuffer.WritingState) then [b] else [])).
Proof.
  intros Hd Hcap Hsize Hh. destruct (createInstance_waiting size b d Hd Hcap Hsize) as (p & d1 & E & I1 & Eh & Es & l & Hw & Ht & Hp).
  exists p, d1. destruct (Z.eqb_spec p 0) as [Hp0|Hp0]; cbn [negb andb].
  { exists d1. do 5 (split; [done|]). intros _. by rewrite (waiting_perm _ _ _ Ht), Hw, app_nil_r. }
  destruct (Hp Hp0) as [Eb Hn]. assert (Est : state_at d1 p = SendBuffer.getState (sb b)) by (unfold state_at; by rewrite Eb). rewrite Est.
  destruct (Z.eqb_spec (SendBuffer.getState (sb b)) SendBuffer.WritingState) as [Hb|Hb].
  - unfold send. rewrite Eh, (proj2 (Z.eqb_neq _ _) Hh). cbn [negb fmap option_fmap option_map snd]. eexists. split; [done|]. split; [reflexivity|].
    do 3 (split; [done|]). intros _. change (tracked (mark ?s ?q d1)) with (tracked d1). rewrite (waiting_perm _ _ _ Ht), waiting_cons.
    assert (Ep : heap (mark AboutToBe p d1) p = delayed b) by (unfold mark; simpl_set; by rewrite fn_lookup_insert, Eb).
    unfold state_at. rewrite Ep. rewrite bool_decide_eq_true_2 by done. rewrite (writing_delayed b Hb).
    rewrite (waiting_ext d1), Hw, Permutation_app_comm; [done|]. intros q Hq. unfold mark. simpl_set. apply fn_lookup_insert_ne. by intros ->.
  - exists d1. do 5 (split; [done|]). intros Hnb. rewrite (waiting_perm _ _ _ Ht), waiting_cons, Est.
    by rewrite bool_decide_eq_false_2, Hw, app_nil_r.
Qed.

(** What comes after the processing of a message: nothing within another one, else the loop. *)
Lemma icmpv6_demux_after {A} fuel (f : t -> option (A * t)) d a d1 : is_u8 (mHoldBack d1 - 1) ->
  f (d <| mHoldBack := u8 (mHoldBack d + 1) |>) = Some (a, d1) ->
  icmpv6_demux fuel f d = let d2 := d1 <| mHoldBack := mHoldBack d1 - 1 |> in
    if 1 <? mHoldBack d1 then Some (a, d2) else d' ← send_all fuel 0 d2; Some (a, d').
Proof.
  intros Hu E. unfold icmpv6_demux. rewrite E. cbn [mbind option_bind]. rewrite (u8_id (mHoldBack d1 - 1) Hu).
  change (mHoldBack (d1 <| mHoldBack := ?h |>)) with h. cbv zeta.
  by replace (0 <? mHoldBack d1 - 1) with (1 <? mHoldBack d1) by (apply eq_true_iff_eq; rewrite !Z.ltb_lt; lia).
Qed.

(** While a message is processed nothing is sent: the stack changes by the work alone, and all messages wait. *)
Lemma run_waits (Hcap : (al_capacity <= SLOTS)%nat) : forall l n d, ok d -> allowed n l ->
  1 <= mHoldBack d -> mHoldBack d + Z.of_nat n < 256 ->
  exists ps d', run l d = Some (ps, d') ∧ ok d' ∧ mHoldBack d' = mHoldBack d ∧ stack d' = quiet l (stack d)
  ∧ length ps = length (messages l (stack d))
  ∧ waiting d' (tracked d') ≡ₚ waiting d (tracked d) ++ granted ps (messages l (stack d)).
Proof.
  induction l as [|f k IH|size b k IH|inner IHi k IHk]; intros n d Hd Hs H1 H2; cbn [run quiet messages].
  - exists [], d. do 5 (split; [done|]). by rewrite app_nil_r.
  - set (d1 := d <| stack := f (stack d) |>).
    destruct (IH (f (stack d)) n d1 Hd (Hs _) H1 H2) as (ps & d' & E & I & Eh & Es & El & Hw). exists ps, d'.
    split; [exact E|]. split; [exact I|]. split; [exact Eh|]. split; [exact Es|]. split; [exact El|exact Hw].
  - destruct Hs as (Hsize & Hb & Hs).
    destruct (message_waits size (b (stack d)) d Hd Hcap Hsize ltac:(lia)) as (p & d1 & d2 & E1 & E2 & I2 & Eh & Es & Hw).
    rewrite E1. cbn [mbind option_bind]. rewrite E2. cbn [mbind option_bind].
    destruct (IH n d2 I2 Hs) as (ps & d' & E & I' & Eh' & Es' & El & Hw'); [lia|lia|]. rewrite E. cbn [mbind option_bind].
    rewrite Es in *. eexists _, d'. split; [reflexivity|]. split; [done|]. split; [lia|]. split; [done|]. split; [cbn; lia|].
    rewrite Hw', (Hw (Hb _)), granted_cons. by rewrite app_assoc.
  - destruct Hs as [Hk Hi]. destruct n as [|n]; [done|].
    set (d0 := d <| mHoldBack := u8 (mHoldBack d + 1) |>).
    assert (E0 : mHoldBack d0 = mHoldBack d + 1) by (unfold d0; simpl_set; apply u8_id; unfold is_u8; lia).
    destruct (IHi n d0) as (ps & d1 & E1 & I1 & Eh1 & Es1 & El1 & Hw1); [done..|lia|lia|].
    rewrite (icmpv6_demux_after _ _ _ ps d1) by (exact E1 || unfold is_u8; lia). rewrite Eh1, E0.
    rewrite (proj2 (Z.ltb_lt 1 (mHoldBack d + 1))) by lia. replace (mHoldBack d + 1 - 1) with (mHoldBack d) by lia.
    cbn [mbind option_bind].
    set (d2 := d1 <| mHoldBack := mHoldBack d |>).
    destruct (IHk (S n) d2) as (qs & d' & E & I' & Eh' & Es' & El' & Hw'); [done..|].
    rewrite E. cbn [mbind option_bind]. change (stack d0) with (stack d) in *. change (stack d2) with (stack d1) in *. rewrite Es1 in *.
    eexists _, d'. split; [reflexivity|]. split; [done|]. split; [done|]. split; [done|]. split; [rewrite !length_app; lia|].
    rewrite Hw'. change (waiting d2 (tracked d2)) with (waiting d1 (tracked d1)). rewrite Hw1, granted_app by done.
    change (waiting d0 (tracked d0)) with (waiting d (tracked d)). by rewrite app_assoc.
Qed.

(** C29: Whatever processing an ICMPv6 message does, other messages within it included, nothing is
    sent meanwhile and the counter returns to zero; when it is done, every message that found a
    buffer is sent once, in the order of the list of buffers, by the stack as the processing left it; the loop ends, and no
    buffer waits any more. *)
Theorem messages_sent_at_end (l : script) (n : nat) (d : t) :
  ok d -> (al_capacity <= SLOTS)%nat -> allowed n l -> (n < 255)%nat ->
  mHoldBack d = 0 -> waiting d (tracked d) = [] ->
  exists ps d1 bs, run l (d <| mHoldBack := 1 |>) = Some (ps, d1) ∧ stack d1 = quiet l (stack d)
  ∧ length ps = length (messages l (stack d)) ∧ bs ≡ₚ granted ps (messages l (stack d)) ∧ bs = waiting d1 (tracked d1)
  ∧ match icmpv6_demux (S SLOTS) (run l) d with
    | Some (qs, d') => qs = ps ∧ icmp_send_each bs (quiet l (stack d)) = Some (stack d') ∧ mHoldBack d' = 0 ∧ ok d'
        ∧ waiting d' (tracked d') = []
    | None => icmp_send_each bs (quiet l (stack d)) = None
    end.
Proof.
  intros Hd Hcap Hs Hn H0 Hw. set (d0 := d <| mHoldBack := 1 |>).
  destruct (run_waits Hcap l n d0) as (ps & d1 & E & I1 & Eh & Es & El & Hw1); [done..|cbn; lia|].
  exists ps, d1, (waiting d1 (tracked d1)). change (stack d0) with (stack d) in *. do 3 (split; [done|]).
  split; [rewrite Hw1; change (waiting d0 (tracked d0)) with (waiting d (tracked d)); by rewrite Hw|]. split; [done|].
  rewrite (icmpv6_demux_after _ _ _ ps d1); [|by rewrite Eh|by rewrite H0]. rewrite Eh. change (mHoldBack d0) with 1. cbn [Z.ltb Z.compare].
  change (1 - 1) with 0. set (d2 := d1 <| mHoldBack := 0 |>).
  rewrite (send_all_each (S SLOTS) 0 d2); [|apply (SharedMemory.inv_slots _ _ I1)|lia|lia].
  pose proof (send_each_spec (tracked d2) d2 (tracked_NoDup d2 I1) eq_refl) as H. rewrite <- Es. change (tracked d2) with (tracked d1) in H.
  change (waiting d2 (tracked d1)) with (waiting d1 (tracked d1)) in H. change (stack d2) with (stack d1) in H.
  rewrite drop_0. change (filter _ (SharedMemory.allocatedMemories (sharedmemory d2))) with (tracked d1).
  destruct (send_each (tracked d1) d2) as [d'|]; [|exact H]. cbn [mbind option_bind]. destruct H as [Hsent [F1 F2 F3 _]].
  split; [done|]. split; [done|]. split; [done|]. rewrite F2. split; [exact I1|].
  change (tracked d2) with (tracked d1). apply waiting_none. exact F3.
Qed.
End Delay.
End DelaySend.

(** ** Two messages, one of them for a packet that arrives meanwhile *)

Section Example.
#[local] Existing Instance net6_system.
#[local] Existing Instance net6_device.
#[local] Existing Instance default_allocator.

Definition frame_example (x : Z) : Buffer :=
  MkBuffer (SendBuffer.mk 0 58 SendBuffer.WritingState
    (eth6_header (mac6_example 11) (mac6_example 10) ++ ip6_header (ll_example 10) (ll_example 11) 4 255 58 ++ [x; 0; 0; 0]) 58 54)
    (nic6_example 10) 0 14 20.
Definition script_example : DelaySend.script (W := Net6) :=
  DelaySend.Message 58 (λ _, frame_example 128) (DelaySend.Packet (DelaySend.Message 58 (λ _, frame_example 129) DelaySend.Done) DelaySend.Done).
Definition delay_example : DelaySend.t (W := Net6) (M := BasicMempool.t) :=
  DelaySend.MkDelay 0 (SharedMemory.init 8 default_pool) (λ _, frame_example 0) (host6_example 10 2).
#[local] Abbreviation run_example := (DelaySend.run LE [nic6_example 10] 8 (λ _ _, true)).

(** What the interface was given: nothing during the processing, and then both messages. *)
Example delay_sends : (λ r, net_sent (world (DelaySend.stack (snd r)))) <$>
    run_example script_example (delay_example <| DelaySend.mHoldBack := 1 |>) = Some []
  ∧ (λ r, length (net_sent (world (DelaySend.stack (snd r))))) <$>
    run_example (DelaySend.Packet script_example DelaySend.Done) delay_example = Some 2%nat.
Proof. by vm_compute. Qed.

Lemma messages_sent_at_end_witness : exists ps d1 bs,
  run_example script_example (delay_example <| DelaySend.mHoldBack := 1 |>) = Some (ps, d1)
  ∧ DelaySend.stack d1 = DelaySend.stack delay_example ∧ bs ≡ₚ DelaySend.granted ps [frame_example 128; frame_example 129].
Proof.
  destruct (DelaySend.messages_sent_at_end LE [nic6_example 10] 8 (λ _ _, true) script_example 1 delay_example)
    as (ps & d1 & bs & H1 & H2 & _ & H3 & _).
  - exact default_shared_inv.
  - vm_compute; lia.
  - split; [lia|]. split; [intros _; by vm_compute|]. split; [done|]. split; [lia|]. by split; [intros _; vm_compute|].
  - lia.
  - done.
  - by vm_compute.
  - by exists ps, d1, bs.
Defined.
End Example.
