(* ===== verification/Transport6.v ===== *)
(** * Transport6: UDP and TCP over IPv6

    Models the advice that gives the payload of an IPv6 packet to the sockets
    ([ipv6/udp/IPv6_UDP_Rx_Checksumming.ah], [ipv6/udp/Receive_UDP_IPv6.ah],
    [ipv6/tcp/IPv6_TCP_Receive.ah], [ipv6/tcp/IPv6_TCP_Listen.ah]) within the walk over the
    headers of a packet, the reset of an unknown segment ([ipv6/tcp/IPv6_TCP_Reset.ah],
    [ipv6/tcp/IPv6_TCP_Tx_Checksumming.ah]), and how a UDP socket sends
    ([ipv6/udp/IPv6_UDP_Tx_Checksumming.ah]) over the sending side of [Send6].  Queues and
    lists are those of [Udp] and [TcpDemux], the header of a datagram that of [Transport4].  The aspects of TCP declare their order for
    another function than the one they advise and so leave it to the weaver: it is a parameter of
    the receiving side, [intended] says which ones they mean, and examples show what the others do.  An outer [None] is fuel that was used up, an inner one a null pointer or memory
    outside of the packet. *)

From stdpp Require Import gmap.
From S2P Require Import Prelude Wire Checksum Ringbuffer Packet TcpSegment LinkedList TcpHistory SendBuffer Addresses Ipv4 Headers Ipv6.
From S2P Require Import NdpCache MulticastGroups Demux Udp Arp Send4 Transport4 TcpDemux Send6 Icmp6.

Open Scope Z_scope.

#[local] Abbreviation IP_TYPE_TCP := TCP_Segment.IP_TYPE_TCP.
#[local] Abbreviation IP_TYPE_UDP := UDP_Packet.IP_TYPE_UDP.

(** ** The IPv6 side of a TCP socket *)

Definition peer6 (e : endian) (l : list Interface6) : Peer Sockets6.IPV6 bytes := {|
  remote := Sockets6.dst_ipv6_addr; local := Sockets6.src_ipv6_addr; same := IPv6.same_ipv6_addr;
  set_remote a := Sockets6.set_dst_addr e l a None |}.
Lemma peer6_ok (e : endian) (l : list Interface6) : @PeerOk _ _ (peer6 e l) (λ a, length a = 16%nat).
Proof.
  intros a s Ha. cbn. unfold Sockets6.set_dst_addr, Sockets6.resolveRoute.
  assert (E : IPv6.copy_ipv6_addr a = a) by (unfold IPv6.copy_ipv6_addr; apply take_ge; lia). rewrite E.
  cbv zeta. repeat case_match; done.
Qed.

(** ** Receiving *)

(** The sockets of a host, and what became of the payloads so far. *)
Inductive event := Segment (f : tcp_fate) | Datagram (f : fate).
Record Transport := MkTransport { tcp : TcpDemux Sockets6.IPV6; udp : Receiver; events : list event }.
#[export] Instance Transport_settable : Settable Transport := λ t, MkTransport (tcp t) (udp t) (events t).
Definition happened (x : event) (t : Transport) : Transport := t <| events := events t ++ [x] |>.

(** The aspects for TCP; the order in which they mean to be woven, with or without the reset. *)
Inductive advice := Receive | Listen | Reset.
#[export] Instance advice_eq_dec : EqDecision advice.
Proof. solve_decision. Defined.
Definition intended (order : list advice) : Prop := order = [Receive; Listen] ∨ order = [Receive; Listen; Reset].

(** What [ipv6_payload_demux] with some of its advice answers: whether the packet is done with. *)
Definition answer : Type := option (option (bool * Transport)).

Section Receive.
Context (e : endian) (l : list Interface6) (udpBUFFERSIZE tcpBUFFERSIZE : Z) (fuel : nat).
(** The pools of the sockets. *)
Context (udp_pool tcp_pool : nat -> Z -> option (Z * bytes)).
Context (packet : bytes).

Definition pseudo_header (payload_length type : Z) : Z :=
  computePseudoHeaderV6 (IPv6_Packet.get_src_ipaddr packet) (IPv6_Packet.get_dst_ipaddr packet) (u16 payload_length) type.

(** [IPv6_UDP_Rx_Checksumming]: a datagram with a checksum is dropped when it is wrong. *)
Definition IPv6_UDP_Rx_Checksumming (proceed : Transport -> answer) (rest : IPv6_Receive.Rest) (t : Transport) : answer :=
  if negb (IPv6_Receive.nextHeader rest =? IP_TYPE_UDP) then proceed t
  else
    let datagram := IPv6_Receive.payload rest in
    let payload_length := IPv6_Receive.payload_length rest in
    if negb (UDP_Packet.get_checksum e datagram =? 0) then
      match UDP_Packet.checksum_valid e (pseudo_header payload_length IP_TYPE_UDP) datagram (u16 payload_length) with
      | None => Some None
      | Some false => Some (Some (true, t))
      | Some true => proceed t
      end
    else proceed t.

(** A datagram for socket [k]: the buffer is made and queued, a null pointer as well. *)
Definition deliver (k : nat) (udp_packet : bytes) (r : Receiver) : option (fate * Receiver) :=
  let size := u16 (UDP_Packet.get_length e udp_packet - UDP_Packet.UDP_HEADER_SIZE) in
  b ← ReceiveBufferUDPIPv6.createReceiveBufferUDPIPv6 e (λ n, snd <$> udp_pool k n) (UDP_Packet.get_data udp_packet)
        size (UDP_Packet.get_sport e udp_packet) (IPv6_Packet.get_src_ipaddr packet);
  let pointer := from_option fst 0 (udp_pool k (u16 (size + ReceiveBufferUDPIPv6.sizeof_RemoteInfo))) in
  let r := match b with Some b => r <| buffers := <[pointer := b]> (buffers r) |> | None => r end in
  let reports := match b with Some _ => [] | None => [error_receiving_memory_too_small] end in
  '(queued, r) ← UDP_Receive.addToReceiveQueue udpBUFFERSIZE pointer k r;
  Some (Received (reports ++ if queued : bool then [] else [error_receiving_queue_full]), r).

(** [IPv6_UDP_Receive]. *)
Definition IPv6_UDP_Receive (proceed : Transport -> answer) (rest : IPv6_Receive.Rest) (t : Transport) : answer :=
  if negb (IPv6_Receive.nextHeader rest =? IP_TYPE_UDP) then proceed t
  else if IPv6_Receive.payload_length rest <? UDP_Packet.UDP_HEADER_SIZE then Some (Some (true, happened (Datagram Dropped) t))
  else
    let udp_packet := IPv6_Receive.payload rest in
    found ← loop fuel (UDP_Receive.find_step (demux (udp t)) (UDP_Packet.get_dport e udp_packet)) (head_socket (demux (udp t)));
    Some (socket ← found;
          match socket with
          | Some k => '(f, r) ← deliver k udp_packet (udp t); Some (true, happened (Datagram f) (t <| udp := r |>))
          | None => Some (true, happened (Datagram (Received [error_port_not_reachable])) t)
          end).

(** What an advice for TCP answers, as an answer of the walk: an unknown segment is left to the next one. *)
Definition tcp_answer (proceed : Transport -> answer) (t : Transport) (a : option (option (tcp_fate * TcpDemux Sockets6.IPV6))) : answer :=
  match a with
  | Some (Some (Unknown, d)) => proceed (t <| tcp := d |>)
  | Some (Some (f, d)) => Some (Some (true, happened (Segment f) (t <| tcp := d |>)))
  | Some None => Some None
  | None => None
  end.

(** [IPv6_TCP_Listen]. *)
Definition IPv6_TCP_Listen (proceed : Transport -> answer) (rest : IPv6_Receive.Rest) (t : Transport) : answer :=
  if negb (IPv6_Receive.nextHeader rest =? IP_TYPE_TCP) then proceed t
  else
    let tcp_segment := IPv6_Receive.payload rest in
    if TCP_Segment.has_SYN e tcp_segment then
      tcp_answer proceed t
        (offer (P := peer6 e l) tcpBUFFERSIZE tcp_pool (λ d, Some (Some (Unknown, d))) fuel tcp_segment (IPv6_Receive.payload_length rest)
           (TCP_Segment.get_dport e tcp_segment) (IPv6_Packet.get_src_ipaddr packet) (tcp t))
    else proceed t.

(** [IPv6_TCP_Receive]. *)
Definition IPv6_TCP_Receive (proceed : Transport -> answer) (rest : IPv6_Receive.Rest) (t : Transport) : answer :=
  let payload_length := IPv6_Receive.payload_length rest in
  if negb (IPv6_Receive.nextHeader rest =? IP_TYPE_TCP) then proceed t
  else if payload_length <? TCP_Segment.TCP_MIN_HEADER_SIZE then Some (Some (true, happened (Segment NotForUs) t))
  else
    let tcp_segment := IPv6_Receive.payload rest in
    match InternetChecksum.checksum_valid e (pseudo_header payload_length IP_TYPE_TCP) tcp_segment (u16 payload_length) with
    | None => Some None
    | Some false => Some (Some (true, happened (Segment NotForUs) t))
    | Some true =>
        found ← loop fuel (connection_step (P := peer6 e l) (tcp t) (TCP_Segment.get_dport e tcp_segment) (TCP_Segment.get_sport e tcp_segment)
                             (IPv6_Packet.get_src_ipaddr packet) (IPv6_Packet.get_dst_ipaddr packet))
                  (head_socket (tcp_sockets (tcp t)));
        match found with
        | None => Some None
        | Some (Some k) => Some ('(_, reports, d) ← queue_segment tcpBUFFERSIZE tcp_pool tcp_segment payload_length k (tcp t);
                                 Some (true, happened (Segment (ToSocket k reports)) (t <| tcp := d |>)))
        | Some None => proceed t
        end
    end.

(** [IPv6_TCP_Reset] as the walk sees it: no segment goes on behind it. What it sends is [IPv6_TCP_Reset.ipv6_payload_demux] below. *)
Definition IPv6_TCP_Reset_step (proceed : Transport -> answer) (rest : IPv6_Receive.Rest) (t : Transport) : answer :=
  if negb (IPv6_Receive.nextHeader rest =? IP_TYPE_TCP) then proceed t
  else Some (Some (Management_TCP_Socket.answers_reset e (IPv6_Receive.payload rest), happened (Segment Unknown) t)).

(** The advice woven, and [ipv6_payload_demux] with it, the outermost first; behind it an unknown segment ends the walk as any unknown header does.
    The advice for UDP looks at other headers. *)
Definition advise (a : advice) : (Transport -> answer) -> IPv6_Receive.Rest -> Transport -> answer :=
  match a with Receive => IPv6_TCP_Receive | Listen => IPv6_TCP_Listen | Reset => IPv6_TCP_Reset_step end.
Definition no_more_advice (rest : IPv6_Receive.Rest) (t : Transport) : answer :=
  Some (Some (fst (IPv6_Receive.no_advice rest),
    if IPv6_Receive.nextHeader rest =? IP_TYPE_TCP then happened (Segment Unknown) t else t)).
Definition segment_advice (order : list advice) (rest : IPv6_Receive.Rest) : Transport -> answer :=
  foldr (λ a proceed, advise a proceed rest) (no_more_advice rest) order.
Definition ipv6_payload_demux (order : list advice) (rest : IPv6_Receive.Rest) (t : Transport) : answer :=
  IPv6_UDP_Rx_Checksumming (IPv6_UDP_Receive (segment_advice order rest) rest) rest t.

(** As a step of the walk, which the first null pointer stops. *)
Definition handler (order : list advice) (r : IPv6_Receive.Rest * option (option Transport)) : bool * (IPv6_Receive.Rest * option (option Transport)) :=
  match snd r with
  | Some (Some t) =>
      match ipv6_payload_demux order (fst r) t with
      | Some (Some (over, t)) => (over, (fst r, Some (Some t)))
      | Some None => (true, (fst r, Some None))
      | None => (true, (fst r, None))
      end
  | _ => (true, r)
  end.
End Receive.

(** [Demux::ipv6_demux]: a packet for this host is walked over. No advice of UDP or TCP shortens what is left, so
    the first round ends the walk. *)
Definition ipv6_demux (e : endian) (l : list Interface6) (udpBUFFERSIZE tcpBUFFERSIZE : Z) (fuel : nat)
    (udp_pool tcp_pool : nat -> Z -> option (Z * bytes)) (order : list advice) (interface : Interface6) (packet : bytes) (len : Z) (t : Transport)
    : option (option (option IPv6_Receive.walk * Transport)) :=
  match IPv6_Receive.ipv6_demux Multicast.hasIPv6Address e interface packet len with
  | None => Some (Some (None, t))
  | Some rest =>
      '(outcome, t) ← IPv6_Receive.ipv6_walk (handler e l udpBUFFERSIZE tcpBUFFERSIZE fuel udp_pool tcp_pool packet order) 1 (rest, Some (Some t));
      t ← t;
      Some (t ← t; Some (Some outcome, t))
  end.

(** ** The socket of a segment *)

(** What the IPv6 header says of a packet that is accepted. *)
Lemma accepted_rest accepts e i packet len rest : IPv6_Receive.ipv6_demux accepts e i packet len = Some rest -> is_bytes packet ->
  IPv6_Receive.payload rest = drop 40 packet ∧ is_u16 (IPv6_Receive.payload_length rest) ∧ IPv6_Receive.payload_length rest ≠ 0.
Proof.
  intros H Hb. unfold IPv6_Receive.ipv6_demux in H. destruct (negb _); [done|]. cbv zeta in H.
  destruct (Z.eqb_spec (IPv6_Packet.validPacketLength e len packet) 0) as [|Hv]; [done|]. destruct (negb _); [done|].
  destruct (accepts _ _); [|done]. injection H as <-. split; [done|]. cbn [IPv6_Receive.payload_length].
  split; [exact (getf_range e IPv6_Packet.f_payload_length packet Hb)|].
  unfold IPv6_Packet.validPacketLength in Hv. destruct (_ <? _); [done|]. by destruct (_ <? _).
Qed.

Lemma packet_addresses packet : (40 <= length packet)%nat -> is_bytes packet ->
  is_addr6 (IPv6_Packet.get_src_ipaddr packet) ∧ is_addr6 (IPv6_Packet.get_dst_ipaddr packet).
Proof.
  intros Hl Hb. unfold is_addr6, IPv6_Packet.get_src_ipaddr, IPv6_Packet.get_dst_ipaddr, get_bytes, IPv6_Packet.o_src_ipaddr, IPv6_Packet.o_dst_ipaddr.
  rewrite !length_take, !length_drop. split_and!; try lia; apply is_bytes_take, is_bytes_drop, Hb.
Qed.

Section Segments.
Context (l : list Interface6) (udpBUFFERSIZE tcpBUFFERSIZE : Z) (fuel : nat).
Context (udp_pool tcp_pool : nat -> Z -> option (Z * bytes)).
(** The blocks of the pools are as long as what was asked for. *)
Hypothesis pool_length : forall k n a area, tcp_pool k n = Some (a, area) -> n <= Z.of_nat (length area).
Context (t : Transport) (bl ll : list nat) (packet : bytes) (len : Z) (interface : Interface6) (rest : IPv6_Receive.Rest).
Hypothesis state_wf : wf tcpBUFFERSIZE (tcp t) bl ll.
Hypothesis packet_bytes : is_bytes packet.
Hypothesis accepted_packet : IPv6_Receive.ipv6_demux Multicast.hasIPv6Address LE interface packet len = Some rest.
(** What the header announces lies in memory. *)
Hypothesis announced : 40 + IPv6_Receive.payload_length rest <= Z.of_nat (length packet).
Hypothesis enough : (length bl < fuel ∧ length ll < fuel)%nat.

Let seg := IPv6_Receive.payload rest.
Let n := IPv6_Receive.payload_length rest.
Let src := IPv6_Packet.get_src_ipaddr packet.
Let dst := IPv6_Packet.get_dst_ipaddr packet.
Context (order : list advice).
Let result := ipv6_demux LE l udpBUFFERSIZE tcpBUFFERSIZE fuel udp_pool tcp_pool order interface packet len t.

Hypothesis of_tcp : IPv6_Receive.nextHeader rest = IP_TYPE_TCP.

(** How the walk ends for a segment: the one nobody takes is handled where a reset answers it. *)
Definition answered (f : tcp_fate) : bool :=
  match f with Unknown => bool_decide (Reset ∈ order) && Management_TCP_Socket.answers_reset LE seg | _ => true end.
Definition walk_of (f : tcp_fate) : IPv6_Receive.walk :=
  if answered f then IPv6_Receive.Handled else IPv6_Receive.No_protocol_handler.

Lemma n6_range : is_u16 n ∧ n ≠ 0 ∧ n <= Z.of_nat (length seg).
Proof.
  destruct (accepted_rest _ _ _ _ _ _ accepted_packet packet_bytes) as (E & Hu & H0). split; [exact Hu|]. split; [exact H0|].
  unfold seg, n in *. rewrite E, length_drop. lia.
Qed.
Lemma segment_bytes : is_bytes seg.
Proof. unfold seg. rewrite (proj1 (accepted_rest _ _ _ _ _ _ accepted_packet packet_bytes)). by apply is_bytes_drop. Qed.
Lemma addresses6 : is_addr6 src ∧ is_addr6 dst.
Proof. destruct n6_range as [Hu _]. unfold is_u16, n in *. apply packet_addresses; [lia|done]. Qed.

(** The walk with the answer of the advice for TCP. *)
Lemma walked f t' : segment_advice LE l tcpBUFFERSIZE fuel tcp_pool packet order rest t = Some (Some (answered f, t')) ->
  result = Some (Some (Some (walk_of f), t')).
Proof.
  intros H. destruct n6_range as (_ & H0 & _). unfold n in H0.
  unfold result, ipv6_demux. rewrite accepted_packet. unfold IPv6_Receive.ipv6_walk, loop, IPv6_Receive.walk_step, handler. cbn [fst snd].
  unfold ipv6_payload_demux, IPv6_UDP_Rx_Checksumming, IPv6_UDP_Receive. rewrite of_tcp.
  change (IP_TYPE_TCP =? IP_TYPE_UDP) with false. cbn [negb]. rewrite H. unfold walk_of.
  destruct (answered f); [reflexivity|]. rewrite (proj2 (Z.eqb_neq _ _) H0), Z.eqb_refl. reflexivity.
Qed.

Hypothesis long : TCP_Segment.TCP_MIN_HEADER_SIZE <= n.

Lemma checksum6_answers : exists valid,
  InternetChecksum.checksum_valid LE (computePseudoHeaderV6 src dst n IP_TYPE_TCP) seg n = Some valid.
Proof.
  destruct n6_range as (Hu & _ & Hl), addresses6 as [[Ls Bs] [Ld Bd]].
  destruct (InternetChecksum.checksum_valid_iff (computePseudoHeaderV6 src dst n IP_TYPE_TCP) seg n segment_bytes Hu Hl) as (valid & E & _); [|by exists valid].
  apply pseudo6_range; done || (unfold is_u8, IP_TYPE_TCP; lia) || exact Hu.
Qed.

(** What the first two aspects say of a segment with a right checksum, in the order they mean. *)
Definition through : option (option (tcp_fate * TcpDemux Sockets6.IPV6)) :=
  passed (P := peer6 LE l) tcpBUFFERSIZE tcp_pool (tcp t) bl seg n (TCP_Segment.get_sport LE seg) (TCP_Segment.get_dport LE seg)
    (TCP_Segment.has_SYN LE seg) src dst fuel (λ t, Some (Some (Unknown, t))).

Lemma not_taken d : intended order ->
  foldr (λ a proceed, advise LE l tcpBUFFERSIZE fuel tcp_pool packet a proceed rest) (no_more_advice rest) (drop 2 order) (t <| tcp := d |>)
  = Some (Some (answered Unknown, happened (Segment Unknown) (t <| tcp := d |>))).
Proof.
  unfold answered. intros [->| ->]; cbn [drop foldr advise].
  - rewrite bool_decide_eq_false_2 by (by intros [|[|[]%elem_of_nil]%elem_of_cons]%elem_of_cons).
    unfold no_more_advice, IPv6_Receive.no_advice. rewrite of_tcp. reflexivity.
  - rewrite bool_decide_eq_true_2 by (right; right; left). unfold IPv6_TCP_Reset_step. by rewrite of_tcp.
Qed.

Lemma in_order valid : intended order ->
  InternetChecksum.checksum_valid LE (computePseudoHeaderV6 src dst n IP_TYPE_TCP) seg n = Some valid ->
  forall f d, (if valid then through else Some (Some (NotForUs, tcp t))) = Some (Some (f, d)) ->
  segment_advice LE l tcpBUFFERSIZE fuel tcp_pool packet order rest t
  = Some (Some (answered f, happened (Segment f) (t <| tcp := d |>))).
Proof.
  intros Ho Hv f d E. destruct n6_range as (Hu & _ & Hl).
  assert (Eo : order = Receive :: Listen :: drop 2 order) by (by destruct Ho as [->| ->]).
  unfold segment_advice. rewrite Eo at 1. cbn [foldr advise]. unfold IPv6_TCP_Receive, pseudo_header. fold n seg src dst.
  rewrite of_tcp. change (IP_TYPE_TCP =? IP_TYPE_TCP) with true. cbn [negb].
  destruct (Z.ltb_spec n TCP_Segment.TCP_MIN_HEADER_SIZE); [lia|]. rewrite (u16_id n) by done. rewrite Hv.
  destruct valid; [|injection E as <- <-; by destruct t].
  rewrite (searched_connections (P := peer6 LE l) tcpBUFFERSIZE (tcp t) bl ll _ _ _ _ fuel state_wf enough). cbn [mbind option_bind].
  unfold through, passed in E. destruct (connection _ _ _ _ _ _) as [k|].
  { destruct (queue_segment _ _ _ _ _ _) as [[[? reports] d']|]; [|done]. cbn [mbind option_bind] in E |- *. by injection E as <- <-. }
  unfold IPv6_TCP_Listen. rewrite of_tcp. change (IP_TYPE_TCP =? IP_TYPE_TCP) with true. cbn [negb]. fold seg n src.
  assert (Et : t = t <| tcp := tcp t |>) by (by destruct t).
  destruct (TCP_Segment.has_SYN LE seg); [rewrite E; cbn [tcp_answer]; destruct f; try reflexivity; by apply not_taken|].
  injection E as <- <-. rewrite Et at 1. by apply not_taken.
Qed.

(** C37: Over IPv6 a segment has the same fate as over IPv4, if the aspects are woven in the order they mean, which they
    leave to the weaver: with a right checksum it joins the queue of its connection,
    a SYN without one goes to the first socket that listens on its port, which leaves the list and gets the sender as its
    destination, the others are unknown and, unless the reset answers them, end the walk over the headers as an unknown header does;
    with a wrong checksum it is dropped. The other sockets, their queues and the datagrams are left alone. *)
Theorem tcp6_segment_fate : intended order ->
  exists valid f d, InternetChecksum.checksum_valid LE (computePseudoHeaderV6 src dst n IP_TYPE_TCP) seg n = Some valid
  ∧ result = Some (Some (Some (walk_of f), happened (Segment f) (t <| tcp := d |>)))
  ∧ if valid then dispatched (P := peer6 LE l) tcpBUFFERSIZE tcp_pool (tcp t) bl ll seg n (TCP_Segment.get_sport LE seg)
                    (TCP_Segment.get_dport LE seg) (TCP_Segment.has_SYN LE seg) src dst (Some (Some (f, d)))
    else f = NotForUs ∧ d = tcp t.
Proof.
  intros Ho. destruct checksum6_answers as [valid Hv]. destruct n6_range as (Hu & _ & Hl). exists valid.
  pose proof (in_order valid Ho Hv) as E. destruct valid.
  - pose proof (passed_dispatched (P := peer6 LE l) tcpBUFFERSIZE tcp_pool pool_length (tcp t) bl ll seg n (TCP_Segment.get_sport LE seg)
      (TCP_Segment.get_dport LE seg) (TCP_Segment.has_SYN LE seg) src dst fuel state_wf (conj Hu Hl) enough) as D.
    assert (Hset : forall side, @remote _ _ (peer6 LE l) (@set_remote _ _ (peer6 LE l) src side) = src) by (intros; apply (peer6_ok LE l); apply addresses6).
    specialize (D Hset). fold through in D.
    destruct (dispatched_answers _ _ _ _ _ _ _ _ _ _ _ _ _ D) as (f & d & Ef). exists f, d. split; [done|].
    split; [by apply walked, E|]. by rewrite <- Ef.
  - exists NotForUs, (tcp t). split; [done|]. split; [by apply walked, E|done].
Qed.
End Segments.

(** ** Datagrams *)

(** The buffer a datagram is received into. *)
Section Remote6.
Import ReceiveBufferUDPIPv6.

Lemma create6_made e mempool payload n port addr area : 0 <= n <= 65515 -> n + 20 <= Z.of_nat (length payload) ->
  mempool (n + 20) = Some area -> n + 20 <= Z.of_nat (length area) -> length addr = 16%nat -> is_u16 port ->
  exists r, createReceiveBufferUDPIPv6 e mempool payload n port addr = Some (Some r)
    ∧ getSize r = n ∧ take (Z.to_nat n) (getData r) = take (Z.to_nat n) payload ∧ getRemoteInfo e r = MkRemote id6 port addr.
Proof.
  intros Hn Hp Hm Ha Hl Hport. unfold createReceiveBufferUDPIPv6, createReceiveBuffer, sizeof_RemoteInfo.
  rewrite (u16_id n), (u16_id (n + 20)), Hm by zlia. destruct (Z.ltb_spec (Z.of_nat (length payload)) (n + 20)); [lia|].
  set (P := take (Z.to_nat (n + 20)) payload). assert (HP : length P = Z.to_nat (n + 20)) by (unfold P; rewrite length_take; lia).
  unfold store. destruct (Z.leb_spec (0 + Z.of_nat (length P)) (Z.of_nat (length area))); [|lia]. cbn [mbind option_bind].
  set (area1 := Packet.write (Z.to_nat 0) P area). assert (L1 : length area1 = length area) by apply length_write.
  change (m_dataStart ((MkReceive (n + 20) area1) <| m_receivedSize := n |>)) with area1.
  destruct (Z.leb_spec (n + Z.of_nat (length (fbytes e K8 id6))) (Z.of_nat (length area1))) as [_|Hbad]; [|rewrite length_fbytes in Hbad; cbn in Hbad; lia].
  cbn [mbind option_bind]. set (area2 := Packet.write (Z.to_nat n) (fbytes e K8 id6) area1).
  assert (L2 : length area2 = length area) by (unfold area2; by rewrite length_write).
  rewrite (take_ge addr) by lia. assert (LR : length (fbytes e H16 port ++ addr) = 18%nat) by (rewrite length_app, length_fbytes, Hl; done).
  destruct (Z.leb_spec (n + 2 + Z.of_nat (length (fbytes e H16 port ++ addr))) (Z.of_nat (length area2))) as [_|Hbad]; [|lia].
  cbn [mbind option_bind]. set (area3 := Packet.write (Z.to_nat (n + 2)) (fbytes e H16 port ++ addr) area2).
  eexists. split; [reflexivity|]. split; [done|].
  assert (E3 : area3 = Packet.write (Z.to_nat n + 4) addr (setf e (Field (Z.to_nat n + 2) H16) port area2)).
  { unfold area3, setf. cbn [f_off f_kind]. replace (Z.to_nat (n + 2)) with (Z.to_nat n + 2)%nat by lia.
    rewrite <- write_write. f_equal. rewrite length_fbytes. cbn. lia. }
  split.
  - change (take (Z.to_nat n) area3 = take (Z.to_nat n) payload). rewrite <- (drop_0 area3). unfold area3, area2. rewrite !read_write_out by (rewrite ?LR, ?length_fbytes; lia).
    unfold area1. transitivity (take (Z.to_nat n) (take (length P) (drop 0 (Packet.write 0 P area)))).
    { rewrite take_take. f_equal. lia. }
    rewrite read_write by lia. unfold P. rewrite take_take. f_equal. lia.
  - transitivity (MkRemote (getf e (Field (Z.to_nat n) K8) area3) (getf e (Field (Z.to_nat n + 2) H16) area3) (get_bytes (Z.to_nat n + 4) 16 area3));
      [reflexivity|]. apply (f_equal3 MkRemote).
    + rewrite E3, getf_write_out, getf_setf_ne by (unfold fend; cbn [f_off f_kind ksize]; lia). apply getf_setf_eq; [unfold fend; cbn [f_off f_kind ksize]; lia|unfold id6; side].
    + rewrite E3, getf_write_out by (unfold fend; cbn [f_off f_kind ksize]; lia). apply getf_setf_eq; [unfold fend; cbn [f_off f_kind ksize]; lia|done].
    + rewrite E3. unfold get_bytes. rewrite <- Hl at 1. apply read_write. rewrite length_setf. lia.
Qed.
End Remote6.

(** *** Receiving one *)

Section Datagrams.
Context (l : list Interface6) (udpBUFFERSIZE tcpBUFFERSIZE : Z) (fuel : nat).
Context (udp_pool tcp_pool : nat -> Z -> option (Z * bytes)) (order : list advice).
Context (t : Transport) (bl : list nat) (k : nat) (q : BasicRingbuffer.t).
Hypothesis bound_sockets : bound (demux (udp t)) bl.
Hypothesis this_socket : k ∈ bl.
Hypothesis enough : (length bl < fuel)%nat.
Hypothesis queue : m_receivequeue (udp t) !! k = Some q ∧ BasicRingbuffer.wf udpBUFFERSIZE q
  ∧ Z.of_nat (length (BasicRingbuffer.contents udpBUFFERSIZE q)) < BasicRingbuffer.BUFFERSIZE udpBUFFERSIZE - 1.

(** The socket has a datagram with this payload and sender: it is in a new buffer at the end of its queue. *)
Definition delivered (t' : Transport) (data src : bytes) (port : Z) : Prop :=
  exists a b q', t' = happened (Datagram (Received []))
      (t <| udp := MkReceiver (demux (udp t)) (<[k := q']> (m_receivequeue (udp t))) (<[a := b]> (buffers (udp t))) |>)
  ∧ BasicRingbuffer.contents udpBUFFERSIZE q' = BasicRingbuffer.contents udpBUFFERSIZE q ++ [a]
  ∧ getSize b = Z.of_nat (length data) ∧ take (length data) (getData b) = data ∧ ReceiveBufferUDPIPv6.cast LE b = Some b
  ∧ ReceiveBufferUDPIPv6.getRemoteInfo LE b = ReceiveBufferUDPIPv6.MkRemote ReceiveBufferUDPIPv6.id6 port src.

(** Memory for a payload of so many bytes. *)
Definition room_for (n : Z) : Prop := exists a area, udp_pool k (n + 20) = Some (a, area) ∧ n + 20 <= Z.of_nat (length area).

(** A packet of IPv6 with a datagram, and the memory behind it. *)
Lemma datagram_received (i : Interface6) (src dst data junk : bytes) (hop s c : Z) :
  let d := port_of (demux (udp t)) k in
  let m := udp_message s d c data in
  let size := 8 + Z.of_nat (length data) in
  ipv6_up i = true -> Multicast.hasIPv6Address i dst = true -> is_addr6 src -> is_addr6 dst ->
  is_u16 s -> is_u16 d -> is_u16 c -> size <= 65523 -> (20 <= length junk)%nat ->
  InternetChecksum.checksum_valid LE (computePseudoHeaderV6 src dst size IP_TYPE_UDP) (m ++ junk) size = Some true ->
  room_for (Z.of_nat (length data)) ->
  exists t', ipv6_demux LE l udpBUFFERSIZE tcpBUFFERSIZE fuel udp_pool tcp_pool order i (ip6_header src dst size hop IP_TYPE_UDP ++ m ++ junk) (40 + size) t
      = Some (Some (Some IPv6_Receive.Handled, t'))
    ∧ delivered t' data src s.
Proof.
  intros d m size Hup Hacc [Ls Bs] [Ld Bd] Hs Hd Hc Hsize Hj Hsum (a & area & Ea & La).
  destruct (udp_message_read s d c data junk Hs Hd Hc ltac:(lia)) as (R1 & R2 & R3 & R4 & R5).
  destruct queue as (Hq & Hwf & Hfree).
  destruct (create6_made LE (λ x, snd <$> udp_pool k x) (data ++ junk) (Z.of_nat (length data)) s src area) as (b & Eb & B1 & B2 & B3);
    [lia|rewrite length_app; lia|by rewrite Ea|done|done|done|].
  eexists. split.
  - unfold ipv6_demux. rewrite (ip6_received Multicast.hasIPv6Address) by (done || lia || (unfold is_u8, IP_TYPE_UDP; lia)).
    unfold IPv6_Receive.ipv6_walk, loop, IPv6_Receive.walk_step, handler. cbn [fst snd].
    unfold ipv6_payload_demux, IPv6_UDP_Rx_Checksumming, pseudo_header. cbn [IPv6_Receive.nextHeader IPv6_Receive.payload IPv6_Receive.payload_length].
    change (IP_TYPE_UDP =? IP_TYPE_UDP) with true. cbn [negb]. rewrite u16_id by (unfold is_u16; lia).
    destruct (ip6_addresses src dst size hop IP_TYPE_UDP (m ++ junk) Ls Ld) as [-> ->]. unfold UDP_Packet.checksum_valid. rewrite Hsum.
    assert (Er : forall x : answer, (if negb (UDP_Packet.get_checksum LE (m ++ junk) =? 0) then x else x) = x) by (intros; by destruct (negb _)).
    rewrite Er. unfold IPv6_UDP_Receive. cbn [IPv6_Receive.nextHeader IPv6_Receive.payload IPv6_Receive.payload_length].
    change (IP_TYPE_UDP =? IP_TYPE_UDP) with true. cbn [negb]. change UDP_Packet.UDP_HEADER_SIZE with 8.
    destruct (Z.ltb_spec size 8); [lia|]. fold m in R1, R2, R3, R5. rewrite R2. unfold d. rewrite (find_socket _ bl) by done.
    cbn [mbind option_bind]. unfold deliver. rewrite R3, R1, R5. change UDP_Packet.UDP_HEADER_SIZE with 8.
    replace (u16 (8 + Z.of_nat (length data) - 8)) with (Z.of_nat (length data)) by (rewrite u16_id; [lia|unfold is_u16; lia]).
    destruct (ip6_addresses src dst size hop IP_TYPE_UDP (m ++ junk) Ls Ld) as [_ ->]. rewrite Eb. cbn [mbind option_bind].
    change ReceiveBufferUDPIPv6.sizeof_RemoteInfo with 20. rewrite (u16_id (Z.of_nat (length data) + 20)) by (unfold is_u16; lia).
    rewrite Ea. cbn [from_option fst]. unfold UDP_Receive.addToReceiveQueue.
    change (m_receivequeue ((udp t) <| buffers := _ |>)) with (m_receivequeue (udp t)). rewrite Hq. cbn [mbind option_bind].
    rewrite Ringbuffer.isFull_contents by done.
    destruct (Z.leb_spec (BasicRingbuffer.BUFFERSIZE udpBUFFERSIZE - 1) (Z.of_nat (length (BasicRingbuffer.contents udpBUFFERSIZE q)))); [lia|].
    reflexivity.
  - exists a, b, (BasicRingbuffer.put udpBUFFERSIZE q a). split; [reflexivity|]. split.
    + rewrite Ringbuffer.put_contents by done. destruct (Z.ltb_spec (Z.of_nat (length (BasicRingbuffer.contents udpBUFFERSIZE q)))
        (BasicRingbuffer.BUFFERSIZE udpBUFFERSIZE - 1)); [done|lia].
    + split; [exact B1|]. split; [rewrite Nat2Z.id in B2; rewrite B2; apply take_app_length|]. split; [|exact B3].
      unfold ReceiveBufferUDPIPv6.cast. by rewrite B3.
Qed.
End Datagrams.

(** ** Sending a datagram *)

Section Send.
Import Socket_Send Socket_Send6.
Context (e : endian) `{Clk : Clock} {W : Type} `{Sys : System6 W} `{Dev : Device W}.
Context (nics : list Nic) {L : Layout} (sizeof_SendBuffer fast_bits : Z) (fuel : nat).
Context (interrupt : nat -> bytes -> Stack W -> option (Stack W)).
Context (add : nat -> bytes -> option bytes -> NDPCacheEntry.StateEnum -> Stack W -> option (option nat * Stack W)).
(** The ports of the socket. *)
Context (sk : Socket).

(** [Sendbuffer_UDP]: what is asked for. *)
Definition udp_estimate (s : Stack W) : option Z :=
  headers ← estimateSendBufferMinSize nics User s; Some (headers + UDP_Packet.UDP_HEADER_SIZE).
Definition udp_requestSendBuffer (interface : Nic) (requestSize : Z) (s : Stack W) : option (option Buffer * Stack W) :=
  request_behind e nics sizeof_SendBuffer fast_bits fuel interrupt add (udp_estimate s) User (udp_advice e sk) interface requestSize s.

(** [IPv6_UDP_Tx_Checksumming]; the socket uses IPv6. *)
Definition udp_checksum_advice : Buffer -> option Buffer := checksum_advice e IP_TYPE_UDP (UDP_Packet.set_checksum e).
Definition udp_send (b : Buffer) (s : Stack W) : option (bool * Stack W) :=
  b ← udp_checksum_advice b;
  let '(sent, _, s) := send nics User b s in Some (sent, s).

(** A buffer requested, filled and sent, as [Socket_Send_Slice] tells applications to. *)
Definition transmit (data : bytes) (s : Stack W) : option (bool * Stack W) :=
  let n := Z.of_nat (length data) in
  nic ← getUsedInterface User s ≫= λ k, nics !! k;
  '(b, s) ← udp_requestSendBuffer nic n s;
  match b with
  | None => Some (false, s)
  | Some b => udp_send (on_sb (SendBuffer.write data n) b) s
  end.
End Send.

Section Sent.
Import Socket_Send Socket_Send6.
Context `{Clk : Clock} {W : Type} `{Sys : System6 W} `{Dev : Device W}.
Context (nics : list Nic) {L : Layout} (sizeof_SendBuffer fast_bits : Z) (fuel : nat).
Context (interrupt : nat -> bytes -> Stack W -> option (Stack W)).
Context (add : nat -> bytes -> option bytes -> NDPCacheEntry.StateEnum -> Stack W -> option (option nat * Stack W)).
Context (sk : Socket) (s : Stack W) (k : nat) (nic : Nic) (hw area : bytes) (a : Z) (w : W) (data : bytes).
Let t := ipv6 (user s).
Let src := Sockets6.src_ipv6_addr t.
Let dst := Sockets6.dst_ipv6_addr t.
Let size := 8 + Z.of_nat (length data).
Hypothesis N : neighbor6 nics k nic s (user s) hw.
Hypothesis ports16 : is_u16 (sport sk) ∧ is_u16 (dport sk).
Hypothesis addresses_bytes : is_bytes src ∧ is_bytes dst.
Hypothesis data_bytes : is_bytes data.
Hypothesis bits : 16 <= fast_bits.
Hypothesis size_fits : 54 + size < 65536.
Hypothesis memory : dv_alloc (54 + size + sizeof_SendBuffer) (world s) = (a, area, w).
Hypothesis memory_found : a ≠ 0.
Hypothesis area_length : Z.of_nat (length area) = 54 + size.

Lemma datagram_sent6 : exists c, is_u16 c
  ∧ transmit LE nics sizeof_SendBuffer fast_bits fuel interrupt add sk data s
    = Some (true, emitted nics dst k (eth6_header hw (n_address nic) ++ ip6_header src dst size (Sockets6.hoplimit t) IP_TYPE_UDP
        ++ udp_message (sport sk) (dport sk) c data) (s <| world := w |>))
  ∧ InternetChecksum.checksum_valid LE (computePseudoHeaderV6 src dst size IP_TYPE_UDP) (udp_message (sport sk) (dport sk) c data) size = Some true.
Proof.
  destruct addresses_bytes as [Bs Bd], ports16 as [Ps Pd].
  set (at_54 := message_buffer User s nic hw a size IP_TYPE_UDP).
  pose proof (message_buffer_behaves nics User s k nic hw area a size N IP_TYPE_UDP) as [Bw Br Ba]. fold at_54 in Bw, Br, Ba.
  set (rest := drop 54 area). assert (Lr : length rest = (8 + length data)%nat) by (unfold rest; rewrite length_drop; lia).
  set (head := be16 (sport sk) ++ be16 (dport sk) ++ be16 size).
  assert (Ehead : udp_header_advice LE sk (at_54 54 rest) = at_54 62 (head ++ be16 0 ++ drop 8 rest)).
  { change (udp_header_advice LE sk (at_54 54 rest))
      with (write_message UDP_Packet.UDP_HEADER_SIZE (UDP_Socket.setupHeader LE (SendBuffer.getRemainingSize (sb (at_54 54 rest))) sk) (at_54 54 rest)).
    rewrite Br, Bw. change (54 + UDP_Packet.UDP_HEADER_SIZE) with 62. f_equal.
    replace (54 + size - 54) with size by lia. rewrite <- (take_drop 8 rest) at 1.
    rewrite udp_header_written by (done || (rewrite length_take; lia) || (unfold is_u16; lia)). unfold head. by rewrite <- !app_assoc. }
  assert (L8 : length (head ++ be16 0) = 8%nat) by done.
  assert (Edata : on_sb (SendBuffer.write data (Z.of_nat (length data))) (at_54 62 (head ++ be16 0 ++ drop 8 rest))
    = at_54 (54 + size) (head ++ be16 0 ++ data)).
  { pose proof (Ba 8 (Z.of_nat (length data)) data (head ++ be16 0 ++ drop 8 rest)) as H.
    change (54 + 8) with 62 in H. rewrite H by (lia || (rewrite app_assoc, length_app, L8, length_drop; lia)).
    replace (62 + Z.of_nat (length data)) with (54 + size) by lia. f_equal. rewrite take_ge by lia.
    rewrite !app_assoc. change (Z.to_nat 8) with 8%nat. rewrite <- L8 at 1. apply tail_written. rewrite length_drop. lia. }
  destruct (checksum_prepared nics User s k nic hw area a size N ltac:(lia) IP_TYPE_UDP (UDP_Packet.set_checksum LE) head (be16 0) data)
    as (c & Hc & E1 & E2); try done.
  { intros u m Hu Hm. unfold UDP_Packet.set_checksum, setf. cbn [f_off f_kind UDP_Packet.f_checksum]. rewrite fbytes_be16 by done.
    change 6%nat with (length head). by apply write_app. }
  { unfold head. rewrite !is_bytes_app. unfold be16. split_and!; try done; repeat apply Forall_cons_2; try apply u8_range; constructor. }
  { by exists 3%nat. }
  { change (length head) with 6%nat. lia. }
  exists c. split; [done|]. split; [|exact E2].
  unfold transmit, getUsedInterface. change (sock User s) with (user s). rewrite (n6_used _ _ _ _ _ _ N). cbn [mbind option_bind].
  rewrite (n6_nic _ _ _ _ _ _ N). cbn [mbind option_bind]. unfold udp_requestSendBuffer, udp_estimate.
  rewrite (estimated6 nics User s k nic hw N). cbn [mbind option_bind]. change (54 + UDP_Packet.UDP_HEADER_SIZE) with 62.
  unfold udp_advice. rewrite (request6_behind nics sizeof_SendBuffer fast_bits fuel interrupt add User s k nic hw area a size N ltac:(lia) area_length
    IP_TYPE_UDP w 62 (Z.of_nat (length data)) (udp_header_advice LE sk))
    by (done || lia || (change (SendBuffer.getState (sb (udp_header_advice LE sk (at_54 54 rest))) = SendBuffer.WritingState); by rewrite Ehead)).
  fold at_54 rest. rewrite Ehead. cbn [mbind option_bind]. rewrite Edata. unfold udp_send, udp_checksum_advice, at_54. rewrite E1. cbn [mbind option_bind].
  destruct (buffer_sent6 nics User s k nic hw area a size N ltac:(lia) IP_TYPE_UDP w (head ++ be16 c ++ data)) as [b ->]; [|done].
  rewrite !length_app. change (length head) with 6%nat. cbn. lia.
Qed.
End Sent.

(** ** From socket to socket *)

Section EndToEnd.
Import Socket_Send Socket_Send6.
Context `{Clk : Clock} {W : Type} `{Sys : System6 W} `{Dev : Device W}.
(** The sender: its socket, the hardware address its cache has for the destination, and memory for the datagram. *)
Context (nics : list Nic) {L : Layout} (sizeof_SendBuffer fast_bits : Z) (fuel : nat).
Context (interrupt : nat -> bytes -> Stack W -> option (Stack W)).
Context (add : nat -> bytes -> option bytes -> NDPCacheEntry.StateEnum -> Stack W -> option (option nat * Stack W)).
Context (sk : Socket) (s : Stack W) (k : nat) (nic : Nic) (hw area : bytes) (a : Z) (w : W) (data : bytes).
Let src := Sockets6.src_ipv6_addr (ipv6 (user s)).
Let dst := Sockets6.dst_ipv6_addr (ipv6 (user s)).
Let size := 8 + Z.of_nat (length data).
Hypothesis N : neighbor6 nics k nic s (user s) hw.
Hypothesis ports16 : is_u16 (sport sk) ∧ is_u16 (dport sk).
Hypothesis addresses_bytes : is_bytes src ∧ is_bytes dst.
Hypothesis data_bytes : is_bytes data.
Hypothesis bits : 16 <= fast_bits.
Hypothesis size_fits : 54 + size < 65536.
Hypothesis memory : dv_alloc (54 + size + sizeof_SendBuffer) (world s) = (a, area, w).
Hypothesis memory_found : a ≠ 0.
Hypothesis area_length : Z.of_nat (length area) = 54 + size.
(** The receiver: an interface with the destination's address, and a socket bound to the destination's port. *)
Context (l : list Interface6) (udpBUFFERSIZE tcpBUFFERSIZE : Z) (udp_pool tcp_pool : nat -> Z -> option (Z * bytes)) (order : list advice).
Context (t : Transport) (bl : list nat) (j : nat) (q : BasicRingbuffer.t) (i : Interface6).
Hypothesis up : ipv6_up i = true.
Hypothesis own_address : Multicast.hasIPv6Address i dst = true.
Hypothesis bound_sockets : bound (demux (udp t)) bl.
Hypothesis listens : j ∈ bl ∧ port_of (demux (udp t)) j = dport sk.
Hypothesis enough : (length bl < fuel)%nat.
Hypothesis queue : m_receivequeue (udp t) !! j = Some q ∧ BasicRingbuffer.wf udpBUFFERSIZE q
  ∧ Z.of_nat (length (BasicRingbuffer.contents udpBUFFERSIZE q)) < BasicRingbuffer.BUFFERSIZE udpBUFFERSIZE - 1.
Hypothesis room : room_for udp_pool j (Z.of_nat (length data)).

(** C28: What a UDP socket sends over IPv6 reaches the socket bound to the port it is sent to: the datagram leaves in one frame
    for the neighbor, and the host with its address, whatever follows the packet in memory (twenty bytes of it are read),
    puts a buffer with the payload, the sender's address and its port at the end of that socket's queue, and does nothing else. *)
Theorem udp6_end_to_end : exists packet,
  transmit LE nics sizeof_SendBuffer fast_bits fuel interrupt add sk data s
    = Some (true, emitted nics dst k (eth6_header hw (n_address nic) ++ packet) (s <| world := w |>))
  ∧ forall junk, (20 <= length junk)%nat -> is_bytes junk -> exists t',
      ipv6_demux LE l udpBUFFERSIZE tcpBUFFERSIZE fuel udp_pool tcp_pool order i (packet ++ junk) (Z.of_nat (length packet)) t
        = Some (Some (Some IPv6_Receive.Handled, t'))
      ∧ delivered udpBUFFERSIZE t j q t' data src (sport sk).
Proof.
  destruct (datagram_sent6 nics sizeof_SendBuffer fast_bits fuel interrupt add sk s k nic hw area a w data N ports16 addresses_bytes data_bytes bits
    size_fits memory memory_found area_length) as (c & Hc & E & Hsum).
  fold src dst size in E, Hsum. eexists. split; [exact E|]. intros junk Hj Bj. destruct listens as [Hbl Hp], ports16 as [Ps Pd], addresses_bytes as [Bs Bd].
  pose proof (n6_src _ _ _ _ _ _ N) as Ls. pose proof (n6_dst _ _ _ _ _ _ N) as Ld.
  assert (Lm : Z.of_nat (length (udp_message (sport sk) (dport sk) c data)) = size) by (rewrite length_udp_message; lia).
  assert (Bm : is_bytes (udp_message (sport sk) (dport sk) c data)) by (by apply udp_message_bytes).
  rewrite length_app, length_ip6 by done. replace (Z.of_nat (40 + length (udp_message (sport sk) (dport sk) c data))) with (40 + size) by lia.
  rewrite <- app_assoc. rewrite <- Hp in *.
  apply (datagram_received l udpBUFFERSIZE tcpBUFFERSIZE fuel udp_pool tcp_pool order t bl j q bound_sockets Hbl enough queue i src dst data junk _ (sport sk) c);
    try done; [lia|]. apply valid_behind; try done; [unfold is_u16; lia|].
  apply pseudo6_range; done || lia || (unfold is_u8, UDP_Packet.IP_TYPE_UDP; lia).
Qed.
End EndToEnd.

(** ** The reset of an unknown segment *)

Module IPv6_TCP_Reset.
Section Reset.
Import Socket_Send Socket_Send6 Management_TCP_Socket.
Context (e : endian) `{Clk : Clock} {W : Type} `{Sys : System6 W} `{Dev : Device W}.
Context (nics : list Nic) {L : Layout} (sizeof_SendBuffer fast_bits : Z) (fuel : nat).
Context (interrupt : nat -> bytes -> Stack W -> option (Stack W)).
Context (add : nat -> bytes -> option bytes -> NDPCacheEntry.StateEnum -> Stack W -> option (option nat * Stack W)).

(** [IPv6_TCP_Tx_Checksumming]; the socket uses IPv6. *)
Definition tcp_checksum_advice : Buffer -> option Buffer := checksum_advice e IP_TYPE_TCP (TCP_Segment.set_checksum e).

Definition requestSendBufferTCP (interface : Nic) : Stack W -> option (option Buffer * Stack W) :=
  requestSendBuffer e nics sizeof_SendBuffer fast_bits fuel interrupt add User (transport_advice IP_TYPE_TCP) interface TCP_Segment.TCP_MIN_HEADER_SIZE.

Definition destined (packet : bytes) (s : Stack W) : Stack W :=
  on_ipv6 User (Sockets6.set_dst_addr e (interfaces s) (IPv6_Packet.get_src_ipaddr packet) None) s.

(** The advice for an unknown segment, whose socket is that of [Management_TCP_Socket]: whether the packet is done with.
    What [error_receiving_queue_full_v6] does is nothing. *)
Definition ipv6_payload_demux (packet : bytes) (interface : Nic) (rest : IPv6_Receive.Rest) (s : Stack W) : option (bool * Stack W) :=
  let tcp_segment := IPv6_Receive.payload rest in
  if answers_reset e tcp_segment then
    '(b, s) ← requestSendBufferTCP interface (destined packet s);
    match b with
    | None => Some (true, s)
    | Some b =>
        let payload_len := fast16 fast_bits (reset_payload_v6 (IPv6_Receive.payload_length rest) tcp_segment) in
        let b := write_message TCP_Segment.TCP_MIN_HEADER_SIZE (λ p, prepareResponse e p tcp_segment payload_len) b in
        b ← tcp_checksum_advice b;
        let '(_, _, s) := send nics User b s in Some (true, s)
    end
  else Some (false, s).
End Reset.
End IPv6_TCP_Reset.

Section ResetSent6.
Import Socket_Send Socket_Send6 IPv6_TCP_Reset Management_TCP_Socket.
Context `{Clk : Clock} {W : Type} `{Sys : System6 W} `{Dev : Device W}.
Context (nics : list Nic) {L : Layout} (sizeof_SendBuffer fast_bits : Z) (fuel : nat).
Context (interrupt : nat -> bytes -> Stack W -> option (Stack W)).
Context (add : nat -> bytes -> option bytes -> NDPCacheEntry.StateEnum -> Stack W -> option (option nat * Stack W)).
Context (s : Stack W) (k : nat) (nic : Nic) (hw area : bytes) (a : Z) (w : W) (packet : bytes) (rest : IPv6_Receive.Rest).
Let s1 := destined LE packet s.
Let src := Sockets6.src_ipv6_addr (ipv6 (user s1)).
Let dst := Sockets6.dst_ipv6_addr (ipv6 (user s1)).
Let seg := IPv6_Receive.payload rest.
Let payload_len := IPv6_Receive.payload_length rest.
Hypothesis N : neighbor6 nics k nic s1 (user s1) hw.
Hypothesis addresses_bytes : is_bytes src ∧ is_bytes dst.
Hypothesis segment_bytes : is_bytes seg.
Hypothesis length_given : is_u16 payload_len.
Hypothesis bits : 16 <= fast_bits.
Hypothesis memory : dv_alloc (54 + 20 + sizeof_SendBuffer) (world s) = (a, area, w).
Hypothesis memory_found : a ≠ 0.
Hypothesis area_length : Z.of_nat (length area) = 54 + 20.
Hypothesis area_bytes : is_bytes area.

(** C34: A segment over IPv6 that nobody expects is answered, unless it is a reset itself, by one frame to the sender with a reset
    whose ports and sequence number are those of RFC 793 page 36 and whose checksum is right. But where it has to
    acknowledge the segment it acknowledges its header as well: the number is that of the RFC plus the header's length. *)
Theorem unknown_segment_reset6 : TCP_Segment.has_RST LE seg = false ->
  exists M, IPv6_TCP_Reset.ipv6_payload_demux LE nics sizeof_SendBuffer fast_bits fuel interrupt add packet nic rest s
    = Some (true, emitted nics dst k (eth6_header hw (n_address nic) ++ ip6_header src dst 20 (Sockets6.hoplimit (ipv6 (user s1))) IP_TYPE_TCP ++ M)
        (s1 <| world := w |>))
  ∧ InternetChecksum.checksum_valid LE (computePseudoHeaderV6 src dst 20 IP_TYPE_TCP) M 20 = Some true
  ∧ TCP_Segment.get_dport LE M = TCP_Segment.get_sport LE seg ∧ TCP_Segment.get_sport LE M = TCP_Segment.get_dport LE seg
  ∧ TCP_Segment.has_RST LE M = true
  ∧ if TCP_Segment.has_ACK LE seg
    then TCP_Segment.get_seqnum LE M = TCP_Segment.get_acknum LE seg ∧ TCP_Segment.has_ACK LE M = false
    else TCP_Segment.get_seqnum LE M = 0 ∧ TCP_Segment.has_ACK LE M = true
      ∧ let header := TCP_Segment.get_header_len LE seg * 4 in
        TCP_Segment.get_acknum LE M = u32 (TCP_Segment.get_seqnum LE seg + (payload_len - header)
            + (if TCP_Segment.has_SYN LE seg || TCP_Segment.has_FIN LE seg then 1 else 0) + header).
Proof.
  intros Hrst. destruct addresses_bytes as [Bs Bd].
  set (q := drop 54 area). assert (Hq : length q = 20%nat ∧ is_bytes q) by (unfold q; split; [rewrite length_drop; lia|by apply is_bytes_drop]).
  destruct (checksum_set q seg payload_len Hq) as (x & c0 & r & EP & Lc & He & Hl & Hb & Hset). set (P := prepareResponse LE q seg payload_len) in EP.
  rewrite length_app in Hl.
  destruct (checksum_prepared nics User s1 k nic hw area a 20 N ltac:(lia) IP_TYPE_TCP (TCP_Segment.set_checksum LE) x c0 r Hset Bs Bd Hb He Lc)
    as (c & Hc & E1 & E2); [unfold is_u8, TCP_Segment.IP_TYPE_TCP; lia|lia|].
  exists (x ++ be16 c ++ r). split; [|split; [exact E2|]].
  - unfold IPv6_TCP_Reset.ipv6_payload_demux. fold seg. unfold answers_reset. rewrite Hrst. cbn [Bool.eqb]. fold s1.
    unfold requestSendBufferTCP. change TCP_Segment.TCP_MIN_HEADER_SIZE with 20.
    rewrite (request6_prepared nics sizeof_SendBuffer fast_bits fuel interrupt add User s1 k nic hw area a 20 N ltac:(lia) area_length
      IP_TYPE_TCP w bits ltac:(lia) memory memory_found). cbn [mbind option_bind]. fold q.
    change (reset_payload_v6 (IPv6_Receive.payload_length rest) seg) with payload_len.
    rewrite fast16_small by (done || (unfold is_u16 in length_given; lia)).
    destruct (message_buffer_behaves nics User s1 k nic hw area a 20 N IP_TYPE_TCP) as [Bw _ _]. rewrite Bw. fold P. rewrite EP.
    unfold tcp_checksum_advice. change (54 + 20) with 74 in *. rewrite E1. cbn [mbind option_bind].
    destruct (buffer_sent6 nics User s1 k nic hw area a 20 N ltac:(lia) IP_TYPE_TCP w (x ++ be16 c ++ r)) as [b Eb]; [rewrite !length_app; cbn; lia|].
    change (54 + 20) with 74 in Eb. by rewrite Eb.
  - rewrite <- (Hset c c0 Hc Lc), <- EP. unfold is_u16 in length_given.
    destruct (reset_read q seg payload_len Hq c segment_bytes length_given) as (F1 & F2 & F3 & F4). fold P in F1, F2, F3, F4. split_and!; [done..|].
    destruct (TCP_Segment.has_ACK LE seg); [done|]. destruct F4 as (F4 & F5 & F6). cbv zeta. rewrite F6. split; [done|]. split; [done|]. f_equal. lia.
Qed.
End ResetSent6.

(** ** Hosts to try it on *)

Section Example.
Import Socket_Send Socket_Send6.
#[local] Existing Instance net6_system.
#[local] Existing Instance net6_device.
#[local] Existing Instance net6_clock.
#[local] Existing Instance packed.
#[local] Existing Instance packed_ok.

(** A connection of port 80 of the host 11 with port 1024 of the host 10, a socket that listens on port 80, and one for
    datagrams on port 5000. *)
Definition tcp6_example : TcpDemux Sockets6.IPV6 :=
  MkTcpDemux (MkDemux 0 (Some 0%nat) (<[0%nat := MkSocket 80 1024 None]> {[1%nat := MkSocket 80 0 None]})) (Some 1%nat)
    (<[0%nat := Sockets6.MkIPV6 (Some 0%nat) (ll_example 11) (ll_example 10) 255]> {[1%nat := Sockets6.IPV6_ctor]})
    (<[0%nat := BasicRingbuffer.init (replicate 3 0)]> {[1%nat := BasicRingbuffer.init (replicate 3 0)]}) ∅.
Definition transport_example : Transport := MkTransport tcp6_example receiver_example [].
Definition interface6_example : Interface6 := MkInterface6 true (memory6_example 11 2).
Lemma tcp6_example_wf : wf 3 tcp6_example [0%nat] [1%nat].
Proof.
  split.
  - split; [done|]. split; [repeat constructor; by intros ?%elem_of_nil|]. repeat constructor. by eexists.
  - split; [done|]. split; [repeat constructor; by intros ?%elem_of_nil|]. repeat constructor. by eexists.
  - by intros j ->%list_elem_of_singleton ?%list_elem_of_singleton.
  - repeat constructor; by eexists.
  - repeat constructor; (eexists; split; [reflexivity|by constructor]).
Qed.

(** A packet from host 10 to host 11 with a segment whose checksum is right. *)
Definition tcp6_packet (segment : bytes) : bytes :=
  let len := Z.of_nat (length segment) in
  let csum := computePseudoHeaderV6 (ll_example 10) (ll_example 11) len IP_TYPE_TCP in
  ip6_header (ll_example 10) (ll_example 11) len 64 IP_TYPE_TCP
  ++ TCP_Segment.set_checksum LE (default 0 (InternetChecksum.calc_checksum LE csum segment len)) segment.
Definition run6_example (order : list advice) (packet : bytes) : option (option (option IPv6_Receive.walk * Transport)) :=
  ipv6_demux LE [interface6_example] 3 3 5 Udp.pool_example Udp.pool_example order interface6_example packet (Z.of_nat (length packet)) transport_example.
Definition events6_example (order : list advice) (packet : bytes) : option (option (option IPv6_Receive.walk * list event)) :=
  option_map (option_map (λ x, (fst x, events (snd x)))) (run6_example order packet).

Example fates6 : map (λ s, events6_example [Receive; Listen] (tcp6_packet s)) [syn_example 1024 80; syn_example 1025 80; syn_example 1024 81]
  = [Some (Some (Some IPv6_Receive.Handled, [Segment (ToSocket 0 [])])); Some (Some (Some IPv6_Receive.Handled, [Segment (FromListen 1)]));
     Some (Some (Some IPv6_Receive.No_protocol_handler, [Segment Unknown]))]
  ∧ events6_example [Receive; Listen; Reset] (tcp6_packet (syn_example 1024 81)) = Some (Some (Some IPv6_Receive.Handled, [Segment Unknown])).
Proof. split; by vm_compute. Qed.

(** Other orders the weaver may choose: with the listening sockets first, one of them takes the SYN of a connection and even one whose
    checksum is wrong; with the reset first, the segments of a connection are answered with resets. *)
Example other_orders : events6_example [Listen; Receive] (tcp6_packet (syn_example 1024 80))
    = Some (Some (Some IPv6_Receive.Handled, [Segment (FromListen 1)]))
  ∧ events6_example [Listen; Receive] (take 40 (tcp6_packet (syn_example 1024 80)) ++ syn_example 1025 80)
    = Some (Some (Some IPv6_Receive.Handled, [Segment (FromListen 1)]))
  ∧ events6_example [Receive; Listen] (take 40 (tcp6_packet (syn_example 1024 80)) ++ syn_example 1025 80)
    = Some (Some (Some IPv6_Receive.Handled, [Segment NotForUs]))
  ∧ events6_example [Reset; Receive; Listen] (tcp6_packet (syn_example 1024 80))
    = Some (Some (Some IPv6_Receive.Handled, [Segment Unknown])).
Proof. split_and!; by vm_compute. Qed.

Lemma tcp6_segment_fate_witness : exists d,
  run6_example [Receive; Listen; Reset] (tcp6_packet (syn_example 1025 80)) = Some (Some (Some IPv6_Receive.Handled, happened (Segment (FromListen 1)) (transport_example <| tcp := d |>)))
  ∧ (forall l1 l2, [1%nat] = l1 ++ 1%nat :: l2 -> wf 3 d [0%nat] (l1 ++ l2)).
Proof.
  destruct (tcp6_segment_fate [interface6_example] 3 3 5 Udp.pool_example Udp.pool_example pool_example_length transport_example [0%nat] [1%nat]
    (tcp6_packet (syn_example 1025 80)) 60 interface6_example
    (IPv6_Receive.MkRest (drop 40 (tcp6_packet (syn_example 1025 80))) 20 IP_TYPE_TCP) tcp6_example_wf)
    with (order := [Receive; Listen; Reset]) as (valid & f & d & Hv & Hr & H).
  - apply (bool_decide_unpack _). by vm_compute.
  - by vm_compute.
  - vm_compute. discriminate.
  - cbn. lia.
  - reflexivity.
  - vm_compute. discriminate.
  - by right.
  - destruct valid; [|exfalso; revert Hv; vm_compute; discriminate].
    unfold dispatched in H. set (c := connection _ _ _ _ _ _) in H. assert (Ec : c = None) by (by vm_compute). rewrite Ec in H. clear Ec c.
    set (c := listener _ _ _ _) in H. assert (Ec : c = Some 1%nat) by (by vm_compute). rewrite Ec in H. clear Ec c.
    destruct H as (reports & t1 & Hrec & H).
    assert (E : reports = []).
    { apply (received_taken 3 Udp.pool_example _ _ _ _ _ _ (BasicRingbuffer.init (replicate 3 0)) (4096, replicate 20 0) Hrec); by vm_compute. }
    subst reports. rewrite bool_decide_eq_true_2 in H by done. destruct H as (t' & [= -> ->] & Ha). exists t'. split; [exact Hr|apply Ha].
Defined.

(** Host 10 sends four bytes from port 7000 to port 5000 of host 11, whose hardware address it knows. *)
Definition sender_example : Stack Net6 :=
  (known_example 10 11) <| user := MkSock6 (Sockets6.MkIPV6 (Some 0%nat) (ll_example 10) (ll_example 11) 64) no_alert |>.
Definition udp_socket_example : Socket := MkSocket 7000 5000 None.
Definition transmit_example : option (bool * Stack Net6) :=
  transmit LE [nic6_example 10] 32 32 20 (λ _ _ s, Some s) (add_example 10) udp_socket_example [1; 2; 3; 4] sender_example.

Lemma sender_neighbor6 : neighbor6 [nic6_example 10] 0 (nic6_example 10) sender_example (user sender_example) (mac6_example 11).
Proof. split; try done; cbn; unfold is_u8; lia. Qed.

Lemma udp6_end_to_end_witness : exists packet s' t',
  transmit_example = Some (true, s') ∧ net_sent (world s') = [(0%nat, eth6_header (mac6_example 11) (mac6_example 10) ++ packet)]
  ∧ ipv6_demux LE [interface6_example] 3 3 20 Udp.pool_example Udp.pool_example [Listen; Receive] interface6_example (packet ++ replicate 20 0) (Z.of_nat (length packet)) transport_example
    = Some (Some (Some IPv6_Receive.Handled, t'))
  ∧ delivered 3 transport_example 1 (BasicRingbuffer.init (replicate 3 0)) t' [1; 2; 3; 4] (ll_example 10) 7000.
Proof.
  destruct (udp6_end_to_end (Dev := net6_device) [nic6_example 10] 32 32 20 (λ _ _ s, Some s) (add_example 10) udp_socket_example sender_example 0
    (nic6_example 10) (mac6_example 11) (repeat 0 66) 4096 (MkNet6 0 [] []) [1; 2; 3; 4] sender_neighbor6)
    with (l := [interface6_example]) (udpBUFFERSIZE := 3) (tcpBUFFERSIZE := 3) (udp_pool := Udp.pool_example) (tcp_pool := Udp.pool_example) (order := [Listen; Receive])
      (t := transport_example) (bl := [0%nat; 1%nat]) (j := 1%nat) (q := BasicRingbuffer.init (replicate 3 0)) (i := interface6_example)
    as (packet & E1 & E2).
  - unfold is_u16. cbn. lia.
  - split; apply (bool_decide_unpack _); by vm_compute.
  - apply (bool_decide_unpack _). by vm_compute.
  - lia.
  - cbn. lia.
  - reflexivity.
  - lia.
  - reflexivity.
  - reflexivity.
  - by vm_compute.
  - apply demux_example_bound.
  - split; [right; left|by vm_compute].
  - cbn. lia.
  - split; [reflexivity|]. split; [by constructor|by vm_compute].
  - exists 4096, (replicate 24 0). split; [reflexivity|vm_compute; discriminate].
  - destruct (E2 (replicate 20 0)) as (t' & E3 & Hd); [cbn; lia|apply (bool_decide_unpack _); by vm_compute|].
    eexists packet, _, t'. split; [exact E1|]. split; [reflexivity|]. split; [exact E3|exact Hd].
Defined.

(** The reset of a SYN from port 1024 of host 11, which host 10 answers. *)
Definition reset_example : option (bool * Stack Net6) :=
  IPv6_TCP_Reset.ipv6_payload_demux LE [nic6_example 10] 32 32 20 (λ _ _ s, Some s) (add_example 10)
    (ip6_header (ll_example 11) (ll_example 10) 20 64 IP_TYPE_TCP ++ syn_example 1024 81) (nic6_example 10)
    (IPv6_Receive.MkRest (syn_example 1024 81) 20 IP_TYPE_TCP) (known_example 10 11).
Lemma unknown_segment_reset6_witness : exists s', reset_example = Some (true, s').
Proof.
  destruct (unknown_segment_reset6 (Dev := net6_device) [nic6_example 10] 32 32 20 (λ _ _ s, Some s) (add_example 10) (known_example 10 11) 0
    (nic6_example 10) (mac6_example 11) (repeat 0 74) 4096 (MkNet6 0 [] [])
    (ip6_header (ll_example 11) (ll_example 10) 20 64 IP_TYPE_TCP ++ syn_example 1024 81)
    (IPv6_Receive.MkRest (syn_example 1024 81) 20 IP_TYPE_TCP)) as (M & E & _).
  - split; try done; cbn; unfold is_u8; lia.
  - split; apply (bool_decide_unpack _); by vm_compute.
  - apply (bool_decide_unpack _). by vm_compute.
  - unfold is_u16. cbn. lia.
  - lia.
  - reflexivity.
  - lia.
  - reflexivity.
  - apply (bool_decide_unpack _). by vm_compute.
  - reflexivity.
  - eexists. exact E.
Defined.

(** It acknowledges 9 + 20 + 1, and not 10. *)
Example reset_number : (λ r, map (λ f, TCP_Segment.get_acknum LE (drop 54 (snd f))) (net_sent (world (snd r)))) <$> reset_example = Some [30].
Proof. by vm_compute. Qed.
End Example.
